(* ===== verification/_CoqProject ===== *)
-Q . S2P
Prelude.v
PyFloat.v
PyStr.v
PyVal.v
NodeIdentity.v
Security.v
Policy.v
Delegation.v
Attention.v
Routing.v
Interaction.v
TokenBudget.v
TaskQueue.v
Conversation.v
AuditTrail.v
Personality.v
PersonaGovernor.v
StateMachine.v
Fallbacks.v
Regex.v
Intent.v
UserFacts.v
Dialogue.v
Timers.v
Tools.v
CommandRouter.v
Assistant.v
Gguf.v
LayerSplit.v
ModelHost.v
HostSafety.v
RosBridge.v
Planner.v
Robotics.v
RobotSafety.v
RobotLimits.v
MeshElection.v
Base64.v
KvMesh.v
KvSim.v
Mobile.v
Addresses.v
Server.v
PeerFrames.v
PeerRuntime.v
PeerSafety.v
PeerTransfer.v
PeerScenarios.v
Hive.v
HiveTurns.v
HiveSafety.v
HivePeers.v
HiveHearing.v
HiveScenarios.v
Semantic.v
Episodic.v
Identity.v
Memory.v
Models.v
Execution.v
World.v
Persona.v
Subconscious.v
Proposals.v
Deciding.v
Engine.v
EngineSafety.v
EngineContract.v
EngineScenarios.v
Daemon.v
