(* ===== verification/Prelude.v ===== *)
(** * ShugoCore: a verification library

    ShugoCore is an agent runtime in Python: a decision loop under a governor,
    with consent and approval gates, an audit log, a tiered memory, a
    personality that may only restrict, and a mesh of nodes that elect a
    primary and share a model's key/value cache.  This library models its core
    components as executable definitions and proves what makes each correct.

    ** The parts and where they are

    - [StateMachine]: src/state_machine.py, the governor of an agent: states,
      the transition matrix, the step budget, the halt latch.
    - [Fallbacks]: src/fallbacks.py, the violation counters that drive the
      governor to safe mode or halt.
    - [Policy]: src/policy.py, the action classes, allowlists, consent grants,
      the sound and model postures, and the approval broker as a transition
      system of callers, operators and timeouts.
    - [Security]: src/security.py, sanitising, redaction, URL checks, rate
      limiter, circuit breaker and retry.
    - [TokenBudget]: src/token_budget.py, the token estimate and budgets.
    - [AuditTrail]: src/audit.py, the hash chain, its verifier and loader, and the
      queues of the remote sinks.
    - [Personality], [PersonaGovernor]: src/personality/, the model, its growth
      and loader, and the governor that rewrites or blocks what it may.
    - [Semantic], [Episodic], [Identity], [Memory]: src/memory_system.py, the
      fact store, the scratchpad and journalled event log, the world model
      with its dreams, and the manager that consolidates one into the other.
    - [MeshElection]: src/mesh_election.py, the election of a primary node.
    - [KvMesh], [KvSim]: src/kv_mesh/, sharding and allocation of the cache,
      and the protocol simulator.
    - [Models]: src/model_manager.py and src/reinforcement_learning.py, the
      registry of models and the scores that success moves.
    - [Execution]: src/execution_layer.py, the dispatch under a hash-bound
      verdict, the allowlisted HTTP reads and the capped body reader.
    - [Persona], [Subconscious]: src/persona.py and src/subconscious.py, the
      phrasing of a line and the prompts, grammar and calls of the models.
    - [Proposals], [Deciding], [Engine]: src/decision_engine.py, the parsing
      of what a model wrote, the decision among proposals and conversational
      turns, and the gated path of a task from its policy to its record.
    - [Attention]: src/attention_layer.py, who is being attended to.
    - [Interaction]: src/human_interaction.py, presence, the dialogue of
      questions and answers and the bus of observations.
    - [Delegation], [Mobile]: src/delegation.py and src/mobile_nodes.py, the
      permitted backends of a task, and paired devices with the messages
      they may send.
    - [NodeIdentity], [Routing]: src/node_identity.py and
      src/response_routing.py, the persisted name of a node and the device
      that answers.
    - [TaskQueue], [Conversation], [Daemon]: src/task_manager.py,
      src/conversation/manager.py, src/continuous_agent.py and
      src/autonomy.py, the loops around the engine.
    - [Gguf], [LayerSplit], [ModelHost]: src/gguf_meta.py, the planner of
      src/mesh_rpc.py and src/mesh_model_host.py: the header of a model file,
      the division of its layers over devices, and the host that starts,
      watches, reloads and gives up the sharded server; [HostSafety] holds the
      theorems about the host.
    - [RosBridge], [Planner], [Robotics]: src/ros2_interface.py,
      src/moveit_planner.py and src/robotics_handler.py, the messages to a
      robot, the motion plans, and the handler with its stop latch, watchdog,
      stream and obstacle monitor; [RobotSafety] and [RobotLimits] hold its
      theorems.
    - [Intent], [UserFacts], [Dialogue], [Timers], [Tools], [CommandRouter]:
      src/subsystems/, the assistant's rules of intent, its durable facts and
      topics, follow-up questions and pronouns, timers with their file, the
      tool registry with its retries, and the command router; [Assistant]: the
      turn of src/shugocore_agent.py that composes them.
    - [Addresses], [Server]: src/shugocore_server.py, the loopback test and the
      request path, and the server: admission, routes, accounts, handlers.
    - [PeerFrames], [PeerRuntime]: src/agent_runtime.py, the frames of the mesh
      and the runtime of a node: connections, advertisements, artifacts, memory
      and dispatch; [PeerSafety], [PeerTransfer] and [PeerScenarios] hold its
      theorems, the transfer between two nodes and the witnesses.
    - [Hive], [HiveTurns]: src/shugocore_agent.py, a node of a hive: its adverts
      and those it hears, the guard on its actions, its mode, the device that
      answers, delegation and forwarded turns; [HiveSafety], [HivePeers],
      [HiveHearing] and [HiveScenarios] hold its theorems and witnesses.
    - [World]: the interfaces of the engine to what it does not own.
    - [EngineSafety], [EngineContract], [EngineScenarios]: theorems about the
      whole engine, and the concrete runs that witness them.

    [Prelude], [PyFloat], [PyStr] and [PyVal] model what the code uses of
    Python: exceptions and the state monad, insertion-ordered dictionaries,
    bounded deques and stable sorting; binary64 arithmetic
    ([Floats.SpecFloat]) with [min], [max], [int] and [round]; [str] methods
    on code points; and decoded JSON values with their conversions.  [Regex]
    models the [re] module: a parser of the patterns' syntax, a backtracking
    matcher, and the language a pattern denotes, with the theorem that the
    matcher finds exactly what the language has; the patterns of the assistant
    are the source's own strings.

    An operation of a component is one definition with the source's name where
    Rocq allows it.  A method on an object is a function from its state to the
    new state and a result ([py], with [Raise] for an exception), so that what
    was changed before an exception stays changed, as in Python.  A method
    that holds the object's lock throughout is one atomic step; where the lock
    is released in between ([ApprovalBroker.request_approval]) the interleaved
    pieces are the labels of a step relation.  Clocks, digests, random
    identifiers and the outcomes of files are arguments.

    ** How the parts interact

    [Fallbacks] calls the governor's operations, [Identity] appends to the
    audit chain, [Memory] works against an interface of Tier 2 (class
    [Memory.Tier2] with its laws [Memory.Tier2Laws]) that [Semantic]
    implements, [PersonaGovernor] reads the model of [Personality], and
    [Memory], [Policy] and [Episodic] sanitise through [Security].

    [Engine] composes them: its state holds the fallback controller with the
    governor, the execution layer with its breakers, limiters and audit chain,
    and, as the layer's environment, the [Deciding.decider]: the memory, the
    models, the subconscious and the world.  The world ([World.World]: clocks,
    the consent registry and the approvals, installed handlers, the network,
    the backends) and the memory ([World.EngineMemory], of which the memory
    manager is an instance) are classes, so the theorems about the engine hold
    whatever the world answers, in whatever order, and whatever raises.  Each
    consent, approval, execution, handler call and request is also written to a
    history, which is what the safety theorem speaks of.

    [Assistant] runs a turn over one state that holds the dialogue, the timers,
    the facts and the topics: [Dialogue] completes or rewrites the utterance,
    [UserFacts] learns from it, [Intent] classifies it, and [CommandRouter]
    answers it with the tools of [Tools] over [Timers] and [UserFacts].

    [Daemon] runs any engine that keeps the laws of its class [LoopEngine],
    which [Engine] is shown to keep.  [ModelHost] reads headers with [Gguf] and
    plans with [LayerSplit]; the launcher and the probes of the server are an
    environment it is given.  [Robotics] is written against the class
    [RosBridge.RosPort] of the publishing interfaces, whose laws the in-memory
    and the ROS 2 instance discharge, the class [Planner.Planner], and the
    governor's interface of [Fallbacks].  [Mobile] works over the store and
    messages of [KvMesh].  [Server] hosts an engine: it lists and settles the
    requests of [Policy]'s broker, grants and revokes in its consent registry
    and pairs the devices of [Mobile]; the engine's other answers are the class
    [Server.ServerWorld].  [PeerRuntime] reads its connections with
    [PeerFrames], carries bytes in [Base64] text and reports to [Fallbacks];
    sockets, files, memory and callables are the class [PeerRuntime.PeerWorld],
    one instance of which is the other node, served a connection per request.
    [Hive] asks the elector of [MeshElection] before every action and
    [HiveTurns] places an answer with [Routing.select]; the mesh, the speaker
    and the executors outside are the class [Hive.HiveWorld].  A delegation to
    be sent again and a turn to be answered by a worker are pending entries of
    the state, and a turn that waits for the leader is given what the node's
    other threads did meanwhile.

    ** What the theorems show

    - Safety of the gates: a halted governor stays halted and runs no step;
      the step budget is exact; approval is decided by the first verdict and
      every request is answered; consent is what operators granted; the world
      model believes the external checker and not the action; personality only
      restricts; dreams write under their own keys.
    - Records: two verified non-empty logs with one final hash hold the same
      entries but for their HMACs, or a text hashed for one and a text hashed
      for the other collide; an appended log verifies; sinks account for every
      entry; the journal brings back every unacknowledged event after a crash.
    - Agreement and allocation: the election picks the least-ranked live
      candidate, nodes that disagree do so because one does not see the better
      winner as live and eligible, and the allocator's accounting is exact.
    - The engine: every execution of a consent-gated action directly follows a
      grant and an operator's approval of that action, outside the read-only
      mode and within the step budget; every result has one of five outcomes,
      and for an admitted task its stages are those this task entered (when
      the fallback check raises before, they are the previous task's); nothing
      raised reaches the loop when recording
      works; the governor is at rest afterwards; a halted engine does nothing.
    - Proposals and decisions: a parsed proposal is well typed; the decision is
      the best ranked proposal; the chunked reader equals the whole read.
    - The body: velocity commands stay within the configured limits through
      every interleaving of calls and background passes; a latched stop lets
      only zeros out; an arm command is sent only as planned and checked;
      every plan of the deterministic planner is within the joint limits.
    - Humans and devices: presence, dialogues and attention follow their
      specifications; the bus holds and counts exactly the observations it
      accepted; an unpaired device is never ingested; a backend is selected
      only when permitted, and while an eligible one exists only an eligible
      one, and the nearest device answers.
    - Hosting a model: what a header states is what is read of it, a plan covers
      the layers and is the best one the budgets allow, a start that reports
      success has a running server, a reload needs a cause that lasted, and a
      host that fails gives up after its attempts.
    - The assistant: an utterance is classed by the languages of the rules; which
      turns reach the model is characterised exactly; a timer is reported exactly
      when it is set; due timers fire once; facts and timers survive a restart;
      no tool or handler raises.
    - The server: without the token a request leaves the engine untouched and
      learns no route; consent moves only by an authorised operator, one grant
      or revocation at a time; every answer is counted once; what is sent of a
      result is bounded in depth, width and length.
    - The mesh: frames within the cap are read the same in whatever packets they
      come, each dispatched once and in order; without the token nothing is;
      inbound traffic never writes a file; a fetched build has the digest that
      was advertised in that fetch and expected, a transfer ends, and between two nodes that hold
      the token it succeeds.
    - The hive: a node acts exactly when nobody else leads or the leader asked;
      authority is on loan only while a delegated action is in flight in some
      thread, so without one of the leader's a follower whose hand-off has not
      failed refuses its own speech, and two nodes with one leader are not two
      mouths; a forwarded turn is reported answered only when such a result
      came for it, and otherwise stays here; a proposed answer is said where
      the question was asked.
    - Loops: the queue runs what it accepted once and in order, the history of a
      conversation is the end of its transcript, the daemon ends by its bound.
    - Refinement: consolidation is its specification by event types, consent
      the history of operator calls; search returns the best matches; import
      is idempotent; the personality's growth and serialisation round trip.
    - Defects, stated as theorems of what the code does: a batch whose
      consolidation failed is dropped by the next one, decay compounds with
      every pass, the scratchpad's budget leaks, paged exports skip facts,
      dreams of a day overwrite one another, the worker dies at its 1024th
      failure, a halt in flight can be resumed; the decision prompt does not
      contain the task, a step of a process is executed without the operator's
      attention, an idle engine counts as stalled, an outage of the backends is
      counted against the model, a moved utterance is not judged; a paused
      daemon spins for ever; a running stream and a command in flight move a
      robot after its stop, NaN is a speed and a place, a NaN reading blinds
      the obstacle monitor, the head cannot be turned, and a reset is undone
      by the watchdog; the key/value cache of a plan is sized for one token,
      the length of a key vector is not read, and a host that gave up need not
      run locally; a decimal duration loses its integer part, an introduction
      counts twice, a dislike never replaces a preference, only one of the
      assistant's questions can be answered, a restarted timer fires silently,
      "forget" anywhere shadows "remember", a pronoun hides a question from the
      tools, and degrees by their sign pass the guard; a grant without a time to
      live never ends, a device paired under an unclean name stays paired, and
      a token beyond ASCII is neither answered nor counted; a batch of a peer's
      facts whose import fails is never asked for again, a build named like a
      temporary file is removed by another's fetch, an offer's thread dies
      unrecorded, and a chunk need not fit a frame; every heartbeat renews what
      is stored of a peer that is gone, so a dead leader is never replaced, two
      nodes that cannot measure their memory follow each other, a refused
      delegation is sent again for ever, a peer's priority in words ends
      the routed speech of the node that heard it, and delegated words are routed once more and lost.

    ** Bounds and fuel

    Recursion is structural everywhere but in [Semantic.walk_hops], whose fuel
    is one unit per hop and is proved to be enough ([Semantic.walk_bounded]),
    and [Proposals.prefix_from], whose fuel is the length of the text plus one
    and whose cut shrinks by eight; [Regex.parse] and [Regex.sub], with
    three units for a character of the pattern and one for a character of the
    text, of which each step reads one (the matcher is structural);
    [PeerRuntime.download], with a unit for each byte of the advertised size,
    which is shown to be enough; the retry loop and the allocator's loops recurse on their attempts and
    shards.  Numbers are unbounded integers and binary64 floats as in Python,
    with [OverflowError] where a conversion raises it.

    ** Parameters

    SHA-256, HMAC and [json.dumps] are functions with the properties each
    theorem states; so are [json.loads] of a line, [datetime] parsing, [**] on floats, [repr] of
    containers, powers of one half, Unicode tables beyond ASCII, the iteration
    order of a set, the expansion of a replacement with backslashes,
    [urlparse] and the normalisation check of [urlsplit].  A property that
    assumes something of them is applied to a concrete function in its
    witness.

    ** Not modelled

    Threads as such (their atomic steps and outcomes are), sockets, HTTP and
    process control, the ROS 2 and MoveIt libraries, the physics simulations,
    Android and audio adapters, the launcher of the sharded server,
    the agent shell but for its conversational turn and its part in the hive, the command line and
    socket of the server, the command line of the mesh runtime.  Of the engine: the wiring in [__init__], [shutdown], tracer
    and loggers; a thread that latches the governor in the middle of a task;
    the wall and the monotonic clock are one reading of the world.  Of the
    hive: the operation [run_delegated] runs its action in one piece; the
    actions of several threads are interleaved only in
    [HivePeers.life_step], on which the theorem about borrowed authority
    rests.  Of the mesh runtime: the callables a frame reaches change the
    world and not the runtime's own links and counts. *)

From Stdlib Require Export ZArith NArith Lia ZifyBool.
From Stdlib Require Import DecimalString Permutation Sorted.
From stdpp Require Export base list option strings sets.

(** ** Notations *)

(** A Python [str] is the list of its code points. *)
Abbreviation pystr := (list N).

(** [u "..."] is the Python literal of an ASCII string. *)
Definition u (s : string) : pystr :=
  map Ascii.N_of_ascii (String.list_ascii_of_string s).
Global Arguments u _%_string_scope : simpl never.

(** [str(z)] of a Python integer. *)
Definition str_of_Z (z : Z) : pystr := u (NilZero.string_of_int (Z.to_int z)).

(** ** Exceptions and the state-and-exception monad *)

(** The exception classes the modelled code raises, with their message where
    the source builds one. *)
Inductive exn : Type :=
  | GovernorError (msg : pystr)
  | FallbackHalt (reason : pystr)
  | ValueError (msg : pystr)
  | KeyError (msg : pystr)
  | TypeError (msg : pystr)
  | RuntimeError (msg : pystr)
  | AttributeError (msg : pystr)
  | PermissionError (msg : pystr)
  | OverflowError
  | IndexError (msg : pystr)
  | OSError (msg : pystr).

#[export] Instance exn_eq_dec : EqDecision exn.
Proof. solve_decision. Defined.

(** The outcome of a call: a value, or an exception that unwinds. *)
Inductive res (A : Type) : Type :=
  | Ok (a : A)
  | Raise (e : exn).
Global Arguments Ok {A} a.
Global Arguments Raise {A} e.

#[export] Instance res_eq_dec {A} `{EqDecision A} : EqDecision (res A).
Proof. solve_decision. Defined.

#[export] Instance Ok_inj {A} : Inj (=) (=) (@Ok A).
Proof. by intros ?? [=]. Qed.

#[export] Instance res_ret : MRet res := λ A a, Ok a.
#[export] Instance res_bind : MBind res := λ A B k r,
  match r with Ok a => k a | Raise e => Raise e end.

(** [[f(x) for x in l]] of a function that may raise. *)
Fixpoint res_map {A B} (f : A → res B) (l : list A) : res (list B) :=
  match l with
  | [] => Ok []
  | x :: l' => y ← f x; k ← res_map f l'; Ok (y :: k)
  end.

Lemma res_bind_Ok {A B} (r : res A) (k : A → res B) b :
  r ≫= k = Ok b → ∃ a, r = Ok a ∧ k a = Ok b.
Proof. destruct r; [eauto|done]. Qed.

(** A method on an object of state [S]: mutations made before an exception
    stay, as in Python. *)
Definition py (S A : Type) : Type := S → S * res A.

#[export] Instance py_ret {S} : MRet (py S) := λ A a s, (s, Ok a).
#[export] Instance py_bind {S} : MBind (py S) := λ A B k m s,
  match m s with
  | (s', Ok a) => k a s'
  | (s', Raise e) => (s', Raise e)
  end.
Definition raise {S A} (e : exn) : py S A := λ s, (s, Raise e).
Definition get {S} : py S S := λ s, (s, Ok s).
Definition put {S} (s : S) : py S unit := λ _, (s, Ok tt).
Definition modify {S} (f : S → S) : py S unit := λ s, (f s, Ok tt).

(** [raise_if b e]: the guard [if b: raise e]. *)
Definition raise_if {S} (b : bool) (e : exn) : py S unit :=
  if b then raise e else mret tt.

(** The name of an exception's class: [type(exc).__name__]. *)
Definition exn_name (e : exn) : pystr :=
  match e with
  | GovernorError _ => u "GovernorError"
  | FallbackHalt _ => u "FallbackHalt"
  | ValueError _ => u "ValueError"
  | KeyError _ => u "KeyError"
  | TypeError _ => u "TypeError"
  | RuntimeError _ => u "RuntimeError"
  | AttributeError _ => u "AttributeError"
  | PermissionError _ => u "PermissionError"
  | OverflowError => u "OverflowError"
  | IndexError _ => u "IndexError"
  | OSError _ => u "OSError"
  end.

(** A pure call that may raise, inside a method. *)
Definition of_res {S A} (r : res A) : py S A := λ s, (s, r).

(** [try: ... except Exception]: the outcome becomes a value, the state is
    kept. *)
Definition attempt {S A} (m : py S A) : py S (res A) := λ s,
  let '(s', r) := m s in (s', Ok r).

(** [try: m finally: f]: an exception of [f] replaces the outcome of [m]. *)
Definition finally {S A} (m : py S A) (f : py S unit) : py S A := λ s,
  let '(s', r) := m s in
  match f s' with
  | (s'', Ok _) => (s'', r)
  | (s'', Raise e) => (s'', Raise e)
  end.

Definition is_ok {A} (r : res A) : bool :=
  match r with Ok _ => true | Raise _ => false end.

(** Unfolds the monad in goals and hypotheses. *)
Ltac py_unfold :=
  unfold mbind, mret, py_bind, py_ret, raise_if, raise, get, put, modify in *.

(** Splits on every [if] and [match] the goal is stuck on, and closes the
    contradictory branches. *)
Ltac py_cases :=
  repeat (case_match; simplify_eq/=; try done).

(** ** Reasoning about methods

    [triple P m Q]: called in a state that satisfies [P], [m] ends with an
    outcome and a state that satisfy [Q], whether it returns or raises. *)
Definition triple {S A} (P : S → Prop) (m : py S A) (Q : res A → S → Prop) : Prop :=
  ∀ s, P s → Q (m s).2 (m s).1.

(** [keeps I m]: [m] preserves the invariant on every outcome. *)
Definition keeps {S A} (I : S → Prop) (m : py S A) : Prop := triple I m (λ _, I).

Section Triples.
Context {S : Type}.
Implicit Types (P I : S → Prop).

Lemma triple_weaken {A} P P' (m : py S A) (Q Q' : res A → S → Prop) :
triple P m Q → (∀ s, P' s → P s) → (∀ r s, Q r s → Q' r s) → triple P' m Q'.
Proof. intros Hm HP HQ s Hs. by apply HQ, Hm, HP. Qed.

Lemma triple_ret {A} P (a : A) (Q : res A → S → Prop) :
(∀ s, P s → Q (Ok a) s) → triple P (mret a) Q.
Proof. intros H s Hs. by apply H. Qed.

Lemma triple_bind {A B} P (m : py S A) (k : A → py S B) (R : A → S → Prop) Q :
triple P m (λ r s, match r with Ok a => R a s | Raise e => Q (Raise e) s end) →
(∀ a, triple (R a) (k a) Q) → triple P (m ≫= k) Q.
Proof.
intros Hm Hk s Hs. specialize (Hm s Hs). unfold mbind, py_bind.
destruct (m s) as [s' [a|e]]; [by apply (Hk a)|done].
Qed.

(** Binding rules: after a call that keeps [P], after reading the state, and
after a pure call. *)
Lemma triple_keeps {A B} P (m : py S A) (k : A → py S B) Q :
keeps P m → (∀ e s, P s → Q (Raise e) s) → (∀ a, triple P (k a) Q) → triple P (m ≫= k) Q.
Proof.
intros Hm He Hk. eapply triple_bind; [|exact Hk].
intros s Hs. specialize (Hm s Hs). destruct (m s) as [s' [a|e]]; [done|by apply He].
Qed.

Lemma triple_get {B} P (k : S → py S B) Q :
(∀ s0, P s0 → triple (λ s, s = s0 ∧ P s) (k s0) Q) → triple P (get ≫= k) Q.
Proof. intros Hk s Hs. by apply (Hk s Hs). Qed.

Lemma triple_of_res {A B} P (r : res A) (k : A → py S B) Q :
(∀ a, r = Ok a → triple P (k a) Q) → (∀ e s, r = Raise e → P s → Q (Raise e) s) →
triple P (of_res r ≫= k) Q.
Proof. intros Hk He s Hs. destruct r as [a|e]; [by apply (Hk a)|by apply He]. Qed.

Lemma triple_modify {B} P P' f (k : unit → py S B) Q :
(∀ s, P s → P' (f s)) → triple P' (k tt) Q → triple P (modify f ≫= k) Q.
Proof. intros Hf Hk s Hs. by apply Hk, Hf. Qed.

Lemma triple_attempt {A B} P (m : py S A) (k : res A → py S B) (R : res A → S → Prop) Q :
triple P m R → (∀ r, triple (R r) (k r) Q) → triple P (attempt m ≫= k) Q.
Proof.
intros Hm Hk s Hs. specialize (Hm s Hs). unfold mbind, py_bind, attempt.
destruct (m s) as [s' r]. by apply (Hk r).
Qed.

Lemma triple_pre {A} P P' (m : py S A) Q : triple P m Q → (∀ s, P' s → P s) → triple P' m Q.
Proof. intros Hm HP s Hs. by apply Hm, HP. Qed.

Lemma keeps_ret {A} I (a : A) : keeps I (mret a).
Proof. by intros s Hs. Qed.

Lemma keeps_raise {A} I e : keeps I (raise e : py S A).
Proof. by intros s Hs. Qed.

Lemma keeps_get I : keeps I get.
Proof. by intros s Hs. Qed.

Lemma keeps_of_res {A} I (r : res A) : keeps I (of_res r).
Proof. by intros s Hs. Qed.

Lemma keeps_raise_if I b e : keeps I (raise_if b e).
Proof. by destruct b; intros s Hs. Qed.

Lemma keeps_modify I f : (∀ s, I s → I (f s)) → keeps I (modify f).
Proof. intros H s Hs. by apply H. Qed.

Lemma keeps_bind {A B} I (m : py S A) (k : A → py S B) :
keeps I m → (∀ a, keeps I (k a)) → keeps I (m ≫= k).
Proof.
intros Hm Hk. eapply (triple_bind _ _ _ (λ _, I)); [|exact Hk].
intros s Hs. specialize (Hm s Hs). by destruct (m s) as [s' [a|e]].
Qed.

Lemma keeps_attempt {A} I (m : py S A) : keeps I m → keeps I (attempt m).
Proof. intros Hm s Hs. specialize (Hm s Hs). unfold attempt. by destruct (m s). Qed.

Lemma keeps_finally {A} I (m : py S A) f : keeps I m → keeps I f → keeps I (finally m f).
Proof.
intros Hm Hf s Hs. specialize (Hm s Hs). unfold finally. destruct (m s) as [s' r].
specialize (Hf s' Hm). by destruct (f s') as [s'' []].
Qed.
End Triples.

(** [returns m]: called in any state, [m] returns. *)
Definition returns {S A} (m : py S A) : Prop := ∀ s, is_ok (m s).2 = true.

Section Returns.
Context {S : Type}.

Lemma returns_ret {A} (a : A) : returns (mret a : py S A).
Proof. done. Qed.
Lemma returns_get : returns (get : py S S).
Proof. done. Qed.
Lemma returns_put (s : S) : returns (put s).
Proof. done. Qed.
Lemma returns_modify (f : S → S) : returns (modify f).
Proof. done. Qed.
Lemma returns_attempt {A} (m : py S A) : returns (attempt m).
Proof. intros s. unfold attempt. by destruct (m s). Qed.

Lemma returns_bind {A B} (m : py S A) (k : A → py S B) :
returns m → (∀ a, returns (k a)) → returns (m ≫= k).
Proof.
intros Hm Hk s. specialize (Hm s). unfold mbind, py_bind.
destruct (m s) as [s' [a|e]]; [apply Hk|done].
Qed.

Lemma returns_elim {A} (m : py S A) s : returns m → ∃ s' a, m s = (s', Ok a).
Proof. intros Hm. specialize (Hm s). destruct (m s) as [s' [a|e]]; by eauto. Qed.
End Returns.

Create HintDb returns.
#[export] Hint Resolve returns_ret returns_get returns_put returns_modify returns_attempt : returns.

Ltac returns_step :=
  match goal with
  | |- returns (_ ≫= _) => apply returns_bind; [|intros ?]
  | |- returns (match ?x with _ => _ end) => destruct x
  | |- returns _ => solve [auto with returns]
  end.
Ltac returns_auto := repeat returns_step.

(** Splits a computation into its steps until only [modify]s and calls with
    lemmas of their own are left. *)
Create HintDb keeps.
#[export] Hint Resolve keeps_ret keeps_raise keeps_get keeps_of_res keeps_raise_if : keeps.

Ltac keeps_step :=
  match goal with
  | |- keeps _ (_ ≫= _) => apply keeps_bind; [|intros ?]
  | |- keeps _ (attempt _) => apply keeps_attempt
  | |- keeps _ (finally _ _) => apply keeps_finally
  | |- keeps _ (match ?x with _ => _ end) => destruct x
  | |- keeps _ _ => solve [auto with keeps]
  end.
Ltac keeps_auto := repeat keeps_step.

(** ** Python dictionaries

    An insertion-ordered association list: [dset] overwrites in place or
    appends, which is the order Python iterates in. *)
Section Dict.
Context {K V : Type} `{EqDecision K}.

Fixpoint dget (k : K) (d : list (K * V)) : option V :=
match d with
| [] => None
| (k', v) :: d' => if decide (k = k') then Some v else dget k d'
end.

Fixpoint dset (k : K) (v : V) (d : list (K * V)) : list (K * V) :=
match d with
| [] => [(k, v)]
| (k', v') :: d' =>
    if decide (k = k') then (k', v) :: d' else (k', v') :: dset k v d'
end.

Fixpoint ddel (k : K) (d : list (K * V)) : list (K * V) :=
match d with
| [] => []
| (k', v') :: d' => if decide (k = k') then d' else (k', v') :: ddel k d'
end.

Definition dhas (k : K) (d : list (K * V)) : bool :=
match dget k d with Some _ => true | None => false end.

Lemma dget_dset k v d k' :
dget k' (dset k v d) = if decide (k' = k) then Some v else dget k' d.
Proof.
induction d as [|[k0 v0] d IH]; simpl; [done|].
repeat case_decide; simplify_eq/=; repeat case_decide; simplify_eq/=; auto.
Qed.

Lemma dget_dset_eq k v d : dget k (dset k v d) = Some v.
Proof. rewrite dget_dset. by case_decide. Qed.

Lemma dget_dset_ne k v d k' : k' ≠ k → dget k' (dset k v d) = dget k' d.
Proof. intros. rewrite dget_dset. by case_decide. Qed.

Lemma dget_elem k v d : dget k d = Some v → (k, v) ∈ d.
Proof.
induction d as [|[k0 v0] d IH]; simpl; [done|].
case_decide; intros; simplify_eq; [left|right; auto].
Qed.

Lemma dget_None k d : dget k d = None ↔ k ∉ d.*1.
Proof.
induction d as [|[k0 v0] d IH]; csimpl; [set_solver|].
rewrite not_elem_of_cons. case_decide; naive_solver.
Qed.

Lemma elem_dget k v d : NoDup d.*1 → (k, v) ∈ d → dget k d = Some v.
Proof.
induction d as [|[k0 v0] d IH]; csimpl; [set_solver|].
rewrite NoDup_cons, elem_of_cons. intros [Hni Hnd] [Heq|Hin]; simplify_eq.
- by case_decide.
- case_decide; simplify_eq; [|by auto].
  destruct Hni. apply list_elem_of_fmap. by exists (k0, v).
Qed.

Lemma dset_keys k v d k' : k' ∈ (dset k v d).*1 ↔ k' = k ∨ k' ∈ d.*1.
Proof.
induction d as [|[k0 v0] d IH]; csimpl; [set_solver|].
case_decide; csimpl; set_solver.
Qed.

Lemma dset_nodup k v d : NoDup d.*1 → NoDup (dset k v d).*1.
Proof.
induction d as [|[k0 v0] d IH]; csimpl.
- intros _. constructor; [set_solver|constructor].
- intros [? ?]%NoDup_cons. case_decide; csimpl; apply NoDup_cons; [done|].
  rewrite dset_keys. naive_solver.
Qed.

Lemma ddel_keys k d k' : k' ∈ (ddel k d).*1 → k' ∈ d.*1.
Proof. induction d as [|[k0 v0] d IH]; csimpl; [done|]. case_decide; csimpl; set_solver. Qed.

Lemma ddel_nodup k d : NoDup d.*1 → NoDup (ddel k d).*1.
Proof.
induction d as [|[k0 v0] d IH]; csimpl; [done|].
intros [? ?]%NoDup_cons. case_decide; csimpl; [done|].
apply NoDup_cons; split; [|auto]. intros ?%ddel_keys. done.
Qed.

Lemma dget_ddel_ne k d k' : k' ≠ k → dget k' (ddel k d) = dget k' d.
Proof.
intros. induction d as [|[k0 v0] d IH]; simpl; [done|].
case_decide; simplify_eq/=; repeat case_decide; simplify_eq; auto.
Qed.

Lemma dget_ddel_eq k d : NoDup d.*1 → dget k (ddel k d) = None.
Proof.
induction d as [|[k0 v0] d IH]; csimpl; [done|].
intros [? ?]%NoDup_cons. case_decide; simplify_eq/=.
- by apply dget_None.
- case_decide; simplify_eq; auto.
Qed.

Lemma dset_elem k v d kv : kv ∈ dset k v d → kv = (k, v) ∨ kv ∈ d.
Proof.
induction d as [|[k0 v0] d IH]; simpl; [set_solver|].
case_decide; simplify_eq; set_solver.
Qed.

Lemma filter_keys_nodup {A B} (p : A * B → bool) l :
  NoDup l.*1 → NoDup (List.filter p l).*1.
Proof.
  induction l as [|kv l IH]; csimpl; [done|]. rewrite !NoDup_cons. intros [Hn Hd].
  destruct (p kv); csimpl; [|by apply IH]. apply NoDup_cons. split; [|by apply IH].
  intros (x & E & [Hin _]%list_elem_of_In%List.filter_In)%list_elem_of_fmap.
  apply Hn, list_elem_of_fmap. exists x. split; [done|]. by apply list_elem_of_In.
Qed.

Lemma dset_fresh k v d : k ∉ d.*1 → dset k v d = d ++ [(k, v)].
Proof.
induction d as [|[k0 v0] d IH]; csimpl; [done|]. rewrite not_elem_of_cons. intros [Hne Hn].
case_decide; [done|]. by rewrite IH.
Qed.

Lemma dset_length k v d :
length (dset k v d) = if dhas k d then length d else S (length d).
Proof.
unfold dhas. induction d as [|[k0 v0] d IH]; simpl; [done|].
case_decide; simpl; [done|]. rewrite IH. by case_match.
Qed.
End Dict.

Lemma filter_sublist {A} (p : A → bool) l : sublist (List.filter p l) l.
Proof.
  induction l as [|x l IH]; simpl; [constructor|].
  destruct (p x); by constructor.
Qed.

(** What a filter keeps and drops make up the list. *)
Lemma filter_split_length {A} (p : A → bool) l :
  (length (List.filter p l) + length (List.filter (λ x, negb (p x)) l))%nat = length l.
Proof. induction l as [|x l IH]; simpl; [done|]. destruct (p x); simpl; lia. Qed.

(** ** Bounded double-ended queues

    [collections.deque(maxlen=n)]: appending to a full deque drops from the
    left. *)
Section Deque.
Context {A : Type}.

Definition dq_append (maxlen : nat) (x : A) (q : list A) : list A :=
let q' := q ++ [x] in drop (length q' - maxlen) q'.

Lemma dq_append_length maxlen x q :
length (dq_append maxlen x q) = Nat.min (S (length q)) maxlen.
Proof.
unfold dq_append. rewrite length_drop. cbv zeta.
rewrite !length_app; cbn [length]; lia.
Qed.

Lemma dq_append_bound maxlen x q : length (dq_append maxlen x q) ≤ maxlen.
Proof. rewrite dq_append_length. lia. Qed.

Lemma dq_append_room maxlen x q :
length q < maxlen → dq_append maxlen x q = q ++ [x].
Proof.
intros. unfold dq_append. cbv zeta. rewrite length_app. cbn [length].
replace (length q + 1 - maxlen) with 0 by lia. done.
Qed.

Lemma dq_append_full maxlen x q :
0 < maxlen → length q = maxlen → dq_append maxlen x q = tail q ++ [x].
Proof.
intros Hm Hl. unfold dq_append. cbv zeta. rewrite length_app. cbn [length].
replace (length q + 1 - maxlen) with 1 by lia.
destruct q; simpl in *; [lia|done].
Qed.

Lemma dq_append_elem maxlen x q y :
y ∈ dq_append maxlen x q → y = x ∨ y ∈ q.
Proof.
unfold dq_append. intros Hin.
assert (y ∈ q ++ [x]) as Hy.
{ rewrite <- (take_drop (length (q ++ [x]) - maxlen) (q ++ [x])).
  apply elem_of_app. by right. }
apply elem_of_app in Hy. set_solver.
Qed.

Lemma dq_append_last maxlen x q :
0 < maxlen → last (dq_append maxlen x q) = Some x.
Proof.
intros Hm. unfold dq_append. cbv zeta. rewrite length_app. cbn [length].
rewrite drop_app_le by lia. apply last_snoc.
Qed.
End Deque.

(** ** Stable sorting

[list.sort(key=...)]: equal keys keep their order. *)
Section SortBy.
Context {A : Type} (leb : A → A → bool).

Fixpoint insert_by (x : A) (l : list A) : list A :=
  match l with
  | [] => [x]
  | y :: l' => if leb x y then x :: l else y :: insert_by x l'
  end.

Definition sort_by (l : list A) : list A := foldr insert_by [] l.

Lemma insert_by_perm x l : insert_by x l ≡ₚ x :: l.
Proof.
  induction l as [|y l IH]; simpl; [done|].
  destruct (leb x y); [done|]. by rewrite IH, Permutation_swap.
Qed.

Lemma sort_by_perm l : sort_by l ≡ₚ l.
Proof. induction l as [|x l IH]; simpl; [done|]. by rewrite insert_by_perm, IH. Qed.

Lemma elem_sort_by x l : x ∈ sort_by l ↔ x ∈ l.
Proof. by rewrite sort_by_perm. Qed.

(** The head is least when the order is total on the members. *)
Lemma sort_by_head_least_on (P : A → Prop) l x :
  (∀ y z, P y → P z → leb y z = true ∨ leb z y = true) →
  (∀ y z w, leb y z = true → leb z w = true → leb y w = true) →
  Forall P l → head (sort_by l) = Some x → ∀ y, y ∈ l → leb x y = true.
Proof.
  intros Htot Htrans HP. revert x.
  induction HP as [|a l Ha HP IH]; simpl; intros x Hx y Hy; [done|].
  destruct (sort_by l) as [|h s] eqn:Es; simpl in Hx.
  - injection Hx as <-. pose proof (sort_by_perm l) as Hp. rewrite Es in Hp.
    apply Permutation_nil_l in Hp. subst l. apply list_elem_of_singleton in Hy as ->.
    by destruct (Htot a a).
  - assert (P h) as Hh.
    { rewrite Forall_forall in HP. apply HP, elem_sort_by. rewrite Es. left. }
    specialize (IH h eq_refl).
    destruct (leb a h) eqn:E; injection Hx as <-; apply elem_of_cons in Hy as [->|Hy]; auto.
    + by destruct (Htot a a).
    + eapply Htrans; [exact E|]. by apply IH.
    + destruct (Htot a h); congruence.
Qed.

Context (Htot : ∀ x y, leb x y = true ∨ leb y x = true).
Context (Htrans : ∀ x y z, leb x y = true → leb y z = true → leb x z = true).

Lemma insert_by_head x l :
  (∀ y, y ∈ l → leb (default y (head l)) y = true) →
  ∀ y, y ∈ insert_by x l → leb (default y (head (insert_by x l))) y = true.
Proof.
  intros Hl y Hy. rewrite insert_by_perm in Hy.
  assert (∀ z, leb z z = true) as Hrefl by (intros z; by destruct (Htot z z)).
  destruct l as [|h l]; simpl in *; [set_solver|].
  destruct (leb x h) eqn:E; simpl; apply elem_of_cons in Hy as [->|Hy]; auto.
  - eapply Htrans; [exact E|]. by apply Hl.
  - destruct (Htot x h); [congruence|done].
Qed.

(** The head of the sorted list is least. *)
Lemma sort_by_head_least l x :
  head (sort_by l) = Some x → ∀ y, y ∈ l → leb x y = true.
Proof.
  assert (∀ y, y ∈ sort_by l → leb (default y (head (sort_by l))) y = true) as H.
  { induction l as [|a l IH]; simpl; [set_solver|]. by apply insert_by_head. }
  intros E y Hy. specialize (H y). rewrite E in H. apply H. by apply elem_sort_by.
Qed.

Lemma sort_by_head_elem l x : head (sort_by l) = Some x → x ∈ l.
Proof.
  intros E. apply elem_sort_by. destruct (sort_by l); simplify_eq/=. left.
Qed.

Lemma sort_by_head_None l : head (sort_by l) = None ↔ l = [].
Proof.
  split; [|by intros ->]. pose proof (sort_by_perm l) as Hp.
  destruct (sort_by l); [|done]. intros _. by apply Permutation_nil_l in Hp.
Qed.
End SortBy.

(** *** Sorting, filtering and mapping *)

Section SortMore.
Context {A : Type} (leb : A → A → bool).
Context (Htot : ∀ x y, leb x y = true ∨ leb y x = true).
Context (Htrans : ∀ x y z, leb x y = true → leb y z = true → leb x z = true).

Abbreviation ordered := (StronglySorted (λ x y, leb x y = true)).

Lemma insert_by_least x l : (∀ y, y ∈ l → leb x y = true) → insert_by leb x l = x :: l.
Proof. destruct l as [|y l]; simpl; [done|]. intros H. by rewrite (H y) by left. Qed.

Lemma ordered_cons x l : ordered (x :: l) ↔ ordered l ∧ ∀ y, y ∈ l → leb x y = true.
Proof.
split.
- intros H. apply StronglySorted_inv in H as [? H]. split; [done|].
  by apply Forall_forall.
- intros [? ?]. constructor; [done|]. by apply Forall_forall.
Qed.

Lemma insert_by_ordered x l : ordered l → ordered (insert_by leb x l).
Proof.
induction l as [|y l IH]; simpl.
- intros _. apply ordered_cons. split; [constructor|set_solver].
- intros [Hl Hy]%ordered_cons. destruct (leb x y) eqn:E.
  + rewrite !ordered_cons. split; [done|]. intros z [->|Hz]%elem_of_cons; [done|].
    eapply Htrans; [exact E|auto].
  + apply ordered_cons. split; [auto|]. intros z Hz.
    rewrite (insert_by_perm leb) in Hz. apply elem_of_cons in Hz as [->|Hz]; [|auto].
    destruct (Htot x y); [congruence|done].
Qed.

Lemma sort_by_ordered l : ordered (sort_by leb l).
Proof. induction l; simpl; [constructor|by apply insert_by_ordered]. Qed.

Lemma sort_by_of_ordered l : ordered l → sort_by leb l = l.
Proof.
induction l as [|x l IH]; simpl; [done|]. intros [Hl Hx]%ordered_cons.
rewrite IH by done. by apply insert_by_least.
Qed.

Lemma sort_by_idem l : sort_by leb (sort_by leb l) = sort_by leb l.
Proof. apply sort_by_of_ordered, sort_by_ordered. Qed.

Lemma filter_insert_by (p : A → bool) x l :
ordered l →
List.filter p (insert_by leb x l) =
if p x then insert_by leb x (List.filter p l) else List.filter p l.
Proof.
induction l as [|y l IH]; simpl; intros Ho; [by destruct (p x)|].
apply ordered_cons in Ho as [Ho Hy]. destruct (leb x y) eqn:E; simpl.
- destruct (p x) eqn:Ex; [|done]. symmetry. apply insert_by_least. intros z Hz.
  assert (z ∈ y :: l) as Hz'.
  { destruct (p y); [|right]; [apply elem_of_cons in Hz as [->|Hz]; [by left|right]|];
      apply list_elem_of_In, List.filter_In in Hz as [Hz _]; by apply list_elem_of_In. }
  apply elem_of_cons in Hz' as [->|Hz']; [done|]. eapply Htrans; [exact E|auto].
- rewrite IH by done. destruct (p x), (p y); simpl; by rewrite ?E.
Qed.

Lemma filter_sort_by (p : A → bool) l :
List.filter p (sort_by leb l) = sort_by leb (List.filter p l).
Proof.
induction l as [|x l IH]; simpl; [done|].
rewrite filter_insert_by by apply sort_by_ordered. rewrite IH. by destruct (p x).
Qed.

Lemma map_sort_by (f : A → A) l :
(∀ x y, leb (f x) (f y) = leb x y) → map f (sort_by leb l) = sort_by leb (map f l).
Proof.
intros Hf. induction l as [|x l IH]; simpl; [done|]. rewrite <- IH.
generalize (sort_by leb l) as k. induction k as [|y k IHk]; simpl; [done|].
rewrite Hf. destruct (leb x y); simpl; [done|]. by rewrite IHk.
Qed.
End SortMore.

(** Only the order of the list's own elements matters. *)
Lemma insert_by_ext {A} (leb leb' : A → A → bool) x l :
  (∀ y, y ∈ l → leb x y = leb' x y) → insert_by leb x l = insert_by leb' x l.
Proof.
  induction l as [|y l IH]; simpl; [done|]. intros H. rewrite (H y) by left.
  case_match; [done|]. f_equal. apply IH. intros z Hz. apply H. by right.
Qed.

Lemma sort_by_ext {A} (leb leb' : A → A → bool) l :
  (∀ x y, x ∈ l → y ∈ l → leb x y = leb' x y) → sort_by leb l = sort_by leb' l.
Proof.
  induction l as [|x l IH]; simpl; [done|]. intros H.
  rewrite IH by (intros; apply H; by right). apply insert_by_ext.
  intros y Hy%elem_sort_by. apply H; [left|by right].
Qed.

(** Sorting orders the list when the order is total on its members. *)
Lemma sort_by_ordered_on {A} (leb : A → A → bool) (P : A → Prop) l :
  (∀ x y, P x → P y → leb x y = true ∨ leb y x = true) →
  (∀ x y z, leb x y = true → leb y z = true → leb x z = true) →
  Forall P l → StronglySorted (λ x y, leb x y = true) (sort_by leb l).
Proof.
  intros Htot Htrans HP. induction HP as [|x l Hx HP IH]; simpl; [constructor|].
  assert (Forall P (sort_by leb l)) as HPs by by rewrite sort_by_perm.
  revert IH HPs. generalize (sort_by leb l) as k. induction k as [|y k IHk]; simpl; intros Hk Hp.
  - by repeat constructor.
  - apply StronglySorted_inv in Hk as [Hk Hy]. apply Forall_cons in Hp as [Py Hp].
    destruct (leb x y) eqn:E.
    + constructor; [by constructor|]. constructor; [done|].
      eapply Forall_impl; [exact Hy|]. intros z Hz. by eapply Htrans.
    + constructor; [by apply IHk|]. rewrite insert_by_perm. constructor; [|done].
      destruct (Htot x y); congruence.
Qed.

(** Two ordered arrangements of the same members are the same list when the
    order separates them. *)
Lemma ordered_unique {A} (R : A → A → Prop) l k :
  StronglySorted R l → StronglySorted R k → l ≡ₚ k →
  (∀ x y, x ∈ l → y ∈ l → R x y → R y x → x = y) → l = k.
Proof.
  intros Hl. revert k. induction Hl as [|x l Hl IH Hx]; intros k Hk Hp Hanti.
  { symmetry in Hp. by apply Permutation_nil_r in Hp as ->. }
  destruct Hk as [|y k Hk Hy]; [by apply Permutation_nil_r in Hp|].
  assert (x = y) as <-.
  { assert (x ∈ y :: k) as [|Hxk]%elem_of_cons by (rewrite <- Hp; left); [done|].
    assert (y ∈ x :: l) as [|Hyl]%elem_of_cons by (rewrite Hp; left); [done|].
    rewrite Forall_forall in Hx. rewrite Forall_forall in Hy.
    apply Hanti; [left|by right|by apply Hx|by apply Hy]. }
  f_equal. apply IH; [done|by apply Permutation_cons_inv in Hp|].
  intros a b Ha Hb. apply Hanti; by right.
Qed.

(** A comprehension over a rearranged list. *)
Lemma res_map_perm {A B} (f : A → res B) l l' k :
  l ≡ₚ l' → res_map f l = Ok k → ∃ k', res_map f l' = Ok k' ∧ k ≡ₚ k'.
Proof.
  intros Hp. revert k. induction Hp as [|x l l' Hp IH|x y l|l1 l2 l3 H1 IH1 H2 IH2];
    intros k; simpl.
  - intros [= <-]. by exists [].
  - destruct (f x) as [a|]; [|done]. simpl. destruct (res_map f l) as [k0|]; [|done].
    destruct (IH _ eq_refl) as (k' & -> & Hk). intros [= <-]. eexists. by split; [|rewrite Hk].
  - destruct (f y) as [b|]; [|done]. destruct (f x) as [a|]; [|done]. simpl.
    destruct (res_map f l) as [k0|]; [|done]. intros [= <-]. eexists. by split; [|constructor].
  - intros Hk. destruct (IH1 _ Hk) as (k1 & E1 & P1), (IH2 _ E1) as (k2 & E2 & P2).
    exists k2. split; [done|]. by etrans.
Qed.

Lemma res_map_elem {A B} (f : A → res B) l k y :
  res_map f l = Ok k → y ∈ k ↔ ∃ x, x ∈ l ∧ f x = Ok y.
Proof.
  revert k. induction l as [|x l IH]; simpl; intros k.
  - intros [= <-]. set_solver.
  - destruct (f x) as [a|] eqn:E; [|done]. simpl. destruct (res_map f l) as [k0|]; [|done].
    intros [= <-]. rewrite elem_of_cons, (IH _ eq_refl). split.
    + intros [->|(x' & Hx' & E')]; [by exists x; split; [left|]|by exists x'; split; [right|]].
    + intros (x' & [->|Hx']%elem_of_cons & E'); [left; congruence|by right; exists x'].
Qed.

Lemma StronglySorted_take {A} (R : A → A → Prop) k l :
  StronglySorted R l → StronglySorted R (take k l).
Proof.
  intros Hs. revert k. induction Hs as [|z l Hs IH Hz]; intros [|k]; simpl; constructor; auto.
  by apply Forall_take.
Qed.

(** What sorting and cutting keeps comes before what it drops. *)
Lemma ordered_take_drop {A} (leb : A → A → bool) k (l : list A) x y :
  StronglySorted (λ x y, leb x y = true) l → x ∈ take k l → y ∈ drop k l →
  leb x y = true.
Proof.
  intros Hs. revert k. induction Hs as [|z l Hs IH Hz]; intros [|k]; simpl; try set_solver.
  intros [->|Hx]%elem_of_cons Hy; [|by eapply IH].
  rewrite Forall_forall in Hz. apply Hz.
  rewrite <- (take_drop k l). apply elem_of_app. by right.
Qed.

(** ** Transition systems

    Reachability by a step relation; invariants are proved once per
    component with [reach_ind_inv]. *)
Section Reach.
Context {S L : Type} (step : S → L → S → Prop).

Inductive steps : S → list L → S → Prop :=
| steps_nil s : steps s [] s
| steps_cons s l s' ls s'' :
    step s l s' → steps s' ls s'' → steps s (l :: ls) s''.

Definition reachable (init : S → Prop) (s : S) : Prop :=
∃ s0 ls, init s0 ∧ steps s0 ls s.

Lemma steps_inv (I : S → Prop) s ls s' :
(∀ a l b, I a → step a l b → I b) → I s → steps s ls s' → I s'.
Proof. intros Hstep HI Hs. induction Hs; eauto. Qed.

Lemma reach_ind_inv (init I : S → Prop) s :
(∀ a, init a → I a) → (∀ a l b, I a → step a l b → I b) →
reachable init s → I s.
Proof. intros Hi Hst (s0 & ls & H0 & Hs). eapply steps_inv; eauto. Qed.

Lemma steps_app s ls1 s' ls2 s'' :
steps s ls1 s' → steps s' ls2 s'' → steps s (ls1 ++ ls2) s''.
Proof. intros H1 H2. induction H1; simpl; [done|econstructor; eauto]. Qed.
End Reach.

(** ** Hints *)
Create HintDb shugo.
Create Rewrite HintDb shugo.
#[export] Hint Resolve dset_nodup ddel_nodup dq_append_bound : shugo.
#[export] Hint Rewrite @dget_dset_eq @dq_append_length : shugo.
