(* ===== verification/PyFloat.v ===== *)
(** * Python floats

    A Python [float] is an IEEE-754 binary64 number.  It is modelled by the
    Standard Library's executable specification of the format
    ([SpecFloat.spec_float] with 53 bits of precision and maximal exponent
    1024): addition, subtraction, multiplication and division round to
    nearest even, comparisons with NaN are false, and [float], [int], [min],
    [max] and [round] follow Python.  The second half proves the order facts
    the components use. *)

From Stdlib Require Import ZArith Lia.
From Stdlib Require Import Floats.SpecFloat.
From S2P Require Import Prelude.

Local Open Scope Z_scope.

Abbreviation f64 := spec_float.

#[export] Instance f64_eq_dec : EqDecision f64.
Proof. solve_decision. Defined.

Declare Scope f64_scope.
Delimit Scope f64_scope with f64.

(** ** Arithmetic *)

Definition fadd : f64 → f64 → f64 := SFadd 53 1024.
Definition fsub : f64 → f64 → f64 := SFsub 53 1024.
Definition fmul : f64 → f64 → f64 := SFmul 53 1024.
Definition fdiv : f64 → f64 → f64 := SFdiv 53 1024.
Definition fneg : f64 → f64 := SFopp.

(** Comparisons; false when an operand is NaN. *)
Definition fltb : f64 → f64 → bool := SFltb.
Definition fleb : f64 → f64 → bool := SFleb.
Definition feqb : f64 → f64 → bool := SFeqb.

(** The float nearest to an integer ([float(z)], ties to even); infinite
    where Python raises [OverflowError]. *)
Definition f_of_Z (z : Z) : f64 := binary_normalize 53 1024 z 0 false.

(** [float(z)] of a Python integer. *)
Definition py_float_of_Z (z : Z) : res f64 :=
  match f_of_Z z with
  | S754_infinity _ => Raise OverflowError
  | x => Ok x
  end.

(** The literal [n/10^k] as the compiler reads it: the float nearest to the
    decimal, which one correctly rounded division gives for small [n], [k]. *)
Definition f_dec (n : Z) (k : Z) : f64 := fdiv (f_of_Z n) (f_of_Z (10 ^ k)).

Definition f0 : f64 := S754_zero false.
Definition f1 : f64 := f_of_Z 1.
Definition f_inf : f64 := S754_infinity false.
Definition f_nan : f64 := S754_nan.

(** [bool(x)] of a float: false only for the two zeros. *)
Definition f_truthy (x : f64) : bool :=
  match x with S754_zero _ => false | _ => true end.

(** [max(a, b)] and [min(a, b)] return their first argument unless the
    second is strictly greater (smaller): NaN in the second place is dropped,
    NaN in the first is kept. *)
Definition fmax (a b : f64) : f64 := if fltb a b then b else a.
Definition fmin (a b : f64) : f64 := if fltb b a then b else a.

Definition f_is_nan (x : f64) : bool :=
  match x with S754_nan => true | _ => false end.

(** The integer part of a finite float, towards zero. *)
Definition f_trunc (x : f64) : Z :=
  match x with
  | S754_finite s m e =>
      let a := if 0 <=? e then Zpos m * 2 ^ e else Zpos m / 2 ^ (- e) in
      if s then - a else a
  | _ => 0
  end.

(** [int(x)] of a float. *)
Definition py_int_of_f (x : f64) : res Z :=
  match x with
  | S754_nan => Raise (ValueError (u "cannot convert float NaN to integer"))
  | S754_infinity _ => Raise OverflowError
  | _ => Ok (f_trunc x)
  end.

(** [round(x, k)]: the exact value scaled by [10^k] is rounded half to even
    to an integer, and the float nearest to that decimal is returned (the
    division of two exactly represented integers rounds once). *)
Definition round_half_even (n d : Z) : Z :=
  let q := n / d in
  let r := n mod d in
  match 2 * r ?= d with
  | Lt => q
  | Gt => q + 1
  | Eq => if Z.even q then q else q + 1
  end.

Definition f_round (k : Z) (x : f64) : f64 :=
  match x with
  | S754_finite s m e =>
      let n := if 0 <=? e then Zpos m * 2 ^ e * 10 ^ k else Zpos m * 10 ^ k in
      let d := if 0 <=? e then 1 else 2 ^ (- e) in
      let y := fdiv (f_of_Z (round_half_even n d)) (f_of_Z (10 ^ k)) in
      if s then fneg y else y
  | _ => x
  end.

(** Comparing an integer with a float, as Python does, on exact values. *)
Definition f_geb_Z (x : f64) (z : Z) : bool :=
  match x with
  | S754_nan => false
  | S754_infinity s => negb s
  | S754_zero _ => z <=? 0
  | S754_finite s m e =>
      let a := if s then - Zpos m else Zpos m in
      if 0 <=? e then z <=? a * 2 ^ e else z * 2 ^ (- e) <=? a
  end.

(** [round(x)] to an integer, half to even. *)
Definition f_round_Z (x : f64) : res Z :=
  match x with
  | S754_nan => Raise (ValueError (u "cannot convert float NaN to integer"))
  | S754_infinity _ => Raise OverflowError
  | S754_zero _ => Ok 0
  | S754_finite s m e =>
      let n := if 0 <=? e then Zpos m * 2 ^ e else Zpos m in
      let d := if 0 <=? e then 1 else 2 ^ (- e) in
      let a := round_half_even n d in
      Ok (if s then - a else a)
  end.

(** [math.sqrt] of a non-negative float. *)
Definition fsqrt : f64 → f64 := SFsqrt 53 1024.

(** ** Order *)

(** A float's place in the order: infinities outermost, then sign, exponent
    and mantissa, as [SFcompare] reads them. *)
Definition f_key (x : f64) : option (Z * Z * Z) :=
  match x with
  | S754_nan => None
  | S754_infinity true => Some (-2, 0, 0)
  | S754_finite true m e => Some (-1, - e, Zneg m)
  | S754_zero _ => Some (0, 0, 0)
  | S754_finite false m e => Some (1, e, Zpos m)
  | S754_infinity false => Some (2, 0, 0)
  end.

Definition key_lt (a b : Z * Z * Z) : Prop :=
  let '(a1, a2, a3) := a in
  let '(b1, b2, b3) := b in
  a1 < b1 ∨ (a1 = b1 ∧ (a2 < b2 ∨ (a2 = b2 ∧ a3 < b3))).

Lemma SFcompare_key x y :
  SFcompare x y =
  match f_key x, f_key y with
  | Some (a1, a2, a3), Some (b1, b2, b3) =>
      Some (match a1 ?= b1 with
            | Eq => match a2 ?= b2 with Eq => a3 ?= b3 | c => c end
            | c => c
            end)
  | _, _ => None
  end.
Proof.
  destruct x as [[]|[]| |[] m e], y as [[]|[]| |[] m' e']; simpl; try done.
  - rewrite Z.compare_opp, (Z.compare_antisym e e').
    by destruct (e ?= e').
Qed.

Lemma fltb_key x y :
  fltb x y = true ↔
  ∃ a b, f_key x = Some a ∧ f_key y = Some b ∧ key_lt a b.
Proof.
  unfold fltb, SFltb. rewrite SFcompare_key. unfold key_lt.
  destruct (f_key x) as [[[a1 a2] a3]|], (f_key y) as [[[b1 b2] b3]|];
    try (split; [done|naive_solver]).
  destruct (Z.compare_spec a1 b1), (Z.compare_spec a2 b2), (Z.compare_spec a3 b3);
    (split; [intros ?; simplify_eq; eexists _, _; repeat split; simpl; lia
            |intros (?&?&?&?&?); simplify_eq; try done; lia]).
Qed.

Lemma fleb_key x y :
  fleb x y = true ↔
  ∃ a b, f_key x = Some a ∧ f_key y = Some b ∧ ¬ key_lt b a.
Proof.
  unfold fleb, SFleb. rewrite SFcompare_key. unfold key_lt.
  destruct (f_key x) as [[[a1 a2] a3]|], (f_key y) as [[[b1 b2] b3]|];
    try (split; [done|naive_solver]).
  destruct (Z.compare_spec a1 b1), (Z.compare_spec a2 b2), (Z.compare_spec a3 b3);
    (split; [intros ?; simplify_eq; eexists _, _; repeat split; simpl; lia
            |intros (?&?&?&?&?); simplify_eq; try done; lia]).
Qed.

Lemma f_key_nan x : f_key x = None ↔ f_is_nan x = true.
Proof. by destruct x as [[]|[]| |[]]. Qed.

Ltac f_order :=
  repeat match goal with
  | H : fltb _ _ = true |- _ => apply fltb_key in H as (?&?&?&?&?)
  | H : fleb _ _ = true |- _ => apply fleb_key in H as (?&?&?&?&?)
  end; simplify_eq.

Lemma key_lt_trans a b c : key_lt a b → key_lt b c → key_lt a c.
Proof. destruct a as [[??]?], b as [[??]?], c as [[??]?]; simpl; lia. Qed.

Lemma key_nlt_trans a b c : ¬ key_lt b a → ¬ key_lt c b → ¬ key_lt c a.
Proof. destruct a as [[??]?], b as [[??]?], c as [[??]?]; simpl; lia. Qed.

Lemma key_lt_nlt_trans a b c : key_lt a b → ¬ key_lt c b → key_lt a c.
Proof. destruct a as [[??]?], b as [[??]?], c as [[??]?]; simpl; lia. Qed.

Lemma key_lt_asym a b : key_lt a b → ¬ key_lt b a.
Proof. destruct a as [[??]?], b as [[??]?]; simpl; lia. Qed.

Lemma fltb_trans x y z : fltb x y = true → fltb y z = true → fltb x z = true.
Proof.
  intros. f_order. apply fltb_key. eexists _, _. repeat split; eauto.
  eauto using key_lt_trans.
Qed.

Lemma fleb_trans x y z : fleb x y = true → fleb y z = true → fleb x z = true.
Proof.
  intros. f_order. apply fleb_key. eexists _, _. repeat split; eauto.
  eauto using key_nlt_trans.
Qed.

Lemma fltb_fleb_trans x y z : fltb x y = true → fleb y z = true → fltb x z = true.
Proof.
  intros. f_order. apply fltb_key. eexists _, _. repeat split; eauto.
  eauto using key_lt_nlt_trans.
Qed.

Lemma fltb_fleb x y : fltb x y = true → fleb x y = true.
Proof.
  intros. f_order. apply fleb_key. eexists _, _. repeat split; eauto.
  eauto using key_lt_asym.
Qed.

Lemma fleb_refl x : f_is_nan x = false → fleb x x = true.
Proof.
  intros Hn. destruct (f_key x) as [a|] eqn:E.
  - apply fleb_key. exists a, a. repeat split; eauto.
    intros Hl. by apply (key_lt_asym a a Hl).
  - apply f_key_nan in E. congruence.
Qed.

Lemma fltb_irrefl x : fltb x x = false.
Proof.
  destruct (fltb x x) eqn:E; [|done]. f_order.
  exfalso. eapply key_lt_asym; eauto.
Qed.

Lemma fltb_fleb_false x y : fltb x y = true → fleb y x = false.
Proof. intros. destruct (fleb y x) eqn:E; [|done]. f_order. done. Qed.

Lemma fltb_false_fleb x y :
  f_is_nan x = false → f_is_nan y = false → fltb x y = false → fleb y x = true.
Proof.
  intros Hx Hy Hl.
  destruct (f_key x) as [a|] eqn:Ex; [|apply f_key_nan in Ex; congruence].
  destruct (f_key y) as [b|] eqn:Ey; [|apply f_key_nan in Ey; congruence].
  apply fleb_key. exists b, a. repeat split; eauto. intros Hk.
  assert (fltb x y = true); [|congruence]. apply fltb_key. eauto.
Qed.

Lemma fleb_not_nan x y : fleb x y = true → f_is_nan x = false ∧ f_is_nan y = false.
Proof.
  intros. f_order. split.
  - destruct (f_is_nan x) eqn:E; [|done]. apply f_key_nan in E. congruence.
  - destruct (f_is_nan y) eqn:E; [|done]. apply f_key_nan in E. congruence.
Qed.

Lemma fltb_not_nan x y : fltb x y = true → f_is_nan x = false ∧ f_is_nan y = false.
Proof. intros. by eapply fleb_not_nan, fltb_fleb. Qed.

(** ** [min] and [max] *)

Lemma fmax_ge_l a b : f_is_nan a = false → fleb a (fmax a b) = true.
Proof.
  intros. unfold fmax. destruct (fltb a b) eqn:E; auto using fltb_fleb, fleb_refl.
Qed.

Lemma fmax_le a b c : fleb a c = true → fleb b c = true → fleb (fmax a b) c = true.
Proof. unfold fmax. by destruct (fltb a b). Qed.

Lemma fmin_le_l a b : f_is_nan a = false → fleb (fmin a b) a = true.
Proof.
  intros. unfold fmin. destruct (fltb b a) eqn:E; auto using fltb_fleb, fleb_refl.
Qed.

Lemma fmin_ge a b c : fleb c a = true → fleb c b = true → fleb c (fmin a b) = true.
Proof. unfold fmin. by destruct (fltb b a). Qed.

Lemma fmax_ge_r a b :
  f_is_nan a = false → f_is_nan b = false → fleb b (fmax a b) = true.
Proof.
  intros. unfold fmax. destruct (fltb a b) eqn:E; auto using fltb_false_fleb, fleb_refl.
Qed.

Lemma fmin_le_r a b :
  f_is_nan a = false → f_is_nan b = false → fleb (fmin a b) b = true.
Proof.
  intros. unfold fmin. destruct (fltb b a) eqn:E; auto using fltb_false_fleb, fleb_refl.
Qed.

(** The clamp [max(lo, min(hi, x))] lands in the interval for every float
    [x], NaN included. *)
Definition fclamp (lo hi x : f64) : f64 := fmax lo (fmin hi x).

Lemma fclamp_range lo hi x :
  fleb lo hi = true →
  fleb lo (fclamp lo hi x) = true ∧ fleb (fclamp lo hi x) hi = true.
Proof.
  intros Hle. destruct (fleb_not_nan _ _ Hle) as [Hlo Hhi]. split.
  - by apply fmax_ge_l.
  - apply fmax_le; [done|]. by apply fmin_le_l.
Qed.

(** Negation reverses the order. *)
Lemma f_key_neg x : f_key (fneg x) = (λ k, (- k.1.1, - k.1.2, - k.2)) <$> f_key x.
Proof. destruct x as [[]|[]| |[] m e]; cbn; by rewrite ?Z.opp_involutive. Qed.

Lemma fneg_fleb x y : fleb x y = true → fleb (fneg y) (fneg x) = true.
Proof.
  rewrite !fleb_key, !f_key_neg. intros ([[a1 a2] a3] & [[b1 b2] b3] & -> & -> & Hk).
  do 2 eexists. split; [done|]. split; [done|]. cbn in *. lia.
Qed.

(** ** Sign of rounded results *)

(** A float that is at least zero: a zero or a positive number. *)
Definition f_nonneg (x : f64) : bool :=
  match x with
  | S754_zero _ | S754_infinity false | S754_finite false _ _ => true
  | _ => false
  end.

Lemma f_nonneg_spec x : f_nonneg x = fleb f0 x.
Proof. by destruct x as [[]|[]| |[]]. Qed.

(** Rounding keeps the sign of what it rounds. *)
Lemma shr_1_nonneg r : 0 <= shr_m r → 0 <= shr_m (shr_1 r).
Proof. by destruct r as [[|[]|[]] ? ?]. Qed.

Lemma iter_shr_nonneg p r : 0 <= shr_m r → 0 <= shr_m (SpecFloat.iter_pos shr_1 p r).
Proof. revert r. induction p; simpl; intros; auto using shr_1_nonneg. Qed.

Lemma shr_fexp_nonneg m e l : 0 <= m → 0 <= shr_m (shr_fexp 53 1024 m e l).1.
Proof.
  intros Hm. unfold shr_fexp, shr.
  assert (0 <= shr_m (shr_record_of_loc m l)) by (by destruct l as [|[]]).
  destruct (_ - e); simpl; auto using iter_shr_nonneg.
Qed.

Lemma round_nearest_nonneg m l : 0 <= m → 0 <= round_nearest_even m l.
Proof. destruct l as [|[]]; simpl; try lia. destruct (Z.even m); lia. Qed.

(** Not NaN, and the sign bit clear. *)
Definition f_plus (x : f64) : bool :=
  match x with
  | S754_zero false | S754_infinity false | S754_finite false _ _ => true
  | _ => false
  end.

Lemma binary_round_aux_plus m e l :
  0 <= m → f_plus (binary_round_aux 53 1024 false m e l) = true.
Proof.
  intros Hm. unfold binary_round_aux.
  pose proof (shr_fexp_nonneg m e l Hm) as H1.
  destruct (shr_fexp 53 1024 m e l) as [r1 e1]. simpl in H1.
  pose proof (shr_fexp_nonneg _ e1 loc_Exact
    (round_nearest_nonneg (shr_m r1) (loc_of_shr_record r1) H1)) as H2.
  destruct (shr_fexp _ _ (round_nearest_even _ _) _ _) as [r2 e2]. simpl in H2.
  destruct (shr_m r2); [done|by destruct (_ <=? _)|lia].
Qed.

Lemma fadd_plus x y : f_plus x = true → f_plus y = true → f_plus (fadd x y) = true.
Proof.
  unfold fadd. destruct x as [[]|[]| |[] m e], y as [[]|[]| |[] m' e']; try done.
  intros _ _. unfold SFadd, binary_normalize, cond_Zopp, binary_round.
  destruct (shl_align _ _ _). simpl. destruct (shl_align _ _ _).
  by apply binary_round_aux_plus.
Qed.

Lemma binary_round_aux_minus m e l : 0 <= m →
  fleb (binary_round_aux 53 1024 true m e l) f0 = true.
Proof.
  intros Hm. unfold binary_round_aux.
  pose proof (shr_fexp_nonneg m e l Hm) as H1.
  destruct (shr_fexp 53 1024 m e l) as [r1 e1]. simpl in H1.
  pose proof (shr_fexp_nonneg _ e1 loc_Exact
    (round_nearest_nonneg (shr_m r1) (loc_of_shr_record r1) H1)) as H2.
  destruct (shr_fexp _ _ (round_nearest_even _ _) _ _) as [r2 e2]. simpl in H2.
  destruct (shr_m r2); [done|by destruct (_ <=? _)|lia].
Qed.

(** Taking something away from what is not above zero stays there. *)
Lemma fsub_below x y : fleb x f0 = true → f_plus y = true →
  fleb (fsub x y) f0 = true.
Proof.
  unfold fsub. destruct x as [[]|[]| |[] m e], y as [[]|[]| |[] m' e']; try done.
  intros _ _. unfold SFsub, binary_normalize, cond_Zopp, binary_round.
  destruct (shl_align _ _ _). simpl. destruct (shl_align _ _ _).
  by apply binary_round_aux_minus.
Qed.

(** A number less itself is zero, unless it is not finite. *)
Lemma fsub_self x : fsub x x = f0 ∨ fsub x x = f_nan.
Proof.
  destruct x as [[]|[]| |[] m e]; try (by left + by right); left;
    unfold fsub, SFsub, binary_normalize, cond_Zopp; destruct (shl_align m e (Z.min e e)) as [m' e'];
    cbn [fst]; by rewrite ?Z.sub_diag.
Qed.

Lemma fclamp01_plus x : f_plus (fclamp f0 f1 x) = true.
Proof.
  unfold fclamp, fmax. destruct (fltb f0 _) eqn:E; [|done].
  revert E. by destruct (fmin f1 x) as [[]|[]| |[]].
Qed.

(** A sum of such numbers capped at one stays put when clamped. *)
Lemma fclamp01_fmin x : f_plus x = true → fclamp f0 f1 (fmin f1 x) = fmin f1 x.
Proof.
  intros Hx. unfold fclamp. assert (fmin f1 (fmin f1 x) = fmin f1 x) as ->.
  { unfold fmin. destruct (fltb x f1) eqn:E; [by rewrite E|by rewrite fltb_irrefl]. }
  assert (f_plus (fmin f1 x) = true) as Hm by (unfold fmin; by destruct (fltb x f1)).
  unfold fmax. destruct (fltb f0 _) eqn:E; [done|]. revert E Hm.
  by destruct (fmin f1 x) as [[]|[]| |[]].
Qed.

(** Clamping twice is clamping once. *)
Lemma fclamp_fixed lo hi x : fleb lo hi = true →
  fclamp lo hi (fclamp lo hi x) = fclamp lo hi x.
Proof.
  intros Hle. unfold fclamp, fmax, fmin.
  destruct (fltb x hi) eqn:E1.
  - destruct (fltb lo x) eqn:E2; rewrite ?E1, ?E2; [done|].
    destruct (fltb lo hi) eqn:E3; rewrite ?fltb_irrefl, ?E3; done.
  - destruct (fltb lo hi) eqn:E3; rewrite ?fltb_irrefl, ?E3; done.
Qed.

#[export] Hint Resolve fltb_fleb fleb_refl : shugo.
