(* ===== verification/PyStr.v ===== *)
(** * Python strings

    The [str] methods the components call, on lists of code points:
    [strip], [lower], [startswith], [endswith], [split] on whitespace,
    membership, slicing and the [".1f"] format. *)

From Stdlib Require Import ZArith NArith Lia.
From Stdlib Require Import Floats.SpecFloat.
From S2P Require Import Prelude PyFloat.

(** [str.isspace] of one code point. *)
Definition is_space (c : N) : bool :=
  ((9 <=? c) && (c <=? 13) || (28 <=? c) && (c <=? 32)
   || (c =? 133) || (c =? 160) || (c =? 5760)
   || (8192 <=? c) && (c <=? 8202)
   || (c =? 8232) || (c =? 8233) || (c =? 8239) || (c =? 8287)
   || (c =? 12288))%N.

Fixpoint lstrip (p : N → bool) (s : pystr) : pystr :=
  match s with
  | [] => []
  | c :: s' => if p c then lstrip p s' else s
  end.

Definition rstrip (p : N → bool) (s : pystr) : pystr := rev (lstrip p (rev s)).

Definition strip_by (p : N → bool) (s : pystr) : pystr := rstrip p (lstrip p s).

(** [s.strip()]. *)
Definition strip (s : pystr) : pystr := strip_by is_space s.

(** [s.lower()]: exact on ASCII and on the only two other code points whose
    lower case holds an ASCII letter (U+0130 and the Kelvin sign U+212A).
    Every other code point is kept: its lower case is outside ASCII, and the
    modelled code only compares the result with ASCII words. *)
Definition lower_cp (c : N) : pystr :=
  (if (65 <=? c) && (c <=? 90) then [c + 32]
   else if c =? 304 then [105; 775]
   else if c =? 8490 then [107]
   else [c])%N.

Definition lower (s : pystr) : pystr := s ≫= lower_cp.

(** [str.lower] where the text itself matters, and what is relied on of it. *)
Class PyLower := str_lower : pystr → pystr.
Definition ascii (s : pystr) : Prop := Forall (λ c, (c < 128)%N) s.
Class PyLowerLaws `{PyLower} := {
  lower_prefix : ∀ a s, ascii a → ∃ s', str_lower (a ++ s) = lower a ++ s'
}.

Fixpoint starts_with (p s : pystr) : bool :=
  match p, s with
  | [], _ => true
  | a :: p', b :: s' => (a =? b)%N && starts_with p' s'
  | _ :: _, [] => false
  end.

Definition ends_with (p s : pystr) : bool := starts_with (rev p) (rev s).

(** [p in s]. *)
Fixpoint contains (p s : pystr) : bool :=
  starts_with p s || match s with [] => false | _ :: s' => contains p s' end.

(** [s.split()]: the maximal runs of non-space characters. *)
Fixpoint split_go (cur s : pystr) : list pystr :=
  match s with
  | [] => match cur with [] => [] | _ => [rev cur] end
  | c :: s' =>
      if is_space c then
        match cur with [] => split_go [] s' | _ => rev cur :: split_go [] s' end
      else split_go (c :: cur) s'
  end.
Definition split (s : pystr) : list pystr := split_go [] s.

(** [sep.join(parts)]. *)
Fixpoint join (sep : pystr) (parts : list pystr) : pystr :=
  match parts with
  | [] => []
  | [p] => p
  | p :: parts' => p ++ sep ++ join sep parts'
  end.

(** [f"{x:.1f}"]. *)
Definition fmt_1f (x : f64) : pystr :=
  match x with
  | S754_nan => u "nan"
  | S754_infinity s => (if s then u "-" else []) ++ u "inf"
  | S754_zero s => (if s then u "-" else []) ++ u "0.0"
  | S754_finite s m e =>
      let n := if (0 <=? e)%Z then (Zpos m * 2 ^ e * 10)%Z else (Zpos m * 10)%Z in
      let d := if (0 <=? e)%Z then 1%Z else (2 ^ (- e))%Z in
      let r := round_half_even n d in
      (if s then u "-" else []) ++ str_of_Z (r / 10) ++ u "." ++ str_of_Z (r mod 10)
  end.

(** [f"{x:.kf}"]: the exact value rounded half to even at [k] decimals. *)
Definition pad_zeros (k : nat) (s : pystr) : pystr := replicate (k - length s) 48%N ++ s.

Definition fmt_fixed (k : nat) (x : f64) : pystr :=
  let dec (r : Z) :=
    match k with
    | O => str_of_Z r
    | _ => str_of_Z (r / 10 ^ Z.of_nat k) ++ u "."
             ++ pad_zeros k (str_of_Z (r mod 10 ^ Z.of_nat k))
    end in
  match x with
  | S754_nan => u "nan"
  | S754_infinity s => (if s then u "-" else []) ++ u "inf"
  | S754_zero s => (if s then u "-" else []) ++ dec 0%Z
  | S754_finite s m e =>
      let p := (10 ^ Z.of_nat k)%Z in
      let n := if (0 <=? e)%Z then (Zpos m * 2 ^ e * p)%Z else (Zpos m * p)%Z in
      let d := if (0 <=? e)%Z then 1%Z else (2 ^ (- e))%Z in
      (if s then u "-" else []) ++ dec (round_half_even n d)
  end.

(** [f"{x:.0%}"]. *)
Definition fmt_percent (x : f64) : pystr := fmt_fixed 0 (fmul x (f_of_Z 100)) ++ u "%".

(** [repr(s)] of a string whose code points beyond ASCII are printable: the
    quote is the apostrophe (39) unless the text holds one and no double
    quote (34). *)
Definition hex_digit (d : N) : N := (if d <? 10 then 48 + d else 87 + d)%N.

Definition repr_cp (quote c : N) : pystr :=
  (if (c =? quote) || (c =? 92) then [92; c]
   else if c =? 10 then [92; 110]
   else if c =? 13 then [92; 114]
   else if c =? 9 then [92; 116]
   else if (c <? 32) || (c =? 127) then [92; 120; hex_digit (c / 16); hex_digit (c mod 16)]
   else [c])%N.

Definition repr_str (s : pystr) : pystr :=
  let quote := if existsb (N.eqb 39) s && negb (existsb (N.eqb 34) s) then 34%N else 39%N in
  quote :: (s ≫= repr_cp quote) ++ [quote].

(** The text of a list of strings in an f-string. *)
Definition repr_list (l : list pystr) : pystr :=
  u "[" ++ join (u ", ") (repr_str <$> l) ++ u "]".

(** [s.upper()]: exact on ASCII and on every code point whose upper case is
    made of ASCII letters; the other code points are kept, since the modelled
    code only compares the result with ASCII words. *)
Definition upper_cp (c : N) : pystr :=
  (if (97 <=? c) && (c <=? 122) then [c - 32]
   else if c =? 223 then [83; 83]
   else if c =? 305 then [73]
   else if c =? 383 then [83]
   else if c =? 64256 then [70; 70]
   else if c =? 64257 then [70; 73]
   else if c =? 64258 then [70; 76]
   else if c =? 64259 then [70; 70; 73]
   else if c =? 64260 then [70; 70; 76]
   else if (c =? 64261) || (c =? 64262) then [83; 84]
   else [c])%N.

Definition upper (s : pystr) : pystr := s ≫= upper_cp.

(** The longest prefix of characters satisfying [p], and the rest. *)
Fixpoint span (p : N → bool) (s : pystr) : pystr * pystr :=
  match s with
  | [] => ([], [])
  | c :: s' => if p c then let '(a, b) := span p s' in (c :: a, b) else ([], s)
  end.

(** [\w] of the [re] module: [beyond] says which characters beyond ASCII are
    word characters. *)
Definition word_char (beyond : N → bool) (c : N) : bool :=
  (if c <? 128 then (48 <=? c) && (c <=? 57) || (65 <=? c) && (c <=? 90)
                   || (97 <=? c) && (c <=? 122) || (c =? 95)
   else beyond c)%N.

Definition is_digit (c : N) : bool := ((48 <=? c) && (c <=? 57))%N.
Definition is_upper (c : N) : bool := ((65 <=? c) && (c <=? 90))%N.
Definition is_lower (c : N) : bool := ((97 <=? c) && (c <=? 122))%N.

(** The maximal runs of characters satisfying [p] ([re.findall] of a class
    under [+]). *)
Fixpoint runs_go (p : N → bool) (cur s : pystr) : list pystr :=
  match s with
  | [] => match cur with [] => [] | _ => [rev cur] end
  | c :: s' => if p c then runs_go p (c :: cur) s'
               else match cur with [] => runs_go p [] s' | _ => rev cur :: runs_go p [] s' end
  end.

(** [s.split(sep)] at one character. *)
Fixpoint split_on (sep : N) (s : pystr) : list pystr :=
  match s with
  | [] => [[]]
  | c :: s' =>
      let rest := split_on sep s' in
      if (c =? sep)%N then [] :: rest
      else match rest with r :: rs => (c :: r) :: rs | [] => [[c]] end
  end.

(** [re.finditer] of a pattern whose matches are not empty: [m] is given the
    character before the position and the text from it on, and answers with
    the group and the length of the match. *)
Fixpoint finditer (m : option N → pystr → option (pystr * nat)) (skip : nat)
    (prev : option N) (s : pystr) : list pystr :=
  match s with
  | [] => []
  | c :: s' =>
      match skip with
      | S k => finditer m k (Some c) s'
      | O => match m prev s with
             | Some (g, n) => g :: finditer m (n - 1) (Some c) s'
             | None => finditer m 0 (Some c) s'
             end
      end
  end.

(** ** Lemmas *)

Lemma lstrip_suffix p s : ∃ t, s = t ++ lstrip p s ∧ Forall (λ c, p c = true) t.
Proof.
  induction s as [|c s (t & E & Ht)]; simpl.
  - by exists [].
  - destruct (p c) eqn:Ep.
    + exists (c :: t). split; [by rewrite E at 1|by constructor].
    + by exists [].
Qed.

Lemma lstrip_head p s c s' : lstrip p s = c :: s' → p c = false.
Proof.
  induction s as [|c0 s IH]; simpl; [done|].
  destruct (p c0) eqn:E; [done|]. naive_solver.
Qed.

Lemma lstrip_id p s : (∀ c s', s = c :: s' → p c = false) → lstrip p s = s.
Proof. destruct s as [|c s]; simpl; [done|]. intros H. by rewrite (H c s). Qed.

Lemma lstrip_length p s : length (lstrip p s) ≤ length s.
Proof.
  destruct (lstrip_suffix p s) as (t & E & _).
  rewrite E at 2. rewrite length_app. lia.
Qed.

Lemma strip_by_length p s : length (strip_by p s) ≤ length s.
Proof.
  unfold strip_by, rstrip. rewrite length_rev.
  etrans; [apply lstrip_length|]. rewrite length_rev. apply lstrip_length.
Qed.

Lemma rstrip_prefix p s : ∃ t, s = rstrip p s ++ t ∧ Forall (λ c, p c = true) t.
Proof.
  unfold rstrip. destruct (lstrip_suffix p (rev s)) as (t & E & Ht).
  exists (rev t). split.
  - rewrite <- rev_app_distr, <- E. by rewrite rev_involutive.
  - by apply Forall_rev.
Qed.

Lemma lstrip_subset p s c : c ∈ lstrip p s → c ∈ s.
Proof. destruct (lstrip_suffix p s) as (t & E & _). rewrite E at 2. set_solver. Qed.

Lemma strip_by_subset p s c : c ∈ strip_by p s → c ∈ s.
Proof.
  unfold strip_by. intros Hc. apply (lstrip_subset p).
  destruct (rstrip_prefix p (lstrip p s)) as (t & E & _). rewrite E. set_solver.
Qed.

Lemma strip_by_ends p s :
  (∀ c, head (strip_by p s) = Some c → p c = false) ∧
  (∀ c, last (strip_by p s) = Some c → p c = false).
Proof.
  unfold strip_by. split; intros c Hc.
  - destruct (rstrip_prefix p (lstrip p s)) as (t & E & _).
    destruct (rstrip p (lstrip p s)) as [|c' r]; simplify_eq/=.
    by eapply lstrip_head.
  - unfold rstrip in Hc. destruct (lstrip p (rev (lstrip p s))) as [|c' r] eqn:E;
      simpl in Hc; [done|].
    rewrite last_snoc in Hc. simplify_eq. by eapply lstrip_head.
Qed.

Lemma strip_by_fixed p s :
  (∀ c, head s = Some c → p c = false) →
  (∀ c, last s = Some c → p c = false) → strip_by p s = s.
Proof.
  intros Hh Hl. unfold strip_by, rstrip.
  rewrite (lstrip_id p s); [|intros c s' ->; auto].
  rewrite lstrip_id; [apply rev_involutive|].
  intros c s' E. apply Hl.
  rewrite <- (rev_involutive s), E. simpl. apply last_snoc.
Qed.

Lemma strip_by_idem p s : strip_by p (strip_by p s) = strip_by p s.
Proof. destruct (strip_by_ends p s). by apply strip_by_fixed. Qed.

#[export] Hint Resolve strip_by_length : shugo.

Lemma span_app p a b :
  Forall (λ c, p c = true) a → (∀ c b', b = c :: b' → p c = false) →
  span p (a ++ b) = (a, b).
Proof.
  intros Ha Hb. induction Ha as [|c a Hc Ha IH]; simpl.
  - destruct b as [|c b']; [done|]. simpl. by rewrite (Hb c b').
  - by rewrite Hc, IH.
Qed.

Lemma span_none p s : (∀ c s', s = c :: s' → p c = false) → span p s = ([], s).
Proof. exact (span_app p [] s (List.Forall_nil _)). Qed.

Lemma span_all p s : Forall (λ c, p c = true) s → span p s = (s, []).
Proof.
  intros Hs. pose proof (span_app p s [] Hs) as E. rewrite app_nil_r in E.
  apply E. done.
Qed.

(** A stripped string is an infix of the original. *)
Lemma strip_by_infix p s : ∃ a b, s = a ++ strip_by p s ++ b.
Proof.
  unfold strip_by. destruct (lstrip_suffix p s) as (a & E & _).
  destruct (rstrip_prefix p (lstrip p s)) as (b & E' & _).
  exists a, b. by rewrite <- E'.
Qed.

(** Splitting at one character. *)
Lemma split_on_app sep a b : sep ∉ a → split_on sep (a ++ sep :: b) = a :: split_on sep b.
Proof.
  induction a as [|c a IH]; simpl; intros Hn.
  - by rewrite N.eqb_refl.
  - rewrite IH by set_solver. destruct (N.eqb_spec c sep); [set_solver|done].
Qed.

Lemma split_on_none sep a : sep ∉ a → split_on sep a = [a].
Proof.
  induction a as [|c a IH]; simpl; intros Hn; [done|].
  rewrite IH by set_solver. destruct (N.eqb_spec c sep); [set_solver|done].
Qed.

(** Stripping keeps what is not stripped. *)
Lemma strip_by_keeps p s c : c ∈ s → p c = false → c ∈ strip_by p s.
Proof.
  intros Hc Hp. unfold strip_by.
  destruct (rstrip_prefix p (lstrip p s)) as (t & E & Ht), (lstrip_suffix p s) as (t' & E' & Ht').
  rewrite Forall_forall in Ht, Ht'. rewrite E', E in Hc. rewrite !elem_of_app in Hc.
  destruct Hc as [Hc|[Hc|Hc]]; [rewrite Ht' in Hp by done; done|done|rewrite Ht in Hp by done; done].
Qed.

(** A prefix that ends in what is not stripped is kept. *)
Lemma strip_by_prefix q s p c d :
  head p = Some c → last p = Some d → q c = false → q d = false →
  ∃ s', strip_by q (p ++ s) = p ++ s'.
Proof.
  intros Hh Hl Hc Hd. unfold strip_by. rewrite lstrip_id.
  2:{ intros c' s' E. destruct p as [|c0 p]; [done|]. simplify_eq/=. done. }
  destruct (rstrip_prefix q (p ++ s)) as (t & E & Ht).
  destruct (app_eq_inv _ _ _ _ E) as [(k & E1 & E2)|(k & E1 & _)]; [|by exists k].
  destruct k as [|x k] using rev_ind; [exists []; rewrite app_nil_r in E1; rewrite app_nil_r; by symmetry|].
  rewrite E1, app_assoc, last_snoc in Hl. injection Hl as ->.
  rewrite Forall_forall in Ht. rewrite Ht in Hd; [done|]. rewrite E2. set_solver.
Qed.

Lemma starts_with_app p s : starts_with p (p ++ s) = true.
Proof. induction p as [|c p IH]; simpl; [done|]. by rewrite N.eqb_refl. Qed.

Lemma starts_with_inv p s : starts_with p s = true → ∃ s', s = p ++ s'.
Proof.
  revert s. induction p as [|c p IH]; intros s; simpl; [by eexists|].
  destruct s as [|d s]; [done|]. intros [E (s' & ->)%IH]%andb_true_iff.
  apply N.eqb_eq in E as ->. by exists s'.
Qed.
