(* ===== verification/PyVal.v ===== *)
(** * Dynamic Python values

    The values a decoded JSON document holds, and the built-in conversions
    the code applies to them: truthiness, [int(...)], [str(...)], [dict.get].
    The text of a float or container ([repr]) is never inspected by the
    modelled code, only stored or compared, so it stays a parameter
    ([PyRepr]). *)

From Stdlib Require Import ZArith NArith Lia.
From Stdlib Require Import Floats.SpecFloat.
From stdpp Require Import countable.
From S2P Require Import Prelude PyFloat PyStr.

Local Open Scope Z_scope.

Inductive pyval : Type :=
  | VNone
  | VBool (b : bool)
  | VInt (z : Z)
  | VFloat (x : f64)
  | VStr (s : pystr)
  | VList (l : list pyval)
  | VDict (d : list (pystr * pyval)).

(** [repr] of a float or a container. *)
Class PyRepr := py_repr : pyval → pystr.

(** [bool(v)]. *)
Definition truthy (v : pyval) : bool :=
  match v with
  | VNone => false
  | VBool b => b
  | VInt z => negb (z =? 0)
  | VFloat x => f_truthy x
  | VStr s => negb (bool_decide (s = []))
  | VList l => match l with [] => false | _ => true end
  | VDict d => match d with [] => false | _ => true end
  end.

(** [str(v)]. *)
Definition py_str `{PyRepr} (v : pyval) : pystr :=
  match v with
  | VNone => u "None"
  | VBool true => u "True"
  | VBool false => u "False"
  | VInt z => str_of_Z z
  | VStr s => s
  | _ => py_repr v
  end.

(** The zeros of the decimal-digit ranges of Unicode 13 (Python 3.9). *)
Definition digit_zeros : list N :=
  [0x30; 0x660; 0x6F0; 0x7C0; 0x966; 0x9E6; 0xA66; 0xAE6; 0xB66; 0xBE6; 0xC66;
   0xCE6; 0xD66; 0xDE6; 0xE50; 0xED0; 0xF20; 0x1040; 0x1090; 0x17E0; 0x1810;
   0x1946; 0x19D0; 0x1A80; 0x1A90; 0x1B50; 0x1BB0; 0x1C40; 0x1C50; 0xA620;
   0xA8D0; 0xA900; 0xA9D0; 0xA9F0; 0xAA50; 0xABF0; 0xFF10; 0x104A0; 0x10D30;
   0x11066; 0x110F0; 0x11136; 0x111D0; 0x112F0; 0x11450; 0x114D0; 0x11650;
   0x116C0; 0x11730; 0x118E0; 0x11950; 0x11C50; 0x11D50; 0x11DA0; 0x16A60;
   0x16B50; 0x1D7CE; 0x1D7D8; 0x1D7E2; 0x1D7EC; 0x1D7F6; 0x1E140; 0x1E2F0;
   0x1E950; 0x1FBF0]%N.

Definition digit_value (c : N) : option Z :=
  match List.find (λ z, (z <=? c)%N && (c <? z + 10)%N) digit_zeros with
  | Some z => Some (Z.of_N (c - z))
  | None => None
  end.

(** Digits, with single underscores allowed between them. *)
Fixpoint parse_digits (acc : Z) (s : pystr) : option Z :=
  match s with
  | [] => Some acc
  | c :: s' =>
      match digit_value c with
      | Some v => parse_digits (10 * acc + v) s'
      | None =>
          if (c =? 95)%N then
            match s' with
            | c' :: s'' =>
                match digit_value c' with
                | Some v => parse_digits (10 * acc + v) s''
                | None => None
                end
            | [] => None
            end
          else None
      end
  end.

Definition parse_nat (s : pystr) : option Z :=
  match s with
  | c :: s' => match digit_value c with
               | Some v => parse_digits v s'
               | None => None
               end
  | [] => None
  end.

(** [int(s)] of a string; longer inputs than 4300 digits are refused. *)
Definition py_int_of_str (s : pystr) : res Z :=
  let t := strip s in
  let bad := Raise (ValueError (u "invalid literal for int() with base 10")) in
  let parse (sg : Z) (body : pystr) :=
    if (4300 <? length body)%nat then bad
    else match parse_nat body with Some z => Ok (sg * z) | None => bad end in
  match t with
  | c :: t' => if (c =? 45)%N then parse (-1) t'
               else if (c =? 43)%N then parse 1 t' else parse 1 t
  | [] => bad
  end.

(** [int(v)]. *)
Definition py_int (v : pyval) : res Z :=
  match v with
  | VBool b => Ok (if b then 1 else 0)
  | VInt z => Ok z
  | VFloat x => py_int_of_f x
  | VStr s => py_int_of_str s
  | _ => Raise (TypeError (u "int() argument must be a string or a number"))
  end.

(** [try: int(v) except (TypeError, ValueError): d]. *)
Definition int_or (d : Z) (v : pyval) : res Z :=
  match py_int v with
  | Raise (TypeError _) | Raise (ValueError _) => Ok d
  | r => r
  end.

(** [float(s)] of a string. *)
Class PyFloatOfStr := py_float_of_str : pystr → res f64.

(** [float(v)]. *)
Definition py_float `{PyFloatOfStr} (v : pyval) : res f64 :=
  match v with
  | VBool b => Ok (if b then f1 else f0)
  | VInt z => py_float_of_Z z
  | VFloat x => Ok x
  | VStr s => py_float_of_str s
  | _ => Raise (TypeError (u "float() argument must be a string or a number"))
  end.

(** [list(v or [])] and, for an object or a false value, [dict(v or {})]. *)
Definition py_list_or_empty (v : pyval) : res (list pyval) :=
  if negb (truthy v) then Ok [] else
  match v with
  | VList l => Ok l
  | VDict d => Ok (VStr <$> d.*1)
  | VStr s => Ok ((λ c, VStr [c]) <$> s)
  | _ => Raise (TypeError (u "object is not iterable"))
  end.

(** [dict(v)] of a value that is not an object. *)
Class PyDictOf := py_dict_of : pyval → res (list (pystr * pyval)).

Definition py_dict_or_empty `{PyDictOf} (v : pyval) : res (list (pystr * pyval)) :=
  if negb (truthy v) then Ok [] else
  match v with VDict d => Ok d | _ => py_dict_of v end.

(** [v == w]: numbers compare across their types, objects whatever the order
    of their keys. *)
Definition num_of (v : pyval) : option (Z + f64) :=
  match v with
  | VBool b => Some (inl (if b then 1 else 0))
  | VInt z => Some (inl z)
  | VFloat x => Some (inr x)
  | _ => None
  end.

Definition num_eqb (a b : Z + f64) : bool :=
  match a, b with
  | inl x, inl y => x =? y
  | inr x, inr y => feqb x y
  | inl z, inr x | inr x, inl z => f_geb_Z x z && f_geb_Z (fneg x) (- z)
  end.

Fixpoint py_eq (v w : pyval) : bool :=
  match v, w with
  | VNone, VNone => true
  | VStr s, VStr t => bool_decide (s = t)
  | VList l, VList k =>
      (fix go l k := match l, k with
                     | [], [] => true
                     | x :: l', y :: k' => py_eq x y && go l' k'
                     | _, _ => false
                     end) l k
  | VDict d, VDict e =>
      (length d =? length e)%nat
      && forallb (λ kv, match dget kv.1 e with Some w => py_eq kv.2 w | None => false end) d
  | _, _ => match num_of v, num_of w with
            | Some a, Some b => num_eqb a b
            | _, _ => false
            end
  end.

(** Iterating over a value. *)
Definition py_iter (v : pyval) : res (list pyval) :=
  match v with
  | VList l => Ok l
  | VDict d => Ok (VStr <$> d.*1)
  | VStr s => Ok ((λ c, VStr [c]) <$> s)
  | _ => Raise (TypeError (u "object is not iterable"))
  end.

(** A decoded object. *)
Abbreviation pydict := (list (pystr * pyval)).

(** [v.get(...)] needs an object. *)
Definition as_dict (v : pyval) : res pydict :=
  match v with
  | VDict d => Ok d
  | _ => Raise (AttributeError (u "object has no attribute 'get'"))
  end.

(** [d.get(key, default)] of a decoded object. *)
Definition dict_get (key : pystr) (dflt : pyval) (d : list (pystr * pyval)) : pyval :=
  default dflt (dget key d).

(** [a or b]. *)
Definition py_or (a b : pyval) : pyval := if truthy a then a else b.

(** An event handed to an audit object's [append]: its type and payload. *)
Record audit_event := AuditEvent {
  ev_type : pystr;
  ev_payload : list (pystr * pyval)
}.

(** ** Lexicographic order of strings *)

Fixpoint str_leb (a b : pystr) : bool :=
  match a, b with
  | [], _ => true
  | _ :: _, [] => false
  | x :: a', y :: b' => (x <? y)%N || ((x =? y)%N && str_leb a' b')
  end.

Lemma str_leb_refl a : str_leb a a = true.
Proof. induction a as [|x a IH]; simpl; [done|]. rewrite IH. lia. Qed.

Lemma str_leb_total a b : str_leb a b = true ∨ str_leb b a = true.
Proof.
  revert b. induction a as [|x a IH]; intros [|y b]; simpl; auto.
  destruct (IH b) as [E|E]; rewrite E; lia.
Qed.

Lemma str_leb_trans a b c :
  str_leb a b = true → str_leb b c = true → str_leb a c = true.
Proof.
  revert b c. induction a as [|x a IH]; intros [|y b] [|z c]; simpl; try done.
  specialize (IH b c). destruct (str_leb a b), (str_leb b c), (str_leb a c); lia.
Qed.

Lemma str_leb_antisym a b : str_leb a b = true → str_leb b a = true → a = b.
Proof.
  revert b. induction a as [|x a IH]; intros [|y b]; simpl; try done.
  intros H1 H2. assert (x = y) as -> by lia. f_equal. apply IH; lia.
Qed.

(** ** Induction through containers *)

Lemma pyval_nested_ind (P : pyval → Prop) :
  P VNone → (∀ b, P (VBool b)) → (∀ z, P (VInt z)) → (∀ x, P (VFloat x)) →
  (∀ s, P (VStr s)) → (∀ l, Forall P l → P (VList l)) →
  (∀ d, Forall (λ kv, P kv.2) d → P (VDict d)) → ∀ v, P v.
Proof.
  intros H1 H2 H3 H4 H5 Hl Hd. fix go 1.
  intros [|b|z|x|s|l|d]; [done|apply H2|apply H3|apply H4|apply H5| |].
  - apply Hl. induction l; constructor; [apply go|done].
  - apply Hd. induction d as [|[k v] d IH]; constructor; [apply go|done].
Qed.

(** ** Values are countable *)

#[export] Instance f64_countable : Countable f64.
Proof.
  refine (inj_countable'
    (λ x, match x with
          | S754_zero s => inl (inl s) | S754_infinity s => inl (inr s)
          | S754_nan => inr (inl tt) | S754_finite s m e => inr (inr (s, m, e))
          end)
    (λ y, match y with
          | inl (inl s) => S754_zero s | inl (inr s) => S754_infinity s
          | inr (inl _) => S754_nan | inr (inr (s, m, e)) => S754_finite s m e
          end) _).
  by intros [].
Defined.

(** A value as a tree of scalars, and back. *)
Fixpoint pyval_tree (v : pyval) : gen_tree (unit + bool + Z + f64 + pystr) :=
  match v with
  | VNone => GenLeaf (inl (inl (inl (inl tt))))
  | VBool b => GenLeaf (inl (inl (inl (inr b))))
  | VInt z => GenLeaf (inl (inl (inr z)))
  | VFloat x => GenLeaf (inl (inr x))
  | VStr s => GenLeaf (inr s)
  | VList l => GenNode 0 (map pyval_tree l)
  | VDict d => GenNode 1 (map (λ kv, GenNode 2 [GenLeaf (inr kv.1); pyval_tree kv.2]) d)
  end.

Fixpoint tree_pyval (t : gen_tree (unit + bool + Z + f64 + pystr)) : pyval :=
  match t with
  | GenLeaf (inl (inl (inl (inr b)))) => VBool b
  | GenLeaf (inl (inl (inr z))) => VInt z
  | GenLeaf (inl (inr x)) => VFloat x
  | GenLeaf (inr s) => VStr s
  | GenNode 0 l => VList (map tree_pyval l)
  | GenNode 1 l => VDict (map (λ t, match t with
                                    | GenNode _ [GenLeaf (inr k); t'] => (k, tree_pyval t')
                                    | _ => ([], VNone)
                                    end) l)
  | _ => VNone
  end.

Lemma tree_pyval_tree v : tree_pyval (pyval_tree v) = v.
Proof.
  induction v as [| | | | |l IH|d IH] using pyval_nested_ind; try done; simpl; f_equal.
  - induction IH; simpl; [done|]. by f_equal.
  - induction IH as [|[k v] d Hv _ IH]; simpl; [done|]. simpl in Hv. by rewrite Hv, IH.
Qed.

#[export] Instance pyval_eq_dec : EqDecision pyval.
Proof.
  intros a b. destruct (decide (pyval_tree a = pyval_tree b)) as [E|E]; [left|right].
  - by rewrite <- (tree_pyval_tree a), E, tree_pyval_tree.
  - congruence.
Defined.

#[export] Instance pyval_countable : Countable pyval.
Proof. exact (inj_countable' pyval_tree tree_pyval tree_pyval_tree). Defined.
