(* ===== verification/NodeIdentity.v ===== *)
(** * Node identity ([src/node_identity.py])

    The one name of a node: the sanitiser every candidate passes, the file in
    the data directory that keeps it, and the order in which a stored name, the
    operator's choice and a generated name are preferred.  The random suffix is
    an argument. *)

From Stdlib Require Import ZArith Lia.
From S2P Require Import Prelude PyStr.

Local Open Scope nat_scope.

(** ** Ids *)

Definition MAX_LEN : nat := 48.

Definition DASH : N := 45%N.

(** [[a-z0-9-]]. *)
Definition id_char (c : N) : bool := is_lower c || is_digit c || (c =? DASH)%N.

(** [_NOT_ALLOWED.sub("-", s)]: each maximal run of other characters becomes
    one dash. *)
Fixpoint hyphenate (in_run : bool) (s : pystr) : pystr :=
  match s with
  | [] => []
  | c :: s' =>
      if id_char c then c :: hyphenate false s'
      else if in_run then hyphenate true s'
      else DASH :: hyphenate true s'
  end.

(** [_EDGES.sub("", s)] and [s.strip("-")]. *)
Definition trim_dashes (s : pystr) : pystr := strip_by (N.eqb DASH) s.

(** [x or y], for a text. *)
Definition text_or (s : pystr) (o : option pystr) : option pystr :=
  match s with [] => o | _ => Some s end.

(** [sanitize]. *)
Definition sanitize (raw : option pystr) (fallback : option pystr) : option pystr :=
  match lower (strip (default [] raw)) with
  | [] => fallback
  | text =>
      match trim_dashes (hyphenate false text) with
      | [] => fallback
      | id => text_or (trim_dashes (take MAX_LEN id)) fallback
      end
  end.

(** [is_valid]. *)
Definition is_valid (node_id : option pystr) : bool :=
  match node_id with
  | None | Some [] => false
  | Some s => bool_decide (sanitize (Some s) None = Some s)
  end.

(** ** The file *)

(** What opening [node_id.txt] finds: an [OSError], bytes that do not decode,
    or a text. *)
Inductive id_file :=
  | No_file
  | Undecodable
  | Id_text (s : pystr).

Record node_dir := NodeDir {
  nd_file : id_file;
  nd_writable : bool
}.

(** [read]; [None] is a node without a data directory. *)
Definition read (d : option node_dir) : res (option pystr) :=
  match d with
  | None => Ok None
  | Some d =>
      match nd_file d with
      | No_file => Ok None
      | Undecodable => Raise (ValueError (u "UnicodeDecodeError"))
      | Id_text s => Ok (sanitize (Some s) None)
      end
  end.

(** [_persist]: best effort. *)
Definition persist (node_id : pystr) (d : option node_dir) : option node_dir :=
  match d with
  | Some d => Some (if nd_writable d then NodeDir (Id_text (node_id ++ [10%N])) true else d)
  | None => None
  end.

(** The last resort: prefix, capabilities and suffix, cut to the length. *)
Definition generated (caps : option pystr) (prefix suffix : pystr) : pystr :=
  let named := match caps with None | Some [] => u "node" | Some c => c end in
  let base := default [] (sanitize (Some (prefix ++ u "-" ++ named)) (Some (prefix ++ u "-node"))) in
  trim_dashes (take MAX_LEN (base ++ u "-" ++ suffix)).

(** [load_or_create]; [token_hex] is what the random source answers. *)
Definition load_or_create (suggested caps : option pystr) (prefix : pystr) (suffix_chars : Z)
    (token_hex : Z → pystr) : py (option node_dir) pystr :=
  d ← get;
  stored ← of_res (read d);
  let choice := match suggested with None | Some [] => None | s => sanitize s None end in
  let keep id := put (persist id d) ;; mret id in
  match stored, choice with
  | Some s, Some c => if bool_decide (c = s) then mret s else keep c
  | Some s, None => mret s
  | None, Some c => keep c
  | None, None => keep (generated caps prefix (token_hex (Z.max 2 (suffix_chars / 2))))
  end.

(** ** Lemmas *)

Definition clean_id (s : pystr) : Prop :=
  s ≠ [] ∧ length s ≤ MAX_LEN ∧ Forall (λ c, id_char c = true) s ∧
  (∀ c, head s = Some c → c ≠ DASH) ∧ (∀ c, last s = Some c → c ≠ DASH).

Lemma hyphenate_chars b s : Forall (λ c, id_char c = true) (hyphenate b s).
Proof.
  revert b. induction s as [|c s IH]; intros b; simpl; [constructor|].
  destruct (id_char c) eqn:E; [by constructor|]. destruct b; [done|by constructor].
Qed.

Lemma hyphenate_id b s : Forall (λ c, id_char c = true) s → hyphenate b s = s.
Proof.
  intros Hs. revert b. induction Hs as [|c s Hc Hs IH]; intros b; simpl; [done|].
  by rewrite Hc, IH.
Qed.

Lemma id_char_lower s : Forall (λ c, id_char c = true) s → lower s = s.
Proof.
  induction 1 as [|c s Hc Hs IH]; [done|].
  unfold lower in *. cbn [mbind list_bind]. rewrite IH.
  cut (lower_cp c = [c]); [by intros ->|].
  unfold id_char, is_lower, is_digit, DASH in Hc. unfold lower_cp.
  repeat case_match; try done; exfalso; lia.
Qed.

Lemma id_char_not_space c : id_char c = true → is_space c = false.
Proof.
  unfold id_char, is_lower, is_digit, DASH, is_space. intros Hc. lia.
Qed.

Lemma trim_chars s :
  Forall (λ c, id_char c = true) s → Forall (λ c, id_char c = true) (trim_dashes s).
Proof.
  intros Hs. apply Forall_forall. intros c Hc%strip_by_subset. by eapply Forall_forall in Hs.
Qed.

Lemma trim_ends s :
  (∀ c, head (trim_dashes s) = Some c → c ≠ DASH) ∧
  (∀ c, last (trim_dashes s) = Some c → c ≠ DASH).
Proof.
  destruct (strip_by_ends (N.eqb DASH) s) as [Hh Hl].
  split; intros c Hc ->; [apply Hh in Hc|apply Hl in Hc]; by rewrite N.eqb_refl in Hc.
Qed.

Lemma trim_fixed s :
  (∀ c, head s = Some c → c ≠ DASH) → (∀ c, last s = Some c → c ≠ DASH) → trim_dashes s = s.
Proof.
  intros Hh Hl. apply strip_by_fixed; intros c Hc; apply N.eqb_neq; intros <-;
    [by apply (Hh DASH)|by apply (Hl DASH)].
Qed.

(** A cut text with its edges trimmed is clean, when anything is left. *)
Lemma cut_clean s :
  Forall (λ c, id_char c = true) s → trim_dashes (take MAX_LEN s) ≠ [] →
  clean_id (trim_dashes (take MAX_LEN s)).
Proof.
  intros Hs Hne. destruct (trim_ends (take MAX_LEN s)) as [Hh Hl].
  split_and!; [done| |by apply trim_chars, Forall_take|done|done].
  etrans; [apply strip_by_length|]. rewrite length_take. lia.
Qed.

Lemma sanitize_cases raw fallback :
  sanitize raw fallback = fallback ∨ ∃ t, sanitize raw fallback = Some t ∧ clean_id t.
Proof.
  unfold sanitize. destruct (lower _) as [|c0 s]; [by left|].
  set (h := trim_dashes (hyphenate false (c0 :: s))).
  assert (Forall (λ c, id_char c = true) h) as Hh by apply trim_chars, hyphenate_chars.
  destruct h as [|c h]; [by left|].
  destruct (trim_dashes (take MAX_LEN (c :: h))) as [|c' t] eqn:E; [by left|].
  right. exists (c' :: t). split; [done|]. rewrite <- E.
  apply cut_clean; [done|by rewrite E].
Qed.

Lemma clean_ends s : clean_id s →
  (∀ c, head s = Some c → is_space c = false) ∧ (∀ c, last s = Some c → is_space c = false).
Proof.
  intros (Hne & _ & Hc & _). split; intros c E; apply id_char_not_space;
    eapply (proj1 (Forall_forall _ _) Hc).
  - destruct s; [done|]. injection E as ->. left.
  - by apply last_Some_elem_of.
Qed.

(** A clean id is its own sanitised form, also with a line end after it. *)
Lemma sanitize_clean_of s t : clean_id s → strip t = s → sanitize (Some t) None = Some s.
Proof.
  intros (Hne & Hlen & Hc & Hh & Hl) E. unfold sanitize.
  change (default [] (Some t)) with t. rewrite E.
  rewrite id_char_lower by done. destruct s as [|c0 s0]; [done|].
  rewrite hyphenate_id, trim_fixed by done. cbv zeta beta iota.
  rewrite take_ge, trim_fixed by done. done.
Qed.

Lemma sanitize_clean s : clean_id s → sanitize (Some s) None = Some s.
Proof. intros Hs. apply sanitize_clean_of; [done|]. by apply strip_by_fixed; apply clean_ends. Qed.

Lemma sanitize_line s : clean_id s → sanitize (Some (s ++ [10%N])) None = Some s.
Proof.
  intros Hs. apply sanitize_clean_of; [done|]. destruct (clean_ends s Hs) as [Hh Hl].
  unfold strip, strip_by. rewrite (lstrip_id is_space).
  - unfold rstrip. rewrite rev_app_distr. cbn [rev app lstrip]. rewrite lstrip_id.
    + apply rev_involutive.
    + intros c s' E. apply Hl. rewrite <- (rev_involutive s), E. simpl. apply last_snoc.
  - intros c s' E. apply Hh. destruct Hs as [Hne _]. destruct s; [done|]. by injection E as ->.
Qed.

Lemma valid_clean s : is_valid (Some s) = true ↔ clean_id s.
Proof.
  split.
  - unfold is_valid. destruct s as [|c s]; [done|]. intros Hs%bool_decide_eq_true_1.
    destruct (sanitize_cases (Some (c :: s)) None) as [E|(t & E & Ht)]; congruence.
  - intros Hs. pose proof (sanitize_clean s Hs) as E. destruct s as [|c s]; [by destruct Hs|].
    unfold is_valid. by rewrite bool_decide_eq_true_2.
Qed.

Lemma read_clean d s : read d = Ok (Some s) → clean_id s.
Proof.
  unfold read. destruct d as [[[| |t] w]|]; simpl; try done. intros [= E].
  destruct (sanitize_cases (Some t) None) as [E'|(t' & E' & Ht)]; congruence.
Qed.

Lemma generated_base caps suffix :
  ∃ base, clean_id base ∧ generated caps (u "shugo") suffix
                          = trim_dashes (take MAX_LEN (base ++ u "-" ++ suffix)).
Proof.
  unfold generated. eexists. split; [|done].
  match goal with |- context [sanitize ?a ?b] => destruct (sanitize_cases a b) as [->|(t & -> & Ht)] end;
    [|done].
  cbn [default]. apply valid_clean. reflexivity.
Qed.

(** ** Theorems *)

(** What the sanitiser accepts is a valid id: lower-case letters, digits
    and dashes, at most 48, no dash at an edge; the sanitiser keeps it, also
    with the line end of the file it is stored in, and an id is valid exactly
    when it has that form.  Otherwise the fallback is answered as it is. *)
Theorem sanitize_idempotent raw fallback s :
  (sanitize raw fallback = fallback ∨
   ∃ t, sanitize raw fallback = Some t ∧ is_valid (Some t) = true ∧
        sanitize (Some (t ++ [10%N])) None = Some t) ∧
  (is_valid (Some s) = true ↔
   s ≠ [] ∧ length s ≤ MAX_LEN ∧ Forall (λ c, id_char c = true) s ∧
   head s ≠ Some DASH ∧ last s ≠ Some DASH).
Proof.
  split.
  - destruct (sanitize_cases raw fallback) as [E|(t & E & Ht)]; [by left|right].
    exists t. split_and!; [done|by apply valid_clean|by apply sanitize_line].
  - rewrite valid_clean. unfold clean_id. naive_solver.
Qed.

(** The operator's choice is adopted, even over a stored name; without
    one the stored name is kept.  A name that was chosen or generated and
    could be written is what every later start answers, unless the operator
    says otherwise: the identity survives restarts. *)
Theorem identity_stable suggested caps prefix chars hex d :
  let '(d', r) := load_or_create suggested caps prefix chars hex d in
  match r with
  | Raise e => d' = d ∧ read d = Raise e
  | Ok id =>
      (∀ c t, suggested = Some (c :: t) → sanitize (Some (c :: t)) None ≠ None →
        Some id = sanitize (Some (c :: t)) None) ∧
      (∀ s, read d = Ok (Some s) → suggested = None → id = s ∧ d' = d) ∧
      (∀ n, d = Some n → nd_writable n = true → is_valid (Some id) = true →
        ∀ caps' prefix' chars' hex',
          load_or_create None caps' prefix' chars' hex' d' = (d', Ok id))
  end.
Proof.
  assert (∀ id n, d = Some n → nd_writable n = true → is_valid (Some id) = true →
    ∀ caps' prefix' chars' hex',
      load_or_create None caps' prefix' chars' hex' (persist id d) = (persist id d, Ok id))
    as Hkept.
  { intros id n -> Hw Hv caps' prefix' chars' hex'. unfold persist. rewrite Hw.
    unfold load_or_create. py_unfold. cbn [read nd_file of_res].
    by rewrite sanitize_line by by apply valid_clean. }
  unfold load_or_create. py_unfold. unfold of_res.
  destruct (read d) as [o|e] eqn:Er; [|done].
  set (choice := match suggested with None | Some [] => None | s => sanitize s None end).
  assert (∀ c t, suggested = Some (c :: t) → choice = sanitize (Some (c :: t)) None) as Hc.
  { by intros c t ->. }
  assert (suggested = None → choice = None) as Hn by by intros ->.
  assert (∀ s, o = Some s → ∀ caps' prefix' chars' hex',
    load_or_create None caps' prefix' chars' hex' d = (d, Ok s)) as Hs.
  { intros s -> *. unfold load_or_create. py_unfold. unfold of_res. by rewrite Er. }
  clearbody choice.
  destruct o as [s|], choice as [c|]; try case_bool_decide; subst; cbn [fst snd];
    (split_and!;
     [intros c' t' E Hne; specialize (Hc _ _ E); congruence
     |intros s' E E'; try (specialize (Hn E')); by simplify_eq
     |intros n En Hw Hv; try (by eapply Hkept); intros; by apply Hs]).
Qed.

(** A node named automatically under the default prefix always gets a valid
    id, whatever its capability string holds. *)
Theorem generated_valid caps suffix :
  Forall (λ c, id_char c = true) suffix → is_valid (Some (generated caps (u "shugo") suffix)) = true.
Proof.
  intros Hs. destruct (generated_base caps suffix) as (base & Hb & ->).
  destruct Hb as (Hne & _ & Hc & Hh & _). apply valid_clean, cut_clean.
  - apply Forall_app. split; [done|]. apply Forall_app. split; [|done]. by repeat constructor.
  - destruct base as [|c base]; [done|]. cbn [app take MAX_LEN].
    unfold trim_dashes, strip_by. cbn [lstrip].
    destruct (N.eqb_spec DASH c) as [<-|Hd]; [by destruct (Hh DASH)|].
    intros E. pose proof (rstrip_prefix (N.eqb DASH) (c :: take 47 (base ++ u "-" ++ suffix)))
      as (t & E' & Ht). rewrite E in E'. simpl in E'. subst t.
    apply Forall_cons in Ht as [Ht _]. by apply N.eqb_eq in Ht.
Qed.

(** A capability string that fills the id leaves no room for the suffix:
    two nodes with different random suffixes get the same name. *)
Theorem suffix_lost caps prefix base s1 s2 :
  sanitize (Some (prefix ++ u "-" ++ caps)) (Some (prefix ++ u "-node")) = Some base →
  caps ≠ [] → length base = MAX_LEN →
  generated (Some caps) prefix s1 = generated (Some caps) prefix s2.
Proof.
  intros Hb Hc Hl. unfold generated. destruct caps as [|c caps]; [done|]. rewrite Hb.
  cbn [default]. rewrite !(take_app_le base) by (rewrite Hl; lia). done.
Qed.

(** ** Witnesses *)

Lemma generated_valid_witness :
  is_valid (Some (generated (Some (u "Unknown (s5e8835)")) (u "shugo") (u "9f3a"))) = true.
Proof. apply (generated_valid (Some (u "Unknown (s5e8835)")) (u "9f3a")). by repeat constructor. Defined.

Lemma suffix_lost_witness :
  let caps := u "Pixel 8 Pro (zuma; Mali-G715; 12GB; Android 15)" in
  generated (Some caps) (u "shugo") (u "9f3a") = generated (Some caps) (u "shugo") (u "0b71").
Proof.
  apply (suffix_lost (u "Pixel 8 Pro (zuma; Mali-G715; 12GB; Android 15)") (u "shugo")
           (u "shugo-pixel-8-pro-zuma-mali-g715-12gb-android-15")); [reflexivity|done|reflexivity].
Defined.

Example generated_name :
  generated (Some (u "Unknown (s5e8835)")) (u "shugo") (u "9f3a")
  = u "shugo-unknown-s5e8835-9f3a".
Proof. reflexivity. Qed.
