(* ===== verification/Security.v ===== *)
(** * Security primitives ([src/security.py])

    Text sanitising, redaction of secrets (the two regular expressions are
    matched by hand-written executable matchers, case-insensitively as the
    [re] module does), the secret resolver, URL allowlisting, the token-bucket
    rate limiter, the circuit breaker and the bounded retry.  Each reading of
    [time.monotonic()] is an argument. *)

From Stdlib Require Import Floats.SpecFloat.
From S2P Require Import Prelude PyFloat PyStr PyVal.

(** ** Sanitising *)

Definition MAX_TEXT_LENGTH : Z := 2000.

Definition is_control (c : N) : bool := (c <? 32)%N || (c =? 127)%N.

(** [_UNICODE_INVISIBLE_PATTERN]. *)
Definition is_invisible (c : N) : bool :=
  ((c =? 0xad) || (0x200b <=? c) && (c <=? 0x200f) || (0x202a <=? c) && (c <=? 0x202e)
   || (0x2060 <=? c) && (c <=? 0x2064) || (0x2066 <=? c) && (c <=? 0x2069)
   || (c =? 0xfeff))%N.

(** [re.sub(r" {2,}", " ", s)]. *)
Fixpoint collapse_spaces (s : pystr) : pystr :=
  match s with
  | [] => []
  | c :: s' =>
      match s' with
      | c' :: _ => if (c =? 32)%N && (c' =? 32)%N then collapse_spaces s'
                   else c :: collapse_spaces s'
      | [] => [c]
      end
  end.

(** [sanitize_text] of a text and a length limit. *)
Definition sanitize_text (text : pystr) (max_length : Z) : pystr :=
  let cleaned := (λ c, if is_control c then 32%N else c) <$> text in
  let cleaned := List.filter (λ c, negb (is_invisible c)) cleaned in
  take (Z.to_nat (Z.max 0 max_length)) (strip (collapse_spaces cleaned)).

(** ** Redaction *)

Definition REDACTED : pystr := u "***REDACTED***".

(** One lower-case ASCII literal character against a character, ignoring
    case as [re.IGNORECASE] does on Unicode strings. *)
Definition ci_char (l c : N) : bool :=
  ((c =? l) || (97 <=? l) && (l <=? 122) && (c =? l - 32)
   || (l =? 107) && (c =? 0x212a) || (l =? 115) && (c =? 0x17f)
   || (l =? 105) && ((c =? 0x130) || (c =? 0x131)))%N.

(** A literal at the head of the text: what it matched and the rest. *)
Fixpoint lit (l s : pystr) : option (pystr * pystr) :=
  match l, s with
  | [], _ => Some ([], s)
  | a :: l', c :: s' =>
      if ci_char a c then
        match lit l' s' with Some (m, r) => Some (c :: m, r) | None => None end
      else None
  | _ :: _, [] => None
  end.

(** The first alternative that matches. *)
Fixpoint first_lit (ls : list pystr) (s : pystr) : option (pystr * pystr) :=
  match ls with
  | [] => None
  | l :: ls' => match lit l s with Some r => Some r | None => first_lit ls' s end
  end.

Definition secret_key_words : list pystr :=
  [u "api-key"; u "api_key"; u "apikey"; u "authorization"; u "token"; u "secret";
   u "password"; u "credential"].

(** [_SECRET_KEY_PATTERN.search(key)]. *)
Fixpoint secret_key (s : pystr) : bool :=
  match first_lit secret_key_words s with
  | Some _ => true
  | None => match s with [] => false | _ :: s' => secret_key s' end
  end.

Definition secret_labels : list pystr :=
  [u "api-key"; u "api_key"; u "apikey"; u "access_token"; u "token"; u "password";
   u "authorization"].

Definition secret_schemes : list pystr := [u "bearer"; u "basic"; u "token"].

(** [\s*[=:]\s*]. *)
Definition match_sep (s : pystr) : option (pystr * pystr) :=
  let '(w1, r) := span is_space s in
  match r with
  | c :: r' => if ((c =? 61) || (c =? 58))%N then
                 let '(w2, r2) := span is_space r' in Some (w1 ++ c :: w2, r2)
               else None
  | [] => None
  end.

(** [[^\s&,...]] : neither a space, an ampersand, a comma nor a quote. *)
Definition secret_char (c : N) : bool :=
  negb (is_space c || ((c =? 38) || (c =? 44) || (c =? 34) || (c =? 39)))%N.

(** The secret after the separator, with its scheme word when one is
    followed by space and a secret; otherwise the scheme word is itself the
    secret. *)
Definition match_secret (s : pystr) : option (pystr * pystr) :=
  let plain :=
    match span secret_char s with
    | ([], _) => None
    | (_, r) => Some (REDACTED, r)
    end in
  match first_lit secret_schemes s with
  | Some (scheme, r) =>
      match span is_space r with
      | ([], _) => plain
      | (_, r') => match span secret_char r' with
                   | ([], _) => plain
                   | (_, r'') => Some (scheme ++ u " " ++ REDACTED, r'')
                   end
      end
  | None => plain
  end.

(** [_SECRET_IN_TEXT_PATTERN] at the head of the text: the replacement and
    the rest. *)
Definition match_credential (s : pystr) : option (pystr * pystr) :=
  match first_lit secret_labels s with
  | None => None
  | Some (label, r) =>
      match match_sep r with
      | None => None
      | Some (sep, r') =>
          match match_secret r' with
          | None => None
          | Some (m, r'') => Some (label ++ sep ++ m, r'')
          end
      end
  end.

(** [_SECRET_IN_TEXT_PATTERN.sub(...)]: left to right, without overlap; the
    first argument counts the characters of a match still to be skipped. *)
Fixpoint redact_go (skip : nat) (s : pystr) : pystr :=
  match s with
  | [] => []
  | c :: s' =>
      match skip with
      | S k => redact_go k s'
      | O => match match_credential s with
             | Some (m, r) => m ++ redact_go (length s' - length r) s'
             | None => c :: redact_go 0 s'
             end
      end
  end.

Definition redact_text (s : pystr) : pystr := redact_go 0 s.

(** [redact]. *)
Fixpoint redact (v : pyval) : pyval :=
  match v with
  | VDict d => VDict (map (λ kv, (kv.1, if secret_key kv.1 then VStr REDACTED
                                        else redact kv.2)) d)
  | VList l => VList (map redact l)
  | VStr s => VStr (redact_text s)
  | _ => v
  end.

(** ** Secrets *)

Record SecretResolver := Resolver {
  overrides : list (pystr * pystr);
  env_prefix : pystr
}.

(** [_ENV_NAME_PATTERN.match]: up to 64 identifier characters; [$] also
    matches before a final newline. *)
Definition env_start (c : N) : bool :=
  ((65 <=? c) && (c <=? 90) || (97 <=? c) && (c <=? 122) || (c =? 95))%N.
Definition env_char (c : N) : bool := env_start c || ((48 <=? c) && (c <=? 57))%N.
Definition env_name (s : pystr) : bool :=
  match s with
  | [] => false
  | c :: s' =>
      let '(body, rest) := span env_char s' in
      env_start c && (length body <=? 63)%nat
      && match rest with [] => true | [10%N] => true | _ => false end
  end.

Definition non_empty (o : option pystr) : option pystr :=
  match o with Some [] => None | _ => o end.

Section Secrets.
(** [os.environ]. *)
Context (environ : pystr → option pystr).

Definition resolver_set (name value : pystr) (r : SecretResolver) : SecretResolver :=
Resolver (dset name value (overrides r)) (env_prefix r).

(** [SecretResolver.get]. *)
Definition resolver_get (name : pystr) (dflt : option pystr) (r : SecretResolver) :
option pystr :=
match non_empty (dget name (overrides r)) with
| Some v => Some v
| None =>
  match non_empty (environ (env_prefix r ++ upper name)) with
  | Some v => Some v
  | None =>
      if env_name name then
        match non_empty (environ (upper name)) with Some v => Some v | None => dflt end
      else dflt
  end
end.

(** [SecretResolver.require]. *)
Definition resolver_require (name : pystr) (r : SecretResolver) : res pystr :=
match non_empty (resolver_get name None r) with
| Some v => Ok v
| None => Raise (KeyError (u "Required secret '" ++ name ++ u "' is not configured (set "
                         ++ env_prefix r ++ upper name ++ u ")."))
end.
End Secrets.

(** ** URLs *)

(** What [urllib.parse.urlparse] reports of a URL; [port] raises on a
    malformed port. *)
Record parsed_url := Parsed {
  scheme : pystr;
  hostname : option pystr;
  username : option pystr;
  password : option pystr;
  port : res (option Z)
}.

Definition opt_truthy (o : option pystr) : bool :=
  match non_empty o with Some _ => true | None => false end.

(** One allowlist entry: an exact host or a [*.] suffix. *)
Definition host_matches (host entry : pystr) : bool :=
  let entry := lower entry in
  if starts_with (u "*.") entry then
    bool_decide (host = drop 2 entry) || ends_with (u "." ++ drop 2 entry) host
  else bool_decide (host = entry).

Section Urls.
Context (urlparse : pystr → res parsed_url).

(** [validate_url]. *)
Definition validate_url (url : pystr) (allowed_hosts allowed_schemes : list pystr) :
res (bool * pystr) :=
match urlparse url with
| Raise (ValueError _) => Ok (false, u "unparseable URL")
| Raise e => Raise e
| Ok p =>
  if negb (bool_decide (scheme p ∈ allowed_schemes)) then
    Ok (false, u "URL scheme '" ++ (match scheme p with [] => u "none" | s => s end)
               ++ u "' is not allowed")
  else match non_empty (hostname p) with
  | None => Ok (false, u "URL has no host")
  | Some host =>
      if opt_truthy (username p) || opt_truthy (password p) then
        Ok (false, u "credentials embedded in URL are not allowed")
      else if existsb (host_matches (lower host)) allowed_hosts then Ok (true, [])
      else Ok (false, u "host '" ++ lower host ++ u "' is not in the allowlist")
  end
end.
End Urls.

(** ** Rate limiting *)

Record RateLimiter := Limiter {
  rate : f64;
  capacity : Z;
  buckets : list (pystr * (f64 * f64))
}.

Definition new_rate_limiter (calls_per_minute : f64) (burst : Z) : RateLimiter :=
  Limiter (fdiv (fmax (f_dec 1 2) calls_per_minute) (f_of_Z 60)) (Z.max 1 burst) [].

(** [min(self.capacity, x)]. *)
Definition cap_tokens (capacity : Z) (x : f64) : f64 :=
  if f_is_nan x || f_geb_Z x capacity then f_of_Z capacity else x.

(** One pass of [acquire] under the lock: [fresh] is the reading a new key's
    bucket starts at. Returns the wait needed when there is no token.  The
    burst is an integer a float can hold. *)
Definition try_acquire (key : pystr) (fresh now : f64) (l : RateLimiter) :
    RateLimiter * option f64 :=
  let '(tokens, last) := default (f_of_Z (capacity l), fresh) (dget key (buckets l)) in
  let tokens := cap_tokens (capacity l) (fadd tokens (fmul (fsub now last) (rate l))) in
  if fleb f1 tokens then
    (Limiter (rate l) (capacity l) (dset key (fsub tokens f1, now) (buckets l)), None)
  else (l, Some (fdiv (fsub f1 tokens) (rate l))).

(** [acquire]: the clock's readings pass by pass (for a new bucket, under the
    lock, after it); [None] when they run out before the call returns.  The
    second result is the list of sleeps. *)
Fixpoint acquire_loop (key : pystr) (deadline : f64) (clock : list (f64 * f64 * f64))
    (l : RateLimiter) : RateLimiter * option bool * list f64 :=
  match clock with
  | [] => (l, None, [])
  | (fresh, now, after) :: rest =>
      match try_acquire key fresh now l with
      | (l', None) => (l', Some true, [])
      | (l', Some wait) =>
          let remaining := fsub deadline after in
          if fleb remaining f0 then (l', Some false, [])
          else let '(r, sleeps) := acquire_loop key deadline rest l' in
               (r, fmin (fmin wait remaining) (f_dec 5 1) :: sleeps)
      end
  end.

Definition acquire (key : pystr) (timeout start : f64) (clock : list (f64 * f64 * f64))
    (l : RateLimiter) : RateLimiter * option bool * list f64 :=
  acquire_loop key (fadd start (fmax f0 timeout)) clock l.

(** ** Circuit breaker *)

Record CircuitBreaker := Breaker {
  failure_threshold : Z;
  reset_timeout : f64;
  failures : Z;
  opened_at : option f64
}.

Definition new_breaker (threshold : Z) (reset : f64) : CircuitBreaker :=
  Breaker (Z.max 1 threshold) (fmax f0 reset) 0 None.

Definition with_count (n : Z) (o : option f64) (b : CircuitBreaker) : CircuitBreaker :=
  Breaker (failure_threshold b) (reset_timeout b) n o.

(** [allow]. *)
Definition allow (now : f64) (b : CircuitBreaker) : CircuitBreaker * bool :=
  match opened_at b with
  | None => (b, true)
  | Some t =>
      if fleb (reset_timeout b) (fsub now t)
      then (with_count (failure_threshold b - 1) None b, true)
      else (b, false)
  end.

(** [is_open]. *)
Definition is_open (now : f64) (b : CircuitBreaker) : bool :=
  match opened_at b with
  | None => false
  | Some t => fltb (fsub now t) (reset_timeout b)
  end.

Definition record_success (b : CircuitBreaker) : CircuitBreaker := with_count 0 None b.

(** [record_failure]. *)
Definition record_failure (now : f64) (b : CircuitBreaker) : CircuitBreaker :=
  let n := (failures b + 1)%Z in
  with_count n (if (failure_threshold b <=? n)%Z then Some now else opened_at b) b.

(** ** Retry *)

Section Retry.
Context {St A : Type}.
Context (fn : py St A) (sleep : f64 → py St unit) (retry_on : exn → bool).
Context (attempts : Z) (base_delay max_delay : f64).

(** [min(max_delay, base_delay * (2 ** attempt))]. *)
Definition backoff (k : Z) : res f64 :=
match py_float_of_Z (2 ^ k) with
| Ok p => Ok (fmin max_delay (fmul base_delay p))
| Raise e => Raise e
end.

Definition lift_res {B} (r : res B) : py St B := λ s, (s, r).

Fixpoint retry_loop (todo : list Z) (last : option exn) : py St A :=
match todo with
| [] => raise (default (TypeError (u "exceptions must derive from BaseException")) last)
| k :: rest => λ s,
  match fn s with
  | (s', Ok a) => (s', Ok a)
  | (s', Raise e) =>
      if retry_on e then
        if (k =? attempts - 1)%Z then (s', Raise e)
        else (d ← lift_res (backoff k); sleep d ;; retry_loop rest (Some e)) s'
      else (s', Raise e)
  end
end.

(** [retry_with_backoff]. *)
Definition retry_with_backoff : py St A :=
retry_loop (Z.of_nat <$> seq 0 (Z.to_nat (Z.max 1 attempts))) None.
End Retry.

(** ** Facts about sanitising *)

(** Neighbours are never both a space. *)
Fixpoint no_double (s : pystr) : bool :=
  match s with
  | c :: ((c' :: _) as s') => negb ((c =? 32)%N && (c' =? 32)%N) && no_double s'
  | _ => true
  end.

Lemma collapse_eq c c' s :
  collapse_spaces (c :: c' :: s) =
  if (c =? 32)%N && (c' =? 32)%N then collapse_spaces (c' :: s)
  else c :: collapse_spaces (c' :: s).
Proof. done. Qed.

Lemma collapse_head c s : head (collapse_spaces (c :: s)) = Some c.
Proof.
  revert c. induction s as [|c' s IH]; intros c; [done|].
  rewrite collapse_eq. destruct ((c =? 32) && (c' =? 32))%N eqn:E; [|done].
  rewrite IH. f_equal. lia.
Qed.

Lemma collapse_no_double s : no_double (collapse_spaces s) = true.
Proof.
  induction s as [|c s IH]; [done|].
  destruct s as [|c' s]; [done|]. rewrite collapse_eq.
  destruct ((c =? 32) && (c' =? 32))%N eqn:E; [done|].
  pose proof (collapse_head c' s) as Hh.
  destruct (collapse_spaces (c' :: s)) as [|h t]; simplify_eq/=. by rewrite E.
Qed.

Lemma collapse_subset s c : c ∈ collapse_spaces s → c ∈ s.
Proof.
  induction s as [|c0 s IH]; [done|].
  destruct s as [|c' s]; [done|]. rewrite collapse_eq. case_match; set_solver.
Qed.

Lemma no_double_infix a m b : no_double (a ++ m ++ b) = true → no_double m = true.
Proof.
  induction a as [|c a IH]; simpl.
  - induction m as [|c m IHm]; [done|]. destruct m as [|c' m]; [done|].
    simpl in *. intros [? ?]%andb_true_iff. rewrite IHm by done. lia.
  - intros H. apply IH. destruct (a ++ m ++ b); [done|]. lia.
Qed.

Lemma take_infix {A} n (s : list A) : ∃ b, s = take n s ++ b.
Proof. exists (drop n s). by rewrite take_drop. Qed.

(** ** Facts about redaction *)

(** Every value under a secret-looking key is the mask, at every depth. *)
Fixpoint masked (v : pyval) : bool :=
  match v with
  | VDict d => forallb (λ kv, if secret_key kv.1
                              then match kv.2 with VStr s => bool_decide (s = REDACTED)
                                                 | _ => false end
                              else masked kv.2) d
  | VList l => forallb masked l
  | _ => true
  end.

Lemma redact_masked v : masked (redact v) = true.
Proof.
  induction v as [| | | | |l IH|d IH] using pyval_nested_ind; try done; simpl.
  - induction IH as [|x l Hx Hl IH]; simpl; [done|]. by rewrite Hx.
  - induction IH as [|[k v] d Hx Hl IH]; simpl; [done|].
    apply andb_true_iff. split; [|done]. simpl in *.
    destruct (secret_key k); [|done]. by rewrite bool_decide_eq_true_2.
Qed.

(** What the masks hide is the only thing that matters: redacting an object
    keeps its keys in their order. *)
Lemma redact_keys d : ∃ d', redact (VDict d) = VDict d' ∧ d'.*1 = d.*1.
Proof.
  eexists. split; [done|]. induction d as [|[k v] d IH]; csimpl; [done|]. by rewrite IH.
Qed.

(** The labels and schemes as the log line spells them. *)
Definition plain_labels : list pystr :=
  [u "api-key"; u "api_key"; u "apikey"; u "token"; u "password"; u "authorization"].

Lemma match_secret_plain s :
  s ≠ [] → Forall (λ c, secret_char c = true) s →
  (∀ sc r, first_lit secret_schemes s = Some (sc, r) → span is_space r = ([], r)) →
  match_secret s = Some (REDACTED, []).
Proof.
  intros Hne Hs Hf. unfold match_secret.
  rewrite (span_all _ _ Hs). destruct (first_lit secret_schemes s) as [[sc r]|] eqn:E.
  - rewrite (Hf sc r eq_refl). destruct s; [done|done].
  - by destruct s.
Qed.

Lemma first_lit_rest ls s m r : first_lit ls s = Some (m, r) → s = m ++ r.
Proof.
  induction ls as [|l ls IH]; [done|]. cbn [first_lit].
  destruct (lit l s) as [[m' r']|] eqn:E; [|done]. intros ?; simplify_eq. clear IH.
  revert s m r E. induction l as [|a l IH]; intros s m r E; [by simplify_eq/=|].
  destruct s as [|c s]; simpl in E; [done|]. destruct (ci_char a c); [|done].
  destruct (lit l s) as [[m' r']|] eqn:El; simplify_eq/=. f_equal. by apply IH.
Qed.

Lemma secret_char_not_space c : secret_char c = true → is_space c = false.
Proof. unfold secret_char. destruct (is_space c); [|done]. simpl. lia. Qed.

Lemma scheme_no_space s sc r :
  Forall (λ c, secret_char c = true) s →
  first_lit secret_schemes s = Some (sc, r) → span is_space r = ([], r).
Proof.
  intros Hs ->%first_lit_rest. apply Forall_app in Hs as [_ Hr].
  destruct Hr as [|c r Hc _]; [done|]. simpl. by rewrite (secret_char_not_space _ Hc).
Qed.

Lemma redact_go_skip s k : length s ≤ k → redact_go k s = [].
Proof.
  revert k. induction s as [|c s IH]; intros k Hk; [done|].
  simpl in Hk. destruct k as [|k]; [lia|]. simpl. apply IH. lia.
Qed.

(** A match that takes the whole text. *)
Lemma redact_whole s m : s ≠ [] → match_credential s = Some (m, []) → redact_text s = m.
Proof.
  intros Hne E. unfold redact_text. destruct s as [|c s]; [done|].
  cbn [redact_go]. rewrite E. rewrite redact_go_skip, app_nil_r; [done|simpl; lia].
Qed.

Lemma first_label l x : l ∈ plain_labels → first_lit secret_labels (l ++ x) = Some (l, x).
Proof.
  unfold plain_labels. rewrite !elem_of_cons, elem_of_nil.
  intros H. repeat destruct H as [->|H]; [reflexivity..|done].
Qed.

Lemma first_scheme l x : l ∈ secret_schemes → first_lit secret_schemes (l ++ x) = Some (l, x).
Proof.
  unfold secret_schemes. rewrite !elem_of_cons, elem_of_nil.
  intros H. repeat destruct H as [->|H]; [reflexivity..|done].
Qed.

Lemma secret_nospace s :
  Forall (λ c, secret_char c = true) s → ∀ c b, s = c :: b → is_space c = false.
Proof. intros Hs c b ->. inversion Hs; subst. by apply secret_char_not_space. Qed.

Lemma sanitize_length text n : length (sanitize_text text n) ≤ Z.to_nat n.
Proof. unfold sanitize_text. rewrite length_take. lia. Qed.

Lemma sanitize_at_most text n m : Z.to_nat n ≤ m → length (sanitize_text text n) ≤ m.
Proof. pose proof (sanitize_length text n). lia. Qed.

(** ** Theorems: text *)

(** Sanitised text fits its limit, holds no control and no invisible
    character, never two spaces in a row, and does not start with a space. *)
Theorem sanitize_text_clean text n :
  let t := sanitize_text text n in
  (Z.of_nat (length t) ≤ Z.max 0 n)%Z ∧
  (∀ c, c ∈ t → is_control c = false ∧ is_invisible c = false) ∧
  no_double t = true ∧
  (∀ c, head t = Some c → is_space c = false).
Proof.
  simpl. unfold sanitize_text.
  set (cleaned := List.filter _ _).
  assert (∀ c, c ∈ cleaned → is_control c = false ∧ is_invisible c = false) as Hc.
  { intros c Hin. unfold cleaned in Hin. apply list_elem_of_In, List.filter_In in Hin.
    destruct Hin as [Hin Hv]. apply list_elem_of_In, list_elem_of_fmap in Hin as (c0 & -> & _).
    split; [|by destruct (is_invisible _)]. by destruct (is_control c0) eqn:E. }
  set (s := collapse_spaces cleaned). set (k := Z.to_nat (Z.max 0 n)).
  destruct (strip_by_infix is_space s) as (a & b & E).
  destruct (take_infix k (strip s)) as (b' & E').
  split_and!.
  - rewrite length_take. lia.
  - intros c Hin. apply Hc, collapse_subset. fold s. apply (strip_by_subset is_space).
    fold (strip s). rewrite E'. set_solver.
  - apply (no_double_infix [] _ b'). simpl. rewrite <- E'.
    apply (no_double_infix a _ b). unfold strip. rewrite <- E. apply collapse_no_double.
  - intros c Hh. destruct k; [done|].
    destruct (strip_by_ends is_space s) as [He _]. apply He.
    fold (strip s). destruct (strip s); [done|]. exact Hh.
Qed.

(** Redaction masks every value filed under a secret-looking key, at
    every depth of the object, and keeps the keys of each object. *)
Theorem redact_masks_keys v :
  masked (redact v) = true ∧
  ∀ d, v = VDict d → ∃ d', redact v = VDict d' ∧ d'.*1 = d.*1.
Proof. split; [apply redact_masked|]. intros d ->. apply redact_keys. Qed.

(** A credential written in a log line is masked whole: after a label
    and an equals sign, and also when a scheme word stands between the label
    and the secret. *)
Theorem redact_text_masks_credential label sc secret :
  label ∈ plain_labels → sc ∈ secret_schemes →
  secret ≠ [] → Forall (λ c, secret_char c = true) secret →
  redact_text (label ++ u "=" ++ secret) = label ++ u "=" ++ REDACTED ∧
  redact_text (label ++ u ": " ++ sc ++ u " " ++ secret)
    = label ++ u ": " ++ sc ++ u " " ++ REDACTED.
Proof.
  intros Hl Hsc Hne Hs.
  pose proof (secret_nospace _ Hs) as Hns.
  assert (label ++ u "=" ++ secret ≠ []) as H1 by (intros E; destruct label; done).
  assert (label ++ u ": " ++ sc ++ u " " ++ secret ≠ []) as H2
    by (intros E; destruct label; done).
  split; (apply redact_whole; [done|]); unfold match_credential;
    rewrite first_label by done; unfold match_sep.
  - change (u "=" ++ secret) with (61%N :: secret).
    rewrite (span_none is_space (61%N :: secret)) by (intros; by simplify_eq).
    cbn [N.eqb Pos.eqb orb].
    rewrite (span_none _ _ Hns).
    rewrite match_secret_plain; [done|done|done|]. intros. by eapply scheme_no_space.
  - change (u ": " ++ sc ++ u " " ++ secret) with (58%N :: [32%N] ++ sc ++ u " " ++ secret).
    rewrite (span_none is_space (58%N :: _)) by (intros; by simplify_eq).
    cbn [N.eqb Pos.eqb orb].
    rewrite (span_app is_space [32%N] (sc ++ u " " ++ secret)).
    2: { by repeat constructor. }
    2: { revert Hsc. unfold secret_schemes. rewrite !elem_of_cons, elem_of_nil.
         intros H c b. repeat destruct H as [->|H]; [..|done];
           intros [= <- _]; reflexivity. }
    unfold match_secret. rewrite first_scheme by done.
    change (u " " ++ secret) with ([32%N] ++ secret).
    rewrite (span_app is_space [32%N] secret) by (done || by repeat constructor).
    rewrite (span_all _ _ Hs). destruct secret; [done|]. by rewrite <- !app_assoc.
Qed.

Lemma redact_text_masks_credential_witness :
  redact_text (u "token=hunter2") = u "token=***REDACTED***" ∧
  redact_text (u "authorization: bearer abc.def")
    = u "authorization: bearer ***REDACTED***".
Proof.
  split.
  - refine (proj1 (redact_text_masks_credential (u "token") (u "bearer") (u "hunter2")
      _ _ _ _)); [vm_compute; set_solver|vm_compute; set_solver|done|].
    repeat constructor.
  - refine (proj2 (redact_text_masks_credential (u "authorization") (u "bearer")
      (u "abc.def") _ _ _ _)); [vm_compute; set_solver|vm_compute; set_solver|done|].
    repeat constructor.
Defined.

(** ** Theorems: failure isolation *)

(** Recording failures at the given instants. *)
Definition fail_at (ts : list f64) (b : CircuitBreaker) : CircuitBreaker :=
  foldl (λ b t, record_failure t b) b ts.

Lemma fail_at_count ts b :
  failures (fail_at ts b) = (failures b + Z.of_nat (length ts))%Z ∧
  failure_threshold (fail_at ts b) = failure_threshold b ∧
  reset_timeout (fail_at ts b) = reset_timeout b.
Proof.
  unfold fail_at. revert b. induction ts as [|t ts IH]; intros b; simpl; [split_and!; lia || done|].
  destruct (IH (record_failure t b)) as (-> & -> & ->). simpl. split_and!; [lia|done|done].
Qed.

Lemma fail_at_opened ts t b :
  opened_at b = None →
  opened_at (fail_at (ts ++ [t]) b) =
  if (failure_threshold b <=? failures b + Z.of_nat (length ts) + 1)%Z then Some t else None.
Proof.
  intros Ho. unfold fail_at. rewrite foldl_app. fold (fail_at ts b). simpl.
  destruct (fail_at_count ts b) as (-> & -> & _).
  destruct (Z.leb_spec (failure_threshold b) (failures b + Z.of_nat (length ts) + 1));
    [done|].
  induction ts as [|t' ts IH] using rev_ind; [done|].
  rewrite length_app in *. simpl in *. unfold fail_at in *. rewrite foldl_app. simpl.
  fold (fail_at ts b). destruct (fail_at_count ts b) as (-> & -> & _).
  destruct (Z.leb_spec (failure_threshold b) (failures b + Z.of_nat (length ts) + 1)); [lia|].
  apply IH. lia.
Qed.

(** The breaker after failures at instants [ts ++ [t]] from a closed
    state. It refuses a call exactly when the failures have reached the
    threshold and the reset time has not passed since the last one.  The call
    it lets through after the reset time closes it, every call passes until
    the next failure, and that single failure opens it again. *)
Theorem breaker_opens_and_recovers b ts t now :
  opened_at b = None →
  let b1 := fail_at (ts ++ [t]) b in
  (allow now b1).2 =
    negb ((failure_threshold b <=? failures b + Z.of_nat (length ts) + 1)%Z
          && negb (fleb (reset_timeout b) (fsub now t))) ∧
  ((failure_threshold b <= failures b + Z.of_nat (length ts) + 1)%Z →
   fleb (reset_timeout b) (fsub now t) = true →
   let b2 := (allow now b1).1 in
   (∀ now', allow now' b2 = (b2, true)) ∧
   ∀ t', opened_at (record_failure t' b2) = Some t').
Proof.
  intros Ho b1. pose proof (fail_at_opened ts t b Ho) as E. fold b1 in E.
  destruct (fail_at_count (ts ++ [t]) b) as (_ & Et & Er). fold b1 in Et, Er.
  unfold allow. rewrite E. split.
  - destruct (Z.leb_spec (failure_threshold b) (failures b + Z.of_nat (length ts) + 1));
      [|done]. rewrite Er. by destruct (fleb _ _).
  - intros Hth Hl. destruct (Z.leb_spec (failure_threshold b)
      (failures b + Z.of_nat (length ts) + 1)); [|lia].
    rewrite Er, Hl. simpl. split; [done|]. intros t'. rewrite Et.
    destruct (Z.leb_spec (failure_threshold b) (failure_threshold b - 1 + 1)); [done|lia].
Qed.

Lemma breaker_opens_and_recovers_witness :
  let b1 := fail_at ([f1] ++ [f_of_Z 2]) (new_breaker 2 (f_of_Z 60)) in
  (allow (f_of_Z 10) b1).2 = false ∧
  ∀ t', opened_at (record_failure t' (allow (f_of_Z 62) b1).1) = Some t'.
Proof.
  split.
  - destruct (breaker_opens_and_recovers (new_breaker 2 (f_of_Z 60)) [f1] (f_of_Z 2)
      (f_of_Z 10) eq_refl) as [E _].
    refine (eq_trans E _). vm_compute. reflexivity.
  - refine (proj2 (proj2 (breaker_opens_and_recovers (new_breaker 2 (f_of_Z 60)) [f1]
      (f_of_Z 2) (f_of_Z 62) eq_refl) _ _)); [vm_compute; done|vm_compute; done].
Defined.

(** One rate-limiter pass touches only its own key's bucket, changes nothing
    when it refuses, and grants exactly when the refilled bucket, capped at
    the capacity, holds a token. *)
Lemma try_acquire_spec key fresh now l l' w :
  try_acquire key fresh now l = (l', w) →
  (∀ k, k ≠ key → dget k (buckets l') = dget k (buckets l)) ∧
  match w with
  | Some _ => l' = l
  | None => ∃ tokens, fleb f1 tokens = true ∧
      dget key (buckets l') = Some (fsub tokens f1, now)
  end.
Proof.
  unfold try_acquire. destruct (default _ _) as [tk last].
  destruct (fleb f1 _) eqn:E; intros; simplify_eq/=; [|done].
  split; [intros; by rewrite dget_dset_ne|]. eexists. split; [done|]. apply dget_dset_eq.
Qed.

(** [acquire] returns by the first pass that reads the clock at or after its
    deadline: the sleeps are bounded, the wait is not. *)
Lemma acquire_returns key deadline clock l fresh now after :
  (fresh, now, after) ∈ clock → fleb (fsub deadline after) f0 = true →
  (acquire_loop key deadline clock l).1.2 ≠ None.
Proof.
  intros Hin Hd. revert l. induction clock as [|[[fr nw] af] clock IH]; intros l; [set_solver|].
  cbn [acquire_loop]. destruct (try_acquire key fr nw l) as [l' [w|]]; [|done].
  destruct (fleb (fsub deadline af) f0) eqn:E; [done|].
  apply elem_of_cons in Hin as [Hin|Hin]; [simplify_eq; congruence|].
  specialize (IH Hin l'). by destruct (acquire_loop key deadline clock l') as [[??]?].
Qed.

(** ** Theorems: retry *)

(** A call whose outcomes are scripted, for stating what [retry] does: each
    call takes the next outcome; each sleep is written down. *)
Section Scripted.
Context {A : Type}.

Definition scripted : py (list (res A) * list f64) A := λ s,
match s with
| (o :: rest, slept) => ((rest, slept), o)
| ([], slept) => (([], slept), Raise (RuntimeError []))
end.

Definition note_sleep (d : f64) : py (list (res A) * list f64) unit :=
λ s, ((s.1, s.2 ++ [d]), Ok tt).

Definition is_retryable (retry_on : exn → bool) (o : res A) : bool :=
match o with Ok _ => false | Raise e => retry_on e end.

(** The float [min(max_delay, base_delay * 2 ** k)]. *)
Definition delay_of (base_delay max_delay : f64) (k : nat) : f64 :=
fmin max_delay (fmul base_delay (f_of_Z (2 ^ Z.of_nat k))).
End Scripted.

Lemma pow2_float_check :
  forallb (λ k, match py_float_of_Z (2 ^ Z.of_nat k) with Ok _ => true | _ => false end)
    (seq 0 1024) = true.
Proof. vm_compute. reflexivity. Qed.

Lemma backoff_ok base_delay max_delay k :
  k < 1024 → backoff base_delay max_delay (Z.of_nat k) = Ok (delay_of base_delay max_delay k).
Proof.
  intros Hk. pose proof (proj1 (List.forallb_forall _ _) pow2_float_check k) as H.
  specialize (H ltac:(apply List.in_seq; lia)). simpl in H.
  unfold backoff, delay_of. unfold py_float_of_Z in *. by destruct (f_of_Z _).
Qed.

Section RetryTheorems.
Context {A : Type} (retry_on : exn → bool) (base_delay max_delay : f64).

Lemma retry_loop_script attempts pre o post todo k last slept :
todo = Z.of_nat <$> seq k (attempts - k) →
attempts ≤ 1024 → k + length pre < attempts →
Forall (λ r, is_retryable retry_on r = true) pre →
is_retryable retry_on o = false ∨ S (k + length pre) = attempts →
retry_loop scripted note_sleep retry_on (Z.of_nat attempts) base_delay max_delay todo last
  (pre ++ o :: post, slept)
= ((post, slept ++ (delay_of base_delay max_delay <$> seq k (length pre))), o : res A).
Proof.
revert k todo last slept. induction pre as [|r pre IH]; intros k todo last slept -> Ha Hk Hp Ho.
- replace (attempts - k) with (S (attempts - S k)) by (simpl in *; lia). simpl.
  rewrite app_nil_r. destruct o as [a|e]; [done|]. simpl in Ho.
  destruct (retry_on e); [|done].
  destruct Ho as [|Ho]; [done|]. rewrite Nat.add_0_r in Ho.
  destruct (Z.eqb_spec (Z.of_nat k) (Z.of_nat attempts - 1)); [done|lia].
- apply Forall_cons in Hp as [Hr Hp]. simpl in Hk, Ho.
  replace (attempts - k) with (S (attempts - S k)) by lia. simpl.
  destruct r as [a|e]; simpl in Hr; [done|]. rewrite Hr.
  destruct (Z.eqb_spec (Z.of_nat k) (Z.of_nat attempts - 1)); [lia|].
  rewrite backoff_ok by lia. unfold mbind, py_bind, lift_res, note_sleep. simpl.
  rewrite (IH (S k)); [|done|done|lia|done|].
  + by rewrite <- app_assoc.
  + destruct Ho; [by left|right; lia].
Qed.

(** [retry_with_backoff] calls until the first outcome that is a result
  or an exception it does not retry on, at most [attempts] times: it returns
  that outcome, or the last one, and sleeps before each further call for the
  capped power-of-two delay. *)
Theorem retry_bounded attempts pre o post :
1 ≤ attempts ≤ 1024 → length pre < attempts →
Forall (λ r, is_retryable retry_on r = true) pre →
is_retryable retry_on o = false ∨ S (length pre) = attempts →
retry_with_backoff scripted note_sleep retry_on (Z.of_nat attempts) base_delay max_delay
  (pre ++ o :: post, [])
= ((post, delay_of base_delay max_delay <$> seq 0 (length pre)), o : res A).
Proof.
intros Ha Hl Hp Ho. unfold retry_with_backoff.
apply (retry_loop_script attempts pre o post _ 0); [|lia|done|done|done].
do 2 f_equal. lia.
Qed.
End RetryTheorems.

Lemma retry_bounded_witness :
  retry_with_backoff scripted note_sleep (λ _, true) 3 (f_dec 5 1) (f_of_Z 4)
    ([Raise OverflowError] ++ Ok 7%N :: [], [])
  = (([], [f_dec 5 1]), Ok 7%N).
Proof.
  refine (eq_trans (retry_bounded (λ _, true) (f_dec 5 1) (f_of_Z 4) 3
    [Raise OverflowError] (Ok 7%N) [] _ _ _ _) _);
    [lia|simpl; lia|by repeat constructor|by left|vm_compute; reflexivity].
Defined.
