(* ===== verification/Policy.v ===== *)
(** * The governance layer ([src/policy.py])

    The action classes, the posture and microphone decisions, the capability
    allowlists, the consent registry and the approval broker.  The broker's
    lock-protected sections and its waits are the labels of the step relation
    [broker_step]: callers, operator threads and consoles interleave freely. *)

From Stdlib Require Import Floats.SpecFloat.
From S2P Require Import Prelude PyFloat PyStr PyVal Security.

(** ** Action classes *)

Definition SIDE_EFFECTING_ACTION_TYPES : list pystr :=
  [u "api_call"; u "database_update"; u "hardware_interaction"].
Definition EXTERNAL_READ_ACTION_TYPES : list pystr := [u "news_api"; u "search_api"].
Definition OBSERVATION_ACTION_TYPES : list pystr := [u "record_observation"].
Definition SPEECH_OUTPUT_ACTION_TYPES : list pystr := [u "speak"].
Definition ASK_USER_ACTION_TYPES : list pystr := [u "ask_user"].
Definition ROBOTICS_ACTION_TYPES : list pystr :=
  [u "robot_navigate"; u "robot_manipulate"; u "robot_gripper"; u "robot_look"].
Definition ROBOTICS_SAFETY_ACTION_TYPES : list pystr := [u "robot_stop"].
Definition ROBOTICS_READ_ACTION_TYPES : list pystr := [u "robot_query_state"; u "robot_scan"].
Definition MOBILE_ACTION_TYPES : list pystr := [u "mobile_request_compute"].
Definition MOBILE_READ_ACTION_TYPES : list pystr :=
  [u "mobile_list_nodes"; u "mobile_node_status"].
Definition NETWORK_ACTION_TYPES : list pystr :=
  [u "network_send"; u "network_query"; u "network_sync"].
Definition NETWORK_READ_ACTION_TYPES : list pystr :=
  [u "network_list_agents"; u "network_status"].
Definition FLEET_ACTION_TYPES : list pystr := [u "fleet_deploy"; u "fleet_dev_task"].
Definition FLEET_READ_ACTION_TYPES : list pystr := [u "fleet_status"].
Definition KNOWN_ACTION_TYPES : list pystr :=
  SIDE_EFFECTING_ACTION_TYPES ++ EXTERNAL_READ_ACTION_TYPES ++ ROBOTICS_ACTION_TYPES
  ++ ROBOTICS_SAFETY_ACTION_TYPES ++ ROBOTICS_READ_ACTION_TYPES ++ MOBILE_ACTION_TYPES
  ++ MOBILE_READ_ACTION_TYPES ++ NETWORK_ACTION_TYPES ++ NETWORK_READ_ACTION_TYPES
  ++ OBSERVATION_ACTION_TYPES ++ SPEECH_OUTPUT_ACTION_TYPES ++ ASK_USER_ACTION_TYPES
  ++ FLEET_ACTION_TYPES ++ FLEET_READ_ACTION_TYPES ++ [u "multi_step_process"].

(** ** Posture *)

(** [s.split(sep, 1)[0]] and [s.split(sep, 1)[-1]]. *)
Fixpoint split_once (sep s : pystr) : pystr * option pystr :=
  if starts_with sep s then ([], Some (drop (length sep) s))
  else match s with
       | [] => ([], None)
       | c :: s' => let '(a, b) := split_once sep s' in (c :: a, b)
       end.
Definition before (sep s : pystr) : pystr := (split_once sep s).1.
Definition after (sep s : pystr) : pystr := default s (split_once sep s).2.

(** The host part of a hive's URL. *)
Definition hive_host (hive : pystr) : pystr :=
  lower (strip (before (u ":") (before (u "/") (after (u "//") hive)))).

Definition loopback_hosts : list pystr := [[]; u "127.0.0.1"; u "localhost"; u "::1"].

Definition names_hive (hive_url : pystr) : bool :=
  let hive := strip hive_url in
  negb (bool_decide (hive = [])) && negb (bool_decide (hive_host hive ∈ loopback_hosts)).

Definition is_follower (node_role : pystr) : bool :=
  bool_decide (lower (strip node_role) = u "follower").

(** [model_posture_decision]. *)
Definition model_posture_decision (hive_url node_role : pystr) (local_model : bool)
    (hive_peers : Z) : bool * pystr :=
  if negb local_model then (false, u "configured without a local model")
  else if names_hive hive_url then
    (false, u "a desktop hive is configured: the hive holds the model")
  else if is_follower node_role then
    (false, u "follower posture: this node provides sensors and memory, not inference")
  else if (0 <? hive_peers)%Z then
    (false, u "a hive peer is live on the mesh: the hive holds the model")
  else (true, u "standalone node with a local model configured").

Definition MIC_CONSENT_ACTION : pystr := u "listen_microphone".
Definition SOUND_MODES : list pystr := [u "sound"; u "speech"; u "off"].

(** The attributes of the capability object the decision reads. *)
Record sound_caps := SoundCaps {
  sound_listen_mode : pystr;
  sound_enabled : bool;
  sound_mode_pinned : bool
}.

Definition configured_mode (caps : option sound_caps) : pystr :=
  match caps with
  | Some c => match sound_listen_mode c with [] => u "sound" | m => lower m end
  | None => u "sound"
  end.

(** [sound_listen_decision]; [consent] is the outcome of the registry's
    [has_grant] call, or [None] without a registry. *)
Definition sound_listen_decision (caps : option sound_caps) (consent : option (res bool))
    (node_role : pystr) : pystr * pystr :=
  let mode := configured_mode caps in
  if negb (bool_decide (mode ∈ SOUND_MODES)) then
    (u "speech", u "unknown configured sound mode " ++ repr_str mode)
  else if bool_decide (mode = u "off") then
    (u "off", u "operator configured acoustic perception off")
  else if negb (match caps with Some c => sound_enabled c | None => false end) then
    (u "speech", u "sound perception is not enabled in configuration for this node")
  else match consent with
  | None => (u "speech", u "no consent registry, so no grant for '"
                         ++ MIC_CONSENT_ACTION ++ u "'")
  | Some g =>
      let granted := match g with Ok b => b | Raise _ => false end in
      if negb granted then
        (u "speech", u "no external consent grant for '" ++ MIC_CONSENT_ACTION ++ u "'")
      else if match caps with Some c => sound_mode_pinned c | None => false end then
        (mode, u "operator pinned listen_mode=" ++ mode ++ u " for this node")
      else if is_follower node_role then
        (u "sound",
         u "follower posture (sensor provider): acoustic sensor duty, consent on record")
      else (u "speech", u "standalone posture: the microphone stays with speech recognition")
  end.

(** ** Capability allowlists *)

Record CapabilityRegistry := Registry {
  api_hosts : list pystr;
  api_call_methods : list pystr;
  sql_statements : list pystr;
  hardware_commands : list pystr;
  mobile_devices_allowlist : list pystr;
  mobile_sensor_topics : list pystr;
  local_model_ports : list Z
}.

Definition validate_mobile_topic (device_id topic_tail : pystr) (r : CapabilityRegistry) :
    bool * pystr :=
  let device := strip device_id in
  let tail := strip_by (N.eqb 47) topic_tail in
  if bool_decide (device = []) || bool_decide (tail = []) then
    (false, u "empty mobile topic component")
  else if negb (bool_decide (device ∈ mobile_devices_allowlist r)) then
    (false, u "device '" ++ device ++ u "' is not in the operator pairing allowlist")
  else if negb (bool_decide (tail ∈ mobile_sensor_topics r)) then
    (false, u "topic '" ++ tail ++ u "' is outside the mobile contract (allowed: "
            ++ repr_list (mobile_sensor_topics r) ++ u ")")
  else (true, []).

Definition validate_sql (statement : pystr) (r : CapabilityRegistry) : bool * pystr :=
  let cleaned := strip statement in
  if bool_decide (cleaned = []) then (false, u "empty SQL statement")
  else if existsb (N.eqb 59) (rstrip (N.eqb 59) cleaned) then
    (false, u "multiple SQL statements are not allowed")
  else
    let first_word := rstrip (N.eqb 59) (upper (default [] (head (split cleaned)))) in
    if negb (bool_decide (first_word ∈ upper <$> sql_statements r)) then
      (false, u "SQL statement type '" ++ first_word ++ u "' is not allowed (allowed: "
              ++ repr_list (sql_statements r) ++ u ")")
    else (true, []).

Definition validate_hardware (command : pystr) (r : CapabilityRegistry) : bool * pystr :=
  let cleaned := strip command in
  if negb (bool_decide (cleaned ∈ hardware_commands r)) then
    (false, u "hardware command '" ++ sanitize_text cleaned 80
            ++ u "' is not in the operator-configured allowlist")
  else (true, []).

Section UrlGates.
Context (urlparse : pystr → res parsed_url).

Definition validate_api_call (url method : pystr) (r : CapabilityRegistry) :
res (bool * pystr) :=
match validate_url urlparse url (api_hosts r) [u "https"] with
| Raise e => Raise e
| Ok (false, reason) => Ok (false, reason)
| Ok (true, _) =>
  if negb (bool_decide (upper method ∈ api_call_methods r)) then
    Ok (false, u "HTTP method '" ++ method ++ u "' is not allowed (allowed: "
               ++ repr_list (api_call_methods r) ++ u ")")
  else Ok (true, [])
end.

Definition validate_model_endpoint (url : pystr) (r : CapabilityRegistry) :
res (bool * pystr) :=
match urlparse url with
| Raise e => Raise e
| Ok p =>
  if negb (bool_decide (scheme p ∈ [u "http"; u "https"])) then
    Ok (false, u "scheme '" ++ scheme p ++ u "' is not allowed for model endpoints")
  else if opt_truthy (username p) || opt_truthy (password p) then
    Ok (false, u "credentials in model endpoint URLs are not allowed")
  else
    let host := lower (default [] (hostname p)) in
    if negb (bool_decide (host ∈ [u "127.0.0.1"; u "localhost"; u "::1"])) then
      Ok (false, u "model endpoint host '" ++ host
                 ++ u "' is not loopback (on-device inference must stay local)")
    else match port p with
    | Raise e => Raise e
    | Ok None => Ok (true, [])
    | Ok (Some n) =>
        if negb (bool_decide (n ∈ local_model_ports r)) then
          Ok (false, u "port " ++ str_of_Z n
                     ++ u " is not in the local model port allowlist")
        else Ok (true, [])
    end
end.
End UrlGates.

(** ** Consent *)

Record consent_grant := Grant {
  g_action_type : pystr;
  g_granted_by : pystr;
  g_scope : pystr;
  g_note : pystr;
  g_granted_at : f64;
  g_expires_at : option f64
}.

(** The registry's [_grants]. *)
Abbreviation consents := (list (pystr * list consent_grant)).

(** [grant]: [t1] and [t2] are the two readings of the clock. *)
Definition make_grant (action_type granted_by scope note : pystr) (ttl : option f64)
    (t1 t2 : f64) : consent_grant :=
  {| g_action_type := sanitize_text action_type 64;
     g_granted_by := sanitize_text granted_by 120;
     g_scope := sanitize_text scope 120;
     g_note := sanitize_text note 300;
     g_granted_at := t1;
     g_expires_at := match ttl with
                     | Some s => if f_truthy s then Some (fadd t2 s) else None
                     | None => None
                     end |}.

Definition grant (e : consent_grant) (c : consents) : consents :=
  dset (g_action_type e) (default [] (dget (g_action_type e) c) ++ [e]) c.

(** [revoke]: drops every grant of the type and counts them. *)
Definition revoke (action_type : pystr) (c : consents) : consents * nat :=
  (ddel action_type c, length (default [] (dget action_type c))).

Definition live_grant (now : f64) (e : consent_grant) : bool :=
  match g_expires_at e with None => true | Some t => fltb now t end.

(** [has_grant]. *)
Definition has_grant (action_type : pystr) (now : f64) (c : consents) : bool :=
  existsb (live_grant now) (default [] (dget action_type c)).

(** [has_grant_for_attended_action]. *)
Definition has_grant_for_attended_action (action_type : pystr)
    (attention : option pystr) (now : f64) (c : consents) : bool * option pystr :=
  match attention with
  | None => (has_grant action_type now c, None)
  | Some a =>
      if negb (bool_decide (a ∈ [u "attending"; u "unknown"])) then
        (false, Some (u "human attention is '" ++ a
                      ++ u "' (need 'attending' or 'unknown')"))
      else if negb (has_grant action_type now c) then
        (false, Some (u "no external consent grant for '" ++ action_type ++ u "'"))
      else (true, None)
  end.

(** ** The approval broker *)

(** An entry of [_pending]: the verdict, and whether its event is set. *)
Record pending_rec := PRec {
  p_approved : option bool;
  p_event : bool
}.

Record approval_result := Approval {
  approved : bool;
  reason : pystr;
  request_id : pystr
}.

(** Where the calling thread of [request_approval] stands: in [event.wait],
    past it with the event set, past it on the timeout, or returned. *)
Inductive caller_phase : Type :=
  | CWait | CWoken | CTimedOut | CDone (r : approval_result).

(** Where the request's operator thread [_ask_operator] stands: not started,
    in the operator's callback, or holding its verdict. *)
Inductive worker_phase : Type :=
  | WStart | WAsking | WAnswered (b : bool) | WDone.

(** The broker with its threads; [verdicts] records every write to a
    request's [approved] field, in order. *)
Record broker := Broker {
  operator : bool;
  pending : list (pystr * pending_rec);
  callers : list (pystr * caller_phase);
  workers : list (pystr * worker_phase);
  verdicts : list (pystr * bool)
}.

Definition new_broker : broker := Broker false [] [] [] [].

Definition denied_no_channel : approval_result :=
  Approval false (u "no approval channel attached (fail-closed)") [].

Definition timed_out_result (rid : pystr) : approval_result :=
  Approval false (u "approval timed out (default deny)") rid.

(** [request_approval] up to the wait: without an operator it returns a
    denial; otherwise the request is pending and its thread is started. *)
Definition open_request (rid : pystr) (b : broker) : broker * option approval_result :=
  if operator b then
    (Broker true (dset rid (PRec None false) (pending b)) (dset rid CWait (callers b))
       (dset rid WStart (workers b)) (verdicts b), None)
  else (b, Some denied_no_channel).

(** The write both [_ask_operator] and [_resolve] make under the lock: only a
    request still without a verdict takes one. *)
Definition set_verdict (rid : pystr) (v : bool) (b : broker) : broker * bool :=
  match dget rid (pending b) with
  | Some (PRec None _) =>
      (Broker (operator b) (dset rid (PRec (Some v) true) (pending b)) (callers b)
         (workers b) (verdicts b ++ [(rid, v)]), true)
  | _ => (b, false)
  end.

(** [approve] and [deny]. *)
Definition approve (rid : pystr) (b : broker) : broker * bool := set_verdict rid true b.
Definition deny (rid : pystr) (b : broker) : broker * bool := set_verdict rid false b.

Definition set_caller (rid : pystr) (c : caller_phase) (b : broker) : broker :=
  Broker (operator b) (pending b) (dset rid c (callers b)) (workers b) (verdicts b).
Definition set_worker (rid : pystr) (w : worker_phase) (b : broker) : broker :=
  Broker (operator b) (pending b) (callers b) (dset rid w (workers b)) (verdicts b).
Definition pop_pending (rid : pystr) (b : broker) : broker :=
  Broker (operator b) (ddel rid (pending b)) (callers b) (workers b) (verdicts b).

(** The end of [request_approval]: pop the record and report its verdict. *)
Definition finish_request (rid : pystr) (b : broker) : broker :=
  let v := match dget rid (pending b) with
           | Some r => default false (p_approved r)
           | None => false
           end in
  set_caller rid
    (CDone (Approval v (if v then u "operator approved" else u "operator denied") rid))
    (pop_pending rid b).

(** [list_pending]. *)
Definition list_pending (b : broker) : list pystr :=
  (List.filter (λ kv, match p_approved kv.2 with None => true | Some _ => false end)
     (pending b)).*1.

(** The steps: the console attaches an operator or resolves a request; a
    caller opens a request, wakes up on its event or on the timeout, and
    finishes; an operator thread fetches its record, gets its answer
    (a callback that raises answers [false]) and records it. *)
Inductive broker_label : Type :=
  | B_attach
  | B_request (rid : pystr)
  | B_fetch (rid : pystr)
  | B_answer (rid : pystr) (v : bool)
  | B_record (rid : pystr)
  | B_resolve (rid : pystr) (v : bool)
  | B_wake (rid : pystr)
  | B_timeout (rid : pystr)
  | B_finish (rid : pystr).

(** A step's effect, [None] when the thread is not there. Request ids are
    fresh ([uuid4]); a wait times out only while its event is not set. *)
Definition broker_exec (l : broker_label) (b : broker) : option broker :=
  match l with
  | B_attach => Some (Broker true (pending b) (callers b) (workers b) (verdicts b))
  | B_request rid => if dhas rid (callers b) then None else Some (open_request rid b).1
  | B_fetch rid =>
      match dget rid (workers b) with
      | Some WStart => Some (set_worker rid
                               (if dhas rid (pending b) then WAsking else WDone) b)
      | _ => None
      end
  | B_answer rid v =>
      match dget rid (workers b) with
      | Some WAsking => Some (set_worker rid (WAnswered v) b)
      | _ => None
      end
  | B_record rid =>
      match dget rid (workers b) with
      | Some (WAnswered v) => Some (set_worker rid WDone (set_verdict rid v b).1)
      | _ => None
      end
  | B_resolve rid v => Some (set_verdict rid v b).1
  | B_wake rid =>
      match dget rid (callers b), dget rid (pending b) with
      | Some CWait, Some (PRec _ true) => Some (set_caller rid CWoken b)
      | _, _ => None
      end
  | B_timeout rid =>
      match dget rid (callers b), dget rid (pending b) with
      | Some CWait, Some (PRec _ false) => Some (set_caller rid CTimedOut b)
      | _, _ => None
      end
  | B_finish rid =>
      match dget rid (callers b) with
      | Some CWoken => Some (finish_request rid b)
      | Some CTimedOut =>
          Some (set_caller rid (CDone (timed_out_result rid)) (pop_pending rid b))
      | _ => None
      end
  end.

Definition broker_step (b : broker) (l : broker_label) (b' : broker) : Prop :=
  broker_exec l b = Some b'.

(** The broker as constructed. *)
Definition broker_init (b : broker) : Prop := b = new_broker.

(** ** Facts about the broker *)

(** What holds of one request: its caller's phase, its pending record and its
    verdict agree. *)
Definition rid_ok (rid : pystr) (c : option caller_phase) (p : option pending_rec)
    (v : option bool) : Prop :=
  match c, p, v with
  | None, None, None => True
  | Some CWait, Some (PRec None false), None => True
  | Some CTimedOut, Some (PRec None false), None => True
  | Some CWait, Some (PRec (Some a) true), Some a' => a = a'
  | Some CTimedOut, Some (PRec (Some a) true), Some a' => a = a'
  | Some CWoken, Some (PRec (Some a) true), Some a' => a = a'
  | Some (CDone r), None, _ =>
      r = timed_out_result rid ∨
      ∃ a, v = Some a ∧
        r = Approval a (if a then u "operator approved" else u "operator denied") rid
  | _, _, _ => False
  end.

Definition broker_inv (b : broker) : Prop :=
  NoDup (pending b).*1 ∧ NoDup (verdicts b).*1 ∧
  (∀ rid, rid_ok rid (dget rid (callers b)) (dget rid (pending b)) (dget rid (verdicts b))) ∧
  (operator b = true ∨ callers b = []).

Lemma dget_snoc (k : pystr) {V} (v : V) d k' :
  dget k d = None →
  dget k' (d ++ [(k, v)]) = if decide (k' = k) then Some v else dget k' d.
Proof.
  induction d as [|[k0 v0] d IH]; simpl; intros E.
  - by repeat case_decide.
  - repeat case_decide; simplify_eq; rewrite ?IH by done; by repeat case_decide.
Qed.

(** A step that only touches one request keeps the invariant if it keeps what
    holds of that request. *)
Lemma broker_inv_at rid b b' :
  broker_inv b →
  NoDup (pending b').*1 → NoDup (verdicts b').*1 →
  (operator b' = true ∨ callers b' = []) →
  (∀ k, k ≠ rid → dget k (callers b') = dget k (callers b) ∧
     dget k (pending b') = dget k (pending b) ∧ dget k (verdicts b') = dget k (verdicts b)) →
  rid_ok rid (dget rid (callers b')) (dget rid (pending b')) (dget rid (verdicts b')) →
  broker_inv b'.
Proof.
  intros (_ & _ & Hr & _) H1 H2 H3 Hf Hrid. split_and!; [done|done| |done].
  intros k. destruct (decide (k = rid)) as [->|Hne]; [done|].
  destruct (Hf k Hne) as (-> & -> & ->). apply Hr.
Qed.

Lemma broker_inv_worker rid w b : broker_inv b → broker_inv (set_worker rid w b).
Proof. done. Qed.

Lemma broker_inv_verdict rid v b : broker_inv b → broker_inv (set_verdict rid v b).1.
Proof.
  intros Hi. unfold set_verdict.
  destruct (dget rid (pending b)) as [[[a|] e]|] eqn:E; [done| |done].
  destruct Hi as (Hp & Hv & Hr & Ho) eqn:Hi'.
  pose proof (Hr rid) as Hrid. rewrite E in Hrid.
  destruct (dget rid (callers b)) as [[]|] eqn:Ec, e,
    (dget rid (verdicts b)) as [?|] eqn:Ev; simpl in Hrid; try done.
  all: apply (broker_inv_at rid b); simpl; [done|by apply dset_nodup| |done| |].
  2,5: intros k Hk; rewrite dget_dset_ne, dget_snoc by done; by rewrite decide_False.
  2,4: rewrite Ec, dget_dset_eq, dget_snoc by done; by rewrite decide_True.
  all: rewrite fmap_app; apply NoDup_app; split_and!; [done| |apply NoDup_singleton];
    intros x Hx ->%list_elem_of_singleton; by apply dget_None in Ev.
Qed.

(** Changing the phase of one caller, popping its record or not. *)
Lemma broker_inv_caller rid c b (pop : bool) :
  broker_inv b → dget rid (callers b) ≠ None →
  rid_ok rid (Some c) (if pop then None else dget rid (pending b)) (dget rid (verdicts b)) →
  broker_inv (set_caller rid c (if pop then pop_pending rid b else b)).
Proof.
  intros Hi Hc Hrid. destruct Hi as (Hp & Hv & Hr & Ho) eqn:Hi'.
  assert (operator b = true) as Hop.
  { destruct Ho as [|Ho]; [done|]. by rewrite Ho in Hc. }
  apply (broker_inv_at rid b); [done| | | | |]; destruct pop; simpl;
    try done; try (by left); try (by apply ddel_nodup).
  - intros k Hk. by rewrite dget_dset_ne, dget_ddel_ne.
  - intros k Hk. by rewrite dget_dset_ne.
  - by rewrite dget_dset_eq, dget_ddel_eq.
  - by rewrite dget_dset_eq.
Qed.

Lemma broker_inv_step b l b' : broker_inv b → broker_step b l b' → broker_inv b'.
Proof.
  intros Hi. unfold broker_step. pose proof Hi as (Hp & Hv & Hr & Ho).
  destruct l as [|rid|rid|rid v|rid|rid v|rid|rid|rid]; simpl.
  - intros [= <-]. split_and!; auto.
  - unfold dhas, open_request. pose proof (Hr rid) as Hrid.
    destruct (dget rid (callers b)) eqn:Ec; [done|].
    destruct (dget rid (pending b)) eqn:Ep, (dget rid (verdicts b)) eqn:Ev; try done.
    destruct (operator b) eqn:Eo; intros [= <-]; [|done].
    apply (broker_inv_at rid b); simpl; [done|by apply dset_nodup|done|by left| |].
    + intros k Hk. by rewrite !dget_dset_ne.
    + by rewrite !dget_dset_eq, Ev.
  - destruct (dget rid (workers b)) as [[]|]; intros; by simplify_eq.
  - destruct (dget rid (workers b)) as [[]|]; intros; by simplify_eq.
  - destruct (dget rid (workers b)) as [[]|]; intros; simplify_eq.
    by apply broker_inv_worker, broker_inv_verdict.
  - intros [= <-]. by apply broker_inv_verdict.
  - pose proof (Hr rid) as Hrid.
    destruct (dget rid (callers b)) as [[]|] eqn:Ec; try done.
    destruct (dget rid (pending b)) as [[a []]|] eqn:Ep; try done. intros [= <-].
    apply (broker_inv_caller rid CWoken b false); [done|by rewrite Ec|].
    rewrite Ep. by destruct a, (dget rid (verdicts b)).
  - pose proof (Hr rid) as Hrid.
    destruct (dget rid (callers b)) as [[]|] eqn:Ec; try done.
    destruct (dget rid (pending b)) as [[a []]|] eqn:Ep; try done. intros [= <-].
    apply (broker_inv_caller rid CTimedOut b false); [done|by rewrite Ec|].
    rewrite Ep. by destruct a, (dget rid (verdicts b)).
  - pose proof (Hr rid) as Hrid.
    destruct (dget rid (callers b)) as [[]|] eqn:Ec; try done; intros [= <-].
    + unfold finish_request. apply (broker_inv_caller rid _ b true); [done|by rewrite Ec|].
      destruct (dget rid (pending b)) as [[[a|] []]|], (dget rid (verdicts b)) as [a'|];
        simpl in Hrid |- *; try done. subst. right. by exists a'.
    + apply (broker_inv_caller rid _ b true); [done|by rewrite Ec|].
      simpl. by destruct (dget rid (verdicts b)); left.
Qed.

Lemma broker_reach_inv b : reachable broker_step broker_init b → broker_inv b.
Proof.
  apply reach_ind_inv; [|apply broker_inv_step].
  intros ? ->. split_and!; simpl; [constructor|constructor|done|by right].
Qed.

(** ** Theorems *)

(** C5. The broker fails closed and the first verdict wins: under every
    interleaving, a request gets at most one verdict; a request that returned
    approved has an operator and its only verdict is an approval; one that
    returned denied was denied by its only verdict, or timed out. *)
Theorem approval_first_verdict_wins b :
  reachable broker_step broker_init b →
  NoDup (verdicts b).*1 ∧
  ∀ rid r, dget rid (callers b) = Some (CDone r) →
    operator b = true ∧ request_id r = rid ∧
    if approved r then (rid, true) ∈ verdicts b ∧ (rid, false) ∉ verdicts b
    else r = timed_out_result rid ∨ (rid, false) ∈ verdicts b.
Proof.
  intros (_ & Hv & Hr & Ho)%broker_reach_inv. split; [done|]. intros rid r Ec.
  pose proof (Hr rid) as Hrid. rewrite Ec in Hrid. simpl in Hrid.
  split. { destruct Ho as [|Ho]; [done|]. by rewrite Ho in Ec. }
  destruct (dget rid (pending b)); [done|].
  destruct Hrid as [->|(a & Ea & ->)]; simpl; [by auto|].
  split; [done|]. pose proof (dget_elem _ _ _ Ea) as Hin. destruct a; [|by right].
  split; [done|]. intros Hf. apply (elem_dget _ _ _ Hv) in Hf. congruence.
Qed.

(** C29. Nobody waits for ever: from every reachable state, a caller waiting
    on a request reaches its answer by its own steps, on the verdict when
    there is one and by the timeout's denial otherwise. *)
Theorem approval_always_answers b rid :
  reachable broker_step broker_init b →
  dget rid (callers b) = Some CWait →
  ∃ ls b' r, steps broker_step b ls b' ∧ length ls = 2 ∧
    dget rid (callers b') = Some (CDone r) ∧
    r = match dget rid (verdicts b) with
        | Some true => Approval true (u "operator approved") rid
        | Some false => Approval false (u "operator denied") rid
        | None => timed_out_result rid
        end.
Proof.
  intros (_ & _ & Hr & _)%broker_reach_inv Ec. pose proof (Hr rid) as Hrid.
  rewrite Ec in Hrid. simpl in Hrid.
  destruct (dget rid (pending b)) as [[[a|] []]|] eqn:Ep,
    (dget rid (verdicts b)) as [a'|] eqn:Ev; try done.
  - subst a'. exists [B_wake rid; B_finish rid]. do 2 eexists. split_and!.
    + eapply steps_cons; [unfold broker_step; simpl; by rewrite Ec, Ep|].
      eapply steps_cons; [|apply steps_nil].
      unfold broker_step. simpl. by rewrite dget_dset_eq.
    + done.
    + unfold finish_request. simpl. rewrite Ep. simpl. by rewrite dget_dset_eq.
    + by destruct a.
  - exists [B_timeout rid; B_finish rid]. do 2 eexists. split_and!.
    + eapply steps_cons; [unfold broker_step; simpl; by rewrite Ec, Ep|].
      eapply steps_cons; [|apply steps_nil].
      unfold broker_step. simpl. by rewrite dget_dset_eq.
    + done.
    + simpl. by rewrite dget_dset_eq.
    + done.
Qed.

(** A broker whose operator is still deciding when the console approves, for
    the witnesses. *)
Definition demo_trace : list broker_label :=
  [B_attach; B_request (u "r1"); B_fetch (u "r1"); B_resolve (u "r1") true;
   B_answer (u "r1") false; B_record (u "r1")].

Fixpoint broker_run (ls : list broker_label) (b : broker) : option broker :=
  match ls with
  | [] => Some b
  | l :: ls' => match broker_exec l b with Some b' => broker_run ls' b' | None => None end
  end.

Lemma broker_run_steps ls b b' : broker_run ls b = Some b' → steps broker_step b ls b'.
Proof.
  revert b. induction ls as [|l ls IH]; simpl; intros b E; simplify_eq; [constructor|].
  destruct (broker_exec l b) eqn:El; [|done]. econstructor; [exact El|by apply IH].
Qed.

Lemma broker_run_reachable ls b :
  broker_run ls new_broker = Some b → reachable broker_step broker_init b.
Proof. intros E. exists new_broker, ls. split; [done|by apply broker_run_steps]. Qed.

Definition demo_broker : broker := default new_broker (broker_run demo_trace new_broker).

Lemma approval_first_verdict_wins_witness :
  let b := default new_broker (broker_run (demo_trace ++ [B_wake (u "r1"); B_finish (u "r1")])
                                 new_broker) in
  NoDup (verdicts b).*1 ∧ (u "r1", true) ∈ verdicts b ∧ (u "r1", false) ∉ verdicts b.
Proof.
  set (b := default _ _).
  destruct (approval_first_verdict_wins b) as [Hn H].
  { apply (broker_run_reachable (demo_trace ++ [B_wake (u "r1"); B_finish (u "r1")])).
    vm_compute. reflexivity. }
  split; [exact Hn|].
  destruct (H (u "r1") (Approval true (u "operator approved") (u "r1"))
              ltac:(vm_compute; reflexivity)) as (_ & _ & Ha).
  exact Ha.
Defined.

Lemma approval_always_answers_witness :
  ∃ ls b', steps broker_step demo_broker ls b' ∧
    dget (u "r1") (callers b')
      = Some (CDone (Approval true (u "operator approved") (u "r1"))).
Proof.
  destruct (approval_always_answers demo_broker (u "r1")) as (ls & b' & r & Hs & _ & Ec & E).
  - apply (broker_run_reachable demo_trace). vm_compute. reflexivity.
  - vm_compute. reflexivity.
  - exists ls, b'. split; [exact Hs|]. rewrite Ec, E. vm_compute. reflexivity.
Defined.

(** ** Consent *)

(** What an operator did to the registry. *)
Inductive consent_op : Type :=
  | Op_grant (e : consent_grant)
  | Op_revoke (action_type : pystr).

Definition consent_run (ops : list consent_op) (c : consents) : consents :=
  foldl (λ c o, match o with Op_grant e => grant e c | Op_revoke a => (revoke a c).1 end) c ops.

(** The grants of an action type that stand: those after its last revocation. *)
Definition standing (a : pystr) (ops : list consent_op) : list consent_grant :=
  foldl (λ l o, match o with
                | Op_grant e => if decide (g_action_type e = a) then l ++ [e] else l
                | Op_revoke a' => if decide (a' = a) then [] else l
                end) [] ops.

Lemma consent_run_standing ops a :
  NoDup (consent_run ops []).*1 ∧
  default [] (dget a (consent_run ops [])) = standing a ops.
Proof.
  induction ops as [|o ops [Hn IH]] using rev_ind; [split; [constructor|done]|].
  unfold consent_run, standing in *. rewrite !foldl_app. simpl.
  set (c := foldl _ [] ops) in *. destruct o as [e|a'].
  - split; [by apply dset_nodup|]. unfold grant. rewrite dget_dset.
    repeat case_decide; simplify_eq; [|done]. by rewrite IH.
  - split; [by apply ddel_nodup|]. simpl. case_decide; subst.
    + by rewrite dget_ddel_eq.
    + by rewrite dget_ddel_ne.
Qed.

(** C30. Consent is what operators granted and did not revoke: after any
    history of grants and revocations, an action type has consent exactly
    when one of its grants since its last revocation has not expired.  A grant
    without a time limit, or with a limit of zero, never expires; one with a
    limit expires when the clock passes it. *)
Theorem consent_follows_operators ops a now :
  has_grant a now (consent_run ops []) = existsb (live_grant now) (standing a ops) ∧
  ∀ at' by' sc note ttl t1 t2,
    live_grant now (make_grant at' by' sc note ttl t1 t2) =
    match ttl with
    | Some s => if f_truthy s then fltb now (fadd t2 s) else true
    | None => true
    end.
Proof.
  split.
  - unfold has_grant. by destruct (consent_run_standing ops a) as [_ ->].
  - intros at' by' sc note [s|] t1 t2; unfold live_grant; simpl; [|done].
    by destruct (f_truthy s).
Qed.

(** ** Decisions *)

(** The microphone is never opened for sound without consent: a decision
    for acoustic sensing means that the node is enabled for it and a grant is
    on record, and the mode was pinned by the operator or the node is a
    follower; without an enabled registry, or without a grant, or when asking
    fails, the answer is speech recognition or off. *)
Theorem sound_needs_consent caps consent role :
  let d := (sound_listen_decision caps consent role).1 in
  d ∈ SOUND_MODES ∧
  (d = u "sound" →
   ∃ c, caps = Some c ∧ sound_enabled c = true ∧ consent = Some (Ok true) ∧
        (sound_mode_pinned c = true ∨ is_follower role = true)).
Proof.
  assert (u "speech" ∈ SOUND_MODES ∧ u "sound" ∈ SOUND_MODES ∧ u "off" ∈ SOUND_MODES)
    as (Hsp & Hso & Hof).
  { unfold SOUND_MODES. rewrite !elem_of_cons. tauto. }
  assert (u "speech" ≠ u "sound" ∧ u "off" ≠ u "sound") as [N1 N2] by done.
  unfold sound_listen_decision.
  destruct (decide (configured_mode caps ∈ SOUND_MODES)) as [Hm|Hm];
    [rewrite (bool_decide_eq_true_2 _ Hm)|rewrite (bool_decide_eq_false_2 _ Hm)];
    cbn [negb fst]; [|by split].
  case_bool_decide; cbn [fst]; [by split|].
  destruct caps as [c|]; cbn [negb fst]; [|by split].
  destruct (sound_enabled c) eqn:Ee; cbn [negb fst]; [|by split].
  destruct consent as [[g|e]|]; cbn [negb fst]; [|by split|by split].
  destruct g; cbn [negb fst]; [|by split].
  destruct (sound_mode_pinned c) eqn:Ep; cbn [fst].
  - split; [done|]. intros _. exists c. auto.
  - destruct (is_follower role); cbn [fst]; (split; [done|]); [|done].
    intros _. exists c. auto.
Qed.

(** Allowlists are exact. A hardware command passes exactly when it is in
    the configured list, so an empty list refuses everything; an SQL statement
    passes only as a single statement, without a separator before its end,
    whose first word is an allowed statement type; a mobile topic passes
    exactly for a paired device and a contracted topic; a model endpoint
    passes exactly on loopback, without credentials, on an allowed port. *)
Theorem allowlists_exact urlparse r cmd sql dev tail url :
  ((validate_hardware cmd r).1 = true ↔ strip cmd ∈ hardware_commands r) ∧
  ((validate_sql sql r).1 = true →
     (59%N ∉ rstrip (N.eqb 59) (strip sql)) ∧
     rstrip (N.eqb 59) (upper (default [] (head (split (strip sql)))))
       ∈ upper <$> sql_statements r) ∧
  ((validate_mobile_topic dev tail r).1 = true →
     strip dev ∈ mobile_devices_allowlist r ∧
     strip_by (N.eqb 47) tail ∈ mobile_sensor_topics r) ∧
  (∀ msg, validate_model_endpoint urlparse url r = Ok (true, msg) →
     ∃ p, urlparse url = Ok p ∧ scheme p ∈ [u "http"; u "https"] ∧
       opt_truthy (username p) = false ∧ opt_truthy (password p) = false ∧
       lower (default [] (hostname p)) ∈ [u "127.0.0.1"; u "localhost"; u "::1"] ∧
       (port p = Ok None ∨ ∃ n, port p = Ok (Some n) ∧ n ∈ local_model_ports r)).
Proof.
  split_and!.
  - unfold validate_hardware. case_bool_decide; simpl; naive_solver.
  - unfold validate_sql. case_bool_decide; [done|].
    destruct (existsb _ _) eqn:Ee; [done|]. case_bool_decide as Hw; [|done].
    intros _. split; [|done]. intros Hin%list_elem_of_In.
    assert (existsb (N.eqb 59) (rstrip (N.eqb 59) (strip sql)) = true); [|congruence].
    apply existsb_exists. eauto.
  - unfold validate_mobile_topic. destruct (_ || _); [done|].
    case_bool_decide; [|done]. by case_bool_decide.
  - intros msg. unfold validate_model_endpoint.
    destruct (urlparse url) as [p|e]; [|done]. case_bool_decide; [|done].
    destruct (opt_truthy (username p)) eqn:Eu, (opt_truthy (password p)) eqn:Ep; try done.
    cbn [negb orb]. case_bool_decide; [|done].
    intros E. exists p. split_and!; try done.
    destruct (port p) as [[n|]|]; [|by left|done].
    right. exists n. split; [done|]. by case_bool_decide.
Qed.

(** A node may load its own model exactly when it is configured with one and
    no hive holds it: no hive is named, it is not a follower and no hive peer
    is live. *)
Lemma model_posture_allowed hive role local peers :
  (model_posture_decision hive role local peers).1 = true ↔
  local = true ∧ names_hive hive = false ∧ is_follower role = false ∧ (peers <= 0)%Z.
Proof.
  unfold model_posture_decision. destruct local; simpl; [|naive_solver].
  destruct (names_hive hive); simpl; [naive_solver|].
  destruct (is_follower role); simpl; [naive_solver|].
  destruct (Z.ltb_spec 0 peers); simpl; naive_solver lia.
Qed.
