(* ===== verification/Delegation.v ===== *)
(** * Network delegation ([src/delegation.py])

    The registry of backend endpoints with their health, and the choice of one
    for a task by scope, tier, health and network policy.  An entry is known
    by its position: the source passes the entry objects themselves around,
    and a choice may reset an entry's error count.  Every reading of the clock
    is an argument. *)

From Stdlib Require Import ZArith Lia.
From Stdlib Require Import Floats.SpecFloat.
From S2P Require Import Prelude PyFloat PyStr PyVal.

Local Open Scope Z_scope.

Inductive BackendScope := LOCALHOST | LAN | INTERNET.
#[export] Instance BackendScope_eq_dec : EqDecision BackendScope.
Proof. solve_decision. Defined.

Definition scope_value (s : BackendScope) : pystr :=
  match s with LOCALHOST => u "localhost" | LAN => u "lan" | INTERNET => u "internet" end.

Inductive TaskTier := LIGHT | STANDARD | HEAVY | SHARED.
#[export] Instance TaskTier_eq_dec : EqDecision TaskTier.
Proof. solve_decision. Defined.

Definition tier_value (t : TaskTier) : pystr :=
  match t with
  | LIGHT => u "light" | STANDARD => u "standard" | HEAVY => u "heavy" | SHARED => u "shared"
  end.

(** [_DEFAULT_TIER_MAP] and [_tier_for_action_type]. *)
Definition DEFAULT_TIER_MAP : list (pystr * TaskTier) :=
  [(u "record_observation", LIGHT); (u "probe_model", LIGHT); (u "consolidate", LIGHT);
   (u "speak", STANDARD); (u "ask_user", STANDARD); (u "speak_test", STANDARD);
   (u "multi_step_process", HEAVY); (u "search_api", HEAVY); (u "news_api", HEAVY);
   (u "hardware_interaction", HEAVY)].

Definition tier_for_action_type (action : option pystr) : TaskTier :=
  match action with
  | None | Some [] => SHARED
  | Some a => default SHARED (dget a DEFAULT_TIER_MAP)
  end.

Definition MAX_CONSECUTIVE_ERRORS : Z := 3.
Definition UNHEALTHY_COOLDOWN_S : f64 := f_of_Z 30.

(** ** One backend *)

Record backend := Backend {
  bk_scope : BackendScope;
  bk_url : pystr;
  bk_type : pystr;
  bk_tiers : list TaskTier;
  bk_latency : f64;
  bk_errors : Z;
  bk_last_error : f64
}.

(** [BackendEntry.__init__]: trailing slashes are cut. *)
Definition new_backend (scope : BackendScope) (url type : pystr) (tiers : list TaskTier) : backend :=
  Backend scope (rstrip (N.eqb 47) url) type tiers f0 0 f0.

Definition with_errors (n : Z) (b : backend) : backend :=
  Backend (bk_scope b) (bk_url b) (bk_type b) (bk_tiers b) (bk_latency b) n (bk_last_error b).

(** [BackendEntry.record_success], [record_error]. *)
Definition entry_success (latency : f64) (b : backend) : backend :=
  Backend (bk_scope b) (bk_url b) (bk_type b) (bk_tiers b) latency 0 (bk_last_error b).
Definition entry_error (now : f64) (b : backend) : backend :=
  Backend (bk_scope b) (bk_url b) (bk_type b) (bk_tiers b) (bk_latency b) (bk_errors b + 1) now.

(** [healthy], a property that resets the count after the cooldown. *)
Definition healthy (now : f64) (b : backend) : backend * bool :=
  if bk_errors b =? 0 then (b, true)
  else if MAX_CONSECUTIVE_ERRORS <=? bk_errors b then
    if fleb UNHEALTHY_COOLDOWN_S (fsub now (bk_last_error b)) then (with_errors 0 b, true)
    else (b, false)
  else (b, true).

(** [serves_tier]. *)
Definition serves_tier (t : TaskTier) (b : backend) : bool :=
  bool_decide (bk_tiers b = []) || bool_decide (t ∈ bk_tiers b).

(** ** The manager *)

Record manager := Manager {
  m_backends : list backend;
  m_active : option (BackendScope * pystr)
}.
Definition new_manager : manager := Manager [] None.

Definition same_endpoint (scope : BackendScope) (url : pystr) (b : backend) : bool :=
  bool_decide (bk_scope b = scope) && bool_decide (bk_url b = url).

(** Changing the first backend that satisfies a test. *)
Fixpoint update_first (p : backend → bool) (f : backend → backend) (l : list backend) :
    list backend :=
  match l with
  | [] => []
  | b :: rest => if p b then f b :: rest else b :: update_first p f rest
  end.

(** [register]: a known endpoint keeps its health. *)
Definition register (scope : BackendScope) (url type : pystr) (tiers : list TaskTier)
    (m : manager) : manager :=
  let e := new_backend scope url type tiers in
  let known := same_endpoint scope (bk_url e) in
  Manager
    (if existsb known (m_backends m)
     then update_first known (λ b, Backend scope (bk_url e) type tiers (bk_latency b)
                                     (bk_errors b) (bk_last_error b)) (m_backends m)
     else m_backends m ++ [e])
    (m_active m).

Fixpoint remove_first (p : backend → bool) (l : list backend) : list backend :=
  match l with
  | [] => []
  | b :: rest => if p b then rest else b :: remove_first p rest
  end.

(** [unregister]: the URL is compared as it is given. *)
Definition unregister (scope : BackendScope) (url : pystr) (m : manager) : manager * bool :=
  if existsb (same_endpoint scope url) (m_backends m)
  then (Manager (remove_first (same_endpoint scope url) (m_backends m))
          (if bool_decide (m_active m = Some (scope, url)) then None else m_active m), true)
  else (m, false).

(** The positions of the backends of a scope. *)
Definition positions (scope : BackendScope) (l : list backend) : list nat :=
  omap (λ ib : nat * backend, if decide (bk_scope ib.2 = scope) then Some ib.1 else None)
    (zip (seq 0 (length l)) l).

(** The scopes a tier prefers, in order. *)
Definition scope_order (t : TaskTier) : list BackendScope :=
  match t with
  | LIGHT => [LOCALHOST]
  | STANDARD => [LOCALHOST; LAN]
  | HEAVY => [LAN; INTERNET]
  | SHARED => [LOCALHOST; LAN; INTERNET]
  end.

(** [_candidates_for_tier]: the preferred scopes first, then all others. *)
Definition candidates_for_tier (t : TaskTier) (l : list backend) : list nat :=
  let preferred := scope_order t ≫= λ s, positions s l in
  preferred ++ List.filter (λ i, negb (bool_decide (i ∈ preferred))) (seq 0 (length l)).

(** The network policy, as its three switches with their defaults. *)
Record network_policy := Network {
  allow_localhost : bool;
  allow_lan : bool;
  allow_internet : bool
}.

(** The switches read from the policy object. *)
Definition network_of (d : pydict) : network_policy :=
  Network (truthy (dict_get (u "localhost") (VBool true) d))
    (truthy (dict_get (u "lan") (VBool true) d))
    (truthy (dict_get (u "internet") (VBool false) d)).

(** [_policy_allows]. *)
Definition policy_allows (s : BackendScope) (p : network_policy) (consent : bool) : bool :=
  match s with
  | LOCALHOST => allow_localhost p
  | LAN => allow_lan p
  | INTERNET => allow_internet p && consent
  end.

(** The first candidate that passes [ok], in their order; each one's health is
    looked at only when it passed, and a look may reset it. *)
Fixpoint pick (now : nat → f64) (ok : backend → bool) (order : list nat) (l : list backend) :
    list backend * option backend :=
  match order with
  | [] => (l, None)
  | i :: rest =>
      match l !! i with
      | Some b =>
          if ok b then
            let '(b', good) := healthy (now i) b in
            let l' := <[i := b']> l in
            if good then (l', Some b') else pick now ok rest l'
          else pick now ok rest l
      | None => pick now ok rest l
      end
  end.

(** [select_backend]: the candidates, then any healthy local backend. *)
Definition select_backend (t1 t2 : nat → f64) (action : option pystr) (p : network_policy)
    (consent : bool) (m : manager) : manager * option (pystr * pystr) :=
  let tier := tier_for_action_type action in
  let '(l, found) := pick t1 (λ b, policy_allows (bk_scope b) p consent && serves_tier tier b)
                       (candidates_for_tier tier (m_backends m)) (m_backends m) in
  let '(l, found) := match found with
                     | Some b => (l, Some b)
                     | None => pick t2 (λ b, bool_decide (bk_scope b = LOCALHOST))
                                 (seq 0 (length l)) l
                     end in
  match found with
  | Some b => (Manager l (Some (bk_scope b, bk_url b)), Some (bk_url b, scope_value (bk_scope b)))
  | None => (Manager l (m_active m), None)
  end.

(** [record_success], [record_error]. *)
Definition record_success (scope : BackendScope) (url : pystr) (latency : f64) (m : manager) :
    manager :=
  Manager (update_first (same_endpoint scope url) (entry_success latency) (m_backends m))
    (m_active m).
Definition record_error (now : f64) (scope : BackendScope) (url : pystr) (m : manager) : manager :=
  Manager (update_first (same_endpoint scope url) (entry_error now) (m_backends m)) (m_active m).

(** [BackendEntry.to_dict], and [status], whose look at the health may reset
    counts. *)
Definition backend_dict (now : f64) (b : backend) : backend * pydict :=
  let '(b', good) := healthy now b in
  (b', [(u "scope", VStr (scope_value (bk_scope b))); (u "base_url", VStr (bk_url b));
        (u "backend_type", VStr (bk_type b)); (u "latency_ms", VFloat (f_round 1 (bk_latency b)));
        (u "consecutive_errors", VInt (bk_errors b)); (u "healthy", VBool good);
        (u "tiers", VList (VStr <$> sort_by str_leb (tier_value <$> bk_tiers b)))]).

Definition status (now : f64) (m : manager) : manager * pydict :=
  let l := backend_dict now <$> m_backends m in
  (Manager l.*1 (m_active m),
   [(u "active_scope", match m_active m with Some (s, _) => VStr (scope_value s) | None => VNone end);
    (u "active_url", match m_active m with Some (_, x) => VStr x | None => VNone end);
    (u "backends", VList (VDict <$> l.*2))]).

(** ** The choice, specified *)

(** What a look at the health cannot change. *)
Definition endpoint (b : backend) : BackendScope * pystr := (bk_scope b, bk_url b).

Lemma healthy_endpoint now b : endpoint (healthy now b).1 = endpoint b.
Proof. unfold healthy. by repeat case_match. Qed.

Lemma unhealthy_same now b : (healthy now b).2 = false → (healthy now b).1 = b.
Proof. unfold healthy. by repeat case_match. Qed.

(** A position whose backend passes a test and is healthy when looked at. *)
Definition eligible (now : nat → f64) (ok : backend → bool) (l : list backend) (i : nat) : bool :=
  match l !! i with
  | Some b => ok b && (healthy (now i) b).2
  | None => false
  end.

(** [pick] takes the first eligible position and disturbs nothing when there
    is none. *)
Lemma pick_exact now ok order l :
  let r := pick now ok order l in
  match List.find (eligible now ok l) order with
  | Some i => ∃ b, l !! i = Some b ∧ ok b = true ∧ (healthy (now i) b).2 = true ∧
                   r.2 = Some (healthy (now i) b).1
  | None => r = (l, None)
  end.
Proof.
  cbv zeta. induction order as [|i rest IH]; simpl; [done|].
  unfold eligible at 1. destruct (l !! i) as [b|] eqn:Hi; [|exact IH].
  destruct (ok b) eqn:Ho; simpl; [|exact IH].
  destruct (healthy (now i) b) as [b' good] eqn:Eh. simpl.
  destruct good; simpl.
  - exists b. by rewrite Eh.
  - pose proof (unhealthy_same (now i) b) as Hs. rewrite Eh in Hs. simpl in Hs.
    rewrite Hs by done. by rewrite list_insert_id.
Qed.

Lemma pick_endpoints now ok order l : endpoint <$> (pick now ok order l).1 = endpoint <$> l.
Proof.
  revert l. induction order as [|i rest IH]; intros l; simpl; [done|].
  destruct (l !! i) as [b|] eqn:Hi; [|apply IH]. destruct (ok b); [|apply IH].
  pose proof (healthy_endpoint (now i) b) as He.
  destruct (healthy (now i) b) as [b' good]. simpl in He.
  assert (endpoint <$> <[i:=b']> l = endpoint <$> l) as Hl.
  { rewrite list_fmap_insert, He. apply list_insert_id. by rewrite list_lookup_fmap, Hi. }
  destruct good; simpl; [done|]. by rewrite IH.
Qed.

(** The endpoint at a position, as the caller gets it. *)
Definition reported (b : backend) : pystr * pystr := (bk_url b, scope_value (bk_scope b)).

Lemma reported_healthy now b : reported (healthy now b).1 = reported b.
Proof.
  pose proof (healthy_endpoint now b) as H. unfold endpoint in H. unfold reported. congruence.
Qed.

Definition permitted (action : option pystr) (p : network_policy) (consent : bool)
    (b : backend) : bool :=
  policy_allows (bk_scope b) p consent && serves_tier (tier_for_action_type action) b.
Definition is_local (b : backend) : bool := bool_decide (bk_scope b = LOCALHOST).

(** What is remembered and reported of a chosen backend. *)
Lemma chosen_reported now b l l' (m : manager) :
  endpoint <$> l = endpoint <$> l' →
  let c := (healthy now b).1 in
  Some (reported c) = Some (reported b) ∧
  endpoint <$> m_backends (Manager l (Some (bk_scope c, bk_url c))) = endpoint <$> l' ∧
  match Some (reported c) with
  | Some (url, s) => ∃ sc, m_active (Manager l (Some (bk_scope c, bk_url c))) = Some (sc, url) ∧
                           s = scope_value sc
  | None => m_active (Manager l (Some (bk_scope c, bk_url c))) = m_active m
  end.
Proof.
  cbv zeta. rewrite reported_healthy. intros Hl. split_and!; [done|done|].
  rewrite <- (reported_healthy now). simpl. by eexists.
Qed.

Lemma selection_exact_parts t1 t2 action p consent m :
  let l := m_backends m in
  let r := select_backend t1 t2 action p consent m in
  r.2 = match List.find (eligible t1 (permitted action p consent) l)
                (candidates_for_tier (tier_for_action_type action) l) with
        | Some i => reported <$> l !! i
        | None => i ← List.find (eligible t2 is_local l) (seq 0 (length l)); reported <$> l !! i
        end ∧
  endpoint <$> m_backends r.1 = endpoint <$> l ∧
  match r.2 with
  | Some (url, s) => ∃ sc, m_active r.1 = Some (sc, url) ∧ s = scope_value sc
  | None => m_active r.1 = m_active m
  end.
Proof.
  cbv zeta. unfold select_backend. fold (permitted action p consent). fold is_local.
  set (l := m_backends m). set (order := candidates_for_tier _ _).
  pose proof (pick_exact t1 (permitted action p consent) order l) as H1.
  pose proof (pick_endpoints t1 (permitted action p consent) order l) as E1. cbv zeta in H1.
  destruct (pick t1 (permitted action p consent) order l) as [l1 f1]. simpl in E1, H1.
  destruct (List.find _ order) as [i|].
  - destruct H1 as (b & Hb & _ & _ & ->). rewrite Hb. cbn [fst snd fmap option_fmap option_map].
    by apply chosen_reported.
  - injection H1 as -> ->. fold l.
    pose proof (pick_exact t2 is_local (seq 0 (length l)) l) as H2.
    pose proof (pick_endpoints t2 is_local (seq 0 (length l)) l) as E2. cbv zeta in H2.
    destruct (pick t2 is_local (seq 0 (length l)) l) as [l2 f2]. simpl in E2, H2.
    destruct (List.find _ (seq 0 (length l))) as [i|].
    + destruct H2 as (b & Hb & _ & _ & ->). cbn [mbind option_bind]. rewrite Hb.
      cbn [fst snd fmap option_fmap option_map]. by apply chosen_reported.
    + by injection H2 as -> ->.
Qed.

(** *** The order of preference *)

Lemma elem_positions s l i :
  i ∈ positions s l ↔ ∃ b, l !! i = Some b ∧ bk_scope b = s.
Proof.
  unfold positions. rewrite list_elem_of_omap. split.
  - intros ([j b] & Hin & Hx). simpl in Hx. destruct (decide _) as [Hs|]; [|done].
    injection Hx as ->. apply list_elem_of_lookup in Hin as [k Hk].
    apply lookup_zip_Some in Hk as [Hj Hb]. apply lookup_seq in Hj as [-> _].
    exists b. split; [exact Hb|done].
  - intros (b & Hb & Hs). exists (i, b). split; [|by rewrite decide_True].
    apply list_elem_of_lookup. exists i. apply lookup_zip_Some. split; [|done].
    apply lookup_seq. split; [done|]. by eapply lookup_lt_Some.
Qed.

Lemma positions_nodup s l : NoDup (positions s l).
Proof.
  unfold positions. generalize 0%nat as k. induction l as [|b l IH]; intros k; simpl; [constructor|].
  destruct (decide (bk_scope b = s)); [|apply IH]. constructor; [|apply IH].
  rewrite list_elem_of_omap. intros ([j c] & Hin & Hx). simpl in Hx.
  destruct (decide _); [|done]. injection Hx as ->.
  apply elem_of_zip_l, elem_of_seq in Hin. lia.
Qed.

Lemma preferred_nodup l order : NoDup order → NoDup (order ≫= λ s, positions s l).
Proof.
  induction order as [|s order IH]; intros Ho; simpl; [constructor|].
  apply NoDup_cons in Ho as [Hs Ho]. apply NoDup_app. split_and!; [apply positions_nodup| |by apply IH].
  intros i (b & Hb & Hsb)%elem_positions Hin.
  apply list_elem_of_bind in Hin as (s' & Hin & Hs'). apply elem_positions in Hin as (b' & Hb' & <-).
  rewrite Hb in Hb'. injection Hb' as <-. by rewrite Hsb in Hs'.
Qed.

(** Every backend is a candidate exactly once, preferred scopes first. *)
Lemma candidates_perm t l : candidates_for_tier t l ≡ₚ seq 0 (length l).
Proof.
  unfold candidates_for_tier. set (pre := scope_order t ≫= λ s, positions s l).
  assert (NoDup pre) as Hp by (apply preferred_nodup; destruct t; repeat constructor; set_solver).
  apply NoDup_Permutation; [|apply NoDup_seq|].
  - apply NoDup_app. split_and!; [done| |apply NoDup_ListNoDup, List.NoDup_filter, NoDup_ListNoDup, NoDup_seq].
    intros i Hi Hf. apply list_elem_of_In, filter_In in Hf as [_ Hf].
    apply negb_true_iff, bool_decide_eq_false in Hf. done.
  - intros i. rewrite elem_of_app. split.
    + intros [Hi|Hi].
      * apply list_elem_of_bind in Hi as (s & Hin & _). apply elem_positions in Hin as (b & Hb & _).
        apply elem_of_seq. apply lookup_lt_Some in Hb. lia.
      * apply list_elem_of_In, filter_In in Hi as [Hi _]. by apply list_elem_of_In.
    + intros Hi. destruct (decide (i ∈ pre)); [by left|right].
      apply list_elem_of_In, filter_In. split; [by apply list_elem_of_In|].
      by rewrite bool_decide_false.
Qed.

(** *** What the choice respects *)

Lemma find_elem {A} (p : A → bool) l x : List.find p l = Some x → x ∈ l ∧ p x = true.
Proof. intros [H1 H2]%find_some. split; [by apply list_elem_of_In|done]. Qed.

Lemma scope_value_inj s s' : scope_value s = scope_value s' → s = s'.
Proof. by destruct s, s'. Qed.

(** A search of the candidates that finds nothing has looked everywhere. *)
Lemma none_eligible now ok t l :
  List.find (eligible now ok l) (candidates_for_tier t l) = None →
  ∀ j, eligible now ok l j = false.
Proof.
  intros Hf j. destruct (eligible now ok l j) eqn:Hj; [|done].
  rewrite <- Hj. apply (find_none _ _ Hf), list_elem_of_In. rewrite candidates_perm.
  unfold eligible in Hj. destruct (l !! j) eqn:Ej; [|done].
  apply elem_of_seq. apply lookup_lt_Some in Ej. lia.
Qed.

(** C38. Nothing leaves the host without permission, and a backend that can
    serve is not passed over. What [select_backend] reports is the endpoint
    [b] of a registered position [i]; an internet backend only when the policy
    enables the internet and delegation to it was consented, a LAN backend
    only when the policy enables the LAN. Whenever some position is eligible -
    allowed by the policy, serving the tier of the task and healthy when it is
    looked at - the reported position is itself eligible; when none is, the
    reported one is a local backend that is healthy at the second look. *)
Theorem selection_permitted t1 t2 action p consent m url s :
  (select_backend t1 t2 action p consent m).2 = Some (url, s) →
  ∃ i b, m_backends m !! i = Some b ∧ url = bk_url b ∧ s = scope_value (bk_scope b) ∧
    (bk_scope b = INTERNET → allow_internet p = true ∧ consent = true) ∧
    (bk_scope b = LAN → allow_lan p = true) ∧
    ((∃ j, eligible t1 (permitted action p consent) (m_backends m) j = true) →
     policy_allows (bk_scope b) p consent = true ∧
     serves_tier (tier_for_action_type action) b = true ∧
     (healthy (t1 i) b).2 = true) ∧
    ((∀ j, eligible t1 (permitted action p consent) (m_backends m) j = false) →
     bk_scope b = LOCALHOST ∧ (healthy (t2 i) b).2 = true).
Proof.
  destruct (selection_exact_parts t1 t2 action p consent m) as [-> _].
  set (l := m_backends m). set (order := candidates_for_tier _ _).
  destruct (List.find (eligible t1 _ l) order) as [i|] eqn:Hf.
  - apply find_elem in Hf as [_ He]. pose proof He as He'. unfold eligible in He.
    destruct (l !! i) as [b|] eqn:Hb; [|done]. intros [= <- <-].
    apply andb_true_iff in He as [Hp Hh]. unfold permitted in Hp.
    apply andb_true_iff in Hp as [Hp Ht]. exists i, b. split_and!; try done.
    + intros Hs. rewrite Hs in Hp. by apply andb_true_iff in Hp.
    + intros Hs. by rewrite Hs in Hp.
    + intros Hn. by rewrite Hn in He'.
  - destruct (List.find (eligible t2 is_local l) _) as [i|] eqn:Hf2; [|done].
    apply find_elem in Hf2 as [_ He]. unfold eligible in He.
    cbn [mbind option_bind]. destruct (l !! i) as [b|] eqn:Hb; [|done]. intros [= <- <-].
    apply andb_true_iff in He as [Hl Hh]. apply bool_decide_eq_true in Hl.
    exists i, b. split_and!; try done; try (by rewrite Hl).
    intros [j Hj]. by rewrite (none_eligible t1 _ _ _ Hf j) in Hj.
Qed.

(** The choice is the first in the order of preference. [select_backend]
    reports the first position, in the order of the task's tier, whose
    backend the policy allows, that serves the tier and is healthy; without
    one, the first healthy local backend; and nothing otherwise.  What it
    reports is remembered as active, no endpoint changes, and the candidates
    are all the backends, each once. *)
Theorem selection_exact t1 t2 action p consent m :
  let l := m_backends m in
  let r := select_backend t1 t2 action p consent m in
  r.2 = match List.find (eligible t1 (permitted action p consent) l)
                (candidates_for_tier (tier_for_action_type action) l) with
        | Some i => reported <$> l !! i
        | None => i ← List.find (eligible t2 is_local l) (seq 0 (length l)); reported <$> l !! i
        end ∧
  endpoint <$> m_backends r.1 = endpoint <$> l ∧
  match r.2 with
  | Some (url, s) => ∃ sc, m_active r.1 = Some (sc, url) ∧ s = scope_value sc
  | None => m_active r.1 = m_active m
  end ∧
  candidates_for_tier (tier_for_action_type action) l ≡ₚ seq 0 (length l).
Proof.
  cbv zeta. destruct (selection_exact_parts t1 t2 action p consent m) as (H1 & H2 & H3).
  split_and!; [exact H1|exact H2|exact H3|apply candidates_perm].
Qed.

(** ** Health *)

(** The errors reported at these times, on a backend. *)
Definition after_errors (times : list f64) (b : backend) : backend :=
  foldl (λ b t, entry_error t b) b times.

Lemma after_errors_spec times b :
  bk_errors (after_errors times b) = bk_errors b + Z.of_nat (length times) ∧
  bk_last_error (after_errors times b) = default (bk_last_error b) (last times).
Proof.
  revert b. induction times as [|t times IH]; intros b; [split; [simpl; lia|done]|].
  change (after_errors (t :: times) b) with (after_errors times (entry_error t b)).
  destruct (IH (entry_error t b)) as [-> ->]. split; [simpl; lia|].
  rewrite last_cons. by destruct (last times).
Qed.

(** Three errors close a backend for thirty seconds. After a success and
    then any number of errors, a backend is unhealthy exactly when there were
    at least three and the last was less than the cooldown ago; a look after
    the cooldown forgets the errors, and no other look changes anything. *)
Theorem cooldown_exact latency times now b :
  let b' := after_errors times (entry_success latency b) in
  ((healthy now b').2 = false ↔
   (3 <= length times)%nat ∧
   ∃ t, last times = Some t ∧ fleb UNHEALTHY_COOLDOWN_S (fsub now t) = false) ∧
  bk_errors (healthy now b').1 =
    if (3 <=? length times)%nat && (healthy now b').2 then 0 else Z.of_nat (length times).
Proof.
  cbv zeta. destruct (after_errors_spec times (entry_success latency b)) as [He Hl].
  cbn [bk_errors entry_success] in He. rewrite Z.add_0_l in He. unfold healthy. rewrite He, Hl. unfold MAX_CONSECUTIVE_ERRORS.
  destruct (Z.eqb_spec (Z.of_nat (length times)) 0) as [H0|H0].
  { destruct times; [|simpl in H0; lia]. simpl. split; [|done].
    split; [done|]. intros [? _]. lia. }
  destruct (last times) as [t|] eqn:Et; [|by apply last_None in Et; subst].
  cbn [default]. destruct (Z.leb_spec 3 (Z.of_nat (length times))) as [H3|H3].
  - rewrite (proj2 (Nat.leb_le 3 (length times))) by lia.
    destruct (fleb _ _) eqn:Ef; simpl.
    + split; [|done]. split; [done|]. intros (_ & t' & [= <-] & Hf). destruct (eq_true_false_abs _ Ef Hf).
    + rewrite He. split; [|done]. split; [intros _|done]. split; [lia|]. by exists t.
  - rewrite (proj2 (Nat.leb_gt 3 (length times))) by lia. simpl. rewrite He.
    split; [|done]. split; [done|]. intros [? _]. lia.
Qed.

(** ** The registry *)

Inductive registry_op :=
  | Register (scope : BackendScope) (url type : pystr) (tiers : list TaskTier)
  | Unregister (scope : BackendScope) (url : pystr)
  | Select (t1 t2 : nat → f64) (action : option pystr) (p : network_policy) (consent : bool)
  | Succeed (scope : BackendScope) (url : pystr) (latency : f64)
  | Err (now : f64) (scope : BackendScope) (url : pystr)
  | Status (now : f64).

Definition run_registry (m : manager) (op : registry_op) : manager :=
  match op with
  | Register s x t l => register s x t l m
  | Unregister s x => (unregister s x m).1
  | Select t1 t2 a p c => (select_backend t1 t2 a p c m).1
  | Succeed s x l => record_success s x l m
  | Err now s x => record_error now s x m
  | Status now => (status now m).1
  end.

Definition endpoints (m : manager) : list (BackendScope * pystr) := endpoint <$> m_backends m.

Lemma update_first_endpoints p f l :
  (∀ b, p b = true → endpoint (f b) = endpoint b) →
  endpoint <$> update_first p f l = endpoint <$> l.
Proof.
  intros Hf. induction l as [|b l IH]; simpl; [done|].
  destruct (p b) eqn:E; simpl; [by rewrite Hf|by f_equal].
Qed.

Lemma same_endpoint_eq s x b : same_endpoint s x b = true ↔ endpoint b = (s, x).
Proof.
  unfold same_endpoint, endpoint. rewrite andb_true_iff, !bool_decide_eq_true.
  split; [by intros [-> ->]|by intros [= -> ->]].
Qed.

Lemma remove_first_endpoints p l : endpoint <$> remove_first p l `sublist_of` (endpoint <$> l).
Proof.
  induction l as [|b l IH]; simpl; [constructor|].
  destruct (p b); simpl; [by apply sublist_cons|by apply sublist_skip].
Qed.

Lemma register_endpoints s x t l m :
  endpoints (register s x t l m) =
  if existsb (same_endpoint s (bk_url (new_backend s x t l))) (m_backends m) then endpoints m
  else endpoints m ++ [endpoint (new_backend s x t l)].
Proof.
  unfold register, endpoints. simpl. destruct (existsb _ _); simpl.
  - apply update_first_endpoints. intros b Hb. apply same_endpoint_eq in Hb. by rewrite Hb.
  - by rewrite fmap_app.
Qed.

Lemma run_registry_nodup m op : NoDup (endpoints m) → NoDup (endpoints (run_registry m op)).
Proof.
  intros H. destruct op as [s x t l|s x|t1 t2 a p c|s x l|now s x|now]; simpl.
  - rewrite register_endpoints. destruct (existsb _ _) eqn:E; [done|].
    apply NoDup_app. split_and!; [done| |apply NoDup_singleton].
    intros e He Hs. apply list_elem_of_singleton in Hs as ->.
    apply list_elem_of_fmap in He as (b & Hb & Hin). apply not_true_iff_false in E. apply E.
    apply existsb_exists. exists b. split; [by apply list_elem_of_In|]. by apply same_endpoint_eq.
  - unfold unregister. destruct (existsb _ _); [|done]. unfold endpoints. simpl.
    eapply sublist_NoDup; [exact H|apply remove_first_endpoints].
  - unfold endpoints. destruct (selection_exact_parts t1 t2 a p c m) as (_ & -> & _). exact H.
  - unfold endpoints. simpl. by rewrite update_first_endpoints.
  - unfold endpoints. simpl. by rewrite update_first_endpoints.
  - unfold endpoints, status. simpl. rewrite <- !list_fmap_compose.
    erewrite list_fmap_ext; [exact H|]. intros i b _. simpl. unfold backend_dict.
    pose proof (healthy_endpoint now b) as Hh. by destruct (healthy now b).
Qed.

(** The registry holds each endpoint once. Whatever is registered,
    removed, chosen or reported, no two entries have the same scope and URL;
    and a URL registered with a trailing slash is not removed by the same
    text. *)
Theorem endpoints_unique ops s x t l m :
  NoDup (endpoints (foldl run_registry new_manager ops)) ∧
  (ends_with (u "/") x = true →
   x ∉ bk_url <$> m_backends m →
   (unregister s x (register s x t l m)).2 = false).
Proof.
  split.
  - assert (∀ m, NoDup (endpoints m) → NoDup (endpoints (foldl run_registry m ops))) as H.
    { induction ops as [|op ops IH]; intros m' Hm; [done|]. by apply IH, run_registry_nodup. }
    apply H. constructor.
  - intros Hx Hm. unfold unregister.
    destruct (existsb _ _) eqn:E; [|done]. exfalso.
    apply existsb_exists in E as (b & Hin & Hb). apply list_elem_of_In in Hin.
    apply same_endpoint_eq in Hb.
    assert (endpoint b ∈ endpoints (register s x t l m)) as He by (by apply list_elem_of_fmap_2).
    rewrite register_endpoints in He.
    assert (x ∈ bk_url <$> m_backends m ∨ rstrip (N.eqb 47) x = x) as [?|Hr]; [|done|].
    { destruct (existsb _ _); [|apply elem_of_app in He as [He|He]].
      - left. apply list_elem_of_fmap in He as (c & Hc & Hcin). apply list_elem_of_fmap.
        exists c. split; [|done]. unfold endpoint in *. congruence.
      - left. apply list_elem_of_fmap in He as (c & Hc & Hcin). apply list_elem_of_fmap.
        exists c. split; [|done]. unfold endpoint in *. congruence.
      - right. apply list_elem_of_singleton in He. unfold endpoint in *. simpl in He. congruence. }
    unfold ends_with in Hx. revert Hx Hr. unfold rstrip. intros Hx Hr.
    apply (f_equal (@rev N)) in Hr. rewrite rev_involutive in Hr.
    destruct (rev x) as [|c r] eqn:Ex; [done|].
    change (rev (u "/")) with [47%N] in Hx. cbn [starts_with] in Hx.
    destruct (decide (c = 47%N)) as [->|Hc].
    + apply (f_equal length) in Hr. simpl in Hr.
      pose proof (lstrip_length (N.eqb 47) r). lia.
    + assert ((47 =? c)%N = false) as E by (apply N.eqb_neq; congruence). by rewrite E in Hx.
Qed.

(** ** The agent's own loop *)

(** What the agent registers: its host backend and the LAN one. *)
Definition agent_manager (api lan : pystr) : manager :=
  register LAN lan (u "ollama") [STANDARD; HEAVY]
    (register LOCALHOST api (u "android") [LIGHT; STANDARD] new_manager).

(** The agent's loop never leaves the host. With the backends the agent
    registers, the loop's own task is always answered with the local one,
    whatever the policy and the consent say: its type has no tier, no
    registered backend serves the shared tier, and the last resort ignores
    the policy, also one that forbids the local backend. *)
Theorem loop_never_delegated t1 t2 p consent api lan :
  (select_backend t1 t2 (Some (u "maintain_agent_loop")) p consent (agent_manager api lan)).2
  = Some (rstrip (N.eqb 47) api, u "localhost").
Proof.
  unfold agent_manager, register. cbn [existsb m_backends new_manager app].
  unfold same_endpoint at 1. simpl. unfold select_backend.
  change (tier_for_action_type (Some (u "maintain_agent_loop"))) with SHARED.
  simpl. rewrite !andb_false_r. simpl. done.
Qed.

(** Light work leaves the host. A task that is documented as always local
    goes to a LAN backend without tiers when there is no local backend. *)
Theorem light_task_leaves_host t1 t2 p consent lan type :
  allow_lan p = true →
  (select_backend t1 t2 (Some (u "record_observation")) p consent
     (register LAN lan type [] new_manager)).2 = Some (rstrip (N.eqb 47) lan, u "lan").
Proof.
  intros Hp. unfold select_backend.
  change (tier_for_action_type (Some (u "record_observation"))) with LIGHT.
  simpl. rewrite Hp. done.
Qed.

(** ** The theorems at concrete inputs *)

Definition demo_lan : manager :=
  register INTERNET (u "https://api.example.com") (u "openai") []
    (register LAN (u "http://lan:11434/") (u "ollama") [STANDARD; HEAVY] new_manager).
Definition demo_clock : nat → f64 := λ _, f_of_Z 100.

Lemma selection_permitted_witness :
  ∃ i b, m_backends demo_lan !! i = Some b ∧ u "http://lan:11434" = bk_url b ∧
    serves_tier HEAVY b = true ∧ (healthy (demo_clock i) b).2 = true.
Proof.
  destruct (selection_permitted demo_clock demo_clock (Some (u "search_api"))
    (Network true true true) false demo_lan (u "http://lan:11434") (u "lan"))
    as (i & b & Hb & Hx & _ & _ & _ & Hy & _); [by vm_compute|exists i, b].
  destruct Hy as (_ & Ht & Hh); [exists 0%nat; by vm_compute|]. done.
Defined.

Lemma endpoints_unique_witness :
  (unregister LAN (u "http://a/") (register LAN (u "http://a/") (u "ollama") [] demo_lan)).2 = false.
Proof.
  apply (endpoints_unique [] LAN (u "http://a/") (u "ollama") [] demo_lan).
  - by vm_compute.
  - by apply (bool_decide_unpack _); vm_compute.
Defined.

Lemma light_task_leaves_host_witness :
  (select_backend demo_clock demo_clock (Some (u "record_observation")) (Network true true false)
     false (register LAN (u "http://lan:11434") (u "ollama") [] new_manager)).2
  = Some (u "http://lan:11434", u "lan").
Proof. by apply light_task_leaves_host. Defined.
