(* ===== verification/Attention.v ===== *)
(** * Attention verification ([src/attention_layer.py])

    The perception signals with their ages, the verdict that fuses them, the
    scene taxonomy of what was heard, the intent of directed speech and the
    gate that skips a generation when nothing changed.  Readings of the clock
    are arguments; each method is atomic under the layer's lock. *)

From Stdlib Require Import ZArith Lia.
From Stdlib Require Import Floats.SpecFloat.
From S2P Require Import Prelude PyFloat PyStr PyVal Policy.

Local Open Scope Z_scope.

Inductive AttentionState := UNKNOWN | ABSENT | ATTENDING | DIVERTED.
#[export] Instance AttentionState_eq_dec : EqDecision AttentionState.
Proof. solve_decision. Defined.

(** [AttentionState.value]. *)
Definition attention_value (s : AttentionState) : pystr :=
  match s with
  | UNKNOWN => u "unknown" | ABSENT => u "absent"
  | ATTENDING => u "attending" | DIVERTED => u "diverted"
  end.

Inductive SpeechSource :=
  | NONE | PERSON_PRESENT_SILENT | VERIFIED_PERSON | UNATTRIBUTED_AUDIO
  | INSTRUCTION_DIRECTED | PERSON_TALKING | PERSON_PRESENT_AMBIENT_NOISE | AMBIENT_NOISE.
#[export] Instance SpeechSource_eq_dec : EqDecision SpeechSource.
Proof. solve_decision. Defined.

(** [SpeechSource.value]. *)
Definition source_value (s : SpeechSource) : pystr :=
  match s with
  | NONE => u "none"
  | PERSON_PRESENT_SILENT => u "person_present_silent"
  | VERIFIED_PERSON => u "verified_person"
  | UNATTRIBUTED_AUDIO => u "unattributed_audio"
  | INSTRUCTION_DIRECTED => u "instruction_directed"
  | PERSON_TALKING => u "person_talking"
  | PERSON_PRESENT_AMBIENT_NOISE => u "person_present_ambient_noise"
  | AMBIENT_NOISE => u "ambient_noise"
  end.

(** ** Wake words *)

(** [_WAKE_PREFIXES]. *)
Definition WAKE_PREFIXES : list pystr :=
  [u "shugo"; u "hey shugo"; u "ok shugo"; u "okay shugo"].

(** [is_wake_word_call]. *)
Definition is_wake_word_call (text : pystr) : bool :=
  let t := join (u " ") (split (lower (strip text))) in
  existsb (λ p, bool_decide (t = p) || starts_with (p ++ u " ") t || starts_with (p ++ u ",") t)
    WAKE_PREFIXES.

(** ** The layer *)

(** The freshness windows, in milliseconds. *)
Record windows := Windows {
  face_window_ms : Z;
  speech_window_ms : Z;
  gaze_window_ms : Z;
  directed_speech_window_ms : Z;
  stale_timeout_ms : Z
}.
Definition default_windows : windows := Windows 8000 15000 5000 10000 30000.

(** What the providers stamped last, and when. *)
Record signals := Signals {
  face_detected : bool;
  face_ts : f64;
  gaze_toward_camera : option bool;
  gaze_ts : f64;
  speech_any : bool;
  speech_ts : f64;
  directed_at_agent : option bool;
  directed_ts : f64;
  voice_active : bool;
  voice_ts : f64;
  last_transcript : pystr;
  last_is_call : bool
}.

(** An entry of the attending speech buffer: transcript, confidence, time. *)
Definition heard : Type := pystr * f64 * f64.

Record layer := Layer {
  l_windows : windows;
  l_signals : signals;
  l_tts : bool;
  l_state : AttentionState;
  l_changed : f64;
  l_confidence : f64;
  l_speech : list heard;
  l_hash : option pystr;
  l_hash_ts : f64
}.

(** [__init__], created at a reading of the clock. *)
Definition new_layer (w : windows) (now : f64) : layer :=
  Layer w (Signals false f0 None f0 false f0 None f0 false f0 [] false) false
    UNKNOWN now f0 [] None f0.

Definition with_signals (s : signals) (l : layer) : layer :=
  Layer (l_windows l) s (l_tts l) (l_state l) (l_changed l) (l_confidence l) (l_speech l)
    (l_hash l) (l_hash_ts l).
Definition with_confidence (c : f64) (l : layer) : layer :=
  Layer (l_windows l) (l_signals l) (l_tts l) (l_state l) (l_changed l) c (l_speech l)
    (l_hash l) (l_hash_ts l).
Definition with_speech (b : list heard) (l : layer) : layer :=
  Layer (l_windows l) (l_signals l) (l_tts l) (l_state l) (l_changed l) (l_confidence l) b
    (l_hash l) (l_hash_ts l).

(** ** Signals *)

(** [stamp_face]: the count is an integer or a float. *)
Definition stamp_face (now : f64) (count : Z + f64) (gaze : option bool) (l : layer) : layer :=
  let s := l_signals l in
  let seen := match count with inl z => 0 <? z | inr x => fltb f0 x end in
  let '(g, gt) := match gaze with
                  | Some b => (Some b, now)
                  | None => (gaze_toward_camera s, gaze_ts s)
                  end in
  with_signals (Signals seen now g gt (speech_any s) (speech_ts s) (directed_at_agent s)
                  (directed_ts s) (voice_active s) (voice_ts s) (last_transcript s)
                  (last_is_call s)) l.

(** [stamp_speech]. *)
Definition stamp_speech (now : f64) (transcript : pystr) (directed : option bool) (l : layer) :
    layer :=
  let s := l_signals l in
  let '(d, dt) := match directed with
                  | Some b => (Some b, now)
                  | None => (directed_at_agent s, directed_ts s)
                  end in
  with_signals (Signals (face_detected s) (face_ts s) (gaze_toward_camera s) (gaze_ts s)
                  (negb (bool_decide (transcript = []))) now d dt (voice_active s) (voice_ts s)
                  transcript (is_wake_word_call transcript)) l.

(** [stamp_voice]. *)
Definition stamp_voice (now : f64) (active : bool) (l : layer) : layer :=
  let s := l_signals l in
  with_signals (Signals (face_detected s) (face_ts s) (gaze_toward_camera s) (gaze_ts s)
                  (speech_any s) (speech_ts s) (directed_at_agent s) (directed_ts s)
                  active now (last_transcript s) (last_is_call s)) l.

(** [stamp_tts]. *)
Definition stamp_tts (speaking : bool) (l : layer) : layer :=
  Layer (l_windows l) (l_signals l) speaking (l_state l) (l_changed l) (l_confidence l)
    (l_speech l) (l_hash l) (l_hash_ts l).

(** ** Freshness *)

(** [_age(ts)] and the comparison with a window. *)
Definition age (now ts : f64) : f64 := fmul (fsub now ts) (f_of_Z 1000).
Definition within (now ts : f64) (window : Z) : bool := fltb (age now ts) (f_of_Z window).

(** What is fresh at a time: gaze and directedness only while fresh. *)
Record evidence := Evidence {
  face_fresh : bool;
  speech_fresh : bool;
  voice_fresh : bool;
  gaze_now : option bool;
  directed_now : option bool
}.

Definition evidence_at (now : f64) (l : layer) : evidence :=
  let s := l_signals l in
  let w := l_windows l in
  Evidence (face_detected s && within now (face_ts s) (face_window_ms w))
    (speech_any s && within now (speech_ts s) (speech_window_ms w))
    (voice_active s && within now (voice_ts s) (speech_window_ms w))
    (if within now (gaze_ts s) (gaze_window_ms w) then gaze_toward_camera s else None)
    (if within now (directed_ts s) (directed_speech_window_ms w) then directed_at_agent s
     else None).

Definition is_set {A} (o : option A) : bool := match o with Some _ => true | None => false end.
Definition says (o : option bool) (b : bool) : bool := bool_decide (o = Some b).

(** [any_signal_fresh]; [all_stale] is its negation. *)
Definition any_fresh (e : evidence) : bool :=
  face_fresh e || speech_fresh e || is_set (gaze_now e) || is_set (directed_now e)
  || voice_fresh e.

(** ** The verdict *)

(** [min(1.0, signals / 3.0)]. *)
Definition attending_confidence (e : evidence) : f64 :=
  let signals := 1 + (if says (gaze_now e) true then 1 else 0)
                 + (if says (directed_now e) true then 1 else 0) in
  fmin f1 (fdiv (f_of_Z signals) (f_of_Z 3)).

(** The branches of [evaluate]: the new state and the confidence. *)
Definition judge (state : AttentionState) (call : bool) (e : evidence) : AttentionState * f64 :=
  if negb (any_fresh e) then (UNKNOWN, f0)
  else if face_fresh e then
    if says (gaze_now e) true || says (directed_now e) true
    then (ATTENDING, attending_confidence e)
    else if says (gaze_now e) false && speech_fresh e then (DIVERTED, f_dec 4 1)
    else if decide (state = ATTENDING) then (DIVERTED, f_dec 3 1)
    else (ATTENDING, f_dec 3 1)
  else if speech_fresh e then
    if call then (ATTENDING, f_dec 5 1)
    else (if decide (state = ATTENDING) then DIVERTED else state, f_dec 2 1)
  else (state, f0).

(** [_transition_to], with the reading it takes. *)
Definition transition_to (at_ : f64) (s : AttentionState) (l : layer) : layer :=
  Layer (l_windows l) (l_signals l) (l_tts l) s at_ (l_confidence l)
    (if decide (s = ATTENDING) then l_speech l else []) (l_hash l) (l_hash_ts l).

(** [evaluate]: the reading it starts from and those of its transitions. *)
Definition evaluate (now t1 t2 : f64) (l : layer) : layer * (AttentionState * f64) :=
  let e := evidence_at now l in
  let l := if negb (any_fresh e)
              && fltb (f_of_Z (stale_timeout_ms (l_windows l))) (age now (l_changed l))
           then transition_to t1 UNKNOWN l else l in
  let v := judge (l_state l) (last_is_call (l_signals l)) e in
  let l := if decide (v.1 = l_state l) then l else transition_to t2 v.1 l in
  (with_confidence v.2 l, (l_state l, v.2)).

(** ** What was heard *)

(** [_classify_speech_locked]. *)
Definition classify_speech (call : bool) (e : evidence) : SpeechSource * f64 :=
  let bound := face_fresh e && (says (gaze_now e) true || says (directed_now e) true) in
  if speech_fresh e then
    if call then (INSTRUCTION_DIRECTED, if bound then f_dec 95 2 else f_dec 85 2)
    else if bound then (VERIFIED_PERSON, f_dec 9 1)
    else if face_fresh e then
      if says (gaze_now e) false then (UNATTRIBUTED_AUDIO, f_dec 8 1)
      else (PERSON_TALKING, f_dec 7 1)
    else (UNATTRIBUTED_AUDIO, f_dec 6 1)
  else if voice_fresh e then
    (if face_fresh e then PERSON_PRESENT_AMBIENT_NOISE else AMBIENT_NOISE, f_dec 7 1)
  else if face_fresh e then (PERSON_PRESENT_SILENT, f_dec 9 1)
  else (NONE, f1).

Definition opt_bool (o : option bool) : pyval :=
  match o with Some b => VBool b | None => VNone end.

(** [speech_source]. *)
Definition speech_source (now : f64) (l : layer) : pydict :=
  let e := evidence_at now l in
  let '(src, c) := classify_speech (last_is_call (l_signals l)) e in
  [(u "source", VStr (source_value src)); (u "confidence", VFloat (f_round 2 c));
   (u "face_fresh", VBool (face_fresh e)); (u "speech_fresh", VBool (speech_fresh e));
   (u "voice_fresh", VBool (voice_fresh e)); (u "gaze_toward_camera", opt_bool (gaze_now e))].

(** ** Intent *)

(** [record_directed_speech]. *)
Definition record_directed_speech (now : f64) (transcript : pystr) (confidence : f64)
    (l : layer) : layer :=
  if decide (l_state l = ATTENDING)
  then with_speech (l_speech l ++ [(transcript, confidence, now)]) l else l.

(** The verb and the subject of a sentence of at least three words. *)
Definition verb_and_subject (words : list pystr) : option (pystr * pystr) :=
  match words with
  | a :: b :: c :: rest =>
      Some (if bool_decide (a ∈ [u "can"; u "please"; u "i"; u "shugo"]) then b else a,
            List.last rest c)
  | _ => None
  end.

Definition opt_str (o : option pystr) : pyval :=
  match o with Some s => VStr s | None => VNone end.

(** [extract_intent]. *)
Definition extract_intent (now : f64) (l : layer) : pydict :=
  let '(vs, w) :=
    match l_speech l with
    | [] => (None, f0)
    | first :: rest =>
        (verb_and_subject (split (lower (strip (List.last rest first).1.1))),
         f_round 1 (fsub now first.2))
    end in
  [(u "intent_subject", opt_str (snd <$> vs)); (u "intent_verb", opt_str (fst <$> vs));
   (u "intent_window_s", VFloat w)].

(** ** The skip gate *)

Section Skip.
Context {PR : PyRepr} (dumps : pyval → res pystr) (sha256 : pystr → pystr).

(** A nested object of an observation, or an empty one. *)
Definition object_at (key : pystr) (obs : pydict) : pydict :=
  match dget key obs with Some (VDict d) => d | _ => [] end.

(** [slice_data]. *)
Definition observation_slice (observation : pyval) : pyval :=
  let obs := match observation with VDict d => d | _ => [] end in
  let human := object_at (u "human") obs in
  let attention := object_at (u "attention") obs in
  VDict
    [(u "speech_source", VStr (py_str (dict_get (u "speech_source") (VStr (u "none")) human)));
     (u "face_count", dict_get (u "face_count") (VInt 0) human);
     (u "speech_recent",
       VStr (take 200 (strip (py_str (dict_get (u "speech_recent") (VStr []) human)))));
     (u "attention_state",
       VStr (py_str (dict_get (u "attention_state") (VStr (u "unknown")) attention)));
     (u "scene_verdict",
       VStr (take 64 (strip (py_str (dict_get (u "scene_verdict") (VStr []) obs)))));
     (u "mesh_peer_count", dict_get (u "mesh_peer_count") (VInt 0) obs)].

(** [_observation_hash]. *)
Definition observation_hash (observation : pyval) : res pystr :=
  raw ← dumps (observation_slice observation); Ok (take 32 (sha256 raw)).

(** A text with more than blanks. *)
Definition has_words (v : option pyval) : bool :=
  match v with Some (VStr s) => negb (bool_decide (strip s = [])) | _ => false end.

(** [_has_fresh_signals]. *)
Definition has_fresh_signals (observation : pyval) : bool :=
  match observation with
  | VDict obs =>
      match dget (u "human") obs with
      | Some (VDict human) =>
          has_words (dget (u "speech_recent") human)
          || match dget (u "speech_source") human with
             | Some (VStr s) => bool_decide (s ∈ [u "instruction_directed"; u "verified_person"])
             | _ => false
             end
      | _ => false
      end
      || has_words (dget (u "transcript") obs)
      || match dget (u "events") obs with Some (VList (_ :: _)) => true | _ => false end
  | _ => true
  end.

(** [should_regenerate]; [window] is [float(window_s)] or the default. *)
Definition should_regenerate (now : f64) (observation : pyval) (window : option f64)
    (l : layer) : bool * pystr :=
  let w := match window with Some x => fmax f0 x | None => f_of_Z 30 end in
  match observation_hash observation with
  | Raise _ => (true, u "hash_error")
  | Ok current =>
      match l_hash l with
      | None => (true, u "first_observation")
      | Some h =>
          if has_fresh_signals observation then (true, u "fresh_signals")
          else if negb (bool_decide (current = h)) then (true, u "observation_changed")
          else if fleb w (fsub now (l_hash_ts l)) then (true, u "dedup_window_elapsed")
          else (false, u "observation_unchanged")
      end
  end.

(** [mark_regenerated]. *)
Definition mark_regenerated (now : f64) (observation : pyval) (l : layer) : layer :=
  match observation_hash observation with
  | Raise _ => l
  | Ok h => Layer (l_windows l) (l_signals l) (l_tts l) (l_state l) (l_changed l)
              (l_confidence l) (l_speech l) (Some h) now
  end.

(** [snapshot]. *)
Definition snapshot (now : f64) (l : layer) : pydict :=
  let s := l_signals l in
  let e := evidence_at now l in
  let '(src, c) := classify_speech (last_is_call s) e in
  [(u "state", VStr (attention_value (l_state l)));
   (u "confidence", VFloat (f_round 2 (l_confidence l)));
   (u "face_detected", VBool (face_detected s));
   (u "gaze_toward_camera", opt_bool (gaze_toward_camera s));
   (u "speech_directed_at_agent", opt_bool (directed_at_agent s));
   (u "tts_speaking", VBool (l_tts l)); (u "state_changed_ts", VFloat (l_changed l));
   (u "attending_speech_count", VInt (Z.of_nat (length (l_speech l))));
   (u "speech_source", VStr (source_value src));
   (u "speech_source_conf", VFloat (f_round 2 c)); (u "voice_fresh", VBool (voice_fresh e));
   (u "face_fresh", VBool (face_fresh e)); (u "speech_fresh", VBool (speech_fresh e));
   (u "gaze_fresh", VBool (is_set (gaze_now e)))].
End Skip.

(** ** The verdict's meaning *)

Lemma evidence_transition now at_ s l : evidence_at now (transition_to at_ s l) = evidence_at now l.
Proof. done. Qed.

(** [evaluate] is [judge] on what is fresh: the stale transition leads where
    the judgement leads. *)
Lemma evaluate_judges now t1 t2 l :
  let r := judge (l_state l) (last_is_call (l_signals l)) (evidence_at now l) in
  (evaluate now t1 t2 l).2 = r ∧ l_state (evaluate now t1 t2 l).1 = r.1.
Proof.
  unfold evaluate. destruct (any_fresh (evidence_at now l)) eqn:Ef; simpl.
  - destruct (judge _ _ _) as [s c]; simpl. case_decide; simpl; split; congruence.
  - unfold judge. rewrite Ef. simpl.
    destruct (fltb _ _); simpl; [done|]. case_decide; simpl; split; congruence.
Qed.

Lemma evaluate_state now t1 t2 l : l_state (evaluate now t1 t2 l).1 = (evaluate now t1 t2 l).2.1.
Proof. destruct (evaluate_judges now t1 t2 l) as [-> ->]. done. Qed.

(** Judging changes neither the signals nor the windows. *)
Lemma evaluate_evidence now t1 t2 at_ l :
  evidence_at at_ (evaluate now t1 t2 l).1 = evidence_at at_ l.
Proof.
  unfold evaluate. destruct (_ && _); simpl; by case_decide.
Qed.

(** *** Reachable layers *)

(** The operations of the layer, with the readings they take. *)
Inductive layer_op :=
  | Face (now : f64) (count : Z + f64) (gaze : option bool)
  | Speech (now : f64) (transcript : pystr) (directed : option bool)
  | Voice (now : f64) (active : bool)
  | Tts (speaking : bool)
  | Evaluate (now t1 t2 : f64)
  | Directed (now : f64) (transcript : pystr) (confidence : f64).

Definition run_op (l : layer) (op : layer_op) : layer :=
  match op with
  | Face now n g => stamp_face now n g l
  | Speech now t d => stamp_speech now t d l
  | Voice now a => stamp_voice now a l
  | Tts b => stamp_tts b l
  | Evaluate now t1 t2 => (evaluate now t1 t2 l).1
  | Directed now t c => record_directed_speech now t c l
  end.

Definition run_ops (ops : list layer_op) (l : layer) : layer := foldl run_op l ops.

(** The state is never ABSENT, and words are buffered only while attending. *)
Definition layer_ok (l : layer) : Prop :=
  l_state l ≠ ABSENT ∧ (l_state l ≠ ATTENDING → l_speech l = []).

Lemma judge_not_absent s call e : s ≠ ABSENT → (judge s call e).1 ≠ ABSENT.
Proof. intros Hs. unfold judge. by repeat case_match; simpl. Qed.

Lemma transition_ok t s l : s ≠ ABSENT → layer_ok (transition_to t s l).
Proof. intros Hs. split; [done|]. simpl. by case_decide. Qed.

Lemma evaluate_ok now t1 t2 l : layer_ok l → layer_ok (evaluate now t1 t2 l).1.
Proof.
  intros H. unfold evaluate.
  set (l1 := if _ && _ then transition_to t1 UNKNOWN l else l).
  assert (layer_ok l1) as H1 by (unfold l1; destruct (_ && _); [by apply transition_ok|done]).
  simpl. case_decide; [done|]. apply transition_ok, judge_not_absent, H1.
Qed.

Lemma run_op_ok l op : layer_ok l → layer_ok (run_op l op).
Proof.
  intros H. destruct op as [now n g|now t d|now a|b|now t1 t2|now t c]; simpl.
  - unfold stamp_face. by destruct g.
  - unfold stamp_speech. by destruct d.
  - done.
  - done.
  - by apply evaluate_ok.
  - destruct H as [Hs Hb]. unfold record_directed_speech. case_decide; [|done]. by split.
Qed.

Lemma run_ops_ok ops l : layer_ok l → layer_ok (run_ops ops l).
Proof. revert l. induction ops as [|op ops IH]; intros l H; [done|]. by apply IH, run_op_ok. Qed.

(** *** Sequences of evaluations *)

#[local] Opaque evaluate evidence_at.

(** The verdicts of a sequence of evaluations, each with its readings. *)
Fixpoint verdicts (readings : list (f64 * f64 * f64)) (l : layer) : list AttentionState :=
  match readings with
  | [] => []
  | (now, t1, t2) :: rest =>
      let r := evaluate now t1 t2 l in r.2.1 :: verdicts rest r.1
  end.

(** A property of the evidence at every reading. *)
Definition throughout (P : evidence → Prop) (readings : list (f64 * f64 * f64)) (l : layer) :=
  Forall (λ r, P (evidence_at r.1.1 l)) readings.

Lemma throughout_evaluate P now t1 t2 readings l :
  throughout P readings l → throughout P readings (evaluate now t1 t2 l).1.
Proof.
  intros H. eapply Forall_impl; [exact H|]. intros r. cbv beta. by rewrite evaluate_evidence.
Qed.

(** A face, and nothing that says where its owner is looking or talking. *)
Definition undecided (e : evidence) : Prop :=
  face_fresh e = true ∧ gaze_now e ≠ Some true ∧ directed_now e ≠ Some true ∧
  ¬ (gaze_now e = Some false ∧ speech_fresh e = true).

Lemma judge_undecided s call e : undecided e →
  (judge s call e).1 = if decide (s = ATTENDING) then DIVERTED else ATTENDING.
Proof.
  intros (Hf & Hg & Hd & Hn). unfold judge, any_fresh, says. rewrite Hf. simpl.
  rewrite (bool_decide_false (gaze_now e = _)) by done.
  rewrite (bool_decide_false (directed_now e = _)) by done. simpl.
  destruct (bool_decide (gaze_now e = Some false) && speech_fresh e) eqn:E;
    [apply andb_true_iff in E as [E1 E2]; apply bool_decide_eq_true in E1; by destruct Hn|].
  by destruct (decide (s = ATTENDING)).
Qed.

(** A face alone makes the verdict alternate. While a face is in view
    and nothing says whether its owner looks at or talks to the agent, every
    evaluation turns ATTENDING into DIVERTED and anything else into
    ATTENDING: of any sequence of evaluations every other one refuses the
    consented actions, although no signal changed. *)
Theorem face_only_alternates readings l i v :
  throughout undecided readings l →
  verdicts readings l !! i = Some v →
  v = (if Nat.even i
       then if decide (l_state l = ATTENDING) then DIVERTED else ATTENDING
       else if decide (l_state l = ATTENDING) then ATTENDING else DIVERTED) ∧
  ∀ now t c, (has_grant_for_attended_action t (Some (attention_value v)) now c).1
             = has_grant t now c && bool_decide (v = ATTENDING).
Proof.
  revert l i. induction readings as [|[[now t1] t2] rest IH]; intros l i Hr Hv; [done|].
  apply Forall_cons in Hr as [He Hr]. simpl in He, Hv.
  pose proof (evaluate_judges now t1 t2 l) as [E1 E2].
  pose proof (judge_undecided (l_state l) (last_is_call (l_signals l)) _ He) as Ej.
  destruct i as [|i]; simpl in Hv.
  - injection Hv as <-. rewrite E1, Ej. split; [done|]. intros now' t c. simpl.
    by destruct (decide (l_state l = ATTENDING)); destruct (has_grant t now' c).
  - apply IH in Hv; [|by apply throughout_evaluate]. rewrite E2, Ej in Hv. destruct Hv as [Hv Hc].
    split; [|exact Hc]. rewrite Nat.even_succ, <- Nat.negb_even. rewrite Hv.
    by destruct (Nat.even i), (decide (l_state l = ATTENDING)).
Qed.

(** Voice energy and nothing else. *)
Definition only_voice (e : evidence) : Prop :=
  face_fresh e = false ∧ speech_fresh e = false ∧ voice_fresh e = true.

Lemma judge_voice call e : only_voice e → judge ATTENDING call e = (ATTENDING, f0).
Proof.
  intros (Hf & Hs & Hv). unfold judge, any_fresh. rewrite Hf, Hs, Hv. by rewrite orb_true_r.
Qed.

(** Music holds the attention. Once the verdict is ATTENDING, it stays
    ATTENDING for as long as there is voice energy, with no face in view and
    no words heard at any of the evaluations: energy alone keeps the consent
    of attended actions. *)
Theorem energy_holds_attention readings l :
  l_state l = ATTENDING → throughout only_voice readings l →
  Forall (λ v, v = ATTENDING) (verdicts readings l) ∧
  ∀ r, r ∈ readings → (classify_speech (last_is_call (l_signals l)) (evidence_at r.1.1 l)).1
                      = AMBIENT_NOISE.
Proof.
  intros Hl Hr. split.
  - revert l Hl Hr. induction readings as [|[[now t1] t2] rest IH]; intros l Hl Hr; [constructor|].
    apply Forall_cons in Hr as [He Hr]. simpl in He |- *.
    destruct (evaluate_judges now t1 t2 l) as [E1 E2].
    rewrite Hl, (judge_voice _ _ He) in E1, E2. constructor; [by rewrite E1|].
    apply IH; [done|by apply throughout_evaluate].
  - intros r Hin. eapply Forall_forall in Hr; [|exact Hin]. simpl in Hr.
    destruct (evidence_at r.1.1 l), Hr as (Hf & Hs & Hv). simpl in Hf, Hs, Hv. by subst.
Qed.

(** Absence is never reported. Whatever was stamped and evaluated since
    the layer was created, its state is not ABSENT and no evaluation answers
    ABSENT; when no face, words, energy, gaze or directedness is fresh, as
    after the human has left the camera's view in silence, the answer is
    UNKNOWN, with which an attended action needs a grant and nothing more. *)
Theorem absence_unreported w t0 ops now t1 t2 :
  let l := run_ops ops (new_layer w t0) in
  let v := (evaluate now t1 t2 l).2.1 in
  l_state l ≠ ABSENT ∧ v ≠ ABSENT ∧
  (any_fresh (evidence_at now l) = false →
   v = UNKNOWN ∧
   ∀ t at_ c, (has_grant_for_attended_action t (Some (attention_value v)) at_ c).1
              = has_grant t at_ c).
Proof.
  cbv zeta. set (l := run_ops ops (new_layer w t0)).
  assert (layer_ok l) as Hl by (by apply run_ops_ok; split).
  split; [apply Hl|]. split; [rewrite <- evaluate_state; apply (evaluate_ok _ _ _ _ Hl)|].
  intros Hf. destruct (evaluate_judges now t1 t2 l) as [-> _].
  unfold judge. rewrite Hf. simpl. split; [done|]. intros t at_ c. by destruct (has_grant t at_ c).
Qed.

(** What ATTENDING takes. An evaluation answers ATTENDING exactly when a
    face is in view whose owner looks at or addresses the agent, or is not
    seen looking away while talking and was not just attending; or a wake
    word was heard without a face; or it was attending and neither a face
    nor words are fresh, but something is. *)
Theorem attending_exact now t1 t2 l :
  let e := evidence_at now l in
  (evaluate now t1 t2 l).2.1 = ATTENDING ↔
  (face_fresh e = true ∧
     (gaze_now e = Some true ∨ directed_now e = Some true ∨
      l_state l ≠ ATTENDING ∧ ¬ (gaze_now e = Some false ∧ speech_fresh e = true))) ∨
  (face_fresh e = false ∧ speech_fresh e = true ∧ last_is_call (l_signals l) = true) ∨
  (l_state l = ATTENDING ∧ face_fresh e = false ∧ speech_fresh e = false ∧
     any_fresh e = true).
Proof.
  cbv zeta. destruct (evaluate_judges now t1 t2 l) as [-> _].
  destruct (evidence_at now l) as [f s v g d]. generalize (last_is_call (l_signals l)) as call.
  generalize (l_state l) as st. intros st call.
  destruct st, f, s, v, call, g as [[]|], d as [[]|]; vm_compute; intuition congruence.
Qed.

(** ** The skip gate's meaning *)

Section SkipGate.
Context {PR : PyRepr} (dumps : pyval → res pystr) (sha256 : pystr → pystr).

(** The skip gate skips only repetitions. A generation is skipped exactly
    when an observation was marked, this one carries no fresh signal and has
    its digest, and the window has not elapsed since; once an observation
    without fresh signals is marked, it is skipped for the rest of the
    window, and anything skipped serialises, in the fields that matter, to a
    text with the digest of the marked one's. *)
Theorem skip_gate_exact now t l marked observation window :
  ((should_regenerate dumps sha256 now observation window l).1 = false ↔
   has_fresh_signals observation = false ∧
   ∃ h, observation_hash dumps sha256 observation = Ok h ∧ l_hash l = Some h ∧
        fleb (default (f_of_Z 30) (fmax f0 <$> window)) (fsub now (l_hash_ts l)) = false) ∧
  let r := should_regenerate dumps sha256 now observation window
             (mark_regenerated dumps sha256 t marked l) in
  is_ok (dumps (observation_slice marked)) = true → r.1 = false →
  fleb (default (f_of_Z 30) (fmax f0 <$> window)) (fsub now t) = false ∧
  ∃ a b, dumps (observation_slice marked) = Ok a ∧ dumps (observation_slice observation) = Ok b ∧
         take 32 (sha256 a) = take 32 (sha256 b).
Proof.
  assert (∀ l, (should_regenerate dumps sha256 now observation window l).1 = false ↔
   has_fresh_signals observation = false ∧
   ∃ h, observation_hash dumps sha256 observation = Ok h ∧ l_hash l = Some h ∧
        fleb (default (f_of_Z 30) (fmax f0 <$> window)) (fsub now (l_hash_ts l)) = false) as Hx.
  { clear. intros l. unfold should_regenerate.
    destruct (observation_hash _ _ _) as [c|x]; [|naive_solver].
    destruct (l_hash l) as [h|]; [|naive_solver].
    destruct (has_fresh_signals observation); [naive_solver|].
    case_bool_decide as Ec; simpl; [|naive_solver].
    destruct window as [w|]; simpl; destruct (fleb _ _); naive_solver. }
  split; [apply Hx|]. cbv zeta. intros Hm Hs. apply Hx in Hs as (_ & h & Hh & Hl & Hw).
  unfold mark_regenerated, observation_hash in *. revert Hm Hl Hw Hh.
  destruct (dumps (observation_slice marked)) as [a|x]; [|done]. intros _. simpl.
  destruct (dumps (observation_slice observation)) as [b|x]; simpl; [|done].
  intros [= <-] Hw [= Hb]. eauto 10.
Qed.
End SkipGate.

(** ** The theorems at concrete inputs *)

Definition demo_face : layer :=
  (evaluate (f_of_Z 100) (f_of_Z 100) (f_of_Z 100)
     (stamp_face (f_of_Z 100) (inl 1) None (new_layer default_windows (f_of_Z 99)))).1.
Definition demo_readings : list (f64 * f64 * f64) :=
  (λ z, (f_of_Z z, f_of_Z z, f_of_Z z)) <$> [101; 102; 103].

Lemma face_only_alternates_witness :
  verdicts demo_readings demo_face = [DIVERTED; ATTENDING; DIVERTED] ∧
  (has_grant_for_attended_action (u "speak") (Some (attention_value DIVERTED)) f0 []).1 = false.
Proof.
  split; [by vm_compute|].
  destruct (face_only_alternates demo_readings demo_face 2 DIVERTED) as [_ H].
  - repeat constructor; vm_compute; congruence || (intros [? ?]; congruence).
  - by vm_compute.
  - by rewrite H.
Defined.

(** A wake word, then music. *)
Definition demo_music : layer :=
  stamp_voice (f_of_Z 120) true
    (evaluate (f_of_Z 100) (f_of_Z 100) (f_of_Z 100)
       (stamp_speech (f_of_Z 100) (u "Hey Shugo, stop") None
          (new_layer default_windows (f_of_Z 99)))).1.

Lemma energy_holds_attention_witness :
  Forall (λ v, v = ATTENDING)
    (verdicts ((λ z, (f_of_Z z, f_of_Z z, f_of_Z z)) <$> [121; 127; 134]) demo_music).
Proof.
  apply energy_holds_attention.
  - by vm_compute.
  - repeat constructor; by vm_compute.
Defined.

Lemma absence_unreported_witness :
  (evaluate (f_of_Z 200) (f_of_Z 200) (f_of_Z 200)
     (run_ops [Face (f_of_Z 100) (inl 1) (Some true); Evaluate (f_of_Z 100) f0 f0;
               Face (f_of_Z 200) (inl 0) None] (new_layer default_windows f0))).2.1 = UNKNOWN.
Proof.
  apply (absence_unreported default_windows f0
    [Face (f_of_Z 100) (inl 1) (Some true); Evaluate (f_of_Z 100) f0 f0;
     Face (f_of_Z 200) (inl 0) None] (f_of_Z 200) (f_of_Z 200) (f_of_Z 200)).
  by vm_compute.
Defined.

Definition demo_observation : pyval :=
  VDict [(u "human", VDict [(u "face_count", VInt 1); (u "speech_recent", VBool true)])].
Definition demo_dumps (v : pyval) : res pystr :=
  match v with VDict ((_, VStr s) :: _) => Ok s | _ => Ok [] end.

Lemma skip_gate_exact_witness :
  let _ : PyRepr := λ _, [] in
  fleb (f_of_Z 30) (fsub (f_of_Z 110) (f_of_Z 100)) = false.
Proof.
  intros ?. apply (proj2 (skip_gate_exact demo_dumps (λ s, s) (f_of_Z 110) (f_of_Z 100)
    (new_layer default_windows f0) demo_observation demo_observation None)); by vm_compute.
Defined.
