(* ===== verification/Routing.v ===== *)
(** * Response routing ([src/response_routing.py])

    Which device answers: the proximity score of a device's facts, the order of
    the candidates and the choice of the speaking one.  Facts, candidates and
    ages are decoded values, as the callers pass them. *)

From Stdlib Require Import ZArith Lia Sorted.
From Stdlib Require Import Floats.SpecFloat.
From S2P Require Import Prelude PyFloat PyStr PyVal.
From S2P Require Attention.

Local Open Scope Z_scope.

(** ** Facts *)

(** A number as a float, to compare it with a small float literal. *)
Definition num_f (v : pyval) : option f64 :=
  match v with
  | VBool b => Some (if b then f1 else f0)
  | VInt z => Some (f_of_Z z)
  | VFloat x => Some x
  | _ => None
  end.

Definition bare_key (k : pystr) : pystr :=
  if starts_with (u "remote_") k then drop 7 k else k.

(** [normalise_facts]. *)
Definition normalise_facts (facts : pydict) : res pydict :=
  let out := foldl (λ out kv, dset (bare_key kv.1) kv.2 out) [] facts in
  if dhas (u "face_present") out then Ok out
  else match dget (u "face_count") out with
       | Some (VBool _ as v) | Some (VInt _ as v) | Some (VFloat _ as v) =>
           n ← py_int v; Ok (dset (u "face_present") (VBool (0 <? n)) out)
       | _ => Ok out
       end.

Definition fact (k : string) (f : pydict) : pyval := dict_get (u k) VNone f.
Definition has_fact (k : string) (f : pydict) : bool := truthy (fact k f).

Definition DIRECTED : list pystr :=
  [u "instruction_directed"; u "verified_person"; u "person_talking"].
Definition AMBIENT : list pystr :=
  [u "ambient_noise"; u "unattributed_audio"; u "unattributed_speech"; u "none"; []].

(** [_STALE_HALF_LIFE_S], [_IGNORE_AFTER_S] and [DEFAULT_FLOOR]. *)
Definition STALE_HALF_LIFE_S : f64 := f_of_Z 15.
Definition IGNORE_AFTER_S : f64 := f_of_Z 45.
Definition DEFAULT_FLOOR : f64 := f_dec 20 2.

(** ** The score *)

Section Score.
Context {PR : PyRepr}.

(** [str(f.get(key) or "").strip().lower()]. *)
Definition word_fact (k : string) (f : pydict) : pystr :=
  lower (strip (py_str (py_or (fact k f) (VStr [])))).

Abbreviation evidence := (f64 * pystr)%type.

(** What each present signal adds ([SCORE_WEIGHTS]), with its reason. *)
Definition flag_signal (k : string) (weight : f64) (why : string) (f : pydict) : list evidence :=
  if has_fact k f then [(weight, u why)] else [].

Definition speech_signal (f : pydict) : list evidence :=
  let source := word_fact "speech_source" f in
  if bool_decide (source ∈ DIRECTED) then [(f_dec 30 2, u "speech:" ++ source)]
  else if negb (bool_decide (source = [])) && negb (bool_decide (source ∈ AMBIENT))
  then [(f_dec 20 2, u "speech:" ++ source)] else [].

Definition utterance_signal (f : pydict) : list evidence :=
  match num_f (dict_get (u "utterance_age_s") (fact "transcript_age_s" f) f) with
  | Some age =>
      if fleb age (f_of_Z 5) then [(f_dec 10 2, u "just-spoke")]
      else if fleb age (f_of_Z 15) then [(f_dec 5 2, u "spoke-recently")] else []
  | None => flag_signal "speech_recent" (f_dec 10 2) "speech-recent" f
  end.

Definition perception (f : pydict) : list evidence :=
  flag_signal "face_present" (f_dec 35 2) "face" f
  ++ flag_signal "gaze_toward_camera" (f_dec 15 2) "gaze" f
  ++ speech_signal f
  ++ flag_signal "voice_active" (f_dec 10 2) "voice" f
  ++ flag_signal "presence_present" (f_dec 15 2) "present" f
  ++ flag_signal "terminal_active" (f_dec 30 2) "terminal-input" f
  ++ utterance_signal f.

Definition total (es : list evidence) : f64 := foldl (λ s e, fadd s e.1) f0 es.

(** [f"{word}({age:.0f}s)"]. *)
Definition aged_text (word : string) (age : pyval) : res pystr :=
  x ← match age with VInt z => py_float_of_Z z | v => Ok (default f0 (num_f v)) end;
  Ok (u word ++ u "(" ++ fmt_fixed 0 x ++ u "s)").

Definition disengaged (attention : pystr) : bool :=
  bool_decide (attention ∈ [u "absent"; u "diverted"]).

(** The tail of [proximity_score]: the age of the evidence, and rounding. *)
Definition aged_score (age_s : pyval) (score : f64) (why : list pystr) : res (f64 * list pystr) :=
  let final score why := Ok (fmin f1 (f_round 3 score), why) in
  match num_f age_s with
  | None => final score why
  | Some age =>
      if fleb IGNORE_AFTER_S age then
        w ← aged_text "stale" age_s; Ok (f0, why ++ [w])
      else if fltb STALE_HALF_LIFE_S age then
        w ← aged_text "aged" age_s; final (fmul score (f_dec 5 1)) (why ++ [w])
      else final score why
  end.

(** [proximity_score], of an object of facts and an age or [None]. *)
Definition proximity_score (facts : pydict) (age_s : pyval) : res (f64 * list pystr) :=
  f ← normalise_facts facts;
  let es := perception f in
  let attention := word_fact "attention_state" f in
  if bool_decide (attention = u "attending") then
    aged_score age_s (fadd (total es) (f_dec 10 2)) (es.*2 ++ [u "attending"])
  else if disengaged attention && negb (has_fact "face_present" f) then
    Ok (f0, [u "attention:" ++ attention])
  else if disengaged attention then
    aged_score age_s (total es) (es.*2 ++ [u "attention:" ++ attention])
  else aged_score age_s (total es) (es.*2).

(** ** The candidates *)

Record scored := Scored {
  sc_device : pystr;
  sc_score : f64;
  sc_why : list pystr;
  can_speak : bool;
  is_self : bool;
  sc_priority : Z
}.

(** A candidate of [rank]; one without a device or that is not an object is
    passed over. *)
Definition score_candidate (v : pyval) : res (option scored) :=
  match v with
  | VDict c =>
      let device := strip (py_str (py_or (fact "device_id" c) (VStr []))) in
      if bool_decide (device = []) then Ok None
      else
        facts ← match py_or (fact "facts" c) (VDict []) with
                | VDict d => Ok d
                | _ => Raise (AttributeError (u "object has no attribute 'items'"))
                end;
        sw ← proximity_score facts (fact "age_s" c);
        priority ← py_int (dict_get (u "priority") (VInt 500) c);
        Ok (Some (Scored device sw.1 sw.2 (truthy (dict_get (u "can_speak") (VBool true) c))
                    (truthy (fact "is_self" c)) priority))
  | _ => Ok None
  end.

(** The key [(-score, not can_speak, priority, device_id)], compared field by
    field. *)
Definition lex {A} (le1 le2 : A → A → bool) (x y : A) : bool :=
  le1 x y && (negb (le1 y x) || le2 x y).

Definition before : scored → scored → bool :=
  lex (λ x y, fleb (sc_score y) (sc_score x))
    (lex (λ x y, can_speak x || negb (can_speak y))
       (lex (λ x y, sc_priority x <=? sc_priority y) (λ x y, str_leb (sc_device x) (sc_device y)))).

(** [rank]. *)
Definition rank (candidates : list pyval) : res (list scored) :=
  l ← res_map score_candidate candidates; Ok (sort_by before (omap id l)).

(** [select]. *)
Definition forced_device (forced : option pystr) : option pystr :=
  let wanted := strip (default [] forced) in
  if bool_decide (wanted = []) || bool_decide (wanted = u "auto") then None else Some wanted.

Definition select (candidates : list pyval) (floor : f64) (forced : option pystr) :
    res (option scored * pystr) :=
  ranked ← rank candidates;
  let speaking := List.filter can_speak ranked in
  Ok match forced_device forced with
  | Some wanted =>
      match List.find (λ c, bool_decide (sc_device c = wanted)) ranked with
      | Some c =>
          if can_speak c then (Some c, u "operator forced '" ++ wanted ++ u "'")
          else (None, u "operator forced '" ++ wanted ++ u "' but that device reports no speech output")
      | None => (None, u "operator forced '" ++ wanted ++ u "' but it is not a known device")
      end
  | None =>
      match speaking with
      | [] => (None, u "no device reports speech output")
      | best :: _ =>
          if fltb (sc_score best) floor then
            (None, u "nobody reports the operator present (best is " ++ sc_device best ++ u " at "
                   ++ fmt_fixed 2 (sc_score best) ++ u " < " ++ fmt_fixed 2 floor ++ u ")")
          else
            (Some best, sc_device best ++ u " is closest to the operator (score "
                        ++ fmt_fixed 2 (sc_score best) ++ u ": "
                        ++ match join (u ", ") (sc_why best) with [] => u "no signals" | t => t end
                        ++ u ")")
      end
  end.
End Score.

(** ** Lemmas: the score *)

(** Every way to choose one alternative of each list, concatenated. *)
Fixpoint products (options : list (list (list f64))) : list (list f64) :=
  match options with
  | [] => [[]]
  | alts :: rest => a ← alts; app a <$> products rest
  end.

Lemma products_cons a alts w rest :
  a ∈ alts → w ∈ products rest → a ++ w ∈ products (alts :: rest).
Proof.
  intros Ha Hw. cbn [products]. apply list_elem_of_bind. exists a. split; [|done].
  apply list_elem_of_fmap. by exists w.
Qed.

(** The weights a device's signals can add, signal by signal. *)
Definition weight_options : list (list (list f64)) :=
  [[[]; [f_dec 35 2]]; [[]; [f_dec 15 2]]; [[]; [f_dec 30 2]; [f_dec 20 2]];
   [[]; [f_dec 10 2]]; [[]; [f_dec 15 2]]; [[]; [f_dec 30 2]];
   [[]; [f_dec 10 2]; [f_dec 5 2]]].

Definition unit_range (x : f64) : bool := fleb f0 x && fleb x f1.

Definition rounded (s : f64) : f64 := fmin f1 (f_round 3 s).

(** The four scores one choice of weights can end in. *)
Definition outcomes (w : list f64) : list f64 :=
  let t := foldl fadd f0 w in
  let a := fadd t (f_dec 10 2) in
  [rounded t; rounded a; rounded (fmul t (f_dec 5 1)); rounded (fmul a (f_dec 5 1))].

Lemma outcomes_in_range : forallb (λ w, forallb unit_range (outcomes w)) (products weight_options) = true.
Proof. vm_compute. reflexivity. Qed.

Section ScoreFacts.
Context {PR : PyRepr}.

Lemma flag_weights k w why f : (flag_signal k w why f).*1 ∈ [[]; [w]].
Proof. unfold flag_signal. destruct (has_fact k f); [right; left|left]. Qed.

Lemma speech_weights f : (speech_signal f).*1 ∈ [[]; [f_dec 30 2]; [f_dec 20 2]].
Proof.
  unfold speech_signal. case_bool_decide; [right; left|].
  destruct (_ && _); [right; right; left|left].
Qed.

Lemma utterance_weights f : (utterance_signal f).*1 ∈ [[]; [f_dec 10 2]; [f_dec 5 2]].
Proof.
  unfold utterance_signal. destruct (num_f _) as [age|].
  - destruct (fleb age (f_of_Z 5)); [right; left|].
    destruct (fleb age (f_of_Z 15)); [right; right; left|left].
  - unfold flag_signal. destruct (has_fact _ f); [right; left|left].
Qed.

Lemma perception_weights f : (perception f).*1 ∈ products weight_options.
Proof.
  unfold perception, weight_options. rewrite !fmap_app.
  repeat (apply products_cons; [first [apply flag_weights|apply speech_weights]|]).
  rewrite <- (app_nil_r (utterance_signal f).*1).
  apply products_cons; [apply utterance_weights|left].
Qed.

Lemma total_weights es : total es = foldl fadd f0 es.*1.
Proof.
  unfold total. generalize f0. induction es as [|e es IH]; intros s; simpl; [done|]. apply IH.
Qed.

Lemma aged_score_range age score why :
  unit_range (rounded score) = true → unit_range (rounded (fmul score (f_dec 5 1))) = true →
  match aged_score age score why with Ok (s, _) => unit_range s = true | Raise _ => True end.
Proof.
  intros H1 H2. unfold aged_score. destruct (num_f age) as [x|]; [|done].
  destruct (fleb IGNORE_AFTER_S x); [by destruct (aged_text _ _)|].
  destruct (fltb STALE_HALF_LIFE_S x); [by destruct (aged_text _ _)|done].
Qed.

Lemma aged_score_old age score why :
  match aged_score age score why with
  | Ok (s, _) => match num_f age with Some x => fleb IGNORE_AFTER_S x = true | None => False end → s = f0
  | Raise _ => True
  end.
Proof.
  unfold aged_score. destruct (num_f age) as [x|]; [|done].
  destruct (fleb IGNORE_AFTER_S x); [by destruct (aged_text _ _)|].
  destruct (fltb STALE_HALF_LIFE_S x); [by destruct (aged_text _ _)|done].
Qed.

Lemma proximity_range facts age :
  match proximity_score facts age with Ok (s, _) => unit_range s = true | Raise _ => True end.
Proof.
  unfold proximity_score. destruct (normalise_facts facts) as [f|]; [|done]. cbn [mbind res_bind].
  assert (∀ x, x ∈ outcomes (perception f).*1 → unit_range x = true) as Hr.
  { intros x Hx. pose proof (proj1 (forallb_forall _ _) outcomes_in_range _
      (proj1 (list_elem_of_In _ _) (perception_weights f))) as H.
    by apply (proj1 (forallb_forall _ _) H), list_elem_of_In. }
  unfold outcomes in Hr. rewrite <- total_weights in Hr. cbn zeta in Hr.
  case_bool_decide; [|destruct (_ && _); [done|destruct (disengaged _)]];
    apply aged_score_range; apply Hr; rewrite !elem_of_cons; tauto.
Qed.

Lemma score_not_nan v c : score_candidate v = Ok (Some c) → f_is_nan (sc_score c) = false.
Proof.
  destruct v as [| | | | | |d]; try done. unfold score_candidate.
  case_bool_decide; [done|].
  destruct (py_or (fact "facts" d) (VDict [])) as [| | | | | |fs]; try done. cbn [mbind res_bind].
  pose proof (proximity_range fs (fact "age_s" d)) as Hr.
  destruct (proximity_score fs _) as [[s why]|]; [|done]. cbn [mbind res_bind].
  destruct (py_int _) as [pr|]; [|done]. cbn [mbind res_bind fst snd]. intros [= <-].
  cbn [sc_score]. unfold unit_range in Hr. apply andb_true_iff in Hr as [Hr _].
  by apply fleb_not_nan in Hr as [_ ?].
Qed.
End ScoreFacts.

(** ** Lemmas: the order *)

Lemma lex_trans {A} (le1 le2 : A → A → bool) x y z :
  (∀ x y z, le1 x y = true → le1 y z = true → le1 x z = true) →
  (∀ x y z, le2 x y = true → le2 y z = true → le2 x z = true) →
  lex le1 le2 x y = true → lex le1 le2 y z = true → lex le1 le2 x z = true.
Proof.
  intros T1 T2. unfold lex. rewrite !andb_true_iff, !orb_true_iff, !negb_true_iff.
  intros [Hxy Hyx] [Hyz Hzy]. split; [by eapply T1|].
  destruct (le1 z x) eqn:Ezx; [right|by left].
  destruct Hyx as [Hyx|Hyx]; [rewrite (T1 y z x) in Hyx by done; done|].
  destruct Hzy as [Hzy|Hzy]; [rewrite (T1 z x y) in Hzy by done; done|].
  by eapply T2.
Qed.

Lemma lex_total {A} (le1 le2 : A → A → bool) x y :
  (le1 x y = true ∨ le1 y x = true) → (le2 x y = true ∨ le2 y x = true) →
  lex le1 le2 x y = true ∨ lex le1 le2 y x = true.
Proof.
  unfold lex. destruct (le1 x y), (le1 y x), (le2 x y), (le2 y x); simpl; naive_solver.
Qed.

Lemma lex_antisym {A} (le1 le2 : A → A → bool) x y :
  lex le1 le2 x y = true → lex le1 le2 y x = true →
  (le1 x y = true ∧ le1 y x = true) ∧ le2 x y = true ∧ le2 y x = true.
Proof. unfold lex. destruct (le1 x y), (le1 y x), (le2 x y), (le2 y x); simpl; naive_solver. Qed.

Lemma before_trans x y z : before x y = true → before y z = true → before x z = true.
Proof.
  apply lex_trans; [intros; by eapply fleb_trans|intros a b c].
  apply lex_trans; [intros [? ? ? [] ? ?] [? ? ? [] ? ?] [? ? ? [] ? ?]; done|].
  intros a' b' c'. apply lex_trans; [intros; lia|]. intros a2 b2 c2. apply str_leb_trans.
Qed.

Lemma fleb_fltb_trans x y z : fleb x y = true → fltb y z = true → fltb x z = true.
Proof.
  intros Hxy Hyz. destruct (fltb x z) eqn:E; [done|].
  pose proof (fltb_not_nan _ _ Hyz) as [_ Hz]. pose proof (fleb_not_nan _ _ Hxy) as [Hx _].
  pose proof (fltb_false_fleb _ _ Hx Hz E) as Hzx.
  pose proof (fltb_fleb_trans _ _ _ Hyz Hzx) as Hyx.
  by rewrite (fltb_fleb_false _ _ Hyx) in Hxy.
Qed.

Lemma before_total x y :
  f_is_nan (sc_score x) = false → f_is_nan (sc_score y) = false →
  before x y = true ∨ before y x = true.
Proof.
  intros Hx Hy. repeat apply lex_total.
  - destruct (fleb (sc_score y) (sc_score x)) eqn:E; [by left|right].
    destruct (fltb (sc_score x) (sc_score y)) eqn:E2; [by apply fltb_fleb|].
    rewrite fltb_false_fleb in E; done.
  - destruct x as [? ? ? [] ? ?], y as [? ? ? [] ? ?]; simpl; auto.
  - lia.
  - apply str_leb_total.
Qed.

Lemma before_same_device x y : before x y = true → before y x = true → sc_device x = sc_device y.
Proof.
  intros Hxy Hyx. destruct (lex_antisym _ _ _ _ Hxy Hyx) as (_ & H1 & H2).
  destruct (lex_antisym _ _ _ _ H1 H2) as (_ & H3 & H4).
  destruct (lex_antisym _ _ _ _ H3 H4) as (_ & H5 & H6). by apply str_leb_antisym.
Qed.

Lemma nodup_key_inj {A B} (f : A → B) l : NoDup (f <$> l) →
  ∀ x y, x ∈ l → y ∈ l → f x = f y → x = y.
Proof.
  induction l as [|a l IH]; [set_solver|]. rewrite fmap_cons, NoDup_cons. intros [Hn Hd] x y.
  intros [->|Hx]%elem_of_cons [->|Hy]%elem_of_cons E; [done| | |by apply IH];
    destruct Hn; apply list_elem_of_fmap; eauto.
Qed.

(** ** Theorems *)

Section Theorems.
Context {PR : PyRepr}.

(** What the candidates score, one at a time. *)
Abbreviation scores_as cands c := (∃ v, v ∈ cands ∧ score_candidate v = Ok (Some c)).

Lemma rank_spec cands l :
  rank cands = Ok l →
  (∀ c, c ∈ l ↔ scores_as cands c) ∧ StronglySorted (λ x y, before x y = true) l.
Proof.
  unfold rank. destruct (res_map score_candidate cands) as [os|] eqn:E; [|done].
  cbn [mbind res_bind]. intros [= <-].
  assert (∀ c, c ∈ omap id os ↔ scores_as cands c) as Hel.
  { intros c. rewrite list_elem_of_omap. split.
    - intros (o & Ho & Eo). unfold id in Eo. subst o.
      by apply (res_map_elem _ _ _ _ E) in Ho.
    - intros (v & Hv & Ev). exists (Some c). split; [|done].
      apply (res_map_elem _ _ _ _ E). eauto. }
  split.
  - intros c. by rewrite elem_sort_by.
  - apply (sort_by_ordered_on before (λ c, f_is_nan (sc_score c) = false));
      [apply before_total|apply before_trans|].
    apply Forall_forall. intros c (v & _ & Ev)%Hel. by eapply score_not_nan.
Qed.

(** The first member of an ordered list that satisfies a test comes before
    every other that does. *)
Lemma ordered_filter_head (p : scored → bool) l c rest :
  StronglySorted (λ x y, before x y = true) l → List.filter p l = c :: rest →
  c ∈ l ∧ p c = true ∧ ∀ c', c' ∈ l → p c' = true → c' = c ∨ before c c' = true.
Proof.
  induction 1 as [|x l Hl IH Hx]; simpl; [done|]. destruct (p x) eqn:Ep.
  - intros [= -> _]. split_and!; [left|done|]. intros c' [->|Hc]%elem_of_cons _; [by left|].
    right. by eapply Forall_forall in Hx.
  - intros E. destruct (IH E) as (Hin & Hp & Hall). split_and!; [by right|done|].
    intros c' [->|Hc]%elem_of_cons Hp'; [congruence|]. by apply Hall.
Qed.

(** The proximity score is always between nothing and one, whatever the
    facts and their age; evidence older than the limit scores nothing, and so
    does a device whose attention layer says its human is elsewhere without a
    face in view. *)
Theorem proximity_bounded facts age :
  match proximity_score facts age with
  | Ok (s, why) =>
      fleb f0 s = true ∧ fleb s f1 = true ∧
      (match num_f age with Some x => fleb IGNORE_AFTER_S x = true | None => False end → s = f0) ∧
      (∀ f, normalise_facts facts = Ok f → disengaged (word_fact "attention_state" f) = true →
        has_fact "face_present" f = false → s = f0)
  | Raise _ => True
  end.
Proof.
  pose proof (proximity_range facts age) as Hr. unfold proximity_score in *.
  destruct (normalise_facts facts) as [f|] eqn:En; [|done]. cbn [mbind res_bind] in *.
  destruct (disengaged (word_fact "attention_state" f)) eqn:Ed,
    (has_fact "face_present" f) eqn:Ef; cbn [negb andb] in *.
  all: case_bool_decide as Ha; [rewrite Ha in Ed; try done|].
  all: try match goal with
    | |- context [aged_score ?a ?s ?why] => pose proof (aged_score_old a s why) as Ho;
         destruct (aged_score a s why) as [[s' why']|]; [|done];
         unfold unit_range in Hr; apply andb_true_iff in Hr as [Hr1 Hr2];
         split_and!; try done; intros; simplify_eq; congruence
    end.
  by split_and!.
Qed.

(** The choice is measured.  A chosen device is a candidate that can
    speak; unless the operator forced it, it is near enough and no speaking
    candidate ranks before it.  Silence is the answer only when every speaking
    candidate is below the floor, or the forced device is missing or mute. *)
Theorem select_nearest cands floor forced :
  match select cands floor forced with
  | Ok (Some c, _) =>
      can_speak c = true ∧ scores_as cands c ∧
      match forced_device forced with
      | Some w => sc_device c = w
      | None => fltb (sc_score c) floor = false ∧
                ∀ c', scores_as cands c' → can_speak c' = true → c' = c ∨ before c c' = true
      end
  | Ok (None, _) =>
      match forced_device forced with
      | Some w => ∀ c, scores_as cands c → sc_device c = w →
                    ∃ c', scores_as cands c' ∧ sc_device c' = w ∧ can_speak c' = false ∧
                          (c = c' ∨ before c' c = true)
      | None => ∀ c, scores_as cands c → can_speak c = true → fltb (sc_score c) floor = true
      end
  | Raise e => rank cands = Raise e
  end.
Proof.
  unfold select. destruct (rank cands) as [l|] eqn:E; [|done]. cbn [mbind res_bind].
  destruct (rank_spec _ _ E) as [Hel Hs].
  destruct (forced_device forced) as [w|].
  - set (p := λ c, bool_decide (sc_device c = w)).
    assert (List.find p l = head (List.filter p l)) as ->.
    { clear. induction l as [|c l IH]; simpl; [done|]. by destruct (p c). }
    destruct (List.filter p l) as [|c rest] eqn:Ep; cbn [head].
    + intros c Hc Hw. apply Hel in Hc.
      assert (c ∈ List.filter p l) as Hin.
      { apply list_elem_of_In, List.filter_In. split; [by apply list_elem_of_In|].
        by apply bool_decide_eq_true. }
      rewrite Ep in Hin. by apply elem_of_nil in Hin.
    + destruct (ordered_filter_head p l c rest Hs Ep) as (Hin & Hp & Hall).
      apply bool_decide_eq_true in Hp. destruct (can_speak c) eqn:Esp.
      * split_and!; [done|by apply Hel|done].
      * intros c' Hc' Hw. exists c. split_and!; [by apply Hel|done|done|].
        apply Hall; [by apply Hel|]. by apply bool_decide_eq_true.
  - destruct (List.filter can_speak l) as [|c rest] eqn:Ep.
    + intros c Hc Hsp. apply Hel in Hc.
      assert (c ∈ List.filter can_speak l) as Hin.
      { apply list_elem_of_In, List.filter_In. split; [by apply list_elem_of_In|done]. }
      rewrite Ep in Hin. by apply elem_of_nil in Hin.
    + destruct (ordered_filter_head can_speak l c rest Hs Ep) as (Hin & Hp & Hall).
      destruct (fltb (sc_score c) floor) eqn:Ef.
      * intros c' Hc' Hsp. apply Hel in Hc'. destruct (Hall c' Hc' Hsp) as [->|Hb]; [done|].
        eapply fleb_fltb_trans; [|exact Ef]. unfold before, lex in Hb. by apply andb_true_iff in Hb as [? _].
      * split_and!; [done|by apply Hel|done|]. intros c' Hc' Hsp. apply Hall; [by apply Hel|done].
Qed.

(** Two runs on the same evidence pick the same mouth: with one candidate
    per device the ranking, and so the choice, does not depend on the order
    in which the candidates are listed. *)
Theorem rank_order_independent cands cands' l :
  rank cands = Ok l → NoDup (sc_device <$> l) → cands ≡ₚ cands' → rank cands' = Ok l.
Proof.
  intros E Hnd Hp. pose proof (rank_spec _ _ E) as [Hel Hs].
  assert (∃ l', rank cands' = Ok l' ∧ l' ≡ₚ l) as (l' & E' & Hp').
  { unfold rank in *. destruct (res_map score_candidate cands) as [os|] eqn:Eo; [|done].
    destruct (res_map_perm _ _ _ _ Hp Eo) as (os' & -> & Hos). cbn [mbind res_bind] in *.
    simplify_eq. eexists. split; [done|]. rewrite !sort_by_perm. symmetry.
    by apply omap_Permutation. }
  destruct (rank_spec _ _ E') as [_ Hs']. rewrite E'. f_equal. symmetry.
  apply (ordered_unique _ _ _ Hs Hs'); [done|].
  intros x y Hx Hy Hxy Hyx. apply (nodup_key_inj _ _ Hnd); [done|done|].
  by apply before_same_device.
Qed.
(** How the attention layer's verdict on speech is scored, for every
    verdict it can publish: directed speech the most, unattributed audio and
    noise without a face nothing.  A visible person who is silent, or sits
    through music, is scored as a person speaking, which by itself reaches the
    floor. *)
Theorem speech_verdicts_scored (src : Attention.SpeechSource) :
  let facts := [(u "speech_source", VStr (Attention.source_value src))] in
  let weight := match src with
    | Attention.INSTRUCTION_DIRECTED | Attention.VERIFIED_PERSON | Attention.PERSON_TALKING => f_dec 30 2
    | Attention.PERSON_PRESENT_SILENT | Attention.PERSON_PRESENT_AMBIENT_NOISE => f_dec 20 2
    | _ => f0
    end in
  (match proximity_score facts VNone with Ok (s, _) => s | Raise _ => f_nan end) = weight ∧
  fltb weight DEFAULT_FLOOR = match weight with S754_zero _ => true | _ => false end.
Proof. destruct src; vm_compute; done. Qed.
End Theorems.

(** ** Witnesses *)

Section Witnesses.
#[local] Instance plain_repr : PyRepr := λ _, [].

Definition candidate (device : string) (facts : pydict) : pyval :=
  VDict [(u "device_id", VStr (u device)); (u "facts", VDict facts)].

Definition near : pyval := candidate "tab" [(u "remote_face_count", VInt 1)].
Definition quiet : pyval := candidate "pixel" [(u "presence_present", VBool true)].

Lemma rank_order_independent_witness :
  ∃ l, rank [near; quiet] = Ok l ∧ rank [quiet; near] = Ok l.
Proof.
  eexists. split; [vm_compute; reflexivity|].
  eapply (rank_order_independent [near; quiet]); [vm_compute; reflexivity| |by constructor].
  apply (bool_decide_unpack _). vm_compute. exact I.
Defined.

Example nearest_chosen :
  match select [quiet; near] DEFAULT_FLOOR None with
  | Ok (Some c, _) => sc_device c = u "tab" ∧ sc_why c = [u "face"]
  | _ => False
  end.
Proof. vm_compute. done. Qed.

(** Presence alone stays below the floor; a speech label outside both lists
    reaches it. *)
Example presence_alone_silent :
  match select [quiet] DEFAULT_FLOOR None with Ok (o, _) => o = None | _ => False end.
Proof. vm_compute. done. Qed.

Example unknown_label_speaks :
  match select [candidate "tv" [(u "speech_source", VStr (u "television"))]] DEFAULT_FLOOR None with
  | Ok (Some c, _) => sc_device c = u "tv" | _ => False
  end.
Proof. vm_compute. done. Qed.
End Witnesses.
