(* ===== verification/Interaction.v ===== *)
(** * Human interaction ([src/human_interaction.py])

    The observations and responses that cross the contract, and the bus that
    carries them: the ring of observations, the debounced presence of the
    user, turns with their causal ids, and the pairing of answers with
    questions.  Readings of the clock and fresh conversation ids are
    arguments; each method is atomic under the bus's lock. *)

From Stdlib Require Import ZArith Lia.
From Stdlib Require Import Floats.SpecFloat.
From S2P Require Import Prelude PyFloat PyStr PyVal Security.

Local Open Scope Z_scope.

(** ** Constants *)

Definition OBSERVATION_TYPES : list pystr :=
  [u "visual"; u "speech"; u "presence"; u "gesture"; u "interaction"; u "sound"].
Definition RESPONSE_TYPES : list pystr :=
  [u "speech"; u "visual"; u "action"; u "acknowledgement"].
Definition PRIVACY_SCOPES : list pystr := [u "local"; u "ephemeral"].

Definition MAX_CONVERSATION_TURNS : nat := 12.
Definition MAX_CONVERSATION_EVENTS : nat := 8.
Definition ANSWER_TTL_S : f64 := f_of_Z 120.
Definition DEBOUNCE_S : f64 := f_dec 15 1.

(** ** Values *)

Definition f_finite (x : f64) : bool :=
  match x with S754_zero _ | S754_finite _ _ _ => true | _ => false end.

(** The last position of [p] in [s], or -1. *)
Fixpoint rfind_from (p : pystr) (i best : Z) (s : pystr) : Z :=
  match s with
  | [] => best
  | _ :: rest => rfind_from p (i + 1) (if starts_with p s then i else best) rest
  end.
Definition rfind (p s : pystr) : Z := rfind_from p 0 (-1) s.

(** The first separator whose last occurrence is beyond half the limit. *)
Fixpoint last_break (seps : list pystr) (limit : Z) (cut : pystr) : option Z :=
  match seps with
  | [] => None
  | sep :: rest =>
      let pos := rfind sep cut in
      if limit / 2 <? pos then Some pos else last_break rest limit cut
  end.

(** [truncate_sentence], of a text. *)
Definition truncate_sentence (text : pystr) (limit : Z) : pystr :=
  let cleaned := sanitize_text text (Z.max (limit * 2) limit) in
  if Z.of_nat (length cleaned) <=? limit then cleaned
  else
    let cut := take (Z.to_nat limit) cleaned in
    match last_break [u ". "; u "! "; u "? "; u "."; u "!"; u "?"] limit cut with
    | Some pos => rstrip is_space (take (Z.to_nat (pos + 1)) cut)
    | None =>
        let pos := rfind (u " ") cut in
        if limit / 2 <? pos then rstrip is_space (take (Z.to_nat pos) cut)
        else rstrip is_space cut
    end.

Section Values.
Context {PR : PyRepr} {FS : PyFloatOfStr}.

(** [_clean_float]. *)
Definition clean_float (v : pyval) : res (option f64) :=
  match py_float v with
  | Ok x => Ok (if f_finite x then Some x else None)
  | Raise (TypeError _) | Raise (ValueError _) => Ok None
  | Raise e => Raise e
  end.

(** A value of a payload's field; [None] drops the field. *)
Definition sanitize_field (v : pyval) : res (option pyval) :=
  match v with
  | VBool _ => Ok (Some v)
  | VInt _ | VFloat _ => x ← clean_float v; Ok (match x with Some _ => Some v | None => None end)
  | VStr s => Ok (Some (VStr (sanitize_text s 160)))
  | _ => Ok (Some (VStr (sanitize_text (py_str v) 40)))
  end.

(** The loop over the first twelve fields. *)
Fixpoint sanitize_fields (fields : pydict) (clean : pydict) : res pydict :=
  match fields with
  | [] => Ok clean
  | (k, v) :: rest =>
      let key := sanitize_text k 40 in
      if bool_decide (key = []) then sanitize_fields rest clean
      else
        x ← sanitize_field v;
        sanitize_fields rest (match x with Some v' => dset key v' clean | None => clean end)
  end.

(** [_sanitize_payload]. *)
Definition sanitize_payload (v : pyval) : res pydict :=
  match v with
  | VNone => Ok []
  | VBool _ | VInt _ | VFloat _ =>
      x ← clean_float v; Ok (match x with Some _ => [(u "value", v)] | None => [] end)
  | VDict d => sanitize_fields (take 12 d) []
  | _ => Ok [(u "text", VStr (sanitize_text (py_str v) 160))]
  end.

(** ** Observations *)

Record observation := Observation {
  o_type : pystr;
  o_source : pystr;
  o_payload : pydict;
  o_confidence : f64;
  o_confidence_invalid : bool;
  o_timestamp : f64;
  o_scope : pystr;
  o_id : option pystr
}.

(** [str(v)] of a value that is kept only when it counts as true. *)
Definition str_or_empty (v : pyval) : pystr := py_str (py_or v (VStr [])).

(** [str(v)] of an id, when it counts as true. *)
Definition id_of (v : pyval) : option pystr := if truthy v then Some (py_str v) else None.

(** [HumanObservation.__init__], with the two readings it may take. *)
Definition new_observation (t1 t2 : f64)
    (type source payload confidence timestamp scope id : pyval) : res observation :=
  p ← sanitize_payload payload;
  c ← clean_float confidence;
  ts ← clean_float (match timestamp with VNone => VFloat t1 | v => v end);
  Ok (Observation (lower (strip (py_str type))) (sanitize_text (str_or_empty source) 40) p
        (default f0 c) (bool_decide (c = None)) (default t2 ts)
        (lower (strip (str_or_empty scope))) (id_of id)).

(** [validate]: the reason of a refusal. *)
Definition invalid_observation (o : observation) : option pystr :=
  if negb (bool_decide (o_type o ∈ OBSERVATION_TYPES))
  then Some (u "unknown observation type: " ++ repr_str (o_type o))
  else if bool_decide (o_source o = []) then Some (u "empty source")
  else if o_confidence_invalid o || negb (fleb f0 (o_confidence o) && fleb (o_confidence o) f1)
  then Some (u "confidence out of range: " ++ py_str (VFloat (o_confidence o)))
  else if negb (bool_decide (o_scope o ∈ PRIVACY_SCOPES))
  then Some (u "unknown privacy scope: " ++ repr_str (o_scope o))
  else None.

(** [HumanObservation.from_dict]. *)
Definition observation_from_dict (t1 t2 : f64) (data : pyval) : res (option observation * pystr) :=
  match data with
  | VDict d =>
      o ← new_observation t1 t2 (VStr (str_or_empty (dict_get (u "type") VNone d)))
            (VStr (str_or_empty (dict_get (u "source") VNone d)))
            (dict_get (u "payload") VNone d) (dict_get (u "confidence") (VFloat f1) d)
            (dict_get (u "timestamp") VNone d)
            (VStr (py_str (py_or (dict_get (u "privacy_scope") VNone d) (VStr (u "local")))))
            (dict_get (u "observation_id") VNone d);
      Ok (match invalid_observation o with
          | Some why => (None, why)
          | None => (Some o, u "ok")
          end)
  | _ => Ok (None, u "not an object")
  end.

(** ** Responses *)

Record response := Response {
  r_type : pystr;
  r_content : pystr;
  r_target : pystr;
  r_priority : f64;
  r_expects_answer : bool;
  r_id : option pystr;
  r_in_response_to : option pystr
}.

(** [AgentResponse.__init__]. *)
Definition new_response (type content target priority : pyval) (expects : bool)
    (id reply_to : pyval) : res response :=
  p ← clean_float priority;
  Ok (Response (lower (strip (py_str type))) (sanitize_text (str_or_empty content) 300)
        (sanitize_text (str_or_empty target) 40) (default (f_dec 5 1) p) expects
        (id_of id) (id_of reply_to)).

(** [AgentResponse.validate]. *)
Definition invalid_response (r : response) : option pystr :=
  if negb (bool_decide (r_type r ∈ RESPONSE_TYPES))
  then Some (u "unknown response type: " ++ repr_str (r_type r))
  else if bool_decide (r_content r = []) then Some (u "empty content")
  else if negb (fleb f0 (r_priority r) && fleb (r_priority r) f1)
  then Some (u "priority out of range: " ++ py_str (VFloat (r_priority r)))
  else None.

(** [AgentResponse.from_dict]. *)
Definition response_from_dict (data : pyval) : res (option response * pystr) :=
  match data with
  | VDict d =>
      r ← new_response (VStr (str_or_empty (dict_get (u "type") VNone d)))
            (VStr (str_or_empty (dict_get (u "content") VNone d)))
            (VStr (str_or_empty (dict_get (u "target") VNone d)))
            (dict_get (u "priority") (VFloat (f_dec 5 1)) d)
            (truthy (dict_get (u "expects_answer") (VBool false) d))
            (dict_get (u "response_id") VNone d) (dict_get (u "in_response_to") VNone d);
      Ok (match invalid_response r with
          | Some why => (None, why)
          | None => (Some r, u "ok")
          end)
  | _ => Ok (None, u "not an object")
  end.
End Values.

Definition opt_field (k : string) (o : option pystr) : pydict :=
  match o with Some s => [(u k, VStr s)] | None => [] end.
Definition nullable (o : option pystr) : pyval :=
  match o with Some s => VStr s | None => VNone end.

(** [HumanObservation.to_dict]. *)
Definition observation_dict (o : observation) : pydict :=
  [(u "type", VStr (o_type o)); (u "source", VStr (o_source o));
   (u "payload", VDict (o_payload o)); (u "confidence", VFloat (o_confidence o));
   (u "timestamp", VFloat (o_timestamp o)); (u "privacy_scope", VStr (o_scope o))]
  ++ opt_field "observation_id" (o_id o).

(** [AgentResponse.to_dict]; an empty id is not shown. *)
Definition response_dict (r : response) : pydict :=
  [(u "type", VStr (r_type r)); (u "content", VStr (r_content r));
   (u "target", VStr (r_target r)); (u "priority", VFloat (r_priority r));
   (u "expects_answer", VBool (r_expects_answer r))]
  ++ opt_field "response_id" (r_id r) ++ opt_field "in_response_to" (r_in_response_to r).

(** ** The bus *)

Inductive presence_event := USER_PRESENT_EVENT | USER_LEFT_EVENT | USER_RETURNED_EVENT.
#[export] Instance presence_event_eq_dec : EqDecision presence_event.
Proof. solve_decision. Defined.

Definition event_name (e : presence_event) : pystr :=
  match e with
  | USER_PRESENT_EVENT => u "USER_PRESENT"
  | USER_LEFT_EVENT => u "USER_LEFT"
  | USER_RETURNED_EVENT => u "USER_RETURNED"
  end.

(** An entry of the ring: the observation, its payload with the question it
    answers, and the ids the bus gave it. *)
Record entry := Entry {
  en_observation : observation;
  en_payload : pydict;
  en_id : pystr;
  en_conversation : pystr;
  en_turn : option pystr;
  en_seq : Z;
  en_event : option presence_event
}.

(** The entry as the dict that listeners and readers see. *)
Definition entry_dict (e : entry) : pydict :=
  dset (u "observation_id") (VStr (en_id e))
    (dset (u "payload") (VDict (en_payload e)) (observation_dict (en_observation e)))
  ++ [(u "conversation_id", VStr (en_conversation e))]
  ++ opt_field "turn_id" (en_turn e) ++ [(u "seq", VInt (en_seq e))]
  ++ opt_field "presence_event" (event_name <$> en_event e).

(** A turn of the conversation: a response id for the agent's. *)
Record turn := Turn {
  tn_by_agent : option pystr;
  tn_text : pystr;
  tn_ts : f64;
  tn_conversation : pystr
}.

(** A question with its answer. *)
Record round_trip := RoundTrip {
  rt_question : pystr;
  rt_answer : pystr;
  rt_seconds : f64;
  rt_ts : f64;
  rt_conversation : pystr;
  rt_turn : option pystr;
  rt_observation : pystr
}.

Record dialogue := Dialogue {
  d_conversation : pystr;
  d_turn_seq : Z;
  d_turn : option pystr;
  d_turns : list turn;
  d_question : option pystr;
  d_answer : option pystr;
  d_pending : option (pystr * f64);
  d_round_trips : list round_trip
}.

Record presence_state := Presence {
  p_present : bool;
  p_has_been : bool;
  p_changed_at : f64;
  p_presents : Z;
  p_lefts : Z;
  p_returns : Z
}.

Record spoken := Spoken {
  sp_last : option response;
  sp_count : Z;
  sp_seq : Z;
  sp_ts : option f64
}.

Record bus := Bus {
  b_capacity : nat;
  b_buffer : list entry;
  b_listeners : list nat;
  b_presence : presence_state;
  b_counts : list (pystr * Z);
  b_rejected : Z;
  b_last_timestamp : f64;
  b_seq : Z;
  b_obs_seq : Z;
  b_dialogue : dialogue;
  b_spoken : spoken
}.

(** [__init__], with the first conversation's id. *)
Definition new_bus (capacity : Z) (conversation : pystr) : bus :=
  Bus (Z.to_nat (Z.max 16 capacity)) [] [] (Presence false false f0 0 0 0)
    ((λ t, (t, 0)) <$> OBSERVATION_TYPES) 0 f0 0 0
    (Dialogue conversation 0 None [] None None None []) (Spoken None 0 0 None).

Definition with_presence (p : presence_state) (b : bus) : bus :=
  Bus (b_capacity b) (b_buffer b) (b_listeners b) p (b_counts b) (b_rejected b)
    (b_last_timestamp b) (b_seq b) (b_obs_seq b) (b_dialogue b) (b_spoken b).
Definition with_dialogue (d : dialogue) (b : bus) : bus :=
  Bus (b_capacity b) (b_buffer b) (b_listeners b) (b_presence b) (b_counts b) (b_rejected b)
    (b_last_timestamp b) (b_seq b) (b_obs_seq b) d (b_spoken b).
Definition with_spoken (s : spoken) (b : bus) : bus :=
  Bus (b_capacity b) (b_buffer b) (b_listeners b) (b_presence b) (b_counts b) (b_rejected b)
    (b_last_timestamp b) (b_seq b) (b_obs_seq b) (b_dialogue b) s.
Definition with_listeners (l : list nat) (b : bus) : bus :=
  Bus (b_capacity b) (b_buffer b) l (b_presence b) (b_counts b) (b_rejected b)
    (b_last_timestamp b) (b_seq b) (b_obs_seq b) (b_dialogue b) (b_spoken b).

(** [record_rejected]. *)
Definition record_rejected (b : bus) : bus :=
  Bus (b_capacity b) (b_buffer b) (b_listeners b) (b_presence b) (b_counts b)
    (b_rejected b + 1) (b_last_timestamp b) (b_seq b) (b_obs_seq b) (b_dialogue b) (b_spoken b).

(** ** Hearing *)

(** Starting or continuing a turn. *)
Definition begin_turn (d : dialogue) : dialogue :=
  match d_turn d with
  | Some _ => d
  | None =>
      let n := d_turn_seq d + 1 in
      Dialogue (d_conversation d) n (Some (u "turn-" ++ str_of_Z n)) (d_turns d)
        (d_question d) (d_answer d) (d_pending d) (d_round_trips d)
  end.

(** The question that words heard now would answer. *)
Definition awaited (now : f64) (d : dialogue) : option (pystr * f64) :=
  match d_pending d with
  | Some (q, asked) => if fleb (fsub now asked) ANSWER_TTL_S then Some (q, asked) else None
  | None => None
  end.

(** Pairing the words with the pending question, and remembering them. *)
Definition pair_answer (now ts : f64) (obs_id transcript : pystr) (d : dialogue) : dialogue :=
  let d := match awaited now d with
           | Some (q, asked) =>
               Dialogue (d_conversation d) (d_turn_seq d) (d_turn d) (d_turns d) (d_question d)
                 (Some transcript) (d_pending d)
                 (dq_append MAX_CONVERSATION_EVENTS
                    (RoundTrip q transcript (f_round 2 (fsub now asked)) ts (d_conversation d)
                       (d_turn d) obs_id) (d_round_trips d))
           | None => d
           end in
  Dialogue (d_conversation d) (d_turn_seq d) (d_turn d)
    (dq_append MAX_CONVERSATION_TURNS (Turn None transcript ts (d_conversation d)) (d_turns d))
    (d_question d) (d_answer d) None (d_round_trips d).

(** What an observation does to the dialogue. *)
Definition hear (now ts : f64) (obs_id transcript : pystr) (d : dialogue) : dialogue :=
  if bool_decide (transcript = []) then d else pair_answer now ts obs_id transcript (begin_turn d).

(** ** Presence *)

(** An observation that says the user is gone. *)
Definition denies_presence (o : observation) : bool :=
  (bool_decide (o_type o = u "presence")
   && bool_decide (dget (u "present") (o_payload o) = Some (VBool false)))
  || (bool_decide (o_type o = u "visual")
      && bool_decide (dget (u "person_present") (o_payload o) = Some (VBool false))).

(** The debounced transition and the event it emits. *)
Definition sense (now : f64) (present : bool) (p : presence_state) :
    presence_state * option presence_event :=
  if negb (fleb DEBOUNCE_S (SFabs (fsub now (p_changed_at p)))) then (p, None)
  else match present, p_present p with
       | true, false =>
           if p_has_been p
           then (Presence true true now (p_presents p) (p_lefts p) (p_returns p + 1),
                 Some USER_RETURNED_EVENT)
           else (Presence true true now (p_presents p + 1) (p_lefts p) (p_returns p),
                 Some USER_PRESENT_EVENT)
       | false, true =>
           (Presence false (p_has_been p) now (p_presents p) (p_lefts p + 1) (p_returns p),
            Some USER_LEFT_EVENT)
       | _, _ => (p, None)
       end.

(** A return starts a new conversation. *)
Definition rotate (conversation : pystr) (d : dialogue) : dialogue :=
  Dialogue conversation 0 None (d_turns d) (d_question d) (d_answer d) (d_pending d)
    (d_round_trips d).

(** ** Publishing *)

Definition count_type (t : pystr) (c : list (pystr * Z)) : list (pystr * Z) :=
  dset t (default 0 (dget t c) + 1) c.

Section Publishing.
Context {PR : PyRepr}.

Definition transcript_of (o : observation) : pystr :=
  if bool_decide (o_type o = u "speech")
  then strip (str_or_empty (dict_get (u "transcript") VNone (o_payload o))) else [].

(** The body of [publish] under the lock, for a valid observation; [fresh] is
    the id of the conversation that a return would start. *)
Definition take_in (now : f64) (fresh : pystr) (o : observation) (b : bus) : bus * entry :=
  let d0 := b_dialogue b in
  let obs_seq := b_obs_seq b + 1 in
  let obs_id := u "obs-" ++ str_of_Z obs_seq in
  let words := transcript_of o in
  let payload := match awaited now d0 with
                 | Some (q, _) => if bool_decide (words = []) then o_payload o
                                  else dset (u "answer_to") (VStr q) (o_payload o)
                 | None => o_payload o
                 end in
  let d := hear now (o_timestamp o) obs_id words d0 in
  let '(p, ev) := sense now (negb (denies_presence o)) (b_presence b) in
  let e := Entry o payload obs_id (d_conversation d0)
             (if bool_decide (words = []) then None else d_turn d) (b_seq b + 1) ev in
  (Bus (b_capacity b) (dq_append (b_capacity b) e (b_buffer b)) (b_listeners b) p
     (count_type (o_type o) (b_counts b)) (b_rejected b) (o_timestamp o) (b_seq b + 1) obs_seq
     (if bool_decide (ev = Some USER_RETURNED_EVENT) then rotate fresh d else d) (b_spoken b), e).

(** [publish], with what each listener is then called with; [None] is an
    argument that is not an observation. *)
Definition publish (now : f64) (fresh : pystr) (o : option observation) (b : bus) :
    bus * (bool * pystr) * list (nat * entry) :=
  match o with
  | None => (record_rejected b, (false, u "not a HumanObservation"), [])
  | Some o =>
      match invalid_observation o with
      | Some why => (record_rejected b, (false, why), [])
      | None =>
          let '(b', e) := take_in now fresh o b in
          (b', (true, default (u "ok") (event_name <$> en_event e)),
           (λ l, (l, e)) <$> b_listeners b)
      end
  end.

(** ** Responding *)

(** The agent's words end the turn; a question is then awaited. *)
Definition say (t2 t3 : f64) (id : pystr) (r : response) (d : dialogue) : dialogue :=
  let asks := r_expects_answer r in
  Dialogue (d_conversation d) (d_turn_seq d) None
    (dq_append MAX_CONVERSATION_TURNS
       (Turn (Some id) (r_content r) t2 (d_conversation d)) (d_turns d))
    (if asks then Some (r_content r) else d_question d) (d_answer d)
    (if asks then Some (r_content r, t3) else d_pending d) (d_round_trips d).

(** [record_agent_response], with its readings of the clock. *)
Definition record_agent_response (t1 t2 t3 : f64) (r : option response) (b : bus) :
    bus * (bool * pystr) :=
  match r with
  | None => (record_rejected b, (false, u "not an AgentResponse"))
  | Some r =>
      match invalid_response r with
      | Some why => (record_rejected b, (false, why))
      | None =>
          let s := b_spoken b in
          let d := b_dialogue b in
          let id := u "rsp-" ++ str_of_Z (sp_seq s + 1) in
          let r' := Response (r_type r) (r_content r) (r_target r) (r_priority r)
                      (r_expects_answer r) (Some id) (d_turn d) in
          (with_dialogue
             (if bool_decide (r_type r = u "speech") then say t2 t3 id r' d else d)
             (with_spoken (Spoken (Some r') (sp_count s + 1) (sp_seq s + 1) (Some t1)) b),
           (true, u "ok"))
      end
  end.

(** [expect_answer], of a text. *)
Definition expect_answer (now : f64) (question : pystr) (b : bus) : bus * bool :=
  let text := sanitize_text question 300 in
  if bool_decide (text = []) then (b, false)
  else
    let d := b_dialogue b in
    (with_dialogue (Dialogue (d_conversation d) (d_turn_seq d) (d_turn d) (d_turns d) (Some text)
                      (d_answer d) (Some (text, now)) (d_round_trips d)) b, true).

(** [drain_conversation_events]. *)
Definition drain_conversation_events (b : bus) : bus * list round_trip :=
  let d := b_dialogue b in
  (with_dialogue (Dialogue (d_conversation d) (d_turn_seq d) (d_turn d) (d_turns d) (d_question d)
                    (d_answer d) (d_pending d) []) b, d_round_trips d).

(** [add_listener], [remove_listener]. *)
Definition add_listener (l : nat) (b : bus) : bus := with_listeners (b_listeners b ++ [l]) b.
Definition remove_listener (l : nat) (b : bus) : bus :=
  with_listeners (List.filter (λ x, negb (Nat.eqb x l)) (b_listeners b)) b.
End Publishing.

(** ** Reading *)

(** The last entry of a type. *)
Definition last_of (t : string) (b : bus) : option entry :=
  List.find (λ e, bool_decide (o_type (en_observation e) = u t)) (rev (b_buffer b)).
Definition en_ts (e : entry) : f64 := o_timestamp (en_observation e).

Inductive stage := Unknown | Stage_ok | Stale | Down.
#[export] Instance stage_eq_dec : EqDecision stage.
Proof. solve_decision. Defined.

(** A stage judged by the age of its evidence, and one that is told. *)
Definition aged (now max_age : f64) (ts : option f64) : stage :=
  match ts with
  | None => Unknown
  | Some t => if fleb (fsub now t) max_age then Stage_ok else Stale
  end.
Definition told (ok : option bool) : stage :=
  match ok with None => Unknown | Some true => Stage_ok | Some false => Down end.

Record health := Health {
  h_sensors : stage; h_vision : stage; h_hearing : stage;
  h_speech : stage; h_model : stage; h_memory : stage;
  h_overall : stage; h_round_trips : nat; h_backing : pystr
}.

(** The overall verdict of the six stages. *)
Definition overall (sensors vision hearing speech model memory : stage) : stage :=
  let all := [sensors; vision; hearing; speech; model; memory] in
  if existsb (λ s, bool_decide (s = Down)) all then Down
  else if forallb (λ s, bool_decide (s = Unknown)) [sensors; vision; hearing] then Unknown
  else if (3 <=? length (List.filter (λ s, bool_decide (s = Stage_ok)) all))%nat then Stage_ok
  else Stale.

(** [pipeline_health]. *)
Definition pipeline_health (now : f64) (model_ready tts_attached memory_ok : option bool)
    (backing : option pystr) (b : bus) : health :=
  let sensors := aged now (f_of_Z 60)
                   (if f_truthy (b_last_timestamp b) then Some (b_last_timestamp b) else None) in
  let vision := aged now (f_of_Z 60) (en_ts <$> last_of "visual" b) in
  let hearing := aged now (f_of_Z 120) (en_ts <$> last_of "speech" b) in
  let speech := told tts_attached in
  let model := told model_ready in
  let memory := told memory_ok in
  Health sensors vision hearing speech model memory
    (overall sensors vision hearing speech model memory)
    (length (d_round_trips (b_dialogue b)))
    (match backing with
     | Some s => if bool_decide (s = []) then u "unknown" else s
     | None => u "unknown"
     end).

(** [_last_person_present]. *)
Definition last_person_present (now : f64) (b : bus) : option bool :=
  match last_of "visual" b with
  | None => None
  | Some e =>
      if fltb (f_of_Z 60) (fsub now (en_ts e)) then None
      else match dict_get (u "person_present") VNone (en_payload e) with
           | VNone => None
           | v => Some (truthy v)
           end
  end.

(** An entry no older than thirty seconds. *)
Definition recent (now : f64) (e : entry) : bool := fleb (fsub now (en_ts e)) (f_of_Z 30).

Definition age_of (now : f64) (b : bus) : pyval :=
  if f_truthy (b_last_timestamp b) then VFloat (f_round 1 (fsub now (b_last_timestamp b)))
  else VNone.

Definition observations_recorded (b : bus) : Z := foldl Z.add 0 (b_counts b).*2.

Definition turn_dict (t : turn) : pydict :=
  [(u "role", VStr (match tn_by_agent t with Some _ => u "agent" | None => u "human" end));
   (u "text", VStr (tn_text t)); (u "ts", VFloat (tn_ts t))]
  ++ opt_field "response_id" (tn_by_agent t) ++ [(u "conversation_id", VStr (tn_conversation t))].

(** [export_conversation_turns]. *)
Definition export_conversation_turns (b : bus) : list pydict := turn_dict <$> d_turns (b_dialogue b).

(** The last turn's words, when a human said them. *)
Definition last_human_words (turns : list turn) : option pystr :=
  match last turns with
  | Some t => match tn_by_agent t with None => Some (tn_text t) | Some _ => None end
  | None => None
  end.

(** Verb and subject of a human sentence of at least three words. *)
Definition intent_words (turns : list turn) : option (pystr * pystr) :=
  match split (lower (strip (default [] (last_human_words turns)))) with
  | a :: b :: c :: rest =>
      Some (if bool_decide (a ∈ [u "can"; u "please"; u "i"; u "shugo"]) then b else a,
            List.last rest c)
  | _ => None
  end.

(** The mean confidence of the recent entries. *)
Definition mean_confidence (now : f64) (b : bus) : pyval :=
  let l := (λ e, o_confidence (en_observation e)) <$> List.filter (recent now) (b_buffer b) in
  match l with
  | [] => VNone
  | _ => VFloat (f_round 2 (fdiv (foldl fadd f0 l) (f_of_Z (Z.of_nat (length l)))))
  end.

(** [human_context]. *)
Definition human_context (now : f64) (b : bus) : pydict :=
  let d := b_dialogue b in
  let turns := drop (length (d_turns d) - 6) (d_turns d) in
  let speech_recent := existsb (λ e, bool_decide (o_type (en_observation e) = u "speech")
                                     && recent now e) (b_buffer b) in
  let last_visual := last_of "visual" b in
  let vision_recent := match last_visual with Some e => recent now e | None => false end in
  let person := match last_person_present now b with Some x => VBool x | None => VNone end in
  let gaze := match last_visual with
              | Some e => let g := dict_get (u "gaze_direction") VNone (en_payload e) in
                          if truthy g then g else VNone
              | None => VNone
              end in
  let words := last_human_words turns in
  [(u "presence", VStr (if p_present (b_presence b) then u "user_present" else u "user_absent"));
   (u "seconds_since_last_observation", age_of now b);
   (u "observations_recorded", VInt (observations_recorded b));
   (u "speech_recent", VBool speech_recent); (u "vision_recent", VBool vision_recent);
   (u "person_present", person); (u "conversation", VList (VDict <$> (turn_dict <$> turns)));
   (u "pending_question", nullable (fst <$> awaited now d));
   (u "conversation_id", VStr (d_conversation d)); (u "current_turn_id", nullable (d_turn d));
   (u "intent_subject", nullable (snd <$> intent_words turns));
   (u "intent_verb", nullable (fst <$> intent_words turns));
   (u "user_context", VDict
     [(u "person_present", person); (u "speech_recent", VBool speech_recent);
      (u "vision_recent", VBool vision_recent); (u "last_transcript", nullable words);
      (u "gaze", gaze);
      (u "attention_target", match words with
                             | Some [] | None => VNone
                             | Some w => VStr w
                             end);
      (u "environment", VNone); (u "confidence", mean_confidence now b)])].

(** [stats]. *)
Definition round_trip_dict (r : round_trip) : pydict :=
  [(u "question", VStr (rt_question r)); (u "answer", VStr (rt_answer r));
   (u "round_trip_s", VFloat (rt_seconds r)); (u "ts", VFloat (rt_ts r));
   (u "conversation_id", VStr (rt_conversation r)); (u "turn_id", nullable (rt_turn r));
   (u "observation_id", VStr (rt_observation r))].

Definition stats `{PyRepr} (now : f64) (b : bus) : pydict :=
  let d := b_dialogue b in
  let p := b_presence b in
  let heard := last_of "speech" b in
  let words := match heard with
               | Some e => dict_get (u "transcript") VNone (en_payload e)
               | None => VNone
               end in
  [(u "presence", VStr (if p_present p then u "user_present" else u "user_absent"));
   (u "observations", VInt (observations_recorded b));
   (u "by_type", VDict ((λ kv, (kv.1, VInt kv.2)) <$> b_counts b));
   (u "presence_events", VDict [(u "USER_PRESENT", VInt (p_presents p));
                                (u "USER_LEFT", VInt (p_lefts p));
                                (u "USER_RETURNED", VInt (p_returns p))]);
   (u "rejected", VInt (b_rejected b)); (u "buffered", VInt (Z.of_nat (length (b_buffer b))));
   (u "last_observation_age_s", age_of now b);
   (u "person_present",
     match last_person_present now b with Some x => VBool x | None => VNone end);
   (u "last_transcript", if truthy words then VStr (py_str words) else VNone);
   (u "last_transcript_ts", VFloat (default f0 (en_ts <$> heard)));
   (u "last_spoken", match sp_last (b_spoken b) with
                     | Some r => if bool_decide (r_type r = u "speech") then VStr (r_content r)
                                 else VNone
                     | None => VNone
                     end);
   (u "agent_responses", VInt (sp_count (b_spoken b)));
   (u "last_question", nullable (d_question d)); (u "last_answer", nullable (d_answer d));
   (u "conversation_turns", VInt (Z.of_nat (length (d_turns d))));
   (u "conversation_id", VStr (d_conversation d)); (u "current_turn_id", nullable (d_turn d));
   (u "last_response_id", nullable (r ← sp_last (b_spoken b); r_id r));
   (u "conversation_events", VInt (Z.of_nat (length (d_round_trips d))));
   (u "last_conversation_event",
     match last (d_round_trips d) with Some r => VDict (round_trip_dict r) | None => VNone end)].

(** ** What a run of the bus guarantees *)

#[global] Arguments sense : simpl never.
#[global] Arguments hear : simpl never.
#[global] Arguments awaited : simpl never.
#[global] Arguments transcript_of : simpl never.
#[global] Arguments invalid_observation : simpl never.
#[global] Arguments invalid_response : simpl never.
#[global] Arguments denies_presence : simpl never.
#[global] Arguments take_in : simpl never.
#[local] Arguments bool_decide : simpl never.

Definition is_none {A} (o : option A) : bool := match o with None => true | Some _ => false end.

Inductive bus_op :=
  | Publish (now : f64) (fresh : pystr) (o : option observation)
  | Respond (t1 t2 t3 : f64) (r : option response)
  | Ask (now : f64) (question : pystr)
  | Reject
  | Drain
  | Listen (l : nat)
  | Unlisten (l : nat).

Section Runs.
Context {PR : PyRepr}.

Definition run_bus (b : bus) (op : bus_op) : bus :=
  match op with
  | Publish now fresh o => (publish now fresh o b).1.1
  | Respond t1 t2 t3 r => (record_agent_response t1 t2 t3 r b).1
  | Ask now q => (expect_answer now q b).1
  | Reject => record_rejected b
  | Drain => (drain_conversation_events b).1
  | Listen l => add_listener l b
  | Unlisten l => remove_listener l b
  end.

Definition run_bus_ops (ops : list bus_op) (b : bus) : bus := foldl run_bus b ops.

(** *** The ring and the counters *)

(** The ring holds the last accepted observations, numbered without a gap up
    to the sequence counter; the counters add up. *)
Record bus_ok (b : bus) : Prop := {
  ok_capacity : (16 <= b_capacity b)%nat;
  ok_buffer : length (b_buffer b) = Nat.min (b_capacity b) (Z.to_nat (b_seq b));
  ok_numbered : ∀ i e, b_buffer b !! i = Some e →
    en_seq e = b_seq b - Z.of_nat (length (b_buffer b)) + Z.of_nat i + 1 ∧
    en_id e = u "obs-" ++ str_of_Z (en_seq e);
  ok_seq : 0 <= b_seq b ∧ b_obs_seq b = b_seq b;
  ok_counts : observations_recorded b = b_seq b;
  ok_turns : (length (d_turns (b_dialogue b)) <= MAX_CONVERSATION_TURNS)%nat;
  ok_trips : (length (d_round_trips (b_dialogue b)) <= MAX_CONVERSATION_EVENTS)%nat;
  ok_presence : p_presents (b_presence b) + p_returns (b_presence b)
    = p_lefts (b_presence b) + (if p_present (b_presence b) then 1 else 0);
  ok_first : p_presents (b_presence b) = if p_has_been (b_presence b) then 1 else 0;
  ok_been : p_present (b_presence b) = true → p_has_been (b_presence b) = true
}.

Lemma sum_from a l : foldl Z.add a l = a + foldl Z.add 0 l.
Proof.
  revert a. induction l as [|x l IH]; intros a; cbn [foldl]; [lia|].
  rewrite (IH (a + x)), (IH (0 + x)). lia.
Qed.

Lemma count_type_sum t c : foldl Z.add 0 (count_type t c).*2 = foldl Z.add 0 c.*2 + 1.
Proof.
  unfold count_type. induction c as [|[k n] c IH]; [done|]. cbn [dget dset].
  case_decide; cbn [fmap list_fmap snd foldl default].
  - rewrite (sum_from (0 + n)), (sum_from (0 + (n + 1))). lia.
  - rewrite !(sum_from (0 + n)), IH. lia.
Qed.

(** Appending to a numbered ring keeps it numbered. *)
Lemma ring_numbered cap (q : list entry) n e :
  (∀ i x, q !! i = Some x →
     en_seq x = n - Z.of_nat (length q) + Z.of_nat i + 1 ∧ en_id x = u "obs-" ++ str_of_Z (en_seq x)) →
  en_seq e = n + 1 → en_id e = u "obs-" ++ str_of_Z (n + 1) →
  ∀ i x, dq_append cap e q !! i = Some x →
    en_seq x = n + 1 - Z.of_nat (length (dq_append cap e q)) + Z.of_nat i + 1 ∧
    en_id x = u "obs-" ++ str_of_Z (en_seq x).
Proof.
  intros Hq Hs Hid i x. rewrite dq_append_length. unfold dq_append.
  rewrite lookup_drop, length_app. cbn [length]. set (k := (length q + 1 - cap)%nat).
  intros Hx. destruct (decide (k + i < length q)%nat) as [Hlt|Hge].
  - rewrite lookup_app_l in Hx by done. apply Hq in Hx as [-> Hx]. split; [lia|exact Hx].
  - rewrite lookup_app_r in Hx by lia. destruct (k + i - length q)%nat as [|j] eqn:Ej; [|done].
    injection Hx as <-. split; [lia|by rewrite Hs].
Qed.

Lemma hear_bounds now ts id words d :
  (length (d_turns d) <= MAX_CONVERSATION_TURNS)%nat →
  (length (d_round_trips d) <= MAX_CONVERSATION_EVENTS)%nat →
  (length (d_turns (hear now ts id words d)) <= MAX_CONVERSATION_TURNS)%nat ∧
  (length (d_round_trips (hear now ts id words d)) <= MAX_CONVERSATION_EVENTS)%nat.
Proof.
  intros Ht Hr. unfold hear. case_bool_decide; [done|]. unfold pair_answer, begin_turn.
  destruct (d_turn d), (awaited now _) as [[q a]|]; simpl;
    (split; [by apply dq_append_bound|]); try done; apply dq_append_bound.
Qed.

(** One transition of the presence, in terms of its counters. *)
Definition presence_ok (p : presence_state) : Prop :=
  p_presents p + p_returns p = p_lefts p + (if p_present p then 1 else 0) ∧
  p_presents p = (if p_has_been p then 1 else 0) ∧
  (p_present p = true → p_has_been p = true).

Lemma sense_ok now present p : presence_ok p → presence_ok (sense now present p).1.
Proof.
  unfold sense, presence_ok. intros (H1 & H2 & H3).
  destruct (negb _); [done|]. destruct present, (p_present p) eqn:E; simpl; rewrite ?E; try done.
  - destruct (p_has_been p); simpl; split_and!; try done; lia.
  - rewrite H2 in *. rewrite H3 in * by done. split_and!; try done; lia.
Qed.

Lemma take_in_ok now fresh o b : bus_ok b → bus_ok (take_in now fresh o b).1.
Proof.
  intros H. unfold take_in.
  pose proof (sense_ok now (negb (denies_presence o)) (b_presence b)) as Hp.
  destruct (sense now (negb (denies_presence o)) (b_presence b)) as [p ev]. simpl in Hp |- *.
  destruct Hp as (Hp1 & Hp2 & Hp3); [split_and!; apply H|].
  destruct (hear_bounds now (o_timestamp o) (u "obs-" ++ str_of_Z (b_obs_seq b + 1))
              (transcript_of o) (b_dialogue b) (ok_turns _ H) (ok_trips _ H)) as [Ht Hr].
  destruct H. split; simpl; try done.
  - rewrite dq_append_length, ok_buffer0. lia.
  - apply ring_numbered; simpl; try done. by rewrite (proj2 ok_seq0).
  - lia.
  - unfold observations_recorded in *. simpl. rewrite count_type_sum. lia.
  - by case_bool_decide.
  - by case_bool_decide.
Qed.

Lemma rejected_ok b : bus_ok b → bus_ok (record_rejected b).
Proof. intros []. by split. Qed.

Lemma dialogue_ok d b :
  bus_ok b → (length (d_turns d) <= MAX_CONVERSATION_TURNS)%nat →
  (length (d_round_trips d) <= MAX_CONVERSATION_EVENTS)%nat → bus_ok (with_dialogue d b).
Proof. intros [] ??. by split. Qed.

Lemma run_bus_ok b op : bus_ok b → bus_ok (run_bus b op).
Proof.
  intros H. destruct op as [now fresh o|t1 t2 t3 r|now q| | |l|l]; simpl.
  - destruct o as [o|]; simpl; [|by apply rejected_ok].
    destruct (invalid_observation o); [by apply rejected_ok|].
    pose proof (take_in_ok now fresh o b H) as Ha. by destruct (take_in now fresh o b).
  - destruct r as [r|]; simpl; [|by apply rejected_ok].
    destruct (invalid_response r); [by apply rejected_ok|]. simpl.
    apply dialogue_ok; [destruct H; by split|case_bool_decide|case_bool_decide]; simpl;
      try apply H; apply dq_append_bound.
  - unfold expect_answer. case_bool_decide; [done|]. apply dialogue_ok; [done|apply H|apply H].
  - by apply rejected_ok.
  - apply dialogue_ok; [done|apply H|]. simpl. lia.
  - destruct H. by split.
  - destruct H. by split.
Qed.

Lemma run_bus_ops_ok ops b : bus_ok b → bus_ok (run_bus_ops ops b).
Proof. revert b. induction ops as [|op ops IH]; intros b H; [done|]. by apply IH, run_bus_ok. Qed.

Lemma new_bus_ok capacity conversation : bus_ok (new_bus capacity conversation).
Proof. split; simpl; try done; lia. Qed.

(** *** What was accepted *)

(** What an observation has to be: a known type, a source, a confidence that
    is a number between 0 and 1, a known privacy scope. *)
Definition acceptable (o : observation) : bool :=
  bool_decide (o_type o ∈ OBSERVATION_TYPES) && negb (bool_decide (o_source o = [])) &&
  negb (o_confidence_invalid o) && fleb f0 (o_confidence o) && fleb (o_confidence o) f1 &&
  bool_decide (o_scope o ∈ PRIVACY_SCOPES).

(** The observations a run is to accept, and whether an operation is to count
    as rejected. *)
Definition accepted_of (op : bus_op) : option observation :=
  match op with
  | Publish _ _ (Some o) => if acceptable o then Some o else None
  | _ => None
  end.
Definition accepted (ops : list bus_op) : list observation := omap accepted_of ops.

Definition turned_away (op : bus_op) : bool :=
  match op with
  | Publish _ _ (Some o) => negb (acceptable o)
  | Respond _ _ _ (Some r) => negb (is_none (invalid_response r))
  | Publish _ _ None | Respond _ _ _ None | Reject => true
  | _ => false
  end.

Definition of_type (t : pystr) (o : observation) : bool := bool_decide (o_type o = t).

(** The payload of an entry: what was published, with the question it answers
    when it is speech. *)
Definition payload_kept (e : entry) : Prop :=
  en_payload e = o_payload (en_observation e) ∨
  ∃ q, transcript_of (en_observation e) ≠ [] ∧
       en_payload e = dset (u "answer_to") (VStr q) (o_payload (en_observation e)).

(** The ring and the counters of a bus that has accepted [acc] and turned away
    [n] operations. *)
Record accounts (acc : list observation) (n : nat) (b : bus) : Prop := {
  ac_ring : en_observation <$> b_buffer b = drop (length acc - b_capacity b) acc;
  ac_payload : ∀ e, e ∈ b_buffer b → payload_kept e;
  ac_counts : ∀ t, default 0 (dget t (b_counts b)) = Z.of_nat (length (List.filter (of_type t) acc));
  ac_seq : b_seq b = Z.of_nat (length acc);
  ac_rejected : b_rejected b = Z.of_nat n
}.

Lemma acceptable_valid o : acceptable o = is_none (invalid_observation o).
Proof.
  unfold acceptable, invalid_observation. destruct (bool_decide (_ ∈ OBSERVATION_TYPES)); [|done].
  destruct (bool_decide (o_source o = [])); [done|]. destruct (o_confidence_invalid o); [done|].
  destruct (fleb f0 _); [|done]. destruct (fleb _ f1); [|done].
  by destruct (bool_decide (_ ∈ PRIVACY_SCOPES)).
Qed.

(** The last [cap] of a list and one more are the last [cap] of the longer
    list. *)
Lemma dq_append_last_n {A B} (f : A → B) cap (l : list B) (q : list A) x :
  f <$> q = drop (length l - cap) l →
  f <$> dq_append cap x q = drop (length (l ++ [f x]) - cap) (l ++ [f x]).
Proof.
  intros Hq. assert (length q = length l - (length l - cap))%nat as Hlen
    by (rewrite <- length_drop, <- Hq, length_fmap; done).
  unfold dq_append. cbv zeta. rewrite fmap_drop, fmap_app, Hq, !length_app. cbn [length fmap list_fmap].
  rewrite <- (drop_app_le l [f x]) by lia. rewrite drop_drop. f_equal. lia.
Qed.

Lemma take_in_accounts acc n now fresh o b :
  accounts acc n b → accounts (acc ++ [o]) n (take_in now fresh o b).1.
Proof.
  intros H. unfold take_in.
  destruct (sense now (negb (denies_presence o)) (b_presence b)) as [p ev].
  destruct H as [Hr Hp Hc Hs Hn]. split; cbn [fst b_buffer b_capacity b_counts b_seq b_rejected].
  - match goal with |- context [dq_append _ ?e _] => exact (dq_append_last_n en_observation _ acc _ e Hr) end.
  - intros e [->|He]%dq_append_elem; [|by apply Hp]. unfold payload_kept. cbn [en_payload en_observation].
    destruct (awaited now (b_dialogue b)) as [[q asked]|]; [|by left].
    case_bool_decide as Ew; [by left|right; by exists q].
  - intros t. rewrite List.filter_app, length_app. unfold count_type. rewrite dget_dset. cbn [List.filter].
    unfold of_type at 2. case_decide as Et.
    + subst t. rewrite bool_decide_true by done. cbn [default]. rewrite Hc. cbn. lia.
    + rewrite bool_decide_false by congruence. rewrite Hc. cbn. lia.
  - rewrite length_app, Hs. cbn. lia.
  - done.
Qed.

Lemma rejected_accounts acc n b : accounts acc n b → accounts acc (S n) (record_rejected b).
Proof. intros [Hr Hp Hc Hs Hn]. split; cbn; [done..|lia]. Qed.

Lemma run_bus_accounts acc n op b :
  accounts acc n b →
  accounts (acc ++ option_list (accepted_of op)) (n + (if turned_away op then 1 else 0)) (run_bus b op).
Proof.
  intros H. assert (accounts (acc ++ []) (n + 0) b) as H0 by (by rewrite app_nil_r, Nat.add_0_r).
  assert (accounts (acc ++ []) (n + 1) (record_rejected b)) as H1
    by (rewrite app_nil_r, Nat.add_1_r; by apply rejected_accounts).
  destruct op as [now fresh o|t1 t2 t3 r|now q| | |l|l]; cbn [accepted_of turned_away option_list run_bus].
  - destruct o as [o|]; [|exact H1]. rewrite acceptable_valid. unfold publish.
    destruct (invalid_observation o); [exact H1|]. cbn [is_none negb option_list]. rewrite Nat.add_0_r.
    pose proof (take_in_accounts acc n now fresh o b H) as Ha. by destruct (take_in now fresh o b).
  - destruct r as [r|]; [|exact H1]. unfold record_agent_response.
    destruct (invalid_response r); [exact H1|]. cbn. destruct H0. by split.
  - unfold expect_answer. case_bool_decide; [exact H0|]. destruct H0. by split.
  - exact H1.
  - destruct H0. by split.
  - destruct H0. by split.
  - destruct H0. by split.
Qed.

Lemma new_bus_accounts capacity conversation : accounts [] 0 (new_bus capacity conversation).
Proof.
  split; try done.
  - intros e He. by apply elem_of_nil in He.
  - intros t. cbn [new_bus b_counts]. induction OBSERVATION_TYPES as [|t' l IH]; [done|].
    cbn [fmap list_fmap dget]. by case_decide.
Qed.

Lemma capacity_kept b op : b_capacity (run_bus b op) = b_capacity b.
Proof.
  destruct op as [now fresh o|t1 t2 t3 r|now q| | |l|l]; try done; cbn [run_bus].
  - destruct o as [o|]; [|done]. unfold publish. destruct (invalid_observation o); [done|]. unfold take_in.
    by destruct (sense _ _ _).
  - destruct r as [r|]; [|done]. unfold record_agent_response. by destruct (invalid_response r).
  - unfold expect_answer. by case_bool_decide.
Qed.

(** C22. The bus accounts for exactly what it accepted. Whatever is
    published, answered, asked or drained: the observations in the ring are the
    last acceptable ones that were published, in their order and as many as
    the capacity allows, each with the payload it was published with (speech
    that answers a question carries the question besides); the counter of each
    type is the number of acceptable observations of that type; the sequence
    counter is their number, and the rejections are the other publications,
    the refused responses and the reported rejections.  The entries are
    numbered without a gap up to the sequence counter and named after their
    numbers, the dialogue and the round trips stay within their bounds, and
    arrivals and returns exceed departures by one exactly while the user is
    present. *)
Theorem bus_accounts capacity conversation ops :
  let b := run_bus_ops ops (new_bus capacity conversation) in
  let cap := Z.to_nat (Z.max 16 capacity) in
  en_observation <$> b_buffer b = drop (length (accepted ops) - cap) (accepted ops) ∧
  (∀ e, e ∈ b_buffer b → payload_kept e) ∧
  (∀ t, default 0 (dget t (b_counts b)) = Z.of_nat (length (List.filter (of_type t) (accepted ops)))) ∧
  b_seq b = Z.of_nat (length (accepted ops)) ∧
  b_rejected b = Z.of_nat (length (List.filter turned_away ops)) ∧
  bus_ok b.
Proof.
  cbv zeta. assert (b_capacity (run_bus_ops ops (new_bus capacity conversation)) = Z.to_nat (Z.max 16 capacity) ∧
    accounts (accepted ops) (length (List.filter turned_away ops))
      (run_bus_ops ops (new_bus capacity conversation))) as [Hc []].
  { induction ops as [|op ops [IHc IH]] using rev_ind; [split; [done|apply new_bus_accounts]|].
    unfold run_bus_ops, accepted in *. rewrite foldl_app, omap_app, List.filter_app, length_app.
    cbn [foldl]. split; [by rewrite capacity_kept|]. apply (run_bus_accounts _ _ op) in IH.
    cbn [omap list_omap List.filter]. by destruct (accepted_of op), (turned_away op). }
  rewrite <- Hc. split_and!; try done. apply run_bus_ops_ok, new_bus_ok.
Qed.

(** *** Presence events *)

(** The presence events of a run, with their times. *)
Definition emitted (op : bus_op) (b : bus) : option (f64 * presence_event) :=
  match op with
  | Publish now fresh (Some o) =>
      match invalid_observation o with
      | Some _ => None
      | None => pair now <$> en_event (take_in now fresh o b).2
      end
  | _ => None
  end.

Fixpoint presence_log (ops : list bus_op) (b : bus) : list (f64 * presence_event) :=
  match ops with
  | [] => []
  | op :: rest => option_list (emitted op b) ++ presence_log rest (run_bus b op)
  end.

(** Arrivals and departures alternate, the first arrival apart from the
    returns, and each is a debounce period away from the one before. *)
Fixpoint legal (present been : bool) (changed : f64) (l : list (f64 * presence_event)) : Prop :=
  match l with
  | [] => True
  | (t, e) :: rest =>
      fleb DEBOUNCE_S (SFabs (fsub t changed)) = true ∧
      e = (if present then USER_LEFT_EVENT
           else if been then USER_RETURNED_EVENT else USER_PRESENT_EVENT) ∧
      legal (negb present) true t rest
  end.

Definition legal_from (p : presence_state) : list (f64 * presence_event) → Prop :=
  legal (p_present p) (p_has_been p) (p_changed_at p).

(** One step of the presence, against the log that follows it. *)
Lemma sense_legal now present p log :
  presence_ok p → legal_from (sense now present p).1 log →
  legal_from p (option_list (pair now <$> (sense now present p).2) ++ log).
Proof.
  unfold sense, legal_from. intros (_ & _ & H3).
  destruct (fleb _ _) eqn:E; simpl; [|done].
  destruct present, (p_present p) eqn:Ep; simpl; rewrite ?Ep; try done.
  - destruct (p_has_been p) eqn:Eb; simpl; auto.
  - rewrite H3 by done. simpl. auto.
Qed.

(** Every step but an accepted observation leaves the presence alone. *)
Lemma run_bus_presence op b :
  b_presence (run_bus b op) =
  match op with
  | Publish now fresh (Some o) =>
      if is_none (invalid_observation o)
      then (sense now (negb (denies_presence o)) (b_presence b)).1 else b_presence b
  | _ => b_presence b
  end.
Proof.
  destruct op as [now fresh [o|]|t1 t2 t3 [r|]|now q| | |l|l]; simpl; try done.
  - destruct (invalid_observation o); [done|]. unfold take_in. by destruct (sense _ _ _).
  - destruct (invalid_response r); [done|]. by destruct (bool_decide _).
  - unfold expect_answer. by case_bool_decide.
Qed.

Lemma run_presence_ok op b : presence_ok (b_presence b) → presence_ok (b_presence (run_bus b op)).
Proof.
  intros H. rewrite run_bus_presence. destruct op as [now fresh [o|]| | | | | |]; try done.
  destruct (is_none _); [by apply sense_ok|done].
Qed.

Lemma step_legal op b log :
  presence_ok (b_presence b) → legal_from (b_presence (run_bus b op)) log →
  legal_from (b_presence b) (option_list (emitted op b) ++ log).
Proof.
  intros H. rewrite run_bus_presence. destruct op as [now fresh [o|]| | | | | |]; try done.
  unfold emitted. destruct (invalid_observation o); cbn [is_none option_list app]; [done|].
  intros Hl. apply (sense_legal _ _ _ _ H) in Hl. unfold take_in.
  by destruct (sense now (negb (denies_presence o)) (b_presence b)).
Qed.

Lemma presence_log_legal ops b :
  presence_ok (b_presence b) → legal_from (b_presence b) (presence_log ops b).
Proof.
  revert b. induction ops as [|op ops IH]; intros b H; [done|]. cbn [presence_log].
  apply step_legal; [done|]. by apply IH, run_presence_ok.
Qed.

(** Presence events alternate, and not faster than the debounce. In any
    run of the bus the first event is an arrival, departures and returns then
    take turns, and between an event and the one before it at least a
    debounce period has passed. *)
Theorem presence_debounced capacity conversation ops :
  legal false false f0 (presence_log ops (new_bus capacity conversation)).
Proof. by apply (presence_log_legal ops (new_bus capacity conversation)). Qed.

(** *** Questions and answers *)

Definition has_pending (b : bus) : nat :=
  match d_pending (b_dialogue b) with Some _ => 1 | None => 0 end.

(** Whether a step asks a question, and whether it hears an answer. *)
Definition asks_question (op : bus_op) (b : bus) : bool :=
  match op with
  | Respond t1 t2 t3 (Some r) =>
      is_none (invalid_response r) && bool_decide (r_type r = u "speech")
      && r_expects_answer r
  | Ask now q => (expect_answer now q b).2
  | _ => false
  end.

Definition hears_answer (op : bus_op) (b : bus) : bool :=
  match op with
  | Publish now fresh (Some o) =>
      is_none (invalid_observation o) && negb (bool_decide (transcript_of o = []))
      && bool_decide (is_Some (awaited now (b_dialogue b)))
  | _ => false
  end.

Fixpoint count_steps (f : bus_op → bus → bool) (ops : list bus_op) (b : bus) : nat :=
  match ops with
  | [] => 0
  | op :: rest => (if f op b then 1 else 0) + count_steps f rest (run_bus b op)
  end.

Lemma hear_pending now ts id words d :
  d_pending (hear now ts id words d) = if bool_decide (words = []) then d_pending d else None.
Proof. unfold hear. by case_bool_decide. Qed.

(** What an accepted observation does to the pending question. *)
Lemma publish_pending now fresh o b :
  d_pending (b_dialogue (publish now fresh o b).1.1) =
  match o with
  | Some o' => if is_none (invalid_observation o')
                  && negb (bool_decide (transcript_of o' = []))
               then None else d_pending (b_dialogue b)
  | None => d_pending (b_dialogue b)
  end.
Proof.
  destruct o as [o|]; [|done]. simpl. destruct (invalid_observation o); [done|].
  unfold take_in. destruct (sense _ _ _) as [p ev]. simpl.
  destruct (bool_decide (ev = _)); simpl; rewrite hear_pending; by case_bool_decide.
Qed.

Lemma awaited_pending now b :
  is_Some (awaited now (b_dialogue b)) → has_pending b = 1%nat.
Proof.
  unfold awaited, has_pending. destruct (d_pending (b_dialogue b)); [done|]. by intros [? ?].
Qed.

(** A step's own balance. *)
Lemma answers_balance op b :
  ((if hears_answer op b then 1 else 0) + has_pending (run_bus b op)
   <= (if asks_question op b then 1 else 0) + has_pending b)%nat.
Proof.
  destruct op as [now fresh o|t1 t2 t3 [r|]|now q| | |l|l]; simpl; try done.
  - unfold has_pending at 1. rewrite publish_pending. destruct o as [o|]; simpl; [|done].
    destruct (is_none (invalid_observation o) && _); simpl; [|done].
    case_bool_decide as Ha; [|lia]. apply awaited_pending in Ha. lia.
  - destruct (invalid_response r) eqn:E; simpl; [done|].
    unfold has_pending. simpl. case_bool_decide; simpl; [|done].
    destruct (r_expects_answer r); simpl; destruct (d_pending (b_dialogue b)); lia.
  - unfold expect_answer, has_pending. case_bool_decide; simpl; [done|].
    destruct (d_pending (b_dialogue b)); lia.
Qed.

Lemma answers_within_pending ops b :
  (count_steps hears_answer ops b <= count_steps asks_question ops b + has_pending b)%nat.
Proof.
  revert b. induction ops as [|op ops IH]; intros b; simpl; [lia|].
  pose proof (answers_balance op b). specialize (IH (run_bus b op)). lia.
Qed.

(** No question is answered twice. In any run the bus pairs at most as
    many answers as questions were asked; words are paired exactly when a
    question asked at most two minutes before is still pending, with that
    question and the words, and no question is pending after words. *)
Theorem answers_paired capacity conversation ops now fresh o b :
  (count_steps hears_answer ops (new_bus capacity conversation)
   <= count_steps asks_question ops (new_bus capacity conversation))%nat ∧
  (invalid_observation o = None → transcript_of o ≠ [] →
   let b' := (publish now fresh (Some o) b).1.1 in
   let d := b_dialogue b in
   d_pending (b_dialogue b') = None ∧
   match awaited now d with
   | Some (q, asked) =>
       d_pending d = Some (q, asked) ∧ fleb (fsub now asked) ANSWER_TTL_S = true ∧
       d_answer (b_dialogue b') = Some (transcript_of o) ∧
       ∃ r, last (d_round_trips (b_dialogue b')) = Some r ∧ rt_question r = q ∧
            rt_answer r = transcript_of o ∧ rt_conversation r = d_conversation d
   | None => d_round_trips (b_dialogue b') = d_round_trips d ∧
             d_answer (b_dialogue b') = d_answer d
   end).
Proof.
  split; [by rewrite <- (Nat.add_0_r (count_steps asks_question _ _)); apply answers_within_pending|].
  intros Hv Ht. cbv zeta. split.
  { rewrite publish_pending, Hv. by rewrite (bool_decide_false (_ = [])) by done. }
  unfold publish. rewrite Hv. unfold take_in. destruct (sense _ _ _) as [p ev].
  cbn [fst snd b_dialogue]. unfold hear. rewrite (bool_decide_false (transcript_of o = [])) by done. unfold pair_answer.
  assert (awaited now (begin_turn (b_dialogue b)) = awaited now (b_dialogue b)) as ->.
  { unfold begin_turn. by destruct (d_turn (b_dialogue b)). }
  assert (d_conversation (begin_turn (b_dialogue b)) = d_conversation (b_dialogue b)) as Hc.
  { unfold begin_turn. by destruct (d_turn (b_dialogue b)). }
  destruct (awaited now (b_dialogue b)) as [[q a]|] eqn:Ea.
  - unfold awaited in Ea. destruct (d_pending (b_dialogue b)) as [[q' a']|]; [|done].
    destruct (fleb _ _) eqn:Ef; [|done]. injection Ea as -> ->.
    split; [done|]. split; [done|].
    destruct (bool_decide (ev = _)); (split; [done|]); simpl;
      rewrite dq_append_last by (unfold MAX_CONVERSATION_EVENTS; lia); eauto 8.
  - unfold begin_turn. destruct (bool_decide (ev = _)), (d_turn (b_dialogue b)); done.
Qed.

(** *** The utterance with which a user returns *)

(** The utterance of a returning user is cut off from its answer. When
    words bring the user back, their entry carries a turn of the conversation
    that just ended, the bus is then in a new conversation without a turn,
    and the response recorded next answers nothing. *)
Theorem returning_speech_orphaned now fresh o b :
  invalid_observation o = None → transcript_of o ≠ [] →
  (publish now fresh (Some o) b).1.2 = (true, u "USER_RETURNED") →
  let b' := (publish now fresh (Some o) b).1.1 in
  (16 <= b_capacity b)%nat →
  (∃ e t, last (b_buffer b') = Some e ∧ en_turn e = Some t ∧
          en_conversation e = d_conversation (b_dialogue b)) ∧
  d_conversation (b_dialogue b') = fresh ∧
  ∀ t1 t2 t3 r, invalid_response r = None →
    r_in_response_to <$> sp_last (b_spoken (record_agent_response t1 t2 t3 (Some r) b').1)
    = Some None.
Proof.
  intros Hv Ht Hp. cbv zeta. intros Hcap. revert Hp. unfold publish. rewrite Hv.
  unfold take_in. destruct (sense _ _ _) as [p ev].
  cbn [fst snd b_dialogue b_buffer b_spoken en_event]. intros [= Hev].
  assert (ev = Some USER_RETURNED_EVENT) as -> by (by destruct ev as [[]|]).
  rewrite (bool_decide_true (Some _ = Some _)) by done.
  rewrite (bool_decide_false (transcript_of o = [])) by done.
  split.
  - rewrite dq_append_last by lia. unfold hear.
    rewrite (bool_decide_false (transcript_of o = [])) by done.
    unfold pair_answer, begin_turn.
    destruct (d_turn (b_dialogue b)) as [t|] eqn:Et, (awaited now _) as [[q a]|]; simpl;
      rewrite ?Et; eauto.
  - split; [done|]. intros t1 t2 t3 r Hr. simpl. by rewrite Hr.
Qed.
End Runs.

(** ** What an accepted observation is like *)

Definition value_ok (v : pyval) : Prop :=
  match v with
  | VBool _ | VInt _ => True
  | VFloat x => f_finite x = true
  | VStr s => (length s <= 160)%nat
  | _ => False
  end.

Definition payload_ok (p : pydict) : Prop :=
  Forall (λ kv, (0 < length kv.1 <= 40)%nat ∧ value_ok kv.2) p.

Section Typed.
Context {PR : PyRepr} {FS : PyFloatOfStr}.

Lemma clean_float_finite v x : clean_float v = Ok (Some x) → f_finite x = true.
Proof.
  unfold clean_float. destruct (py_float v) as [y|[]]; try done.
  destruct (f_finite y) eqn:E; [|done]. by intros [= <-].
Qed.

Lemma sanitize_field_ok v w : sanitize_field v = Ok (Some w) → value_ok w.
Proof.
  destruct v as [|b|z|f|s|l|d]; simpl; try (intros [= <-]; simpl; try done).
  - lia.
  - destruct (clean_float (VInt z)) as [[y|]|]; simpl; intros H; try done.
    by replace w with (VInt z) by congruence.
  - unfold clean_float. simpl. destruct (f_finite f) eqn:Ef; intros H; [|done].
    by replace w with (VFloat f) by congruence.
  - apply sanitize_length.
  - apply sanitize_at_most. lia.
  - apply sanitize_at_most. lia.
Qed.

Lemma sanitize_fields_ok fields clean p :
  payload_ok clean → sanitize_fields fields clean = Ok p →
  payload_ok p ∧ (length p <= length clean + length fields)%nat.
Proof.
  revert clean. induction fields as [|[k v] rest IH]; intros clean Hc Hp; simpl in *.
  { injection Hp as <-. split; [done|lia]. }
  case_bool_decide as Ek.
  { apply IH in Hp as [H1 H2]; [|done]. split; [done|lia]. }
  destruct (sanitize_field v) as [[w|]|] eqn:Ev; simpl in Hp; [| |done].
  - apply IH in Hp as [H1 H2].
    + split; [done|]. revert H2. rewrite dset_length. case_match; lia.
    + apply Forall_forall. intros kv [->|Hin]%dset_elem; [|by eapply Forall_forall in Hc].
      split; [|by eapply sanitize_field_ok]. pose proof (sanitize_length k 40). simpl.
      destruct (sanitize_text k 40); [done|]. simpl in *. lia.
  - apply IH in Hp as [H1 H2]; [|done]. split; [done|lia].
Qed.

Lemma payload_nil : payload_ok [] ∧ (length (@nil (pystr * pyval)) <= 12)%nat.
Proof. split; [constructor|simpl; lia]. Qed.

Lemma payload_single k v :
  (0 < length k <= 40)%nat → value_ok v → payload_ok [(k, v)] ∧ (length [(k, v)] <= 12)%nat.
Proof. intros Hk Hv. split; [by constructor|simpl; lia]. Qed.

Lemma number_payload_ok v (p : pydict) :
  value_ok v ∨ clean_float v = Ok None →
  match clean_float v with
  | Ok (Some _) => Ok [(u "value", v)] | Ok None => Ok [] | Raise e => Raise e
  end = Ok p → payload_ok p ∧ (length p <= 12)%nat.
Proof.
  intros Hv. destruct (clean_float v) as [[y|]|]; intros [= <-]; [|apply payload_nil].
  apply payload_single; [vm_compute; lia|]. by destruct Hv.
Qed.

Lemma sanitize_payload_ok v p :
  sanitize_payload v = Ok p → payload_ok p ∧ (length p <= 12)%nat.
Proof.
  assert (∀ w : pyval, (x ← clean_float w;
    Ok (match x with Some _ => [(u "value", w)] | None => [] end)) = Ok p →
    value_ok w ∨ clean_float w = Ok None → payload_ok p ∧ (length p <= 12)%nat) as Hn.
  { intros w H Hw. apply (number_payload_ok w p Hw). revert H.
    by destruct (clean_float w) as [[]|]. }
  destruct v as [|b|z|f|s|l|d]; unfold sanitize_payload; intros H.
  - injection H as <-. apply payload_nil.
  - apply Hn in H; [done|by left].
  - apply Hn in H; [done|by left].
  - apply Hn in H; [done|]. unfold clean_float. simpl. destruct (f_finite f); auto.
  - injection H as <-. apply payload_single; [vm_compute; lia|]. by apply sanitize_at_most.
  - injection H as <-. apply payload_single; [vm_compute; lia|]. by apply sanitize_at_most.
  - apply sanitize_fields_ok in H as [H1 H2]; [|constructor]. split; [done|].
    revert H2. rewrite length_take. cbn [length]. lia.
Qed.

Definition observation_ok (o : observation) : Prop :=
  o_type o ∈ OBSERVATION_TYPES ∧ (0 < length (o_source o) <= 40)%nat ∧
  payload_ok (o_payload o) ∧ (length (o_payload o) <= 12)%nat ∧
  fleb f0 (o_confidence o) = true ∧ fleb (o_confidence o) f1 = true ∧
  f_finite (o_timestamp o) = true ∧ o_scope o ∈ PRIVACY_SCOPES.

Lemma new_observation_inv t1 t2 ty so pa co ti sc id o :
  new_observation t1 t2 ty so pa co ti sc id = Ok o →
  ∃ p c ts x, sanitize_payload pa = Ok p ∧ clean_float co = Ok c ∧ clean_float x = Ok ts ∧
    o = Observation (lower (strip (py_str ty))) (sanitize_text (str_or_empty so) 40) p
          (default f0 c) (bool_decide (c = None)) (default t2 ts)
          (lower (strip (str_or_empty sc))) (id_of id).
Proof.
  unfold new_observation. set (x := match ti with VNone => VFloat t1 | _ => ti end).
  destruct (sanitize_payload pa) as [p|]; cbn [mbind res_bind]; [|by intros].
  destruct (clean_float co) as [c|] eqn:Ec; cbn [mbind res_bind]; [|by intros].
  destruct (clean_float x) as [ts|] eqn:Ex; cbn [mbind res_bind]; [|by intros].
  intros [= <-]. by exists p, c, ts, x.
Qed.

(** What comes in is well typed. Whatever is decoded at the contract's
    boundary, an observation that is accepted has a known type and scope, a
    source of one to forty characters, a confidence between 0 and 1, a finite
    time, and at most twelve fields, each named in at most forty characters
    and holding a boolean, a finite number or a text of at most 160. *)
Theorem observation_well_typed t1 t2 data o why :
  f_finite t2 = true →
  observation_from_dict t1 t2 data = Ok (Some o, why) → observation_ok o.
Proof.
  intros Ht. destruct data as [| | | | | |d]; try done. unfold observation_from_dict.
  destruct (new_observation _ _ _ _ _ _ _ _ _) as [o'|] eqn:En; [|done].
  cbn [mbind res_bind]. destruct (invalid_observation o') eqn:Ei; [done|]. intros [= -> _].
  apply new_observation_inv in En as (p & c & ts & x & Ep & Ec & Ets & ->).
  revert Ei. unfold invalid_observation. cbn [o_type o_source o_confidence_invalid o_confidence o_scope].
  destruct (negb (bool_decide (_ ∈ OBSERVATION_TYPES))) eqn:E1; [done|].
  destruct (bool_decide (_ = [])) eqn:E2; [done|]. apply bool_decide_eq_false in E2.
  destruct (_ || _) eqn:E3; [done|].
  destruct (negb (bool_decide (_ ∈ PRIVACY_SCOPES))) eqn:E4; [done|]. intros _.
  apply negb_false_iff, bool_decide_eq_true in E1, E4.
  apply orb_false_iff in E3 as [_ E3]. apply negb_false_iff, andb_true_iff in E3 as [E3 E5].
  apply sanitize_payload_ok in Ep as [Hp Hl].
  repeat split; try done.
  - cbn [o_source]. by destruct (sanitize_text _ 40) eqn:E; [|simpl; lia].
  - apply sanitize_length.
  - cbn [o_timestamp]. destruct ts as [y|]; [|done]. by eapply clean_float_finite.
Qed.

(** A large enough integer escapes. An object whose confidence is an
    integer beyond the range of floats makes [from_dict] raise. *)
Theorem observation_overflow t1 t2 d z :
  dget (u "confidence") d = Some (VInt z) → dget (u "payload") d = None →
  py_float_of_Z z = Raise OverflowError →
  observation_from_dict t1 t2 (VDict d) = Raise OverflowError.
Proof.
  intros Hc Hp Hz. unfold observation_from_dict, new_observation, dict_get, clean_float.
  rewrite Hc, Hp. simpl. by rewrite Hz.
Qed.
End Typed.

(** ** Trimming *)

Lemma take_prefix {A} n (l : list A) : take n l `prefix_of` l.
Proof. exists (drop n l). by rewrite take_drop. Qed.

Lemma rstrip_prefix_of p s : rstrip p s `prefix_of` s.
Proof. destruct (rstrip_prefix p s) as (t & Ht & _). by exists t. Qed.

(** Spoken text is trimmed at its end only. [truncate_sentence] gives a
    prefix of the sanitised text that fits the limit, and the whole of it when
    that fits. *)
Theorem truncate_sentence_prefix text limit :
  let cleaned := sanitize_text text (Z.max (limit * 2) limit) in
  0 <= limit →
  truncate_sentence text limit `prefix_of` cleaned ∧
  Z.of_nat (length (truncate_sentence text limit)) <= limit ∧
  (Z.of_nat (length cleaned) <= limit → truncate_sentence text limit = cleaned).
Proof.
  cbv zeta. intros Hl. unfold truncate_sentence. cbv zeta.
  set (cleaned := sanitize_text text (Z.max (limit * 2) limit)).
  destruct (Z.leb_spec (Z.of_nat (length cleaned)) limit); [split_and!; done|].
  set (cut := take (Z.to_nat limit) cleaned).
  assert (∀ s, s `prefix_of` cut →
            s `prefix_of` cleaned ∧ Z.of_nat (length s) <= limit ∧
            (Z.of_nat (length cleaned) <= limit → s = cleaned)) as Hs.
  { intros s Hp. split_and!; [|apply prefix_length in Hp; revert Hp; unfold cut;
      rewrite length_take; lia|lia].
    etrans; [exact Hp|apply take_prefix]. }
  apply Hs. destruct (last_break _ _ _) as [pos|]; [|destruct (_ <? _)].
  - etrans; [apply rstrip_prefix_of|apply take_prefix].
  - etrans; [apply rstrip_prefix_of|apply take_prefix].
  - apply rstrip_prefix_of.
Qed.

(** ** The theorems at concrete inputs *)

Definition demo_repr : PyRepr := λ _, u "?".
Definition demo_float : PyFloatOfStr := λ _, Raise (ValueError []).

(** An observation from a source at a time, with a payload. *)
Definition demo_seen (type : string) (payload : pydict) (at_ : Z) : observation :=
  Observation (u type) (u "tablet") payload f1 false (f_of_Z at_) (u "local") None.
Definition demo_said (words : string) (at_ : Z) : observation :=
  demo_seen "speech" [(u "transcript", VStr (u words))] at_.
Definition demo_question : response :=
  Response (u "speech") (u "Shall I go on?") [] (f_dec 5 1) true None None.

Lemma answers_paired_witness :
  let _ : PyRepr := demo_repr in
  let ops := [Respond (f_of_Z 10) (f_of_Z 10) (f_of_Z 10) (Some demo_question);
              Publish (f_of_Z 20) (u "conv-2") (Some (demo_said "yes" 20));
              Publish (f_of_Z 25) (u "conv-2") (Some (demo_said "yes" 25))] in
  (count_steps hears_answer ops (new_bus 16 (u "conv-1"))
   <= count_steps asks_question ops (new_bus 16 (u "conv-1")))%nat ∧
  d_pending (b_dialogue (publish (f_of_Z 30) (u "conv-3") (Some (demo_said "ok" 30))
    (run_bus_ops ops (new_bus 16 (u "conv-1")))).1.1) = None.
Proof.
  intros ? ops. split.
  - apply (answers_paired 16 (u "conv-1") ops f0 [] (demo_said "ok" 30) (new_bus 16 [])).
  - apply (answers_paired 16 (u "conv-1") ops); vm_compute; congruence.
Defined.

Lemma returning_speech_orphaned_witness :
  let _ : PyRepr := demo_repr in
  let b := run_bus_ops
    [Publish (f_of_Z 10) (u "conv-2") (Some (demo_seen "presence" [] 10));
     Publish (f_of_Z 20) (u "conv-2")
       (Some (demo_seen "presence" [(u "present", VBool false)] 20))] (new_bus 16 (u "conv-1")) in
  d_conversation (b_dialogue (publish (f_of_Z 30) (u "conv-2")
    (Some (demo_said "I am back" 30)) b).1.1) = u "conv-2".
Proof.
  intros ? b.
  apply (returning_speech_orphaned (f_of_Z 30) (u "conv-2") (demo_said "I am back" 30) b);
    [by vm_compute|by vm_compute|by vm_compute|vm_compute; lia].
Defined.

Lemma observation_well_typed_witness :
  let _ : PyRepr := demo_repr in let _ : PyFloatOfStr := demo_float in
  observation_ok (Observation (u "speech") (u "tablet") [(u "transcript", VStr (u "hi"))]
                    (f_dec 5 1) false (f_of_Z 7) (u "local") None).
Proof.
  intros ? ?.
  apply (observation_well_typed (f_of_Z 7) (f_of_Z 7)
    (VDict [(u "type", VStr (u "Speech")); (u "source", VStr (u " tablet "));
            (u "payload", VDict [(u "transcript", VStr (u "hi")); (u "gain", VFloat f_nan)]);
            (u "confidence", VFloat (f_dec 5 1))]) _ (u "ok")); by vm_compute.
Defined.

Lemma observation_overflow_witness :
  let _ : PyRepr := demo_repr in let _ : PyFloatOfStr := demo_float in
  observation_from_dict f0 f0
    (VDict [(u "type", VStr (u "speech")); (u "source", VStr (u "tablet"));
            (u "confidence", VInt (10 ^ 400))]) = Raise OverflowError.
Proof. intros ? ?. by apply (observation_overflow f0 f0 _ (10 ^ 400)). Defined.

Lemma truncate_sentence_prefix_witness :
  truncate_sentence (u "One thing. Another thing") 14 = u "One thing." ∧
  Z.of_nat (length (truncate_sentence (u "One thing. Another thing") 14)) <= 14.
Proof.
  split; [by vm_compute|]. apply (truncate_sentence_prefix (u "One thing. Another thing") 14). lia.
Defined.
