(* ===== verification/TokenBudget.v ===== *)
(** * Context budgeting ([src/token_budget.py])

    The token estimate and the per-section limits of [ContextBudget].  Texts
    are strings; allocations are floats. *)

From Stdlib Require Import Floats.SpecFloat.
From S2P Require Import Prelude PyFloat PyStr PyVal.

Local Open Scope Z_scope.

Definition CHARS_PER_TOKEN : Z := 4.

(** [" ...[truncated]"] with a one-character ellipsis (U+2026). *)
Definition ELLIPSIS : pystr := [32%N; 8230%N] ++ u "[truncated]".

Definition DEFAULT_ALLOCATIONS : list (pystr * f64) :=
  [(u "scratchpad", f_dec 30 2); (u "memory_context", f_dec 25 2); (u "task", f_dec 15 2);
   (u "prompt", f_dec 20 2); (u "params", f_dec 10 2)].

Definition slen (s : pystr) : Z := Z.of_nat (length s).

(** [estimate_tokens] of a text. *)
Definition estimate_tokens (text : pystr) : Z :=
  match text with
  | [] => 0
  | _ => Z.max 1 ((slen text + CHARS_PER_TOKEN - 1) / CHARS_PER_TOKEN)
  end.

Record ContextBudget := Budget {
  total_tokens : Z;
  limits : list (pystr * Z)
}.

(** One section's limit: an absolute count from 1 up, a share below. *)
Definition section_limit (total : Z) (value : f64) : res Z :=
  if fleb f1 value then py_int_of_f value
  else match py_float_of_Z total with
       | Raise e => Raise e
       | Ok t => match py_int_of_f (fmul t value) with
                 | Ok n => Ok (Z.max 1 n)
                 | Raise e => Raise e
                 end
       end.

Fixpoint section_limits (total : Z) (shares : list (pystr * f64))
    (acc : list (pystr * Z)) : res (list (pystr * Z)) :=
  match shares with
  | [] => Ok acc
  | (s, v) :: rest =>
      match section_limit total v with
      | Ok n => section_limits total rest (dset s n acc)
      | Raise e => Raise e
      end
  end.

(** [{**DEFAULT_ALLOCATIONS, **allocations}]. *)
Definition merge_dict {V} (a b : list (pystr * V)) : list (pystr * V) :=
  foldl (λ d kv, dset kv.1 kv.2 d) a b.

(** [ContextBudget.__init__]. *)
Definition new_budget (total : Z) (allocations : list (pystr * f64)) : res ContextBudget :=
  let total := Z.max 256 total in
  match section_limits total (merge_dict DEFAULT_ALLOCATIONS allocations) [] with
  | Ok l => Ok (Budget total l)
  | Raise e => Raise e
  end.

Definition limit (section : pystr) (b : ContextBudget) : Z :=
  default 0 (dget section (limits b)).

Definition set_limit (section : pystr) (tokens : Z) (b : ContextBudget) : ContextBudget :=
  Budget (total_tokens b) (dset section (Z.max 1 tokens) (limits b)).

Definition fits (section text : pystr) (b : ContextBudget) : bool :=
  estimate_tokens text <=? limit section b.

(** [truncate]. *)
Definition truncate (section text : pystr) (b : ContextBudget) : pystr :=
  let n := limit section b in
  if n <=? 0 then []
  else if estimate_tokens text <=? n then text
  else
    let max_chars := Z.max (slen ELLIPSIS + 1) (n * CHARS_PER_TOKEN - slen ELLIPSIS) in
    take (Z.to_nat max_chars) text ++ ELLIPSIS.

(** [usage]: used tokens and limit per section. *)
Definition usage (texts : list (pystr * pystr)) (b : ContextBudget) :
    list (pystr * (Z * Z)) :=
  (λ st, (st.1, (estimate_tokens st.2, limit st.1 b))) <$> texts.

(** ** Facts *)

Lemma estimate_tokens_spec text :
  0 <= estimate_tokens text ∧ slen text <= CHARS_PER_TOKEN * estimate_tokens text ∧
  CHARS_PER_TOKEN * estimate_tokens text < slen text + CHARS_PER_TOKEN.
Proof.
  unfold estimate_tokens, CHARS_PER_TOKEN. destruct text as [|c t]; [by cbn|].
  assert (1 <= slen (c :: t)) by (unfold slen; simpl; lia).
  generalize dependent (slen (c :: t)). intros n Hn.
  assert (1 <= (n + 4 - 1) / 4) by (apply Z.div_le_lower_bound; lia).
  pose proof (Z.div_mod (n + 4 - 1) 4 ltac:(lia)).
  pose proof (Z.mod_pos_bound (n + 4 - 1) 4 ltac:(lia)). lia.
Qed.

Lemma estimate_tokens_le text k : slen text <= CHARS_PER_TOKEN * k → estimate_tokens text <= k.
Proof.
  destruct (estimate_tokens_spec text) as (_ & _ & H). unfold CHARS_PER_TOKEN in *. lia.
Qed.

Lemma slen_take n s : slen (take n s) <= Z.of_nat n.
Proof. unfold slen. rewrite length_take. lia. Qed.

Lemma slen_app a b : slen (a ++ b) = slen a + slen b.
Proof. unfold slen. rewrite length_app. lia. Qed.

(** The budget can be exceeded: with a limit of one token, a text of
    five characters comes back longer than it was, at five tokens. *)
Lemma small_limit_overflows section b text :
  limit section b = 1 → slen text = 5 →
  slen (truncate section text b) = 18 ∧ estimate_tokens (truncate section text b) = 5.
Proof.
  intros Hl Hs. unfold truncate. rewrite Hl. cbn [Z.leb Z.compare].
  destruct text as [|c text]; [done|].
  assert (estimate_tokens (c :: text) = 2) as ->.
  { unfold estimate_tokens. rewrite Hs. done. }
  cbn [Z.leb Z.compare Pos.compare Pos.compare_cont].
  rewrite take_ge by (unfold slen in Hs; change (slen ELLIPSIS) with 13;
    unfold CHARS_PER_TOKEN; lia).
  assert (slen ((c :: text) ++ ELLIPSIS) = 18) as E by (rewrite slen_app, Hs; done).
  split; [done|]. unfold estimate_tokens. rewrite E. done.
Qed.

(** [truncate] keeps a text that fits, gives nothing for a section
    without a budget, and otherwise keeps a prefix and marks the cut. What it
    returns fits a limit of at least seven tokens; below that the marker
    itself and the smallest prefix cost up to seven. *)
Theorem truncate_within_budget section text b :
  let t := truncate section text b in
  estimate_tokens t <= (if limit section b <=? 0 then 0 else Z.max 7 (limit section b)) ∧
  (fits section text b = true → 0 < limit section b → t = text) ∧
  (fits section text b = false → 0 < limit section b →
     ∃ p q, text = p ++ q ∧ t = p ++ ELLIPSIS).
Proof.
  simpl. unfold truncate, fits. set (n := limit section b).
  destruct (Z.leb_spec n 0); [split_and!; [done|lia|lia]|].
  destruct (Z.leb_spec (estimate_tokens text) n).
  - split_and!; [lia|done|done].
  - split_and!; [|done|].
    + apply estimate_tokens_le. rewrite slen_app.
      assert (slen ELLIPSIS = 13) as -> by done.
      pose proof (slen_take (Z.to_nat (Z.max (13 + 1) (n * CHARS_PER_TOKEN - 13))) text).
      unfold CHARS_PER_TOKEN in *. lia.
    + intros _ _. eexists _, _. split; [|done]. by rewrite take_drop.
Qed.
