(* ===== verification/TaskQueue.v ===== *)
(** * The task queue ([src/task_manager.py])

    The bounded queue between the producers and the single worker thread: what
    is accepted, in what order it is executed through the injected executor,
    and what happens to the exceptions of executor and callbacks.  The steps of
    producers, worker and operator interleave freely. *)

From Stdlib Require Import ZArith Lia.
From Stdlib Require Import Floats.SpecFloat.
From S2P Require Import Prelude PyFloat PyStr PyVal.

Local Open Scope Z_scope.

Section Queue.
(** The world the executor and the callbacks act on, and the callbacks. *)
Context {W C : Type} (call : C → pyval → py W unit).

Abbreviation job := (pydict * option C)%type.
Abbreviation executor_fn := (pydict → py W pyval).

Record task_manager := TaskManager {
  task_queue : list job;
  maxsize : Z;
  unfinished : Z;
  executor : option executor_fn;
  stop_event : bool
}.

(** [TaskManager(...)]. *)
Definition new_task_manager (max_queue_size : Z) : task_manager :=
  TaskManager [] (Z.max 1 max_queue_size) 0 None false.

Definition with_queue (q : list job) (n : Z) (m : task_manager) : task_manager :=
  TaskManager q (maxsize m) n (executor m) (stop_event m).

(** [set_executor] and [stop]. *)
Definition set_executor (f : executor_fn) (m : task_manager) : task_manager :=
  TaskManager (task_queue m) (maxsize m) (unfinished m) (Some f) (stop_event m).
Definition stop (m : task_manager) : task_manager :=
  TaskManager (task_queue m) (maxsize m) (unfinished m) (executor m) true.

(** [add_task]: [put_nowait], refused when the queue is full. *)
Definition add_task (task : pydict) (callback : option C) (m : task_manager) : task_manager * bool :=
  if maxsize m <=? Z.of_nat (length (task_queue m)) then (m, false)
  else (with_queue (task_queue m ++ [(task, callback)]) (unfinished m + 1) m, true).

Definition no_executor : pydict :=
  [(u "status", VStr (u "refused"));
   (u "reason", VStr (u "no executor configured for the task queue"))].

(** [execute_task]. *)
Definition execute_task (m : task_manager) (task : pydict) : py W pyval :=
  match executor m with
  | None => mret (VDict no_executor)
  | Some f => f task
  end.

(** The body of the worker's outer [try]. *)
Definition run_job (m : task_manager) (j : job) : py W unit :=
  r ← attempt (
    result ← execute_task m j.1;
    match j.2 with
    | Some cb => attempt (call cb result) ;; mret tt
    | None => mret tt
    end);
  mret tt.

(** One turn of [process_tasks]; [None] is the end of the thread. *)
Definition process_once (m : task_manager) : py W (option (task_manager * option job)) :=
  if stop_event m then mret None
  else match task_queue m with
       | [] => mret (Some (m, None))
       | j :: q =>
           run_job m j ;; mret (Some (with_queue q (unfinished m - 1) m, Some j))
       end.

(** ** Runs *)

(** The manager with the world, and what was accepted and executed so far. *)
Record run := Run {
  r_manager : task_manager;
  r_world : W;
  r_accepted : list job;
  r_done : list job
}.

Inductive label := Add (task : pydict) (callback : option C) | Work | Wire (f : executor_fn) | Stop.

Definition exec (l : label) (r : run) : run :=
  match l with
  | Add task cb =>
      let '(m, ok) := add_task task cb (r_manager r) in
      Run m (r_world r) (if ok then r_accepted r ++ [(task, cb)] else r_accepted r) (r_done r)
  | Work =>
      match process_once (r_manager r) (r_world r) with
      | (w, Ok (Some (m, Some j))) => Run m w (r_accepted r) (r_done r ++ [j])
      | (w, Ok (Some (m, None))) => Run m w (r_accepted r) (r_done r)
      | (w, _) => Run (r_manager r) w (r_accepted r) (r_done r)
      end
  | Wire f => Run (set_executor f (r_manager r)) (r_world r) (r_accepted r) (r_done r)
  | Stop => Run (stop (r_manager r)) (r_world r) (r_accepted r) (r_done r)
  end.

Inductive rstep : run → label → run → Prop :=
  | rstep_exec r l : rstep r l (exec l r).

Definition started (size : Z) (r : run) : Prop :=
  ∃ w, r = Run (new_task_manager size) w [] [].

(** ** Lemmas *)

(** The queue's specification: a bounded list, first in first out. *)
Definition queue_inv (size : Z) (r : run) : Prop :=
  let m := r_manager r in
  r_accepted r = r_done r ++ task_queue m ∧
  Z.of_nat (length (task_queue m)) <= maxsize m ∧
  unfinished m = Z.of_nat (length (task_queue m)) ∧ maxsize m = Z.max 1 size.

Lemma process_once_cases m w :
  (stop_event m = true ∧ process_once m w = (w, Ok None)) ∨
  (stop_event m = false ∧ task_queue m = [] ∧ process_once m w = (w, Ok (Some (m, None)))) ∨
  (∃ j q, stop_event m = false ∧ task_queue m = j :: q ∧
     process_once m w = ((run_job m j w).1, Ok (Some (with_queue q (unfinished m - 1) m, Some j)))).
Proof.
  unfold process_once. destruct (stop_event m); [by left|right].
  destruct (task_queue m) as [|j q]; [by left|right]. exists j, q. split_and!; [done..|].
  unfold run_job. py_unfold. unfold attempt.
  repeat (case_match; simplify_eq/=; try done).
Qed.

Lemma queue_inv_exec size l r : queue_inv size r → queue_inv size (exec l r).
Proof.
  intros (Ha & Hl & Hu & Hm). destruct l as [task cb| |f|]; cbn [exec]; unfold queue_inv; try done.
  - unfold add_task. destruct (Z.leb_spec (maxsize (r_manager r)) (Z.of_nat (length (task_queue (r_manager r)))));
      cbn; [done|]. rewrite length_app. cbn. split_and!; [by rewrite Ha, app_assoc|lia|lia|done].
  - destruct (process_once_cases (r_manager r) (r_world r)) as [[_ ->]|[(_ & _ & ->)|(j & q & _ & Hq & ->)]];
      cbn; [done|done|].
    rewrite Hq in *. cbn in *. rewrite <- app_assoc. split_and!; [done|lia|lia|done].
Qed.

Lemma queue_inv_reach size r : reachable rstep (started size) r → queue_inv size r.
Proof.
  apply reach_ind_inv.
  - intros ? (w & ->). unfold queue_inv. cbn. split_and!; [done|lia|done|done].
  - intros s l s' Hi Hs. destruct Hs. by apply queue_inv_exec.
Qed.

(** ** Theorems *)

(** The queue keeps its word, whatever producers, worker and operator do:
    what was accepted is what was executed followed by what is waiting, each
    task once and in the order of acceptance; the waiting list never exceeds
    the bound, and the count of unfinished tasks is its length. *)
Theorem queue_fifo_once size r :
  reachable rstep (started size) r →
  r_accepted r = r_done r ++ task_queue (r_manager r) ∧
  Z.of_nat (length (task_queue (r_manager r))) <= Z.max 1 size ∧
  unfinished (r_manager r) = Z.of_nat (length (task_queue (r_manager r))).
Proof. intros (Ha & Hl & Hu & Hm)%queue_inv_reach. split_and!; [done|lia|done]. Qed.

(** The worker drains the queue: without a stop, as many turns as there
    are waiting tasks execute them all, whatever the executor and the callbacks
    raise; after a stop nothing more is executed. *)
Theorem worker_drains r n :
  let r' := Nat.iter n (exec Work) r in
  (stop_event (r_manager r) = false →
   r_done r' = r_done r ++ take n (task_queue (r_manager r)) ∧
   task_queue (r_manager r') = drop n (task_queue (r_manager r))) ∧
  (stop_event (r_manager r) = true → r' = r).
Proof.
  cbn zeta. revert r. induction n as [|n IH]; intros r.
  { cbn. split; [|done]. by rewrite app_nil_r. }
  rewrite Nat.iter_succ_r. destruct (IH (exec Work r)) as [Hrun Hstop].
  cbn [exec] in *.
  destruct (process_once_cases (r_manager r) (r_world r))
    as [[Hs E]|[(Hs & Hq & E)|(j & q & Hs & Hq & E)]]; rewrite E in *; cbn in Hrun, Hstop |- *.
  - split; [by rewrite Hs|]. intros _. rewrite Hstop by done. by destruct r.
  - split; [|by rewrite Hs]. intros _. destruct (Hrun Hs) as [-> ->]. rewrite Hq.
    by rewrite take_nil, drop_nil.
  - split; [|by rewrite Hs]. intros _. destruct (Hrun Hs) as [-> ->]. rewrite Hq. cbn.
    by rewrite <- app_assoc.
Qed.

(** Success is never made up: without an executor a task has no effect and
    its callback is handed a refusal; with one, the callback is handed exactly
    what the executor returned, and nothing when it raised. *)
Theorem job_result m task cb w :
  (run_job m (task, Some cb) w).1 =
  match executor m with
  | None => (call cb (VDict no_executor) w).1
  | Some f => match f task w with
              | (w', Ok result) => (call cb result w').1
              | (w', Raise _) => w'
              end
  end.
Proof.
  unfold run_job, execute_task. py_unfold. unfold attempt. cbn.
  destruct (executor m) as [f|]; [destruct (f task w) as [w' [x|x]]|]; try done;
    by destruct (call cb _ _) as [? [[]|]].
Qed.
End Queue.

(** ** Witnesses *)

Section Witnesses.
Definition echo : unit → pyval → py (list pyval) unit := λ _ v, modify (λ l, l ++ [v]).

Lemma queue_fifo_once_witness :
  let r := exec echo Work (exec echo (Add [] (Some tt))
             (Run (new_task_manager 0 : @task_manager (list pyval) unit) [] [] [])) in
  r_accepted r = r_done r ++ task_queue (r_manager r) ∧ r_world r = [VDict no_executor].
Proof.
  intros r. split; [|reflexivity].
  apply (queue_fifo_once echo 0 r). eexists. eexists. split; [by exists []|].
  eapply steps_cons; [constructor|]. eapply steps_cons; [constructor|]. apply steps_nil.
Defined.
End Witnesses.
