(* ===== verification/Conversation.v ===== *)
(** * The conversation state machine ([src/conversation/manager.py])

    Turn-taking and the bounded history of a dialogue.  Every method holds the
    manager's lock, so each is one step; the clock's reading is an argument. *)

From Stdlib Require Import ZArith Lia.
From Stdlib Require Import Floats.SpecFloat.
From S2P Require Import Prelude PyFloat PyStr PyVal.

Local Open Scope Z_scope.

Inductive ConversationState := IDLE | LISTENING | PROCESSING | SPEAKING | WAITING.
#[export] Instance ConversationState_eq_dec : EqDecision ConversationState.
Proof. solve_decision. Defined.

(** [ConversationState.value]. *)
Definition conversation_value (s : ConversationState) : pystr :=
  match s with
  | IDLE => u "idle" | LISTENING => u "listening" | PROCESSING => u "processing"
  | SPEAKING => u "speaking" | WAITING => u "waiting"
  end.

(** A turn of the history. *)
Record turn := Turn { role : pystr; text : pystr }.

Record conversation := Conversation {
  conv_state : ConversationState;
  turn_index : Z;
  history : list turn;
  max_history : Z;
  last_user : pystr;
  last_agent : pystr;
  last_activity : f64;
  pending_question : bool
}.

(** [ConversationManager(max_history)]. *)
Definition new_conversation (max : Z) : conversation :=
  Conversation IDLE 0 [] max [] [] f0 false.

(** [l[-n:]]: from the end for a positive [n], from the start otherwise. *)
Definition last_items {A} (n : Z) (l : list A) : list A :=
  if 0 <? n then drop (length l - Z.to_nat n) l else drop (Z.to_nat (- n)) l.

Definition is_in_conversation (c : conversation) : bool :=
  bool_decide (conv_state c ∈ [LISTENING; PROCESSING; SPEAKING; WAITING]).

(** [on_user_speech]. *)
Definition on_user_speech (now : f64) (transcript : pystr) (c : conversation) : conversation :=
  Conversation
    (match conv_state c with
     | IDLE | LISTENING => PROCESSING
     | SPEAKING => PROCESSING
     | WAITING => PROCESSING
     | PROCESSING => PROCESSING
     end)
    (turn_index c) (history c) (max_history c) transcript (last_agent c) now (pending_question c).

(** [on_response_start]. *)
Definition on_response_start (c : conversation) : conversation :=
  Conversation PROCESSING (turn_index c) (history c) (max_history c) (last_user c) (last_agent c)
    (last_activity c) (pending_question c).

(** [_append_turn]. *)
Definition append_turn (r t : pystr) (max : Z) (h : list turn) : list turn :=
  let h := h ++ [Turn r t] in
  if max <? Z.of_nat (length h) then last_items max h else h.

(** [on_speak_begin]. *)
Definition on_speak_begin (now : f64) (t : pystr) (c : conversation) : conversation :=
  let max := max_history c in
  let '(h, heard) := match last_user c with
                     | [] => (history c, last_user c)
                     | said => (append_turn (u "user") said max (history c), [])
                     end in
  Conversation SPEAKING (turn_index c + 1) (append_turn (u "assistant") t max h) max heard t now
    (pending_question c).

(** [on_speak_end]. *)
Definition on_speak_end (expects_answer : bool) (c : conversation) : conversation :=
  Conversation (if expects_answer then WAITING else IDLE) (turn_index c) (history c)
    (max_history c) (last_user c) (last_agent c) (last_activity c) expects_answer.

(** [on_barge_in]. *)
Definition on_barge_in (now : f64) (c : conversation) : conversation :=
  Conversation LISTENING (turn_index c) (history c) (max_history c) (last_user c) (last_agent c)
    now (pending_question c).

(** [get_history] and [get_history_text]. *)
Definition get_history (n : Z) (c : conversation) : list turn := last_items n (history c).

Definition turn_line (t : turn) : pystr := take 5 (upper (role t)) ++ u ": " ++ take 200 (text t).

Definition get_history_text (n : Z) (c : conversation) : pystr :=
  join [10%N] (turn_line <$> last_items n (history c)).

(** [clear_history]. *)
Definition clear_history (c : conversation) : conversation :=
  Conversation IDLE 0 [] (max_history c) (last_user c) (last_agent c) (last_activity c)
    (pending_question c).

(** [stats]. *)
Definition conversation_stats (now : f64) (c : conversation) : pydict :=
  [(u "state", VStr (conversation_value (conv_state c))); (u "turn_index", VInt (turn_index c));
   (u "history_len", VInt (Z.of_nat (length (history c))));
   (u "last_user_transcript", VStr (last_user c)); (u "last_agent_response", VStr (last_agent c));
   (u "pending_question", VBool (pending_question c));
   (u "last_activity_age_s", if f_truthy (last_activity c)
                             then VFloat (f_round 1 (fsub now (last_activity c))) else VNone)].

(** ** Runs *)

Inductive conv_event :=
  | User_speech (now : f64) (transcript : pystr)
  | Response_start
  | Speak_begin (now : f64) (t : pystr)
  | Speak_end (expects_answer : bool)
  | Barge_in (now : f64)
  | Clear.

Definition conv_exec (e : conv_event) : conversation → conversation :=
  match e with
  | User_speech now t => on_user_speech now t
  | Response_start => on_response_start
  | Speak_begin now t => on_speak_begin now t
  | Speak_end q => on_speak_end q
  | Barge_in now => on_barge_in now
  | Clear => clear_history
  end.

Definition conv_run (es : list conv_event) (c : conversation) : conversation :=
  foldl (λ c e, conv_exec e c) c es.

(** ** The transcript *)

(** What a dialogue is made of, without a bound: the words heard and not yet
    answered, and the turns, of which a new utterance of the agent adds the
    heard words, if any, and itself. *)
Record transcript := Transcript { heard : pystr; turns : list turn }.

Definition tell (e : conv_event) (s : transcript) : transcript :=
  match e with
  | User_speech _ t => Transcript t (turns s)
  | Speak_begin _ t =>
      Transcript [] (turns s ++ match heard s with [] => [] | w => [Turn (u "user") w] end
                     ++ [Turn (u "assistant") t])
  | Clear => Transcript (heard s) []
  | _ => s
  end.

Definition told (es : list conv_event) : transcript := foldl (λ s e, tell e s) (Transcript [] []) es.

(** ** Lemmas *)

Lemma last_items_length {A} n (l : list A) : 0 < n → Z.of_nat (length (last_items n l)) <= n.
Proof. intros Hn. unfold last_items. rewrite (proj2 (Z.ltb_lt _ _) Hn), length_drop. lia. Qed.

Lemma last_items_all {A} n (l : list A) : Z.of_nat (length l) <= n → last_items n l = l.
Proof.
  intros Hn. unfold last_items. destruct (Z.ltb_spec 0 n).
  - by assert (length l - Z.to_nat n = 0)%nat as -> by lia.
  - destruct l; [by rewrite drop_nil|]. cbn in Hn. lia.
Qed.

(** Keeping the last turns of a list that was itself cut to its last turns. *)
Lemma last_items_app {A} n (l k : list A) :
  0 < n → last_items n (last_items n l ++ k) = last_items n (l ++ k).
Proof.
  intros Hn. unfold last_items. rewrite (proj2 (Z.ltb_lt _ _) Hn).
  rewrite !length_app, length_drop.
  rewrite <- (drop_app_le l k) by lia. rewrite drop_drop. f_equal. lia.
Qed.

Lemma append_turn_last r t max h : 0 < max → append_turn r t max h = last_items max (h ++ [Turn r t]).
Proof.
  intros Hm. unfold append_turn. destruct (Z.ltb_spec max (Z.of_nat (length (h ++ [Turn r t])))); [done|].
  by rewrite last_items_all.
Qed.

(** The manager's history is the end of the transcript. *)
Definition keeps_end (c : conversation) (s : transcript) : Prop :=
  history c = last_items (max_history c) (turns s) ∧ last_user c = heard s.

Lemma keeps_end_exec e c s :
  0 < max_history c → keeps_end c s → keeps_end (conv_exec e c) (tell e s) ∧
  max_history (conv_exec e c) = max_history c.
Proof.
  intros Hm [Hh Hu]. destruct e; cbn [conv_exec tell]; unfold keeps_end; try done.
  - unfold on_speak_begin. rewrite Hu. destruct (heard s) as [|w ws];
      cbn [history max_history last_user heard turns app].
    all: split; [split; [|done]|done].
    + by rewrite append_turn_last, Hh, last_items_app by done.
    + rewrite !append_turn_last by done. rewrite Hh, last_items_app, <- app_assoc by done. by rewrite last_items_app.
  - cbn. split; [split; [|done]|done]. unfold last_items. by rewrite !drop_nil; case_match.
Qed.

(** ** Theorems *)

(** The bounded history is the end of the whole dialogue: after any events,
    a manager with a positive bound holds exactly the last turns of the
    unbounded transcript, never more than the bound, and the words not yet
    answered. *)
Theorem history_is_transcript_end max es :
  0 < max →
  let c := conv_run es (new_conversation max) in
  history c = last_items max (turns (told es)) ∧ Z.of_nat (length (history c)) <= max ∧
  last_user c = heard (told es).
Proof.
  intros Hm. cbn zeta.
  assert (∀ es c s, max_history c = max → keeps_end c s →
    keeps_end (conv_run es c) (foldl (λ s e, tell e s) s es) ∧
    max_history (conv_run es c) = max) as Hgen.
  { clear es. induction es as [|e es IH]; intros c s E Hk; [done|].
    destruct (keeps_end_exec e c s) as [Hk' E']; [by rewrite E|done|].
    cbn [conv_run foldl]. apply IH; [by rewrite E'|done]. }
  destruct (Hgen es (new_conversation max) (Transcript [] [])) as [[Hh Hu] E]; [done| |].
  { split; [|done]. unfold last_items. cbn. by rewrite !drop_nil; case_match. }
  rewrite Hh, E. split_and!; [done|by apply last_items_length|done].
Qed.

(** What the state says of the dialogue after each event: speech is always
    processed, the agent is speaking exactly from the beginning of an
    utterance, waits exactly after a question, and listens exactly after it
    was interrupted; otherwise it rests. *)
Theorem state_follows_event e c :
  conv_state (conv_exec e c) =
    match e with
    | User_speech _ _ | Response_start => PROCESSING
    | Speak_begin _ _ => SPEAKING
    | Speak_end q => if q then WAITING else IDLE
    | Barge_in _ => LISTENING
    | Clear => IDLE
    end ∧
  (is_in_conversation (conv_exec e c) = false ↔ e = Speak_end false ∨ e = Clear).
Proof.
  unfold is_in_conversation. destruct e; cbn [conv_exec].
  all: try (unfold on_speak_begin; destruct (last_user c)).
  all: try match goal with q : bool |- _ => destruct q end.
  all: cbn; split; [try done; by destruct (conv_state c)|].
  all: try (destruct (conv_state c); cbn).
  all: rewrite bool_decide_eq_false; rewrite ?elem_of_cons, ?elem_of_nil; naive_solver.
Qed.

(** Where the bound does not bind: a history of length zero keeps every
    turn, and a question stays pending when its answer is heard, until the
    agent has spoken again. *)
Theorem history_zero_unbounded es now t :
  let c := conv_run es (new_conversation 0) in
  history (on_speak_begin now t c)
  = history c ++ match last_user c with [] => [] | w => [Turn (u "user") w] end
    ++ [Turn (u "assistant") t] ∧
  pending_question (on_user_speech now t c) = pending_question c.
Proof.
  cbn zeta.
  assert (∀ es c, max_history c = 0 → max_history (conv_run es c) = 0) as Hm.
  { clear. induction es as [|e es IH]; intros c E; [done|]. cbn [conv_run foldl]. apply IH.
    destruct e; cbn; try done. unfold on_speak_begin. by destruct (last_user c). }
  specialize (Hm es (new_conversation 0) eq_refl).
  set (c := conv_run es (new_conversation 0)) in *.
  assert (∀ r x h, append_turn r x 0 h = h ++ [Turn r x]) as Ha.
  { intros r x h. unfold append_turn. case_match; [|done]. unfold last_items. cbn. done. }
  split; [|done]. unfold on_speak_begin. rewrite Hm.
  destruct (last_user c) as [|w ws]; cbn; rewrite !Ha; [done|]. by rewrite <- app_assoc.
Qed.

(** ** Witnesses *)

Lemma history_is_transcript_end_witness :
  let es := [User_speech f1 (u "hello"); Speak_begin f1 (u "hi"); Speak_end false;
             User_speech f1 (u "time?"); Speak_begin f1 (u "noon")] in
  history (conv_run es (new_conversation 3))
  = [Turn (u "assistant") (u "hi"); Turn (u "user") (u "time?"); Turn (u "assistant") (u "noon")].
Proof.
  intros es. destruct (history_is_transcript_end 3 es eq_refl) as (H & _). rewrite H.
  reflexivity.
Defined.

(** Two sentences before an answer: only the second is remembered. *)
Example first_words_lost :
  history (conv_run [User_speech f1 (u "wait"); User_speech f1 (u "stop"); Speak_begin f1 (u "ok")]
             (new_conversation 12))
  = [Turn (u "user") (u "stop"); Turn (u "assistant") (u "ok")].
Proof. reflexivity. Qed.
