(* ===== verification/AuditTrail.v ===== *)
(** * The audit log ([src/audit.py])

    The hash-chained log file, its verifier, and the bounded queue of the
    threaded sinks.  SHA-256, HMAC and the JSON text of a value are
    parameters; what the code adds to them, sorting the keys, splitting off
    the hash and HMAC fields and chaining, is written out.  The log file is
    the sequence of its lines, each decoded as [json.loads] decodes it. *)

From stdpp Require Import countable.
From S2P Require Import Prelude PyFloat PyStr PyVal Security.

Local Open Scope Z_scope.

(** ** Canonical values *)

Definition key_leb (a b : pystr * pyval) : bool := str_leb a.1 b.1.

(** The value as [json.dumps(sort_keys=True)] writes it: the keys of every
    object in order. *)
Fixpoint sort_keys (v : pyval) : pyval :=
  match v with
  | VDict d => VDict (sort_by key_leb (map (λ kv, (kv.1, sort_keys kv.2)) d))
  | VList l => VList (map sort_keys l)
  | _ => v
  end.

Definition GENESIS_HASH : pystr := replicate 64 48%N.

Inductive line : Type :=
  | L_blank
  | L_malformed
  | L_json (v : pyval).

(** The log file: absent, unreadable, or its lines. *)
Inductive log_file : Type :=
  | F_missing
  | F_unreadable (msg : pystr)
  | F_lines (l : list line).

(** [{k: v for k, v in entry.items() if k not in keys}]. *)
Definition without (keys : list pystr) (d : list (pystr * pyval)) : list (pystr * pyval) :=
  List.filter (λ kv, negb (bool_decide (kv.1 ∈ keys))) d.

(** [v == s] for a string [s]. *)
Definition is_str (v : pyval) (s : pystr) : bool :=
  match v with VStr t => bool_decide (t = s) | _ => false end.

(** ** Sinks *)

Record ThreadedSink := Sink {
  queue_cap : Z;
  batch_max : Z;
  max_retries : Z;
  queue : list pyval;
  submitted : Z;
  delivered : Z;
  failed : Z;
  dropped : Z
}.

Definition new_sink (cap batch retries : Z) : ThreadedSink :=
  Sink (Z.max 1 cap) (Z.max 1 batch) (Z.max 0 retries) [] 0 0 0 0.

Definition with_queue (q : list pyval) (s : ThreadedSink) : ThreadedSink :=
  Sink (queue_cap s) (batch_max s) (max_retries s) q
    (submitted s) (delivered s) (failed s) (dropped s).

Definition with_counts (sub del fl dr : Z) (s : ThreadedSink) : ThreadedSink :=
  Sink (queue_cap s) (batch_max s) (max_retries s) (queue s) sub del fl dr.

(** [submit]: on a full queue the oldest entry makes room. *)
Definition submit (entry : pyval) (s : ThreadedSink) : ThreadedSink * bool :=
  let s := with_counts (submitted s + 1) (delivered s) (failed s) (dropped s) s in
  if Z.of_nat (length (queue s)) <? queue_cap s then
    (with_queue (queue s ++ [entry]) s, true)
  else
    let s := with_counts (submitted s) (delivered s) (failed s) (dropped s + 1) s in
    match queue s with
    | [] => (s, false)
    | _ :: q => if Z.of_nat (length q) <? queue_cap s
                then (with_queue (q ++ [entry]) s, true)
                else (with_queue q s, false)
    end.

(** Delivery attempts: [outcome k] is attempt [k]'s answer (an exception is
    [false]); stops at the first success. *)
Fixpoint deliver_from (outcome : nat → bool) (k left : nat) : bool :=
  match left with
  | O => false
  | S left' => outcome k || deliver_from outcome (S k) left'
  end.

(** [_flush_once]; returns the batch handed to [_deliver]. *)
Definition flush_once (outcome : nat → bool) (s : ThreadedSink) :
    ThreadedSink * list pyval :=
  let n := Z.to_nat (batch_max s) in
  let batch := take n (queue s) in
  let s' := with_queue (drop n (queue s)) s in
  match batch with
  | [] => (s', [])
  | _ =>
      let k := Z.of_nat (length batch) in
      if deliver_from outcome 0 (Z.to_nat (max_retries s + 1)) then
        (with_counts (submitted s) (delivered s + k) (failed s) (dropped s) s', batch)
      else (with_counts (submitted s) (delivered s) (failed s + k) (dropped s) s', batch)
  end.

(** [stats]. *)
Definition sink_stats (s : ThreadedSink) : list (pystr * Z) :=
  [(u "submitted", submitted s); (u "delivered", delivered s); (u "failed", failed s);
   (u "dropped", dropped s); (u "pending", Z.of_nat (length (queue s)))].

(** ** The chain *)

Record AuditChain := Chain {
  chain_file : log_file;
  hmac_key : option pystr;
  chain_seq : Z;
  chain_tail : pystr;
  sinks : list ThreadedSink
}.

(** The state of [verify_audit_file]'s loop. *)
Record verify_state := VState {
  v_errors : list pystr;
  v_prev : pystr;
  v_seq : Z;
  v_checked : Z;
  v_line : Z
}.

Section AuditLog.
(** SHA-256 (hex), HMAC-SHA256 (hex) and the compact JSON text of a value
whose keys are in order. *)
Context (sha256 : pystr → pystr) (hmac_sha256 : pystr → pystr → pystr).
Context (dumps : pyval → pystr) `{PyRepr}.

(** [canonical_json]. *)
Definition canonical_json (v : pyval) : pystr := dumps (sort_keys v).

(** [canonical_hash]. *)
Definition canonical_hash (v : pyval) : pystr := sha256 (canonical_json v).

(** [_entry_hmac]. *)
Definition entry_hmac (key : pystr) (body : list (pystr * pyval)) : pystr :=
hmac_sha256 key (canonical_json (VDict body)).

(** [_load_existing], line by line: a value that is not an object or whose
sequence number is no integer is skipped; a sequence number of a type that
[int] refuses raises. *)
Fixpoint load_lines (ls : list line) (seq : Z) (tl : pystr) : res (Z * pystr) :=
match ls with
| [] => Ok (seq, tl)
| L_json (VDict d) :: rest =>
  match py_int (dict_get (u "seq") (VInt (seq + 1)) d) with
  | Ok n => load_lines rest n (py_str (dict_get (u "hash") (VStr tl) d))
  | Raise (ValueError _) => load_lines rest seq tl
  | Raise e => Raise e
  end
| _ :: rest => load_lines rest seq tl
end.

(** [AuditChain.__init__]. *)
Definition new_chain (f : log_file) (key : option pystr) (sk : list ThreadedSink) :
res AuditChain :=
let key := non_empty key in
match f with
| F_lines ls =>
  match load_lines ls 0 GENESIS_HASH with
  | Ok (n, t) => Ok (Chain f key n t sk)
  | Raise e => Raise e
  end
| _ => Ok (Chain f key 0 GENESIS_HASH sk)
end.

(** [_make_entry] at the time [now]. *)
Definition entry_body (event_type : pystr) (payload : list (pystr * pyval)) (now : pystr)
(seq : Z) (tl : pystr) : list (pystr * pyval) :=
[(u "seq", VInt (seq + 1)); (u "timestamp", VStr now);
 (u "type", VStr (sanitize_text event_type 64)); (u "payload", VDict payload);
 (u "prev_hash", VStr tl)].

Definition entry_hash (prev : pystr) (body : list (pystr * pyval)) : pystr :=
sha256 (prev ++ canonical_json (VDict body)).

Definition make_entry (key : option pystr) (event_type : pystr)
(payload : list (pystr * pyval)) (now : pystr) (seq : Z) (tl : pystr) :
list (pystr * pyval) :=
let body := entry_body event_type payload now seq tl in
let entry := body ++ [(u "hash", VStr (entry_hash tl body))] in
match key with
| Some k => entry ++ [(u "hmac", VStr (entry_hmac k entry))]
| None => entry
end.

(** [append] when the file can be written: the line is stored with its keys
in order, the tail advances and every sink is offered the entry. *)
Definition append (event_type : pystr) (payload : list (pystr * pyval)) (now : pystr)
(c : AuditChain) : AuditChain * list (pystr * pyval) :=
let tl := chain_tail c in
let entry := make_entry (hmac_key c) event_type payload now (chain_seq c) tl in
let new := L_json (sort_keys (VDict entry)) in
(Chain (match chain_file c with
        | F_lines l => F_lines (l ++ [new])
        | F_missing => F_lines [new]
        | F_unreadable msg => F_unreadable msg
        end) (hmac_key c)
   (chain_seq c + 1) (entry_hash tl (entry_body event_type payload now (chain_seq c) tl))
   ((λ s, (submit (VDict entry) s).1) <$> sinks c),
 entry).

(** The checks of one decoded entry: the errors it adds. *)
Definition entry_errors (key : option pystr) (d : list (pystr * pyval)) (st : verify_state) :
res (list pystr) :=
let body := without [u "hash"; u "hmac"] d in
let at_line msg := u "line " ++ str_of_Z (v_line st) ++ u ": " ++ msg in
let prev := dict_get (u "prev_hash") VNone body in
match py_int (dict_get (u "seq") (VInt (-1)) body) with
| Raise e => Raise e
| Ok n => Ok (
  (if is_str prev (v_prev st) then [] else [at_line (u "broken chain linkage")])
  ++ (if n =? v_seq st then []
      else [at_line (u "sequence gap (expected " ++ str_of_Z (v_seq st) ++ u ")")])
  ++ (if bool_decide (py_str (dict_get (u "hash") (VStr []) d)
                      = entry_hash (py_str prev) body) then []
      else [at_line (u "entry hash mismatch (tampered?)")])
  ++ match non_empty key with
     | None => []
     | Some k =>
         let stored := dict_get (u "hmac") (VStr []) d in
         if negb (truthy stored) then
           [at_line (u "missing HMAC (unsigned entry in a key-protected chain)")]
         else if is_str stored (entry_hmac k (without [u "hmac"] d)) then []
         else [at_line (u "HMAC mismatch (unauthorized modification?)")]
     end)
end.

(** One line of [verify_audit_file]; a decoded line that is not an object
raises on [entry.get]. *)
Definition verify_line (key : option pystr) (l : line) (st : verify_state) :
res verify_state :=
match l with
| L_blank => Ok (VState (v_errors st) (v_prev st) (v_seq st) (v_checked st) (v_line st + 1))
| L_malformed =>
  Ok (VState (v_errors st ++ [u "line " ++ str_of_Z (v_line st) ++ u ": malformed JSON"])
        (v_prev st) (v_seq st) (v_checked st) (v_line st + 1))
| L_json (VDict d) =>
  match entry_errors key d st with
  | Ok errs => Ok (VState (v_errors st ++ errs)
                     (py_str (dict_get (u "hash") (VStr []) d)) (v_seq st + 1)
                     (v_checked st + 1) (v_line st + 1))
  | Raise e => Raise e
  end
| L_json _ => Raise (AttributeError (u "object has no attribute 'get'"))
end.

Fixpoint verify_lines (key : option pystr) (ls : list line) (st : verify_state) :
res verify_state :=
match ls with
| [] => Ok st
| l :: rest => match verify_line key l st with
             | Ok st' => verify_lines key rest st'
             | Raise e => Raise e
             end
end.

Definition verify_start : verify_state := VState [] GENESIS_HASH 1 0 1.

(** [verify_audit_file]. *)
Definition verify_audit_file (key : option pystr) (f : log_file) :
res (bool * list pystr * Z) :=
match f with
| F_missing => Ok (false, [u "audit file not found"], 0)
| F_unreadable msg => Ok (false, [u "cannot read audit file: " ++ msg], 0)
| F_lines ls =>
  match verify_lines key ls verify_start with
  | Ok st => Ok (bool_decide (v_errors st = []), v_errors st, v_checked st)
  | Raise e => Raise e
  end
end.
End AuditLog.

(** ** Facts about canonical values *)

Definition sort_field (kv : pystr * pyval) : pystr * pyval := (kv.1, sort_keys kv.2).

Definition sorted_fields (d : list (pystr * pyval)) : list (pystr * pyval) :=
  sort_by key_leb (map sort_field d).

Lemma key_leb_total x y : key_leb x y = true ∨ key_leb y x = true.
Proof. apply str_leb_total. Qed.
Lemma key_leb_trans x y z : key_leb x y = true → key_leb y z = true → key_leb x z = true.
Proof. apply str_leb_trans. Qed.


Lemma sort_keys_idem v : sort_keys (sort_keys v) = sort_keys v.
Proof.
  induction v as [| | | | |l IH|d IH] using pyval_nested_ind; try done; simpl; f_equal.
  - rewrite map_map. apply map_ext_Forall. exact IH.
  - fold sort_field. rewrite (map_sort_by key_leb sort_field) by done.
    rewrite (sort_by_idem key_leb key_leb_total key_leb_trans). f_equal. rewrite map_map. apply map_ext_Forall.
    eapply Forall_impl; [exact IH|]. intros [k v] Hv. unfold sort_field. simpl in *.
    by rewrite Hv.
Qed.

Lemma map_sort_field_idem d : map sort_field (map sort_field d) = map sort_field d.
Proof.
  rewrite map_map. apply map_ext. intros [k v]. unfold sort_field. simpl.
  by rewrite sort_keys_idem.
Qed.

Lemma without_map ks d : without ks (map sort_field d) = map sort_field (without ks d).
Proof.
  unfold without. induction d as [|[k v] d IH]; simpl; [done|].
  case_bool_decide; simpl; by rewrite IH.
Qed.

(** Dropping fields of the stored entry and of the entry as made gives the
    same canonical object. *)
Lemma sort_keys_without ks d :
  sort_keys (VDict (without ks (sorted_fields d))) = sort_keys (VDict (without ks d)).
Proof.
  simpl. f_equal. fold sort_field. unfold sorted_fields, without.
  rewrite (filter_sort_by key_leb key_leb_total key_leb_trans). fold (without ks (map sort_field d)).
  fold (without ks d). rewrite without_map.
  rewrite (map_sort_by key_leb sort_field) by done.
  rewrite (sort_by_idem key_leb key_leb_total key_leb_trans). by rewrite map_sort_field_idem.
Qed.

Lemma dget_insert_by k kv d :
  dget k (insert_by key_leb kv d) = if decide (k = kv.1) then Some kv.2 else dget k d.
Proof.
  induction d as [|[k0 v0] d IH]; [by destruct kv|]. simpl.
  destruct (key_leb kv (k0, v0)) eqn:E; simpl; [by destruct kv|].
  rewrite IH. repeat case_decide; simplify_eq; try done.
  unfold key_leb in E. simpl in E. by rewrite str_leb_refl in E.
Qed.

Lemma dget_sort_by k d : dget k (sort_by key_leb d) = dget k d.
Proof.
  induction d as [|[k0 v0] d IH]; simpl; [done|]. rewrite dget_insert_by, IH. done.
Qed.

Lemma dget_sorted k d : dget k (sorted_fields d) = sort_keys <$> dget k d.
Proof.
  unfold sorted_fields. rewrite dget_sort_by.
  induction d as [|[k0 v0] d IH]; simpl; [done|]. by case_decide.
Qed.

Lemma dget_without k ks d : k ∉ ks → dget k (without ks d) = dget k d.
Proof.
  intros Hk. unfold without. induction d as [|[k0 v0] d IH]; simpl; [done|].
  case_bool_decide as E; simpl; rewrite ?IH; by case_decide; simplify_eq.
Qed.

Lemma py_int_sort v : py_int (sort_keys v) = py_int v.
Proof. by destruct v. Qed.

(** ** Facts about sinks *)

(** The sink's books: every submitted entry was delivered, failed, dropped or
    is still queued, and the queue is within its cap. *)
Definition sink_balanced (s : ThreadedSink) : Prop :=
  submitted s = delivered s + failed s + dropped s + Z.of_nat (length (queue s)) ∧
  Z.of_nat (length (queue s)) <= queue_cap s ∧ 1 <= queue_cap s ∧ 1 <= batch_max s.

Lemma submit_balanced e s : sink_balanced s → sink_balanced (submit e s).1.
Proof.
  intros (Hs & Hq & Hc & Hb). unfold submit, sink_balanced. cbn [queue queue_cap with_counts].
  destruct (Z.ltb_spec (Z.of_nat (length (queue s))) (queue_cap s)).
  - simpl. rewrite length_app. simpl. lia.
  - destruct (queue s) as [|x q] eqn:Eq; simpl in *; [lia|].
    destruct (Z.ltb_spec (Z.of_nat (length q)) (queue_cap s)); simpl;
      rewrite ?length_app; simpl; lia.
Qed.

Lemma flush_balanced outcome s : sink_balanced s → sink_balanced (flush_once outcome s).1.
Proof.
  intros (Hs & Hq & Hc & Hb). unfold flush_once, sink_balanced.
  assert (length (queue s) = length (take (Z.to_nat (batch_max s)) (queue s))
    + length (drop (Z.to_nat (batch_max s)) (queue s)))%nat as El
    by (rewrite <- length_app, take_drop; done).
  destruct (take _ (queue s)) as [|x q]; simpl in *; [lia|].
  destruct (deliver_from _ _ _); simpl; lia.
Qed.

Inductive sink_step : ThreadedSink → option pyval → ThreadedSink → Prop :=
  | sink_submit s e : sink_step s (Some e) (submit e s).1
  | sink_flush s outcome : sink_step s None (flush_once outcome s).1.

(** A sink loses nothing silently: in every history of submissions and
    flushes the counters add up to the submissions, the queue never exceeds
    its cap, a submission is always accepted as the newest entry, and a flush
    takes the oldest entries, at most a batch of them, in order. *)
Theorem sink_accounts_for_everything cap batch retries s :
  reachable sink_step (λ s, s = new_sink cap batch retries) s →
  sink_balanced s ∧
  (∀ e, (submit e s).2 = true ∧ last (queue (submit e s).1) = Some e) ∧
  (∀ outcome, let r := flush_once outcome s in
     queue s = r.2 ++ queue r.1 ∧ Z.of_nat (length r.2) <= batch_max s).
Proof.
  intros Hr. assert (sink_balanced s) as Hb.
  { revert Hr. apply reach_ind_inv.
    - intros ? ->. unfold sink_balanced, new_sink. simpl. lia.
    - intros a l b Ha Hst. destruct Hst; [by apply submit_balanced|by apply flush_balanced]. }
  split; [done|]. destruct Hb as (_ & Hq & Hc & Hb). split.
  - intros e. unfold submit. cbn [queue queue_cap with_counts].
    destruct (Z.ltb_spec (Z.of_nat (length (queue s))) (queue_cap s)).
    + split; [done|]. simpl. apply last_snoc.
    + destruct (queue s) as [|x q]; simpl in *; [lia|].
      destruct (Z.ltb_spec (Z.of_nat (length q)) (queue_cap s)); [|lia].
      split; [done|]. simpl. apply last_snoc.
  - intros outcome. unfold flush_once.
    pose proof (take_drop (Z.to_nat (batch_max s)) (queue s)) as E.
    assert (length (take (Z.to_nat (batch_max s)) (queue s)) ≤ Z.to_nat (batch_max s))%nat
      by (rewrite length_take; lia).
    destruct (take _ (queue s)) as [|x q]; [split; [by rewrite <- E at 1|simpl; lia]|].
    destruct (deliver_from _ _ _); simpl in *; (split; [done|lia]).
Qed.

Lemma sink_accounts_for_everything_witness :
  let s := (submit (VInt 3) (submit (VInt 2) (submit (VInt 1) (new_sink 2 5 1)).1).1).1 in
  sink_balanced s ∧ dropped s = 1 ∧ queue s = [VInt 2; VInt 3].
Proof.
  set (s1 := (submit (VInt 1) (new_sink 2 5 1)).1).
  set (s2 := (submit (VInt 2) s1).1). set (s3 := (submit (VInt 3) s2).1).
  split; [|split; reflexivity].
  apply (sink_accounts_for_everything 2 5 1 s3).
  exists (new_sink 2 5 1). eexists. split; [done|].
  eapply steps_cons; [apply (sink_submit _ (VInt 1))|].
  eapply steps_cons; [apply (sink_submit _ (VInt 2))|].
  eapply steps_cons; [apply (sink_submit _ (VInt 3))|]. apply steps_nil.
Defined.

(** ** Theorems: the chain *)

Section ChainTheorems.
Context (sha256 : pystr → pystr) (hmac_sha256 : pystr → pystr → pystr).
Context (dumps : pyval → pystr) `{PyRepr}.
(** A digest is never the empty text. *)
Context (Hmac : ∀ k m, hmac_sha256 k m ≠ []).

Abbreviation verify_ls := (verify_lines sha256 hmac_sha256 dumps).
Abbreviation append_ := (append sha256 hmac_sha256 dumps).

Lemma verify_lines_app key l1 l2 st :
verify_ls key (l1 ++ l2) st =
match verify_ls key l1 st with Ok st' => verify_ls key l2 st' | Raise e => Raise e end.
Proof.
revert st. induction l1 as [|l l1 IH]; intros st; simpl; [done|].
destruct (verify_line _ _ _ key l st); [apply IH|done].
Qed.

Lemma load_lines_app l1 l2 n t :
load_lines (l1 ++ l2) n t =
match load_lines l1 n t with Ok (n', t') => load_lines l2 n' t' | Raise e => Raise e end.
Proof.
revert n t. induction l1 as [|l l1 IH]; intros n t; simpl; [done|].
destruct l as [| |[| | | | | |d]]; try apply IH.
destruct (py_int _) as [|[]]; auto.
Qed.

(** The fields of an entry as made: the body is what is left without the hash
  and the HMAC, and each stored field is read back. *)
Lemma make_entry_body key ty payload now n t :
without [u "hash"; u "hmac"] (make_entry sha256 hmac_sha256 dumps key ty payload now n t)
= entry_body ty payload now n t.
Proof. by destruct key. Qed.

Lemma entry_hash_sorted p d :
entry_hash sha256 dumps p (without [u "hash"; u "hmac"] (sorted_fields d)) =
entry_hash sha256 dumps p (without [u "hash"; u "hmac"] d).
Proof. unfold entry_hash, canonical_json. by rewrite sort_keys_without. Qed.

Lemma entry_hmac_sorted k ks d :
entry_hmac hmac_sha256 dumps k (without ks (sorted_fields d)) =
entry_hmac hmac_sha256 dumps k (without ks d).
Proof. unfold entry_hmac, canonical_json. by rewrite sort_keys_without. Qed.

(** A line just appended verifies, with the chain's key or without one. *)
Lemma appended_line_ok key vk ty payload now n t st :
vk = None ∨ vk = key → (∀ k, key = Some k → k ≠ []) →
v_prev st = t → v_seq st = n + 1 →
entry_errors sha256 hmac_sha256 dumps vk
  (sorted_fields (make_entry sha256 hmac_sha256 dumps key ty payload now n t)) st = Ok [].
Proof.
intros Hvk Hk Hp Hs. unfold entry_errors. cbv zeta.
set (e := make_entry _ _ _ key ty payload now n t).
assert (dget (u "seq") e = Some (VInt (n + 1))) as Eseq by (by destruct key).
assert (dget (u "prev_hash") e = Some (VStr t)) as Eprev by (by destruct key).
assert (dget (u "hash") e = Some (VStr (entry_hash sha256 dumps t
          (entry_body ty payload now n t)))) as Ehash by (by destruct key).
unfold dict_get.
rewrite !dget_without, !dget_sorted, Eseq, Eprev, Ehash, entry_hash_sorted
  by (rewrite !elem_of_cons, elem_of_nil; naive_solver).
unfold e at 1 2. rewrite make_entry_body. fold e.
cbn [fmap option_fmap option_map from_option id sort_keys py_int is_str py_str].
rewrite Hp, Hs, Z.eqb_refl, !bool_decide_eq_true_2 by done. cbn [app].
f_equal. destruct (non_empty vk) as [k|] eqn:Ek; [|done].
assert (vk = Some k ∧ k ≠ []) as [-> Hk'].
{ destruct vk as [[|c vk]|]; simplify_eq/=; done. }
destruct Hvk as [|<-]; [done|].
assert (dget (u "hmac") e = Some (VStr (entry_hmac hmac_sha256 dumps k
  (without [u "hmac"] e)))) as Ehm by done.
rewrite Ehm. cbn [fmap option_fmap option_map from_option id sort_keys truthy].
rewrite bool_decide_eq_false_2 by apply Hmac. cbn [negb is_str].
rewrite entry_hmac_sorted. by rewrite bool_decide_eq_true_2.
Qed.

(** Appending events [(type, payload, time)] in turn. *)
Definition appends (evs : list (pystr * list (pystr * pyval) * pystr)) (c : AuditChain) :
  AuditChain :=
foldl (λ c e, (append_ e.1.1 e.1.2 e.2 c).1) c evs.

Definition file_lines (f : log_file) : list line :=
match f with F_lines l => l | _ => [] end.

(** What holds after appending to a fresh chain: the file verifies, and the
  chain's place is the one its file records. *)
Lemma appends_inv key vk sk evs :
vk = None ∨ vk = key → (∀ k, key = Some k → k ≠ []) →
let c := appends evs (Chain F_missing key 0 GENESIS_HASH sk) in
hmac_key c = key ∧ chain_seq c = Z.of_nat (length evs) ∧
(evs = [] ∨ chain_file c = F_lines (file_lines (chain_file c))) ∧
(∀ m, chain_file c ≠ F_unreadable m) ∧
(∃ n, verify_ls vk (file_lines (chain_file c)) verify_start =
  Ok (VState [] (chain_tail c) (chain_seq c + 1) (chain_seq c) n)) ∧
load_lines (file_lines (chain_file c)) 0 GENESIS_HASH = Ok (chain_seq c, chain_tail c).
Proof.
intros Hvk Hk. induction evs as [|[[ty pl] now] evs IH] using rev_ind.
- simpl. split_and!; auto. by exists 1.
- unfold appends in *. rewrite foldl_app. cbn [foldl fst snd].
  set (c := foldl _ _ evs) in *. clearbody c.
  destruct IH as (Hkey & Hseq & _ & Hun & (n & Hv) & Hl). unfold append. cbv zeta.
  cbn [chain_file hmac_key chain_seq chain_tail fst].
  assert (file_lines (match chain_file c with
    | F_missing => F_lines [L_json (sort_keys (VDict (make_entry sha256 hmac_sha256 dumps
        (hmac_key c) ty pl now (chain_seq c) (chain_tail c))))]
    | F_unreadable msg => F_unreadable msg
    | F_lines l => F_lines (l ++ [L_json (sort_keys (VDict (make_entry sha256 hmac_sha256
        dumps (hmac_key c) ty pl now (chain_seq c) (chain_tail c))))]) end)
    = file_lines (chain_file c) ++ [L_json (sort_keys (VDict (make_entry sha256 hmac_sha256
        dumps (hmac_key c) ty pl now (chain_seq c) (chain_tail c))))]) as ->.
  { destruct (chain_file c) eqn:E; [done| |done]. by destruct (Hun msg). }
  rewrite Hkey. set (e := make_entry _ _ _ key ty pl now _ _).
  assert (dget (u "seq") e = Some (VInt (chain_seq c + 1))) as Eseq by (by destruct key).
  assert (dget (u "hash") e = Some (VStr (entry_hash sha256 dumps (chain_tail c)
            (entry_body ty pl now (chain_seq c) (chain_tail c))))) as Ehash
    by (by destruct key).
  split_and!; [done|rewrite length_app; simpl; lia| | | |].
  + right. destruct (chain_file c) eqn:E; [done| |done]. by destruct (Hun msg).
  + destruct (chain_file c) eqn:E; [done| |done]. by destruct (Hun msg).
  + exists (n + 1). rewrite verify_lines_app, Hv. cbn [verify_lines].
    change (sort_keys (VDict e)) with (VDict (sorted_fields e)). cbn [verify_line].
    pose proof (appended_line_ok key vk ty pl now (chain_seq c) (chain_tail c)
      (VState [] (chain_tail c) (chain_seq c + 1) (chain_seq c) n)
      Hvk Hk eq_refl eq_refl) as Hok. fold e in Hok. rewrite Hok. clear Hok. cbn [v_errors v_seq v_checked v_line app].
    unfold dict_get. by rewrite dget_sorted, Ehash.
  + rewrite load_lines_app, Hl. change (sort_keys (VDict e)) with (VDict (sorted_fields e)).
    cbn [load_lines]. unfold dict_get. by rewrite !dget_sorted, Eseq, Ehash.
Qed.

(** C24. What the chain writes, its verifier accepts: after any events the log
  verifies without errors, with the chain's key or without one, and counts
  them all; and a chain opened on that log continues where it stopped. *)
Theorem audit_round_trip key vk sk evs :
vk = None ∨ vk = key → (∀ k, key = Some k → k ≠ []) → evs ≠ [] →
let c := appends evs (Chain F_missing key 0 GENESIS_HASH sk) in
verify_audit_file sha256 hmac_sha256 dumps vk (chain_file c)
  = Ok (true, [], Z.of_nat (length evs)) ∧
new_chain (chain_file c) key (sinks c) = Ok c.
Proof.
intros Hvk Hk Hne c. destruct (appends_inv key vk sk evs Hvk Hk)
  as (Hkey & Hseq & [?|Hf] & _ & (n & Hv) & Hl); [done|]. fold c in Hkey, Hseq, Hf, Hv, Hl.
rewrite Hf. unfold verify_audit_file, new_chain. rewrite Hv, Hl, Hseq. split; [done|].
rewrite <- Hseq, <- Hf. f_equal. destruct c as [f k s t sks]. simpl in *. subst k.
f_equal. destruct key as [k|]; [|done]. destruct k; [|done]. by destruct (Hk [] eq_refl).
Qed.
End ChainTheorems.

(** Stand-ins for SHA-256 and HMAC in the witnesses: an injective digest of 64
    characters. *)
Definition demo_sha (s : pystr) : pystr := Npos (encode s) :: replicate 63 48%N.
Definition demo_hmac (k m : pystr) : pystr := demo_sha (k ++ m).
Definition demo_dumps (v : pyval) : pystr := [Npos (encode v)].
#[local] Instance demo_repr : PyRepr := λ _, [].

Definition demo_events : list (pystr * list (pystr * pyval) * pystr) :=
  [(u "decision", [(u "task", VStr (u "look"))], u "t1");
   (u "governor_latch", [(u "state", VStr (u "halted"))], u "t2")].

Definition demo_chain : AuditChain :=
  appends demo_sha demo_hmac demo_dumps demo_events
    (Chain F_missing (Some (u "key")) 0 GENESIS_HASH []).

Lemma audit_round_trip_witness :
  verify_audit_file demo_sha demo_hmac demo_dumps (Some (u "key")) (chain_file demo_chain)
    = Ok (true, [], 2) ∧
  new_chain (chain_file demo_chain) (Some (u "key")) [] = Ok demo_chain.
Proof.
  apply (audit_round_trip demo_sha demo_hmac demo_dumps (λ k m, ltac:(done))
    (Some (u "key")) (Some (u "key")) [] demo_events);
    [by right|by intros k [= <-]|done].
Defined.

Section TamperTheorems.
Context (sha256 : pystr → pystr) (hmac_sha256 : pystr → pystr → pystr).
Context (dumps : pyval → pystr) `{PyRepr}.
(** A digest has 64 characters, and the JSON text determines the value. *)
Context (Hlen : ∀ m, length (sha256 m) = 64%nat).
Context (Hinj : Inj (=) (=) dumps).

Abbreviation verify_ls := (verify_lines sha256 hmac_sha256 dumps).
Abbreviation body := (without [u "hash"; u "hmac"]).

(** The objects of a log, and what binds one to its place in a verified
  chain. *)
Definition decoded (ls : list line) : list (list (pystr * pyval)) :=
ls ≫= λ l, match l with L_json (VDict d) => [d] | _ => [] end.

Definition hash_field (d : list (pystr * pyval)) : pystr :=
py_str (dict_get (u "hash") (VStr []) d).

Inductive chained : list (list (pystr * pyval)) → pystr → Z → Prop :=
| chained_nil : chained [] GENESIS_HASH 1
| chained_snoc ds p n d :
    chained ds p n → py_int (dict_get (u "seq") (VInt (-1)) (body d)) = Ok n →
    hash_field d = entry_hash sha256 dumps p (body d) →
    chained (ds ++ [d]) (hash_field d) (n + 1).

Lemma decoded_app l1 l2 : decoded (l1 ++ l2) = decoded l1 ++ decoded l2.
Proof. apply bind_app. Qed.

Lemma verified_chained key ls st :
verify_ls key ls verify_start = Ok st → v_errors st = [] →
chained (decoded ls) (v_prev st) (v_seq st).
Proof.
revert st. induction ls as [|l ls IH] using rev_ind; intros st.
{ intros [= <-] _. constructor. }
rewrite (verify_lines_app sha256 hmac_sha256 dumps), decoded_app.
destruct (verify_lines _ _ _ key ls verify_start) as [st0|] eqn:E0; [|done].
cbn [verify_lines]. destruct l as [| |[| | | | | |d]]; try done; cbn [verify_line].
- intros [= <-] He. cbn [v_errors v_prev v_seq] in *. rewrite app_nil_r.
  by apply (IH st0).
- intros [= <-] He. by apply app_eq_nil in He as [_ ?].
- destruct (entry_errors _ _ _ key d st0) as [errs|] eqn:Ee; [|done].
  intros [= <-] He. cbn [v_errors v_prev v_seq] in *. apply app_eq_nil in He as [He ->].
  unfold entry_errors in Ee. cbv zeta in Ee.
  destruct (py_int _) as [n|] eqn:En; [|done]. injection Ee as Ee.
  apply app_eq_nil in Ee as [E1 Ee]. apply app_eq_nil in Ee as [E2 Ee].
  apply app_eq_nil in Ee as [E3 _].
  destruct (is_str _ _) eqn:Es; [|done].
  destruct (Z.eqb_spec n (v_seq st0)); [|done]. subst n.
  case_bool_decide as Eh; [|done]. apply chained_snoc with (p := v_prev st0);
    [by apply IH|done|].
  unfold hash_field. rewrite Eh. f_equal.
  destruct (dict_get (u "prev_hash") VNone (body d)); simpl in *; try done.
  by case_bool_decide.
Qed.

Lemma chained_length ds p n :
chained ds p n → n = Z.of_nat (length ds) + 1 ∧ length p = 64%nat.
Proof.
induction 1 as [|ds p n d _ [-> Hp] _ Eh]; [split; done|].
rewrite length_app. simpl. split; [lia|]. rewrite Eh. apply Hlen.
Qed.

Lemma sorted_int d d' k n :
sorted_fields d = sorted_fields d' →
py_int (dict_get k (VInt (-1)) d) = Ok n → py_int (dict_get k (VInt (-1)) d') = Ok n.
Proof.
intros E. assert (sort_keys <$> dget k d = sort_keys <$> dget k d') as Ed
  by (by rewrite <- !dget_sorted, E).
unfold dict_get. destruct (dget k d) as [v|], (dget k d') as [v'|]; simplify_eq/=; [|done].
by rewrite <- (py_int_sort v), Ed, py_int_sort.
Qed.

(** The texts whose digests are the hashes of a verified log, in order: each
  entry's canonical body behind the hash before it. *)
Fixpoint hashed_texts (prev : pystr) (ds : list (list (pystr * pyval))) : list pystr :=
match ds with
| [] => []
| d :: rest => (prev ++ canonical_json dumps (VDict (body d))) :: hashed_texts (hash_field d) rest
end.

(** Two different texts with the same digest, one hashed for each log. *)
Definition collision (ds1 ds2 : list (list (pystr * pyval))) : Prop :=
∃ x y, x ∈ hashed_texts GENESIS_HASH ds1 ∧ y ∈ hashed_texts GENESIS_HASH ds2 ∧
  x ≠ y ∧ sha256 x = sha256 y.

(** What the chain binds of an entry: its fields but the hash and the HMAC, in
  the order of the keys, and the text of its hash. *)
Definition bound_fields (d : list (pystr * pyval)) : list (pystr * pyval) * pystr :=
(sorted_fields (body d), hash_field d).

Lemma hashed_texts_snoc q ds d :
hashed_texts q (ds ++ [d]) =
hashed_texts q ds ++ [default q (hash_field <$> last ds) ++ canonical_json dumps (VDict (body d))].
Proof.
revert q. induction ds as [|d0 ds IH]; intros q; [done|].
cbn [app hashed_texts]. rewrite IH. do 2 f_equal. destruct ds as [|d1 ds]; [done|].
change (last (d0 :: d1 :: ds)) with (last (d1 :: ds)).
destruct (last (d1 :: ds)) eqn:El; [done|]. by apply last_None in El.
Qed.

Lemma chained_last ds p n :
chained ds p n → p = default GENESIS_HASH (hash_field <$> last ds).
Proof. intros Hc. inversion Hc; [done|]. by rewrite last_snoc. Qed.

Lemma chained_text ds p n d :
chained ds p n →
hashed_texts GENESIS_HASH (ds ++ [d]) =
hashed_texts GENESIS_HASH ds ++ [p ++ canonical_json dumps (VDict (body d))].
Proof. intros Hc. by rewrite hashed_texts_snoc, <- (chained_last _ _ _ Hc). Qed.

Lemma collision_snoc ds1 p1 n1 d1 ds2 p2 n2 d2 :
chained ds1 p1 n1 → chained ds2 p2 n2 → collision ds1 ds2 →
collision (ds1 ++ [d1]) (ds2 ++ [d2]).
Proof.
intros H1 H2 (x & y & Hx & Hy & Hne & He). exists x, y.
rewrite (chained_text _ _ _ d1 H1), (chained_text _ _ _ d2 H2), !elem_of_app. auto.
Qed.

Lemma chained_unique ds1 ds2 h n1 n2 :
chained ds1 h n1 → chained ds2 h n2 → ds1 ≠ [] → ds2 ≠ [] →
collision ds1 ds2 ∨ (bound_fields <$> ds1) = (bound_fields <$> ds2).
Proof.
intros H1. revert ds2 n2.
induction H1 as [|ds1 p1 n1 d1 H1 IH Es1 Eh1]; intros ds2 n2 H2 Hne1 Hne2; [done|].
inversion H2 as [|ds2' p2 n2' d2 H2' Es2 Eh2 Ed Eh]; [by subst|]. subst ds2.
destruct (chained_length _ _ _ H1) as [-> Hp1], (chained_length _ _ _ H2') as [-> Hp2].
assert (entry_hash sha256 dumps p1 (body d1) = entry_hash sha256 dumps p2 (body d2))
  as E by congruence.
unfold entry_hash in E.
destruct (decide (p1 ++ canonical_json dumps (VDict (body d1))
                  = p2 ++ canonical_json dumps (VDict (body d2)))) as [Ec|Ec].
2:{ left. exists (p1 ++ canonical_json dumps (VDict (body d1))),
      (p2 ++ canonical_json dumps (VDict (body d2))).
    rewrite (chained_text _ _ _ d1 H1), (chained_text _ _ _ d2 H2'), !elem_of_app,
      !list_elem_of_singleton. auto. }
apply app_inj_1 in Ec as [-> Ec]; [|by rewrite Hp1, Hp2].
unfold canonical_json in Ec. apply Hinj in Ec. injection Ec as Ec.
change (sorted_fields (body d1) = sorted_fields (body d2)) in Ec.
pose proof (sorted_int _ _ _ _ Ec Es1) as Es. rewrite Es2 in Es. injection Es as Es.
rewrite !fmap_app. cbn [fmap list_fmap]. unfold bound_fields at 2 4. rewrite Ec, Eh.
destruct ds1 as [|d ds1], ds2' as [|d' ds2']; [by right|simpl in Es; lia|simpl in Es; lia|].
destruct (IH (d' :: ds2') _ H2') as [?|IH']; [done|done|left; by eapply collision_snoc|right].
by rewrite IH'.
Qed.

(** C10. Tampering is evident, up to the HMAC fields and a collision within the
  two logs. When two logs with at least one entry each verify without errors
  and end in the same hash, they hold the same number of entries in the same
  order, with the same fields but for the HMAC and the way the hash is
  written (whatever the order of the fields): or a text that was hashed for an
  entry of one log and a different one hashed for an entry of the other have
  the same SHA-256.  The HMAC, which an unkeyed verification does not read, is
  not covered; the JSON text of a value is assumed to determine the value, and
  a digest to have 64 characters. *)
Theorem audit_tamper_evident k1 k2 ls1 ls2 st1 st2 :
verify_ls k1 ls1 verify_start = Ok st1 → v_errors st1 = [] →
verify_ls k2 ls2 verify_start = Ok st2 → v_errors st2 = [] →
v_prev st1 = v_prev st2 → decoded ls1 ≠ [] → decoded ls2 ≠ [] →
(∃ x y, x ∈ hashed_texts GENESIS_HASH (decoded ls1) ∧
        y ∈ hashed_texts GENESIS_HASH (decoded ls2) ∧ x ≠ y ∧ sha256 x = sha256 y) ∨
(bound_fields <$> decoded ls1) = (bound_fields <$> decoded ls2).
Proof.
intros V1 E1 V2 E2 Ep N1 N2.
apply (chained_unique _ _ (v_prev st1) (v_seq st1) (v_seq st2)); [| |done|done].
- by eapply verified_chained.
- rewrite Ep. by eapply verified_chained.
Qed.
End TamperTheorems.

#[local] Instance demo_dumps_inj : Inj (=) (=) demo_dumps.
Proof. intros v w [= E]. by apply (inj encode). Defined.

Lemma demo_verifies (tl : list line) :
  (∀ l, l ∈ tl → l = L_blank) →
  ∃ n, verify_lines demo_sha demo_hmac demo_dumps None
         (file_lines (chain_file demo_chain) ++ tl) verify_start
       = Ok (VState [] (chain_tail demo_chain) (chain_seq demo_chain + 1)
               (chain_seq demo_chain) n).
Proof.
  destruct (appends_inv demo_sha demo_hmac demo_dumps (λ k m, ltac:(done))
    (Some (u "key")) None [] demo_events ltac:(by left) ltac:(by intros k [= <-]))
    as (_ & _ & _ & _ & (n & Hv) & _).
  fold demo_chain in Hv. rewrite (verify_lines_app demo_sha demo_hmac demo_dumps), Hv.
  clear Hv. revert n. induction tl as [|l tl IH]; intros n Hl; [by exists n|].
  rewrite (Hl l) by left. apply IH. intros. apply Hl. by right.
Qed.

Lemma audit_tamper_evident_witness :
  let ls := file_lines (chain_file demo_chain) in
  collision demo_sha demo_dumps (decoded (ls ++ [])) (decoded (ls ++ [L_blank])) ∨
  (bound_fields <$> decoded (ls ++ [])) = (bound_fields <$> decoded (ls ++ [L_blank])).
Proof.
  cbv zeta. destruct (demo_verifies [] ltac:(by intros l ?%elem_of_nil)) as [n1 V1].
  destruct (demo_verifies [L_blank]
    ltac:(by intros l ->%list_elem_of_singleton)) as [n2 V2].
  apply (audit_tamper_evident demo_sha demo_hmac demo_dumps (λ m, eq_refl) demo_dumps_inj
    None None _ _ _ _ V1 eq_refl V2 eq_refl eq_refl); discriminate.
Defined.
