(* ===== verification/Personality.v ===== *)
(** * The personality model ([src/personality/])

    The profile an operator configures ([loader.py]), the living model born
    from it, its growth and persistence ([model.py]) and the synthesis of
    growth from interaction statistics ([growth.py]).  Readings of
    [time.time()] are arguments. *)

From Stdlib Require Import Floats.SpecFloat.
From S2P Require Import Prelude PyFloat PyStr PyVal.

Local Open Scope Z_scope.

(** ** The configured profile *)

Record PersonalityProfile := Profile {
  pr_name : pyval;
  pr_traits : list (pystr * pyval);
  pr_speech : list (pystr * pyval);
  pr_boundaries : list (pystr * pyval);
  pr_proactivity : list (pystr * pyval)
}.

Definition PROACTIVITY_DEFAULTS : list (pystr * bool) :=
  [(u "greet_on_arrival", true); (u "ask_follow_up", true); (u "offer_help", false)].

Definition DEFAULT_GREETING : pystr :=
  u "Hello " ++ [8212%N] ++ u " I'm {name}. Good to see you.".
Definition DEFAULT_OFFER : pystr :=
  u "{name} here " ++ [8212%N] ++ u " anything you'd like a hand with?".

(** [normalise_proactivity]: only the known switches survive. *)
Definition normalise_proactivity (raw : pyval) : list (pystr * pyval) :=
  let settings := match raw with VDict d => d | _ => [] end in
  (λ kv, (kv.1, VBool (truthy (dict_get kv.1 (VBool kv.2) settings)))) <$> PROACTIVITY_DEFAULTS.

(** ** Traits *)

Definition GROWTH_RATE : f64 := f_dec 1 1.

Definition BASELINE_TRAITS : list (pystr * f64) :=
  [(u "warmth", f_dec 5 1); (u "humor", f_dec 4 1); (u "curiosity", f_dec 5 1);
   (u "verbosity", f_dec 5 1); (u "formality", f_dec 3 1); (u "proactivity", f_dec 3 1)].

Record TraitState := Trait {
  value : f64;
  confidence : f64;
  evidence_count : Z;
  last_gen : Z
}.

(** [TraitState(...)]: value and confidence are clamped to [0, 1]. *)
Definition new_trait (v c : f64) (ev lg : Z) : TraitState :=
  Trait (fclamp f0 f1 v) (fclamp f0 f1 c) ev lg.

Definition trait_to_dict (t : TraitState) : pyval :=
  VDict [(u "value", VFloat (value t)); (u "confidence", VFloat (confidence t));
         (u "evidence_count", VInt (evidence_count t)); (u "last_gen", VInt (last_gen t))].

(** ** The model *)

Record PersonalityModel := Model {
  name : pyval;
  generation : Z;
  policy : pyval;
  traits : list (pystr * TraitState);
  voice : list (pystr * pyval);
  history : list pyval;
  persona : option (list (pystr * pyval));
  created_at : pyval;
  updated_at : pyval
}.

(** An entry of the history. *)
Definition history_entry (gen : Z) (note : pystr) (deltas : list (pystr * f64)) (at' : f64) :
    pyval :=
  VDict [(u "gen", VInt gen); (u "note", VStr note);
         (u "deltas", VDict ((λ kv, (kv.1, VFloat kv.2)) <$> deltas)); (u "at", VFloat at')].

(** [apply_delta], first pass: for each known trait the new value and the
    rounded move. *)
Definition bounded_delta (d : f64) : f64 := fclamp (fneg GROWTH_RATE) GROWTH_RATE d.
Definition grown_value (v d : f64) : f64 := fclamp f0 f1 (fadd v (bounded_delta d)).

Definition pending_moves (deltas : list (pystr * f64)) (ts : list (pystr * TraitState)) :
    list (pystr * (f64 * f64)) :=
  omap (λ kd, match dget kd.1 ts with
              | None => None
              | Some st =>
                  let new := grown_value (value st) kd.2 in
                  Some (kd.1, (new, f_round 6 (fsub new (value st))))
              end) deltas.

(** Second pass: every observation counts. *)
Definition exercise (new : f64) (t : TraitState) : TraitState :=
  Trait new (fmin f1 (fadd (confidence t) (f_dec 1 1))) (evidence_count t + 1) (last_gen t).

Definition set_last_gen (g : Z) (t : TraitState) : TraitState :=
  Trait (value t) (confidence t) (evidence_count t) g.

(** Rewriting the state filed under a trait. *)
Definition update_trait (f : TraitState → TraitState) (k : pystr)
    (ts : list (pystr * TraitState)) : list (pystr * TraitState) :=
  match dget k ts with Some t => dset k (f t) ts | None => ts end.

Definition commit_moves (ms : list (pystr * (f64 * f64))) (ts : list (pystr * TraitState)) :
    list (pystr * TraitState) :=
  foldl (λ ts m, update_trait (exercise m.2.1) m.1 ts) ts ms.

Definition applied_moves (ms : list (pystr * (f64 * f64))) : list (pystr * f64) :=
  foldl (λ d m, if f_truthy m.2.2 then dset m.1 m.2.2 d else d) [] ms.

Definition stamp_generation (g : Z) (applied : list (pystr * f64))
    (ms : list (pystr * (f64 * f64))) (ts : list (pystr * TraitState)) :
    list (pystr * TraitState) :=
  foldl (λ ts m, if dhas m.1 applied then update_trait (set_last_gen g) m.1 ts else ts) ts ms.

Definition with_traits (ts : list (pystr * TraitState)) (m : PersonalityModel) :
    PersonalityModel :=
  Model (name m) (generation m) (policy m) ts (voice m) (history m) (persona m)
    (created_at m) (updated_at m).

(** [apply_delta]. *)
Definition apply_delta (deltas : list (pystr * f64)) (note : pystr) (now : f64)
    (m : PersonalityModel) : PersonalityModel * list (pystr * f64) :=
  let ms := pending_moves deltas (traits m) in
  let ts := commit_moves ms (traits m) in
  let applied := applied_moves ms in
  match applied with
  | [] => (with_traits ts m, [])
  | _ =>
      let g := generation m + 1 in
      (Model (name m) g (policy m) (stamp_generation g applied ms ts) (voice m)
         (history m ++ [history_entry g note applied now]) (persona m)
         (created_at m) (VFloat now), applied)
  end.

(** [diff]: per-trait moves, the drift and whether the policy changed. *)
Record model_diff := Diff {
  from_gen : Z;
  to_gen : Z;
  trait_deltas : list (pystr * f64);
  drift : f64;
  policy_violation : bool
}.

Definition diff (m other : PersonalityModel) : model_diff :=
  let ds := omap (λ kt, match dget kt.1 (traits other) with
                        | Some t => Some (kt.1, f_round 6 (fsub (value t) (value kt.2)))
                        | None => None
                        end) (traits m) in
  let drift := match ds with
               | [] => f0
               | _ => fsqrt (fdiv (foldl (λ acc kd, fadd acc (fmul kd.2 kd.2)) f0 ds)
                                (f_of_Z (Z.of_nat (length ds))))
               end in
  Diff (generation m) (generation other) ds (f_round 6 drift)
    (negb (py_eq (policy m) (policy other))).

(** ** Persistence *)

Definition or_none (d : list (pystr * pyval)) : option (list (pystr * pyval)) :=
  match d with [] => None | _ => Some d end.

Definition to_dict (m : PersonalityModel) : pyval :=
  VDict [(u "name", name m); (u "generation", VInt (generation m));
         (u "policy", policy m);
         (u "traits", VDict ((λ kt, (kt.1, trait_to_dict kt.2)) <$> traits m));
         (u "voice", VDict (voice m)); (u "history", VList (history m));
         (u "persona", match persona m with Some d => VDict d | None => VNone end);
         (u "created_at", created_at m); (u "updated_at", updated_at m)].

(** The clock's reading unless the payload has one. *)
Definition or_now (v : pyval) (now : f64) : pyval :=
  match v with VNone => VFloat now | _ => v end.

Section Coercions.
Context `{PyRepr} `{PyFloatOfStr} `{PyDictOf}.

(** [compare_models]. *)
Definition compare_models (a b : PersonalityModel) : res model_diff :=
if negb (py_eq (name a) (name b)) then
Raise (ValueError (u "cannot compare models of different agents ("
                   ++ py_repr (name a) ++ u " vs " ++ py_repr (name b) ++ u ")"))
else Ok (diff a b).

(** [_extract_policy]. *)
Definition extract_policy (p : PersonalityProfile) : res (list (pystr * pyval)) :=
let speech := pr_speech p in
never ← py_list_or_empty (dict_get (u "never_say") VNone speech);
Ok [(u "boundaries", VDict (pr_boundaries p));
  (u "never_say", VList never);
  (u "first_person", VBool (truthy (dict_get (u "first_person") (VBool true) speech)));
  (u "refuse_harmful",
   VBool (truthy (dict_get (u "refuse_harmful") (VBool true) (pr_boundaries p))));
  (u "greeting", VStr (py_str (py_or (dict_get (u "greeting") VNone speech)
                                 (VStr DEFAULT_GREETING))));
  (u "offer", VStr (py_str (py_or (dict_get (u "offer") VNone speech)
                              (VStr DEFAULT_OFFER))));
  (u "proactivity", VDict (normalise_proactivity (VDict (pr_proactivity p))))].

(** [genesis] at the time [now]. *)
Definition genesis (p : PersonalityProfile) (now : f64) : res PersonalityModel :=
pol ← extract_policy p;
n ← py_int (dict_get (u "max_sentences") (VInt 3) (pr_speech p));
Ok {| name := pr_name p; generation := 0; policy := VDict pol;
    traits := (λ kv, (kv.1, new_trait kv.2 f0 0 0)) <$> BASELINE_TRAITS;
    voice := [(u "max_sentences", VInt n);
              (u "style", dict_get (u "style")
                 (VStr (u "conversational, like a smart friend")) (pr_speech p))];
    history := [history_entry 0 (u "genesis (baby state)") [] now];
    persona := None; created_at := VFloat now; updated_at := VFloat now |}.

(** [TraitState.from_dict]. *)
Definition trait_from_dict (v : pyval) : res TraitState :=
match v with
| VDict d =>
  x ← py_float (dict_get (u "value") (VFloat (f_dec 5 1)) d);
  c ← py_float (dict_get (u "confidence") (VFloat f0) d);
  e ← py_int (dict_get (u "evidence_count") (VInt 0) d);
  g ← py_int (dict_get (u "last_gen") (VInt 0) d);
  Ok (new_trait x c e g)
| _ => Raise (AttributeError (u "object has no attribute 'get'"))
end.

(** The body of [from_dict]'s [try]. *)
Definition parse_model (data : pyval) (now : f64) : res PersonalityModel :=
match data with
| VDict d =>
  match dget (u "traits") d, dget (u "policy") d with
  | None, _ => Raise (KeyError (u "traits"))
  | _, None => Raise (KeyError (u "policy"))
  | Some (VDict ts), Some pol =>
      ts' ← res_map (λ kv, t ← trait_from_dict kv.2; Ok (kv.1, t)) ts;
      hist ← py_list_or_empty (dict_get (u "history") VNone d);
      voice' ← py_dict_or_empty (dict_get (u "voice") VNone d);
      persona' ← py_dict_or_empty (dict_get (u "persona") VNone d);
      g ← py_int (dict_get (u "generation") (VInt 0) d);
      Ok (Model (dict_get (u "name") (VStr (u "Shugo")) d) g pol ts' voice' hist
              (or_none persona') (or_now (dict_get (u "created_at") VNone d) now)
              (or_now (dict_get (u "updated_at") VNone d) now))
  | Some _, Some _ => Raise (AttributeError (u "object has no attribute 'items'"))
  end
| _ => Raise (TypeError (u "object is not subscriptable"))
end.

(** [from_dict]: [None] on a missing key, a wrong type or a missing
attribute; other exceptions escape. *)
Definition from_dict (data : pyval) (now : f64) : res (option PersonalityModel) :=
match parse_model data now with
| Ok m => Ok (Some m)
| Raise (KeyError _) | Raise (TypeError _) | Raise (AttributeError _) => Ok None
| Raise e => Raise e
end.
End Coercions.

(** ** Growth from interactions ([growth.py]) *)

(** The patterns of [FEEDBACK_PATTERNS] with their optional parts and
    alternatives written out: per trait, the praising and the criticising
    patterns, each as the literals it matches. *)
Definition FEEDBACK_PATTERNS : list (pystr * (list (list pystr) * list (list pystr))) :=
  [(u "verbosity",
    ([[u "more detail"]; [u "explain more"]; [u "go on"]; [u "tell me more"];
      [u "longer answer"]; [u "in depth"]],
     [[u "talk too much"; u "talking too much"]; [u "too long"];
      [u "be brief"; u "be short"; u "be more brief"; u "be more short"];
      [u "less detail"]; [u "stop rambling"]; [u "shorter answer"]]));
   (u "humor",
    ([[u "you're funny"; u "youre funny"]; [u "so funny"]; [u "love your jokes"];
      [u "hilarious"]; [u "crack me up"; u "cracks me up"; u "cracking me up"];
      [u "good one"; u "good joke"]],
     [[u "not funny"]; [u "annoying"]; [u "cringe"]; [u "bad joke"]; [u "too silly"]]));
   (u "warmth",
    ([[u "thanks"; u "thank you"]; [u "you're the best"; u "youre the best"];
      [u "love you"]; [u "appreciate you"; u "appreciate that"];
      [u "you're sweet"; u "you're kind"; u "youre sweet"; u "youre kind"]],
     [[u "you don't care"; u "you dont care"; u "you do not care"];
      [u "s cold"; u "so cold"]; [u "rude"]; [u "you're heartless"; u "youre heartless"]]))].

(** [re.search] of one pattern. *)
Definition pattern_found (text : pystr) (alts : list pystr) : bool :=
  existsb (λ l, contains l text) alts.

Definition count_found (text : pystr) (ps : list (list pystr)) : Z :=
  Z.of_nat (length (List.filter (pattern_found text) ps)).

(** [extract_feedback]. *)
Definition extract_feedback (transcript : pystr) : list (pystr * Z) :=
  let text := lower transcript in
  omap (λ e, let hits := count_found text e.2.1 - count_found text e.2.2 in
             if hits =? 0 then None else Some (e.1, hits)) FEEDBACK_PATTERNS.

(** The statistics, after [int(...)]. *)
Record growth_stats := Stats {
  s_turns : Z;
  s_questions : Z;
  s_commands : Z;
  s_tool_runs : Z;
  s_tool_failures : Z;
  s_new_facts : Z;
  s_feedback : list (pystr * Z)
}.

(** Integer division of counters, as floats. *)
Definition ratio (a b : Z) : f64 := fdiv (f_of_Z a) (f_of_Z b).

(** The bumps in the order the code makes them: trait, amount, reason. *)
Definition growth_bumps (s : growth_stats) : list (pystr * f64 * pystr) :=
  let turns := Z.max 0 (s_turns s) in
  let questions := Z.max 0 (s_questions s) in
  let commands := Z.max 0 (s_commands s) in
  let runs := Z.max 0 (s_tool_runs s) in
  let fails := Z.max 0 (s_tool_failures s) in
  let facts := Z.max 0 (s_new_facts s) in
  let q := ratio questions turns in
  let c := ratio commands turns in
  let f := if runs =? 0 then f0 else ratio fails runs in
  (if fleb (f_dec 3 1) q then [(u "curiosity", f_dec 8 2, u "questions " ++ fmt_percent q)] else [])
  ++ (if 3 <=? facts then [(u "warmth", f_dec 6 2, str_of_Z facts ++ u " facts shared")]
      else if 1 <=? facts then [(u "warmth", f_dec 4 2, str_of_Z facts ++ u " fact(s) shared")]
      else [])
  ++ (if 20 <=? turns then
        [(u "warmth", f_dec 5 2, u "long session (" ++ str_of_Z turns ++ u " turns)")] else [])
  ++ (if fleb (f_dec 5 1) c then
        [(u "proactivity", f_dec 5 2, u "commands " ++ fmt_percent c)] else [])
  ++ (if fltb (f_dec 3 1) f then
        [(u "proactivity", fneg (f_dec 6 2), u "tool failures " ++ fmt_percent f)] else [])
  ++ (s_feedback s ≫= λ tn,
        if 0 <? tn.2 then
          [(tn.1, fmin (f_dec 1 1) (fmul (f_dec 6 2) (f_of_Z tn.2)), u "praised " ++ tn.1)]
        else if tn.2 <? 0 then
          [(tn.1, fmax (fneg (f_dec 1 1)) (fmul (f_dec 6 2) (f_of_Z tn.2)),
            u "criticized " ++ tn.1)]
        else []).

(** [synthesize_deltas]. *)
Definition synthesize_deltas (s : growth_stats) : list (pystr * f64) * pystr :=
  if Z.max 0 (s_turns s) =? 0 then ([], [])
  else
    let bumps := growth_bumps s in
    let deltas := foldl (λ d b, dset b.1.1 (fadd (default f0 (dget b.1.1 d)) b.1.2) d) [] bumps in
    ((λ kv, (kv.1, f_round 4 kv.2)) <$> List.filter (λ kv, f_truthy kv.2) deltas,
     join (u "; ") (snd <$> bumps)).

Record growth_report := Growth {
  r_generation : Z;
  r_applied : list (pystr * f64);
  r_reasons : pystr
}.

(** [grow_from_memory]. *)
Definition grow_from_memory (s : growth_stats) (note : pystr) (now : f64)
    (m : PersonalityModel) : PersonalityModel * option growth_report :=
  let '(deltas, reasons) := synthesize_deltas s in
  match deltas with
  | [] => (m, None)
  | _ =>
      let '(m', applied) := apply_delta deltas (note ++ u ": " ++ reasons) now m in
      match applied with
      | [] => (m', None)
      | _ => (m', Some (Growth (generation m') applied reasons))
      end
  end.

(** ** Facts *)

(** A trait as its constructor makes it. *)
Definition trait_wf (t : TraitState) : Prop :=
  fclamp f0 f1 (value t) = value t ∧ fclamp f0 f1 (confidence t) = confidence t.

Definition traits_wf (ts : list (pystr * TraitState)) : Prop :=
  ∀ k t, (k, t) ∈ ts → trait_wf t.

Lemma new_trait_wf v c e g : trait_wf (new_trait v c e g).
Proof. split; by apply fclamp_fixed. Qed.

Lemma trait_wf_range t :
  trait_wf t →
  fleb f0 (value t) = true ∧ fleb (value t) f1 = true ∧
  fleb f0 (confidence t) = true ∧ fleb (confidence t) f1 = true.
Proof.
  intros [Hv Hc].
  destruct (fclamp_range f0 f1 (value t) eq_refl) as [V1 V2].
  destruct (fclamp_range f0 f1 (confidence t) eq_refl) as [C1 C2].
  rewrite Hv in V1, V2. by rewrite Hc in C1, C2.
Qed.

Lemma exercise_wf v d t : trait_wf t → trait_wf (exercise (grown_value v d) t).
Proof.
  intros [_ Hc]. split; simpl; [by apply fclamp_fixed|].
  apply fclamp01_fmin, fadd_plus; [|done]. rewrite <- Hc. apply fclamp01_plus.
Qed.

Lemma update_trait_keys f k ts : (update_trait f k ts).*1 = ts.*1.
Proof.
  unfold update_trait. destruct (dget k ts) as [t|] eqn:E; [|done].
  generalize (f t). intros t'. revert E. clear.
  induction ts as [|[k0 t0] ts IH]; csimpl; [done|].
  case_decide; csimpl; [done|]. intros. by rewrite IH.
Qed.

Lemma update_trait_wf f k ts :
  (∀ t, trait_wf t → trait_wf (f t)) → traits_wf ts → traits_wf (update_trait f k ts).
Proof.
  intros Hf Hts. unfold update_trait. destruct (dget k ts) as [t|] eqn:E; [|done].
  intros k' t' [Ek|Hin]%dset_elem; [|by eapply Hts].
  simplify_eq. eapply Hf, Hts. by apply dget_elem.
Qed.

Lemma dget_update_trait f k ts k' :
  dget k' (update_trait f k ts) = if decide (k' = k) then f <$> dget k ts else dget k' ts.
Proof.
  unfold update_trait. destruct (dget k ts) as [t|] eqn:E; simpl.
  - rewrite dget_dset. by case_decide.
  - case_decide; subst; done.
Qed.

Lemma pending_moves_grown deltas ts k new mv :
  (k, (new, mv)) ∈ pending_moves deltas ts →
  ∃ d t, (k, d) ∈ deltas ∧ dget k ts = Some t ∧ new = grown_value (value t) d ∧
         mv = f_round 6 (fsub new (value t)).
Proof.
  unfold pending_moves. intros ([k' d] & Hin & E)%list_elem_of_omap.
  simpl in E.
  destruct (dget k' ts) as [t|] eqn:Et; [|done].
  injection E as <- <- <-. exists d, t. by split_and!.
Qed.

(** The two loops over the moves keep the set of traits and their form. *)
Lemma fold_traits_inv {A} (step : A → list (pystr * TraitState) → list (pystr * TraitState))
    (l : list A) ts :
  (∀ a ts, a ∈ l → (step a ts).*1 = ts.*1) →
  (∀ a ts, a ∈ l → traits_wf ts → traits_wf (step a ts)) →
  (foldl (λ ts a, step a ts) ts l).*1 = ts.*1 ∧
  (traits_wf ts → traits_wf (foldl (λ ts a, step a ts) ts l)).
Proof.
  revert ts. induction l as [|a l IH]; intros ts Hk Hw; [done|]. simpl.
  destruct (IH (step a ts)) as [E W].
  { intros; apply Hk; by right. }
  { intros b ts' Hb. apply Hw. by right. }
  split; [rewrite E; apply Hk; by left|]. intros Hts. apply W, Hw; [by left|done].
Qed.

Lemma commit_moves_inv deltas ts0 ts :
  let ts' := commit_moves (pending_moves deltas ts0) ts in
  ts'.*1 = ts.*1 ∧ (traits_wf ts → traits_wf ts').
Proof.
  apply (fold_traits_inv (λ m ts, update_trait (exercise m.2.1) m.1 ts)).
  - intros. apply update_trait_keys.
  - intros [k [new mv]] ts' Hin Hw. simpl.
    apply pending_moves_grown in Hin as (d & t & _ & _ & -> & _).
    apply update_trait_wf; [|done]. intros. by apply exercise_wf.
Qed.

Lemma stamp_generation_inv g applied ms ts :
  let ts' := stamp_generation g applied ms ts in
  ts'.*1 = ts.*1 ∧ (traits_wf ts → traits_wf ts').
Proof.
  apply (fold_traits_inv (λ m ts, if dhas m.1 applied
    then update_trait (set_last_gen g) m.1 ts else ts)).
  - intros. case_match; [apply update_trait_keys|done].
  - intros. case_match; [|done]. by apply update_trait_wf.
Qed.

(** ** Theorems *)

(** What each trait looks like after the moves, for deltas over distinct
    traits. *)
Lemma dget_commit_moves ms ts k :
  NoDup ms.*1 →
  dget k (commit_moves ms ts) =
  match dget k ms with
  | Some m => exercise m.1 <$> dget k ts
  | None => dget k ts
  end.
Proof.
  unfold commit_moves. revert ts. induction ms as [|[k0 m] ms IH]; intros ts Hn; [done|].
  apply NoDup_cons in Hn as [Hni Hn]. simpl. rewrite IH by done.
  rewrite dget_update_trait. simpl. destruct (decide (k = k0)) as [->|]; [|done].
  apply dget_None in Hni. simpl in Hni. by rewrite Hni.
Qed.

Lemma dget_stamp g applied ms ts k :
  value <$> dget k (stamp_generation g applied ms ts) = value <$> dget k ts.
Proof.
  unfold stamp_generation. revert ts. induction ms as [|[k0 m] ms IH]; intros ts; [done|].
  simpl. rewrite IH. case_match; [|done]. rewrite dget_update_trait.
  case_decide; [|done]. subst. by destruct (dget k0 ts).
Qed.

Lemma pending_moves_keys deltas ts :
  NoDup deltas.*1 → NoDup (pending_moves deltas ts).*1 ∧
  ∀ k, k ∈ (pending_moves deltas ts).*1 → k ∈ deltas.*1.
Proof.
  unfold pending_moves. induction deltas as [|[k d] deltas IH]; csimpl; [split; [constructor|done]|].
  intros [Hni Hn]%NoDup_cons. destruct (IH Hn) as [IH1 IH2].
  destruct (dget k ts) as [t|]; csimpl.
  - split; [apply NoDup_cons; auto|]. set_solver.
  - split; [done|]. set_solver.
Qed.

Lemma dget_pending deltas ts k :
  NoDup deltas.*1 →
  dget k (pending_moves deltas ts) =
  match dget k deltas, dget k ts with
  | Some d, Some t => Some (grown_value (value t) d,
                            f_round 6 (fsub (grown_value (value t) d) (value t)))
  | _, _ => None
  end.
Proof.
  unfold pending_moves. induction deltas as [|[k0 d] deltas IH]; csimpl; [done|].
  intros [Hni Hn]%NoDup_cons. destruct (decide (k = k0)) as [->|Hne].
  - destruct (dget k0 ts) as [t|] eqn:Et; simpl; [by case_decide|].
    rewrite IH by done. by destruct (dget k0 deltas).
  - destruct (dget k0 ts) as [t|] eqn:Et; simpl; [case_decide; [done|]|]; by rewrite IH.
Qed.

(** One generation of growth, exactly: a trait the proposal does not name
    keeps its value and an unknown trait does not appear; a named one moves to
    its value plus the proposed delta cut to the growth rate, cut to [0, 1].
    The generation, the history and the update time change if and only if some
    trait really moved, and then the history gains exactly one entry that
    records the applied moves. *)
Theorem growth_step_exact deltas note now m :
  NoDup deltas.*1 →
  let r := apply_delta deltas note now m in
  (∀ k, value <$> dget k (traits r.1) =
     match dget k deltas with
     | Some d => (λ t, grown_value (value t) d) <$> dget k (traits m)
     | None => value <$> dget k (traits m)
     end) ∧
  (r.2 = [] → generation r.1 = generation m ∧ history r.1 = history m ∧
              updated_at r.1 = updated_at m) ∧
  (r.2 ≠ [] → generation r.1 = generation m + 1 ∧ updated_at r.1 = VFloat now ∧
     history r.1 = history m ++ [history_entry (generation m + 1) note r.2 now]).
Proof.
  intros Hn r. destruct (pending_moves_keys deltas (traits m) Hn) as [Hms _].
  assert (∀ k, value <$> dget k (commit_moves (pending_moves deltas (traits m)) (traits m)) =
     match dget k deltas with
     | Some d => (λ t, grown_value (value t) d) <$> dget k (traits m)
     | None => value <$> dget k (traits m)
     end) as Hv.
  { intros k. rewrite dget_commit_moves, dget_pending by done.
    destruct (dget k deltas), (dget k (traits m)) eqn:E; simpl; rewrite ?E; done. }
  subst r. unfold apply_delta. destruct (applied_moves _) as [|x l]; simpl; split_and!; try done.
  intros k. by rewrite dget_stamp.
Qed.

(** A step of a model's life. *)
Inductive growth_step : PersonalityModel → list (pystr * f64) → PersonalityModel → Prop :=
  | growth_step_apply m deltas note now :
      growth_step m deltas (apply_delta deltas note now m).1.

Lemma apply_delta_frame deltas note now m :
  let m' := (apply_delta deltas note now m).1 in
  policy m' = policy m ∧ name m' = name m ∧ voice m' = voice m ∧ persona m' = persona m ∧
  created_at m' = created_at m ∧ (traits m').*1 = (traits m).*1 ∧
  (traits_wf (traits m) → traits_wf (traits m')) ∧
  ∃ news, history m' = history m ++ news ∧ generation m' = generation m + Z.of_nat (length news) ∧
    ∀ i e, news !! i = Some e →
      ∃ note deltas now, e = history_entry (generation m + 1 + Z.of_nat i) note deltas now.
Proof.
  unfold apply_delta. destruct (commit_moves_inv deltas (traits m) (traits m)) as [Ck Cw].
  destruct (applied_moves _) as [|x l] eqn:Ea; simpl.
  - split_and!; try done. exists []. rewrite app_nil_r. split_and!; [done|simpl; lia|done].
  - destruct (stamp_generation_inv (generation m + 1) (x :: l)
      (pending_moves deltas (traits m))
      (commit_moves (pending_moves deltas (traits m)) (traits m))) as [Sk Sw].
    split_and!; try done; [by rewrite Sk|auto|].
    eexists. split_and!; [done|simpl; lia|].
    intros [|i] e E; simplify_eq/=. eexists _, _, _. f_equal. lia.
Qed.

(** What a model keeps of the one it grew from. *)
Definition same_life (m0 m : PersonalityModel) : Prop :=
  policy m = policy m0 ∧ name m = name m0 ∧ voice m = voice m0 ∧
  (traits m).*1 = (traits m0).*1 ∧ traits_wf (traits m) ∧
  ∃ news, history m = history m0 ++ news ∧
    generation m = generation m0 + Z.of_nat (length news) ∧
    ∀ i e, news !! i = Some e →
      ∃ note deltas now, e = history_entry (generation m0 + 1 + Z.of_nat i) note deltas now.

Lemma same_life_steps m0 ls m :
  traits_wf (traits m0) → steps growth_step m0 ls m → same_life m0 m.
Proof.
  intros Hw. apply (steps_inv _ (same_life m0)).
  - intros a l b (H1 & H2 & H3 & H4 & H5 & (news & Hh & Hg & He)) Hst.
    destruct Hst as [a deltas note now].
    destruct (apply_delta_frame deltas note now a)
      as (P1 & P2 & P3 & _ & _ & P4 & P5 & (news' & Hh' & Hg' & He')).
    unfold same_life. split_and!; [congruence..|auto|].
    exists (news ++ news'). rewrite Hh', Hh, Hg', Hg, <- app_assoc, length_app.
    split_and!; [done|lia|]. intros i e [E|[Hi E]]%lookup_app_Some; [by apply He|].
    destruct (He' _ _ E) as (n' & d' & t' & ->). exists n', d', t'. f_equal. lia.
  - unfold same_life. split_and!; try done. exists [].
    rewrite app_nil_r. split_and!; [done|simpl; lia|done].
Qed.

(** C35. Growth keeps the identity: over any number of generations the policy,
    the name, the voice and the set of traits are those the model was born
    with; every trait's value and confidence stay within [0, 1]; and the
    history only ever grows, by one entry per generation, numbered
    consecutively. *)
Theorem growth_keeps_identity m0 ls m :
  traits_wf (traits m0) → steps growth_step m0 ls m →
  policy m = policy m0 ∧ name m = name m0 ∧ voice m = voice m0 ∧
  (traits m).*1 = (traits m0).*1 ∧
  (∀ k t, (k, t) ∈ traits m → fleb f0 (value t) = true ∧ fleb (value t) f1 = true ∧
     fleb f0 (confidence t) = true ∧ fleb (confidence t) f1 = true) ∧
  ∃ news, history m = history m0 ++ news ∧
    generation m = generation m0 + Z.of_nat (length news) ∧
    ∀ i e, news !! i = Some e →
      ∃ note deltas now, e = history_entry (generation m0 + 1 + Z.of_nat i) note deltas now.
Proof.
  intros Hw Hs. destruct (same_life_steps m0 ls m Hw Hs) as (H1 & H2 & H3 & H4 & H5 & H6).
  split_and!; try done. intros k t Hin. by eapply trait_wf_range, H5.
Qed.

Section RoundTrip.
Context `{PyRepr} `{PyFloatOfStr} `{PyDictOf}.

Lemma trait_round_trip t : trait_wf t → trait_from_dict (trait_to_dict t) = Ok t.
Proof.
intros [Hv Hc]. destruct t as [v c e g]. simpl in Hv, Hc.
transitivity (Ok (new_trait v c e g)); [done|]. unfold new_trait. by rewrite Hv, Hc.
Qed.

Lemma traits_round_trip ts :
traits_wf ts →
res_map (λ kv, t ← trait_from_dict kv.2; Ok (kv.1, t))
  ((λ kt, (kt.1, trait_to_dict kt.2)) <$> ts) = Ok ts.
Proof.
induction ts as [|[k t] ts IH]; intros Hw; [done|].
cbn [fmap list_fmap res_map fst snd].
rewrite trait_round_trip by (apply (Hw k); left). cbn [mbind res_bind].
rewrite IH; [done|]. intros k' t' Hin. apply (Hw k'). by right.
Qed.

Lemma py_list_round_trip l : py_list_or_empty (VList l) = Ok l.
Proof. by destruct l. Qed.

Lemma py_dict_round_trip d : py_dict_or_empty (VDict d) = Ok d.
Proof. by destruct d. Qed.

(** Persistence loses nothing: reading back what [to_dict] wrote gives the
  model itself, its traits, policy, history, persona and times included. *)
Theorem model_round_trip m now :
traits_wf (traits m) → persona m ≠ Some [] →
created_at m ≠ VNone → updated_at m ≠ VNone →
from_dict (to_dict m) now = Ok (Some m).
Proof.
intros Hw Hp Hc Hu. destruct m as [n g pol ts v h p c up]. simpl in *.
assert (parse_model (to_dict (Model n g pol ts v h p c up)) now
        = Ok (Model n g pol ts v h p c up)) as E; [|unfold from_dict; by rewrite E].
unfold parse_model, to_dict.
change (dget (u "traits") _)
  with (Some (VDict ((λ kt, (kt.1, trait_to_dict kt.2)) <$> ts))).
change (dget (u "policy") _) with (Some pol). cbv iota beta.
rewrite (traits_round_trip ts Hw). cbn [mbind res_bind].
change (dict_get (u "history") _ _) with (VList h). rewrite py_list_round_trip.
cbn [mbind res_bind]. change (dict_get (u "voice") _ _) with (VDict v).
rewrite py_dict_round_trip. cbn [mbind res_bind].
change (dict_get (u "persona") _ _)
  with (match p with Some d => VDict d | None => VNone end).
assert (py_dict_or_empty (match p with Some d => VDict d | None => VNone end)
        = Ok (default [] p)) as -> by (destruct p as [[|]|]; done).
cbn [mbind res_bind]. change (py_int _) with (Ok g). cbn [mbind res_bind].
change (dict_get (u "name") _ _) with n. change (dict_get (u "created_at") _ _) with c.
change (dict_get (u "updated_at") _ _) with up. do 2 f_equal.
- destruct p as [[|]|]; done.
- by destruct c.
- by destruct up.
Qed.

(** A payload whose trait value is not a number is not answered with [None]:
  the conversion's exception escapes. *)
Lemma malformed_trait_escapes s msg d :
py_float_of_str s = Raise (ValueError msg) →
from_dict (VDict [(u "traits", VDict [(u "warmth", VDict [(u "value", VStr s)])]);
                  (u "policy", VDict d)]) f0 = Raise (ValueError msg).
Proof.
intros E. unfold from_dict.
assert (parse_model (VDict [(u "traits", VDict [(u "warmth", VDict [(u "value", VStr s)])]);
  (u "policy", VDict d)]) f0 = Raise (ValueError msg)) as ->; [|done].
unfold parse_model. change (dget (u "traits") _)
  with (Some (VDict [(u "warmth", VDict [(u "value", VStr s)])])).
change (dget (u "policy") _) with (Some (VDict d)). cbv iota beta.
cbn [res_map fst snd]. unfold trait_from_dict.
change (py_float (dict_get (u "value") _ _)) with (py_float_of_str s). by rewrite E.
Qed.
End RoundTrip.

(** A newborn with one trait, and two generations of its life. *)
Definition demo_model : PersonalityModel :=
  Model (VStr (u "Shugo")) 0 (VDict [(u "refuse_harmful", VBool true)])
    [(u "warmth", new_trait (f_dec 95 2) f0 0 0); (u "humor", new_trait (f_dec 4 1) f0 0 0)]
    [] [] None (VFloat f1) (VFloat f1).

Lemma demo_model_wf : traits_wf (traits demo_model).
Proof.
  intros k t. simpl. rewrite !elem_of_cons, elem_of_nil.
  intros [E|[E|[]]]; injection E as _ ->; apply new_trait_wf.
Qed.

Lemma growth_step_exact_witness :
  let r := apply_delta [(u "warmth", f1); (u "wit", f1)] (u "note") f1 demo_model in
  generation r.1 = 1 ∧ value <$> dget (u "warmth") (traits r.1) = Some f1 ∧
  dget (u "wit") (traits r.1) = None.
Proof.
  destruct (growth_step_exact [(u "warmth", f1); (u "wit", f1)] (u "note") f1 demo_model)
    as (Hv & _ & Hne).
  { repeat constructor; set_solver. }
  split_and!.
  - apply Hne. vm_compute. discriminate.
  - rewrite (Hv (u "warmth")). vm_compute. reflexivity.
  - vm_compute. reflexivity.
Defined.

Lemma growth_keeps_identity_witness :
  let m := (apply_delta [(u "warmth", f1)] (u "n") f1 demo_model).1 in
  policy m = policy demo_model ∧ (traits m).*1 = (traits demo_model).*1.
Proof.
  destruct (growth_keeps_identity demo_model [[(u "warmth", f1)]]
    (apply_delta [(u "warmth", f1)] (u "n") f1 demo_model).1 demo_model_wf)
    as (Hp & _ & _ & Ht & _).
  - eapply steps_cons; [apply growth_step_apply|apply steps_nil].
  - exact (conj Hp Ht).
Defined.

Lemma model_round_trip_witness :
  let inst := λ _, Raise (ValueError []) in
  @from_dict inst (λ _, Raise (TypeError [])) (to_dict demo_model) f0 = Ok (Some demo_model).
Proof.
  intros inst. apply model_round_trip; [apply demo_model_wf|discriminate..].
Defined.
