(* ===== verification/PersonaGovernor.v ===== *)
(** * The personality governor ([src/personality/governor.py])

    The structured policy derived from a living model, the verdict it gives a
    proposed action, and the action the verdict turns it into. *)

From Stdlib Require Import Floats.SpecFloat.
From S2P Require Import Prelude PyFloat PyStr PyVal Personality.

Local Open Scope Z_scope.

Definition BLOCK_THRESHOLD : f64 := f_dec 3 1.
Definition TONE_FLOOR : f64 := f_dec 2 1.

Inductive disposition : Type := PASS | MODIFY | REROUTE.

#[export] Instance disposition_eq_dec : EqDecision disposition.
Proof. solve_decision. Defined.

Record PersonalityVerdict := Verdict {
  verdict : disposition;
  tone_score : f64;
  verbosity_ok : bool;
  appropriateness : f64;
  adjustments : list (pystr * pyval);
  route_to : option pystr;
  reason : pystr
}.

Definition new_verdict : PersonalityVerdict := Verdict PASS f1 true f1 [] None [].

(** The derived policy. *)
Record governor_policy := GovPolicy {
  verbosity_budget : Z;
  gp_formality : f64;
  gp_proactivity : f64;
  never_say : list pyval
}.

Definition proactivity_threshold : f64 := f_dec 4 1.

(** ** Text helpers *)

Definition is_terminal (c : N) : bool := ((c =? 46) || (c =? 33) || (c =? 63))%N.

(** The pieces between terminal characters. *)
Fixpoint pieces (cur s : pystr) : list pystr :=
  match s with
  | [] => [rev cur]
  | c :: s' => if is_terminal c then rev cur :: pieces [] s' else pieces (c :: cur) s'
  end.

(** [_count_sentences]. *)
Definition count_sentences (text : pystr) : Z :=
  match text with
  | [] => 0
  | _ => Z.max 1 (Z.of_nat (length
           (List.filter (λ p, negb (bool_decide (strip p = []))) (pieces [] text))))
  end.

(** [re.split] at whitespace that follows a terminal character. [ended] says
    that the last character was terminal, [gap] that a separating run of
    whitespace is being skipped. *)
Fixpoint split_sentences (ended gap : bool) (cur s : pystr) : list pystr :=
  match s with
  | [] => [rev cur]
  | c :: s' =>
      if is_space c && (ended || gap) then
        if gap then split_sentences false true cur s'
        else rev cur :: split_sentences false true [] s'
      else split_sentences (is_terminal c) false (c :: cur) s'
  end.

(** [_truncate_to_budget]. *)
Definition truncate_to_budget (text : pystr) (budget : Z) : pystr :=
  let result := strip (join (u " ") (take (Z.to_nat budget) (split_sentences false false [] text))) in
  match last result with
  | Some c => if is_terminal c then result else result ++ u "."
  | None => result
  end.

Section ToneMatch.
(** Which characters beyond ASCII are word characters for [\w]. *)
Context (word_beyond_ascii : N → bool).

Abbreviation is_word := (word_char word_beyond_ascii).

(** The length of a contraction's tail after a word, 0 without one. *)
Definition contraction_tail (word rest : pystr) : nat :=
if starts_with (u "'t") rest && ends_with (u "n") word && (2 <=? length word)%nat then 2
else if starts_with (u "'re") rest || starts_with (u "'ll") rest
      || starts_with (u "'ve") rest then 3
else if starts_with (u "'d") rest || starts_with (u "'m") rest then 2
else 0.

(** The matches of the contraction pattern, left to right. *)
Fixpoint contractions (skip : nat) (s : pystr) : Z :=
match s with
| [] => 0
| _ :: s' =>
  match skip with
  | S k => contractions k s'
  | O =>
      let '(word, rest) := span is_word s in
      match word with
      | [] => contractions 0 s'
      | _ => let n := contraction_tail word rest in
             (if (n =? 0)%nat then 0 else 1) + contractions (length word + n - 1) s'
      end
  end
end.

(** [_tone_match]. *)
Definition tone_match (text : pystr) (formality : f64) : f64 :=
match text, split text with
| [], _ | _, [] => f1
| _, words =>
  let density := fdiv (f_of_Z (contractions 0 text)) (f_of_Z (Z.of_nat (length words))) in
  let casual := fmin f1 (fdiv density (f_dec 15 2)) in
  let score := if fleb (f_dec 5 1) formality then fmax TONE_FLOOR (fsub f1 casual)
               else fmax TONE_FLOOR (fadd casual (f_dec 3 1)) in
  fmax f0 (fmin f1 score)
end.
End ToneMatch.

(** ** The governor *)

(** A trait's value, or the default the code falls back to. *)
Definition trait_or (k : pystr) (d : f64) (m : PersonalityModel) : f64 :=
  match dget k (traits m) with Some t => value t | None => d end.

(** [obj.get(key, default)] on a value that should be an object. *)
Definition get_key (key : pystr) (dflt v : pyval) : res pyval :=
  match v with
  | VDict d => Ok (dict_get key dflt d)
  | _ => Raise (AttributeError (u "object has no attribute 'get'"))
  end.

Section Governor.
Context `{PyRepr} `{PyFloatOfStr} `{PyDictOf}.
Context (word_beyond_ascii : N → bool).
(** The text of an exception. *)
Context (exn_text : exn → pystr).

(** [PersonalityGovernor.policy]. *)
Definition derive_policy (m : PersonalityModel) : res governor_policy :=
n ← py_int (dict_get (u "max_sentences") (VInt 3) (voice m));
nf ← py_float_of_Z n;
r ← f_round_Z (fmul nf (fadd (f_dec 5 1) (trait_or (u "verbosity") (f_dec 5 1) m)));
ns ← get_key (u "never_say") VNone (policy m);
never ← py_list_or_empty ns;
bs ← get_key (u "boundaries") VNone (policy m);
_b ← py_dict_or_empty bs;
Ok (GovPolicy (Z.max 1 (Z.min 8 r)) (trait_or (u "formality") (f_dec 3 1) m)
    (trait_or (u "proactivity") (f_dec 3 1) m) never).

(** [_extract_text]: the first of the four parameters that is a text and not
blank. *)
Definition text_keys : list pystr := [u "text"; u "question"; u "content"; u "message"].

Fixpoint first_text (keys : list pystr) (params : list (pystr * pyval)) : pystr :=
match keys with
| [] => []
| k :: rest =>
  match dict_get k VNone params with
  | VStr s => match strip s with [] => first_text rest params | t => t end
  | _ => first_text rest params
  end
end.

Definition extract_text (params : pyval) : res pystr :=
if negb (truthy params) then Ok [] else
match params with
| VDict d => Ok (first_text text_keys d)
| _ => Raise (AttributeError (u "object has no attribute 'get'"))
end.

(** The forbidden phrases the text contains. *)
Fixpoint phrase_hits (text : pystr) (phrases : list pyval) : res (list pystr) :=
match phrases with
| [] => Ok []
| p :: rest =>
  match text, truthy p with
  | [], _ | _, false => phrase_hits text rest
  | _, true =>
      match p with
      | VStr s => hits ← phrase_hits text rest;
                  Ok (if contains (lower s) (lower text) then s :: hits else hits)
      | _ => Raise (AttributeError (u "object has no attribute 'lower'"))
      end
  end
end.

(** The verdict for a text with forbidden phrases: redirected to a fixed line. *)
Definition safe_line : pystr := u "I'd rather not say that.".

Definition blocked_verdict (hits : list pystr) : PersonalityVerdict :=
let rule := u "content rule hit: forbidden phrase(s) " ++ repr_list hits in
let floor := u "appropriateness " ++ fmt_fixed 2 f0 ++ u " <= block threshold "
             ++ fmt_fixed 2 BLOCK_THRESHOLD in
Verdict REROUTE f1 true f0
(dset (u "route_to") (VStr (u "speak"))
   [(u "text", VStr safe_line); (u "route_to", VStr (u "speak"));
    (u "personality_blocked", VList (VStr <$> hits))])
(Some (u "speak")) (rule ++ u "; " ++ floor).

(** [annotate] inside its [try]. *)
Definition annotate_body (action context : list (pystr * pyval)) (m : PersonalityModel) :
res PersonalityVerdict :=
let action_type := dict_get (u "action_type") VNone action in
let params := py_or (dict_get (u "params") VNone action) (VDict []) in
text ← extract_text params;
pol ← derive_policy m;
hits ← phrase_hits text (never_say pol);
match hits with
| _ :: _ => Ok (blocked_verdict hits)
| [] =>
  let count := count_sentences text in
  let ok := match text with [] => true | _ => count <=? verbosity_budget pol end in
  let penalised := if ok then f1 else
    fmax TONE_FLOOR (fsub f1 (fmul (f_dec 1 1) (f_of_Z (count - verbosity_budget pol)))) in
  let tone := match text with
              | [] => penalised
              | _ => tone_match word_beyond_ascii text (gp_formality pol)
              end in
  if truthy (dict_get (u "self_initiated") VNone context)
     && py_eq action_type (VStr (u "speak"))
     && fltb (gp_proactivity pol) proactivity_threshold then
    Ok (Verdict REROUTE tone ok f1 [(u "route_to", VStr (u "ask_user"))]
          (Some (u "ask_user"))
          (u "proactivity suppressed: trait " ++ fmt_fixed 2 (gp_proactivity pol)
           ++ u " < threshold " ++ fmt_fixed 2 proactivity_threshold))
  else if negb ok then
    Ok (Verdict MODIFY tone ok f1
          [(u "text", VStr (truncate_to_budget text (verbosity_budget pol)))] None
          (u "verbosity " ++ str_of_Z count ++ u " > budget "
           ++ str_of_Z (verbosity_budget pol) ++ u "; truncated"))
  else Ok (Verdict PASS tone ok f1 [] None (u "within personality policy"))
end.

(** [annotate]: an error passes the action. *)
Definition annotate (action context : list (pystr * pyval)) (m : PersonalityModel) :
PersonalityVerdict :=
match annotate_body action context m with
| Ok v => v
| Raise e => Verdict PASS f1 true f1 [] None
             (u "governor error (fail open): " ++ exn_text e)
end.

(** [apply]. *)
Definition set_key (k : pystr) (v : pyval) (d : list (pystr * pyval)) : list (pystr * pyval) :=
dset k v d.

Definition apply_verdict (action : list (pystr * pyval)) (v : PersonalityVerdict) :
res (list (pystr * pyval)) :=
match verdict v with
| PASS => Ok action
| d =>
  let own := match route_to v with Some r => VStr r | None => VNone end in
  let route := match d with
               | REROUTE => dict_get (u "route_to") own (adjustments v)
               | _ => VNone
               end in
  if bool_decide (adjustments v = []) && negb (truthy route) then Ok action
  else
    params ← py_dict_or_empty (dict_get (u "params") VNone action);
    match d with
    | REROUTE =>
        let action := if truthy route then set_key (u "action_type") route action
                      else action in
        let params := match dget (u "text") (adjustments v) with
                      | Some t => set_key (u "text") t params
                      | None => params
                      end in
        Ok (set_key (u "personality_rerouted") (VBool true)
              (set_key (u "params") (VDict params) action))
    | _ =>
        let params := foldl (λ p kv, set_key kv.1 kv.2 p) params (adjustments v) in
        Ok (set_key (u "personality_modified") (VBool true)
              (set_key (u "params") (VDict params) action))
    end
end.
End Governor.

(** ** Theorems *)

Section GovernorTheorems.
Context `{PyRepr} `{PyFloatOfStr} `{PyDictOf}.
Context (word_beyond_ascii : N → bool) (exn_text : exn → pystr).

Abbreviation judge := (annotate word_beyond_ascii exn_text).

(** The verdicts [annotate] gives. *)
Lemma annotate_cases action context m :
let v := judge action context m in
verdict v = PASS ∨
(∃ hits, v = blocked_verdict hits) ∨
(verdict v = REROUTE ∧ adjustments v = [(u "route_to", VStr (u "ask_user"))]) ∨
(∃ t, verdict v = MODIFY ∧ adjustments v = [(u "text", VStr t)]).
Proof.
intros v. subst v. unfold annotate.
destruct (annotate_body _ action context m) as [v|e] eqn:E; [|by left].
revert E. unfold annotate_body.
destruct (extract_text _) as [text|]; [|done]. cbn [mbind res_bind].
destruct (derive_policy m) as [pol|]; [|done]. cbn [mbind res_bind].
destruct (phrase_hits text (never_say pol)) as [[|h hits]|]; [| |done].
- cbn [mbind res_bind].
  destruct (_ && _ && _).
  { intros <-%(inj Ok). right; right; left. split; reflexivity. }
  destruct (negb _); intros <-%(inj Ok); [|by left].
  right; right; right. eexists. split; reflexivity.
- intros <-%(inj Ok). right. left. by eexists.
Qed.

(** What the three kinds of verdict make of an action. *)
Lemma apply_blocked action hits :
apply_verdict action (blocked_verdict hits) =
(ps ← py_dict_or_empty (dict_get (u "params") VNone action);
 Ok (set_key (u "personality_rerouted") (VBool true)
       (set_key (u "params") (VDict (set_key (u "text") (VStr safe_line) ps))
          (set_key (u "action_type") (VStr (u "speak")) action)))).
Proof. reflexivity. Qed.

Lemma apply_reroute action v :
verdict v = REROUTE → adjustments v = [(u "route_to", VStr (u "ask_user"))] →
apply_verdict action v =
(ps ← py_dict_or_empty (dict_get (u "params") VNone action);
 Ok (set_key (u "personality_rerouted") (VBool true)
       (set_key (u "params") (VDict ps)
          (set_key (u "action_type") (VStr (u "ask_user")) action)))).
Proof. intros E Ea. unfold apply_verdict. rewrite E, Ea. reflexivity. Qed.

Lemma apply_modify action v t :
verdict v = MODIFY → adjustments v = [(u "text", VStr t)] →
apply_verdict action v =
(ps ← py_dict_or_empty (dict_get (u "params") VNone action);
 Ok (set_key (u "personality_modified") (VBool true)
       (set_key (u "params") (VDict (set_key (u "text") (VStr t) ps)) action))).
Proof. intros E Ea. unfold apply_verdict. rewrite E, Ea. reflexivity. Qed.

Lemma dget_set_key k v d k' : k' ≠ k → dget k' (set_key k v d) = dget k' d.
Proof. intros. unfold set_key. by rewrite dget_dset_ne. Qed.

Lemma dget_set_key_eq k v d : dget k (set_key k v d) = Some v.
Proof. apply dget_dset_eq. Qed.

(** C39. Personality only restricts: whatever the model, the text and the
  context, the action that comes out has the same action type, or is plain
  speech or a question to the user; nothing but the type, the parameters and
  the personality marks of the action changes. *)
Theorem personality_only_restricts action context m a' :
apply_verdict action (judge action context m) = Ok a' →
(dget (u "action_type") a' = dget (u "action_type") action
 ∨ dget (u "action_type") a' = Some (VStr (u "speak"))
 ∨ dget (u "action_type") a' = Some (VStr (u "ask_user"))) ∧
∀ k, k ∉ [u "action_type"; u "params"; u "personality_rerouted"; u "personality_modified"] →
     dget k a' = dget k action.
Proof.
assert (u "action_type" ≠ u "params" ∧ u "action_type" ≠ u "personality_rerouted"
        ∧ u "action_type" ≠ u "personality_modified") as (N1 & N2 & N3) by done.
set (v := judge action context m). intros Ha.
destruct (annotate_cases action context m) as [E|[[hits E]|[[E Ea]|(t & E & Ea)]]];
  fold v in E.
- unfold apply_verdict in Ha. rewrite E in Ha. injection Ha as <-. auto.
- rewrite E, apply_blocked in Ha. destruct (py_dict_or_empty _) as [ps|]; [|done].
  injection Ha as <-. split.
  + right. left. by rewrite dget_set_key, dget_set_key, dget_set_key_eq.
  + intros k Hk. rewrite !not_elem_of_cons in Hk. by rewrite !dget_set_key by tauto.
- fold v in Ea. rewrite (apply_reroute _ _ E Ea) in Ha.
  destruct (py_dict_or_empty _) as [ps|]; [|done]. injection Ha as <-. split.
  + right. right. by rewrite dget_set_key, dget_set_key, dget_set_key_eq.
  + intros k Hk. rewrite !not_elem_of_cons in Hk. by rewrite !dget_set_key by tauto.
- fold v in Ea. rewrite (apply_modify _ _ t E Ea) in Ha.
  destruct (py_dict_or_empty _) as [ps|]; [|done]. injection Ha as <-. split.
  + left. by rewrite dget_set_key, dget_set_key.
  + intros k Hk. rewrite !not_elem_of_cons in Hk. by rewrite !dget_set_key by tauto.
Qed.

Lemma phrase_hits_found text phrases s :
text ≠ [] → s ∈ phrases → s ≠ [] → contains (lower s) (lower text) = true →
∃ h hits, phrase_hits text (VStr <$> phrases) = Ok (h :: hits).
Proof.
intros Ht. destruct text as [|c t]; [done|]. set (text := c :: t).
assert (∀ ps, ∃ hits, phrase_hits text (VStr <$> ps) = Ok hits) as Htot.
{ induction ps as [|p ps [hits IH]]; [by eexists|]. cbn [fmap list_fmap phrase_hits].
  unfold text at 1. destruct (truthy (VStr p)); [|by eexists].
  rewrite IH. cbn [mbind res_bind]. case_match; by eexists. }
induction phrases as [|p ps IH]; [set_solver|].
intros Hin Hs Hc. cbn [fmap list_fmap phrase_hits]. unfold text at 1.
apply elem_of_cons in Hin as [<-|Hin].
- unfold truthy. rewrite bool_decide_eq_false_2 by done. cbn [negb].
  destruct (Htot ps) as [hits ->]. cbn [mbind res_bind]. rewrite Hc. by eexists _, _.
- destruct (IH Hin Hs Hc) as (h & hits & E). destruct (truthy (VStr p)); [|eauto].
  rewrite E. cbn [mbind res_bind]. case_match; by eexists _, _.
Qed.

(** The content rule, and its limit. When the governor's policy can be
  derived, an action whose text contains a forbidden phrase, in any case,
  becomes plain speech of the fixed safe line. When the policy cannot be
  derived (a malformed voice setting is enough), the action passes unchanged
  whatever it says. *)
Theorem content_rule_enforced action context m text :
extract_text (py_or (dict_get (u "params") VNone action) (VDict [])) = Ok text →
(∀ pol phrases s, derive_policy m = Ok pol → never_say pol = VStr <$> phrases →
   s ∈ phrases → s ≠ [] → text ≠ [] → contains (lower s) (lower text) = true →
   ∃ a' ps, apply_verdict action (judge action context m) = Ok a' ∧
     dget (u "action_type") a' = Some (VStr (u "speak")) ∧
     dget (u "params") a' = Some (VDict ps) ∧ dget (u "text") ps = Some (VStr safe_line)) ∧
(∀ e, derive_policy m = Raise e →
   apply_verdict action (judge action context m) = Ok action).
Proof.
intros Et. split.
- intros pol phrases s Ep En Hin Hs Ht Hc.
  destruct (phrase_hits_found text phrases s Ht Hin Hs Hc) as (h & hits & Eh).
  assert (judge action context m = blocked_verdict (h :: hits)) as ->.
  { unfold annotate, annotate_body. rewrite Et. cbn [mbind res_bind]. rewrite Ep.
    cbn [mbind res_bind]. rewrite En, Eh. done. }
  assert (∃ d, dict_get (u "params") VNone action = VDict d) as [d Ed].
  { revert Et. unfold py_or, extract_text.
    destruct (truthy (dict_get (u "params") VNone action)) eqn:E1.
    - rewrite E1. cbn [negb]. destruct (dict_get _ _ action); try done. by eexists.
    - cbn [truthy negb]. intros [= <-]. done. }
  rewrite apply_blocked, Ed. assert (py_dict_or_empty (VDict d) = Ok d) as -> by (by destruct d).
  cbn [mbind res_bind]. eexists _, _. split; [done|].
  assert (u "action_type" ≠ u "params" ∧ u "action_type" ≠ u "personality_rerouted"
          ∧ u "params" ≠ u "personality_rerouted") as (N1 & N2 & N3) by done.
  split_and!.
  + by rewrite dget_set_key, dget_set_key, dget_set_key_eq.
  + by rewrite dget_set_key, dget_set_key_eq.
  + by rewrite dget_set_key_eq.
- intros e Ee. unfold annotate, annotate_body. rewrite Et. cbn [mbind res_bind].
  rewrite Ee. done.
Qed.
End GovernorTheorems.

(** Truncation stops at sentences that whitespace follows: a text whose full
    stops are followed by letters stays over its budget. *)
Example truncation_over_budget :
  count_sentences (truncate_to_budget (u "a.b.c.") 1) = 3.
Proof. vm_compute. reflexivity. Qed.

(** A model that must not say a word, and an action that does, for the
    witnesses. *)
Definition curt_model : PersonalityModel :=
  Model (VStr (u "Shugo")) 0 (VDict [(u "never_say", VList (VStr <$> [u "As an AI"]))])
    [] [] [] None (VFloat f1) (VFloat f1).

Definition forbidden_action : list (pystr * pyval) :=
  [(u "action_type", VStr (u "api_call"));
   (u "params", VDict [(u "text", VStr (u "well, as an ai I cannot"))])].

#[local] Instance wit_repr : PyRepr := λ _, [].
#[local] Instance wit_float : PyFloatOfStr := λ _, Raise (ValueError []).
#[local] Instance wit_dict : PyDictOf := λ _, Raise (TypeError []).

Definition judged : list (pystr * pyval) :=
  match apply_verdict forbidden_action
          (annotate (λ _, true) (λ _, []) forbidden_action [] curt_model) with
  | Ok a => a
  | Raise _ => []
  end.

Lemma personality_only_restricts_witness :
  dget (u "action_type") judged = dget (u "action_type") forbidden_action
  ∨ dget (u "action_type") judged = Some (VStr (u "speak"))
  ∨ dget (u "action_type") judged = Some (VStr (u "ask_user")).
Proof.
  refine (proj1 (personality_only_restricts (λ _, true) (λ _, []) forbidden_action []
    curt_model judged _)).
  vm_compute. reflexivity.
Defined.

Lemma content_rule_enforced_witness :
  ∃ a' ps, apply_verdict forbidden_action
      (annotate (λ _, true) (λ _, []) forbidden_action [] curt_model) = Ok a' ∧
    dget (u "action_type") a' = Some (VStr (u "speak")) ∧
    dget (u "params") a' = Some (VDict ps) ∧ dget (u "text") ps = Some (VStr safe_line).
Proof.
  refine (proj1 (content_rule_enforced (λ _, true) (λ _, []) forbidden_action [] curt_model
    (u "well, as an ai I cannot") _) (GovPolicy 3 (f_dec 3 1) (f_dec 3 1)
      (VStr <$> [u "As an AI"])) [u "As an AI"] (u "As an AI") _ _ _ _ _ _).
  all: try (vm_compute; reflexivity); try discriminate. left.
Defined.
