(* ===== verification/StateMachine.v ===== *)
(** * The execution governor ([src/state_machine.py])

    States, the allowed-transition matrix, and every method of
    [ExecutionGovernor] as a state-and-exception computation.  Each reading
    of [time.monotonic()] is an argument.  The lock-protected sections are
    the labels of the step relation [gstep], so the invariants below hold
    under every interleaving of callers. *)

From Stdlib Require Import ZArith Lia.
From S2P Require Import Prelude PyFloat PyStr PyVal.

Inductive AgentState : Type :=
  | IDLE | OBSERVING | GATING | DECIDING | EXECUTING | EVALUATING
  | CONSOLIDATING | PLANNING | PHYSICAL_EXECUTING | EMERGENCY_STOP
  | PAUSED | SAFE_STATE | HALTED.

#[export] Instance AgentState_eq_dec : EqDecision AgentState.
Proof. solve_decision. Defined.

#[global] Arguments AgentState_eq_dec : simpl never.

(** [AgentState.value]. *)
Definition state_value (s : AgentState) : pystr :=
  match s with
  | IDLE => u "idle" | OBSERVING => u "observing" | GATING => u "gating"
  | DECIDING => u "deciding" | EXECUTING => u "executing"
  | EVALUATING => u "evaluating" | CONSOLIDATING => u "consolidating"
  | PLANNING => u "planning" | PHYSICAL_EXECUTING => u "physical_executing"
  | EMERGENCY_STOP => u "emergency_stop" | PAUSED => u "paused"
  | SAFE_STATE => u "safe_state" | HALTED => u "halted"
  end.

#[global] Arguments state_value : simpl never.

(** The transition matrix [_ALLOWED]. *)
Definition allowed (s : AgentState) : list AgentState :=
  match s with
  | IDLE => [OBSERVING]
  | OBSERVING => [GATING; IDLE]
  | GATING => [DECIDING; IDLE]
  | DECIDING => [EXECUTING; PLANNING; IDLE]
  | PLANNING => [PHYSICAL_EXECUTING; IDLE; EMERGENCY_STOP]
  | PHYSICAL_EXECUTING => [EVALUATING; IDLE; EMERGENCY_STOP]
  | EXECUTING => [EVALUATING; IDLE; EMERGENCY_STOP]
  | EVALUATING => [IDLE]
  | CONSOLIDATING => [IDLE]
  | EMERGENCY_STOP => [IDLE]
  | SAFE_STATE => [OBSERVING]
  | PAUSED => []
  | HALTED => []
  end.

Definition is_allowed (s next : AgentState) : bool :=
  bool_decide (next ∈ allowed s).
#[global] Arguments is_allowed : simpl never.

(** The governor object.  [audit] is [None] without an audit object, and
    otherwise the events passed to its [append] so far: an exception of
    [append] is swallowed, so the governor never sees its outcome. *)
Record governor := Governor {
  step_budget : Z;
  task_deadline_seconds : f64;
  stall_seconds : f64;
  audit : option (list audit_event);
  state : AgentState;
  latched : option AgentState;
  task_started_at : option f64;
  steps_used : Z;
  last_progress_at : option f64;
  current_task : option pystr
}.

(** [__init__]. *)
Definition new_governor (budget : Z) (deadline stall : f64)
    (with_audit : bool) : governor :=
  {| step_budget := Z.max 1 budget;
     task_deadline_seconds := fmax f0 deadline;
     stall_seconds := fmax f0 stall;
     audit := if with_audit then Some [] else None;
     state := IDLE; latched := None; task_started_at := None;
     steps_used := 0; last_progress_at := None; current_task := None |}.

(** Field updates. *)
Definition set_run (g : governor) (s : AgentState) (started : option f64)
    (used : Z) (progress : option f64) (task : option pystr) : governor :=
  {| step_budget := step_budget g;
     task_deadline_seconds := task_deadline_seconds g;
     stall_seconds := stall_seconds g; audit := audit g;
     state := s; latched := latched g; task_started_at := started;
     steps_used := used; last_progress_at := progress;
     current_task := task |}.

Definition set_latched (g : governor) (l : option AgentState) : governor :=
  {| step_budget := step_budget g;
     task_deadline_seconds := task_deadline_seconds g;
     stall_seconds := stall_seconds g; audit := audit g;
     state := state g; latched := l; task_started_at := task_started_at g;
     steps_used := steps_used g; last_progress_at := last_progress_at g;
     current_task := current_task g |}.

Definition set_state (g : governor) (s : AgentState) : governor :=
  set_run g s (task_started_at g) (steps_used g) (last_progress_at g)
    (current_task g).

Definition set_audit (g : governor) (a : option (list audit_event)) : governor :=
  {| step_budget := step_budget g;
     task_deadline_seconds := task_deadline_seconds g;
     stall_seconds := stall_seconds g; audit := a;
     state := state g; latched := latched g;
     task_started_at := task_started_at g;
     steps_used := steps_used g; last_progress_at := last_progress_at g;
     current_task := current_task g |}.

(** ** Methods *)

(** [mode]: a latched safe mode takes precedence over the task state. *)
Definition mode (g : governor) : AgentState := default (state g) (latched g).

Definition seconds_since_progress (now : f64) (g : governor) : option f64 :=
  (λ t, fsub now t) <$> last_progress_at g.

(** [_audit_append]. *)
Definition audit_append (ty : pystr) (payload : list (pystr * pyval)) :
    py governor unit :=
  modify (λ g, set_audit g ((λ log, log ++ [AuditEvent ty payload]) <$> audit g)).

Definition begin_task (now : f64) (task_ref : option pystr) : py governor unit :=
  g ← get;
  if decide (state g = PAUSED) then
    raise (GovernorError (u "execution is paused by the fallback controller"))
  else if decide (state g = HALTED) then
    raise (GovernorError (u "execution is halted; process restart required"))
  else if decide (state g ≠ IDLE ∧ state g ≠ SAFE_STATE) then
    raise (GovernorError (u "re-entrant execution blocked (state="
                          ++ state_value (state g) ++ u ")"))
  else put (set_run g OBSERVING (Some now) 0 (Some now) task_ref).

(** [_check_deadline]: a zero deadline disables it. *)
Definition check_deadline (now : f64) : py governor unit :=
  g ← get;
  match task_started_at g with
  | Some t0 =>
      raise_if (f_truthy (task_deadline_seconds g)
                && fltb (task_deadline_seconds g) (fsub now t0))
               (GovernorError (u "task deadline exceeded"))
  | None => mret tt
  end.

(** The locked section of [step]. *)
Definition step_transition (now : f64) (next : AgentState) : py governor unit :=
  g ← get;
  if is_allowed (state g) next then
    put (set_run g next (task_started_at g) (steps_used g) (Some now)
           (current_task g))
  else raise (GovernorError (u "illegal transition " ++ state_value (state g)
                             ++ u " -> " ++ state_value next)).

Definition step (t1 t2 : f64) (next : AgentState) : py governor unit :=
  check_deadline t1 ;; step_transition t2 next.

(** The locked section of [consume_step]. *)
Definition charge (count : Z) : py governor unit :=
  g ← get;
  match task_started_at g with
  | None => mret tt
  | Some _ =>
      let used := (steps_used g + Z.max 1 count)%Z in
      put (set_run g (state g) (task_started_at g) used (last_progress_at g)
             (current_task g)) ;;
      raise_if (step_budget g <? used)%Z
        (GovernorError (u "step budget exhausted (" ++ str_of_Z used
                        ++ u " > " ++ str_of_Z (step_budget g) ++ u ")"))
  end.

Definition consume_step (t1 : f64) (count : Z) : py governor unit :=
  check_deadline t1 ;; charge count.

Definition end_task (now : f64) : py governor unit :=
  modify (λ g, set_run g (default IDLE (latched g)) None 0 (Some now) None).

(** The locked section of [_latch]; returns whether the latch was taken. *)
Definition latch_section (s : AgentState) : py governor bool :=
  g ← get;
  if decide (state g = HALTED) then mret false
  else
    let g' := set_latched g (Some s) in
    put (match task_started_at g with None => set_state g' s | Some _ => g' end) ;;
    mret true.

Definition latch (s : AgentState) (reason : pystr) : py governor unit :=
  taken ← latch_section s;
  if (taken : bool) then
    audit_append (u "governor_latch")
      [(u "state", VStr (state_value s)); (u "reason", VStr (take 160 reason))]
  else mret tt.

Definition pause (reason : pystr) : py governor unit := latch PAUSED reason.
Definition safe_state (reason : pystr) : py governor unit := latch SAFE_STATE reason.
Definition halt (reason : pystr) : py governor unit := latch HALTED reason.

(** The locked section of [resume]. *)
Definition resume_section (now : f64) : py governor unit :=
  g ← get;
  if decide (state g = PAUSED ∨ state g = SAFE_STATE) then
    put (set_run (set_latched g None) IDLE (task_started_at g) (steps_used g)
           (Some now) (current_task g))
  else raise (GovernorError (u "cannot resume from state="
                             ++ state_value (state g))).

Definition resume (now : f64) (resumed_by : pystr) : py governor unit :=
  raise_if (bool_decide (resumed_by = []))
    (GovernorError (u "resume requires operator attribution ('resumed_by')")) ;;
  resume_section now ;;
  audit_append (u "governor_resume") [(u "resumed_by", VStr (take 120 resumed_by))].

(** ** The step relation of the locked sections *)

Inductive gov_label : Type :=
  | L_begin (now : f64) (task : option pystr)
  | L_check (now : f64)
  | L_step (now : f64) (next : AgentState)
  | L_charge (count : Z)
  | L_end (now : f64)
  | L_latch (s : AgentState)
  | L_resume (now : f64)
  | L_audit (ev : audit_event).

(** What a label does to the governor; the only modes ever latched are the
    three the public methods pass. *)
Definition gov_exec (l : gov_label) (g : governor) : governor :=
  match l with
  | L_begin now task => (begin_task now task g).1
  | L_check now => (check_deadline now g).1
  | L_step now next => (step_transition now next g).1
  | L_charge count => (charge count g).1
  | L_end now => (end_task now g).1
  | L_latch s => (latch_section s g).1
  | L_resume now => (resume_section now g).1
  | L_audit ev => (audit_append (ev_type ev) (ev_payload ev) g).1
  end.

Definition latchable (s : AgentState) : bool :=
  bool_decide (s ∈ [PAUSED; SAFE_STATE; HALTED]).
#[global] Arguments latchable : simpl never.

Inductive gstep : governor → gov_label → governor → Prop :=
  | gstep_exec g l :
      (∀ s, l = L_latch s → latchable s = true) →
      gstep g l (gov_exec l g).

Definition gov_init (g : governor) : Prop :=
  ∃ b d s a, g = new_governor b d s a.

(** A governor resting in a safe mode is latched in that mode with no task
    in flight, and only safe modes are ever latched. *)
Definition gov_inv (g : governor) : Prop :=
  (latchable (state g) = true →
     latched g = Some (state g) ∧ task_started_at g = None) ∧
  (∀ m, latched g = Some m → latchable m = true).

(** ** Lemmas *)

(** What each locked section does, as a case analysis on its result. *)

Lemma begin_task_cases now task g :
  (begin_task now task g =
     (set_run g OBSERVING (Some now) 0 (Some now) task, Ok tt)
   ∧ (state g = IDLE ∨ state g = SAFE_STATE))
  ∨ ((begin_task now task g).1 = g ∧ is_ok (begin_task now task g).2 = false
     ∧ state g ≠ IDLE ∧ state g ≠ SAFE_STATE).
Proof. unfold begin_task. py_unfold. destruct (state g) eqn:E; naive_solver. Qed.

Lemma check_deadline_state now g : (check_deadline now g).1 = g.
Proof.
  unfold check_deadline. py_unfold.
  destruct (task_started_at g); [|done]. by destruct (_ && _).
Qed.

Lemma step_transition_cases now next g :
  (step_transition now next g =
     (set_run g next (task_started_at g) (steps_used g) (Some now)
        (current_task g), Ok tt)
   ∧ is_allowed (state g) next = true)
  ∨ ((step_transition now next g).1 = g
     ∧ is_ok (step_transition now next g).2 = false
     ∧ is_allowed (state g) next = false).
Proof.
  unfold step_transition. py_unfold. destruct (is_allowed _ _); naive_solver.
Qed.

Lemma charge_cases count g :
  (charge count g = (g, Ok tt) ∧ task_started_at g = None)
  ∨ (∃ t, task_started_at g = Some t ∧
     (charge count g).1 =
       set_run g (state g) (Some t) (steps_used g + Z.max 1 count)
         (last_progress_at g) (current_task g) ∧
     (is_ok (charge count g).2 = true ↔
        (steps_used g + Z.max 1 count <= step_budget g)%Z)).
Proof.
  unfold charge. py_unfold. destruct (task_started_at g) as [t|] eqn:E; [|by left].
  right. exists t. split; [done|]. simpl.
  destruct (Z.ltb_spec (step_budget g) (steps_used g + Z.max 1 count));
    simpl; (split; [done|]); split; (done || lia).
Qed.

Lemma latch_section_cases s g :
  (latch_section s g = (g, Ok false) ∧ state g = HALTED)
  ∨ (latch_section s g =
       (match task_started_at g with
        | None => set_state (set_latched g (Some s)) s
        | Some _ => set_latched g (Some s)
        end, Ok true) ∧ state g ≠ HALTED).
Proof. unfold latch_section. py_unfold. case_decide; naive_solver. Qed.

(** Latching leaves the run's own fields alone. *)
Lemma latch_run_fields s reason g :
  let g' := (latch s reason g).1 in
  task_started_at g' = task_started_at g ∧ steps_used g' = steps_used g
  ∧ step_budget g' = step_budget g.
Proof.
  unfold latch, audit_append. py_unfold.
  destruct (latch_section_cases s g) as [[-> _]|[-> _]]; simpl; [done|].
  destruct (task_started_at g) eqn:E; simpl; by rewrite ?E.
Qed.

Lemma resume_section_cases now g :
  (resume_section now g =
     (set_run (set_latched g None) IDLE (task_started_at g) (steps_used g)
        (Some now) (current_task g), Ok tt)
   ∧ (state g = PAUSED ∨ state g = SAFE_STATE))
  ∨ ((resume_section now g).1 = g ∧ is_ok (resume_section now g).2 = false
     ∧ state g ≠ PAUSED ∧ state g ≠ SAFE_STATE).
Proof. unfold resume_section. py_unfold. case_decide; naive_solver. Qed.

(** Case analysis on what a label did. *)
Lemma gov_exec_cases l g (P : governor → Prop) :
  P g →
  (∀ now task, (state g = IDLE ∨ state g = SAFE_STATE) →
     P (set_run g OBSERVING (Some now) 0 (Some now) task)) →
  (∀ now next, is_allowed (state g) next = true →
     P (set_run g next (task_started_at g) (steps_used g) (Some now)
          (current_task g))) →
  (∀ used t, task_started_at g = Some t →
     P (set_run g (state g) (Some t) used (last_progress_at g)
          (current_task g))) →
  (∀ now, P (set_run g (default IDLE (latched g)) None 0 (Some now) None)) →
  (∀ s, l = L_latch s → state g ≠ HALTED →
     P (match task_started_at g with
        | None => set_state (set_latched g (Some s)) s
        | Some _ => set_latched g (Some s)
        end)) →
  (∀ now, (state g = PAUSED ∨ state g = SAFE_STATE) →
     P (set_run (set_latched g None) IDLE (task_started_at g) (steps_used g)
          (Some now) (current_task g))) →
  (∀ a, P (set_audit g a)) →
  P (gov_exec l g).
Proof.
  intros H0 Hb Hs Hc He Hl Hr Ha. destruct l; cbn [gov_exec].
  - destruct (begin_task_cases now task g) as [[-> ?]|[-> ?]]; simpl; auto.
  - by rewrite check_deadline_state.
  - destruct (step_transition_cases now next g) as [[-> ?]|[-> ?]]; simpl; auto.
  - destruct (charge_cases count g) as [[-> ?]|(t & ? & -> & ?)]; simpl; auto.
  - apply He.
  - destruct (latch_section_cases s g) as [[-> ?]|[-> ?]]; simpl; auto.
  - destruct (resume_section_cases now g) as [[-> ?]|[-> ?]]; simpl; auto.
  - apply Ha.
Qed.

Lemma is_allowed_not_latchable s next :
  is_allowed s next = true → latchable next = false.
Proof. by destruct s, next. Qed.

Lemma gov_inv_init g : gov_init g → gov_inv g.
Proof. intros (b & d & s & a & ->). split; simpl; [done|naive_solver]. Qed.

Lemma gov_inv_exec g l :
  (∀ s, l = L_latch s → latchable s = true) → gov_inv g → gov_inv (gov_exec l g).
Proof.
  intros Hl [Hs Hm].
  apply (gov_exec_cases l g gov_inv); unfold gov_inv; simpl.
  - done.
  - done.
  - intros now next Ha%is_allowed_not_latchable. rewrite Ha. done.
  - intros used t Ht. split; [|done]. intros [_ ?]%Hs. congruence.
  - intros now. split; [|done].
    by destruct (latched g).
  - intros s Heq Hh. specialize (Hl s Heq).
    destruct (task_started_at g) eqn:Et; simpl; (split; [|intros; congruence]).
    + intros [_ ?]%Hs. congruence.
    + done.
  - done.
  - done.
Qed.

Lemma gov_reach_inv g : reachable gstep gov_init g → gov_inv g.
Proof.
  apply reach_ind_inv; [apply gov_inv_init|].
  intros a l b HI Hst. destruct Hst. eauto using gov_inv_exec.
Qed.

(** No locked section moves a governor resting in [HALTED]. *)
Lemma halted_exec g l :
  gov_inv g → state g = HALTED → state (gov_exec l g) = HALTED.
Proof.
  intros [Hs _] Hh. rewrite Hh in Hs. destruct (Hs eq_refl) as [Hl Ht].
  apply (gov_exec_cases l g (λ g', state g' = HALTED)); simpl;
    rewrite ?Hl, ?Hh; try done.
  all: by first [intros _ _ []|intros _ []].
Qed.

(** ** Theorems *)

(** C23. Under every interleaving of the locked sections of the governor's
    methods (deadline checks, transitions, charges, begins, ends, latches and
    resumes from any number of threads), a governor whose state is a safe
    mode ([PAUSED], [SAFE_STATE], [HALTED]) is latched in exactly that mode
    and has no task in flight, and nothing but a safe mode is ever latched. *)
Theorem governor_latched_consistent g :
  reachable gstep gov_init g →
  (latchable (state g) = true →
     latched g = Some (state g) ∧ task_started_at g = None ∧ mode g = state g) ∧
  (∀ m, latched g = Some m → latchable m = true).
Proof.
  intros [Hs Hm]%gov_reach_inv. split; [|done].
  intros Hl. destruct (Hs Hl) as [E ?]. unfold mode. by rewrite E.
Qed.

Lemma governor_latched_consistent_witness :
  let g := (latch_section PAUSED (new_governor 5 f1 f1 false)).1 in
  latchable (state g) = true ∧ latched g = Some PAUSED ∧ mode g = state g.
Proof.
  intros g. assert (reachable gstep gov_init g) as Hr.
  { exists (new_governor 5 f1 f1 false), [L_latch PAUSED]. split.
    - by eexists _, _, _, _.
    - eapply steps_cons; [|apply steps_nil].
      apply (gstep_exec _ (L_latch PAUSED)). by intros s [= <-]. }
  destruct (governor_latched_consistent g Hr) as [H _].
  destruct (H eq_refl) as (? & ? & ?). by repeat split.
Defined.

(** C4. [HALTED] is terminal once the governor rests in it: whatever sequence
    of locked sections follows, the governor stays [HALTED], no task begins
    and no operator resume succeeds. *)
Theorem governor_halted_terminal g ls g' :
  reachable gstep gov_init g → state g = HALTED → steps gstep g ls g' →
  state g' = HALTED ∧
  (∀ now task, is_ok (begin_task now task g').2 = false) ∧
  (∀ now who, is_ok (resume now who g').2 = false ∧ (resume now who g').1 = g').
Proof.
  intros Hr%gov_reach_inv Hh Hs.
  assert (state g' = HALTED) as Hh'.
  { assert (gov_inv g' ∧ state g' = HALTED) as [_ ?]; [|done].
    apply (steps_inv gstep (λ a, gov_inv a ∧ state a = HALTED) g ls); [|done..].
    intros a l b [HI Ha] Hst. destruct Hst.
    eauto using gov_inv_exec, halted_exec. }
  split; [done|split].
  - intros now task. destruct (begin_task_cases now task g') as [[? []]|H];
      [congruence..|naive_solver].
  - intros now who. unfold resume. py_unfold. case_bool_decide; [done|].
    destruct (resume_section_cases now g') as [[_ []]|(E & Er & _)]; [congruence..|].
    simpl. by destruct (resume_section now g') as [g'' []]; simplify_eq/=.
Qed.

Lemma governor_halted_terminal_witness :
  let g := (latch_section HALTED (new_governor 5 f1 f1 true)).1 in
  state (latch_section PAUSED g).1 = HALTED.
Proof.
  intros g. assert (reachable gstep gov_init g) as Hr.
  { exists (new_governor 5 f1 f1 true), [L_latch HALTED]. split.
    - by eexists _, _, _, _.
    - eapply steps_cons; [|apply steps_nil].
      apply (gstep_exec _ (L_latch HALTED)). by intros s [= <-]. }
  refine (proj1 (governor_halted_terminal g [L_latch PAUSED] _ Hr eq_refl _)).
  eapply steps_cons; [|apply steps_nil].
  apply (gstep_exec g (L_latch PAUSED)). by intros s [= <-].
Defined.

(** The charges of a task: one [consume_step] after another. *)
Fixpoint consume_all (calls : list (f64 * Z)) : py governor unit :=
  match calls with
  | [] => mret tt
  | (t, count) :: calls' => consume_step t count ;; consume_all calls'
  end.

Definition charged (calls : list (f64 * Z)) : Z :=
  foldr (λ c acc, Z.max 1 c.2 + acc)%Z 0%Z calls.

Lemma charged_nonneg calls : (0 <= charged calls)%Z.
Proof. induction calls as [|[??] calls IH]; simpl; lia. Qed.

Lemma check_deadline_run g s t used p task now :
  task_started_at g = Some t →
  (check_deadline now (set_run g s (Some t) used p task)).2
    = (check_deadline now g).2.
Proof. intros E. unfold check_deadline. py_unfold. simpl. rewrite E. by case_match. Qed.

Lemma consume_all_ok calls g t :
  task_started_at g = Some t →
  Forall (λ c, (check_deadline c.1 g).2 = Ok tt) calls →
  is_ok (consume_all calls g).2 = true ↔
  (charged calls = 0 ∨ steps_used g + charged calls <= step_budget g)%Z.
Proof.
  revert g. induction calls as [|[now c] calls IH]; intros g Ht Hd; simpl.
  { split; [by left|done]. }
  apply Forall_cons in Hd as [Hd1 Hd]. simpl in Hd1.
  pose proof (check_deadline_state now g) as Hg.
  pose proof (charged_nonneg calls) as Hnn.
  unfold consume_step. py_unfold.
  destruct (check_deadline now g) as [g0 r] eqn:Ec; simplify_eq/=.
  destruct (charge_cases c g) as [[_ ?]|(t' & Ht' & Hc & Hok)]; [congruence|].
  assert (t' = t) as -> by congruence.
  destruct (charge c g) as [g1 r1] eqn:Ech; simplify_eq/=.
  destruct r1 as [[]|e]; simpl in Hok.
  - rewrite IH; simpl; [|done|].
    + assert (steps_used g + Z.max 1 c <= step_budget g)%Z by (by apply Hok). lia.
    + eapply Forall_impl; [exact Hd|]. intros [now' c'] H'. simpl in *.
      by rewrite check_deadline_run.
  - split; [done|]. intros H. exfalso.
    assert (false = true); [|done]. apply Hok. lia.
Qed.

(** C9. The per-task step budget is exact: after [begin_task], a sequence of
    [consume_step] calls made before the deadline succeeds as a whole if and
    only if the amounts charged ([max(1, count)] each) sum to at most the
    step budget. *)
Theorem step_budget_exact g now task calls :
  is_ok (begin_task now task g).2 = true →
  (1 <= step_budget g)%Z →
  Forall (λ c, (check_deadline c.1 (begin_task now task g).1).2 = Ok tt) calls →
  is_ok (consume_all calls (begin_task now task g).1).2 = true ↔
  (charged calls <= step_budget g)%Z.
Proof.
  intros Hb Hpos Hd.
  destruct (begin_task_cases now task g) as [[E _]|(_ & Ef & _)]; [|congruence].
  rewrite E in *. simpl in *.
  rewrite (consume_all_ok calls _ now); simpl; [lia|done|done].
Qed.

Lemma step_budget_exact_witness :
  let g := new_governor 3 f0 f0 false in
  is_ok (consume_all [(f1, 1%Z); (f1, 2%Z)] (begin_task f1 None g).1).2 = true ∧
  is_ok (consume_all [(f1, 1%Z); (f1, 3%Z)] (begin_task f1 None g).1).2 = false.
Proof.
  intros g. split.
  - apply (step_budget_exact g f1 None); [done|done|by repeat constructor|done].
  - destruct (is_ok _) eqn:E; [|done].
    apply (step_budget_exact g f1 None) in E;
      [by vm_compute in E|done|done|by repeat constructor].
Defined.

(** [step] moves along the matrix and nowhere else: it succeeds exactly
    when the task's deadline has not passed and the matrix lists the target,
    it then sets the state and the progress stamp and nothing else, and a
    refused step leaves the governor as it was. *)
Theorem step_follows_matrix t1 t2 next g :
  let r := step t1 t2 next g in
  let expired :=
    match task_started_at g with
    | Some t0 => f_truthy (task_deadline_seconds g)
                 && fltb (task_deadline_seconds g) (fsub t1 t0)
    | None => false
    end in
  (is_ok r.2 = negb expired && is_allowed (state g) next) ∧
  (is_ok r.2 = true → state r.1 = next ∧ last_progress_at r.1 = Some t2 ∧
     set_run r.1 (state g) (task_started_at g) (steps_used g)
       (last_progress_at g) (current_task g) = g) ∧
  (is_ok r.2 = false → r.1 = g).
Proof.
  simpl. unfold step, check_deadline, step_transition. py_unfold.
  destruct g; simpl. destruct task_started_at0 as [t0|]; simpl.
  - destruct (f_truthy task_deadline_seconds0 && _); simpl; [done|].
    by destruct (is_allowed state0 next).
  - by destruct (is_allowed state0 next).
Qed.

(** A halt that arrives while a task is in flight is not terminal: a
    later pause replaces the pending latch, the task's end then parks the
    governor in [PAUSED], and an operator resume returns it to [IDLE]. *)
Theorem in_flight_halt_can_be_resumed g t0 r1 r2 now1 now2 who :
  task_started_at g = Some t0 → state g ≠ HALTED → who ≠ [] →
  let g1 := (halt r1 g).1 in
  let g2 := (end_task now1 (pause r2 g1).1).1 in
  let g3 := resume now2 who g2 in
  mode g1 = HALTED ∧ state g2 = PAUSED ∧ g3.2 = Ok tt ∧
  state g3.1 = IDLE ∧ mode g3.1 = IDLE.
Proof.
  intros Ht Hs Hw. destruct g; simplify_eq/=.
  unfold halt, pause, latch, latch_section, resume, resume_section, end_task,
    audit_append. py_unfold. simpl.
  repeat (case_decide || case_bool_decide; simplify_eq/=); naive_solver.
Qed.

Lemma in_flight_halt_can_be_resumed_witness :
  let g := (begin_task f1 None (new_governor 5 f1 f1 true)).1 in
  state (resume f1 (u "op") (end_task f1 (pause [] (halt [] g).1).1).1).1 = IDLE.
Proof.
  intros g.
  refine (proj1 (proj2 (proj2 (proj2
    (in_flight_halt_can_be_resumed g f1 [] [] f1 f1 (u "op") _ _ _))))); done.
Defined.
