(* ===== verification/Fallbacks.v ===== *)
(** * The fallback controller ([src/fallbacks.py])

    The rule-based overrides that latch the governor into a safe mode.  The
    controller is written against the interface [GovernorOps] of the governor
    it is given, whose laws ([GovernorLaws]) the execution governor's
    instance discharges at the end of the file. *)

From Stdlib Require Import ZArith Lia.
From S2P Require Import Prelude PyFloat PyStr PyVal StateMachine.

Local Open Scope Z_scope.

(** ** The governor as the controller sees it *)

Class GovernorOps (G : Type) := {
  gov_halt : pystr → py G unit;
  gov_safe_state : pystr → py G unit;
  gov_pause : pystr → py G unit;
  gov_resume : f64 → pystr → py G unit;
  gov_state : G → AgentState;
  gov_mode : G → AgentState;
  gov_since_progress : f64 → G → option f64
}.

(** What the governor promises: latching never raises, it takes effect unless
    the governor already rests in [HALTED], where it changes nothing; a
    resume either raises and changes nothing, or ends in [IDLE]. *)
Class GovernorLaws (G : Type) `{GovernorOps G} := {
  gov_halt_ok r g : (gov_halt r g).2 = Ok tt;
  gov_safe_ok r g : (gov_safe_state r g).2 = Ok tt;
  gov_pause_ok r g : (gov_pause r g).2 = Ok tt;
  gov_halt_mode r g : gov_mode (gov_halt r g).1 =
    if decide (gov_state g = HALTED) then gov_mode g else HALTED;
  gov_safe_mode r g : gov_mode (gov_safe_state r g).1 =
    if decide (gov_state g = HALTED) then gov_mode g else SAFE_STATE;
  gov_pause_mode r g : gov_mode (gov_pause r g).1 =
    if decide (gov_state g = HALTED) then gov_mode g else PAUSED;
  gov_latch_halted r g : gov_state g = HALTED →
    gov_state (gov_halt r g).1 = HALTED ∧
    gov_state (gov_safe_state r g).1 = HALTED ∧
    gov_state (gov_pause r g).1 = HALTED;
  gov_resume_cases t who g :
    ((gov_resume t who g).2 = Ok tt ∧ gov_mode (gov_resume t who g).1 = IDLE
     ∧ gov_state g ≠ HALTED)
    ∨ (is_ok (gov_resume t who g).2 = false ∧ (gov_resume t who g).1 = g)
}.

(** ** Constant tables *)

Definition DEFAULT_SEVERITIES : list (pystr * pystr) :=
  [(u "circuit_breakers_open", u "pause"); (u "episodic_backlog", u "pause");
   (u "maintenance_worker_failure", u "pause");
   (u "task_stalled", u "safe_state"); (u "step_budget_exhausted", u "safe_state");
   (u "task_deadline_exceeded", u "safe_state");
   (u "invariant_violations", u "safe_state");
   (u "memory_failure", u "halt"); (u "audit_failure", u "halt");
   (u "collision_detected", u "halt"); (u "joint_limit_approached", u "safe_state");
   (u "velocity_exceeded", u "safe_state");
   (u "acceleration_exceeded", u "safe_state");
   (u "workspace_boundary_violated", u "safe_state");
   (u "emergency_stop_activated", u "halt");
   (u "human_presence_detected", u "safe_state");
   (u "planning_failure", u "pause"); (u "ros2_connection_lost", u "safe_state");
   (u "gazebo_connection_lost", u "pause"); (u "mobile_node_lost", u "pause");
   (u "mobile_sensor_anomaly", u "pause"); (u "android_lifecycle_paused", u "pause");
   (u "device_power_low", u "pause"); (u "device_thermal_high", u "pause");
   (u "accelerator_failure", u "pause");
   (u "network_transport_exhausted", u "pause"); (u "network_peer_lost", u "pause");
   (u "memory_sync_conflict_storm", u "safe_state");
   (u "audit_chain_broken", u "halt")].

Definition IMMEDIATE : list pystr :=
  [u "step_budget_exhausted"; u "task_deadline_exceeded"; u "memory_failure";
   u "audit_failure"].

Definition THRESHOLDED : list pystr :=
  [u "invariant_violations"; u "maintenance_worker_failure"].

Definition DEFAULT_THRESHOLDS : list (pystr * Z) :=
  [(u "breakers_open", 2); (u "episodic_backlog", 200);
   (u "invariant_violations", 10); (u "maintenance_failures", 3);
   (u "stall_seconds", 120)].

(** [{**base, **over}]. *)
Definition merge {V} (base over : list (pystr * V)) : list (pystr * V) :=
  foldl (λ d kv, dset kv.1 kv.2 d) base over.

(** ** The controller *)

Inductive fb_mode : Type := NORMAL_MODE | PAUSED_MODE | SAFE_MODE | HALTED_MODE.

#[export] Instance fb_mode_eq_dec : EqDecision fb_mode.
Proof. solve_decision. Defined.

(** [FallbackController]; the two collaborators it only reads, the memory and
    the execution layer, are the arguments [backlog] and [breakers] of
    [evaluate]. *)
Record FallbackController (G : Type) := Controller {
  fb_governor : G;
  fb_audit : option (list audit_event);
  thresholds : list (pystr * Z);
  severities : list (pystr * pystr);
  fb_mode_of : fb_mode;
  violations : list (pystr * Z);
  last_detail : list (pystr * pystr)
}.
Arguments Controller {G} _ _ _ _ _ _ _.
Arguments fb_governor {G} _.
Arguments fb_audit {G} _.
Arguments thresholds {G} _.
Arguments severities {G} _.
Arguments fb_mode_of {G} _.
Arguments violations {G} _.
Arguments last_detail {G} _.

Section Controller.
Context {G : Type} `{GovernorOps G}.
Implicit Types c : FallbackController G.

(** [__init__]. *)
Definition new_controller (g : G) (with_audit : bool)
  (th : list (pystr * Z)) (sev : list (pystr * pystr)) : FallbackController G :=
Controller g (if with_audit then Some [] else None)
  (merge DEFAULT_THRESHOLDS th) (merge DEFAULT_SEVERITIES sev) NORMAL_MODE [] [].

Definition with_governor (g : G) c : FallbackController G :=
Controller g (fb_audit c) (thresholds c) (severities c) (fb_mode_of c)
  (violations c) (last_detail c).
Definition with_mode (m : fb_mode) c : FallbackController G :=
Controller (fb_governor c) (fb_audit c) (thresholds c) (severities c) m
  (violations c) (last_detail c).
Definition with_counts (v : list (pystr * Z)) (d : list (pystr * pystr)) c :
  FallbackController G :=
Controller (fb_governor c) (fb_audit c) (thresholds c) (severities c)
  (fb_mode_of c) v d.

(** Calls a method of the governor the controller holds. *)
Definition on_governor {A} (m : py G A) : py (FallbackController G) A := λ c,
let '(g, r) := m (fb_governor c) in (with_governor g c, r).

(** [_audit]: the audit's own failures are swallowed. *)
Definition fb_audit_event (ty : pystr) (payload : list (pystr * pyval)) :
  py (FallbackController G) unit :=
modify (λ c, Controller (fb_governor c)
  ((λ log, log ++ [AuditEvent ty payload]) <$> fb_audit c)
  (thresholds c) (severities c) (fb_mode_of c) (violations c) (last_detail c)).

(** [self.thresholds[key]]. *)
Definition threshold (key : pystr) : py (FallbackController G) Z := λ c,
match dget key (thresholds c) with
| Some v => (c, Ok v)
| None => (c, Raise (KeyError key))
end.

Definition severity_of (kind : pystr) c : pystr :=
lower (default (u "pause") (dget kind (severities c))).

(** [_fire]: the governor is told first, the mode follows. *)
Definition fire (kind detail : pystr) : py (FallbackController G) unit :=
c ← get;
let severity := severity_of kind c in
let reason := kind ++ u ": " ++ take 150 detail in
fb_audit_event (u "fallback_trigger")
  [(u "trigger", VStr kind); (u "severity", VStr severity);
   (u "detail", VStr (take 200 detail))] ;;
if decide (severity = u "halt") then
  on_governor (gov_halt reason) ;;
  modify (with_mode HALTED_MODE) ;;
  fb_audit_event (u "fallback_halt") [(u "reason", VStr reason)] ;;
  raise (FallbackHalt reason)
else if decide (severity = u "safe_state") then
  on_governor (gov_safe_state reason) ;; modify (with_mode SAFE_MODE)
else on_governor (gov_pause reason) ;; modify (with_mode PAUSED_MODE).

Fixpoint fire_all (triggers : list (pystr * pystr)) : py (FallbackController G) unit :=
match triggers with
| [] => mret tt
| (kind, detail) :: rest => fire kind detail ;; fire_all rest
end.

(** [status]: the mode, the governor's state and the violation counts. *)
Definition status c : fb_mode * AgentState * list (pystr * Z) :=
(fb_mode_of c, gov_state (fb_governor c), violations c).

(** [evaluate].  [breakers] is [execution_layer.breakers_open_count()] (0
  without an execution layer), [backlog] is [len(memory.tier1)]. *)
Definition evaluate (now : f64) (breakers : Z) (backlog : option Z) :
  py (FallbackController G) (fb_mode * AgentState * list (pystr * Z)) :=
c ← get;
if decide (fb_mode_of c ≠ NORMAL_MODE) then mret (status c)
else
  tb ← threshold (u "breakers_open");
  let t1 := if tb <=? breakers
            then [(u "circuit_breakers_open",
                   str_of_Z breakers ++ u " open circuit(s)")] else [] in
  t2 ← match backlog with
       | None => mret []
       | Some b =>
           te ← threshold (u "episodic_backlog");
           mret (if te <=? b
                 then [(u "episodic_backlog",
                        str_of_Z b ++ u " unconsumed Tier 1 events")] else [])
       end;
  t3 ← match gov_since_progress now (fb_governor c) with
       | None => mret []
       | Some stalled =>
           ts ← threshold (u "stall_seconds");
           mret (if fltb (f_of_Z ts) stalled
                 then [(u "task_stalled",
                        u "no progress for " ++ fmt_1f stalled ++ u "s")] else [])
       end;
  fire_all (t1 ++ t2 ++ t3) ;;
  c' ← get; mret (status c').

(** The key a thresholded kind's limit is stored under. *)
Definition threshold_key (kind : pystr) : pystr :=
if decide (kind = u "invariant_violations") then u "invariant_violations"
else u "maintenance_failures".

(** [report_violation]. *)
Definition report_violation (kind detail : pystr) : py (FallbackController G) unit :=
c ← get;
let count := default 0 (dget kind (violations c)) + 1 in
put (with_counts (dset kind count (violations c))
       (dset kind (take 200 detail) (last_detail c)) c) ;;
if decide (kind ∈ THRESHOLDED) then
  if default 0 (dget (threshold_key kind) (thresholds c)) <=? count
  then fire kind detail else mret tt
else if decide (kind ∈ IMMEDIATE) then fire kind detail
else fire kind detail.

(** [resume]. *)
Definition fb_resume (now : f64) (resumed_by : pystr) :
  py (FallbackController G) unit :=
on_governor (gov_resume now resumed_by) ;;
modify (with_counts [] []) ;;
modify (with_mode NORMAL_MODE) ;;
fb_audit_event (u "fallback_resume") [(u "resumed_by", VStr (take 120 resumed_by))].
End Controller.

(** ** The execution governor implements the interface *)

#[export] Instance execution_governor_ops : GovernorOps governor := {
  gov_halt := halt;
  gov_safe_state := safe_state;
  gov_pause := pause;
  gov_resume := resume;
  gov_state := state;
  gov_mode := mode;
  gov_since_progress := seconds_since_progress
}.

Lemma latch_spec s r g :
  (latch s r g).2 = Ok tt ∧
  mode (latch s r g).1 = (if decide (state g = HALTED) then mode g else s) ∧
  (state g = HALTED → state (latch s r g).1 = HALTED).
Proof.
  unfold latch, latch_section, audit_append. py_unfold.
  destruct (decide (state g = HALTED)); simpl; [done|].
  by destruct (task_started_at g).
Qed.

#[export] Instance execution_governor_laws : GovernorLaws governor.
Proof.
  split; simpl; unfold halt, safe_state, pause; intros;
    try (by apply latch_spec).
  - by repeat split; apply latch_spec.
  - unfold resume. py_unfold. case_bool_decide; [by right|]. simpl.
    destruct (resume_section_cases t g) as [[-> Hs]|(E & Er & _)].
    + left. split_and!; [done..|]. intros Hh. rewrite Hh in Hs. naive_solver.
    + right. by destruct (resume_section t g) as [g' []]; simplify_eq/=.
Qed.

(** ** What a trigger does *)

(** The mode a severity stands for, and the governor state behind a mode. *)
Definition severity_mode (severity : pystr) : fb_mode :=
  if decide (severity = u "halt") then HALTED_MODE
  else if decide (severity = u "safe_state") then SAFE_MODE
  else PAUSED_MODE.

Definition governor_state_of (m : fb_mode) : AgentState :=
  match m with
  | NORMAL_MODE => IDLE
  | PAUSED_MODE => PAUSED
  | SAFE_MODE => SAFE_STATE
  | HALTED_MODE => HALTED
  end.

(** An invariant that firing keeps, the checks keep. *)
Section Firing.
Context {G : Type} `{GovernorOps G} (I : FallbackController G → Prop).
Context (Hfire : ∀ kind detail, keeps I (fire kind detail)).

Lemma keeps_fire_all triggers : keeps I (fire_all triggers).
Proof.
induction triggers as [|[kind detail] rest IH]; simpl; [apply keeps_ret|].
apply keeps_bind; [apply Hfire|]. by intros [].
Qed.

Lemma keeps_threshold key : keeps I (threshold key).
Proof. intros c Hc. unfold threshold. by destruct (dget key (thresholds c)). Qed.

Lemma keeps_evaluate_by now breakers backlog : keeps I (evaluate now breakers backlog).
Proof.
unfold evaluate. apply keeps_bind; [apply keeps_get|]. intros c. case_decide; [apply keeps_ret|].
apply keeps_bind; [apply keeps_threshold|]. intros tb. cbv zeta.
apply keeps_bind.
{ case_match; [|apply keeps_ret]. apply keeps_bind; [apply keeps_threshold|]. intros; apply keeps_ret. }
intros t2. apply keeps_bind.
{ case_match; [|apply keeps_ret]. apply keeps_bind; [apply keeps_threshold|]. intros; apply keeps_ret. }
intros t3. apply keeps_bind; [apply keeps_fire_all|]. intros [].
apply keeps_bind; [apply keeps_get|]. intros; apply keeps_ret.
Qed.
End Firing.

(** What the governor keeps under latching, the controller's operations keep. *)
Section Keeping.
Context {G : Type} `{GovernorOps G} (J : G → Prop).
Context (Hhalt : ∀ r, keeps J (gov_halt r)) (Hsafe : ∀ r, keeps J (gov_safe_state r)).
Context (Hpause : ∀ r, keeps J (gov_pause r)).
Abbreviation JC := (λ c : FallbackController G, J (fb_governor c)).

Lemma keeps_on_governor {A} (m : py G A) : keeps J m → keeps JC (on_governor m).
Proof.
intros Hm c Hc. specialize (Hm _ Hc). unfold on_governor. by destruct (m (fb_governor c)).
Qed.

Lemma keeps_fire kind detail : keeps JC (fire kind detail).
Proof.
unfold fire. apply keeps_bind; [apply keeps_get|]. intros c. cbv zeta.
apply keeps_bind; [by intros c' Hc'|]. intros [].
case_decide; [|case_decide]; repeat (apply keeps_bind; [first [by apply keeps_on_governor
| by intros c' Hc']|intros []]); first [by intros c' Hc'].
Qed.

Lemma keeps_report_violation kind detail : keeps JC (report_violation kind detail).
Proof.
unfold report_violation. apply triple_get. intros c _. cbv zeta.
apply (triple_bind _ _ _ (λ _, JC)); [by intros c' [-> Hc']|]. intros [].
repeat (case_decide || case_match); first [apply keeps_fire | apply keeps_ret].
Qed.

Lemma keeps_evaluate now breakers backlog : keeps JC (evaluate now breakers backlog).
Proof. apply keeps_evaluate_by, keeps_fire. Qed.
End Keeping.

Section ControllerFacts.
Context {G : Type} `{GovernorLaws G}.
Implicit Types c : FallbackController G.

(** [fire] sets the severity's mode, puts the governor in the matching state
  unless it rests in [HALTED], raises exactly on a halt, and touches
  neither the counts nor the configuration. *)
Lemma fire_spec kind detail c :
let m := severity_mode (severity_of kind c) in
let r := fire kind detail c in
fb_mode_of r.1 = m ∧
(is_ok r.2 = false ↔ m = HALTED_MODE) ∧
gov_mode (fb_governor r.1) =
  (if decide (gov_state (fb_governor c) = HALTED)
   then gov_mode (fb_governor c) else governor_state_of m) ∧
(gov_state (fb_governor c) = HALTED → gov_state (fb_governor r.1) = HALTED) ∧
violations r.1 = violations c ∧ thresholds r.1 = thresholds c ∧
severities r.1 = severities c.
Proof.
set (g := fb_governor c).
pose proof (gov_latch_halted [] g) as _.
unfold fire, severity_mode, on_governor. py_unfold. simpl.
set (reason := kind ++ _).
pose proof (gov_halt_ok reason g) as Eh. pose proof (gov_safe_ok reason g) as Es.
pose proof (gov_pause_ok reason g) as Ep.
pose proof (gov_halt_mode reason g) as Mh. pose proof (gov_safe_mode reason g) as Ms.
pose proof (gov_pause_mode reason g) as Mp.
pose proof (gov_latch_halted reason g) as Hl.
destruct (decide (severity_of kind c = u "halt")) as [|Hnh];
  [|destruct (decide (severity_of kind c = u "safe_state"))].
- simpl. fold g. destruct (gov_halt reason g) as [g' r].
  simplify_eq/=.
  split_and!; try done; try by intros (?&?&?)%Hl.
- simpl. fold g. destruct (gov_safe_state reason g) as [g' r].
  simplify_eq/=.
  split_and!; try done; try by intros (?&?&?)%Hl.
- simpl. fold g. destruct (gov_pause reason g) as [g' r].
  simplify_eq/=.
  split_and!; try done; try by intros (?&?&?)%Hl.
Qed.

Lemma severity_mode_not_normal sev : severity_mode sev ≠ NORMAL_MODE.
Proof. unfold severity_mode. by repeat case_decide. Qed.

(** Once a trigger has fired the mode is abnormal, and the governor is in a
  safe mode whatever fires next. *)
Lemma fire_all_abnormal triggers c :
fb_mode_of c ≠ NORMAL_MODE ∨ triggers ≠ [] →
fb_mode_of (fire_all triggers c).1 ≠ NORMAL_MODE.
Proof.
revert c. induction triggers as [|[kind detail] rest IH]; intros c Hc; simpl.
- py_unfold. naive_solver.
- py_unfold. pose proof (fire_spec kind detail c) as (Hm & _).
  destruct (fire kind detail c) as [c' [[]|e]]; simpl in *.
  + apply IH. left. rewrite Hm. apply severity_mode_not_normal.
  + rewrite Hm. apply severity_mode_not_normal.
Qed.

Definition safe_governor (g : G) : Prop :=
gov_state g = HALTED ∨ latchable (gov_mode g) = true.

Lemma fire_safe kind detail c : safe_governor (fb_governor (fire kind detail c).1).
Proof.
pose proof (fire_spec kind detail c) as (_ & _ & Hg & Hh & _).
unfold safe_governor. rewrite Hg. case_decide; [by left; auto|right].
unfold severity_mode. by repeat case_decide.
Qed.

Lemma fire_all_safe triggers c :
triggers ≠ [] → safe_governor (fb_governor (fire_all triggers c).1).
Proof.
revert c. induction triggers as [|[kind detail] rest IH]; intros c Hc; [done|].
simpl. py_unfold. pose proof (fire_safe kind detail c) as Hs.
destruct (fire kind detail c) as [c' [[]|e]]; simpl in *; [|done].
destruct rest as [|t rest']; [done|]. by apply IH.
Qed.

(** Whether this report escalates: a thresholded kind waits for its limit. *)
Definition escalates (kind : pystr) c : bool :=
negb (bool_decide (kind ∈ THRESHOLDED))
|| (default 0 (dget (threshold_key kind) (thresholds c))
    <=? default 0 (dget kind (violations c)) + 1).

Lemma report_violation_fires kind detail c :
let c1 := with_counts
  (dset kind (default 0 (dget kind (violations c)) + 1) (violations c))
  (dset kind (take 200 detail) (last_detail c)) c in
report_violation kind detail c =
  if escalates kind c then fire kind detail c1 else (c1, Ok tt).
Proof.
unfold report_violation, escalates. py_unfold. simpl.
case_bool_decide; case_decide; try done; simpl.
- by destruct (_ <=? _).
- by case_decide.
Qed.
Lemma fb_resume_cases now who c :
let r := fb_resume now who c in
(r.2 = Ok tt ∧ fb_mode_of r.1 = NORMAL_MODE ∧ violations r.1 = [] ∧
   last_detail r.1 = [] ∧ gov_mode (fb_governor r.1) = IDLE ∧
   gov_state (fb_governor c) ≠ HALTED)
∨ (is_ok r.2 = false ∧ r.1 = c).
Proof.
simpl. unfold fb_resume, on_governor. py_unfold. simpl.
destruct (gov_resume_cases now who (fb_governor c)) as [(Er & Em & Hs)|[Er Eg]];
  destruct (gov_resume now who (fb_governor c)) as [g' [[]|e]]; simplify_eq/=.
- by left.
- right. split; [done|]. by destruct c.
Qed.
End ControllerFacts.

(** ** Theorems *)

Section ControllerTheorems.
Context {G : Type} `{GovernorLaws G}.
Implicit Types c : FallbackController G.

(** C18. Every reported violation is counted.  It escalates unless its kind
  is thresholded and still below its limit, in which case only the count
  changes; an escalation sets the mode its severity names, raises
  [FallbackHalt] exactly for a halt, and (for a governor not already
  halted) leaves the governor in the safe mode the controller claims. *)
Theorem report_violation_escalates kind detail c :
let n := default 0 (dget kind (violations c)) + 1 in
let m := severity_mode (severity_of kind c) in
let r := report_violation kind detail c in
dget kind (violations r.1) = Some n ∧
(escalates kind c = false →
   r.2 = Ok tt ∧ fb_mode_of r.1 = fb_mode_of c ∧
   fb_governor r.1 = fb_governor c) ∧
(escalates kind c = true →
   fb_mode_of r.1 = m ∧ m ≠ NORMAL_MODE ∧
   (is_ok r.2 = false ↔ m = HALTED_MODE) ∧
   (gov_state (fb_governor c) ≠ HALTED →
      gov_mode (fb_governor r.1) = governor_state_of m)).
Proof.
simpl. rewrite report_violation_fires.
set (c1 := with_counts _ _ c).
pose proof (fire_spec kind detail c1) as (Hm & Hr & Hg & _ & Hv & _).
destruct (escalates kind c).
- rewrite Hv. split; [apply dget_dset_eq|]. split; [done|]. intros _.
  split; [done|]. split; [apply severity_mode_not_normal|].
  split; [done|]. intros Hn. rewrite Hg. simpl. by rewrite decide_False.
- split; [apply dget_dset_eq|]. by split.
Qed.

(** The proactive check: outside normal mode it only reports the
  status; in normal mode it does nothing when no rule holds, and when any
  of the three rules holds (open circuits, episodic backlog, stall) it
  ends in an abnormal mode with the governor in a safe state. *)
Theorem evaluate_fires_when_due now breakers backlog c tb te ts :
dget (u "breakers_open") (thresholds c) = Some tb →
dget (u "episodic_backlog") (thresholds c) = Some te →
dget (u "stall_seconds") (thresholds c) = Some ts →
let due :=
  (tb <=? breakers)
  || match backlog with Some b => te <=? b | None => false end
  || match gov_since_progress now (fb_governor c) with
     | Some s => fltb (f_of_Z ts) s | None => false end in
let r := evaluate now breakers backlog c in
(fb_mode_of c ≠ NORMAL_MODE → r = (c, Ok (status c))) ∧
(fb_mode_of c = NORMAL_MODE → due = false → r = (c, Ok (status c))) ∧
(fb_mode_of c = NORMAL_MODE → due = true →
   fb_mode_of r.1 ≠ NORMAL_MODE ∧ safe_governor (fb_governor r.1)).
Proof.
intros Eb Ee Es. simpl.
set (t1 := if tb <=? breakers then
  [(u "circuit_breakers_open", str_of_Z breakers ++ u " open circuit(s)")] else []).
set (t2 := match backlog with Some b => if te <=? b then
  [(u "episodic_backlog", str_of_Z b ++ u " unconsumed Tier 1 events")] else []
  | None => [] end).
set (t3 := match gov_since_progress now (fb_governor c) with Some s =>
  if fltb (f_of_Z ts) s then
    [(u "task_stalled", u "no progress for " ++ fmt_1f s ++ u "s")] else []
  | None => [] end).
assert (evaluate now breakers backlog c =
  if decide (fb_mode_of c ≠ NORMAL_MODE) then (c, Ok (status c))
  else (fire_all (t1 ++ t2 ++ t3) ;; c' ← get; mret (status c')) c) as ->.
{ unfold evaluate, threshold. py_unfold. case_decide; [done|].
  rewrite Eb. subst t1 t2 t3.
  destruct backlog; simpl; rewrite ?Ee;
    destruct (gov_since_progress now (fb_governor c)); simpl; by rewrite ?Es. }
py_unfold. split; [|split]; intros Hn; (case_decide; [done|]); try done.
- intros [[Hb1 Hb2]%orb_false_iff Hb3]%orb_false_iff.
  assert (t1 ++ t2 ++ t3 = []) as ->; [|done]. subst t1 t2 t3. rewrite Hb1.
  destruct backlog; rewrite ?Hb2;
    destruct (gov_since_progress _ _); by rewrite ?Hb3.
- intros Hd. assert (t1 ++ t2 ++ t3 ≠ []) as Hne.
  { subst t1 t2 t3. destruct (tb <=? breakers); [done|]. simpl in Hd.
    destruct backlog as [b|]; simpl in *; [destruct (te <=? b); [done|]|];
      destruct (gov_since_progress _ _); simpl in *; try done; by rewrite Hd. }
  pose proof (fire_all_abnormal _ c (or_intror Hne)).
  pose proof (fire_all_safe _ c Hne).
  by destruct (fire_all (t1 ++ t2 ++ t3) c) as [c' [[]|e]].
Qed.

(** An operator resume is all or nothing: when the governor accepts it,
  the controller is back in normal mode with every violation count
  cleared and the governor idle; when the governor refuses, the exception
  propagates and the controller is unchanged.  A halted governor always
  refuses. *)
Theorem resume_all_or_nothing now who c :
let r := fb_resume now who c in
(r.2 = Ok tt ∧ fb_mode_of r.1 = NORMAL_MODE ∧ violations r.1 = [] ∧
   last_detail r.1 = [] ∧ gov_mode (fb_governor r.1) = IDLE ∧
   gov_state (fb_governor c) ≠ HALTED)
∨ (is_ok r.2 = false ∧ r.1 = c).
Proof. apply fb_resume_cases. Qed.

(** The controller does not keep a halt: after the governor has halted,
  a later pause-severity report makes the controller claim the paused
  mode, although the governor is still halted and no resume can succeed. *)
Theorem halted_mode_overwritten kind detail c now who :
gov_state (fb_governor c) = HALTED →
kind ∉ THRESHOLDED → severity_of kind c = u "pause" →
let r := report_violation kind detail c in
fb_mode_of r.1 = PAUSED_MODE ∧ gov_state (fb_governor r.1) = HALTED ∧
is_ok (fb_resume now who r.1).2 = false.
Proof.
intros Hh Hk Hs. simpl. rewrite report_violation_fires.
set (c1 := with_counts _ _ c).
assert (escalates kind c = true) as ->.
{ unfold escalates. by rewrite bool_decide_eq_false_2. }
pose proof (fire_spec kind detail c1) as (Hm & _ & _ & Hg & _).
assert (severity_of kind c1 = u "pause") as E by done.
rewrite E in Hm. split; [done|]. specialize (Hg Hh). split; [done|].
destruct (fb_resume_cases now who (fire kind detail c1).1); naive_solver.
Qed.
End ControllerTheorems.

(** ** Witnesses *)

Definition demo_controller : FallbackController governor :=
  new_controller (new_governor 5 f1 f1 false) true [] [].

Lemma report_violation_escalates_witness :
  let r := report_violation (u "memory_failure") [] demo_controller in
  fb_mode_of r.1 = HALTED_MODE ∧ is_ok r.2 = false.
Proof.
  simpl.
  destruct (report_violation_escalates (u "memory_failure") [] demo_controller)
    as (_ & _ & H).
  destruct (H eq_refl) as (Hm & _ & Hr & _).
  split; [exact Hm|by apply Hr].
Defined.

Lemma evaluate_fires_when_due_witness :
  fb_mode_of (evaluate f1 2 None demo_controller).1 ≠ NORMAL_MODE.
Proof.
  destruct (evaluate_fires_when_due f1 2 None demo_controller 2 200 120
              eq_refl eq_refl eq_refl) as (_ & _ & H).
  by destruct (H eq_refl eq_refl).
Defined.

Lemma resume_all_or_nothing_witness :
  (fb_resume f1 (u "op") demo_controller).1 = demo_controller.
Proof.
  destruct (resume_all_or_nothing f1 (u "op") demo_controller) as [[H _]|[_ H]];
    [by vm_compute in H|exact H].
Defined.

Lemma halted_mode_overwritten_witness :
  let c := (report_violation (u "audit_failure") [] demo_controller).1 in
  fb_mode_of (report_violation (u "planning_failure") [] c).1 = PAUSED_MODE.
Proof.
  intros c.
  refine (proj1 (halted_mode_overwritten (u "planning_failure") [] c f1 [] _ _ _));
    [reflexivity| |reflexivity].
  apply (bool_decide_unpack _). reflexivity.
Defined.
