(* ===== verification/Regex.v ===== *)
(** * Regular expressions of Python's [re] module

    The fragment of [re] the assistant's rules are written in: patterns are
    kept as the texts of the source and read by a parser ([parse], [rx]);
    matching ([run], [scan]) tries the alternatives in the order Python's
    backtracking engine does, so that the match found, and not only whether
    there is one, is the engine's.

    [denotes] says declaratively which stretches of a text a pattern matches;
    [search_exact] shows that [search] finds a match exactly when some
    stretch matches, and that it is one of those that begin first.

    Repetition of a body that may match the empty text stops after an empty
    round, as in Python.  Classes beyond ASCII: [\s] and [\d] are exact, [\w]
    is the table [WordTable]; ignoring case is exact for patterns in ASCII. *)

From Stdlib Require Import ZArith NArith Lia Ascii.
From stdpp Require Import relations.
From S2P Require Import Prelude PyStr PyVal.

Local Open Scope N_scope.

(** The characters beyond ASCII that [\w] matches. *)
Class WordTable := word_beyond : N → bool.
Definition ascii_words : WordTable := λ _, false.

(** ** Syntax *)

(** The flags [re.IGNORECASE] and [re.MULTILINE]. *)
Record flags := Flags { ignorecase : bool; multiline : bool }.

Inductive charclass := CSpace | CWord | CDigit.

(** An element of a set: a range, or an escape such as [\s] or [\S]. *)
Inductive item :=
  | IRange (a b : N)
  | IClass (neg : bool) (c : charclass).

(** [^], [$] and [\b]. *)
Inductive anchor := ABegin | AEnd | ABoundary.

Inductive regex :=
  | REmpty
  | RSet (neg : bool) (l : list item)
  | RSeq (a b : regex)
  | RAlt (a b : regex)
  | RStar (greedy : bool) (a : regex)
  | RGroup (n : nat) (a : regex)
  | RAnchor (a : anchor)
  | RNot (a : regex).

(** A place in a text: the character before it and the text from it on. *)
Record pos := Pos { before : option N; rest : pystr }.

(** What the groups hold. *)
Notation caps := (list (nat * pystr)).

(** ** Patterns as they are written *)

Definition code (c : Ascii.ascii) : N := Ascii.N_of_ascii c.
Arguments code _%_char.

Definition lit (c : N) : regex := RSet false [IRange c c].
Definition escape_class (c : N) : option item :=
  if c =? code "s" then Some (IClass false CSpace)
  else if c =? code "S" then Some (IClass true CSpace)
  else if c =? code "w" then Some (IClass false CWord)
  else if c =? code "W" then Some (IClass true CWord)
  else if c =? code "d" then Some (IClass false CDigit)
  else if c =? code "D" then Some (IClass true CDigit)
  else None.

(** [n] copies, and up to [n] further copies. *)
Fixpoint times (n : nat) (r : regex) : regex :=
  match n with O => REmpty | S O => r | S n => RSeq r (times n r) end.

Fixpoint up_to (greedy : bool) (n : nat) (r : regex) : regex :=
  match n with
  | O => REmpty
  | S m =>
      let more := match m with O => r | _ => RSeq r (up_to greedy m r) end in
      if greedy then RAlt more REmpty else RAlt REmpty more
  end.

(** [r{lo,hi}], lazy with [?] after it. *)
Definition repeat_of (greedy : bool) (lo : nat) (hi : option nat) (r : regex) : regex :=
  let more := match hi with Some h => up_to greedy (h - lo) r | None => RStar greedy r end in
  match lo with
  | O => more
  | _ => match hi with
         | Some h => if (h =? lo)%nat then times lo r else RSeq (times lo r) more
         | None => RSeq (times lo r) more
         end
  end.

(** The inside of [[...]]. *)
Fixpoint parse_items (fuel : nat) (s : pystr) : option (list item * pystr) :=
  match fuel with
  | O => None
  | S f =>
      match s with
      | [] => None
      | c :: s1 =>
          if c =? code "]" then Some ([], s1)
          else if c =? code "\" then
            match s1 with
            | e :: s2 =>
                i ← Some (default (IRange e e) (escape_class e));
                '(l, s3) ← parse_items f s2; Some (i :: l, s3)
            | [] => None
            end
          else
            match s1 with
            | h :: d :: s2 =>
                if (h =? code "-") && negb (d =? code "]")
                then '(l, s3) ← parse_items f s2; Some (IRange c d :: l, s3)
                else '(l, s3) ← parse_items f s1; Some (IRange c c :: l, s3)
            | _ => '(l, s3) ← parse_items f s1; Some (IRange c c :: l, s3)
            end
      end
  end.

(** A decimal number, if the text begins with one. *)
Definition parse_num (s : pystr) : option nat * pystr :=
  let '(d, s') := span is_digit s in
  (match d with [] => None | _ => Z.to_nat <$> parse_digits 0%Z d end, s').

(** The quantifier after an atom: its bounds and what follows. *)
Definition parse_quant (s : pystr) : option ((nat * option nat) * pystr) :=
  match s with
  | c :: s1 =>
      if c =? code "*" then Some ((O, None), s1)
      else if c =? code "+" then Some ((1%nat, None), s1)
      else if c =? code "?" then Some ((O, Some 1%nat), s1)
      else if c =? code "{" then
        let '(lo, s2) := parse_num s1 in
        match s2 with
        | d :: s3 =>
            if d =? code "}" then n ← lo; Some ((n, Some n), s3)
            else if d =? code "," then
              let '(hi, s4) := parse_num s3 in
              match s4 with
              | e :: s5 => if e =? code "}" then Some ((default O lo, hi), s5) else None
              | [] => None
              end
            else None
        | [] => None
        end
      else None
  | [] => None
  end.

(** An atom with its quantifier. *)
Definition quantified (a : regex) (s : pystr) : regex * pystr :=
  match parse_quant s with
  | None => (a, s)
  | Some ((lo, hi), s1) =>
      match s1 with
      | c :: s2 => if c =? code "?" then (repeat_of false lo hi a, s2) else (repeat_of true lo hi a, s1)
      | [] => (repeat_of true lo hi a, s1)
      end
  end.

(** [n] groups have been opened so far. *)
Fixpoint parse_alt (fuel : nat) (n : nat) (s : pystr) : option (regex * nat * pystr) :=
  match fuel with
  | O => None
  | S f =>
      '(a, n1, s1) ← parse_seq f n s;
      match s1 with
      | c :: s2 => if c =? code "|" then '(b, n2, s3) ← parse_alt f n1 s2; Some (RAlt a b, n2, s3)
                   else Some (a, n1, s1)
      | [] => Some (a, n1, s1)
      end
  end
with parse_seq (fuel : nat) (n : nat) (s : pystr) : option (regex * nat * pystr) :=
  match fuel with
  | O => None
  | S f =>
      match s with
      | [] => Some (REmpty, n, s)
      | c :: _ =>
          if (c =? code "|") || (c =? code ")") then Some (REmpty, n, s)
          else
            '(a, n1, s1) ← parse_atom f n s;
            let '(q, s2) := quantified a s1 in
            '(b, n2, s3) ← parse_seq f n1 s2;
            Some (match b with REmpty => q | _ => RSeq q b end, n2, s3)
      end
  end
with parse_atom (fuel : nat) (n : nat) (s : pystr) : option (regex * nat * pystr) :=
  match fuel with
  | O => None
  | S f =>
      let closed (wrap : regex → regex) (n : nat) (s : pystr) :=
        '(a, n1, s1) ← parse_alt f n s;
        match s1 with
        | c :: s2 => if c =? code ")" then Some (wrap a, n1, s2) else None
        | [] => None
        end in
      match s with
      | [] => None
      | c :: s1 =>
          if c =? code "(" then
            match s1 with
            | q :: k :: s2 =>
                if q =? code "?" then
                  if k =? code ":" then closed id n s2
                  else if k =? code "!" then closed RNot n s2
                  else None
                else closed (RGroup (S n)) (S n) s1
            | _ => closed (RGroup (S n)) (S n) s1
            end
          else if c =? code "[" then
            match s1 with
            | h :: s2 =>
                if h =? code "^" then '(l, s3) ← parse_items f s2; Some (RSet true l, n, s3)
                else '(l, s3) ← parse_items f s1; Some (RSet false l, n, s3)
            | [] => None
            end
          else if c =? code "\" then
            match s1 with
            | e :: s2 =>
                Some (match escape_class e with
                      | Some i => RSet false [i]
                      | None => if e =? code "b" then RAnchor ABoundary else lit e
                      end, n, s2)
            | [] => None
            end
          else if c =? code "^" then Some (RAnchor ABegin, n, s1)
          else if c =? code "$" then Some (RAnchor AEnd, n, s1)
          else if c =? code "." then Some (RSet true [IRange 10 10], n, s1)
          else Some (lit c, n, s1)
      end
  end.

(** [re.compile]; every recursive call spends one unit of fuel and at most
    three of them read one character. *)
Definition parse (s : pystr) : option regex :=
  '(r, _, s') ← parse_alt (3 * length s + 3) 0 s;
  match s' with [] => Some r | _ => None end.

(** A pattern of the source; one that does not parse matches nothing. *)
Definition rx_of (s : pystr) : regex := default (RSet false []) (parse s).
Definition rx (s : string) : regex := rx_of (u s).
Arguments rx _%_string.

(** ** Matching *)

(** The character all case variants of [c] are compared as: ASCII, and the
    four characters beyond it that equal an ASCII letter when case is
    ignored. *)
Definition fold_case (c : N) : N :=
  if (65 <=? c) && (c <=? 90) then c + 32
  else if (c =? 304) || (c =? 305) then 105
  else if c =? 383 then 115
  else if c =? 8490 then 107
  else c.

Definition in_range (a b c : N) : bool := (a <=? c) && (c <=? b).

(** The case variants of a character. *)
Definition variants (c : N) : list N :=
  let l := fold_case c in
  c :: l :: (if in_range 97 122 l then [l - 32] else [])
  ++ (if l =? 105 then [304; 305] else if l =? 115 then [383] else if l =? 107 then [8490] else []).

Definition shorter (p' p : pos) : bool := (length (rest p') <? length (rest p))%nat.
Arguments shorter : simpl never.

(** The text between two places. *)
Definition between (p p' : pos) : pystr := take (length (rest p) - length (rest p')) (rest p).

(** [r*]: rounds of the body, greedy or lazy; [n] bounds the rounds. *)
Fixpoint rounds (body : pos → caps → (pos → caps → option (pos * caps)) → option (pos * caps))
    (greedy : bool) (n : nat) (k : pos → caps → option (pos * caps)) (p : pos) (g : caps)
    : option (pos * caps) :=
  match n with
  | O => k p g
  | S n =>
      let again (_ : unit) :=
        body p g (λ p' g', if shorter p' p then rounds body greedy n k p' g' else None) in
      if greedy
      then match again tt with Some x => Some x | None => k p g end
      else match k p g with Some x => Some x | None => again tt end
  end.

Section Matching.
Context `{WordTable} (fl : flags).

Definition is_word : N → bool := word_char word_beyond.

Definition in_class (k : charclass) (c : N) : bool :=
  match k with
  | CSpace => is_space c
  | CWord => is_word c
  | CDigit => bool_decide (is_Some (digit_value c))
  end.

Definition in_item (c : N) (i : item) : bool :=
  match i with
  | IRange a b => if ignorecase fl then existsb (in_range a b) (variants c) else in_range a b c
  | IClass neg k => xorb neg (in_class k c)
  end.

Definition in_set (neg : bool) (l : list item) (c : N) : bool := xorb neg (existsb (in_item c) l).

Definition word_before (p : pos) : bool := match before p with Some c => is_word c | None => false end.
Definition word_after (p : pos) : bool := match rest p with c :: _ => is_word c | [] => false end.

Definition holds (a : anchor) (p : pos) : bool :=
  match a with
  | ABegin => match before p with None => true | Some c => multiline fl && (c =? 10) end
  | AEnd => match rest p with
            | [] => true
            | [c] => c =? 10
            | c :: _ => multiline fl && (c =? 10)
            end
  | ABoundary => xorb (word_before p) (word_after p)
  end.

(** The backtracking matcher: [k] is what has to match afterwards. *)
Fixpoint run (r : regex) (p : pos) (g : caps) (k : pos → caps → option (pos * caps))
    : option (pos * caps) :=
  match r with
  | REmpty => k p g
  | RSet neg l =>
      match rest p with
      | c :: s => if in_set neg l c then k (Pos (Some c) s) g else None
      | [] => None
      end
  | RSeq a b => run a p g (λ p' g', run b p' g' k)
  | RAlt a b => match run a p g k with Some x => Some x | None => run b p g k end
  | RStar greedy a => rounds (run a) greedy (length (rest p)) k p g
  | RGroup n a => run a p g (λ p' g', k p' (dset n (between p p') g'))
  | RAnchor a => if holds a p then k p g else None
  | RNot a => match run a p g (λ p' g', Some (p', g')) with Some _ => None | None => k p g end
  end.

(** [pattern.match] at a place, and [pattern.search] from it on. *)
Definition match_at (r : regex) (p : pos) : option (pos * caps) := run r p [] (λ p' g', Some (p', g')).

Fixpoint scan (r : regex) (b : option N) (s : pystr) : option (pos * (pos * caps)) :=
  match match_at r (Pos b s) with
  | Some x => Some (Pos b s, x)
  | None => match s with [] => None | c :: s' => scan r (Some c) s' end
  end.
End Matching.

(** A match object: where it begins and ends and what its groups hold. *)
Record rmatch := Match { m_start : pos; m_end : pos; m_groups : caps }.

(** [m.group(n)]. *)
Definition group (n : nat) (m : rmatch) : option pystr :=
  match n with O => Some (between (m_start m) (m_end m)) | _ => dget n (m_groups m) end.

(** Group [n] of a match in which it took part. *)
Definition group_text (n : nat) (m : rmatch) : pystr := default [] (group n m).

Definition no_flags : flags := Flags false false.
Definition re_i : flags := Flags true false.
Definition re_m : flags := Flags false true.

Section Searching.
Context `{WordTable}.

Definition search (fl : flags) (r : regex) (s : pystr) : option rmatch :=
  '(p, (p', g)) ← scan fl r None s; Some (Match p p' g).

Definition matches (fl : flags) (r : regex) (s : pystr) : bool := bool_decide (is_Some (search fl r s)).

(** [re.match]. *)
Definition match_start (fl : flags) (r : regex) (s : pystr) : option rmatch :=
  '(p', g) ← match_at fl r (Pos None s); Some (Match (Pos None s) p' g).

(** [pattern.sub(text, s)] of a pattern whose matches are not empty. *)
Fixpoint sub_from (fuel : nat) (fl : flags) (r : regex) (text : pystr) (b : option N) (s : pystr) : pystr :=
  match fuel with
  | O => s
  | S f =>
      match scan fl r b s with
      | None => s
      | Some (p, (p', _)) => between (Pos b s) p ++ text ++ sub_from f fl r text (before p') (rest p')
      end
  end.
Definition sub (fl : flags) (r : regex) (text s : pystr) : pystr :=
  sub_from (S (length s)) fl r text None s.
End Searching.

(** ** What a pattern means *)

Section Meaning.
Context `{WordTable} (fl : flags).

Definition place : Type := pos * caps.

(** One round of a repetition moves on. *)
Definition moves (R : place → place → Prop) (x y : place) : Prop :=
  R x y ∧ (length (rest y.1) < length (rest x.1))%nat.

(** [denotes r x y]: from [x] the pattern can match up to [y]. *)
Fixpoint denotes (r : regex) : place → place → Prop := λ x y,
  match r with
  | REmpty => y = x
  | RSet neg l => ∃ c s, rest x.1 = c :: s ∧ in_set fl neg l c = true ∧ y = (Pos (Some c) s, x.2)
  | RSeq a b => ∃ z, denotes a x z ∧ denotes b z y
  | RAlt a b => denotes a x y ∨ denotes b x y
  | RStar _ a => rtc (moves (denotes a)) x y
  | RGroup n a => ∃ z, denotes a x z ∧ y = (z.1, dset n (between x.1 z.1) z.2)
  | RAnchor a => holds fl a x.1 = true ∧ y = x
  | RNot a => (∀ z, ¬ denotes a x z) ∧ y = x
  end.
End Meaning.

(** ** Lemmas *)

(** What it takes for a matcher to be the pattern's. *)
Definition adequate (R : place → place → Prop)
    (m : pos → caps → (pos → caps → option (pos * caps)) → option (pos * caps)) : Prop :=
  ∀ p g k,
    (∀ out, m p g k = Some out → ∃ y, R (p, g) y ∧ k y.1 y.2 = Some out) ∧
    (∀ y, R (p, g) y → is_Some (k y.1 y.2) → is_Some (m p g k)).

Lemma rounds_sound R body greedy (Hb : adequate R body) n : ∀ k p g out,
  rounds body greedy n k p g = Some out → ∃ y, rtc (moves R) (p, g) y ∧ k y.1 y.2 = Some out.
Proof.
  induction n as [|n IH]; intros k p g out E; cbn in E.
  { exists (p, g). split; [constructor|done]. }
  set (again := body p g _) in E.
  assert (Ha : again = Some out → ∃ y, rtc (moves R) (p, g) y ∧ k y.1 y.2 = Some out).
  { intros (z & Hz & Ez)%Hb. destruct (shorter z.1 p) eqn:Es; [|done].
    apply IH in Ez as (y & Hy & Ey). exists y. split; [|done]. rewrite <- surjective_pairing in Hy. apply rtc_l with z; [|done].
    split; [done|]. by apply Nat.ltb_lt in Es. }
  assert (Hk : k p g = Some out → ∃ y, rtc (moves R) (p, g) y ∧ k y.1 y.2 = Some out).
  { intros Ek. exists (p, g). split; [constructor|done]. }
  destruct greedy.
  - destruct again; naive_solver.
  - destruct (k p g); naive_solver.
Qed.

Lemma rounds_complete R body greedy (Hb : adequate R body) k x y :
  rtc (moves R) x y → is_Some (k y.1 y.2) → ∀ n, (length (rest x.1) ≤ n)%nat →
  is_Some (rounds body greedy n k x.1 x.2).
Proof.
  intros Hxy Hk. induction Hxy as [x|x z y [Hz Hl] Hzy IH]; intros n Hn.
  - destruct n as [|n]; [done|]. cbn. destruct Hk as [out Ek]. destruct greedy; [|by rewrite Ek].
    destruct (body _ _ _); [done|]. by rewrite Ek.
  - destruct n as [|n]; [lia|]. cbn.
    assert (is_Some (body x.1 x.2 (λ p' g', if shorter p' x.1 then rounds body greedy n k p' g' else None))) as Ha.
    { apply (proj2 (Hb x.1 x.2 _)) with z; [by rewrite <- surjective_pairing|].
      unfold shorter. destruct (Nat.ltb_spec (length (rest z.1)) (length (rest x.1))); [|lia].
      apply IH; [done|lia]. }
    destruct greedy; [by destruct Ha as [? ->]|]. by destruct (k x.1 x.2).
Qed.

Section Adequacy.
Context `{WordTable} (fl : flags).

(** The matcher finds what the pattern means, and nothing else. *)
Lemma run_adequate r : adequate (denotes fl r) (run fl r).
Proof.
  induction r as [|neg l|a IHa b IHb|a IHa b IHb|greedy a IHa|m a IHa|a|a IHa];
    intros p g k; cbn [run denotes fst snd].
  - split; [intros out E; by exists (p, g)|by intros ? ->].
  - destruct (rest p) as [|c s]; [split; [done|by intros ? (? & ? & ? & ?)]|].
    destruct (in_set fl neg l c) eqn:Ei; split.
    + intros out E. exists (Pos (Some c) s, g). eauto 10.
    + intros y (c' & s' & [= <- <-] & _ & ->). done.
    + done.
    + intros y (c' & s' & [= <- <-] & ? & _). congruence.
  - split.
    + intros out (z & Hz & E)%IHa. apply IHb in E as (y & Hy & Ey).
      exists y. split; [|done]. exists z. split; [done|]. by rewrite <- surjective_pairing in Hy.
    + intros y (z & Hz & Hy) Hk. apply (proj2 (IHa p g _) z Hz).
      apply (proj2 (IHb z.1 z.2 _) y); [by rewrite <- surjective_pairing|done].
  - split.
    + intros out E. destruct (run fl a p g k) eqn:Ea.
      * injection E as ->. apply IHa in Ea as (y & ? & ?). eauto.
      * apply IHb in E as (y & ? & ?). eauto.
    + intros y [Hy|Hy] Hk.
      * by destruct (proj2 (IHa p g k) y Hy Hk) as [? ->].
      * destruct (run fl a p g k); [done|]. by apply (proj2 (IHb p g k) y).
  - split; [apply (rounds_sound _ _ _ IHa)|].
    intros y Hy Hk. by apply (rounds_complete _ _ greedy IHa k (p, g) y).
  - split.
    + intros out (z & Hz & E)%IHa. exists (z.1, dset m (between p z.1) z.2). eauto.
    + intros y (z & Hz & ->) Hk. by apply (proj2 (IHa p g _) z Hz).
  - destruct (holds fl a p) eqn:Eh; split; [by eexists (_, _)|by intros ? [_ ->]|done|by intros ? [? _]].
  - destruct (run fl a p g _) as [q|] eqn:Ea; split.
    + done.
    + apply IHa in Ea as (z & Hz & _). intros y [Hn _]. by destruct (Hn z).
    + intros out E. exists (p, g). split; [split; [|done]|done].
      intros z Hz. destruct (proj2 (IHa p g (λ p' g', Some (p', g'))) z Hz) as [? E']; [done|].
      congruence.
    + by intros y [_ ->].
Qed.
End Adequacy.

(** The place before the [n]-th character of a text. *)
Definition place_of (s : pystr) (n : nat) : pos := Pos (last (take n s)) (drop n s).

Section Exactness.
Context `{WordTable} (fl : flags).
Implicit Types (r : regex) (s : pystr).

Lemma match_at_sound r p y : match_at fl r p = Some y → denotes fl r (p, []) y.
Proof.
  intros (z & Hz & E)%(run_adequate fl r). destruct z as [q g']. by injection E as <-.
Qed.

Lemma match_at_None r p : match_at fl r p = None ↔ ∀ y, ¬ denotes fl r (p, []) y.
Proof.
  split.
  - intros E y Hy. destruct (proj2 (run_adequate fl r p [] (λ p' g', Some (p', g'))) y Hy) as [? E']; [done|].
    unfold match_at in E. congruence.
  - intros Hn. destruct (match_at fl r p) as [y|] eqn:E; [|done]. by destruct (Hn y); apply match_at_sound.
Qed.

Lemma scan_spec r s : ∀ a,
  match scan fl r (last a) s with
  | Some (p, y) => ∃ n, n ≤ length s ∧ p = place_of (a ++ s) (length a + n) ∧
                   match_at fl r p = Some y ∧
                   ∀ i, length a ≤ i < length a + n → match_at fl r (place_of (a ++ s) i) = None
  | None => ∀ i, length a ≤ i ≤ length (a ++ s) → match_at fl r (place_of (a ++ s) i) = None
  end%nat.
Proof.
  induction s as [|c s IH]; intros a; cbn [scan].
  - assert (Ep : place_of (a ++ []) (length a) = Pos (last a) []).
    { unfold place_of. by rewrite take_app_length, drop_app_length. }
    destruct (match_at fl r (Pos (last a) [])) as [y|] eqn:E.
    + exists 0%nat. rewrite Nat.add_0_r, Ep. split_and!; [done..|lia].
    + intros i Hi. rewrite length_app in Hi. cbn in Hi. replace i with (length a) by lia. by rewrite Ep.
  - assert (Ep : place_of (a ++ c :: s) (length a) = Pos (last a) (c :: s)).
    { unfold place_of. by rewrite take_app_length, drop_app_length. }
    destruct (match_at fl r (Pos (last a) (c :: s))) as [y|] eqn:E.
    + exists 0%nat. rewrite Nat.add_0_r, Ep. split_and!; [cbn; lia|done..|lia].
    + specialize (IH (a ++ [c])). rewrite last_snoc in IH.
      assert (Es : (a ++ [c]) ++ s = a ++ c :: s) by by rewrite <- app_assoc.
      rewrite Es, length_app in IH. cbn [length] in IH.
      destruct (scan fl r (Some c) s) as [[p y]|].
      * destruct IH as (n & Hn & -> & Em & Hi). exists (S n).
        split_and!; [cbn; lia|f_equal; lia|done|].
        intros i Hi'. destruct (decide (i = length a)) as [->|Hne]; [by rewrite Ep|]. apply Hi. lia.
      * intros i Hi'. destruct (decide (i = length a)) as [->|Hne]; [by rewrite Ep|]. apply IH. lia.
Qed.

(** [re.search] answers with a match exactly when some stretch of the text
    matches, and the match begins at the first place where one does. *)
Lemma search_exact r s :
  match search fl r s with
  | Some m => ∃ n, (n ≤ length s)%nat ∧ m_start m = place_of s n ∧
              denotes fl r (m_start m, []) (m_end m, m_groups m) ∧
              ∀ i y, (i < n)%nat → ¬ denotes fl r (place_of s i, []) y
  | None => ∀ i y, (i ≤ length s)%nat → ¬ denotes fl r (place_of s i, []) y
  end.
Proof.
  pose proof (scan_spec r s []) as Hs. cbn [last app length Nat.add] in Hs. unfold search.
  destruct (scan fl r None s) as [[p [q g]]|]; cbn.
  - destruct Hs as (n & Hn & -> & Em & Hi). exists n. split_and!; [done..|by apply match_at_sound|].
    intros i y Hi'. apply match_at_None. apply Hi. lia.
  - intros i y Hi. apply match_at_None. apply Hs. lia.
Qed.

(** A pattern that matches at some place of a text is found in it. *)
Lemma matches_place r s i : (i ≤ length s)%nat → is_Some (match_at fl r (place_of s i)) →
  matches fl r s = true.
Proof.
  intros Hi [y Ey%match_at_sound]. unfold matches. apply bool_decide_true.
  pose proof (search_exact r s) as Hs. destruct (search fl r s); [done|]. by destruct (Hs i y Hi).
Qed.

Lemma matches_iff r s : matches fl r s = true ↔
  ∃ i y, (i ≤ length s)%nat ∧ denotes fl r (place_of s i, []) y.
Proof.
  unfold matches. rewrite bool_decide_eq_true. pose proof (search_exact r s) as Hs. split.
  - intros [m E]. rewrite E in Hs. destruct Hs as (n & Hn & Ep & Hd & _). rewrite Ep in Hd. eauto.
  - intros (i & y & Hi & Hy). destruct (search fl r s); [done|]. by destruct (Hs i y Hi).
Qed.

(** A match does not go back, and reads what lies between. *)
Lemma denotes_suffix r x y : denotes fl r x y → ∃ w, rest x.1 = w ++ rest y.1.
Proof.
  revert x y. induction r as [|neg l|a IHa b IHb|a IHa b IHb|greedy a IHa|m a IHa|a|a IHa];
    intros x y; cbn [denotes].
  - intros ->. by exists [].
  - intros (c & s & E & _ & ->). by exists [c].
  - intros (z & (w & E)%IHa & (w' & E')%IHb). exists (w ++ w'). by rewrite <- app_assoc, <- E', <- E.
  - intros [?%IHa|?%IHb]; done.
  - induction 1 as [|x z y [(w & E)%IHa _] _ (w' & E')]; [by exists []|].
    exists (w ++ w'). by rewrite <- app_assoc, <- E', <- E.
  - intros (z & (w & E)%IHa & ->). eauto.
  - intros [_ ->]. by exists [].
  - intros [_ ->]. by exists [].
Qed.
End Exactness.

(** The matcher's equations. *)
Section Equations.
Context `{WordTable} (fl : flags).
Lemma run_seq a b p g k : run fl (RSeq a b) p g k = run fl a p g (λ p' g', run fl b p' g' k).
Proof. reflexivity. Qed.
Lemma run_group n a p g k : run fl (RGroup n a) p g k = run fl a p g (λ p' g', k p' (dset n (between p p') g')).
Proof. reflexivity. Qed.
Lemma run_star greedy a p g k : run fl (RStar greedy a) p g k = rounds (run fl a) greedy (length (rest p)) k p g.
Proof. reflexivity. Qed.
Lemma run_set neg l b c s g k :
  run fl (RSet neg l) (Pos b (c :: s)) g k = if in_set fl neg l c then k (Pos (Some c) s) g else None.
Proof. reflexivity. Qed.
End Equations.

(** A greedy run of characters of a set takes all of them when the rest can
    then match. *)
Section Runs.
Context `{WordTable} (fl : flags).

Lemma rounds_set_all neg l w s g k out : ∀ b n,
  Forall (λ c, in_set fl neg l c = true) w → (length w ≤ n)%nat →
  (∀ c s', s = c :: s' → in_set fl neg l c = false) →
  k (Pos (match last w with Some c => Some c | None => b end) s) g = Some out →
  rounds (run fl (RSet neg l)) true n k (Pos b (w ++ s)) g = Some out.
Proof.
  pose (body := run fl (RSet neg l)). fold body.
  assert (Hb : ∀ c t b g k, body (Pos b (c :: t)) g k = if in_set fl neg l c then k (Pos (Some c) t) g else None)
    by done.
  assert (Hn : ∀ b g k, body (Pos b []) g k = None) by done.
  clearbody body. induction w as [|c w IH]; intros b n Hw Hl Hs Hk.
  - destruct n as [|n]; [done|]. cbn [rounds app]. destruct s as [|c s]; [by rewrite Hn|].
    by rewrite Hb, (Hs c s).
  - destruct n as [|n]; [cbn in Hl; lia|]. apply Forall_cons in Hw as [Hc Hw].
    cbn [rounds app]. rewrite Hb, Hc. unfold shorter at 1. cbn [rest length].
    destruct (Nat.ltb_spec (length (w ++ s)) (S (length (w ++ s)))); [|lia].
    rewrite (IH (Some c) n); [done|done|cbn in Hl; lia|done|].
    revert Hk. by destruct w as [|d w _] using rev_ind; [|rewrite app_comm_cons, !last_snoc].
Qed.

(** What a run of characters of a set reads. *)
Lemma star_set_reads greedy neg l x y : denotes fl (RStar greedy (RSet neg l)) x y →
  ∃ w, rest x.1 = w ++ rest y.1 ∧ Forall (λ c, in_set fl neg l c = true) w.
Proof.
  cbn [denotes]. induction 1 as [x|x z y [(c & s & E & Hc & ->) _] _ (w & Ew & Hw)]; [by exists []|].
  exists (c :: w). cbn in Ew. split; [by rewrite E, Ew|by constructor].
Qed.
End Runs.

(** ** First characters *)

(** Patterns that may match the empty text. *)
Fixpoint nullable (r : regex) : bool :=
  match r with
  | REmpty | RStar _ _ | RAnchor _ | RNot _ => true
  | RSet _ _ => false
  | RSeq a b => nullable a && nullable b
  | RAlt a b => nullable a || nullable b
  | RGroup _ a => nullable a
  end.

Section Firsts.
Context `{WordTable} (fl : flags).

(** The characters a match that reads something may begin with. *)
Fixpoint begins (r : regex) (c : N) : bool :=
  match r with
  | REmpty | RAnchor _ | RNot _ => false
  | RSet neg l => in_set fl neg l c
  | RSeq a b => begins a c || (nullable a && begins b c)
  | RAlt a b => begins a c || begins b c
  | RStar _ a | RGroup _ a => begins a c
  end.

Lemma denotes_first r : ∀ x y, denotes fl r x y →
  (nullable r = true ∧ rest y.1 = rest x.1) ∨ ∃ c s, rest x.1 = c :: s ∧ begins r c = true.
Proof.
  induction r as [|neg l|a IHa b IHb|a IHa b IHb|greedy a IHa|m a IHa|a|a IHa];
    intros x y; cbn [denotes nullable begins].
  - intros ->. auto.
  - intros (c & s & E & Hc & _). eauto.
  - intros (z & [[Na Ea]|(c & s & E & Hc)]%IHa & Hb).
    + rewrite Na. apply IHb in Hb as [[Nb Eb]|(c & s & E & Hc)].
      * left. by rewrite Eb.
      * right. exists c, s. rewrite <- Ea. split; [done|]. rewrite Hc. apply orb_true_r.
    + right. exists c, s. by rewrite Hc.
  - intros [[[N ?]|(c & s & E & Hc)]%IHa|[[N ?]|(c & s & E & Hc)]%IHb]; rewrite ?N, ?orb_true_r; auto;
      right; exists c, s; rewrite Hc, ?orb_true_r; auto.
  - intros Hs. inversion Hs as [|? z ? [Ha Hl] _]; subst; [auto|].
    apply IHa in Ha as [[_ E]|?]; [rewrite E in Hl; lia|auto].
  - intros (z & Hz & ->). apply IHa in Hz. exact Hz.
  - intros [_ ->]. auto.
  - intros [_ ->]. auto.
Qed.

(** The first place where a pattern matches is where [search] finds it. *)
Lemma search_first r s n p' g : (n ≤ length s)%nat → match_at fl r (place_of s n) = Some (p', g) →
  (∀ i, (i < n)%nat → match_at fl r (place_of s i) = None) →
  search fl r s = Some (Match (place_of s n) p' g).
Proof.
  intros Hn Em Hi. pose proof (scan_spec fl r s []) as Hs. cbn [last app length Nat.add] in Hs.
  unfold search. destruct (scan fl r None s) as [[p [q h]]|].
  - destruct Hs as (m & Hm & -> & Em' & Hi'). assert (m = n) as ->; [|cbn; congruence].
    destruct (lt_eq_lt_dec m n) as [[Hlt| ->]|Hlt]; [|done|].
    + rewrite Hi in Em'; [done|lia].
    + rewrite Hi' in Em; [done|lia].
  - rewrite Hs in Em; [done|lia].
Qed.
End Firsts.
