(* ===== verification/Intent.v ===== *)
(** * What the user wants ([src/subsystems/intent.py])

    The rule-based classifier of a transcript.  The rules are the source's
    regular expressions, read and run by [Regex]; the model answers exactly
    as the first rule that fires.  [int] of an overlong run of digits raises,
    so classification may. *)

From Stdlib Require Import ZArith NArith Lia.
From S2P Require Import Prelude PyFloat PyStr PyVal Regex.

Local Open Scope Z_scope.

(** [IntentType]. *)
Inductive intent_type := QUESTION | COMMAND | CHITCHAT | GREETING | FAREWELL | CONFUSED.

#[export] Instance intent_type_eq_dec : EqDecision intent_type.
Proof. solve_decision. Defined.

(** [UserIntent]. *)
Record user_intent := UserIntent {
  ui_type : intent_type;
  ui_transcript : pystr;
  ui_confidence : f64;
  ui_entities : list (pystr * pyval)
}.

(** ** The rules *)

Definition GREETING_PATTERNS : list regex :=
  [rx "^(hi|hello|hey|good\s+(morning|afternoon|evening)|howdy|what'?s\s+up)";
   rx "^(yo|sup|greetings)"].

Definition FAREWELL_PATTERNS : list regex :=
  [rx "(goodbye|bye|see\s+you|later|good\s+night|take\s+care)$";
   rx "^(bye|later|gotta\s+go|i'?m\s+leaving)"].

Definition COMMAND_PATTERNS : list regex :=
  [rx "^(set|create|start|stop|turn|open|close|play|pause|remind|show|tell|find|search|send|call|text|navigate|go\s+to)";
   rx "(set\s+a\s+timer|remind\s+me|turn\s+(on|off)|play\s+(some\s+)?music|what\s+time\s+is\s+it|what'?s\s+the\s+weather|check\s+(my\s+)?(battery|email|calendar))";
   rx "(call|text|message)\s+\w+";
   rx "^(remember|recall|forget)\b";
   rx "^(?!(what|who|where|when|why|how)\b).*\b(remember|forget)\s+(that|about|to)\b";
   rx "^(sync|share|mesh)\b"].

Definition QUESTION_PATTERNS : list regex :=
  [rx "^(what|who|where|when|why|how|which|is|are|can|could|would|do|does|did|have|has|will)";
   rx "\?$"].

Definition CHITCHAT_PATTERNS : list regex :=
  [rx "(how\s+are\s+you|how'?s\s+it\s+going|what'?s\s+new|tell\s+me\s+a\s+joke|do\s+you\s+(like|love|hate)|what\s+do\s+you\s+think\s+about)";
   rx "(i\s+(love|hate|like|miss|want)\s+)";
   rx "(thank|thanks|thx)"].

Definition TOOL_TOPICS : list (regex * pystr) :=
  [(rx "(temperature|thermometer|how\s+(hot|cold)\b|(is\s+it|it'?s)\s+(hot|cold|warm)\b|(hot|cold)\s+(outside|in\s+here|in\s+this\s+room)\b|degrees?\b)",
    u "temperature");
   (rx "(weather|forecast|\brain\b|\bsnow\b)", u "weather");
   (rx "(what'?s\s+the\s+time|what\s+time\s+is\s+it|tell\s+me\s+the\s+time|have\s+you\s+got\s+the\s+time|got\s+the\s+time|current\s+time|\bthe\s+time\b|\bclock\b)",
    u "time");
   (rx "(what'?s\s+the\s+date|what\s+is\s+the\s+date|what'?s\s+today'?s\s+date|what\s+day\s+is\s+it|what'?s\s+the\s+day|today'?s\s+date)",
    u "date");
   (rx "(battery|charge\s+level|how\s+much\s+(power|charge))", u "battery");
   (rx "(\bsensors?\b|telemetry|\breadings?\b|accelerometer|gyroscope|\bimu\b)", u "sensors")].

(** ** Entities of a command *)

Definition DIGITS_DURATION : regex := rx "(\d+)\s*(minute|min|second|sec|hour|hr)s?".
Definition WORDS_DURATION : regex :=
  rx "\b(zero|one|two|three|four|five|six|seven|eight|nine|ten|eleven|twelve|fifteen|twenty|thirty|a|an)\s+(minute|min|second|sec|hour|hr)s?\b".
Definition TARGET : regex := rx "(?:call|text|message)\s+(\w+)".
Definition ACTION_VERB : regex :=
  rx "^(set|create|start|stop|turn|open|close|play|pause|remind|remember|recall|forget|show|tell|find|search|send|call|text|sync|share|mesh)".
Definition MEMORY_TEXT : regex := rx "\b(?:remember|recall|forget)\s+(?:that\s+|about\s+|to\s+)?(.+)".

Definition NUMBER_WORDS : list (pystr * Z) :=
  [(u "zero", 0); (u "one", 1); (u "two", 2); (u "three", 3); (u "four", 4); (u "five", 5);
   (u "six", 6); (u "seven", 7); (u "eight", 8); (u "nine", 9); (u "ten", 10); (u "eleven", 11);
   (u "twelve", 12); (u "fifteen", 15); (u "twenty", 20); (u "thirty", 30)].

(** [1 if word in ("a", "an") else {...}.get(word, 1)]. *)
Definition word_value (w : pystr) : Z :=
  if bool_decide (w = u "a") || bool_decide (w = u "an") then 1 else default 1 (dget w NUMBER_WORDS).

Section Classifier.
Context `{WordTable}.

(** [_matches_any]. *)
Definition matches_any (l : list regex) (text : pystr) : bool :=
  existsb (λ p, matches re_i p text) l.

(** The duration a text names, in digits or in words. *)
Definition duration_entities (text : pystr) : res (list (pystr * pyval)) :=
  match search re_i DIGITS_DURATION text with
  | Some m =>
      n ← py_int_of_str (group_text 1 m);
      Ok [(u "duration_value", VInt n); (u "duration_unit", VStr (lower (group_text 2 m)))]
  | None =>
      Ok match search re_i WORDS_DURATION text with
         | Some m => [(u "duration_value", VInt (word_value (lower (group_text 1 m))));
                      (u "duration_unit", VStr (lower (group_text 2 m)))]
         | None => []
         end
  end.

(** [_extract_command_entities]. *)
Definition extract_command_entities (text : pystr) : res (list (pystr * pyval)) :=
  e ← duration_entities text;
  let e := match search re_i TARGET text with
           | Some m => dset (u "target") (VStr (group_text 1 m)) e
           | None => e
           end in
  let e := match match_start re_i ACTION_VERB text with
           | Some m => dset (u "action_verb") (VStr (lower (group_text 1 m))) e
           | None => e
           end in
  Ok match search re_i MEMORY_TEXT text with
     | Some m => dset (u "memory_text") (VStr (strip (group_text 1 m))) e
     | None => e
     end.

(** [IntentParser.classify]. *)
Definition classify (transcript : pystr) : res user_intent :=
  let text := strip transcript in
  if bool_decide (text = []) then Ok (UserIntent CONFUSED text (f_dec 1 1) [])
  else if matches_any FAREWELL_PATTERNS text then Ok (UserIntent FAREWELL text (f_dec 9 1) [])
  else if matches_any GREETING_PATTERNS text then Ok (UserIntent GREETING text (f_dec 9 1) [])
  else if matches_any COMMAND_PATTERNS text then
    e ← extract_command_entities text; Ok (UserIntent COMMAND text (f_dec 85 2) e)
  else if matches_any QUESTION_PATTERNS text then Ok (UserIntent QUESTION text (f_dec 8 1) [])
  else if matches_any CHITCHAT_PATTERNS text then Ok (UserIntent CHITCHAT text (f_dec 7 1) [])
  else if (length (split text) <=? 3)%nat then Ok (UserIntent CHITCHAT text (f_dec 4 1) [])
  else Ok (UserIntent QUESTION text (f_dec 4 1) []).

(** The first topic whose rule fires. *)
Fixpoint first_topic (l : list (regex * pystr)) (text : pystr) : option pystr :=
  match l with
  | [] => None
  | (p, topic) :: l' => if matches no_flags p text then Some topic else first_topic l' text
  end.

(** [IntentParser.tool_topic]. *)
Definition tool_topic (transcript : pystr) : option pystr :=
  let text := lower (strip transcript) in
  if bool_decide (text = []) || (120 <? Z.of_nat (length text)) then None
  else first_topic TOOL_TOPICS text.
End Classifier.

(** ** What the rules decide *)

(** Some stretch of the text is in the language of one of the rules. *)
Definition speaks `{WordTable} (l : list regex) (text : pystr) : Prop :=
  ∃ r i y, r ∈ l ∧ (i ≤ length text)%nat ∧ denotes re_i r (place_of text i, []) y.

(** A rule the parser reads, as every rule of the source is. *)
Definition is_read (r : regex) : bool := match r with RSet false [] => false | _ => true end.

Lemma rules_read :
  forallb is_read (GREETING_PATTERNS ++ FAREWELL_PATTERNS ++ COMMAND_PATTERNS ++ QUESTION_PATTERNS
                   ++ CHITCHAT_PATTERNS ++ TOOL_TOPICS.*1
                   ++ [DIGITS_DURATION; WORDS_DURATION; TARGET; ACTION_VERB; MEMORY_TEXT]) = true.
Proof. vm_compute. reflexivity. Qed.

Section IntentFacts.
Context `{WordTable}.
Implicit Types (text w : pystr).

Lemma matches_any_speaks l text : matches_any l text = true ↔ speaks l text.
Proof.
  unfold matches_any, speaks. rewrite existsb_exists. split.
  - intros (r & Hr%list_elem_of_In & (i & y & Hi & Hy)%matches_iff). eauto 10.
  - intros (r & i & y & Hr%list_elem_of_In & Hi & Hy). exists r. split; [done|]. apply matches_iff. eauto.
Qed.

(** The tests of [classify], in order. *)
Lemma classify_cases t i : classify t = Ok i →
  let text := strip t in
  ui_transcript i = text ∧
  match ui_type i with
  | CONFUSED => text = []
  | FAREWELL => text ≠ [] ∧ matches_any FAREWELL_PATTERNS text = true
  | GREETING => text ≠ [] ∧ matches_any FAREWELL_PATTERNS text = false ∧
                matches_any GREETING_PATTERNS text = true
  | COMMAND => text ≠ [] ∧ matches_any FAREWELL_PATTERNS text = false ∧
               matches_any GREETING_PATTERNS text = false ∧ matches_any COMMAND_PATTERNS text = true
  | QUESTION | CHITCHAT =>
      text ≠ [] ∧ matches_any FAREWELL_PATTERNS text = false ∧
      matches_any GREETING_PATTERNS text = false ∧ matches_any COMMAND_PATTERNS text = false
  end.
Proof.
  unfold classify. intros E. cbn zeta. set (text := strip t) in *. case_bool_decide; [by injection E as <-|].
  destruct (matches_any FAREWELL_PATTERNS text) eqn:Ef; [by injection E as <-|].
  destruct (matches_any GREETING_PATTERNS text) eqn:Eg; [by injection E as <-|].
  destruct (matches_any COMMAND_PATTERNS text) eqn:Ec.
  { apply res_bind_Ok in E as (e & _ & E). by injection E as <-. }
  destruct (matches_any QUESTION_PATTERNS text); [by injection E as <-|].
  destruct (matches_any CHITCHAT_PATTERNS text); [by injection E as <-|].
  destruct (length (split text) <=? 3)%nat; by injection E as <-.
Qed.

(** A text that has a stretch the rules read at a given place. *)
Lemma speaks_at (r : regex) l a w : r ∈ l → is_Some (match_at re_i r (Pos (last a) w)) →
  matches_any l (a ++ w) = true.
Proof.
  intros Hr Hm. apply existsb_exists. exists r. split; [by apply list_elem_of_In|].
  apply (matches_place _ _ _ (length a)); [rewrite length_app; lia|].
  unfold place_of. by rewrite take_app_length, drop_app_length.
Qed.
End IntentFacts.

(** Classification is the first kind of rule, in the order farewell,
    greeting, command, whose language some stretch of the stripped transcript
    belongs to; without one it is a question or chitchat, and only blank
    speech is confusing. *)
Theorem classify_by_language `{WordTable} (t : pystr) (i : user_intent) (E : classify t = Ok i) :
  let text := strip t in
  let F := speaks FAREWELL_PATTERNS text in
  let G := speaks GREETING_PATTERNS text in
  let C := speaks COMMAND_PATTERNS text in
  ui_transcript i = text ∧
  (ui_type i = CONFUSED ↔ text = []) ∧
  (ui_type i = FAREWELL ↔ text ≠ [] ∧ F) ∧
  (ui_type i = GREETING ↔ text ≠ [] ∧ ¬ F ∧ G) ∧
  (ui_type i = COMMAND ↔ text ≠ [] ∧ ¬ F ∧ ¬ G ∧ C).
Proof.
  destruct (classify_cases t i E) as [Et Hc]. cbn zeta in *. rewrite <- !matches_any_speaks.
  destruct (ui_type i); destruct (decide (strip t = []));
    destruct (matches_any FAREWELL_PATTERNS (strip t)), (matches_any GREETING_PATTERNS (strip t)),
             (matches_any COMMAND_PATTERNS (strip t)); naive_solver.
Qed.

(** Words are not looked at as words: whatever ends in "later" is a
    farewell, and whatever begins with "you" or "hi" (as in "his") is never a
    question or a command. *)
Theorem hasty_rules `{WordTable} (t w : pystr) (i : user_intent) (E : classify t = Ok i) :
  (strip t = w ++ u "later" → ui_type i = FAREWELL) ∧
  (strip t = u "you" ++ w ∨ strip t = u "hi" ++ w → ui_type i = FAREWELL ∨ ui_type i = GREETING).
Proof.
  destruct (classify_cases t i E) as [_ Hc]. cbn zeta in Hc. split.
  - intros Et. rewrite Et in Hc.
    assert (matches_any FAREWELL_PATTERNS (w ++ u "later") = true) as Hf.
    { eapply speaks_at; [by apply list_elem_of_here|]. vm_compute. eauto. }
    clear E Et. revert Hc. rewrite Hf. destruct (ui_type i); try naive_solver. by destruct w.
  - intros Et.
    assert (matches_any GREETING_PATTERNS (strip t) = true) as Hg.
    { destruct Et as [-> | ->];
        [apply (speaks_at (rx "^(yo|sup|greetings)") _ []); [set_solver|]
        |apply (speaks_at (hd REmpty GREETING_PATTERNS) _ []); [by apply list_elem_of_here|]];
        vm_compute; eauto. }
    revert Hc. rewrite Hg. destruct (ui_type i); try naive_solver.
    intros Hc. rewrite Hc in Et. by destruct Et.
Qed.

(** ** Durations *)

Section Durations.
Context `{WordTable}.

(** Any number of digits, and the rest of the pattern. *)
Definition DIGIT : regex := RSet false [IClass false CDigit].
Definition UNIT_REST : regex :=
  Eval vm_compute in match DIGITS_DURATION with RSeq _ r => r | _ => REmpty end.

Lemma DIGITS_DURATION_shape :
  DIGITS_DURATION = RSeq (RGroup 1 (RSeq DIGIT (RStar true DIGIT))) UNIT_REST.
Proof. vm_compute. reflexivity. Qed.

(** A duration in digits begins with one, and its unit follows the digits. *)
Lemma duration_reads p y : denotes re_i DIGITS_DURATION (p, []) y →
  ∃ d w c z, rest p = d :: w ++ c :: z ∧ Forall (λ c, is_Some (digit_value c)) (d :: w) ∧
             begins re_i UNIT_REST c = true.
Proof.
  rewrite DIGITS_DURATION_shape. intros (z & (z' & (z0 & (d & s & E & Hd & ->) & Hw) & ->) & Hu).
  apply star_set_reads in Hw as (w & Ew & Hw). cbn [fst snd rest] in *.
  apply denotes_first in Hu as [[Hn _]|(c & t & Et & Hc)]; [done|]. cbn [fst] in Et.
  assert (Hdig : ∀ e, in_set re_i false [IClass false CDigit] e = true → is_Some (digit_value e)).
  { intros e He. destruct (digit_value e) eqn:Ee; [eauto|]. cbn in He. rewrite Ee in He. done. }
  exists d, w, c, t. split_and!; [by rewrite E, Ew, Et| |done].
  constructor; [auto|]. eapply Forall_impl; [exact Hw|auto].
Qed.

Lemma ascii_digit c : is_digit c = true → is_Some (digit_value c) ∧ begins re_i UNIT_REST c = false.
Proof.
  unfold is_digit. intros Hc.
  assert (c ∈ [48; 49; 50; 51; 52; 53; 54; 55; 56; 57]%N) as Hin.
  { rewrite !elem_of_cons; lia. }
  clear Hc. repeat (apply elem_of_cons in Hin as [->|Hin]; [split; vm_compute; eauto|]).
  by apply not_elem_of_nil in Hin.
Qed.

(** The digits at the head of a text, and what they spell. *)
Lemma duration_match b d w : digit_value d ≠ None → Forall (λ c, is_digit c = true) w →
  match_at re_i DIGITS_DURATION (Pos b (d :: w ++ u " hours")) =
  Some (Pos (Some 115%N) [], [(1%nat, d :: w); (2%nat, u "hour")]).
Proof.
  intros Hd Hw. rewrite DIGITS_DURATION_shape. unfold match_at.
  assert (Hin : ∀ c, digit_value c ≠ None → in_set re_i false [IClass false CDigit] c = true).
  { intros c Hc. cbn. by destruct (digit_value c). }
  unfold DIGIT. rewrite run_seq, run_group, run_seq, run_set, Hin, run_star by done.
  eapply rounds_set_all.
  - eapply Forall_impl; [exact Hw|]. intros c [[v Ev] _]%ascii_digit. apply Hin. by rewrite Ev.
  - cbn [rest]. rewrite length_app. lia.
  - by intros c s' [= <- <-].
  - cbn beta. unfold between. cbn [rest].
    replace (length (d :: w ++ u " hours") - length (u " hours"))%nat with (length (d :: w))
      by (cbn [length]; rewrite length_app; lia).
    rewrite app_comm_cons, take_app_length. generalize (d :: w) as t. intros t.
    destruct (match last w with Some c => Some c | None => Some d end); vm_compute; reflexivity.
Qed.

(** Before the fraction no place is read as a duration. *)
Lemma fraction_first pre a b i y :
  Forall (λ c, digit_value c = None) pre → Forall (λ c, is_digit c = true) a →
  (i < length (pre ++ a ++ u "."))%nat →
  ¬ denotes re_i DIGITS_DURATION (place_of ((pre ++ a ++ u ".") ++ b) i, []) y.
Proof.
  intros Hp Ha Hi (d & w & c & z & E & Hw & Hc)%duration_reads. cbn [place_of rest] in E.
  rewrite drop_app_le in E by lia.
  assert (Hdot : digit_value 46 = None) by done.
  destruct (decide (i < length pre)%nat) as [Hlt|Hge].
  - rewrite drop_app_le in E by lia. destruct (drop i pre) as [|e t] eqn:Ed.
    { apply (f_equal length) in Ed. rewrite length_drop in Ed. cbn [length] in Ed. lia. }
    injection E as -> _. apply Forall_cons in Hw as [[v Hv] _].
    assert (d ∈ pre) as Hd by (rewrite <- (take_drop i pre), Ed; set_solver).
    rewrite Forall_forall in Hp. rewrite (Hp d Hd) in Hv. done.
  - rewrite drop_app_ge in E by lia. set (j := (i - length pre)%nat) in *.
    assert (Hj : (j <= length a)%nat) by (rewrite !length_app in Hi; change (length (u ".")) with 1%nat in Hi; lia).
    rewrite drop_app_le in E by done.
    assert (Ha' : Forall (λ c, is_digit c = true) (drop j a)) by by apply Forall_drop.
    change (d :: w ++ c :: z) with ((d :: w) ++ c :: z) in E. rewrite <- app_assoc in E.
    revert E Hw. generalize (d :: w) as q. intros q. revert Ha'.
    generalize (drop j a) as t. clear - Hc Hdot. intros t Ht Eq Hq. revert q Eq Hq. induction Ht as [|e t He Ht IH]; intros q Eq Hq.
    + destruct q as [|f q]; injection Eq as <- _; [by vm_compute in Hc|].
      apply Forall_cons in Hq as [[? Hq] _]. by vm_compute in Hq.
    + destruct q as [|f q]; injection Eq as <- Eq.
      * by rewrite (proj2 (ascii_digit _ He)) in Hc.
      * apply Forall_cons in Hq as [_ Hq]. by apply (IH q).
Qed.

(** A decimal is read from its fraction: whatever is said before it, the
    duration of "a.b hours" is [b] hours. *)
Theorem decimal_duration (pre a b : pystr) (Hpre : Forall (λ c, digit_value c = None) pre)
    (Ha : Forall (λ c, is_digit c = true) a) (Hb : Forall (λ c, is_digit c = true) b) (Hne : b ≠ []) :
  duration_entities (pre ++ a ++ u "." ++ b ++ u " hours") =
  (n ← py_int_of_str b; Ok [(u "duration_value", VInt n); (u "duration_unit", VStr (u "hour"))]).
Proof.
  destruct b as [|d w]; [done|]. apply Forall_cons in Hb as [Hd Hw].
  set (q := pre ++ a ++ u "."). set (t := (d :: w) ++ u " hours").
  assert (Et : pre ++ a ++ u "." ++ t = q ++ t) by (unfold q; by rewrite <- !app_assoc).
  assert (Em : match_at re_i DIGITS_DURATION (place_of (q ++ t) (length q)) =
               Some (Pos (Some 115%N) [], [(1%nat, d :: w); (2%nat, u "hour")])).
  { unfold place_of. rewrite drop_app_length. apply duration_match; [|done].
    destruct (ascii_digit d Hd) as [[v ->] _]. done. }
  unfold duration_entities. rewrite Et.
  erewrite (search_first re_i DIGITS_DURATION (q ++ t) (length q)); [| |exact Em|].
  - reflexivity.
  - rewrite length_app. lia.
  - intros i Hi. apply match_at_None. intros y. by apply fraction_first.
Qed.
End Durations.

(** ** Witnesses *)

#[local] Existing Instance ascii_words.
Definition heard (s : string) : user_intent :=
  match classify (u s) with Ok i => i | Raise _ => UserIntent CONFUSED [] f0 [] end.

Lemma classify_by_language_witness :
  let i := heard "set a timer" in
  classify (u "set a timer") = Ok i ∧ ui_type i = COMMAND ∧
  ¬ speaks GREETING_PATTERNS (u "set a timer") ∧ speaks COMMAND_PATTERNS (u "set a timer").
Proof.
  assert (E : classify (u "set a timer") = Ok (heard "set a timer")) by (vm_compute; reflexivity).
  assert (Et : ui_type (heard "set a timer") = COMMAND) by (vm_compute; reflexivity).
  cbn zeta. split; [exact E|]. split; [exact Et|].
  destruct (classify_by_language _ _ E) as (_ & _ & _ & _ & [Hc _]).
  assert (Es : strip (u "set a timer") = u "set a timer") by reflexivity.
  rewrite Es in Hc. destruct (Hc Et) as (_ & _ & Hg & Hs). split; [exact Hg|exact Hs].
Defined.

Lemma hasty_rules_witness :
  ui_type (heard "remind me later") = FAREWELL ∧
  (ui_type (heard "his alarm is on") = FAREWELL ∨ ui_type (heard "his alarm is on") = GREETING).
Proof.
  assert (E : classify (u "remind me later") = Ok (heard "remind me later")) by (vm_compute; reflexivity).
  assert (E' : classify (u "his alarm is on") = Ok (heard "his alarm is on")) by (vm_compute; reflexivity).
  split.
  - apply (proj1 (hasty_rules _ (u "remind me ") _ E)). reflexivity.
  - apply (proj2 (hasty_rules _ (u "s alarm is on") _ E')). right. reflexivity.
Defined.

Lemma decimal_duration_witness :
  duration_entities (u "set a timer for 1.5 hours") =
  Ok [(u "duration_value", VInt 5); (u "duration_unit", VStr (u "hour"))].
Proof.
  rewrite (decimal_duration (u "set a timer for ") (u "1") (u "5")).
  - reflexivity.
  - repeat constructor.
  - repeat constructor.
  - repeat constructor.
  - discriminate.
Defined.
