(* ===== verification/UserFacts.v ===== *)
(** * What the assistant knows of its user ([src/subsystems/memory.py])

    The facts read out of utterances ([FactMemory]) with their file, the topic
    of the conversation ([TopicTracker]) and the manager that joins the two.

    The facts are an insertion-ordered dictionary under their lower-cased
    text.  What the file holds is decoded JSON: a loaded field may have any
    type, so a score may raise.  One reading of the clock serves a whole call;
    [str.lower] beyond ASCII and [0.5 ** x] are parameters.  Ranking is the
    stable sort by a key without NaN. *)

From Stdlib Require Import ZArith NArith Lia.
From Stdlib Require Import Floats.SpecFloat.
From S2P Require Import Prelude PyFloat PyStr PyVal Regex.

Local Open Scope Z_scope.

(** [0.5 ** x]. *)
Class HalfPower := half_power : f64 → f64.

(** ** Extraction *)

Inductive fact_kind :=
  | K_user_name | K_preference | K_dislike | K_goal | K_favorite | K_attribute | K_self | K_duration.
#[export] Instance fact_kind_eq_dec : EqDecision fact_kind.
Proof. solve_decision. Defined.

Definition kind_name (k : fact_kind) : pystr :=
  match k with
  | K_user_name => u "user_name" | K_preference => u "preference" | K_dislike => u "dislike"
  | K_goal => u "goal" | K_favorite => u "favorite" | K_attribute => u "attribute"
  | K_self => u "self_description" | K_duration => u "duration_preference"
  end.

(** The rules, each with the number of its groups. *)
Definition FACT_PATTERNS : list (regex * nat * fact_kind) :=
  [(rx "\bmy\s+name\s+is\s+([A-Z][\w-]*)\b", 1%nat, K_user_name);
   (rx "\bcall\s+me\s+([A-Z][\w-]*)\b", 1%nat, K_user_name);
   (rx "\bi'?m\s+called\s+([A-Z][\w-]*)\b", 1%nat, K_user_name);
   (rx "\bi\s+(?:like|love|enjoy|prefer)\s+([a-z][\w\s]{1,40}?)(?:\.|\,|$)", 1%nat, K_preference);
   (rx "\bi\s+don'?t\s+(?:like|enjoy|prefer)\s+([a-z][\w\s]{1,40}?)(?:\.|\,|$)", 1%nat, K_dislike);
   (rx "\bi\s+(?:want|wanna|need|would\s+like)\s+to\s+([a-z][\w\s]{1,50}?)(?:\.|\,|$)", 1%nat, K_goal);
   (rx "\bmy\s+favorite\s+([a-z]+)\s+is\s+([\w\s]+?)(?:\.|\,|$)", 2%nat, K_favorite);
   (rx "\bmy\s+([a-z]+)\s+is\s+([\w\s]+?)(?:\.|\,|$)", 2%nat, K_attribute);
   (rx "\bi\s+am?\s+([\w\s]{2,40}?)(?:\,|\.|$)", 1%nat, K_self)].

Definition DURATION_RE : regex := rx "(\d+)\s*(minute|min|second|sec|hour|hr)s?\b".

(** [s.find(sub)]. *)
Fixpoint find_from (i : Z) (p s : pystr) : Z :=
  if starts_with p s then i
  else match s with [] => -1 | _ :: s' => find_from (i + 1) p s' end.

Definition JOINERS : list pystr :=
  [u " and "; u " but "; u " so "; u " i "; u " and i "; u " i also "].

(** Only the first clause of a capture. *)
Fixpoint first_clause (joiners : list pystr) (capture : pystr) : pystr :=
  match joiners with
  | [] => capture
  | j :: js =>
      let idx := find_from 0 j (lower capture) in
      if 0 <? idx then
        let capture := strip (take (Z.to_nat idx) capture) in
        if (length capture <? 2)%nat then capture else first_clause js capture
      else first_clause js capture
  end.

Section Extraction.
Context `{WordTable}.

(** [" ".join(g for g in m.groups() if g).strip()]. *)
Definition joined_groups (n : nat) (m : rmatch) : pystr :=
  strip (join (u " ") (List.filter (λ g, negb (bool_decide (g = []))) ((λ i, group_text i m) <$> seq 1 n))).

Definition fact_text (k : fact_kind) (capture : pystr) (m : rmatch) : pystr :=
  match k with
  | K_user_name => u "User's name is " ++ capture
  | K_favorite => u "User's favorite " ++ group_text 1 m ++ u " is " ++ strip (group_text 2 m)
  | K_attribute => u "User's " ++ group_text 1 m ++ u " is " ++ capture
  | K_self => u "User describes themselves as " ++ capture
  | K_preference => u "User likes " ++ capture
  | K_dislike => u "User dislikes " ++ capture
  | K_goal => u "User wants to " ++ capture
  | K_duration => u "User requested a " ++ group_text 1 m ++ u " " ++ group_text 2 m ++ u " duration"
  end.

(** One rule against the utterance. *)
Definition extract_one (text : pystr) (p : regex * nat * fact_kind) : list (pystr * fact_kind) :=
  let '(r, n, k) := p in
  match search re_i r text with
  | None => []
  | Some m =>
      let capture := if bool_decide (k = K_attribute) then strip (group_text 2 m) else joined_groups n m in
      if (length capture <? 2)%nat || (80 <? length capture)%nat then []
      else
        let capture := if bool_decide (k ∈ [K_attribute; K_self]) then first_clause JOINERS capture else capture in
        if (length capture <? 2)%nat then [] else [(fact_text k capture m, k)]
  end.

(** [_extract]. *)
Definition extract (utterance : pystr) : list (pystr * fact_kind) :=
  let text := strip utterance in
  (FACT_PATTERNS ≫= extract_one text)
  ++ match search re_i DURATION_RE text with
     | Some m => [(fact_text K_duration [] m, K_duration)]
     | None => []
     end.
End Extraction.

(** ** The store of facts *)

(** [Fact]: a loaded one may hold anything but a text that is not a string. *)
Record ufact := UFact {
  uf_text : pystr;
  uf_kind : pyval;
  uf_created : pyval;
  uf_seen : pyval;
  uf_count : pyval
}.

(** [FactMemory]: the facts, and the file if it has one (its content once
    written). *)
Record fact_memory := FactMemory {
  um_facts : list (pystr * ufact);
  um_path : bool;
  um_file : option pyval
}.

Definition with_facts (f : list (pystr * ufact)) (m : fact_memory) : fact_memory :=
  FactMemory f (um_path m) (um_file m).

(** [Fact.to_dict]. *)
Definition fact_dict (f : ufact) : pyval :=
  VDict [(u "text", VStr (uf_text f)); (u "kind", uf_kind f); (u "created_at", uf_created f);
         (u "last_seen_at", uf_seen f); (u "count", uf_count f)].

(** [FactMemory.save]; [io] says whether the write succeeds. *)
Definition save_facts (io : bool) (m : fact_memory) : fact_memory :=
  if um_path m && io
  then FactMemory (um_facts m) true (Some (VList (fact_dict ∘ snd <$> um_facts m))) else m.

(** [x if x is not None else now]. *)
Definition or_now (now : f64) (v : pyval) : pyval := match v with VNone => VFloat now | _ => v end.

Section Facts.
Context `{PyLower}.

(** The body of [_load]'s loop: [Raise] where it stops. *)
Definition load_fact (now : f64) (item : pyval) (d : list (pystr * ufact)) : res (list (pystr * ufact)) :=
  data ← as_dict item;
  match dict_get (u "text") (VStr []) data with
  | VStr [] => Ok d
  | VStr text =>
      Ok (dset (str_lower (strip text))
            (UFact text (dict_get (u "kind") (VStr (u "unknown")) data)
               (or_now now (dict_get (u "created_at") VNone data))
               (or_now now (dict_get (u "last_seen_at") VNone data))
               (dict_get (u "count") (VInt 1) data)) d)
  | v => if truthy v then Raise (AttributeError (u "object has no attribute 'strip'")) else Ok d
  end.

Fixpoint load_facts (now : f64) (items : list pyval) (d : list (pystr * ufact)) : list (pystr * ufact) :=
  match items with
  | [] => d
  | i :: items' => match load_fact now i d with Ok d' => load_facts now items' d' | Raise _ => d end
  end.

(** [FactMemory(data_dir)]: [file] is what the file holds, if it is there and
    can be read. *)
Definition new_fact_memory (now : f64) (path : bool) (file : option pyval) : fact_memory :=
  FactMemory (match file with
              | Some (VList items) => if path then load_facts now items [] else []
              | _ => []
              end) path file.

(** [FactMemory.clear]. *)
Definition clear_facts (io : bool) (m : fact_memory) : fact_memory := save_facts io (with_facts [] m).

(** [count += 1]. *)
Definition increment (v : pyval) : res pyval :=
  match v with
  | VInt z => Ok (VInt (z + 1))
  | VBool b => Ok (VInt (if b then 2 else 1))
  | VFloat x => Ok (VFloat (fadd x f1))
  | _ => Raise (TypeError (u "unsupported operand type(s) for +="))
  end.

(** A fact is said again, or for the first time. *)
Definition touch (now : f64) (key text : pystr) (kind : pystr) (m : fact_memory) : fact_memory * res unit :=
  match dget key (um_facts m) with
  | Some f =>
      match increment (uf_count f) with
      | Raise e => (m, Raise e)
      | Ok n =>
          let k := if bool_decide (kind = u "dislike") && py_eq (uf_kind f) (VStr (u "preference"))
                   then VStr (u "dislike") else uf_kind f in
          (with_facts (dset key (UFact (uf_text f) k (uf_created f) (VFloat now) n) (um_facts m)) m, Ok tt)
      end
  | None =>
      (with_facts (dset key (UFact text (VStr kind) (VFloat now) (VFloat now) (VInt 1)) (um_facts m)) m, Ok tt)
  end.

Fixpoint touch_all (now : f64) (l : list (pystr * fact_kind)) : py fact_memory (list pystr) :=
  match l with
  | [] => mret []
  | (text, k) :: l' =>
      touch now (str_lower (strip text)) (strip text) (kind_name k) ;;
      rest ← touch_all now l'; mret (strip text :: rest)
  end.

(** [FactMemory.remember]. *)
Definition remember `{WordTable} (now : f64) (io : bool) (utterance : pystr) : py fact_memory (list pystr) :=
  match extract utterance with
  | [] => mret []
  | l => touched ← touch_all now l; modify (save_facts io) ;; mret touched
  end.

(** [FactMemory.remember_explicit]. *)
Definition remember_explicit (now : f64) (io : bool) (text : pystr) : py fact_memory (option pystr) :=
  let text := strip text in
  if (length text <? 2)%nat || (160 <? Z.of_nat (length text)) then mret None
  else touch now (str_lower text) text (u "explicit") ;; modify (save_facts io) ;; mret (Some text).

(** What [forget] drops. *)
Definition doomed (kw : pystr) (e : pystr * ufact) : bool :=
  contains kw e.1 || contains kw (str_lower (uf_text e.2)).

(** [FactMemory.forget]. *)
Definition forget (io : bool) (keyword : pystr) (m : fact_memory) : fact_memory * Z :=
  let kw := str_lower (strip keyword) in
  if bool_decide (kw = []) then (m, 0)
  else
    let gone := List.filter (doomed kw) (um_facts m) in
    let m' := with_facts (List.filter (λ e, negb (doomed kw e)) (um_facts m)) m in
    (match gone with [] => m' | _ => save_facts io m' end, Z.of_nat (length gone)).

(** ** Reading *)

Section Scores.
Context `{HalfPower}.

(** [now - v]. *)
Definition minus_seen (now : f64) (v : pyval) : res f64 :=
  match v with
  | VInt z => x ← py_float_of_Z z; Ok (fsub now x)
  | VBool b => Ok (fsub now (if b then f1 else f0))
  | VFloat x => Ok (fsub now x)
  | _ => Raise (TypeError (u "unsupported operand type(s) for -"))
  end.

Context `{PyFloatOfStr}.

(** [Fact.score]. *)
Definition score (now : f64) (f : ufact) : res f64 :=
  age ← minus_seen now (uf_seen f);
  let age_hours := fmax f0 (fdiv age (f_of_Z 3600)) in
  n ← py_float (uf_count f);
  Ok (fmul n (half_power (fdiv age_hours (f_of_Z 48)))).

(** The facts with their scores, best first; equal scores keep their order. *)
Definition scored (now : f64) (l : list ufact) : res (list (f64 * ufact)) :=
  res_map (λ f, x ← score now f; Ok (x, f)) l.
Definition better (a b : f64 * ufact) : bool := negb (fltb a.1 b.1).

(** The rows of [recall]: the limit is looked at after a row is added. *)
Fixpoint recall_rows (limit : Z) (min_score : f64) (n : Z) (l : list (f64 * ufact)) : list pyval :=
  match l with
  | [] => []
  | (x, f) :: l' =>
      if fltb x min_score then recall_rows limit min_score n l'
      else
        VDict [(u "text", VStr (uf_text f)); (u "kind", uf_kind f); (u "score", VFloat (f_round 3 x));
               (u "count", uf_count f); (u "last_seen_at", uf_seen f)]
        :: (if limit <=? n + 1 then [] else recall_rows limit min_score (n + 1) l')
  end.

(** [FactMemory.recall]. *)
Definition recall (now : f64) (limit : Z) (min_score : f64) (m : fact_memory) : res (list pyval) :=
  l ← scored now (um_facts m).*2;
  Ok (recall_rows limit min_score 0 (sort_by better l)).

(** [l[:n]]. *)
Definition first_items {A} (n : Z) (l : list A) : list A :=
  if 0 <=? n then take (Z.to_nat n) l else take (length l - Z.to_nat (- n)) l.

Definition row (e : f64 * ufact) : pyval :=
  VDict [(u "text", VStr (uf_text e.2)); (u "kind", uf_kind e.2); (u "score", VFloat (f_round 3 e.1))].

(** [FactMemory.facts_about]. *)
Definition facts_about (now : f64) (keyword : pystr) (limit : Z) (m : fact_memory) : res (list pyval) :=
  let kw := str_lower (strip keyword) in
  if bool_decide (kw = []) then Ok []
  else
    l ← scored now (List.filter (λ f, contains kw (str_lower (uf_text f))) (um_facts m).*2);
    Ok (row <$> first_items limit (sort_by better l)).

Definition STOPWORDS : list pystr :=
  u <$> ["the"; "a"; "an"; "and"; "but"; "so"; "for"; "with"; "that"; "this"; "you"; "your"; "yours";
         "are"; "was"; "were"; "is"; "has"; "had"; "have"; "do"; "does"; "did"; "my"; "me"; "im"; "am";
         "what"; "whats"; "who"; "how"; "why"; "when"; "where"; "about"; "remember"; "forget";
         "recall"; "tell"; "say"; "said"; "know"]%string.

(** [re.findall(r"[a-z0-9']+", s)] and [w.replace("'", "")]. *)
Definition words_of (s : pystr) : list pystr :=
  runs_go (λ c, is_lower c || is_digit c || (c =? 39)%N) [] s.
Definition unquoted (w : pystr) : pystr := List.filter (λ c, negb (c =? 39)%N) w.

(** The words of a transcript that count. *)
Definition content_words (transcript : pystr) : list pystr :=
  remove_dups (unquoted <$>
    List.filter (λ w, (3 <=? length w)%nat && negb (bool_decide (w ∈ STOPWORDS)))
      (words_of (lower transcript))).

Definition overlap (words : list pystr) (f : ufact) : nat :=
  let fwords := unquoted <$> words_of (lower (uf_text f)) in
  length (List.filter (λ w, bool_decide (w ∈ fwords)) words).

(** Overlap first, then score. *)
Definition more_relevant (a b : nat * (f64 * ufact)) : bool :=
  (b.1 <? a.1)%nat || ((b.1 =? a.1)%nat && better a.2 b.2).

(** [FactMemory.relevant_facts]. *)
Definition relevant_facts (now : f64) (transcript : pystr) (limit : Z) (m : fact_memory)
    : res (list pyval) :=
  match content_words transcript with
  | [] => recall now limit f0 m
  | words =>
      l ← scored now (um_facts m).*2;
      Ok ((row ∘ snd) <$> first_items limit (sort_by more_relevant ((λ e, (overlap words e.2, e)) <$> l)))
  end.
End Scores.
End Facts.

(** [fact_to_second_person]. *)
Definition PERSONS : list (pystr * pystr) :=
  [(u "user's name is ", u "You're "); (u "user's ", u "Your "); (u "user likes ", u "You like ");
   (u "user dislikes ", u "You don't like "); (u "user wants to ", u "You want to ");
   (u "user describes themselves as ", u "You describe yourself as ");
   (u "user requested a ", u "You requested a ")].

Fixpoint replace_prefix (l : list (pystr * pystr)) (low t : pystr) : pystr :=
  match l with
  | [] => t
  | (p, r) :: l' => if starts_with p low then r ++ drop (length p) t else replace_prefix l' low t
  end.
Definition fact_to_second_person (text : pystr) : pystr :=
  let t := strip text in replace_prefix PERSONS (lower t) t.

(** ** The topic of the conversation *)

Definition TOPIC_KEYWORDS : list (pystr * list pystr) :=
  [(u "timers", u <$> ["timer"; "remind"; "reminder"; "alarm"; "minute"; "seconds"; "hour"; "wake me"]%string);
   (u "weather", u <$> ["weather"; "rain"; "sunny"; "cloudy"; "temperature"; "forecast"; "cold"; "hot"; "humid"]%string);
   (u "time", u <$> ["what time"; "o'clock"; "current time"; "clock"; "what's the time"]%string);
   (u "device_status", u <$> ["battery"; "charge"; "sensor"; "status"; "storage"; "health"]%string);
   (u "media", u <$> ["music"; "play"; "song"; "album"; "podcast"; "radio"; "video"; "spotify"]%string);
   (u "communication", u <$> ["call"; "text"; "message"; "email"; "contact"; "notify"]%string);
   (u "navigation", u <$> ["navigate"; "direction"; "where is"; "route"; "gps"; "map"]%string)].

(** [_detect]. *)
Definition detect (text : pystr) : option pystr :=
  fst <$> List.find (λ e, existsb (λ kw, contains kw text) e.2) TOPIC_KEYWORDS.

(** [TopicTracker]. *)
Record tracker := Tracker {
  tr_current : option pystr;
  tr_strength : f64;
  tr_history : list pystr;
  tr_max : nat;
  tr_decay : f64
}.

Definition new_tracker : tracker := Tracker None f0 [] 12 (f_dec 25 2).

Definition current_topic (t : tracker) : option pystr :=
  if fltb (f_dec 15 2) (tr_strength t) then tr_current t else None.

(** [TopicTracker.track]. *)
Definition track (utterance : pystr) (t : tracker) : tracker * option pystr :=
  let detected := detect (lower (strip utterance)) in
  let '(c, s) := match detected with
                 | Some d => (Some d, f1)
                 | None => (tr_current t, fsub (tr_strength t) (tr_decay t))
                 end in
  let h := match c with Some c => dq_append (tr_max t) c (tr_history t) | None => tr_history t end in
  let t' := Tracker c s h (tr_max t) (tr_decay t) in
  (t', match detected with Some d => Some d | None => current_topic t' end).

(** [as_context_text]. *)
Definition as_context_text (t : tracker) : pystr :=
  match current_topic t with
  | None => []
  | Some c => u "Current topic: " ++ map (λ x, if (x =? 95)%N then 32%N else x) c
              ++ u ". Follow-up utterances likely refer back to it."
  end.

(** [TopicTracker.reset]. *)
Definition reset_tracker (t : tracker) : tracker := Tracker None f0 [] (tr_max t) (tr_decay t).

(** ** The manager *)

(** [MemoryManager]. *)
Record user_memory := UserMemory { mm_facts : fact_memory; mm_topics : tracker }.

Section Manager.
Context `{PyLower} `{WordTable} `{HalfPower} `{PyFloatOfStr}.

(** [on_user_input]: the facts it touched and the topic. *)
Definition on_user_input (now : f64) (io : bool) (transcript : pystr)
    : py user_memory (list pystr * option pystr) := λ m,
  match remember now io transcript (mm_facts m) with
  | (f, Raise e) => (UserMemory f (mm_topics m), Raise e)
  | (f, Ok new) =>
      let '(t, topic) := track transcript (mm_topics m) in (UserMemory f t, Ok (new, topic))
  end.

(** [recall_context]. *)
Definition recall_context (now : f64) (limit : Z) (m : user_memory) : res (list pyval * option pystr * pystr) :=
  l ← recall now limit f0 (mm_facts m);
  Ok (l, current_topic (mm_topics m), as_context_text (mm_topics m)).

Definition text_of (r : pyval) : pyval := match r with VDict d => dict_get (u "text") VNone d | _ => VNone end.

(** [recall_fact_strings]. *)
Definition recall_fact_strings (now : f64) (limit : Z) (about : pystr) (m : user_memory) : res (list pyval) :=
  let found := if bool_decide (about = []) then recall now limit f0 (mm_facts m)
               else relevant_facts now about limit (mm_facts m) in
  rows ← found; Ok (text_of <$> (rows : list pyval)).
End Manager.

(** ** What the store keeps to *)

(** Every fact is filed once, under its lower-cased text. *)
Definition filed `{PyLower} (m : fact_memory) : Prop :=
  NoDup (um_facts m).*1 ∧
  Forall (λ e, e.1 = str_lower (strip (uf_text e.2)) ∧ uf_text e.2 ≠ [] ∧
               uf_created e.2 ≠ VNone ∧ uf_seen e.2 ≠ VNone) (um_facts m).

(** What is done to the store. *)
Inductive fact_op :=
  | F_remember (now : f64) (io : bool) (utterance : pystr)
  | F_explicit (now : f64) (io : bool) (text : pystr)
  | F_forget (io : bool) (keyword : pystr)
  | F_clear (io : bool).

Section Operations.
Context `{PyLower} `{WordTable}.

Definition fact_exec (o : fact_op) (m : fact_memory) : fact_memory :=
  match o with
  | F_remember now io t => (remember now io t m).1
  | F_explicit now io t => (remember_explicit now io t m).1
  | F_forget io kw => (forget io kw m).1
  | F_clear io => clear_facts io m
  end.

Definition fact_run (l : list fact_op) (m : fact_memory) : fact_memory := foldl (λ m o, fact_exec o m) m l.

Lemma save_facts_same io m : um_facts (save_facts io m) = um_facts m.
Proof. unfold save_facts. by destruct (um_path m && io). Qed.

Lemma fact_text_user k c m : starts_with (u "User") (fact_text k c m) = true.
Proof. by destruct k. Qed.

Lemma extract_user t : Forall (λ e, ∃ c m, e.1 = fact_text e.2 c m) (extract t).
Proof.
  unfold extract. apply Forall_app. split.
  - apply Forall_bind, Forall_true. intros [[r n] k]. unfold compose, extract_one.
    destruct (search re_i r (strip t)) as [m|]; [|constructor].
    do 2 (match goal with |- Forall _ (if ?b then _ else _) => destruct b; [constructor|] end).
    apply Forall_singleton. eexists _, _. reflexivity.
  - destruct (search re_i DURATION_RE (strip t)) as [m|]; [|constructor].
    apply Forall_singleton. by exists [], m.
Qed.

Lemma user_not_blank s : starts_with (u "User") s = true → strip s ≠ [].
Proof.
  intros Hs E. assert (85%N ∈ strip s) as Hin; [|rewrite E in Hin; by apply not_elem_of_nil in Hin].
  apply strip_by_keeps; [|done]. destruct s as [|c s]; [done|]. apply andb_true_iff in Hs as [Hc _].
  apply N.eqb_eq in Hc. rewrite <- Hc. left.
Qed.

Lemma strip_strip s : strip (strip s) = strip s.
Proof. apply strip_by_idem. Qed.

(** Filing. *)
Lemma filed_dset m key f : filed m → key = str_lower (strip (uf_text f)) → uf_text f ≠ [] →
  uf_created f ≠ VNone → uf_seen f ≠ VNone → filed (with_facts (dset key f (um_facts m)) m).
Proof.
  intros [Hn Hf] -> ? ? ?. split; cbn; [by apply dset_nodup|].
  rewrite Forall_forall in Hf |- *. intros e [-> |He]%dset_elem; [done|auto].
Qed.

Lemma filed_get m key f : filed m → dget key (um_facts m) = Some f →
  key = str_lower (strip (uf_text f)) ∧ uf_text f ≠ [] ∧ uf_created f ≠ VNone ∧ uf_seen f ≠ VNone.
Proof. intros [_ Hf] He%dget_elem. rewrite Forall_forall in Hf. exact (Hf _ He). Qed.

Lemma filed_touch now text kind m : filed m → strip text ≠ [] →
  filed (touch now (str_lower (strip text)) (strip text) kind m).1.
Proof.
  intros Hm Ht. unfold touch. destruct (dget _ (um_facts m)) as [f|] eqn:E.
  - destruct (increment (uf_count f)); [|done]. destruct (filed_get _ _ _ Hm E) as (Ek & ? & ? & ?).
    apply filed_dset; [done|exact Ek|done..].
  - apply filed_dset; cbn [uf_text uf_created uf_seen]; rewrite ?strip_strip; done.
Qed.

Lemma filed_save io m : filed m → filed (save_facts io m).
Proof. unfold filed. by rewrite save_facts_same. Qed.

Lemma filed_touch_all now l : Forall (λ e, strip e.1 ≠ []) l → ∀ m, filed m → filed (touch_all now l m).1.
Proof.
  induction 1 as [|[t k] l Ht Hl IH]; intros m Hm; cbn; [done|].
  unfold mbind, py_bind. pose proof (filed_touch now t (kind_name k) m Hm Ht) as Hf.
  destruct (touch _ _ _ _ _) as [m' [[]|e]]; [|done]. pose proof (IH m' Hf) as Hf'.
  by destruct (touch_all now l m') as [m'' [?|e]].
Qed.

Lemma filed_remember now io t m : filed m → filed (remember now io t m).1.
Proof.
  intros Hm. unfold remember. pose proof (extract_user t) as Hu.
  destruct (extract t) as [|e l]; [done|].
  assert (Hf : filed (touch_all now (e :: l) m).1).
  { apply filed_touch_all; [|done]. eapply Forall_impl; [exact Hu|].
    intros [t' k] (c & m' & E). cbn in *. rewrite E. apply user_not_blank, fact_text_user. }
  unfold mbind, py_bind. destruct (touch_all now (e :: l) m) as [m' [?|?]]; [|done]. by apply filed_save.
Qed.

Lemma filed_explicit now io t m : filed m → filed (remember_explicit now io t m).1.
Proof.
  intros Hm. unfold remember_explicit. destruct (_ || _) eqn:El; [done|].
  assert (Ht : strip t ≠ []) by by destruct (strip t).
  pose proof (filed_touch now t (u "explicit") m Hm Ht) as Hf. unfold mbind, py_bind.
  destruct (touch _ _ _ _ _) as [m' [[]|e]]; [|done]. by apply filed_save.
Qed.

Lemma filed_forget io kw m : filed m → filed (forget io kw m).1.
Proof.
  intros [Hn Hf]. unfold forget. case_bool_decide; [done|]. cbn [fst].
  assert (Hm : filed (with_facts (List.filter (λ e, negb (doomed (str_lower (strip kw)) e)) (um_facts m)) m)).
  { split; cbn; [by apply filter_keys_nodup|]. rewrite Forall_forall in Hf |- *.
    intros e [He _]%list_elem_of_In%filter_In. apply Hf. by apply list_elem_of_In. }
  case_match; [done|by apply filed_save].
Qed.

Lemma filed_load now items d : filed (FactMemory d true None) → filed (FactMemory (load_facts now items d) true None).
Proof.
  revert d. induction items as [|i items IH]; intros d Hd; cbn; [done|].
  destruct (load_fact now i d) as [d'|] eqn:E; [|done]. apply IH. unfold load_fact in E.
  apply res_bind_Ok in E as (data & _ & E).
  destruct (dict_get (u "text") (VStr []) data) as [|b|z|x|t|l|l];
    try (destruct (truthy _); [done|by injection E as <-]).
  destruct t as [|c t]; injection E as <-; [done|].
  apply (filed_dset _ _ _ Hd); cbn [uf_text uf_created uf_seen]; [done..| |]; unfold or_now; by case_match.
Qed.

Lemma run_filed now path file ops : filed (fact_run ops (new_fact_memory now path file)).
Proof.
  assert (H0' : filed (new_fact_memory now path file)).
  { destruct file as [[| | | | |items|]|], path; cbn; try (by repeat constructor).
    apply (filed_load now items []). by repeat constructor. }
  revert H0'. generalize (new_fact_memory now path file).
  induction ops as [|o ops IH]; intros m Hm; [done|]. apply IH.
  destruct o; cbn; [by apply filed_remember|by apply filed_explicit|by apply filed_forget|].
  apply filed_save. by repeat constructor.
Qed.

(** Whether there is a file does not change. *)
Lemma save_path io m : um_path (save_facts io m) = um_path m.
Proof. unfold save_facts. by destruct (um_path m) eqn:E, io. Qed.

Lemma touch_path now k t c m : um_path (touch now k t c m).1 = um_path m.
Proof. unfold touch. destruct (dget k _); [|done]. by destruct (increment _). Qed.

Lemma touch_all_path now l : ∀ m, um_path (touch_all now l m).1 = um_path m.
Proof.
  induction l as [|[t k] l IH]; intros m; [done|]. cbn. unfold mbind, py_bind.
  pose proof (touch_path now (str_lower (strip t)) (strip t) (kind_name k) m) as Ht.
  destruct (touch _ _ _ _ _) as [m' [[]|e]]; [|done]. cbn [fst] in Ht. rewrite <- Ht, <- (IH m').
  by destruct (touch_all now l m') as [m'' [?|?]].
Qed.

Lemma exec_path o m : um_path (fact_exec o m) = um_path m.
Proof.
  destruct o as [now io t|now io t|io kw|io]; cbn.
  - unfold remember. destruct (extract t) as [|e l]; [done|]. rewrite <- (touch_all_path now (e :: l) m).
    unfold mbind, py_bind. destruct (touch_all _ _ m) as [m' [?|?]]; [apply save_path|done].
  - unfold remember_explicit. destruct (_ || _); [done|].
    rewrite <- (touch_path now (str_lower (strip t)) (strip t) (u "explicit") m).
    unfold mbind, py_bind. destruct (touch _ _ _ _ m) as [m' [?|?]]; [apply save_path|done].
  - unfold forget. case_bool_decide; [done|]. cbn. case_match; [done|by rewrite save_path].
  - unfold clear_facts. by rewrite save_path.
Qed.

Lemma run_path ops m : um_path (fact_run ops m) = um_path m.
Proof. revert m. induction ops as [|o ops IH]; intros m; [done|]. change (um_path (fact_run ops (fact_exec o m)) = um_path m). by rewrite IH, exec_path. Qed.
End Operations.

(** Whatever the file held and whatever is remembered and forgotten,
    every fact is filed once, under its own stripped and lower-cased text. *)
Theorem facts_filed `{PyLower} `{WordTable} (now : f64) (path : bool) (file : option pyval)
    (ops : list fact_op) : filed (fact_run ops (new_fact_memory now path file)).
Proof. apply run_filed. Qed.

(** *** The file *)

Lemma load_saved `{PyLower} now l : ∀ d,
  Forall (λ e, e.1 = str_lower (strip (uf_text e.2)) ∧ uf_text e.2 ≠ [] ∧
               uf_created e.2 ≠ VNone ∧ uf_seen e.2 ≠ VNone) l →
  NoDup (d ++ l).*1 → load_facts now (fact_dict ∘ snd <$> l) d = d ++ l.
Proof.
  induction l as [|[key f] l IH]; intros d Hl Hn; [by rewrite app_nil_r|].
  apply Forall_cons in Hl as [(Ek & Ht & Hc & Hs) Hl]. destruct f as [[|c t] k cr se n]; [done|].
  cbn [fst snd uf_text uf_created uf_seen] in *. rewrite fmap_cons. cbn [load_facts].
  assert (E : load_fact now (fact_dict (UFact (c :: t) k cr se n)) d =
              Ok (dset key (UFact (c :: t) k (or_now now cr) (or_now now se) n) d)) by by rewrite Ek.
  unfold compose at 1. cbn [snd]. rewrite E. clear E.
  assert (or_now now cr = cr) as -> by by destruct cr.
  assert (or_now now se = se) as -> by by destruct se.
  rewrite fmap_app, fmap_cons in Hn. cbn [fst] in Hn.
  rewrite dset_fresh.
  - rewrite IH; [by rewrite <- app_assoc|done|]. by rewrite !fmap_app, <- app_assoc.
  - apply NoDup_app in Hn as (_ & Hn & _). intros Hd. apply (Hn _ Hd). left.
Qed.

(** What was saved is read back: a restart has every fact, with its kind,
    its times and its count. *)
Theorem facts_survive_restart `{PyLower} `{WordTable} (now later : f64) (file : option pyval) (ops : list fact_op) :
  let m := fact_run ops (new_fact_memory now true file) in
  um_facts (new_fact_memory later true (um_file (save_facts true m))) = um_facts m.
Proof.
  cbn zeta. destruct (run_filed now true file ops) as [Hn Hf].
  pose proof (run_path ops (new_fact_memory now true file)) as Hp.
  set (m := fact_run ops _) in *. clearbody m. unfold save_facts. rewrite Hp. cbn.
  by rewrite load_saved.
Qed.

(** *** Forgetting *)

(** Forgetting only takes facts away. *)
Lemma forget_sublist `{PyLower} io keyword m : um_facts (forget io keyword m).1 `sublist_of` um_facts m.
Proof.
  unfold forget. case_bool_decide; [done|]. cbn [fst].
  case_match; [|rewrite save_facts_same]; apply filter_sublist.
Qed.

(** What is forgotten is exactly what mentions the keyword; the rest
    stays as it was, and the number of facts dropped is reported. *)
Theorem forget_exact `{PyLower} (io : bool) (keyword : pystr) (m : fact_memory) :
  let kw := str_lower (strip keyword) in
  let '(m', n) := forget io keyword m in
  (∀ e, e ∈ um_facts m' ↔ e ∈ um_facts m ∧ (kw = [] ∨ contains kw e.1 = false ∧
                                             contains kw (str_lower (uf_text e.2)) = false)) ∧
  um_facts m' `sublist_of` um_facts m ∧
  n + Z.of_nat (length (um_facts m')) = Z.of_nat (length (um_facts m)).
Proof.
  cbn zeta. unfold forget. set (kw := str_lower (strip keyword)).
  case_bool_decide as Hk; [split_and!; [naive_solver|done|lia]|].
  set (l := um_facts m). set (m' := with_facts _ m).
  assert (Hs : ∀ x : list (pystr * ufact), um_facts (match x with [] => m' | _ => save_facts io m' end) = um_facts m')
    by (intros [|? ?]; [done|apply save_facts_same]).
  rewrite Hs. cbn [m' um_facts with_facts]. split_and!.
  - intros e. rewrite !list_elem_of_In, filter_In. unfold doomed. rewrite negb_true_iff, orb_false_iff.
    naive_solver.
  - apply filter_sublist.
  - pose proof (filter_split_length (doomed kw) l). lia.
Qed.

(** *** Mentions *)

(** How often a fact was mentioned. *)
Definition mentions (key : pystr) (m : fact_memory) : Z :=
  match dget key (um_facts m) with Some (UFact _ _ _ _ (VInt n)) => n | _ => 0 end.

(** Every count is an integer, as in a store no other program wrote to. *)
Definition counted (m : fact_memory) : Prop :=
  Forall (λ e, ∃ n, uf_count e.2 = VInt n) (um_facts m).

Definition occurrences (key : pystr) (l : list pystr) : Z := Z.of_nat (length (List.filter (λ k, bool_decide (k = key)) l)).

Section Mentions.
Context `{PyLower} `{WordTable}.

Lemma counted_get m key f : counted m → dget key (um_facts m) = Some f → ∃ n, uf_count f = VInt n.
Proof. intros Hm He%dget_elem. unfold counted in Hm. rewrite Forall_forall in Hm. exact (Hm _ He). Qed.

Lemma touch_mentions now key t kind m : counted m → ∃ m', touch now key t kind m = (m', Ok tt) ∧ counted m' ∧
  ∀ k, mentions k m' = mentions k m + (if bool_decide (key = k) then 1 else 0).
Proof.
  intros Hm. unfold touch. destruct (dget key (um_facts m)) as [f|] eqn:E.
  - destruct (counted_get m key f Hm E) as [n En]. rewrite En. cbn [increment]. eexists. split; [done|]. split.
    + unfold counted in *. rewrite Forall_forall in Hm |- *. cbn. intros e [-> |He]%dset_elem; [by eexists|auto].
    + intros k. unfold mentions. cbn [um_facts with_facts]. rewrite dget_dset.
      destruct (decide (k = key)) as [->|Hk]; [|rewrite bool_decide_false by congruence; lia].
      rewrite bool_decide_true, E by done. destruct f; cbn in *. by subst.
  - eexists. split; [done|]. split.
    + unfold counted in *. rewrite Forall_forall in Hm |- *. cbn. intros e [-> |He]%dset_elem; [by eexists|auto].
    + intros k. unfold mentions. cbn [um_facts with_facts]. rewrite dget_dset.
      destruct (decide (k = key)) as [->|Hk]; [|rewrite bool_decide_false by congruence; lia].
      by rewrite bool_decide_true, E by done.
Qed.

Lemma touch_all_mentions now l : ∀ m, counted m → ∃ m',
  touch_all now l m = (m', Ok (strip <$> l.*1)) ∧ counted m' ∧
  ∀ k, mentions k m' = mentions k m + occurrences k ((λ e, str_lower (strip e.1)) <$> l).
Proof.
  induction l as [|[t kd] l IH]; intros m Hm.
  - exists m. split_and!; [done..|]. intros k. unfold occurrences. cbn. lia.
  - destruct (touch_mentions now (str_lower (strip t)) (strip t) (kind_name kd) m Hm) as (m1 & E1 & Hm1 & H1).
    destruct (IH m1 Hm1) as (m2 & E2 & Hm2 & H2). exists m2. cbn [touch_all]. unfold mbind, py_bind. rewrite E1, E2.
    split_and!; [done..|]. intros k. rewrite H2, H1, fmap_cons. unfold occurrences. cbn [List.filter fst].
    case_bool_decide; cbn [length]; lia.
Qed.
End Mentions.

(** An utterance adds to the count of a fact the number of times the
    rules read it there, whichever facts it touches; nothing is raised. *)
Theorem remember_counts `{PyLower} `{WordTable} (now : f64) (io : bool) (t : pystr) (m : fact_memory)
    (Hm : counted m) :
  ∃ m', remember now io t m = (m', Ok (strip <$> (extract t).*1)) ∧
        ∀ k, mentions k m' = mentions k m + occurrences k ((λ e, str_lower (strip e.1)) <$> extract t).
Proof.
  unfold remember. destruct (extract t) as [|e l].
  { exists m. split; [done|]. intros k. unfold occurrences. cbn. lia. }
  destruct (touch_all_mentions now (e :: l) m Hm) as (m' & E & _ & Hk).
  exists (save_facts io m'). unfold mbind, py_bind. rewrite E. split; [done|].
  intros k. rewrite <- Hk. unfold mentions. by rewrite save_facts_same.
Qed.

(** *** Likes and dislikes *)

Definition LIKES : pystr := u "user likes".
Definition DISLIKES : pystr := u "user dislikes".

(** A preference is filed under what begins as one. *)
Definition kinded (m : fact_memory) : Prop :=
  ∀ e, e ∈ um_facts m → uf_kind e.2 = VStr (u "preference") → starts_with LIKES e.1 = true.

(** The kinds of the facts of [m] are those they have in [m']. *)
Definition same_kinds (m m' : fact_memory) : Prop :=
  ∀ k f, dget k (um_facts m) = Some f → ∃ f', dget k (um_facts m') = Some f' ∧ uf_kind f' = uf_kind f.

(** A text and kind that go together as the extraction makes them. *)
Definition apt (key kind : pystr) : Prop :=
  (kind = u "preference" → starts_with LIKES key = true) ∧
  (kind = u "dislike" → starts_with DISLIKES key = true).

Section Kinds.
Context `{PyLowerLaws} `{WordTable}.

Lemma lower_key p s : ascii p → (∃ c, head p = Some c ∧ is_space c = false) →
  (∃ d, last p = Some d ∧ is_space d = false) → starts_with p s = true →
  starts_with (lower p) (str_lower (strip s)) = true.
Proof.
  intros Hp (c & Hc & Sc) (d & Hd & Sd) (s' & ->)%starts_with_inv.
  destruct (strip_by_prefix is_space s' p c d Hc Hd Sc Sd) as [t Et]. unfold strip. rewrite Et.
  destruct (lower_prefix p t Hp) as [t' ->]. apply starts_with_app.
Qed.

Lemma apt_extracted t kd : (∃ c m, t = fact_text kd c m) → apt (str_lower (strip t)) (kind_name kd).
Proof.
  intros (c & m & ->). split; intros Ek; destruct kd; try (by vm_compute in Ek).
  - apply (lower_key (u "User likes")); [repeat constructor|by eexists|by eexists|done].
  - apply (lower_key (u "User dislikes")); [repeat constructor|by eexists|by eexists|done].
Qed.

Lemma likes_not_dislikes s : starts_with LIKES s = true → starts_with DISLIKES s = false.
Proof. by intros (s' & ->)%starts_with_inv. Qed.

Lemma same_kinds_refl m : same_kinds m m.
Proof. intros k f E. eauto. Qed.

Lemma same_kinds_trans m1 m2 m3 : same_kinds m1 m2 → same_kinds m2 m3 → same_kinds m1 m3.
Proof. intros A B k f (f1 & E1 & Q1)%A. destruct (B k f1 E1) as (f2 & E2 & Q2). exists f2. by rewrite Q2. Qed.

Lemma touch_kinds now key text kind m : kinded m → apt key kind →
  kinded (touch now key text kind m).1 ∧ same_kinds m (touch now key text kind m).1.
Proof.
  intros Hm [Hp Hd]. unfold touch. destruct (dget key (um_facts m)) as [f|] eqn:E.
  - destruct (increment (uf_count f)) as [n|]; [|split; [done|apply same_kinds_refl]].
    set (b := bool_decide (kind = u "dislike") && py_eq (uf_kind f) (VStr (u "preference"))).
    assert (Hb : b = false).
    { unfold b. case_bool_decide as Hk; [|done]. cbn [andb]. specialize (Hd Hk).
      destruct (py_eq (uf_kind f) (VStr (u "preference"))) eqn:Ep; [|done].
      assert (uf_kind f = VStr (u "preference")) as Ek.
      { destruct (uf_kind f) as [| | | |s| |]; try done. cbn in Ep.
        apply bool_decide_eq_true in Ep. by rewrite Ep. }
      pose proof (Hm _ (dget_elem _ _ _ E) Ek) as Es. apply likes_not_dislikes in Es. cbn in Es. congruence. }
    rewrite Hb. cbn [fst]. split.
    + intros e [-> |He]%dset_elem; [|by apply Hm]. cbn. intros Ek. exact (Hm _ (dget_elem _ _ _ E) Ek).
    + intros k g Eg. cbn [um_facts with_facts]. rewrite dget_dset.
      destruct (decide (k = key)) as [->|]; [|eauto]. eexists. split; [done|]. cbn. congruence.
  - cbn [fst]. split.
    + intros e [-> |He]%dset_elem; [|by apply Hm]. cbn. intros [= Ek]. auto.
    + intros k g Eg. cbn [um_facts with_facts]. rewrite dget_dset.
      destruct (decide (k = key)) as [->|]; [congruence|eauto].
Qed.

Lemma touch_all_kinds now l : Forall (λ e, ∃ c m, e.1 = fact_text e.2 c m) l → ∀ m, kinded m →
  kinded (touch_all now l m).1 ∧ same_kinds m (touch_all now l m).1.
Proof.
  induction 1 as [|[t kd] l Ht Hl IH]; intros m Hm; [split; [done|apply same_kinds_refl]|].
  destruct (touch_kinds now (str_lower (strip t)) (strip t) (kind_name kd) m Hm) as [K1 K2].
  { by apply apt_extracted. }
  cbn [touch_all]. unfold mbind, py_bind. destruct (touch _ _ _ _ m) as [m1 [[]|e]]; [|done].
  destruct (IH m1 K1) as [K3 K4]. cbn [fst] in *.
  destruct (touch_all now l m1) as [m2 [?|?]]; (split; [done|by eapply same_kinds_trans]).
Qed.

Lemma remember_kinds now io t m : kinded m →
  kinded (remember now io t m).1 ∧ same_kinds m (remember now io t m).1.
Proof.
  intros Hm. unfold remember. pose proof (extract_user t) as Hu.
  destruct (extract t) as [|e l]; [split; [done|apply same_kinds_refl]|].
  pose proof (touch_all_kinds now _ Hu m Hm) as Hk. unfold mbind, py_bind.
  destruct (touch_all now (e :: l) m) as [m' [?|?]]; [|done]. cbn [fst] in *.
  unfold kinded, same_kinds in *. cbn. by rewrite save_facts_same.
Qed.

Lemma exec_kinds o m : kinded m → kinded (fact_exec o m).
Proof.
  intros Hm. destruct o as [now io t|now io t|io kw|io]; cbn [fact_exec].
  - by apply remember_kinds.
  - unfold remember_explicit. destruct (_ || _); [done|].
    assert (Ha : apt (str_lower (strip t)) (u "explicit")) by by split.
    destruct (touch_kinds now _ (strip t) _ m Hm Ha) as [Hk _]. unfold mbind, py_bind.
    destruct (touch _ _ _ _ m) as [m' [?|?]]; [|done]. unfold kinded in *. cbn. by rewrite save_facts_same.
  - unfold forget. case_bool_decide; [done|]. cbn [fst].
    assert (Hf : kinded (with_facts (List.filter (λ e, negb (doomed (str_lower (strip kw)) e)) (um_facts m)) m)).
    { intros e [He _]%list_elem_of_In%filter_In. apply Hm. by apply list_elem_of_In. }
    case_match; [done|]. unfold kinded in *. by rewrite save_facts_same.
  - unfold clear_facts, kinded. rewrite save_facts_same. cbn. by intros e ?%not_elem_of_nil.
Qed.

Lemma run_kinds ops m : kinded m → kinded (fact_run ops m).
Proof. revert m. induction ops as [|o ops IH]; intros m Hm; [done|]. by apply IH, exec_kinds. Qed.
End Kinds.

(** Saying that one does not like something never downgrades the
    preference on file: the two are filed under different texts, so no fact
    changes its kind by what is said later. *)
Theorem dislike_never_downgrades `{PyLowerLaws} `{WordTable} (now later : f64) (path io : bool)
    (ops : list fact_op) (t : pystr) :
  let m := fact_run ops (new_fact_memory now path None) in
  ∀ k f, dget k (um_facts m) = Some f →
  ∃ f', dget k (um_facts (remember later io t m).1) = Some f' ∧ uf_kind f' = uf_kind f.
Proof.
  cbn zeta. apply remember_kinds, run_kinds. by intros e ?%not_elem_of_nil.
Qed.

(** *** Topics *)

(** Utterances one after another. *)
Definition track_all (us : list pystr) (t : tracker) : tracker := foldl (λ t u, (track u t).1) t us.

Definition silent (s : pystr) : Prop := detect (lower (strip s)) = None.

Lemma track_silent s t : silent s →
  tr_strength (track s t).1 = fsub (tr_strength t) (tr_decay t) ∧
  tr_current (track s t).1 = tr_current t ∧ tr_decay (track s t).1 = tr_decay t.
Proof. intros Hs. unfold track. by rewrite Hs. Qed.

Lemma track_silent_all us t : Forall silent us →
  tr_strength (track_all us t) = Nat.iter (length us) (λ x, fsub x (tr_decay t)) (tr_strength t) ∧
  tr_current (track_all us t) = tr_current t.
Proof.
  intros Hs. revert t. induction Hs as [|s us Hs _ IH]; intros t; [done|].
  destruct (track_silent s t Hs) as (E1 & E2 & E3). destruct (IH (track s t).1) as [E4 E5].
  change (track_all (s :: us) t) with (track_all us (track s t).1).
  rewrite E4, E5, E1, E2, E3. split; [|done]. cbn [length]. by rewrite Nat.iter_succ_r.
Qed.

(** Four quarters away from one there is nothing left, and it stays so. *)
Lemma strength_gone n : (4 <= n)%nat → fleb (Nat.iter n (λ x, fsub x (f_dec 25 2)) f1) f0 = true.
Proof.
  intros Hn. replace n with ((n - 4) + 4)%nat by lia. rewrite Nat.iter_add.
  generalize (n - 4)%nat. intros k. induction k as [|k IH]; [by vm_compute|].
  cbn [Nat.iter]. apply fsub_below; [exact IH|by vm_compute].
Qed.

(** A topic outlasts three utterances that name none, and is gone with
    the fourth and for good. *)
Theorem topic_fades (t : tracker) (said topic : pystr) (us : list pystr) (Hd : tr_decay t = f_dec 25 2)
    (Hs : detect (lower (strip said)) = Some topic) (Hus : Forall silent us) :
  current_topic (track_all us (track said t).1) = if (length us <=? 3)%nat then Some topic else None.
Proof.
  assert (E : (track said t).1 = Tracker (Some topic) f1 (dq_append (tr_max t) topic (tr_history t)) (tr_max t) (tr_decay t))
    by (unfold track; by rewrite Hs).
  rewrite E. set (t0 := Tracker _ _ _ _ _). destruct (track_silent_all us t0 Hus) as [E1 E2].
  unfold current_topic. rewrite E1, E2. cbn [t0 tr_current tr_strength tr_decay]. rewrite Hd. clear.
  destruct (Nat.leb_spec (length us) 3) as [Hl|Hl].
  - do 4 (destruct us as [|? us]; [by vm_compute|]). cbn in Hl. lia.
  - assert (Hx : fleb (Nat.iter (length us) (λ x, fsub x (f_dec 25 2)) f1) f0 = true) by (apply strength_gone; lia).
    destruct (fltb (f_dec 15 2) _) eqn:El; [|done].
    pose proof (fltb_fleb_trans _ _ _ El Hx) as Hc. by vm_compute in Hc.
Qed.

(** Introducing oneself counts twice: the name is read once as a name and
    once as an attribute, with the same text. *)
Theorem introduction_counts_twice `{PyLower} `{WordTable} (now : f64) (io : bool) (m : fact_memory)
    (Hm : counted m) :
  let key := str_lower (u "User's name is Ada") in
  mentions key (remember now io (u "My name is Ada") m).1 = mentions key m + 2.
Proof.
  cbn zeta. unfold remember.
  assert (E : extract (u "My name is Ada") = [(u "User's name is Ada", K_user_name); (u "User's name is Ada", K_attribute)])
    by (vm_compute; reflexivity).
  rewrite E. destruct (touch_all_mentions now [(u "User's name is Ada", K_user_name); (u "User's name is Ada", K_attribute)] m Hm) as (m' & E' & _ & Hk).
  unfold mbind, py_bind. rewrite E'. cbn [fst modify].
  transitivity (mentions (str_lower (u "User's name is Ada")) m'); [unfold mentions; cbn; by rewrite save_facts_same|].
  rewrite Hk. unfold occurrences. assert (Es : strip (u "User's name is Ada") = u "User's name is Ada") by reflexivity.
  cbn [fmap list_fmap fst]. rewrite Es. cbn [List.filter]. by rewrite bool_decide_true.
Qed.

(** ** Witnesses *)

#[local] Existing Instance ascii_words.
#[local] Instance plain_lower : PyLower := lower.
#[local] Instance plain_lower_laws : PyLowerLaws.
Proof. constructor. intros a s _. exists (lower s). unfold str_lower, plain_lower, lower. by rewrite bind_app. Defined.

Lemma remember_counts_witness :
  mentions (u "user likes tea") (remember f1 true (u "I like tea") (new_fact_memory f0 true None)).1 = 1.
Proof.
  destruct (remember_counts f1 true (u "I like tea") (new_fact_memory f0 true None)) as (m & E & Hk).
  - constructor.
  - rewrite E. cbn [fst]. rewrite Hk. vm_compute. reflexivity.
Defined.

Lemma introduction_counts_twice_witness :
  mentions (u "user's name is ada") (remember f1 true (u "My name is Ada") (new_fact_memory f0 true None)).1 = 2.
Proof. exact (introduction_counts_twice f1 true (new_fact_memory f0 true None) (List.Forall_nil _)). Defined.

Lemma dislike_never_downgrades_witness :
  let m := fact_run [F_remember f0 true (u "I like tea")] (new_fact_memory f0 true None) in
  ∃ f', dget (u "user likes tea") (um_facts (remember f1 true (u "I don't like tea") m).1) = Some f' ∧
        uf_kind f' = VStr (u "preference").
Proof.
  refine (dislike_never_downgrades f0 f1 true true [F_remember f0 true (u "I like tea")] (u "I don't like tea")
            (u "user likes tea")
            (UFact (u "User likes tea") (VStr (u "preference")) (VFloat f0) (VFloat f0) (VInt 1)) _).
  vm_compute. reflexivity.
Defined.

Lemma topic_fades_witness :
  let t := (track (u "what's the weather") new_tracker).1 in
  current_topic (track_all [u "how so"; u "and then"; u "why"] t) = Some (u "weather") ∧
  current_topic (track_all [u "how so"; u "and then"; u "why"; u "ok"] t) = None.
Proof.
  cbn zeta. split.
  - refine (topic_fades new_tracker (u "what's the weather") (u "weather") _ _ _ _);
      [reflexivity|vm_compute; reflexivity|repeat constructor].
  - refine (topic_fades new_tracker (u "what's the weather") (u "weather") _ _ _ _);
      [reflexivity|vm_compute; reflexivity|repeat constructor].
Defined.
