(* ===== verification/Dialogue.v ===== *)
(** * Follow-up turns ([src/subsystems/dialogue.py])

    The question the assistant is waiting to have answered and the entity its
    user last spoke of.  A method that looks at [has_pending] may clear an
    expired question, so each is a step on the state.  [m.lastindex] is taken
    to be the number of the pattern's groups, which all take part in a match
    of the patterns used. *)

From Stdlib Require Import ZArith NArith Lia.
From S2P Require Import Prelude PyFloat PyStr PyVal Regex Intent UserFacts.

Local Open Scope Z_scope.

(** How a matched slot is read. *)
Inductive transform := T_num | T_unit | T_word_num.

Definition DURATION_WORD_RE : regex :=
  rx "\b(zero|one|two|three|four|five|six|seven|eight|nine|ten|eleven|twelve|fifteen|twenty|thirty|a|an)\s+(minute|min|second|sec|hour|hr)s?\b".
Definition DURATION_NUM_RE : regex := rx "(\d+)\s*(minute|min|second|sec|hour|hr)s?\b".

(** [_CLARIFICATION_PATTERNS]. *)
Definition CLARIFICATION_PATTERNS : list (pystr * list (regex * pystr * transform)) :=
  [(u "timer_duration",
    [(DURATION_NUM_RE, u "duration_value", T_num);
     (DURATION_NUM_RE, u "duration_unit", T_unit);
     (rx "(?:for|about)\s+(\d+)", u "duration_value", T_num);
     (DURATION_WORD_RE, u "duration_value", T_word_num);
     (DURATION_WORD_RE, u "duration_unit", T_unit)])].

Definition patterns_of (category : pystr) : list (regex * pystr * transform) :=
  default [] (dget category CLARIFICATION_PATTERNS).

Definition NEW_INTENT_WORDS : list pystr :=
  u <$> ["set"; "create"; "start"; "stop"; "turn"; "open"; "close"; "play"; "pause"; "remind"; "what";
         "who"; "where"; "when"; "why"; "how"; "hello"; "hi"; "hey"; "goodbye"; "bye"; "timer"; "alarm";
         "weather"; "battery"; "music"; "call"; "text"]%string.

(** [DialogueState]. *)
Record dialogue := Dialogue {
  pending_category : option pystr;
  pending_transcript : pystr;
  pending_entities : list (pystr * pyval);
  pending_at : f64;
  clarification_timeout : f64;
  last_utterance : pystr;
  recent_entities : list pystr;
  max_entities : nat
}.

Definition new_dialogue : dialogue := Dialogue None [] [] f0 (f_of_Z 120) [] [] 5.

Definition with_pending (c : option pystr) (t : pystr) (e : list (pystr * pyval)) (at_ : f64) (d : dialogue)
    : dialogue :=
  Dialogue c t e at_ (clarification_timeout d) (last_utterance d) (recent_entities d) (max_entities d).

Definition with_recent (l : list pystr) (d : dialogue) : dialogue :=
  Dialogue (pending_category d) (pending_transcript d) (pending_entities d) (pending_at d)
    (clarification_timeout d) (last_utterance d) l (max_entities d).

Definition clear_pending (d : dialogue) : dialogue := with_pending None [] [] f0 d.

(** A category that is set and not empty. *)
Definition category_set (d : dialogue) : bool :=
  match pending_category d with Some (_ :: _) => true | _ => false end.

(** [has_pending]. *)
Definition has_pending (now : f64) (d : dialogue) : dialogue * bool :=
  if negb (category_set d) then (d, false)
  else if f_truthy (pending_at d) && fltb (clarification_timeout d) (fsub now (pending_at d))
  then (clear_pending d, false)
  else (d, true).

(** [begin_clarification]. *)
Definition begin_clarification (now : f64) (category original : pystr) (entities : list (pystr * pyval))
    : dialogue → dialogue :=
  with_pending (Some category) original entities now.

Section Dialogue.
Context `{WordTable}.

(** [looks_like_answer]. *)
Definition looks_like_answer (now : f64) (transcript : pystr) (d : dialogue) : dialogue * bool :=
  let '(d, pending) := has_pending now d in
  if negb pending || bool_decide (transcript = []) then (d, false)
  else
    let lowered := lower (strip transcript) in
    let first := default [] (head (split lowered)) in
    if bool_decide (first ∈ NEW_INTENT_WORDS) then (d, false)
    else (d, existsb (λ p, matches no_flags p.1.1 lowered)
               (patterns_of (default [] (pending_category d)))).

(** One slot of the pending request. *)
Definition merge_slot (text : pystr) (p : regex * pystr * transform) (merged : list (pystr * pyval))
    : res (list (pystr * pyval)) :=
  let '(r, slot, t) := p in
  match search no_flags r text with
  | None => Ok merged
  | Some m =>
      match t with
      | T_num => n ← py_int_of_str (group_text 1 m); Ok (dset slot (VInt n) merged)
      | T_word_num => Ok (dset slot (VInt (word_value (lower (group_text 1 m)))) merged)
      | T_unit => Ok (dset slot (VStr (lower (group_text 2 m))) merged)
      end
  end.

Fixpoint merge_slots (text : pystr) (l : list (regex * pystr * transform)) (merged : list (pystr * pyval))
    : res (list (pystr * pyval)) :=
  match l with
  | [] => Ok merged
  | p :: l' => merged ← merge_slot text p merged; merge_slots text l' merged
  end.

(** [resolve_answer]. *)
Definition resolve_answer (now : f64) (transcript : pystr) : py dialogue (option user_intent) := λ d,
  let '(d, answers) := looks_like_answer now transcript d in
  if negb answers then (d, Ok None)
  else
    match merge_slots (lower (strip transcript)) (patterns_of (default [] (pending_category d)))
            (pending_entities d) with
    | Raise e => (d, Raise e)
    | Ok merged =>
        let original := match pending_transcript d with [] => transcript | t => t end in
        (clear_pending d, Ok (Some (UserIntent COMMAND original (f_dec 9 1) merged)))
    end.

(** ** The entity last spoken of *)

(** [l.remove(x)]. *)
Fixpoint remove_once (x : pystr) (l : list pystr) : list pystr :=
  match l with
  | [] => []
  | y :: l' => if bool_decide (y = x) then l' else y :: remove_once x l'
  end.

(** [remember_entity]. *)
Definition remember_entity (entity : option pystr) (d : dialogue) : dialogue :=
  match entity with
  | Some ((_ :: _) as e) => with_recent (take (max_entities d) (e :: remove_once e (recent_entities d))) d
  | _ => d
  end.

(** [last_entity]. *)
Definition last_entity (d : dialogue) : option pystr := head (recent_entities d).

Definition COREF : regex := rx "\b(it|that|this|them|they|those)\b".

(** The replacement text of [re.sub] is a template: one without a backslash
    stands for itself, the expansion of another is not modelled
    ([expand]). *)
Definition template (expand : pystr → pystr) (s : pystr) : pystr :=
  if existsb (N.eqb 92) s then expand s else s.

(** [resolve_coreference]. *)
Definition resolve_coreference (expand : pystr → pystr) (transcript : pystr) (d : dialogue) : pystr :=
  match last_entity d with
  | Some ((_ :: _) as entity) =>
      if matches re_i COREF transcript then sub re_i COREF (template expand entity) transcript
      else transcript
  | _ => transcript
  end.

(** [record_utterance]. *)
Definition record_utterance (transcript : pystr) (d : dialogue) : dialogue :=
  Dialogue (pending_category d) (pending_transcript d) (pending_entities d) (pending_at d)
    (clarification_timeout d) transcript (recent_entities d) (max_entities d).

(** [DialogueState.clear]. *)
Definition clear_dialogue (d : dialogue) : dialogue :=
  with_recent [] (record_utterance [] (clear_pending d)).

Definition ENTITY_PATTERNS : list regex :=
  [rx "(?:turn|switch)\s+((?:the\s+)?[\w\s]{2,24}?)\s+(?:on|off)\b";
   rx "(?:turn|switch)\s+(?:on|off)\s+(?:the\s+)?([\w\s]{2,24}?)(?:\.|\,|$)";
   rx "(?:call|text|message|email)\s+(?:the\s+)?([\w\s]{2,24}?)(?:\.|\,|$)";
   rx "(?:play|pause|stop)\s+(?:some\s+)?(?:the\s+)?([\w\s]{2,24}?)(?:\.|\,|$)";
   rx "(?:open|close)\s+(?:the\s+)?([\w\s]{2,24}?)(?:\.|\,|$)"].

Fixpoint first_entity (l : list regex) (low : pystr) : option pystr :=
  match l with
  | [] => None
  | r :: l' =>
      match search no_flags r low with
      | None => first_entity l' low
      | Some m =>
          let entity := strip (group_text 1 m) in
          if (2 <=? length entity)%nat && negb (bool_decide (entity ∈ [u "timer"; u "alarm"]))
          then Some entity else first_entity l' low
      end
  end.

(** [extract_named_entity]. *)
Definition extract_named_entity `{PyLower} (transcript : pystr) : option pystr :=
  match transcript with [] => None | _ => first_entity ENTITY_PATTERNS (str_lower transcript) end.
End Dialogue.

(** ** What a follow-up can be *)

(** The entities are those last remembered, newest first, each once. *)
Definition recent_ok (d : dialogue) : Prop :=
  NoDup (recent_entities d) ∧ (length (recent_entities d) <= max_entities d)%nat.

Lemma remove_once_sublist x l : remove_once x l `sublist_of` l.
Proof.
  induction l as [|y l IH]; cbn; [done|].
  case_bool_decide; [by apply sublist_cons|by apply sublist_skip].
Qed.

Lemma remove_once_gone x l : NoDup l → x ∉ remove_once x l.
Proof.
  induction l as [|y l IH]; cbn; [set_solver|]. intros [Hy Hl]%NoDup_cons.
  case_bool_decide as E; [by subst|]. specialize (IH Hl). set_solver.
Qed.

(** The memory of entities never holds one twice nor more than it may,
    and the last one remembered is the one a pronoun stands for. *)
Theorem entities_recent (d : dialogue) (e : pystr) (He : e ≠ []) (Hmax : (0 < max_entities d)%nat)
    (Hd : recent_ok d) :
  recent_ok (remember_entity (Some e) d) ∧ last_entity (remember_entity (Some e) d) = Some e ∧
  ∀ x, x ≠ e → x ∈ recent_entities (remember_entity (Some e) d) → x ∈ recent_entities d.
Proof.
  destruct e as [|c e]; [done|]. destruct Hd as [Hn Hl]. cbn [remember_entity].
  set (e' := c :: e). set (l := e' :: remove_once e' (recent_entities d)).
  assert (Hnl : NoDup l).
  { apply NoDup_cons. split; [by apply remove_once_gone|].
    by eapply sublist_NoDup, remove_once_sublist. }
  split_and!.
  - split; cbn [recent_entities with_recent max_entities].
    + eapply sublist_NoDup; [exact Hnl|apply sublist_take].
    + rewrite length_take. lia.
  - unfold last_entity. cbn [recent_entities with_recent]. unfold l. by destruct (max_entities d); [lia|].
  - intros x Hx Hin. cbn [recent_entities with_recent] in Hin.
    apply (λ H, elem_of_sublist _ _ _ H (sublist_take _ _)) in Hin. unfold l in Hin.
    apply elem_of_cons in Hin as [->|Hin]; [done|].
    exact (elem_of_sublist _ _ _ Hin (remove_once_sublist e' _)).
Qed.

(** Only the question for a timer's duration can be answered: whatever is
    said after "Remember what?", "Forget what?" or any other question, at any
    time, is not taken as its answer. *)
Theorem other_questions_unanswerable `{WordTable} (asked now : f64) (category original said : pystr)
    (entities : list (pystr * pyval)) (d : dialogue) :
  category ≠ u "timer_duration" →
  (resolve_answer now said (begin_clarification asked category original entities d)).2 = Ok None.
Proof.
  intros Hc. unfold resolve_answer, looks_like_answer.
  set (d0 := begin_clarification asked category original entities d).
  assert (Hp : patterns_of category = []).
  { unfold patterns_of, CLARIFICATION_PATTERNS. cbn [dget]. by rewrite decide_False. }
  assert (Hh : ∀ b d', has_pending now d0 = (d', b) → b = true → d' = d0).
  { intros b d' E ->. unfold has_pending in E. destruct (negb _); [congruence|].
    destruct (_ && _); congruence. }
  destruct (has_pending now d0) as [d' [|]] eqn:E; [|done]. rewrite (Hh true d' eq_refl eq_refl).
  cbn [negb orb]. case_bool_decide; [done|]. case_bool_decide; [done|].
  replace (patterns_of (default [] (pending_category d0))) with (patterns_of category) by done.
  by rewrite Hp.
Qed.

(** An answer reconstructs the command that was asked about: with the
    original words, the entities it had, and the question closed. *)
Theorem answer_completes_command `{WordTable} (now : f64) (said : pystr) (d d' : dialogue) (i : user_intent)
    (E : resolve_answer now said d = (d', Ok (Some i))) :
  ui_type i = COMMAND ∧ pending_category d' = None ∧
  (pending_transcript d ≠ [] → ui_transcript i = pending_transcript d) ∧
  ∀ k, k ∉ [u "duration_value"; u "duration_unit"] → dget k (ui_entities i) = dget k (pending_entities d).
Proof.
  unfold resolve_answer, looks_like_answer in E.
  assert (Hh : ∀ b d1, has_pending now d = (d1, b) → b = true → d1 = d).
  { intros b d1 E1 ->. unfold has_pending in E1. destruct (negb _); [congruence|].
    destruct (_ && _); congruence. }
  destruct (has_pending now d) as [d1 [|]] eqn:Ep; [|done]. rewrite (Hh true d1 eq_refl eq_refl) in E.
  clear Ep Hh d1. cbn [negb orb] in E. case_bool_decide; [done|]. case_bool_decide; [done|].
  destruct (existsb _ _); [|done]. cbn [negb] in E.
  destruct (merge_slots _ _ _) as [merged|e] eqn:Em; [|done]. injection E as <- <-.
  split_and!; [done..| |].
  - intros Hne. cbn [ui_transcript]. by destruct (pending_transcript d).
  - cbn [ui_entities]. intros k Hk.
    assert (Hslots : Forall (λ p, p.1.2 ∈ [u "duration_value"; u "duration_unit"])
                       (patterns_of (default [] (pending_category d)))).
    { unfold patterns_of, CLARIFICATION_PATTERNS. cbn [dget]. case_decide; cbn [default]; [|constructor].
      repeat (apply List.Forall_cons; [cbn [fst snd]; set_solver|]). constructor. }
    revert Em Hslots. generalize (pending_entities d), (patterns_of (default [] (pending_category d))).
    intros m l. revert m. induction l as [|p l IH]; intros m Em Hs; [by injection Em as <-|].
    apply Forall_cons in Hs as [Hp Hs]. cbn [merge_slots] in Em.
    apply res_bind_Ok in Em as (m1 & E1 & Em). rewrite (IH _ Em Hs).
    destruct p as [[r slot] t]. cbn [fst snd] in Hp. unfold merge_slot in E1.
    assert (Hd : ∀ v, dget k (dset slot v m) = dget k m).
    { intros v. apply dget_dset_ne. intros ->. done. }
    destruct (search no_flags r _) as [x|]; [|by injection E1 as <-].
    destruct t; [apply res_bind_Ok in E1 as (n & _ & E1)| |]; injection E1 as <-; apply Hd.
Qed.


(** ** Witnesses *)

Lemma entities_recent_witness :
  last_entity (remember_entity (Some (u "lights")) new_dialogue) = Some (u "lights").
Proof. apply (entities_recent new_dialogue (u "lights")); [done|cbn; lia|split; [constructor|cbn; lia]]. Defined.

Lemma other_questions_unanswerable_witness :
  let _ := ascii_words in
  (resolve_answer (f_of_Z 101) (u "milk and eggs")
     (begin_clarification (f_of_Z 100) (u "memory") (u "remember that") [] new_dialogue)).2 = Ok None.
Proof. intros ?. apply other_questions_unanswerable. done. Defined.

Lemma answer_completes_command_witness :
  let _ := ascii_words in
  ∃ d' i, resolve_answer (f_of_Z 101) (u "for 10 minutes")
      (begin_clarification (f_of_Z 100) (u "timer_duration") (u "set a timer") [] new_dialogue) = (d', Ok (Some i)) ∧
    ui_type i = COMMAND ∧ ui_transcript i = u "set a timer" ∧
    dget (u "duration_value") (ui_entities i) = Some (VInt 10).
Proof.
  intros W. eexists _, _. split; [vm_compute; reflexivity|].
  match goal with |- ui_type ?i = _ ∧ _ =>
    pose proof (answer_completes_command (f_of_Z 101) (u "for 10 minutes")
      (begin_clarification (f_of_Z 100) (u "timer_duration") (u "set a timer") [] new_dialogue) _ i
      ltac:(vm_compute; reflexivity)) as (H1 & _ & H3 & _) end.
  split; [exact H1|]. split; [by apply H3|vm_compute; reflexivity].
Defined.
