(* ===== verification/Timers.v ===== *)
(** * Background timers ([src/subsystems/tools.py], [Timer] and [TimerManager])

    Timers live in an insertion-ordered dictionary and are polled; a file
    mirrors the pending ones.  A callback is called with the timer's label; it
    is not modelled that one changes the manager it is called from (the
    agent's speaks).  One reading of the clock serves a whole call. *)

From Stdlib Require Import ZArith NArith Lia.
From Stdlib Require Import Floats.SpecFloat.
From S2P Require Import Prelude PyFloat PyStr PyVal.

Local Open Scope Z_scope.

(** [Timer]; [tm_calls] says whether it has an [on_fire] callback. *)
Record timer := Timer {
  tm_id : pystr;
  tm_duration : f64;
  tm_label : pyval;
  tm_calls : bool;
  tm_due : f64;
  tm_fired_at : option f64;
  tm_away : bool
}.

(** [Timer.__init__]. *)
Definition new_timer (now : f64) (seconds : f64) (label : pyval) (id : pystr) (calls : bool) : timer :=
  Timer id seconds (py_or label (VStr (u "Timer"))) calls (fadd now seconds) None false.

Definition with_due (due : f64) (t : timer) : timer :=
  Timer (tm_id t) (tm_duration t) (tm_label t) (tm_calls t) due (tm_fired_at t) (tm_away t).

Definition with_away (t : timer) : timer :=
  Timer (tm_id t) (tm_duration t) (tm_label t) (tm_calls t) (tm_due t) (tm_fired_at t) true.

(** [remaining_seconds] and [fired]. *)
Definition remaining_seconds (now : f64) (t : timer) : f64 := fmax f0 (fsub (tm_due t) now).
Definition fired (t : timer) : bool := match tm_fired_at t with Some _ => true | None => false end.

(** [Timer.fire]: the timer and the labels its callback was called with. *)
Definition fire (now : f64) (t : timer) : timer * list pyval :=
  (Timer (tm_id t) (tm_duration t) (tm_label t) (tm_calls t) (tm_due t) (Some now) (tm_away t),
   if tm_calls t then [tm_label t] else []).

(** [to_persist_dict]. *)
Definition persist_dict (t : timer) : pyval :=
  VDict [(u "timer_id", VStr (tm_id t)); (u "label", tm_label t);
         (u "duration_seconds", VFloat (tm_duration t)); (u "due_at", VFloat (tm_due t))].

(** [try: ... except (TypeError, ValueError): None]. *)
Definition or_none {A} (r : res (option A)) : res (option A) :=
  match r with
  | Raise (TypeError _) | Raise (ValueError _) => Ok None
  | r => r
  end.

(** [TimerManager]: the timers, the file if it has one, and the labels the
    callbacks were called with. *)
Record timer_manager := TimerManager {
  timers : list (pystr * timer);
  has_file : bool;
  timer_file : option pyval;
  called : list pyval
}.

Definition with_timers (l : list (pystr * timer)) (m : timer_manager) : timer_manager :=
  TimerManager l (has_file m) (timer_file m) (called m).
Definition with_called (l : list pyval) (m : timer_manager) : timer_manager :=
  TimerManager (timers m) (has_file m) (timer_file m) (called m ++ l).

(** [save] and [_persist]; [io] says whether the write succeeds. *)
Definition save_timers (io : bool) (m : timer_manager) : timer_manager :=
  if has_file m && io
  then TimerManager (timers m) true
         (Some (VList (persist_dict <$> List.filter (λ t, negb (fired t)) (timers m).*2))) (called m)
  else m.

Section Loading.
Context `{PyRepr} `{PyFloatOfStr}.

(** [from_persist_dict]. *)
Definition from_persist_dict (now : f64) (data : pyval) : res (option timer) :=
  d ← as_dict data;
  or_none (
    let timer_id := dict_get (u "timer_id") VNone d in
    let label := py_or (dict_get (u "label") VNone d) (VStr (u "Timer")) in
    duration ← py_float (dict_get (u "duration_seconds") (VInt 0) d);
    due_at ← py_float (dict_get (u "due_at") (VInt 0) d);
    Ok (if negb (truthy timer_id) || fleb due_at f0 then None
        else Some (with_due due_at (new_timer now duration label (py_str timer_id) false)))).

Fixpoint load_timers (now : f64) (items : list pyval) (l : list (pystr * timer)) : list (pystr * timer) :=
  match items with
  | [] => l
  | i :: items' =>
      match from_persist_dict now i with
      | Ok (Some t) => load_timers now items' (dset (tm_id t) t l)
      | Ok None => load_timers now items' l
      | Raise _ => l
      end
  end.

(** [TimerManager(persist_path)]: [file] is what the file holds, if it is
    there and can be read. *)
Definition new_timers (now : f64) (path : bool) (file : option pyval) : timer_manager :=
  TimerManager (match file with
                | Some (VList items) => if path then load_timers now items [] else []
                | _ => []
                end) path file [].
End Loading.

Definition expired (now : f64) (t : timer) : bool := negb (fired t) && fleb (remaining_seconds now t) f0.

(** [restore]: the timers that expired while the process was away. *)
Definition restore (now : f64) (m : timer_manager) : timer_manager * list timer :=
  (with_timers ((λ e, (e.1, if expired now e.2 then with_away e.2 else e.2)) <$> timers m) m,
   with_away <$> List.filter (expired now) (timers m).*2).

(** [set]. *)
Definition set_timer (now : f64) (io : bool) (seconds : f64) (label : pyval) (id : pystr) (calls : bool)
    (m : timer_manager) : timer_manager * timer :=
  let seconds := fmax f0 seconds in
  let t := new_timer now seconds label id calls in
  if fltb f0 seconds then (save_timers io (with_timers (dset id t (timers m)) m), t)
  else
    let '(t, said) := fire now t in
    (save_timers io (with_called said (with_timers (dset id t (timers m)) m)), t).

(** [cancel]. *)
Definition cancel_timer (io : bool) (id : pystr) (m : timer_manager) : timer_manager * option timer :=
  (save_timers io (with_timers (ddel id (timers m)) m), dget id (timers m)).

(** [list_pending]. *)
Definition list_pending (m : timer_manager) : list timer :=
  List.filter (λ t, negb (fired t)) (timers m).*2.

(** The loop of [check]: what stays, what fired, what was called. *)
Fixpoint check_loop (now : f64) (l : list (pystr * timer))
    : list (pystr * timer) * list timer * list pyval :=
  match l with
  | [] => ([], [], [])
  | (id, t) :: l' =>
      let '(kept, gone, said) := check_loop now l' in
      if fired t then (kept, t :: gone, said)
      else if fleb (remaining_seconds now t) f0 then
        let '(t, s) := fire now t in (kept, t :: gone, s ++ said)
      else ((id, t) :: kept, gone, said)
  end.

(** [check]. *)
Definition check_timers (now : f64) (io : bool) (m : timer_manager) : timer_manager * list timer :=
  let '(kept, gone, said) := check_loop now (timers m) in
  let m := with_called said (with_timers kept m) in
  (match gone with [] => m | _ => save_timers io m end, gone).

(** [clear_all]. *)
Definition clear_timers (io : bool) (m : timer_manager) : timer_manager := save_timers io (with_timers [] m).

(** ** The agent's poll ([src/shugocore_agent.py], [_check_timers])

    What is said: by the callbacks ([f"{label} is done!"]), and for the timers
    flagged as missed (a label without [lower] raises and its line is dropped). *)
Definition done_line `{PyRepr} (label : pyval) : pystr := py_str label ++ u " is done!".

Definition missed_line `{PyLower} (label : pyval) : list pystr :=
  match label with
  | VStr s => [u "While you were away, your " ++ str_lower s ++ u " fired."]
  | _ => []
  end.

Definition poll_timers `{PyRepr} `{PyLower} (now : f64) (io : bool) (m : timer_manager) : timer_manager * list pystr :=
  let '(m', gone) := check_timers now io m in
  (m', (done_line <$> drop (length (called m)) (called m'))
       ++ (List.filter tm_away gone ≫= λ t, missed_line (tm_label t))).

(** ** What the manager does *)

(** Due at the next poll. *)
Definition due (now : f64) (t : timer) : bool := fired t || fleb (remaining_seconds now t) f0.

Lemma check_loop_spec now l :
  let '(kept, gone, said) := check_loop now l in
  kept = List.filter (λ e, negb (due now e.2)) l ∧
  gone = (λ e, if fired e.2 then e.2 else (fire now e.2).1) <$> List.filter (λ e, due now e.2) l ∧
  said = (λ e, tm_label e.2) <$> List.filter (λ e, due now e.2 && negb (fired e.2) && tm_calls e.2) l.
Proof.
  induction l as [|[id t] l IH]; [done|]. cbn [check_loop List.filter snd].
  destruct (check_loop now l) as [[kept gone] said]. destruct IH as (Ek & Eg & Es).
  unfold due in *. destruct (fired t) eqn:Ef; cbn [orb negb andb]; rewrite ?Ef.
  - rewrite fmap_cons. cbn [snd]. rewrite Ef. by rewrite Ek, Eg, Es.
  - destruct (fleb (remaining_seconds now t) f0); cbn [negb andb fire].
    + rewrite fmap_cons. cbn [snd]. rewrite Ef. rewrite Ek, Eg, Es.
      split_and!; [done..|]. by destruct (tm_calls t).
    + by rewrite Ek, Eg, Es.
Qed.

Lemma save_timers_same io m : timers (save_timers io m) = timers m ∧ called (save_timers io m) = called m.
Proof. unfold save_timers. by destruct (has_file m && io). Qed.

Lemma check_timers_parts now io m :
  timers (check_timers now io m).1 = List.filter (λ e, negb (due now e.2)) (timers m) ∧
  (check_timers now io m).2 =
    (λ e, if fired e.2 then e.2 else (fire now e.2).1) <$> List.filter (λ e, due now e.2) (timers m) ∧
  called (check_timers now io m).1 =
    called m ++ ((λ e, tm_label e.2) <$> List.filter (λ e, due now e.2 && negb (fired e.2) && tm_calls e.2) (timers m)).
Proof.
  unfold check_timers. pose proof (check_loop_spec now (timers m)) as Hl.
  destruct (check_loop now (timers m)) as [[kept gone] said]. destruct Hl as (-> & -> & ->).
  destruct (save_timers_same io (with_called
    ((λ e, tm_label e.2) <$> List.filter (λ e, due now e.2 && negb (fired e.2) && tm_calls e.2) (timers m))
    (with_timers (List.filter (λ e, negb (due now e.2)) (timers m)) m))) as [E1 E2].
  cbn [fst snd]. case_match; rewrite ?E1, ?E2; done.
Qed.

(** A poll fires exactly the due timers, in the order they were made, and
    calls each callback once; what is left is what was not due, and polling
    again at the same time does nothing. *)
Theorem poll_fires_due (now : f64) (io : bool) (m : timer_manager) :
  let '(m', gone) := check_timers now io m in
  timers m' = List.filter (λ e, negb (due now e.2)) (timers m) ∧
  tm_id <$> gone = tm_id <$> (List.filter (λ e, due now e.2) (timers m)).*2 ∧
  called m' = called m ++ (tm_label <$> List.filter (λ t, due now t && negb (fired t) && tm_calls t) (timers m).*2) ∧
  Forall (λ t, fired t = true) gone ∧
  (check_timers now io m').2 = [].
Proof.
  pose proof (check_timers_parts now io m) as (E1 & E2 & E3).
  destruct (check_timers now io m) as [m' gone]. cbn [fst snd] in *. split_and!.
  - done.
  - rewrite E2, <- !list_fmap_compose. apply list_fmap_ext. intros _ [k t] _. cbn. by destruct (fired t).
  - rewrite E3. f_equal. clear. induction (timers m) as [|[k t] l IH]; [done|].
    rewrite fmap_cons. cbn [List.filter snd].
    destruct (due now t && negb (fired t) && tm_calls t); rewrite ?fmap_cons, IH; done.
  - rewrite E2. apply Forall_fmap, Forall_true. intros [k t]. unfold compose. cbn. by destruct (fired t) eqn:E.
  - destruct (check_timers_parts now io m') as (_ & E4 & _). rewrite E4, E1.
    assert (En : List.filter (λ e, due now e.2) (List.filter (λ e, negb (due now e.2)) (timers m)) = []);
      [|by rewrite En].
    clear. induction (timers m) as [|[k t] l IH]; [done|]. cbn [List.filter snd].
    destruct (due now t) eqn:E; cbn [negb]; [done|]. cbn [List.filter snd]. by rewrite E.
Qed.

(** A timer as it comes back from the file: without its callback. *)
Definition uncalled (t : timer) : timer :=
  Timer (tm_id t) (tm_duration t) (tm_label t) false (tm_due t) None false.

(** What the file can hold: identifiers and labels that are not empty, one
    timer to an identifier, due after the epoch. *)
Definition storable (l : list (pystr * timer)) : Prop :=
  NoDup l.*1 ∧
  Forall (λ e, e.1 = tm_id e.2 ∧ tm_id e.2 ≠ [] ∧ truthy (tm_label e.2) = true ∧ fleb (tm_due e.2) f0 = false) l.

Section Restarts.
Context `{PyRepr} `{PyFloatOfStr}.

Lemma load_persisted now t : tm_id t ≠ [] → truthy (tm_label t) = true → fleb (tm_due t) f0 = false →
  from_persist_dict now (persist_dict t) = Ok (Some (uncalled t)).
Proof.
  intros Hi Hl Hd. destruct t as [i d l c due f a]; cbn [tm_id tm_label tm_due] in *.
  unfold from_persist_dict. cbn [persist_dict as_dict mbind res_bind tm_id tm_label tm_duration tm_due].
  assert (E1 : ∀ x y z w : pyval, dict_get (u "timer_id") VNone
    [(u "timer_id", x); (u "label", y); (u "duration_seconds", z); (u "due_at", w)] = x) by reflexivity.
  assert (E2 : ∀ x y z w : pyval, dict_get (u "label") VNone
    [(u "timer_id", x); (u "label", y); (u "duration_seconds", z); (u "due_at", w)] = y) by reflexivity.
  assert (E3 : ∀ x y z w : pyval, dict_get (u "duration_seconds") (VInt 0)
    [(u "timer_id", x); (u "label", y); (u "duration_seconds", z); (u "due_at", w)] = z) by reflexivity.
  assert (E4 : ∀ x y z w : pyval, dict_get (u "due_at") (VInt 0)
    [(u "timer_id", x); (u "label", y); (u "duration_seconds", z); (u "due_at", w)] = w) by reflexivity.
  rewrite E1, E2, E3, E4. cbn [py_float mbind res_bind]. unfold new_timer, py_or. rewrite !Hl, Hd.
  by destruct i as [|c0 i].
Qed.

Lemma load_saved_timers now l : ∀ d, storable l → NoDup (d ++ l).*1 →
  load_timers now (persist_dict <$> l.*2) d = d ++ (prod_map id uncalled <$> l).
Proof.
  induction l as [|[k t] l IH]; intros d [Hn Hs] Hd; [by rewrite app_nil_r|].
  apply Forall_cons in Hs as [(Ek & Hi & Hl & Ht) Hs]. cbn [fst snd] in *. subst k.
  rewrite !fmap_cons. cbn [load_timers snd]. rewrite load_persisted by done. cbn [uncalled tm_id].
  rewrite fmap_app, fmap_cons in Hd. cbn [fst] in Hd.
  rewrite dset_fresh.
  - rewrite IH; [by rewrite <- app_assoc| |by rewrite !fmap_app, <- app_assoc].
    split; [|done]. rewrite fmap_cons in Hn. by apply NoDup_cons in Hn as [_ ?].
  - apply NoDup_app in Hd as (_ & Hd & _). intros Hin. apply (Hd _ Hin). left.
Qed.
End Restarts.

(** A restart has every pending timer of the last save, with its label
    and the time it is due, in the same order; but not its callback. *)
Theorem timers_survive_restart `{PyRepr} `{PyFloatOfStr} (now : f64) (m : timer_manager)
    (Hf : has_file m = true) (Hs : storable (List.filter (λ e, negb (fired e.2)) (timers m))) :
  timers (new_timers now true (timer_file (save_timers true m))) =
  prod_map id uncalled <$> List.filter (λ e, negb (fired e.2)) (timers m).
Proof.
  unfold save_timers. rewrite Hf. cbn [andb timer_file new_timers timers].
  assert (Ef : List.filter (λ t, negb (fired t)) (timers m).*2 = (List.filter (λ e, negb (fired e.2)) (timers m)).*2).
  { clear. induction (timers m) as [|[k t] l IH]; [done|]. rewrite fmap_cons. cbn [List.filter snd].
    destruct (negb (fired t)); rewrite ?fmap_cons, IH; done. }
  rewrite Ef, load_saved_timers; [done|done|]. by destruct Hs.
Qed.

(** No timer that was read from a file has a callback. *)
Lemma loaded_uncalled `{PyRepr} `{PyFloatOfStr} now items : ∀ l,
  Forall (λ e, tm_calls e.2 = false ∧ tm_away e.2 = false) l →
  Forall (λ e, tm_calls e.2 = false ∧ tm_away e.2 = false) (load_timers now items l).
Proof.
  induction items as [|i items IH]; intros l Hl; [done|]. cbn [load_timers].
  destruct (from_persist_dict now i) as [[t|]|e] eqn:E; [|auto..]. apply IH.
  assert (Ht : tm_calls t = false ∧ tm_away t = false).
  { unfold from_persist_dict in E. apply res_bind_Ok in E as (d & _ & E). cbn zeta in E.
    unfold or_none in E. set (r := _ ≫= _) in E.
    assert (E' : r = Ok (Some t)) by (destruct r as [|[]]; congruence). clear E. unfold r in E'.
    apply res_bind_Ok in E' as (x & _ & E). apply res_bind_Ok in E as (y & _ & E).
    destruct (_ || _); [done|]. by injection E as <-. }
  rewrite Forall_forall in Hl |- *. by intros e [-> |He]%dset_elem; [|apply Hl].
Qed.

(** A timer that was running when the process stopped, and is due after
    the process came back, goes off without a word: it has no callback any
    more and it is not among those announced as missed. *)
Theorem restarted_timers_silent `{PyRepr} `{PyFloatOfStr} `{PyLower} (started now : f64) (io : bool) (file : pyval) :
  let m := new_timers started true (Some file) in
  (∀ e, e ∈ timers m → expired started e.2 = false) →
  (poll_timers now io (restore started m).1).2 = [].
Proof.
  cbn zeta. set (m := new_timers _ _ _). intros He.
  assert (Hm : Forall (λ e, tm_calls e.2 = false ∧ tm_away e.2 = false) (timers m)).
  { unfold m, new_timers. cbn. destruct file; try constructor. by apply loaded_uncalled. }
  clearbody m.
  assert (Er : timers (restore started m).1 = timers m).
  { unfold restore, with_timers. cbn [fst timers]. rewrite <- (list_fmap_id (timers m)) at 2. apply list_fmap_ext.
    intros i [k t] Hi. assert (Ht : expired started t = false).
    { apply (He (k, t)). by eapply list_elem_of_lookup_2. }
    cbn [fst snd]. by rewrite Ht. }
  unfold poll_timers. pose proof (check_timers_parts now io (restore started m).1) as (_ & E2 & E3).
  destruct (check_timers now io _) as [m' gone]. cbn [fst snd] in *. rewrite E3, drop_app_length, E2, Er.
  rewrite Forall_forall in Hm.
  assert (E : List.filter (λ e, due now e.2 && negb (fired e.2) && tm_calls e.2) (timers m) = []).
  { clear - Hm. induction (timers m) as [|e l IH]; [done|]. cbn.
    rewrite (proj1 (Hm e (list_elem_of_here _ _))), andb_false_r. apply IH. intros x Hx. apply Hm. by right. }
  rewrite E. cbn.
  assert (Ea : ∀ l, (∀ e, e ∈ l → tm_calls e.2 = false ∧ tm_away e.2 = false) →
    List.filter tm_away ((λ e : pystr * timer, if fired e.2 then e.2 else (fire now e.2).1) <$> List.filter (λ e, due now e.2) l) = []).
  { clear. induction l as [|e l IH]; intros Hl; [done|]. cbn [List.filter].
    assert (Hl' : ∀ x, x ∈ l → tm_calls x.2 = false ∧ tm_away x.2 = false) by (intros x Hx; apply Hl; by right).
    destruct (due now e.2); [|by apply IH]. rewrite fmap_cons. cbn [List.filter].
    destruct (Hl e (list_elem_of_here _ _)) as [_ Hw].
    destruct (fired e.2); cbn [fire fst tm_away]; rewrite Hw; by apply IH. }
  by rewrite Ea.
Qed.

(** An entry that is not an object ends the reading of the file: the
    timers after it are lost, and the next save drops them from the file. *)
Theorem malformed_entry_drops_rest `{PyRepr} `{PyFloatOfStr} (now : f64) (items : list pyval)
    (seconds : f64) (label : pyval) (id : pystr) (Hpos : fltb f0 seconds = true) :
  let m := new_timers now true (Some (VList (VNone :: items))) in
  timers m = [] ∧
  timer_file (set_timer now true seconds label id true m).1 =
  Some (VList [persist_dict (new_timer now seconds label id true)]).
Proof.
  cbn zeta. split; [done|]. unfold set_timer. unfold fmax. by rewrite Hpos, Hpos.
Qed.

(** ** Witnesses *)

#[local] Instance plain_repr : PyRepr := λ _, [].
#[local] Instance no_float_text : PyFloatOfStr := λ _, Raise (ValueError []).
#[local] Instance plain_lower : PyLower := lower.

(** A minute's timer set at second 100. *)
Definition demo_timers : timer_manager :=
  (set_timer (f_of_Z 100) true (f_of_Z 60) (VStr (u "Timer")) (u "a1") true (new_timers f0 true None)).1.

Lemma timers_survive_restart_witness :
  timers (new_timers (f_of_Z 120) true (timer_file (save_timers true demo_timers))) =
  [(u "a1", uncalled (new_timer (f_of_Z 100) (f_of_Z 60) (VStr (u "Timer")) (u "a1") true))].
Proof.
  rewrite (timers_survive_restart (f_of_Z 120) demo_timers).
  - vm_compute. reflexivity.
  - reflexivity.
  - split; [repeat constructor; set_solver|].
    constructor; [|constructor]. split; [|split; [|split]]; [reflexivity|discriminate|reflexivity|vm_compute; reflexivity].
Defined.

(** The process stops at second 120 and is back at 130; the timer was due at
    160 and the poll of second 170 takes it away. *)
Lemma restarted_timers_silent_witness :
  let file := VList [persist_dict (new_timer (f_of_Z 100) (f_of_Z 60) (VStr (u "Timer")) (u "a1") true)] in
  let m := (restore (f_of_Z 130) (new_timers (f_of_Z 130) true (Some file))).1 in
  (poll_timers (f_of_Z 170) true m).2 = [] ∧ length (check_timers (f_of_Z 170) true m).2 = 1%nat.
Proof.
  cbn zeta. split.
  - apply (restarted_timers_silent (f_of_Z 130) (f_of_Z 170) true).
    intros e He. apply list_elem_of_In in He as [<-|[]]. vm_compute. reflexivity.
  - vm_compute. reflexivity.
Defined.

Lemma malformed_entry_drops_rest_witness :
  let old := persist_dict (new_timer (f_of_Z 100) (f_of_Z 60) (VStr (u "Timer")) (u "a1") true) in
  timers (new_timers (f_of_Z 120) true (Some (VList [VNone; old]))) = [].
Proof.
  exact (proj1 (malformed_entry_drops_rest (f_of_Z 120)
    [persist_dict (new_timer (f_of_Z 100) (f_of_Z 60) (VStr (u "Timer")) (u "a1") true)] f1 VNone (u "b") eq_refl)).
Defined.
