(* ===== verification/Tools.v ===== *)
(** * The assistant's tools ([src/subsystems/tools.py], [src/subsystems/fallback.py])

    The registry of named capabilities and the standard set of them, over the
    timers and the user's facts; and the retry and fallback helpers.  What a
    tool reads of its device (clock, formatted time, new identifiers, the
    providers' answers, whether files can be written) is the record [device].
    A provider of sensors returns a dictionary or nothing. *)

From Stdlib Require Import ZArith NArith Lia.
From Stdlib Require Import Floats.SpecFloat.
From S2P Require Import Prelude PyFloat PyStr PyVal Regex UserFacts Timers.

Local Open Scope Z_scope.

(** [ToolResult]. *)
Record tool_result := ToolResult {
  tr_ok : bool;
  tr_output : pystr;
  tr_data : list (pystr * pyval);
  tr_error : option pystr
}.

Definition ok_result (output : pystr) (data : list (pystr * pyval)) : tool_result :=
  ToolResult true output data None.
Definition err_result (message : pystr) : tool_result :=
  ToolResult false (match message with [] => u "That didn't work." | _ => message end) [] (Some message).

(** ** Retrying and falling back *)

(** [RetryPolicy]. *)
Record retry_policy := RetryPolicy {
  max_attempts : nat;
  base_backoff : f64;
  backoff_factor : f64
}.
Definition new_policy (attempts : Z) (base factor : f64) : retry_policy :=
  RetryPolicy (Z.to_nat (Z.max 1 attempts)) (fmax f0 base) (fmax f1 factor).

Section Retry.
Context {S A : Type} (fpow : f64 → Z → f64).

(** [sleep_before_retry]: the seconds slept, if any. *)
Definition sleep_before_retry (p : retry_policy) (attempt : Z) : list f64 :=
  let delay := fmul (base_backoff p) (fpow (backoff_factor p) attempt) in
  if fltb f0 delay then [fmin delay (f_of_Z 5)] else [].

Fixpoint attempts_from (p : retry_policy) (n : nat) (attempt : Z) (f : py S A) (s : S)
    : S * (res A * list f64) :=
  match f s with
  | (s, Ok x) => (s, (Ok x, []))
  | (s, Raise e) =>
      match n with
      | O => (s, (Raise e, []))
      | Datatypes.S n =>
          let slept := sleep_before_retry p attempt in
          let '(s, (r, more)) := attempts_from p n (attempt + 1) f s in (s, (r, slept ++ more))
      end
  end.

(** [retry_call]: the outcome ([(True, x)] as [Ok x], [(False, exc)] as
    [Raise]) and the delays. *)
Definition retry_call (f : py S A) (p : retry_policy) (s : S) : S * (res A * list f64) :=
  attempts_from p (max_attempts p - 1) 0 f s.

(** [FallbackChain.run]: the name of the strategy that answered last, whether
    it succeeded, and its result or exception. *)
Fixpoint run_chain (l : list (pystr * py S (bool * A))) (last : pystr * bool * option (res A)) (s : S)
    : S * (pystr * bool * option (res A)) :=
  match l with
  | [] => (s, last)
  | (name, strategy) :: l' =>
      match strategy s with
      | (s, Ok (true, x)) => (s, (name, true, Some (Ok x)))
      | (s, Ok (false, x)) => run_chain l' (name, false, Some (Ok x)) s
      | (s, Raise e) => run_chain l' (name, false, Some (Raise e)) s
      end
  end.
Definition chain_run (l : list (pystr * py S (bool * A))) : S → S * (pystr * bool * option (res A)) :=
  run_chain l (u "none", false, None).
End Retry.

(** ** The registry *)

(** The state tools act on. *)
Record kit := Kit { k_timers : timer_manager; k_facts : fact_memory }.

Definition on_timers {A} (f : timer_manager → timer_manager * A) : py kit A := λ k,
  let '(t, x) := f (k_timers k) in (Kit t (k_facts k), Ok x).
Definition on_facts {A} (f : py fact_memory A) : py kit A := λ k,
  let '(m, r) := f (k_facts k) in (Kit (k_timers k) m, r).

(** A tool: its handler is called with keyword arguments. *)
Definition handler : Type := list (pystr * pyval) → py kit tool_result.
Record tool := Tool {
  tool_name : pystr;
  tool_handler : handler;
  tool_description : pystr;
  tool_parameters : list (pystr * pystr)
}.
Definition registry : Type := list (pystr * tool).

Definition register (t : tool) (r : registry) : registry := dset (tool_name t) t r.
Definition unregister (name : pystr) (r : registry) : registry := ddel name r.
Definition has_tool (name : pystr) (r : registry) : bool := dhas name r.

(** [names]. *)
Definition tool_names (r : registry) : list pystr := sort_by str_leb r.*1.

(** [Tool.call]. *)
Definition call_tool (exn_text : exn → pystr) (t : tool) (kw : list (pystr * pyval)) : py kit tool_result :=
  r ← attempt (tool_handler t kw);
  match r with
  | Ok x => mret x
  | Raise e => mret (err_result (tool_name t ++ u " failed: " ++ exn_text e))
  end.

(** [ToolRegistry.call]. *)
Definition call (exn_text : exn → pystr) (r : registry) (name : pystr) (kw : list (pystr * pyval))
    : py kit tool_result :=
  match dget name r with
  | None => mret (err_result (u "I don't have a " ++ name ++ u " tool yet."))
  | Some t => call_tool exn_text t kw
  end.

(** A call whose keywords do not fit raises [TypeError]. *)
Definition takes (required optional : list pystr) (kw : list (pystr * pyval)) (f : py kit tool_result)
    : py kit tool_result :=
  if forallb (λ e, bool_decide (e.1 ∈ required ++ optional)) kw && forallb (λ k, dhas k kw) required
  then f else raise (TypeError (u "unexpected or missing argument")).

(** ** The standard tools *)

Record device := Device {
  dv_now : f64;
  dv_hms : pystr;
  dv_today : pystr;
  dv_id : pystr;
  dv_timer_io : bool;
  dv_facts_io : bool;
  dv_joke : nat;
  dv_battery : option (res pyval);
  dv_sensors : option (res (list (pystr * pyval)))
}.

Definition JOKES : list pystr :=
  [u "Why did the robot go to art school? It wanted to draw better circuits.";
   u "I told my phone a joke. It sent it to a group chat. We don't speak anymore.";
   u "Why don't robots step on LEGOs? Because they have sensitive feet " ++ [8212%N] ++ u " well, wheels.";
   u "What's a computer's favorite snack? Microchips.";
   u "Why was the math book sad? Too many problems " ++ [8212%N] ++ u " I can relate.";
   u "I would tell you a UDP joke, but you might not get it."].

Definition UNIT_SECONDS : list (pystr * Z) :=
  [(u "second", 1); (u "sec", 1); (u "minute", 60); (u "min", 60); (u "hour", 3600); (u "hr", 3600)].

Section DefaultTools.
Context `{PyRepr} `{PyLower} `{WordTable} `{HalfPower} `{PyFloatOfStr}.
Context (exn_text : exn → pystr) (dv : device) (timer_callback : bool).

(** [float(v) != 1]. *)
Definition plural (v : pyval) : res pystr :=
  x ← py_float v; Ok (if feqb x f1 then [] else u "s").

(** [_set_timer]. *)
Definition tool_set_timer : handler := λ kw,
  takes [u "duration_value"] [u "duration_unit"; u "label"] kw (
    let value := dict_get (u "duration_value") VNone kw in
    let unit := dict_get (u "duration_unit") (VStr (u "minute")) kw in
    let label := dict_get (u "label") (VStr (u "Timer")) kw in
    let unit_seconds := default 60 (dget (str_lower (py_str unit)) UNIT_SECONDS) in
    n ← of_res (x ← py_float value; py_int_of_f x);
    let seconds := Z.max 1 (n * unit_seconds) in
    x ← of_res (py_float_of_Z seconds);
    t ← on_timers (set_timer (dv_now dv) (dv_timer_io dv) x label (dv_id dv) timer_callback);
    name ← match label with
           | VStr l => mret (str_lower l)
           | _ => raise (AttributeError (u "object has no attribute 'lower'"))
           end;
    s ← of_res (plural value);
    mret (ok_result (u "Got it " ++ [8212%N] ++ u " " ++ name ++ u " set for " ++ py_str value ++ u " "
                       ++ py_str unit ++ s ++ u ".")
            [(u "timer_id", VStr (tm_id t)); (u "seconds", VInt seconds)])).

Definition tool_list_timers : handler := λ kw,
  takes [] [] kw (
    k ← get;
    let pending := list_pending (k_timers k) in
    mret (ok_result
      (match pending with
       | [] => u "No timers running."
       | _ => u "Alive: " ++ join (u ", ")
                ((λ t, py_str (tm_label t) ++ u " (" ++ fmt_fixed 0 (remaining_seconds (dv_now dv) t)
                         ++ u "s left)") <$> pending)
       end) [(u "count", VInt (Z.of_nat (length pending)))])).

(** Only the text of an identifier can be a timer's. *)
Definition tool_cancel_timer : handler := λ kw,
  takes [u "timer_id"] [] kw (
    let id := dict_get (u "timer_id") VNone kw in
    t ← on_timers (λ m, match id with
                        | VStr i => cancel_timer (dv_timer_io dv) i m
                        | _ => (save_timers (dv_timer_io dv) m, None)
                        end);
    mret match t with
         | None => err_result (u "I couldn't find that timer.")
         | Some t => ok_result (u "Cancelled " ++ py_str (tm_label t) ++ u ".") [(u "timer_id", id)]
         end).

(** [_battery]: its own handler catches whatever the provider raises. *)
Definition tool_battery (provided : res pyval) : handler := λ kw,
  takes [] [] kw (mret match provided with
    | Raise e => err_result (u "Battery check failed: " ++ exn_text e)
    | Ok VNone => err_result (u "Battery data isn't available right now.")
    | Ok level => ok_result (u "Your battery is at " ++ py_str level ++ u "%.") [(u "battery", level)]
    end).

Definition tool_sensors (provided : res (list (pystr * pyval))) : handler := λ kw,
  takes [] [] kw (mret match provided with
    | Raise e => err_result (u "Sensor check failed: " ++ exn_text e)
    | Ok [] => err_result (u "Sensor data isn't available right now.")
    | Ok data => ok_result (u "Sensors " ++ [8212%N] ++ u " "
                              ++ join (u ", ") ((λ e, e.1 ++ u ": " ++ py_str e.2) <$> data) ++ u ".") data
    end).

(** The keys a temperature is looked for under; the last is the device's own. *)
Definition TEMPERATURE_KEYS : list (pystr * bool) :=
  [(u "ambient_temp_c", false); (u "temperature_c", false); (u "cpu_temp_c", true)].

Definition temperature_result (key : pystr) (own : bool) (value : f64) : tool_result :=
  ok_result
    (if own
     then u "My own device is running at " ++ fmt_1f value ++ u " degrees Celsius " ++ [8212%N]
            ++ u " that is my thermal sensor, not the room."
     else u "It's " ++ fmt_1f value ++ u " degrees Celsius here.")
    [(u "temperature_c", VFloat value); (u "source", VStr key);
     (u "kind", VStr (if own then u "device" else u "ambient"))].

Fixpoint temperature_from (keys : list (pystr * bool)) (data : list (pystr * pyval)) : res tool_result :=
  match keys with
  | [] => Ok (err_result (u "I can't measure a temperature here " ++ [8212%N]
                            ++ u " this device has no ambient sensor and no weather service is connected."))
  | (key, own) :: keys' =>
      match dget key data with
      | None => temperature_from keys' data
      | Some v =>
          match py_float v with
          | Raise (TypeError _) | Raise (ValueError _) => temperature_from keys' data
          | Raise e => Raise e
          | Ok value =>
              if fleb value f0 || fltb (f_of_Z 150) value then temperature_from keys' data
              else Ok (temperature_result key own value)
          end
      end
  end.

Definition tool_temperature (provided : res (list (pystr * pyval))) : handler := λ kw,
  takes [] [] kw (match provided with
    | Raise e => mret (err_result (u "Temperature check failed: " ++ exn_text e))
    | Ok data => of_res (temperature_from TEMPERATURE_KEYS data)
    end).

(** [try: ... except Exception: err_result(...)]. *)
Definition guarded (what : pystr) (m : py kit tool_result) : py kit tool_result :=
  r ← attempt m;
  match r with Ok x => mret x | Raise e => mret (err_result (what ++ u " failed: " ++ exn_text e)) end.

(** An argument that is used as a string. *)
Definition str_arg (v : pyval) : res pystr :=
  match v with
  | VStr s => Ok s
  | v => if truthy v then Raise (AttributeError (u "object has no attribute 'strip'")) else Ok []
  end.

Definition tool_remember : handler := λ kw,
  takes [u "text"] [] kw (guarded (u "Remember") (
    text ← of_res (str_arg (dict_get (u "text") VNone kw));
    stored ← on_facts (remember_explicit (dv_now dv) (dv_facts_io dv) text);
    mret match stored with
         | None => err_result (u "I didn't catch what to remember " ++ [8212%N] ++ u " say it again?")
         | Some s => ok_result (u "Got it " ++ [8212%N] ++ u " I'll remember that.") [(u "fact", VStr s)]
         end)).

Definition tool_recall : handler := λ kw,
  takes [] [u "keyword"] kw (guarded (u "Recall") (
    keyword ← of_res (str_arg (dict_get (u "keyword") (VStr []) kw));
    k ← get;
    let word := strip keyword in
    rows ← of_res (if bool_decide (word = []) then recall (dv_now dv) 4 f0 (k_facts k)
                   else facts_about (dv_now dv) word 3 (k_facts k));
    mret match rows with
         | [] => ok_result (u "Nothing in my memory matches that yet.") []
         | _ => ok_result (u "Here's what I remember: " ++ join (u "; ") (py_str ∘ text_of <$> rows) ++ u ".")
                  [(u "count", VInt (Z.of_nat (length rows)))]
         end)).

Definition tool_forget : handler := λ kw,
  takes [u "keyword"] [] kw (guarded (u "Forget") (
    keyword ← of_res (str_arg (dict_get (u "keyword") VNone kw));
    removed ← on_facts (λ m, let '(m, n) := forget (dv_facts_io dv) keyword m in (m, Ok n));
    mret (if removed =? 0
          then ok_result (u "Nothing matched " ++ repr_str keyword ++ u " " ++ [8212%N]
                            ++ u " memory untouched.") []
          else ok_result (u "Done " ++ [8212%N] ++ u " forgotten.") [(u "removed", VInt removed)]))).

(** [default_tools]: a provider that is not given registers no tool. *)
Definition default_tools (with_memory : bool) : registry :=
  let add name h desc params := register (Tool name h desc params) in
  let r : registry := [] in
  let r := add (u "get_time") (λ kw, takes [] [] kw (mret (ok_result (u "It's " ++ dv_hms dv ++ u ".") [])))
             (u "Current local time") [] r in
  let r := add (u "get_date") (λ kw, takes [] [] kw (mret (ok_result (u "Today is " ++ dv_today dv ++ u ".") [])))
             (u "Current local date") [] r in
  let r := add (u "set_timer") tool_set_timer (u "Set a background timer")
             [(u "duration_value", u "number"); (u "duration_unit", u "str")] r in
  let r := add (u "list_timers") tool_list_timers (u "List active timers") [] r in
  let r := add (u "cancel_timer") tool_cancel_timer (u "Cancel an active timer by id") [] r in
  let r := add (u "tell_joke") (λ kw, takes [] [] kw
                                   (mret (ok_result (default [] (JOKES !! (dv_joke dv mod 6)%nat)) [])))
             (u "Tell a joke") [] r in
  let r := match dv_battery dv with
           | Some p => add (u "get_battery") (tool_battery p) (u "Read battery level") [] r
           | None => r
           end in
  let r := match dv_sensors dv with
           | Some p =>
               add (u "get_temperature") (tool_temperature p)
                 (u "Read a real temperature, or report honestly that none is available") []
                 (add (u "check_sensors") (tool_sensors p) (u "Read current sensor readings") [] r)
           | None => r
           end in
  if with_memory then
    add (u "forget_facts") tool_forget (u "Forget facts matching a keyword") [(u "keyword", u "str")]
      (add (u "recall_facts") tool_recall (u "Recall stored facts, optionally about a keyword")
         [(u "keyword", u "str")]
         (add (u "remember_fact") tool_remember (u "Store a fact the user asked to remember")
            [(u "text", u "str")] r))
  else r.
End DefaultTools.

(** ** What the registry and the retries promise *)

(** Calling a tool never raises, whatever its name, its handler and the
    arguments; a tool that is not registered changes nothing. *)
Theorem call_total (exn_text : exn → pystr) (r : registry) (name : pystr) (kw : list (pystr * pyval)) (k : kit) :
  ∃ k' x, call exn_text r name kw k = (k', Ok x) ∧
          (has_tool name r = false → k' = k ∧ tr_ok x = false).
Proof.
  unfold call, has_tool, dhas. destruct (dget name r) as [t|]; [|by eexists _, _].
  unfold call_tool, attempt, mbind, py_bind.
  destruct (tool_handler t kw k) as [k' [x|e]]; eexists _, _; (split; [reflexivity|done]).
Qed.

(** A body that counts how often it runs. *)
Definition counting {S A} (f : py S A) : py (S * nat) A := λ s,
  (((f s.1).1, Datatypes.S s.2), (f s.1).2).

Lemma attempts_from_count {S A} fpow p (f : py S A) n a s c :
  let '((_, c'), (r, slept)) := attempts_from fpow p n a (counting f) (s, c) in
  (c < c' <= c + Datatypes.S n)%nat ∧ (∀ e, r = Raise e → c' = (c + Datatypes.S n)%nat) ∧
  (length slept <= c' - c - 1)%nat ∧ Forall (λ d, fltb (f_of_Z 5) d = false) slept.
Proof.
  revert a s c. induction n as [|n IH]; intros a s c; cbn [attempts_from]; unfold counting at 1; cbn [fst snd].
  - destruct (f s) as [s' [x|e]]; cbn; (split_and!; [lia|lia|try done; intros; lia|lia|constructor]).
  - destruct (f s) as [s' [x|e]]; cbn [fst snd]; [split_and!; [lia|lia|done|cbn; lia|constructor]|].
    specialize (IH (a + 1) s' (Datatypes.S c)).
    destruct (attempts_from fpow p n (a + 1) (counting f) (s', Datatypes.S c)) as [[s2 c2] [r slept]].
    destruct IH as (H1 & H2 & H3 & H4). split_and!; [lia|lia| | |].
    + intros e' He. rewrite (H2 _ He). lia.
    + rewrite length_app. unfold sleep_before_retry. case_match; cbn; lia.
    + apply Forall_app. split; [|done]. unfold sleep_before_retry. case_match; [|constructor].
      constructor; [|constructor]. unfold fmin. case_match; [apply fltb_irrefl|done].
Qed.

(** A retried call runs its body at least once and at most as often as
    the policy says, exactly that often when it fails in the end; it sleeps
    only between runs and never longer than five seconds at a time. *)
Theorem retries_bounded {S A} (fpow : f64 → Z → f64) (attempts : Z) (base factor : f64) (f : py S A) (s : S) :
  let p := new_policy attempts base factor in
  let '((_, runs), (r, slept)) := retry_call fpow (counting f) p (s, 0%nat) in
  (1 <= Z.of_nat runs <= Z.max 1 attempts) ∧ (∀ e, r = Raise e → Z.of_nat runs = Z.max 1 attempts) ∧
  (length slept < runs)%nat ∧ Forall (λ d, fltb (f_of_Z 5) d = false) slept.
Proof.
  cbn zeta. unfold retry_call, new_policy. cbn [max_attempts].
  set (p := RetryPolicy _ _ _). set (n := (Z.to_nat (Z.max 1 attempts) - 1)%nat).
  pose proof (attempts_from_count fpow p f n 0 s 0) as H.
  destruct (attempts_from fpow p n 0 (counting f) (s, 0%nat)) as [[s2 runs] [r slept]].
  destruct H as (H1 & H2 & H3 & H4). assert (n = (Z.to_nat (Z.max 1 attempts) - 1)%nat) by done.
  split_and!; [lia|lia| |lia|done]. intros e He. rewrite (H2 _ He). lia.
Qed.

(** A reading is reported as a temperature when it is above 0 and at most
    150 degrees, and also when it is not a number at all: the comparisons that
    should exclude it are false of it. *)
Theorem temperature_plausible `{PyFloatOfStr} (data : list (pystr * pyval)) (r : tool_result) :
  temperature_from TEMPERATURE_KEYS data = Ok r →
  tr_ok r = true →
  ∃ key own v x, (key, own) ∈ TEMPERATURE_KEYS ∧ dget key data = Some v ∧ py_float v = Ok x ∧
    r = temperature_result key own x ∧
    (f_is_nan x = true ∨ (fltb f0 x = true ∧ fleb x (f_of_Z 150) = true)).
Proof.
  generalize TEMPERATURE_KEYS. intros l. induction l as [|[key own] l IH]; cbn [temperature_from].
  - intros [= <-] Hok. discriminate.
  - assert (Hrest : temperature_from l data = Ok r → tr_ok r = true → _) by exact IH. clear IH.
    intros E Hok.
    assert (Hw : temperature_from l data = Ok r → ∃ key' own' v x, (key', own') ∈ (key, own) :: l ∧
       dget key' data = Some v ∧ py_float v = Ok x ∧ r = temperature_result key' own' x ∧
       (f_is_nan x = true ∨ (fltb f0 x = true ∧ fleb x (f_of_Z 150) = true))).
    { intros E'. destruct (Hrest E' Hok) as (k' & o' & v & x & Hin & H'). exists k', o', v, x.
      split; [by right|exact H']. }
    destruct (dget key data) as [v|] eqn:Ev; [|by apply Hw].
    destruct (py_float v) as [x|e] eqn:Ex; [|destruct e; (discriminate || by apply Hw)].
    destruct (fleb x f0 || fltb (f_of_Z 150) x) eqn:Eb; [by apply Hw|].
    apply (inj Ok) in E. exists key, own, v, x. split; [left|]. split_and!; [done..|].
    apply orb_false_iff in Eb as [E1 E2]. destruct (f_is_nan x) eqn:En; [by left|right].
    split; [|by apply fltb_false_fleb]. destruct (fltb f0 x) eqn:E3; [done|].
    rewrite (fltb_false_fleb f0 x) in E1; done.
Qed.

(** *** Every answer has words *)

(** What a body answers, if it answers, is not empty. *)
Definition worded (m : py kit tool_result) : Prop := ∀ k k' x, m k = (k', Ok x) → tr_output x ≠ [].

Lemma worded_ret x : tr_output x ≠ [] → worded (mret x).
Proof. by intros Hx k k' y [= <- <-]. Qed.

Lemma worded_res (r : res tool_result) : (∀ x, r = Ok x → tr_output x ≠ []) → worded (of_res r).
Proof. intros Hr k k' x [= <- ->]. by apply Hr. Qed.

Lemma worded_bind {A} (m : py kit A) f : (∀ x, worded (f x)) → worded (m ≫= f).
Proof. intros Hf k k' x E. unfold mbind, py_bind in E. destruct (m k) as [k1 [y|e]]; [by eapply Hf|done]. Qed.

Lemma worded_raise e : worded (raise e).
Proof. by intros k k' x E. Qed.

Lemma worded_err m : tr_output (err_result m) ≠ [].
Proof. by destruct m. Qed.

Lemma worded_takes r o kw m : worded m → worded (takes r o kw m).
Proof. intros Hm. unfold takes. destruct (_ && _); [done|apply worded_raise]. Qed.

Section Worded.
Context `{PyRepr} `{PyLower} `{WordTable} `{HalfPower} `{PyFloatOfStr}.
Context (exn_text : exn → pystr) (dv : device) (cb : bool).

Lemma worded_guarded what m : worded m → worded (guarded exn_text what m).
Proof.
  intros Hm. unfold guarded. intros k k' x E. unfold mbind, py_bind, attempt in E.
  destruct (m k) as [k1 [y|e]] eqn:Em; injection E as <- <-; [by eapply Hm|apply worded_err].
Qed.

Lemma worded_temperature keys data x : temperature_from keys data = Ok x → tr_output x ≠ [].
Proof.
  induction keys as [|[key own] keys IH]; cbn [temperature_from]; [by intros [= <-]|].
  destruct (dget key data) as [v|]; [|done].
  destruct (py_float v) as [y|e]; [|destruct e; try done; exact IH].
  destruct (_ || _); [done|]. intros E%(inj Ok). subst x. by destruct own.
Qed.

Definition worded_tools (r : registry) : Prop := ∀ name t kw, dget name r = Some t → worded (tool_handler t kw).

Lemma worded_register t r : (∀ kw, worded (tool_handler t kw)) → worded_tools r → worded_tools (register t r).
Proof.
  intros Ht Hr name t' kw. unfold register. rewrite dget_dset.
  destruct (decide _); [by intros [= <-]|by apply Hr].
Qed.

Lemma worded_timers kw :
  worded (tool_set_timer dv cb kw) ∧ worded (tool_list_timers dv kw) ∧ worded (tool_cancel_timer dv kw).
Proof.
  split_and!; apply worded_takes.
  - do 5 (apply worded_bind; intros ?). by apply worded_ret.
  - apply worded_bind; intros k. apply worded_ret. cbn [tr_output ok_result]. by destruct (list_pending _).
  - apply worded_bind; intros [t|]; by apply worded_ret.
Qed.

Lemma worded_memory kw :
  worded (tool_remember exn_text dv kw) ∧ worded (tool_recall exn_text dv kw) ∧ worded (tool_forget exn_text dv kw).
Proof.
  split_and!; apply worded_takes, worded_guarded, worded_bind; intros ?.
  - apply worded_bind; intros [?|]; by apply worded_ret.
  - do 2 (apply worded_bind; intros ?). by case_match; apply worded_ret.
  - apply worded_bind; intros ?. case_match; by apply worded_ret.
Qed.

Lemma worded_providers p q kw :
  worded (tool_battery exn_text p kw) ∧ worded (tool_sensors exn_text q kw) ∧
  worded (tool_temperature exn_text q kw).
Proof.
  split_and!; apply worded_takes; repeat case_match; try (by apply worded_ret).
  apply worded_res. intros x. apply worded_temperature.
Qed.

Lemma worded_jokes n : default [] (JOKES !! (n mod 6)%nat) ≠ [].
Proof.
  pose proof (Nat.mod_upper_bound n 6 ltac:(done)) as Hn. revert Hn. generalize (n mod 6)%nat. intros j Hj.
  do 6 (destruct j as [|j]; [done|]). lia.
Qed.

Lemma standard_worded mem : worded_tools (default_tools exn_text dv cb mem).
Proof.
  unfold default_tools.
  assert (Hempty : worded_tools []) by by intros ? ? ?.
  destruct mem; destruct (dv_battery dv), (dv_sensors dv);
    repeat (apply worded_register; [intros kw|]); try exact Hempty;
    try apply worded_memory; try apply (worded_providers _ (Ok [])); try apply (worded_providers (Ok VNone));
    try apply worded_timers.
  all: try (apply worded_takes; apply worded_ret; (done || apply worded_jokes)).
Qed.

(** The registry's own answers are worded if its tools' are. *)
Lemma call_worded r name kw k : worded_tools r →
  ∃ k' x, call exn_text r name kw k = (k', Ok x) ∧ tr_output x ≠ [].
Proof.
  intros Hr. unfold call. destruct (dget name r) as [t|] eqn:E; [|by eexists _, _].
  unfold call_tool, mbind, py_bind, attempt. destruct (tool_handler t kw k) as [k' [x|e]] eqn:Ek.
  - eexists _, _. split; [reflexivity|]. by eapply Hr.
  - eexists _, _. split; [reflexivity|]. apply worded_err.
Qed.
End Worded.

(** ** Witnesses *)

#[local] Instance no_text_float : PyFloatOfStr := λ _, Raise (ValueError []).

(** A sensor whose reading is not a number. *)
Lemma temperature_plausible_witness :
  let r := temperature_result (u "ambient_temp_c") false f_nan in
  temperature_from TEMPERATURE_KEYS [(u "ambient_temp_c", VFloat f_nan)] = Ok r ∧
  ∃ key own v x, (key, own) ∈ TEMPERATURE_KEYS ∧ dget key [(u "ambient_temp_c", VFloat f_nan)] = Some v ∧
    py_float v = Ok x ∧ r = temperature_result key own x ∧
    (f_is_nan x = true ∨ (fltb f0 x = true ∧ fleb x (f_of_Z 150) = true)).
Proof.
  cbn zeta. split; [vm_compute; reflexivity|].
  apply (temperature_plausible [(u "ambient_temp_c", VFloat f_nan)]); vm_compute; reflexivity.
Defined.
