(* ===== verification/CommandRouter.v ===== *)
(** * From an intent to an action ([src/subsystems/command_router.py])

    The category of a command, the handlers of the categories over the tool
    registry, and the executor with its retry.  The clock's formatted texts
    are the device's, as in [Tools]. *)

From Stdlib Require Import ZArith NArith Lia.
From Stdlib Require Import Floats.SpecFloat.
From S2P Require Import Prelude PyFloat PyStr PyVal Regex Intent UserFacts Timers Tools.

Local Open Scope Z_scope.

(** [CommandResult]. *)
Record command_result := CommandResult {
  cr_success : bool;
  cr_response : pystr;
  cr_action : pystr;
  cr_data : list (pystr * pyval)
}.

Definition done (response action : pystr) : command_result := CommandResult true response action [].
Definition refused (response action : pystr) : command_result := CommandResult false response action [].

(** A text with one character beyond ASCII between two parts. *)
Definition dashed (a b : string) : pystr := u a ++ [8212%N] ++ u b.

(** ** Categories *)

Definition TOPIC_WORDS : list (pystr * list pystr) :=
  [(u "temperature", u <$> ["temperature"; "how hot"; "how cold"; "thermometer"; "degrees"; "hot outside";
                            "cold outside"; "is it hot"; "is it cold"]%string);
   (u "weather", u <$> ["weather"; "forecast"; "rain"; "snow"]%string);
   (u "date", u <$> ["what's the date"; "what is the date"; "what day is it"; "todays date";
                     "today's date"]%string);
   (u "time", u <$> ["the time"; "time is it"; "current time"; "clock"]%string);
   (u "battery", u <$> ["battery"; "charge level"]%string);
   (u "sensors", u <$> ["sensor"; "telemetry"; "accelerometer"; "gyroscope"]%string)].

Definition is_one_of (verb : pyval) (l : list string) : bool :=
  match verb with VStr v => bool_decide (v ∈ u <$> l) | _ => false end.

(** [_categorize]: [topic] is what the intent layer supplied. *)
Definition categorize (verb : pyval) (t : pystr) (topic : pyval) : pyval :=
  let has (s : string) := contains (u s) t in
  if has "timer" || has "remind" then VStr (u "timer")
  else if has "mesh" || has "sync your memory" || has "sync memories" || has "share what you know"
          || has "share your memory" || (has "sync" && has "peer") then VStr (u "mesh")
  else if has "remember" || has "forget" || is_one_of verb ["remember"; "recall"; "forget"]%string
  then VStr (u "memory")
  else if truthy topic then topic
  else match List.find (λ e, existsb (λ kw, contains kw t) e.2) TOPIC_WORDS with
       | Some e => VStr e.1
       | None =>
           if is_one_of verb ["search"; "find"; "show"; "tell"]%string then VStr (u "search")
           else if is_one_of verb ["turn"; "open"; "close"; "play"; "pause"; "start"; "stop"]%string
           then VStr (u "device")
           else VStr (u "unknown")
       end.

(** ** Handlers *)

Definition SPOKEN_DURATION : regex :=
  rx "(zero|one|two|three|four|five|six|seven|eight|nine|ten|eleven|twelve|fifteen|twenty|thirty|a|an)\s*(minute|min|second|sec|hour|hr)s?".

Section Handlers.
Context `{WordTable} `{PyRepr}.
Context (exn_text : exn → pystr) (dv : device) (tools : option registry).

Abbreviation command := (user_intent → py kit command_result).

Definition entity (key : pystr) (dflt : pyval) (i : user_intent) : pyval := dict_get key dflt (ui_entities i).

(** [tools is not None and tools.has(name)]. *)
Definition offers (name : pystr) : bool := match tools with Some r => has_tool name r | None => false end.

Definition use (name : pystr) (kw : list (pystr * pyval)) : py kit tool_result :=
  match tools with Some r => call exn_text r name kw | None => raise (AttributeError (u "call")) end.

(** [_tool]: [None] when the tool produced usable output. *)
Definition try_tool (name : pystr) (kw : list (pystr * pyval)) : py kit (option command_result) :=
  match tools with
  | None => mret (Some (refused (u "I need my tool kit for that.") (name ++ u "_unavailable")))
  | Some _ =>
      r ← use name kw;
      mret (if tr_ok r then None else Some (refused (tr_output r) (name ++ u "_unavailable")))
  end.

(** [f"... {value} {unit}{'s' if value != 1 else ''}."]. *)
Definition timer_set_line (value unit : pyval) : pystr :=
  dashed "Got it " " timer set for " ++ py_str value ++ u " " ++ py_str unit
  ++ (if py_eq value (VInt 1) then [] else u "s") ++ u ".".

Definition start_timer (value unit : pyval) : py kit command_result :=
  failed ← try_tool (u "set_timer") [(u "duration_value", value); (u "duration_unit", unit)];
  mret match failed with
       | Some r => r
       | None => CommandResult true (timer_set_line value unit) (u "timer_set")
                   [(u "duration_value", value); (u "duration_unit", unit)]
       end.

Definition handle_timer : command := λ i,
  let value := entity (u "duration_value") VNone i in
  let unit := entity (u "duration_unit") (VStr (u "minute")) i in
  if truthy value then start_timer value unit
  else match search re_i SPOKEN_DURATION (ui_transcript i) with
       | Some m => start_timer (VInt (word_value (lower (group_text 1 m)))) (VStr (lower (group_text 2 m)))
       | None => mret (done (u "Timer for how long?") (u "timer_clarify"))
       end.

Definition handle_weather : command := λ _,
  mret (done (u "I don't have weather data yet, but I'm working on connecting to a service.")
          (u "weather_unavailable")).

(** [handle_time] and [handle_date]: a tool that answers, or the clock. *)
Definition clock_report (name action : pystr) (fallback : pystr) : py kit command_result :=
  if offers name then
    r ← use name [];
    mret (done (if tr_ok r then tr_output r else fallback) action)
  else mret (done fallback action).
Definition handle_time : command := λ _,
  clock_report (u "get_time") (u "time_report") (u "It's " ++ dv_hms dv ++ u ".").
Definition handle_date : command := λ _,
  clock_report (u "get_date") (u "date_report") (u "Today is " ++ dv_today dv ++ u ".").

(** A reading reported as what the tool answered. *)
Definition reading (name good bad : pystr) (otherwise : pystr) (with_data : bool) : py kit command_result :=
  if offers name then
    r ← use name [];
    mret (CommandResult (tr_ok r) (tr_output r) (if tr_ok r then good else bad)
            (if with_data then tr_data r else []))
  else mret (done otherwise bad).
Definition handle_temperature : command := λ _,
  reading (u "get_temperature") (u "temperature_report") (u "temperature_unavailable")
    (dashed "I can't measure a temperature here " " this device has no ambient sensor and no weather service is connected.")
    true.
Definition handle_sensors : command := λ _,
  reading (u "check_sensors") (u "sensor_report") (u "sensor_unavailable")
    (u "I can't read the sensors right now.") true.
Definition handle_battery : command := λ _,
  reading (u "get_battery") (u "battery_check") (u "battery_unavailable")
    (u "I need my tool kit to read the battery level.") false.

Definition handle_search : command := λ i,
  let lowered := lower (ui_transcript i) in
  mret (if existsb (λ w, contains (u w) lowered) ["search"; "find"; "look up"; "google"]%string
        then done (u "I don't have a search service connected, so I can't look that up.") (u "search_unavailable")
        else done [] (u "not_a_search")).

Definition handle_device : command := λ i,
  mret (refused (u "I can't " ++ py_str (entity (u "action_verb") (VStr (u "do that")) i)
                   ++ u " anything yet, but I'm learning new tricks every day!") (u "device_unavailable")).

(** A memory tool and what is reported of it. *)
Definition memory_tool (name : pystr) (kw : list (pystr * pyval)) (action : pystr)
    (data : list (pystr * pyval)) : py kit command_result :=
  if offers name then
    r ← use name kw;
    mret (CommandResult (tr_ok r) (tr_output r) (if tr_ok r then action else action ++ u "_failed") data)
  else mret (refused (u "I need my memory module for that.") (name ++ u "_unavailable")).

Definition handle_memory : command := λ i,
  let entity_text := match entity (u "memory_text") VNone i with VStr s => s | _ => [] end in
  let text := strip entity_text in
  let t := lower (ui_transcript i) in
  let has (s : string) := contains (u s) t in
  let verb (s : string) := is_one_of (entity (u "action_verb") VNone i) [s] in
  if has "forget" || verb "forget" then
    if (length text <? 2)%nat then mret (done (u "Forget what?") (u "memory_clarify"))
    else memory_tool (u "forget_facts") [(u "keyword", VStr text)] (u "memory_forget") [(u "keyword", VStr text)]
  else if has "recall" || verb "recall" || has "what do you remember" || has "what do you know about me" then
    let keyword := if (2 <=? length text)%nat then text else [] in
    memory_tool (u "recall_facts") [(u "keyword", VStr keyword)] (u "memory_recall") [(u "keyword", VStr keyword)]
  else if (length text <? 2)%nat then mret (done (u "Remember what?") (u "memory_clarify"))
  else memory_tool (u "remember_fact") [(u "text", VStr text)] (u "memory_store") [(u "fact", VStr text)].

Definition no_mesh (action : string) : command_result :=
  refused (u "I need my mesh module for that.") (u action).

(** [str(... or "").strip() or None]. *)
Definition peer_of (i : user_intent) : pyval :=
  match strip (py_str (py_or (entity (u "peer_id") VNone i) (VStr []))) with [] => VNone | p => VStr p end.

Definition handle_mesh : command := λ i,
  match tools with
  | None => mret (no_mesh "mesh_unavailable")
  | Some _ =>
      let t := lower (ui_transcript i) in
      let has (s : string) := contains (u s) t in
      let report name kw :=
        if offers name then
          r ← use name kw;
          mret (CommandResult (tr_ok r) (tr_output r) (if tr_ok r then name else name ++ u "_failed") (tr_data r))
        else mret (refused (u "I need my mesh module for that.") (name ++ u "_unavailable")) in
      if has "status" || has "who" || has "peers" then report (u "mesh_status") []
      else report (u "mesh_sync") [(u "peer", peer_of i)]
  end.

(** [default_handlers]. *)
Definition default_handlers : list (pystr * command) :=
  [(u "timer", handle_timer); (u "weather", handle_weather); (u "time", handle_time); (u "date", handle_date);
   (u "temperature", handle_temperature); (u "sensors", handle_sensors); (u "battery", handle_battery);
   (u "search", handle_search); (u "device", handle_device); (u "memory", handle_memory);
   (u "mesh", handle_mesh)].

(** ** The executor *)

(** [CommandExecutor]: its handlers and its fallback. *)
Record executor := Executor {
  ex_handlers : list (pystr * command);
  ex_fallback : option command
}.
Definition retry_policy_2 : retry_policy := new_policy 2 (f_dec 1 1) (f_of_Z 2).

Definition register_handler (name : pystr) (h : command) (e : executor) : executor :=
  Executor (dset name h (ex_handlers e)) (ex_fallback e).
Definition set_fallback (h : command) (e : executor) : executor := Executor (ex_handlers e) (Some h).

Section Executing.
Context (fpow : f64 → Z → f64) (e : executor).

(** [_execute_command]; a category that is not a string names no handler. *)
Definition execute_command : command := λ i,
  let category := categorize (entity (u "action_verb") (VStr []) i) (lower (ui_transcript i))
                    (entity (u "tool_topic") VNone i) in
  let found := match category with VStr c => (λ h, (c, h)) <$> dget c (ex_handlers e) | _ => None end in
  match found with
  | Some (c, h) => λ k,
      let '(k, (r, _)) := retry_call fpow (h i) retry_policy_2 k in
      (k, Ok match r with
             | Ok x => x
             | Raise _ => refused (u "I had trouble with that. Could you try again?") (c ++ u "_error")
             end)
  | None =>
      match ex_fallback e with
      | Some f => f i
      | None => mret (refused (u "I can't do that yet, but I'm learning!") (u "unhandled_command"))
      end
  end.

(** [execute]. *)
Definition execute : command := λ i,
  match ui_type i with
  | COMMAND => execute_command i
  | QUESTION => mret (done [] (u "question"))
  | GREETING => mret (done [] (u "greeting"))
  | FAREWELL => mret (done [] (u "farewell"))
  | CHITCHAT => mret (done [] (u "chitchat"))
  | CONFUSED => mret (refused (u "I'm not sure what you mean. Could you rephrase that?") (u "confused"))
  end.
End Executing.
End Handlers.

(** ** What is said is what was done *)

Section Standard.
Context `{PyRepr} `{PyLower} `{WordTable} `{HalfPower} `{PyFloatOfStr}.
Context (exn_text : exn → pystr) (dv : device) (cb : bool).

Abbreviation standard := (default_tools exn_text dv cb true).

Lemma standard_forget : ∃ d p, dget (u "forget_facts") standard = Some (Tool (u "forget_facts") (tool_forget exn_text dv) d p).
Proof. unfold default_tools. destruct (dv_battery dv), (dv_sensors dv); eexists _, _; reflexivity. Qed.

Lemma standard_set_timer : ∃ d p, dget (u "set_timer") standard = Some (Tool (u "set_timer") (tool_set_timer dv cb) d p).
Proof. unfold default_tools. destruct (dv_battery dv), (dv_sensors dv); eexists _, _; reflexivity. Qed.

(** The forgetting tool takes facts away and nothing else. *)
Lemma forget_tool_shrinks kw k : ∃ k' x, call exn_text standard (u "forget_facts") kw k = (k', Ok x) ∧
  um_facts (k_facts k') `sublist_of` um_facts (k_facts k) ∧ k_timers k' = k_timers k.
Proof.
  destruct standard_forget as (d & p & E). unfold call. rewrite E.
  unfold call_tool, attempt, mbind, py_bind. cbn [tool_handler tool_name]. unfold tool_forget, takes.
  destruct (_ && _); [|by eexists _, _].
  unfold guarded, attempt, mbind, py_bind, of_res.
  destruct (str_arg _) as [s|e]; [|by eexists _, _].
  unfold on_facts. pose proof (forget_sublist (dv_facts_io dv) s (k_facts k)) as Hs.
  destruct (forget (dv_facts_io dv) s (k_facts k)) as [m n]. cbn [fst] in Hs. by eexists _, _.
Qed.

(** The timer tool sets a timer exactly when it says so. *)
Lemma set_timer_tool_honest value unit k :
  let kw := [(u "duration_value", value); (u "duration_unit", unit)] in
  ∃ k' x, call exn_text standard (u "set_timer") kw k = (k', Ok x) ∧
  if tr_ok x then dhas (dv_id dv) (timers (k_timers k')) = true ∧ k_facts k' = k_facts k else k' = k.
Proof.
  cbn zeta. destruct standard_set_timer as (d & p & E). unfold call. rewrite E.
  unfold call_tool, attempt, mbind at 1, py_bind at 1. cbn [tool_handler tool_name].
  unfold tool_set_timer, takes. replace (forallb _ _ && forallb _ _) with true by reflexivity.
  replace (dict_get (u "duration_value") VNone _) with value by reflexivity.
  replace (dict_get (u "duration_unit") _ _) with unit by reflexivity.
  replace (dict_get (u "label") _ _) with (VStr (u "Timer")) by reflexivity.
  unfold of_res at 1, mbind at 1, py_bind at 1.
  destruct (py_float value) as [x|e] eqn:Ex; [|by eexists _, _]. cbn [mbind res_bind].
  destruct (py_int_of_f x) as [n|e]; [|by eexists _, _].
  unfold of_res at 1, mbind at 1, py_bind at 1.
  destruct (py_float_of_Z _) as [y|e]; [|by eexists _, _].
  unfold on_timers, mbind, py_bind, of_res, plural. rewrite Ex.
  destruct (set_timer _ _ y _ _ _ _) as [m t] eqn:Em. eexists _, _. split; [reflexivity|].
  cbn [tr_ok ok_result k_timers k_facts]. split; [|done].
  assert (Hs : ∀ io l m', timers (save_timers io (with_timers l m')) = l)
    by (intros io l m'; unfold save_timers; by destruct (_ && _)).
  assert (Hc : ∀ io l s m', timers (save_timers io (with_called s (with_timers l m'))) = l)
    by (intros io l s m'; unfold save_timers; by destruct (_ && _)).
  unfold set_timer in Em. unfold dhas.
  destruct (fltb f0 _); [|destruct (fire _ _)]; injection Em as <- <-; rewrite ?Hs, ?Hc; by rewrite dget_dset_eq.
Qed.
End Standard.

(** *** Every handler but the search's has something to say *)

Section Spoken.
Context `{PyRepr} `{PyLower} `{WordTable} `{HalfPower} `{PyFloatOfStr}.
Context (exn_text : exn → pystr) (dv : device) (cb mem : bool).

Abbreviation kit_tools := (Some (default_tools exn_text dv cb mem)).

(** The handler answers, with words. *)
Definition answers (h : py kit command_result) : Prop := ∀ k, ∃ k' r, h k = (k', Ok r) ∧ cr_response r ≠ [].

Lemma answers_ret r : cr_response r ≠ [] → answers (mret r).
Proof. intros Hr k. by eexists _, _. Qed.

Lemma answers_use name kw f : (∀ x, tr_output x ≠ [] → cr_response (f x) ≠ []) →
  answers (r ← use exn_text kit_tools name kw; mret (f r)).
Proof.
  intros Hf k. destruct (call_worded exn_text _ name kw k (standard_worded exn_text dv cb mem)) as (k' & x & E & Hx).
  unfold use, mbind, py_bind. rewrite E. eexists _, _. split; [reflexivity|by apply Hf].
Qed.

Lemma answers_start v w : answers (start_timer exn_text kit_tools v w).
Proof.
  intros k. unfold start_timer, try_tool, use, mbind, py_bind.
  destruct (call_worded exn_text _ (u "set_timer") [(u "duration_value", v); (u "duration_unit", w)] k
              (standard_worded exn_text dv cb mem)) as (k' & x & -> & Hx).
  destruct (tr_ok x); by eexists _, _.
Qed.

Lemma answers_memory name kw action data : answers (memory_tool exn_text kit_tools name kw action data).
Proof. unfold memory_tool. destruct (offers _ _); [by apply answers_use|by apply answers_ret]. Qed.

Lemma answers_reading name good bad otherwise d : otherwise ≠ [] →
  answers (reading exn_text kit_tools name good bad otherwise d).
Proof. intros Ho. unfold reading. destruct (offers _ _); [by apply answers_use|by apply answers_ret]. Qed.

Lemma answers_clock name action fallback : fallback ≠ [] →
  answers (clock_report exn_text kit_tools name action fallback).
Proof.
  intros Ho. unfold clock_report. destruct (offers _ _); [|by apply answers_ret].
  apply answers_use. intros x Hx. cbn. by destruct (tr_ok x).
Qed.

Lemma handler_answers c h i : (c, h) ∈ default_handlers exn_text dv kit_tools → c ≠ u "search" → answers (h i).
Proof.
  unfold default_handlers. intros E Hc.
  repeat (apply elem_of_cons in E as [E|E]; [injection E as -> ->; try done|]); [..|by apply not_elem_of_nil in E].
  - unfold handle_timer. repeat case_match; try apply answers_start. by apply answers_ret.
  - by apply answers_ret.
  - by apply answers_clock.
  - by apply answers_clock.
  - by apply answers_reading.
  - by apply answers_reading.
  - by apply answers_reading.
  - by apply answers_ret.
  - unfold handle_memory. repeat case_match; try apply answers_memory; by apply answers_ret.
  - unfold handle_mesh. repeat case_match; (by apply answers_ret) || by apply answers_use.
Qed.

(** The category the executor looks up. *)
Definition category_of (i : user_intent) : pyval :=
  categorize (entity (u "action_verb") (VStr []) i) (lower (ui_transcript i)) (entity (u "tool_topic") VNone i).

(** A command of any other category is answered with words by the standard
    handlers, at the first attempt. *)
Lemma command_answered fpow i :
  category_of i ≠ VStr (u "search") →
  answers (execute_command fpow (Executor (default_handlers exn_text dv kit_tools) None) i).
Proof.
  intros Hc k. unfold execute_command. fold (category_of i). cbn [ex_handlers ex_fallback].
  destruct (category_of i) as [| | | |c| |] eqn:Ec; try by eexists _, _.
  destruct (dget c _) as [h|] eqn:E; [|by eexists _, _]. cbn [fmap option_fmap option_map].
  assert (Hin : (c, h) ∈ default_handlers exn_text dv kit_tools) by by apply dget_elem.
  destruct (handler_answers c h i Hin ltac:(congruence) k) as (k' & r & Eh & Hr).
  unfold retry_call, retry_policy_2, new_policy. cbn [max_attempts].
  change (Z.to_nat (Z.max 1 2) - 1)%nat with 1%nat. cbn [attempts_from]. rewrite Eh. by eexists _, _.
Qed.
End Spoken.

(** A command in whose words "forget" occurs never stores a fact: with
    the standard tools the facts after it are among those before, also when
    what was to be remembered is that something is forgotten. *)
Theorem forget_shadows_remember `{PyRepr} `{PyLower} `{WordTable} `{HalfPower} `{PyFloatOfStr}
    (exn_text : exn → pystr) (dv : device) (cb : bool) (i : user_intent) (k : kit) :
  contains (u "forget") (lower (ui_transcript i)) = true →
  ∃ k' r, handle_memory exn_text (Some (default_tools exn_text dv cb true)) i k = (k', Ok r) ∧
    um_facts (k_facts k') `sublist_of` um_facts (k_facts k) ∧ k_timers k' = k_timers k.
Proof.
  intros Hf. unfold handle_memory. rewrite Hf. cbn [orb].
  destruct (_ <? 2)%nat; [by eexists _, _|].
  unfold memory_tool, offers, has_tool, dhas.
  destruct (standard_forget exn_text dv cb) as (d & p & ->).
  set (kw := [(u "keyword", _)]). destruct (forget_tool_shrinks exn_text dv cb kw k) as (k' & x & E & Hs).
  unfold use, mbind, py_bind. rewrite E. by eexists _, _.
Qed.

(** A timer is reported as set exactly when there is one: otherwise the
    handler, which never raises, leaves timers and facts as they are. *)
Theorem timer_report_honest `{PyRepr} `{PyLower} `{WordTable} `{HalfPower} `{PyFloatOfStr}
    (exn_text : exn → pystr) (dv : device) (cb : bool) (i : user_intent) (k : kit) :
  ∃ k' r, handle_timer exn_text (Some (default_tools exn_text dv cb true)) i k = (k', Ok r) ∧
    if bool_decide (cr_action r = u "timer_set")
    then cr_success r = true ∧ dhas (dv_id dv) (timers (k_timers k')) = true ∧ k_facts k' = k_facts k
    else k' = k.
Proof.
  assert (Hstart : ∀ v w, ∃ k' r, start_timer exn_text (Some (default_tools exn_text dv cb true)) v w k = (k', Ok r) ∧
    if bool_decide (cr_action r = u "timer_set")
    then cr_success r = true ∧ dhas (dv_id dv) (timers (k_timers k')) = true ∧ k_facts k' = k_facts k
    else k' = k).
  { intros v w. destruct (set_timer_tool_honest exn_text dv cb v w k) as (k' & x & E & Hx).
    unfold start_timer, try_tool, use, mbind, py_bind. rewrite E.
    destruct (tr_ok x); eexists _, _; (split; [reflexivity|]); cbn; [by destruct Hx|done]. }
  unfold handle_timer. case_match; [apply Hstart|]. case_match; [apply Hstart|]. by eexists _, _.
Qed.

(** An executor without a fallback always answers: an exception of a
    handler, even one repeated by the retry, becomes a spoken refusal. *)
Theorem execute_total `{WordTable} (fpow : f64 → Z → f64)
    (handlers : list (pystr * (user_intent → py kit command_result))) (i : user_intent) (k : kit) :
  ∃ k' r, execute fpow (Executor handlers None) i k = (k', Ok r).
Proof.
  unfold execute. destruct (ui_type i); try (by eexists _, _).
  unfold execute_command. case_match; [|by eexists _, _].
  destruct p as [c h]. destruct (retry_call fpow (h i) retry_policy_2 k) as [k' [r sl]]. by eexists _, _.
Qed.

(** ** Witnesses *)

#[local] Instance plain_repr : PyRepr := λ _, [].
#[local] Instance no_float_text : PyFloatOfStr := λ _, Raise (ValueError []).
#[local] Instance plain_lower : PyLower := lower.
#[local] Instance plain_words : WordTable := ascii_words.
#[local] Instance no_decay : HalfPower := λ _, f1.

Definition demo_device : device :=
  Device (f_of_Z 100) (u "12:00") (u "Monday") (u "a1") true true 0 None None.
Definition demo_kit : kit := Kit (new_timers f0 true None) (new_fact_memory f0 true None).

(** "Remember that I forget my keys" as it is classified: nothing is stored. *)
Lemma forget_shadows_remember_witness :
  let said := u "remember that I forget my keys" in
  ∃ k' r, handle_memory (λ _, []) (Some (default_tools (λ _, []) demo_device true true))
    (UserIntent COMMAND said f1 (match extract_command_entities said with Ok e => e | Raise _ => [] end)) demo_kit = (k', Ok r) ∧
    um_facts (k_facts k') `sublist_of` um_facts (k_facts demo_kit) ∧ k_timers k' = k_timers demo_kit.
Proof. cbn zeta. apply forget_shadows_remember. vm_compute. reflexivity. Defined.
