(* ===== verification/Assistant.v ===== *)
(** * A conversational turn ([src/shugocore_agent.py])

    What the agent does with an utterance before a model is asked: it takes a
    pending clarification as answered or resolves the pronouns, learns facts,
    classifies, and computes the deterministic answer if there is one
    ([_conversational_turn], [_memory_question_answer], [_command_answer],
    [_tool_question_answer]); then whether the turn is handed on, answered
    here, or left to the model, and what is said of the model's decision
    ([_guard_fabricated_measurement], [_decision_text]).

    Growth statistics, logging and the conversation manager (its own file) are
    left out; the hand-off's outcome, the order a set is iterated in and
    [str.upper] of one character are parameters. *)

From Stdlib Require Import ZArith NArith Lia.
From Stdlib Require Import Floats.SpecFloat.
From S2P Require Import Prelude PyFloat PyStr PyVal Regex Intent UserFacts Dialogue Timers Tools CommandRouter.

Local Open Scope Z_scope.

(** The agent's state a turn touches. *)
Record assistant := Assistant {
  as_dialogue : dialogue;
  as_kit : kit;
  as_topics : tracker
}.

(** ** What a model may not say *)

Definition DEGREE : N := 176.
Definition MEASUREMENT_CLAIM_RE : regex :=
  rx_of (u "\b\d+(?:\.\d+)?\s*(?:degrees?|" ++ [DEGREE] ++ u ")\b"
         ++ u "|\b(?:temperature|thermometer)\b[^.]{0,30}?\b\d+(?:\.\d+)?\b"
         ++ u "|\bbattery\b[^.]{0,20}?\b\d+\s*%"
         ++ u "|\b\d+\s*%\s*(?:battery|charge)\b").

Definition MEASUREMENT_REFUSAL : pystr :=
  dashed "I can't measure that here " " I have no weather service and no ambient sensor, so I won't guess a number.".

(** [_guard_fabricated_measurement]. *)
Definition guard_fabricated_measurement `{WordTable} (text : pystr) : pystr :=
  let text := strip text in
  if matches re_i MEASUREMENT_CLAIM_RE text then MEASUREMENT_REFUSAL else text.

(** [_decision_text]. *)
Definition decision_text `{PyRepr} (decision : list (pystr * pyval)) (key : pystr) : pystr :=
  let params := match py_or (dict_get (u "params") VNone decision) (VDict []) with VDict d => d | _ => [] end in
  match List.find (λ c, truthy (dict_get c VNone params)) [key; u "text"; u "utterance"; u "question"] with
  | Some c => py_str (dict_get c VNone params)
  | None => py_str (py_or (dict_get (u "text") VNone decision) (VStr []))
  end.

(** What is said of the model's decision. *)
Inductive reply := Say (text : pystr) | Ask (text : pystr) | Fallback.

Definition model_reply `{WordTable} `{PyRepr} (decision : list (pystr * pyval)) : reply :=
  let action := dict_get (u "action_type") VNone decision in
  if is_one_of action ["speak"]%string then
    match guard_fabricated_measurement (decision_text decision (u "text")) with
    | [] => Fallback
    | spoken => Say spoken
    end
  else if is_one_of action ["ask_user"]%string then Ask (decision_text decision (u "question"))
  else Fallback.

(** ** The turn *)

(** A deterministic answer and the line the log gives it. *)
Record local_answer := LocalAnswer { la_text : pystr; la_label : pystr }.
Definition no_answer : local_answer := LocalAnswer [] [].

(** What becomes of a turn. *)
Inductive outcome :=
  | Ignored
  | Handed_on
  | Answered (a : local_answer)
  | To_model (transcript : pystr).

(** [try: ... except Exception] around a value. *)
Definition or_else {A} (d : A) (r : res A) : A := match r with Ok x => x | Raise _ => d end.

Section Turn.
Context `{WordTable} `{PyRepr} `{PyLower} `{HalfPower} `{PyFloatOfStr}.
Context (exn_text : exn → pystr) (fpow : f64 → Z → f64).
Context (expand : pystr → pystr) (set_order : list pystr → list pystr) (upper_first : N → pystr).
Context (dv : device) (tools : registry) (ex : executor).

Definition on_dialogue {A} (m : py dialogue A) : py assistant A := λ a,
  let '(d, r) := m (as_dialogue a) in (Assistant d (as_kit a) (as_topics a), r).
Definition on_kit {A} (m : py kit A) : py assistant A := λ a,
  let '(k, r) := m (as_kit a) in (Assistant (as_dialogue a) k (as_topics a), r).
Definition on_memory {A} (m : py user_memory A) : py assistant A := λ a,
  let '(um, r) := m (UserMemory (k_facts (as_kit a)) (as_topics a)) in
  (Assistant (as_dialogue a) (Kit (k_timers (as_kit a)) (mm_facts um)) (mm_topics um), r).

Definition MEMORY_VERBS : list pystr := [u "remember"; u "recall"; u "forget"].

(** The utterance as the rest of the turn sees it, and its intent. *)
Definition take_in (transcript : pystr) : py assistant (pystr * user_intent) :=
  resolved ← on_dialogue (resolve_answer (dv_now dv) transcript);
  a ← get;
  let transcript := match resolved with
                    | Some _ => transcript
                    | None => resolve_coreference expand transcript (as_dialogue a)
                    end in
  on_dialogue (λ d, (record_utterance transcript d, Ok tt)) ;;
  (if existsb (λ v, starts_with v (lower transcript)) MEMORY_VERBS then mret tt
   else on_memory (on_user_input (dv_now dv) (dv_facts_io dv) transcript) ;; mret tt) ;;
  intent ← match resolved with Some i => mret i | None => of_res (classify transcript) end;
  (if bool_decide (ui_type intent = COMMAND)
   then on_dialogue (λ d, (remember_entity (extract_named_entity transcript) d, Ok tt)) else mret tt) ;;
  mret (transcript, intent).

(** [f"{base}_duration" if ... else base]. *)
Definition clarification_category (action : pystr) : pystr :=
  let base := match map (λ c, if (c =? 45)%N then 95%N else c) (take (length action - 8) action) with
              | [] => u "task"
              | b => b
              end in
  if bool_decide (base = u "timer") then base ++ u "_duration"
  else if bool_decide (base = u "device") then base ++ u "_target"
  else base.

(** [_command_answer]. *)
Definition command_answer (intent : user_intent) : py assistant local_answer :=
  r ← on_kit (execute fpow ex intent);
  (if negb (bool_decide (cr_action r = [])) && ends_with (u "_clarify") (cr_action r)
   then on_dialogue (λ d, (begin_clarification (dv_now dv) (clarification_category (cr_action r))
                             (ui_transcript intent) (ui_entities intent) d, Ok tt))
   else mret tt) ;;
  mret match cr_response r with
       | [] => no_answer
       | text => LocalAnswer text (u "command: " ++ cr_action r)
       end.

(** [_tool_question_answer]. *)
Definition tool_question_answer (topic transcript : pystr) : py assistant pystr :=
  r ← attempt (on_kit (execute fpow ex (UserIntent COMMAND transcript (f_dec 9 1)
                                          [(u "tool_topic", VStr topic)])));
  mret match r with Ok x => cr_response x | Raise _ => [] end.

Definition TRAILING : regex := rx "[?!.]+$".
Definition WHAT_IS_MY : regex := rx "\bwhat(?:'s| is) my (.+)".

(** The keyword of a memory question. *)
Definition asked_keyword (tl : pystr) : pystr :=
  match search no_flags WHAT_IS_MY tl with
  | Some m => strip (group_text 1 m)
  | None => if bool_decide (tl ∈ [u "who am i"; u "who i am"]) then u "name" else []
  end.

(** The whole keyword, then its words, longest first. *)
Definition keyword_candidates (keyword : pystr) : list pystr :=
  keyword :: sort_by (λ a b : pystr, (length b <=? length a)%nat)
    (set_order (remove_dups (unquoted <$> List.filter (λ w, 3 <=? length w)%nat (words_of keyword)))).

Fixpoint first_rows (now : f64) (m : fact_memory) (l : list pystr) : list pyval :=
  match l with
  | [] => []
  | kw :: l' =>
      match or_else [] (facts_about now kw 2 m) with
      | [] => first_rows now m l'
      | rows => rows
      end
  end.

(** A fact as it is spoken. *)
Definition spoken_fact (r : pyval) : pystr :=
  match fact_to_second_person (py_str (text_of r)) with
  | [] => []
  | c :: s =>
      let text := upper_first c ++ s in
      if existsb (λ e, ends_with e text) [u "."; u "!"; u "?"] then text else text ++ u "."
  end.

(** [_memory_question_answer]. *)
Definition memory_question_answer (transcript : pystr) : py assistant pystr :=
  let tl := sub no_flags TRAILING [] (strip (str_lower transcript)) in
  if contains (u "what do you remember") tl || contains (u "what do you know about me") tl then
    r ← (if has_tool (u "recall_facts") tools
         then attempt (on_kit (call exn_text tools (u "recall_facts") []))
         else mret (Ok (err_result [])));
    match r with
    | Ok (ToolResult true output _ _) => mret output
    | _ =>
        a ← get;
        facts ← of_res (recall_fact_strings (dv_now dv) 4 []
                          (UserMemory (k_facts (as_kit a)) (as_topics a)));
        mret match facts with
             | [] => []
             | _ => u "Here's what I remember: " ++ join (u "; ") (py_str <$> facts) ++ u "."
             end
    end
  else
    match asked_keyword tl with
    | [] => mret []
    | keyword =>
        a ← get;
        mret (join (u " ") (List.filter (λ s, negb (bool_decide (s = [])))
                              (spoken_fact <$> first_rows (dv_now dv) (k_facts (as_kit a))
                                                 (keyword_candidates keyword))))
    end.

Definition is_question (i : user_intent) : bool := bool_decide (ui_type i ∈ [QUESTION; CHITCHAT]).

(** The deterministic answer: memory questions, then commands, then topics. *)
Definition local_answer_to (transcript : pystr) (intent : user_intent) : py assistant local_answer :=
  recalled ← (if is_question intent then memory_question_answer transcript else mret []);
  match recalled with
  | _ :: _ => mret (LocalAnswer recalled (u "memory recall (question path)"))
  | [] =>
      a ← (if bool_decide (ui_type intent = COMMAND) then command_answer intent else mret no_answer);
      match la_text a with
      | _ :: _ => mret a
      | [] =>
          if is_question intent then
            match tool_topic transcript with
            | None => mret no_answer
            | Some topic =>
                answer ← tool_question_answer topic transcript;
                mret match answer with
                     | [] => no_answer
                     | _ => LocalAnswer answer (u "command: " ++ topic)
                     end
            end
          else mret no_answer
      end
  end.

(** [_handle_conversational_input] up to the model; [forward] says whether the
    primary took the turn. *)
Definition conversational_turn (forward : pystr → local_answer → bool) (heard : pystr) : py assistant outcome :=
  match strip heard with
  | [] => mret Ignored
  | transcript =>
      '(transcript, intent) ← take_in transcript;
      answer ← local_answer_to transcript intent;
      mret (if forward transcript answer then Handed_on
            else match la_text answer with [] => To_model transcript | _ => Answered answer end)
  end.
End Turn.

(** ** What reaches the model *)

(** The topic a question is measured under, looked up as a command's. *)
Lemma topic_intent_category `{PyLower} (t topic : pystr) :
  topic ≠ [] → topic ≠ u "search" →
  category_of (UserIntent COMMAND t (f_dec 9 1) [(u "tool_topic", VStr topic)]) ≠ VStr (u "search").
Proof.
  intros Ht Hs. unfold category_of, entity, ui_entities, ui_transcript.
  replace (dict_get (u "tool_topic") VNone _) with (VStr topic) by reflexivity.
  replace (dict_get (u "action_verb") (VStr []) _) with (VStr []) by reflexivity.
  unfold categorize. cbn zeta. generalize (lower t). intros l.
  do 3 (case_match; [done|]). replace (truthy (VStr topic)) with true by by destruct topic.
  by intros [= ->].
Qed.

Lemma first_topic_in `{WordTable} l text topic : first_topic l text = Some topic → topic ∈ l.*2.
Proof.
  induction l as [|[p t] l IH]; cbn [first_topic]; [done|].
  destruct (matches _ _ _); [intros [= ->]; by left|]. intros E. right. by apply IH.
Qed.

(** A topic is one of the table's: none is empty or the search's. *)
Lemma tool_topic_known `{WordTable} t topic : tool_topic t = Some topic → topic ≠ [] ∧ topic ≠ u "search".
Proof.
  unfold tool_topic. case_match; [done|]. intros E%first_topic_in.
  assert (Hall : Forall (λ t, t ≠ [] ∧ t ≠ u "search") TOOL_TOPICS.*2).
  { unfold TOOL_TOPICS. repeat (apply List.Forall_cons; [done|]). constructor. }
  revert topic E. by apply Forall_forall.
Qed.

Section Reaching.
Context `{WordTable} `{PyRepr} `{PyLower} `{HalfPower} `{PyFloatOfStr}.
Context (exn_text : exn → pystr) (fpow : f64 → Z → f64).
Context (expand : pystr → pystr) (set_order : list pystr → list pystr) (upper_first : N → pystr).
Context (dv : device) (cb mem : bool).

Abbreviation kit_tools := (default_tools exn_text dv cb mem).
Abbreviation std_executor := (Executor (default_handlers exn_text dv (Some kit_tools)) None).
Abbreviation answer_to := (local_answer_to exn_text fpow set_order upper_first dv kit_tools std_executor).

(** The words that make a search command answer that there is no search. *)
Definition names_search (i : user_intent) : bool :=
  existsb (λ w, contains (u w) (lower (ui_transcript i))) ["search"; "find"; "look up"; "google"]%string.

(** The utterances nothing deterministic is said to: greetings, farewells and
    what is not understood, questions without a topic, and commands of the
    category of searches that do not name one. *)
Definition open_ended (t : pystr) (i : user_intent) : bool :=
  match ui_type i with
  | GREETING | FAREWELL | CONFUSED => true
  | QUESTION | CHITCHAT => match tool_topic t with None => true | Some _ => false end
  | COMMAND => bool_decide (category_of i = VStr (u "search")) && negb (names_search i)
  end.

Lemma command_answer_worded i a : ui_type i = COMMAND → category_of i ≠ VStr (u "search") →
  ∃ a' r, command_answer fpow dv std_executor i a = (a', Ok r) ∧ la_text r ≠ [].
Proof.
  intros Ht Hc. unfold command_answer, on_kit, mbind, py_bind, execute. rewrite Ht.
  destruct (command_answered exn_text dv cb mem fpow i Hc (as_kit a)) as (k' & r & E & Hr). rewrite E.
  destruct (cr_response r) as [|c w] eqn:Er; [done|].
  destruct (_ && _); eexists _, (LocalAnswer (c :: w) _); split; reflexivity || done.
Qed.

(** A command of the category of searches. *)
Lemma search_answered i a : ui_type i = COMMAND → category_of i = VStr (u "search") →
  ∃ a' r, command_answer fpow dv std_executor i a = (a', Ok r) ∧
    (if names_search i then la_text r ≠ [] else r = no_answer).
Proof.
  intros Ht Hc. unfold command_answer, on_kit, mbind, py_bind, execute. rewrite Ht.
  unfold execute_command. fold (category_of i). rewrite Hc. cbn [ex_handlers ex_fallback].
  change (dget (u "search") (default_handlers exn_text dv (Some kit_tools))) with (Some handle_search).
  cbn [fmap option_fmap option_map].
  unfold retry_call, retry_policy_2, new_policy. cbn [max_attempts].
  change (Z.to_nat (Z.max 1 2) - 1)%nat with 1%nat. cbn [attempts_from].
  unfold handle_search. cbv zeta. fold (names_search i). unfold mret, py_ret.
  by destruct (names_search i); eexists _, _.
Qed.

Lemma tool_question_worded t topic a : tool_topic t = Some topic →
  ∃ a' r, tool_question_answer fpow std_executor topic t a = (a', Ok r) ∧ r ≠ [].
Proof.
  intros Ht. destruct (tool_topic_known _ _ Ht) as [H1' H2'].
  unfold tool_question_answer, attempt, on_kit, mbind, py_bind, execute. cbn [ui_type].
  destruct (command_answered exn_text dv cb mem fpow _ (topic_intent_category t topic H1' H2') (as_kit a))
    as (k' & r & E & Hr).
  rewrite E. by eexists _, _.
Qed.

(** A turn that is not open-ended has words of its own as its answer. *)
Lemma closed_turn_worded t i a a1 recalled :
  open_ended t i = false →
  (if is_question i then memory_question_answer exn_text set_order upper_first dv kit_tools t else mret []) a
    = (a1, Ok recalled) →
  ∃ a' r, answer_to t i a = (a', Ok r) ∧ la_text r ≠ [].
Proof.
  intros Ho Em. unfold local_answer_to, mbind at 1, py_bind at 1. rewrite Em.
  destruct recalled as [|c w]; [|by eexists _, _].
  unfold open_ended in Ho. unfold is_question. destruct (ui_type i) eqn:Ei; try discriminate Ho.
  2:{ rewrite (bool_decide_eq_true_2 (COMMAND = COMMAND)) by done. unfold mbind at 1, py_bind at 1.
      assert (∃ a' r, command_answer fpow dv std_executor i a1 = (a', Ok r) ∧ la_text r ≠ []) as (a' & r & -> & Hr).
      { destruct (decide (category_of i = VStr (u "search"))) as [Hc|Hc]; [|by apply command_answer_worded].
        rewrite bool_decide_eq_true_2 in Ho by done. cbn [andb] in Ho. apply negb_false_iff in Ho.
        destruct (search_answered i a1 Ei Hc) as (a' & r & E & Hr). rewrite Ho in Hr. by exists a', r. }
      destruct (la_text r) eqn:E; [done|]. eexists _, r. split; [reflexivity|by rewrite E]. }
  all: destruct (tool_topic t) as [topic|] eqn:Et; [|discriminate Ho].
  all: rewrite (bool_decide_eq_false_2 (_ = COMMAND)) by done; rewrite bool_decide_eq_true_2 by set_solver.
  all: unfold mbind, py_bind, mret, py_ret; cbn [la_text no_answer].
  all: destruct (tool_question_worded t topic a1 Et) as (a' & r & -> & Hr).
  all: destruct r as [|d r]; [done|]; by eexists _, _.
Qed.

(** An open-ended turn without a memory has no words. *)
Lemma open_turn_wordless t i a a1 :
  open_ended t i = true →
  (if is_question i then memory_question_answer exn_text set_order upper_first dv kit_tools t else mret []) a
    = (a1, Ok []) →
  ∃ a', answer_to t i a = (a', Ok no_answer).
Proof.
  intros Ho Em. unfold local_answer_to, mbind at 1, py_bind at 1. rewrite Em.
  unfold open_ended in Ho. unfold is_question. destruct (ui_type i) eqn:Ei.
  all: try (rewrite (bool_decide_eq_false_2 (_ = COMMAND)) by done).
  all: try (destruct (tool_topic t) eqn:Et; [discriminate Ho|]).
  all: try (by eexists).
  apply andb_true_iff in Ho as [Hc%bool_decide_eq_true Hn%negb_true_iff].
  rewrite (bool_decide_eq_true_2 (COMMAND = COMMAND)) by done. unfold mbind at 1, py_bind at 1.
  destruct (search_answered i a1 Ei Hc) as (a' & r & -> & Hr). rewrite Hn in Hr. subst r. by exists a'.
Qed.
End Reaching.

(** C34. What the model gets, exactly. With the standard tools, a turn whose
    words have been taken in as the text [t] (pronouns replaced, so not always
    what was heard) with the intent [i], and to which the memory, asked when
    the intent is a question or small talk, recalls [recalled], reaches the
    model, and then as [t], if and only if nothing was recalled, the primary
    does not take the turn over, and: the intent is a greeting, a farewell or
    not understood; or it is a question or small talk in which no tool topic is
    found; or it is a command of the category of searches without one of the
    words search, find, look up, google.  Everything else is answered, or
    handed on, with the words of the memory, a tool or a command handler. *)
Theorem model_gets_open_ended `{WordTable} `{PyRepr} `{PyLower} `{HalfPower} `{PyFloatOfStr}
    (exn_text : exn → pystr) (fpow : f64 → Z → f64) (expand : pystr → pystr)
    (set_order : list pystr → list pystr) (upper_first : N → pystr) (dv : device) (cb mem : bool)
    (forward : pystr → local_answer → bool) (heard t recalled : pystr) (i : user_intent)
    (a a1 a2 : assistant) :
  let tools := default_tools exn_text dv cb mem in
  let ex := Executor (default_handlers exn_text dv (Some tools)) None in
  strip heard ≠ [] →
  take_in expand dv (strip heard) a = (a1, Ok (t, i)) →
  (if is_question i then memory_question_answer exn_text set_order upper_first dv tools t else mret []) a1
    = (a2, Ok recalled) →
  ∀ t',
  (conversational_turn exn_text fpow expand set_order upper_first dv tools ex forward heard a).2
    = Ok (To_model t')
  ↔ t' = t ∧ recalled = [] ∧ forward t no_answer = false ∧
    match ui_type i with
    | GREETING | FAREWELL | CONFUSED => True
    | QUESTION | CHITCHAT => tool_topic t = None
    | COMMAND => category_of i = VStr (u "search") ∧ names_search i = false
    end.
Proof.
  cbn zeta. intros Hs Ht Em t'.
  set (open := match ui_type i with GREETING | FAREWELL | CONFUSED => True | _ => _ end).
  assert (open_ended t i = true ↔ open) as Ho.
  { unfold open_ended, open. destruct (ui_type i); try done.
    - by destruct (tool_topic t).
    - by rewrite andb_true_iff, bool_decide_eq_true, negb_true_iff.
    - by destruct (tool_topic t). }
  unfold conversational_turn. destruct (strip heard) as [|c w]; [done|].
  unfold mbind at 1, py_bind at 1. rewrite Ht. unfold mbind, py_bind.
  assert (∃ a3 r, local_answer_to exn_text fpow set_order upper_first dv (default_tools exn_text dv cb mem)
      (Executor (default_handlers exn_text dv (Some (default_tools exn_text dv cb mem))) None) t i a1 = (a3, Ok r) ∧
    (la_text r ≠ [] ∧ ¬ (recalled = [] ∧ open) ∨ r = no_answer ∧ recalled = [] ∧ open)) as (a3 & r & -> & Hr).
  { destruct (open_ended t i) eqn:Eo.
    - destruct recalled as [|d l].
      + destruct (open_turn_wordless exn_text fpow set_order upper_first dv cb mem t i a1 a2 Eo Em) as (a3 & E).
        exists a3, no_answer. split; [exact E|]. right. naive_solver.
      + unfold local_answer_to, mbind at 1, py_bind at 1. rewrite Em. eexists _, _. split; [done|]. left.
        split; [done|]. by intros [? _].
    - destruct (closed_turn_worded exn_text fpow expand set_order upper_first dv cb mem t i a1 a2 recalled Eo Em)
        as (a3 & r & E & Hw). exists a3, r. split; [exact E|]. left. split; [exact Hw|]. intros [_ Hop]. by apply Ho in Hop. }
  unfold mret, py_ret. cbn [snd].
  destruct Hr as [[Hw Hn]|(-> & -> & Hop)].
  - destruct (la_text r) eqn:El; [done|]. split; [by destruct (forward t r)|]. naive_solver.
  - destruct (forward t no_answer) eqn:Ef; cbn; split; naive_solver.
Qed.

(** ** What the model may say *)

(** What is said of a decision of the model's is the refusal or a text in
    which the claim pattern finds no measurement. *)
Theorem spoken_is_guarded `{WordTable} `{PyRepr} (decision : list (pystr * pyval)) (s : pystr) :
  model_reply decision = Say s →
  s = MEASUREMENT_REFUSAL ∨ matches re_i MEASUREMENT_CLAIM_RE s = false.
Proof.
  unfold model_reply, guard_fabricated_measurement. cbn zeta.
  destruct (is_one_of _ _); [|by destruct (is_one_of _ _)].
  destruct (matches re_i MEASUREMENT_CLAIM_RE (strip _)) eqn:E.
  - cbn [dashed app]. destruct MEASUREMENT_REFUSAL eqn:Em; [done|]. intros [= <-]. by left.
  - destruct (strip _) as [|c w] eqn:Es; [done|]. intros [= <-]. by right.
Qed.

#[local] Instance demo_words : WordTable := ascii_words.
#[local] Instance demo_repr : PyRepr := λ _, [].

(** The guard does not see every measurement: degrees written with their
    sign are said when no letter follows it, and a question of the model's is
    not looked at. *)
Theorem guard_is_incomplete :
  let speak s := [(u "action_type", VStr (u "speak")); (u "text", VStr s)] in
  let ask s := [(u "action_type", VStr (u "ask_user")); (u "text", VStr s)] in
  let with_sign := u "It is 20" ++ [DEGREE] ++ u " outside." in
  let in_words := u "It is 20 degrees outside." in
  model_reply (speak in_words) = Say MEASUREMENT_REFUSAL ∧
  model_reply (speak with_sign) = Say with_sign ∧
  model_reply (ask in_words) = Ask in_words.
Proof. cbn zeta. split_and!; vm_compute; reflexivity. Qed.

(** ** A turn evaluated *)

#[local] Instance demo_lower : PyLower := lower.
#[local] Instance demo_float : PyFloatOfStr := λ _, Raise (ValueError []).
#[local] Instance demo_decay : HalfPower := λ _, f1.

(** What becomes of an utterance after others, without a primary. *)
Definition turn_after (d : dialogue) (heard : pystr) : res outcome :=
  let tools := default_tools (λ _, []) demo_device true true in
  (conversational_turn (λ _, []) (λ _ _, f1) id id (λ c, [c]) demo_device tools
     (Executor (default_handlers (λ _, []) demo_device (Some tools)) None) (λ _ _, false) heard
     (Assistant d demo_kit new_tracker)).2.

(** A pronoun is replaced before the topic of a question is looked for:
    once the lights were spoken of, the question for the time is one about
    the lights, which no tool answers. *)
Theorem pronoun_hides_tool_question :
  turn_after new_dialogue (u "what time is it")
    = Ok (Answered (LocalAnswer (u "It's 12:00.") (u "command: time_report"))) ∧
  turn_after (remember_entity (extract_named_entity (u "turn on the lights")) new_dialogue) (u "what time is it")
    = Ok (To_model (u "what time is lights")).
Proof. split; vm_compute; reflexivity. Qed.

(** ** Witnesses *)

Lemma model_gets_open_ended_witness :
  let tools := default_tools (λ _, []) demo_device true true in
  let ex := Executor (default_handlers (λ _, []) demo_device (Some tools)) None in
  (conversational_turn (λ _, []) (λ _ _, f1) id id (λ c, [c]) demo_device tools ex (λ _ _, false) (u "hello")
     (Assistant new_dialogue demo_kit new_tracker)).2 = Ok (To_model (u "hello")).
Proof.
  cbn zeta.
  destruct (take_in id demo_device (strip (u "hello")) (Assistant new_dialogue demo_kit new_tracker))
    as [a1 [[t i]|e]] eqn:E; [|by vm_compute in E].
  pose proof E as E'. vm_compute in E'. injection E' as Ea Et Ei.
  apply (model_gets_open_ended (λ _, []) (λ _ _, f1) id id (λ c, [c]) demo_device true true (λ _ _, false)
    (u "hello") t [] i (Assistant new_dialogue demo_kit new_tracker) a1 a1); [done|exact E| |];
    subst t i; [done|]. by split_and!.
Defined.

Lemma spoken_is_guarded_witness :
  let s := u "I like trains." in
  s = MEASUREMENT_REFUSAL ∨ matches re_i MEASUREMENT_CLAIM_RE s = false.
Proof.
  cbn zeta.
  apply (spoken_is_guarded [(u "action_type", VStr (u "speak")); (u "text", VStr (u "I like trains."))]).
  vm_compute. reflexivity.
Defined.
