(* ===== verification/Gguf.v ===== *)
(** * The geometry of a model file ([src/gguf_meta.py])

    The reader of a GGUF header, byte for byte, and the sizes computed from
    what it found.  A file is the list of its bytes; reading past the end gives
    what is left, as [read] does. *)

From Stdlib Require Import ZArith NArith Lia.
From Stdlib Require Import Floats.SpecFloat.
From S2P Require Import Prelude PyFloat PyStr PyVal.

Local Open Scope Z_scope.

Abbreviation bytes := (list N).

(** [handle.read(n)]: what was read, and what is left. *)
Definition read (n : Z) (h : bytes) : bytes * bytes := (take (Z.to_nat n) h, drop (Z.to_nat n) h).

(** [int.from_bytes(data, "little")], and the signed form. *)
Definition from_le (d : bytes) : Z := foldr (λ b acc, Z.of_N b + 256 * acc) 0 d.
Definition from_le_signed (d : bytes) : Z :=
  let v := from_le d in
  let top := 2 ^ (8 * Z.of_nat (length d)) in
  if 2 * v <? top then v else v - top.

(** [_u32] and [_u64]. *)
Definition u32 (d : bytes) : Z := if (4 <=? length d)%nat then from_le (take 4 d) else 0.
Definition u64 (d : bytes) : Z := if (8 <=? length d)%nat then from_le (take 8 d) else 0.

(** ** Text *)

(** [bytes.decode("utf-8", "replace")]: a byte that cannot continue what was
    begun replaces all of it by U+FFFD and is looked at afresh. *)
Inductive utf8_state := U_start | U_more (more : nat) (acc lo hi : N).

Definition utf8_lead (b : N) : list N * utf8_state :=
  (if b <? 0x80 then ([b], U_start)
   else if (0xC2 <=? b) && (b <=? 0xDF) then ([], U_more 1 (b - 0xC0) 0x80 0xBF)
   else if b =? 0xE0 then ([], U_more 2 0 0xA0 0xBF)
   else if b =? 0xED then ([], U_more 2 0xD 0x80 0x9F)
   else if (0xE1 <=? b) && (b <=? 0xEF) then ([], U_more 2 (b - 0xE0) 0x80 0xBF)
   else if b =? 0xF0 then ([], U_more 3 0 0x90 0xBF)
   else if (0xF1 <=? b) && (b <=? 0xF3) then ([], U_more 3 (b - 0xF0) 0x80 0xBF)
   else if b =? 0xF4 then ([], U_more 3 4 0x80 0x8F)
   else ([0xFFFD], U_start))%N.

Definition utf8_step (st : utf8_state) (b : N) : list N * utf8_state :=
  match st with
  | U_start => utf8_lead b
  | U_more more acc lo hi =>
      if ((lo <=? b) && (b <=? hi))%N then
        let acc := (acc * 64 + (b - 0x80))%N in
        match more with
        | S (S k) => ([], U_more (S k) acc 0x80 0xBF)
        | _ => ([acc], U_start)
        end
      else let '(out, st) := utf8_lead b in (0xFFFD%N :: out, st)
  end.

Fixpoint utf8_go (st : utf8_state) (d : bytes) : pystr :=
  match d with
  | [] => match st with U_start => [] | U_more _ _ _ _ => [0xFFFD%N] end
  | b :: rest => let '(out, st) := utf8_step st b in out ++ utf8_go st rest
  end.
Definition utf8_decode (d : bytes) : pystr := utf8_go U_start d.

(** [len(s.encode("utf-8"))]. *)
Definition utf8_width (c : N) : Z :=
  if (c <? 0x80)%N then 1 else if (c <? 0x800)%N then 2 else if (c <? 0x10000)%N then 3 else 4.
Definition utf8_length (s : pystr) : Z := foldr (λ c n, utf8_width c + n) 0 s.

(** ** Values *)

Definition GGUF_MAGIC : bytes := u "GGUF".

(** [_FIXED_WIDTH]. *)
Definition FIXED_WIDTH : list (Z * Z) :=
  [(0, 1); (1, 1); (2, 2); (3, 2); (4, 4); (5, 4); (6, 4); (7, 1); (10, 8); (11, 8); (12, 8)].
Definition WANTED_SUFFIXES : list pystr :=
  [u "block_count"; u "attention.head_count"; u "attention.head_count_kv"; u "attention.key_length";
   u "attention.value_length"; u "embedding_length"; u "context_length"].
Definition NEEDED : list pystr :=
  [u "block_count"; u "attention.head_count"; u "embedding_length"; u "attention.head_count_kv"].

Definition MIB : Z := 1024 * 1024.

(** [_read_string]. *)
Definition read_string (h : bytes) : option pystr * bytes :=
  let '(raw, h) := read 8 h in
  if (length raw <? 8)%nat then (None, h) else
  let len := u64 raw in
  if len =? 0 then (Some [], h)
  else if 4 * MIB <? len then (None, h)
  else
    let '(data, h) := read len h in
    if Z.of_nat (length data) <? len then (None, h) else (Some (utf8_decode data), h).

(** [struct.unpack("<f", data)[0]]. *)
Definition f32_of_bits (b : Z) : f64 :=
  let s := 0x80000000 <=? b in
  let e := Z.land (Z.shiftr b 23) 255 in
  let m := Z.land b 0x7FFFFF in
  let sg (x : Z) := if s then - x else x in
  if e =? 255 then (if m =? 0 then S754_infinity s else S754_nan)
  else if e =? 0 then binary_normalize 53 1024 (sg m) (-149) s
  else binary_normalize 53 1024 (sg (m + 0x800000)) (e - 150) s.

(** A value of fixed width.  The type 12, a double, has a width here too, so
    it is read as an integer like the others: the branch that would unpack it
    is never reached. *)
Definition fixed_value (kind : Z) (d : bytes) : pyval :=
  if kind =? 6 then VFloat (f32_of_bits (from_le d))
  else if kind =? 7 then VBool (negb (default 0%N (head d) =? 0)%N)
  else if bool_decide (kind ∈ [1; 3; 5; 11]) then VInt (from_le_signed d)
  else VInt (from_le d).

(** [_item_size]. *)
Definition item_size (kind : Z) (h : bytes) : Z * bytes :=
  match dget kind FIXED_WIDTH with
  | Some width =>
      let '(d, h) := read width h in
      (if Z.of_nat (length d) =? width then width else 0, h)
  | None =>
      if kind =? 8 then
        match read_string h with
        | (Some s, h) => (8 + utf8_length s, h)
        | (None, h) => (0, h)
        end
      else if kind =? 9 then
        let '(d, h) := read 12 h in (if (length d =? 12)%nat then 16 else 0, h)
      else (0, h)
  end.

(** The walk over the items of an array, until one is unreadable. *)
Fixpoint skip_items (n : nat) (kind spent : Z) (h : bytes) : Z * bytes :=
  match n with
  | O => (spent, h)
  | S n =>
      let '(size, h) := item_size kind h in
      if size =? 0 then (spent, h) else skip_items n kind (spent + size) h
  end.

(** [_read_value]; [None] is [_StopScan]. *)
Definition read_value (h : bytes) : option (pyval * Z) * bytes :=
  let '(raw, h) := read 4 h in
  if (length raw <? 4)%nat then (Some (VNone, 0), h) else
  let kind := u32 raw in
  match dget kind FIXED_WIDTH with
  | Some width =>
      let '(d, h) := read width h in
      if Z.of_nat (length d) <? width then (Some (VNone, 4), h)
      else (Some (fixed_value kind d, 4 + width), h)
  | None =>
      if kind =? 8 then
        match read_string h with
        | (Some s, h) => (Some (VStr s, 4 + (8 + utf8_length s)), h)
        | (None, h) => (Some (VNone, 4 + 8), h)
        end
      else if kind =? 9 then
        let '(hd, h) := read 12 h in
        if (length hd <? 12)%nat then (Some (VNone, 4), h) else
        let item_kind := u32 (take 4 hd) in
        let items := u64 (drop 4 hd) in
        if 4096 <? items then (None, h)
        else let '(spent, h) := skip_items (Z.to_nat items) item_kind 16 h in
             (Some (VNone, spent), h)
      else (Some (VNone, 4), h)
  end.

(** ** The header *)

Section Parse.
Context `{PyRepr}.

(** What a pair adds: [arch] and the wanted keys under its prefix. *)
Definition suffix_of (name : pystr) : pystr := tail (span (λ c, negb (c =? 46)%N) name).2.
Definition take_pair (arch : pystr) (out : pydict) (name : pystr) (value : pyval) : pystr * pydict :=
if decide (name = u "general.architecture") then (py_str (py_or value (VStr [])), out)
else if negb (bool_decide (arch = [])) && starts_with (arch ++ u ".") name then
  let suffix := suffix_of name in
  (arch, if bool_decide (suffix ∈ WANTED_SUFFIXES) then dset suffix value out else out)
else (arch, out).

(** Nothing more is wanted. *)
Definition complete (arch : pystr) (out : pydict) : bool :=
negb (bool_decide (arch = [])) && forallb (λ k, dhas k out) NEEDED.

Definition with_arch (arch : pystr) (out : pydict) : pydict :=
if bool_decide (arch = []) then out else dset (u "architecture") (VStr arch) out.

(** The loop of [_parse]. *)
Fixpoint parse_pairs (n : nat) (max_bytes consumed : Z) (arch : pystr) (out : pydict) (h : bytes) : pydict :=
match n with
| O => with_arch arch out
| S n =>
    match read_string h with
    | (None, _) => with_arch arch out
    | (Some name, h) =>
        let consumed := consumed + (Z.of_nat (length name) + 8) in
        if max_bytes <? consumed then with_arch arch out else
        match read_value h with
        | (None, _) => with_arch arch out
        | (Some (value, size), h) =>
            let '(arch, out) := take_pair arch out name value in
            if complete arch out then with_arch arch out
            else parse_pairs n max_bytes (consumed + size) arch out h
        end
    end
end.

(** [_parse]. *)
Definition parse (max_bytes max_pairs : Z) (h : bytes) : pydict :=
let '(magic, h) := read 4 h in
if negb (bool_decide (magic = GGUF_MAGIC)) then [] else
let '(v, h) := read 4 h in
if negb (bool_decide (u32 v ∈ [2; 3])) then [] else
let '(_, h) := read 8 h in
let '(c, h) := read 8 h in
let count := u64 c in
if (count <=? 0) || (max_pairs <? count) then []
else parse_pairs (Z.to_nat count) max_bytes 0 [] [] h.

(** [read_metadata] with the default limits; [None] is a file that cannot be
    read. *)
Definition read_metadata (file : option bytes) : pydict :=
match file with Some h => parse (4 * MIB) 4096 h | None => [] end.
End Parse.

(** ** Sizes *)

(** [layer_count]: only a [TypeError] or a [ValueError] counts as unknown. *)
Definition layer_count (meta : pydict) : res Z :=
  n ← int_or 0 (dict_get (u "block_count") (VInt 0) meta); Ok (Z.max 0 n).

(** The cache element's width, [max(1, int(dtype_bytes or 2))]. *)
Definition dtype_width (dtype : Z) : Z := Z.max 1 (if dtype =? 0 then 2 else dtype).

(** The numbers of [kv_bytes_per_token] before its checks. *)
Definition field (key : pystr) (meta : pydict) : pyval := dict_get key VNone meta.
Definition kv_heads (meta : pydict) : res Z :=
  py_int (py_or (py_or (field (u "attention.head_count_kv") meta)
                       (field (u "attention.head_count") meta)) (VInt 0)).
Definition head_dim (meta : pydict) : res Z :=
  d ← py_int (py_or (field (u "attention.key_length") meta) (VInt 0));
  if negb (d =? 0) then Ok d else
  e ← py_int (py_or (field (u "embedding_length") meta) (VInt 0));
  t ← py_int (py_or (field (u "attention.head_count") meta) (VInt 0));
  Ok (if t =? 0 then 0 else e / t).

(** [kv_bytes_per_token]. *)
Definition kv_bytes_per_token (dtype : Z) (meta : pydict) : res Z :=
  match (h ← kv_heads meta; d ← head_dim meta; Ok (h, d)) with
  | Ok (h, d) => Ok (if (h <=? 0) || (d <=? 0) then 0 else 2 * h * d * dtype_width dtype)
  | Raise (TypeError _) | Raise (ValueError _) => Ok 0
  | Raise e => Raise e
  end.

(** [slot_cache_bytes]. *)
Definition slot_cache_bytes (context slots layers dtype : Z) (meta : pydict) : res Z :=
  per_token ← kv_bytes_per_token dtype meta;
  count ← (if layers =? 0 then layer_count meta else Ok layers);
  Ok (Z.max 0 (per_token * Z.max 0 context * Z.max 1 (if slots =? 0 then 1 else slots) * Z.max 0 count)).

(** ** What a well-formed header says *)

(** [n] bytes, little-endian. *)
Fixpoint le_bytes (n : nat) (z : Z) : bytes :=
  match n with O => [] | S n => Z.to_N (z mod 256) :: le_bytes n (z / 256) end.

Definition write_string (s : pystr) : bytes := le_bytes 8 (Z.of_nat (length s)) ++ s.

(** A value as a writer sees it: of fixed width with its bytes, a string, or an
    array of either. *)
Inductive gguf_value :=
  | G_fixed (kind : Z) (d : bytes)
  | G_string (s : pystr)
  | G_array (kind : Z) (items : list bytes)
  | G_strings (items : list pystr).

Definition write_value (v : gguf_value) : bytes :=
  match v with
  | G_fixed k d => le_bytes 4 k ++ d
  | G_string s => le_bytes 4 8 ++ write_string s
  | G_array k items => le_bytes 4 9 ++ le_bytes 4 k ++ le_bytes 8 (Z.of_nat (length items)) ++ concat items
  | G_strings items =>
      le_bytes 4 9 ++ le_bytes 4 8 ++ le_bytes 8 (Z.of_nat (length items)) ++ (items ≫= write_string)
  end.
Definition write_pair (p : pystr * gguf_value) : bytes := write_string p.1 ++ write_value p.2.
Definition write_header (version : Z) (tensors : Z) (pairs : list (pystr * gguf_value)) : bytes :=
  GGUF_MAGIC ++ le_bytes 4 version ++ le_bytes 8 tensors ++ le_bytes 8 (Z.of_nat (length pairs))
  ++ (pairs ≫= write_pair).

(** Text the writer can hold: ASCII and not too long. *)
Definition text_ok (s : pystr) : bool :=
  forallb (λ c, (c <? 0x80)%N) s && (Z.of_nat (length s) <=? 4 * MIB).
Definition value_ok (v : gguf_value) : bool :=
  match v with
  | G_fixed k d => bool_decide (dget k FIXED_WIDTH = Some (Z.of_nat (length d)))
  | G_string s => text_ok s
  | G_array k items =>
      (Z.of_nat (length items) <=? 4096)
      && forallb (λ d : bytes, bool_decide (dget k FIXED_WIDTH = Some (Z.of_nat (length d)))) items
  | G_strings items => (Z.of_nat (length items) <=? 4096) && forallb text_ok items
  end.
Definition value_of (v : gguf_value) : pyval :=
  match v with
  | G_fixed k d => fixed_value k d
  | G_string s => VStr s
  | G_array _ _ | G_strings _ => VNone
  end.
Definition pair_ok (p : pystr * gguf_value) : bool := text_ok p.1 && value_ok p.2.

(** The specification: the pairs in order, until nothing more is wanted. *)
Fixpoint geometry `{PyRepr} (arch : pystr) (out : pydict) (pairs : list (pystr * gguf_value)) : pydict :=
  match pairs with
  | [] => with_arch arch out
  | (name, v) :: rest =>
      let '(arch, out) := take_pair arch out name (value_of v) in
      if complete arch out then with_arch arch out else geometry arch out rest
  end.

(** ** Lemmas *)

Lemma le_bytes_length n z : length (le_bytes n z) = n.
Proof. revert z. induction n as [|n IH]; intros z; simpl; [done|]. by rewrite IH. Qed.

Lemma from_le_bytes n z : 0 <= z < 256 ^ Z.of_nat n → from_le (le_bytes n z) = z.
Proof.
  revert z. induction n as [|n IH]; intros z Hz; cbn [le_bytes from_le foldr]; [simpl in Hz; lia|].
  change (foldr _ 0 ?l) with (from_le l).
  rewrite Nat2Z.inj_succ, Z.pow_succ_r in Hz by lia. rewrite IH.
  - pose proof (Z.mod_pos_bound z 256). rewrite Z2N.id by lia. pose proof (Z.div_mod z 256). lia.
  - pose proof (Z.div_pos z 256). split; [lia|]. apply Z.div_lt_upper_bound; lia.
Qed.

Lemma read_app n d h : Z.of_nat (length d) = n → read n (d ++ h) = (d, h).
Proof. intros <-. unfold read. rewrite Nat2Z.id. by rewrite take_app_length, drop_app_length. Qed.

Lemma u32_bytes z : 0 <= z < 2 ^ 32 → u32 (le_bytes 4 z) = z.
Proof. intros. unfold u32. rewrite le_bytes_length. cbn [Nat.leb]. rewrite take_ge by (by rewrite le_bytes_length). by apply from_le_bytes. Qed.
Lemma u64_bytes z : 0 <= z < 2 ^ 64 → u64 (le_bytes 8 z) = z.
Proof. intros. unfold u64. rewrite le_bytes_length. cbn [Nat.leb]. rewrite take_ge by (by rewrite le_bytes_length). by apply from_le_bytes. Qed.

(** ASCII decodes to itself. *)
Lemma utf8_ascii s : forallb (λ c, (c <? 0x80)%N) s = true → utf8_decode s = s.
Proof.
  unfold utf8_decode. induction s as [|c s IH]; [done|]. cbn. intros [Hc Hs]%andb_true_iff.
  unfold utf8_lead. rewrite Hc. cbn. by rewrite IH.
Qed.
Lemma utf8_length_ascii s : forallb (λ c, (c <? 0x80)%N) s = true → utf8_length s = Z.of_nat (length s).
Proof.
  induction s as [|c s IH]; [done|]. cbn [forallb utf8_length foldr length]. intros [Hc Hs]%andb_true_iff.
  change (foldr _ 0 s) with (utf8_length s). rewrite IH by done. unfold utf8_width. rewrite Hc. lia.
Qed.

Lemma read_written_string s h : text_ok s = true → read_string (write_string s ++ h) = (Some s, h).
Proof.
  unfold text_ok, MIB. intros [Ha Hl]%andb_true_iff. unfold read_string, write_string. rewrite <- app_assoc.
  rewrite read_app by (by rewrite le_bytes_length). cbv beta iota zeta. rewrite le_bytes_length. cbn [Nat.ltb Nat.leb].
  rewrite u64_bytes by lia. destruct s as [|c s]; [done|].
  replace (Z.of_nat (length (c :: s)) =? 0) with false by (cbn [length]; lia).
  replace (4 * MIB <? Z.of_nat (length (c :: s))) with false by (unfold MIB; lia).
  rewrite read_app by done. cbv beta iota zeta. rewrite Z.ltb_irrefl. by rewrite utf8_ascii.
Qed.

Lemma fixed_width_range k w : dget k FIXED_WIDTH = Some w → 0 <= k < 2 ^ 32 ∧ 0 < w ∧ k ≠ 8 ∧ k ≠ 9.
Proof.
  intros E%dget_elem. revert E. unfold FIXED_WIDTH.
  rewrite !elem_of_cons, elem_of_nil. intros E. destruct_or!; simplify_eq; lia.
Qed.

(** The bytes a value takes, as the reader counts them. *)
Definition value_size (v : gguf_value) : Z :=
  match v with
  | G_fixed _ d => 4 + Z.of_nat (length d)
  | G_string s => 4 + (8 + Z.of_nat (length s))
  | G_array _ items => 16 + Z.of_nat (length (concat items))
  | G_strings items => 16 + foldr (λ s n, 8 + Z.of_nat (length s) + n) 0 items
  end.
Definition pair_size (p : pystr * gguf_value) : Z := Z.of_nat (length p.1) + 8 + value_size p.2.

Lemma item_size_fixed k d h :
  dget k FIXED_WIDTH = Some (Z.of_nat (length d)) →
  item_size k (d ++ h) = (Z.of_nat (length d), h).
Proof. intros E. unfold item_size. rewrite E, read_app by done. by rewrite Z.eqb_refl. Qed.

Lemma skip_fixed k items : ∀ spent h,
  forallb (λ d : bytes, bool_decide (dget k FIXED_WIDTH = Some (Z.of_nat (length d)))) items = true →
  skip_items (length items) k spent (concat items ++ h) = (spent + Z.of_nat (length (concat items)), h).
Proof.
  induction items as [|d items IH]; intros spent h; cbn [forallb length skip_items concat];
    [intros _; simpl; by rewrite Z.add_0_r|].
  intros [Hd%bool_decide_eq_true Hi]%andb_true_iff. rewrite <- app_assoc, item_size_fixed by done.
  pose proof (fixed_width_range _ _ Hd) as (_ & Hw & _). replace (_ =? 0) with false by lia.
  rewrite IH by done. rewrite length_app. f_equal. lia.
Qed.

Lemma item_size_string s h : text_ok s = true → item_size 8 (write_string s ++ h) = (8 + Z.of_nat (length s), h).
Proof.
  intros Hs. unfold item_size. change (dget 8 FIXED_WIDTH) with (@None Z). cbn [Z.eqb Pos.eqb].
  rewrite read_written_string by done. unfold text_ok in Hs. apply andb_true_iff in Hs as [Ha _].
  by rewrite utf8_length_ascii.
Qed.

Lemma skip_strings items : ∀ spent h,
  forallb text_ok items = true →
  skip_items (length items) 8 spent ((items ≫= write_string) ++ h)
  = (spent + foldr (λ s n, 8 + Z.of_nat (length s) + n) 0 items, h).
Proof.
  induction items as [|s items IH]; intros spent h; cbn [forallb length skip_items foldr];
    [intros _; cbn; by rewrite Z.add_0_r|].
  intros [Hs Hi]%andb_true_iff. rewrite bind_cons, <- app_assoc, item_size_string by done. replace (_ =? 0) with false by lia.
  rewrite IH by done. f_equal. lia.
Qed.

(** A written value is read back, and the reader stops behind it. *)
Lemma read_written_value v h :
  value_ok v = true → read_value (write_value v ++ h) = (Some (value_of v, value_size v), h).
Proof.
  intros Hv. unfold read_value.
  assert (∀ k tl, 0 <= k < 2 ^ 32 → read 4 (le_bytes 4 k ++ tl) = (le_bytes 4 k, tl)) as Hr
    by (intros; by apply read_app; rewrite le_bytes_length).
  destruct v as [k d|s|k items|items]; cbn [write_value value_ok value_of value_size] in *; rewrite <- ?app_assoc.
  - apply bool_decide_eq_true in Hv. pose proof (fixed_width_range _ _ Hv) as (Hk & _).
    rewrite Hr by done. cbv beta iota zeta. rewrite le_bytes_length, u32_bytes by done. cbn [Nat.ltb Nat.leb].
    rewrite Hv, read_app by done. by rewrite Z.ltb_irrefl.
  - rewrite Hr by done. cbv beta iota zeta. rewrite le_bytes_length, u32_bytes by done. cbn [Nat.ltb Nat.leb].
    change (dget 8 FIXED_WIDTH) with (@None Z). cbn [Z.eqb Pos.eqb].
    rewrite read_written_string by done. unfold text_ok in Hv. apply andb_true_iff in Hv as [Ha _].
    by rewrite utf8_length_ascii.
  - apply andb_true_iff in Hv as [Hl Hi]. rewrite Hr by done. cbv beta iota zeta.
    rewrite le_bytes_length, u32_bytes by done. cbn [Nat.ltb Nat.leb].
    change (dget 9 FIXED_WIDTH) with (@None Z). cbn [Z.eqb Pos.eqb].
    rewrite app_assoc, read_app by (by rewrite length_app, !le_bytes_length). cbv beta iota zeta.
    rewrite length_app, !le_bytes_length. cbn [Nat.ltb Nat.leb Nat.add].
    rewrite take_app_length', drop_app_length' by (by rewrite le_bytes_length).
    rewrite u64_bytes by lia. replace (4096 <? _) with false by lia. rewrite Nat2Z.id.
    destruct items as [|d items]; [done|].
    assert (0 <= k < 2 ^ 32) as Hk.
    { cbn [forallb] in Hi. apply andb_true_iff in Hi as [Hd%bool_decide_eq_true _].
      by pose proof (fixed_width_range _ _ Hd) as (? & _). }
    rewrite u32_bytes, skip_fixed by done. done.
  - apply andb_true_iff in Hv as [Hl Hi]. rewrite Hr by done. cbv beta iota zeta.
    rewrite le_bytes_length, u32_bytes by done. cbn [Nat.ltb Nat.leb].
    change (dget 9 FIXED_WIDTH) with (@None Z). cbn [Z.eqb Pos.eqb].
    rewrite app_assoc, read_app by (by rewrite length_app, !le_bytes_length). cbv beta iota zeta.
    rewrite length_app, !le_bytes_length. cbn [Nat.ltb Nat.leb Nat.add].
    rewrite take_app_length', drop_app_length' by (by rewrite le_bytes_length).
    rewrite u64_bytes by lia. replace (4096 <? _) with false by lia.
    rewrite Nat2Z.id, u32_bytes, skip_strings by done. done.
Qed.

Lemma value_size_pos v : 4 <= value_size v.
Proof.
  destruct v as [k d|s|k items|items]; cbn; try lia.
  enough (0 <= foldr (λ (s : pystr) n, 8 + Z.of_nat (length s) + n) 0 items) by lia.
  induction items; cbn [foldr]; lia.
Qed.

Lemma pair_size_pos p : 0 <= pair_size p.
Proof. unfold pair_size. pose proof (value_size_pos p.2). lia. Qed.

Lemma read_pairs `{PyRepr} max pairs : ∀ consumed arch out h,
  forallb pair_ok pairs = true →
  consumed + foldr (λ p n, pair_size p + n) 0 pairs <= max →
  parse_pairs (length pairs) max consumed arch out ((pairs ≫= write_pair) ++ h) = geometry arch out pairs.
Proof.
  induction pairs as [|[name v] pairs IH]; intros consumed arch out h; [done|].
  cbn [forallb foldr length parse_pairs geometry]. intros [Hp Hps]%andb_true_iff Hmax.
  unfold pair_ok in Hp. cbn [fst snd] in Hp. apply andb_true_iff in Hp as [Hn Hv].
  rewrite bind_cons. unfold write_pair at 1. cbn [fst snd]. rewrite <- !app_assoc.
  rewrite read_written_string by done.
  assert (0 <= foldr (λ p n, pair_size p + n) 0 pairs).
  { clear. induction pairs as [|p pairs IH]; cbn [foldr]; [lia|]. pose proof (pair_size_pos p). lia. }
  pose proof (value_size_pos v). unfold pair_size in Hmax at 1. cbn [fst snd] in Hmax.
  replace (max <? _) with false by lia. rewrite read_written_value by done.
  destruct (take_pair arch out name (value_of v)) as [arch' out']. destruct (complete arch' out'); [done|].
  apply IH; [done|]. lia.
Qed.

(** ** Theorems *)

(** What the reader makes of a well-formed header is the loop over its
    decoded pairs. *)
Lemma header_parsed `{PyRepr} version tensors pairs max_bytes max_pairs rest :
  version ∈ [2; 3] → 0 <= tensors < 2 ^ 64 →
  pairs ≠ [] → Z.of_nat (length pairs) <= max_pairs < 2 ^ 64 →
  forallb pair_ok pairs = true → foldr (λ p n, pair_size p + n) 0 pairs <= max_bytes →
  parse max_bytes max_pairs (write_header version tensors pairs ++ rest) = geometry [] [] pairs.
Proof.
  intros Hv Ht Hne Hc Hok Hb. unfold parse, write_header. rewrite <- !app_assoc.
  assert (0 <= version < 2 ^ 32) by (revert Hv; rewrite !elem_of_cons, elem_of_nil; lia).
  rewrite (read_app 4 GGUF_MAGIC) by done. cbv beta iota zeta. rewrite bool_decide_true by done. cbn [negb].
  rewrite read_app by (by rewrite le_bytes_length). cbv beta iota zeta.
  rewrite u32_bytes, bool_decide_true by done. cbn [negb].
  rewrite read_app by (by rewrite le_bytes_length). cbv beta iota zeta.
  rewrite read_app by (by rewrite le_bytes_length). cbv beta iota zeta.
  assert (0 < Z.of_nat (length pairs)) by (destruct pairs; [done|cbn [length]; lia]).
  rewrite u64_bytes by lia.
  replace (_ || _) with false by lia. rewrite Nat2Z.id. by apply read_pairs.
Qed.

(** ** What a header states, apart from the reader

    A writer's values with their meaning: unsigned and signed integers of one,
    two, four or eight bytes, booleans and texts; and others (floats, arrays)
    that may stand under a name the reader does not want. *)









Section Stated.
Context `{PyRepr} (arch : pystr).
Hypothesis arch_named : arch ≠ [].
Hypothesis arch_dotless : forallb (λ c, negb (c =? 46)%N) arch = true.












End Stated.


(** Keys that can come out. *)
Definition known_keys : list pystr := u "architecture" :: WANTED_SUFFIXES.

Lemma take_pair_keys `{PyRepr} arch out name v :
  (∀ k, k ∈ out.*1 → k ∈ WANTED_SUFFIXES) → NoDup out.*1 →
  (∀ k, k ∈ (take_pair arch out name v).2.*1 → k ∈ WANTED_SUFFIXES) ∧ NoDup (take_pair arch out name v).2.*1.
Proof.
  intros Hk Hn. unfold take_pair. case_decide; [done|]. destruct (_ && _); [|done].
  cbn [snd]. case_bool_decide; [|done]. split; [|by apply dset_nodup].
  intros k [->|?]%dset_keys; auto.
Qed.

Lemma with_arch_keys arch out :
  (∀ k, k ∈ out.*1 → k ∈ WANTED_SUFFIXES) → NoDup out.*1 →
  (∀ k, k ∈ (with_arch arch out).*1 → k ∈ known_keys) ∧ NoDup (with_arch arch out).*1.
Proof.
  intros Hk Hn. unfold with_arch, known_keys. case_bool_decide; [split; [set_solver|done]|].
  split; [|by apply dset_nodup]. intros k [->|?]%dset_keys; [left|right; auto].
Qed.

(** Fail closed: whatever the bytes, the reader ends and returns a
    dictionary whose keys are the architecture and the seven wanted ones, each at
    most once; without the magic, a known version and an acceptable count it
    is empty. *)
Theorem parse_fails_closed `{PyRepr} max_bytes max_pairs h :
  (∀ k, k ∈ (parse max_bytes max_pairs h).*1 → k ∈ known_keys) ∧ NoDup (parse max_bytes max_pairs h).*1 ∧
  (parse max_bytes max_pairs h ≠ [] →
     take 4 h = GGUF_MAGIC ∧ u32 (take 4 (drop 4 h)) ∈ [2; 3]
     ∧ 0 < u64 (take 8 (drop 16 h)) <= max_pairs).
Proof.
  assert (∀ n consumed arch out h, (∀ k, k ∈ out.*1 → k ∈ WANTED_SUFFIXES) → NoDup out.*1 →
    (∀ k, k ∈ (parse_pairs n max_bytes consumed arch out h).*1 → k ∈ known_keys)
    ∧ NoDup (parse_pairs n max_bytes consumed arch out h).*1) as Hp.
  { clear h. induction n as [|n IH]; intros consumed arch out h Hk Hn; cbn [parse_pairs]; [by apply with_arch_keys|].
    destruct (read_string h) as [[name|] h1]; [|by apply with_arch_keys].
    destruct (_ <? _); [by apply with_arch_keys|].
    destruct (read_value h1) as [[[v size]|] h2]; [|by apply with_arch_keys].
    pose proof (take_pair_keys arch out name v Hk Hn) as [Hk' Hn'].
    destruct (take_pair arch out name v) as [arch' out']. cbn [snd] in *.
    destruct (complete arch' out'); [by apply with_arch_keys|by apply IH]. }
  unfold parse, read. cbv beta iota zeta. change (Z.to_nat 4) with 4%nat. change (Z.to_nat 8) with 8%nat.
  rewrite !drop_drop. cbn [Nat.add].
  assert (∀ P : Prop, (∀ k : pystr, k ∈ (@nil (pystr * pyval)).*1 → k ∈ known_keys) ∧
    NoDup (@nil (pystr * pyval)).*1 ∧ (@nil (pystr * pyval) ≠ [] → P)) as Hnil.
  { intros P. split_and!; [set_solver|constructor|done]. }
  case_bool_decide as Hm; cbn [negb]; [|apply Hnil]. case_bool_decide as Hv; cbn [negb]; [|apply Hnil].
  destruct ((_ <=? 0) || _) eqn:Hc; [apply Hnil|]. apply orb_false_iff in Hc as [H1 H2].
  destruct (Hp (Z.to_nat (u64 (take 8 (drop 16 h)))) 0 [] [] (drop 24 h)) as [Hk Hn]; [set_solver|constructor|].
  apply Z.leb_gt in H1. apply Z.ltb_ge in H2. by split_and!.
Qed.

Section Stop.
Context `{PyRepr} (arch : pystr).
Hypothesis arch_text : text_ok arch = true.
Hypothesis arch_some : arch ≠ [].
Hypothesis arch_plain : forallb (λ c, negb (c =? 46)%N) arch = true.
Hypothesis arch_short : Z.of_nat (length arch) <= 1000.

Definition key (s : string) : pystr := arch ++ u "." ++ u s.

Lemma suffix_of_key s : suffix_of (key s) = u s.
Proof using arch_plain.
unfold suffix_of, key. clear arch_text arch_some arch_short. induction arch as [|c a IH]; [done|].
cbn in arch_plain. apply andb_true_iff in arch_plain as [Hc Ha]. cbn [app span]. rewrite Hc.
specialize (IH Ha). by destruct (span _ (a ++ u "." ++ u s)).
Qed.

Lemma key_starts s : starts_with (arch ++ u ".") (key s) = true.
Proof.
unfold key. rewrite app_assoc. generalize (arch ++ u "."). intros p.
induction p as [|c p IH]; [done|]. cbn. by rewrite N.eqb_refl.
Qed.

Lemma take_key s v out :
u s ≠ u "architecture" → bool_decide (u s ∈ WANTED_SUFFIXES) = true →
take_pair arch out (key s) v = (arch, dset (u s) v out).
Proof using arch_some arch_plain.
intros Hs Hw. unfold take_pair. rewrite decide_False.
- rewrite key_starts, (bool_decide_false (arch = [])) by done. cbn [negb andb].
  by rewrite suffix_of_key, Hw.
- intros E. apply (f_equal suffix_of) in E. rewrite suffix_of_key in E. by apply Hs.
Qed.

Lemma key_ok s z : text_ok (u s) = true → (length (u s) ≤ 1000)%nat →
pair_ok (key s, G_fixed 4 (le_bytes 4 z)) = true.
Proof using arch_text arch_short.
clear arch_plain arch_some. rename arch_text into Htext. pose proof Htext as arch_text'.
unfold pair_ok, text_ok, MIB. cbn [fst snd]. intros [Hs _]%andb_true_iff Hl.
apply andb_true_iff in arch_text' as [Ha _]. apply andb_true_iff. split; [|done].
apply andb_true_iff. split; [by unfold key; rewrite !forallb_app, Ha, Hs|].
unfold key. rewrite !length_app. change (length (u ".")) with 1%nat. lia.
Qed.

Lemma u32_value z : 0 < z < 2 ^ 32 → fixed_value 4 (le_bytes 4 z) = VInt z.
Proof. intros. change (fixed_value 4 ?d) with (VInt (from_le d)). rewrite from_le_bytes; [done|]. change (256 ^ Z.of_nat 4) with (2 ^ 32). lia. Qed.

(** The scan may stop too early: once the four needed keys are in, what
    follows is not read.  For every such header in which the length of a key is
    stated behind them, the reader's cache size is computed from the embedding
    width over the number of heads, whatever the stated length. *)
Theorem stated_key_length_missed L E Hd K D :
Forall (λ z, 0 < z < 2 ^ 32) [L; E; Hd; K; D] → Hd <= E →
let pairs := [(u "general.architecture", G_string arch);
              (key "block_count", G_fixed 4 (le_bytes 4 L));
              (key "embedding_length", G_fixed 4 (le_bytes 4 E));
              (key "attention.head_count", G_fixed 4 (le_bytes 4 Hd));
              (key "attention.head_count_kv", G_fixed 4 (le_bytes 4 K));
              (key "attention.key_length", G_fixed 4 (le_bytes 4 D))] in
let meta := read_metadata (Some (write_header 3 0 pairs)) in
dget (u "attention.key_length") meta = None ∧ layer_count meta = Ok L ∧
kv_bytes_per_token 2 meta = Ok (2 * K * (E / Hd) * 2).
Proof using arch_text arch_some arch_plain arch_short.
intros Hr HEH. cbn zeta. set (pairs := [_; _; _; _; _; _]).
rewrite !Forall_cons in Hr. destruct Hr as (HL & HE & HH & HK & HD & _).
assert (read_metadata (Some (write_header 3 0 pairs)) =
  [(u "block_count", VInt L); (u "embedding_length", VInt E); (u "attention.head_count", VInt Hd);
   (u "attention.head_count_kv", VInt K); (u "architecture", VStr arch)]) as ->.
{ unfold read_metadata. rewrite <- (app_nil_r (write_header _ _ _)).
  rewrite header_parsed; [|set_solver|lia|done|cbn; lia| |].
  - subst pairs. cbn [geometry value_of].
    change (take_pair [] [] (u "general.architecture") (VStr arch)) with (py_str (py_or (VStr arch) (VStr [])), @nil (pystr * pyval)).
    assert (py_str (py_or (VStr arch) (VStr [])) = arch) as -> by (unfold py_or; cbn; by rewrite bool_decide_false).
    unfold complete. rewrite (bool_decide_false (arch = [])) by done. cbn [negb andb].
    rewrite !u32_value by done.
    change (forallb (λ k, dhas k []) NEEDED) with false. cbv iota.
    do 4 (rewrite take_key by done; cbv beta iota zeta; rewrite ?(bool_decide_false (arch = [])) by done;
          cbn [negb andb];
          match goal with |- context [forallb ?f NEEDED] =>
            let b := eval vm_compute in (forallb f NEEDED) in change (forallb f NEEDED) with b end;
          cbv iota).
    unfold with_arch. by rewrite bool_decide_false.
  - subst pairs. cbn [forallb]. rewrite !key_ok by (done || by apply Nat.leb_le). rewrite !andb_true_r.
    unfold pair_ok. cbn [fst snd value_ok]. by rewrite arch_text.
  - subst pairs. cbn [foldr]. unfold pair_size, key. cbn [fst snd value_size].
    rewrite !length_app, !le_bytes_length. unfold MIB.
    repeat match goal with |- context [length (u ?s)] =>
      let n := eval vm_compute in (length (u s)) in change (length (u s)) with n end. lia. }
split; [by vm_compute|]. split.
- unfold layer_count, int_or, dict_get. change (dget (u "block_count") _) with (Some (VInt L)).
  cbn. f_equal. lia.
- assert (0 < E / Hd) by (apply Z.div_str_pos; lia).
  assert (∀ x w, 0 < x → py_or (VInt x) w = VInt x) as Hor by (intros x w Hx; by destruct x).
  unfold kv_bytes_per_token, kv_heads, head_dim.
  change (field (u "attention.head_count_kv") _) with (VInt K).
  change (field (u "attention.head_count") _) with (VInt Hd).
  change (field (u "attention.key_length") _) with VNone.
  change (field (u "embedding_length") _) with (VInt E).
  change (py_or VNone (VInt 0)) with (VInt 0). rewrite !Hor by lia.
  unfold mbind, res_bind, py_int. cbn [negb Z.eqb].
  replace (Hd =? 0) with false by lia. replace (_ || _) with false by lia. done.
Qed.
End Stop.



Lemma stated_key_length_missed_witness :
  let _ : PyRepr := λ _, [] in
  let pairs := [(u "general.architecture", G_string (u "gemma"));
                (key (u "gemma") "block_count", G_fixed 4 (le_bytes 4 26));
                (key (u "gemma") "embedding_length", G_fixed 4 (le_bytes 4 1152));
                (key (u "gemma") "attention.head_count", G_fixed 4 (le_bytes 4 4));
                (key (u "gemma") "attention.head_count_kv", G_fixed 4 (le_bytes 4 1));
                (key (u "gemma") "attention.key_length", G_fixed 4 (le_bytes 4 256))] in
  let meta := read_metadata (Some (write_header 3 0 pairs)) in
  dget (u "attention.key_length") meta = None ∧ layer_count meta = Ok 26 ∧
  kv_bytes_per_token 2 meta = Ok (2 * 1 * (1152 / 4) * 2).
Proof.
  cbn zeta. apply (stated_key_length_missed (H := λ _, []) (u "gemma"));
    [done|done|done|by vm_compute|by repeat constructor|lia].
Defined.

(** A double in the header is read as the integer of its bits, since its
    type stands in the table of fixed widths; and an infinite 32-bit float as the
    number of layers raises instead of counting as unknown. *)
Theorem odd_floats (d : bytes) :
  length d = 8%nat →
  read_value (le_bytes 4 12 ++ d) = (Some (VInt (from_le d), 12), []) ∧
  layer_count [(u "block_count", fixed_value 6 (le_bytes 4 0x7F800000))] = Raise OverflowError.
Proof.
  intros Hd. split; [|by vm_compute]. unfold read_value.
  rewrite (read_app 4) by done. cbv beta iota zeta. rewrite le_bytes_length, u32_bytes by done. cbn [Nat.ltb Nat.leb].
  change (dget 12 FIXED_WIDTH) with (Some 8). pose proof (read_app 8 d [] ltac:(lia)) as E. rewrite app_nil_r in E. cbv iota beta. rewrite E. cbv beta iota zeta.
  rewrite Hd. done.
Qed.

Lemma odd_floats_witness :
  read_value (le_bytes 4 12 ++ le_bytes 8 0x3FF0000000000000) = (Some (VInt 0x3FF0000000000000, 12), []).
Proof. exact (proj1 (odd_floats (le_bytes 8 0x3FF0000000000000) eq_refl)). Defined.
