(* ===== verification/LayerSplit.v ===== *)
(** * Splitting a model's layers over the fleet ([src/mesh_rpc.py])

    The headroom of a device and the assignment of layers to devices by it. *)

From Stdlib Require Import ZArith Lia Sorted.
From S2P Require Import Prelude PyFloat PyStr PyVal.

Local Open Scope Z_scope.

(** ** Headroom *)

Definition DEFAULT_RESERVE_BYTES : Z := 192 * 1024 * 1024.
Definition THERMAL_REFUSE_STATUS : Z := 3.

(** [int(v or 0)]. *)
Definition int_or_zero (v : pyval) : res Z := py_int (py_or v (VInt 0)).

(** [usable_headroom]. *)
Definition usable_headroom (mem advertised : pyval) (reserve : Z) : res Z :=
  measured ← int_or_zero mem;
  if measured <=? 0 then Ok 0 else
  measured ← (if truthy advertised then a ← py_int advertised; Ok (Z.min measured a) else Ok measured);
  Ok (Z.max 0 (measured - reserve)).

(** ** The plan *)

Record candidate := Candidate { cd_device : pystr; cd_layers : Z; cd_room : Z }.

Record split_plan := SplitPlan {
  assignments : list (pystr * Z);
  remote_layers : Z;
  local_layers : Z;
  skipped : list (pystr * pystr);
  headroom : list (pystr * Z);
  cost_per_layer_bytes : Z;
  plan_cache_bytes : Z;
  plan_slots : Z
}.

(** [thermal_status] as a number, when it is one. *)
Definition thermal_int (v : pyval) : res (option Z) :=
  match v with
  | VNone => Ok None
  | _ => match py_int v with
         | Ok n => Ok (Some n)
         | Raise (TypeError _) | Raise (ValueError _) => Ok None
         | Raise e => Raise e
         end
  end.

Definition too_hot (t : option Z) : option Z :=
  match t with Some n => if THERMAL_REFUSE_STATUS <=? n then Some n else None | None => None end.

(** What the loop has gathered. *)
Definition gathered : Type := list (pystr * pystr) * list candidate * list (pystr * Z).

Section Plan.
Context `{PyRepr}.

(** [str(node.get("device_id") or "").strip()]. *)
Definition device_of (node : pydict) : pystr := strip (py_str (py_or (dict_get (u "device_id") VNone node) (VStr []))).

(** A turn of the loop over the nodes. *)
Definition consider (reserve cost : Z) (node : pydict) (g : gathered) : res gathered :=
let '(skipped, cands, room_of) := g in
let d := device_of node in
if bool_decide (d = []) then Ok g
else if bool_decide (dict_get (u "paired") VNone node = VBool false)
then Ok (skipped ++ [(d, u "unpaired")], cands, room_of)
else
  t ← thermal_int (dict_get (u "thermal_status") VNone node);
  match too_hot t with
  | Some n => Ok (skipped ++ [(d, u "thermal_status=" ++ str_of_Z n)], cands, room_of)
  | None =>
      room ← usable_headroom (dict_get (u "mem_available_bytes") VNone node)
               (dict_get (u "advertised_bytes") VNone node) reserve;
      let layers := room / cost in
      if layers <=? 0 then Ok (skipped ++ [(d, u "insufficient_headroom")], cands, dset d room room_of)
      else Ok (skipped, cands ++ [Candidate d layers room], dset d room room_of)
  end.

Fixpoint consider_all (reserve cost : Z) (nodes : list pydict) (g : gathered) : res gathered :=
match nodes with
| [] => Ok g
| node :: rest => g ← consider reserve cost node g; consider_all reserve cost rest g
end.

(** Largest headroom first, then by name. *)
Definition roomier (a b : candidate) : bool :=
(cd_room b <? cd_room a) || ((cd_room a =? cd_room b) && str_leb (cd_device a) (cd_device b)).

(** The greedy loop. *)
Fixpoint hand_out (remaining : Z) (cands : list candidate) (acc : list (pystr * Z)) : list (pystr * Z) :=
match cands with
| [] => acc
| c :: rest =>
    if remaining <=? 0 then acc else
    let n := Z.min (cd_layers c) remaining in
    if n <=? 0 then hand_out remaining rest acc
    else hand_out (remaining - n) rest (dset (cd_device c) n acc)
end.

Definition total (l : list (pystr * Z)) : Z := foldr (λ e n, e.2 + n) 0 l.

(** [plan_layer_split], of integers. *)
Definition plan_layer_split (nodes : list pydict) (total_layers bytes_per_layer local_min reserve cache slots : Z) :
  res split_plan :=
let all := Z.max 0 total_layers in
let per_layer := Z.max 1 bytes_per_layer in
let slots := Z.max 1 (if slots =? 0 then 1 else slots) in
let cache := Z.max 0 cache * slots in
let cost := per_layer + cache in
let keep_local := Z.max 0 (Z.min local_min all) in
let budget := Z.max 0 (all - keep_local) in
g ← consider_all reserve cost nodes ([], [], []);
let '(skipped, cands, room_of) := g in
let asg := hand_out budget (sort_by roomier cands) [] in
let remote := total asg in
Ok (SplitPlan asg remote (all - remote) skipped room_of cost cache slots).
End Plan.

(** ** What a node offers *)

Section Facts.
Context `{PyRepr}.

(** A node the plan may use, and the room it has. *)
Definition offers (reserve cost : Z) (node : pydict) (c : candidate) : Prop :=
cd_device c = device_of node ∧ cd_device c ≠ [] ∧
dict_get (u "paired") VNone node ≠ VBool false ∧
(∃ t, thermal_int (dict_get (u "thermal_status") VNone node) = Ok t ∧ too_hot t = None) ∧
usable_headroom (dict_get (u "mem_available_bytes") VNone node)
  (dict_get (u "advertised_bytes") VNone node) reserve = Ok (cd_room c) ∧
cd_layers c = cd_room c / cost ∧ 0 < cd_layers c.

(** What the loop makes of a node alone. *)
Definition offer_of (reserve cost : Z) (node : pydict) : res (list candidate) :=
g ← consider reserve cost node ([], [], []); Ok g.1.2.

Lemma consider_offer reserve cost node s cs r s' cs' r' :
consider reserve cost node (s, cs, r) = Ok (s', cs', r') →
∃ o, offer_of reserve cost node = Ok o ∧ cs' = cs ++ o ∧ ∀ c, c ∈ o → offers reserve cost node c.
Proof.
unfold offer_of, consider. case_bool_decide as Hd.
{ intros [=-> -> ->]. exists []. split_and!; [done|by rewrite app_nil_r|set_solver]. }
case_bool_decide as Hp.
{ intros E%(inj Ok). injection E as <- <- <-. exists []. split_and!; [done|by rewrite app_nil_r|set_solver]. }
destruct (thermal_int _) as [t|x] eqn:Et; cbn; [|done]. destruct (too_hot t) eqn:Eh.
{ intros E%(inj Ok). injection E as <- <- <-. exists []. split_and!; [done|by rewrite app_nil_r|set_solver]. }
destruct (usable_headroom _ _ _) as [room|x] eqn:Er; cbn; [|done]. destruct (room / cost <=? 0) eqn:El.
{ intros E%(inj Ok). injection E as <- <- <-. exists []. split_and!; [done|by rewrite app_nil_r|set_solver]. }
intros E%(inj Ok). injection E as <- <- <-. eexists. split; [done|]. split; [done|].
intros c ->%list_elem_of_singleton. unfold offers. cbn. split_and!; try done; [eauto|lia].
Qed.

Lemma consider_all_offers reserve cost nodes : ∀ s cs r g,
consider_all reserve cost nodes (s, cs, r) = Ok g →
∃ os, res_map (offer_of reserve cost) nodes = Ok os ∧ g.1.2 = cs ++ concat os
  ∧ ∀ c, c ∈ concat os → ∃ node, node ∈ nodes ∧ offers reserve cost node c.
Proof.
induction nodes as [|node nodes IH]; intros s cs r g; cbn [consider_all res_map].
{ intros <-%(inj Ok). exists []. split_and!; [done|by rewrite app_nil_r|set_solver]. }
intros ([[s1 cs1] r1] & (o & Ho & -> & Hof)%consider_offer & (os & Hos & E & Hin)%IH)%res_bind_Ok.
exists (o :: os). rewrite Ho. cbn. rewrite Hos. cbn. split_and!; [done|by rewrite E, <- app_assoc|].
intros c [Hc|Hc]%elem_of_app; [exists node; split; [left|auto]|].
destruct (Hin c Hc) as (nd & ? & ?). exists nd. split; [by right|done].
Qed.

(** The converse: the loop raises only where a node alone does. *)
Lemma consider_frame reserve cost node s cs r o :
offer_of reserve cost node = Ok o → ∃ s' r', consider reserve cost node (s, cs, r) = Ok (s', cs ++ o, r').
Proof.
unfold offer_of, consider. case_bool_decide; [intros <-%(inj Ok); rewrite app_nil_r; eauto|].
case_bool_decide; [cbn; intros <-%(inj Ok); rewrite app_nil_r; eauto|].
destruct (thermal_int _) as [t|x]; cbn; [|done].
destruct (too_hot t); cbn; [intros <-%(inj Ok); rewrite app_nil_r; eauto|].
destruct (usable_headroom _ _ _); cbn; [|done].
destruct (_ <=? 0); cbn; intros <-%(inj Ok); [rewrite app_nil_r|]; eauto.
Qed.

Lemma consider_all_total reserve cost nodes : ∀ s cs r os,
res_map (offer_of reserve cost) nodes = Ok os →
∃ g, consider_all reserve cost nodes (s, cs, r) = Ok g.
Proof.
induction nodes as [|node nodes IH]; intros s cs r os; cbn [consider_all res_map]; [eauto|].
intros (o & Ho & (os' & Hos & _)%res_bind_Ok)%res_bind_Ok.
destruct (consider_frame reserve cost node s cs r o Ho) as (s' & r' & ->). cbn. by eapply IH.
Qed.
End Facts.

(** ** The greedy loop *)

Definition devices (cs : list candidate) : list pystr := cd_device <$> cs.
Definition capacity (cs : list candidate) : Z := foldr (λ c n, cd_layers c + n) 0 cs.

(** The loop without the dictionary. *)
Fixpoint greedy (remaining : Z) (cs : list candidate) : list (pystr * Z) :=
  match cs with
  | [] => []
  | c :: rest =>
      if remaining <=? 0 then []
      else (cd_device c, Z.min (cd_layers c) remaining) :: greedy (remaining - Z.min (cd_layers c) remaining) rest
  end.

Definition all_positive (cs : list candidate) : Prop := Forall (λ c, 0 < cd_layers c) cs.

Lemma capacity_cons c cs : capacity (c :: cs) = cd_layers c + capacity cs.
Proof. done. Qed.
Lemma total_cons e l : total (e :: l) = e.2 + total l.
Proof. done. Qed.
Lemma capacity_nonneg cs : all_positive cs → 0 <= capacity cs.
Proof. induction 1; [done|]. rewrite capacity_cons. lia. Qed.

Lemma dset_new {V} k (v : V) (d : list (pystr * V)) : k ∉ d.*1 → dset k v d = d ++ [(k, v)].
Proof.
  induction d as [|[k' v'] d IH]; simpl; [done|]. intros Hk. rewrite decide_False by set_solver.
  rewrite IH by set_solver. done.
Qed.

Lemma hand_out_greedy cs : ∀ remaining acc,
  all_positive cs → NoDup (devices cs) → (∀ d, d ∈ devices cs → d ∉ acc.*1) →
  hand_out remaining cs acc = acc ++ greedy remaining cs.
Proof.
  induction cs as [|c cs IH]; intros remaining acc Hp Hn Hd; cbn [hand_out greedy]; [by rewrite app_nil_r|].
  apply Forall_cons in Hp as [Hc Hp]. apply NoDup_cons in Hn as [Hc' Hn].
  destruct (remaining <=? 0) eqn:E; [by rewrite app_nil_r|].
  replace (Z.min (cd_layers c) remaining <=? 0) with false by lia.
  rewrite dset_new by (apply Hd; left). rewrite IH; [by rewrite <- app_assoc|done|done|].
  intros d Hin. rewrite fmap_app, elem_of_app. intros [Ha|Ha%list_elem_of_singleton].
  - apply (Hd d); [by right|done].
  - by subst d.
Qed.

Lemma greedy_total cs : ∀ remaining, all_positive cs →
  total (greedy remaining cs) = Z.min (Z.max 0 remaining) (capacity cs).
Proof.
  induction cs as [|c cs IH]; intros remaining Hp; cbn [greedy]; [cbn; lia|].
  apply Forall_cons in Hp as [Hc Hp]. pose proof (capacity_nonneg cs Hp). rewrite capacity_cons.
  destruct (remaining <=? 0) eqn:E; [cbn; lia|]. rewrite total_cons, IH by done. cbn [snd]. lia.
Qed.

Lemma greedy_elem cs : ∀ remaining d n, all_positive cs → (d, n) ∈ greedy remaining cs →
  ∃ c, c ∈ cs ∧ cd_device c = d ∧ 0 < n <= cd_layers c.
Proof.
  induction cs as [|c cs IH]; intros remaining d n Hp; cbn [greedy]; [set_solver|].
  apply Forall_cons in Hp as [Hc Hp]. destruct (remaining <=? 0) eqn:E; [set_solver|].
  intros [[= -> ->]|Hin]%elem_of_cons; [exists c; split_and!; [left|done|lia|lia]|].
  destruct (IH _ _ _ Hp Hin) as (c' & ? & ? & ?). exists c'. split; [by right|done].
Qed.

Lemma capacity_app cs cs' : capacity (cs ++ cs') = capacity cs + capacity cs'.
Proof. induction cs as [|c cs IH]; [done|]. rewrite <- app_comm_cons, !capacity_cons. lia. Qed.
Lemma capacity_perm cs cs' : cs ≡ₚ cs' → capacity cs = capacity cs'.
Proof. induction 1; rewrite ?capacity_cons; lia. Qed.

(** Stopping: one device fewer would not have been enough. *)
Lemma greedy_short cs : ∀ remaining, all_positive cs →
  (0 < length (greedy remaining cs))%nat →
  capacity (take (length (greedy remaining cs) - 1) cs) < total (greedy remaining cs).
Proof.
  induction cs as [|c cs IH]; intros remaining Hp; cbn [greedy]; [cbn; lia|].
  apply Forall_cons in Hp as [Hc Hp]. destruct (remaining <=? 0) eqn:E; [cbn; lia|]. intros _.
  cbn [length Nat.sub]. rewrite Nat.sub_0_r, total_cons. cbn [snd].
  set (r := remaining - _). destruct (decide (0 < length (greedy r cs))%nat) as [Hl|Hl].
  - specialize (IH r Hp Hl). destruct (length (greedy r cs)) as [|k] eqn:Ek; [lia|].
    cbn [take]. rewrite capacity_cons. replace (S k - 1)%nat with k in IH by lia.
    assert (0 < r) by (destruct cs; cbn [greedy] in Ek; [done|]; destruct (r <=? 0) eqn:?; [done|lia]).
    subst r. lia.
  - replace (length (greedy r cs)) with 0%nat by lia. cbn [take].
    assert (total (greedy r cs) = 0) as -> by (by destruct (greedy r cs); [|cbn in Hl; lia]). cbn. lia.
Qed.

(** The roomiest devices hold the most. *)
Lemma top_capacity l : ∀ t,
  StronglySorted (λ a b, cd_layers b <= cd_layers a) l → all_positive l → t ⊆+ l →
  capacity t <= capacity (take (length t) l).
Proof.
  induction l as [|x l IH]; intros t Hs Hp Ht.
  { apply submseteq_nil_r in Ht as ->. done. }
  apply StronglySorted_inv in Hs as [Hs Hx]. apply Forall_cons in Hp as [Hpx Hp].
  apply submseteq_cons_r in Ht as [Ht|(t' & Et & Ht)].
  - specialize (IH t Hs Hp Ht). destruct (length t) as [|m] eqn:Em.
    { apply nil_length_inv in Em as ->. cbn. lia. }
    cbn [take]. rewrite capacity_cons.
    enough (capacity (take (S m) l) <= cd_layers x + capacity (take m l)) by lia.
    destruct (l !! m) as [y|] eqn:Ey.
    + rewrite (take_S_r _ _ y) by done. rewrite capacity_app. cbn.
      rewrite Forall_forall in Hx. specialize (Hx y (list_elem_of_lookup_2 _ _ _ Ey)). lia.
    + apply lookup_ge_None in Ey. rewrite !take_ge by lia. lia.
  - rewrite (capacity_perm _ _ Et), (Permutation_length Et). cbn [length take].
    rewrite !capacity_cons. specialize (IH t' Hs Hp Ht). lia.
Qed.

(** With devices listed twice the dictionary keeps the last: never more than
    was handed out. *)
Lemma dset_total k n (acc : list (pystr * Z)) :
  Forall (λ e, 0 < e.2) acc → 0 < n →
  total (dset k n acc) <= total acc + n ∧ Forall (λ e, 0 < e.2) (dset k n acc).
Proof.
  intros Ha Hn. induction Ha as [|[k' v] acc Hv Ha [IH1 IH2]]; cbn [dset]; [cbn; split; [lia|by repeat constructor]|].
  cbn in Hv. case_decide; rewrite !total_cons; cbn [snd]; (split; [lia|constructor; [done|done]]).
Qed.

Lemma hand_out_bounds cs : ∀ remaining acc, Forall (λ e, 0 < e.2) acc →
  let asg := hand_out remaining cs acc in
  total asg <= total acc + Z.max 0 remaining ∧ Forall (λ e, 0 < e.2) asg ∧
  ∀ d n, (d, n) ∈ asg → (d, n) ∈ acc ∨ ∃ c, c ∈ cs ∧ cd_device c = d ∧ 0 < n <= cd_layers c.
Proof.
  induction cs as [|c cs IH]; intros remaining acc Ha; cbn [hand_out]; [split_and!; [lia|done|auto]|].
  destruct (remaining <=? 0) eqn:E; [split_and!; [lia|done|auto]|].
  destruct (Z.min _ _ <=? 0) eqn:En.
  - destruct (IH remaining acc Ha) as (H1 & H2 & H3). split_and!; [done..|].
    intros d n [?|(c' & ? & ?)]%H3; [by left|right; exists c'; split; [by right|done]].
  - destruct (dset_total (cd_device c) (Z.min (cd_layers c) remaining) acc Ha) as [Ht Ha']; [lia|].
    destruct (IH (remaining - Z.min (cd_layers c) remaining) _ Ha') as (H1 & H2 & H3).
    split_and!; [lia|done|]. intros d n [[[= -> ->]|?]%dset_elem|(c' & ? & ?)]%H3.
    + right. exists c. split_and!; [left|done|lia|lia].
    + by left.
    + right. exists c'. split; [by right|done].
Qed.

Lemma concat_perm {A} (l l' : list (list A)) : l ≡ₚ l' → concat l ≡ₚ concat l'.
Proof.
  induction 1 as [|x l l' _ IH|x y l|l1 l2 l3 _ IH1 _ IH2]; cbn; [done| |by rewrite !app_assoc, (Permutation_app_comm x y)|by etrans].
  by rewrite IH.
Qed.

Section Theorems.
Context `{PyRepr}.

Lemma plan_cases nodes tl bpl lm reserve cache slots p :
plan_layer_split nodes tl bpl lm reserve cache slots = Ok p →
let cost := cost_per_layer_bytes p in
0 < cost ∧
∃ os, res_map (offer_of reserve cost) nodes = Ok os ∧
  assignments p = hand_out (Z.max 0 tl - Z.max 0 (Z.min lm (Z.max 0 tl))) (sort_by roomier (concat os)) [] ∧
  remote_layers p = total (assignments p) ∧ remote_layers p + local_layers p = Z.max 0 tl ∧
  ∀ c, c ∈ concat os → ∃ node, node ∈ nodes ∧ offers reserve cost node c.
Proof.
unfold plan_layer_split. intros ([[s cs] r] & Hg & <-%(inj Ok))%res_bind_Ok. cbn.
split; [nia|]. apply consider_all_offers in Hg as (os & Hos & E & Hin). cbn in E. subst cs.
exists os. split_and!; try done; [|lia]. do 2 f_equal. lia.
Qed.

Lemma offers_positive os reserve cost (nodes : list pydict) :
(∀ c, c ∈ concat os → ∃ node, node ∈ nodes ∧ offers reserve cost node c) →
all_positive (sort_by roomier (concat os)).
Proof.
intros Hin. unfold all_positive. apply Forall_forall. intros c Hc%elem_sort_by.
destruct (Hin c Hc) as (nd & _ & Ho). by destruct Ho as (_ & _ & _ & _ & _ & _ & ?).
Qed.

(** C16. A plan keeps its books and its promises: what is remote and what is
    local add up to the model, at least the required layers stay local, and a
    device is given layers only if it is named, not unpaired, not too hot, and
    weights and cache of the layers it is given fit the headroom measured for
    it. *)
Theorem plan_within_headroom nodes tl bpl lm reserve cache slots p :
plan_layer_split nodes tl bpl lm reserve cache slots = Ok p →
remote_layers p = total (assignments p) ∧ remote_layers p + local_layers p = Z.max 0 tl ∧
0 <= remote_layers p ∧ Z.min lm (Z.max 0 tl) <= local_layers p ∧
∀ d n, (d, n) ∈ assignments p → 0 < n ∧
  ∃ node c, node ∈ nodes ∧ cd_device c = d ∧ offers reserve (cost_per_layer_bytes p) node c ∧
    n * cost_per_layer_bytes p <= cd_room c.
Proof.
intros (Hcost & os & _ & Ea & Er & Es & Hin)%plan_cases.
destruct (hand_out_bounds (sort_by roomier (concat os))
  (Z.max 0 tl - Z.max 0 (Z.min lm (Z.max 0 tl))) [] (Forall_nil_2 _)) as (H1 & H2 & H3).
rewrite <- Ea in *. rewrite Er in *. cbn in H1.
assert (0 <= total (assignments p)).
{ clear -H2. induction H2; [done|]. rewrite total_cons. lia. }
split_and!; [done|lia|lia|lia|]. intros d n Hd. destruct (H3 d n Hd) as [?|(c & Hc%elem_sort_by & <- & Hn)]; [set_solver|].
split; [lia|]. destruct (Hin c Hc) as (node & Hnode & Ho). exists node, c. split_and!; [done..|].
destruct Ho as (_ & _ & _ & _ & _ & El & _). rewrite El in Hn.
pose proof (Z.mul_div_le (cd_room c) (cost_per_layer_bytes p) Hcost). nia.
Qed.

Lemma offer_devices reserve cost nodes os :
res_map (offer_of reserve cost) nodes = Ok os → NoDup (device_of <$> nodes) → NoDup (devices (concat os)).
Proof.
intros E Hn. refine (sublist_NoDup _ _ Hn _). clear Hn. revert os E. induction nodes as [|node nodes IH]; intros os; cbn [res_map].
{ intros <-%(inj Ok). constructor. }
intros (o & Ho & (os' & Hos & <-%(inj Ok))%res_bind_Ok)%res_bind_Ok.
specialize (IH os' Hos). cbn [concat]. unfold devices in *. rewrite fmap_app, fmap_cons.
assert (o = [] ∨ ∃ c, o = [c] ∧ cd_device c = device_of node) as [->|(c & -> & Ec)].
{ revert Ho. unfold offer_of, consider. case_bool_decide; [intros <-%(inj Ok); by left|].
  case_bool_decide; [cbn; intros <-%(inj Ok); by left|].
  destruct (thermal_int _); cbn; [|done]. destruct (too_hot _); cbn; [intros <-%(inj Ok); by left|].
  destruct (usable_headroom _ _ _); cbn; [|done].
  destruct (_ <=? 0); cbn; intros <-%(inj Ok); [by left|right; by eexists]. }
- cbn. by apply sublist_cons.
- cbn. rewrite Ec. by apply sublist_skip.
Qed.

Lemma roomier_total a b : roomier a b = true ∨ roomier b a = true.
Proof. unfold roomier. destruct (str_leb_total (cd_device a) (cd_device b)) as [E|E]; rewrite E; lia. Qed.
Lemma roomier_trans a b c : roomier a b = true → roomier b c = true → roomier a c = true.
Proof.
unfold roomier. pose proof (str_leb_trans (cd_device a) (cd_device b) (cd_device c)).
destruct (str_leb (cd_device a) (cd_device b)), (str_leb (cd_device b) (cd_device c)),
  (str_leb (cd_device a) (cd_device c)); lia.
Qed.

Lemma offers_complete reserve cost node c : offers reserve cost node c → offer_of reserve cost node = Ok [c].
Proof.
destruct c as [d l r]. unfold offers. cbn. intros (Hd & Hne & Hp & (t & Ht & Hh) & Hu & Hl & Hpos).
unfold offer_of, consider. rewrite <- Hd, !bool_decide_false by done. rewrite Ht. cbn. rewrite Hh, Hu. cbn.
rewrite <- Hl. by replace (l <=? 0) with false by lia.
Qed.

Lemma capacity_take_mono cs m m' : all_positive cs → (m ≤ m')%nat → capacity (take m cs) <= capacity (take m' cs).
Proof.
intros Hp Hm. replace (take m' cs) with (take m cs ++ take (m' - m) (drop m cs)).
- rewrite capacity_app. enough (0 <= capacity (take (m' - m) (drop m cs))) by lia.
  by apply capacity_nonneg, Forall_take, Forall_drop.
- rewrite take_take_drop. f_equal. lia.
Qed.

(** The candidates behind another way of placing layers. *)
Lemma alternative_candidates cost cs (alt : list (pystr * Z)) : 0 < cost →
NoDup alt.*1 →
(∀ d n, (d, n) ∈ alt → ∃ c, c ∈ cs ∧ cd_device c = d ∧ cd_layers c = cd_room c / cost ∧ n * cost <= cd_room c) →
∃ t, t ⊆+ cs ∧ length t = length alt ∧ total alt <= capacity t.
Proof.
intros Hcost Hn Hin.
enough (∃ t, devices t = alt.*1 ∧ (∀ c, c ∈ t → c ∈ cs) ∧ total alt <= capacity t) as (t & Hd & Ht & Hc).
{ exists t. split_and!; [|by rewrite <- (length_fmap fst alt), <- Hd; unfold devices; rewrite length_fmap|done].
  apply NoDup_submseteq; [|done]. rewrite <- Hd in Hn. by apply NoDup_fmap_1 in Hn. }
clear Hn. induction alt as [|[d n] alt IH]; [by exists []; split_and!; [|set_solver|]|].
destruct IH as (t & Hd & Ht & Hc); [intros d' n' ?; apply Hin; by right|].
destruct (Hin d n) as (c & Hcs & <- & Hl & Hle); [left|]. exists (c :: t). split_and!.
- unfold devices in *. by rewrite fmap_cons, Hd.
- intros c' [->|?]%elem_of_cons; auto.
- rewrite total_cons, capacity_cons. cbn [snd]. enough (n <= cd_layers c) by lia.
  rewrite Hl. apply Z.div_le_lower_bound; lia.
Qed.

(** C15. The split is the best there is: with every device listed once, as many
    layers are remote as the budget and the devices' rooms allow, and no other
    way of placing that many within the same rooms uses fewer devices. *)
Theorem plan_is_best nodes tl bpl lm reserve cache slots p alt :
plan_layer_split nodes tl bpl lm reserve cache slots = Ok p → NoDup (device_of <$> nodes) →
NoDup alt.*1 →
(∀ d n, (d, n) ∈ alt → 0 < n ∧ ∃ node c, node ∈ nodes ∧ cd_device c = d ∧
   offers reserve (cost_per_layer_bytes p) node c ∧ n * cost_per_layer_bytes p <= cd_room c) →
total alt <= Z.max 0 tl - Z.max 0 (Z.min lm (Z.max 0 tl)) →
total alt <= remote_layers p ∧
(total alt = remote_layers p → (length (assignments p) ≤ length alt)%nat).
Proof.
intros (Hcost & os & Hos & Ea & Er & _ & Hin)%plan_cases Hn Halt Hfit Hbud.
set (cost := cost_per_layer_bytes p) in *. set (cs := sort_by roomier (concat os)) in *.
assert (∀ c, c ∈ cs → ∃ node, node ∈ nodes ∧ offers reserve cost node c) as Hin' by (intros c Hc%elem_sort_by; auto).
assert (all_positive cs) as Hp by (by eapply offers_positive).
assert (NoDup (devices cs)) as Hnd.
{ unfold devices, cs. rewrite sort_by_perm. by eapply offer_devices. }
assert (StronglySorted (λ a b, cd_layers b <= cd_layers a) cs) as Hs.
{ assert (StronglySorted (λ a b, roomier a b = true) cs) as Hs.
  { apply (sort_by_ordered_on roomier (λ _, True)); [intros; apply roomier_total|apply roomier_trans|by apply Forall_true]. }
  assert (Forall (λ c, cd_layers c = cd_room c / cost) cs) as Hl.
  { apply Forall_forall. intros c Hc. destruct (Hin' c Hc) as (? & _ & ?&?&?&?&?&?&?). done. }
  clear -Hs Hl Hcost. induction Hs as [|a l Hs IH Ha]; [constructor|]. apply Forall_cons in Hl as [Hla Hl].
  constructor; [by apply IH|]. apply Forall_forall. intros b Hb.
  rewrite Forall_forall in Ha. specialize (Ha b Hb). rewrite Forall_forall in Hl. rewrite Hla, (Hl b Hb).
  apply Z.div_le_mono; [done|]. unfold roomier in Ha. lia. }
rewrite hand_out_greedy in Ea; [|done|done|set_solver]. cbn [app] in Ea.
rewrite Er, Ea, greedy_total by done.
destruct (alternative_candidates cost cs alt Hcost Halt) as (t & Ht & Hlen & Hcap).
{ intros d n Hd. destruct (Hfit d n Hd) as (_ & node & c & Hnode & <- & Ho & Hle). exists c. split_and!; [|done| |done].
  - apply elem_sort_by. apply list_elem_of_In, in_concat. exists [c]. split; [|by left].
    apply list_elem_of_In. apply (res_map_elem _ _ _ _ Hos). exists node. split; [done|]. by apply offers_complete.
  - by destruct Ho as (?&?&?&?&?&?&?). }
pose proof (top_capacity cs t Hs Hp Ht) as Htop. rewrite Hlen in Htop.
assert (capacity (take (length alt) cs) <= capacity cs) as Hall.
{ rewrite <- (take_drop (length alt) cs) at 2. rewrite capacity_app.
  enough (0 <= capacity (drop (length alt) cs)) by lia. by apply capacity_nonneg, Forall_drop. }
split; [lia|]. intros Heq.
destruct (decide (length (greedy (Z.max 0 tl - Z.max 0 (Z.min lm (Z.max 0 tl))) cs) ≤ length alt)%nat) as [|Hlt]; [done|].
exfalso. pose proof (greedy_short cs (Z.max 0 tl - Z.max 0 (Z.min lm (Z.max 0 tl))) Hp ltac:(lia)) as Hshort.
rewrite greedy_total in Hshort by done.
pose proof (capacity_take_mono cs (length alt)
  (length (greedy (Z.max 0 tl - Z.max 0 (Z.min lm (Z.max 0 tl))) cs) - 1) Hp ltac:(lia)). lia.
Qed.

(** The split does not depend on the order in which the devices are
    listed, when each is listed once. *)
Theorem plan_order_independent nodes nodes' tl bpl lm reserve cache slots p :
plan_layer_split nodes tl bpl lm reserve cache slots = Ok p →
nodes ≡ₚ nodes' → NoDup (device_of <$> nodes) →
∃ p', plan_layer_split nodes' tl bpl lm reserve cache slots = Ok p' ∧
  assignments p' = assignments p ∧ remote_layers p' = remote_layers p ∧ local_layers p' = local_layers p.
Proof.
intros Hplan Hperm Hn. pose proof Hplan as (Hcost & os & Hos & Ea & Er & El & Hin)%plan_cases.
destruct (res_map_perm _ _ _ _ Hperm Hos) as (os' & Hos' & Hpo).
assert (cost_per_layer_bytes p = Z.max 1 bpl + Z.max 0 cache * Z.max 1 (if slots =? 0 then 1 else slots)) as Ec.
{ revert Hplan. unfold plan_layer_split. by intros ([[s cs] r] & _ & <-%(inj Ok))%res_bind_Ok. }
destruct (consider_all_total reserve (cost_per_layer_bytes p) nodes' [] [] [] os' Hos') as ([[s cs] r] & Hg).
assert (∃ p', plan_layer_split nodes' tl bpl lm reserve cache slots = Ok p' ∧
  cost_per_layer_bytes p' = cost_per_layer_bytes p) as (p' & Hplan' & Ec').
{ unfold plan_layer_split. rewrite <- Ec, Hg. cbn. by eexists. }
exists p'. split; [done|]. apply plan_cases in Hplan' as (_ & os2 & Hos2 & Ea2 & Er2 & El2 & _).
rewrite Ec' in Hos2. rewrite Hos' in Hos2. apply (inj Ok) in Hos2 as <-.
enough (assignments p' = assignments p) as E by (split; [done|]; rewrite E in Er2; lia).
rewrite Ea, Ea2. f_equal. apply (ordered_unique (λ a b, roomier a b = true)).
- apply (sort_by_ordered_on roomier (λ _, True)); [intros; apply roomier_total|apply roomier_trans|by apply Forall_true].
- apply (sort_by_ordered_on roomier (λ _, True)); [intros; apply roomier_total|apply roomier_trans|by apply Forall_true].
- rewrite !sort_by_perm. apply concat_perm. by symmetry.
- intros x y Hx%elem_sort_by Hy%elem_sort_by Hxy Hyx.
  assert (∀ z, z ∈ concat os' → cd_layers z = cd_room z / cost_per_layer_bytes p) as Hl.
  { intros z Hz. destruct (Hin z) as (? & _ & ?&?&?&?&?&?&?); [|done]. by rewrite (concat_perm _ _ Hpo). }
  pose proof (Hl x Hx) as Ex. pose proof (Hl y Hy) as Ey.
  destruct x as [dx lx rx], y as [dy ly ry]. unfold roomier in *. cbn in *.
  assert (rx = ry) as -> by lia. assert (str_leb dx dy = true ∧ str_leb dy dx = true) as [Ha Hb] by lia.
  rewrite (str_leb_antisym dx dy) by done. congruence.
Qed.
End Theorems.

Definition demo_nodes : list pydict :=
  [[(u "device_id", VStr (u "a16")); (u "mem_available_bytes", VInt 900); (u "thermal_status", VInt 0)];
   [(u "device_id", VStr (u "tab")); (u "mem_available_bytes", VInt 1500)];
   [(u "device_id", VStr (u "hot")); (u "mem_available_bytes", VInt 9000); (u "thermal_status", VInt 3)]].
#[local] Instance split_repr : PyRepr := λ _, [].

Definition demo_plan : split_plan :=
  SplitPlan [(u "tab", 9); (u "a16", 3)] 12 4 [(u "hot", u "thermal_status=3")]
    [(u "a16", 400); (u "tab", 1000)] 110 10 1.
Lemma demo_plan_is : plan_layer_split demo_nodes 16 100 1 500 10 1 = Ok demo_plan.
Proof. by vm_compute. Qed.

Lemma plan_within_headroom_witness :
  remote_layers demo_plan = total (assignments demo_plan) ∧ remote_layers demo_plan + local_layers demo_plan = 16.
Proof.
  destruct (plan_within_headroom demo_nodes 16 100 1 500 10 1 demo_plan demo_plan_is) as (H1 & H2 & _).
  split; [exact H1|exact H2].
Defined.

Lemma demo_names : NoDup (device_of <$> demo_nodes).
Proof. apply (bool_decide_unpack _). by vm_compute. Qed.

Lemma plan_is_best_witness :
  total [(u "tab", 9)] <= remote_layers demo_plan ∧
  (total [(u "tab", 9)] = remote_layers demo_plan → (length (assignments demo_plan) ≤ 1)%nat).
Proof.
  apply (plan_is_best demo_nodes 16 100 1 500 10 1 demo_plan [(u "tab", 9)] demo_plan_is demo_names).
  - apply (bool_decide_unpack _). by vm_compute.
  - intros d n Hd%list_elem_of_singleton. injection Hd as -> ->. split; [lia|].
    exists [(u "device_id", VStr (u "tab")); (u "mem_available_bytes", VInt 1500)], (Candidate (u "tab") 9 1000).
    split_and!; [right; left|done| |done].
    unfold offers. split_and!; [by vm_compute|done|done| |by vm_compute|by vm_compute|done].
    exists None. by vm_compute.
  - by vm_compute.
Defined.

Lemma plan_order_independent_witness :
  ∃ p', plan_layer_split (rev demo_nodes) 16 100 1 500 10 1 = Ok p' ∧ assignments p' = assignments demo_plan
    ∧ remote_layers p' = remote_layers demo_plan ∧ local_layers p' = local_layers demo_plan.
Proof.
  apply (plan_order_independent demo_nodes (rev demo_nodes) 16 100 1 500 10 1 demo_plan demo_plan_is); [|exact demo_names].
  apply Permutation_rev.
Defined.
