(* ===== verification/ModelHost.v ===== *)
(** * The mesh model host ([src/mesh_model_host.py])

    The node that runs the model with layers spread over the fleet: what it
    reads from the operator's arguments, its plan, the start sequence, the
    reconciliation with the live fleet and the watchdog that gives layers back.
    Everything outside the node (clock, peers, sockets, processes) is one
    reading per call, [world]; what it asks of the peripherals is a trace. *)

From Stdlib Require Import ZArith NArith Lia.
From S2P Require Import Prelude PyFloat PyStr PyVal Gguf LayerSplit.

Local Open Scope Z_scope.

(** ** The operator's arguments *)

(** The code points with [str.isdigit] that are no decimal digits. *)
Definition superscript_digits : list (N * N) :=
  [(0xB2, 0xB3); (0xB9, 0xB9); (0x1369, 0x1371); (0x19DA, 0x19DA); (0x2070, 0x2070); (0x2074, 0x2079);
   (0x2080, 0x2089); (0x2460, 0x2468); (0x2474, 0x247C); (0x2488, 0x2490); (0x24EA, 0x24EA);
   (0x24F5, 0x24FD); (0x24FF, 0x24FF); (0x2776, 0x277E); (0x2780, 0x2788); (0x278A, 0x2792);
   (0x10A40, 0x10A43); (0x10E60, 0x10E68); (0x11052, 0x1105A); (0x1F100, 0x1F10A)]%N.
Definition is_digit_cp (c : N) : bool :=
  match digit_value c with
  | Some _ => true
  | None => existsb (λ r : N * N, (r.1 <=? c)%N && (c <=? r.2)%N) superscript_digits
  end.
Definition isdigit (s : pystr) : bool := negb (bool_decide (s = [])) && forallb is_digit_cp s.

Definition CACHE_DTYPE_BYTES : list (pystr * Z) :=
  [(u "f16", 2); (u "fp16", 2); (u "bf16", 2); (u "f32", 4); (u "fp32", 4);
   (u "q8_0", 1); (u "q5_0", 1); (u "q5_1", 1); (u "q4_0", 1); (u "q4_1", 1)].

Record llama_args := Llama {
  la_slots : Z;
  la_no_kv_offload : bool;
  la_context : Z;
  la_widths : list Z;
  la_read : list pystr
}.

(** [value.isdigit() and int(value) > 0]: a digit that is not a decimal one
    makes [int] raise. *)
Definition positive_number (value : pystr) : res (option Z) :=
  if isdigit value then n ← py_int_of_str value; Ok (if 0 <? n then Some n else None) else Ok None.

(** [items[index].partition("=")]: the name and what is inline. *)
Definition split_flag (item : pystr) : pystr * pystr :=
  let '(name, rest) := span (λ c, negb (c =? 61)%N) item in (name, tail rest).

(** What a flag's value does. *)
Definition apply_flag (name value : pystr) (a : llama_args) : res llama_args :=
  if bool_decide (name ∈ [u "--parallel"; u "-np"]) then
    n ← positive_number value;
    Ok (match n with
        | Some n => Llama n (la_no_kv_offload a) (la_context a) (la_widths a) (la_read a ++ [name])
        | None => a end)
  else if bool_decide (name ∈ [u "-c"; u "--ctx-size"]) then
    n ← positive_number value;
    Ok (match n with
        | Some n => Llama (la_slots a) (la_no_kv_offload a) n (la_widths a) (la_read a ++ [name])
        | None => a end)
  else
    Ok (match dget (lower (strip value)) CACHE_DTYPE_BYTES with
        | Some w => Llama (la_slots a) (la_no_kv_offload a) (la_context a) (la_widths a ++ [w]) (la_read a ++ [name])
        | None => a end).
Definition value_flags : list pystr :=
  [u "--parallel"; u "-np"; u "-c"; u "--ctx-size"; u "-ctk"; u "-ctv"; u "--cache-type-k"; u "--cache-type-v"].

(** The loop of [parse_llama_args]; a flag without an inline value takes the
    next token. *)
Fixpoint read_flags (items : list pystr) (a : llama_args) : res llama_args :=
  match items with
  | [] => Ok a
  | item :: rest =>
      let '(name, inline) := split_flag item in
      if bool_decide (name ∈ [u "-nkvo"; u "--no-kv-offload"]) then
        read_flags rest (Llama (la_slots a) true (la_context a) (la_widths a) (la_read a))
      else if bool_decide (name ∈ value_flags) then
        match inline, rest with
        | _ :: _, _ => a ← apply_flag name inline a; read_flags rest a
        | [], value :: rest => a ← apply_flag name value a; read_flags rest a
        | [], [] => apply_flag name [] a
        end
      else read_flags rest a
  end.
Definition parse_llama_args (items : list pystr) : res llama_args :=
  read_flags items (Llama 1 false 0 [] []).
Definition cache_dtype_bytes (a : llama_args) : Z :=
  match la_widths a with [] => 2 | w :: ws => foldl Z.max w ws end.

(** ** Plans over the fleet *)

(** [sorted] of strings. *)
Definition sorted_names (l : list pystr) : list pystr := sort_by str_leb l.

(** What [_apply_pins] and the callers use of a plan. *)
Record fleet_plan := FleetPlan {
  fp_assignments : list (pystr * Z);
  fp_skipped : list (pystr * pystr);
  fp_headroom : list (pystr * Z);
  fp_cost : Z;
  fp_cache : Z
}.

Section Fleet.
Context `{PyRepr}.

(** The entry made of a live peer, and its name. *)
Definition peer_name (peer : pydict) : pystr :=
strip (py_str (py_or (py_or (dict_get (u "node_id") VNone peer) (dict_get (u "device_id") VNone peer)) (VStr []))).
Definition fleet_node (peer : pydict) : pydict :=
[(u "device_id", VStr (peer_name peer));
 (u "mem_available_bytes", dict_get (u "mem_available_bytes") VNone peer);
 (u "thermal_status", dict_get (u "thermal_status") VNone peer)]
++ match dict_get (u "paired") VNone peer with VNone => [] | v => [(u "paired", v)] end.

(** The loop of [plan_for_fleet]: the nodes for the planner and the excluded. *)
Fixpoint sift_peers (skip : list (pystr * pystr)) (peers : list pyval) : list pydict * list (pystr * pystr) :=
match peers with
| [] => ([], [])
| VDict peer :: rest =>
    let '(nodes, out) := sift_peers skip rest in
    let d := peer_name peer in
    if bool_decide (d = []) then (nodes, out)
    else match dget d skip with
         | Some why => (nodes, (d, why) :: out)
         | None => (fleet_node peer :: nodes, out)
         end
| _ :: rest => sift_peers skip rest
end.

(** [plan_for_fleet]. *)
Definition plan_for_fleet (peers : list pyval) (total_layers bytes_per_layer local_min reserve cache slots : Z)
  (skip : list (pystr * pystr)) : res fleet_plan :=
let '(nodes, excluded) := sift_peers skip peers in
p ← plan_layer_split nodes total_layers bytes_per_layer local_min reserve cache slots;
Ok (FleetPlan (assignments p) (skipped p ++ excluded) (headroom p) (cost_per_layer_bytes p) (plan_cache_bytes p)).
End Fleet.

(** [split_difference]. *)
Record difference := Difference {
  df_detach : list pystr;
  df_attach : list pystr;
  df_resize : list pystr;
  df_delta : Z
}.
Definition split_difference (current desired : list (pystr * Z)) : difference :=
  Difference
    (sorted_names (List.filter (λ d, negb (dhas d desired)) current.*1))
    (sorted_names (List.filter (λ d, negb (dhas d current)) desired.*1))
    (sorted_names (List.filter (λ d, dhas d desired && negb (bool_decide (dget d current = dget d desired))) current.*1))
    (total desired - total current).
Definition changed (df : difference) : bool :=
  match df_detach df, df_attach df, df_resize df with [], [], [] => false | _, _, _ => true end.

(** [degrade_split]: the device with the least headroom, then the first name. *)
Definition weaker (room : list (pystr * Z)) (a b : pystr) : bool :=
  let ra := default 0 (dget a room) in let rb := default 0 (dget b room) in
  (ra <? rb) || ((ra =? rb) && str_leb a b && negb (bool_decide (a = b))).
Definition weakest (room : list (pystr * Z)) (d : pystr) (ds : list pystr) : pystr :=
  foldl (λ best x, if weaker room x best then x else best) d ds.
Definition degrade_split (current room : list (pystr * Z)) : list (pystr * Z) * option pystr :=
  match current.*1 with
  | [] => ([], None)
  | d :: ds => let chosen := weakest room d ds in (ddel chosen current, Some chosen)
  end.

(** [host_extra_args]. *)
Definition host_extra_args (asg : list (pystr * Z)) (endpoints : list (pystr * pystr))
  (context threads : Z) (mmap : bool) : list pystr :=
  let order := List.filter (λ d, negb (bool_decide (default [] (dget d endpoints) = []))) (sorted_names asg.*1) in
  let servers := (λ d, default [] (dget d endpoints)) <$> order in
  let layers := (λ d, default 0 (dget d asg)) <$> order in
  (match order with
   | [] => []
   | _ =>
       [u "--rpc"; join (u ",") servers; u "-dev";
        join (u ",") (imap (λ i _, u "RPC" ++ str_of_Z (Z.of_nat i)) servers);
        u "-ngl"; str_of_Z (Z.max 1 (foldr Z.add 0 layers))]
       ++ (if (1 <? length servers)%nat then [u "-ts"; join (u ",") (str_of_Z <$> layers)] else [])
   end)
  ++ (if context =? 0 then [] else [u "-c"; str_of_Z context])
  ++ (if threads =? 0 then [] else [u "-t"; str_of_Z threads])
  ++ (if mmap then [] else [u "--no-mmap"]).

(** ** The host *)

Inductive host_mode := M_off | M_local | M_split | M_unhealthy | M_failed.
#[export] Instance host_mode_eq_dec : EqDecision host_mode.
Proof. solve_decision. Defined.

(** The configuration after [__init__]: [meta] is the geometry of the model,
    [file_size] what the file system says ([None] when it cannot). *)
Record config := Config {
  model_path : pystr;
  extra_args : list pystr;
  port : Z;
  meta : pydict;
  file_size : option Z;
  given_layers : Z;
  given_context : Z;
  threads : Z;
  reserve_bytes : Z;
  local_layers_min : Z;
  exclude : list pystr;
  mmap : option bool;
  settle_timeout : f64;
  live_is_explicit : bool;
  thermal_pin_s : f64;
  unreachable_pin_s : f64;
  cooldown_s : f64;
  given_stable_runs : Z;
  given_max_restarts : Z
}.

(** What a call finds outside: [answers d] is [None] when the device's socket
    accepts within the budget, and else why it did not. *)
Inductive launch := No_launcher | Not_started | Started.
Record world := World {
  w_now : f64;
  w_live : list pyval;
  w_live_later : list pyval;
  w_knows_peers : bool;
  w_endpoints : list (pystr * pystr);
  w_answers : pystr → option pystr;
  w_port_busy : bool;
  w_launch : launch;
  w_health : bool;
  w_probe : bool;
  w_alive : bool;
  w_serving : bool;
  w_probe_again : bool
}.

(** The reported state, and the host around it.  [asked] is the trace of what
    the peripherals were told, [launches] counts the processes started. *)
Record report := Report {
  rp_mode : host_mode;
  rp_assignments : list (pystr * Z);
  rp_remote : Z;
  rp_local : Z;
  rp_started : list pystr;
  rp_skipped : list (pystr * pystr);
  rp_unreachable : list (pystr * pystr);
  rp_headroom : list (pystr * Z);
  rp_args : list pystr;
  rp_reason : pystr;
  rp_kv_on_host : bool;
  rp_launched : bool;
  rp_health : bool;
  rp_probe : bool
}.
Definition off_report (why : pystr) : report :=
  Report M_off [] 0 0 [] [] [] [] [] why false false false false.

Record host := Host {
  hs_report : report;
  hs_launcher : bool;
  hs_refused : list (pystr * (pystr * f64));
  hs_pending : option (list (pystr * Z));
  hs_pending_runs : Z;
  hs_last_restart : f64;
  hs_relaunches : Z;
  hs_failures : Z;
  hs_asked : list (pystr * pystr);
  hs_launches : Z
}.
Definition new_host : host := Host (off_report (u "not started")) false [] None 0 f0 0 0 [] 0.

Definition with_report (r : report) (h : host) : host :=
  Host r (hs_launcher h) (hs_refused h) (hs_pending h) (hs_pending_runs h) (hs_last_restart h)
    (hs_relaunches h) (hs_failures h) (hs_asked h) (hs_launches h).
Definition with_launcher (b : bool) (n : Z) (h : host) : host :=
  Host (hs_report h) b (hs_refused h) (hs_pending h) (hs_pending_runs h) (hs_last_restart h)
    (hs_relaunches h) (hs_failures h) (hs_asked h) n.
Definition with_refused (l : list (pystr * (pystr * f64))) (h : host) : host :=
  Host (hs_report h) (hs_launcher h) l (hs_pending h) (hs_pending_runs h) (hs_last_restart h)
    (hs_relaunches h) (hs_failures h) (hs_asked h) (hs_launches h).
Definition with_pending (s : option (list (pystr * Z))) (n : Z) (h : host) : host :=
  Host (hs_report h) (hs_launcher h) (hs_refused h) s n (hs_last_restart h)
    (hs_relaunches h) (hs_failures h) (hs_asked h) (hs_launches h).
Definition with_failures (n : Z) (h : host) : host :=
  Host (hs_report h) (hs_launcher h) (hs_refused h) (hs_pending h) (hs_pending_runs h) (hs_last_restart h)
    (hs_relaunches h) n (hs_asked h) (hs_launches h).
Definition with_restart (now : f64) (h : host) : host :=
  Host (hs_report h) (hs_launcher h) (hs_refused h) (hs_pending h) (hs_pending_runs h) now
    (hs_relaunches h + 1) (hs_failures h) (hs_asked h) (hs_launches h).

(** [_ask_peripheral]: fire and forget. *)
Definition ask (d action : pystr) : py host unit :=
  modify (λ h, Host (hs_report h) (hs_launcher h) (hs_refused h) (hs_pending h) (hs_pending_runs h)
    (hs_last_restart h) (hs_relaunches h) (hs_failures h) (hs_asked h ++ [(d, action)]) (hs_launches h)).

Fixpoint ask_all (ds : list pystr) (action : pystr) : py host unit :=
  match ds with [] => mret tt | d :: ds => ask d action ;; ask_all ds action end.

(** Joining the parts of a reason that are not empty. *)
Definition also (existing text : pystr) : pystr :=
  join (u "; ") (List.filter (λ s, negb (bool_decide (s = []))) [existing; text]).

Section Host.
Context `{PyRepr}.
Variable c : config.
Variable w : world.

(** ** Inputs *)

(** [_resolve_total_layers], [bytes_per_layer], [cache_bytes_per_layer]: the
last is the cache of one token, whatever the context. *)
Definition total_layers : res Z :=
if 0 <? given_layers c then Ok (given_layers c)
else n ← layer_count (meta c); Ok (if n =? 0 then 24 else n).
Definition bytes_per_layer (layers : Z) : Z :=
match file_size c with
| Some size => if size =? 0 then 1 else Z.max 1 (size / layers)
| None => 1
end.
Definition slots (a : llama_args) : Z := Z.max 1 (la_slots a).
Definition context (a : llama_args) : Z := if 0 <? la_context a then la_context a else Z.max 0 (given_context c).
Definition cache_bytes_per_layer (a : llama_args) : res Z := kv_bytes_per_token (cache_dtype_bytes a) (meta c).
Definition stable_runs : Z := Z.max 1 (given_stable_runs c).
Definition max_restarts : Z := Z.max 0 (given_max_restarts c).

(** [exclusion_reasons] of names, and the union with what a check learned. *)
Definition operator_exclusions : list (pystr * pystr) := (λ n, (n, u "excluded by operator")) <$> exclude c.
Definition exclusions (extra : list (pystr * pystr)) : list (pystr * pystr) :=
foldl (λ d kv, dset kv.1 kv.2 d) operator_exclusions extra.

(** [_pin] and [_apply_pins]. *)
Definition pin (d why : pystr) (hold : f64) : py host unit :=
modify (λ h, if bool_decide (d = []) then h
             else with_refused (dset d (why, fadd (w_now w) (fmax f0 hold)) (hs_refused h)) h).
Definition drop_pinned (refused : list (pystr * (pystr * f64))) (p : fleet_plan) : fleet_plan :=
let held := List.filter (λ d, dhas d refused) (sorted_names (fp_assignments p).*1) in
FleetPlan (List.filter (λ e : pystr * Z, negb (dhas e.1 refused)) (fp_assignments p))
  (fp_skipped p ++ ((λ d, (d, u "held out: " ++ from_option fst [] (dget d refused))) <$> held))
  (fp_headroom p) (fp_cost p) (fp_cache p).
Definition apply_pins (p : fleet_plan) : py host fleet_plan := λ h,
let refused := List.filter (λ e : pystr * (pystr * f64), negb (fleb e.2.2 (w_now w))) (hs_refused h) in
(with_refused refused h, Ok (drop_pinned refused p)).

(** [plan]. *)
Definition plan (live : list pyval) (extra : list (pystr * pystr)) : py host fleet_plan :=
a ← of_res (parse_llama_args (extra_args c));
layers ← of_res total_layers;
cache ← of_res (cache_bytes_per_layer a);
p ← of_res (plan_for_fleet live layers (bytes_per_layer layers) (Z.max 0 (local_layers_min c))
              (reserve_bytes c) cache (slots a) (exclusions extra));
apply_pins p.

(** [_should_wait_for_peers]. *)
Definition should_wait (p : fleet_plan) : bool :=
negb (live_is_explicit c || fleb (settle_timeout c) f0) &&
match fp_assignments p with
| [] => w_knows_peers w || negb (bool_decide (w_live w = []))
| _ => false
end.

(** ** Start *)

Definition endpoint_of (d : pystr) : pystr := default [] (dget d (w_endpoints w)).

(** The loop of [start] over the devices of the split: a device without an
endpoint, or that does not answer, gives its layers back. *)
Fixpoint wake (ds : list pystr) (asg : list (pystr * Z)) (started : list pystr) (out : list (pystr * pystr)) :
  py host (list (pystr * Z) * list pystr * list (pystr * pystr)) :=
match ds with
| [] => mret (asg, started, out)
| d :: ds =>
    if bool_decide (endpoint_of d = []) then wake ds (ddel d asg) started (out ++ [(d, u "no endpoint")])
    else
      ask d (u "start") ;;
      match w_answers w d with
      | None => wake ds asg (started ++ [d]) out
      | Some why => pin d why (unreachable_pin_s c) ;; wake ds (ddel d asg) started (out ++ [(d, why)])
      end
end.

(** Why nothing is remote. *)
Definition nothing_remote (skipped out : list (pystr * pystr)) : pystr :=
match skipped ++ out with
| [] => u "no peripheral with usable headroom"
| l => u "skipped " ++ join (u ", ") (take 4 ((λ e : pystr * pystr, e.1 ++ u ":" ++ e.2) <$> l))
end.

(** [_effective_mmap]. *)
Definition effective_mmap (remote : Z) : bool :=
match mmap c with Some b => b | None => remote =? 0 end.

(** [_launch] and [_verify]. *)
Definition launch_model : py host bool :=
match w_launch w with
| No_launcher => mret false
| Not_started => modify (λ h, with_launcher true (hs_launches h) h) ;; mret false
| Started => modify (λ h, with_launcher true (hs_launches h + 1) h) ;; mret true
end.

(** The state of a split before it is launched. *)
Definition intended (layers : Z) (a : llama_args) (p : fleet_plan) (asg : list (pystr * Z))
  (started : list pystr) (out : list (pystr * pystr)) (cause : pystr) : report :=
let remote := total asg in
let state_reason := if remote =? 0 then nothing_remote (fp_skipped p) out else [] in
let args := host_extra_args asg (w_endpoints w) (context a) (Z.max 0 (threads c)) (effective_mmap remote)
            ++ extra_args c in
let reason := if bool_decide (state_reason = []) then cause else state_reason in
Report (if remote =? 0 then M_local else M_split) asg remote (layers - remote) started (fp_skipped p) out
  (fp_headroom p) args
  (if negb (remote =? 0) && bool_decide (args = []) then also reason (u "no usable peripheral endpoints") else reason)
  (la_no_kv_offload a && negb (remote =? 0)) false false false.

Definition note (text : pystr) (r : report) : report :=
Report (rp_mode r) (rp_assignments r) (rp_remote r) (rp_local r) (rp_started r) (rp_skipped r)
  (rp_unreachable r) (rp_headroom r) (rp_args r) (also (rp_reason r) text) (rp_kv_on_host r)
  (rp_launched r) (rp_health r) (rp_probe r).
Definition verified (health probe : bool) (r : report) : report :=
Report (if negb (rp_remote r =? 0) && negb health then M_unhealthy else rp_mode r)
  (rp_assignments r) (rp_remote r) (rp_local r) (rp_started r) (rp_skipped r)
  (rp_unreachable r) (rp_headroom r) (rp_args r) (rp_reason r) (rp_kv_on_host r) true health probe.

Definition record (r : report) : py host report := modify (with_report r) ;; mret r.

(** [start]. *)
Definition start (given : option (list (pystr * Z))) (cause : pystr) : py host report :=
if bool_decide (model_path c = []) then record (off_report (u "no model path")) else
a ← of_res (parse_llama_args (extra_args c));
layers ← of_res total_layers;
p ← plan (w_live w) [];
p ← (match given with
     | Some _ => mret p
     | None => if should_wait p then plan (w_live_later w) [] else mret p
     end);
let asg := default (fp_assignments p) given in
x ← wake (sorted_names asg.*1) asg [] [];
let '(asg, started, out) := x in
let r := intended layers a p asg started out cause in
if w_port_busy w then record (note (u "port " ++ str_of_Z (port c) ++ u " is already serving another process") r) else
ok ← launch_model;
if negb ok then record (note (u "host model did not start") r) else
let probe := w_health w && w_probe w in
let r := verified (w_health w) probe r in
record (if negb (w_health w) then note (u "host model did not answer /health") r
        else if negb probe then note (u "host model answered /health but failed its probe") r else r).

(** [stop]: the pins survive. *)
Definition stop : py host report :=
h ← get;
let ds := rp_started (hs_report h) in
modify (λ h, with_launcher false (hs_launches h) h) ;;
ask_all ds (u "stop") ;;
modify (λ h, with_failures 0 (with_pending None 0 h)) ;;
record (off_report (u "stopped")).

(** ** Reconciliation *)

Inductive verdict := Hold (why : pystr) | Deferred (why : pystr) | Restarted (failures : Z) | Gave_up (why : pystr).

(** [_watchdog_plan]. *)
Inductive watch := W_hold | W_conflict | W_gave_up (why : pystr) | W_restart (asg : list (pystr * Z)) (why : pystr).
Definition watchdog_plan : py host watch := λ h,
if negb (hs_launcher h && w_alive w) && w_port_busy w then (h, Ok W_conflict) else
let alive := hs_launcher h && w_alive w in
let serving := alive && w_serving w in
let serving := if serving && negb (rp_probe (hs_report h)) then w_probe_again w else serving in
if serving then (with_failures 0 h, Ok W_hold) else
let what := u "host model " ++ (if alive then u "cannot serve this split" else u "died") in
let current := rp_assignments (hs_report h) in
if max_restarts <=? hs_failures h then (h, Ok (W_gave_up (what ++ u " and restarting did not help")))
else if hs_failures h =? 0 then (h, Ok (W_restart current what))
else (h, Ok (W_restart (degrade_split current (rp_headroom (hs_report h))).1
       (what ++ u "; " ++ match degrade_split current (rp_headroom (hs_report h)) with
                          | (_, Some d) => u "degraded: " ++ d ++ u " gave up "
                                           ++ str_of_Z (default 0 (dget d current)) ++ u " layer(s)"
                          | (_, None) => u "nothing remote left to give up"
                          end))).

(** [_relaunch]. *)
Definition relaunch (asg : list (pystr * Z)) (cause : pystr) : py host verdict :=
h ← get;
let previous := rp_assignments (hs_report h) in
modify (λ h, with_launcher false (hs_launches h) h) ;;
ask_all (sorted_names (List.filter (λ d, negb (dhas d asg)) previous.*1)) (u "stop") ;;
modify (with_restart (w_now w)) ;;
r ← start (Some asg) cause;
modify (λ h, with_failures (if rp_health r then 0 else hs_failures h + 1) h) ;;
h ← get; mret (Restarted (hs_failures h)).

(** [_give_up]. *)
Definition failed_report (why : pystr) (r : report) : report :=
Report M_failed (rp_assignments r) (rp_remote r) (rp_local r) (rp_started r) (rp_skipped r)
  (rp_unreachable r) (rp_headroom r) (rp_args r) (also why (rp_reason r)) (rp_kv_on_host r)
  (rp_launched r) (rp_health r) (rp_probe r).
Definition give_up_serving (why : pystr) : py host verdict :=
h ← get; record (failed_report why (hs_report h)) ;; mret (Gave_up (also why (rp_reason (hs_report h)))).

(** [_note_thermal_detaches]: the devices the plan dropped for heat are held
out; the last reason given for a device counts. *)
Definition reason_of (d : pystr) (p : fleet_plan) : pystr :=
default [] (dget d (rev (fp_skipped p))).
Fixpoint note_thermal (ds : list pystr) (p : fleet_plan) : py host unit :=
match ds with
| [] => mret tt
| d :: ds =>
    (if starts_with (u "thermal_status=") (reason_of d p) then pin d (reason_of d p) (thermal_pin_s c) else mret tt) ;;
    note_thermal ds p
end.

(** [_preflight]: who of the devices to add did not answer. *)
Fixpoint preflight (ds : list pystr) : py host (list (pystr * pystr)) :=
match ds with
| [] => mret []
| d :: ds =>
    if bool_decide (endpoint_of d = []) then out ← preflight ds; mret ((d, u "no endpoint") :: out)
    else
      ask d (u "start") ;;
      out ← preflight ds;
      mret (match w_answers w d with None => out | Some why => (d, why) :: out end)
end.
Fixpoint pin_all (l : list (pystr * pystr)) : py host unit :=
match l with [] => mret tt | (d, why) :: l => pin d why (unreachable_pin_s c) ;; pin_all l end.

(** [_merge_unreachable] and [_hold_unreachable]. *)
Definition merge_unreachable (existing incoming : list (pystr * pystr)) : list (pystr * pystr) :=
sort_by (λ a b : pystr * pystr, str_leb a.1 b.1)
  (foldl (λ d kv, dset kv.1 kv.2 d) [] (existing ++ incoming)).
Definition held_report (p : fleet_plan) (out : list (pystr * pystr)) (r : report) : report :=
Report (rp_mode r) (rp_assignments r) (rp_remote r) (rp_local r) (rp_started r)
  (match fp_skipped p with [] => rp_skipped r | l => l end)
  (merge_unreachable (rp_unreachable r) out) (rp_headroom r) (rp_args r)
  (u "kept the running split: " ++ join (u ", ") out.*1 ++ u " did not answer")
  (rp_kv_on_host r) (rp_launched r) (rp_health r) (rp_probe r).

(** [_difference_reason]. *)
Definition difference_reason (df : difference) (p : fleet_plan) : pystr :=
let parts :=
  ((λ d, u "detached " ++ d ++ u " (" ++ (match reason_of d p with [] => u "gone" | why => why end) ++ u ")") <$> df_detach df)
  ++ ((λ d, u "attached " ++ d) <$> df_attach df) ++ ((λ d, u "resized " ++ d) <$> df_resize df) in
match parts with [] => u "rebalance" | _ => join (u "; ") parts end.

(** The rest of [reconcile], once the host serves. *)
Definition rebalance (force : bool) : py host verdict :=
h ← get;
let current := rp_assignments (hs_report h) in
p ← plan (w_live w) [];
let df := split_difference current (fp_assignments p) in
if negb (changed df) then modify (with_pending None 0) ;; mret (Hold [])
else
  note_thermal (df_detach df) p ;;
  let signature := sort_by (λ a b : pystr * Z, str_leb a.1 b.1) (fp_assignments p) in
  modify (λ h, with_pending (Some signature)
    (if bool_decide (Some signature = hs_pending h) then hs_pending_runs h + 1 else 1) h) ;;
  h ← get;
  if negb force && (hs_pending_runs h <? stable_runs) then
    mret (Deferred (u "change seen " ++ str_of_Z (hs_pending_runs h) ++ u "/" ++ str_of_Z stable_runs ++ u " time(s)"))
  else if negb force && fltb (fsub (w_now w) (hs_last_restart h)) (cooldown_s c) then
    mret (Deferred (u "cooldown (" ++ fmt_fixed 0 (fsub (w_now w) (hs_last_restart h)) ++ u "s of "
                    ++ fmt_fixed 0 (cooldown_s c) ++ u "s)"))
  else
    out ← preflight (sorted_names (df_attach df));
    pin_all out ;;
    match out with
    | [] => relaunch (fp_assignments p) (difference_reason df p)
    | _ =>
        p ← plan (w_live w) out;
        let df := split_difference current (fp_assignments p) in
        if negb (changed df) then
          modify (with_pending None 0) ;;
          modify (λ h, with_report (held_report p out (hs_report h)) h) ;;
          mret (Hold (u "kept the running split"))
        else relaunch (fp_assignments p) (difference_reason df p)
    end.

(** [reconcile]. *)
Definition reconcile (force : bool) : py host verdict :=
h ← get;
match rp_mode (hs_report h) with
| M_off => mret (Hold (u "not started"))
| M_failed => mret (Hold (u "gave up restarting"))
| _ =>
    x ← watchdog_plan;
    match x with
    | W_gave_up why => give_up_serving why
    | W_conflict => mret (Hold (u "port " ++ str_of_Z (port c) ++ u " is owned by another process"))
    | W_restart asg why => relaunch asg why
    | W_hold => rebalance force
    end
end.
End Host.
