(* ===== verification/HostSafety.v ===== *)
(** * What the model host keeps and when it gives up

    Theorems about [ModelHost]: an honest report after every start, no reload
    without a lasting cause, the end of a host that cannot serve, and what its
    plan leaves out. *)

From Stdlib Require Import ZArith NArith Lia.
From S2P Require Import Prelude PyFloat PyStr PyVal Gguf LayerSplit ModelHost.

Local Open Scope Z_scope.

(** ** Frames: what a step leaves alone *)

(** Everything but the pins and the trace of what was asked. *)
Definition with_trace (l : list (pystr * (pystr * f64))) (t : list (pystr * pystr)) (h : host) : host :=
  Host (hs_report h) (hs_launcher h) l (hs_pending h) (hs_pending_runs h) (hs_last_restart h)
    (hs_relaunches h) (hs_failures h) t (hs_launches h).

Lemma with_trace_id h : with_trace (hs_refused h) (hs_asked h) h = h.
Proof. by destruct h. Qed.

Lemma ask_all_trace ds action h : ∃ t, ask_all ds action h = (with_trace (hs_refused h) t h, Ok tt).
Proof.
  revert h. induction ds as [|d ds IH]; intros h; cbn [ask_all].
  { exists (hs_asked h). by rewrite with_trace_id. }
  unfold mbind, py_bind, ask, modify. destruct (IH (with_trace (hs_refused h) (hs_asked h ++ [(d, action)]) h)) as [t E].
  unfold with_trace at 1 in E. rewrite E. by exists t.
Qed.

Section Frames.
Context `{PyRepr}.
Variable c : config.
Variable w : world.

Lemma plan_frame live extra h : ∃ l, (plan c w live extra h).1 = with_trace l (hs_asked h) h.
Proof.
unfold plan, mbind, py_bind, of_res. exists (match (plan c w live extra h).1 with h' => hs_refused h' end).
unfold plan, mbind, py_bind, of_res.
destruct (parse_llama_args _); [|by rewrite with_trace_id]. destruct (total_layers c); [|by rewrite with_trace_id].
destruct (cache_bytes_per_layer _ _); [|by rewrite with_trace_id].
destruct (plan_for_fleet _ _ _ _ _ _ _ _); [done|by rewrite with_trace_id].
Qed.

Lemma pin_frame d why hold h : ∃ l, pin w d why hold h = (with_trace l (hs_asked h) h, Ok tt).
Proof. unfold pin, modify. case_bool_decide; [exists (hs_refused h); by rewrite with_trace_id|by eexists]. Qed.

(** The peripherals that were asked: who is left has an endpoint and
answered. *)
Definition reachable (d : pystr) : Prop := endpoint_of w d ≠ [] ∧ w_answers w d = None.

Lemma ddel_sub {V} k (d : list (pystr * V)) e : e ∈ ddel k d → e ∈ d.
Proof.
induction d as [|[k' v'] d IH]; cbn [ddel]; [done|]. case_decide; [by right|].
intros [->|?]%elem_of_cons; [left|right; auto].
Qed.
Lemma ddel_gone {V} k (d : list (pystr * V)) e : NoDup d.*1 → e ∈ ddel k d → e.1 ≠ k.
Proof.
intros Hn. induction d as [|[k' v'] d IH]; cbn [ddel]; [set_solver|]. apply NoDup_cons in Hn as [Hk Hn].
case_decide as E; [subst|].
- intros He Eq. apply Hk. rewrite <- Eq. apply list_elem_of_fmap. by exists e.
- intros [->|?]%elem_of_cons; [cbn; congruence|by apply IH].
Qed.

Lemma wake_frame ds : ∀ asg st out h, NoDup asg.*1 →
∃ l t asg' st' out', wake c w ds asg st out h = (with_trace l t h, Ok (asg', st', out')) ∧
  NoDup asg'.*1 ∧ (∀ e, e ∈ asg' → e ∈ asg ∧ (e.1 ∈ ds → reachable e.1)) ∧
  (Forall reachable ds → asg' = asg).
Proof.
induction ds as [|d ds IH]; intros asg st out h Hn; cbn [wake].
{ exists (hs_refused h), (hs_asked h), asg, st, out. rewrite with_trace_id. split_and!; [done|done|set_solver|done]. }
case_bool_decide as Hend.
- destruct (IH (ddel d asg) st (out ++ [(d, u "no endpoint")]) h) as (l & t & a' & s' & o' & E & Hn' & Hin & _);
    [by apply ddel_nodup|].
  exists l, t, a', s', o'. split_and!; [done|done| |intros [[? ?] ?]%Forall_cons; done].
  intros e He. destruct (Hin e He) as [Hd Hr]. split; [by eapply ddel_sub|].
  intros [Eq|?]%elem_of_cons; [by destruct (ddel_gone _ _ _ Hn Hd)|auto].
- unfold mbind, py_bind, ask, modify. set (h1 := Host _ _ _ _ _ _ _ _ _ _).
  destruct (w_answers w d) as [why|] eqn:Ea.
  + destruct (pin_frame d why (unreachable_pin_s c) h1) as [l1 ->].
    destruct (IH (ddel d asg) st (out ++ [(d, why)]) (with_trace l1 (hs_asked h1) h1)) as (l & t & a' & s' & o' & E & Hn' & Hin & _);
      [by apply ddel_nodup|].
    exists l, t, a', s', o'. split_and!; [done|done| |intros [[? ?] ?]%Forall_cons; congruence].
    intros e He. destruct (Hin e He) as [Hd Hr]. split; [by eapply ddel_sub|].
    intros [Eq|?]%elem_of_cons; [by destruct (ddel_gone _ _ _ Hn Hd)|auto].
  + destruct (IH asg (st ++ [d]) out h1 Hn) as (l & t & a' & s' & o' & E & Hn' & Hin & Hall).
    exists l, t, a', s', o'. split_and!; [done|done| |intros [_ ?]%Forall_cons; auto].
    intros e He. destruct (Hin e He) as [Hd Hr]. split; [done|]. intros [Eq|?]%elem_of_cons; [|auto].
    rewrite Eq. by split.
Qed.

Lemma hand_out_nodup cs : ∀ remaining acc, NoDup acc.*1 → NoDup (hand_out remaining cs acc).*1.
Proof.
induction cs as [|x cs IH]; intros remaining acc Ha; cbn [hand_out]; [done|].
destruct (remaining <=? 0); [done|]. destruct (_ <=? 0); [by apply IH|]. by apply IH, dset_nodup.
Qed.

(** What a plan of the host is made of. *)
Lemma plan_ok live extra h h' p : plan c w live extra h = (h', Ok p) →
∃ a layers cache fp,
  parse_llama_args (extra_args c) = Ok a ∧ total_layers c = Ok layers ∧ cache_bytes_per_layer c a = Ok cache ∧
  plan_for_fleet live layers (bytes_per_layer c layers) (Z.max 0 (local_layers_min c)) (reserve_bytes c) cache
    (slots a) (exclusions c extra) = Ok fp ∧
  fp_cost p = Z.max 1 (bytes_per_layer c layers) + fp_cache p ∧ fp_cache p = Z.max 0 cache * slots a ∧
  NoDup (fp_assignments p).*1.
Proof.
unfold plan, mbind, py_bind, of_res.
destruct (parse_llama_args _) as [a|]; [|done]. destruct (total_layers c) as [layers|]; [|done].
destruct (cache_bytes_per_layer _ _) as [cache|] eqn:Ec; [|done].
destruct (plan_for_fleet _ _ _ _ _ _ _ _) as [fp|] eqn:Ef; [|done].
unfold apply_pins. intros E. injection E as _ <-. exists a, layers, cache, fp. cbn.
split; [done|]. split; [done|]. split; [done|]. split; [exact Ef|].
revert Ef. unfold plan_for_fleet. destruct (sift_peers _ _) as [nodes excluded].
intros (sp & Hsp & <-%(inj Ok))%res_bind_Ok. cbn.
revert Hsp. unfold plan_layer_split. intros ([[s cs] r] & Hg & <-%(inj Ok))%res_bind_Ok. cbn.
unfold slots. replace (Z.max 1 (if Z.max 1 (la_slots a) =? 0 then 1 else Z.max 1 (la_slots a))) with (Z.max 1 (la_slots a))
  by (destruct (Z.max 1 (la_slots a) =? 0) eqn:?; lia).
split_and!; [done..|]. apply filter_keys_nodup, hand_out_nodup. constructor.
Qed.

(** A start that returns. *)
Definition started_as (given : option (list (pystr * Z))) (h h' : host) (r : report) : Prop :=
(∃ l t b n, h' = with_report r (with_launcher b n (with_trace l t h)) ∧
   hs_launches h <= n ∧ (w_port_busy w = true → n = hs_launches h ∧ b = hs_launcher h)) ∧
NoDup (rp_assignments r).*1 ∧ rp_remote r = total (rp_assignments r) ∧
(∃ layers, total_layers c = Ok layers ∧ rp_remote r + rp_local r = layers) ∧
(∀ e, e ∈ rp_assignments r → reachable e.1) ∧
(∀ g, given = Some g → (∀ e, e ∈ rp_assignments r → e ∈ g) ∧ (Forall reachable g.*1 → rp_assignments r = g)) ∧
rp_launched r = negb (w_port_busy w) && match w_launch w with Started => true | _ => false end ∧
rp_health r = rp_launched r && w_health w ∧ rp_probe r = rp_health r && w_probe w ∧
rp_mode r = if rp_remote r =? 0 then M_local
            else if rp_launched r && negb (w_health w) then M_unhealthy else M_split.

Lemma start_ok given cause h h' r :
model_path c ≠ [] → (∀ g, given = Some g → NoDup g.*1) →
start c w given cause h = (h', Ok r) → started_as given h h' r.
Proof.
intros Hm Hg. unfold start. rewrite bool_decide_false by done. unfold mbind, py_bind, of_res.
destruct (parse_llama_args _) as [a|] eqn:Ea; [|done]. destruct (total_layers c) as [layers|] eqn:El; [|done].
destruct (plan c w (w_live w) [] h) as [h1 [p1|]] eqn:E1; [|done].
set (m := match given with Some _ => mret p1 | None => if should_wait c w p1 then plan c w (w_live_later w) [] else mret p1 end).
assert (∀ h2 p, m h1 = (h2, Ok p) → (∃ l, h2 = with_trace l (hs_asked h) h) ∧ NoDup (fp_assignments p).*1) as Hm2.
{ pose proof (plan_frame (w_live w) [] h) as [l1 F1]. rewrite E1 in F1. cbn in F1. subst h1.
  apply plan_ok in E1 as (_ & _ & _ & _ & _ & _ & _ & _ & _ & _ & Hn1).
  intros h2 p. subst m. destruct given; [cbn; intros E; injection E as <- <-; eauto|].
  destruct (should_wait c w p1); [|cbn; intros E; injection E as <- <-; eauto].
  intros E2. pose proof (plan_frame (w_live_later w) [] (with_trace l1 (hs_asked h) h)) as [l2 F2].
  rewrite E2 in F2. cbn in F2. subst h2. split; [by eexists|].
  by apply plan_ok in E2 as (_ & _ & _ & _ & _ & _ & _ & _ & _ & _ & ?). }
destruct (m h1) as [h2 [p|]] eqn:E2; [|done]. destruct (Hm2 h2 p eq_refl) as [[l2 ->] Hn]. clear Hm2 E2 m E1.
set (asg := default (fp_assignments p) given).
assert (NoDup asg.*1) as Hna by (subst asg; destruct given; [by apply Hg|done]).
destruct (wake_frame (sorted_names asg.*1) asg [] [] (with_trace l2 (hs_asked h) h) Hna)
  as (l & t & asg' & st & out & -> & Hn' & Hin & Hall). cbv beta iota zeta.
assert (∀ e, e ∈ asg' → reachable e.1) as Hr.
{ intros e He. destruct (Hin e He) as [He' Hr]. apply Hr, elem_sort_by. apply list_elem_of_fmap. by exists e. }
assert (∀ g, given = Some g → (∀ e, e ∈ asg' → e ∈ g) ∧ (Forall reachable g.*1 → asg' = g)) as Hgiven.
{ intros g ->. split; [intros e He; by destruct (Hin e He)|].
  intros Hf. apply Hall, Forall_forall. intros d Hd%elem_sort_by. by apply (proj1 (Forall_forall _ _) Hf). }
destruct (w_port_busy w) eqn:Eb.
- unfold record, modify, mbind, py_bind, mret, py_ret. intros E. injection E as <- <-.
  unfold started_as. rewrite Eb. split_and!; try done; try (by exists layers; split; [|cbn; lia]); try (by cbn; destruct (total asg' =? 0)).
  exists l, t, (hs_launcher h), (hs_launches h). split_and!; [|lia|done]. by destruct h.
- unfold launch_model. destruct (w_launch w) eqn:Ew.
  + unfold record, modify, mbind, py_bind, mret, py_ret. cbn [negb]. intros E. injection E as <- <-.
    unfold started_as. rewrite Eb, Ew. split_and!; try done; try (by exists layers; split; [|cbn; lia]); try (by cbn; destruct (total asg' =? 0)).
    exists l, t, (hs_launcher h), (hs_launches h). split_and!; [|lia|done]. by destruct h.
  + unfold record, modify, mbind, py_bind, mret, py_ret. cbn [negb]. intros E. injection E as <- <-.
    unfold started_as. rewrite Eb, Ew. split_and!; try done; try (by exists layers; split; [|cbn; lia]); try (by cbn; destruct (total asg' =? 0)).
    exists l, t, true, (hs_launches h). split_and!; [done|lia|done].
  + unfold record, modify, mbind, py_bind, mret, py_ret. cbn [negb]. intros E. injection E as <- <-.
    unfold started_as. rewrite Eb, Ew.
    split; [exists l, t, true, (hs_launches h + 1); split_and!; [done|cbn; lia|done]|].
    destruct (w_health w) eqn:Eh, (w_probe w) eqn:Ep; cbn;
      (split_and!; try done; try (by exists layers; split; [|lia]); try (by destruct (total asg' =? 0))).
Qed.

(** A relaunch that returns. *)
Lemma relaunch_ok asg cause h h' v :
model_path c ≠ [] → NoDup asg.*1 → relaunch c w asg cause h = (h', Ok v) →
v = Restarted (hs_failures h') ∧
hs_failures h' = (if rp_health (hs_report h') then 0 else hs_failures h + 1) ∧
∃ h0 h1, started_as (Some asg) h0 h1 (hs_report h').
Proof.
intros Hm Hn. unfold relaunch, mbind, py_bind, get, modify.
set (h0 := with_launcher false (hs_launches h) h).
destruct (ask_all_trace (sorted_names (List.filter (λ d, negb (dhas d asg)) (rp_assignments (hs_report h)).*1)) (u "stop") h0) as [t ->].
set (h1 := with_restart (w_now w) _).
destruct (start c w (Some asg) cause h1) as [h2 [r|]] eqn:E; [|done]. intros E'. injection E' as <- <-.
pose proof (start_ok (Some asg) cause h1 h2 r Hm ltac:(by intros g [= <-]) E) as Hst.
destruct (proj1 Hst) as (l & t' & b & n & -> & _).
split; [done|]. split; [done|]. by eexists _, _.
Qed.

(** Starting a given split raises only where planning does. *)
Lemma start_returns g cause h :
model_path c ≠ [] → NoDup g.*1 → (∀ h, is_ok (plan c w (w_live w) [] h).2 = true) →
∃ h' r, start c w (Some g) cause h = (h', Ok r).
Proof.
intros Hm Hg Hp. unfold start. rewrite bool_decide_false by done. unfold mbind, py_bind, of_res.
specialize (Hp h). destruct (plan c w (w_live w) [] h) as [h1 [p|]] eqn:E; [|done].
pose proof (plan_ok _ _ _ _ _ E) as (a & layers & _ & _ & -> & -> & _).
unfold mret, py_ret. cbv beta iota zeta. change (default (fp_assignments p) (Some g)) with g.
destruct (wake_frame (sorted_names g.*1) g [] [] h1 Hg) as (l & t & asg' & st & out & -> & _).
destruct (w_port_busy w); [eauto|]. unfold launch_model.
destruct (w_launch w); unfold record, modify, mbind, py_bind, mret, py_ret; cbn [negb]; eauto.
Qed.

Lemma relaunch_returns asg cause h :
model_path c ≠ [] → NoDup asg.*1 → (∀ h, is_ok (plan c w (w_live w) [] h).2 = true) →
∃ h' v, relaunch c w asg cause h = (h', Ok v).
Proof.
intros Hm Hn Hp. unfold relaunch, mbind, py_bind, get, modify.
set (h0 := with_launcher false (hs_launches h) h).
destruct (ask_all_trace (sorted_names (List.filter (λ d, negb (dhas d asg)) (rp_assignments (hs_report h)).*1)) (u "stop") h0) as [t ->].
destruct (start_returns asg cause (with_restart (w_now w) (with_trace (hs_refused h0) t h0)) Hm Hn Hp) as (h2 & r & ->). eauto.
Qed.
End Frames.

(** ** A host that cannot serve *)

Lemma weakest_elem room ds : ∀ d, weakest room d ds ∈ d :: ds.
Proof.
  induction ds as [|x ds IH]; intros d; cbn; [left|]. destruct (weaker room x d).
  - right. apply IH.
  - specialize (IH d). apply elem_of_cons in IH as [E|?]; [rewrite E at 1; left|by right; right].
Qed.

Lemma ddel_length {V} k (d : list (pystr * V)) : k ∈ d.*1 → length (ddel k d) = (length d - 1)%nat.
Proof.
  induction d as [|[k' v'] d IH]; cbn [ddel]; [set_solver|]. case_decide as E; [cbn; lia|].
  intros [?|Hk]%elem_of_cons; [done|]. cbn [length]. rewrite IH by done.
  destruct d; [cbn in Hk; set_solver|cbn; lia].
Qed.

Lemma degrade_facts current room : NoDup current.*1 →
  let rest := (degrade_split current room).1 in
  NoDup rest.*1 ∧ length rest = (length current - 1)%nat ∧ ∀ e, e ∈ rest → e ∈ current.
Proof.
  intros Hn. unfold degrade_split. destruct current as [|[d v] l]; [by split_and!|].
  cbn zeta. change (((d, v) :: l).*1) with (d :: l.*1) in *.
  pose proof (weakest_elem room l.*1 d) as Hw. cbn [fst].
  split_and!; [by apply ddel_nodup|by apply ddel_length|intros e; apply ddel_sub].
Qed.

Section Sick.
Context `{PyRepr}.
Variable c : config.
Hypothesis has_model : model_path c ≠ [].

(** The process is gone, nothing else owns the port, and no launch answers;
planning works. *)
Definition sick (w : world) : Prop :=
w_alive w = false ∧ w_port_busy w = false ∧ w_health w = false ∧
∀ h, is_ok (plan c w (w_live w) [] h).2 = true.

Definition running (h : host) : Prop :=
NoDup (rp_assignments (hs_report h)).*1 ∧
(rp_mode (hs_report h) = M_local ∨ rp_mode (hs_report h) = M_split ∨ rp_mode (hs_report h) = M_unhealthy).

Definition checks (ws : list world) (h : host) : host := foldl (λ h w, (reconcile c w false h).1) h ws.

(** A check of a sick host: it is over, or one more failed restart of the same
split the first time and of one device fewer afterwards. *)
Lemma sick_step w h :
sick w → running h → 0 <= hs_failures h →
let h' := (reconcile c w false h).1 in
if max_restarts c <=? hs_failures h
then rp_mode (hs_report h') = M_failed ∧ rp_assignments (hs_report h') = rp_assignments (hs_report h)
else running h' ∧ hs_failures h' = hs_failures h + 1 ∧
  let asg := if hs_failures h =? 0 then rp_assignments (hs_report h)
             else (degrade_split (rp_assignments (hs_report h)) (rp_headroom (hs_report h))).1 in
  (Forall (reachable w) asg.*1 → rp_assignments (hs_report h') = asg).
Proof using has_model.
intros (Ha & Hb & Hh & Hp) [Hn Hmode] Hf. cbn zeta. unfold reconcile, mbind, py_bind, get.
assert (∀ asg cause, NoDup asg.*1 →
  let h' := (relaunch c w asg cause h).1 in
  running h' ∧ hs_failures h' = hs_failures h + 1 ∧
  (Forall (reachable w) asg.*1 → rp_assignments (hs_report h') = asg)) as Hre.
{ intros asg cause Hna. destruct (relaunch_returns c w asg cause h has_model Hna Hp) as (h' & v & E).
  cbn zeta. rewrite E. cbn [fst]. apply relaunch_ok in E as (_ & Ef & h0 & h1 & Hst); [|done..].
  destruct Hst as (_ & Hn' & _ & _ & _ & Hg & Hl & Hhe & _ & Hm').
  rewrite Hhe, Hh, andb_false_r in Ef. split_and!; [split; [done|]|done|by apply Hg].
  rewrite Hm'. destruct (_ =? 0); [by left|]. destruct (rp_launched (hs_report h') && negb (w_health w)); auto. }
assert (watchdog_plan c w h = (h, Ok (
   if max_restarts c <=? hs_failures h then W_gave_up (u "host model " ++ u "died" ++ u " and restarting did not help")
   else if hs_failures h =? 0 then W_restart (rp_assignments (hs_report h)) (u "host model " ++ u "died")
   else W_restart (degrade_split (rp_assignments (hs_report h)) (rp_headroom (hs_report h))).1
          (u "host model " ++ u "died" ++ u "; " ++
           match degrade_split (rp_assignments (hs_report h)) (rp_headroom (hs_report h)) with
           | (_, Some d) => u "degraded: " ++ d ++ u " gave up "
                ++ str_of_Z (default 0 (dget d (rp_assignments (hs_report h)))) ++ u " layer(s)"
           | (_, None) => u "nothing remote left to give up" end)))) as Hw.
{ unfold watchdog_plan. cbv zeta. rewrite Ha, Hb, !andb_false_r. cbn [negb andb].
  destruct (max_restarts c <=? hs_failures h), (hs_failures h =? 0); reflexivity. }
destruct Hmode as [E|[E|E]]; rewrite E, Hw;
  (destruct (max_restarts c <=? hs_failures h); [done|]);
  (destruct (hs_failures h =? 0); [by apply Hre|apply Hre; by apply degrade_facts]).
Qed.

Lemma failed_stays ws h : rp_mode (hs_report h) = M_failed → checks ws h = h.
Proof.
intros E. induction ws as [|w ws IH]; [done|]. unfold checks in *. cbn [foldl].
assert ((reconcile c w false h).1 = h) as ->; [|done].
unfold reconcile, mbind, py_bind, get. by rewrite E.
Qed.

Lemma checks_fail ws : ∀ h,
Forall sick ws → running h → 0 <= hs_failures h <= max_restarts c →
(Z.to_nat (max_restarts c - hs_failures h) < length ws)%nat →
rp_mode (hs_report (checks ws h)) = M_failed.
Proof using has_model.
induction ws as [|w ws IH]; intros h Hs Hr Hf Hlen; cbn [length] in Hlen; [lia|].
apply Forall_cons in Hs as [Hw Hs]. pose proof (sick_step w h Hw Hr ltac:(lia)) as Hstep.
unfold checks. cbn [foldl]. change (foldl _ ?h ws) with (checks ws h).
destruct (max_restarts c <=? hs_failures h) eqn:E.
- destruct Hstep as [Hm _]. by rewrite failed_stays.
- destruct Hstep as (Hr' & Hf' & _). apply IH; [done|done|lia|lia].
Qed.

(** The devices left to a host whose peripherals all answer. *)
Lemma checks_degrade ws : ∀ h,
Forall sick ws → Forall (λ w, Forall (reachable w) (rp_assignments (hs_report h)).*1) ws →
running h → 0 < hs_failures h → hs_failures h + Z.of_nat (length ws) <= max_restarts c →
running (checks ws h) ∧ hs_failures (checks ws h) = hs_failures h + Z.of_nat (length ws) ∧
length (rp_assignments (hs_report (checks ws h))) = (length (rp_assignments (hs_report h)) - length ws)%nat.
Proof using has_model.
induction ws as [|w ws IH]; intros h Hs Ha Hr Hf Hlen; cbn [length] in *; [cbn; split_and!; [done|lia|lia]|].
apply Forall_cons in Hs as [Hw Hs]. apply Forall_cons in Ha as [Haw Ha].
pose proof (sick_step w h Hw Hr ltac:(lia)) as Hstep.
replace (max_restarts c <=? hs_failures h) with false in Hstep by lia.
replace (hs_failures h =? 0) with false in Hstep by lia. destruct Hstep as (Hr' & Hf' & Hasg).
pose proof (degrade_facts _ (rp_headroom (hs_report h)) (proj1 Hr)) as (_ & Hlen' & Hsub).
set (asg := (degrade_split _ _).1) in *.
assert (∀ P : pystr → Prop, Forall P (rp_assignments (hs_report h)).*1 → Forall P asg.*1) as Hmono.
{ intros P HP. apply Forall_forall. intros d (e & -> & He)%list_elem_of_fmap.
  rewrite Forall_forall in HP. apply HP, list_elem_of_fmap. exists e. split; [done|by apply Hsub]. }
specialize (Hasg (Hmono _ Haw)). unfold checks. cbn [foldl]. change (foldl _ ?h ws) with (checks ws h).
destruct (IH (reconcile c w false h).1) as (H1 & H2 & H3); [done| |done|lia|lia|].
{ rewrite Hasg. eapply Forall_impl; [exact Ha|]. intros w'. apply Hmono. }
split_and!; [done|lia|]. rewrite H3, Hasg, Hlen'. lia.
Qed.

(** A host that cannot serve is restarted at most the configured number
    of times and is then over, whatever its devices answer; and it may be over
    with layers still remote: each restart after the first gives up one device
    only, so with at least as many devices as restarts the split is never tried
    with the model running locally. *)
Theorem host_gives_up ws h :
Forall sick ws → running h → hs_failures h = 0 → 0 < max_restarts c →
length ws = S (Z.to_nat (max_restarts c)) →
rp_mode (hs_report (checks ws h)) = M_failed ∧
(Forall (λ w, Forall (reachable w) (rp_assignments (hs_report h)).*1) ws →
 length (rp_assignments (hs_report (checks ws h)))
 = (length (rp_assignments (hs_report h)) - (Z.to_nat (max_restarts c) - 1))%nat).
Proof using has_model.
intros Hs Hr Hf Hm Hlen. split; [apply checks_fail; [done|done|lia|lia]|]. intros Ha.
destruct ws as [|w ws]; [done|]. cbn [length] in Hlen.
apply Forall_cons in Hs as [Hw Hs]. apply Forall_cons in Ha as [Haw Ha].
pose proof (sick_step w h Hw Hr ltac:(lia)) as Hstep.
replace (max_restarts c <=? hs_failures h) with false in Hstep by lia. rewrite Hf in Hstep. cbn [Z.eqb] in Hstep.
destruct Hstep as (Hr' & Hf' & Hasg). specialize (Hasg Haw).
unfold checks. cbn [foldl]. change (foldl _ ?h ws) with (checks ws h). set (h1 := (reconcile c w false h).1) in *.
assert (∃ ws' wl, ws = ws' ++ [wl]) as (ws' & wl & ->).
{ destruct (exists_last (l := ws)) as (ws' & wl & E); [intros ->; cbn in Hlen; lia|by exists ws', wl]. }
rewrite length_app in Hlen. cbn [length] in Hlen.
apply Forall_app in Hs as [Hs [Hwl _]%Forall_cons]. apply Forall_app in Ha as [Ha _].
destruct (checks_degrade ws' h1) as (Hr2 & Hf2 & Hl2); [done|by rewrite Hasg|done|lia|lia|].
unfold checks. rewrite foldl_app. cbn [foldl]. change (foldl _ h1 ws') with (checks ws' h1).
pose proof (sick_step wl (checks ws' h1) Hwl Hr2 ltac:(lia)) as Hlast.
replace (max_restarts c <=? hs_failures (checks ws' h1)) with true in Hlast by lia.
destruct Hlast as [_ ->]. rewrite Hl2, Hasg. lia.
Qed.
End Sick.

Section Theorems.
Context `{PyRepr}.
Variable c : config.

(** The report of a start is honest: every device with layers has an
    address and its socket accepted; remote and local layers add up to the
    model; it is healthy only if this node launched the model on a free port and
    it answered; on a port that is taken nothing is launched; and a split that
    was launched and does not answer is not reported as a split. *)
Theorem start_is_honest w given cause h h' r :
model_path c ≠ [] → (∀ g, given = Some g → NoDup g.*1) →
start c w given cause h = (h', Ok r) →
hs_report h' = r ∧
(∀ d n, (d, n) ∈ rp_assignments r → reachable w d ∧ ∀ g, given = Some g → (d, n) ∈ g) ∧
rp_remote r = total (rp_assignments r) ∧
(∃ layers, total_layers c = Ok layers ∧ rp_remote r + rp_local r = layers) ∧
(rp_health r = true → rp_launched r = true ∧ w_port_busy w = false ∧ w_health w = true) ∧
(w_port_busy w = true → hs_launches h' = hs_launches h ∧ hs_launcher h' = hs_launcher h) ∧
(rp_mode r = M_split → rp_remote r ≠ 0 ∧ (rp_launched r = true → rp_health r = true)).
Proof.
intros Hm Hg E. destruct (start_ok c w given cause h h' r Hm Hg E)
  as ((l & t & b & n & -> & Hl & Hbusy) & _ & Hrem & Hlay & Hre & Hgiv & Hla & Hhe & _ & Hmode).
split_and!; try done.
- intros d k Hd. split; [by apply (Hre (d, k))|]. intros g Eg. by apply (Hgiv g Eg).
- rewrite Hhe, Hla. destruct (w_port_busy w), (w_launch w), (w_health w); by cbn.
- rewrite Hmode, Hhe. destruct (Z.eqb_spec (rp_remote r) 0); [done|].
  destruct (rp_launched r), (w_health w); by cbn.
Qed.

Lemma note_thermal_frame w ds p : ∀ h, ∃ l, note_thermal c w ds p h = (with_trace l (hs_asked h) h, Ok tt).
Proof.
induction ds as [|d ds IH]; intros h; cbn [note_thermal]; [exists (hs_refused h); by rewrite with_trace_id|].
unfold mbind, py_bind. destruct (starts_with _ _).
- destruct (pin_frame w d (reason_of d p) (thermal_pin_s c) h) as [l ->].
  destruct (IH (with_trace l (hs_asked h) h)) as [l' ->]. by exists l'.
- unfold mret, py_ret. apply IH.
Qed.

Lemma preflight_frame w ds : ∀ h, ∃ t out, preflight w ds h = (with_trace (hs_refused h) t h, Ok out).
Proof.
induction ds as [|d ds IH]; intros h; cbn [preflight]; [exists (hs_asked h), []; by rewrite with_trace_id|].
unfold mbind, py_bind. case_bool_decide.
- destruct (IH h) as (t & out & ->). by eexists _, _.
- unfold ask, modify. destruct (IH (with_trace (hs_refused h) (hs_asked h ++ [(d, u "start")]) h)) as (t & out & E).
  unfold with_trace at 1 in E. rewrite E. by eexists _, _.
Qed.

Lemma pin_all_frame w l : ∀ h, ∃ r, pin_all c w l h = (with_trace r (hs_asked h) h, Ok tt).
Proof.
induction l as [|[d why] l IH]; intros h; cbn [pin_all]; [exists (hs_refused h); by rewrite with_trace_id|].
unfold mbind, py_bind. destruct (pin_frame w d why (unreachable_pin_s c) h) as [r ->].
destruct (IH (with_trace r (hs_asked h) h)) as [r' ->]. by exists r'.
Qed.

(** The running split as it was. *)
Definition untouched (h h' : host) : Prop :=
rp_assignments (hs_report h') = rp_assignments (hs_report h) ∧ rp_mode (hs_report h') = rp_mode (hs_report h) ∧
hs_launches h' = hs_launches h ∧ hs_launcher h' = hs_launcher h ∧ hs_relaunches h' = hs_relaunches h.

(** A working split is reloaded only for a lasting cause: over a host that
    serves, a check that is not forced leaves the process, the split and
    the mode as they are unless the change had been seen often enough and the cooldown
    since the last restart is over. *)
Theorem reload_needs_lasting_cause w h :
hs_launcher h = true → w_alive w = true → w_serving w = true → rp_probe (hs_report h) = true →
untouched h (reconcile c w false h).1 ∨
(stable_runs c <= Z.max 1 (hs_pending_runs h + 1)
 ∧ fltb (fsub (w_now w) (hs_last_restart h)) (cooldown_s c) = false).
Proof.
intros Hl Ha Hs Hp. unfold reconcile, mbind, py_bind, get.
assert (watchdog_plan c w h = (with_failures 0 h, Ok W_hold)) as Hw.
{ unfold watchdog_plan. by rewrite Hl, Ha, Hs, Hp. }
enough (untouched h (rebalance c w false (with_failures 0 h)).1 ∨
 (stable_runs c <= Z.max 1 (hs_pending_runs h + 1)
 ∧ fltb (fsub (w_now w) (hs_last_restart h)) (cooldown_s c) = false)) as Hr.
{ destruct (rp_mode (hs_report h)); try (rewrite Hw; exact Hr); by left. }
unfold rebalance, mbind, py_bind, get. set (h0 := with_failures 0 h).
destruct (plan_frame c w (w_live w) [] h0) as [l0 F0].
destruct (plan c w (w_live w) [] h0) as [h1 [p|]]; cbn in F0; subst h1; [|by left].
destruct (changed _); cbn [negb]; [|by left].
match goal with |- context [note_thermal c w ?ds p ?hh] =>
  destruct (note_thermal_frame w ds p hh) as [l1 ->] end.
unfold modify. cbn [hs_pending_runs with_pending hs_pending with_trace hs_last_restart].
set (runs := if bool_decide _ then _ else 1).
assert (runs <= Z.max 1 (hs_pending_runs h + 1)) as Hruns by (subst runs h0; cbn; case_bool_decide; lia).
destruct (runs <? stable_runs c) eqn:Er; cbn [negb andb]; [by left|].
change (hs_last_restart h0) with (hs_last_restart h).
destruct (fltb _ _) eqn:Ec; cbn [negb andb]; [by left|]. right. split; [lia|done].
Qed.

Lemma kv_nonneg dtype m n : kv_bytes_per_token dtype m = Ok n → 0 <= n.
Proof.
unfold kv_bytes_per_token. destruct (_ ≫= _) as [[x y]|[]]; try done; [|by intros <-%(inj Ok)..].
intros <-%(inj Ok). destruct ((x <=? 0) || (y <=? 0)) eqn:E; [lia|]. unfold dtype_width. nia.
Qed.

(** The plan's cache has no length: the cost of a layer in every plan of
    the host holds the cache of a single token, so what the layers of a device
    really need for its cache is the plan's figure times the context. *)
Theorem plan_cache_is_one_token w live extra h h' p a :
plan c w live extra h = (h', Ok p) → parse_llama_args (extra_args c) = Ok a →
(∃ layers, total_layers c = Ok layers ∧ fp_cost p = Z.max 1 (bytes_per_layer c layers) + fp_cache p) ∧
slot_cache_bytes (context c a) (slots a) 1 (cache_dtype_bytes a) (meta c) = Ok (fp_cache p * context c a).
Proof.
intros E Ea. apply plan_ok in E as (a' & layers & cache & fp & Ea' & El & Ecache & _ & Ecost & Ec & _).
rewrite Ea in Ea'. apply (inj Ok) in Ea' as <-. split; [by exists layers|].
unfold slot_cache_bytes, cache_bytes_per_layer in *. rewrite Ecache.
apply kv_nonneg in Ecache. unfold mbind, res_bind. cbn [Z.eqb].
assert (0 <= context c a) by (unfold context; destruct (0 <? la_context a) eqn:?; lia).
assert (1 <= slots a) by (unfold slots; lia).
replace (if slots a =? 0 then 1 else slots a) with (slots a) by (destruct (slots a =? 0) eqn:?; lia).
f_equal. rewrite Ec, (Z.max_r 0 cache), (Z.max_r 0 (context c a)), (Z.max_r 1 (slots a)) by lia.
change (Z.max 0 1) with 1. rewrite Z.mul_1_r.
replace (cache * context c a * slots a) with (cache * slots a * context c a) by ring.
apply Z.max_r. apply Z.mul_nonneg_nonneg; [apply Z.mul_nonneg_nonneg|]; lia.
Qed.
End Theorems.

(** ** Concrete runs *)

#[local] Instance host_repr : PyRepr := λ _, [].

Definition demo_config : config :=
  Config (u "/models/m.gguf") [] 8099
    [(u "block_count", VInt 16); (u "attention.head_count", VInt 8); (u "attention.head_count_kv", VInt 2);
     (u "embedding_length", VInt 512)]
    (Some 16000) 0 2048 0 100 1 [] None f0 true (f_of_Z 300) (f_of_Z 300) (f_of_Z 300) 2 2.
Definition demo_peer (name : string) (mem : Z) : pyval :=
  VDict [(u "node_id", VStr (u name)); (u "mem_available_bytes", VInt mem)].
Definition demo_world (serves : bool) (now : Z) : world :=
  World (f_of_Z now) [demo_peer "a" 9000; demo_peer "b" 8000; demo_peer "c" 7000] [] true
    [(u "a", u "10.0.0.1:50052"); (u "b", u "10.0.0.2:50052"); (u "c", u "10.0.0.3:50052")]
    (λ _, None) false Started serves serves serves serves serves.
Definition demo_host : host := (start demo_config (demo_world true 1) None [] new_host).1.

Lemma demo_sick now : sick demo_config (demo_world false now).
Proof. split_and!; [done|done|done|]. intros h. by vm_compute. Qed.

Lemma host_gives_up_witness :
  let ws := [demo_world false 10; demo_world false 20; demo_world false 30] in
  rp_mode (hs_report (checks demo_config ws demo_host)) = M_failed ∧
  length (rp_assignments (hs_report (checks demo_config ws demo_host))) = 2%nat.
Proof.
  cbn zeta.
  pose proof (host_gives_up demo_config ltac:(done) [demo_world false 10; demo_world false 20; demo_world false 30] demo_host) as H.
  destruct H as [H1 H2].
  - repeat constructor; apply demo_sick.
  - split; [apply (bool_decide_unpack _); by vm_compute|right; left; by vm_compute].
  - by vm_compute.
  - by vm_compute.
  - by vm_compute.
  - split; [exact H1|]. rewrite H2; [by vm_compute|].
    replace (rp_assignments (hs_report demo_host)).*1 with [u "a"; u "b"; u "c"] by (by vm_compute).
    repeat constructor; done.
Defined.

Lemma start_is_honest_witness :
  ∃ r, start demo_config (demo_world true 1) None [] new_host = (demo_host, Ok r) ∧
    rp_remote r = total (rp_assignments r) ∧ rp_mode r = M_split.
Proof.
  destruct (start demo_config (demo_world true 1) None [] new_host) as [h' [r|]] eqn:E.
  - exists r. pose proof (start_is_honest demo_config (demo_world true 1) None [] new_host h' r ltac:(done) ltac:(done) E)
      as (Hr & _ & Ht & _). unfold demo_host. rewrite E. split_and!; [done|exact Ht|].
    rewrite <- Hr. replace h' with demo_host by (unfold demo_host; by rewrite E). by vm_compute.
  - exfalso. assert (is_ok (start demo_config (demo_world true 1) None [] new_host).2 = true) as Hok by (by vm_compute).
    rewrite E in Hok. done.
Defined.

Lemma reload_needs_lasting_cause_witness :
  untouched demo_host (reconcile demo_config (demo_world true 2) false demo_host).1 ∨
  (2 <= Z.max 1 (hs_pending_runs demo_host + 1)
   ∧ fltb (fsub (f_of_Z 2) (hs_last_restart demo_host)) (f_of_Z 300) = false).
Proof. apply (reload_needs_lasting_cause demo_config (demo_world true 2) demo_host); by vm_compute. Defined.

Lemma plan_cache_is_one_token_witness :
  ∃ p, plan demo_config (demo_world true 1) [] [] new_host = (new_host, Ok p) ∧
    slot_cache_bytes 2048 1 1 2 (meta demo_config) = Ok (fp_cache p * 2048).
Proof.
  destruct (plan demo_config (demo_world true 1) [] [] new_host) as [h' [p|]] eqn:E.
  - exists p. destruct (plan_cache_is_one_token demo_config (demo_world true 1) [] [] new_host h' p (Llama 1 false 0 [] []) E eq_refl)
      as [_ Hc]. split; [|exact Hc]. f_equal. replace h' with (plan demo_config (demo_world true 1) [] [] new_host).1 by (by rewrite E).
    by vm_compute.
  - exfalso. assert (is_ok (plan demo_config (demo_world true 1) [] [] new_host).2 = true) as Hok by (by vm_compute).
    rewrite E in Hok. done.
Defined.
