(* ===== verification/RosBridge.v ===== *)
(** * Messages to the robot ([src/ros2_interface.py])

    The message types, their validation, and publishing.  [RosPort] is what
    the robotics handler relies on; the in-memory interface and the one over
    the ROS 2 middleware are its instances, the middleware itself accepting
    what it is handed.  Messages are mutable objects that publishing sanitises
    in place: [ros_publish] answers the message as it is afterwards. *)

From Stdlib Require Import ZArith Lia.
From Stdlib Require Import Floats.SpecFloat.
From S2P Require Import Prelude PyFloat PyStr PyVal.

Local Open Scope Z_scope.

(** ** Messages *)

Record Vector3 := Vec { vx : f64; vy : f64; vz : f64 }.
Record Twist := MkTwist { linear : Vector3; angular : Vector3 }.
Record JointTrajectoryPoint := Point {
  positions : list f64;
  velocities : list f64;
  accelerations : list f64;
  time_from_start : f64
}.
Record JointTrajectory := Trajectory {
  joint_names : list pystr;
  points : list JointTrajectoryPoint
}.
Inductive message := M_twist (t : Twist) | M_trajectory (t : JointTrajectory).

Definition zero_vector : Vector3 := Vec f0 f0 f0.
(** [Twist()]. *)
Definition zero_twist : Twist := MkTwist zero_vector zero_vector.

(** ** Validation *)

Definition is_finite (v : f64) : bool :=
  match v with S754_zero _ | S754_finite _ _ _ => true | _ => false end.

Definition HUNDRED : f64 := f_of_Z 100.

(** [sanitize_twist]'s [_clean], and [sanitize_twist]. *)
Definition clean_component (v : f64) : f64 :=
  if is_finite v then fclamp (fneg HUNDRED) HUNDRED v else f0.
Definition clean_vector (v : Vector3) : Vector3 :=
  Vec (clean_component (vx v)) (clean_component (vy v)) (clean_component (vz v)).
Definition sanitize_twist (t : Twist) : Twist :=
  MkTwist (clean_vector (linear t)) (clean_vector (angular t)).

(** [0.0 if math.isnan(v) or math.isinf(v) else v], and a whole point. *)
Definition finite_or_zero (v : f64) : f64 := if is_finite v then v else f0.
Definition clean_point (p : JointTrajectoryPoint) : JointTrajectoryPoint :=
  Point (finite_or_zero <$> positions p) (finite_or_zero <$> velocities p)
    (finite_or_zero <$> accelerations p) (time_from_start p).

(** Each point's time against the one before it. *)
Fixpoint times_ok (ps : list JointTrajectoryPoint) : bool :=
  match ps with
  | p :: ((q :: _) as rest) => negb (fltb (time_from_start q) (time_from_start p)) && times_ok rest
  | _ => true
  end.

(** [validate_joint_trajectory]: the trajectory as it is left, and whether it
    was accepted. *)
Definition validate_joint_trajectory (t : JointTrajectory) : JointTrajectory * res unit :=
  match joint_names t with
  | [] => (t, Raise (ValueError (u "trajectory has no joint names")))
  | _ =>
      (Trajectory (joint_names t) (clean_point <$> points t),
       if times_ok (points t) then Ok tt
       else Raise (ValueError (u "trajectory time_from_start must be non-decreasing")))
  end.

Definition validate_message (m : message) : message * res unit :=
  match m with
  | M_twist t => (M_twist (sanitize_twist t), Ok tt)
  | M_trajectory t => let '(t, r) := validate_joint_trajectory t in (M_trajectory t, r)
  end.

(** A zero-velocity twist, which the rate limit lets through. *)
Definition is_emergency_stop (m : message) : bool :=
  match m with
  | M_twist t => feqb (vx (linear t)) f0 && feqb (vy (linear t)) f0 && feqb (vz (angular t)) f0
  | M_trajectory _ => false
  end.

(** ** The interface *)

Class RosPort (R : Type) := {
  ros_publish : f64 → pystr → message → py R message;
  ros_connected : R → bool;
  ros_create_publisher : pystr → R → R;
  ros_joints : R → option (list f64);
  ros_scan : R → option (list f64);
  ros_shutdown : R → R;
  ros_sent : R → list (pystr * message)
}.

(** What a published message is like: components finite and within the bound,
    joints named, no number of a point but its time left out of the reals, and
    times that do not decrease. *)
Definition component_ok (v : f64) : bool := fleb (fneg HUNDRED) v && fleb v HUNDRED.
Definition vector_ok (v : Vector3) : bool :=
  component_ok (vx v) && component_ok (vy v) && component_ok (vz v).
Definition point_ok (p : JointTrajectoryPoint) : bool :=
  forallb is_finite (positions p) && forallb is_finite (velocities p)
  && forallb is_finite (accelerations p).
Definition message_ok (m : message) : bool :=
  match m with
  | M_twist t => vector_ok (linear t) && vector_ok (angular t)
  | M_trajectory t =>
      negb (bool_decide (joint_names t = [])) && forallb point_ok (points t)
      && times_ok (points t)
  end.

Class RosPortLaws (R : Type) `{RosPort R} := {
  ros_serves : R → pystr → Prop;
  ros_serves_kept now t m r t' : ros_serves r t' → ros_serves (ros_publish now t m r).1 t';
  ros_created t r :
    ros_serves (ros_create_publisher t r) t ∧ ros_sent (ros_create_publisher t r) = ros_sent r
    ∧ (∀ t', ros_serves r t' → ros_serves (ros_create_publisher t r) t');
  ros_shutdown_sent r : ros_sent (ros_shutdown r) = ros_sent r;
  (** At most one message goes out, on the topic, sanitised. *)
  ros_sends now t m r :
    let r' := (ros_publish now t m r).1 in
    ros_sent r' = ros_sent r ∨
    (ros_serves r t ∧ is_ok (validate_message m).2 = true
     ∧ ros_sent r' = ros_sent r ++ [(t, (validate_message m).1)]);
  (** The message is left as it was, or sanitised. *)
  ros_leaves now t m r m' :
    (ros_publish now t m r).2 = Ok m' → m' = m ∨ m' = (validate_message m).1;
  (** A zero-velocity twist always goes out. *)
  ros_stops now t m r :
    ros_serves r t → is_emergency_stop m = true →
    ros_sent (ros_publish now t m r).1 = ros_sent r ++ [(t, (validate_message m).1)] ∧
    is_ok (ros_publish now t m r).2 = true
}.

(** ** The two interfaces *)

(** The state both keep: the limit's interval, the last publication of each
    topic, what went out and the health of the connection.  [publishers] are
    the registered topics. *)
Record ros_state := Ros {
  min_interval : f64;
  publishers : list pystr;
  last_publish : list (pystr * f64);
  published : list (pystr * message);
  connected : bool
}.

Definition new_ros (rate_limit_hz : f64) : ros_state :=
  Ros (fdiv f1 (fmax (f_dec 1 1) rate_limit_hz)) [] [] [] true.

(** [create_publisher]. *)
Definition create_publisher (topic : pystr) (r : ros_state) : ros_state :=
  Ros (min_interval r)
    (if bool_decide (topic ∈ publishers r) then publishers r else publishers r ++ [topic])
    (last_publish r) (published r) (connected r).

Definition rate_limited (now : f64) (topic : pystr) (m : message) (r : ros_state) : bool :=
  negb (is_emergency_stop m)
  && match dget topic (last_publish r) with
     | Some last => fltb (fsub now last) (min_interval r)
     | None => false
     end.

Definition stamp (now : f64) (topic : pystr) (r : ros_state) : ros_state :=
  Ros (min_interval r) (publishers r) (dset topic now (last_publish r)) (published r) (connected r).
Definition log_message (topic : pystr) (m : message) (r : ros_state) : ros_state :=
  Ros (min_interval r) (publishers r) (last_publish r) (published r ++ [(topic, m)]) (connected r).

(** The end of [publish]: validation, and the message out. *)
Definition send (topic : pystr) (m : message) : py ros_state message := λ r,
  match validate_message m with
  | (m, Ok _) => (log_message topic m r, Ok m)
  | (m, Raise x) => (r, Raise x)
  end.

(** [StubROS2Interface.publish]. *)
Definition stub_publish (now : f64) (topic : pystr) (m : message) : py ros_state message := λ r,
  if rate_limited now topic m r then (r, Ok m) else send topic m (stamp now topic r).

(** [ROS2Interface.publish]: a topic without a publisher raises, after the time
    of the attempt was noted.  [published] is what the middleware was handed. *)
Definition node_publish (now : f64) (topic : pystr) (m : message) : py ros_state message := λ r,
  if rate_limited now topic m r then (r, Ok m)
  else if bool_decide (topic ∈ publishers r) then send topic m (stamp now topic r)
  else (stamp now topic r,
        Raise (RuntimeError (u "No publisher registered for topic '" ++ topic ++ u "'"))).

(** [get_published_messages] of the in-memory interface. *)
Definition get_published_messages (topic : option pystr) (r : ros_state) : list (pystr * message) :=
  match topic with
  | None => published r
  | Some t => List.filter (λ e : pystr * message, bool_decide (e.1 = t)) (published r)
  end.

(** [set_connected], and the end of the in-memory interface. *)
Definition set_connected (b : bool) (r : ros_state) : ros_state :=
  Ros (min_interval r) (publishers r) (last_publish r) (published r) b.
Definition clear_publishers (r : ros_state) : ros_state :=
  Ros (min_interval r) [] (last_publish r) (published r) (connected r).

(** The in-memory interface's canned readings: joints at rest and a scan with
    nothing nearer than five metres.  The other one offers none. *)
Definition canned_joints : list f64 := replicate 6 f0.
Definition canned_scan : list f64 := replicate 360 (f_of_Z 5).

Record stub_ros := StubRos { stub : ros_state }.
Record node_ros := NodeRos { node : ros_state }.

#[export] Instance stub_port : RosPort stub_ros := {
  ros_publish now t m r := let '(s, x) := stub_publish now t m (stub r) in (StubRos s, x);
  ros_connected r := connected (stub r);
  ros_create_publisher t r := StubRos (create_publisher t (stub r));
  ros_joints _ := Some canned_joints;
  ros_scan _ := Some canned_scan;
  ros_shutdown r := StubRos (clear_publishers (stub r));
  ros_sent r := published (stub r)
}.

#[export] Instance node_port : RosPort node_ros := {
  ros_publish now t m r := let '(s, x) := node_publish now t m (node r) in (NodeRos s, x);
  ros_connected r := connected (node r);
  ros_create_publisher t r := NodeRos (create_publisher t (node r));
  ros_joints _ := None;
  ros_scan _ := None;
  ros_shutdown r := NodeRos (set_connected false (node r));
  ros_sent r := published (node r)
}.

(** ** Lemmas *)

Lemma stop_accepted m : is_emergency_stop m = true → is_ok (validate_message m).2 = true.
Proof. by destruct m. Qed.

Lemma stop_not_limited now t m r : is_emergency_stop m = true → rate_limited now t m r = false.
Proof. unfold rate_limited. by intros ->. Qed.

Lemma send_cases topic m r :
  (send topic m r).1 = r ∧ is_ok (validate_message m).2 = false ∨
  is_ok (validate_message m).2 = true ∧
  send topic m r = (log_message topic (validate_message m).1 r, Ok (validate_message m).1).
Proof.
  unfold send. destruct (validate_message m) as [m' [[]|x]]; [right; by split|left; by split].
Qed.

Lemma send_leaves topic m r m' : (send topic m r).2 = Ok m' → m' = m ∨ m' = (validate_message m).1.
Proof. unfold send. destruct (validate_message m) as [m0 [[]|x]]; cbn; [|done]. intros ->%(inj Ok). by right. Qed.

#[export] Instance stub_port_laws : RosPortLaws stub_ros.
Proof.
  refine {| ros_serves := λ _ _, True |}; cbn; [done..| | |].
  - intros now t m [r]. cbn. unfold stub_publish. destruct (rate_limited now t m r); cbn; [by left|].
    destruct (send_cases t m (stamp now t r)) as [[E _]|[Ev E]].
    + left. destruct (send _ _ _) as [r' x]. cbn in *. by subst.
    + right. by rewrite E.
  - intros now t m [r] m'. cbn. unfold stub_publish.
    destruct (rate_limited now t m r); cbn; [intros ->%(inj Ok); by left|].
    intros E. apply (send_leaves t m (stamp now t r)). by destruct (send _ _ _).
  - intros now t m [r] _ Hs. cbn. unfold stub_publish. rewrite stop_not_limited by done.
    destruct (send_cases t m (stamp now t r)) as [[_ E]|[_ E]]; [by rewrite stop_accepted in E|].
    by rewrite E.
Defined.

#[export] Instance node_port_laws : RosPortLaws node_ros.
Proof.
  assert (∀ now t m r, publishers (node_publish now t m r).1 = publishers r) as Hp.
  { intros now t m r. unfold node_publish. destruct (rate_limited now t m r); [done|].
    case_bool_decide; [|done]. destruct (send_cases t m (stamp now t r)) as [[E _]|[_ E]]; by rewrite E. }
  refine {| ros_serves := λ r t, t ∈ publishers (node r) |}; cbn.
  - intros now t m [r] t'. specialize (Hp now t m r). cbn.
    destruct (node_publish now t m r) as [r' x]. cbn in *. by rewrite Hp.
  - intros t [r]. cbn. split_and!; [|done|]; intros; case_bool_decide; set_solver.
  - done.
  - intros now t m [r]. clear Hp. cbn. unfold node_publish. destruct (rate_limited now t m r); cbn; [by left|].
    case_bool_decide; cbn; [|by left]. destruct (send_cases t m (stamp now t r)) as [[E _]|[Ev E]].
    + left. destruct (send _ _ _) as [r' x]. cbn in *. by subst.
    + right. by rewrite E.
  - intros now t m [r] m'. clear Hp. cbn. unfold node_publish.
    destruct (rate_limited now t m r); cbn; [intros ->%(inj Ok); by left|].
    case_bool_decide; cbn; [|done].
    intros E. apply (send_leaves t m (stamp now t r)). by destruct (send _ _ _).
  - intros now t m [r] Ht Hs. clear Hp. cbn in *. unfold node_publish.
    rewrite stop_not_limited, bool_decide_true by done.
    destruct (send_cases t m (stamp now t r)) as [[_ E]|[_ E]]; [by rewrite stop_accepted in E|].
    by rewrite E.
Defined.

(** ** What goes out *)

Lemma clean_component_ok v : component_ok (clean_component v) = true.
Proof.
  unfold clean_component, component_ok. destruct (is_finite v); [|by vm_compute].
  apply andb_true_iff, fclamp_range. by vm_compute.
Qed.

Lemma clean_vector_ok v : vector_ok (clean_vector v) = true.
Proof. unfold vector_ok. cbn. by rewrite !clean_component_ok. Qed.

Lemma finite_or_zero_finite l : forallb is_finite (finite_or_zero <$> l) = true.
Proof.
  induction l as [|v l IH]; [done|]. cbn. rewrite IH, andb_true_r.
  unfold finite_or_zero. by destruct (is_finite v) eqn:E.
Qed.

Lemma clean_point_ok p : point_ok (clean_point p) = true.
Proof. unfold point_ok. cbn. by rewrite !finite_or_zero_finite. Qed.

Lemma clean_times ps : times_ok (clean_point <$> ps) = times_ok ps.
Proof.
  induction ps as [|p [|q ps] IH]; [done|done|].
  cbn [fmap list_fmap times_ok] in *. by rewrite IH.
Qed.

Lemma validated_ok m : is_ok (validate_message m).2 = true → message_ok (validate_message m).1 = true.
Proof.
  destruct m as [t|[ns ps]]; cbn; [by rewrite !clean_vector_ok|].
  unfold validate_joint_trajectory. cbn [joint_names points].
  destruct ns as [|n ns]; [done|]. destruct (times_ok ps) eqn:Et; [|done]. intros _. cbn.
  rewrite clean_times, Et, andb_true_r.
  apply forallb_forall. intros q (p & <- & _)%in_map_iff. apply clean_point_ok.
Qed.

(** Whatever is handed to an interface, with whatever timing, all that
    goes out is well formed: velocities finite and at most 100 in magnitude,
    trajectories with named joints, finite numbers and times that never
    decrease. *)
Theorem sent_is_wellformed {R} `{RosPortLaws R} now t m (r : R) :
  Forall (λ e, message_ok e.2 = true) (ros_sent r) →
  Forall (λ e, message_ok e.2 = true) (ros_sent (ros_publish now t m r).1).
Proof.
  intros Hr. destruct (ros_sends now t m r) as [->|(_ & Hok & ->)]; [done|].
  apply Forall_app. split; [done|]. by apply Forall_singleton, validated_ok.
Qed.

Lemma sent_is_wellformed_witness :
  let m := M_twist (MkTwist (Vec f_nan f_inf (f_of_Z 3)) zero_vector) in
  Forall (λ e : pystr * message, message_ok e.2 = true)
    (ros_sent (ros_publish f1 (u "/cmd_vel") m (StubRos (new_ros (f_of_Z 10)))).1).
Proof.
  cbn zeta. apply (sent_is_wellformed (R := stub_ros)). constructor.
Defined.

Lemma zero_twist_clean : sanitize_twist zero_twist = zero_twist.
Proof. by vm_compute. Qed.
