(* ===== verification/Planner.v ===== *)
(** * Motion planning ([src/moveit_planner.py])

    The planners behind the robotics handler: the deterministic one, whole, and
    the one over MoveIt 2, whose library is a field.  [Planner] is what the
    handler relies on. *)

From Stdlib Require Import ZArith Lia.
From Stdlib Require Import Floats.SpecFloat.
From S2P Require Import Prelude PyFloat PyStr PyVal RosBridge.

Local Open Scope Z_scope.

(** [math.pi], and [abs]. *)
Definition PI : f64 := f_dec 3141592653589793 15.
Definition fabs : f64 → f64 := SFabs.

(** ** The interface *)

Class Planner (P : Type) := {
  plan_to_pose : Vector3 → py P (option JointTrajectory);
  validate_trajectory : JointTrajectory → P → res (bool * pystr);
  check_collision : JointTrajectory → P → res bool;
  cancel_all_goals : py P unit
}.

(** ** The deterministic planner *)

Record collision_object := Obstacle {
  ob_name : pystr;
  ob_position : list (pystr * f64);
  ob_size : list (pystr * f64)
}.

Record stub_planner := StubPlanner {
  sp_joints : list pystr;
  sp_limits : list (pystr * (f64 * f64));
  velocity_limit : f64;
  acceleration_limit : f64;
  collision_objects : list collision_object
}.

Definition DEFAULT_JOINT_NAMES : list pystr :=
  [u "joint_1"; u "joint_2"; u "joint_3"; u "joint_4"; u "joint_5"; u "joint_6"].
Definition DEFAULT_JOINT_LIMITS : list (pystr * (f64 * f64)) :=
  (λ n, (n, (fneg PI, PI))) <$> DEFAULT_JOINT_NAMES.

(** [__init__]: empty names and limits mean the defaults. *)
Definition new_stub_planner (names : list pystr) (limits : list (pystr * (f64 * f64)))
  (velocity acceleration : f64) (objects : list collision_object) : stub_planner :=
  StubPlanner
    (match names with [] => DEFAULT_JOINT_NAMES | _ => names end)
    (match limits with [] => DEFAULT_JOINT_LIMITS | _ => limits end)
    (fmax (f_dec 1 2) velocity) (fmax (f_dec 1 2) acceleration) objects.

Definition limits_of (p : stub_planner) (name : pystr) : f64 * f64 :=
  default (fneg PI, PI) (dget name (sp_limits p)).

Definition scales : list f64 := [f_dec 5 1; f_dec 4 1; f_dec 3 1; f_dec 2 1; f_dec 1 1; f_dec 5 2].

(** [l[i]]. *)
Definition index (l : list f64) (i : nat) : res f64 :=
  match l !! i with
  | Some v => Ok v
  | None => Raise (IndexError (u "list index out of range"))
  end.

(** [compute_ik]: the loop over the joints, and the joint positions. *)
Definition joint_position (p : stub_planner) (pose : Vector3) (i : nat) (name : pystr) : res f64 :=
  pos ← (if (i <? 3)%nat then
           v ← index [vx pose; vy pose; vz pose] i;
           s ← index scales i; Ok (fmul v s)
         else s ← index scales i; Ok (fmul (fadd (vx pose) (vy pose)) s));
  let '(lo, hi) := limits_of p name in
  Ok (fclamp lo hi pos).

Fixpoint ik_from (p : stub_planner) (pose : Vector3) (i : nat) (names : list pystr) : res (list f64) :=
  match names with
  | [] => Ok []
  | n :: rest =>
      v ← joint_position p pose i n;
      vs ← ik_from p pose (S i) rest;
      Ok (v :: vs)
  end.

Definition compute_ik (p : stub_planner) (pose : Vector3) : res (list f64) :=
  ik_from p pose 0 (sp_joints p).

(** [_create_trajectory]. *)
Definition create_trajectory (p : stub_planner) (pos : list f64) : JointTrajectory :=
  Trajectory (sp_joints p) [Point pos [] [] f1].

(** [plan_to_pose]. *)
Definition stub_plan_to_pose (p : stub_planner) (pose : Vector3) : res (option JointTrajectory) :=
  pos ← compute_ik p pose; Ok (Some (create_trajectory p pos)).

(** [plan_to_joint_target]: a joint that is not named goes to zero. *)
Definition joint_target (p : stub_planner) (targets : list (pystr * f64)) (name : pystr) : f64 :=
  match dget name targets with
  | Some pos => let '(lo, hi) := limits_of p name in fclamp lo hi pos
  | None => f0
  end.
Definition plan_to_joint_target (p : stub_planner) (targets : list (pystr * f64)) :
  option JointTrajectory :=
  match targets with
  | [] => None
  | _ => Some (create_trajectory p (joint_target p targets <$> sp_joints p))
  end.

(** [plan_cartesian_path]: a second per waypoint. *)
Fixpoint cartesian_points (p : stub_planner) (i : Z) (waypoints : list Vector3) :
  res (list JointTrajectoryPoint) :=
  match waypoints with
  | [] => Ok []
  | w :: rest =>
      pos ← compute_ik p w;
      t ← py_float_of_Z (i + 1);
      ps ← cartesian_points p (i + 1) rest;
      Ok (Point pos [] [] t :: ps)
  end.
Definition plan_cartesian_path (p : stub_planner) (waypoints : list Vector3) :
  res (option JointTrajectory) :=
  match waypoints with
  | [] => Ok None
  | _ => ps ← cartesian_points p 0 waypoints; Ok (Some (Trajectory (sp_joints p) ps))
  end.

(** [check_collision]: the first two joints against a box around the object. *)
Definition hits (pt : JointTrajectoryPoint) (o : collision_object) : res bool :=
  a ← index (positions pt) 0;
  if fltb (fabs (fsub a (default f0 (dget (u "x") (ob_position o)))))
       (default (f_dec 1 1) (dget (u "x") (ob_size o)))
  then
    b ← index (positions pt) 1;
    Ok (fltb (fabs (fsub b (default f0 (dget (u "y") (ob_position o)))))
          (default (f_dec 1 1) (dget (u "y") (ob_size o))))
  else Ok false.

(** A loop that returns at the first hit. *)
Fixpoint any_hit {A} (f : A → res bool) (l : list A) : res bool :=
  match l with
  | [] => Ok false
  | x :: rest => b ← f x; if (b : bool) then Ok true else any_hit f rest
  end.

Definition stub_check_collision (p : stub_planner) (t : JointTrajectory) : res bool :=
  match collision_objects p with
  | [] => Ok false
  | objs => any_hit (λ pt, any_hit (hits pt) objs) (points t)
  end.

(** [validate_trajectory]: a joint outside its limits; [zip] stops where the
    positions of the point do. *)
Definition outside_limits (p : stub_planner) (nv : pystr * f64) : bool :=
  let '(lo, hi) := limits_of p nv.1 in fltb nv.2 lo || fltb hi nv.2.
Definition limit_fault (p : stub_planner) (names : list pystr) (pt : JointTrajectoryPoint) :
  option pystr :=
  fst <$> List.find (outside_limits p) (zip names (positions pt)).

(** A joint that moves too fast from one point to the next. *)
Definition too_fast (p : stub_planner) (dt : f64) (x : pystr * (f64 * f64)) : bool :=
  fltb (velocity_limit p) (fdiv (fabs (fsub x.2.2 x.2.1)) dt).
Definition velocity_fault (p : stub_planner) (names : list pystr)
  (a b : JointTrajectoryPoint) : option pystr :=
  let dt := fsub (time_from_start b) (time_from_start a) in
  if fleb dt f0 then None
  else fst <$> List.find (too_fast p dt) (zip names (zip (positions a) (positions b))).

(** The first fault found along a list, and along its consecutive pairs. *)
Fixpoint first_some {A B} (f : A → option B) (l : list A) : option B :=
  match l with
  | [] => None
  | x :: rest => match f x with Some b => Some b | None => first_some f rest end
  end.
Definition pairs {A} (l : list A) : list (A * A) := zip l (tail l).

Definition stub_validate (p : stub_planner) (t : JointTrajectory) : bool * pystr :=
  match points t with
  | [] => (false, u "empty trajectory")
  | _ =>
      match first_some (limit_fault p (joint_names t)) (points t) with
      | Some n => (false, u "joint '" ++ n ++ u "' outside limits")
      | None =>
          match first_some (λ ab, velocity_fault p (joint_names t) ab.1 ab.2) (pairs (points t)) with
          | Some n => (false, u "joint '" ++ n ++ u "' velocity exceeds limit")
          | None => (true, [])
          end
      end
  end.

(** [add_collision_object] and [remove_collision_object]. *)
Definition with_objects (l : list collision_object) (p : stub_planner) : stub_planner :=
  StubPlanner (sp_joints p) (sp_limits p) (velocity_limit p) (acceleration_limit p) l.
Definition add_collision_object (o : collision_object) (p : stub_planner) : stub_planner :=
  with_objects (collision_objects p ++ [o]) p.
Fixpoint remove_first (name : pystr) (l : list collision_object) : option (list collision_object) :=
  match l with
  | [] => None
  | o :: rest =>
      if bool_decide (ob_name o = name) then Some rest
      else cons o <$> remove_first name rest
  end.
Definition remove_collision_object (name : pystr) (p : stub_planner) : stub_planner * bool :=
  match remove_first name (collision_objects p) with
  | Some l => (with_objects l p, true)
  | None => (p, false)
  end.

#[export] Instance stub_planning : Planner stub_planner := {
  plan_to_pose pose p := (p, stub_plan_to_pose p pose);
  validate_trajectory t p := Ok (stub_validate p t);
  check_collision t p := stub_check_collision p t;
  cancel_all_goals p := (p, Ok tt)
}.

(** ** The planner over MoveIt 2 *)

(** [mv_plan] is what [_parse_plan_result] makes of the library's answer, an
    exception included; [mv_stop] how [group.stop()] ends. *)
Record moveit_planner := MoveIt {
  mv_joints : list pystr;
  mv_limits : list (pystr * (f64 * f64));
  mv_plan : Vector3 → res (option (list JointTrajectoryPoint));
  mv_stop : res unit
}.

(** [plan_to_pose]: a failure of the library is no plan. *)
Definition moveit_plan (p : moveit_planner) (pose : Vector3) : option JointTrajectory :=
  match mv_plan p pose with
  | Ok (Some ps) => Some (Trajectory (mv_joints p) ps)
  | _ => None
  end.

Definition point_finite (p : JointTrajectoryPoint) : option pystr :=
  if negb (forallb is_finite (positions p)) then Some (u "positions")
  else if negb (forallb is_finite (velocities p)) then Some (u "velocities")
  else if negb (forallb is_finite (accelerations p)) then Some (u "accelerations")
  else None.

(** The faults of the points in order, and of the times. *)
Fixpoint point_faults (names : list pystr) (i : Z) (ps : list JointTrajectoryPoint) : option pystr :=
  match ps with
  | [] => None
  | p :: rest =>
      match point_finite p with
      | Some label => Some (u "point " ++ str_of_Z i ++ u ": NaN/Inf in " ++ label)
      | None =>
          if negb (bool_decide (positions p = [])) && negb (length (positions p) =? length names)%nat
          then Some (u "point " ++ str_of_Z i ++ u ": positions/joint_names size mismatch")
          else point_faults names (i + 1) rest
      end
  end.
Fixpoint time_faults (i : Z) (ps : list JointTrajectoryPoint) : option pystr :=
  match ps with
  | p :: ((q :: _) as rest) =>
      if fltb (time_from_start q) (time_from_start p)
      then Some (u "point " ++ str_of_Z i ++ u ": time_from_start must be non-decreasing")
      else time_faults (i + 1) rest
  | _ => None
  end.

Definition moveit_validate (t : JointTrajectory) : bool * pystr :=
  match points t, joint_names t with
  | [], _ => (false, u "empty trajectory")
  | _, [] => (false, u "trajectory has no joint names")
  | ps, names =>
      match point_faults names 0 ps with
      | Some why => (false, why)
      | None => match time_faults 1 ps with
                | Some why => (false, why)
                | None => (true, [])
                end
      end
  end.

#[export] Instance moveit_planning : Planner moveit_planner := {
  plan_to_pose pose p := (p, Ok (moveit_plan p pose));
  validate_trajectory t _ := Ok (moveit_validate t);
  check_collision _ _ := Ok false;
  cancel_all_goals p := (p, mv_stop p)
}.

(** ** Lemmas *)

(** Planning needs a scale per joint. *)
Definition planner_ok (p : stub_planner) : Prop :=
  sp_joints p ≠ [] ∧ (length (sp_joints p) ≤ 6)%nat ∧
  ∀ n, fleb (limits_of p n).1 (limits_of p n).2 = true.

Lemma joint_position_cases p pose i name :
  (i < 6)%nat ∧ (∃ v, joint_position p pose i name =
                      Ok (fclamp (limits_of p name).1 (limits_of p name).2 v))
  ∨ (6 ≤ i)%nat ∧ joint_position p pose i name = Raise (IndexError (u "list index out of range")).
Proof.
  unfold joint_position. destruct (limits_of p name) as [lo hi]. destruct (decide (i < 6)%nat) as [Hi|Hi].
  - left. split; [done|]. do 6 (destruct i as [|i]; [by eexists|]). lia.
  - right. split; [lia|]. do 6 (destruct i as [|i]; [lia|]). done.
Qed.

Lemma ik_from_ok p pose names : ∀ i,
  (i + length names ≤ 6)%nat →
  ∃ vs, ik_from p pose i names = Ok vs ∧
    Forall2 (λ n v, ∃ x, v = fclamp (limits_of p n).1 (limits_of p n).2 x) names vs.
Proof.
  induction names as [|n names IH]; intros i Hi; simpl in *; [by exists []|].
  destruct (joint_position_cases p pose i n) as [(_ & v & ->)|[? _]]; [|lia].
  destruct (IH (S i)) as (vs & E & Hvs); [lia|]. rewrite E. cbn. eauto.
Qed.

Lemma ik_from_out p pose names : ∀ i,
  (i ≤ 6)%nat → (6 < i + length names)%nat →
  ik_from p pose i names = Raise (IndexError (u "list index out of range")).
Proof.
  induction names as [|n names IH]; intros i Hi Hn; simpl in *; [lia|].
  destruct (joint_position_cases p pose i n) as [(? & v & ->)|[_ ->]]; [|done].
  cbn. rewrite IH by lia. done.
Qed.

Lemma fclamp_inside lo hi x : fleb lo hi = true →
  fltb (fclamp lo hi x) lo || fltb hi (fclamp lo hi x) = false.
Proof.
  intros Hle. destruct (fclamp_range lo hi x Hle) as [H1 H2].
  apply orb_false_iff. split; apply not_true_iff_false; intros H.
  - apply fltb_fleb_false in H. congruence.
  - apply fltb_fleb_false in H. congruence.
Qed.

Lemma find_none_zip p names vs :
  Forall2 (λ n v, ∃ x, v = fclamp (limits_of p n).1 (limits_of p n).2 x) names vs →
  (∀ n, fleb (limits_of p n).1 (limits_of p n).2 = true) →
  List.find (outside_limits p) (zip names vs) = None.
Proof.
  intros H Hl. induction H as [|n v names vs [x ->] _ IH]; [done|]. cbn [zip zip_with List.find].
  unfold outside_limits at 1. cbn. specialize (Hl n). destruct (limits_of p n) as [lo hi].
  cbn in *. by rewrite fclamp_inside.
Qed.

Lemma inside_limits p names vs :
  Forall2 (λ n v, ∃ x, v = fclamp (limits_of p n).1 (limits_of p n).2 x) names vs →
  (∀ n, fleb (limits_of p n).1 (limits_of p n).2 = true) →
  Forall2 (λ n v, fleb (limits_of p n).1 v = true ∧ fleb v (limits_of p n).2 = true) names vs.
Proof.
  intros H Hl. eapply Forall2_impl; [exact H|]. intros n v [x ->]. by apply fclamp_range.
Qed.

Lemma ordered_limits p :
  forallb (λ e : pystr * (f64 * f64), fleb e.2.1 e.2.2) (sp_limits p) = true →
  ∀ n, fleb (limits_of p n).1 (limits_of p n).2 = true.
Proof.
  intros H n. unfold limits_of. destruct (dget n (sp_limits p)) as [lh|] eqn:E; [|by vm_compute].
  apply dget_elem in E. rewrite forallb_forall in H.
  apply (H (n, lh)). by apply list_elem_of_In.
Qed.

Lemma first_some_none {A B} (f : A → option B) l :
  first_some f l = None ↔ ∀ x, x ∈ l → f x = None.
Proof.
  induction l as [|x l IH]; simpl; [set_solver|]. destruct (f x) eqn:E.
  - split; [done|]. intros H. specialize (H x). rewrite E in H. apply H. set_solver.
  - rewrite IH. set_solver.
Qed.

Lemma find_none_iff {A} (f : A → bool) l : List.find f l = None ↔ ∀ x, x ∈ l → f x = false.
Proof.
  induction l as [|x l IH]; simpl; [set_solver|]. destruct (f x) eqn:E.
  - split; [done|]. intros H. specialize (H x). rewrite E in H. discriminate H. set_solver.
  - rewrite IH. set_solver.
Qed.

(** ** Theorems *)

(** The deterministic planner with at most six joints and ordered limits
    has a plan for every pose, infinite and undefined coordinates included: one
    point with every joint within its limits, which its own validation and the
    publishing interface both accept; with more joints than scales it always
    raises. *)
Theorem stub_plans_within_limits p pose :
  sp_joints p ≠ [] → (∀ n, fleb (limits_of p n).1 (limits_of p n).2 = true) →
  (length (sp_joints p) ≤ 6)%nat ∧
  (∃ pos, stub_plan_to_pose p pose = Ok (Some (create_trajectory p pos))
     ∧ Forall2 (λ n v, fleb (limits_of p n).1 v = true ∧ fleb v (limits_of p n).2 = true)
         (sp_joints p) pos
     ∧ stub_validate p (create_trajectory p pos) = (true, [])
     ∧ is_ok (validate_message (M_trajectory (create_trajectory p pos))).2 = true)
  ∨ (6 < length (sp_joints p))%nat
    ∧ stub_plan_to_pose p pose = Raise (IndexError (u "list index out of range")).
Proof.
  intros Hne Hl. destruct (decide (length (sp_joints p) ≤ 6)%nat) as [Hn|Hn]; [left|right].
  - split; [done|]. destruct (ik_from_ok p pose (sp_joints p) 0) as (vs & E & Hvs); [lia|].
    exists vs. unfold stub_plan_to_pose, compute_ik. rewrite E. split; [done|].
    split; [by apply inside_limits|]. unfold stub_validate, create_trajectory, limit_fault. cbn.
    rewrite find_none_zip by done. cbn. split; [done|].
    unfold validate_joint_trajectory. by destruct (sp_joints p).
  - split; [lia|]. unfold stub_plan_to_pose, compute_ik. rewrite ik_from_out by lia. done.
Qed.

Lemma stub_plans_within_limits_witness :
  let p := new_stub_planner [] [] f1 f1 [] in
  (length (sp_joints p) ≤ 6)%nat ∧
  (∃ pos, stub_plan_to_pose p (Vec f_nan f_inf f1) = Ok (Some (create_trajectory p pos))
     ∧ Forall2 (λ n v, fleb (limits_of p n).1 v = true ∧ fleb v (limits_of p n).2 = true)
         (sp_joints p) pos
     ∧ stub_validate p (create_trajectory p pos) = (true, [])
     ∧ is_ok (validate_message (M_trajectory (create_trajectory p pos))).2 = true)
  ∨ (6 < length (sp_joints p))%nat
    ∧ stub_plan_to_pose p (Vec f_nan f_inf f1) = Raise (IndexError (u "list index out of range")).
Proof.
  intros p. apply (stub_plans_within_limits p); [done|]. apply ordered_limits. by vm_compute.
Defined.

(** What the deterministic planner's validation accepts: exactly the
    trajectories with a point, whose every joint is not outside its limits at any
    point, and between any two consecutive points a positive time apart moves no
    faster than the velocity limit; a trajectory of one point has no velocity. *)
Theorem stub_validate_exact p t :
  (stub_validate p t).1 = true ↔
  points t ≠ [] ∧
  (∀ pt nv, pt ∈ points t → nv ∈ zip (joint_names t) (positions pt) → outside_limits p nv = false) ∧
  (∀ a b x, (a, b) ∈ pairs (points t) →
     fleb (fsub (time_from_start b) (time_from_start a)) f0 = false →
     x ∈ zip (joint_names t) (zip (positions a) (positions b)) →
     too_fast p (fsub (time_from_start b) (time_from_start a)) x = false).
Proof.
  unfold stub_validate. destruct (points t) as [|p0 ps] eqn:Ep; [naive_solver|].
  assert (first_some (limit_fault p (joint_names t)) (p0 :: ps) = None ↔
    (∀ pt nv, pt ∈ p0 :: ps → nv ∈ zip (joint_names t) (positions pt) → outside_limits p nv = false))
    as H1.
  { rewrite first_some_none. unfold limit_fault. setoid_rewrite fmap_None.
    setoid_rewrite find_none_iff. naive_solver. }
  assert (first_some (λ ab, velocity_fault p (joint_names t) ab.1 ab.2) (pairs (p0 :: ps)) = None ↔
    (∀ a b x, (a, b) ∈ pairs (p0 :: ps) →
     fleb (fsub (time_from_start b) (time_from_start a)) f0 = false →
     x ∈ zip (joint_names t) (zip (positions a) (positions b)) →
     too_fast p (fsub (time_from_start b) (time_from_start a)) x = false)) as H2.
  { rewrite first_some_none. split.
    - intros H a b x Hab Hdt Hx. specialize (H (a, b) Hab). cbn in H. unfold velocity_fault in H.
      rewrite Hdt, fmap_None, find_none_iff in H. by apply H.
    - intros H [a b] Hab. cbn. unfold velocity_fault. destruct (fleb _ f0) eqn:Hdt; [done|].
      rewrite fmap_None, find_none_iff. intros x Hx. by eapply H. }
  destruct (first_some (limit_fault _ _) _); [split; [done|naive_solver]|].
  destruct (first_some _ (pairs _)); [split; [done|naive_solver]|]. naive_solver.
Qed.

Lemma point_finite_none p : point_finite p = None ↔ point_ok p = true.
Proof. unfold point_finite, point_ok. by repeat (destruct (forallb _ _); cbn). Qed.

Lemma point_faults_none names ps i : point_faults names i ps = None →
  forallb point_ok ps = true ∧
  Forall (λ q, positions q = [] ∨ length (positions q) = length names) ps.
Proof.
  revert i. induction ps as [|q ps IH]; intros i; cbn; [done|].
  destruct (point_finite q) eqn:E; [done|]. apply point_finite_none in E. rewrite E. cbn.
  case_bool_decide as E0; cbn; [|destruct (Nat.eqb_spec (length (positions q)) (length names)); cbn; [|done]];
    intros [H1 H2]%IH; eauto.
Qed.

Lemma time_faults_none ps i : time_faults i ps = None ↔ times_ok ps = true.
Proof.
  revert i. induction ps as [|p [|q ps] IH]; intros i; cbn [time_faults times_ok]; [done|done|].
  destruct (fltb _ _); [done|]. apply (IH (i + 1)).
Qed.

Lemma finite_or_zero_id l : forallb is_finite l = true → finite_or_zero <$> l = l.
Proof.
  induction l as [|v l IH]; [done|]. cbn. intros [Hv Hl]%andb_true_iff.
  unfold finite_or_zero at 1. by rewrite Hv, IH.
Qed.

Lemma clean_points_id ps : forallb point_ok ps = true → clean_point <$> ps = ps.
Proof.
  induction ps as [|[a b c t] ps IH]; [done|]. cbn. unfold point_ok at 1. cbn.
  intros [[[Ha Hb]%andb_true_iff Hc]%andb_true_iff Hps]%andb_true_iff.
  unfold clean_point at 1. cbn. by rewrite !finite_or_zero_id, IH.
Qed.

(** What the MoveIt planner's validation accepts the publishing interface
    accepts too, and sends as it is: the two sets of checks agree. *)
Theorem moveit_validated_is_sent_as_is t :
  (moveit_validate t).1 = true →
  validate_message (M_trajectory t) = (M_trajectory t, Ok tt)
  ∧ Forall (λ q, positions q = [] ∨ length (positions q) = length (joint_names t)) (points t).
Proof.
  destruct t as [names ps]. unfold moveit_validate. cbn [points joint_names].
  destruct ps as [|q ps]; [done|]. destruct names as [|n names]; [done|].
  destruct (point_faults _ _ _) eqn:Ef; [done|]. destruct (time_faults _ _) eqn:Et; [done|]. intros _.
  apply point_faults_none in Ef as [Hp Hs]. apply time_faults_none in Et. split; [|done].
  unfold validate_message, validate_joint_trajectory. cbn [joint_names points].
  by rewrite clean_points_id, Et.
Qed.

Lemma moveit_validated_is_sent_as_is_witness :
  let t := Trajectory [u "a"] [Point [f0] [] [] f0; Point [f1] [] [] f1] in
  validate_message (M_trajectory t) = (M_trajectory t, Ok tt)
  ∧ Forall (λ q, positions q = [] ∨ length (positions q) = length (joint_names t)) (points t).
Proof. cbn zeta. apply moveit_validated_is_sent_as_is. by vm_compute. Defined.
