(* ===== verification/Robotics.v ===== *)
(** * The robotics handler ([src/robotics_handler.py])

    Motion commands under an emergency-stop latch, the watchdog, the continuous
    velocity stream and the obstacle monitor, against the interfaces of the
    publisher ([RosBridge.RosPort]), the planner ([Planner.Planner]) and the
    governor behind the fallback controller.  The three background threads are
    their passes, interleaved with the calls as the labels of [exec]; a call
    that looks at the latch and then acts is also given in its two parts, since
    it holds no lock in between. *)

From Stdlib Require Import ZArith Lia.
From Stdlib Require Import Floats.SpecFloat.
From S2P Require Import Prelude PyFloat PyStr PyVal StateMachine Fallbacks RosBridge Planner.

Local Open Scope Z_scope.

(** ** The simulation as a source of readings ([src/gazebo_simulation.py]) *)

(** The in-memory simulation's models, and the one over Gazebo, which reports
    nothing. *)
Inductive simulation := StubSim (max_models : nat) (models : list pystr) | GazeboSim.

Definition sim_joints (s : simulation) (name : pystr) : option (list f64) :=
  match s with
  | StubSim _ ms => if bool_decide (name ∈ ms) then Some (replicate 3 f0) else None
  | GazeboSim => None
  end.
Definition sim_scan (s : simulation) : option (list f64) :=
  match s with
  | StubSim _ _ => Some (replicate 360 (f_of_Z 5))
  | GazeboSim => None
  end.
Definition spawn_urdf (name : pystr) (s : simulation) : simulation * bool :=
  match s with
  | StubSim k ms =>
      if (k <=? length ms)%nat then (s, false)
      else (StubSim k (if bool_decide (name ∈ ms) then ms else ms ++ [name]), true)
  | GazeboSim => (s, true)
  end.
Definition remove_model (name : pystr) (s : simulation) : simulation * bool :=
  match s with
  | StubSim k ms =>
      if bool_decide (name ∈ ms)
      then (StubSim k (List.filter (λ n, negb (bool_decide (n = name))) ms), true)
      else (s, false)
  | GazeboSim => (s, true)
  end.
Definition sim_shutdown (s : simulation) : simulation :=
  match s with StubSim k _ => StubSim k [] | GazeboSim => s end.

(** ** The handler's state *)

Definition CMD_VEL : pystr := u "/cmd_vel".
Definition GRIPPER_CMD : pystr := u "/gripper_cmd".
Definition ARM : pystr := u "/arm_controller/follow_joint_trajectory".
Definition HEAD : pystr := u "/head_controller/follow_joint_trajectory".

(** [stream] is the running continuous thread, if any; [stream_twist] the twist
    object it republishes; [sensor] the monitor's distance while it runs. *)
Record handler (R P G : Type) := Handler {
  ros : R;
  planner : P;
  sim : option simulation;
  rb_audit : option (list audit_event);
  rb_fallback : option (FallbackController G);
  max_linear_velocity : f64;
  max_angular_velocity : f64;
  workspace_bounds : list (pystr * (f64 * f64));
  watchdog_timeout : f64;
  last_command_time : f64;
  emergency_stop_active : bool;
  stream : bool;
  stream_twist : Twist;
  stream_rate : f64;
  sensor : option f64
}.
Arguments Handler {R P G} _ _ _ _ _ _ _ _ _ _ _ _ _ _ _.
Arguments ros {R P G} _. Arguments planner {R P G} _. Arguments sim {R P G} _.
Arguments rb_audit {R P G} _. Arguments rb_fallback {R P G} _.
Arguments max_linear_velocity {R P G} _. Arguments max_angular_velocity {R P G} _.
Arguments workspace_bounds {R P G} _. Arguments watchdog_timeout {R P G} _.
Arguments last_command_time {R P G} _. Arguments emergency_stop_active {R P G} _.
Arguments stream {R P G} _. Arguments stream_twist {R P G} _. Arguments stream_rate {R P G} _.
Arguments sensor {R P G} _.

Definition DEFAULT_WORKSPACE : list (pystr * (f64 * f64)) :=
  [(u "x", (fneg (f_of_Z 2), f_of_Z 2)); (u "y", (fneg (f_of_Z 2), f_of_Z 2));
   (u "z", (f0, f_of_Z 2))].

(** Comparing a number with a bound of the workspace. *)
Definition num_lt_f (a : Z + f64) (x : f64) : bool :=
  match a with
  | inl z => negb (f_is_nan x) && negb (f_geb_Z (fneg x) (- z))
  | inr y => fltb y x
  end.
Definition num_gt_f (a : Z + f64) (x : f64) : bool :=
  match a with
  | inl z => negb (f_is_nan x) && negb (f_geb_Z x z)
  | inr y => fltb x y
  end.

Section Handler.
Context {R P G : Type} `{RosPort R} `{Planner P} `{GovernorOps G}.
Context `{PyRepr} `{PyFloatOfStr}.
Abbreviation hd := (handler R P G).
Implicit Types h : hd.

(** ** Small updates *)

Definition with_ros (r : R) h : hd :=
Handler r (planner h) (sim h) (rb_audit h) (rb_fallback h) (max_linear_velocity h)
  (max_angular_velocity h) (workspace_bounds h) (watchdog_timeout h) (last_command_time h)
  (emergency_stop_active h) (stream h) (stream_twist h) (stream_rate h) (sensor h).
Definition with_planner (p : P) h : hd :=
Handler (ros h) p (sim h) (rb_audit h) (rb_fallback h) (max_linear_velocity h)
  (max_angular_velocity h) (workspace_bounds h) (watchdog_timeout h) (last_command_time h)
  (emergency_stop_active h) (stream h) (stream_twist h) (stream_rate h) (sensor h).
Definition with_sim (s : option simulation) h : hd :=
Handler (ros h) (planner h) s (rb_audit h) (rb_fallback h) (max_linear_velocity h)
  (max_angular_velocity h) (workspace_bounds h) (watchdog_timeout h) (last_command_time h)
  (emergency_stop_active h) (stream h) (stream_twist h) (stream_rate h) (sensor h).
Definition with_books (a : option (list audit_event)) (f : option (FallbackController G)) h : hd :=
Handler (ros h) (planner h) (sim h) a f (max_linear_velocity h)
  (max_angular_velocity h) (workspace_bounds h) (watchdog_timeout h) (last_command_time h)
  (emergency_stop_active h) (stream h) (stream_twist h) (stream_rate h) (sensor h).
Definition with_estop (b : bool) h : hd :=
Handler (ros h) (planner h) (sim h) (rb_audit h) (rb_fallback h) (max_linear_velocity h)
  (max_angular_velocity h) (workspace_bounds h) (watchdog_timeout h) (last_command_time h)
  b (stream h) (stream_twist h) (stream_rate h) (sensor h).
Definition with_stream (b : bool) (t : Twist) (rate : f64) h : hd :=
Handler (ros h) (planner h) (sim h) (rb_audit h) (rb_fallback h) (max_linear_velocity h)
  (max_angular_velocity h) (workspace_bounds h) (watchdog_timeout h) (last_command_time h)
  (emergency_stop_active h) b t rate (sensor h).
Definition with_sensor (d : option f64) h : hd :=
Handler (ros h) (planner h) (sim h) (rb_audit h) (rb_fallback h) (max_linear_velocity h)
  (max_angular_velocity h) (workspace_bounds h) (watchdog_timeout h) (last_command_time h)
  (emergency_stop_active h) (stream h) (stream_twist h) (stream_rate h) d.

(** [_update_watchdog]. *)
Definition update_watchdog (now : f64) : py hd unit :=
modify (λ h, Handler (ros h) (planner h) (sim h) (rb_audit h) (rb_fallback h)
  (max_linear_velocity h) (max_angular_velocity h) (workspace_bounds h) (watchdog_timeout h)
  now (emergency_stop_active h) (stream h) (stream_twist h) (stream_rate h) (sensor h)).

(** [check_watchdog]. *)
Definition check_watchdog (now : f64) h : bool :=
fltb (watchdog_timeout h) (fsub now (last_command_time h)).

(** [__init__]; [joint_limits] and [max_acceleration] are kept by the code and
    never read. *)
Definition new_handler (r : R) (p : P) (s : option simulation) (with_audit : bool)
  (fb : option (FallbackController G)) (lin ang timeout : f64)
  (workspace : list (pystr * (f64 * f64))) (now : f64) : hd :=
Handler
  (ros_create_publisher ARM (ros_create_publisher GRIPPER_CMD (ros_create_publisher CMD_VEL r)))
  p s (if with_audit then Some [] else None) fb
  (fmax (f_dec 1 2) lin) (fmax (f_dec 1 2) ang)
  (match workspace with [] => DEFAULT_WORKSPACE | _ => workspace end)
  (fmax (f_dec 1 1) timeout) now false false zero_twist f1 None.

(** A publication, and the message as publishing left it. *)
Definition publish (now : f64) (topic : pystr) (m : message) : py hd message := λ h,
let '(r, x) := ros_publish now topic m (ros h) in (with_ros r h, x).

(** [_audit_log]: its failures are swallowed. *)
Definition audit_log (ty : pystr) (payload : pydict) : py hd unit :=
modify (λ h, with_books ((λ log, log ++ [AuditEvent ty payload]) <$> rb_audit h) (rb_fallback h) h).

(** [_check_connection]: a failure of the report, a halt included, stays here. *)
Definition check_connection : py hd bool := λ h,
if ros_connected (ros h) then (h, Ok true)
else
  let h1 := (audit_log (u "ros2_connection_lost") [] h).1 in
  match rb_fallback h1 with
  | None => (h1, Ok false)
  | Some fb =>
      let '(fb', _) := report_violation (u "ros2_connection_lost") (u "motion command refused") fb in
      (with_books (rb_audit h1) (Some fb') h1, Ok false)
  end.

(** ** Answers *)

Definition answer (l : list (string * pyval)) : pydict := (λ kv, (u kv.1, kv.2)) <$> l.
Definition text (s : string) : pyval := VStr (u s).
Definition refused (why : pystr) : pydict :=
[(u "status", text "refused"); (u "reason", VStr why)].
Definition failed (why : pystr) : pydict :=
[(u "status", text "error"); (u "message", VStr why)].
Definition CONNECTION_LOST : pydict := refused (u "ros2 connection lost").
Definition ESTOPPED : pydict := refused (u "emergency stop active (operator reset required)").

(** [Vector3.to_dict] and [Twist.to_dict]. *)
Definition vector_dict (v : Vector3) : pyval :=
VDict (answer [("x", VFloat (vx v)); ("y", VFloat (vy v)); ("z", VFloat (vz v))]%string).
Definition twist_dict (t : Twist) : pyval :=
VDict (answer [("linear", vector_dict (linear t)); ("angular", vector_dict (angular t))]%string).

(** [decision.get("params") or {}], and [params.get(key, default)]. *)
Definition params_of (d : pydict) : pyval := py_or (dict_get (u "params") VNone d) (VDict []).
Definition param (key : pystr) (dflt : pyval) (params : pyval) : res pyval :=
d ← as_dict params; Ok (dict_get key dflt d).

(** [_clamp_velocity]. *)
Definition clamp (limit v : f64) : f64 := fclamp (fneg limit) limit v.
Definition clamp_velocity (v : pyval) (limit : f64) : res f64 :=
x ← py_float v; Ok (clamp limit x).

(** ** Motion *)

(** The twist of [_handle_navigate]. *)
Definition navigate_twist (lin ang : f64) (params : pyval) : res Twist :=
x ← param (u "linear_x") (VFloat f0) params;
x ← clamp_velocity x lin;
y ← param (u "linear_y") (VFloat f0) params;
y ← clamp_velocity y lin;
z ← param (u "angular_z") (VFloat f0) params;
z ← clamp_velocity z ang;
Ok (MkTwist (Vec x y f0) (Vec f0 f0 z)).

(** [_handle_navigate]. *)
Definition handle_navigate (now : f64) (d : pydict) : py hd pydict :=
ok ← check_connection;
if negb ok then mret CONNECTION_LOST else
h ← get;
t ← of_res (navigate_twist (max_linear_velocity h) (max_angular_velocity h) (params_of d));
m ← publish now CMD_VEL (M_twist t);
update_watchdog now ;;
mret (answer [("status", text "success"); ("action", text "navigate");
              ("twist", match m with M_twist t => twist_dict t | M_trajectory _ => VNone end)]%string).

(** [axis in target], [target[axis]] and [target.get(axis, 0.0)]. *)
Definition has_axis (axis : pystr) (target : pyval) : res bool :=
match target with
| VDict o => Ok (dhas axis o)
| VList l => Ok (existsb (py_eq (VStr axis)) l)
| VStr s => Ok (contains axis s)
| _ => Raise (TypeError (u "argument is not iterable"))
end.
Definition get_axis (axis : pystr) (target : pyval) : res pyval :=
match target with
| VDict o => match dget axis o with Some v => Ok v | None => Raise (KeyError axis) end
| _ => Raise (TypeError (u "indices must be integers"))
end.
Definition as_num (v : pyval) : res (Z + f64) :=
match num_of v with
| Some a => Ok a
| None => Raise (TypeError (u "'<' not supported between instances"))
end.

(** [_check_workspace]: a coordinate that is given is compared with the bounds
    of its axis. *)
Definition axis_inside (bounds : list (pystr * (f64 * f64))) (target : pyval) (axis : pystr) : res bool :=
b ← has_axis axis target;
if (b : bool) then
  let '(lo, hi) := default (fneg f_inf, f_inf) (dget axis bounds) in
  v ← get_axis axis target;
  a ← as_num v;
  Ok (negb (num_lt_f a lo || num_gt_f a hi))
else Ok true.
Definition check_workspace (bounds : list (pystr * (f64 * f64))) (target : pyval) : res bool :=
x ← axis_inside bounds target (u "x");
if negb x then Ok false else
y ← axis_inside bounds target (u "y");
if negb y then Ok false else axis_inside bounds target (u "z").

(** The pose of the target. *)
Definition target_pose (target : pyval) : res Vector3 :=
x ← param (u "x") (VFloat f0) target;
y ← param (u "y") (VFloat f0) target;
z ← param (u "z") (VFloat f0) target;
x ← py_float x; y ← py_float y; z ← py_float z;
Ok (Vec x y z).

(** Calling the planner. *)
Definition on_planner {A} (m : py P A) : py hd A := λ h,
let '(p, x) := m (planner h) in (with_planner p h, x).

(** [_handle_manipulate]. *)
Definition handle_manipulate (now : f64) (d : pydict) : py hd pydict :=
target ← of_res (param (u "target") (VDict []) (params_of d));
if negb (truthy target) then mret (failed (u "no target specified")) else
ok ← check_connection;
if negb ok then mret CONNECTION_LOST else
h ← get;
inside ← of_res (check_workspace (workspace_bounds h) target);
if negb inside then mret (refused (u "target outside workspace bounds")) else
pose ← of_res (target_pose target);
plan ← on_planner (plan_to_pose pose);
match plan with
| None => mret (failed (u "planning failed"))
| Some t =>
    h ← get;
    v ← of_res (validate_trajectory t (planner h));
    if negb (v.1 : bool) then mret (refused v.2) else
    c ← of_res (check_collision t (planner h));
    if (c : bool) then mret (refused (u "collision detected")) else
    publish now ARM (M_trajectory t) ;;
    update_watchdog now ;;
    mret (answer [("status", text "success"); ("action", text "manipulate");
                  ("joints", VList (VStr <$> joint_names t))]%string)
end.

(** The position of [_handle_gripper]: read with one default, then with the
    verb's. *)
Definition gripper_position (params : pyval) : res f64 :=
p ← param (u "position") (VFloat f0) params;
p ← py_float p;
a ← param (u "action") (VStr []) params;
let action := lower (strip (py_str a)) in
if decide (action = u "grasp") then
  p ← param (u "position") (VFloat (f_dec 5 1)) params; py_float p
else if decide (action = u "release") then
  p ← param (u "position") (VFloat f0) params; py_float p
else Ok p.

(** [_handle_gripper]. *)
Definition handle_gripper (now : f64) (d : pydict) : py hd pydict :=
ok ← check_connection;
if negb ok then mret CONNECTION_LOST else
p ← of_res (gripper_position (params_of d));
publish now GRIPPER_CMD
  (M_trajectory (Trajectory [u "gripper_joint"] [Point [p] [] [] (f_dec 5 1)])) ;;
update_watchdog now ;;
mret (answer [("status", text "success"); ("action", text "gripper"); ("position", VFloat p)]%string).

(** [_handle_look]. *)
Definition look_position (params : pyval) : res (f64 * f64) :=
pan ← param (u "pan") (VFloat f0) params; pan ← py_float pan;
tilt ← param (u "tilt") (VFloat f0) params; tilt ← py_float tilt;
Ok (clamp (f_dec 15 1) pan, clamp f1 tilt).
Definition handle_look (now : f64) (d : pydict) : py hd pydict :=
ok ← check_connection;
if negb ok then mret CONNECTION_LOST else
h ← get;
if emergency_stop_active h then mret (refused (u "emergency stop active")) else
pt ← of_res (look_position (params_of d));
publish now HEAD
  (M_trajectory (Trajectory [u "neck_pan_joint"; u "neck_tilt_joint"]
                   [Point [pt.1; pt.2] [] [] (f_dec 5 1)])) ;;
update_watchdog now ;;
mret (answer [("status", text "success"); ("action", text "look");
              ("pan", VFloat pt.1); ("tilt", VFloat pt.2)]%string).

(** ** Stop and reads *)

(** [_handle_stop]. *)
Definition handle_stop (now : f64) : py hd pydict :=
modify (with_estop true) ;;
publish now CMD_VEL (M_twist zero_twist) ;;
on_planner cancel_all_goals ;;
audit_log (u "emergency_stop") [] ;;
mret (answer [("status", text "success"); ("action", text "emergency_stop")]%string).

(** [reset_emergency_stop]. *)
Definition reset_emergency_stop (reset_by : pystr) : py hd pydict :=
modify (with_estop false) ;;
audit_log (u "emergency_stop_reset") [(u "reset_by", VStr (take 120 reset_by))] ;;
mret (answer [("status", text "success"); ("action", text "reset_emergency_stop")]%string).

(** [_get_scan]: with a simulation attached the feed is not asked. *)
Definition get_scan h : option (list f64) :=
match sim h with Some s => sim_scan s | None => ros_scan (ros h) end.

Definition floats (l : list f64) : pyval := VList (VFloat <$> l).

(** [_handle_read]. *)
Definition query_state (d : pydict) h : res pydict :=
m ← param (u "model") (text "robot") (params_of d);
match sim h with
| Some s =>
    l ← (match s, m with
         | StubSim _ _, (VList _ | VDict _) => Raise (TypeError (u "unhashable type"))
         | _, VStr n => Ok (default [] (sim_joints s n))
         | _, _ => Ok []
         end);
    Ok (answer [("status", text "success"); ("joints", floats l)]%string)
| None =>
    match ros_joints (ros h) with
    | Some l => Ok (answer [("status", text "success"); ("source", text "ros2");
                            ("joints", floats l)]%string)
    | None => Ok (failed (u "no state source (no simulation, no ROS 2 state feed)"))
    end
end.
Definition scan_answer h : pydict :=
match get_scan h with
| None => failed (u "no scan source (no simulation, no ROS 2 scan feed)")
| Some l => answer [("status", text "success");
                    ("source", text (match sim h with Some _ => "gazebo" | None => "ros2" end)%string);
                    ("scan", floats l)]%string
end.

(** ** The dispatch *)

(** What is decided before any motion: the stop and the reads, and the latch. *)
Definition handle_gate (now : f64) (d : pydict) : py hd (option pydict) :=
let ty := dict_get (u "action_type") (VStr []) d in
match ty with
| VList _ | VDict _ => raise (TypeError (u "unhashable type"))
| _ =>
    if decide (ty = VStr (u "robot_stop")) then r ← handle_stop now; mret (Some r)
    else if decide (ty = VStr (u "robot_query_state")) then
      h ← get; r ← of_res (query_state d h); mret (Some r)
    else if decide (ty = VStr (u "robot_scan")) then h ← get; mret (Some (scan_answer h))
    else
      h ← get;
      mret (if emergency_stop_active h then Some ESTOPPED else None)
end.

Definition handle_motion (now : f64) (d : pydict) : py hd pydict :=
let ty := dict_get (u "action_type") (VStr []) d in
if decide (ty = VStr (u "robot_navigate")) then handle_navigate now d
else if decide (ty = VStr (u "robot_manipulate")) then handle_manipulate now d
else if decide (ty = VStr (u "robot_gripper")) then handle_gripper now d
else if decide (ty = VStr (u "robot_look")) then handle_look now d
else mret (failed (u "unknown robotics action: " ++ py_str ty)).

(** [handle]. *)
Definition handle (now : f64) (d : pydict) : py hd pydict :=
r ← handle_gate now d;
match r with
| Some r => mret r
| None => handle_motion now d
end.

(** ** The background passes *)

(** A pass of [_watchdog_loop]. *)
Definition watchdog_pass (now : f64) : py hd unit :=
h ← get;
if check_watchdog now h && negb (emergency_stop_active h) then handle_stop now ;; mret tt
else mret tt.

(** [stop_continuous_navigate]. *)
Definition stop_continuous_navigate (now : f64) : py hd unit :=
modify (λ h, with_stream false (stream_twist h) (stream_rate h) h) ;;
publish now CMD_VEL (M_twist zero_twist) ;; mret tt.

Definition continuous_twist (h : hd) (linear_x angular_z : f64) : Twist :=
MkTwist (Vec (clamp (max_linear_velocity h) linear_x) f0 f0)
        (Vec f0 f0 (clamp (max_angular_velocity h) angular_z)).

(** [start_continuous_navigate] and [update_continuous_navigate]. *)
Definition start_continuous_navigate (now linear_x angular_z rate_hz : f64) : py hd unit :=
stop_continuous_navigate now ;;
modify (λ h, with_stream true (continuous_twist h linear_x angular_z)
               (fclamp f1 (f_of_Z 50) rate_hz) h).
Definition update_continuous_navigate (now linear_x angular_z : f64) : py hd unit :=
modify (λ h, with_stream (stream h) (continuous_twist h linear_x angular_z) (stream_rate h) h) ;;
update_watchdog now.

(** A pass of [_continuous_loop]: the published object is the one republished
    by the next pass; an exception ends the thread. *)
Definition continuous_pass (now : f64) : py hd unit := λ h,
if negb (stream h) then (h, Ok tt)
else if negb (ros_connected (ros h)) then
  stop_continuous_navigate now h
else
  match publish now CMD_VEL (M_twist (stream_twist h)) h with
  | (h1, Ok m) =>
      let t := match m with M_twist t => t | M_trajectory _ => stream_twist h1 end in
      update_watchdog now (with_stream true t (stream_rate h1) h1)
  | (h1, Raise x) => (with_stream false (stream_twist h1) (stream_rate h1) h1, Raise x)
  end.

(** [start_sensor_feedback], [stop_sensor_feedback]. *)
Definition start_sensor_feedback (obstacle_distance : f64) : py hd unit :=
modify (with_sensor (Some (fmax (f_dec 1 1) obstacle_distance))).
Definition stop_sensor_feedback : py hd unit := modify (with_sensor None).

(** [min(ranges)], infinite when there is no range. *)
Definition min_range (ranges : list f64) : f64 :=
match ranges with [] => f_inf | x :: rest => foldl fmin x rest end.

(** A pass of [_sensor_loop] over what [_get_scan] answered; whatever is
    raised is logged. *)
Definition sensor_pass (now : f64) (scan : option (list f64)) : py hd unit := λ h,
match sensor h, scan with
| Some dist, Some ranges =>
    if fltb (min_range ranges) dist && negb (emergency_stop_active h)
    then ((handle_stop now h).1, Ok tt) else (h, Ok tt)
| _, _ => (h, Ok tt)
end.

(** [shutdown]: without a simulation the last step has nothing to call. *)
Definition shutdown (now : f64) : py hd unit :=
stop_sensor_feedback ;;
stop_continuous_navigate now ;;
modify (λ h, with_ros (ros_shutdown (ros h)) h) ;;
h ← get;
match sim h with
| Some s => modify (with_sim (Some (sim_shutdown s)))
| None => raise (AttributeError (u "'NoneType' object has no attribute 'shutdown'"))
end.

(** ** Calls and passes in any order *)

Inductive robot_op : Type :=
| Handle (d : pydict)
| Motion (d : pydict)   (** the rest of a call whose look at the latch is over *)
| WatchdogPass
| StartStream (linear_x angular_z rate_hz : f64)
| UpdateStream (linear_x angular_z : f64)
| StopStream
| StreamPass
| StartSensor (obstacle_distance : f64)
| StopSensor
| SensorPass (scan : option (list f64))
| Reset (reset_by : pystr)
| Shutdown.

Definition exec (now : f64) (o : robot_op) (h : hd) : hd :=
match o with
| Handle d => (handle now d h).1
| Motion d => (handle_motion now d h).1
| WatchdogPass => (watchdog_pass now h).1
| StartStream x z rate => (start_continuous_navigate now x z rate h).1
| UpdateStream x z => (update_continuous_navigate now x z h).1
| StopStream => (stop_continuous_navigate now h).1
| StreamPass => (continuous_pass now h).1
| StartSensor dist => (start_sensor_feedback dist h).1
| StopSensor => (stop_sensor_feedback h).1
| SensorPass scan => (sensor_pass now scan h).1
| Reset who => (reset_emergency_stop who h).1
| Shutdown => (shutdown now h).1
end.

Definition run (ops : list (f64 * robot_op)) (h : hd) : hd :=
foldl (λ h o, exec o.1 o.2 h) h ops.
End Handler.
