(* ===== verification/RobotSafety.v ===== *)
(** * What keeps the robot safe, and what does not

    Theorems about the robotics handler of [Robotics]: for every interface and
    planner that keep their laws, every interleaving of calls and background
    passes, and whatever is asked. *)

From Stdlib Require Import ZArith Lia.
From Stdlib Require Import Floats.SpecFloat.
From S2P Require Import Prelude PyFloat PyStr PyVal StateMachine Fallbacks RosBridge Planner Robotics.

Local Open Scope Z_scope.

(** ** Speed *)

Definition within (limit v : f64) : bool := fleb (fneg limit) v && fleb v limit.
Definition twist_within (lin ang : f64) (t : Twist) : Prop :=
  within lin (vx (linear t)) = true ∧ within lin (vy (linear t)) = true
  ∧ within ang (vz (angular t)) = true.
Definition message_within (lin ang : f64) (m : message) : Prop :=
  match m with M_twist t => twist_within lin ang t | M_trajectory _ => True end.

Lemma neg_le_0 l : fleb f0 l = true → fleb (fneg l) f0 = true.
Proof. intros H. eapply fleb_trans; [by apply fneg_fleb|by vm_compute]. Qed.

Lemma within_0 l : fleb f0 l = true → within l f0 = true.
Proof. intros H. unfold within. by rewrite neg_le_0, H. Qed.

Lemma clamp_within l v : fleb f0 l = true → within l (clamp l v) = true.
Proof.
  intros H. apply andb_true_iff, fclamp_range. eapply fleb_trans; [by apply neg_le_0|done].
Qed.

Lemma clean_within l v : fleb f0 l = true → within l v = true → within l (clean_component v) = true.
Proof.
  intros Hl [H1 H2]%andb_true_iff. unfold clean_component.
  destruct (is_finite v); [|by apply within_0].
  pose proof (neg_le_0 l Hl) as Hn. destruct (fleb_not_nan _ _ H2) as [Hv _].
  assert (fleb (fneg l) (fmin HUNDRED v) = true) as Hge.
  { apply fmin_ge; [|done]. eapply fleb_trans; [exact Hn|by vm_compute]. }
  apply andb_true_iff. unfold fclamp. split.
  - eapply fleb_trans; [exact Hge|]. apply fmax_ge_r; [by vm_compute|].
    by destruct (fleb_not_nan _ _ Hge).
  - apply fmax_le; [eapply fleb_trans; [|exact Hl]; by vm_compute|].
    eapply fleb_trans; [|exact H2]. by apply fmin_le_r.
Qed.

Lemma clean_message_within lin ang m :
  fleb f0 lin = true → fleb f0 ang = true →
  message_within lin ang m → message_within lin ang (validate_message m).1.
Proof.
  intros Hl Ha. destruct m as [t|t]; cbn; [|by destruct (validate_joint_trajectory t)].
  unfold twist_within. cbn. intros (?&?&?). by rewrite !clean_within.
Qed.

Lemma zero_within lin ang : fleb f0 lin = true → fleb f0 ang = true →
  message_within lin ang (M_twist zero_twist).
Proof. intros. cbn. unfold twist_within. cbn. by rewrite !within_0. Qed.

Section Safety.
Context {R P G : Type} `{RosPortLaws R} `{Planner P} `{GovernorOps G}.
Context `{PyRepr} `{PyFloatOfStr}.
Abbreviation hd := (handler R P G).
Implicit Types h : hd.

(** What a message may be, and an invariant that survives all but
publications; the invariants below are of this form. *)
Definition sent h : list (pystr * message) := ros_sent (ros h).

(** The limits, what the stream would send and what was sent. *)
Definition slow (lin ang : f64) h : Prop :=
max_linear_velocity h = lin ∧ max_angular_velocity h = ang ∧
twist_within lin ang (stream_twist h) ∧
Forall (λ e, message_within lin ang e.2 ∧ message_ok e.2 = true) (sent h).

Section Slow.
Variables lin ang : f64.
Hypothesis lin_pos : fleb f0 lin = true.
Hypothesis ang_pos : fleb f0 ang = true.

Lemma slow_publish now topic m :
message_within lin ang m → keeps (slow lin ang) (publish now topic m).
Proof using lin_pos ang_pos H0.
intros Hm h (Hl & Ha & Ht & Hs). unfold publish.
pose proof (ros_sends now topic m (ros h)) as Hsend. destruct (ros_publish now topic m (ros h)) as [r x].
cbn in *. split_and!; try done. unfold sent. cbn.
destruct Hsend as [->|(_ & Hok & ->)]; [done|]. apply Forall_app. split; [done|].
apply Forall_singleton. split; [by apply clean_message_within|by apply validated_ok].
Qed.

Lemma slow_modify f :
(∀ h, ros (f h) = ros h ∧ stream_twist (f h) = stream_twist h ∧
      max_linear_velocity (f h) = max_linear_velocity h ∧
      max_angular_velocity (f h) = max_angular_velocity h) → keeps (slow lin ang) (modify f).
Proof.
intros Hf. apply keeps_modify. intros h. destruct (Hf h) as (E1 & E2 & E3 & E4).
unfold slow, sent. by rewrite E1, E2, E3, E4.
Qed.

Lemma slow_get {B} (k : hd → py hd B) :
(∀ h, max_linear_velocity h = lin → max_angular_velocity h = ang → keeps (slow lin ang) (k h)) →
keeps (slow lin ang) (get ≫= k).
Proof. intros Hk h Hh. pose proof Hh as (E1 & E2 & _). by apply (Hk h E1 E2). Qed.

Lemma slow_planner {A} (m : py P A) : keeps (slow lin ang) (on_planner m).
Proof. intros h Hh. unfold on_planner. by destruct (m (planner h)). Qed.

Lemma slow_connection : keeps (slow lin ang) check_connection.
Proof.
intros h Hh. unfold check_connection. destruct (ros_connected (ros h)); [done|].
cbn. destruct (rb_fallback h); [|exact Hh]. destruct (report_violation _ _ _). exact Hh.
Qed.

Lemma slow_watchdog now : keeps (slow lin ang) (update_watchdog now).
Proof. by apply slow_modify. Qed.
Lemma slow_audit ty pl : keeps (slow lin ang) (audit_log ty pl).
Proof. by apply slow_modify. Qed.
Lemma slow_trajectory now topic t : keeps (slow lin ang) (publish now topic (M_trajectory t)).
Proof using lin_pos ang_pos H0. by apply slow_publish. Qed.
Lemma slow_zero now : keeps (slow lin ang) (publish now CMD_VEL (M_twist zero_twist)).
Proof using lin_pos ang_pos H0. by apply slow_publish, zero_within. Qed.
Lemma slow_estop b : keeps (slow lin ang) (modify (with_estop b)).
Proof. by apply slow_modify. Qed.

Hint Resolve slow_planner slow_connection slow_watchdog slow_audit slow_trajectory slow_zero slow_estop : keeps.

Lemma slow_stop now : keeps (slow lin ang) (handle_stop now).
Proof using lin_pos ang_pos H0. unfold handle_stop. keeps_auto. Qed.
Hint Resolve slow_stop : keeps.

Lemma slow_stop_stream now : keeps (slow lin ang) (stop_continuous_navigate now).
Proof using lin_pos ang_pos H0. unfold stop_continuous_navigate. keeps_auto. by apply slow_modify. Qed.

Lemma navigate_twist_within params t : navigate_twist lin ang params = Ok t → twist_within lin ang t.
Proof using lin_pos ang_pos.
unfold navigate_twist, clamp_velocity.
intros (?&_&(?&(?&_&<-%(inj Ok))%res_bind_Ok&(?&_&(?&(?&_&<-%(inj Ok))%res_bind_Ok&
  (?&_&(?&(?&_&<-%(inj Ok))%res_bind_Ok&<-%(inj Ok))%res_bind_Ok)%res_bind_Ok)%res_bind_Ok)%res_bind_Ok)%res_bind_Ok)%res_bind_Ok.
unfold twist_within. cbn. by rewrite !clamp_within.
Qed.

Lemma slow_navigate now d : keeps (slow lin ang) (handle_navigate now d).
Proof using lin_pos ang_pos H0.
unfold handle_navigate. apply keeps_bind; [auto with keeps|]. intros ok.
destruct (negb ok); [auto with keeps|]. apply slow_get. intros h -> ->.
apply triple_of_res; [|by intros]. intros t Ht%navigate_twist_within.
apply keeps_bind; [by apply slow_publish|]. intros m. keeps_auto.
Qed.

Lemma slow_motion now d : keeps (slow lin ang) (handle_motion now d).
Proof using lin_pos ang_pos H0.
pose proof (slow_navigate now d). unfold handle_motion, handle_manipulate, handle_gripper, handle_look.
keeps_auto.
Qed.

Lemma slow_gate now d : keeps (slow lin ang) (handle_gate now d).
Proof using lin_pos ang_pos H0. unfold handle_gate. keeps_auto. Qed.

Lemma slow_stream h b x z rate : slow lin ang h →
slow lin ang (with_stream b (continuous_twist h x z) rate h).
Proof using lin_pos ang_pos.
intros (El & Ea & Ht & Hs). split_and!; try done. unfold continuous_twist, twist_within. cbn.
by rewrite El, Ea, !clamp_within, within_0.
Qed.

Lemma slow_stream_pass now : keeps (slow lin ang) (continuous_pass now).
Proof using lin_pos ang_pos H0.
intros h Hh. unfold continuous_pass. destruct (stream h); [cbn|done].
destruct (ros_connected (ros h)); cbn; [|by apply slow_stop_stream].
pose proof Hh as (El & Ea & Ht & Hs).
pose proof (slow_publish now CMD_VEL (M_twist (stream_twist h)) Ht h Hh) as (El' & Ea' & Ht' & Hs').
pose proof (ros_leaves now CMD_VEL (M_twist (stream_twist h)) (ros h)) as Hm.
unfold publish in *. destruct (ros_publish _ _ _ _) as [r [m|x]]; cbn in *; [|done].
split_and!; try done. destruct (Hm m eq_refl) as [->| ->]; [done|].
by apply (clean_message_within lin ang (M_twist (stream_twist h))).
Qed.

Lemma slow_exec now o h : slow lin ang h → slow lin ang (exec now o h).
Proof using lin_pos ang_pos H0.
intros Hh. destruct o; cbn [exec].
- apply (keeps_bind (slow lin ang) _ _ (slow_gate now d)); [|done].
  intros [r|]; [auto with keeps|apply slow_motion].
- by apply slow_motion.
- unfold watchdog_pass. revert h Hh. change (keeps (slow lin ang) (watchdog_pass now)).
  unfold watchdog_pass. keeps_auto.
- revert h Hh. change (keeps (slow lin ang) (start_continuous_navigate now linear_x angular_z rate_hz)).
  apply keeps_bind; [apply slow_stop_stream|]. intros _. apply keeps_modify. intros h. apply slow_stream.
- by apply slow_stream.
- by apply slow_stop_stream.
- by apply slow_stream_pass.
- done.
- done.
- unfold sensor_pass. destruct (sensor h); [|done]. destruct scan; [|done].
  destruct (_ && _); [|done]. by apply slow_stop.
- done.
- revert h Hh. change (keeps (slow lin ang) (shutdown now)). unfold shutdown.
  apply keeps_bind; [by apply slow_modify|]. intros _.
  apply keeps_bind; [apply slow_stop_stream|]. intros _.
  apply keeps_bind; [|intros _; apply keeps_bind; [auto with keeps|intros h; destruct (sim h);
    [by apply slow_modify|auto with keeps]]].
  apply keeps_modify. intros h (?&?&?&?). split_and!; try done. unfold sent. cbn. by rewrite ros_shutdown_sent.
Qed.
End Slow.

(** Induction along a run. *)
Lemma run_inv (I : hd → Prop) ops h :
(∀ now o h, (now, o) ∈ ops → I h → I (exec now o h)) → I h → I (run ops h).
Proof.
unfold run. revert h. induction ops as [|[now o] ops IH]; intros h Hstep Hh; [done|]. cbn.
apply IH; [intros; apply Hstep; [by right|done]|]. apply Hstep; [left|done].
Qed.

(** ** The latch *)

Definition zero_command : pystr * message := (CMD_VEL, M_twist zero_twist).

(** Latched with no stream running: since [base], only zeros went out. *)
Definition quiet (base : list (pystr * message)) h : Prop :=
emergency_stop_active h = true ∧ stream h = false ∧
∃ k, sent h = base ++ replicate k zero_command.

Lemma quiet_zero base now : keeps (quiet base) (publish now CMD_VEL (M_twist zero_twist)).
Proof using H0.
intros h (He & Hs & k & Hk). unfold publish.
pose proof (ros_sends now CMD_VEL (M_twist zero_twist) (ros h)) as Hsend.
destruct (ros_publish _ _ _ _) as [r x]. cbn in *. split_and!; [done..|]. unfold sent in *. cbn.
destruct Hsend as [->|(_ & _ & ->)]; [by exists k|]. exists (S k).
rewrite Hk, zero_twist_clean, <- app_assoc, replicate_S_end. done.
Qed.

Lemma quiet_modify base f :
(∀ h, ros_sent (ros (f h)) = ros_sent (ros h) ∧ (emergency_stop_active h = true → emergency_stop_active (f h) = true)
      ∧ (stream h = false → stream (f h) = false)) → keeps (quiet base) (modify f).
Proof.
intros Hf. apply keeps_modify. intros h (He & Hs & k & Hk). destruct (Hf h) as (E1 & E2 & E3).
split_and!; auto. exists k. unfold sent. by rewrite E1.
Qed.

Lemma quiet_planner base {A} (m : py P A) : keeps (quiet base) (on_planner m).
Proof. intros h Hh. unfold on_planner. by destruct (m (planner h)). Qed.
Lemma quiet_audit base ty pl : keeps (quiet base) (audit_log ty pl).
Proof. by apply quiet_modify. Qed.
Lemma quiet_estop base : keeps (quiet base) (modify (with_estop true)).
Proof. by apply quiet_modify. Qed.
Hint Resolve quiet_planner quiet_audit quiet_estop quiet_zero : keeps.

Lemma quiet_stop base now : keeps (quiet base) (handle_stop now).
Proof using H0. unfold handle_stop. keeps_auto. Qed.
Hint Resolve quiet_stop : keeps.

Lemma quiet_stop_stream base now : keeps (quiet base) (stop_continuous_navigate now).
Proof using H0. unfold stop_continuous_navigate. keeps_auto. by apply quiet_modify. Qed.

(** Latched, the gate lets nothing through. *)
Lemma gate_latched now d h :
emergency_stop_active h = true → (handle_gate now d h).2 ≠ Ok None.
Proof.
intros He. unfold handle_gate. destruct (dict_get _ _ d); try done;
  (case_decide; [unfold mbind, py_bind; by destruct (handle_stop now h) as [? []]|]);
  (case_decide; [cbn; unfold mbind, py_bind, of_res; cbn; by destruct (query_state d h)|]);
  (case_decide; [done|]); unfold mbind, py_bind, get, mret, py_ret; cbn; by rewrite He.
Qed.

Lemma quiet_gate base now d : keeps (quiet base) (handle_gate now d).
Proof using H0. unfold handle_gate. keeps_auto. Qed.

Lemma quiet_handle base now d : keeps (quiet base) (handle now d).
Proof using H0.
intros h Hh. pose proof (gate_latched now d h (proj1 Hh)) as Hg.
pose proof (quiet_gate base now d h Hh) as Hq. unfold handle, mbind, py_bind.
destruct (handle_gate now d h) as [h' [[r|]|x]]; by cbn in *.
Qed.

(** What needs an operator or was under way before the latch. *)
Definition moves (o : robot_op) : bool :=
match o with Motion _ | StartStream _ _ _ | Reset _ => true | _ => false end.

Lemma quiet_exec base now o h : moves o = false → quiet base h → quiet base (exec now o h).
Proof using H0.
intros Hm Hh. destruct o; try done; cbn [exec].
- by apply quiet_handle.
- revert h Hh. change (keeps (quiet base) (watchdog_pass now)). unfold watchdog_pass. keeps_auto.
- by apply quiet_stop_stream.
- unfold continuous_pass. pose proof Hh as (_ & -> & _). done.
- unfold sensor_pass. destruct (sensor h); [|done]. destruct scan; [|done].
  destruct (_ && _); [|done]. by apply quiet_stop.
- revert h Hh. change (keeps (quiet base) (shutdown now)). unfold shutdown.
  apply keeps_bind; [by apply quiet_modify|]. intros _.
  apply keeps_bind; [apply quiet_stop_stream|]. intros _.
  apply keeps_bind; [apply quiet_modify; intros h; cbn; by rewrite ros_shutdown_sent|].
  intros _. apply keeps_bind; [auto with keeps|]. intros h. destruct (sim h);
    [by apply quiet_modify|auto with keeps].
Qed.
End Safety.

(** ** Theorems *)

#[local] Instance robot_repr : PyRepr := λ _, [].
#[local] Instance robot_float : PyFloatOfStr := λ _, Raise (ValueError []).
#[local] Instance robot_governor : GovernorOps governor := execution_governor_ops.

Definition demo_robot : handler stub_ros stub_planner governor :=
  new_handler (StubRos (new_ros (f_of_Z 10))) (new_stub_planner [] [] f1 f1 []) None true None
    f1 f1 (f_of_Z 5) [] f0.
Definition command (ty : string) (params : list (string * pyval)) : pydict :=
  [(u "action_type", VStr (u ty)); (u "params", VDict ((λ kv, (u kv.1, kv.2)) <$> params))].

Section Theorems.
Context {R P G : Type} `{RosPortLaws R} `{Planner P} `{GovernorOps G}.
Context `{PyRepr} `{PyFloatOfStr}.

(** C13. Speed limit: whatever is asked, in any order of calls and background
    passes and with any inputs, NaN and infinities included, every velocity
    command that goes out is within the configured linear and angular limits
    (at least 0.01), and every message is well formed. *)
Theorem speed_limit (r : R) (p : P) s a (fb : option (FallbackController G)) lin ang timeout ws now ops :
ros_sent r = [] →
Forall (λ e, message_within (fmax (f_dec 1 2) lin) (fmax (f_dec 1 2) ang) e.2 ∧ message_ok e.2 = true)
  (sent (run ops (new_handler r p s a fb lin ang timeout ws now))).
Proof.
intros Hr.
assert (∀ x, fleb f0 (fmax (f_dec 1 2) x) = true) as Hpos.
{ intros x. eapply fleb_trans; [|apply fmax_ge_l]; by vm_compute. }
enough (slow (fmax (f_dec 1 2) lin) (fmax (f_dec 1 2) ang)
  (run ops (new_handler r p s a fb lin ang timeout ws now))) as (_ & _ & _ & Hs) by done.
apply run_inv; [intros; by apply slow_exec|]. split_and!; [done|done| |].
- unfold twist_within. cbn. by rewrite !within_0.
- unfold sent, new_handler. cbn [ros].
  destruct (ros_created CMD_VEL r) as (_ & E1 & _).
  destruct (ros_created GRIPPER_CMD (ros_create_publisher CMD_VEL r)) as (_ & E2 & _).
  destruct (ros_created ARM (ros_create_publisher GRIPPER_CMD (ros_create_publisher CMD_VEL r))) as (_ & E3 & _).
  by rewrite E3, E2, E1, Hr.
Qed.

(** C14. The emergency stop, once latched with no continuous stream running,
    holds: through any further calls, watchdog, stream and sensor passes,
    updates, and a shutdown, it stays latched and only zero velocities go out,
    and every motion command is refused and changes nothing.  Only a reset, a
    new stream or a call that had passed the latch before can move the robot. *)
Theorem estop_holds h (ops : list (f64 * robot_op)) :
emergency_stop_active h = true → stream h = false →
Forall (λ o, moves o.2 = false) ops →
let h' := run (R := R) (P := P) (G := G) ops h in
emergency_stop_active h' = true ∧ (∃ k, sent h' = sent h ++ replicate k zero_command) ∧
∀ now ty params, ty ∉ [u "robot_stop"; u "robot_query_state"; u "robot_scan"] →
  handle now [(u "action_type", VStr ty); (u "params", params)] h' = (h', Ok ESTOPPED).
Proof.
intros He Hs Hops. cbn zeta.
assert (quiet (sent h) (run ops h)) as (He' & _ & Hk).
{ apply run_inv.
  - intros now o h0 Ho. apply quiet_exec. by apply (proj1 (Forall_forall _ _) Hops) in Ho.
  - split_and!; [done..|]. exists 0%nat. cbn. by rewrite app_nil_r. }
split_and!; [done..|]. intros now ty params Hty. unfold handle, handle_gate. cbn [dict_get dget].
change (dict_get (u "action_type") (VStr []) [(u "action_type", VStr ty); (u "params", params)]) with (VStr ty).
cbn match. rewrite !decide_False by (intros [= ->]; set_solver).
unfold mbind, py_bind, get, mret, py_ret. by rewrite He'.
Qed.
End Theorems.

(** ** What the latch does not stop: over the in-memory interface *)

Section Stub.
Context {P G : Type} `{Planner P} `{GovernorOps G}.
Context `{PyRepr} `{PyFloatOfStr}.
Implicit Types h : handler stub_ros P G.

Lemma stub_send now topic m (r : stub_ros) :
rate_limited now topic m (stub r) = false → is_ok (validate_message m).2 = true →
ros_publish now topic m r =
  (StubRos (log_message topic (validate_message m).1 (stamp now topic (stub r))), Ok (validate_message m).1).
Proof.
intros Hl Hok. destruct r as [r]. cbn in *. unfold stub_publish, send. rewrite Hl.
by destruct (validate_message m) as [m' []].
Qed.

Lemma stub_publish_stop now h :
ros_publish now CMD_VEL (M_twist zero_twist) (ros h)
= (StubRos (log_message CMD_VEL (M_twist zero_twist) (stamp now CMD_VEL (stub (ros h)))), Ok (M_twist zero_twist)).
Proof. rewrite stub_send; [|by apply stop_not_limited|done]. cbn. by rewrite zero_twist_clean. Qed.

(** A stop over the in-memory interface. *)
Lemma stub_stop now h :
let h' := (handle_stop now h).1 in
emergency_stop_active h' = true ∧ stream h' = stream h ∧ stream_twist h' = stream_twist h ∧
ros h' = StubRos (log_message CMD_VEL (M_twist zero_twist) (stamp now CMD_VEL (stub (ros h)))).
Proof.
unfold handle_stop, mbind, py_bind, modify, publish, on_planner. cbn [with_estop ros].
pose proof (stub_publish_stop now (with_estop true h)) as E. cbn [with_estop ros] in E. rewrite E. cbn.
by destruct (cancel_all_goals (planner h)) as [p [|]].
Qed.

(** The latch does not reach the continuous stream: after an emergency
    stop a running stream stays running, and its next pass, an interval later,
    sends its velocity command with the latch set; and a stream can be started
    on a latched handler. *)
Theorem stream_outlives_stop h t0 t1 params :
stream h = true → connected (stub (ros h)) = true →
fltb (fsub t1 t0) (min_interval (stub (ros h))) = false →
let h1 := exec t0 (Handle [(u "action_type", text "robot_stop"); (u "params", params)]) h in
let h2 := exec t1 StreamPass h1 in
emergency_stop_active h2 = true ∧ stream h2 = true ∧
sent h2 = sent h ++ [zero_command; (CMD_VEL, M_twist (sanitize_twist (stream_twist h)))] ∧
∀ t x z rate, emergency_stop_active (exec t (StartStream x z rate) h2) = true
  ∧ stream (exec t (StartStream x z rate) h2) = true.
Proof.
intros Hs Hc Ht. cbn zeta. cbn [exec].
assert ((handle t0 [(u "action_type", text "robot_stop"); (u "params", params)] h).1 = (handle_stop t0 h).1) as ->.
{ unfold handle, handle_gate, mbind, py_bind.
  change (dict_get _ _ _) with (text "robot_stop"). unfold text. rewrite decide_True by done.
  by destruct (handle_stop t0 h) as [? []]. }
destruct (stub_stop t0 h) as (He & Hs1 & Ht1 & Hr). set (h1 := (handle_stop t0 h).1) in *.
assert (∀ h, stream h = true → connected (stub (ros h)) = true →
  rate_limited t1 CMD_VEL (M_twist (stream_twist h)) (stub (ros h)) = false →
  let h' := (continuous_pass t1 h).1 in
  emergency_stop_active h' = emergency_stop_active h ∧ stream h' = true ∧
  sent h' = sent h ++ [(CMD_VEL, M_twist (sanitize_twist (stream_twist h)))]) as Hpass.
{ clear. intros h Hs Hc Hl. cbn zeta. unfold continuous_pass, publish. rewrite Hs. cbn [negb ros_connected stub_port].
  rewrite Hc. cbn [negb]. rewrite stub_send by done. done. }
destruct (Hpass h1) as (E1 & E2 & E3); [by rewrite Hs1|by rewrite Hr| |].
{ rewrite Hr, Ht1. unfold rate_limited. cbn. rewrite dget_dset_eq, Ht. apply andb_false_r. }
split_and!; [by rewrite E1|done| |].
- rewrite E3, Ht1. unfold sent. rewrite Hr. cbn. by rewrite <- app_assoc.
- intros t x z rate. unfold start_continuous_navigate, stop_continuous_navigate, mbind, py_bind, modify, publish.
  pose proof (stub_publish_stop t (continuous_pass t1 h1).1) as E. cbn [with_stream ros]. rewrite E. cbn.
  by rewrite E1.
Qed.

(** The look at the latch and the motion are two steps: a gripper command
    that passed the latch is sent after another thread's emergency stop, with the
    latch set. *)
Theorem in_flight_command_moves h t0 t1 t2 d p :
emergency_stop_active h = false → connected (stub (ros h)) = true →
dget (u "action_type") d = Some (text "robot_gripper") → gripper_position (params_of d) = Ok p →
dget GRIPPER_CMD (last_publish (stub (ros h))) = None →
(handle_gate t0 d h).2 = Ok None ∧
let h2 := exec t2 (Motion d) (handle_stop t1 (handle_gate t0 d h).1).1 in
emergency_stop_active h2 = true ∧
sent h2 = sent h ++ [zero_command;
  (GRIPPER_CMD, M_trajectory (Trajectory [u "gripper_joint"] [Point [finite_or_zero p] [] [] (f_dec 5 1)]))].
Proof.
intros He Hc Hd Hp Hl.
assert (handle_gate t0 d h = (h, Ok None)) as ->.
{ unfold handle_gate, dict_get. rewrite Hd. cbn [default from_option]. unfold text.
  rewrite !decide_False by done. unfold mbind, py_bind, get, mret, py_ret. cbn. by rewrite He. }
split; [done|]. cbn zeta. cbn [fst exec]. destruct (stub_stop t1 h) as (He1 & _ & _ & Hr).
set (h1 := (handle_stop t1 h).1) in *.
unfold handle_motion, dict_get. rewrite Hd. cbn [default from_option]. unfold text.
rewrite decide_False, decide_False, decide_True by done.
unfold handle_gripper, mbind, py_bind, check_connection. cbn [ros_connected stub_port].
rewrite Hr. cbn [stub connected log_message stamp]. rewrite Hc. cbn [negb]. rewrite Hp.
unfold of_res, publish. rewrite stub_send; [|rewrite Hr; unfold rate_limited; cbn;
  rewrite dget_dset_ne by done; by rewrite Hl|done].
cbn. split; [done|]. unfold sent. cbn. rewrite Hr. cbn. by rewrite <- app_assoc.
Qed.
End Stub.

Lemma speed_limit_witness :
  Forall (λ e, message_within f1 f1 e.2 ∧ message_ok e.2 = true)
    (sent (run [(f1, Handle (command "robot_navigate" [("linear_x"%string, VFloat f_nan)]))] demo_robot)).
Proof.
  pose proof (speed_limit (StubRos (new_ros (f_of_Z 10))) (new_stub_planner [] [] f1 f1 []) None true
    (@None (FallbackController governor)) f1 f1 (f_of_Z 5) [] f0
    [(f1, Handle (command "robot_navigate" [("linear_x"%string, VFloat f_nan)]))] eq_refl) as H.
  exact H.
Defined.

Lemma estop_holds_witness :
  let h := (handle f1 (command "robot_stop" []) demo_robot).1 in
  let ops := [(f_of_Z 2, Handle (command "robot_navigate" [("linear_x"%string, VInt 1)])); (f_of_Z 9, WatchdogPass)] in
  emergency_stop_active (run ops h) = true ∧ (∃ k, sent (run ops h) = sent h ++ replicate k zero_command).
Proof.
  cbn zeta.
  pose proof (estop_holds (handle f1 (command "robot_stop" []) demo_robot).1
    [(f_of_Z 2, Handle (command "robot_navigate" [("linear_x"%string, VInt 1)])); (f_of_Z 9, WatchdogPass)]) as H.
  cbn zeta in H. destruct H as (H1 & H2 & _); [by vm_compute|by vm_compute|by repeat constructor|].
  by split.
Defined.

Definition streaming_robot : handler stub_ros stub_planner governor :=
  run [(f1, StartStream (f_dec 5 1) f0 (f_of_Z 10))] demo_robot.

Lemma stream_outlives_stop_witness :
  let h1 := exec (f_of_Z 2) (Handle [(u "action_type", text "robot_stop"); (u "params", VNone)]) streaming_robot in
  let h2 := exec (f_of_Z 3) StreamPass h1 in
  emergency_stop_active h2 = true ∧ stream h2 = true ∧
  sent h2 = sent streaming_robot ++ [zero_command; (CMD_VEL, M_twist (sanitize_twist (stream_twist streaming_robot)))] ∧
  ∀ t x z rate, emergency_stop_active (exec t (StartStream x z rate) h2) = true
    ∧ stream (exec t (StartStream x z rate) h2) = true.
Proof. apply (stream_outlives_stop streaming_robot); by vm_compute. Defined.

Lemma in_flight_command_moves_witness :
  let d := command "robot_gripper" [("position"%string, VInt 1)] in
  (handle_gate f1 d demo_robot).2 = Ok None ∧
  let h2 := exec (f_of_Z 3) (Motion d) (handle_stop (f_of_Z 2) (handle_gate f1 d demo_robot).1).1 in
  emergency_stop_active h2 = true ∧
  sent h2 = sent demo_robot ++ [zero_command;
    (GRIPPER_CMD, M_trajectory (Trajectory [u "gripper_joint"] [Point [finite_or_zero f1] [] [] (f_dec 5 1)]))].
Proof. apply (in_flight_command_moves demo_robot); by vm_compute. Defined.
