(* ===== verification/RobotLimits.v ===== *)
(** * Limits, sensors and the watchdog of the robot

    What the arm's checks let through, what the obstacle monitor and the
    watchdog see, and the commands whose answer says more than was sent. *)

From Stdlib Require Import ZArith Lia.
From Stdlib Require Import Floats.SpecFloat.
From S2P Require Import Prelude PyFloat PyStr PyVal StateMachine Fallbacks RosBridge Planner Robotics RobotSafety.

Local Open Scope Z_scope.

Section Limits.
Context {R P G : Type} `{RosPortLaws R} `{Planner P} `{GovernorOps G}.
Context `{PyRepr} `{PyFloatOfStr}.
Abbreviation hd := (handler R P G).
Implicit Types h : hd.

(** ** The arm *)

(** An arm command is sent only as planned and checked: if a manipulate
    command sends anything, the interface was connected, the target passed the
    workspace check, and what went out, once and to the arm, is the sanitised
    form of a trajectory the planner made for the target's pose, accepted by
    its validation and found free of collisions. *)
Theorem arm_command_is_checked now d h :
let h' := (handle_manipulate now d h).1 in
sent h' = sent h ∨
∃ target pose t why,
  ros_connected (ros h) = true ∧
  param (u "target") (VDict []) (params_of d) = Ok target ∧ truthy target = true ∧
  check_workspace (workspace_bounds h) target = Ok true ∧ target_pose target = Ok pose ∧
  (plan_to_pose pose (planner h)).2 = Ok (Some t) ∧
  let p := (plan_to_pose pose (planner h)).1 in
  validate_trajectory t p = Ok (true, why) ∧ check_collision t p = Ok false ∧
  sent h' = sent h ++ [(ARM, (validate_message (M_trajectory t)).1)].
Proof.
cbn zeta. unfold handle_manipulate, mbind, py_bind, of_res.
destruct (param _ _ _) as [target|x] eqn:Et; [|by left].
destruct (truthy target) eqn:Etr; cbn [negb]; [|by left].
destruct (ros_connected (ros h)) eqn:Ec.
2:{ left. unfold check_connection. rewrite Ec. cbn. destruct (rb_fallback h); [|done].
    by destruct (report_violation _ _ _). }
unfold check_connection. rewrite Ec. cbn [negb]. unfold get. cbn [fst snd].
destruct (check_workspace _ _) as [[|]|x] eqn:Ew; [|by left..]. cbn [negb].
destruct (target_pose target) as [pose|x] eqn:Ep; [|by left].
unfold on_planner. destruct (plan_to_pose pose (planner h)) as [p [[t|]|x]] eqn:Epl; [|by left..].
cbn [planner with_planner]. destruct (validate_trajectory t p) as [[[|] why]|x] eqn:Ev; [|by left..].
cbn [fst negb]. destruct (check_collision t p) as [[|]|x] eqn:Ek; [by left| |by left].
unfold publish. cbn [ros with_planner].
pose proof (ros_sends now ARM (M_trajectory t) (ros h)) as Hs.
destruct (ros_publish _ _ _ _) as [r x]. unfold sent. cbn in Hs.
assert (ros_sent r = ros_sent (ros h) ∨ ros_sent r = ros_sent (ros h) ++ [(ARM, (validate_message (M_trajectory t)).1)])
  as [E|E] by (destruct Hs as [?|(_&_&?)]; auto); [left|right].
- by destruct x.
- exists target, pose, t, why. rewrite Epl. cbn [fst snd]. split_and!; try done. by destruct x.
Qed.

Lemma fltb_nan_l x : fltb f_nan x = false.
Proof. by destruct x as [[]|[]| |[]]. Qed.
Lemma fltb_nan_r x : fltb x f_nan = false.
Proof. by destruct x as [[]|[]| |[]]. Qed.

Lemma nan_inside bounds axis target :
has_axis axis target = Ok true → get_axis axis target = Ok (VFloat f_nan) →
axis_inside bounds target axis = Ok true.
Proof.
intros E1 E2. unfold axis_inside. rewrite E1. destruct (default _ _) as [lo hi]. rewrite E2.
unfold mbind, res_bind, as_num, num_of, num_lt_f, num_gt_f. by rewrite fltb_nan_l, fltb_nan_r.
Qed.

Lemma clamp_nan l : fltb f0 l = true → clamp l f_nan = l.
Proof.
intros Hl. destruct (fltb_not_nan _ _ Hl) as [_ Hn].
unfold clamp, fclamp, fmin. rewrite fltb_nan_l. unfold fmax.
destruct (fltb (fneg l) l) eqn:E; [done|]. exfalso.
pose proof (fneg_fleb l l (fleb_refl l Hn)) as Hnn. destruct (fleb_not_nan _ _ Hnn) as [Hn' _].
apply fltb_false_fleb in E; [|done..].
assert (fleb l f0 = true) as E0 by (eapply fleb_trans; [exact E|apply neg_le_0; by apply fltb_fleb]).
apply fltb_fleb_false in Hl. congruence.
Qed.

Lemma clamp_velocity_nan l : fltb f0 l = true → clamp_velocity (VFloat f_nan) l = Ok l.
Proof. intros. unfold clamp_velocity. change (py_float _) with (Ok f_nan). cbn -[clamp f_nan]. by rewrite clamp_nan. Qed.

(** NaN passes for a place and for a speed: a target whose coordinates are
    NaN is inside every workspace, and a velocity that is NaN is commanded at
    the configured limit. *)
Theorem nan_is_a_command bounds lin ang :
fltb f0 lin = true → fltb f0 ang = true →
check_workspace bounds (VDict [(u "x", VFloat f_nan); (u "y", VFloat f_nan); (u "z", VFloat f_nan)]) = Ok true ∧
navigate_twist lin ang
  (VDict [(u "linear_x", VFloat f_nan); (u "linear_y", VFloat f_nan); (u "angular_z", VFloat f_nan)])
= Ok (MkTwist (Vec lin lin f0) (Vec f0 f0 ang)).
Proof.
intros Hl Ha. split.
- unfold check_workspace. by rewrite !nan_inside.
- unfold navigate_twist. change (param (u _) _ (VDict _)) with (@Ok pyval (VFloat f_nan)).
  unfold mbind, res_bind. by rewrite !clamp_velocity_nan.
Qed.

(** ** The obstacle monitor *)

Lemma min_fold_le ranges : ∀ x,
f_is_nan x = false → forallb (λ v, negb (f_is_nan v)) ranges = true →
f_is_nan (foldl fmin x ranges) = false ∧
fleb (foldl fmin x ranges) x = true ∧ Forall (λ v, fleb (foldl fmin x ranges) v = true) ranges.
Proof.
induction ranges as [|v ranges IH]; intros x Hx Hall; cbn; [split_and!; [done|by apply fleb_refl|done]|].
cbn in Hall. apply andb_true_iff in Hall as [Hv%negb_true_iff Hall].
assert (f_is_nan (fmin x v) = false) as Hm by (unfold fmin; by destruct (fltb v x)).
destruct (IH (fmin x v) Hm Hall) as (Hn & Hle & Hf). split_and!; [done| |constructor; [|done]].
- eapply fleb_trans; [exact Hle|]. by apply fmin_le_l.
- eapply fleb_trans; [exact Hle|]. by apply fmin_le_r.
Qed.

Lemma min_fold_nan ranges : foldl fmin f_nan ranges = f_nan.
Proof.
induction ranges as [|v ranges IH]; [done|]. cbn [foldl].
replace (fmin f_nan v) with f_nan; [done|]. unfold fmin. by rewrite fltb_nan_r.
Qed.

(** The obstacle monitor stops the robot when any reading of a scan
    without NaN is nearer than its distance: the latch is set and a zero velocity
    is sent.  A scan whose first reading is NaN blinds it: whatever the others
    say, nothing happens. *)
Theorem monitor_stops now h dist ranges :
sensor h = Some dist → emergency_stop_active h = false → ros_serves (ros h) CMD_VEL →
(forallb (λ v, negb (f_is_nan v)) ranges = true → existsb (λ v, fltb v dist) ranges = true →
   let h' := (sensor_pass now (Some ranges) h).1 in
   emergency_stop_active h' = true ∧ sent h' = sent h ++ [zero_command]) ∧
sensor_pass now (Some (f_nan :: ranges)) h = (h, Ok tt).
Proof.
intros Hs He Hserve. split.
- intros Hall Hex. cbn zeta. unfold sensor_pass. rewrite Hs, He.
  assert (fltb (min_range ranges) dist = true) as ->.
  { destruct ranges as [|x ranges]; [done|]. cbn in Hall. apply andb_true_iff in Hall as [Hx%negb_true_iff Hall].
    destruct (min_fold_le ranges x Hx Hall) as (Hn & Hle & Hf). cbn [min_range].
    apply existsb_exists in Hex as (v & Hin & Hv).
    assert (fleb (foldl fmin x ranges) v = true) as Hlev.
    { apply list_elem_of_In, elem_of_cons in Hin as [->|Hin]; [done|]. by apply (proj1 (Forall_forall _ _) Hf). }
    destruct (fltb (foldl fmin x ranges) dist) eqn:E; [done|]. exfalso.
    destruct (fltb_not_nan _ _ Hv) as [_ Hd]. apply fltb_false_fleb in E; [|done..].
    assert (fleb dist v = true) as E' by (by eapply fleb_trans). apply fltb_fleb_false in Hv. congruence. }
  cbn [andb negb fst]. unfold handle_stop, mbind, py_bind, modify, publish, on_planner, audit_log. cbn [ros with_estop].
  destruct (ros_stops now CMD_VEL (M_twist zero_twist) (ros h) Hserve eq_refl) as [E1 E2].
  destruct (ros_publish _ _ _ _) as [r [m|x]]; [|done]. cbn in E1. cbn [planner with_ros with_estop].
  destruct (cancel_all_goals (planner h)) as [p [|]]; unfold sent; cbn; rewrite E1;
    by rewrite zero_twist_clean.
- unfold sensor_pass. rewrite Hs, He. cbn [min_range]. by rewrite min_fold_nan, fltb_nan_l.
Qed.

(** ** The watchdog *)

(** The watchdog fires once its time is over, and a reset does not wind
    it: whoever resets the stop of a robot that was idle beyond the timeout, the
    next pass of the watchdog latches it again. *)
Theorem reset_is_undone_by_watchdog now now' who h :
check_watchdog now' h = true →
let h' := exec now' WatchdogPass (exec now (Reset who) h) in
emergency_stop_active (exec now (Reset who) h) = false ∧ emergency_stop_active h' = true.
Proof.
intros Hw. cbn zeta. split; [done|]. cbn [exec]. unfold watchdog_pass, mbind, py_bind, get.
assert (check_watchdog now' (reset_emergency_stop who h).1 = true) as -> by exact Hw.
cbn [emergency_stop_active reset_emergency_stop].
assert (emergency_stop_active (reset_emergency_stop who h).1 = false) as -> by done. cbn [negb andb].
assert (∀ h, emergency_stop_active (handle_stop now' h).1 = true) as Hstop.
{ clear. intros h. unfold handle_stop, mbind, py_bind, modify, publish, on_planner.
  cbn [ros with_estop]. destruct (ros_publish _ _ _ _) as [r [m|x]]; [|done].
  cbn [planner with_ros with_estop]. by destruct (cancel_all_goals (planner h)) as [p [|]]. }
specialize (Hstop (reset_emergency_stop who h).1). by destruct (handle_stop now' _) as [? []].
Qed.

(** A shutdown always ends the stream and the monitor and sends a zero
    velocity, and raises exactly when the handler was built without a
    simulation. *)
Theorem shutdown_without_simulation now h :
ros_serves (ros h) CMD_VEL →
let '(h', r) := shutdown now h in
stream h' = false ∧ sensor h' = None ∧ sent h' = sent h ++ [zero_command] ∧
is_ok r = match sim h with Some _ => true | None => false end.
Proof.
intros Hserve. unfold shutdown, stop_continuous_navigate, stop_sensor_feedback, mbind, py_bind, modify, publish, get.
cbn [ros with_stream with_sensor].
destruct (ros_stops now CMD_VEL (M_twist zero_twist) (ros h) Hserve eq_refl) as [E1 E2].
destruct (ros_publish _ _ _ _) as [r [m|x]]; [|done]. cbn in E1.
destruct (sim h) as [s|] eqn:Es; unfold sent; cbn; rewrite Es; cbn; rewrite ros_shutdown_sent, E1;
  by rewrite zero_twist_clean.
Qed.
End Limits.

(** ** Commands over the middleware that send nothing *)

Section Node.
Context {P G : Type} `{Planner P} `{GovernorOps G}.
Context `{PyRepr} `{PyFloatOfStr}.
Abbreviation hd := (handler node_ros P G).
Implicit Types h : hd.

(** The head's topic is nobody's. *)
Definition headless h : Prop :=
HEAD ∉ publishers (node (ros h)) ∧ Forall (λ e, e.1 ≠ HEAD) (sent h).

Lemma node_publishers now t m (r : node_ros) :
publishers (node (ros_publish now t m r).1) = publishers (node r).
Proof.
destruct r as [r]. cbn. unfold node_publish. destruct (rate_limited now t m r); [done|].
case_bool_decide; [|done]. destruct (send_cases t m (stamp now t r)) as [[E _]|[_ E]].
- destruct (send _ _ _) as [r' x]. cbn in *. by rewrite E.
- by rewrite E.
Qed.

Lemma headless_publish now t m : keeps headless (publish now t m).
Proof.
intros h [Hp Hs]. unfold publish. pose proof (node_publishers now t m (ros h)) as E.
pose proof (ros_sends now t m (ros h)) as Hsend.
destruct (ros_publish now t m (ros h)) as [r x]. unfold headless, sent in *. cbn in *. rewrite E. split; [done|].
destruct Hsend as [->|(Ht & _ & ->)]; [done|]. apply Forall_app. split; [done|].
apply Forall_singleton. cbn. by intros ->.
Qed.

Lemma headless_modify f :
(∀ h, publishers (node (ros (f h))) = publishers (node (ros h)) ∧ sent (f h) = sent h) →
keeps headless (modify f).
Proof. intros Hf. apply keeps_modify. intros h. destruct (Hf h) as [E1 E2]. unfold headless. by rewrite E1, E2. Qed.

Lemma headless_connection : keeps headless check_connection.
Proof.
intros h Hh. unfold check_connection. destruct (ros_connected (ros h)); [done|].
cbn. destruct (rb_fallback h); [|exact Hh]. destruct (report_violation _ _ _). exact Hh.
Qed.
Lemma headless_planner {A} (m : py P A) : keeps headless (on_planner m).
Proof. intros h Hh. unfold on_planner. by destruct (m (planner h)). Qed.
Hint Resolve headless_publish headless_connection headless_planner : keeps.
Hint Extern 1 (keeps headless (modify _)) => by apply headless_modify : keeps.
Hint Extern 1 (keeps headless (update_watchdog _)) => by apply headless_modify : keeps.
Hint Extern 1 (keeps headless (audit_log _ _)) => by apply headless_modify : keeps.

Lemma headless_handle now d : keeps headless (handle now d).
Proof.
unfold handle, handle_gate, handle_stop, handle_motion, handle_navigate, handle_manipulate, handle_gripper, handle_look.
keeps_auto.
Qed.

Lemma headless_exec now o h : headless h → headless (exec now o h).
Proof.
revert h. destruct o; cbn [exec].
- apply headless_handle.
- change (keeps headless (handle_motion now d)).
  unfold handle_motion, handle_navigate, handle_manipulate, handle_gripper, handle_look. keeps_auto.
- change (keeps headless (watchdog_pass now)). unfold watchdog_pass, handle_stop. keeps_auto.
- change (keeps headless (start_continuous_navigate now linear_x angular_z rate_hz)).
  unfold start_continuous_navigate, stop_continuous_navigate. keeps_auto.
- change (keeps headless (update_continuous_navigate now linear_x angular_z)).
  unfold update_continuous_navigate. keeps_auto.
- change (keeps headless (stop_continuous_navigate now)). unfold stop_continuous_navigate. keeps_auto.
- intros h Hh. unfold continuous_pass. destruct (negb (stream h)); [done|].
  destruct (negb _).
  { revert h Hh. change (keeps headless (stop_continuous_navigate now)). unfold stop_continuous_navigate. keeps_auto. }
  pose proof (headless_publish now CMD_VEL (M_twist (stream_twist h)) h Hh) as Hp.
  by destruct (publish _ _ _ h) as [h1 [m|x]].
- change (keeps headless (start_sensor_feedback obstacle_distance)). unfold start_sensor_feedback. keeps_auto.
- change (keeps headless stop_sensor_feedback). unfold stop_sensor_feedback. keeps_auto.
- intros h Hh. unfold sensor_pass. destruct (sensor h); [|done]. destruct scan; [|done]. destruct (_ && _); [|done].
  revert h Hh. change (keeps headless (handle_stop now)). unfold handle_stop. keeps_auto.
- change (keeps headless (reset_emergency_stop reset_by)). unfold reset_emergency_stop. keeps_auto.
- change (keeps headless (shutdown now)). unfold shutdown, stop_continuous_navigate, stop_sensor_feedback. keeps_auto.
Qed.

(** Over the middleware the head cannot be turned: no message ever goes
    out to it, whatever is called.  A look raises for want of a publisher, and
    one that follows within the interval of the rate limit answers success. *)
Theorem look_never_sent (r : node_ros) p s a (fb : option (FallbackController G)) lin ang timeout ws now ops :
published (node r) = [] → publishers (node r) = [] →
let h := run ops (new_handler r p s a fb lin ang timeout ws now) in
Forall (λ e, e.1 ≠ HEAD) (sent h) ∧
∀ t d pan tilt, connected (node (ros h)) = true → emergency_stop_active h = false →
  look_position (params_of d) = Ok (pan, tilt) →
  (dget HEAD (last_publish (node (ros h))) = None → is_ok (handle_look t d h).2 = false) ∧
  (∀ last, dget HEAD (last_publish (node (ros h))) = Some last →
     fltb (fsub t last) (min_interval (node (ros h))) = true →
     sent (handle_look t d h).1 = sent h ∧ is_ok (handle_look t d h).2 = true).
Proof.
intros Hs Hp. cbn zeta. set (h := run _ _).
assert (headless h) as [Hh1 Hh2].
{ apply run_inv; [intros; by apply headless_exec|]. destruct r as [r]. split; cbn.
  - cbn in Hp. rewrite Hp. cbn. set_solver.
  - unfold sent. cbn in *. by rewrite Hs. }
split; [done|]. intros t d pan tilt Hc He Hl.
unfold handle_look, mbind, py_bind, check_connection. cbn [ros_connected node_port]. rewrite Hc. cbn [negb].
unfold get. rewrite He, Hl. unfold of_res, publish. cbn [ros_publish node_port]. unfold node_publish, rate_limited.
split.
- intros ->. cbn [is_emergency_stop negb andb]. by rewrite bool_decide_false.
- intros last -> Ht. cbn [is_emergency_stop negb andb]. rewrite Ht. unfold sent. cbn. split; [|done].
  by destruct (ros h).
Qed.
End Node.

#[local] Instance limits_repr : PyRepr := λ _, [].
#[local] Instance limits_float : PyFloatOfStr := λ _, Raise (ValueError []).
#[local] Instance limits_governor : GovernorOps governor := execution_governor_ops.

Definition demo_node : node_ros := NodeRos (new_ros (f_of_Z 10)).

Lemma look_never_sent_witness :
  let h : handler node_ros stub_planner governor :=
    run [(f1, Handle (command "robot_look" [("pan"%string, VInt 1)]))]
      (new_handler demo_node (new_stub_planner [] [] f1 f1 []) None true None f1 f1 f1 [] f0) in
  Forall (λ e, e.1 ≠ HEAD) (sent h).
Proof.
  cbn zeta.
  pose proof (look_never_sent (G := governor) demo_node (new_stub_planner [] [] f1 f1 []) None true None f1 f1 f1 [] f0
    [(f1, Handle (command "robot_look" [("pan"%string, VInt 1)]))] eq_refl eq_refl) as H.
  cbn zeta in H. exact (proj1 H).
Defined.

Lemma nan_is_a_command_witness :
  check_workspace DEFAULT_WORKSPACE
    (VDict [(u "x", VFloat f_nan); (u "y", VFloat f_nan); (u "z", VFloat f_nan)]) = Ok true ∧
  navigate_twist f1 f1
    (VDict [(u "linear_x", VFloat f_nan); (u "linear_y", VFloat f_nan); (u "angular_z", VFloat f_nan)])
  = Ok (MkTwist (Vec f1 f1 f0) (Vec f0 f0 f1)).
Proof. apply (nan_is_a_command DEFAULT_WORKSPACE f1 f1); by vm_compute. Defined.

Definition watching_robot : handler stub_ros stub_planner governor :=
  run [(f0, StartSensor (f_dec 5 1))] demo_robot.

Lemma monitor_stops_witness :
  let h' := (sensor_pass f1 (Some [f_of_Z 5; f_dec 2 1]) watching_robot).1 in
  emergency_stop_active h' = true ∧ sent h' = sent watching_robot ++ [zero_command].
Proof.
  cbn zeta.
  pose proof (monitor_stops f1 watching_robot (f_dec 5 1) [f_of_Z 5; f_dec 2 1]) as H.
  destruct H as [H _]; [by vm_compute|by vm_compute|exact I|].
  apply H; by vm_compute.
Defined.

Lemma reset_is_undone_by_watchdog_witness :
  let h' := exec (f_of_Z 100) WatchdogPass (exec (f_of_Z 100) (Reset (u "op")) demo_robot) in
  emergency_stop_active (exec (f_of_Z 100) (Reset (u "op")) demo_robot) = false ∧ emergency_stop_active h' = true.
Proof. apply (reset_is_undone_by_watchdog (f_of_Z 100) (f_of_Z 100) (u "op") demo_robot). by vm_compute. Defined.

Lemma shutdown_without_simulation_witness :
  let '(h', r) := shutdown f1 demo_robot in
  stream h' = false ∧ sensor h' = None ∧ sent h' = sent demo_robot ++ [zero_command] ∧ is_ok r = false.
Proof. pose proof (shutdown_without_simulation f1 demo_robot I) as H. exact H. Defined.
