(* ===== verification/MeshElection.v ===== *)
(** * Primary election ([src/mesh_election.py])

    Heartbeat advertisements, the eligibility rules, the ranking and the
    lease.  An elector keeps one record per advertised node; [tick] elects
    from the live eligible ones.  Clock readings are arguments. *)

From S2P Require Import Prelude PyFloat PyStr PyVal.

Local Open Scope Z_scope.

Definition THERMAL_REFUSE_STATUS : Z := 3.

Inductive node_role : Type := FOLLOWER | PRIMARY_CAPABLE.

#[export] Instance node_role_eq_dec : EqDecision node_role.
Proof. solve_decision. Defined.

Definition role_str (r : node_role) : pystr :=
  match r with FOLLOWER => u "follower" | PRIMARY_CAPABLE => u "primary-capable" end.

(** A role word read from configuration or an advertisement: anything but
    "follower" is primary-capable. *)
Definition parse_role (s : pystr) : node_role :=
  if decide (lower (strip s) = u "follower") then FOLLOWER else PRIMARY_CAPABLE.

(** One remembered advertisement. *)
Record node_entry := Entry {
  e_node_id : pystr;
  e_priority : Z;
  e_thermal : Z;
  e_mem : option Z;
  e_rpc_endpoint : pystr;
  e_paired : bool;
  e_primary : pystr;
  e_role : node_role;
  e_caps : list (pystr * pyval);
  e_seq : pyval;
  e_last_seen : f64
}.

Definition touch (ts : f64) (e : node_entry) : node_entry :=
  Entry (e_node_id e) (e_priority e) (e_thermal e) (e_mem e) (e_rpc_endpoint e)
    (e_paired e) (e_primary e) (e_role e) (e_caps e) (e_seq e) ts.

(** [MeshElection]; [el_audit] holds the events passed to the audit object. *)
Record MeshElection := Election {
  el_node_id : pystr;
  el_priority : Z;
  el_role : node_role;
  el_lease_s : f64;
  el_timeout : f64;
  el_audit : option (list audit_event);
  el_nodes : list (pystr * node_entry);
  el_primary_id : option pystr;
  el_lease_since : f64;
  el_seq : Z;
  el_seen : list (pystr * pystr * pystr)
}.

(** [__init__]. *)
Definition new_election (node_id : pystr) (priority : Z)
    (lease timeout : f64) (audit : bool) (role : pystr) : MeshElection :=
  let nid := strip node_id in
  {| el_node_id := if decide (nid = []) then u "node-unknown" else nid;
     el_priority := priority; el_role := parse_role role;
     el_lease_s := fmax f1 lease; el_timeout := fmax f1 timeout;
     el_audit := if audit then Some [] else None; el_nodes := [];
     el_primary_id := None; el_lease_since := f0; el_seq := 0; el_seen := [] |}.

(** Field updates. *)
Definition set_nodes (ns : list (pystr * node_entry)) (e : MeshElection) :=
  Election (el_node_id e) (el_priority e) (el_role e) (el_lease_s e)
    (el_timeout e) (el_audit e) ns (el_primary_id e) (el_lease_since e)
    (el_seq e) (el_seen e).
Definition set_lease (p : option pystr) (since : f64) (e : MeshElection) :=
  Election (el_node_id e) (el_priority e) (el_role e) (el_lease_s e)
    (el_timeout e) (el_audit e) (el_nodes e) p since (el_seq e) (el_seen e).
Definition set_el_seq (n : Z) (e : MeshElection) :=
  Election (el_node_id e) (el_priority e) (el_role e) (el_lease_s e)
    (el_timeout e) (el_audit e) (el_nodes e) (el_primary_id e)
    (el_lease_since e) n (el_seen e).
Definition set_seen (seen : list (pystr * pystr * pystr)) (e : MeshElection) :=
  Election (el_node_id e) (el_priority e) (el_role e) (el_lease_s e)
    (el_timeout e) (el_audit e) (el_nodes e) (el_primary_id e)
    (el_lease_since e) (el_seq e) seen.

(** [_audit]: a failing audit is only logged. *)
Definition el_audit_event (ty : pystr) (payload : list (pystr * pyval))
    (e : MeshElection) : MeshElection :=
  Election (el_node_id e) (el_priority e) (el_role e) (el_lease_s e)
    (el_timeout e) ((λ log, log ++ [AuditEvent ty payload]) <$> el_audit e)
    (el_nodes e) (el_primary_id e) (el_lease_since e) (el_seq e) (el_seen e).

Section Heartbeats.
Context `{PyRepr}.

(** The record [observe_heartbeat] builds from a payload ([None]: no usable
    node id).  [int] of an infinite float raises [OverflowError], which the
    code does not catch. *)
Definition make_node_entry (ts : f64) (d : list (pystr * pyval)) :
    res (option node_entry) :=
  let node_id := strip (py_str (dict_get (u "node_id") (VStr []) d)) in
  if decide (node_id = []) then Ok None else
  match int_or 100 (dict_get (u "priority") (VInt 100) d) with
  | Raise e => Raise e
  | Ok priority =>
    match int_or 0 (dict_get (u "thermal_status") (VInt 0) d) with
    | Raise e => Raise e
    | Ok thermal =>
      match (match dget (u "mem_available_bytes") d with
             | Some v => match int_or 0 v with
                         | Ok m => Ok (Some m) | Raise e => Raise e end
             | None => Ok None
             end) with
      | Raise e => Raise e
      | Ok mem => Ok (Some {|
          e_node_id := node_id; e_priority := priority; e_thermal := thermal;
          e_mem := mem;
          e_rpc_endpoint := take 256 (py_str
            (py_or (dict_get (u "rpc_endpoint") (VStr []) d) (VStr [])));
          e_paired := truthy (dict_get (u "paired") (VBool true) d);
          e_primary := take 64 (py_str
            (py_or (dict_get (u "primary") (VStr []) d) (VStr [])));
          e_role := parse_role (py_str
            (py_or (dict_get (u "role") (VStr []) d) (VStr [])));
          e_caps := match dget (u "caps") d with
                    | Some (VDict c) => c | _ => [] end;
          e_seq := dict_get (u "seq") (VInt 0) d;
          e_last_seen := ts |})
      end
    end
  end.

(** Whether a known peer's advertisement repeats its last one: both sequence
    numbers read as integers and are equal. *)
Definition same_seq (entry prev : node_entry) : res bool :=
  match py_int (e_seq entry) with
  | Ok seq =>
      match py_int (e_seq prev) with
      | Ok prev_seq => Ok (seq =? prev_seq)
      | Raise (TypeError _) | Raise (ValueError _) => Ok false
      | Raise e => Raise e
      end
  | Raise (TypeError _) | Raise (ValueError _) => Ok false
  | Raise e => Raise e
  end.

(** [observe_heartbeat]. *)
Definition observe_heartbeat (ts : f64) (payload : pyval) : py MeshElection bool :=
  λ e,
  match payload with
  | VDict d =>
      match make_node_entry ts d with
      | Raise x => (e, Raise x)
      | Ok None => (e, Ok false)
      | Ok (Some entry) =>
          let nid := e_node_id entry in
          match dget nid (el_nodes e) with
          | None => (set_nodes (dset nid entry (el_nodes e)) e, Ok true)
          | Some prev =>
              match same_seq entry prev with
              | Raise x => (e, Raise x)
              | Ok true =>
                  (set_nodes (dset nid (touch ts prev) (el_nodes e)) e, Ok true)
              | Ok false =>
                  (set_nodes (dset nid entry (el_nodes e)) e, Ok true)
              end
          end
      end
  | _ => (e, Ok false)
  end.

(** [local_heartbeat]: the node advertises to itself first. *)
Definition local_payload (thermal mem : Z) (endpoint : pystr) (paired : bool)
    (caps : list (pystr * pyval)) (e : MeshElection) : list (pystr * pyval) :=
  [(u "node_id", VStr (el_node_id e)); (u "priority", VInt (el_priority e));
   (u "thermal_status", VInt thermal); (u "mem_available_bytes", VInt mem);
   (u "rpc_endpoint", VStr endpoint); (u "paired", VBool paired);
   (u "primary", VStr (default [] (el_primary_id e)));
   (u "role", VStr (role_str (el_role e))); (u "caps", VDict caps);
   (u "seq", VInt (el_seq e))].

Definition local_heartbeat (ts : f64) (thermal mem : Z) (endpoint : pystr)
    (paired : bool) (caps : list (pystr * pyval)) :
    py MeshElection (list (pystr * pyval)) :=
  e ← get;
  let e1 := set_el_seq (el_seq e + 1) e in
  let payload := local_payload thermal mem endpoint paired caps e1 in
  put e1 ;; observe_heartbeat ts (VDict payload) ;; mret payload.
End Heartbeats.

(** [drop_node]. *)
Definition drop_node (node_id : pystr) (e : MeshElection) : MeshElection :=
  set_nodes (ddel node_id (el_nodes e)) e.

(** [_eligible]: the reason a node is excluded, if any.  Unreported headroom
    is unknown, not zero. *)
Definition eligible (e : node_entry) : option pystr :=
  if negb (e_paired e) then Some (u "unpaired")
  else if THERMAL_REFUSE_STATUS <=? e_thermal e then Some (u "thermal-critical")
  else match e_mem e with
       | None => None
       | Some m => if m <=? 0 then Some (u "no-headroom") else None
       end.

(** [_eligible_reasons]. *)
Definition eligible_reasons (e : MeshElection) : list (pystr * pystr) :=
  omap (λ kv, (λ r, (kv.1, r)) <$> eligible kv.2) (el_nodes e).

(** [_rank]: role, then priority, then node id, compared as a tuple. *)
Definition role_rank (r : node_role) : Z :=
  match r with FOLLOWER => 1 | PRIMARY_CAPABLE => 0 end.

Definition rank_leb (a b : node_entry) : bool :=
  let ra := role_rank (e_role a) in
  let rb := role_rank (e_role b) in
  (ra <? rb)
  || ((ra =? rb) && ((e_priority a <? e_priority b)
      || ((e_priority a =? e_priority b)
          && str_leb (e_node_id a) (e_node_id b)))).

(** [_live_candidates]: fresh and eligible, best rank first. *)
Definition is_live (timeout now : f64) (e : node_entry) : bool :=
  negb (fltb timeout (fsub now (e_last_seen e))).

Definition is_candidate (timeout now : f64) (e : node_entry) : bool :=
  is_live timeout now e
  && match eligible e with None => true | Some _ => false end.

Definition live_candidates (now : f64) (e : MeshElection) : list node_entry :=
  sort_by rank_leb (List.filter (is_candidate (el_timeout e) now) (el_nodes e).*2).

(** [_note_disagreement]: one audited line per (peer, claim, winner). *)
Definition disagrees (me winner : pystr) (entry : node_entry) : bool :=
  negb (bool_decide (e_primary entry = []) || bool_decide (e_node_id entry = me))
  && negb (bool_decide (e_primary entry = me) && bool_decide (winner = me))
  && negb (bool_decide (e_primary entry = winner)).

Definition note_one (winner : pystr) (e : MeshElection) (entry : node_entry) :
    MeshElection :=
  let key := (e_node_id entry, e_primary entry, winner) in
  if disagrees (el_node_id e) winner entry then
    if decide (key ∈ el_seen e) then e
    else el_audit_event (u "mesh_lease_disagreement")
           [(u "node_id", VStr (el_node_id e)); (u "peer", VStr (e_node_id entry));
            (u "peer_primary", VStr (e_primary entry));
            (u "our_primary", VStr winner)]
           (set_seen (key :: el_seen e) e)
  else e.

Definition note_disagreement (winner : option pystr) (cands : list node_entry)
    (e : MeshElection) : MeshElection :=
  match winner with
  | None | Some [] => e
  | Some w => foldl (note_one w) e cands
  end.

(** The winner [tick] settles on: the best candidate, unless the holder is a
    candidate that ranks no worse. *)
Definition pick_winner (holder : option pystr) (cands : list node_entry) :
    option pystr :=
  match cands with
  | [] => None
  | best :: _ =>
      let winner := e_node_id best in
      if decide (winner = []) then Some winner else
      match holder with
      | Some h =>
          if decide (h ≠ [] ∧ h ≠ winner) then
            match List.find (λ x, bool_decide (e_node_id x = h)) cands with
            | Some incumbent =>
                if rank_leb incumbent best then Some h else Some winner
            | None => Some winner
            end
          else Some winner
      | None => Some winner
      end
  end.

Record tick_result := TickResult {
  tr_primary : option pystr;
  tr_is_primary : bool;
  tr_candidates : list pystr;
  tr_lease_since : f64;
  tr_lease_s : f64
}.

(** [tick]. *)
Definition tick (ts : f64) (e : MeshElection) : MeshElection * tick_result :=
  let cands := live_candidates ts e in
  let winner := pick_winner (el_primary_id e) cands in
  let e1 := note_disagreement winner cands e in
  let previous := el_primary_id e1 in
  let e2 :=
    if decide (winner = previous) then e1
    else
      let e1' := set_lease winner ts e1 in
      if decide (winner = Some (el_node_id e)) then
        el_audit_event (u "mesh_primary_elected")
          [(u "node_id", VStr (el_node_id e));
           (u "candidates", VInt (Z.of_nat (length cands)))] e1'
      else if decide (previous = Some (el_node_id e)) then
        el_audit_event (u "mesh_follower_fallback")
          [(u "node_id", VStr (el_node_id e));
           (u "primary", VStr (default [] winner))] e1'
      else e1' in
  (e2, {| tr_primary := winner;
          tr_is_primary := bool_decide (winner = Some (el_node_id e));
          tr_candidates := e_node_id <$> cands;
          tr_lease_since := el_lease_since e2; tr_lease_s := el_lease_s e2 |}).

(** [is_primary] and [role]. *)
Definition is_primary (e : MeshElection) : bool :=
  bool_decide (el_primary_id e = Some (el_node_id e)).

Definition election_role (e : MeshElection) : pystr :=
  match el_primary_id e with
  | None => u "unknown"
  | Some p => if decide (p = el_node_id e) then u "primary" else u "follower"
  end.

(** [live_peers] (the entries, without their time stamp) and [peers_role]. *)
Definition live_peers (ts : f64) (e : MeshElection) : list node_entry :=
  List.filter (λ x, negb (bool_decide (e_node_id x = el_node_id e))
                    && fleb (fsub ts (e_last_seen x)) (el_timeout e))
    (el_nodes e).*2.

Definition peers_role (ts : f64) (e : MeshElection) : list (pystr * pystr) :=
  foldl (λ d x, dset (e_node_id x) (role_str (e_role x)) d) [] (live_peers ts e).

(** ** The ranking is a total order *)

Lemma rank_total a b : rank_leb a b = true ∨ rank_leb b a = true.
Proof.
  unfold rank_leb. destruct (str_leb_total (e_node_id a) (e_node_id b)) as [E|E];
    rewrite E; lia.
Qed.

Lemma rank_trans a b c :
  rank_leb a b = true → rank_leb b c = true → rank_leb a c = true.
Proof.
  unfold rank_leb.
  pose proof (str_leb_trans (e_node_id a) (e_node_id b) (e_node_id c)) as Ht.
  destruct (str_leb (e_node_id a) (e_node_id b)), (str_leb (e_node_id b) (e_node_id c)),
    (str_leb (e_node_id a) (e_node_id c)); lia.
Qed.

(** Ranks tie only on the same node id. *)
Lemma rank_antisym a b :
  rank_leb a b = true → rank_leb b a = true → e_node_id a = e_node_id b.
Proof.
  unfold rank_leb. intros Ha Hb. apply str_leb_antisym; lia.
Qed.

Lemma rank_role a b :
  rank_leb a b = true → e_role b = PRIMARY_CAPABLE → e_role a = PRIMARY_CAPABLE.
Proof.
  unfold rank_leb. intros H E. rewrite E in H. destruct (e_role a); [simpl in H; lia|done].
Qed.

(** ** What the candidates are *)

Lemma elem_live_candidates now e x :
  x ∈ live_candidates now e ↔
  x ∈ (el_nodes e).*2 ∧ is_candidate (el_timeout e) now x = true.
Proof.
  unfold live_candidates. rewrite elem_sort_by, !list_elem_of_In, List.filter_In.
  done.
Qed.

Lemma live_candidates_least now e x l :
  live_candidates now e = x :: l →
  x ∈ live_candidates now e ∧ ∀ y, y ∈ live_candidates now e → rank_leb x y = true.
Proof.
  intros E. split; [rewrite E; left|]. intros y Hy.
  apply (sort_by_head_least rank_leb rank_total rank_trans
    (List.filter (is_candidate (el_timeout e) now) (el_nodes e).*2)).
  - unfold live_candidates in E. by rewrite E.
  - unfold live_candidates in Hy. by apply elem_sort_by in Hy.
Qed.

(** The incumbency rule never changes the outcome: only the best candidate
    itself ranks no worse than the best candidate. *)
Lemma pick_winner_best holder now e :
  pick_winner holder (live_candidates now e) =
  e_node_id <$> head (live_candidates now e).
Proof.
  destruct (live_candidates now e) as [|best l] eqn:E; [done|].
  apply live_candidates_least in E as Hl. destruct Hl as [_ Hl].
  unfold pick_winner. cbv beta iota zeta. case_decide; [done|].
  destruct holder as [h|]; [|done]. case_decide as Hh; [|done].
  destruct (List.find _ _) as [inc|] eqn:Ef; [|done].
  apply (List.find_some (λ x, bool_decide (e_node_id x = h)) (best :: l)) in Ef
    as [Hin Hid%bool_decide_eq_true].
  destruct (rank_leb inc best) eqn:Er; [|done].
  rewrite E in Hl. assert (rank_leb best inc = true) as Er'.
  { apply Hl. by apply list_elem_of_In. }
  pose proof (rank_antisym _ _ Er Er'). destruct Hh. congruence.
Qed.

Lemma note_one_frame w e x :
  let e' := note_one w e x in
  el_node_id e' = el_node_id e ∧ el_nodes e' = el_nodes e ∧
  el_primary_id e' = el_primary_id e ∧ el_timeout e' = el_timeout e ∧
  el_lease_since e' = el_lease_since e.
Proof. unfold note_one. simpl. destruct (disagrees _ _ _); [|done]. by case_decide. Qed.

Lemma note_disagreement_frame w cands e :
  let e' := note_disagreement w cands e in
  el_node_id e' = el_node_id e ∧ el_nodes e' = el_nodes e ∧
  el_primary_id e' = el_primary_id e ∧ el_timeout e' = el_timeout e ∧
  el_lease_since e' = el_lease_since e.
Proof.
  simpl. unfold note_disagreement. destruct w as [[|c w]|]; [done| |done].
  revert e. induction cands as [|x cands IH]; intros e; simpl; [done|].
  destruct (IH (note_one (c :: w) e x)) as (-> & -> & -> & -> & ->).
  apply note_one_frame.
Qed.

Lemma tick_primary ts e :
  tr_primary (tick ts e).2 = e_node_id <$> head (live_candidates ts e) ∧
  el_primary_id (tick ts e).1 = tr_primary (tick ts e).2 ∧
  el_nodes (tick ts e).1 = el_nodes e.
Proof.
  unfold tick. cbv zeta. simpl. rewrite pick_winner_best.
  set (w := e_node_id <$> _). set (cands := live_candidates ts e).
  destruct (note_disagreement_frame w cands e) as (Hid & Hn & Hp & _).
  split; [done|]. case_decide as Hw; [by split|].
  case_decide; [by split|]. by case_decide.
Qed.

(** ** Theorems *)

(** C2. [tick] elects the least-ranked live eligible node, whoever held the
    lease before: it returns no primary exactly when no remembered node is
    fresh and eligible, and otherwise the elected node is fresh, paired, below
    the thermal limit, not out of memory, and outranked by no other
    candidate.  The lease holder is then that node. *)
Theorem tick_elects_least ts e :
  el_primary_id (tick ts e).1 = tr_primary (tick ts e).2 ∧
  match tr_primary (tick ts e).2 with
  | None => ∀ x, x ∈ (el_nodes e).*2 → is_candidate (el_timeout e) ts x = false
  | Some w => ∃ x, x ∈ (el_nodes e).*2 ∧ e_node_id x = w ∧
      is_live (el_timeout e) ts x = true ∧ e_paired x = true ∧
      (e_thermal x < THERMAL_REFUSE_STATUS) ∧
      (∀ m, e_mem x = Some m → 0 < m) ∧
      ∀ y, y ∈ (el_nodes e).*2 → is_candidate (el_timeout e) ts y = true →
        rank_leb x y = true
  end.
Proof.
  destruct (tick_primary ts e) as (Ep & El & _). split; [done|]. rewrite Ep.
  destruct (live_candidates ts e) as [|x l] eqn:E; simpl.
  - intros x Hx. destruct (is_candidate _ _ _) eqn:Ec; [|done].
    assert (x ∈ live_candidates ts e) as Hin by (by apply elem_live_candidates).
    rewrite E in Hin. set_solver.
  - apply live_candidates_least in E as [Hin Hle].
    apply elem_live_candidates in Hin as [Hx Hc].
    unfold is_candidate, eligible in Hc. exists x.
    split; [done|]. split; [done|].
    destruct (is_live _ _ _); [|done]. destruct (e_paired x); [|done]. simpl in Hc.
    destruct (Z.leb_spec THERMAL_REFUSE_STATUS (e_thermal x)) as [|Ht]; [done|].
    split_and!; [done|done|exact Ht| |].
    + intros m Em. rewrite Em in Hc. destruct (Z.leb_spec m 0); [done|lia].
    + intros y Hy Hyc. apply Hle. by apply elem_live_candidates.
Qed.





(** A follower leads only when nothing better is up: while a
    primary-capable candidate exists, the elected node is primary-capable,
    whatever the priorities say. *)
Theorem follower_yields ts e x w :
  x ∈ (el_nodes e).*2 → is_candidate (el_timeout e) ts x = true →
  e_role x = PRIMARY_CAPABLE → tr_primary (tick ts e).2 = Some w →
  ∃ y, y ∈ (el_nodes e).*2 ∧ e_node_id y = w ∧ e_role y = PRIMARY_CAPABLE.
Proof.
  intros Hx Hc Hr Hw. destruct (tick_primary ts e) as (Ep & _). rewrite Ep in Hw.
  destruct (live_candidates ts e) as [|y l] eqn:E; simplify_eq/=.
  apply live_candidates_least in E as [Hin Hle].
  apply elem_live_candidates in Hin as [Hy _]. exists y.
  split_and!; [done|done|]. eapply rank_role; [|exact Hr].
  apply Hle. by apply elem_live_candidates.
Qed.

(** Every stored record is stored under its own node id, once. *)
Definition nodes_wf (ns : list (pystr * node_entry)) : Prop :=
  NoDup ns.*1 ∧ ∀ k x, (k, x) ∈ ns → e_node_id x = k.

Lemma nodes_wf_dset k x ns :
  nodes_wf ns → e_node_id x = k → nodes_wf (dset k x ns).
Proof.
  intros [Hnd Hk] Hx. split; [auto with shugo|].
  intros k' x' [Heq|?]%dset_elem; simplify_eq; auto.
Qed.

Section HeartbeatTheorems.
Context `{PyRepr}.

Lemma heartbeat_observed_aux ts payload e :
  nodes_wf (el_nodes e) →
  let r := observe_heartbeat ts payload e in
  match r.2 with
  | Ok true => ∃ d new x,
      payload = VDict d ∧ make_node_entry ts d = Ok (Some new) ∧
      dget (e_node_id new) (el_nodes r.1) = Some x ∧ e_last_seen x = ts ∧
      (x = new ∨ ∃ prev, dget (e_node_id new) (el_nodes e) = Some prev ∧
                  same_seq new prev = Ok true ∧ x = touch ts prev) ∧
      (∀ k, k ≠ e_node_id new → dget k (el_nodes r.1) = dget k (el_nodes e)) ∧
      nodes_wf (el_nodes r.1)
  | _ => r.1 = e
  end.
Proof.
  intros Hwf. simpl. unfold observe_heartbeat.
  destruct payload as [| | | | | |d]; try done.
  destruct (make_node_entry ts d) as [[new|]|ex] eqn:Em; simpl; try done.
  assert (e_last_seen new = ts) as Hts.
  { unfold make_node_entry in Em.
    repeat (case_decide || case_match); simplify_eq; done. }
  destruct (dget (e_node_id new) (el_nodes e)) as [prev|] eqn:Ed; simpl.
  - assert (e_node_id prev = e_node_id new) as Hid.
    { apply dget_elem in Ed. by apply Hwf in Ed. }
    destruct (same_seq new prev) as [[]|] eqn:Es; simpl; [| |done].
    + exists d, new, (touch ts prev). rewrite dget_dset_eq.
      split_and!; try done; [eauto|intros; by apply dget_dset_ne|].
      by apply nodes_wf_dset.
    + exists d, new, new. rewrite dget_dset_eq.
      split_and!; try done; [eauto|intros; by apply dget_dset_ne|].
      by apply nodes_wf_dset.
  - exists d, new, new. rewrite dget_dset_eq.
    split_and!; try done; [eauto|intros; by apply dget_dset_ne|].
    by apply nodes_wf_dset.
Qed.
(** A heartbeat is never lost: observing an advertisement either raises
    or refuses and leaves the elector as it was, or it stores a record under
    the sender's id that is fresh at that instant.  The record is the new
    advertisement unless its sequence number repeats the known one, in which
    case only the stamp moves; in particular a peer that restarted with a
    lower sequence number is seen.  No other node's record changes, and
    records stay filed under their own ids. *)
Theorem heartbeat_observed ts payload e :
  nodes_wf (el_nodes e) →
  let r := observe_heartbeat ts payload e in
  match r.2 with
  | Ok true => ∃ d new x,
      payload = VDict d ∧ make_node_entry ts d = Ok (Some new) ∧
      dget (e_node_id new) (el_nodes r.1) = Some x ∧ e_last_seen x = ts ∧
      (x = new ∨ ∃ prev, dget (e_node_id new) (el_nodes e) = Some prev ∧
                  same_seq new prev = Ok true ∧ x = touch ts prev) ∧
      (∀ k, k ≠ e_node_id new → dget k (el_nodes r.1) = dget k (el_nodes e)) ∧
      nodes_wf (el_nodes r.1)
  | _ => r.1 = e
  end.
Proof. apply heartbeat_observed_aux. Qed.
End HeartbeatTheorems.

(** ** The elector as a transition system *)

Inductive el_label : Type :=
  | El_observe (ts : f64) (payload : pyval)
  | El_local (ts : f64) (thermal mem : Z) (endpoint : pystr) (paired : bool)
      (caps : list (pystr * pyval))
  | El_drop (node_id : pystr)
  | El_tick (ts : f64).

(** The (peer, claim, winner) triples of the disagreement events of a log. *)
Definition disagreement_key (ev : audit_event) : option (pystr * pystr * pystr) :=
  match ev_payload ev with
  | [_; (_, VStr peer); (_, VStr claim); (_, VStr winner)] =>
      if decide (ev_type ev = u "mesh_lease_disagreement")
      then Some (peer, claim, winner) else None
  | _ => None
  end.

Definition disagreement_keys (log : list audit_event) :=
  omap disagreement_key log.

Section Reachable.
Context `{PyRepr}.

Definition el_exec (l : el_label) (e : MeshElection) : MeshElection :=
  match l with
  | El_observe ts payload => (observe_heartbeat ts payload e).1
  | El_local ts th mem ep paired caps =>
      (local_heartbeat ts th mem ep paired caps e).1
  | El_drop nid => drop_node nid e
  | El_tick ts => (tick ts e).1
  end.

Inductive el_step : MeshElection → el_label → MeshElection → Prop :=
  | el_step_exec e l : el_step e l (el_exec l e).

Definition el_init (e : MeshElection) : Prop :=
  ∃ nid p lease timeout a r, e = new_election nid p lease timeout a r.

(** Records are filed under their own ids; what was reported is what was
    seen, and nothing was seen twice. *)
Definition el_inv (e : MeshElection) : Prop :=
  nodes_wf (el_nodes e) ∧ NoDup (el_seen e) ∧
  (∀ log, el_audit e = Some log → disagreement_keys log = rev (el_seen e)).

Lemma observe_frame ts payload e :
  let e' := (observe_heartbeat ts payload e).1 in
  el_seen e' = el_seen e ∧ el_audit e' = el_audit e ∧
  (nodes_wf (el_nodes e) → nodes_wf (el_nodes e')).
Proof.
  simpl. split_and!.
  1-2: unfold observe_heartbeat; destruct payload; try done;
    destruct (make_node_entry ts d) as [[new|]|]; try done;
    destruct (dget _ _); [destruct (same_seq _ _) as [[]|]|]; done.
  intros Hwf. pose proof (heartbeat_observed_aux ts payload e Hwf) as Ho.
  simpl in Ho.
  destruct ((observe_heartbeat ts payload e).2) as [[]|]; try by rewrite Ho.
  by destruct Ho as (? & ? & ? & _ & _ & _ & _ & _ & _ & ?).
Qed.

Lemma note_one_inv w x e : el_inv e → el_inv (note_one w e x).
Proof.
  intros (Hwf & Hnd & Ha). unfold note_one.
  destruct (disagrees _ _ _); [|done]. case_decide as Hs; [done|].
  split_and!; simpl; [done|by constructor|].
  intros log Hl. destruct (el_audit e) as [log0|] eqn:E; simplify_eq/=.
  unfold disagreement_keys. rewrite omap_app.
  fold (disagreement_keys log0). by rewrite (Ha log0).
Qed.

Lemma note_disagreement_inv w cands e : el_inv e → el_inv (note_disagreement w cands e).
Proof.
  unfold note_disagreement. destruct w as [[|c w]|]; [done| |done].
  revert e. induction cands as [|x cands IH]; intros e He; simpl; [done|].
  apply IH. by apply note_one_inv.
Qed.

Lemma el_audit_other_inv ty payload e :
  disagreement_key (AuditEvent ty payload) = None →
  el_inv e → el_inv (el_audit_event ty payload e).
Proof.
  intros Hk (Hwf & Hnd & Ha). split_and!; simpl; [done|done|].
  intros log Hl. destruct (el_audit e) as [log0|] eqn:E; simplify_eq/=.
  unfold disagreement_keys. rewrite omap_app. simpl. rewrite Hk.
  rewrite app_nil_r. by apply Ha.
Qed.

Lemma tick_inv ts e : el_inv e → el_inv (tick ts e).1.
Proof.
  intros He. unfold tick. cbv zeta. cbn [fst].
  set (w := pick_winner _ _). set (cands := live_candidates ts e).
  assert (el_inv (note_disagreement w cands e)) as H1
    by (by apply note_disagreement_inv).
  assert (el_inv (set_lease w ts (note_disagreement w cands e))) as H2.
  { destruct H1 as (? & ? & ?). by split_and!. }
  repeat case_decide; try done; by apply el_audit_other_inv.
Qed.

Lemma el_inv_exec l e : el_inv e → el_inv (el_exec l e).
Proof.
  intros He. destruct l as [ts payload|ts th mem ep paired caps|nid|ts];
    cbn [el_exec].
  - destruct (observe_frame ts payload e) as (E1 & E2 & Hn), He as (Hw & Hs & Ha).
    split_and!; [auto|by rewrite E1|]. rewrite E1, E2. done.
  - unfold local_heartbeat. py_unfold.
    set (e1 := set_el_seq _ e). set (d := local_payload _ _ _ _ _ _).
    assert (el_inv e1) as He1 by (by destruct He as (? & ? & ?)).
    destruct (observe_frame ts (VDict d) e1) as (E1 & E2 & Hn), He1 as (Hw & Hs & Ha).
    destruct (observe_heartbeat ts (VDict d) e1) as [e2 [b|ex]]; simpl in *;
      (split_and!; [auto|by rewrite E1|]; rewrite E1, E2; done).
  - destruct He as ([Hnd Hk] & Hs & Ha). split_and!; simpl; [|done|done].
    split; [auto with shugo|]. intros k x Hin. apply Hk.
    clear -Hin. induction (el_nodes e) as [|[k0 x0] ns IH]; simpl in *; [done|].
    case_decide; set_solver.
  - by apply tick_inv.
Qed.

Lemma el_reach_inv e : reachable el_step el_init e → el_inv e.
Proof.
  apply reach_ind_inv.
  - intros a (nid & p & lease & timeout & au & r & ->). unfold new_election.
    split_and!; simpl; [split; [constructor|set_solver]|constructor|].
    intros log. by destruct au; intros ?; simplify_eq.
  - intros a l b Ha Hst. destruct Hst. by apply el_inv_exec.
Qed.

(** A lease disagreement is audited once: in every history of
    heartbeats, drops and ticks, no (peer, claim, winner) triple is reported
    twice, the audit log reports exactly the triples remembered as seen, and
    every record stays filed under its own node id. *)
Theorem disagreement_audited_once e :
  reachable el_step el_init e →
  nodes_wf (el_nodes e) ∧
  ∀ log, el_audit e = Some log →
    NoDup (disagreement_keys log) ∧ disagreement_keys log = rev (el_seen e).
Proof.
  intros (Hwf & Hnd & Ha)%el_reach_inv. split; [done|].
  intros log Hl. specialize (Ha log Hl). split; [|done].
  rewrite Ha. by apply NoDup_ListNoDup, NoDup_rev, NoDup_ListNoDup.
Qed.
End Reachable.

(** ** Witnesses *)

Definition no_repr : PyRepr := λ _, [].

Definition demo_node (nid : pystr) (p : Z) (r : node_role) (claim : pystr) : node_entry :=
  Entry nid p 0 None [] true claim r [] (VInt 1) f0.

Definition demo_election : MeshElection :=
  set_nodes [(u "pc", demo_node (u "pc") 10 PRIMARY_CAPABLE (u "mac"));
             (u "phone", demo_node (u "phone") 1 FOLLOWER [])]
    (new_election (u "pc") 10 (f_of_Z 10) (f_of_Z 30) true []).



Lemma follower_yields_witness :
  ∃ y, y ∈ (el_nodes demo_election).*2 ∧ e_node_id y = u "pc" ∧
       e_role y = PRIMARY_CAPABLE.
Proof.
  refine (follower_yields f1 demo_election
            (demo_node (u "pc") 10 PRIMARY_CAPABLE (u "mac")) (u "pc") _ _ _ _);
    try reflexivity. left.
Defined.

Lemma heartbeat_observed_witness :
  let payload := VDict [(u "node_id", VStr (u "pc")); (u "seq", VInt 0)] in
  let r := @observe_heartbeat no_repr f1 payload demo_election in
  ∃ x, dget (u "pc") (el_nodes r.1) = Some x ∧ e_last_seen x = f1.
Proof.
  intros payload r.
  assert (nodes_wf (el_nodes demo_election)) as Hwf.
  { split.
    - repeat constructor; set_solver.
    - intros k x. simpl. rewrite !elem_of_cons, elem_of_nil. naive_solver. }
  destruct (@heartbeat_observed no_repr f1 payload demo_election Hwf)
    as (d & new & x & Hd & Hm & Hx & Hs & _).
  exists x. split; [|exact Hs].
  assert (e_node_id new = u "pc") as <-; [|exact Hx].
  injection Hd as <-. vm_compute in Hm. by injection Hm as <-.
Defined.

Lemma disagreement_audited_once_witness :
  nodes_wf (el_nodes (@el_exec no_repr (El_tick f1)
    (new_election (u "pc") 10 f1 f1 true []))).
Proof.
  refine (proj1 (@disagreement_audited_once no_repr _ _)).
  exists (new_election (u "pc") 10 f1 f1 true []), [El_tick f1]. split.
  - by eexists _, _, _, _, _, _.
  - eapply steps_cons; [apply el_step_exec|apply steps_nil].
Defined.
