(* ===== verification/Base64.v ===== *)
(** * Base64 text ([base64.b64encode], [base64.b64decode])

    The codec of the shards of the key/value mesh ([src/kv_mesh/simulator.py])
    and of the chunks of an artifact ([src/agent_runtime.py]): bytes are integers
    below 256, the decoder is the one with [validate=True]. *)

From Stdlib Require Import ZArith NArith Lia.
From S2P Require Import Prelude PyStr PyVal.

Local Open Scope N_scope.

Definition is_byte (b : N) : Prop := b < 256.

(** ** The alphabet *)

Definition b64_char (d : N) : N :=
  if d <? 26 then 65 + d else if d <? 52 then 71 + d else if d <? 62 then d - 4
  else if d =? 62 then 43 else 47.

Definition b64_value (c : N) : option N :=
  if is_upper c then Some (c - 65) else if is_lower c then Some (c - 71)
  else if is_digit c then Some (c + 4) else if c =? 43 then Some 62
  else if c =? 47 then Some 63 else None.

Definition in_alphabet (c : N) : bool := match b64_value c with Some _ => true | None => false end.

(** ** Encoding *)

(** [base64.b64encode(data).decode("ascii")]. *)
Fixpoint b64encode (data : list N) : pystr :=
  match data with
  | a :: b :: c :: rest =>
      [b64_char (a / 4); b64_char (16 * (a mod 4) + b / 16);
       b64_char (4 * (b mod 16) + c / 64); b64_char (c mod 64)] ++ b64encode rest
  | [a; b] => [b64_char (a / 4); b64_char (16 * (a mod 4) + b / 16); b64_char (4 * (b mod 16)); 61]
  | [a] => [b64_char (a / 4); b64_char (16 * (a mod 4)); 61; 61]
  | [] => []
  end.

(** ** Decoding *)

(** [binascii.a2b_base64] over characters of the alphabet: the bits left over
    and the position in the group of four. *)
Fixpoint a2b (pos left : N) (s : pystr) : list N * N :=
  match s with
  | [] => ([], pos)
  | c :: s' =>
      let v := default 0 (b64_value c) in
      if pos =? 0 then a2b 1 v s'
      else
        let '(byte, left') := if pos =? 1 then (4 * left + v / 16, v mod 16)
                              else if pos =? 2 then (16 * left + v / 4, v mod 4)
                              else (64 * left + v, 0) in
        let '(bs, p) := a2b ((pos + 1) mod 4) left' s' in (byte :: bs, p)
  end.

(** The padding that ends a text with so many characters over. *)
Definition padded (pos : N) (pads : nat) : bool :=
  (pos =? 0) || (pos =? 2) && (pads =? 2)%nat || (pos =? 3) && negb (pads =? 0)%nat.

(** [base64.b64decode(s, validate=True)] of a string. *)
Definition b64decode_str (s : pystr) : res (list N) :=
  if negb (forallb (λ c, c <? 128) s)
  then Raise (ValueError (u "string argument should contain only ASCII characters"))
  else
    let '(data, pads) := span in_alphabet s in
    if negb (forallb (N.eqb 61) pads && (length pads <=? 2)%nat)
    then Raise (ValueError (u "Non-base64 digit found"))
    else
      let '(bs, pos) := a2b 0 0 data in
      if padded pos (length pads) then Ok bs
      else if pos =? 1
      then Raise (ValueError (u "Invalid base64-encoded string: number of data characters ("
                              ++ str_of_Z (Z.of_nat (length data))
                              ++ u ") cannot be 1 more than a multiple of 4"))
      else Raise (ValueError (u "Incorrect padding")).

(** ... and of a value of a decoded document. *)
Definition b64decode (v : pyval) : res (list N) :=
  match v with
  | VStr s => b64decode_str s
  | _ => Raise (TypeError (u "argument should be a bytes-like object or ASCII string"))
  end.

(** ** Facts *)

Lemma b64_value_char d : d < 64 → b64_value (b64_char d) = Some d.
Proof.
  intros Hd. unfold b64_char, b64_value, is_upper, is_lower, is_digit.
  repeat case_match; f_equal; lia.
Qed.

Lemma b64_char_ascii d : d < 64 → b64_char d < 128.
Proof. intros. unfold b64_char. repeat case_match; lia. Qed.

Lemma three_ind (P : list N → Prop) :
  P [] → (∀ a, P [a]) → (∀ a b, P [a; b]) → (∀ a b c l, P l → P (a :: b :: c :: l)) → ∀ l, P l.
Proof.
  intros H0 H1 H2 H3 l. remember (length l) as n eqn:Hn. revert l Hn.
  induction n as [n IH] using lt_wf_ind. intros [|a [|b [|c l]]] Hn; auto.
  apply H3. apply (IH (length l)); [simpl in Hn; lia|done].
Qed.

(** The arithmetic of one group, read back digit by digit. *)
Lemma group_bits a b c : a < 256 → b < 256 → c < 256 →
  a / 4 < 64 ∧ 16 * (a mod 4) + b / 16 < 64 ∧ 4 * (b mod 16) + c / 64 < 64 ∧ c mod 64 < 64
  ∧ 4 * (a / 4) + (16 * (a mod 4) + b / 16) / 16 = a
  ∧ 16 * ((16 * (a mod 4) + b / 16) mod 16) + (4 * (b mod 16) + c / 64) / 4 = b
  ∧ 64 * ((4 * (b mod 16) + c / 64) mod 4) + c mod 64 = c.
Proof. intros. repeat split; zify; Z.to_euclidean_division_equations; lia. Qed.

Lemma a2b_0 left d rest : d < 64 → a2b 0 left (b64_char d :: rest) = a2b 1 d rest.
Proof. intros Hd. cbn [a2b]. by rewrite (b64_value_char d Hd). Qed.

Lemma a2b_1 left d rest : d < 64 → a2b 1 left (b64_char d :: rest)
  = let '(bs, p) := a2b 2 (d mod 16) rest in (4 * left + d / 16 :: bs, p).
Proof. intros Hd. cbn [a2b]. by rewrite (b64_value_char d Hd). Qed.

Lemma a2b_2 left d rest : d < 64 → a2b 2 left (b64_char d :: rest)
  = let '(bs, p) := a2b 3 (d mod 4) rest in (16 * left + d / 4 :: bs, p).
Proof. intros Hd. cbn [a2b]. by rewrite (b64_value_char d Hd). Qed.

Lemma a2b_3 left d rest : d < 64 → a2b 3 left (b64_char d :: rest)
  = let '(bs, p) := a2b 0 0 rest in (64 * left + d :: bs, p).
Proof. intros Hd. cbn [a2b]. by rewrite (b64_value_char d Hd). Qed.

(** What the encoder writes: characters of the alphabet that decode to the
    bytes, and the padding that fits them. *)
Definition encodes (l : list N) (s : pystr) : Prop :=
  ∃ data k pos, s = data ++ replicate k 61 ∧ Forall (λ c, in_alphabet c = true ∧ c < 128) data
              ∧ a2b 0 0 data = (l, pos) ∧ padded pos k = true ∧ (k ≤ 2)%nat.

Lemma char_data d : d < 64 → in_alphabet (b64_char d) = true ∧ b64_char d < 128.
Proof. intros Hd. split; [unfold in_alphabet; by rewrite b64_value_char|by apply b64_char_ascii]. Qed.

Lemma b64encode_encodes l : Forall is_byte l → encodes l (b64encode l).
Proof.
  unfold is_byte. induction l as [|a|a b|a b c l IH] using three_ind; intros Hl.
  - exists [], O, 0. repeat split; [constructor|lia].
  - inversion Hl as [|?? Ha _]; subst.
    destruct (group_bits a 0 0) as (H1 & H2 & _ & _ & E1 & _); [done..|].
    replace (16 * (a mod 4) + 0 / 16) with (16 * (a mod 4)) in * by (rewrite N.div_0_l; lia).
    exists [b64_char (a / 4); b64_char (16 * (a mod 4))], 2%nat, 2.
    split; [done|]. split; [repeat constructor; by apply char_data|].
    split; [|split; [done|lia]]. rewrite a2b_0, a2b_1 by done. cbn [a2b]. by rewrite E1.
  - inversion Hl as [|?? Ha Hl']; subst. inversion Hl' as [|?? Hb _]; subst.
    destruct (group_bits a b 0) as (H1 & H2 & H3 & _ & E1 & E2 & _); [done..|].
    replace (4 * (b mod 16) + 0 / 64) with (4 * (b mod 16)) in * by (rewrite N.div_0_l; lia).
    exists [b64_char (a / 4); b64_char (16 * (a mod 4) + b / 16); b64_char (4 * (b mod 16))], 1%nat, 3.
    split; [done|]. split; [repeat constructor; by apply char_data|].
    split; [|split; [done|lia]]. rewrite a2b_0, a2b_1, a2b_2 by done. cbn [a2b]. by rewrite E1, E2.
  - inversion Hl as [|?? Ha Hl1]; subst. inversion Hl1 as [|?? Hb Hl2]; subst.
    inversion Hl2 as [|?? Hc Hr]; subst.
    destruct (IH Hr) as (data & k & pos & E & Hd & Ea & Hp & Hk).
    destruct (group_bits a b c) as (H1 & H2 & H3 & H4 & E1 & E2 & E3); [done..|].
    exists ([b64_char (a / 4); b64_char (16 * (a mod 4) + b / 16);
             b64_char (4 * (b mod 16) + c / 64); b64_char (c mod 64)] ++ data), k, pos.
    cbn [b64encode]. split; [by rewrite E, app_assoc|].
    split; [apply Forall_app; split; [repeat constructor; by apply char_data|done]|].
    split; [|done]. cbn [app]. rewrite a2b_0, a2b_1, a2b_2, a2b_3 by done. by rewrite Ea, E1, E2, E3.
Qed.

(** Decoding takes encoding back. *)
Lemma b64_roundtrip l : Forall is_byte l → b64decode (VStr (b64encode l)) = Ok l.
Proof.
  intros Hl. destruct (b64encode_encodes l Hl) as (data & k & pos & -> & Hd & Ea & Hp & Hk).
  unfold b64decode, b64decode_str.
  assert (forallb (λ c, c <? 128) (data ++ replicate k 61) = true) as ->.
  { rewrite forallb_app. apply andb_true_iff. split.
    - apply forallb_forall. intros x Hx. rewrite Forall_forall in Hd. apply list_elem_of_In, Hd in Hx. lia.
    - apply forallb_forall. intros x Hx. apply list_elem_of_In, elem_of_replicate in Hx as [-> _]. done. }
  cbn [negb]. rewrite span_app; [|eapply Forall_impl; [exact Hd|by intros ? [? _]]|].
  2:{ intros c s' E. destruct k; [done|]. by injection E as <- _. }
  rewrite length_replicate, Ea, Hp.
  assert (forallb (N.eqb 61) (replicate k 61) = true) as ->.
  { apply forallb_forall. intros x Hx. apply list_elem_of_In, elem_of_replicate in Hx as [-> _]. done. }
  by replace (k <=? 2)%nat with true by lia.
Qed.

(** Four characters for every three bytes, begun. *)
Lemma b64_length l : length (b64encode l) = (4 * ((length l + 2) / 3))%nat.
Proof.
  induction l as [|a|a b|a b c l IH] using three_ind; try done.
  cbn [b64encode]. rewrite length_app, IH. cbn [length].
  replace (S (S (S (length l))) + 2)%nat with (length l + 2 + 1 * 3)%nat by lia.
  rewrite Nat.div_add by lia. lia.
Qed.

(** What a decoder accepts in excess and what it refuses. *)
Example b64_examples :
  b64decode (VStr (u "YWJj=")) = Ok [97; 98; 99] ∧ b64decode (VStr (u "YWI=")) = Ok [97; 98]
  ∧ is_ok (b64decode (VStr (u "YWI"))) = false ∧ is_ok (b64decode (VStr (u "YW I="))) = false
  ∧ is_ok (b64decode (VStr (u "YWJjZ"))) = false ∧ is_ok (b64decode (VInt 3)) = false.
Proof. by vm_compute. Qed.
