(* ===== verification/KvMesh.v ===== *)
(** * The KV-cache mesh ([src/kv_mesh/])

    Shards of a model's KV cache or context ([shard.py]), the messages of the
    contract ([protocol.py]) and the allocator that assigns shards to nodes by
    advertised memory ([allocator.py]).  Shards are kept by value in the
    allocator's dictionary: every mutation the code makes through a shard
    object it holds is made on the dictionary's entry. *)

From S2P Require Import Prelude PyFloat PyStr PyVal.

Local Open Scope Z_scope.

(** ** Shards *)

Record ShardSpec := Spec {
  model_id : pystr;
  num_layers : Z;
  num_heads : Z;
  head_dim : Z;
  max_seq_len : Z;
  dtype_bytes : Z
}.

(** [kv_bytes_per_token_per_layer], [kv_total_bytes], [bytes_for_layers]. *)
Definition kv_bytes_per_token_per_layer (s : ShardSpec) : Z :=
  2 * num_heads s * head_dim s * dtype_bytes s.

Definition kv_total_bytes (s : ShardSpec) : Z :=
  num_layers s * max_seq_len s * kv_bytes_per_token_per_layer s.

Definition bytes_for_layers (s : ShardSpec) (l_start l_end : Z)
    (seq_len : option Z) : Z :=
  (l_end - l_start) * default (max_seq_len s) seq_len
  * kv_bytes_per_token_per_layer s.

Record KVShard := Shard {
  shard_id : pystr;
  sh_model_id : pystr;
  layer_start : Z; layer_end : Z;
  head_start : Z; head_end : Z;
  seq_start : Z; seq_end : Z;
  bytes_size : Z;
  device_id : option pystr;
  checksum : pystr
}.

Record ContextShard := CShard {
  c_shard_id : pystr;
  c_model_id : pystr;
  token_start : Z; token_end : Z;
  c_bytes_size : Z;
  c_device_id : option pystr;
  c_checksum : pystr
}.

(** [KVShard.canonical_id]. *)
Definition canonical_id (m : pystr) (l0 l1 h0 h1 s0 s1 : Z) : pystr :=
  m ++ u ":L" ++ str_of_Z l0 ++ u "-" ++ str_of_Z l1
    ++ u ":H" ++ str_of_Z h0 ++ u "-" ++ str_of_Z h1
    ++ u ":S" ++ str_of_Z s0 ++ u "-" ++ str_of_Z s1.

(** The shape a checksum is taken over. *)
Definition bspec (m : pystr) (l0 l1 h0 h1 s0 s1 : Z) : list (pystr * pyval) :=
  [(u "model_id", VStr m); (u "layer_start", VInt l0); (u "layer_end", VInt l1);
   (u "head_start", VInt h0); (u "head_end", VInt h1);
   (u "seq_start", VInt s0); (u "seq_end", VInt s1)].

Section Sharding.
(** [_digest]: SHA-256 of the canonical JSON text. *)
Context (digest : list (pystr * pyval) → pystr).

(** The bounds of chunk [i] of [n] over [total] positions: equal chunks, the
  last one takes the remainder. *)
Definition chunk_bounds (total n i : Z) : Z * Z :=
let chunk := total / n in
(i * chunk, if i =? n - 1 then total else (i + 1) * chunk).

Definition sequence_shard (spec : ShardSpec) (n i : Z) : KVShard :=
let '(s0, s1) := chunk_bounds (max_seq_len spec) n i in
{| shard_id := canonical_id (model_id spec) 0 (num_layers spec) 0 (num_heads spec) s0 s1;
   sh_model_id := model_id spec;
   layer_start := 0; layer_end := num_layers spec;
   head_start := 0; head_end := num_heads spec;
   seq_start := s0; seq_end := s1;
   bytes_size := num_layers spec * (s1 - s0) * kv_bytes_per_token_per_layer spec;
   device_id := None;
   checksum := digest (bspec (model_id spec) 0 (num_layers spec) 0 (num_heads spec) s0 s1) |}.

Definition layer_shard (spec : ShardSpec) (n i : Z) : KVShard :=
let '(l0, l1) := chunk_bounds (num_layers spec) n i in
{| shard_id := canonical_id (model_id spec) l0 l1 0 (num_heads spec) 0 (max_seq_len spec);
   sh_model_id := model_id spec;
   layer_start := l0; layer_end := l1;
   head_start := 0; head_end := num_heads spec;
   seq_start := 0; seq_end := max_seq_len spec;
   bytes_size := bytes_for_layers spec l0 l1 None;
   device_id := None;
   checksum := digest (bspec (model_id spec) l0 l1 0 (num_heads spec) 0 (max_seq_len spec)) |}.

Definition zrange (n : Z) : list Z := Z.of_nat <$> seq 0 (Z.to_nat n).

(** [make_kv_shards]. *)
Definition make_kv_shards (spec : ShardSpec) (n : Z) (split : pystr) :
  res (list KVShard) :=
if n <? 1 then Raise (ValueError (u "num_shards must be >= 1"))
else if bool_decide (split = u "sequence") then
  Ok (sequence_shard spec n <$> zrange n)
else if bool_decide (split = u "layers") then
  Ok (layer_shard spec n <$> zrange n)
else Raise (ValueError (u "unknown split: " ++ repr_str split)).

Definition context_shard (spec : ShardSpec) (n i : Z) : ContextShard :=
let '(t0, t1) := chunk_bounds (max_seq_len spec) n i in
{| c_shard_id := model_id spec ++ u ":ctx:" ++ str_of_Z t0 ++ u "-" ++ str_of_Z t1;
   c_model_id := model_id spec; token_start := t0; token_end := t1;
   c_bytes_size := (t1 - t0) * num_heads spec * head_dim spec * dtype_bytes spec;
   c_device_id := None;
   c_checksum := digest [(u "model_id", VStr (model_id spec)); (u "ts", VInt t0);
                         (u "te", VInt t1)] |}.

(** [make_context_shards]. *)
Definition make_context_shards (spec : ShardSpec) (n : Z) : res (list ContextShard) :=
if n <? 1 then Raise (ValueError (u "num_shards must be >= 1"))
else Ok (context_shard spec n <$> zrange n).
End Sharding.

(** ** The allocator *)

Record kv_node := KvNode {
  usable_ram_bytes : Z;
  total_ram_bytes : Z;
  allocated_bytes : Z
}.

Record KVAllocator := Allocator {
  kv_nodes : list (pystr * kv_node);
  kv_shards : list (pystr * KVShard)
}.

Definition new_allocator : KVAllocator := Allocator [] [].

Definition set_device (d : option pystr) (s : KVShard) : KVShard :=
  {| shard_id := shard_id s; sh_model_id := sh_model_id s;
     layer_start := layer_start s; layer_end := layer_end s;
     head_start := head_start s; head_end := head_end s;
     seq_start := seq_start s; seq_end := seq_end s;
     bytes_size := bytes_size s; device_id := d; checksum := checksum s |}.

Definition set_allocated (a : Z) (n : kv_node) : kv_node :=
  KvNode (usable_ram_bytes n) (total_ram_bytes n) a.

(** [register_node]. *)
Definition register_node (d : pystr) (usable total : Z) (a : KVAllocator) : KVAllocator :=
  Allocator (dset d (KvNode (Z.max 0 usable) (Z.max 0 total) 0) (kv_nodes a))
    (kv_shards a).

(** [unregister_node]: the shards that were on the node become unassigned;
    returns them. *)
Definition unregister_node (d : pystr) (a : KVAllocator) :
    KVAllocator * list KVShard :=
  let on_node s := bool_decide (device_id s = Some d) in
  (Allocator (ddel d (kv_nodes a))
     ((λ kv, (kv.1, if on_node kv.2 then set_device None kv.2 else kv.2))
        <$> kv_shards a),
   set_device None <$> List.filter on_node (kv_shards a).*2).

(** [node_capacity] and [remaining]. *)
Definition node_capacity (d : pystr) (a : KVAllocator) : Z * Z :=
  match dget d (kv_nodes a) with
  | None => (0, 0)
  | Some n => (usable_ram_bytes n, allocated_bytes n)
  end.

Definition remaining (d : pystr) (a : KVAllocator) : Z :=
  let '(usable, allocated) := node_capacity d a in Z.max 0 (usable - allocated).

(** The nodes in the order [assign] tries them: most room first, a preferred
    node in front. *)
Definition assign_order (prefer : option pystr) (a : KVAllocator) : list pystr :=
  let cands := sort_by (λ x y, remaining y a <=? remaining x a) (kv_nodes a).*1 in
  match prefer with
  | Some p => if decide (p ∈ cands)
              then p :: List.filter (λ x, negb (bool_decide (x = p))) cands
              else cands
  | None => cands
  end.

(** [assign]. *)
Definition assign (s : KVShard) (prefer : option pystr) (a : KVAllocator) :
    KVAllocator * option pystr :=
  match List.find (λ d, bytes_size s <=? remaining d a) (assign_order prefer a) with
  | Some d =>
      let nodes := match dget d (kv_nodes a) with
                   | Some n => dset d (set_allocated (allocated_bytes n + bytes_size s) n)
                                 (kv_nodes a)
                   | None => kv_nodes a
                   end in
      (Allocator nodes (dset (shard_id s) (set_device (Some d) s) (kv_shards a)), Some d)
  | None =>
      (Allocator (kv_nodes a) (dset (shard_id s) (set_device None s) (kv_shards a)), None)
  end.

(** [evict]. *)
Definition evict (sid : pystr) (a : KVAllocator) : KVAllocator * bool :=
  match dget sid (kv_shards a) with
  | None => (a, false)
  | Some s =>
      match device_id s with
      | None => (a, false)
      | Some d =>
          let nodes := match dget d (kv_nodes a) with
                       | Some n => dset d (set_allocated
                                     (Z.max 0 (allocated_bytes n - bytes_size s)) n)
                                     (kv_nodes a)
                       | None => kv_nodes a
                       end in
          (Allocator nodes (dset sid (set_device None s) (kv_shards a)), true)
      end
  end.

(** [rebalance]: the shards found unassigned at the start, in turn. *)
Fixpoint rebalance_loop (todo : list KVShard) (a : KVAllocator)
    (placed unplaced : list pystr) : KVAllocator * (list pystr * list pystr) :=
  match todo with
  | [] => (a, (placed, unplaced))
  | s :: rest =>
      match assign s None a with
      | (a', Some _) => rebalance_loop rest a' (placed ++ [shard_id s]) unplaced
      | (a', None) => rebalance_loop rest a' placed (unplaced ++ [shard_id s])
      end
  end.

Definition unassigned (a : KVAllocator) : list KVShard :=
  List.filter (λ s, bool_decide (device_id s = None)) (kv_shards a).*2.

Definition rebalance (a : KVAllocator) : KVAllocator * (list pystr * list pystr) :=
  rebalance_loop (unassigned a) a [] [].

(** [shard_location] and [stats]: per node (usable, allocated, remaining), the
    number of shards and how many are assigned. *)
Definition shard_location (sid : pystr) (a : KVAllocator) : option pystr :=
  dget sid (kv_shards a) ≫= device_id.

Definition kv_stats (a : KVAllocator) :
    list (pystr * (Z * Z * Z)) * nat * nat :=
  ((λ kv, (kv.1, (usable_ram_bytes kv.2, allocated_bytes kv.2, remaining kv.1 a)))
     <$> kv_nodes a,
   length (kv_shards a),
   length (List.filter (λ s, negb (bool_decide (device_id s = None))) (kv_shards a).*2)).

(** ** Sharding facts *)

Lemma elem_zrange n i : i ∈ zrange n ↔ 0 <= i < n.
Proof.
  unfold zrange. rewrite list_elem_of_fmap. split.
  - intros (k & -> & Hk%elem_of_seq). lia.
  - intros Hi. exists (Z.to_nat i). split; [lia|]. apply elem_of_seq. lia.
Qed.

Lemma chunk_bounds_first total n : 1 <= n → (chunk_bounds total n 0).1 = 0.
Proof. unfold chunk_bounds. simpl. lia. Qed.

Lemma chunk_bounds_last total n : (chunk_bounds total n (n - 1)).2 = total.
Proof. unfold chunk_bounds. simpl. by rewrite Z.eqb_refl. Qed.

Lemma chunk_bounds_next total n i :
  0 <= i < n - 1 → (chunk_bounds total n i).2 = (chunk_bounds total n (i + 1)).1.
Proof. unfold chunk_bounds. simpl. intros. destruct (Z.eqb_spec i (n - 1)); lia. Qed.

Lemma chunk_bounds_ordered total n i :
  0 <= total → 0 <= i < n →
  let '(b0, b1) := chunk_bounds total n i in 0 <= b0 <= b1 ∧ b1 <= total.
Proof.
  intros Ht Hi. unfold chunk_bounds.
  assert (0 <= total / n) by (apply Z.div_pos; lia).
  assert (n * (total / n) <= total) by (apply Z.mul_div_le; lia).
  destruct (Z.eqb_spec i (n - 1)); nia.
Qed.

Fixpoint zsum (l : list Z) : Z :=
  match l with [] => 0 | x :: l' => x + zsum l' end.

Lemma zsum_app l k : zsum (l ++ k) = zsum l + zsum k.
Proof. induction l; simpl; lia. Qed.

(** Summing a bound's widths telescopes. *)
Lemma zsum_widths total n m :
  1 <= n → (m <= Z.to_nat n)%nat →
  zsum ((λ i, (chunk_bounds total n i).2 - (chunk_bounds total n i).1)
          <$> (Z.of_nat <$> seq 0 m)) =
  if (m =? Z.to_nat n)%nat then total else Z.of_nat m * (total / n).
Proof.
  intros Hn. induction m as [|m IH]; intros Hm.
  - destruct (Nat.eqb_spec 0 (Z.to_nat n)); [lia|]. done.
  - rewrite seq_S, !fmap_app, zsum_app, IH by lia. clear IH.
    destruct (Nat.eqb_spec m (Z.to_nat n)); [lia|].
    unfold chunk_bounds. cbn [fmap list_fmap zsum fst snd].
    rewrite Nat.add_0_l. generalize (total / n) as q. intros q.
    destruct (Z.eqb_spec (Z.of_nat m) (n - 1)), (Nat.eqb_spec (S m) (Z.to_nat n)); nia.
Qed.

Lemma zsum_scale (f : Z → Z) c l : zsum ((λ i, c * f i) <$> l) = c * zsum (f <$> l).
Proof. induction l as [|x l IH]; csimpl; [lia|]. rewrite IH. lia. Qed.

(** ** Allocator facts *)

(** The bytes of the shards the dictionary assigns to a node. *)
Definition on_device (d : pystr) (s : KVShard) : Z :=
  if decide (device_id s = Some d) then bytes_size s else 0.

Definition load (d : pystr) (shards : list (pystr * KVShard)) : Z :=
  zsum (on_device d <$> shards.*2).

Definition entry_load (d : pystr) (o : option KVShard) : Z :=
  match o with Some s => on_device d s | None => 0 end.

Lemma load_dset d k s shards :
  load d (dset k s shards) = load d shards - entry_load d (dget k shards) + on_device d s.
Proof.
  unfold load. induction shards as [|[k0 s0] shards IH]; csimpl; [lia|].
  destruct (decide (k = k0)); csimpl; [lia|]. rewrite IH. lia.
Qed.

Lemma load_nonneg d shards :
  (∀ k s, (k, s) ∈ shards → 0 <= bytes_size s) → 0 <= load d shards.
Proof.
  intros Hb. unfold load. induction shards as [|[k s] shards IH]; csimpl; [lia|].
  assert (0 <= on_device d s).
  { unfold on_device. case_decide; [|lia]. apply (Hb k). left. }
  assert (0 <= zsum (on_device d <$> shards.*2)); [|lia].
  apply IH. intros k' s' Hin. apply (Hb k'). by right.
Qed.

Lemma elem_assign_order d prefer a :
  d ∈ assign_order prefer a ↔ d ∈ (kv_nodes a).*1.
Proof.
  unfold assign_order. destruct prefer as [p|]; [|by rewrite elem_sort_by].
  case_decide as Hp; [|by rewrite elem_sort_by].
  rewrite elem_of_cons, list_elem_of_In, List.filter_In, <- list_elem_of_In.
  rewrite elem_sort_by in *. split; [intros [->|[? _]]; done|].
  intros Hd. destruct (decide (d = p)); [by left|right].
  split; [done|]. by rewrite bool_decide_eq_false_2.
Qed.

(** The room a node has, read off its record. *)
Lemma remaining_node d a n :
  dget d (kv_nodes a) = Some n →
  remaining d a = Z.max 0 (usable_ram_bytes n - allocated_bytes n).
Proof. intros E. unfold remaining, node_capacity. by rewrite E. Qed.

(** [assign] places the shard on a known node that has the room, charging it
    exactly the shard's bytes, or finds that no node has it. *)
Lemma assign_cases s prefer a :
  (∃ d n, assign s prefer a =
     (Allocator (dset d (set_allocated (allocated_bytes n + bytes_size s) n) (kv_nodes a))
        (dset (shard_id s) (set_device (Some d) s) (kv_shards a)), Some d)
   ∧ dget d (kv_nodes a) = Some n ∧ bytes_size s <= remaining d a)
  ∨ (assign s prefer a =
       (Allocator (kv_nodes a) (dset (shard_id s) (set_device None s) (kv_shards a)), None)
     ∧ ∀ d, d ∈ (kv_nodes a).*1 → remaining d a < bytes_size s).
Proof.
  unfold assign. destruct (List.find _ _) as [d|] eqn:Ef.
  - left. apply List.find_some in Ef as [Hin Hb]. apply list_elem_of_In in Hin.
    apply elem_assign_order in Hin.
    destruct (dget d (kv_nodes a)) as [n|] eqn:Ed.
    + exists d, n. split_and!; [done|done|lia].
    + by apply dget_None in Ed.
  - right. split; [done|]. intros d Hd.
    assert (In d (assign_order prefer a)) as Hin.
    { apply list_elem_of_In. by apply elem_assign_order. }
    pose proof (List.find_none _ _ Ef d Hin). simpl in *. lia.
Qed.

(** Assigning never adds or drops a node and never frees room. *)
Lemma assign_remaining s prefer a d :
  0 <= bytes_size s →
  (d ∈ (kv_nodes (assign s prefer a).1).*1 ↔ d ∈ (kv_nodes a).*1) ∧
  remaining d (assign s prefer a).1 <= remaining d a.
Proof.
  intros Hb. destruct (assign_cases s prefer a) as [(d0 & n & -> & Ed & _)|[-> _]];
    simpl; [|done]. split.
  - rewrite dset_keys. split; [|tauto]. intros [->|?]; [|done].
    destruct (decide (d0 ∈ (kv_nodes a).*1)) as [|Hn]; [done|].
    apply dget_None in Hn. congruence.
  - unfold remaining, node_capacity. simpl. rewrite dget_dset.
    case_decide; [|done]. subst. rewrite Ed. simpl. lia.
Qed.

(** The accounting invariant. *)
Definition kv_inv (a : KVAllocator) : Prop :=
  NoDup (kv_nodes a).*1 ∧ NoDup (kv_shards a).*1 ∧
  (∀ k s, (k, s) ∈ kv_shards a → 0 <= bytes_size s ∧ shard_id s = k) ∧
  (∀ k s d, (k, s) ∈ kv_shards a → device_id s = Some d → d ∈ (kv_nodes a).*1) ∧
  (∀ d n, dget d (kv_nodes a) = Some n →
     allocated_bytes n = load d (kv_shards a) ∧ allocated_bytes n <= usable_ram_bytes n).

(** The operations, with the conditions under which the books balance: a node
    registers when it is not already registered, a shard has a size and is
    assigned when it is not already on a node. *)
Inductive kv_label : Type :=
  | Kv_register (d : pystr) (usable total : Z)
  | Kv_unregister (d : pystr)
  | Kv_assign (s : KVShard) (prefer : option pystr)
  | Kv_evict (sid : pystr)
  | Kv_rebalance.

Definition kv_exec (l : kv_label) (a : KVAllocator) : KVAllocator :=
  match l with
  | Kv_register d us tot => register_node d us tot a
  | Kv_unregister d => (unregister_node d a).1
  | Kv_assign s prefer => (assign s prefer a).1
  | Kv_evict sid => (evict sid a).1
  | Kv_rebalance => (rebalance a).1
  end.

Definition kv_guard (l : kv_label) (a : KVAllocator) : Prop :=
  match l with
  | Kv_register d _ _ => d ∉ (kv_nodes a).*1
  | Kv_assign s _ => 0 <= bytes_size s ∧ shard_location (shard_id s) a = None
  | _ => True
  end.

Inductive kv_step : KVAllocator → kv_label → KVAllocator → Prop :=
  | kv_step_exec a l : kv_guard l a → kv_step a l (kv_exec l a).

Lemma load_location_None d (sid : pystr) (shards : list (pystr * KVShard)) :
  dget sid shards ≫= device_id = None → entry_load d (dget sid shards) = 0.
Proof.
  destruct (dget sid shards) as [s|]; simpl; [|done].
  intros E. unfold on_device. by rewrite E.
Qed.

Lemma kv_inv_assign s prefer a :
  kv_inv a → 0 <= bytes_size s → shard_location (shard_id s) a = None →
  kv_inv (assign s prefer a).1.
Proof.
  intros (Hn & Hs & Hid & Hdev & Hal) Hb Hloc. unfold shard_location in Hloc.
  destruct (assign_cases s prefer a) as [(d & n & -> & Ed & Hr)|[-> _]];
    unfold kv_inv; simpl.
  - rewrite (remaining_node d a n Ed) in Hr.
    destruct (Hal d n Ed) as [Hld Hcap].
    split_and!; [by apply dset_nodup|by apply dset_nodup| | |].
    + intros k s' [E|?]%dset_elem; simplify_eq; [done|by apply Hid].
    + intros k s' d' [E|Hin]%dset_elem Hd'; simplify_eq/=; apply dset_keys; [by left|].
      right. by eapply Hdev.
    + intros d' n' Hd'. rewrite load_dset, load_location_None by done.
      rewrite dget_dset in Hd'. unfold on_device. simpl.
      repeat case_decide; simplify_eq; simpl;
        [|destruct (Hal _ _ Hd'); lia].
      assert (0 <= load d (kv_shards a)) by (apply load_nonneg; naive_solver). lia.
  - split_and!; [done|by apply dset_nodup| | |].
    + intros k s' [E|?]%dset_elem; simplify_eq; [done|by apply Hid].
    + intros k s' d' [E|Hin]%dset_elem Hd'; simplify_eq/=. by eapply Hdev.
    + intros d' n' Hd'. rewrite load_dset, load_location_None by done.
      unfold on_device. simpl. destruct (Hal _ _ Hd'). lia.
Qed.

Lemma kv_inv_evict sid a : kv_inv a → kv_inv (evict sid a).1.
Proof.
  intros (Hn & Hs & Hid & Hdev & Hal). unfold evict.
  destruct (dget sid (kv_shards a)) as [s|] eqn:Es; [|done].
  destruct (device_id s) as [d|] eqn:Ed; [|done]. simpl.
  pose proof (dget_elem _ _ _ Es) as Hin.
  destruct (Hid _ _ Hin) as [Hb Hsid]. pose proof (Hdev _ _ _ Hin Ed) as Hd.
  destruct (dget d (kv_nodes a)) as [n|] eqn:En; [|by apply dget_None in En].
  destruct (Hal d n En) as [Hld Hcap]. unfold kv_inv; simpl.
  split_and!; [by apply dset_nodup|by apply dset_nodup| | |].
  - intros k s' [E|?]%dset_elem; simplify_eq; [done|by apply Hid].
  - intros k s' d' [E|Hin']%dset_elem Hd'; simplify_eq/=. apply dset_keys. right.
    by eapply Hdev.
  - intros d' n' Hd'. rewrite load_dset, Es. simpl.
    assert (on_device d' (set_device None s) = 0) as -> by done.
    rewrite dget_dset in Hd'. unfold on_device.
    rewrite Ed. repeat case_decide; simplify_eq/=; [|destruct (Hal _ _ Hd'); lia].
    assert (0 <= load d (dset (shard_id s) (set_device None s) (kv_shards a))) as Hge.
    { apply load_nonneg. intros k s' [E|?]%dset_elem; simplify_eq; [done|by eapply Hid]. }
    rewrite load_dset, Es in Hge. simpl in Hge. unfold on_device in Hge.
    rewrite Ed in Hge. simpl in Hge. rewrite decide_True in Hge by done. lia.
Qed.

Lemma kv_inv_register d us tot a :
  kv_inv a → d ∉ (kv_nodes a).*1 → kv_inv (register_node d us tot a).
Proof.
  intros (Hn & Hs & Hid & Hdev & Hal) Hd. unfold kv_inv; simpl.
  split_and!; [by apply dset_nodup|done|done| |].
  - intros k s d' Hin Hd'. apply dset_keys. right. by eapply Hdev.
  - intros d' n' E. rewrite dget_dset in E. case_decide; simplify_eq/=; [|by apply Hal].
    assert (load d (kv_shards a) = 0) as ->; [|lia].
    unfold load. assert (∀ s, s ∈ (kv_shards a).*2 → on_device d s = 0) as Hz.
    { intros s ([k s'] & -> & Hin)%list_elem_of_fmap. unfold on_device.
      case_decide; [|done]. destruct Hd. by eapply Hdev. }
    revert Hz. induction (kv_shards a).*2 as [|s l IH]; csimpl; [done|].
    intros Hz. rewrite IH, (Hz s); [done|left|]. intros; apply Hz; by right.
Qed.

Lemma kv_inv_unregister d a : kv_inv a → kv_inv (unregister_node d a).1.
Proof.
  intros (Hn & Hs & Hid & Hdev & Hal). unfold unregister_node, kv_inv; simpl.
  set (f := λ kv : pystr * KVShard, (kv.1, if bool_decide (device_id kv.2 = Some d)
                                  then set_device None kv.2 else kv.2)).
  assert ((f <$> kv_shards a).*1 = (kv_shards a).*1) as Ek
    by (rewrite <- list_fmap_compose; by apply list_fmap_ext).
  assert (∀ k s, (k, s) ∈ f <$> kv_shards a → ∃ s0, (k, s0) ∈ kv_shards a ∧
    s = (if bool_decide (device_id s0 = Some d) then set_device None s0 else s0)) as Hf.
  { intros k s ([k0 s0] & E & Hin)%list_elem_of_fmap. unfold f in E.
    injection E as -> ->. exists s0. by split. }
  split_and!; [by apply ddel_nodup|by rewrite Ek| | |].
  - intros k s (s0 & Hin & ->)%Hf. destruct (Hid _ _ Hin). by case_bool_decide.
  - intros k s d' (s0 & Hin & ->)%Hf. case_bool_decide; [done|]. intros Ed.
    assert (d' ≠ d) by congruence. pose proof (Hdev _ _ _ Hin Ed) as Hd'.
    destruct (dget d' (kv_nodes a)) as [n|] eqn:En; [|by apply dget_None in En].
    destruct (decide (d' ∈ (ddel d (kv_nodes a)).*1)) as [|Hni]; [done|].
    apply dget_None in Hni. rewrite dget_ddel_ne in Hni by done. congruence.
  - intros d' n E. destruct (decide (d' = d)) as [->|Hne].
    { by rewrite dget_ddel_eq in E. }
    rewrite dget_ddel_ne in E by done. destruct (Hal _ _ E) as [Hl Hc].
    split; [|done]. rewrite Hl. unfold load. clear -Hne.
    induction (kv_shards a) as [|[k s] l IH]; csimpl; [done|].
    rewrite IH. f_equal. unfold on_device.
    case_bool_decide as E; [|done]. simpl. rewrite E.
    by repeat case_decide; simplify_eq.
Qed.

(** Assigning one shard leaves the others where they are. *)
Lemma assign_location s prefer a sid :
  sid ≠ shard_id s →
  shard_location sid (assign s prefer a).1 = shard_location sid a.
Proof.
  intros Hne. unfold shard_location.
  destruct (assign_cases s prefer a) as [(d & n & -> & _)|[-> _]];
    simpl; by rewrite dget_dset_ne.
Qed.

Lemma rebalance_loop_inv todo a p up :
  kv_inv a → NoDup (shard_id <$> todo) →
  (∀ s, s ∈ todo → 0 <= bytes_size s ∧ shard_location (shard_id s) a = None) →
  kv_inv (rebalance_loop todo a p up).1.
Proof.
  revert a p up. induction todo as [|s todo IH]; csimpl; intros a p up Ha Hnd Ht; [done|].
  apply NoDup_cons in Hnd as [Hs Hnd].
  destruct (Ht s ltac:(left)) as [Hb Hl].
  pose proof (kv_inv_assign s None a Ha Hb Hl) as Ha'.
  assert (∀ s', s' ∈ todo → 0 <= bytes_size s' ∧
            shard_location (shard_id s') (assign s None a).1 = None) as Ht'.
  { intros s' Hs'. destruct (Ht s' ltac:(by right)). split; [done|].
    rewrite assign_location; [done|]. intros E. apply Hs. rewrite <- E.
    by apply list_elem_of_fmap_2. }
  destruct (assign s None a) as [a' [d|]]; simpl in *; by apply IH.
Qed.

Lemma unassigned_spec s a :
  kv_inv a → s ∈ unassigned a →
  0 <= bytes_size s ∧ shard_location (shard_id s) a = None.
Proof.
  intros (_ & Hs & Hid & _) Hin. unfold unassigned in Hin.
  apply list_elem_of_In, List.filter_In in Hin as [Hin Hd%bool_decide_eq_true].
  apply list_elem_of_In, list_elem_of_fmap in Hin as ([k s'] & E & Hin). simplify_eq/=.
  destruct (Hid _ _ Hin) as [Hb <-]. split; [done|].
  unfold shard_location. by rewrite (elem_dget _ _ _ Hs Hin).
Qed.

Lemma unassigned_nodup a : kv_inv a → NoDup (shard_id <$> unassigned a).
Proof.
  intros (_ & Hs & Hid & _). unfold unassigned.
  assert (∀ k s, (k, s) ∈ kv_shards a → shard_id s = k) as Hk by naive_solver.
  clear Hid. revert Hs Hk. induction (kv_shards a) as [|[k s] l IH]; csimpl;
    intros Hs Hk; [constructor|].
  apply NoDup_cons in Hs as [Hni Hs].
  assert (NoDup (shard_id <$> List.filter (λ s0, bool_decide (device_id s0 = None)) l.*2))
    as IH'.
  { apply IH; [done|]. intros; apply Hk; by right. }
  case_bool_decide; csimpl; [|done]. apply NoDup_cons. split; [|done].
  intros (s' & E & Hin)%list_elem_of_fmap. apply Hni.
  apply list_elem_of_In, List.filter_In in Hin as [Hin _].
  apply list_elem_of_In, list_elem_of_fmap in Hin as ([k' s''] & -> & Hin).
  rewrite <- (Hk k s ltac:(left)), E. simpl. rewrite (Hk k' s'') by (by right).
  apply list_elem_of_fmap. by exists (k', s'').
Qed.

Lemma kv_inv_exec l a : kv_guard l a → kv_inv a → kv_inv (kv_exec l a).
Proof.
  intros Hg Ha. destruct l; simpl in *.
  - by apply kv_inv_register.
  - by apply kv_inv_unregister.
  - destruct Hg. by apply kv_inv_assign.
  - by apply kv_inv_evict.
  - apply rebalance_loop_inv; [done|by apply unassigned_nodup|].
    intros. by apply unassigned_spec.
Qed.

Lemma kv_reach_inv a : reachable kv_step (λ a, a = new_allocator) a → kv_inv a.
Proof.
  apply reach_ind_inv.
  - intros ? ->. split_and!; simpl; [constructor|constructor|set_solver|set_solver|done].
  - intros a0 l b Ha Hst. destruct Hst. by apply kv_inv_exec.
Qed.

(** What [rebalance_loop] reports about each shard it was given. *)
Lemma rebalance_loop_report todo a p up :
  (∀ s, s ∈ todo → 0 <= bytes_size s) →
  let r := rebalance_loop todo a p up in
  (∀ x, x ∈ p → x ∈ r.2.1) ∧ (∀ x, x ∈ up → x ∈ r.2.2) ∧
  (∀ d, d ∈ (kv_nodes r.1).*1 ↔ d ∈ (kv_nodes a).*1) ∧
  (∀ d, remaining d r.1 <= remaining d a) ∧
  ∀ s, s ∈ todo →
    shard_id s ∈ r.2.1 ∨
    (shard_id s ∈ r.2.2 ∧ ∀ d, d ∈ (kv_nodes a).*1 → remaining d r.1 < bytes_size s).
Proof.
  revert a p up. induction todo as [|s todo IH]; intros a p up Hb; simpl.
  { split_and!; try done; set_solver. }
  pose proof (λ d, assign_remaining s None a d (Hb s ltac:(left))) as Hrem.
  destruct (assign_cases s None a) as [(d0 & n & E & _)|[E Hno]];
    rewrite E in *; cbn [fst snd] in *.
  - edestruct (IH (Allocator (dset d0 (set_allocated (allocated_bytes n + bytes_size s) n)
        (kv_nodes a)) (dset (shard_id s) (set_device (Some d0) s) (kv_shards a)))
        (p ++ [shard_id s]) up) as (H1 & H2 & H3 & H4 & H5).
    { intros; apply Hb; by right. }
    split_and!; [set_solver|set_solver| | |].
    + intros d. rewrite H3. apply Hrem.
    + intros d. etrans; [apply H4|apply Hrem].
    + intros s' [->|Hs']%elem_of_cons; [left; set_solver|].
      destruct (H5 s' Hs') as [?|[? Hr]]; [by left|right].
      split; [done|]. intros d Hd. apply Hr. by apply Hrem.
  - edestruct (IH (Allocator (kv_nodes a)
        (dset (shard_id s) (set_device None s) (kv_shards a)))
        p (up ++ [shard_id s])) as (H1 & H2 & H3 & H4 & H5).
    { intros; apply Hb; by right. }
    split_and!; [set_solver|set_solver|done| |].
    + intros d. etrans; [apply H4|apply Hrem].
    + intros s' [->|Hs']%elem_of_cons; [|by apply H5].
      right. split; [set_solver|]. intros d Hd.
      eapply Z.le_lt_trans; [apply H4|]. by apply Hno.
Qed.

(** ** Theorems *)

(** C19. The books balance: in every history in which nodes register once and
    shards are assigned when they are not on a node, each node's allocation
    is exactly the bytes of the shards assigned to it, it never exceeds the
    advertised capacity, and every assigned shard's node is registered. *)
Theorem kv_accounting_exact a :
  reachable kv_step (λ a, a = new_allocator) a →
  (∀ d n, dget d (kv_nodes a) = Some n →
     allocated_bytes n = load d (kv_shards a) ∧
     0 <= allocated_bytes n <= usable_ram_bytes n) ∧
  (∀ sid d, shard_location sid a = Some d → d ∈ (kv_nodes a).*1).
Proof.
  intros (Hn & Hs & Hid & Hdev & Hal)%kv_reach_inv. split.
  - intros d n E. destruct (Hal d n E) as [Hl Hc]. split; [done|]. rewrite Hl.
    split; [apply load_nonneg; naive_solver|by rewrite <- Hl].
  - intros sid d E. unfold shard_location in E.
    destruct (dget sid (kv_shards a)) as [s|] eqn:Es; simplify_eq/=.
    eapply Hdev; [|exact E]. by apply dget_elem.
Qed.

(** A shard of [b] bytes under the id [sid], for the witnesses. *)
Definition demo_shard (sid : pystr) (b : Z) : KVShard :=
  {| shard_id := sid; sh_model_id := u "m"; layer_start := 0; layer_end := 2;
     head_start := 0; head_end := 2; seq_start := 0; seq_end := 8;
     bytes_size := b; device_id := None; checksum := [] |}.

(** A phone with 100 bytes holding a shard of 60 beside one that did not fit. *)
Definition demo_alloc : KVAllocator :=
  kv_exec (Kv_assign (demo_shard (u "s2") 50) None)
    (kv_exec (Kv_assign (demo_shard (u "s1") 60) None)
       (kv_exec (Kv_register (u "phone") 100 200) new_allocator)).

Lemma demo_alloc_reachable : reachable kv_step (λ a, a = new_allocator) demo_alloc.
Proof.
  exists new_allocator. eexists. split; [done|].
  eapply steps_cons; [apply (kv_step_exec _ (Kv_register (u "phone") 100 200)); set_solver|].
  eapply steps_cons;
    [apply (kv_step_exec _ (Kv_assign (demo_shard (u "s1") 60) None)); split; [done|reflexivity]|].
  eapply steps_cons;
    [apply (kv_step_exec _ (Kv_assign (demo_shard (u "s2") 50) None)); split; [done|reflexivity]|].
  apply steps_nil.
Qed.

Lemma kv_accounting_exact_witness :
  (∀ d n, dget d (kv_nodes demo_alloc) = Some n →
     allocated_bytes n = load d (kv_shards demo_alloc) ∧
     0 <= allocated_bytes n <= usable_ram_bytes n) ∧
  (∀ sid d, shard_location sid demo_alloc = Some d → d ∈ (kv_nodes demo_alloc).*1).
Proof. exact (kv_accounting_exact demo_alloc demo_alloc_reachable). Defined.

(** [assign] is safe and complete: a placed shard goes to a registered
    node that had the room, which is charged exactly its bytes, and the shard
    stays off every node if and only if no registered node has the room. *)
Theorem assign_safe_and_complete s prefer a :
  let r := assign s prefer a in
  shard_location (shard_id s) r.1 = r.2 ∧
  match r.2 with
  | Some d => d ∈ (kv_nodes a).*1 ∧ bytes_size s <= remaining d a ∧
      (node_capacity d r.1).2 = (node_capacity d a).2 + bytes_size s ∧
      (∀ d', d' ≠ d → node_capacity d' r.1 = node_capacity d' a)
  | None => kv_nodes r.1 = kv_nodes a ∧
      ∀ d, d ∈ (kv_nodes a).*1 → remaining d a < bytes_size s
  end.
Proof.
  simpl. unfold shard_location, node_capacity.
  destruct (assign_cases s prefer a) as [(d & n & -> & Ed & Hr)|[-> Hno]]; simpl;
    rewrite dget_dset_eq; (split; [done|]); [|done].
  rewrite Ed, dget_dset_eq. simpl. split_and!; [|done|done|].
  - destruct (decide (d ∈ (kv_nodes a).*1)) as [|Hn]; [done|].
    apply dget_None in Hn. congruence.
  - intros d' Hd'. by rewrite dget_dset_ne.
Qed.

(** [rebalance] gives up on nothing that fits: every shard that was
    unassigned is reported placed, or reported unplaced and then, after all
    placements, no registered node has the room for it. *)
Theorem rebalance_complete a :
  kv_inv a →
  let r := rebalance a in
  ∀ s, s ∈ unassigned a →
    shard_id s ∈ r.2.1 ∨
    (shard_id s ∈ r.2.2 ∧ ∀ d, d ∈ (kv_nodes a).*1 → remaining d r.1 < bytes_size s).
Proof.
  intros Ha r s Hs.
  eapply (rebalance_loop_report (unassigned a) a [] []); [|done].
  intros s' Hs'. by destruct (unassigned_spec s' a Ha Hs').
Qed.

Lemma rebalance_complete_witness :
  kv_inv demo_alloc ∧
  (shard_id (demo_shard (u "s2") 50) ∈ (rebalance demo_alloc).2.1 ∨
   (shard_id (demo_shard (u "s2") 50) ∈ (rebalance demo_alloc).2.2 ∧
    ∀ d, d ∈ (kv_nodes demo_alloc).*1 →
      remaining d (rebalance demo_alloc).1 < bytes_size (demo_shard (u "s2") 50))).
Proof.
  pose proof (kv_reach_inv _ demo_alloc_reachable) as Hi. split; [exact Hi|].
  apply (rebalance_complete demo_alloc Hi (demo_shard (u "s2") 50)).
  vm_compute. left.
Defined.

#[local] Arguments chunk_bounds : simpl never.
#[local] Arguments sequence_shard : simpl never.

Section ShardingTheorems.
Context (digest : list (pystr * pyval) → pystr).

(** Sharding partitions the cache: splitting by sequence into n >= 1
  shards gives n shards whose ranges start at 0, end at the model's length
  and follow one another without gap or overlap, none is reversed, and
  their sizes sum to the size of the whole cache. *)
Theorem kv_sharding_partitions spec n :
1 <= n → 0 <= max_seq_len spec →
∃ shards, make_kv_shards digest spec n (u "sequence") = Ok shards ∧
  length shards = Z.to_nat n ∧
  zsum (bytes_size <$> shards) = kv_total_bytes spec ∧
  (seq_start <$> head shards = Some 0) ∧
  (seq_end <$> last shards = Some (max_seq_len spec)) ∧
  (∀ i s t, shards !! i = Some s → shards !! S i = Some t → seq_end s = seq_start t) ∧
  (∀ s, s ∈ shards → 0 <= seq_start s <= seq_end s ∧ seq_end s <= max_seq_len spec).
Proof.
intros Hn Hm. unfold make_kv_shards.
destruct (Z.ltb_spec n 1); [lia|].
rewrite bool_decide_eq_true_2 by done. eexists. split; [done|].
assert (∀ i, seq_start (sequence_shard digest spec n i)
             = (chunk_bounds (max_seq_len spec) n i).1) as Es by done.
assert (∀ i, seq_end (sequence_shard digest spec n i)
             = (chunk_bounds (max_seq_len spec) n i).2) as Ee by done.
assert (∀ i, bytes_size (sequence_shard digest spec n i) =
  num_layers spec * kv_bytes_per_token_per_layer spec *
  ((chunk_bounds (max_seq_len spec) n i).2 - (chunk_bounds (max_seq_len spec) n i).1))
  as Eb by (intros i; unfold sequence_shard; destruct (chunk_bounds _ _ i); simpl; lia).
assert (∀ k x, zrange n !! k = Some x ↔ x = Z.of_nat k ∧ (k < Z.to_nat n)%nat) as Ez.
{ intros k x. unfold zrange. rewrite list_lookup_fmap, fmap_Some.
  setoid_rewrite lookup_seq. naive_solver lia. }
split_and!.
- unfold zrange. by rewrite !length_fmap, length_seq.
- rewrite <- list_fmap_compose.
  rewrite (list_fmap_ext _ _ _ (λ _ x _, Eb x)), zsum_scale.
  unfold zrange. rewrite zsum_widths, Nat.eqb_refl by lia.
  unfold kv_total_bytes. lia.
- unfold zrange. destruct (Z.to_nat n) as [|m] eqn:E; [lia|].
  done.
- unfold zrange. replace (Z.to_nat n) with (S (Z.to_nat (n - 1))) by lia.
  rewrite seq_S, !fmap_app. cbn [fmap list_fmap]. rewrite last_snoc.
  cbn [option_fmap option_map fmap]. rewrite Ee.
  rewrite Nat.add_0_l, Z2Nat.id by lia. by rewrite chunk_bounds_last.
- intros i s t Hs Ht. rewrite list_lookup_fmap, fmap_Some in Hs, Ht.
  destruct Hs as (x & [-> Hx]%Ez & ->), Ht as (y & [-> Hy]%Ez & ->).
  rewrite Es, Ee, chunk_bounds_next by lia. do 2 f_equal. lia.
- intros s (i & -> & Hi%elem_zrange)%list_elem_of_fmap.
  pose proof (chunk_bounds_ordered (max_seq_len spec) n i Hm Hi) as Ho.
  rewrite Es, Ee. by destruct (chunk_bounds _ _ _).
Qed.
End ShardingTheorems.

Lemma kv_sharding_partitions_witness :
  ∃ shards, make_kv_shards (λ _, u "sum") (Spec (u "m") 4 2 8 10 2) 3 (u "sequence") = Ok shards ∧
    zsum (bytes_size <$> shards) = 2560.
Proof.
  destruct (kv_sharding_partitions (λ _, u "sum") (Spec (u "m") 4 2 8 10 2) 3
    ltac:(lia) ltac:(simpl; lia)) as (shards & E & _ & Hs & _).
  exists shards. split; [exact E|]. rewrite Hs. reflexivity.
Defined.

(** A node that advertises itself again is over-committed: its recorded
    allocation restarts at zero while the shards it holds stay assigned, so a
    shard as large as its whole capacity is accepted on top of them. *)
Theorem readvertise_overcommits d us tot s a :
  0 < us → bytes_size s = us → 0 < load d (kv_shards a) →
  dget (shard_id s) (kv_shards a) = None →
  (∀ d', d' ∈ (kv_nodes a).*1 → d' = d) →
  let a' := (assign s None (register_node d us tot a)).1 in
  shard_location (shard_id s) a' = Some d ∧
  us < load d (kv_shards a').
Proof.
  intros Hus Hb Hl Hnew Honly. simpl. unfold shard_location.
  set (a0 := register_node d us tot a).
  assert (remaining d a0 = us) as Er.
  { unfold remaining, node_capacity. simpl. rewrite dget_dset_eq. simpl. lia. }
  destruct (assign_cases s None a0) as [(d0 & n & -> & Ed & _)|[-> Hno]].
  - assert (d0 = d) as ->.
    { assert (d0 ∈ (kv_nodes a0).*1) as Hin.
      { destruct (decide (d0 ∈ (kv_nodes a0).*1)) as [|Hn]; [done|].
        apply dget_None in Hn. congruence. }
      simpl in Hin. apply dset_keys in Hin as [?|?]; auto. }
    simpl. rewrite dget_dset_eq. split; [done|].
    rewrite load_dset, Hnew. unfold on_device. simpl.
    rewrite decide_True by done. lia.
  - specialize (Hno d). rewrite Er in Hno.
    assert (us < bytes_size s); [|lia]. apply Hno. simpl. apply dset_keys. by left.
Qed.

Lemma readvertise_overcommits_witness :
  let a := (assign (demo_shard (u "s1") 60) None
              (register_node (u "phone") 100 200 new_allocator)).1 in
  let a' := (assign (demo_shard (u "s2") 100) None
               (register_node (u "phone") 100 200 a)).1 in
  shard_location (u "s2") a' = Some (u "phone") ∧ 100 < load (u "phone") (kv_shards a').
Proof.
  apply (readvertise_overcommits (u "phone") 100 200 (demo_shard (u "s2") 100)
    (assign (demo_shard (u "s1") 60) None
       (register_node (u "phone") 100 200 new_allocator)).1);
    [lia|reflexivity|reflexivity|reflexivity|].
  intros d' Hd'. vm_compute in Hd'. apply list_elem_of_singleton in Hd'. exact Hd'.
Defined.
