(* ===== verification/KvSim.v ===== *)
(** * The KV mesh's messages and simulator

    The messages of the contract ([src/kv_mesh/protocol.py]) and the host
    simulator that drives an allocator and its nodes
    ([src/kv_mesh/simulator.py]).  A shard's bytes are a list of byte values;
    the clock's reading is an argument. *)

From S2P Require Import Prelude PyFloat PyStr PyVal Base64 KvMesh.

Local Open Scope Z_scope.

(** ** [protocol.py] *)

Definition kv_topic (d tail : pystr) : pystr :=
  u "/shugocore/mobile/" ++ d ++ u "/" ++ tail.

Definition make_advertise (d : pystr) (usable total : Z) (now : f64) :
    list (pystr * pyval) :=
  [(u "type", VStr (u "KVAdvertise")); (u "device_id", VStr d);
   (u "usable_ram_bytes", VInt usable); (u "total_ram_bytes", VInt total);
   (u "ts", VFloat now)].

Definition make_assign (s : KVShard) : list (pystr * pyval) :=
  [(u "type", VStr (u "KVAssign")); (u "shard_id", VStr (shard_id s));
   (u "model_id", VStr (sh_model_id s)); (u "layer_start", VInt (layer_start s));
   (u "layer_end", VInt (layer_end s)); (u "head_start", VInt (head_start s));
   (u "head_end", VInt (head_end s)); (u "seq_start", VInt (seq_start s));
   (u "seq_end", VInt (seq_end s)); (u "bytes_size", VInt (bytes_size s));
   (u "checksum", VStr (checksum s))].

Definition make_put (sid data_b64 sum : pystr) : list (pystr * pyval) :=
  [(u "type", VStr (u "KVPut")); (u "shard_id", VStr sid);
   (u "data_b64", VStr data_b64); (u "checksum", VStr sum)].

Definition make_get (sid : pystr) : list (pystr * pyval) :=
  [(u "type", VStr (u "KVGet")); (u "shard_id", VStr sid)].

Definition make_evict (sid : pystr) : list (pystr * pyval) :=
  [(u "type", VStr (u "KVEvict")); (u "shard_id", VStr sid)].

Definition make_heartbeat (d : pystr) (now : f64) : list (pystr * pyval) :=
  [(u "type", VStr (u "KVHeartbeat")); (u "device_id", VStr d); (u "ts", VFloat now)].

Definition make_response (sid data_b64 sum : pystr) : list (pystr * pyval) :=
  [(u "type", VStr (u "KVResponse")); (u "shard_id", VStr sid);
   (u "data_b64", VStr data_b64); (u "checksum", VStr sum)].

Definition msg_type `{PyRepr} (msg : list (pystr * pyval)) : pystr :=
  py_str (dict_get (u "type") (VStr []) msg).

(** ** [SimNode] *)

Record SimNode := Sim {
  sn_device_id : pystr;
  sn_usable : Z;
  sn_total : Z;
  store : list (pystr * (pystr * pystr));
  sn_allocated : Z;
  alive : bool
}.

Definition new_sim_node (d : pystr) (usable total : Z) : SimNode :=
  Sim d usable total [] 0 true.

Definition sn_with (st : list (pystr * (pystr * pystr))) (a : Z) (n : SimNode) : SimNode :=
  Sim (sn_device_id n) (sn_usable n) (sn_total n) st a (alive n).

Definition sn_advertise (n : SimNode) (now : f64) : list (pystr * pyval) :=
  make_advertise (sn_device_id n) (sn_usable n) (sn_total n) now.

Definition capacity_remaining (n : SimNode) : Z := Z.max 0 (sn_usable n - sn_allocated n).

Definition str_len (s : pystr) : Z := Z.of_nat (length s).

(** [SimNode.put]: the copy already stored is given back before the room is
    tested, and is only replaced when the new one fits. *)
Definition node_put (sid data_b64 sum : pystr) (n : SimNode) : SimNode * bool :=
  let size := str_len data_b64 in
  let a := match dget sid (store n) with
           | Some old => sn_allocated n - str_len old.1
           | None => sn_allocated n
           end in
  if sn_usable n <? a + size then (sn_with (store n) a n, false)
  else (sn_with (dset sid (data_b64, sum) (store n)) (a + size) n, true).

(** [SimNode.get]. *)
Definition node_get (sid : pystr) (n : SimNode) : option (list (pystr * pyval)) :=
  match dget sid (store n) with
  | None => None
  | Some e => Some (make_response sid e.1 e.2)
  end.

(** [SimNode.evict]. *)
Definition node_evict (sid : pystr) (n : SimNode) : SimNode * bool :=
  match dget sid (store n) with
  | Some e => (sn_with (ddel sid (store n)) (sn_allocated n - str_len e.1) n, true)
  | None => (n, false)
  end.

(** ** [MeshSimulator] *)

Record MeshSimulator := Simulator {
  allocator : KVAllocator;
  sim_nodes : list (pystr * SimNode)
}.

Definition new_simulator : MeshSimulator := Simulator new_allocator [].

Definition join_node (d : pystr) (usable total : Z) (m : MeshSimulator) :
    MeshSimulator * SimNode :=
  let node := new_sim_node d usable total in
  (Simulator (register_node d usable total (allocator m)) (dset d node (sim_nodes m)), node).

Definition leave_node (d : pystr) (m : MeshSimulator) : MeshSimulator :=
  match dget d (sim_nodes m) with
  | None => m
  | Some _ => Simulator (unregister_node d (allocator m)).1 (ddel d (sim_nodes m))
  end.

(** [place_shards] assigns each in turn, as [rebalance] does. *)
Definition place_shards (shards : list KVShard) (m : MeshSimulator) :
    MeshSimulator * (list pystr * list pystr) :=
  let '(a, report) := rebalance_loop shards (allocator m) [] [] in
  (Simulator a (sim_nodes m), report).

Definition put_shard (d sid : pystr) (data : list N) (sum : pystr) (m : MeshSimulator) :
    MeshSimulator * bool :=
  match dget d (sim_nodes m) with
  | Some n =>
      if alive n then
        let '(n', ok) := node_put sid (b64encode data) sum n in
        (Simulator (allocator m) (dset d n' (sim_nodes m)), ok)
      else (m, false)
  | None => (m, false)
  end.

Definition get_shard (d sid : pystr) (m : MeshSimulator) : option (list (pystr * pyval)) :=
  match dget d (sim_nodes m) with
  | Some n => if alive n then node_get sid n else None
  | None => None
  end.

Definition evict_shard (d sid : pystr) (m : MeshSimulator) : MeshSimulator * bool :=
  match dget d (sim_nodes m) with
  | None => (m, false)
  | Some n =>
      let '(n', ok) := node_evict sid n in
      (Simulator (if ok then (evict sid (allocator m)).1 else allocator m)
         (dset d n' (sim_nodes m)), ok)
  end.

Definition sim_rebalance (m : MeshSimulator) : MeshSimulator * (list pystr * list pystr) :=
  let '(a, report) := rebalance (allocator m) in (Simulator a (sim_nodes m), report).

(** ** Facts *)

(** What a node's store holds, in characters. *)
Definition stored (st : list (pystr * (pystr * pystr))) : Z :=
  zsum ((λ e, str_len e.2.1) <$> st).

Definition entry_size (o : option (pystr * pystr)) : Z :=
  match o with Some e => str_len e.1 | None => 0 end.

Lemma stored_dset sid e st :
  stored (dset sid e st) = stored st - entry_size (dget sid st) + str_len e.1.
Proof.
  unfold stored. induction st as [|[k x] st IH]; csimpl; [lia|].
  destruct (decide (sid = k)); csimpl; [lia|]. rewrite IH. lia.
Qed.

Lemma stored_ddel sid st : stored (ddel sid st) = stored st - entry_size (dget sid st).
Proof.
  unfold stored. induction st as [|[k x] st IH]; csimpl; [lia|].
  destruct (decide (sid = k)); csimpl; [lia|]. rewrite IH. lia.
Qed.

(** The node's books: its counter is what its store holds. *)
Definition node_balanced (n : SimNode) : Prop := sn_allocated n = stored (store n).

Lemma node_evict_balanced sid n : node_balanced n → node_balanced (node_evict sid n).1.
Proof.
  unfold node_balanced, node_evict. intros Hb.
  destruct (dget sid (store n)) as [e|] eqn:E; [|done]. cbn [fst sn_with store sn_allocated].
  rewrite stored_ddel, E, Hb. done.
Qed.

(** [put_shard] on a node whose books balance.  Accepted: the shard is
    read back with its encoding and checksum, the node's counter is what its
    store holds and within its cap.  Refused for a new shard: nothing changed.
    Refused for a shard already stored: the old copy stays but its bytes have
    been given back, so the counter is short by exactly the old copy. *)
Theorem put_shard_accounting d sid data sum m n :
  dget d (sim_nodes m) = Some n → alive n = true → node_balanced n →
  let r := put_shard d sid data sum m in
  ∃ n', dget d (sim_nodes r.1) = Some n' ∧
  if r.2 then
    get_shard d sid r.1 = Some (make_response sid (b64encode data) sum) ∧
    node_balanced n' ∧ sn_allocated n' <= sn_usable n'
  else
    store n' = store n ∧
    sn_allocated n' = stored (store n') - entry_size (dget sid (store n')).
Proof.
  intros Hd Ha Hb. unfold put_shard, get_shard, node_put, node_balanced in *.
  rewrite Hd, Ha. destruct (Z.ltb_spec (sn_usable n) (match dget sid (store n) with
      | Some old => sn_allocated n - str_len old.1 | None => sn_allocated n end
      + str_len (b64encode data))) as [Hlt|Hge]; cbn [fst snd sim_nodes];
    rewrite dget_dset_eq; eexists; (split; [done|]); cbn [store sn_with sn_allocated sn_usable alive].
  - split; [done|]. rewrite Hb. destruct (dget sid (store n)); cbn [entry_size]; lia.
  - rewrite Ha. unfold node_get. cbn [store sn_with]. rewrite dget_dset_eq, stored_dset. cbn [fst snd].
    split; [done|]. destruct (dget sid (store n)); cbn [entry_size]; lia.
Qed.

(** A node with room for 8 characters that already holds 4. *)
Definition demo_sim : MeshSimulator :=
  (put_shard (u "n") (u "s") [1; 2; 3]%N (u "c") (join_node (u "n") 8 8 new_simulator).1).1.

Lemma put_shard_accounting_witness :
  let r := put_shard (u "n") (u "s") [1; 2; 3; 4; 5; 6; 7]%N (u "c2") demo_sim in
  r.2 = false ∧
  ∃ n', dget (u "n") (sim_nodes r.1) = Some n' ∧ sn_allocated n' = 0 ∧ stored (store n') = 4.
Proof.
  destruct (put_shard_accounting (u "n") (u "s") [1; 2; 3; 4; 5; 6; 7]%N (u "c2") demo_sim
    (Sim (u "n") 8 8 [(u "s", (b64encode [1; 2; 3]%N, u "c"))] 4 true)
    ltac:(reflexivity) ltac:(reflexivity) ltac:(reflexivity)) as (n' & E & H).
  split; [reflexivity|]. exists n'. split; [exact E|].
  assert (E' := E). vm_compute in E'. injection E' as <-. split; reflexivity.
Defined.
