(* ===== verification/Mobile.v ===== *)
(** * Mobile nodes ([src/mobile_nodes.py])

    The host's side of the fleet of paired devices: what is kept of a pairing
    manifest, the pairing registry with its expiry and heartbeats, the ingest
    of sensor messages behind the topic contract, compute offload, and the
    adapter that moves KV-mesh messages.  Each reading of a clock is an
    argument; the registry, the manager, the broker and the adapter share the
    host's audit log. *)

From Stdlib Require Import ZArith Lia.
From Stdlib Require Import Floats.SpecFloat.
From S2P Require Import Prelude PyFloat PyStr PyVal Security Policy StateMachine Fallbacks.
From S2P Require Import AuditTrail KvMesh KvSim.

Local Open Scope Z_scope.

(** ** Bounding values *)

(** [-1e15 < float(v) < 1e15], for a number. *)
Definition in_range (x : f64) : bool :=
  fltb (fneg (f_of_Z (10 ^ 15))) x && fltb x (f_of_Z (10 ^ 15)).

(** A number kept or replaced by zero; a large integer does not convert. *)
Definition bound_number (v : pyval) : res pyval :=
  match v with
  | VInt z => x ← py_float_of_Z z; Ok (if in_range x then v else VFloat f0)
  | VFloat x => Ok (if in_range x then v else VFloat f0)
  | _ => Ok v
  end.

Section Values.
Context {PR : PyRepr}.

Definition text_of (n : Z) (v : pyval) : pyval := VStr (sanitize_text (py_str v) n).

(** [_sanitize_caps_block]'s values and [_sanitize_manifest]'s. *)
Definition caps_value (v : pyval) : res pyval :=
  match v with
  | VBool _ | VInt _ | VFloat _ => bound_number v
  | VList l => Ok (VList (text_of 64 <$> take 8 l))
  | _ => Ok (text_of 256 v)
  end.
Definition sub_value (v : pyval) : res pyval :=
  match v with
  | VBool _ | VInt _ | VFloat _ => bound_number v
  | _ => Ok (text_of 256 v)
  end.

(** A loop over named values: names are sanitised, empty ones skipped. *)
Fixpoint sanitize_entries (value : pystr → pyval → res pyval) (d out : pydict) : res pydict :=
  match d with
  | [] => Ok out
  | (k, v) :: rest =>
      let name := sanitize_text k 48 in
      if bool_decide (name = []) then sanitize_entries value rest out
      else v' ← value name v; sanitize_entries value rest (dset name v' out)
  end.

(** [_sanitize_caps_block]. *)
Definition sanitize_caps_block (caps : pydict) : res pydict :=
  sanitize_entries (λ _, caps_value) (take 16 caps) [].

Definition COMPUTE_CAPS_KEY : pystr := u "compute_caps".

(** The value of a manifest's entry. *)
Definition manifest_value (name : pystr) (v : pyval) : res pyval :=
  match v with
  | VDict d =>
      if bool_decide (name = COMPUTE_CAPS_KEY)
      then c ← sanitize_caps_block d; Ok (VDict c)
      else s ← sanitize_entries (λ _, sub_value) (take 16 d) []; Ok (VDict s)
  | VBool _ | VInt _ | VFloat _ => bound_number v
  | VList l => Ok (VList (text_of 256 <$> take 16 l))
  | _ => Ok (text_of 256 v)
  end.

(** [_sanitize_manifest]. *)
Definition sanitize_manifest (m : pydict) : res pydict :=
  sanitize_entries manifest_value (take 32 m) [].

Definition KNOWN_WORKLOADS : list pystr := [u "nrr_render"; u "vision"].

(** [0 < vram < 1e6], and [int(vram)]; a boolean is a number. *)
Definition vram_of (v : pyval) : option Z :=
  match v with
  | VBool true => Some 1
  | VInt z => if (0 <? z) && (z <? 10 ^ 6) then Some z else None
  | VFloat x => if fltb f0 x && fltb x (f_of_Z (10 ^ 6)) then Some (f_trunc x) else None
  | _ => None
  end.

(** [_sanitize_compute_caps]. *)
Definition sanitize_compute_caps (manifest : pydict) : pydict :=
  match dget COMPUTE_CAPS_KEY manifest with
  | Some (VDict caps) =>
      let flag k := match dget (u k) caps with Some (VBool b) => [(u k, VBool b)] | _ => [] end in
      flag "fp16" ++ flag "int8"
      ++ match dget (u "vram_mb") caps with
         | Some v => match vram_of v with Some z => [(u "vram_mb", VInt z)] | None => [] end
         | None => []
         end
      ++ match dget (u "workloads") caps with
         | Some (VList l) =>
             match List.filter (λ w, bool_decide (w ∈ KNOWN_WORKLOADS))
                     ((λ v, sanitize_text (py_str v) 32) <$> take 8 l) with
             | [] => []
             | names => [(u "workloads", VList (VStr <$> names))]
             end
         | _ => []
         end
  | _ => []
  end.

(** [node_supports_workload]. *)
Definition node_supports_workload (manifest : pydict) (workload : pystr) : bool :=
  match dget COMPUTE_CAPS_KEY manifest with
  | Some (VDict caps) =>
      match dget (u "workloads") caps with
      | Some (VList l) => existsb (λ v, is_str v (sanitize_text workload 32)) l
      | _ => false
      end
  | _ => false
  end.

(** [parse_mobile_topic]. *)
Definition parse_mobile_topic (topic : pystr) : option (pystr * pystr) :=
  match split_on 47 (strip_by (N.eqb 47) topic) with
  | [a; b; device; tail] =>
      if bool_decide (a = u "shugocore") && bool_decide (b = u "mobile")
      then Some (device, tail) else None
  | _ => None
  end.

Definition MAX_SNAPSHOT_BYTES : Z := 16 * 1024.

(** The first [n] items, and the first [n] entries under sanitised names. *)
Section Clean.
Variable clean : pyval → res pyval.
Fixpoint clean_items (n : nat) (l : list pyval) : res (list pyval) :=
  match n, l with
  | S n, x :: rest => y ← clean x; k ← clean_items n rest; Ok (y :: k)
  | _, _ => Ok []
  end.
Fixpoint clean_fields (n : nat) (d out : pydict) : res pydict :=
  match n, d with
  | S n, (k, x) :: rest => y ← clean x; clean_fields n rest (dset (sanitize_text k 48) y out)
  | _, _ => Ok out
  end.
End Clean.

(** [MobileNodeManager._sanitize]; [VNone] is a refused payload. *)
Fixpoint sanitize_message (v : pyval) : res pyval :=
  let oversize := MAX_SNAPSHOT_BYTES <? Z.of_nat (length (py_str v)) in
  match v with
  | VBool _ => Ok v
  | VInt _ | VFloat _ => bound_number v
  | VDict d =>
      if oversize then Ok VNone
      else out ← clean_fields sanitize_message 32 d []; Ok (VDict out)
  | VList l =>
      if oversize then Ok VNone
      else out ← clean_items sanitize_message 32 l; Ok (VList out)
  | _ => if oversize then Ok VNone else Ok (text_of 400 v)
  end.
End Values.

(** ** The host's fleet *)

Record pairing := Pairing {
  pa_manifest : pydict;
  pa_by : pystr;
  pa_at : f64;
  pa_expires : f64
}.

Record reading := Reading {
  rd_device : pystr;
  rd_tail : pystr;
  rd_data : pyval;
  rd_ts : f64
}.

(** [recorded] are the events handed to Tier 1, [None] without a memory; its
    exceptions are swallowed. *)
Record fleet (G : Type) := Fleet {
  ttl_hours : f64;
  heartbeat_timeout : f64;
  paired : list (pystr * pairing);
  beats : list (pystr * f64);
  f_caps : CapabilityRegistry;
  f_fallbacks : option (FallbackController G);
  snapshots : list (pystr * list (pystr * reading));
  refused_topics : list (pystr * Z);
  recorded : option (list (pystr * pydict));
  f_audit : option (list audit_event);
  results : list (pystr * pydict);
  listening : list pystr;
  f_kv : KVAllocator
}.
Arguments Fleet {G} _ _ _ _ _ _ _ _ _ _ _ _ _.
Arguments ttl_hours {G} _.
Arguments heartbeat_timeout {G} _.
Arguments paired {G} _.
Arguments beats {G} _.
Arguments f_caps {G} _.
Arguments f_fallbacks {G} _.
Arguments snapshots {G} _.
Arguments refused_topics {G} _.
Arguments recorded {G} _.
Arguments f_audit {G} _.
Arguments results {G} _.
Arguments listening {G} _.
Arguments f_kv {G} _.

Section Fleet.
Context {PR : PyRepr} {G : Type} {GO : GovernorOps G}.
Implicit Types f : fleet G.

Definition with_pairings (p : list (pystr * pairing)) (b : list (pystr * f64)) f : fleet G :=
  Fleet (ttl_hours f) (heartbeat_timeout f) p b (f_caps f) (f_fallbacks f) (snapshots f)
    (refused_topics f) (recorded f) (f_audit f) (results f) (listening f) (f_kv f).
Definition with_controller (c : option (FallbackController G)) f : fleet G :=
  Fleet (ttl_hours f) (heartbeat_timeout f) (paired f) (beats f) (f_caps f) c (snapshots f)
    (refused_topics f) (recorded f) (f_audit f) (results f) (listening f) (f_kv f).
Definition with_snapshots (s : list (pystr * list (pystr * reading))) f : fleet G :=
  Fleet (ttl_hours f) (heartbeat_timeout f) (paired f) (beats f) (f_caps f) (f_fallbacks f) s
    (refused_topics f) (recorded f) (f_audit f) (results f) (listening f) (f_kv f).
Definition with_refused (r : list (pystr * Z)) f : fleet G :=
  Fleet (ttl_hours f) (heartbeat_timeout f) (paired f) (beats f) (f_caps f) (f_fallbacks f)
    (snapshots f) r (recorded f) (f_audit f) (results f) (listening f) (f_kv f).
Definition with_recorded (r : option (list (pystr * pydict))) f : fleet G :=
  Fleet (ttl_hours f) (heartbeat_timeout f) (paired f) (beats f) (f_caps f) (f_fallbacks f)
    (snapshots f) (refused_topics f) r (f_audit f) (results f) (listening f) (f_kv f).
Definition with_results (r : list (pystr * pydict)) (l : list pystr) f : fleet G :=
  Fleet (ttl_hours f) (heartbeat_timeout f) (paired f) (beats f) (f_caps f) (f_fallbacks f)
    (snapshots f) (refused_topics f) (recorded f) (f_audit f) r l (f_kv f).
Definition with_kv (a : KVAllocator) f : fleet G :=
  Fleet (ttl_hours f) (heartbeat_timeout f) (paired f) (beats f) (f_caps f) (f_fallbacks f)
    (snapshots f) (refused_topics f) (recorded f) (f_audit f) (results f) (listening f) a.

(** [_audit]. *)
Definition note_audit (event : pystr) (payload : pydict) f : fleet G :=
  Fleet (ttl_hours f) (heartbeat_timeout f) (paired f) (beats f) (f_caps f) (f_fallbacks f)
    (snapshots f) (refused_topics f) (recorded f)
    ((λ l, l ++ [AuditEvent event payload]) <$> f_audit f) (results f) (listening f) (f_kv f).

Definition device_field (d : pystr) : pystr * pyval := (u "device_id", VStr (sanitize_text d 48)).

(** *** Pairing *)

(** [pair], with the two readings of the wall clock and the monotonic one. *)
Definition pair (t1 t2 m : f64) (device_id : pystr) (manifest : pyval) (by_ : pystr) :
    py (fleet G) (pystr * pairing) :=
  let device := sanitize_text device_id 48 in
  raise_if (bool_decide (device = [])) (ValueError (u "device_id required")) ;;
  safe ← of_res (sanitize_manifest (match manifest with VDict d => d | _ => [] end));
  let entry := Pairing (dset COMPUTE_CAPS_KEY (VDict (sanitize_compute_caps safe)) safe)
                 (sanitize_text by_ 120) t1 in
  f ← get;
  let p := entry (fadd t2 (fmul (ttl_hours f) (f_of_Z 3600))) in
  put (note_audit (u "mobile_node_paired")
         [(u "device_id", VStr device); (u "paired_by", VStr (pa_by p))]
         (with_pairings (dset device p (paired f)) (dset device m (beats f)) f)) ;;
  mret (device, p).

(** [unpair]. *)
Definition unpair (device_id : pystr) f : fleet G * bool :=
  let f' := with_pairings (ddel device_id (paired f)) (ddel device_id (beats f)) f in
  if dhas device_id (paired f)
  then (note_audit (u "mobile_node_unpaired") [device_field device_id] f', true) else (f', false).

(** [is_paired], [heartbeat], [alive], [expired], [manifest]. *)
Definition is_paired (now : f64) (device_id : pystr) f : bool :=
  match dget device_id (paired f) with Some p => fltb now (pa_expires p) | None => false end.

Definition heartbeat (m : f64) (device_id : pystr) f : fleet G * bool :=
  if dhas device_id (paired f)
  then (with_pairings (paired f) (dset device_id m (beats f)) f, true) else (f, false).

Definition beats_within (m last : f64) f : bool := fleb (fsub m last) (heartbeat_timeout f).

Definition alive (m : f64) (device_id : pystr) f : bool :=
  match dget device_id (beats f) with Some last => beats_within m last f | None => false end.

Definition expired (now : f64) f : list pystr :=
  (List.filter (λ kp : pystr * pairing, fleb (pa_expires kp.2) now) (paired f)).*1.

Definition manifest_of (device_id : pystr) f : pydict :=
  match dget device_id (paired f) with Some p => pa_manifest p | None => [] end.

(** An entry of [list_nodes]; the reading of the monotonic clock per device. *)
Record node_view := NodeView {
  nv_device : pystr;
  nv_pairing : pairing;
  nv_alive : bool
}.

Definition view (m : pystr → f64) f (kp : pystr * pairing) : node_view :=
  NodeView kp.1 kp.2 (beats_within (m kp.1) (default f0 (dget kp.1 (beats f))) f).

Definition sorted_pairings f : list (pystr * pairing) :=
  sort_by (λ a b : pystr * pairing, str_leb a.1 b.1) (paired f).

(** [list_nodes] and [nodes_for_workload]. *)
Definition list_nodes (now : f64) (m : pystr → f64) f : list node_view :=
  view m f <$> List.filter (λ kp : pystr * pairing, negb (fleb (pa_expires kp.2) now))
                 (sorted_pairings f).

Definition nodes_for_workload (now : f64) (m : pystr → f64) (workload : pystr) f : list node_view :=
  let name := sanitize_text workload 32 in
  if negb (bool_decide (name ∈ KNOWN_WORKLOADS)) then []
  else view m f <$> List.filter (λ kp : pystr * pairing,
                        negb (fleb (pa_expires kp.2) now)
                        && node_supports_workload (pa_manifest kp.2) name) (sorted_pairings f).

(** *** Ingest *)

(** [self.fallbacks.report_violation], where there is a controller. *)
Definition report (kind detail : pystr) : py (fleet G) unit := λ f,
  match f_fallbacks f with
  | None => (f, Ok tt)
  | Some c => let '(c', r) := report_violation kind detail c in (with_controller (Some c') f, r)
  end.

Definition topic_fields (device tail : pystr) (reason : pystr) : pydict :=
  [device_field device; (u "tail", VStr (sanitize_text tail 32)); (u "reason", VStr reason)].

(** A refusal: counted, audited and, from the third on, reported. *)
Definition refuse_topic (device tail reason : pystr) : py (fleet G) unit :=
  let key := device ++ u "/" ++ tail in
  modify (λ f, note_audit (u "mobile_topic_refused") (topic_fields device tail reason)
                 (with_refused (dset key (default 0 (dget key (refused_topics f)) + 1)
                                  (refused_topics f)) f)) ;;
  f ← get;
  if 3 <=? default 0 (dget key (refused_topics f))
  then report (u "mobile_sensor_anomaly") (u "repeated ACL refusals from " ++ key)
  else mret tt.

(** What is stored and recorded of an accepted message. *)
Definition store_reading (r : reading) f : fleet G :=
  let device := rd_device r in
  let f := with_snapshots (dset device (dset (rd_tail r) r (default [] (dget device (snapshots f))))
                             (snapshots f)) f in
  if bool_decide (rd_tail r = u "heartbeat") then f
  else with_recorded
         ((λ l, l ++ [(u "mobile_sensor",
             [(u "device_id", VStr device); (u "tail", VStr (rd_tail r));
              (u "summary", VStr (sanitize_text (py_str (rd_data r)) 200))])]) <$> recorded f) f.

(** [ingest], with its readings: pairing, heartbeat and the record's time. *)
Definition ingest (t1 m t2 : f64) (device tail : pystr) (message : pyval) :
    py (fleet G) (option reading) :=
  f ← get;
  let '(ok, reason) := validate_mobile_topic device tail (f_caps f) in
  if negb ok then refuse_topic device tail reason ;; mret None
  else if negb (is_paired t1 device f) then mret None
  else
    modify (λ f, if bool_decide (tail = u "heartbeat") then (heartbeat m device f).1 else f) ;;
    data ← of_res (sanitize_message message);
    match data with
    | VNone =>
        modify (note_audit (u "mobile_payload_refused")
                  (topic_fields device tail (u "payload failed sanitization"))) ;;
        mret None
    | data =>
        let r := Reading device tail data t2 in
        modify (store_reading r) ;; mret (Some r)
    end.

(** [subscribe_device]: the topics subscribed to, in order. *)
Definition subscribe_device (now : f64) (device : pystr) f : bool * list pystr :=
  if is_paired now device f
  then (true, (λ tail, kv_topic device tail) <$> mobile_sensor_topics (f_caps f)) else (false, []).

(** [get_sensor_snapshot]. *)
Definition get_sensor_snapshot (device : pystr) f : list (pystr * reading) :=
  sort_by (λ a b : pystr * reading, str_leb a.1 b.1) (default [] (dget device (snapshots f))).

(** [check_liveness]. *)
Definition check_liveness (now : f64) (m : pystr → f64) : py (fleet G) (list pystr) :=
  f ← get;
  let lost := nv_device <$> List.filter (λ v, negb (nv_alive v)) (list_nodes now m f) in
  (if bool_decide (lost = []) then mret tt
   else report (u "mobile_node_lost") (u "heartbeat lost: " ++ join (u ", ") lost)) ;;
  mret lost.
End Fleet.

(** ** Compute offload *)

Section Broker.
Context {PR : PyRepr} {G : Type} {GO : GovernorOps G}.
Implicit Types f : fleet G.

Definition field_or (k : string) (dflt : pyval) (d : pydict) : pyval := dict_get (u k) dflt d.

Definition refusal (why : pystr) : pydict :=
  [(u "status", VStr (u "refused")); (u "reason", VStr why)].
Definition failure (why : pystr) : pydict :=
  [(u "status", VStr (u "error")); (u "reason", VStr why)].

(** [_on_result]: any object with a request id is kept under it. *)
Definition on_result (message : pyval) f : fleet G :=
  match message with
  | VDict d =>
      let id := py_str (field_or "request_id" (VStr []) d) in
      if bool_decide (id = []) then f else with_results (dset id d (results f)) (listening f) f
  | _ => f
  end.

(** Why a request is refused before anything is sent. *)
Definition compute_refusal (now m : f64) (device workload : pystr) f : option (pystr * pystr) :=
  let name := sanitize_text workload 32 in
  if negb (bool_decide (name ∈ KNOWN_WORKLOADS)) then
    Some (u "mobile_compute_refused_unknown_workload", u "unknown workload '" ++ name ++ u "'")
  else if negb (is_paired now device f) then Some ([], u "device not paired")
  else if negb (alive m device f) then Some ([], u "device heartbeat lost")
  else if negb (node_supports_workload (manifest_of device f) name) then
    Some (u "mobile_compute_refused_no_capability",
          u "device '" ++ sanitize_text device 48 ++ u "' does not advertise workload '" ++ name
          ++ u "'")
  else None.

Definition compute_fields (device id : pystr) : pydict :=
  [(u "device_id", VStr device); (u "request_id", VStr id)].

(** The waiting loop: a poll for each batch of messages handed to [_on_result]
    before it; no further batch is the deadline. *)
Fixpoint await_result (id : pystr) (polls : list (list pyval)) f : fleet G * option pydict :=
  match polls with
  | [] => (f, None)
  | inbox :: later =>
      let f := foldl (λ f x, on_result x f) f inbox in
      match dget id (results f) with
      | Some d => (with_results (ddel id (results f)) (listening f) f, Some d)
      | None => await_result id later f
      end
  end.

Definition listen (device : pystr) f : fleet G :=
  with_results (results f)
    (if bool_decide (device ∈ listening f) then listening f else listening f ++ [device]) f.

(** [request_compute].  [sent] is what publishing does; the request's id and
    the timeout in effect are arguments. *)
Definition request_compute (now m : f64) (id : pystr) (timeout : f64) (sent : res unit)
    (polls : list (list pyval)) (exn_text : exn → pystr) (device workload : pystr) f :
    fleet G * pydict :=
  match compute_refusal now m device workload f with
  | Some (event, why) =>
      (if bool_decide (event = []) then f
       else note_audit event [device_field device;
                              (u "workload", VStr (sanitize_text workload 32))] f, refusal why)
  | None =>
      let f := listen device f in
      match sent with
      | Raise e => (f, failure (u "publish failed: " ++ exn_text e))
      | Ok _ =>
          match await_result id polls f with
          | (f, Some d) =>
              (note_audit (u "mobile_compute_completed") (compute_fields device id) f,
               [(u "status", VStr (u "success")); (u "result", VDict d)])
          | (f, None) =>
              (note_audit (u "mobile_compute_timeout") (compute_fields device id) f,
               failure (u "compute timeout after " ++ fmt_1f timeout ++ u "s"))
          end
      end
  end.

(** ** The actions *)

Definition view_dict (v : node_view) : pydict :=
  [(u "device_id", VStr (nv_device v)); (u "manifest", VDict (pa_manifest (nv_pairing v)));
   (u "paired_by", VStr (pa_by (nv_pairing v))); (u "expires_at", VFloat (pa_expires (nv_pairing v)));
   (u "alive", VBool (nv_alive v))].

Definition reading_dict (r : reading) : pydict :=
  [(u "device_id", VStr (rd_device r)); (u "tail", VStr (rd_tail r)); (u "data", rd_data r);
   (u "ts", VFloat (rd_ts r))].

(** [MobileExecutionHandler.handle]; the parameters are an object. *)
Definition handle (now m : f64) (ms : pystr → f64) (id : pystr) (timeout : f64) (sent : res unit)
    (polls : list (list pyval)) (exn_text : exn → pystr) (action : pystr) (params : pydict) f :
    fleet G * pydict :=
  let device := sanitize_text (py_str (field_or "device_id" (VStr []) params)) 48 in
  let acted rest := [(u "status", VStr (u "success")); (u "action", VStr action)] ++ rest in
  if bool_decide (action = u "mobile_list_nodes") then
    (f, acted [(u "nodes", VList (VDict <$> (view_dict <$> list_nodes now ms f)))])
  else if bool_decide (action = u "mobile_node_status") then
    if negb (is_paired now device f) then (f, refusal (u "device not paired"))
    else (f, acted [(u "device_id", VStr device); (u "paired", VBool true);
                    (u "alive", VBool (alive m device f));
                    (u "sensors", VDict ((λ kr : pystr * reading, (kr.1, VDict (reading_dict kr.2)))
                                           <$> get_sensor_snapshot device f))])
  else if bool_decide (action = u "mobile_request_compute") then
    let workload := py_str (field_or "workload" (VStr (u "vision")) params) in
    let '(f, r) := request_compute now m id timeout sent polls exn_text device workload f in
    (f, merge [(u "status", dict_get (u "status") VNone r); (u "action", VStr action);
               (u "device_id", VStr device)] r)
  else (f, refusal (u "unknown mobile action '" ++ action ++ u "'")).

(** ** The KV-mesh adapter *)

(** [KVTransportAdapter._publish]: what goes out is only audited. *)
Definition kv_publish (now : f64) (device tail : pystr) (message : pydict) f : fleet G :=
  let fields := [(u "device_id", VStr device); (u "topic", VStr tail)] in
  if negb (is_paired now device f) then note_audit (u "kv_publish_refused_unpaired") fields f
  else note_audit (u "kv_publish") (fields ++ [(u "type", VStr (msg_type message))]) f.

(** [advertise], [assign], [put], [get], [evict] and [heartbeat]. *)
Inductive kv_out :=
  | Out_advertise (usable total : Z)
  | Out_assign (s : KVShard)
  | Out_put (sid data sum : pystr)
  | Out_get (sid : pystr)
  | Out_evict (sid : pystr)
  | Out_heartbeat.

Definition out_message (stamp : f64) (device : pystr) (o : kv_out) : pystr * pydict :=
  match o with
  | Out_advertise usable total => (u "kv/advertise", make_advertise device usable total stamp)
  | Out_assign s => (u "kv/assign", make_assign s)
  | Out_put sid data sum => (u "kv/put", make_put sid data sum)
  | Out_get sid => (u "kv/get", make_get sid)
  | Out_evict sid => (u "kv/evict", make_evict sid)
  | Out_heartbeat => (u "kv/heartbeat", make_heartbeat device stamp)
  end.

Definition kv_send (now stamp : f64) (device : pystr) (o : kv_out) f : fleet G * option pydict :=
  let send d := let '(tail, msg) := out_message stamp d o in
                (kv_publish now d tail msg f, Some msg) in
  match o with
  | Out_assign s => match device_id s with None => (f, None) | Some d => send d end
  | _ => send device
  end.

(** [payload[key]]. *)
Definition must (k : string) (d : pydict) : res pyval :=
  match dget (u k) d with Some v => Ok v | None => Raise (KeyError (u k)) end.
Definition must_str (k : string) (d : pydict) : res pystr := v ← must k d; Ok (py_str v).
Definition must_int (k : string) (d : pydict) : res Z := v ← must k d; py_int v.

(** The shard a [KVAssign] names; its device is read from [shard_id]. *)
Definition shard_of (d : pydict) : res KVShard :=
  sid ← must_str "shard_id" d;
  mid ← must_str "model_id" d;
  l0 ← must_int "layer_start" d;
  l1 ← must_int "layer_end" d;
  h0 ← must_int "head_start" d;
  h1 ← must_int "head_end" d;
  s0 ← must_int "seq_start" d;
  s1 ← must_int "seq_end" d;
  bytes ← must_int "bytes_size" d;
  Ok (Shard sid mid l0 l1 h0 h1 s0 s1 bytes (Some sid) (py_str (field_or "checksum" (VStr []) d))).

Definition kv_received (event : string) (device : pystr) (rest : pydict) : fleet G → fleet G :=
  note_audit (u event) (rest ++ [(u "device_id", VStr device)]).

(** [handle_inbound], of an object. *)
Definition handle_inbound (now : f64) (device tail : pystr) (payload : pydict) :
    py (fleet G) unit :=
  f ← get;
  if negb (is_paired now device f) then
    modify (note_audit (u "kv_inbound_refused_unpaired")
              [(u "device_id", VStr device); (u "topic", VStr tail)])
  else
    let t := msg_type payload in
    if bool_decide (t = u "KVAdvertise") then
      usable ← of_res (py_int (field_or "usable_ram_bytes" (VInt 0) payload));
      total ← of_res (py_int (field_or "total_ram_bytes" (VInt 0) payload));
      modify (λ f, note_audit (u "kv_advertise_received")
                     [(u "device_id", VStr device); (u "usable_ram_bytes", VInt usable)]
                     (with_kv (register_node device usable total (f_kv f)) f))
    else if bool_decide (t = u "KVAssign") then
      s ← of_res (shard_of payload);
      modify (λ f, note_audit (u "kv_assign_received")
                     [(u "shard_id", VStr (shard_id s)); (u "device_id", VStr device)]
                     (with_kv (assign s None (f_kv f)).1 f))
    else if bool_decide (t = u "KVPut") then
      v ← of_res (must "shard_id" payload);
      modify (note_audit (u "kv_put_received") [(u "shard_id", v); (u "device_id", VStr device)])
    else if bool_decide (t = u "KVGet") then
      of_res (must "shard_id" payload) ;; mret tt
    else if bool_decide (t = u "KVEvict") then
      v ← of_res (must "shard_id" payload);
      modify (λ f, note_audit (u "kv_evict_received") [(u "shard_id", v); (u "device_id", VStr device)]
                     (with_kv (evict (py_str v) (f_kv f)).1 f))
    else if bool_decide (t = u "KVHeartbeat") then mret tt
    else modify (note_audit (u "kv_inbound_unknown_type")
                   [(u "device_id", VStr device); (u "type", VStr t); (u "topic", VStr tail)]).
End Broker.

(** ** Lemmas: bounded values *)

(** What passes the sanitiser: numbers inside the range, short texts and keys,
    small containers. *)
Fixpoint bounded (v : pyval) : bool :=
  match v with
  | VNone | VBool _ => true
  | VInt z => match py_float_of_Z z with Ok x => in_range x | Raise _ => false end
  | VFloat x => in_range x
  | VStr s => (length s <=? 400)%nat
  | VList l => (length l <=? 32)%nat && forallb bounded l
  | VDict d => (length d <=? 32)%nat
               && forallb (λ kv, (length kv.1 <=? 48)%nat && bounded kv.2) d
  end.

Lemma in_range_zero : in_range f0 = true.
Proof. reflexivity. Qed.

Lemma bound_number_bounded v w :
  match v with VBool _ | VInt _ | VFloat _ => True | _ => False end →
  bound_number v = Ok w → bounded w = true.
Proof.
  destruct v as [|b|z|x|s|l|d]; intros []; unfold bound_number.
  - by intros <-%(inj Ok).
  - destruct (py_float_of_Z z) as [x|] eqn:E; [|done]. intros <-%(inj Ok).
    destruct (in_range x) eqn:Ex; [|exact in_range_zero]. cbn [bounded]. by rewrite E.
  - intros <-%(inj Ok). destruct (in_range x) eqn:Ex; [done|exact in_range_zero].
Qed.

Section Bounded.
Context {PR : PyRepr}.

Lemma text_of_bounded v n : 0 <= n <= 400 → bounded (text_of n v) = true.
Proof. intros Hn. cbn. apply Nat.leb_le. apply sanitize_at_most. lia. Qed.

Definition field_bounded (kv : pystr * pyval) : bool :=
  (length kv.1 <=? 48)%nat && bounded kv.2.

Lemma set_bounded (k : pystr) v (d : pydict) :
  (length k <= 48)%nat → bounded v = true →
  forallb field_bounded d = true → forallb field_bounded (dset k v d) = true.
Proof.
  intros Hk Hv Hd. apply forallb_forall. intros x Hx%list_elem_of_In.
  apply dset_elem in Hx as [->|Hx].
  - unfold field_bounded. cbn [fst snd]. rewrite Hv. by apply Nat.leb_le in Hk as ->.
  - by apply (proj1 (forallb_forall _ _) Hd), list_elem_of_In.
Qed.

Section Loops.
Variable clean : pyval → res pyval.
Let good v := ∀ w, clean v = Ok w → bounded w = true.

Lemma clean_items_bounded l : Forall good l → ∀ n k,
  clean_items clean n l = Ok k → (length k <= n)%nat ∧ forallb bounded k = true.
Proof.
  induction 1 as [|x l Hx _ IH]; intros [|n] k; cbn [clean_items];
    try (intros <-%(inj Ok); simpl; split; [lia|done]).
  destruct (clean x) as [y|] eqn:Ey; [|done]. simpl.
  destruct (clean_items clean n l) as [k'|] eqn:Ek; [|done]. simpl. intros <-%(inj Ok).
  destruct (IH _ _ Ek) as [Hn Hb]. simpl. rewrite (Hx _ Ey), Hb. split; [lia|done].
Qed.

Lemma clean_fields_bounded d : Forall (λ kv, good kv.2) d → ∀ n o k,
  clean_fields clean n d o = Ok k → forallb field_bounded o = true →
  (length k <= n + length o)%nat ∧ forallb field_bounded k = true.
Proof.
  induction 1 as [|[k0 x] d Hx _ IH]; intros [|n] o k; cbn [clean_fields];
    try (intros <-%(inj Ok) ?; simpl; split; [lia|done]).
  destruct (clean x) as [y|] eqn:Ey; [|done]. simpl. intros Ek Ho.
  apply IH in Ek as [Hn Hb].
  - split; [|done]. rewrite dset_length in Hn. case_match; lia.
  - apply set_bounded; [by apply sanitize_at_most|by apply Hx|done].
Qed.
End Loops.

Lemma sanitize_message_bounded v w : sanitize_message v = Ok w → bounded w = true.
Proof.
  revert w. induction v as [|b|z|x|s|l IH|d IH] using pyval_nested_ind; intros w;
    cbn [sanitize_message].
  - case_match; intros <-%(inj Ok); [done|]. by apply text_of_bounded.
  - by intros <-%(inj Ok).
  - apply bound_number_bounded, I.
  - apply bound_number_bounded, I.
  - case_match; intros <-%(inj Ok); [done|]. by apply text_of_bounded.
  - case_match; [by intros <-%(inj Ok)|].
    destruct (clean_items sanitize_message 32 l) as [k|] eqn:Ek; [|done].
    intros <-%(inj Ok). destruct (clean_items_bounded _ _ IH _ _ Ek) as [Hn Hb].
    cbn [bounded]. apply Nat.leb_le in Hn as ->. done.
  - case_match; [by intros <-%(inj Ok)|].
    destruct (clean_fields sanitize_message 32 d []) as [k|] eqn:Ek; [|done].
    intros <-%(inj Ok).
    destruct (clean_fields_bounded _ _ IH _ _ _ Ek eq_refl) as [Hn Hb].
    cbn [bounded]. rewrite Nat.add_0_r in Hn. apply Nat.leb_le in Hn as ->. done.
Qed.
End Bounded.


(** ** Lemmas: the registry *)

Section Registry.
Context {PR : PyRepr} {G : Type} {GO : GovernorOps G}.
Implicit Types f : fleet G.

(** A report touches nothing but the controller. *)
Lemma report_frame kind detail f :
  let f' := (report kind detail f).1 in
  snapshots f' = snapshots f ∧ recorded f' = recorded f ∧ paired f' = paired f ∧
  beats f' = beats f ∧ refused_topics f' = refused_topics f ∧ f_audit f' = f_audit f.
Proof.
  unfold report. destruct (f_fallbacks f) as [c|]; [|done].
  by destruct (report_violation kind detail c).
Qed.

Lemma refuse_topic_frame device tail reason f :
  let f' := (refuse_topic device tail reason f).1 in
  snapshots f' = snapshots f ∧ recorded f' = recorded f ∧ paired f' = paired f ∧
  beats f' = beats f ∧
  refused_topics f' = dset (device ++ u "/" ++ tail)
    (default 0 (dget (device ++ u "/" ++ tail) (refused_topics f)) + 1) (refused_topics f).
Proof.
  unfold refuse_topic. py_unfold. case_match; [|done].
  match goal with |- context [report ?k ?d ?g] => pose proof (report_frame k d g) as H' end.
  cbn zeta in H'. destruct H' as (-> & -> & -> & -> & -> & _). done.
Qed.

Lemma store_reading_frame r f :
  snapshots (store_reading r f)
  = dset (rd_device r) (dset (rd_tail r) r (default [] (dget (rd_device r) (snapshots f))))
      (snapshots f) ∧
  refused_topics (store_reading r f) = refused_topics f.
Proof. unfold store_reading. by case_bool_decide. Qed.

Lemma validate_mobile_topic_ok device tail caps reason :
  validate_mobile_topic device tail caps = (true, reason) →
  strip device ∈ mobile_devices_allowlist caps ∧
  strip_by (N.eqb 47) tail ∈ mobile_sensor_topics caps.
Proof.
  unfold validate_mobile_topic. destruct (_ || _); [done|].
  case_bool_decide; [|done]. by case_bool_decide.
Qed.
End Registry.

(** ** Lemmas: replies *)

Section Replies.
Context {PR : PyRepr} {G : Type} {GO : GovernorOps G}.
Implicit Types f : fleet G.

Definition answers (id : pystr) (d : pydict) : Prop :=
  id = py_str (field_or "request_id" (VStr []) d).

Lemma on_result_get id x f d :
  dget id (results (on_result x f)) = Some d →
  dget id (results f) = Some d ∨ x = VDict d ∧ answers id d.
Proof.
  destruct x as [| | | | | |d0]; cbn [on_result]; auto. case_bool_decide; [auto|].
  cbn [with_results results]. rewrite dget_dset. case_decide; [|auto].
  intros [= ->]. by right.
Qed.

Lemma on_result_frame x f :
  listening (on_result x f) = listening f ∧
  (NoDup (results f).*1 → NoDup (results (on_result x f)).*1).
Proof.
  destruct x; cbn [on_result]; try done. case_bool_decide; [done|].
  split; [done|]. apply dset_nodup.
Qed.

Lemma inbox_spec id inbox f :
  let f' := foldl (λ f x, on_result x f) f inbox in
  listening f' = listening f ∧
  (NoDup (results f).*1 → NoDup (results f').*1) ∧
  (∀ d, dget id (results f') = Some d →
   dget id (results f) = Some d ∨ VDict d ∈ inbox ∧ answers id d).
Proof.
  revert f. induction inbox as [|x inbox IH]; intros f; simpl; [by auto|].
  destruct (IH (on_result x f)) as (-> & Hn & Hd), (on_result_frame x f) as [-> Hn'].
  split_and!; [done|auto|]. intros d [Hd0|[Hin Ha]]%Hd.
  - apply on_result_get in Hd0 as [?|[-> ?]]; [auto|]. right. split; [left|done].
  - right. split; [by right|done].
Qed.

Lemma await_spec id polls f :
  let '(f', r) := await_result id polls f in
  listening f' = listening f ∧
  (NoDup (results f).*1 → NoDup (results f').*1 ∧ (is_Some r → dget id (results f') = None)) ∧
  (∀ d, r = Some d →
   dget id (results f) = Some d ∨ VDict d ∈ concat polls ∧ answers id d).
Proof.
  revert f. induction polls as [|inbox later IH]; intros f; cbn [await_result].
  { split_and!; [done| |done]. intros ?. split; [done|]. by intros []. }
  pose proof (inbox_spec id inbox f) as Hi. cbn zeta in Hi.
  set (f1 := foldl _ f inbox) in *. destruct Hi as (El & Hn & Hd).
  destruct (dget id (results f1)) as [d|] eqn:Eg.
  - cbn [with_results listening results]. split_and!; [done| |].
    + intros Hnd. split; [by apply ddel_nodup, Hn|]. intros _. by apply dget_ddel_eq, Hn.
    + intros d' [= <-]. destruct (Hd d eq_refl) as [?|[? ?]]; [auto|].
      right. split; [|done]. simpl. apply elem_of_app. by left.
  - specialize (IH f1). destruct (await_result id later f1) as [f' r].
    destruct IH as (El' & Hn' & Hd'). rewrite El'. split_and!; [done|auto|].
    intros d Er. destruct (Hd' d Er) as [?|[? ?]]; [congruence|].
    right. split; [|done]. simpl. apply elem_of_app. by right.
Qed.

Lemma refusal_or_sent now m device workload f :
  match compute_refusal now m device workload f with
  | Some _ => True
  | None =>
      let name := sanitize_text workload 32 in
      name ∈ KNOWN_WORKLOADS ∧ is_paired now device f = true ∧ alive m device f = true ∧
      node_supports_workload (manifest_of device f) name = true
  end.
Proof.
  unfold compute_refusal. case_bool_decide; [|done]. cbn [negb].
  destruct (is_paired now device f); [|done]. cbn [negb].
  destruct (alive m device f); [|done]. cbn [negb].
  by destruct (node_supports_workload _ _).
Qed.

Lemma listen_in device f : device ∈ listening (listen device f).
Proof. unfold listen. cbn [with_results listening]. case_bool_decide; set_solver. Qed.
End Replies.

Section Lost.
Context {PR : PyRepr} {G : Type} {GO : GovernorOps G}.

Lemma lost_nodup (now : f64) (m : pystr → f64) (f : fleet G) :
  NoDup (paired f).*1 →
  NoDup (nv_device <$> List.filter (λ v, negb (nv_alive v)) (list_nodes now m f)).
Proof.
  intros Hn. unfold list_nodes, sorted_pairings.
  set (l := List.filter _ (sort_by _ _)).
  assert (NoDup l.*1) as Hl.
  { apply filter_keys_nodup. by rewrite sort_by_perm. }
  clearbody l. induction l as [|kv l IH]; [constructor|].
  rewrite fmap_cons in Hl. apply NoDup_cons in Hl as [Hk Hl].
  rewrite fmap_cons. cbn [List.filter]. destruct (nv_alive (view m f kv)); cbn [negb]; [auto|].
  rewrite fmap_cons. apply NoDup_cons. split; [|auto]. rewrite list_elem_of_fmap.
  intros (v & E & [Hv _]%list_elem_of_In%List.filter_In).
  apply list_elem_of_In, list_elem_of_fmap in Hv as (kv' & -> & Hin).
  apply Hk, list_elem_of_fmap. by exists kv'.
Qed.
End Lost.

(** ** Lemmas: topics *)

Definition topic_path (device tail : pystr) : pystr :=
  u "shugocore" ++ 47%N :: u "mobile" ++ 47%N :: device ++ 47%N :: tail.

Lemma kv_topic_path device tail : kv_topic device tail = 47%N :: topic_path device tail.
Proof. reflexivity. Qed.

Lemma strip_topic device tail :
  (∀ c, last tail = Some c → c ≠ 47%N) → tail ≠ [] →
  strip_by (N.eqb 47) (kv_topic device tail) = topic_path device tail.
Proof.
  intros Hl Hne. rewrite kv_topic_path. unfold strip_by. cbn [lstrip N.eqb].
  change (lstrip (N.eqb 47) (47%N :: topic_path device tail)) with (topic_path device tail).
  change (strip_by (N.eqb 47) (topic_path device tail) = topic_path device tail).
  apply strip_by_fixed.
  - intros c [= <-]. reflexivity.
  - intros c Hc. apply N.eqb_neq. intros <-. apply (Hl 47%N); [|done].
    destruct (exists_last Hne) as (t & x & ->).
    unfold topic_path in Hc. rewrite !app_comm_cons, !app_assoc, last_snoc in Hc.
    by rewrite last_snoc.
Qed.

Lemma last_no_slash s : 47%N ∉ s → ∀ c, last s = Some c → c ≠ 47%N.
Proof. intros Hs c Hc ->. by apply Hs, last_Some_elem_of. Qed.

(** ** Theorems *)

Section Theorems.
Context {PR : PyRepr} {G : Type} {GO : GovernorOps G}.
Implicit Types f : fleet G.

(** C32. Whatever a device sends, nothing is stored or remembered unless the
    device is on the operator's allowlist, the topic is in the contract and
    the pairing is unexpired; what is stored is the sanitised payload, of
    bounded numbers, texts, containers and keys, readable back under its
    topic.  A refused topic is counted, and no other path counts. *)
Theorem ingest_guarded t1 m t2 device tail message f :
  let '(f', r) := ingest t1 m t2 device tail message f in
  match r with
  | Ok (Some rd) =>
      strip device ∈ mobile_devices_allowlist (f_caps f) ∧
      strip_by (N.eqb 47) tail ∈ mobile_sensor_topics (f_caps f) ∧
      is_paired t1 device f = true ∧
      rd = Reading device tail (rd_data rd) t2 ∧
      sanitize_message message = Ok (rd_data rd) ∧ bounded (rd_data rd) = true ∧
      (tail, rd) ∈ get_sensor_snapshot device f'
  | _ => snapshots f' = snapshots f ∧ recorded f' = recorded f
  end ∧
  (refused_topics f' ≠ refused_topics f →
   (validate_mobile_topic device tail (f_caps f)).1 = false).
Proof.
  unfold ingest. py_unfold.
  destruct (validate_mobile_topic device tail (f_caps f)) as [ok reason] eqn:Ev.
  destruct ok; cbn [negb].
  2: { pose proof (refuse_topic_frame device tail reason f) as Hr.
       destruct (refuse_topic device tail reason f) as [f' [[]|e]];
         cbn in Hr; destruct Hr as (-> & -> & _); done. }
  destruct (is_paired t1 device f) eqn:Ep; cbn [negb]; [|by split].
  set (f1 := if bool_decide (tail = u "heartbeat") then (heartbeat m device f).1 else f).
  assert (snapshots f1 = snapshots f ∧ recorded f1 = recorded f ∧
          refused_topics f1 = refused_topics f) as (E1 & E2 & E3).
  { unfold f1, heartbeat. case_bool_decide; [by case_match|done]. }
  unfold of_res.
  destruct (sanitize_message message) as [data|e] eqn:Es; cbn [fst snd];
    fold f1; [|by rewrite E1, E2, E3].
  assert (data = VNone ∨ data ≠ VNone) as [->|Hd] by (destruct data; eauto).
  { cbn [note_audit snapshots recorded refused_topics]. by rewrite E1, E2, E3. }
  set (rd := Reading device tail data t2).
  assert (∀ A (x y : A), match data with VNone => x | _ => y end = y) as Hm
    by (intros; by destruct data).
  rewrite Hm. cbn [fst snd]. destruct (store_reading_frame rd f1) as [Hs Hr].
  split; [|by rewrite Hr, E3]. unfold get_sensor_snapshot.
  destruct (validate_mobile_topic_ok _ _ _ _ Ev).
  split_and!; try done; [by eapply sanitize_message_bounded|].
  apply elem_sort_by. rewrite Hs. cbn [rd rd_device rd_tail]. rewrite dget_dset_eq.
  apply dget_elem, dget_dset_eq.
Qed.

(** Pairing records the device under its sanitised id, with a time to
    live and a manifest whose compute block is derived again; it is audited,
    and refused exactly for an id that sanitises to nothing or a number too
    large to convert, leaving the registry as it was.  A device is found
    paired by the id it was paired with exactly when sanitising keeps that id:
    any other spelling stays as unpaired as before. *)
Theorem pair_by_clean_id t1 t2 m now device_id manifest by_ f :
  let '(f', r) := pair t1 t2 m device_id manifest by_ f in
  let device := sanitize_text device_id 48 in
  match r with
  | Ok (d, p) =>
      d = device ∧ device ≠ [] ∧ pa_by p = sanitize_text by_ 120 ∧
      pa_expires p = fadd t2 (fmul (ttl_hours f) (f_of_Z 3600)) ∧
      is_paired now device f' = fltb now (pa_expires p) ∧
      alive m device f' = beats_within m m f ∧
      (device_id ≠ device → is_paired now device_id f' = is_paired now device_id f) ∧
      f_audit f' = (λ l, l ++ [AuditEvent (u "mobile_node_paired")
                      [(u "device_id", VStr device); (u "paired_by", VStr (pa_by p))]])
                   <$> f_audit f
  | Raise e =>
      f' = f ∧
      (device = [] ∧ e = ValueError (u "device_id required") ∨
       sanitize_manifest (match manifest with VDict d => d | _ => [] end) = Raise e)
  end.
Proof.
  unfold pair, raise_if, of_res. py_unfold.
  case_bool_decide as Hd; [by split; [|left]|].
  destruct (sanitize_manifest _) as [safe|e] eqn:Es; [|by split; [|right]].
  cbn [fst snd]. unfold is_paired, alive.
  cbn [note_audit with_pairings paired beats pa_by pa_expires f_audit].
  rewrite !dget_dset_eq. split_and!; try done.
  intros Hne. by rewrite dget_dset_ne.
Qed.

(** Compute leaves the host only for a known workload, to a device that is
    paired, alive and advertised it; otherwise the request is refused and no
    topic is listened to.  A success carries a message with the request's own
    id that arrived while waiting or was already there, and takes it out, so
    one reply answers one request. *)
Theorem compute_fails_closed now m id timeout sent polls exn_text device workload f :
  let '(f', r) := request_compute now m id timeout sent polls exn_text device workload f in
  let name := sanitize_text workload 32 in
  (name ∈ KNOWN_WORKLOADS ∧ is_paired now device f = true ∧ alive m device f = true ∧
   node_supports_workload (manifest_of device f) name = true ∧ device ∈ listening f' ∨
   (∃ why, r = refusal why) ∧ listening f' = listening f ∧ results f' = results f) ∧
  (dget (u "status") r = Some (VStr (u "success")) →
   sent = Ok tt ∧
   ∃ d, dget (u "result") r = Some (VDict d) ∧
     (dget id (results f) = Some d ∨ VDict d ∈ concat polls ∧ answers id d) ∧
     (NoDup (results f).*1 → dget id (results f') = None)).
Proof.
  unfold request_compute. pose proof (refusal_or_sent now m device workload f) as Hr.
  destruct (compute_refusal now m device workload f) as [[event why]|].
  { split; [|done]. right. split; [by exists why|]. by case_bool_decide. }
  cbn zeta in Hr. pose proof (listen_in device f) as Hl.
  destruct sent as [[]|e].
  2: { split; [|done]. left. by destruct Hr as (?&?&?&?). }
  pose proof (await_spec id polls (listen device f)) as Ha.
  destruct (await_result id polls (listen device f)) as [f' [d|]];
    destruct Ha as (El & Hn & Hd); cbn [note_audit listening]; rewrite El;
    (split; [left; by destruct Hr as (?&?&?&?)|]); [|done].
  intros _. split; [done|]. exists d. split_and!; [done|by apply Hd|].
  intros Hnd. by apply Hn.
Qed.

(** The liveness sweep names exactly the devices whose pairing is
    unexpired and whose last heartbeat is older than the timeout, each once;
    with none the fleet is left alone, otherwise one violation is reported to
    the controller and nothing else changes. *)
Theorem check_liveness_exact now m f :
  let lost := nv_device <$> List.filter (λ v, negb (nv_alive v)) (list_nodes now m f) in
  check_liveness now m f
  = (if bool_decide (lost = []) then (f, Ok lost)
     else let '(f', r) := report (u "mobile_node_lost") (u "heartbeat lost: " ++ join (u ", ") lost) f in
          (f', match r with Ok _ => Ok lost | Raise e => Raise e end)) ∧
  (∀ d, d ∈ lost ↔ ∃ p, (d, p) ∈ paired f ∧ fleb (pa_expires p) now = false ∧
                   beats_within (m d) (default f0 (dget d (beats f))) f = false) ∧
  (NoDup (paired f).*1 → NoDup lost).
Proof.
  cbn zeta. split_and!.
  - unfold check_liveness. py_unfold. case_bool_decide; [done|].
    by destruct (report _ _ f) as [f' [[]|e]].
  - intros d. unfold list_nodes. rewrite list_elem_of_fmap. split.
    + intros (v & -> & [Hv Ha]%list_elem_of_In%List.filter_In).
      apply list_elem_of_In, list_elem_of_fmap in Hv as ([d p] & -> & Hin).
      apply list_elem_of_In, List.filter_In in Hin as [Hin He].
      apply list_elem_of_In, elem_sort_by in Hin. exists p. cbn in *.
      split_and!; [done|by apply negb_true_iff|by apply negb_true_iff].
    + intros (p & Hin & He & Ha). exists (view m f (d, p)). split; [done|].
      apply list_elem_of_In, List.filter_In. cbn. rewrite Ha. split; [|done].
      apply list_elem_of_In, list_elem_of_fmap. exists (d, p). split; [done|].
      apply list_elem_of_In, List.filter_In. cbn. rewrite He. split; [|done].
      by apply list_elem_of_In, elem_sort_by.
  - apply lost_nodup.
Qed.

(** A device's topic parses back to the device and the tail, for any
    device and tail without a slash; a tail that holds a slash, as every topic
    of the KV mesh does, is not in the mobile namespace at all. *)
Theorem mobile_topic_roundtrip device tail a b :
  47%N ∉ device → tail ≠ [] → 47%N ∉ tail → b ≠ [] → 47%N ∉ a → 47%N ∉ b →
  parse_mobile_topic (kv_topic device tail) = Some (device, tail) ∧
  parse_mobile_topic (kv_topic device (a ++ 47%N :: b)) = None.
Proof.
  intros Hd Ht Ht' Hb Ha Hb'. unfold parse_mobile_topic.
  rewrite !strip_topic; [|..|by apply last_no_slash|done].
  - unfold topic_path.
    assert (47%N ∉ u "shugocore" ∧ 47%N ∉ u "mobile") as [H1 H2]
      by (split; apply (bool_decide_unpack _); vm_compute; exact I).
    rewrite !split_on_app, !split_on_none by done. done.
  - intros c Hc. apply (last_no_slash b Hb').
    destruct (exists_last Hb) as (t & x & ->).
    rewrite app_comm_cons, app_assoc, last_snoc in Hc. by rewrite last_snoc.
  - by destruct a.
Qed.

(** What an inbound mesh message may do to the allocator: nothing from a
    device that is not paired; from a paired one, an advertisement registers
    that very device, an assignment places the shard it names, an eviction
    evicts the shard it names and no other message changes it.  A message
    without the field its type needs raises, with the allocator untouched. *)
Theorem kv_inbound_authority now device tail payload f :
  let '(f', r) := handle_inbound now device tail payload f in
  let t := msg_type payload in
  f_kv f' = f_kv f ∨
  is_ok r = true ∧ is_paired now device f = true ∧
  ((t = u "KVAdvertise" ∧ ∃ us tot, f_kv f' = register_node device us tot (f_kv f)) ∨
   (t = u "KVAssign" ∧ ∃ s, shard_of payload = Ok s ∧ f_kv f' = (assign s None (f_kv f)).1) ∨
   (t = u "KVEvict" ∧ ∃ v, dget (u "shard_id") payload = Some v ∧
                     f_kv f' = (evict (py_str v) (f_kv f)).1)).
Proof.
  unfold handle_inbound, must. py_unfold.
  destruct (is_paired now device f); cbn [negb]; [|by left].
  case_bool_decide.
  { unfold of_res. destruct (py_int _) as [us|]; [|by left].
    destruct (py_int _) as [tot|]; [|by left]. right. split_and!; [done..|]. left. eauto. }
  case_bool_decide.
  { unfold of_res. destruct (shard_of payload) as [s|]; [|by left].
    right. split_and!; [done..|]. right. left. eauto. }
  case_bool_decide; [unfold of_res; destruct (dget _ _); by left|].
  case_bool_decide; [unfold of_res; destruct (dget _ _); by left|].
  case_bool_decide.
  { unfold of_res. destruct (dget (u "shard_id") payload) as [v|] eqn:E; [|by left].
    right. split_and!; [done..|]. right. right. eauto. }
  case_bool_decide; by left.
Qed.

(** A paired device can take away any shard, whoever holds it: the
    sender of an eviction is not compared with the shard's node. *)
Theorem kv_inbound_evicts_foreign now device tail payload sid owner f :
  is_paired now device f = true → msg_type payload = u "KVEvict" →
  dget (u "shard_id") payload = Some (VStr sid) →
  shard_location sid (f_kv f) = Some owner →
  let f' := (handle_inbound now device tail payload f).1 in
  shard_location sid (f_kv f') = None ∧
  ∀ sid', sid' ≠ sid → shard_location sid' (f_kv f') = shard_location sid' (f_kv f).
Proof.
  intros Hp Ht Hs Ho. unfold handle_inbound, must. py_unfold. rewrite Hp, Ht, Hs.
  repeat (rewrite bool_decide_eq_false_2 by done). cbn [negb of_res fst snd].
  rewrite bool_decide_eq_true_2 by done. cbn [of_res fst snd kv_received note_audit with_kv f_kv].
  unfold shard_location in *. unfold evict. cbn [py_str].
  destruct (dget sid (kv_shards (f_kv f))) as [s|] eqn:E; [|done]. cbn in Ho. rewrite Ho.
  cbn [fst kv_shards]. split.
  - by rewrite dget_dset_eq.
  - intros sid' Hne. by rewrite dget_dset_ne.
Qed.

(** An inbound assignment is not checked against what is already placed:
    from balanced books, the node that gets the shard is afterwards charged
    for more than it holds by whatever it already held of the same shard. *)
Theorem kv_inbound_recharges now device tail payload s d f :
  is_paired now device f = true → msg_type payload = u "KVAssign" →
  shard_of payload = Ok s → kv_inv (f_kv f) →
  (assign s None (f_kv f)).2 = Some d →
  let f' := (handle_inbound now device tail payload f).1 in
  ∃ n, dget d (kv_nodes (f_kv f')) = Some n ∧
    allocated_bytes n = load d (kv_shards (f_kv f'))
                        + entry_load d (dget (shard_id s) (kv_shards (f_kv f))).
Proof.
  intros Hp Ht Hs (_ & _ & _ & _ & Hal) Ha. unfold handle_inbound. py_unfold.
  rewrite Hp, Ht, Hs. rewrite bool_decide_eq_false_2 by done. cbn [negb].
  rewrite bool_decide_eq_true_2 by done. cbn [of_res fst snd note_audit with_kv f_kv].
  destruct (assign_cases s None (f_kv f)) as [(d0 & n & E & Ed & _)|[E _]];
    rewrite E in Ha |- *; [|done]. injection Ha as ->. cbn [fst kv_nodes kv_shards].
  eexists. split; [apply dget_dset_eq|]. destruct (Hal _ _ Ed) as [Hl _].
  cbn [set_allocated allocated_bytes]. rewrite load_dset, Hl.
  unfold on_device at 1. cbn [set_device device_id bytes_size].
  rewrite decide_True by done. lia.
Qed.

End Theorems.

(** ** Witnesses *)

Section Witnesses.
#[local] Instance plain_repr : PyRepr := λ _, [].

Definition demo_grant : pairing := Pairing [] (u "operator") f0 (f_of_Z 1000).

(** Two paired phones; one holds a shard of 60 bytes. *)
Definition demo_fleet : fleet governor :=
  Fleet (f_of_Z 12) (f_of_Z 30)
    [(u "pixel", demo_grant); (u "tab", demo_grant)]
    [(u "pixel", f_of_Z 1)] (Registry [] [] [] [] [u "pixel"; u "tab"] [u "imu"; u "heartbeat"] [])
    None [] [] (Some []) (Some []) [] [] demo_alloc.

Definition evict_message : pydict :=
  [(u "type", VStr (u "KVEvict")); (u "shard_id", VStr (u "s1"))].

Lemma kv_inbound_evicts_foreign_witness :
  shard_location (u "s1") (f_kv demo_fleet) = Some (u "phone") ∧
  shard_location (u "s1")
    (f_kv (handle_inbound f1 (u "tab") (u "kv/evict") evict_message demo_fleet).1) = None.
Proof.
  split; [reflexivity|].
  apply (kv_inbound_evicts_foreign f1 (u "tab") (u "kv/evict") evict_message (u "s1")
           (u "phone") demo_fleet); reflexivity.
Defined.

Definition assign_message : pydict := make_assign (demo_shard (u "s1") 30).

Lemma kv_inbound_recharges_witness :
  ∃ n, dget (u "phone")
         (kv_nodes (f_kv (handle_inbound f1 (u "tab") (u "kv/assign") assign_message demo_fleet).1))
       = Some n ∧ allocated_bytes n = 30 + 60.
Proof.
  apply (kv_inbound_recharges f1 (u "tab") (u "kv/assign") assign_message
           (set_device (Some (u "s1")) (demo_shard (u "s1") 30)) (u "phone") demo_fleet);
    [reflexivity..|apply kv_reach_inv, demo_alloc_reachable|reflexivity].
Defined.

Lemma mobile_topic_roundtrip_witness :
  parse_mobile_topic (kv_topic (u "pixel") (u "imu")) = Some (u "pixel", u "imu") ∧
  parse_mobile_topic (kv_topic (u "pixel") (u "kv/evict")) = None.
Proof.
  apply (mobile_topic_roundtrip (u "pixel") (u "imu") (u "kv") (u "evict"));
    (apply (bool_decide_unpack _); vm_compute; exact I).
Defined.

(** A tail of slashes around a contract topic passes the contract, but it is
    not the heartbeat and is stored beside it. *)
Example slashed_heartbeat :
  let '(f', r) := ingest f1 (f_of_Z 50) f1 (u "pixel") (u "heartbeat/") (VInt 1) demo_fleet in
  r = Ok (Some (Reading (u "pixel") (u "heartbeat/") (VInt 1) f1)) ∧ beats f' = beats demo_fleet.
Proof. vm_compute. done. Qed.

(** An oversized integer escapes as an exception; a true [vram_mb] is one
    megabyte. *)
Example ingest_overflow :
  (ingest f1 f1 f1 (u "pixel") (u "imu") (VInt (10 ^ 400)) demo_fleet).2 = Raise OverflowError.
Proof. vm_compute. done. Qed.

Example vram_of_true :
  sanitize_compute_caps [(u "compute_caps", VDict [(u "vram_mb", VBool true)])]
  = [(u "vram_mb", VInt 1)].
Proof. vm_compute. done. Qed.
End Witnesses.
