(* ===== verification/Addresses.v ===== *)
(** * Hosts and paths of requests ([src/shugocore_server.py])

    What the server takes for a loopback host, and the path a request-target
    names: [ipaddress.ip_address] and [urllib.parse.urlsplit]/[unquote] as the
    code uses them.  [netloc_ok] is the standard library's check
    of a network location beyond its brackets (normal forms of characters
    beyond ASCII). *)

From Stdlib Require Import ZArith NArith Lia Ascii.
From S2P Require Import Prelude PyStr PyVal Regex Gguf.

Local Open Scope N_scope.

(** ** IP addresses *)

(** [str.isascii() and str.isdigit()] of a text that is not empty. *)
Definition ascii_digits (s : pystr) : bool := negb (bool_decide (s = [])) && forallb is_digit s.

Definition dec_value (s : pystr) : N := foldl (λ n c, 10 * n + (c - 48)) 0 s.

(** [_parse_octet]. *)
Definition parse_octet (s : pystr) : option N :=
  if ascii_digits s && (length s <=? 3)%nat
     && (bool_decide (s = u "0") || negb (starts_with (u "0") s)) && (dec_value s <=? 255)
  then Some (dec_value s) else None.

(** [IPv4Address(s)]: its four octets. *)
Definition parse_ipv4 (s : pystr) : option (N * N * N * N) :=
  match split_on (code ".") s with
  | [a; b; c; d] =>
      a ← parse_octet a; b ← parse_octet b; c ← parse_octet c; d ← parse_octet d; Some (a, b, c, d)
  | _ => None
  end.

Definition hex_value (c : N) : option N :=
  if is_digit c then Some (c - 48)
  else if (97 <=? c) && (c <=? 102) then Some (c - 87)
  else if (65 <=? c) && (c <=? 70) then Some (c - 55)
  else None.

Definition hex_number (s : pystr) : option N :=
  foldl (λ acc c, n ← acc; d ← hex_value c; Some (16 * n + d)) (Some 0) s.

(** [_parse_hextet]; a text without characters never reaches it. *)
Definition parse_hextet (s : pystr) : option N :=
  if bool_decide (s = []) || (4 <? length s)%nat then None else hex_number s.

Definition hextets (l : list pystr) : option (list N) := mapM parse_hextet l.

(** The positions of the empty parts between the first and the last. *)
Definition inner_gaps (parts : list pystr) : list nat :=
  List.filter (λ i, bool_decide (parts !! i = Some [])) (seq 1 (length parts - 2)).

(** [IPv6Address(s)]: its eight parts; an address that ends in an IPv4 one
    holds its octets as two parts. *)
Definition ipv6_parts (parts : list pystr) : option (list N) :=
  match inner_gaps parts with
  | [] =>
      if (length parts =? 8)%nat && negb (bool_decide (head parts = Some [])) && negb (bool_decide (last parts = Some []))
      then hextets parts else None
  | [i] =>
      let hi := take i parts in
      let lo := drop (i + 1) parts in
      let trim (l : list pystr) (e : bool) := if e then (if (length l =? 1)%nat then Some [] else None) else Some l in
      hi ← trim hi (bool_decide (head parts = Some []));
      lo ← trim lo (bool_decide (last parts = Some []));
      if (8 <? length hi + length lo + 1)%nat then None
      else
        a ← hextets hi; b ← hextets lo;
        Some (a ++ replicate (8 - (length hi + length lo)) 0 ++ b)
  | _ => None
  end.

Definition parse_ipv6 (s : pystr) : option (list N) :=
  if existsb (N.eqb (code "/")) s then None
  else
    let '(addr, scope) := span (λ c, negb (c =? code "%")) s in
    let scope_ok := match scope with
                    | [] => true
                    | _ :: id => negb (bool_decide (id = [])) && negb (existsb (N.eqb (code "%")) id)
                    end in
    let parts := split_on (code ":") addr in
    if negb scope_ok || (length parts <? 3)%nat then None
    else
      let final := default [] (last parts) in
      if existsb (N.eqb (code ".")) final then
        '(a, b, c, d) ← parse_ipv4 final;
        if (9 <? length parts + 1)%nat then None
        else
          (* the two parts are given back as numbers: they are never empty *)
          l ← ipv6_parts (removelast parts ++ [u "0"; u "0"]);
          Some (take 6 l ++ [256 * a + b; 256 * c + d])
      else if (9 <? length parts)%nat then None else ipv6_parts parts.

(** [ipaddress.ip_address(s).is_loopback], [None] for the [ValueError]. *)
Definition ip_is_loopback (s : pystr) : option bool :=
  match parse_ipv4 s with
  | Some (a, _, _, _) => Some (a =? 127)
  | None => l ← parse_ipv6 s; Some (bool_decide (l = [0; 0; 0; 0; 0; 0; 0; 1]))
  end.

Definition is_bracket (c : N) : bool := (c =? code "[") || (c =? code "]").

(** [_is_loopback_host]. *)
Definition host_candidate (host : pystr) : pystr :=
  rstrip (N.eqb (code ".")) (lower (strip_by is_bracket (strip host))).

Definition is_loopback_host (host : pystr) : bool :=
  let candidate := host_candidate host in
  bool_decide (candidate ∈ [u "localhost"; u "::1"]) || default false (ip_is_loopback candidate).

(** ** Request paths *)

Definition is_alpha (c : N) : bool := is_upper c || is_lower c.
Definition scheme_char (c : N) : bool :=
  is_alpha c || is_digit c || (c =? code "+") || (c =? code "-") || (c =? code ".").

(** The text after [scheme:], if it begins with one. *)
Definition without_scheme (s : pystr) : pystr :=
  let '(a, b) := span (λ c, negb (c =? code ":")) s in
  match a, b with
  | c :: _, _ :: rest => if is_alpha c && forallb scheme_char a then rest else s
  | _, _ => s
  end.

Definition unbalanced (netloc : pystr) : bool :=
  xorb (existsb (N.eqb (code "[")) netloc) (existsb (N.eqb (code "]")) netloc).

Section Paths.
Context (netloc_ok : pystr → bool).

(** [urlsplit(url).path], [None] for the [ValueError]. *)
Definition url_path (url : pystr) : option pystr :=
  let clean := List.filter (λ c, negb ((c =? 9) || (c =? 10) || (c =? 13))) (lstrip (λ c, c <=? 32) url) in
  let s := without_scheme clean in
  let cut l := (span (λ c, negb ((c =? code "?") || (c =? code "#"))) l).1 in
  match s with
  | 47 :: 47 :: rest =>
      let '(netloc, rest) := span (λ c, negb ((c =? 47) || (c =? code "?") || (c =? code "#"))) rest in
      if unbalanced netloc || negb (netloc_ok netloc) then None else Some (cut rest)
  | _ => Some (cut s)
  end.

(** [unquote_to_bytes] of a text in ASCII. *)
Fixpoint percent_bytes (s : pystr) : list N :=
  match s with
  | c :: ((a :: b :: s') as rest) =>
      if c =? code "%" then
        match hex_value a, hex_value b with
        | Some x, Some y => (16 * x + y) :: percent_bytes s'
        | _, _ => c :: percent_bytes rest
        end
      else c :: percent_bytes rest
  | c :: rest => c :: percent_bytes rest
  | [] => []
  end.

(** [unquote]: the stretches of ASCII are decoded as UTF-8. *)
Fixpoint unquote_go (run : pystr) (s : pystr) : pystr :=
  match s with
  | [] => utf8_decode (percent_bytes (rev run))
  | c :: s' => if c <? 128 then unquote_go (c :: run) s'
               else utf8_decode (percent_bytes (rev run)) ++ c :: unquote_go [] s'
  end.
Definition unquote (s : pystr) : pystr := unquote_go [] s.

Definition or_root (s : pystr) : pystr := match s with [] => u "/" | _ => s end.

(** [_normalize_request_path]. *)
Definition normalize_request_path (raw : pystr) : pystr :=
  match url_path raw with
  | None => u "/"
  | Some p =>
      let path := unquote (or_root p) in
      or_root (if (1 <? length path)%nat && ends_with (u "/") path
               then rstrip (N.eqb (code "/")) path else path)
  end.
End Paths.

(** [_approval_request_id] and [_consent_action_type]. *)
Definition approval_request_id (path : pystr) : option pystr :=
  match split_on (code "/") path with
  | [_; a; v; w; id; verb] =>
      if bool_decide (a = u "api") && bool_decide (v = u "v1") && bool_decide (w = u "approvals")
         && bool_decide (verb ∈ [u "approve"; u "deny"]) && negb (bool_decide (id = []))
      then Some id else None
  | _ => None
  end.

Definition consent_action_type (path : pystr) : option pystr :=
  match split_on (code "/") path with
  | [_; a; v; w; t] =>
      if bool_decide (a = u "api") && bool_decide (v = u "v1") && bool_decide (w = u "consent")
         && negb (bool_decide (t = [])) then Some t else None
  | [_; a; v; w; t; verb] =>
      if bool_decide (a = u "api") && bool_decide (v = u "v1") && bool_decide (w = u "consent")
         && negb (bool_decide (t = [])) && bool_decide (verb = u "revoke") then Some t else None
  | _ => None
  end.

(** ** Names are not addresses *)

Lemma elem_of_split_on sep s x c : x ∈ split_on sep s → c ∈ x → c ∈ s.
Proof.
  revert x. induction s as [|d s IH]; intros x; cbn [split_on].
  - intros ->%list_elem_of_singleton. by intros ?%not_elem_of_nil.
  - destruct (d =? sep) eqn:E.
    + intros [->|Hx]%elem_of_cons Hc; [by apply not_elem_of_nil in Hc|]. right. by apply (IH x).
    + destruct (split_on sep s) as [|r rs] eqn:Es.
      * intros ->%list_elem_of_singleton Hc. apply list_elem_of_singleton in Hc as ->. left.
      * intros [->|Hx]%elem_of_cons Hc.
        -- apply elem_of_cons in Hc as [->|Hc]; [left|right]. apply (IH r); [left|done].
        -- right. apply (IH x); [by right|done].
Qed.

Lemma split_on_chars sep s c : c ∈ s → c = sep ∨ ∃ x, x ∈ split_on sep s ∧ c ∈ x.
Proof.
  induction s as [|d s IH]; [by intros ?%not_elem_of_nil|]. cbn [split_on].
  destruct (d =? sep) eqn:E.
  - apply N.eqb_eq in E as ->. intros [->|Hc]%elem_of_cons; [by left|].
    destruct (IH Hc) as [->|(x & Hx & Hcx)]; [by left|right]. exists x. split; [by right|done].
  - destruct (split_on sep s) as [|r rs] eqn:Es; intros [->|Hc]%elem_of_cons.
    + right. eexists. split; [left|left].
    + destruct (IH Hc) as [->|(x & Hx & _)]; [by left|by apply not_elem_of_nil in Hx].
    + right. eexists. split; [left|left].
    + destruct (IH Hc) as [->|(x & Hx & Hcx)]; [by left|right].
      apply elem_of_cons in Hx as [->|Hx].
      * exists (d :: r). split; [left|by right].
      * exists x. split; [by right|done].
Qed.

Lemma split_on_one sep s : sep ∉ s → split_on sep s = [s].
Proof.
  induction s as [|c s IH]; [done|]. intros [Hc Hs]%not_elem_of_cons. cbn [split_on].
  rewrite (proj2 (N.eqb_neq c sep)) by congruence. by rewrite IH.
Qed.

Lemma octet_digits s n c : parse_octet s = Some n → c ∈ s → is_digit c = true.
Proof.
  unfold parse_octet, ascii_digits. destruct (_ && _ && _ && _) eqn:E; [|done]. intros _ Hc.
  apply andb_true_iff in E as [[[[_ E]%andb_true_iff _]%andb_true_iff _]%andb_true_iff _].
  rewrite forallb_forall in E. apply E. by apply list_elem_of_In.
Qed.

Lemma ipv4_chars s r c : parse_ipv4 s = Some r → c ∈ s → is_digit c = true ∨ c = code ".".
Proof.
  unfold parse_ipv4. intros E Hc. destruct (split_on_chars (code ".") s c Hc) as [->|(x & Hx & Hcx)]; [by right|left].
  destruct (split_on (code ".") s) as [|p1 [|p2 [|p3 [|p4 [|? ?]]]]]; try done.
  destruct (parse_octet p1) eqn:E1; [|done]. destruct (parse_octet p2) eqn:E2; [|done].
  destruct (parse_octet p3) eqn:E3; [|done]. destruct (parse_octet p4) eqn:E4; [|done].
  assert (Hall : Forall (λ x, ∃ n, parse_octet x = Some n) [p1; p2; p3; p4]) by (repeat constructor; eauto).
  rewrite Forall_forall in Hall. destruct (Hall x Hx) as [m Em]. exact (octet_digits _ _ _ Em Hcx).
Qed.

(** A host name, whatever it begins with, is not taken for the loopback
    host: a text with a letter and without a colon that is not "localhost" is
    not, once brackets, blanks and dots around it are gone. *)
Theorem names_not_loopback (host : pystr) (c : N) :
  c ∈ host_candidate host → is_alpha c = true → code ":" ∉ host_candidate host →
  host_candidate host ≠ u "localhost" →
  is_loopback_host host = false.
Proof.
  unfold is_loopback_host. generalize (host_candidate host). intros s Hc Ha Hcolon Hl.
  assert (Hn : s ∉ [u "localhost"; u "::1"]).
  { intros E. apply elem_of_cons in E as [->|E]; [done|]. apply list_elem_of_singleton in E as ->. apply Hcolon. by left. }
  rewrite (bool_decide_eq_false_2 _ Hn). cbn [orb]. unfold ip_is_loopback. destruct (parse_ipv4 s) as [r|] eqn:E4.
  - exfalso. destruct (ipv4_chars s r c E4 Hc) as [Hd|Hd]; [|by subst c].
    revert Ha Hd. unfold is_alpha, is_upper, is_lower, is_digit. lia.
  - assert (E6 : parse_ipv6 s = None); [|by rewrite E6].
    unfold parse_ipv6. destruct (existsb _ s); [done|].
    assert (Hspan : ∀ p l, code ":" ∉ l → code ":" ∉ (span p l).1).
    { intros p l. induction l as [|x l IH]; [done|]. intros [? ?]%not_elem_of_cons. cbn [span].
      destruct (p x); [|apply not_elem_of_nil]. destruct (span p l). cbn in *.
      apply not_elem_of_cons. split; [done|by apply IH]. }
    specialize (Hspan (λ c, negb (c =? code "%")) s Hcolon).
    destruct (span _ s) as [addr scope]. cbn [fst] in Hspan. cbn zeta.
    rewrite (split_on_one _ addr Hspan). cbn [length Nat.ltb Nat.leb]. by rewrite orb_true_r.
Qed.

Lemma names_not_loopback_witness : is_loopback_host (u "127.0.0.1.nip.io") = false.
Proof.
  apply (names_not_loopback (u "127.0.0.1.nip.io") (code "n")).
  - apply list_elem_of_In. vm_compute. tauto.
  - reflexivity.
  - intros H%list_elem_of_In. vm_compute in H. repeat (destruct H as [H|H]; [discriminate H|]). exact H.
  - intros E. vm_compute in E. discriminate E.
Defined.
