(* ===== verification/Server.v ===== *)
(** * The HTTP server ([src/shugocore_server.py])

    What the server does with a request: admission (rate limit, bearer
    token), the routes and their handlers, the accounting of what was
    dispatched.  The operator's surfaces act on the consent registry and the
    approval broker of [Policy] and on the fleet of [Mobile]; what else the
    engine and the backend answer is the class [ServerWorld].

    A request carries its header fields and what reading so many bytes of its
    body gives, decoded and parsed.  Each reading of a clock is a field of
    [times]. *)

From Stdlib Require Import ZArith NArith Lia.
From Stdlib Require Import Floats.SpecFloat.
From S2P Require Import Prelude PyFloat PyStr PyVal Security Policy StateMachine Mobile Regex Addresses.

Local Open Scope Z_scope.

Definition MAX_JSON_BODY : Z := 1048576.
Definition MAX_STRING_FIELD : nat := 10000.
Definition ACTIVITY_LATENCY_RING : nat := 100.
Definition ACTIVITY_RPM_WINDOW : f64 := f_of_Z 60.
Definition ACTIVITY_RPM_CAP : nat := 2000.
Definition APPROVALS_MAX_PENDING : nat := 200.
Definition FLEET_MAX_NODES : nat := 200.
Definition SENSOR_STREAM_RING : nat := 100.
Definition CONSENT_MAX_GRANTS : nat := 64.
Definition CONSENT_MAX_TTL_SECONDS : f64 := f_of_Z 86400.

(** ** State and environment *)

(** What an engine shows the server: its consent registry, its broker and its
    fleet where it has them, and the rest. *)
Record hosted (G R : Type) := Hosted {
  h_consents : option consents;
  h_broker : option broker;
  h_fleet : option (fleet G);
  h_rest : R
}.
Arguments Hosted {G R} _ _ _ _.
Arguments h_consents {G R} _.
Arguments h_broker {G R} _.
Arguments h_fleet {G R} _.
Arguments h_rest {G R} _.

(** The outcome counters of an endpoint. *)
Record counters := Counters { n_requests : Z; n_ok : Z; n_client : Z; n_server : Z }.

Record server (G R : Type) := Server {
  auth_token : option pystr;
  limiter : option RateLimiter;
  sv_model : pystr;
  sv_version : pystr;
  started : f64;
  endpoints : list (pystr * counters);
  latency : list (pystr * list f64);
  rpm : list (f64 * pystr);
  sensor_ring : list pyval;
  engine : hosted G R
}.
Arguments Server {G R} _ _ _ _ _ _ _ _ _ _.
Arguments auth_token {G R} _.
Arguments limiter {G R} _.
Arguments sv_model {G R} _.
Arguments sv_version {G R} _.
Arguments started {G R} _.
Arguments endpoints {G R} _.
Arguments latency {G R} _.
Arguments rpm {G R} _.
Arguments sensor_ring {G R} _.
Arguments engine {G R} _.

(** What the engine and the backend answer. *)
Class ServerWorld (G R : Type) := {
  w_execute_task : pydict → py (hosted G R) pydict;
  w_status : hosted G R → option (res pyval);
  w_telemetry : hosted G R → pyval;
  w_fallbacks : hosted G R → option (res pydict);
  w_governor : hosted G R → option pystr;
  w_memory_available : bool;
  w_vector_stub : hosted G R → res pyval;
  w_security : hosted G R → option (pyval * pyval);
  w_request : pystr → pydict;
  w_approval_ttl : pyval;
  w_generate : pystr → pystr → res pyval;
  w_models : res (list pyval);
  w_backend : pystr
}.

(** The readings of the clocks during one request. *)
Record times := Times {
  t_limit : f64;
  t_bucket : f64 * f64 * f64;
  t_start : f64;
  t_mono : f64;
  t_end : f64;
  t_record : f64;
  t_wall : f64;
  t_wall2 : f64;
  t_nodes : pystr → f64
}.

Record request := Request {
  rq_method : pystr;
  rq_path : pystr;
  rq_client : pystr;
  rq_authorization : pystr;
  rq_token : option pystr;
  rq_length : option pystr;
  rq_body : Z → res pyval
}.

(** What is sent. *)
Inductive response := Json (status : Z) (payload : pydict) | Ndjson (chunks : list pyval).

Definition error (why : pystr) : pydict := [(u "error", VStr why)].

Section Server.
Context `{PyRepr} `{PyFloatOfStr} {G R : Type} `{ServerWorld G R}.
Implicit Types s : server G R.

Definition with_limiter (l : option RateLimiter) s : server G R :=
  Server (auth_token s) l (sv_model s) (sv_version s) (started s) (endpoints s) (latency s) (rpm s)
    (sensor_ring s) (engine s).
Definition with_activity (e : list (pystr * counters)) (l : list (pystr * list f64)) (r : list (f64 * pystr)) s
    : server G R :=
  Server (auth_token s) (limiter s) (sv_model s) (sv_version s) (started s) e l r (sensor_ring s) (engine s).
Definition with_ring (r : list pyval) s : server G R :=
  Server (auth_token s) (limiter s) (sv_model s) (sv_version s) (started s) (endpoints s) (latency s) (rpm s)
    r (engine s).
Definition with_engine (e : hosted G R) s : server G R :=
  Server (auth_token s) (limiter s) (sv_model s) (sv_version s) (started s) (endpoints s) (latency s) (rpm s)
    (sensor_ring s) e.

(** ** Bounding what goes over the wire *)

(** [_safe_text]. *)
Definition safe_text (v : pyval) (cap : nat) : pystr :=
  take cap (match v with VNone => [] | v => py_str v end).

(** [_safe_value]; the first argument is the number of levels left. *)
Fixpoint safe_value (levels : nat) (v : pyval) : pyval :=
  match levels with
  | O => VStr (u "[truncated]")
  | S levels =>
      match v with
      | VDict d => VDict (foldl (λ out kv, dset (take 64 kv.1) (safe_value levels kv.2) out) [] (take 50 d))
      | VList l => VList (safe_value levels <$> take 50 l)
      | v => VStr (safe_text v 2000)
      end
  end.

(** [_safe_payload]. *)
Definition safe_payload (result : pydict) : pydict :=
  let field safe key :=
    match dict_get key VNone result with
    | VNone => safe
    | v => dset key (redact (safe_value 5 v)) safe
    end in
  foldl field [(u "status", VStr (safe_text (dict_get (u "status") VNone result) 32))]
    [u "reason"; u "message"; u "result"; u "action_type"; u "summary"].

(** A dictionary of bounded texts. *)
Definition safe_texts (nk nv : nat) (d : pydict) : pyval :=
  VDict (foldl (λ out kv, dset (take nk kv.1) (VStr (safe_text kv.2 nv)) out) [] d).

(** ** Admission *)

(** [_extract_token]. *)
Definition extract_token (rq : request) : option pystr :=
  if starts_with (u "bearer ") (lower (rq_authorization rq))
  then Some (strip (drop 7 (rq_authorization rq)))
  else match rq_token rq with
       | None | Some [] => None
       | Some alt => Some (strip alt)
       end.

Definition in_ascii (t : pystr) : bool := forallb (λ c, (c <? 128)%N) t.

(** [authorize]: [hmac.compare_digest] raises on texts beyond ASCII. *)
Definition authorize (token : option pystr) s : res bool :=
  match auth_token s with
  | None => Ok true
  | Some a =>
      match token with
      | None | Some [] => Ok false
      | Some t =>
          if in_ascii t && in_ascii a then Ok (bool_decide (t = a))
          else Raise (TypeError (u "comparing strings with non-ASCII characters is not supported"))
      end
  end.

(** [allow_request]: without a wait one pass over the bucket decides. *)
Definition allow_request (t : times) (client : pystr) s : server G R * bool :=
  match limiter s with
  | None => (s, true)
  | Some l =>
      let '(l, r, _) := acquire client f0 (t_limit t) [t_bucket t] l in
      (with_limiter (Some l) s, default false r)
  end.

(** [_read_json_body]. *)
Definition read_json_body (rq : request) : pydict :=
  match py_int_of_str (match rq_length rq with None | Some [] => u "0" | Some l => l end) with
  | Raise _ => []
  | Ok length =>
      if (length <=? 0) || (MAX_JSON_BODY <? length) then []
      else match rq_body rq length with Ok (VDict d) => d | _ => [] end
  end.

(** ** Accounting *)

(** [route_name]. *)
Definition GET_ROUTES : list (pystr * pystr) :=
  [(u "/health", u "health"); (u "/api/tags", u "tags"); (u "/api/v1/status", u "status");
   (u "/api/v1/activity", u "activity"); (u "/api/v1/uptime", u "uptime");
   (u "/api/v1/approvals", u "approvals"); (u "/api/v1/consent", u "consent"); (u "/api/v1/fleet", u "fleet");
   (u "/api/v1/sensors", u "sensors"); (u "/api/v1/security", u "security")].
Definition POST_ROUTES : list (pystr * pystr) :=
  [(u "/api/generate", u "generate"); (u "/api/chat", u "chat"); (u "/api/v1/task", u "task");
   (u "/api/v1/fleet", u "fleet_pair")].

Definition route_name (method path : pystr) : option pystr :=
  if bool_decide (method = u "GET") then dget path GET_ROUTES
  else if bool_decide (method = u "POST") then
    match dget path POST_ROUTES with
    | Some r => Some r
    | None =>
        if approval_request_id path then Some (if ends_with (u "/approve") path then u "approve" else u "deny")
        else if consent_action_type path
        then Some (if ends_with (u "/revoke") path then u "consent_revoke" else u "consent_grant")
        else None
    end
  else None.

(** [record]. *)
Definition count (status : Z) (c : counters) : counters :=
  if status <? 400 then Counters (n_requests c + 1) (n_ok c + 1) (n_client c) (n_server c)
  else if status <? 500 then Counters (n_requests c + 1) (n_ok c) (n_client c + 1) (n_server c)
  else Counters (n_requests c + 1) (n_ok c) (n_client c) (n_server c + 1).

Definition record (now : f64) (route : option pystr) (status : Z) (ms : option f64) s : server G R :=
  let name := default (u "other") route in
  with_activity
    (dset name (count status (default (Counters 0 0 0 0) (dget name (endpoints s)))) (endpoints s))
    (match ms with
     | None => latency s
     | Some x => dset name (dq_append ACTIVITY_LATENCY_RING x (default [] (dget name (latency s)))) (latency s)
     end)
    (dq_append ACTIVITY_RPM_CAP (now, name) (rpm s)) s.

(** [_rpm_counts]. *)
Definition rpm_counts (now : f64) s : list (pystr * f64) :=
  let cutoff := fsub now ACTIVITY_RPM_WINDOW in
  let counts := foldl (λ out e, dset e.2 (default 0 (dget e.2 out) + 1) out) []
                  (List.filter (λ e, fleb cutoff e.1) (rpm s)) in
  (λ e, (e.1, f_round 2 (fdiv (fmul (f_of_Z e.2) (f_of_Z 60)) ACTIVITY_RPM_WINDOW))) <$> counts.

Definition total (f : counters → Z) s : Z := foldr (λ e n, f e.2 + n) 0 (endpoints s).
Definition fsum (l : list f64) : f64 := foldl fadd f0 l.

(** [activity_summary]. *)
Definition activity_summary (now : f64) s : pydict :=
  [(u "requests_total", VInt (total n_requests s)); (u "ok_total", VInt (total n_ok s));
   (u "client_error_total", VInt (total n_client s)); (u "server_error_total", VInt (total n_server s));
   (u "requests_per_minute", VFloat (f_round 2 (fsum (rpm_counts now s).*2)))].

(** ** The read-only surfaces *)

Definition AGENT_KEYS : list pystr :=
  u <$> ["loop"; "loop_stages"; "mesh_activity"; "uptime_seconds"; "mesh_role"; "mesh_primary"]%string.

(** The entries of the listed keys, in the list's order. *)
Definition picked (keys : list pystr) (d : pydict) : pydict :=
  keys ≫= λ k, match dget k d with Some v => [(k, v)] | None => [] end.

(** [_agent_activity]. *)
Definition agent_activity (e : hosted G R) : option pydict :=
  match w_status e with
  | Some (Ok (VDict snap)) => match picked AGENT_KEYS snap with [] => None | a => Some a end
  | _ => None
  end.

(** The end of a ring. *)
Definition last_items {A} (n : nat) (l : list A) : list A := drop (length l - n) l.

Definition latency_entry (ring : list f64) : pydict :=
  match ring with
  | [] => []
  | x :: rest =>
      let recent := last_items 25 ring in
      [(u "latency_ms", VDict
         [(u "avg_recent", VFloat (f_round 1 (fdiv (fsum recent) (f_of_Z (Z.of_nat (length recent))))));
          (u "max", VFloat (f_round 1 (foldl fmax x rest)));
          (u "last", VFloat (f_round 1 (default x (last ring))))])]
  end.

Definition uptime (now : f64) s : f64 := f_round 3 (fsub now (started s)).

(** [handle_activity]. *)
Definition handle_activity (now : f64) s : Z * pydict :=
  let counts := rpm_counts now s in
  let entry e :=
    (e.1, VDict ([(u "requests", VInt (n_requests e.2)); (u "ok", VInt (n_ok e.2));
                  (u "client_error", VInt (n_client e.2)); (u "server_error", VInt (n_server e.2));
                  (u "requests_per_minute", VFloat (default f0 (dget e.1 counts)))]
                 ++ latency_entry (default [] (dget e.1 (latency s))))) in
  (200, [(u "version", VStr (sv_version s)); (u "model", VStr (sv_model s)); (u "backend", VStr w_backend);
         (u "uptime_seconds", VFloat (uptime now s)); (u "requests", VDict (entry <$> endpoints s))]
        ++ match agent_activity (engine s) with Some a => [(u "agent", VDict a)] | None => [] end).

(** [handle_security]. *)
Definition handle_security s : Z * pydict :=
  (200, (u "version", VStr (sv_version s)) ::
        match w_security (engine s) with
        | None => [(u "security_inventory", VNone); (u "security_baseline", VNone);
                   (u "security_module", VStr (u "unavailable"))]
        | Some (inventory, baseline) =>
            [(u "security_inventory", inventory); (u "security_baseline", baseline)]
        end).

(** [handle_uptime]; [started_at] is the formatted start. *)
Definition handle_uptime (now : f64) (started_at : pystr) s : Z * pydict :=
  (200, [(u "uptime_seconds", VFloat (uptime now s)); (u "started_at", VStr started_at)]).

(** [handle_tags] and [handle_health]. *)
Definition handle_tags s : Z * pydict :=
  let names := match w_models with Ok ((_ :: _) as l) => l | _ => [VStr (sv_model s)] end in
  (200, [(u "models", VList ((λ n, VDict [(u "name", n); (u "size", VInt 0)]) <$> names))]).

Definition handle_health (now : f64) s : res (Z * pydict) :=
  n ← py_int_of_f (fsub now (started s));
  Ok (200, [(u "status", VStr (u "ok")); (u "model", VStr (sv_model s)); (u "version", VStr (sv_version s));
            (u "uptime_s", VInt n)]).

(** [handle_status]. *)
Definition handle_status (now : f64) s : Z * pydict :=
  let body :=
    fallbacks ← match w_fallbacks (engine s) with
                | Some r => r
                | None => Ok [(u "mode", VStr (u "unknown"))]
                end;
    stub ← w_vector_stub (engine s);
    n ← py_int_of_f (fsub now (started s));
    Ok [(u "version", VStr (sv_version s)); (u "model", VStr (sv_model s)); (u "backend", VStr w_backend);
        (u "governor_state", VStr (default (u "unknown") (w_governor (engine s))));
        (u "fallbacks", VDict fallbacks); (u "memory_unavailable", VBool (negb w_memory_available));
        (u "vector_db_stub", VBool (truthy stub)); (u "uptime_s", VInt n);
        (u "uptime_seconds", VFloat (uptime now s)); (u "activity", VDict (activity_summary now s))] in
  match body with
  | Ok d => (200, d)
  | Raise e => (500, error (u "status failed: " ++ exn_name e))
  end.

(** [handle_sensors]: each poll adds one sample to the ring. *)
Definition sample_of (wall : f64) (status telemetry : pydict) : pydict :=
  [(u "ts", VFloat (f_round 3 wall)); (u "telemetry", safe_texts 64 200 telemetry)]
  ++ picked (u <$> ["memory_usage_mb"; "mesh_peer_count"; "tick_count"; "telemetry_received"]%string) status
  ++ match dget (u "mesh_peers") status with
     | Some (VList l) => [(u "mesh_peers", VList (take 20 l))]
     | _ => []
     end
  ++ match dget (u "capabilities") status with
     | Some (VDict d) => [(u "capabilities", safe_texts 64 120 d)]
     | _ => []
     end.

Definition handle_sensors (wall : f64) : py (server G R) (Z * pydict) :=
  s ← get;
  match match w_status (engine s) with None => Ok (VDict []) | Some r => r end with
  | Raise e => mret (500, error (u "sensor status failed: " ++ exn_name e))
  | Ok status =>
      let telemetry := match w_telemetry (engine s) with VDict d => d | _ => [] end in
      if negb (truthy status) && bool_decide (telemetry = [])
      then mret (200, [(u "stream", VList []); (u "enabled", VBool false)])
      else
        status ← of_res (as_dict status);
        let ring := dq_append SENSOR_STREAM_RING (VDict (sample_of wall status telemetry)) (sensor_ring s) in
        modify (with_ring ring) ;;
        mret (200, [(u "stream", VList ring); (u "enabled", VBool true);
                    (u "count", VInt (Z.of_nat (length ring))); (u "capacity", VInt (Z.of_nat SENSOR_STREAM_RING))])
  end.

(** ** The model's surfaces *)

(** [_messages_to_prompt]. *)
Definition ROLES : list (pystr * pystr) :=
  [(u "system", u "System"); (u "user", u "User"); (u "assistant", u "Assistant")].
Definition prompt_line (msg : pyval) : list pystr :=
  match msg with
  | VDict m =>
      match dget (safe_text (dict_get (u "role") VNone m) 32) ROLES with
      | Some title => [title ++ u ": " ++ safe_text (dict_get (u "content") VNone m) MAX_STRING_FIELD]
      | None => []
      end
  | _ => []
  end.
Definition messages_to_prompt (messages : list pyval) : pystr :=
  match messages ≫= prompt_line with
  | [] => []
  | parts => join [10%N] parts ++ 10%N :: u "Assistant:"
  end.

Definition model_of (body : pydict) s : pystr :=
  safe_text (py_or (dict_get (u "model") VNone body) (VStr (sv_model s))) 128.

(** [handle_generate]. *)
Definition handle_generate (now : f64) (body : pydict) s : res (Z * pydict) :=
  let model := model_of body s in
  let prompt := safe_text (py_or (dict_get (u "prompt") VNone body) (VStr [])) MAX_STRING_FIELD in
  match w_generate model prompt with
  | Raise e => Ok (502, error (u "backend error: " ++ exn_name e))
  | Ok output =>
      if truthy (dict_get (u "stream") (VBool false) body) then
        n ← py_int_of_f (fmul (fsub now (started s)) (f_of_Z 1000000000));
        Ok (200, [(u "__ndjson__", VList
          ((if truthy output then [VDict [(u "response", VStr (safe_text output 4000)); (u "done", VBool false)]] else [])
           ++ [VDict [(u "response", VStr []); (u "done", VBool true); (u "model", VStr model);
                      (u "eval_count", VInt 0); (u "total_duration", VInt n)]]))])
      else Ok (200, [(u "model", VStr model); (u "response", VStr (safe_text output 4000)); (u "done", VBool true)])
  end.

(** [handle_chat]. *)
Definition handle_chat (body : pydict) s : Z * pydict :=
  let model := model_of body s in
  match dict_get (u "messages") VNone body with
  | VList ((_ :: _) as messages) =>
      match w_generate model (messages_to_prompt messages) with
      | Raise e => (502, error (u "backend error: " ++ exn_name e))
      | Ok output =>
          (200, [(u "message", VDict [(u "role", VStr (u "assistant")); (u "content", VStr (safe_text output 4000))]);
                 (u "model", VStr model); (u "done", VBool true)])
      end
  | _ => (400, error (u "messages is required (non-empty array)"))
  end.

(** ** The operator's surfaces *)

Definition with_consents (c : consents) s : server G R :=
  let e := engine s in with_engine (Hosted (Some c) (h_broker e) (h_fleet e) (h_rest e)) s.
Definition with_broker (b : broker) s : server G R :=
  let e := engine s in with_engine (Hosted (h_consents e) (Some b) (h_fleet e) (h_rest e)) s.
Definition with_fleet (f : fleet G) s : server G R :=
  let e := engine s in with_engine (Hosted (h_consents e) (h_broker e) (Some f) (h_rest e)) s.

(** [handle_approvals]: an entry whose time is not a number is left out. *)
Definition approval_entry (rid : pystr) : res (list pyval) :=
  let rq := w_request rid in
  let description := match dict_get (u "description") (VDict []) rq with
                     | VDict d => safe_texts 64 500 d
                     | v => VDict [(u "summary", VStr (safe_text v 500))]
                     end in
  match py_float (dict_get (u "requested_at") (VFloat f0) rq) with
  | Raise (TypeError _) | Raise (ValueError _) => Ok []
  | Raise e => Raise e
  | Ok at_ => Ok [VDict [(u "request_id", VStr (safe_text (dict_get (u "request_id") VNone rq) 64));
                         (u "description", description); (u "requested_at", VFloat (f_round 3 at_))]]
  end.

Definition handle_approvals s : res (Z * pydict) :=
  match h_broker (engine s) with
  | None => Ok (200, [(u "approvals", VList []); (u "count", VInt 0); (u "enabled", VBool false)])
  | Some b =>
      let waiting := Policy.list_pending b in
      l ← res_map approval_entry (take APPROVALS_MAX_PENDING waiting);
      let out := concat l in
      Ok (200, [(u "approvals", VList out); (u "count", VInt (Z.of_nat (length out)));
                (u "pending_total", VInt (Z.of_nat (length waiting))); (u "enabled", VBool true);
                (u "ttl_seconds", w_approval_ttl)])
  end.

(** [resolve_approval]. *)
Definition resolve_approval (request_id : pystr) (approved : bool) : py (server G R) (Z * pydict) :=
  s ← get;
  match h_broker (engine s) with
  | None => mret (503, error (u "no approval broker on this engine"))
  | Some b =>
      let rid := take 64 request_id in
      if bool_decide (rid = []) then mret (400, error (u "request_id required"))
      else
        let '(b, ok) := set_verdict rid approved b in
        modify (with_broker b) ;;
        mret (200, [(u "request_id", VStr rid); (u "decision", VStr (if approved then u "approve" else u "deny"));
                    (u "resolved", VBool ok)])
  end.

(** [_grantable_action_types]. *)
Definition grantable_action_types : list pystr :=
  SIDE_EFFECTING_ACTION_TYPES ++ ROBOTICS_ACTION_TYPES ++ MOBILE_ACTION_TYPES ++ NETWORK_ACTION_TYPES
  ++ FLEET_ACTION_TYPES.

(** [handle_consent]. *)
Definition grant_entry (g : consent_grant) : pyval :=
  VDict [(u "granted_by", VStr (take 64 (g_granted_by g))); (u "scope", VStr (take 64 (g_scope g)));
         (u "note", VStr (take 300 (g_note g))); (u "granted_at", VFloat (f_round 3 (g_granted_at g)));
         (u "expires_at", match g_expires_at g with
                          | Some t => if f_truthy t then VFloat (f_round 3 t) else VNone
                          | None => VNone
                          end)].

Definition handle_consent s : Z * pydict :=
  match h_consents (engine s) with
  | None => (200, [(u "grants", VDict []); (u "actions", VList []); (u "count", VInt 0); (u "enabled", VBool false)])
  | Some c =>
      let shown := take CONSENT_MAX_GRANTS
                     (sort_by (λ a b : pystr * list consent_grant, str_leb a.1 b.1) c) in
      let grants := foldl (λ out e, match e.2 with
                                    | [] => out
                                    | l => dset (take 64 e.1) (VList (grant_entry <$> l)) out
                                    end) [] shown in
      let count := foldl (λ n e, n + Z.of_nat (length e.2)) 0 shown in
      (200, [(u "grants", VDict grants); (u "actions", VList (VStr <$> sort_by str_leb grants.*1));
             (u "count", VInt count); (u "enabled", VBool true)])
  end.

(** The time to live of a grant, or the complaint. *)
Definition grant_ttl (body : pydict) : res (pystr + option f64) :=
  match dict_get (u "ttl_seconds") VNone body with
  | VNone | VStr [] => Ok (inr None)
  | v =>
      match py_float v with
      | Raise (TypeError _) | Raise (ValueError _) => Ok (inl (u "ttl_seconds must be a number"))
      | Raise e => Raise e
      | Ok ttl => Ok (if fleb ttl f0 then inl (u "ttl_seconds must be positive")
                      else inr (Some (fmin ttl CONSENT_MAX_TTL_SECONDS)))
      end
  end.

Definition or_text (a b : pystr) : pystr := match a with [] => b | _ => a end.

(** [grant_consent]. *)
Definition grant_consent (t : times) (action_type : pystr) (body : pydict) : py (server G R) (Z * pydict) :=
  s ← get;
  match h_consents (engine s) with
  | None => mret (503, error (u "no consent registry on this engine"))
  | Some c =>
      let action := take 64 action_type in
      if bool_decide (action = []) then mret (400, error (u "action_type required"))
      else if negb (bool_decide (action ∈ grantable_action_types)) then
        mret (400, [(u "error", VStr (u "'" ++ action ++ u "' is not a consent-gated action"));
                    (u "grantable", VList (VStr <$> take CONSENT_MAX_GRANTS (sort_by str_leb grantable_action_types)))])
      else
        ttl ← of_res (grant_ttl body);
        match ttl with
        | inl why => mret (400, error why)
        | inr ttl =>
            let text (key : string) (cap : nat) := safe_text (dict_get (u key) VNone body) cap in
            let g := make_grant action (or_text (text "granted_by" 64%nat) (u "operator"))
                       (or_text (text "scope" 64%nat) (u "*")) (text "note" 300%nat) ttl (t_wall t) (t_wall2 t) in
            let c := grant g c in
            modify (with_consents c) ;;
            mret (200, [(u "status", VStr (u "granted")); (u "action_type", VStr action);
                        (u "granted_by", VStr (take 64 (g_granted_by g)));
                        (u "expires_at", match g_expires_at g with Some t => VFloat t | None => VNone end);
                        (u "ttl_seconds", match ttl with Some x => VFloat x | None => VNone end);
                        (u "active", VInt (Z.of_nat (length (default [] (dget action c)))))])
        end
  end.

(** [revoke_consent]. *)
Definition revoke_consent (action_type : pystr) : py (server G R) (Z * pydict) :=
  s ← get;
  match h_consents (engine s) with
  | None => mret (503, error (u "no consent registry on this engine"))
  | Some c =>
      let action := take 64 action_type in
      if bool_decide (action = []) then mret (400, error (u "action_type required"))
      else
        let '(c, removed) := revoke action c in
        modify (with_consents c) ;;
        mret (200, [(u "status", VStr (u "revoked")); (u "action_type", VStr action);
                    (u "removed", VInt (Z.of_nat removed))])
  end.

(** ** The fleet *)

(** [handle_fleet]. *)
Definition node_entry (v : node_view) : pyval :=
  VDict [(u "device_id", VStr (take 128 (nv_device v))); (u "alive", VBool (nv_alive v));
         (u "paired_by", VStr (take 64 (pa_by (nv_pairing v))));
         (u "expires_at", VFloat (pa_expires (nv_pairing v)));
         (u "manifest", safe_texts 64 200 (pa_manifest (nv_pairing v)))].

Definition handle_fleet (t : times) s : Z * pydict :=
  match h_fleet (engine s) with
  | None => (200, [(u "nodes", VList []); (u "count", VInt 0); (u "enabled", VBool false)])
  | Some f =>
      let nodes := node_entry <$> take FLEET_MAX_NODES (list_nodes (t_wall t) (t_nodes t) f) in
      (200, [(u "nodes", VList nodes); (u "count", VInt (Z.of_nat (length nodes))); (u "enabled", VBool true)])
  end.

Definition is_slash (c : N) : bool := (c =? 47)%N.

(** The device a pairing request names. *)
Definition pair_device (body : pydict) : option pystr :=
  let device := match dict_get (u "device_id") VNone body with
                | (VStr _ | VInt _ | VBool _) as v => strip_by is_slash (strip (py_str v))
                | _ => []
                end in
  if bool_decide (device = []) || (48 <? length device)%nat || existsb is_slash device
     || bool_decide (device ∈ [u "."; u ".."])
  then None else Some device.

Definition pair_action (body : pydict) : pystr :=
  match dict_get (u "action") VNone body with
  | VStr a => match strip a with [] => u "pair" | a => lower a end
  | _ => u "pair"
  end.

(** The allowlist of devices is a set. *)
Definition with_allowed (l : list pystr) (f : fleet G) : fleet G :=
  let c := f_caps f in
  Fleet (ttl_hours f) (heartbeat_timeout f) (paired f) (beats f)
    (Registry (api_hosts c) (api_call_methods c) (sql_statements c) (hardware_commands c) l
       (mobile_sensor_topics c) (local_model_ports c))
    (f_fallbacks f) (snapshots f) (refused_topics f) (recorded f) (f_audit f) (results f) (listening f) (f_kv f).
Definition allow_device (d : pystr) (f : fleet G) : fleet G :=
  let l := mobile_devices_allowlist (f_caps f) in
  with_allowed (if decide (d ∈ l) then l else l ++ [d]) f.
Definition disallow_device (d : pystr) (f : fleet G) : fleet G :=
  with_allowed (List.filter (λ x, negb (bool_decide (x = d))) (mobile_devices_allowlist (f_caps f))) f.

(** [handle_fleet_pair]. *)
Definition handle_fleet_pair (t : times) (body : pydict) : py (server G R) (Z * pydict) :=
  match pair_device body with
  | None => mret (400, error (u "device_id required (max 48 chars)"))
  | Some device =>
      let action := pair_action body in
      if negb (bool_decide (action ∈ [u "pair"; u "unpair"])) then
        mret (400, error (u "action must be 'pair' or 'unpair'"))
      else
        s ← get;
        match h_fleet (engine s) with
        | None => mret (503, error (u "mobile fleet not enabled"))
        | Some f =>
            if bool_decide (action = u "unpair") then
              let '(f, removed) := unpair device f in
              modify (with_fleet (disallow_device device f)) ;;
              mret (200, [(u "enabled", VBool true); (u "action", VStr (u "unpair")); (u "device_id", VStr device);
                          (u "removed", VBool removed)])
            else
              let manifest := match dict_get (u "manifest") VNone body with VDict d => d | _ => [] end in
              let by_ := match dict_get (u "paired_by") VNone body with
                         | VStr b => or_text (strip b) (u "operator")
                         | _ => u "operator"
                         end in
              let '(f, r) := Mobile.pair (t_wall t) (t_wall2 t) (t_mono t) device (VDict manifest) by_ f in
              match r with
              | Raise (ValueError why) => modify (with_fleet f) ;; mret (400, error why)
              | Raise e => modify (with_fleet f) ;; raise e
              | Ok (_, p) =>
                  let f := allow_device device f in
                  modify (with_fleet f) ;;
                  mret (200, [(u "enabled", VBool true); (u "action", VStr (u "pair")); (u "device_id", VStr device);
                              (u "paired", VBool true); (u "alive", VBool (alive (t_end t) device f));
                              (u "expires_at", VFloat (pa_expires p))])
              end
        end
  end.

(** ** Tasks and dispatch *)

Definition on_engine {A} (m : py (hosted G R) A) : py (server G R) A := λ s,
  let '(e, r) := m (engine s) in (with_engine e s, r).

(** [handle_task]. *)
Definition task_of (body : pydict) : pydict :=
  [(u "type", VStr (safe_text (dict_get (u "type") (VStr (u "user")) body) 64));
   (u "params", safe_value 5 (match dict_get (u "params") VNone body with VDict d => VDict d | _ => VDict [] end))]
  ++ match dict_get (u "content") VNone body with
     | VNone => []
     | v => [(u "content", VStr (safe_text v MAX_STRING_FIELD))]
     end.

Definition handle_task (body : pydict) : py (server G R) (Z * pydict) :=
  match body with
  | [] => mret (400, error (u "task body required"))
  | _ =>
      r ← attempt (on_engine (w_execute_task (task_of body)));
      mret match r with
           | Ok result => (200, safe_payload result)
           | Raise e => (500, error (u "task failed: " ++ exn_name e))
           end
  end.

Definition NOT_FOUND : Z * pydict := (404, error (u "not found")).

(** The handlers of [_dispatch], in the order of its tests. *)
Definition handle_route (t : times) (started_at : pystr) (rq : request) (path : pystr)
    : py (server G R) (Z * pydict) :=
  let get_ (p : string) := bool_decide (path = u p) && bool_decide (rq_method rq = u "GET") in
  let post (p : string) := bool_decide (path = u p) && bool_decide (rq_method rq = u "POST") in
  let is_post := bool_decide (rq_method rq = u "POST") in
  let pure (f : server G R → Z * pydict) : py (server G R) (Z * pydict) := s ← get; mret (f s) in
  let fallible (f : server G R → res (Z * pydict)) : py (server G R) (Z * pydict) := s ← get; of_res (f s) in
  let body := read_json_body rq in
  if get_ "/health" then fallible (handle_health (t_mono t))
  else if get_ "/api/tags" then pure handle_tags
  else if post "/api/generate" then fallible (handle_generate (t_mono t) body)
  else if post "/api/chat" then pure (handle_chat body)
  else if get_ "/api/v1/status" then pure (handle_status (t_mono t))
  else if get_ "/api/v1/activity" then pure (handle_activity (t_mono t))
  else if get_ "/api/v1/uptime" then pure (handle_uptime (t_mono t) started_at)
  else if get_ "/api/v1/approvals" then fallible handle_approvals
  else if get_ "/api/v1/fleet" then pure (handle_fleet t)
  else if post "/api/v1/fleet" then handle_fleet_pair t body
  else if get_ "/api/v1/sensors" then handle_sensors (t_wall t)
  else if get_ "/api/v1/security" then pure handle_security
  else if is_post && ends_with (u "/approve") path then
    match approval_request_id path with None => mret NOT_FOUND | Some rid => resolve_approval rid true end
  else if is_post && ends_with (u "/deny") path then
    match approval_request_id path with None => mret NOT_FOUND | Some rid => resolve_approval rid false end
  else if get_ "/api/v1/consent" then pure handle_consent
  else if is_post && ends_with (u "/revoke") path then
    match consent_action_type path with None => mret NOT_FOUND | Some a => revoke_consent a end
  else if is_post && starts_with (u "/api/v1/consent/") path then
    match consent_action_type path with None => mret NOT_FOUND | Some a => grant_consent t a body end
  else if post "/api/v1/task" then handle_task body
  else mret NOT_FOUND.

(** Rate limit and authorisation of a path other than [/health]: the refusal,
    if any. *)
Definition admit_request (t : times) (route : option pystr) (rq : request)
    : py (server G R) (option response) := λ s,
  let '(s, allowed) := allow_request t (rq_client rq) s in
  if negb allowed then (record (t_record t) route 429 None s, Ok (Some (Json 429 (error (u "rate limit exceeded")))))
  else match authorize (extract_token rq) s with
       | Raise e => (s, Raise e)
       | Ok true => (s, Ok None)
       | Ok false => (record (t_record t) route 401 None s, Ok (Some (Json 401 (error (u "unauthorized")))))
       end.

(** An admitted request: its handler, the count, the answer. *)
Definition serve (t : times) (started_at : pystr) (rq : request) (route : option pystr) (path : pystr)
    : py (server G R) response :=
  '(status, payload) ← handle_route t started_at rq path;
  modify (record (t_record t) route status
            (Some (fmul (fsub (t_end t) (t_start t)) (f_of_Z 1000)))) ;;
  mret match dict_get (u "__ndjson__") VNone payload with
       | VList chunks => if status =? 200 then Ndjson chunks else Json status payload
       | _ => Json status payload
       end.

(** [_dispatch]. *)
Definition dispatch (netloc_ok : pystr → bool) (t : times) (started_at : pystr) (rq : request)
    : py (server G R) response :=
  let path := normalize_request_path netloc_ok (rq_path rq) in
  let route := route_name (rq_method rq) path in
  refused ← (if bool_decide (path = u "/health") then mret None else admit_request t route rq);
  match refused with
  | Some r => mret r
  | None => serve t started_at rq route path
  end.

(** [main]: whether a bind is refused. *)
Definition refuses_bind (host : pystr) (token : option pystr) (allow_unauthenticated : bool) : bool :=
  negb (is_loopback_host host) && match token with None | Some [] => true | _ => false end
  && negb allow_unauthenticated.
End Server.

(** ** Who is let in *)

Section Access.
Context `{PyRepr} `{PyFloatOfStr} {G R : Type} `{ServerWorld G R}.
Implicit Types s : server G R.

Lemma allow_engine t client s :
  engine (allow_request t client s).1 = engine s ∧ auth_token (allow_request t client s).1 = auth_token s ∧
  endpoints (allow_request t client s).1 = endpoints s.
Proof.
  unfold allow_request. destruct (limiter s); [|done]. by destruct (acquire _ _ _ _ _) as [[? ?] ?].
Qed.

Lemma authorize_same s s' token : auth_token s = auth_token s' → authorize token s = authorize token s'.
Proof. unfold authorize. by intros ->. Qed.

(** Admission changes nothing of the engine and looks at no path. *)
Lemma admit_engine t route rq s : engine (admit_request t route rq s).1 = engine s.
Proof.
  unfold admit_request. pose proof (allow_engine t (rq_client rq) s) as (E & _).
  destruct (allow_request t (rq_client rq) s) as [s1 [|]]; cbn [fst negb] in *; [|done].
  by destruct (authorize _ s1) as [[|]|].
Qed.

Lemma admit_answer t route route' rq rq' s :
  rq_client rq = rq_client rq' → extract_token rq = extract_token rq' →
  (admit_request t route rq s).2 = (admit_request t route' rq' s).2.
Proof.
  intros Hc Ht. unfold admit_request. rewrite Hc, Ht.
  destruct (allow_request t (rq_client rq') s) as [s1 [|]]; [|done]. cbn [negb].
  by destruct (authorize _ s1) as [[|]|].
Qed.

Lemma admitted t route rq s s' : admit_request t route rq s = (s', Ok None) →
  authorize (extract_token rq) s = Ok true ∧ engine s' = engine s ∧ endpoints s' = endpoints s.
Proof.
  unfold admit_request. pose proof (allow_engine t (rq_client rq) s) as (E & Ea & Ee).
  destruct (allow_request t (rq_client rq) s) as [s1 [|]]; cbn [fst negb] in *; [|done].
  rewrite (authorize_same s1 s) by done.
  destruct (authorize _ s) as [[|]|]; [|done|done]. by intros [= <-].
Qed.

(** The liveness probe is the one route that needs no token: of its path only
    the reading handler is reached. *)
Lemma health_pure t sa rq s : engine (handle_route t sa rq (u "/health") s).1 = engine s.
Proof.
  unfold handle_route. cbn zeta.
  assert (E1 : ends_with (u "/approve") (u "/health") = false) by reflexivity.
  assert (E2 : ends_with (u "/deny") (u "/health") = false) by reflexivity.
  assert (E3 : ends_with (u "/revoke") (u "/health") = false) by reflexivity.
  assert (E4 : starts_with (u "/api/v1/consent/") (u "/health") = false) by reflexivity.
  rewrite E1, E2, E3, E4, !andb_false_r.
  destruct (decide (rq_method rq = u "GET")) as [E|E]; [by rewrite E|].
  rewrite !(bool_decide_eq_false_2 (rq_method rq = u "GET")) by done. by rewrite !andb_false_r.
Qed.

Lemma admit_refuses t route rq s a : auth_token s = Some a → a ≠ [] → extract_token rq ≠ Some a →
  ∀ s' o, admit_request t route rq s = (s', o) →
  match o with
  | Ok None => False
  | Ok (Some r) => r = Json 401 (error (u "unauthorized")) ∨ r = Json 429 (error (u "rate limit exceeded"))
  | Raise _ => True
  end.
Proof.
  intros Ha Hne Ht s' o E. unfold admit_request in E.
  pose proof (allow_engine t (rq_client rq) s) as (_ & Ea & _).
  destruct (allow_request t (rq_client rq) s) as [s1 [|]]; cbn [fst negb] in *; [|injection E as <- <-; by right].
  unfold authorize in E. rewrite Ea, Ha in E. destruct (extract_token rq) as [[|c w]|].
  - injection E as <- <-. by left.
  - destruct (_ && _); [|by injection E as <- <-].
    rewrite bool_decide_eq_false_2 in E by congruence. injection E as <- <-. by left.
  - injection E as <- <-. by left.
Qed.
End Access.

(** C17. Without the configured token a request does nothing to the engine,
    whatever its method, path and body; unless it asks for the liveness probe
    it is answered with 401 or 429, or its connection ends in an exception. *)
Theorem closed_without_token `{PyRepr} `{PyFloatOfStr} {G R : Type} `{ServerWorld G R}
    (netloc_ok : pystr → bool) (t : times) (started_at : pystr) (rq : request) (s : server G R) (a : pystr) :
  auth_token s = Some a → a ≠ [] → extract_token rq ≠ Some a →
  let '(s', r) := dispatch netloc_ok t started_at rq s in
  engine s' = engine s ∧
  (normalize_request_path netloc_ok (rq_path rq) ≠ u "/health" →
   match r with
   | Ok r => r = Json 401 (error (u "unauthorized")) ∨ r = Json 429 (error (u "rate limit exceeded"))
   | Raise _ => True
   end).
Proof.
  intros Ha Hne Ht. unfold dispatch. set (path := normalize_request_path netloc_ok (rq_path rq)). cbn zeta.
  set (route := route_name (rq_method rq) path).
  destruct (decide (path = u "/health")) as [E|E].
  - rewrite bool_decide_eq_true_2 by done. unfold serve, mbind, py_bind, mret, py_ret, modify.
    pose proof (health_pure t started_at rq s) as Hh. rewrite E.
    destruct (handle_route t started_at rq (u "/health") s) as [s1 [[status payload]|e]]; cbn [fst] in Hh;
      (split; [exact Hh|done]).
  - rewrite bool_decide_eq_false_2 by done. unfold mbind, py_bind.
    pose proof (admit_engine t route rq s) as He. pose proof (admit_refuses t route rq s a Ha Hne Ht) as Hr.
    destruct (admit_request t route rq s) as [s1 o]. specialize (Hr s1 o eq_refl).
    by destruct o as [[r|]|e]; [| destruct Hr |].
Qed.

(** A refusal says nothing of the routes: two unauthenticated requests
    of one client with the same credentials are answered alike, whatever
    their methods, paths and bodies. *)
Theorem no_route_oracle `{PyRepr} `{PyFloatOfStr} {G R : Type} `{ServerWorld G R}
    (netloc_ok : pystr → bool) (t : times) (started_at : pystr) (rq rq' : request) (s : server G R) (a : pystr) :
  auth_token s = Some a → a ≠ [] → extract_token rq ≠ Some a →
  rq_client rq = rq_client rq' → extract_token rq = extract_token rq' →
  normalize_request_path netloc_ok (rq_path rq) ≠ u "/health" →
  normalize_request_path netloc_ok (rq_path rq') ≠ u "/health" →
  (dispatch netloc_ok t started_at rq s).2 = (dispatch netloc_ok t started_at rq' s).2.
Proof.
  intros Ha Hne Ht Hc Hx Hp Hp'. unfold dispatch. cbn zeta. rewrite !bool_decide_eq_false_2 by done.
  unfold mbind, py_bind.
  set (route := route_name _ _). set (route' := route_name _ (normalize_request_path netloc_ok (rq_path rq'))).
  pose proof (admit_answer t route route' rq rq' s Hc Hx) as Ha2.
  pose proof (admit_refuses t route rq s a Ha Hne Ht) as Hr.
  destruct (admit_request t route rq s) as [s1 o], (admit_request t route' rq' s) as [s2 o'].
  cbn [snd] in Ha2. subst o'. specialize (Hr s1 o eq_refl). by destruct o as [[r|]|e]; [| destruct Hr |].
Qed.

(** ** Routes and their names *)

(** No handler is reached under a name the accounting does not know: a
    request without a route's name is answered with 404 and changes nothing. *)
Theorem unnamed_is_not_found `{PyRepr} `{PyFloatOfStr} {G R : Type} `{ServerWorld G R}
    (t : times) (started_at : pystr) (rq : request) (path : pystr) (s : server G R) :
  route_name (rq_method rq) path = None →
  handle_route t started_at rq path s = (s, Ok NOT_FOUND).
Proof.
  intros Hn. unfold handle_route. cbn zeta.
  assert (Hget : rq_method rq = u "GET" → dget path GET_ROUTES = None).
  { intros E. unfold route_name in Hn. by rewrite bool_decide_eq_true_2 in Hn. }
  assert (Hpost : rq_method rq = u "POST" →
            dget path POST_ROUTES = None ∧ approval_request_id path = None ∧ consent_action_type path = None).
  { intros E. unfold route_name in Hn. rewrite E in Hn.
    rewrite bool_decide_eq_false_2, bool_decide_eq_true_2 in Hn by done.
    destruct (dget path POST_ROUTES); [done|]. destruct (approval_request_id path); [done|].
    by destruct (consent_action_type path). }
  clear Hn. destruct (decide (rq_method rq = u "GET")) as [E|E].
  - specialize (Hget E). rewrite E. replace (bool_decide (u "GET" = u "POST")) with false by reflexivity.
    rewrite (bool_decide_eq_true_2 (u "GET" = u "GET")) by done. rewrite !andb_false_r, !andb_false_l, !andb_true_r.
    repeat match goal with |- context [bool_decide (path = u ?x)] =>
      let F := fresh in destruct (bool_decide (path = u x)) eqn:F;
      [apply bool_decide_eq_true in F; rewrite F in Hget; discriminate Hget|clear F] end. done.
  - rewrite !(bool_decide_eq_false_2 (rq_method rq = u "GET")) by done.
    destruct (decide (rq_method rq = u "POST")) as [E'|E'].
    + specialize (Hpost E') as (Hp & Ha & Hc). rewrite Ha, Hc.
      rewrite !(bool_decide_eq_true_2 (rq_method rq = u "POST")) by done. rewrite !andb_false_r, !andb_true_l, !andb_true_r.
      repeat match goal with |- context [bool_decide (path = u ?x)] =>
        let F := fresh in destruct (bool_decide (path = u x)) eqn:F;
        [apply bool_decide_eq_true in F; rewrite F in Hp; discriminate Hp|clear F] end.
      by repeat (case_match; [done|]).
    + rewrite !(bool_decide_eq_false_2 (rq_method rq = u "POST")) by done. by rewrite !andb_false_r, !andb_false_l.
Qed.

(** ** Accounting *)

Section Accounting.
Context {G R : Type}.
Implicit Types s : server G R.

(** The outcomes of an endpoint add up to its requests. *)
Definition balanced (c : counters) : Prop := n_requests c = n_ok c + n_client c + n_server c.

Lemma count_balanced status c : balanced c → balanced (count status c).
Proof. unfold balanced, count. destruct (_ <? _); cbn; [lia|]. destruct (_ <? _); cbn; lia. Qed.

Lemma sum_dset (f : counters → Z) (k : pystr) v l d0 : f d0 = 0 →
  foldr (λ e n, f e.2 + n) 0 (dset k v l) =
  foldr (λ e n, f e.2 + n) 0 l + f v - f (default d0 (dget k l)).
Proof.
  intros H0. induction l as [|[k' v'] l IH]; cbn [dset dget foldr]; [cbn; lia|].
  destruct (decide (k = k')); cbn; [lia|]. rewrite IH. lia.
Qed.

Lemma record_total now route status ms s :
  total n_requests (record now route status ms s) = total n_requests s + 1.
Proof.
  unfold total, record, with_activity. cbn [endpoints].
  rewrite (sum_dset n_requests _ _ _ (Counters 0 0 0 0)) by done.
  set (c := default _ (dget _ (endpoints s))).
  assert (E : n_requests (count status c) = n_requests c + 1)
    by (unfold count; by repeat case_match).
  rewrite E. lia.
Qed.

Lemma record_balanced now route status ms s :
  Forall (λ e, balanced e.2) (endpoints s) → Forall (λ e, balanced e.2) (endpoints (record now route status ms s)).
Proof.
  intros Hb. unfold record, with_activity. cbn [endpoints]. apply Forall_forall. rewrite Forall_forall in Hb.
  intros e [->|He]%dset_elem; [|by apply Hb]. cbn [snd].
  apply count_balanced. destruct (dget _ (endpoints s)) as [c|] eqn:E; [|done].
  apply dget_elem in E. exact (Hb _ E).
Qed.
End Accounting.

Section Recorded.
Context `{PyRepr} `{PyFloatOfStr} {G R : Type} `{ServerWorld G R}.
Implicit Types s : server G R.

(** A handler leaves the accounting alone. *)
Definition uncounted {A} (m : py (server G R) A) : Prop := ∀ s, endpoints (m s).1 = endpoints s.

Lemma uncounted_pure {A} (f : server G R → A) : uncounted (s ← get; mret (f s)).
Proof. done. Qed.
Lemma uncounted_fallible {A} (f : server G R → res A) : uncounted (s ← get; of_res (f s)).
Proof. done. Qed.
Lemma uncounted_ret {A} (x : A) : uncounted (mret x).
Proof. done. Qed.

Lemma uncounted_sensors wall : uncounted (handle_sensors wall).
Proof.
  intros s. unfold handle_sensors, mbind, py_bind, get. destruct (match w_status _ with None => _ | _ => _ end) as [v|e]; [|done].
  destruct (_ && _); [done|]. unfold of_res. by destruct (as_dict v).
Qed.

Lemma uncounted_approval rid b : uncounted (resolve_approval rid b).
Proof.
  intros s. unfold resolve_approval, mbind, py_bind, get. destruct (h_broker _); [|done]. case_match; [done|].
  by destruct (set_verdict _ _ _).
Qed.

Lemma uncounted_grant t a body : uncounted (grant_consent t a body).
Proof.
  intros s. unfold grant_consent, mbind, py_bind, get, of_res. destruct (h_consents _); [|done].
  case_match; [done|]. case_match; [done|]. by destruct (grant_ttl body) as [[?|?]|?].
Qed.

Lemma uncounted_revoke a : uncounted (revoke_consent a).
Proof.
  intros s. unfold revoke_consent, mbind, py_bind, get. destruct (h_consents _); [|done]. case_match; [done|].
  by destruct (revoke _ _).
Qed.

Lemma uncounted_pair t body : uncounted (handle_fleet_pair t body).
Proof.
  intros s. unfold handle_fleet_pair. destruct (pair_device body); [|done]. case_match; [done|].
  unfold mbind, py_bind, get. destruct (h_fleet _); [|done]. case_match; [by destruct (unpair _ _)|].
  destruct (Mobile.pair _ _ _ _ _ _ _) as [f1 [[d1 p1]|e]]; [done|]. by destruct e.
Qed.

Lemma uncounted_task body : uncounted (handle_task body).
Proof.
  intros s. unfold handle_task. destruct body; [done|]. unfold mbind, py_bind, attempt, on_engine.
  by destruct (w_execute_task _ _).
Qed.

Create HintDb uncounted.
#[local] Hint Resolve uncounted_pure uncounted_fallible uncounted_ret uncounted_sensors uncounted_approval
  uncounted_grant uncounted_revoke uncounted_pair uncounted_task : uncounted.

Lemma uncounted_route t sa rq path : uncounted (handle_route t sa rq path).
Proof. unfold handle_route. cbn zeta. repeat (case_match; auto with uncounted). Qed.

Lemma admit_recorded t route rq s s' r : admit_request t route rq s = (s', r) →
  total n_requests s' = total n_requests s + match r with Ok (Some _) => 1 | _ => 0 end.
Proof.
  unfold admit_request. pose proof (allow_engine t (rq_client rq) s) as (_ & _ & Ee).
  destruct (allow_request t (rq_client rq) s) as [s1 allowed]. cbn [fst] in Ee.
  assert (Et : total n_requests s1 = total n_requests s) by (unfold total; by rewrite Ee).
  destruct allowed; cbn [negb]; [|intros [= <- <-]; rewrite record_total; lia].
  destruct (authorize _ s1) as [[|]|]; intros [= <- <-]; rewrite ?record_total; lia.
Qed.
Lemma serve_recorded t sa rq route path s :
  let '(s', r) := serve t sa rq route path s in
  total n_requests s' = total n_requests s + (if is_ok r then 1 else 0).
Proof.
  unfold serve, mbind, py_bind. pose proof (uncounted_route t sa rq path s) as Hu.
  destruct (handle_route t sa rq path s) as [s2 [[status payload]|e]]; cbn [fst] in Hu.
  - unfold modify, mret, py_ret. cbn [is_ok]. rewrite record_total. unfold total in *. rewrite Hu. lia.
  - cbn [is_ok]. unfold total in *. rewrite Hu. lia.
Qed.
End Recorded.

(** A request that is answered is counted exactly once; one whose
    handling ends in an exception is not counted at all. *)
Theorem answered_is_counted_once `{PyRepr} `{PyFloatOfStr} {G R : Type} `{ServerWorld G R}
    (netloc_ok : pystr → bool) (t : times) (started_at : pystr) (rq : request) (s : server G R) :
  let '(s', r) := dispatch netloc_ok t started_at rq s in
  total n_requests s' = total n_requests s + (if is_ok r then 1 else 0).
Proof.
  unfold dispatch. set (path := normalize_request_path netloc_ok (rq_path rq)). cbn zeta.
  set (route := route_name (rq_method rq) path). unfold mbind at 1, py_bind at 1.
  case_bool_decide; [apply serve_recorded|].
  destruct (admit_request t route rq s) as [s1 r1] eqn:Ea. pose proof (admit_recorded t route rq s s1 r1 Ea) as Et.
  destruct r1 as [[r|]|e]; [exact Et| |exact Et].
  pose proof (serve_recorded t started_at rq route path s1) as Hs.
  destruct (serve _ _ _ _ _ s1) as [s2 r2]. lia.
Qed.

(** ** Consent over the wire *)

(** A grant that lasts at most the operator's cap, or has no end. *)
Definition ttl_capped (t : times) (g : consent_grant) : Prop :=
  g_expires_at g = None ∨
  ∃ ttl, g_expires_at g = Some (fadd (t_wall2 t) ttl) ∧ fltb CONSENT_MAX_TTL_SECONDS ttl = false.

(** What one request may make of the registry. *)
Definition consent_step (t : times) (c c' : consents) : Prop :=
  c' = c ∨ (∃ g, c' = grant g c ∧ g_action_type g ∈ grantable_action_types ∧ ttl_capped t g) ∨
  ∃ a, c' = (revoke a c).1.

Section ConsentSteps.
Context `{PyRepr} `{PyFloatOfStr} {G R : Type} `{ServerWorld G R}.
Implicit Types s : server G R.

Definition consent_rel (P : consents → consents → Prop) s s' : Prop :=
  match h_consents (engine s), h_consents (engine s') with
  | None, None => True
  | Some c, Some c' => P c c'
  | _, _ => False
  end.

Lemma consent_rel_same t s s' : h_consents (engine s') = h_consents (engine s) → consent_rel (consent_step t) s s'.
Proof. unfold consent_rel. intros ->. destruct (h_consents (engine s)); [by left|done]. Qed.

(** A handler that does what an operator may to the registry. *)
Definition consents_only {A} (t : times) (m : py (server G R) A) : Prop :=
  ∀ s, consent_rel (consent_step t) s (m s).1.

Lemma consents_pure {A} t (f : server G R → A) : consents_only t (s ← get; mret (f s)).
Proof. intros s. by apply consent_rel_same. Qed.
Lemma consents_fallible {A} t (f : server G R → res A) : consents_only t (s ← get; of_res (f s)).
Proof. intros s. by apply consent_rel_same. Qed.
Lemma consents_ret {A} t (x : A) : consents_only t (mret x).
Proof. intros s. by apply consent_rel_same. Qed.

Lemma consents_sensors t wall : consents_only t (handle_sensors wall).
Proof.
  intros s. apply consent_rel_same. unfold handle_sensors, mbind, py_bind, get.
  destruct (match w_status _ with None => _ | _ => _ end) as [v|e]; [|done].
  destruct (_ && _); [done|]. unfold of_res. by destruct (as_dict v).
Qed.

Lemma consents_approval t rid b : consents_only t (resolve_approval rid b).
Proof.
  intros s. apply consent_rel_same. unfold resolve_approval, mbind, py_bind, get. destruct (h_broker _); [|done].
  case_match; [done|]. by destruct (set_verdict _ _ _).
Qed.

Lemma consents_pair t body : consents_only t (handle_fleet_pair t body).
Proof.
  intros s. apply consent_rel_same. unfold handle_fleet_pair. destruct (pair_device body); [|done]. case_match; [done|].
  unfold mbind, py_bind, get. destruct (h_fleet _); [|done]. case_match; [by destruct (unpair _ _)|].
  destruct (Mobile.pair _ _ _ _ _ _ _) as [f1 [[d1 p1]|e]]; [done|]. by destruct e.
Qed.

Lemma consents_task t body : (∀ task e, h_consents (w_execute_task task e).1 = h_consents e) →
  consents_only t (handle_task body).
Proof.
  intros He s. apply consent_rel_same. unfold handle_task. destruct body; [done|].
  unfold mbind, py_bind, attempt, on_engine. pose proof (He (task_of (p :: body)) (engine s)) as E.
  by destruct (w_execute_task _ _).
Qed.

Lemma consents_revoke t a : consents_only t (revoke_consent a).
Proof.
  intros s. unfold revoke_consent, mbind, py_bind, get, consent_rel. destruct (h_consents (engine s)) as [c|] eqn:Ec;
    [|by cbn; rewrite ?Ec]. case_bool_decide; [unfold mret, py_ret; cbn [fst]; rewrite Ec; by left|].
  destruct (revoke _ c) as [c' n] eqn:Er. cbn. right. right. exists (take 64 a). by rewrite Er.
Qed.

Lemma gated_clean a : a ∈ grantable_action_types → sanitize_text a 64 = a.
Proof.
  intros Ha. assert (Hall : Forall (λ a, sanitize_text a 64 = a) grantable_action_types)
    by (repeat (apply List.Forall_cons; [vm_compute; reflexivity|]); constructor).
  rewrite Forall_forall in Hall. by apply Hall.
Qed.

Lemma fmin_capped x c : fltb c c = false → fltb c (fmin x c) = false.
Proof. intros Hc. unfold fmin. by destruct (fltb c x) eqn:E. Qed.

Lemma grant_ttl_capped body ttl : grant_ttl body = Ok (inr (Some ttl)) → fltb CONSENT_MAX_TTL_SECONDS ttl = false.
Proof.
  assert (Hv : ∀ v, match py_float v with
                    | Raise (TypeError _) | Raise (ValueError _) => Ok (inl (u "ttl_seconds must be a number"))
                    | Raise e => Raise e
                    | Ok x => Ok (if fleb x f0 then inl (u "ttl_seconds must be positive")
                                  else inr (Some (fmin x CONSENT_MAX_TTL_SECONDS)))
                    end = Ok (inr (Some ttl)) → fltb CONSENT_MAX_TTL_SECONDS ttl = false).
  { intros v. destruct (py_float v) as [x|e]; [|destruct e; discriminate]. intros E%(inj Ok).
    destruct (fleb x f0); [discriminate|]. apply (inj inr), (inj Some) in E. subst ttl. by apply fmin_capped. }
  unfold grant_ttl. destruct (dict_get _ _ body) as [| | | |[|c w]| |]; try discriminate; apply Hv.
Qed.

Lemma consents_grant t a body : consents_only t (grant_consent t a body).
Proof.
  intros s. unfold grant_consent, mbind, py_bind, get, of_res.
  destruct (h_consents (engine s)) as [c|] eqn:Ec; [|by apply consent_rel_same].
  case_bool_decide; [by apply consent_rel_same|].
  case_bool_decide as Hg; [cbn [negb]|by apply consent_rel_same].
  destruct (grant_ttl body) as [[why|ttl]|e] eqn:Et; [by apply consent_rel_same| |by apply consent_rel_same].
  unfold consent_rel. rewrite Ec. cbn. right. left. eexists. split; [reflexivity|].
  cbn [make_grant g_action_type g_expires_at]. rewrite gated_clean by done. split; [done|].
  unfold ttl_capped. cbn [make_grant g_expires_at]. destruct ttl as [ttl|]; [|by left].
  destruct (f_truthy ttl); [right|by left]. exists ttl. split; [done|]. by apply (grant_ttl_capped body).
Qed.

Lemma consents_route t sa rq path : (∀ task e, h_consents (w_execute_task task e).1 = h_consents e) →
  consents_only t (handle_route t sa rq path).
Proof.
  intros He. unfold handle_route. cbn zeta.
  repeat (case_match; auto using consents_pure, consents_fallible, consents_ret, consents_sensors, consents_approval,
            consents_pair, consents_task, consents_revoke, consents_grant).
Qed.
End ConsentSteps.

(** C31. Only an authorised request changes the consent registry, and by one
    step: it revokes an action type, or it adds one grant of a consent-gated
    type that ends within a day or has no end.  (An engine's task is assumed
    to leave the registry as it is: only operators grant.) *)
Theorem consent_by_authorised_operator `{PyRepr} `{PyFloatOfStr} {G R : Type} `{ServerWorld G R}
    (netloc_ok : pystr → bool) (t : times) (started_at : pystr) (rq : request) (s : server G R) :
  (∀ task e, h_consents (w_execute_task task e).1 = h_consents e) →
  let s' := (dispatch netloc_ok t started_at rq s).1 in
  consent_rel (λ c c', c' = c ∨ (authorize (extract_token rq) s = Ok true ∧ consent_step t c c')) s s'.
Proof.
  intros He. cbn zeta. unfold dispatch. set (path := normalize_request_path netloc_ok (rq_path rq)). cbn zeta.
  set (route := route_name (rq_method rq) path). unfold mbind at 1, py_bind at 1.
  assert (Hsame : ∀ s', engine s' = engine s →
    consent_rel (λ c c', c' = c ∨ (authorize (extract_token rq) s = Ok true ∧ consent_step t c c')) s s').
  { intros s' E. unfold consent_rel. rewrite E. destruct (h_consents (engine s)); [by left|done]. }
  assert (Hserve : ∀ s1, engine (serve t started_at rq route path s1).1 = engine (handle_route t started_at rq path s1).1).
  { intros s1. unfold serve, mbind, py_bind. by destruct (handle_route _ _ _ _ s1) as [s2 [[status payload]|e]]. }
  case_bool_decide as Ep.
  - unfold mret, py_ret. apply Hsame. rewrite Hserve, Ep. apply health_pure.
  - destruct (admit_request t route rq s) as [s1 r1] eqn:Ea.
    pose proof (admit_engine t route rq s) as Ee. rewrite Ea in Ee. cbn [fst] in Ee.
    destruct r1 as [[r|]|e]; [by apply Hsame| |by apply Hsame].
    destruct (admitted _ _ _ _ _ Ea) as (Hauth & Ee' & _).
    pose proof (consents_route t started_at rq path He s1) as Hr. unfold consent_rel in *.
    rewrite Hserve. rewrite <- Ee' . destruct (h_consents (engine s1)), (h_consents (engine (handle_route _ _ _ _ s1).1)); try done.
    right. by split.
Qed.

(** ** Pairing *)

Section Pairing.
Context `{PyRepr} {G : Type}.
Implicit Types f : fleet G.

Lemma pair_device_ok body d : pair_device body = Some d → d ≠ [].
Proof.
  unfold pair_device. set (x := match dict_get _ _ _ with VStr _ => _ | _ => _ end). clearbody x.
  destruct (bool_decide (x = [])) eqn:E; [done|]. cbn [orb]. case_match; [done|]. intros [= <-].
  by apply bool_decide_eq_false in E.
Qed.

Lemma allow_in d f : d ∈ mobile_devices_allowlist (f_caps (allow_device d f)).
Proof. unfold allow_device. cbn. case_decide; [done|]. set_solver. Qed.

Lemma disallow_out d f : d ∉ mobile_devices_allowlist (f_caps (disallow_device d f)).
Proof.
  unfold disallow_device. cbn. intros E%list_elem_of_In%filter_In. destruct E as [_ E].
  by rewrite bool_decide_eq_true_2 in E.
Qed.

Lemma unpair_out d f : NoDup (paired f).*1 → dhas d (paired (unpair d f).1) = false.
Proof.
  intros Hn. assert (E : dhas d (ddel d (paired f)) = false) by (unfold dhas; by rewrite dget_ddel_eq).
  unfold unpair. by destruct (dhas d (paired f)).
Qed.
End Pairing.

(** Unpairing takes back a pairing: when the device's name is one the
    registry keeps as it is, the device is afterwards neither paired nor on
    the allowlist. *)
Theorem unpair_takes_back_pair `{PyRepr} `{PyFloatOfStr} {G R : Type} `{ServerWorld G R}
    (t t' : times) (body body' : pydict) (device : pystr) (s s1 : server G R) (p : pydict) (f : fleet G) :
  h_fleet (engine s) = Some f → NoDup (paired f).*1 →
  pair_device body = Some device → sanitize_text device 48 = device → pair_action body = u "pair" →
  pair_device body' = Some device → pair_action body' = u "unpair" →
  handle_fleet_pair t body s = (s1, Ok (200, p)) →
  ∃ f1 f2, h_fleet (engine s1) = Some f1 ∧ dhas device (paired f1) = true ∧
           device ∈ mobile_devices_allowlist (f_caps f1) ∧
           h_fleet (engine (handle_fleet_pair t' body' s1).1) = Some f2 ∧
           dhas device (paired f2) = false ∧ device ∉ mobile_devices_allowlist (f_caps f2).
Proof.
  intros Hf Hn Hd Hc Ha Hd' Ha' E. unfold handle_fleet_pair in E. rewrite Hd, Ha in E.
  replace (bool_decide (u "pair" ∈ _)) with true in E by reflexivity. cbn [negb] in E.
  unfold mbind, py_bind, get in E. rewrite Hf in E.
  replace (bool_decide (u "pair" = u "unpair")) with false in E by reflexivity.
  set (m := match dict_get (u "manifest") VNone body with VDict d => d | _ => [] end) in E. clearbody m.
  set (b := match dict_get (u "paired_by") VNone body with VStr _ => _ | _ => _ end) in E. clearbody b.
  unfold Mobile.pair in E. rewrite Hc in E.
  pose proof (pair_device_ok _ _ Hd) as Hne.
  rewrite (bool_decide_eq_false_2 (device = [])) in E by done.
  unfold raise_if, mbind, py_bind, mret, py_ret, of_res, get, put in E.
  destruct (sanitize_manifest m) as [safe|e]; [|destruct e; discriminate E].
  injection E as <- Ep. clear Ep p.
  set (f0' := note_audit _ _ _). exists (allow_device device f0'), (disallow_device device (unpair device (allow_device device f0')).1).
  split; [reflexivity|]. split; [|split; [apply allow_in|]].
  { unfold dhas. subst f0'. cbn. by rewrite dget_dset_eq. }
  assert (Hn' : NoDup (paired (allow_device device f0')).*1) by (subst f0'; cbn; by apply dset_nodup).
  clearbody f0'. set (g := allow_device device f0') in *. clearbody g.
  unfold handle_fleet_pair. rewrite Hd', Ha'.
  replace (bool_decide (u "unpair" ∈ _)) with true by reflexivity. cbn [negb].
  unfold mbind, py_bind, get. cbn [engine with_fleet with_engine h_fleet].
  replace (bool_decide (u "unpair" = u "unpair")) with true by reflexivity.
  pose proof (unpair_out device g Hn') as Hu. destruct (unpair device g) as [g2 r]. cbn [fst] in Hu.
  split; [reflexivity|]. split; [exact Hu|apply disallow_out].
Qed.

(** ** Bounds *)

(** At most so many levels of at most 50 entries, keys of at most 64
    characters and texts of at most 2000. *)
Fixpoint fits (levels : nat) (v : pyval) : bool :=
  match levels with
  | O => match v with VStr t => (length t <=? 2000)%nat | _ => false end
  | S n =>
      match v with
      | VStr t => (length t <=? 2000)%nat
      | VList l => (length l <=? 50)%nat && forallb (fits n) l
      | VDict d => (length d <=? 50)%nat && forallb (λ kv, (length kv.1 <=? 64)%nat && fits n kv.2) d
      | _ => false
      end
  end.

Lemma foldl_dset_fits n (g : pyval → pyval) (Hg : ∀ v, fits n (g v) = true) (d out : pydict) :
  forallb (λ kv, (length kv.1 <=? 64)%nat && fits n kv.2) out = true →
  let r := foldl (λ out kv, dset (take 64 kv.1) (g kv.2) out) out d in
  forallb (λ kv, (length kv.1 <=? 64)%nat && fits n kv.2) r = true ∧ (length r <= length out + length d)%nat.
Proof.
  revert out. induction d as [|[k v] d IH]; intros out Ho; cbn [foldl fst snd]; [split; [done|lia]|].
  destruct (IH (dset (take 64 k) (g v) out)) as [H1 H2].
  - rewrite forallb_forall in Ho |- *. intros e He. apply list_elem_of_In, dset_elem in He as [->|He].
    + cbn [fst snd]. rewrite Hg, andb_true_r. apply Nat.leb_le. rewrite length_take. lia.
    + apply Ho. by apply list_elem_of_In.
  - split; [exact H1|]. etrans; [exact H2|]. cbn [length].
    assert (Hl : (length (dset (take 64 k) (g v) out) <= length out + 1)%nat).
    { generalize (take 64 k). intros k0. clear. induction out as [|[k' v'] out IH]; cbn; [lia|].
      case_decide; cbn; lia. }
    lia.
Qed.

(** Whatever a task answers, what goes over the wire of it is at most
    five levels deep, 50 entries wide, and made of bounded texts. *)
Theorem safe_value_bounded `{PyRepr} (n : nat) (v : pyval) : fits n (safe_value n v) = true.
Proof.
  revert v. induction n as [|n IH]; intros v; [reflexivity|].
  destruct v as [|b|z|x|t|l|d]; cbn [safe_value fits];
    try (apply Nat.leb_le; unfold safe_text; rewrite length_take; lia).
  - rewrite length_fmap. apply andb_true_iff. split; [apply Nat.leb_le; rewrite length_take; lia|].
    rewrite forallb_forall. intros x Hx%list_elem_of_In%list_elem_of_fmap. by destruct Hx as (y & -> & _).
  - destruct (foldl_dset_fits n (safe_value n) IH (take 50 d) []) as [H1 H2]; [done|].
    rewrite H1, andb_true_r. apply Nat.leb_le. etrans; [exact H2|]. cbn [length]. rewrite length_take. lia.
Qed.

(** ** Evaluated requests *)

#[local] Instance demo_repr : PyRepr := λ _, [].
#[local] Instance demo_float_text : PyFloatOfStr := λ _, Raise (ValueError []).
#[local] Instance demo_world : ServerWorld governor unit := {|
  w_execute_task _ e := (e, Ok [(u "status", VStr (u "ok"))]); w_status _ := None; w_telemetry _ := VNone;
  w_fallbacks _ := None; w_governor _ := None; w_memory_available := true; w_vector_stub _ := Ok (VBool false);
  w_security _ := None; w_request _ := []; w_approval_ttl := VNone; w_generate _ _ := Ok (VStr []);
  w_models := Ok []; w_backend := u "stub" |}.

Definition demo_times : times :=
  Times f0 (f0, f0, f1) f0 (f_of_Z 10) f1 f1 (f_of_Z 1000) (f_of_Z 1000) (λ _, f0).
Definition demo_server (token : option pystr) : server governor unit :=
  Server token (Some (new_rate_limiter (f_of_Z 240) 120)) (u "m") (u "1") f0 [] [] [] []
    (Hosted (Some []) (Some new_broker) (Some demo_fleet) tt).
Definition demo_post (path : string) (auth : pystr) (body : pydict) : request :=
  Request (u "POST") (u path) (u "10.0.0.7") auth None (Some (u "100")) (λ _, Ok (VDict body)).
Abbreviation send := (dispatch (λ _, true) demo_times []).

(** A grant without a time to live has no end, although the operator's
    cap is a day; and consent to the microphone, which the sound policy asks
    for, cannot be given over the wire. *)
Theorem grant_without_ttl_never_ends :
  (∃ g, h_consents (engine (send (demo_post "/api/v1/consent/api_call" [] []) (demo_server None)).1)
          = Some [(u "api_call", [g])] ∧ g_expires_at g = None) ∧
  h_consents (engine (send (demo_post "/api/v1/consent/listen_microphone" [] []) (demo_server None)).1) = Some [].
Proof. split; [eexists; split; vm_compute; reflexivity|vm_compute; reflexivity]. Qed.

(** A device name with an invisible character. *)
Definition ghost : pystr := u "tab" ++ [0x200B%N] ++ u "2".
Definition pair_body (action : string) : pydict := [(u "device_id", VStr ghost); (u "action", VStr (u action))].

(** A device whose name holds an invisible character is registered under
    another name than the one allowed and asked for: unpairing it takes
    nothing back, and the device stays paired. *)
Theorem unclean_name_stays_paired :
  let s1 := (send (demo_post "/api/v1/fleet" [] (pair_body "pair")) (demo_server None)).1 in
  let '(s2, r) := send (demo_post "/api/v1/fleet" [] (pair_body "unpair")) s1 in
  match r with Ok (Json 200 p) => dget (u "removed") p = Some (VBool false) | _ => False end ∧
  dhas (u "tab2") (default [] (paired <$> h_fleet (engine s2))) = true.
Proof. cbn zeta. vm_compute. split; reflexivity. Qed.

(** A token beyond ASCII is neither answered nor counted: the comparison
    raises and the connection ends. *)
Theorem odd_token_unanswered :
  let '(s, r) := send (demo_post "/api/v1/task" (u "Bearer " ++ [233%N]) []) (demo_server (Some (u "secret"))) in
  is_ok r = false ∧ total n_requests s = 0.
Proof. vm_compute. split; reflexivity. Qed.

(** ** Witnesses *)

Lemma closed_without_token_witness :
  let rq := demo_post "/api/v1/consent/api_call" (u "Bearer guess") [] in
  let s := demo_server (Some (u "secret")) in
  engine (send rq s).1 = engine s.
Proof.
  cbn zeta.
  pose proof (closed_without_token (λ _, true) demo_times [] (demo_post "/api/v1/consent/api_call" (u "Bearer guess") [])
    (demo_server (Some (u "secret"))) (u "secret") eq_refl ltac:(discriminate) ltac:(vm_compute; discriminate)) as Hc.
  destruct (send _ _) as [s' r]. exact (proj1 Hc).
Defined.

Lemma no_route_oracle_witness :
  let s := demo_server (Some (u "secret")) in
  (send (demo_post "/api/v1/task" (u "Bearer guess") []) s).2 = (send (demo_post "/no/such/path" (u "Bearer guess") []) s).2.
Proof.
  cbn zeta. apply (no_route_oracle (λ _, true) demo_times [] (demo_post "/api/v1/task" (u "Bearer guess") [])
    (demo_post "/no/such/path" (u "Bearer guess") []) (demo_server (Some (u "secret"))) (u "secret"));
    first [reflexivity | vm_compute; discriminate].
Defined.

Lemma unnamed_is_not_found_witness :
  (handle_route demo_times [] (demo_post "/evil/health" [] []) (u "/evil/health") (demo_server None)).2 = Ok NOT_FOUND.
Proof.
  exact (f_equal snd (unnamed_is_not_found demo_times [] (demo_post "/evil/health" [] []) (u "/evil/health")
    (demo_server None) eq_refl)).
Defined.

Lemma consent_by_authorised_operator_witness :
  let rq := demo_post "/api/v1/consent/api_call" (u "Bearer secret") [] in
  let s := demo_server (Some (u "secret")) in
  consent_rel (λ c c', c' = c ∨ (authorize (extract_token rq) s = Ok true ∧ consent_step demo_times c c')) s (send rq s).1.
Proof.
  cbn zeta. apply (consent_by_authorised_operator (λ _, true) demo_times []
    (demo_post "/api/v1/consent/api_call" (u "Bearer secret") []) (demo_server (Some (u "secret")))). reflexivity.
Defined.

Lemma unpair_takes_back_pair_witness :
  let body a : pydict := [(u "device_id", VStr (u "tab2")); (u "action", VStr (u a))] in
  let s1 := (handle_fleet_pair demo_times (body "pair"%string) (demo_server None)).1 in
  ∃ f2, h_fleet (engine (handle_fleet_pair demo_times (body "unpair"%string) s1).1) = Some f2 ∧
        dhas (u "tab2") (paired f2) = false.
Proof.
  cbn zeta.
  destruct (unpair_takes_back_pair demo_times demo_times
    [(u "device_id", VStr (u "tab2")); (u "action", VStr (u "pair"))]
    [(u "device_id", VStr (u "tab2")); (u "action", VStr (u "unpair"))] (u "tab2") (demo_server None)
    (handle_fleet_pair demo_times [(u "device_id", VStr (u "tab2")); (u "action", VStr (u "pair"))] (demo_server None)).1
    (match (handle_fleet_pair demo_times [(u "device_id", VStr (u "tab2")); (u "action", VStr (u "pair"))] (demo_server None)).2
     with Ok (_, p) => p | _ => [] end) demo_fleet) as (f1 & f2 & _ & _ & _ & E & Hd & _);
    [reflexivity| |vm_compute; reflexivity..|].
  - cbn. apply NoDup_cons. split; [intros E%list_elem_of_singleton; discriminate E|apply NoDup_singleton].
  - exists f2. split; [exact E|exact Hd].
Defined.
