(* ===== verification/PeerFrames.v ===== *)
(** * Frames between peers ([src/agent_runtime.py], the wire)

    Newline-delimited JSON over TCP: what a node writes, the admission of an
    inbound frame, the reader of a client's connection with its bound, the
    reader of one reply, and the slots of the accept loop.

    [json_loads] is [json.loads(line.decode("utf-8"))], [None] when either
    raises; [json_dumps] is [json.dumps(message, sort_keys=True)] encoded as
    UTF-8.  What a socket delivers is a list of outcomes of [recv]. *)

From Stdlib Require Import ZArith NArith Lia.
From S2P Require Import Prelude PyStr PyVal.

(** ** Constants *)

Definition RECV_SIZE : nat := N.to_nat 65536.
Definition MAX_FRAME_BYTES : Z := 1048576.
Definition MAX_CLIENT_THREADS : Z := 16.

(** [str(auth_token) if auth_token else None]. *)
Definition token_of_config (v : option pystr) : option pystr :=
  match v with Some [] | None => None | Some t => Some t end.

(** ** Admission *)

(** [hmac.compare_digest] of two strings. *)
Definition compare_digest (a b : pystr) : res bool :=
  if forallb (λ c, c <? 128)%N (a ++ b) then Ok (bool_decide (a = b))
  else Raise (TypeError (u "comparing strings with non-ASCII characters is not supported")).

Definition TOKEN_MISSING : pystr :=
  u "mesh token missing (this node gates every frame; give the sender SHUGOCORE_MESH_TOKEN)".
Definition TOKEN_WRONG : pystr := u "mesh token does not match this node's".

Section Admission.
Context {PR : PyRepr}.

(** [_accepts_reason]: why a frame is refused. *)
Definition accepts_reason (token : option pystr) (msg : pyval) : res (option pystr) :=
  match msg with
  | VDict d =>
      match dict_get (u "type") VNone d with
      | VStr (_ :: _) =>
          match token with
          | Some t =>
              let presented := dict_get (u "token") VNone d in
              if negb (truthy presented) then Ok (Some TOKEN_MISSING)
              else ok ← compare_digest (py_str presented) t;
                   Ok (if ok : bool then None else Some TOKEN_WRONG)
          | None => Ok None
          end
      | _ => Ok (Some (u "no message type"))
      end
  | _ => Ok (Some (u "not a JSON object"))
  end.

(** [_accepts]. *)
Definition accepts (token : option pystr) (msg : pyval) : res bool :=
  r ← accepts_reason token msg; Ok (bool_decide (r = None)).

(** The frame carries the token. *)
Definition carries (t : pystr) (msg : pyval) : bool :=
  match msg with VDict d => bool_decide (py_str (dict_get (u "token") VNone d) = t) | _ => false end.
End Admission.

(** ** Lines *)

Definition is_bspace (c : N) : bool := ((9 <=? c) && (c <=? 13) || (c =? 32))%N.

(** [line.strip()] of bytes. *)
Definition bstrip (line : list N) : list N := strip_by is_bspace line.

Definition is_newline (c : N) : bool := (c =? 10)%N.

(** [while b"\n" in buf: line, buf = buf.split(b"\n", 1)]: the lines cut off
    and the bytes that remain. *)
Fixpoint cut_lines (buf : list N) : list (list N) * list N :=
  match buf with
  | [] => ([], [])
  | c :: buf' =>
      let '(ls, rest) := cut_lines buf' in
      if is_newline c then ([] :: ls, rest)
      else match ls with
           | l :: ls' => ((c :: l) :: ls', rest)
           | [] => ([], c :: rest)
           end
  end.

Definition has_newline (buf : list N) : bool := existsb is_newline buf.

(** What a call of [recv] does. *)
Inductive recv := Data (bytes : list N) | Timeout | Failed.

(** ** Writing *)

(** [_encode_frame]. *)
Definition encode_frame (json_dumps : pydict → list N) (msg : pydict) : list N :=
  json_dumps msg ++ [10%N].

(** [_stamp]. *)
Definition stamp (token : option pystr) (msg : pydict) : pydict :=
  match token with Some t => dset (u "token") (VStr t) msg | None => msg end.

(** ** The reader of a client *)

Section Reader.
Context {PR : PyRepr} {S : Type} (json_loads : list N → option pyval).
Context (cap : nat) (token : option pystr) (dispatch : pydict → py S unit).

(** One line: blank and oversized ones, what does not parse and what is
refused are skipped; an exception of the dispatch is logged, one of the
admission leaves the reader. *)
Definition on_line (raw : list N) : py S unit :=
let line := bstrip raw in
if bool_decide (line = []) || (cap <? length line)%nat then mret tt
else match json_loads line with
     | None => mret tt
     | Some msg =>
         reason ← of_res (accepts_reason token msg);
         match reason, msg with
         | None, VDict d => attempt (dispatch d) ;; mret tt
         | _, _ => mret tt
         end
     end.

Fixpoint on_lines (lines : list (list N)) : py S unit :=
match lines with
| [] => mret tt
| l :: rest => on_line l ;; on_lines rest
end.

(** [_handle_client] from a buffer on: the bytes still buffered, or [None]
when the connection was closed. *)
Fixpoint handle_client (events : list recv) (buf : list N) (s : S) : S * option (list N) :=
match events with
| [] => (s, Some buf)
| Timeout :: rest => handle_client rest buf s
| Failed :: _ | Data [] :: _ => (s, None)
| Data data :: rest =>
    let buf := buf ++ data in
    if (cap <? length buf)%nat && negb (has_newline buf) then (s, None)
    else
      let '(lines, buf) := cut_lines buf in
      match on_lines lines s with
      | (s, Ok _) => handle_client rest buf s
      | (s, Raise _) => (s, None)
      end
end.
End Reader.

(** ** The reader of a reply *)

(** The loop of [_one_shot_request]: the bytes read, or [None] when a call
    raised. *)
Fixpoint read_reply (cap : nat) (buf : list N) (events : list recv) : option (list N) :=
  if has_newline buf then Some buf
  else match events with
       | Data [] :: _ => Some buf
       | Data data :: rest =>
           let buf := buf ++ data in
           if (cap <? length buf)%nat then Some buf else read_reply cap buf rest
       | _ => None
       end.

(** ... and its first line, decoded. *)
Definition reply_of (json_loads : list N → option pyval) (cap : nat) (events : list recv) : option pyval :=
  buf ← read_reply cap [] events;
  let line := bstrip (span (λ c, negb (is_newline c)) buf).1 in
  if bool_decide (line = []) then None else json_loads line.

(** ** The slots of the accept loop *)

(** What happens to the accept loop: a connection arrives and its thread
    starts or not, or a handler's thread ends, however it ends. *)
Inductive accept_event := Arrives (spawned : bool) | Ends.

(** [_PeerServer.run] and [_serve_client]: the slots in use, and whether an
    arrival is served. *)
Definition accept (max_client_threads active : nat) (e : accept_event) : nat * bool :=
  match e with
  | Arrives spawned =>
      if (active <? max_client_threads)%nat
      then (if spawned then (active + 1, true) else (active, false))%nat
      else (active, false)
  | Ends => (active - 1, false)%nat
  end.

Definition slots_in_use (max_client_threads : nat) (events : list accept_event) : nat :=
  foldl (λ n e, (accept max_client_threads n e).1) O events.

(** ** Lines of a stream *)

Lemma cut_lines_app a b :
  cut_lines (a ++ b) = let '(la, ra) := cut_lines a in
                       let '(lb, rb) := cut_lines (ra ++ b) in (la ++ lb, rb).
Proof.
  induction a as [|c a IH]; cbn [cut_lines app]; [by destruct (cut_lines b)|].
  rewrite IH. destruct (cut_lines a) as [[|l la] ra]; destruct (is_newline c) eqn:Ec;
    cbn [app cut_lines]; rewrite ?Ec; destruct (cut_lines (ra ++ b)) as [[|lb1 lb] rb]; cbn [app]; rewrite ?Ec; try done.
Qed.

Lemma cut_lines_none b : has_newline b = false → cut_lines b = ([], b).
Proof.
  induction b as [|c b IH]; [done|]. cbn [has_newline existsb cut_lines].
  intros [-> Hb]%orb_false_iff. by rewrite (IH Hb).
Qed.

Lemma cut_lines_rest b : has_newline (cut_lines b).2 = false.
Proof.
  induction b as [|c b IH]; [done|]. cbn [cut_lines].
  destruct (cut_lines b) as [[|l ls] rest]; cbn [snd] in *; destruct (is_newline c) eqn:Ec; cbn [snd]; try done.
  cbn [has_newline existsb]. by rewrite Ec.
Qed.

Lemma cut_lines_one l b : has_newline l = false →
  cut_lines (l ++ 10%N :: b) = let '(ls, rest) := cut_lines b in (l :: ls, rest).
Proof.
  induction l as [|c l IH]; cbn [app cut_lines has_newline existsb]; [by destruct (cut_lines b)|].
  intros [Hc Hl]%orb_false_iff. rewrite (IH Hl), Hc. by destruct (cut_lines b).
Qed.

(** The segments of a stream: its lines, and what follows the last one. *)
Definition segments (b : list N) : list (list N) := (cut_lines b).1 ++ [(cut_lines b).2].

(** What has no newline begins the first segment. *)
Lemma segments_head a b : has_newline a = false → ∃ x y, segments (a ++ b) = (a ++ x) :: y.
Proof.
  unfold segments. induction a as [|c a IH]; cbn [has_newline existsb app].
  - intros _. destruct (cut_lines b) as [[|l ls] r]; by eexists _, _.
  - intros [Hc Ha]%orb_false_iff. destruct (IH Ha) as (x & y & E). cbn [cut_lines].
    destruct (cut_lines (a ++ b)) as [[|l ls] r]; rewrite Hc; cbn in *; injection E as -> ->;
      by eexists _, _.
Qed.

Lemma segments_app a b la ra : cut_lines a = (la, ra) → segments (a ++ b) = la ++ segments (ra ++ b).
Proof.
  intros E. unfold segments. rewrite cut_lines_app, E.
  destruct (cut_lines (ra ++ b)) as [lb rb]. cbn. by rewrite app_assoc.
Qed.

Lemma cut_rest_length b : (length (cut_lines b).2 ≤ length b)%nat.
Proof.
  induction b as [|c b IH]; [done|]. cbn [cut_lines].
  destruct (cut_lines b) as [[|l ls] r]; destruct (is_newline c); cbn in *; lia.
Qed.

Lemma cut_lines_some b : has_newline b = true → (cut_lines b).1 ≠ [].
Proof.
  induction b as [|c b IH]; [done|]. cbn [has_newline existsb cut_lines].
  destruct (cut_lines b) as [[|l ls] r]; destruct (is_newline c); cbn in *; naive_solver.
Qed.

(** What remains after a newline came with the last bytes is one of them. *)
Lemma cut_rest_new a b : has_newline a = false → has_newline (a ++ b) = true →
  (length (cut_lines (a ++ b)).2 ≤ length b)%nat.
Proof.
  induction a as [|c a IH]; [intros _ _; apply cut_rest_length|].
  cbn [has_newline existsb app]. intros [Hc Ha]%orb_false_iff. rewrite Hc. intros Hn.
  specialize (IH Ha Hn). pose proof (cut_lines_some _ Hn) as Hs. cbn [cut_lines].
  destruct (cut_lines (a ++ b)) as [[|l ls] r]; [done|]. by rewrite Hc.
Qed.

(** The bytes a list of outcomes delivers; [quiet] when none of them ends the
    connection. *)
Definition received (events : list recv) : list N :=
  events ≫= λ e, match e with Data b => b | _ => [] end.
Definition quiet (events : list recv) : Prop :=
  Forall (λ e, match e with Data b => b ≠ [] | Timeout => True | Failed => False end) events.

Section ReaderFacts.
Context `{PR : PyRepr} {S : Type} (json_loads : list N → option pyval).
Context (cap : nat) (token : option pystr) (dispatch : pydict → py S unit).
Abbreviation lines_ := (on_lines json_loads cap token dispatch).
Abbreviation client_ := (handle_client json_loads cap token dispatch).

Lemma on_lines_app la lb s :
lines_ (la ++ lb) s = match lines_ la s with (s', Ok _) => lines_ lb s' | (s', Raise e) => (s', Raise e) end.
Proof.
revert s. induction la as [|l la IH]; intros s; [done|]. cbn [app on_lines]. py_unfold.
destruct (on_line _ _ _ _ l s) as [s' [x|e]]; [apply IH|done].
Qed.

(** The stream read as a whole. *)
Definition read_stream (stream : list N) (s : S) : S * option (list N) :=
let '(lines, rest) := cut_lines stream in
match lines_ lines s with (s', Ok _) => (s', Some rest) | (s', Raise _) => (s', None) end.

Lemma client_stream events : ∀ buf s, quiet events → has_newline buf = false →
Forall (λ l, length l ≤ cap)%nat (segments (buf ++ received events)) →
client_ events buf s = read_stream (buf ++ received events) s.
Proof.
induction events as [|e events IH]; intros buf s Hq Hb Hs.
- cbn. rewrite app_nil_r. unfold read_stream. by rewrite (cut_lines_none buf Hb).
- inversion Hq as [|?? He Hq']; subst. destruct e as [data| |]; [| |done].
  + destruct data as [|c data]; [done|]. cbn [handle_client].
    change (received (Data (c :: data) :: events)) with ((c :: data) ++ received events) in *.
    rewrite app_assoc in *. set (b := buf ++ c :: data) in *. clearbody b.
    assert (((cap <? length b)%nat && negb (has_newline b)) = false) as ->.
    { destruct (has_newline b) eqn:Hnl; [apply andb_false_r|]. rewrite andb_true_r. apply Nat.ltb_ge.
      destruct (segments_head b (received events) Hnl) as (x & y & E). rewrite E in Hs.
      inversion Hs as [|?? Hx _]; subst. rewrite length_app in Hx. lia. }
    pose proof (cut_lines_rest b) as Hr. destruct (cut_lines b) as [la ra] eqn:Ec. cbn [snd] in Hr.
    rewrite (segments_app _ _ _ _ Ec) in Hs. apply Forall_app in Hs as [_ Hs].
    unfold read_stream. rewrite cut_lines_app, Ec.
    destruct (lines_ la s) as [s' [x|ex]] eqn:El.
    * rewrite (IH ra s' Hq' Hr Hs). unfold read_stream.
      destruct (cut_lines (ra ++ received events)) as [lb rb]. by rewrite on_lines_app, El.
    * destruct (cut_lines (ra ++ received events)) as [lb rb]. by rewrite on_lines_app, El.
  + cbn [handle_client]. by apply IH.
Qed.

(** Between events no more than a frame or one read is buffered. *)
Lemma client_buffer events : ∀ buf s s' buf', (length buf ≤ Nat.max cap RECV_SIZE)%nat →
Forall (λ e, match e with Data b => length b ≤ RECV_SIZE | _ => True end)%nat events →
has_newline buf = false → client_ events buf s = (s', Some buf') →
(length buf' ≤ Nat.max cap RECV_SIZE)%nat.
Proof.
induction events as [|e events IH]; intros buf s s' buf' Hl He Hb E; [by injection E as <- <-|].
inversion He as [|?? Hd He']; subst. destruct e as [[|c data]| |]; [done| |eauto|done].
cbn [handle_client] in E. destruct ((cap <? _)%nat && _) eqn:Ec; [done|].
pose proof (cut_lines_rest (buf ++ c :: data)) as Hr. pose proof (cut_rest_new buf (c :: data) Hb) as Hn.
destruct (has_newline (buf ++ c :: data)) eqn:Hnl.
- destruct (cut_lines _) as [la ra]. destruct (lines_ la s) as [s1 [x|ex]]; [|done].
  eapply IH; [|done| |exact E]; [cbn in *; specialize (Hn eq_refl)|done].
  etransitivity; [exact Hn|]. cbn in Hd. lia.
- rewrite (cut_lines_none _ Hnl) in E. cbn in E. eapply IH; [|done|exact Hnl|exact E].
  rewrite andb_true_r in Ec. apply Nat.ltb_ge in Ec. lia.
Qed.

(** Without the token no frame is dispatched. *)
Lemma line_untokened t raw s : token = Some t →
(∀ msg, json_loads (bstrip raw) = Some msg → carries t msg = false) →
(on_line json_loads cap token dispatch raw s).1 = s.
Proof.
intros Ht Hc. unfold on_line. destruct (bool_decide (bstrip raw = []) || _); [done|].
destruct (json_loads (bstrip raw)) as [msg|] eqn:El; [|done]. specialize (Hc msg eq_refl).
unfold accepts_reason. destruct msg as [| | | | | |d]; try done. rewrite Ht.
destruct (dict_get (u "type") VNone d) as [| | | |[|? ?]| |]; try done. cbv zeta.
destruct (truthy (dict_get (u "token") VNone d)); [|done]. cbn [negb]. unfold compare_digest.
unfold carries in Hc. destruct (forallb _ _); [|done]. cbn. by rewrite Hc.
Qed.

Lemma client_untokened t events : token = Some t → ∀ buf s,
(∀ raw msg, raw ∈ (cut_lines (buf ++ received events)).1 →
  json_loads (bstrip raw) = Some msg → carries t msg = false) →
(client_ events buf s).1 = s.
Proof.
intros Ht. assert (Hls : ∀ ls s, (∀ raw msg, raw ∈ ls → json_loads (bstrip raw) = Some msg → carries t msg = false) →
  (lines_ ls s).1 = s).
{ induction ls as [|l ls IH]; intros s Hc; [done|]. cbn [on_lines]. py_unfold.
  pose proof (line_untokened t l s Ht (λ msg, Hc l msg (list_elem_of_here _ _))) as E.
  destruct (on_line _ _ _ _ l s) as [s' [x|e]]; [|done]. cbn in E. subst s'.
  apply IH. intros raw msg Hr. by apply Hc, list_elem_of_further. }
induction events as [|e events IH]; intros buf s Hc; [done|].
destruct e as [[|c data]| |]; cbn [handle_client]; [done| |by apply IH|done].
destruct ((cap <? _)%nat && _); [done|].
change (received (Data (c :: data) :: events)) with ((c :: data) ++ received events) in Hc.
rewrite app_assoc, cut_lines_app in Hc. destruct (cut_lines (buf ++ c :: data)) as [la ra].
destruct (cut_lines (ra ++ received events)) as [lb rb] eqn:Eb. cbn [fst] in Hc.
specialize (Hls la s (λ raw msg Hr, Hc raw msg (proj2 (elem_of_app _ _ _) (or_introl Hr)))).
destruct (lines_ la s) as [s' [x|ex]]; cbn in Hls; subst s'; [|done].
apply IH. rewrite Eb. intros raw msg Hr. apply Hc, elem_of_app. by right.
Qed.

(** A property every dispatch keeps is kept by a connection. *)
Lemma client_keeps (I : S → Prop) events : (∀ d, keeps I (dispatch d)) →
∀ buf s, I s → I (client_ events buf s).1.
Proof.
intros Hd. assert (Hl : ∀ ls, keeps I (lines_ ls)).
{ induction ls as [|l ls IH]; cbn [on_lines]; [apply keeps_ret|]. apply keeps_bind; [|done].
  unfold on_line. cbv zeta. repeat first [apply keeps_bind; [|intros ?] | apply Hd | keeps_step]. }
induction events as [|[[|c data]| |] events IH]; intros buf s Hs; cbn [handle_client]; try done; [|by apply IH].
destruct ((cap <? _)%nat && _); [done|]. destruct (cut_lines _) as [la ra].
specialize (Hl la s Hs). destruct (lines_ la s) as [s' [x|e]]; [by apply IH|done].
Qed.
End ReaderFacts.

(** ** Theorems *)

(** The token of a configuration: none, or one of characters of ASCII. *)
Definition sane_token (token : option pystr) : Prop :=
  match token with Some t => t ≠ [] ∧ Forall (λ c, (c < 128)%N) t | None => True end.

(** What the theorem below relies on of the JSON library, for the message
    [m]: its text is one line that is read back, within the cap. *)
Definition writes_back (json_dumps : pydict → list N) (json_loads : list N → option pyval)
    (cap : nat) (m : pydict) : Prop :=
  let b := json_dumps m in
  has_newline b = false ∧ bstrip b = b ∧ b ≠ [] ∧ (length b ≤ cap)%nat ∧ json_loads b = Some (VDict m).

Definition typed (m : pydict) : Prop := ∃ c s, dict_get (u "type") VNone m = VStr (c :: s).

Lemma stamped_accepted `{PyRepr} token m : sane_token token → typed m →
  accepts_reason token (VDict (stamp token m)) = Ok None.
Proof.
  intros Ht (c & s & Em). unfold accepts_reason, stamp, dict_get in *. destruct token as [t|].
  - destruct Ht as [Ht Ha]. rewrite dget_dset_ne by done. rewrite Em, dget_dset_eq. cbn [default from_option truthy].
    unfold compare_digest. rewrite forallb_app. assert (forallb (λ c, (c <? 128)%N) t = true) as Hf.
    { apply forallb_forall. intros x Hx. rewrite Forall_forall in Ha. apply list_elem_of_In, Ha in Hx. lia. }
    simpl. rewrite Hf, (bool_decide_eq_false_2 (t = [])), (bool_decide_eq_true_2 (t = t)) by done. done.
  - by rewrite Em.
Qed.

(** C40. Packets do not matter to lines that fit. Take two connections over which the
    same bytes arrive, divided into any packets, with any reads timing out in
    between, none of which ends or fails, and no line of which, nor what
    follows the last one, is longer than the cap: the node does the same on
    both, namely what it does with the lines one after the other.  For a longer
    line the division does matter ([oversized_line_divides]). *)
Theorem packets_do_not_matter `{PyRepr} {S : Type} (json_loads : list N → option pyval) (cap : nat)
    (token : option pystr) (dispatch : pydict → py S unit) (events events' : list recv) (s : S)
    (Hquiet : quiet events) (Hquiet' : quiet events') (Hbytes : received events = received events')
    (Hsize : Forall (λ l, length l ≤ cap)%nat (segments (received events))) :
  handle_client json_loads cap token dispatch events [] s
  = handle_client json_loads cap token dispatch events' [] s ∧
  handle_client json_loads cap token dispatch events [] s
  = let '(lines, rest) := cut_lines (received events) in
    match on_lines json_loads cap token dispatch lines s with
    | (s', Ok _) => (s', Some rest)
    | (s', Raise _) => (s', None)
    end.
Proof.
  pose proof (client_stream json_loads cap token dispatch events [] s Hquiet eq_refl Hsize) as E.
  rewrite Hbytes in Hsize.
  pose proof (client_stream json_loads cap token dispatch events' [] s Hquiet' eq_refl Hsize) as E'.
  cbn [app] in E, E'. rewrite E, E', <- Hbytes. by split.
Qed.

(** Frames of a sender that holds the token, read back. *)
Lemma client_frames `{PyRepr} {S : Type} (json_dumps : pydict → list N)
    (json_loads : list N → option pyval) (cap : nat) (token : option pystr)
    (dispatch : pydict → py S unit) (msgs : list pydict) (events : list recv) (s : S)
    (Hjson : Forall (λ m, writes_back json_dumps json_loads cap (stamp token m)) msgs)
    (Htyped : Forall typed msgs) (Htoken : sane_token token) (Hquiet : quiet events)
    (Hsent : received events = msgs ≫= λ m, encode_frame json_dumps (stamp token m)) :
  handle_client json_loads cap token dispatch events [] s
  = (foldl (λ s m, (dispatch (stamp token m) s).1) s msgs, Some []).
Proof.
  assert (Hcut : cut_lines (received events) = ((λ m, json_dumps (stamp token m)) <$> msgs, [])).
  { rewrite Hsent. clear Hsent Hquiet Htyped. induction Hjson as [|m msgs (Hn & _) _ IH]; [done|].
    cbn. unfold encode_frame at 1. rewrite <- app_assoc. cbn [app]. rewrite (cut_lines_one _ _ Hn).
    cbn in IH. by rewrite IH. }
  rewrite client_stream; [|done|done|].
  2:{ unfold segments. cbn [app]. rewrite Hcut. cbn [fst snd]. apply Forall_app. split; [|apply List.Forall_cons; [cbn; lia|constructor]].
      apply Forall_fmap. eapply Forall_impl; [exact Hjson|]. by intros m (_ & _ & _ & Hl & _). }
  unfold read_stream. cbn [app]. rewrite Hcut. clear Hcut Hsent Hquiet events.
  assert (on_lines json_loads cap token dispatch ((λ m, json_dumps (stamp token m)) <$> msgs) s
          = (foldl (λ s m, (dispatch (stamp token m) s).1) s msgs, Ok tt)) as ->; [|done].
  revert s. induction Hjson as [|m msgs (Hn & Hb & Hne & Hl & Hj) Hjson IH]; intros s; [done|].
  inversion Htyped as [|?? Hm Htyped']; subst. cbn [fmap list_fmap on_lines foldl]. py_unfold.
  unfold on_line. rewrite Hb, bool_decide_eq_false_2 by done.
  replace (cap <? _)%nat with false by (symmetry; by apply Nat.ltb_ge). cbn [orb].
  rewrite Hj, (stamped_accepted token m Htoken Hm). py_unfold. unfold of_res, attempt.
  destruct (dispatch (stamp token m) s) as [s' r]. cbn. by apply IH.
Qed.

(** Stamped frames written one after the other to a node with the same
    token are dispatched there each once and in order, whatever each dispatch
    does or raises, and nothing remains buffered. *)
Theorem frames_arrive `{PyRepr} {S : Type} (json_dumps : pydict → list N)
    (json_loads : list N → option pyval) (cap : nat) (token : option pystr)
    (dispatch : pydict → py S unit) (msgs : list pydict) (events : list recv) (s : S)
    (Hjson : Forall (λ m, writes_back json_dumps json_loads cap (stamp token m)) msgs)
    (Htyped : Forall typed msgs) (Htoken : sane_token token) (Hquiet : quiet events)
    (Hsent : received events = msgs ≫= λ m, encode_frame json_dumps (stamp token m)) :
  handle_client json_loads cap token dispatch events [] s
  = (foldl (λ s m, (dispatch (stamp token m) s).1) s msgs, Some []).
Proof. exact (client_frames json_dumps json_loads cap token dispatch msgs events s Hjson Htyped Htoken Hquiet Hsent). Qed.

(** On a node with a token, a connection none of whose lines carries it
    leaves the node as it was. *)
Theorem untokened_frames_ignored `{PyRepr} {S : Type} (json_loads : list N → option pyval)
    (cap : nat) (t : pystr) (dispatch : pydict → py S unit) (events : list recv) (s : S)
    (Hno : ∀ raw msg, raw ∈ (cut_lines (received events)).1 →
                      json_loads (bstrip raw) = Some msg → carries t msg = false) :
  (handle_client json_loads cap (Some t) dispatch events [] s).1 = s.
Proof. exact (client_untokened json_loads cap (Some t) dispatch t events eq_refl [] s Hno). Qed.

(** A connection never has more buffered than one frame at the cap or
    one read. *)
Theorem client_buffer_bounded `{PyRepr} {S : Type} (json_loads : list N → option pyval)
    (cap : nat) (token : option pystr) (dispatch : pydict → py S unit) (events : list recv)
    (s s' : S) (buf : list N)
    (Hreads : Forall (λ e, match e with Data b => length b ≤ RECV_SIZE | _ => True end)%nat events)
    (Hopen : handle_client json_loads cap token dispatch events [] s = (s', Some buf)) :
  (length buf ≤ Nat.max cap RECV_SIZE)%nat.
Proof.
  refine (client_buffer json_loads cap token dispatch events [] s s' buf _ Hreads eq_refl Hopen).
  apply Nat.le_0_l.
Qed.

(** The handlers running at a time are never more than the slots, and an
    arrival is refused exactly when they are all taken or its thread does not
    start. *)
Theorem slots_suffice (max_client_threads : nat) (events : list accept_event) (spawned : bool) :
  (slots_in_use max_client_threads events ≤ max_client_threads)%nat
  ∧ ((accept max_client_threads (slots_in_use max_client_threads events) (Arrives spawned)).2 = true
     ↔ (slots_in_use max_client_threads events < max_client_threads)%nat ∧ spawned = true).
Proof.
  split.
  - unfold slots_in_use.
    assert (Hgen : ∀ n, (n ≤ max_client_threads)%nat →
      (foldl (λ n e, (accept max_client_threads n e).1) n events ≤ max_client_threads)%nat).
    { induction events as [|e events IH]; intros n Hn; [done|]. cbn [foldl]. apply IH.
      unfold accept. destruct e as [[|]|]; [| |cbn; lia];
        destruct (n <? max_client_threads)%nat eqn:E; cbn; lia. }
    apply Hgen. lia.
  - unfold accept. destruct (_ <? _)%nat eqn:E; destruct spawned; cbn; split; intros; naive_solver lia.
Qed.

(** A reply that is a frame within what JSON reads back is decoded to what was
    written. *)
Lemma reply_read json_dumps json_loads cap m events : writes_back json_dumps json_loads cap m →
  read_reply cap [] events = Some (encode_frame json_dumps m) → reply_of json_loads cap events = Some (VDict m).
Proof.
  intros (Hn & Hb & Hne & _ & Hj) E. unfold reply_of. rewrite E. cbn [mbind option_bind].
  unfold encode_frame. rewrite span_app; [|clear -Hn|by intros c b' [= <- _]].
  - cbn [fst]. rewrite Hb, bool_decide_eq_false_2 by done. done.
  - revert Hn. induction (json_dumps m) as [|c l IH]; [constructor|]. cbn [has_newline existsb].
    intros [Hc Hl]%orb_false_iff. constructor; [by rewrite Hc|by apply IH].
Qed.

Lemma has_newline_end l : has_newline (l ++ [10%N]) = true.
Proof. unfold has_newline. rewrite existsb_app. apply orb_true_r. Qed.

Lemma read_one_frame json_dumps cap m : read_reply cap [] [Data (encode_frame json_dumps m)]
  = Some (encode_frame json_dumps m).
Proof.
  unfold encode_frame. cbn [read_reply has_newline existsb app].
  destruct (json_dumps m ++ [10%N]) as [|c l] eqn:E; [by destruct (json_dumps m)|].
  destruct (cap <? _)%nat; [done|]. rewrite <- E, has_newline_end. done.
Qed.

(** ** A conversation *)

Definition demo_message : pydict := [(u "type", VStr (u "send")); (u "topic", VStr (u "hello"))].
Definition demo_secret : pystr := u "s3cret".
Definition demo_dumps (m : pydict) : list N := u "{" ++ str_of_Z (Z.of_nat (length m)) ++ u "}".
Definition demo_loads (b : list N) : option pyval :=
  if bool_decide (b = u "{3}") then Some (VDict (stamp (Some demo_secret) demo_message))
  else if bool_decide (b = u "{2}") then Some (VDict demo_message)
  else if bool_decide (b = u "{1}") then Some (VDict [(u "type", VStr (u "send")); (u "token", VStr [233%N])])
  else None.
Definition demo_topics (d : pydict) : py (list pystr) unit := λ s,
  (s ++ [match dict_get (u "topic") VNone d with VStr t => t | _ => [] end], Ok tt).
#[local] Instance demo_repr : PyRepr := λ _, [].

(** A token with a character beyond ASCII closes the connection: the
    comparison raises, and the frames that follow are not read. *)
Theorem odd_token_closes_connection :
  handle_client demo_loads 1024 (Some demo_secret) demo_topics [Data (u "{1}" ++ [10%N] ++ u "{3}" ++ [10%N])] [] []
  = ([], None)
  ∧ handle_client demo_loads 1024 (Some demo_secret) demo_topics [Data (u "{2}" ++ [10%N] ++ u "{3}" ++ [10%N])] [] []
  = ([u "hello"], Some []).
Proof. split; by vm_compute. Qed.

(** A line longer than the cap is skipped when its newline comes in the same
    packet, and the frames behind it are dispatched; when the newline comes
    later, the connection is closed first and they are lost. *)
Theorem oversized_line_divides :
  let long := u "{0123456789}" in
  handle_client demo_loads 8 (Some demo_secret) demo_topics
    [Data (long ++ [10%N] ++ u "{3}" ++ [10%N])] [] [] = ([u "hello"], Some []) ∧
  (handle_client demo_loads 8 (Some demo_secret) demo_topics
    [Data long; Data ([10%N] ++ u "{3}" ++ [10%N])] [] []).1 = [].
Proof. split; by vm_compute. Qed.

Lemma packets_do_not_matter_witness :
  handle_client demo_loads 1024 (Some demo_secret) demo_topics
    [Data (u "{3"); Timeout; Data (u "}" ++ [10%N] ++ u "{3}"); Data [10%N]] [] []
  = handle_client demo_loads 1024 (Some demo_secret) demo_topics
    [Data (u "{3}" ++ [10%N] ++ u "{3}" ++ [10%N])] [] [].
Proof.
  apply (packets_do_not_matter demo_loads 1024 (Some demo_secret) demo_topics
    [Data (u "{3"); Timeout; Data (u "}" ++ [10%N] ++ u "{3}"); Data [10%N]]
    [Data (u "{3}" ++ [10%N] ++ u "{3}" ++ [10%N])] []);
    [by repeat constructor|by repeat constructor|by vm_compute|].
  vm_compute. repeat constructor.
Defined.

Lemma frames_arrive_witness :
  handle_client demo_loads 1024 (Some demo_secret) demo_topics
    [Data (u "{3"); Data (u "}" ++ [10%N; 123%N]); Timeout; Data (u "3}" ++ [10%N])] [] []
  = ([u "hello"; u "hello"], Some []).
Proof.
  rewrite (frames_arrive demo_dumps demo_loads 1024 (Some demo_secret) demo_topics [demo_message; demo_message]);
    [by vm_compute| | | | |by vm_compute].
  - apply Forall_forall. intros m Hm.
    assert (m = demo_message) as -> by (apply elem_of_cons in Hm as [->|Hm]; [done|by apply list_elem_of_singleton in Hm]).
    split; [by vm_compute|]. split; [by vm_compute|]. split; [by vm_compute|]. split; [vm_compute; lia|by vm_compute].
  - by repeat constructor; eexists _, _.
  - split; [done|]. by repeat constructor.
  - by repeat constructor.
Defined.

Lemma untokened_frames_ignored_witness :
  (handle_client demo_loads 1024 (Some demo_secret) demo_topics [Data (u "{2}" ++ [10%N])] [] []).1 = [].
Proof.
  apply untokened_frames_ignored. intros raw msg Hr. vm_compute in Hr.
  apply list_elem_of_singleton in Hr as ->. intros [= <-]. by vm_compute.
Defined.

Lemma client_buffer_bounded_witness :
  (length (u "{3") ≤ Nat.max 1024 RECV_SIZE)%nat.
Proof.
  apply (client_buffer_bounded demo_loads 1024 (Some demo_secret) demo_topics [Data (u "{3")] [] []);
    [|by vm_compute].
  constructor; [|constructor]. apply Nat.leb_le. by vm_compute.
Defined.
