(* ===== verification/PeerRuntime.v ===== *)
(** * The runtime of a mesh node ([src/agent_runtime.py])

    The state of a [ShugonetAgentRuntime] and its operations: peers and their
    connections, advertisements, the sharing of artifacts, the exchange of
    memory, and the dispatch of inbound frames.

    What the runtime does not own is the class [PeerWorld]: sockets, clocks,
    the share directory, failures of the disk, the memory and the callables the
    agent installs.  The files it stages are part of its state, by path; a
    background thread it starts is a pending entry of [p_offers]. *)

From Stdlib Require Import ZArith NArith Lia.
From Stdlib Require Import Floats.SpecFloat.
From stdpp Require Import gmap.
From S2P Require Import Prelude PyFloat PyStr PyVal StateMachine Fallbacks Base64 PeerFrames.

Local Open Scope Z_scope.

(** ** Constants *)

Definition MAX_ARTIFACT_BYTES : Z := 256 * 1024 * 1024.
Definition ARTIFACT_CHUNK_BYTES : Z := 192 * 1024.
Definition ARTIFACT_DIGEST_CACHE : nat := 8.
Definition HEARTBEAT_INTERVAL : f64 := f_of_Z 10.

(** ** Names and paths *)

(** [_artifact_name_ok]. *)
Definition artifact_name_ok (name : pystr) : bool :=
  negb (bool_decide (name = [])) && (length name <=? 200)%nat
  && negb (bool_decide (name ∈ [u "."; u ".."])) && negb (starts_with (u ".") name)
  && negb (existsb (λ c, (c =? 47) || (c =? 92) || (c =? 0))%N name).

(** [os.path.join(a, b)] of a relative [b]. *)
Definition path_join (a b : pystr) : pystr :=
  if bool_decide (a = []) || ends_with (u "/") a then a ++ b else a ++ u "/" ++ b.

(** The components [os.path.commonpath] compares. *)
Definition path_parts (p : pystr) : list pystr :=
  List.filter (λ c, negb (bool_decide (c = [])) && negb (bool_decide (c = u "."))) (split_on 47 p).

Fixpoint common_prefix (a b : list pystr) : list pystr :=
  match a, b with
  | x :: a', y :: b' => if bool_decide (x = y) then x :: common_prefix a' b' else []
  | _, _ => []
  end.

(** [os.path.commonpath([a, b])]. *)
Definition commonpath (a b : pystr) : res pystr :=
  if bool_decide (starts_with (u "/") a = starts_with (u "/") b) then
    Ok ((if starts_with (u "/") a then u "/" else [])
        ++ join (u "/") (common_prefix (path_parts a) (path_parts b)))
  else Raise (ValueError (u "Can't mix absolute and relative paths")).

(** ** State *)

(** A build another node offered, to be pulled by a thread of its own. *)
Record offer := Offer { of_peer : pystr; of_name : pystr; of_size : Z; of_sha256 : pystr }.

(** What [artifact_descriptor] answers. *)
Record descriptor := Descriptor { de_name : pystr; de_path : pystr; de_size : Z; de_sha256 : pystr }.

(** The arguments of the constructor, after its normalisation. *)
Record settings := Settings {
  agent_id : pystr;
  port : Z;
  max_frame : Z;                       (* max(1024, max_frame_bytes) *)
  auth_token : option pystr;
  has_memory : bool;
  conflict_threshold : Z;
  conflict_window_s : f64;
  heartbeat_interval : f64;
  artifact_root : option pystr;
  artifact_dir : option pystr;
  max_artifact_bytes : Z;
  artifact_chunk_bytes : Z
}.

(** The constructor's normalisation of its limits. *)
Definition new_settings (id : pystr) (port max_frame_bytes : Z) (token : option pystr) (memory : bool)
    (threshold : Z) (window interval : f64) (root dir : option pystr) (max_artifact chunk : Z) : settings :=
  let frame := Z.max 1024 max_frame_bytes in
  Settings id port frame (token_of_config token) memory (Z.max 1 threshold) (fmax f1 window)
    (fmax f0 interval) root dir (Z.max (64 * 1024) max_artifact)
    (Z.max (16 * 1024) (Z.min chunk (frame / 2))).

(** The callables that were set. *)
Record callables := Callables {
  has_provider : bool; has_beat_handler : bool; has_send_handler : bool; has_audit : bool
}.

Record peer (G W : Type) := Peer {
  started : bool;
  outbound : list (pystr * bool);      (* is it connected? *)
  stats : list (pystr * Z);
  fallbacks : option (FallbackController G);
  conflict_events : list f64;
  sync_watermarks : list (pystr * pyval);
  heartbeats : list (pystr * pydict);
  digest_cache : list (pystr * (Z * f64 * pystr));
  receipts : list pydict;
  hooks : callables;
  files : gmap pystr (list N);         (* the files this node staged *)
  answers : list pydict;               (* what it wrote to the client it serves *)
  offers : list offer;                 (* threads started for offered builds *)
  world : W
}.
Arguments Peer {G W}. Arguments started {G W}. Arguments outbound {G W}. Arguments stats {G W}.
Arguments fallbacks {G W}. Arguments conflict_events {G W}. Arguments sync_watermarks {G W}.
Arguments heartbeats {G W}. Arguments digest_cache {G W}. Arguments receipts {G W}.
Arguments hooks {G W}. Arguments files {G W}. Arguments answers {G W}. Arguments offers {G W}.
Arguments world {G W}.

(** What is outside of the runtime.  A socket operation answers whether it
    succeeded; [pw_exchange] what [recv] gave after a request was sent, [None]
    when connecting or sending raised; a path query [None] when it raised;
    [pw_fault] whether the next operation on a staged file raises, and how many
    bytes of a write reach the file before. *)
Class PeerWorld (W : Type) := {
  pw_connect : pystr → W → W * bool;
  pw_sendall : pystr → pydict → W → W * bool;
  pw_exchange : pystr → pydict → W → W * option (list recv);
  pw_request_id : W → W * pystr;
  pw_monotonic : W → W * f64;
  pw_time : W → W * f64;
  pw_retrieve : pyval → Z → W → W * res (list pyval);
  pw_export : pyval → W → W * res (list pyval);
  pw_import : pyval → pystr → W → W * res (Z * Z);
  pw_realpath : pystr → W → W * option pystr;
  pw_stat : pystr → W → W * option (Z * f64);
  pw_read : pystr → W → W * option (list N);
  pw_listdir : pystr → W → W * option (list pystr);
  pw_fault : W → W * option (exn * nat);
  pw_provider : W → W * res pyval;
  pw_on_heartbeat : pydict → W → W;
  pw_on_send : pystr → pystr → pyval → W → W;
  pw_on_audit : pystr → pydict → W → W
}.

Section Updates.
Context {G W : Type}.
Implicit Types (p : peer G W).

Definition with_started b p : peer G W :=
Peer b (outbound p) (stats p) (fallbacks p) (conflict_events p) (sync_watermarks p) (heartbeats p)
  (digest_cache p) (receipts p) (hooks p) (files p) (answers p) (offers p) (world p).
Definition with_outbound o p : peer G W :=
Peer (started p) o (stats p) (fallbacks p) (conflict_events p) (sync_watermarks p) (heartbeats p)
  (digest_cache p) (receipts p) (hooks p) (files p) (answers p) (offers p) (world p).
Definition with_stats s p : peer G W :=
Peer (started p) (outbound p) s (fallbacks p) (conflict_events p) (sync_watermarks p) (heartbeats p)
  (digest_cache p) (receipts p) (hooks p) (files p) (answers p) (offers p) (world p).
Definition with_fallbacks f p : peer G W :=
Peer (started p) (outbound p) (stats p) f (conflict_events p) (sync_watermarks p) (heartbeats p)
  (digest_cache p) (receipts p) (hooks p) (files p) (answers p) (offers p) (world p).
Definition with_conflicts c p : peer G W :=
Peer (started p) (outbound p) (stats p) (fallbacks p) c (sync_watermarks p) (heartbeats p)
  (digest_cache p) (receipts p) (hooks p) (files p) (answers p) (offers p) (world p).
Definition with_watermarks w p : peer G W :=
Peer (started p) (outbound p) (stats p) (fallbacks p) (conflict_events p) w (heartbeats p)
  (digest_cache p) (receipts p) (hooks p) (files p) (answers p) (offers p) (world p).
Definition with_heartbeats h p : peer G W :=
Peer (started p) (outbound p) (stats p) (fallbacks p) (conflict_events p) (sync_watermarks p) h
  (digest_cache p) (receipts p) (hooks p) (files p) (answers p) (offers p) (world p).
Definition with_digests d p : peer G W :=
Peer (started p) (outbound p) (stats p) (fallbacks p) (conflict_events p) (sync_watermarks p) (heartbeats p)
  d (receipts p) (hooks p) (files p) (answers p) (offers p) (world p).
Definition with_receipts r p : peer G W :=
Peer (started p) (outbound p) (stats p) (fallbacks p) (conflict_events p) (sync_watermarks p) (heartbeats p)
  (digest_cache p) r (hooks p) (files p) (answers p) (offers p) (world p).
Definition with_hooks h p : peer G W :=
Peer (started p) (outbound p) (stats p) (fallbacks p) (conflict_events p) (sync_watermarks p) (heartbeats p)
  (digest_cache p) (receipts p) h (files p) (answers p) (offers p) (world p).
Definition with_files f p : peer G W :=
Peer (started p) (outbound p) (stats p) (fallbacks p) (conflict_events p) (sync_watermarks p) (heartbeats p)
  (digest_cache p) (receipts p) (hooks p) f (answers p) (offers p) (world p).
Definition with_answers a p : peer G W :=
Peer (started p) (outbound p) (stats p) (fallbacks p) (conflict_events p) (sync_watermarks p) (heartbeats p)
  (digest_cache p) (receipts p) (hooks p) (files p) a (offers p) (world p).
Definition with_offers o p : peer G W :=
Peer (started p) (outbound p) (stats p) (fallbacks p) (conflict_events p) (sync_watermarks p) (heartbeats p)
  (digest_cache p) (receipts p) (hooks p) (files p) (answers p) o (world p).
Definition with_world w p : peer G W :=
Peer (started p) (outbound p) (stats p) (fallbacks p) (conflict_events p) (sync_watermarks p) (heartbeats p)
  (digest_cache p) (receipts p) (hooks p) (files p) (answers p) (offers p) w.

(** A call outside. *)
Definition ask {A} (f : W → W * A) : py (peer G W) A := λ p,
let '(w, a) := f (world p) in (with_world w p, Ok a).
Definition tell (f : W → W) : py (peer G W) unit := modify (λ p, with_world (f (world p)) p).

(** [self._stats[key] = self._stats.get(key, 0) + n]. *)
Definition bump (key : pystr) (n : Z) : py (peer G W) unit :=
modify (λ p, with_stats (dset key (default 0 (dget key (stats p)) + n) (stats p)) p).
End Updates.

(** A runtime that was constructed, its peers added but not dialled. *)
Definition new_peer {G W : Type} (peer_map : list pystr) (fb : option (FallbackController G)) (w : W) :
    peer G W :=
  Peer false (foldl (λ o id, dset id false o) [] peer_map)
    [(u "sent", 0); (u "received", 0); (u "errors", 0); (u "imported", 0)] fb [] [] [] [] []
    (Callables false false false false) ∅ [] [] w.

(** ** Answers *)

Definition refused (reason : pystr) : pydict := [(u "status", VStr (u "refused")); (u "reason", VStr reason)].
Definition error_reply (reason : pystr) : pydict :=
  [(u "type", VStr (u "error")); (u "status", VStr (u "error")); (u "reason", VStr reason)].

(** [dict.update]. *)
Definition dict_update (d e : pydict) : pydict := foldl (λ d kv, dset kv.1 kv.2 d) d e.

(** ** Connections and advertisements *)

Section Runtime.
Context {PR : PyRepr} {PL : PyLower} {G W : Type} {GO : GovernorOps G} {PW : PeerWorld W}.
Context (json_loads : list N → option pyval) (sha256 : list N → pystr) (exn_text : exn → pystr).
Context (cfg : settings).
Abbreviation P := (peer G W).

Definition frame_max : nat := Z.to_nat (max_frame cfg).

(** [_PeerConnection.connect], [.send] and [.close] of a peer that is known;
[close] also precedes a connect. *)
Definition set_link (id : pystr) (up : bool) : py P unit :=
modify (λ p, with_outbound (dset id up (outbound p)) p).
Definition connect (id : pystr) : py P bool :=
up ← ask (pw_connect id); set_link id up ;; mret up.
Definition link_send (id : pystr) (msg : pydict) : py P bool :=
p ← get;
if default false (dget id (outbound p)) then
  ok ← ask (pw_sendall id msg);
  if ok : bool then mret true else set_link id false ;; mret false
else mret false.

(** [add_peer]; when the runtime has started, a thread dials it. *)
Definition add_peer (id : pystr) : py P unit := set_link id false.
Definition dial_peer (id : pystr) : py P unit :=
p ← get; if dhas id (outbound p) then connect id ;; mret tt else mret tt.
Definition remove_peer (id : pystr) : py P unit :=
modify (λ p, with_outbound (ddel id (outbound p)) p).

(** [reconnect_peers]: how many are up. *)
Fixpoint reconnect_each (ids : list pystr) (n : Z) : py P Z :=
match ids with
| [] => mret n
| id :: rest =>
    p ← get;
    up ← (if default false (dget id (outbound p)) then mret true else connect id);
    reconnect_each rest (if up : bool then n + 1 else n)
end.
Definition reconnect_peers : py P Z := p ← get; reconnect_each (outbound p).*1 0.

(** [start] and [stop]; the server thread, the dials and the loops are the
threads they start. *)
Definition start : py P unit := modify (with_started true).
Definition stop : py P unit :=
modify (λ p, with_started false (with_outbound ((λ kv, (kv.1, false)) <$> outbound p) p)).

(** [list_agents] and [status]. *)
Definition list_agents (p : P) : list pystr := agent_id cfg :: (outbound p).*1.
Definition opt_text (v : option pystr) : pyval := match v with Some s => VStr s | None => VNone end.
Definition status (p : P) : pydict :=
[(u "agent_id", VStr (agent_id cfg)); (u "running", VBool (started p)); (u "port", VInt (port cfg));
 (u "peers", VList (VStr <$> (outbound p).*1));
 (u "connected_peers", VList (VStr <$> (List.filter snd (outbound p)).*1));
 (u "memory_enabled", VBool (has_memory cfg));
 (u "sync_watermarks", VDict (sync_watermarks p));
 (u "stats", VDict ((λ kv, (kv.1, VInt kv.2)) <$> stats p));
 (u "heartbeat", VDict [(u "interval_s", VFloat (heartbeat_interval cfg));
    (u "advertising", VBool (has_provider (hooks p))); (u "handler", VBool (has_beat_handler (hooks p)));
    (u "heard", VInt (Z.of_nat (length (heartbeats p))))]);
 (u "artifacts", VDict [(u "sharing", opt_text (artifact_root cfg)); (u "stage_dir", opt_text (artifact_dir cfg));
    (u "max_bytes", VInt (max_artifact_bytes cfg)); (u "chunk_bytes", VInt (artifact_chunk_bytes cfg));
    (u "sent", VInt (default 0 (dget (u "artifacts_sent") (stats p))));
    (u "received", VInt (default 0 (dget (u "artifacts_received") (stats p))))])].

(** The setters of the callables: what is not callable unsets them. *)
Definition set_heartbeat_provider (callable : bool) : py P unit :=
modify (λ p, with_hooks (Callables callable (has_beat_handler (hooks p)) (has_send_handler (hooks p)) (has_audit (hooks p))) p).
Definition set_heartbeat_handler (callable : bool) : py P unit :=
modify (λ p, with_hooks (Callables (has_provider (hooks p)) callable (has_send_handler (hooks p)) (has_audit (hooks p))) p).
Definition set_send_handler (callable : bool) : py P unit :=
modify (λ p, with_hooks (Callables (has_provider (hooks p)) (has_beat_handler (hooks p)) callable (has_audit (hooks p))) p).
Definition set_artifact_audit (callable : bool) : py P unit :=
modify (λ p, with_hooks (Callables (has_provider (hooks p)) (has_beat_handler (hooks p)) (has_send_handler (hooks p)) callable) p).

(** [heartbeat_snapshot]. *)
Definition heartbeat_snapshot (limit : Z) (p : P) : list (pystr * pydict) :=
take (Z.to_nat (Z.max 1 limit)) (sort_by (λ a b, str_leb a.1 b.1) (heartbeats p)).

(** The loop over the connections: how many took the message. *)
Fixpoint send_each (ids : list pystr) (msg : pydict) (n : Z) : py P Z :=
match ids with
| [] => mret n
| id :: rest => ok ← link_send id msg; send_each rest msg (if ok : bool then n + 1 else n)
end.

(** [broadcast_heartbeat]: the payload given, or the provider's. *)
Definition broadcast_heartbeat (payload : option pyval) : py P Z :=
p ← get;
payload ← match payload with
          | Some v => mret (Some v)
          | None => if has_provider (hooks p) then
                      r ← ask pw_provider; mret (match r with Ok v => Some v | Raise _ => None end)
                    else mret None
          end;
match payload with
| Some (VDict (x :: d)) =>
    sent ← send_each (outbound p).*1
             (stamp (auth_token cfg) [(u "type", VStr (u "heartbeat")); (u "from", VStr (agent_id cfg));
                                      (u "payload", VDict (x :: d))]) 0;
    (if sent =? 0 then mret tt else bump (u "heartbeats_sent") 1) ;; mret sent
| _ => mret 0
end.

(** [_heartbeat_loop] over the beats until [stop]: whether an advertisement
was announced and an empty cycle explained, and the announcements made. *)
Fixpoint heartbeat_loop (beats : nat) (announced explained : bool) (log : list Z) : py P (list Z) :=
match beats with
| O => mret log
| S n =>
    r ← attempt (broadcast_heartbeat None);
    match r with
    | Raise _ => heartbeat_loop n announced explained log
    | Ok sent =>
        if sent =? 0 then heartbeat_loop n announced true (if explained then log else log ++ [0])
        else heartbeat_loop n true explained (if announced then log else log ++ [sent])
    end
end.

(** [_on_heartbeat_message]. *)
Definition on_heartbeat_message (msg : pydict) : py P unit :=
match dict_get (u "payload") VNone msg with
| VDict payload =>
    let from := dict_get (u "from") VNone msg in
    let node_id := strip (py_str (py_or (py_or (dict_get (u "node_id") VNone payload) from) (VStr []))) in
    if bool_decide (node_id = []) then mret tt
    else
      now ← ask pw_monotonic;
      let record := dset (u "received_at") (VFloat now) (dset (u "node_id") (VStr node_id) payload) in
      modify (λ p, with_heartbeats (dset node_id record (heartbeats p)) p) ;;
      bump (u "heartbeats_received") 1 ;;
      p ← get;
      if has_beat_handler (hooks p) then tell (pw_on_heartbeat record) else mret tt
| _ => mret tt
end.

(** ** Requests *)

(** [_one_shot_request]. *)
Definition one_shot_request (id : pystr) (msg : pydict) : py P (option pyval) :=
events ← ask (pw_exchange id (stamp (auth_token cfg) msg));
mret (events ≫= reply_of json_loads frame_max).

(** [_peer_error]. *)
Definition peer_error (resp : pyval) : option pystr :=
match resp with
| VDict d =>
    if py_eq (dict_get (u "type") VNone d) (VStr (u "error"))
       || py_eq (dict_get (u "status") VNone d) (VStr (u "error"))
    then Some (take 200 (py_str (py_or (py_or (dict_get (u "message") VNone d) (dict_get (u "reason") VNone d))
                                   (VStr (u "peer reported error")))))
    else None
| _ => Some (u "malformed peer reply")
end.

(** A reply that is there and no error: what [if not resp] and [_peer_error]
leave through. *)
Definition accepted_reply (resp : option pyval) : option pystr + pydict :=
match resp with
| Some v => if truthy v then
              match peer_error v with
              | Some reason => inl (Some reason)
              | None => match v with VDict d => inr d | _ => inl None end
              end
            else inl None
| None => inl None
end.

Definition unknown_peer (id : pystr) : pydict := refused (u "unknown peer '" ++ id ++ u "'").
Definition unreachable (id : pystr) : pydict :=
[(u "status", VStr (u "error")); (u "message", VStr (u "peer unreachable")); (u "peer", VStr id)].
Definition peer_refused (id reason : pystr) : pydict :=
[(u "status", VStr (u "refused")); (u "peer", VStr id); (u "reason", VStr reason)].

(** ** Sharing artifacts *)

(** [_audit_artifact]. *)
Definition audit_artifact (event : pystr) (detail : pydict) : py P unit :=
p ← get; if has_audit (hooks p) then tell (pw_on_audit event detail) else mret tt.

(** The digest of the file, cached by name, size and modification time. *)
Definition digest_of (name path : pystr) (size : Z) (mtime : f64) : py P (option pystr) :=
p ← get;
match dget name (digest_cache p) with
| Some (s, m, digest) =>
    if (s =? size) && feqb m mtime then mret (Some digest) else mret None
| None => mret None
end ≫= λ hit : option pystr,
match hit with
| Some digest => mret (Some digest)
| None =>
    content ← ask (pw_read path);
    match content with
    | Some bytes =>
        if max_artifact_bytes cfg <? Z.of_nat (length bytes) then mret None
        else
          let digest := sha256 bytes in
          modify (λ p, let cache := dset name (size, mtime, digest) (digest_cache p) in
                       with_digests (drop (length cache - ARTIFACT_DIGEST_CACHE) cache) p) ;;
          mret (Some digest)
    | None => mret None
    end
end.

(** [artifact_descriptor]. *)
Definition artifact_descriptor (name : pystr) : py P (option descriptor) :=
match artifact_root cfg with
| Some root =>
    if negb (artifact_name_ok name) then mret None
    else
      real_root ← ask (pw_realpath root);
      real_path ← ask (pw_realpath (path_join root name));
      match real_root, real_path with
      | Some real_root, Some real_path =>
          match commonpath real_root real_path with
          | Ok common =>
              if negb (bool_decide (common = real_root)) then mret None
              else
                st ← ask (pw_stat real_path);
                match st with
                | Some (size, mtime) =>
                    if (size <=? 0) || (max_artifact_bytes cfg <? size) then mret None
                    else
                      digest ← digest_of name real_path size mtime;
                      mret (digest ≫= λ d, Some (Descriptor name real_path size d))
                | None => mret None
                end
          | Raise _ => mret None
          end
      | _, _ => mret None
      end
| None => mret None
end.

(** [list_artifacts]. *)
Definition described (d : descriptor) : pydict :=
[(u "name", VStr (de_name d)); (u "size", VInt (de_size d)); (u "sha256", VStr (de_sha256 d))].
Fixpoint describe_each (names : list pystr) (out : list pydict) : py P (list pydict) :=
match names with
| [] => mret out
| n :: rest => d ← artifact_descriptor n;
               describe_each rest (match d with Some d => out ++ [described d] | None => out end)
end.
Definition list_artifacts : py P (list pydict) :=
match artifact_root cfg with
| Some root =>
    names ← ask (pw_listdir root);
    match names with
    | Some names => describe_each (take 64 (sort_by str_leb names)) []
    | None => mret []
    end
| None => mret []
end.

(** The description a peer is sent. *)
Definition manifest_answer (d : descriptor) : pydict :=
[(u "type", VStr (u "artifact_manifest")); (u "status", VStr (u "ok")); (u "name", VStr (de_name d));
 (u "size", VInt (de_size d)); (u "sha256", VStr (de_sha256 d)); (u "chunk_bytes", VInt (artifact_chunk_bytes cfg))].

(** [_artifact_manifest_reply]. *)
Definition artifact_manifest_reply (name : pyval) : py P pydict :=
let wanted := py_str (py_or name (VStr [])) in
if negb (artifact_name_ok wanted) then mret (error_reply (u "invalid artifact name"))
else
  d ← artifact_descriptor wanted;
  mret (match d with
        | None => error_reply (u "artifact is not shared by this node")
        | Some d => manifest_answer d
        end).

(** [int(v or 0)] in a [try] that catches [TypeError] and [ValueError]. *)
Definition int_or_zero (v : pyval) : res Z := py_int (py_or v (VInt 0)).
Definition chunk_range (msg : pydict) : res (option (Z * Z)) :=
match (offset ← int_or_zero (dict_get (u "offset") VNone msg);
       length ← int_or_zero (dict_get (u "length") VNone msg); Ok (Z.max 0 offset, length)) with
| Ok r => Ok (Some r)
| Raise (TypeError _) | Raise (ValueError _) => Ok None
| Raise e => Raise e
end.

(** The answer with the bytes from the offset on. *)
Definition chunk_answer (name : pystr) (offset : Z) (data : list N) (d : descriptor) : pydict :=
let n := Z.of_nat (length data) in
[(u "type", VStr (u "artifact_chunk")); (u "status", VStr (u "ok")); (u "name", VStr name);
 (u "offset", VInt offset); (u "length", VInt n); (u "total", VInt (de_size d));
 (u "sha256", VStr (de_sha256 d)); (u "data", VStr (b64encode data)); (u "eof", VBool (de_size d <=? offset + n))].

(** [_artifact_chunk_reply]. *)
Definition artifact_chunk_reply (msg : pydict) : py P pydict :=
let name := py_str (py_or (dict_get (u "name") VNone msg) (VStr [])) in
d ← (if artifact_name_ok name then artifact_descriptor name else mret None);
match d with
| None => mret (error_reply (u "artifact is not shared by this node"))
| Some d =>
    range ← of_res (chunk_range msg);
    match range with
    | None => mret (error_reply (u "bad chunk range"))
    | Some (offset, length) =>
        let length := Z.min (Z.max 1 length) (artifact_chunk_bytes cfg) in
        raise_if (2 ^ 63 <=? offset) OverflowError ;;   (* [handle.seek] *)
        content ← ask (pw_read (de_path d));
        mret (match content with
              | Some bytes => chunk_answer name offset (take (Z.to_nat length) (drop (Z.to_nat offset) bytes)) d
              | None => error_reply (u "artifact unreadable")
              end)
    end
end.

(** [_artifact_accept_offer]: the pull is a thread. *)
Definition is_hex (c : N) : bool := ((48 <=? c) && (c <=? 57) || (97 <=? c) && (c <=? 102))%N.
Definition artifact_accept_offer (msg : pydict) : py P pydict :=
let name := py_str (py_or (dict_get (u "name") VNone msg) (VStr [])) in
let from := strip (py_str (py_or (dict_get (u "from") VNone msg) (VStr []))) in
let sha := str_lower (strip (py_str (py_or (dict_get (u "sha256") VNone msg) (VStr [])))) in
size ← of_res (match int_or_zero (dict_get (u "size") VNone msg) with
               | Raise (TypeError _) | Raise (ValueError _) => Ok 0
               | r => r
               end);
if bool_decide (from = []) || bool_decide (from = agent_id cfg) then mret (error_reply (u "invalid offer source"))
else if negb (artifact_name_ok name) then mret (error_reply (u "invalid artifact name"))
else if negb (length sha =? 64)%nat || existsb (λ c, negb (is_hex c)) sha
then mret (error_reply (u "offer carries no usable digest"))
else if (size <=? 0) || (max_artifact_bytes cfg <? size)
then mret (error_reply (u "offer size " ++ str_of_Z size ++ u " exceeds the cap " ++ str_of_Z (max_artifact_bytes cfg)))
else if bool_decide (artifact_dir cfg = None) then mret (error_reply (u "this node has no staging directory"))
else
  modify (λ p, with_offers (offers p ++ [Offer from name size sha]) p) ;;
  mret [(u "type", VStr (u "artifact_offer_result")); (u "status", VStr (u "accepted")); (u "name", VStr name);
        (u "size", VInt size); (u "sha256", VStr sha); (u "from", VStr (agent_id cfg))].

(** ** Fetching artifacts *)

(** The requests of a fetch. *)
Definition manifest_request (name rid : pystr) : pydict :=
[(u "type", VStr (u "artifact_manifest")); (u "from", VStr (agent_id cfg)); (u "name", VStr name); (u "id", VStr rid)].
Definition chunk_request (name : pystr) (offset length : Z) (rid : pystr) : pydict :=
[(u "type", VStr (u "artifact")); (u "from", VStr (agent_id cfg)); (u "name", VStr name);
 (u "offset", VInt offset); (u "length", VInt length); (u "id", VStr rid)].

(** [artifact_manifest]: [int] of what the peer said may raise. *)
Definition artifact_manifest (id name : pystr) : py P pydict :=
p ← get;
if negb (dhas id (outbound p)) then mret (unknown_peer id)
else
  rid ← ask pw_request_id;
  resp ← one_shot_request id (manifest_request name rid);
  match accepted_reply resp with
  | inl None => mret (unreachable id)
  | inl (Some reason) => mret (peer_refused id reason)
  | inr d =>
      size ← of_res (int_or_zero (dict_get (u "size") VNone d));
      mret [(u "status", VStr (u "success")); (u "peer", VStr id);
            (u "name", VStr (py_str (py_or (dict_get (u "name") VNone d) (VStr name))));
            (u "size", VInt size); (u "sha256", VStr (py_str (py_or (dict_get (u "sha256") VNone d) (VStr []))))]
  end.

(** An operation on the staged files: it may raise instead. *)
Definition file_op (f : gmap pystr (list N) → gmap pystr (list N)) : py P unit :=
fault ← ask pw_fault;
match fault with Some (e, _) => raise e | None => modify (λ p, with_files (f (files p)) p) end.

(** [handle.write(data)]: a write that fails may have written a part. *)
Definition append_file (path : pystr) (data : list N) (fs : gmap pystr (list N)) : gmap pystr (list N) :=
<[path := default [] (fs !! path) ++ data]> fs.
Definition write_file (path : pystr) (data : list N) : py P unit :=
fault ← ask pw_fault;
match fault with
| Some (e, n) => modify (λ p, with_files (append_file path (take n data) (files p)) p) ;; raise e
| None => modify (λ p, with_files (append_file path data (files p)) p)
end.

(** One chunk: asked for, checked, decoded. *)
Definition fetch_chunk (id name digest : pystr) (size written : Z) : py P (list N) :=
rid ← ask pw_request_id;
resp ← one_shot_request id
  (chunk_request name written (Z.min (artifact_chunk_bytes cfg) (size - written)) rid);
match accepted_reply resp with
| inl None => raise (OSError (u "peer unreachable at offset " ++ str_of_Z written))
| inl (Some reason) => raise (OSError (u "peer refused chunk at " ++ str_of_Z written ++ u ": " ++ reason))
| inr d =>
    answered ← of_res (match py_int (dict_get (u "offset") VNone d) with
                       | Raise (TypeError _) | Raise (ValueError _) => Raise (OSError (u "peer answered without an offset"))
                       | r => r
                       end);
    raise_if (negb (answered =? written)) (OSError (u "peer answered the wrong offset at " ++ str_of_Z written)) ;;
    raise_if (negb (bool_decide (py_str (py_or (dict_get (u "sha256") VNone d) (VStr [])) = digest)))
      (OSError (u "artifact changed on the peer mid-transfer")) ;;
    data ← of_res (b64decode (py_or (dict_get (u "data") VNone d) (VStr [])));
    raise_if (bool_decide (data = [])) (OSError (u "empty chunk at offset " ++ str_of_Z written)) ;;
    raise_if (max_artifact_bytes cfg <? written + Z.of_nat (length data)) (OSError (u "artifact exceeded the size cap")) ;;
    mret data
end.

(** How the transfer ended: the bytes and chunks written, or the bytes and the
exception; [NoFuel] is shown never to happen. *)
Inductive transfer := Transferred (written chunks : Z) | Broken (written : Z) (e : exn) | NoFuel.

(** [while written < size]. *)
Fixpoint download (fuel : nat) (id name digest tmp : pystr) (size written chunks : Z) : py P transfer := λ p,
if size <=? written then (p, Ok (Transferred written chunks))
else match fuel with
     | O => (p, Ok NoFuel)
     | S fuel =>
         match (data ← fetch_chunk id name digest size written; write_file tmp data ;; mret data) p with
         | (p, Ok data) => download fuel id name digest tmp size (written + Z.of_nat (length data)) (chunks + 1) p
         | (p, Raise e) => (p, Ok (Broken written e))
         end
     end.

(** The body of the [try]: into the temporary file, the digest of what was
written, and the move into place. *)
Definition sha256_file (path : pystr) : py P pystr :=
file_op id ;;
p ← get;
let bytes := default [] (files p !! path) in
raise_if (max_artifact_bytes cfg <? Z.of_nat (length bytes))
  (ValueError (u "artifact exceeds " ++ str_of_Z (max_artifact_bytes cfg) ++ u " bytes")) ;;
mret (sha256 bytes).
Definition install (tmp final digest : pystr) : py P unit :=
actual ← sha256_file tmp;
raise_if (negb (bool_decide (actual = digest)))
  (OSError (u "digest mismatch after transfer (" ++ take 12 actual ++ u " != " ++ take 12 digest ++ u ")")) ;;
file_op (λ fs, <[final := default [] (fs !! tmp)]> (delete tmp fs)).

Definition try_transfer (id name digest tmp final : pystr) (size : Z) : py P transfer :=
r ← attempt (file_op (λ fs, <[tmp := []]> fs));
match r with
| Raise e => mret (Broken 0 e)
| Ok _ =>
    t ← download (Z.to_nat size) id name digest tmp size 0 0;
    match t with
    | Transferred written chunks =>
        r ← attempt (install tmp final digest);
        mret (match r with Ok _ => Transferred written chunks | Raise e => Broken written e end)
    | _ => mret t
    end
end.

(** [try: m except OSError]. *)
Definition catch_os {A} (m : py P A) : py P (pystr + A) := λ p,
match m p with
| (p, Ok a) => (p, Ok (inr a))
| (p, Raise (OSError _ as e)) => (p, Ok (inl (exn_text e)))
| (p, Raise e) => (p, Raise e)
end.

(** The handler's clean-up. *)
Definition discard (tmp : pystr) : py P unit :=
p ← get;
if bool_decide (is_Some (files p !! tmp)) then catch_os (file_op (λ fs, delete tmp fs)) ;; mret tt else mret tt.

(** [fetch_artifact]: a refusal after the manifest, the receipt, the transfer
with its outcome, and the whole. *)
Definition fetch_refused (id name reason : pystr) : pydict :=
[(u "status", VStr (u "refused")); (u "peer", VStr id); (u "name", VStr name); (u "reason", VStr reason)].
Definition fetch_receipt (id name final digest : pystr) (written chunks : Z) (now : f64) : pydict :=
[(u "name", VStr name); (u "peer", VStr id); (u "path", VStr final); (u "bytes", VInt written);
 (u "sha256", VStr digest); (u "chunks", VInt chunks); (u "received_at", VFloat now)].

Definition fetch_into (id name target digest : pystr) (size : Z) : py P pydict :=
fault ← catch_os (file_op (λ fs, fs));   (* [os.makedirs] *)
match fault with
| inl text => mret [(u "status", VStr (u "error")); (u "message", VStr (u "stage dir unusable: " ++ text))]
| inr _ =>
    let tmp := path_join target (name ++ u ".part") in
    let final := path_join target name in
    t ← try_transfer id name digest tmp final size;
    match t with
    | Transferred written chunks =>
        now ← ask pw_time;
        let receipt := fetch_receipt id name final digest written chunks now in
        bump (u "artifacts_received") 1 ;;
        modify (λ p, with_receipts (dq_append 16 receipt (receipts p)) p) ;;
        audit_artifact (u "mesh_artifact_received") receipt ;;
        mret ((u "status", VStr (u "success")) :: receipt)
    | Broken written e =>
        discard tmp ;;
        mret [(u "status", VStr (u "error")); (u "peer", VStr id); (u "name", VStr name);
              (u "bytes", VInt written); (u "message", VStr (take 200 (exn_text e)))]
    | NoFuel => raise (RuntimeError [])
    end
end.

Definition target_of (dest_dir : option pystr) : option pystr :=
match dest_dir with
| None | Some [] => match artifact_dir cfg with Some [] => None | d => d end
| d => d
end.
Definition fetch_artifact (id name : pystr) (dest_dir expect_sha256 : option pystr) : py P pydict :=
if negb (artifact_name_ok name) then mret (refused (u "invalid artifact name '" ++ name ++ u "'"))
else
  p ← get;
  if negb (dhas id (outbound p)) then mret (unknown_peer id)
  else match target_of dest_dir with
  | None => mret (refused (u "no staging directory configured on this node"))
  | Some target =>
      manifest ← artifact_manifest id name;
      if negb (py_eq (dict_get (u "status") VNone manifest) (VStr (u "success"))) then
        mret [(u "status", dict_get (u "status") (VStr (u "error")) manifest); (u "peer", VStr id); (u "name", VStr name);
              (u "reason", py_or (dict_get (u "reason") VNone manifest) (dict_get (u "message") VNone manifest))]
      else
        size ← of_res (int_or_zero (dict_get (u "size") VNone manifest));
        let digest := py_str (py_or (dict_get (u "sha256") VNone manifest) (VStr [])) in
        if negb (length digest =? 64)%nat then mret (fetch_refused id name (u "peer advertised no digest"))
        else if (size <=? 0) || (max_artifact_bytes cfg <? size)
        then mret (fetch_refused id name (u "artifact size " ++ str_of_Z size ++ u " exceeds the cap "
                                          ++ str_of_Z (max_artifact_bytes cfg)))
        else if match expect_sha256 with
                | None | Some [] => false
                | Some e => negb (bool_decide (str_lower e = digest))
                end
        then mret (fetch_refused id name (u "peer digest does not match the expected build"))
        else fetch_into id name target digest size
  end.

(** [offer_artifact]. *)
Definition offer_artifact (id name : pystr) : py P pydict :=
d ← artifact_descriptor name;
match d with
| None => mret (refused (u "'" ++ name ++ u "' is not in this node's share directory"))
| Some d =>
    p ← get;
    if negb (dhas id (outbound p)) then mret (unknown_peer id)
    else
      rid ← ask pw_request_id;
      resp ← one_shot_request id
        [(u "type", VStr (u "artifact_offer")); (u "from", VStr (agent_id cfg)); (u "name", VStr name);
         (u "size", VInt (de_size d)); (u "sha256", VStr (de_sha256 d)); (u "id", VStr rid)];
      match accepted_reply resp with
      | inl None => mret (unreachable id)
      | inl (Some reason) => mret (peer_refused id reason)
      | inr _ =>
          let detail := [(u "name", VStr (de_name d)); (u "peer", VStr id); (u "size", VInt (de_size d));
                         (u "sha256", VStr (de_sha256 d))] in
          bump (u "artifacts_sent") 1 ;;
          audit_artifact (u "mesh_artifact_offered") detail ;;
          mret ((u "status", VStr (u "success")) :: detail)
      end
end.

(** [_receive_offered_artifact], the body of an offer's thread: an exception
ends the thread. *)
Definition receive_offered_artifact (o : offer) : py P unit :=
result ← fetch_artifact (of_peer o) (of_name o) None (Some (of_sha256 o));
if py_eq (dict_get (u "status") VNone result) (VStr (u "success")) then mret tt
else audit_artifact (u "mesh_artifact_failed")
       [(u "name", VStr (of_name o)); (u "peer", VStr (of_peer o)); (u "size", VInt (of_size o));
        (u "reason", py_or (dict_get (u "reason") VNone result) (dict_get (u "message") VNone result))].

(** The next such thread runs. *)
Definition run_offer : py P unit :=
p ← get;
match offers p with
| [] => mret tt
| o :: rest => modify (with_offers rest) ;; attempt (receive_offered_artifact o) ;; mret tt
end.

(** [artifact_receipts]. *)
Definition artifact_receipts (limit : Z) (p : P) : list pydict :=
drop (length (receipts p) - Z.to_nat (Z.max 1 limit)) (receipts p).

(** ** Sharing memory *)

(** What of a fact is told to a peer. *)
Definition told (fact : pyval) : res (list pydict) :=
match fact with
| VDict d =>
    let content := dict_get (u "content") VNone d in
    if negb (truthy content) then Ok []
    else
      meta ← as_dict (py_or (dict_get (u "metadata") VNone d) (VDict []));
      Ok [[(u "fact", content); (u "salience", dict_get (u "salience") (VFloat f1) d);
           (u "kind", dict_get (u "kind") (VStr (u "fact")) d);
           (u "origin", py_or (dict_get (u "shared_from") VNone meta) (VStr (agent_id cfg)));
           (u "source", VStr (agent_id cfg))]]
| _ => Ok []
end.

(** [_memory_search] over a memory manager. *)
Definition memory_search (query top_k : pyval) : py P (list pydict) :=
if negb (has_memory cfg) || negb (truthy query) then mret []
else
  limit ← (if truthy top_k then n ← of_res (py_int top_k); mret (Z.max 1 n) else mret 5);
  facts ← ask (pw_retrieve query limit);
  match facts with
  | Raise _ => mret []
  | Ok facts => results ← of_res (res_map told facts); mret (concat results)
  end.

(** [_memory_export] and [_memory_import]: what the backend raises is
nothing. *)
Definition memory_export (since : pyval) : py P (list pyval) :=
if has_memory cfg then r ← ask (pw_export since); mret (match r with Ok l => l | Raise _ => [] end)
else mret [].
Definition memory_import (facts : pyval) (source : pystr) : py P (Z * Z) :=
if has_memory cfg then r ← ask (pw_import facts source); mret (match r with Ok n => n | Raise _ => (0, 0) end)
else mret (0, 0).

(** [while events and events[0] < cutoff: events.popleft()]. *)
Fixpoint pop_before (cutoff : f64) (events : list f64) : list f64 :=
match events with
| t :: rest => if fltb t cutoff then pop_before cutoff rest else events
| [] => []
end.

(** [_note_conflicts]. *)
Definition note_conflicts (source : pystr) (duplicates : Z) : py P unit :=
if duplicates <=? 0 then mret tt
else
  now ← ask pw_monotonic;
  modify (λ p, with_conflicts (pop_before (fsub now (conflict_window_s cfg))
                                 (conflict_events p ++ replicate (Z.to_nat duplicates) now)) p) ;;
  p ← get;
  match fallbacks p with
  | Some c =>
      if conflict_threshold cfg <=? Z.of_nat (length (conflict_events p)) then
        modify (with_fallbacks (Some
          (report_violation (u "memory_sync_conflict_storm")
             (str_of_Z (conflict_threshold cfg) ++ u "+ duplicate facts within "
              ++ fmt_fixed 0 (conflict_window_s cfg) ++ u "s from '" ++ source ++ u "'") c).1))
      else mret tt
  | None => mret tt
  end.

(** [send]. *)
Definition send (id topic : pystr) (payload : pyval) : py P pydict :=
p ← get;
match dget id (outbound p) with
| None => mret (unknown_peer id)
| Some up =>
    up ← (if up : bool then mret true else connect id);
    if negb up then mret (refused (u "peer '" ++ id ++ u "' not reachable"))
    else
      rid ← ask pw_request_id;
      ok ← link_send id (stamp (auth_token cfg)
             [(u "type", VStr (u "send")); (u "from", VStr (agent_id cfg)); (u "topic", VStr topic);
              (u "payload", payload); (u "id", VStr rid)]);
      if ok : bool then
        bump (u "sent") 1 ;;
        mret [(u "status", VStr (u "success")); (u "via", VStr (u "tcp")); (u "peer", VStr id)]
      else mret [(u "status", VStr (u "error")); (u "message", VStr (u "send failed"))]
end.

(** [query]: the replies of the peers that answered. *)
Fixpoint query_each (query top_k : pyval) (ids : list pystr) (results : list pydict) : py P (list pydict) :=
match ids with
| [] => mret results
| id :: rest =>
    p ← get;
    if negb (dhas id (outbound p)) then query_each query top_k rest results
    else
      rid ← ask pw_request_id;
      resp ← one_shot_request id
        [(u "type", VStr (u "query")); (u "from", VStr (agent_id cfg)); (u "query", query);
         (u "top_k", top_k); (u "id", VStr rid)];
      match accepted_reply resp with
      | inl None => query_each query top_k rest results
      | inl (Some _) => bump (u "errors") 1 ;; query_each query top_k rest results
      | inr d => bump (u "sent") 1 ;; query_each query top_k rest (results ++ [d])
      end
end.
Definition query (q : pyval) (peers : list pystr) (top_k : pyval) : py P (list pydict) :=
p ← get; query_each q top_k (match peers with [] => (outbound p).*1 | _ => peers end) [].

(** [len(facts)] and [facts[-1]] of what a peer sent. *)
Definition py_len (v : pyval) : res Z :=
match v with
| VList l => Ok (Z.of_nat (length l))
| VDict d => Ok (Z.of_nat (length d))
| VStr s => Ok (Z.of_nat (length s))
| _ => Raise (TypeError (u "object has no len()"))
end.
Definition last_fact (facts : pyval) : res pyval :=
match facts with
| VList l => Ok (default VNone (last l))
| VStr s => Ok (VStr (match last s with Some c => [c] | None => [] end))
| VDict _ => Raise (KeyError (u "-1"))
| _ => Raise (TypeError (u "object is not subscriptable"))
end.

(** [sync]: what it does with the reply, and the whole. *)
Definition merge_reply (pid : pystr) (resp : option pyval) : py P pydict :=
match accepted_reply resp with
| inl None => mret [(u "status", VStr (u "error")); (u "message", VStr (u "sync unreachable")); (u "peer", VStr pid)]
| inl (Some reason) =>
    bump (u "errors") 1 ;;
    mret [(u "status", VStr (u "error")); (u "peer", VStr pid); (u "message", VStr reason);
          (u "received", VInt 0); (u "imported", VInt 0); (u "duplicates", VInt 0)]
| inr d =>
    bump (u "sent") 1 ;;
    let facts := py_or (dict_get (u "facts") VNone d) (VList []) in
    '(imported, duplicates) ← memory_import facts pid;
    note_conflicts pid duplicates ;;
    bump (u "imported") imported ;;
    (if truthy facts then
       newest ← of_res (f ← last_fact facts; Ok (match f with VDict d => dict_get (u "created_at") VNone d | _ => VNone end));
       if truthy newest then modify (λ p, with_watermarks (dset pid newest (sync_watermarks p)) p) else mret tt
     else mret tt) ;;
    n ← of_res (py_len facts);
    mret [(u "status", VStr (u "success")); (u "peer", VStr pid); (u "received", VInt n);
          (u "imported", VInt imported); (u "duplicates", VInt duplicates)]
end.

Definition sync (id : option pystr) (since : option pyval) : py P pydict :=
p ← get;
match (match id with None | Some [] => head (outbound p).*1 | _ => id end) with
| None => mret (refused (u "no peers available"))
| Some pid =>
    if negb (dhas pid (outbound p)) then mret (unknown_peer pid)
    else
      let watermark := match since with Some v => v | None => default VNone (dget pid (sync_watermarks p)) end in
      rid ← ask pw_request_id;
      resp ← one_shot_request pid
        [(u "type", VStr (u "sync")); (u "from", VStr (agent_id cfg)); (u "since", watermark); (u "id", VStr rid)];
      merge_reply pid resp
end.

(** ** Inbound frames *)

(** [_send_json]. *)
Definition send_json (msg : pydict) : py P unit := modify (λ p, with_answers (answers p ++ [msg]) p).

(** [resp.update(...)]. *)
Definition addressed (resp : pydict) (id : pyval) : pydict :=
dict_update resp [(u "in_response_to", id); (u "from", VStr (agent_id cfg))].

(** [_dispatch_message]; what no request waits for is dropped. *)
Definition dispatch_message (msg : pydict) : py P unit :=
bump (u "received") 1 ;;
let id := dict_get (u "id") (VStr []) msg in
let kind t := py_eq (dict_get (u "type") VNone msg) (VStr (u t)) in
let text key := py_str (py_or (dict_get (u key) VNone msg) (VStr [])) in
if kind "send" then
  send_json [(u "type", VStr (u "ack")); (u "in_response_to", id); (u "status", VStr (u "received"))] ;;
  p ← get;
  if has_send_handler (hooks p)
  then tell (pw_on_send (text "from") (text "topic") (dict_get (u "payload") VNone msg)) else mret tt
else if kind "query" then
  let q := dict_get (u "query") (VStr []) msg in
  results ← memory_search q (dict_get (u "top_k") VNone msg);
  send_json [(u "type", VStr (u "query_result")); (u "in_response_to", id); (u "from", VStr (agent_id cfg));
             (u "query", q); (u "results", VList (VDict <$> results))]
else if kind "sync" then
  let since := dict_get (u "since") VNone msg in
  facts ← memory_export since;
  send_json [(u "type", VStr (u "sync_result")); (u "in_response_to", id); (u "from", VStr (agent_id cfg));
             (u "since", since); (u "facts", VList facts); (u "count", VInt (Z.of_nat (length facts)))]
else if kind "heartbeat" then on_heartbeat_message msg
else if kind "artifact_manifest" || kind "artifact" || kind "artifact_offer" then
  resp ← (if kind "artifact_manifest" then artifact_manifest_reply (dict_get (u "name") (VStr []) msg)
          else if kind "artifact" then artifact_chunk_reply msg
          else artifact_accept_offer msg);
  send_json (addressed resp id)
else mret tt.

(** A connection from a peer, whole. *)
Definition serve_peer (events : list recv) (p : P) : P * option (list N) :=
handle_client json_loads frame_max (auth_token cfg) dispatch_message events [] p.
End Runtime.
