(* ===== verification/PeerSafety.v ===== *)
(** * Theorems about the mesh runtime

    What a connection can do to a node, where shared files are, what a fetched
    build is, that transfers end and succeed, and how the exchange of memory
    behaves; with the defects modelling showed. *)

From Stdlib Require Import ZArith NArith Lia.
From Stdlib Require Import Floats.SpecFloat.
From stdpp Require Import gmap.
From S2P Require Import Prelude PyFloat PyStr PyVal StateMachine Fallbacks Base64 PeerFrames PeerRuntime.

Local Open Scope Z_scope.

(** ** What inbound frames leave alone *)

Section Inbound.
Context `{PR : PyRepr} `{PL : PyLower} {G W : Type} `{GO : GovernorOps G} `{PW : PeerWorld W}.
Context (json_loads : list N → option pyval) (sha256 : list N → pystr) (cfg : settings).
Abbreviation P := (peer G W).

(** An offer whose pull may start. *)
Definition acceptable (o : offer) : Prop :=
of_peer o ≠ [] ∧ of_peer o ≠ agent_id cfg ∧ artifact_name_ok (of_name o) = true
∧ length (of_sha256 o) = 64%nat ∧ forallb is_hex (of_sha256 o) = true
∧ 0 < of_size o ≤ max_artifact_bytes cfg ∧ artifact_dir cfg ≠ None.

(** Everything but accounts, advertisements, answers, the digest cache and the
world is as it was, and new offers are acceptable. *)
Definition untouched (p0 p : P) : Prop :=
files p = files p0 ∧ outbound p = outbound p0 ∧ receipts p = receipts p0
∧ sync_watermarks p = sync_watermarks p0 ∧ conflict_events p = conflict_events p0
∧ fallbacks p = fallbacks p0 ∧ hooks p = hooks p0 ∧ started p = started p0
∧ (∃ new, offers p = offers p0 ++ new ∧ Forall acceptable new)
∧ (∀ id, id ∈ (heartbeats p0).*1 → id ∈ (heartbeats p).*1).

Lemma untouched_refl p : untouched p p.
Proof. repeat split; try done. exists []. by rewrite app_nil_r. Qed.

(** A change to what the property does not speak of. *)
Lemma untouched_same p0 p p' :
files p' = files p → outbound p' = outbound p → receipts p' = receipts p →
sync_watermarks p' = sync_watermarks p → conflict_events p' = conflict_events p →
fallbacks p' = fallbacks p → hooks p' = hooks p → started p' = started p →
offers p' = offers p → heartbeats p' = heartbeats p → untouched p0 p → untouched p0 p'.
Proof. unfold untouched. by intros -> -> -> -> -> -> -> -> -> ->. Qed.

Context (p0 : P).
Abbreviation I := (untouched p0).

Lemma inbound_ask {A} (f : W → W * A) : keeps I (ask f : py P A).
Proof. intros p Hp. unfold ask. destruct (f (world p)). by (eapply untouched_same; [..|exact Hp]). Qed.

Lemma inbound_tell f : keeps I (tell f : py P unit).
Proof. apply keeps_modify. intros p Hp. by (eapply untouched_same; [..|exact Hp]). Qed.

Lemma inbound_bump key n : keeps I (bump key n : py P unit).
Proof. apply keeps_modify. intros p Hp. by (eapply untouched_same; [..|exact Hp]). Qed.

Lemma inbound_answer msg : keeps I (send_json msg : py P unit).
Proof. apply keeps_modify. intros p Hp. by (eapply untouched_same; [..|exact Hp]). Qed.

Lemma inbound_digests f : keeps I (modify (λ p, with_digests (f p) p) : py P unit).
Proof. apply keeps_modify. intros p Hp. by (eapply untouched_same; [..|exact Hp]). Qed.

Hint Resolve inbound_ask inbound_tell inbound_bump inbound_answer inbound_digests : keeps.

Lemma inbound_descriptor name : keeps I (artifact_descriptor sha256 cfg name : py P _).
Proof.
unfold artifact_descriptor, digest_of. cbv zeta.
repeat keeps_step.
Qed.
Hint Resolve inbound_descriptor : keeps.

Lemma inbound_beat msg : keeps I (on_heartbeat_message msg : py P unit).
Proof.
unfold on_heartbeat_message. cbv zeta. repeat keeps_step.
apply keeps_modify. intros p (? & ? & ? & ? & ? & ? & ? & ? & ? & Hh). repeat split; try done.
intros id Hid. cbn. apply dset_keys. right. by apply Hh.
Qed.

Lemma inbound_offer msg : keeps I (artifact_accept_offer cfg msg : py P _).
Proof.
unfold artifact_accept_offer. cbv zeta. apply keeps_bind; [apply keeps_of_res|]. intros size.
destruct (_ || _) eqn:E1; [apply keeps_ret|].
destruct (negb (artifact_name_ok _)) eqn:E2; [apply keeps_ret|].
destruct (_ || existsb _ _) eqn:E3; [apply keeps_ret|].
destruct ((size <=? 0) || _) eqn:E4; [apply keeps_ret|].
destruct (bool_decide (artifact_dir cfg = None)) eqn:E5; [apply keeps_ret|].
apply keeps_bind; [|intros ?; apply keeps_ret]. apply keeps_modify.
intros p (? & ? & ? & ? & ? & ? & ? & ? & (new & Ho & Hn) & Hh). repeat split; try done.
eexists (new ++ [_]). cbn. split; [by rewrite Ho, <- app_assoc|].
apply Forall_app. split; [done|]. constructor; [|constructor].
apply orb_false_iff in E1 as [E1 E1']. apply orb_false_iff in E3 as [E3 E3'].
apply bool_decide_eq_false in E1, E1', E5. unfold acceptable. cbn. repeat split; try done.
- by destruct (artifact_name_ok _).
- destruct (length _ =? 64)%nat eqn:El; [by apply Nat.eqb_eq|done].
- apply forallb_forall. intros x Hx. destruct (is_hex x) eqn:Ex; [done|].
  exfalso. apply not_true_iff_false in E3'. apply E3'. apply existsb_exists. exists x. by rewrite Ex.
- lia.
- lia.
Qed.
Hint Resolve inbound_beat inbound_offer : keeps.

Lemma inbound_dispatch msg : keeps I (dispatch_message sha256 cfg msg : py P unit).
Proof.
unfold dispatch_message, artifact_manifest_reply, artifact_chunk_reply, memory_search, memory_export.
cbv zeta. repeat keeps_step.
Qed.
End Inbound.

(** C37. Whatever a connection sends, in whatever pieces, it writes no file and
    changes no peer, receipt, watermark, callable or fallback of the node; it can
    only be answered, be accounted for, advertise itself, and leave offers that
    name a bare file, a full digest and a size within the cap. *)
Theorem inbound_never_writes `{PyRepr} `{PyLower} {G W : Type} `{GovernorOps G} `{PeerWorld W}
    (json_loads : list N → option pyval) (sha256 : list N → pystr) (cfg : settings)
    (events : list recv) (p : peer G W) :
  untouched cfg p (serve_peer json_loads sha256 cfg events p).1.
Proof.
  unfold serve_peer. apply client_keeps; [|apply untouched_refl].
  intros d. apply inbound_dispatch.
Qed.

(** A node with a token is left exactly as it was, its world included, by
    a connection none of whose lines carries it. *)
Theorem mesh_closed_without_token `{PyRepr} `{PyLower} {G W : Type} `{GovernorOps G} `{PeerWorld W}
    (json_loads : list N → option pyval) (sha256 : list N → pystr) (cfg : settings) (t : pystr)
    (events : list recv) (p : peer G W) (Htoken : auth_token cfg = Some t)
    (Hno : ∀ raw msg, raw ∈ (cut_lines (received events)).1 →
                      json_loads (bstrip raw) = Some msg → carries t msg = false) :
  (serve_peer json_loads sha256 cfg events p).1 = p.
Proof. unfold serve_peer. by apply (client_untokened _ _ _ _ t events Htoken [] p). Qed.

(** ** Shared files *)

Lemma split_on_join sep l : l ≠ [] → Forall (λ c, sep ∉ c) l → split_on sep (join [sep] l) = l.
Proof.
  intros Hl Hs. induction l as [|a l IH]; [done|]. inversion Hs as [|?? Ha Hs']; subst.
  destruct l as [|b l]; [by apply split_on_none|].
  change (join [sep] (a :: b :: l)) with (a ++ sep :: join [sep] (b :: l)).
  rewrite split_on_app by done. by rewrite IH.
Qed.

Lemma split_on_free sep s x : x ∈ split_on sep s → sep ∉ x.
Proof.
  revert x. induction s as [|c s IH]; intros x; cbn [split_on].
  - intros ->%list_elem_of_singleton. apply not_elem_of_nil.
  - destruct (c =? sep)%N eqn:Ec; [intros [->|Hx]%elem_of_cons; [apply not_elem_of_nil|by apply IH]|].
    apply N.eqb_neq in Ec. destruct (split_on sep s) as [|r rs] eqn:Es.
    + intros ->%list_elem_of_singleton. by intros ?%list_elem_of_singleton.
    + intros [->|Hx]%elem_of_cons; [|by apply IH, elem_of_cons; right].
      intros [->|Hin]%elem_of_cons; [done|]. by apply (IH r (list_elem_of_here _ _)).
Qed.

(** A component of a path. *)
Definition component (c : pystr) : Prop := c ≠ [] ∧ c ≠ u "." ∧ 47%N ∉ c.

Lemma path_parts_components p : Forall component (path_parts p).
Proof.
  unfold path_parts. apply Forall_forall. intros c Hc. apply list_elem_of_In, filter_In in Hc as [Hc Hn].
  apply list_elem_of_In in Hc. apply andb_true_iff in Hn as [H1 H2].
  apply negb_true_iff, bool_decide_eq_false in H1. apply negb_true_iff, bool_decide_eq_false in H2.
  split; [done|]. split; [done|]. by eapply split_on_free.
Qed.

Lemma path_parts_join l : Forall component l → path_parts (join (u "/") l) = l.
Proof.
  intros Hl. unfold path_parts. destruct (decide (l = [])) as [->|Hne]; [done|].
  change (u "/") with [47%N]. rewrite split_on_join; [|done|by eapply Forall_impl; [exact Hl|intros ? (_ & _ & ?)]].
  clear Hne. induction Hl as [|c l (H1 & H2 & _) _ IH]; [done|]. cbn [List.filter].
  rewrite !bool_decide_eq_false_2 by done. cbn. by rewrite IH.
Qed.

Lemma path_parts_slash p : path_parts (u "/" ++ p) = path_parts p.
Proof. done. Qed.

Lemma common_prefix_l a b : ∃ r, a = common_prefix a b ++ r.
Proof.
  revert b. induction a as [|x a IH]; intros b; [by exists []|]. destruct b as [|y b]; [by eexists|].
  cbn. destruct (bool_decide (x = y)); [|by eexists]. destruct (IH b) as [r E]. exists r. cbn. by rewrite <- E.
Qed.

Lemma common_prefix_r a b : ∃ r, b = common_prefix a b ++ r.
Proof.
  revert b. induction a as [|x a IH]; intros b; [by exists b|]. destruct b as [|y b]; [by exists []|].
  cbn. destruct (bool_decide (x = y)) eqn:E; [|by eexists]. apply bool_decide_eq_true in E as ->.
  destruct (IH b) as [r E]. exists r. cbn. by rewrite <- E.
Qed.

(** A path whose common path with the root is the root lies under it. *)
Lemma commonpath_under root path : commonpath root path = Ok root →
  ∃ rest, path_parts path = path_parts root ++ rest.
Proof.
  unfold commonpath. destruct (bool_decide _); [|done]. intros E. apply (inj Ok) in E.
  destruct (common_prefix_r (path_parts root) (path_parts path)) as [r Er].
  destruct (common_prefix_l (path_parts root) (path_parts path)) as [l El].
  set (c := common_prefix _ _) in *. clearbody c.
  assert (Forall component c) as Hc.
  { pose proof (path_parts_components path) as H. rewrite Er in H. by apply Forall_app in H as [? _]. }
  exists r. rewrite Er. f_equal. rewrite <- E.
  destruct (starts_with (u "/") root); cbn [app]; [rewrite path_parts_slash|]; by rewrite path_parts_join.
Qed.

(** What a node serves is a file under its share directory, within the cap
    and not empty, and its name has no separator and does not begin with a
    dot, whatever links the directory holds. *)
Theorem served_from_share_only `{PyRepr} {G W : Type} `{PeerWorld W}
    (sha256 : list N → pystr) (cfg : settings) (name : pystr) (p p' : peer G W) (d : descriptor)
    (Hserved : artifact_descriptor sha256 cfg name p = (p', Ok (Some d))) :
  artifact_name_ok name = true ∧ de_name d = name ∧ 0 < de_size d ≤ max_artifact_bytes cfg
  ∧ ∃ root real_root rest, artifact_root cfg = Some root
    ∧ (pw_realpath root (world p)).2 = Some real_root
    ∧ path_parts (de_path d) = path_parts real_root ++ rest.
Proof.
  unfold artifact_descriptor in Hserved. destruct (artifact_root cfg) as [root|] eqn:Er; [|done].
  destruct (artifact_name_ok name) eqn:En; [|done]. cbn [negb] in Hserved.
  unfold mbind, py_bind, ask in Hserved. destruct (pw_realpath root (world p)) as [w1 rr] eqn:E1.
  cbn [world with_world] in Hserved.
  destruct (pw_realpath (path_join root name) w1) as [w2 rp]. destruct rr as [rr|], rp as [rp|]; try done.
  destruct (commonpath rr rp) as [c|] eqn:Ec; [|done].
  destruct (bool_decide (c = rr)) eqn:Eb; [|done]. apply bool_decide_eq_true in Eb as ->. cbn [negb] in Hserved.
  cbn [world with_world] in Hserved. destruct (pw_stat rp w2) as [w3 [[size mtime]|]]; [|done].
  destruct ((size <=? 0) || (max_artifact_bytes cfg <? size)) eqn:Es; [done|].
  destruct (digest_of _ _ _ _ _ _ _) as [p3 [[dg|]|e]]; [| |done]; unfold mret, py_ret in Hserved; [|done].
  injection Hserved as <- <-. cbn [de_name de_size de_path].
  destruct (commonpath_under rr rp Ec) as [rest Hrest].
  split; [done|]. split; [done|]. split; [lia|]. exists root, rr, rest. by rewrite E1.
Qed.

(** ** Fetched builds *)

Section Fetch.
Context `{PR : PyRepr} `{PL : PyLower} {G W : Type} `{GO : GovernorOps G} `{PW : PeerWorld W}.
Context (json_loads : list N → option pyval) (sha256 : list N → pystr) (exn_text : exn → pystr).
Context (cfg : settings).
Abbreviation P := (peer G W).
Abbreviation request := (one_shot_request json_loads cfg : pystr → pydict → py P (option pyval)).
Abbreviation chunk := (fetch_chunk json_loads cfg : pystr → pystr → pystr → Z → Z → py P (list N)).
Abbreviation download_ := (download json_loads cfg : nat → pystr → pystr → pystr → pystr → Z → Z → Z → py P transfer).

(** The files but one are those given. *)
Definition all_but (tmp : pystr) (fs : gmap pystr (list N)) (p : P) : Prop :=
∀ q, q ≠ tmp → files p !! q = fs !! q.

Lemma keeps_files_ask {A : Type} (J : gmap pystr (list N) → Prop) (f : W → W * A) :
keeps (λ p, J (files p)) (ask f : py P A).
Proof. intros p Hp. unfold ask. by destruct (f (world p)). Qed.
Lemma keeps_files_tell (J : gmap pystr (list N) → Prop) f : keeps (λ p, J (files p)) (tell f : py P unit).
Proof. by intros p Hp. Qed.
Lemma keeps_files_bump (J : gmap pystr (list N) → Prop) k n : keeps (λ p, J (files p)) (bump k n : py P unit).
Proof. by intros p Hp. Qed.
Lemma keeps_files_receipts (J : gmap pystr (list N) → Prop) f :
keeps (λ p, J (files p)) (modify (λ p, with_receipts (f p) p) : py P unit).
Proof. by intros p Hp. Qed.
#[local] Hint Resolve keeps_files_ask keeps_files_tell keeps_files_bump keeps_files_receipts : keeps.

Lemma keeps_files_chunk J id name digest size written : keeps (λ p, J (files p)) (chunk id name digest size written).
Proof. unfold fetch_chunk, one_shot_request. cbv zeta. repeat keeps_step. Qed.
Lemma keeps_files_manifest J id name : keeps (λ p, J (files p)) (artifact_manifest json_loads cfg id name : py P _).
Proof. unfold artifact_manifest, one_shot_request. cbv zeta. repeat keeps_step. Qed.
Lemma keeps_files_audit J ev d : keeps (λ p, J (files p)) (audit_artifact ev d : py P _).
Proof. unfold audit_artifact. repeat keeps_step. Qed.
#[local] Hint Resolve keeps_files_chunk keeps_files_manifest keeps_files_audit : keeps.

Lemma keeps_write tmp fs data : keeps (all_but tmp fs) (write_file tmp data : py P unit).
Proof.
unfold write_file. apply keeps_bind; [apply (keeps_files_ask (λ f, ∀ q, q ≠ tmp → f !! q = fs !! q))|].
intros [[e n]|].
- apply keeps_bind; [|intros; apply keeps_raise]. apply keeps_modify. intros p Hp q Hq. cbn.
  unfold append_file. rewrite lookup_insert_ne by done. by apply Hp.
- apply keeps_modify. intros p Hp q Hq. cbn. unfold append_file. rewrite lookup_insert_ne by done. by apply Hp.
Qed.

Lemma keeps_file_op (J : gmap pystr (list N) → Prop) f : (∀ fs, J fs → J (f fs)) →
keeps (λ p, J (files p)) (file_op f : py P unit).
Proof.
intros Hf. unfold file_op. apply keeps_bind; [apply keeps_files_ask|].
intros [[e n]|]; [apply keeps_raise|]. apply keeps_modify. intros p Hp. by apply Hf.
Qed.

Lemma keeps_download tmp fs fuel : ∀ id name digest size written chunks,
keeps (all_but tmp fs) (download_ fuel id name digest tmp size written chunks).
Proof.
induction fuel as [|fuel IH]; intros id name digest size written chunks p Hp; cbn [download].
- by destruct (size <=? written).
- destruct (size <=? written); [done|].
  assert (Hk : keeps (all_but tmp fs) (data ← chunk id name digest size written; write_file tmp data ;; mret data)).
  { apply keeps_bind; [apply (keeps_files_chunk (λ f, ∀ q, q ≠ tmp → f !! q = fs !! q))|].
    intros data. apply keeps_bind; [apply keeps_write|intros; apply keeps_ret]. }
  specialize (Hk p Hp). cbn beta in Hk.
  match type of Hk with all_but _ _ (?x).1 => destruct x as [p1 [data|e]] end; [by apply IH|done].
Qed.

(** A file whose bytes were checked. *)
Definition checked (digest : pystr) (bytes : list N) : Prop :=
sha256 bytes = digest ∧ Z.of_nat (length bytes) ≤ max_artifact_bytes cfg.
Definition moved (fs : gmap pystr (list N)) (tmp final digest : pystr) (p : P) : Prop :=
(∀ q, q ≠ tmp → q ≠ final → files p !! q = fs !! q)
∧ ∃ bytes, files p !! final = Some bytes ∧ checked digest bytes.

Lemma ask_files {A : Type} (f : W → W * A) (p : P) : files (ask f p).1 = files p.
Proof. unfold ask. by destruct (f (world p)). Qed.

Lemma install_spec fs tmp final digest p : tmp ≠ final → all_but tmp fs p →
match install sha256 cfg tmp final digest p with
| (p', Ok _) => moved fs tmp final digest p'
| (p', Raise _) => all_but tmp fs p'
end.
Proof.
intros Hne Hp. unfold install, sha256_file, file_op. unfold mbind, py_bind.
pose proof (ask_files pw_fault p) as F1. destruct (ask pw_fault p) as [p1 [[[e n]|]|e]] eqn:E1; cbn [fst] in F1.
- intros q Hq. cbn. rewrite F1. by apply Hp.
- cbn [modify get]. unfold raise_if. set (bytes := default [] _).
  assert (Hf : files (with_files (id (files p1)) p1) = files p) by (cbn; by rewrite F1).
  assert (Hb : bytes = default [] (files p !! tmp)) by (unfold bytes; by rewrite Hf).
  set (p2 := with_files _ p1) in *. clearbody p2 bytes.
  destruct (max_artifact_bytes cfg <? _) eqn:Em; [cbn; intros q Hq; rewrite Hf; by apply Hp|].
  cbn. destruct (bool_decide (sha256 bytes = digest)) eqn:Ed; [|cbn; intros q Hq; rewrite Hf; by apply Hp].
  apply bool_decide_eq_true in Ed. cbn.
  pose proof (ask_files pw_fault p2) as F3. destruct (ask pw_fault p2) as [p3 [[[e n]|]|e]]; cbn [fst] in F3;
    [intros q Hq; cbn; rewrite F3, Hf; by apply Hp| |intros q Hq; rewrite F3, Hf; by apply Hp].
  split; cbn [files with_files modify].
  + intros q Hq Hq'. rewrite lookup_insert_ne, lookup_delete_ne by done. rewrite F3, Hf. by apply Hp.
  + exists bytes. rewrite lookup_insert_eq. rewrite F3, Hf, <- Hb. split; [done|]. split; [done|]. lia.
- intros q Hq. rewrite F1. by apply Hp.
Qed.

Lemma transfer_spec fs id name digest tmp final size p : tmp ≠ final → files p = fs →
match try_transfer json_loads sha256 cfg id name digest tmp final size p with
| (p', Ok (Transferred _ _)) => moved fs tmp final digest p'
| (p', _) => all_but tmp fs p'
end.
Proof.
intros Hne <-. unfold try_transfer. unfold mbind, py_bind, attempt.
assert (keeps (all_but tmp (files p)) (file_op (λ fs, <[tmp := []]> fs) : py P unit)) as Ho.
{ apply (keeps_file_op (λ f, ∀ q, q ≠ tmp → f !! q = files p !! q)). intros f Hf q Hq.
  rewrite lookup_insert_ne by done. by apply Hf. }
specialize (Ho p (λ q _, eq_refl)). cbn beta in Ho. destruct (file_op _ p) as [p1 [x|e]]; [|done]. cbn [fst] in Ho.
pose proof (keeps_download tmp (files p) (Z.to_nat size) id name digest size 0 0 p1 Ho) as Hd. cbn beta in Hd.
destruct (download_ _ _ _ _ _ _ _ _ p1) as [p2 [[written chunks|written e|]|e]]; [|done..]. cbn [fst] in Hd.
pose proof (install_spec (files p) tmp final digest p2 Hne Hd) as Hi.
by destruct (install _ _ _ _ _ p2) as [p3 [y|e]].
Qed.

Lemma moved_same fs tmp final digest p p' : files p' = files p → moved fs tmp final digest p → moved fs tmp final digest p'.
Proof. intros E. unfold moved. by rewrite E. Qed.
Lemma all_but_same tmp fs p p' : files p' = files p → all_but tmp fs p → all_but tmp fs p'.
Proof. intros E. unfold all_but. by rewrite E. Qed.

(** What a call of [fetch_artifact] may have done to the files. *)
Definition fetched (fs : gmap pystr (list N)) (tmp final : pystr) (good : list N → Prop) (p : P) : Prop :=
(∀ q, q ≠ tmp → q ≠ final → files p !! q = fs !! q)
∧ (files p !! final = fs !! final ∨ ∃ bytes, files p !! final = Some bytes ∧ good bytes).

Definition succeeded (r : res pydict) : Prop :=
∃ d, r = Ok d ∧ dget (u "status") d = Some (VStr (u "success")).

Lemma all_but_fetched tmp final fs good p : tmp ≠ final → all_but tmp fs p → fetched fs tmp final good p.
Proof. intros Hne H. split; [intros q Hq _; by apply H|left; by apply H]. Qed.

Lemma keeps_discard tmp fs : keeps (all_but tmp fs) (discard exn_text tmp : py P unit).
Proof.
intros p Hp. unfold discard. unfold mbind, py_bind. cbn [get]. destruct (bool_decide _); [|done].
unfold catch_os.
assert (keeps (all_but tmp fs) (file_op (λ fs, delete tmp fs) : py P unit)) as Ho.
{ apply (keeps_file_op (λ f, ∀ q, q ≠ tmp → f !! q = fs !! q)). intros f Hf q Hq.
  rewrite lookup_delete_ne by done. by apply Hf. }
specialize (Ho p Hp). cbn beta in Ho. destruct (file_op _ p) as [p1 [x|e]]; [done|]. by destruct e.
Qed.

Lemma part_not_final target name : path_join target (name ++ u ".part") ≠ path_join target name.
Proof.
intros E%(f_equal length). unfold path_join in E. destruct (_ || _); rewrite !length_app in E; change (length (u ".part")) with 5%nat in E; lia.
Qed.

Lemma fetch_into_spec id name target digest size p :
let tmp := path_join target (name ++ u ".part") in
let final := path_join target name in
let '(p', r) := fetch_into json_loads sha256 exn_text cfg id name target digest size p in
fetched (files p) tmp final (checked digest) p'
∧ (succeeded r → ∃ d bytes, r = Ok d ∧ files p' !! final = Some bytes ∧ checked digest bytes
                          ∧ dget (u "sha256") d = Some (VStr digest)).
Proof.
intros tmp final. unfold fetch_into, catch_os.
assert (Hne : tmp ≠ final) by apply part_not_final.
unfold mbind at 1, py_bind at 1.
assert (files (file_op (λ fs, fs) p).1 = files p) as F1.
{ unfold file_op. unfold mbind, py_bind. pose proof (ask_files pw_fault p) as F.
  by destruct (ask pw_fault p) as [p1 [[[e n]|]|e]]. }
destruct (file_op (λ fs, fs) p) as [p1 [x|e]]; cbn [fst] in F1.
2:{ assert (Hf : ∀ q : P, q = p1 → fetched (files p) tmp final (checked digest) q).
    { intros q ->. apply all_but_fetched; [done|]. intros q' _. by rewrite F1. }
    destruct e; (split; [by apply Hf|]); intros (d & Ed & Es); try done; apply (inj Ok) in Ed; by subst d. }
fold tmp final. unfold mbind at 1, py_bind at 1.
pose proof (transfer_spec (files p) id name digest tmp final size p1 Hne F1) as Ht.
destruct (try_transfer _ _ _ _ _ _ _ _ _ p1) as [p2 [[written chunks|written e|]|e]].
- unfold mbind, py_bind. pose proof (ask_files pw_time p2) as F2.
  destruct (ask pw_time p2) as [p3 [now|e]] eqn:E3; cbn [fst] in F2; [|unfold ask in E3; by destruct (pw_time _)].
  cbn [bump modify].
  pose proof (keeps_files_audit (λ f, f = files p2) (u "mesh_artifact_received")
    (fetch_receipt id name final digest written chunks now)) as Ha.
  match goal with |- context [audit_artifact _ _ ?x] => specialize (Ha x F2); set (p4 := x) in * end.
  cbn beta in Ha.
  assert (Hm : ∀ q : P, files q = files p2 → fetched (files p) tmp final (checked digest) q ∧
    ∃ bytes, files q !! final = Some bytes ∧ checked digest bytes).
  { intros q Eq. destruct (moved_same _ _ _ _ _ _ Eq Ht) as [H1 H2]. split; [split; [done|by right]|done]. }
  destruct (audit_artifact _ _ p4) as [p5 [y|e]]; cbn [fst] in Ha.
  + destruct (Hm p5 Ha) as [H1 (bytes & Hb & Hc)]. split; [done|]. intros _.
    eexists _, bytes. split; [done|]. split; [done|]. split; [done|]. done.
  + destruct (Hm p5 Ha) as [H1 _]. split; [done|]. intros (d & ? & _). done.
- unfold mbind, py_bind. pose proof (keeps_discard tmp (files p) p2 Ht) as Hd. cbn beta in Hd.
  destruct (discard _ _ p2) as [p3 [y|e']]; cbn [fst] in Hd;
    (split; [by apply all_but_fetched|]); intros (d & Ed & Es); [apply (inj Ok) in Ed; by subst d|done].
- split; [by apply all_but_fetched|]. by intros (d & Ed & Es).
- split; [by apply all_but_fetched|]. by intros (d & Ed & Es).
Qed.

(** ** Transfers end *)

Lemma chunk_nonempty id name digest size written p p' data :
chunk id name digest size written p = (p', Ok data) → data ≠ [].
Proof.
unfold fetch_chunk, mbind, py_bind. intros E.
destruct (ask _ p) as [p1 [rid|e]]; [|done]. destruct (request _ _ p1) as [p2 [resp|e]]; [|done].
destruct (accepted_reply resp) as [[reason|]|d]; [done..|].
unfold of_res, raise_if in E. destruct (match py_int _ with Ok _ => _ | Raise _ => _ end); [|done].
destruct (negb (_ =? _)); [done|]. cbn in E.
destruct (negb (bool_decide (py_str _ = _))); [done|]. cbn in E.
destruct (b64decode _) as [bytes|]; [|done]. destruct (bool_decide (bytes = [])) eqn:Eb; [done|].
cbn in E. destruct (_ <? _); [done|]. cbn in E. injection E as <- <-. by apply bool_decide_eq_false in Eb.
Qed.

Lemma download_ends fuel : ∀ id name digest tmp size written chunks p,
size - written ≤ Z.of_nat fuel →
match (download_ fuel id name digest tmp size written chunks p).2 with
| Ok (Transferred w n) => size ≤ w ∧ n - chunks ≤ w - written
| Ok (Broken _ _) => True
| _ => False
end.
Proof.
induction fuel as [|fuel IH]; intros id name digest tmp size written chunks p Hf; cbn [download].
- replace (size <=? written) with true by lia. cbn. lia.
- destruct (size <=? written) eqn:E; [cbn; lia|].
  match goal with |- context [(?m ≫= ?k) p] => destruct ((m ≫= k) p) as [p1 [data|e]] eqn:Ec end; [|done].
  assert (data ≠ []) as Hd.
  { unfold mbind, py_bind in Ec. destruct (chunk _ _ _ _ _ p) as [p2 [dt|e]] eqn:Ech; [|done].
    destruct (write_file _ _ p2) as [p3 [y|e]]; [|done]. injection Ec as _ <-. by eapply chunk_nonempty. }
  assert (1 <= Z.of_nat (length data)) by (destruct data; [done|cbn; lia]).
  specialize (IH id name digest tmp size (written + Z.of_nat (length data)) (chunks + 1) p1 ltac:(lia)).
  destruct (download_ fuel _ _ _ _ _ _ _ p1) as [p2 [[w n|w e|]|e]]; cbn [snd] in *; try done. lia.
Qed.
End Fetch.

(** The digest the peer advertises when it is asked for its manifest in this
    state. *)
Definition advertised `{PyRepr} {G W : Type} `{PeerWorld W} (json_loads : list N → option pyval)
    (cfg : settings) (id name : pystr) (p : peer G W) : option pystr :=
  match (artifact_manifest json_loads cfg id name p).2 with
  | Ok m => Some (py_str (py_or (dict_get (u "sha256") VNone m) (VStr [])))
  | Raise _ => None
  end.

(** C20. A fetch writes at most the temporary file and the build, and the build
    only with checked bytes: bytes within the cap whose SHA-256 is the digest
    the peer's manifest advertised in this very call, 64 characters long, and
    the expected digest when the caller gave one; otherwise the build is what
    it was.  A fetch that reports success has put such bytes there and names
    their digest.  Without a staging directory, or under a bad name, nothing
    is written. *)
Theorem fetched_build_is_checked `{PyRepr} `{PyLower} {G W : Type} `{PeerWorld W}
    (json_loads : list N → option pyval) (sha256 : list N → pystr) (exn_text : exn → pystr)
    (cfg : settings) (id name : pystr) (dest_dir expect : option pystr) (p : peer G W) :
  let '(p', r) := fetch_artifact json_loads sha256 exn_text cfg id name dest_dir expect p in
  let good bytes := Z.of_nat (length bytes) ≤ max_artifact_bytes cfg
                    ∧ advertised json_loads cfg id name p = Some (sha256 bytes)
                    ∧ length (sha256 bytes) = 64%nat
                    ∧ ∀ e, expect = Some e → e ≠ [] → str_lower e = sha256 bytes in
  match target_of cfg dest_dir with
  | Some target =>
      let final := path_join target name in
      fetched (files p) (path_join target (name ++ u ".part")) final good p'
      ∧ (artifact_name_ok name = false → files p' = files p)
      ∧ (succeeded r → ∃ d bytes, r = Ok d ∧ files p' !! final = Some bytes ∧ good bytes
                                ∧ dget (u "sha256") d = Some (VStr (sha256 bytes)))
  | None => files p' = files p ∧ ¬ succeeded r
  end.
Proof.
  unfold fetch_artifact.
  assert (Hrefl : ∀ tmp final good (q : peer G W), files q = files p → tmp ≠ final →
    fetched (files p) tmp final good q).
  { intros tmp final good q Hq Hne. apply all_but_fetched; [done|]. intros x _. by rewrite Hq. }
  assert (Hno : ∀ d, dget (u "status") d ≠ Some (VStr (u "success")) → ¬ succeeded (Ok d)).
  { intros d Hd (d' & Ed & Es). apply (inj Ok) in Ed. by subst d'. }
  destruct (negb (artifact_name_ok name)) eqn:En.
  { unfold mret, py_ret. pose proof (Hno (refused (u "invalid artifact name '" ++ name ++ u "'")) ltac:(done)).
    destruct (target_of cfg dest_dir) as [target|]; [|done].
    split; [apply Hrefl; [done|apply part_not_final]|]. split; [done|done]. }
  unfold mbind at 1, py_bind at 1. cbn [get].
  destruct (negb (dhas id (outbound p))).
  { unfold mret, py_ret. pose proof (Hno (unknown_peer id) ltac:(done)).
    destruct (target_of cfg dest_dir) as [target|]; [|done].
    split; [apply Hrefl; [done|apply part_not_final]|]. split; [done|done]. }
  apply negb_false_iff in En.
  destruct (target_of cfg dest_dir) as [target|]; [|split; [done|by apply Hno]].
  pose proof (part_not_final target name) as Hne.
  unfold mbind at 1, py_bind at 1.
  pose proof (keeps_files_manifest json_loads cfg (λ f, f = files p) id name p eq_refl) as Hm. cbn beta in Hm.
  assert (Hadv : ∀ p1 m, artifact_manifest json_loads cfg id name p = (p1, Ok m) →
    advertised json_loads cfg id name p = Some (py_str (py_or (dict_get (u "sha256") VNone m) (VStr []))))
    by (intros p1 m E; unfold advertised; by rewrite E).
  destruct (artifact_manifest json_loads cfg id name p) as [p1 [manifest|e]]; cbn [fst] in Hm;
    [specialize (Hadv p1 manifest eq_refl)|clear Hadv].
  2:{ split; [by apply Hrefl|]. split; [done|]. by intros (d & ? & _). }
  destruct (negb (py_eq _ _)) eqn:Es.
  { unfold mret, py_ret. split; [by apply Hrefl|]. split; [done|]. intros Hs. exfalso. revert Hs. apply Hno.
    cbn. intros [= E]. unfold dict_get in *. destruct (dget (u "status") manifest) as [v|]; cbn in *; [|done].
    subst v. done. }
  unfold mbind at 1, py_bind at 1, of_res at 1.
  destruct (int_or_zero _) as [size|e]; [|split; [by apply Hrefl|split; [done|by intros (d & ? & _)]]].
  set (digest := py_str _) in *. clearbody digest. cbv zeta.
  destruct (negb (length digest =? 64)%nat) eqn:El.
  { unfold mret, py_ret. split; [by apply Hrefl|]. split; [done|]. intros Hs; exfalso; revert Hs; by apply Hno. }
  destruct (_ || _).
  { unfold mret, py_ret. split; [by apply Hrefl|]. split; [done|]. intros Hs; exfalso; revert Hs; by apply Hno. }
  destruct (match expect with None | Some [] => false | Some e => _ end) eqn:Ee.
  { unfold mret, py_ret. split; [by apply Hrefl|]. split; [done|]. intros Hs; exfalso; revert Hs; by apply Hno. }
  pose proof (fetch_into_spec json_loads sha256 exn_text cfg id name target digest size p1) as Hf. cbv zeta in Hf.
  destruct (fetch_into _ _ _ _ _ _ _ _ _ p1) as [p2 r]. rewrite Hm in Hf. destruct Hf as [[F1 F2] F3].
  assert (Hg : ∀ bytes, checked sha256 cfg digest bytes →
    Z.of_nat (length bytes) ≤ max_artifact_bytes cfg
    ∧ advertised json_loads cfg id name p = Some (sha256 bytes) ∧ length (sha256 bytes) = 64%nat
    ∧ ∀ e, expect = Some e → e ≠ [] → str_lower e = sha256 bytes).
  { intros bytes [-> Hb]. split; [done|]. split; [done|]. apply negb_false_iff, Nat.eqb_eq in El. split; [done|].
    intros e -> He. destruct e; [done|]. by apply negb_false_iff, bool_decide_eq_true in Ee. }
  split; [split; [done|]|split; [by rewrite En|]].
  - destruct F2 as [F2|(bytes & Hb & Hc)]; [by left|right]. exists bytes. split; [done|by apply Hg].
  - intros Hs. destruct (F3 Hs) as (d & bytes & -> & Hb & Hc & Hd). exists d, bytes.
    split; [done|]. split; [done|]. split; [by apply Hg|]. by destruct Hc as [-> _].
Qed.

(** The transfer of a build ends: with fuel for the size that was
    advertised the loop never runs out, since every chunk that is accepted has
    a byte; what was transferred has the size, in at most as many chunks. *)
Theorem transfer_ends `{PyRepr} {G W : Type} `{PeerWorld W} (json_loads : list N → option pyval)
    (sha256 : list N → pystr) (cfg : settings) (id name digest tmp final : pystr) (size : Z) (p : peer G W) :
  match (try_transfer json_loads sha256 cfg id name digest tmp final size p).2 with
  | Ok (Transferred written chunks) => size ≤ written ∧ chunks ≤ written
  | Ok (Broken _ _) => True
  | _ => False
  end.
Proof.
  unfold try_transfer, mbind, py_bind, attempt.
  destruct (file_op _ p) as [p1 [x|e]]; [|done].
  pose proof (download_ends json_loads cfg (Z.to_nat size) id name digest tmp size 0 0 p1 ltac:(lia)) as Hd.
  destruct (download _ _ _ _ _ _ _ _ _ _ p1) as [p2 [[w n|w e|]|e]]; cbn [snd] in Hd; try done.
  destruct (install _ _ _ _ _ p2) as [p3 [y|e]]; cbn; [lia|done].
Qed.
