(* ===== verification/PeerTransfer.v ===== *)
(** * A build travels between two nodes

    The two ends of a transfer together: a node that shares a build answers
    each request of a fetch as the fetching node needs it, so that the fetch
    succeeds and leaves the build's bytes.  The network between them is an
    instance of [PeerWorld]: the other node's whole state, served a connection
    per request. *)

From Stdlib Require Import ZArith NArith Lia.
From Stdlib Require Import Floats.SpecFloat.
From stdpp Require Import gmap.
From S2P Require Import Prelude PyFloat PyStr PyVal StateMachine Fallbacks Base64 PeerFrames PeerRuntime.

Local Open Scope Z_scope.

(** ** The node that fetches *)

Section Fetcher.
Context `{PR : PyRepr} `{PL : PyLower} {G W : Type} `{GO : GovernorOps G} `{PW : PeerWorld W}.
Context (json_loads : list N → option pyval) (sha256 : list N → pystr) (exn_text : exn → pystr).
Context (cfg : settings) (id name : pystr) (bytes : list N) (share : descriptor) (peer_cfg : settings).
Abbreviation P := (peer G W).
Abbreviation size := (Z.of_nat (length bytes)).
Abbreviation peer_chunk := (artifact_chunk_bytes peer_cfg).

(** The other side: an invariant [J] of the world under which it answers with
the manifest and with the chunk asked for, and nothing fails. *)
Context (J : W → Prop).
Definition answered_with (msg answer : pydict) : Prop := ∀ w, J w →
  J (pw_exchange id (stamp (auth_token cfg) msg) w).1
  ∧ (pw_exchange id (stamp (auth_token cfg) msg) w).2 ≫= reply_of json_loads (frame_max cfg) = Some (VDict answer).
Definition chunk_at (offset : Z) : list N :=
  take (Z.to_nat (Z.min (Z.max 1 (Z.min (artifact_chunk_bytes cfg) (size - offset))) peer_chunk))
       (drop (Z.to_nat offset) bytes).
Definition manifest_reply (rid : pystr) : pydict :=
  addressed peer_cfg (manifest_answer peer_cfg share) (VStr rid).
Definition chunk_reply (offset : Z) (rid : pystr) : pydict :=
  addressed peer_cfg (chunk_answer name offset (chunk_at offset) share) (VStr rid).

(** The offsets a transfer reaches. *)
Definition step_bytes : Z := Z.min (artifact_chunk_bytes cfg) peer_chunk.
Definition reached (offset : Z) : Prop := 0 ≤ offset < size ∧ ∃ k, offset = k * step_bytes.

Context (Hchunks : 1 ≤ artifact_chunk_bytes cfg ∧ 1 ≤ peer_chunk).
Context (Hbytes : Forall is_byte bytes) (Hsize : 0 < size ≤ max_artifact_bytes cfg).
Context (Hshare : de_size share = size ∧ de_sha256 share = sha256 bytes ∧ length (sha256 bytes) = 64%nat).
Context (Hname : artifact_name_ok name = true) (Haudit : ∀ ev d w, J w → J (pw_on_audit ev d w)).
Context (rid : pystr) (Hrid : ∀ w, J w → J (pw_request_id w).1 ∧ (pw_request_id w).2 = rid).
Context (Htime : ∀ w, J w → J (pw_time w).1).
Context (Hfault : ∀ w, J w → J (pw_fault w).1 ∧ (pw_fault w).2 = None).
Context (Hmanifest : answered_with (manifest_request cfg name rid) (manifest_reply rid)).
Context (Hchunk : ∀ offset, reached offset →
  answered_with (chunk_request cfg name offset (Z.min (artifact_chunk_bytes cfg) (size - offset)) rid)
                (chunk_reply offset rid)).

Definition good_peer (p : P) : Prop := J (world p) ∧ dhas id (outbound p) = true.

Lemma ask_good {A : Type} (f : W → W * A) (p : P) : (∀ w, J w → J (f w).1) → good_peer p →
  ask f p = (with_world (f (world p)).1 p, Ok (f (world p)).2) ∧ good_peer (with_world (f (world p)).1 p).
Proof.
  intros Hf [Hj Ho]. unfold ask. specialize (Hf _ Hj). destruct (f (world p)) as [w a]. done.
Qed.

Lemma request_good msg answer p : answered_with msg answer → good_peer p →
  ∃ p', one_shot_request json_loads cfg id msg p = (p', Ok (Some (VDict answer)))
        ∧ files p' = files p ∧ good_peer p'.
Proof.
  intros Ha [Hj Ho]. destruct (Ha _ Hj) as [Hj' Hr]. unfold one_shot_request, mbind, py_bind, ask, mret, py_ret.
  destruct (pw_exchange id _ (world p)) as [w ev]. cbn [fst snd] in Hj', Hr. eexists. split; [by do 2 f_equal; exact Hr|]. done.
Qed.

Lemma chunk_length offset : 0 ≤ offset < size →
  Z.of_nat (length (chunk_at offset)) = Z.min step_bytes (size - offset) ∧ chunk_at offset ≠ [].
Proof.
  intros Ho. unfold chunk_at, step_bytes. rewrite length_take, length_drop.
  assert (Z.of_nat (Nat.min (Z.to_nat (Z.min (Z.max 1 (Z.min (artifact_chunk_bytes cfg) (size - offset))) peer_chunk))
    (length bytes - Z.to_nat offset)) = Z.min (Z.min (artifact_chunk_bytes cfg) peer_chunk) (size - offset)) as E by lia.
  split; [done|]. intros E'. apply (f_equal length) in E'. rewrite length_take, length_drop in E'. cbn in E'. lia.
Qed.

Lemma take_length_self {A : Type} n (l : list A) : take (length (take n l)) l = take n l.
Proof.
  rewrite length_take. destruct (decide (n ≤ length l)%nat); [by rewrite Nat.min_l|].
  rewrite Nat.min_r by lia. rewrite firstn_all. by rewrite take_ge by lia.
Qed.

(** One chunk fetched and written. *)
Lemma chunk_fields offset :
  let d := chunk_reply offset rid in
  peer_error (VDict d) = None ∧ dict_get (u "offset") VNone d = VInt offset
  ∧ dict_get (u "sha256") VNone d = VStr (de_sha256 share)
  ∧ dict_get (u "data") VNone d = VStr (b64encode (chunk_at offset)).
Proof. repeat split. Qed.

Lemma accepted d : d ≠ [] → peer_error (VDict d) = None → accepted_reply (Some (VDict d)) = inr d.
Proof. intros Hd He. unfold accepted_reply. destruct d; [done|]. cbn [truthy]. by rewrite He. Qed.

Lemma fetch_chunk_good offset p : reached offset → good_peer p →
  ∃ p', fetch_chunk json_loads cfg id name (sha256 bytes) size offset p = (p', Ok (chunk_at offset))
        ∧ files p' = files p ∧ good_peer p'.
Proof.
  intros Ho Hp. destruct Ho as [Hr Hk] eqn:E0. clear E0.
  destruct (chunk_length offset Hr) as [Hl Hne].
  unfold fetch_chunk, mbind, py_bind.
  destruct (ask_good pw_request_id p (λ w Hw, proj1 (Hrid w Hw)) Hp) as [-> Hp1].
  rewrite (proj2 (Hrid _ (proj1 Hp))).
  set (p1 := with_world _ p) in *. assert (files p1 = files p) as F1 by done. clearbody p1.
  destruct (request_good _ _ p1 (Hchunk offset (conj Hr Hk)) Hp1) as (p2 & -> & F2 & Hp2).
  destruct (chunk_fields offset) as (E1 & E2 & E3 & E4).
  rewrite accepted by done. cbv zeta in *. rewrite E2, E3, E4. cbn [py_int of_res].
  unfold of_res, raise_if. rewrite Z.eqb_refl. cbn [negb]. unfold mret, py_ret.
  assert (Hs : py_str (py_or (VStr (de_sha256 share)) (VStr [])) = sha256 bytes).
  { destruct Hshare as (_ & -> & Hl64). unfold py_or. cbn [truthy]. by destruct (sha256 bytes). }
  rewrite Hs, bool_decide_eq_true_2 by done. cbn [negb].
  assert (Hd : b64decode (py_or (VStr (b64encode (chunk_at offset))) (VStr [])) = Ok (chunk_at offset)).
  { assert (Forall is_byte (chunk_at offset)) as Hb.
    { unfold chunk_at. apply Forall_take, Forall_drop. done. }
    etransitivity; [|exact (b64_roundtrip _ Hb)]. unfold py_or. cbn [truthy].
    destruct (b64encode (chunk_at offset)); [by rewrite bool_decide_eq_true_2|by rewrite bool_decide_eq_false_2]. }
  rewrite Hd, bool_decide_eq_false_2 by done.
  replace (max_artifact_bytes cfg <? _) with false by lia.
  exists p2. split; [done|]. split; [congruence|done].
Qed.

Lemma file_op_good f p : good_peer p → ∃ p', file_op f p = (p', Ok tt) ∧ files p' = f (files p) ∧ good_peer p'.
Proof.
  intros Hp. unfold file_op, mbind, py_bind.
  destruct (ask_good pw_fault p (λ w Hw, proj1 (Hfault w Hw)) Hp) as [-> Hp1].
  rewrite (proj2 (Hfault _ (proj1 Hp))). eexists. done.
Qed.

Lemma write_good path data p : good_peer p →
  ∃ p', write_file path data p = (p', Ok tt) ∧ files p' = append_file path data (files p) ∧ good_peer p'.
Proof.
  intros Hp. unfold write_file, mbind, py_bind.
  destruct (ask_good pw_fault p (λ w Hw, proj1 (Hfault w Hw)) Hp) as [-> Hp1].
  rewrite (proj2 (Hfault _ (proj1 Hp))). eexists. done.
Qed.

(** The whole transfer. *)
Lemma download_good fuel : ∀ tmp written chunks p, size - written ≤ Z.of_nat fuel →
  reached written ∨ written = size → good_peer p → files p !! tmp = Some (take (Z.to_nat written) bytes) →
  ∃ p' n, download json_loads cfg fuel id name (sha256 bytes) tmp size written chunks p
          = (p', Ok (Transferred size n))
          ∧ files p' !! tmp = Some bytes ∧ good_peer p'.
Proof.
  induction fuel as [|fuel IH]; intros tmp written chunks p Hf Hw Hp Ht; cbn [download].
  - assert (written = size) as -> by (destruct Hw as [[? _]|?]; lia).
    replace (size <=? size) with true by lia. exists p, chunks. split; [done|]. split; [|done].
    rewrite Ht. by rewrite Nat2Z.id, firstn_all.
  - destruct (size <=? written) eqn:E.
    + assert (written = size) as -> by (destruct Hw as [[? _]|?]; lia).
      exists p, chunks. split; [done|]. split; [|done]. rewrite Ht. by rewrite Nat2Z.id, firstn_all.
    + destruct Hw as [Hw|Hw]; [|lia]. pose proof Hw as [Hr [k Hk]].
      destruct (fetch_chunk_good written p Hw Hp) as (p1 & Ec & F1 & Hp1).
      destruct (write_good tmp (chunk_at written) p1 Hp1) as (p2 & Ew & F2 & Hp2).
      destruct (chunk_length written Hr) as [Hl Hne].
      unfold mbind, py_bind. rewrite Ec, Ew. unfold mret, py_ret.
      apply IH; [|unfold reached; destruct (decide (written + Z.of_nat (length (chunk_at written)) = size)) as [|Hd];
                   [by right|left]|done|].
      * unfold step_bytes in Hl. lia.
      * rewrite Hl in *. unfold step_bytes in *. split; [lia|]. exists (k + 1). lia.
      * rewrite F2, F1. unfold append_file. rewrite lookup_insert_eq, Ht. cbn [default from_option].
        f_equal. rewrite Z2Nat.inj_add, Nat2Z.id by lia. rewrite <- take_take_drop. f_equal.
        unfold chunk_at. by rewrite take_length_self.
Qed.

Lemma manifest_good p : good_peer p →
  ∃ p', artifact_manifest json_loads cfg id name p
        = (p', Ok [(u "status", VStr (u "success")); (u "peer", VStr id);
                   (u "name", VStr (py_str (py_or (VStr (de_name share)) (VStr name))));
                   (u "size", VInt size); (u "sha256", VStr (sha256 bytes))])
        ∧ files p' = files p ∧ good_peer p'.
Proof.
  intros Hp. unfold artifact_manifest, mbind, py_bind. cbn [get]. rewrite (proj2 Hp). cbn [negb].
  destruct (ask_good pw_request_id p (λ w Hw, proj1 (Hrid w Hw)) Hp) as [-> Hp1].
  rewrite (proj2 (Hrid _ (proj1 Hp))).
  set (p1 := with_world _ p) in *. assert (files p1 = files p) as F1 by done. clearbody p1.
  destruct (request_good _ _ p1 Hmanifest Hp1) as (p2 & -> & F2 & Hp2).
  rewrite accepted by done. exists p2. split; [|split; [congruence|done]].
  assert (Es : dict_get (u "size") VNone (manifest_reply rid) = VInt size).
  { change (VInt (de_size share) = VInt size). by rewrite (proj1 Hshare). }
  assert (Eh : py_str (py_or (dict_get (u "sha256") VNone (manifest_reply rid)) (VStr [])) = sha256 bytes).
  { change (py_str (py_or (VStr (de_sha256 share)) (VStr [])) = sha256 bytes).
    destruct Hshare as (_ & -> & Hl64). unfold py_or. cbn [truthy]. by destruct (sha256 bytes). }
  rewrite Es, Eh. unfold int_or_zero, py_or, of_res. cbn [truthy].
  replace (negb (size =? 0)) with true by lia. done.
Qed.

Lemma fetch_good dest expect target p : target_of cfg dest = Some target →
  (∀ e, expect = Some e → e ≠ [] → str_lower e = sha256 bytes) → good_peer p →
  ∃ p' d, fetch_artifact json_loads sha256 exn_text cfg id name dest expect p = (p', Ok d)
          ∧ dget (u "status") d = Some (VStr (u "success"))
          ∧ files p' !! path_join target name = Some bytes ∧ good_peer p'.
Proof.
  intros Htarget Hexpect Hp. unfold fetch_artifact, mbind, py_bind. rewrite Hname. cbn [negb get].
  rewrite (proj2 Hp), Htarget. cbn [negb]. destruct (manifest_good p Hp) as (p1 & -> & F1 & Hp1).
  replace (py_eq (dict_get (u "status") VNone _) (VStr (u "success"))) with true by done. cbn [negb].
  match goal with |- context [of_res (int_or_zero ?v)] => change v with (VInt size) end.
  unfold int_or_zero, py_or, of_res. cbn [truthy]. replace (negb (size =? 0)) with true by lia. cbn [py_int].
  match goal with |- context [truthy (dict_get (u "sha256") VNone ?m)] =>
    change (dict_get (u "sha256") VNone m) with (VStr (sha256 bytes)) end.
  destruct Hshare as (Hs1 & Hs2 & Hs3). cbv zeta.
  replace (py_str (if truthy (VStr (sha256 bytes)) then VStr (sha256 bytes) else VStr [])) with (sha256 bytes)
    by (cbn [truthy]; by destruct (sha256 bytes)).
  rewrite Hs3. change (negb (64 =? 64)%nat) with false.
  replace ((size <=? 0) || (max_artifact_bytes cfg <? size)) with false by lia.
  replace (match expect with None | Some [] => false | Some e => negb (bool_decide (str_lower e = sha256 bytes)) end)
    with false by (destruct expect as [[|c e]|]; [done| |done]; by rewrite bool_decide_eq_true_2 by by apply Hexpect).
  cbv iota. unfold fetch_into, catch_os, mbind, py_bind.
  destruct (file_op_good (λ fs, fs) p1 Hp1) as (p2 & -> & F2 & Hp2). cbv zeta.
  set (tmp := path_join target (name ++ u ".part")). set (final := path_join target name).
  unfold try_transfer, mbind, py_bind, attempt.
  destruct (file_op_good (λ fs, <[tmp := []]> fs) p2 Hp2) as (p3 & -> & F3 & Hp3).
  assert (Hlo : reached 0) by (split; [lia|by exists 0]).
  destruct (download_good (Z.to_nat size) tmp 0 0 p3 ltac:(lia) (or_introl Hlo) Hp3) as (p4 & n & -> & F4 & Hp4).
  { rewrite F3, lookup_insert_eq. done. }
  unfold install, sha256_file, mbind, py_bind.
  destruct (file_op_good Datatypes.id p4 Hp4) as (p5 & -> & F5 & Hp5). cbn [get].
  rewrite F5. cbn [Datatypes.id]. rewrite F4. cbn [default from_option]. unfold raise_if.
  cbv beta. change (Datatypes.id bytes) with bytes.
  replace (max_artifact_bytes cfg <? size) with false by lia. cbv iota beta.
  unfold mret, py_ret. rewrite (bool_decide_eq_true_2 (sha256 bytes = sha256 bytes)) by done. cbn [negb].
  destruct (file_op_good (λ fs, <[final:=default [] (fs !! tmp)]> (delete tmp fs)) p5 Hp5) as (p6 & -> & F6 & Hp6).
  destruct (ask_good pw_time p6 Htime Hp6) as [-> Hp7]. set (now := (pw_time (world p6)).2). clearbody now.
  set (p7 := with_world _ p6) in *. assert (files p7 = files p6) as F7 by done. clearbody p7.
  unfold bump, modify, audit_artifact, mbind, py_bind. cbn [get].
  assert (Hfinal : files p7 !! final = Some bytes).
  { rewrite F7, F6, lookup_insert_eq, F5. cbn [Datatypes.id]. by rewrite F4. }
  match goal with |- context [has_audit (hooks ?x)] => set (p8 := x) in * end.
  assert (files p8 = files p7 ∧ good_peer p8) as [F8 Hp8] by done. clearbody p8.
  destruct (has_audit (hooks p8)); eexists _, _; (split; [done|]); (split; [done|]);
    (split; [by rewrite ?F8; cbn; rewrite ?F8|]); [|done].
  destruct Hp8 as [Hj Ho]. split; [by apply Haudit|done].
Qed.
End Fetcher.

(** ** The node that shares *)

Section Sharer.
Context `{PR : PyRepr} `{PL : PyLower} {G W : Type} `{GO : GovernorOps G} `{PW : PeerWorld W}.
Context (json_loads : list N → option pyval) (sha256 : list N → pystr) (cfg : settings).
Context (name : pystr) (bytes : list N) (root real_root real_path : pystr) (mtime : f64).
Abbreviation P := (peer G W).
Abbreviation size := (Z.of_nat (length bytes)).

(** The share directory holds the build: an invariant [K] of the world. *)
Context (K : W → Prop).
Context (Hroot : artifact_root cfg = Some root) (Hname : artifact_name_ok name = true).
Context (Hunder : commonpath real_root real_path = Ok real_root).
Context (Hsize : 0 < size ≤ max_artifact_bytes cfg).
Context (Hreal : ∀ w, K w → K (pw_realpath root w).1 ∧ (pw_realpath root w).2 = Some real_root).
Context (Hpath : ∀ w, K w → K (pw_realpath (path_join root name) w).1
                          ∧ (pw_realpath (path_join root name) w).2 = Some real_path).
Context (Hstat : ∀ w, K w → K (pw_stat real_path w).1 ∧ (pw_stat real_path w).2 = Some (size, mtime)).
Context (Hread : ∀ w, K w → K (pw_read real_path w).1 ∧ (pw_read real_path w).2 = Some bytes).

Definition shared : descriptor := Descriptor name real_path size (sha256 bytes).

(** The world holds the build and the cached digest is the build's. *)
Definition sharing (p : P) : Prop :=
  K (world p) ∧ NoDup (digest_cache p).*1
  ∧ ∀ s m d, dget name (digest_cache p) = Some (s, m, d) → d = sha256 bytes.

Lemma ask_shared {A : Type} (f : W → W * A) (a : A) p :
  (∀ w, K w → K (f w).1 ∧ (f w).2 = a) → sharing p →
  ∃ p', ask f p = (p', Ok a) ∧ sharing p' ∧ answers p' = answers p.
Proof.
  intros Hf (Hk & Hn & Hc). destruct (Hf _ Hk) as [Hk' Ha]. unfold ask.
  destruct (f (world p)) as [w x]. cbn in *. subst x. by eexists.
Qed.

Lemma dget_drop {V} n (d : list (pystr * V)) k v : NoDup d.*1 → dget k (drop n d) = Some v → dget k d = Some v.
Proof.
  revert n. induction d as [|[k' v'] d IH]; intros n Hn E; [by rewrite drop_nil in E|].
  inversion Hn as [|?? Hk Hn']; subst. destruct n as [|n]; [done|]. cbn [drop] in E. specialize (IH n Hn' E).
  cbn [dget]. destruct (decide (k = k')) as [->|Hne]; [|by apply IH].
  exfalso. apply Hk. apply dget_elem in IH. apply list_elem_of_fmap. by exists (k', v).
Qed.

Lemma NoDup_drop_keys {V} n (d : list (pystr * V)) : NoDup d.*1 → NoDup (drop n d).*1.
Proof. rewrite fmap_drop. intros H. rewrite <- (take_drop n) in H. by apply NoDup_app in H as (_ & _ & ?). Qed.

Lemma digest_shared p : sharing p →
  ∃ p', digest_of sha256 cfg name real_path size mtime p = (p', Ok (Some (sha256 bytes)))
        ∧ sharing p' ∧ answers p' = answers p.
Proof.
  intros Hp. unfold digest_of, mbind, py_bind. cbn [get].
  assert (Hmiss : ∃ p', (content ← ask (pw_read real_path);
    match content with
    | Some bytes =>
        if max_artifact_bytes cfg <? Z.of_nat (length bytes) then mret None
        else
          let digest := sha256 bytes in
          modify (λ p, let cache := dset name (size, mtime, digest) (digest_cache p) in
                       with_digests (drop (length cache - ARTIFACT_DIGEST_CACHE) cache) p) ;;
          mret (Some digest)
    | None => mret None
    end) p = (p', Ok (Some (sha256 bytes))) ∧ sharing p' ∧ answers p' = answers p).
  { unfold mbind, py_bind. destruct (ask_shared _ _ p Hread Hp) as (p1 & -> & Hp1 & A1).
    replace (max_artifact_bytes cfg <? size) with false by lia. eexists. split; [done|]. split; [|done].
    destruct Hp1 as (Hk & Hn & Hc). pose proof (dset_nodup name (size, mtime, sha256 bytes) _ Hn) as Hn'.
    split; [done|]. split; [by apply NoDup_drop_keys|]. cbn. intros s m d E.
    apply dget_drop in E; [|done]. rewrite dget_dset_eq in E. by injection E as _ _ <-. }
  pose proof Hp as (Hk & Hn & Hc). destruct (dget name (digest_cache p)) as [[[s m] d]|] eqn:Ed; [|exact Hmiss].
  destruct ((s =? size) && feqb m mtime); [|exact Hmiss]. rewrite (Hc s m d eq_refl). by exists p.
Qed.

Lemma descriptor_shared p : sharing p →
  ∃ p', artifact_descriptor sha256 cfg name p = (p', Ok (Some shared)) ∧ sharing p' ∧ answers p' = answers p.
Proof.
  intros Hp. unfold artifact_descriptor. rewrite Hroot, Hname. cbn [negb]. unfold mbind, py_bind.
  destruct (ask_shared _ _ p Hreal Hp) as (p1 & -> & Hp1 & A1).
  destruct (ask_shared _ _ p1 Hpath Hp1) as (p2 & -> & Hp2 & A2).
  rewrite Hunder, bool_decide_eq_true_2 by done. cbn [negb].
  destruct (ask_shared _ _ p2 Hstat Hp2) as (p3 & -> & Hp3 & A3).
  replace ((size <=? 0) || (max_artifact_bytes cfg <? size)) with false by lia.
  destruct (digest_shared p3 Hp3) as (p4 & -> & Hp4 & A4).
  exists p4. split; [done|]. split; [done|]. congruence.
Qed.

(** The next test of the dispatch on the kind of a message. *)
Ltac branch b :=
  match goal with |- context [if ?c then _ else _] => change c with b end; cbv iota.

(** What a request leaves answered. *)
Definition answers_to (msg answer : pydict) : Prop := ∀ p, sharing p →
  let '(p', r) := dispatch_message sha256 cfg msg p in
  r = Ok tt ∧ sharing p' ∧ answers p' = answers p ++ [answer].

Lemma bumped key n p : sharing p → ∃ p', bump key n p = (p', Ok tt) ∧ sharing p' ∧ answers p' = answers p.
Proof. intros (? & ? & ?). by eexists. Qed.

Context (peer_cfg : settings) (Htokens : auth_token peer_cfg = auth_token cfg).

(** The fields of the stamped requests. *)
Lemma manifest_request_fields rid : let msg := stamp (auth_token peer_cfg) (manifest_request peer_cfg name rid) in
  dict_get (u "type") VNone msg = VStr (u "artifact_manifest") ∧ dict_get (u "name") (VStr []) msg = VStr name
  ∧ dict_get (u "id") (VStr []) msg = VStr rid.
Proof. cbv zeta. by destruct (auth_token peer_cfg). Qed.

Lemma chunk_request_fields offset n rid :
  let msg := stamp (auth_token peer_cfg) (chunk_request peer_cfg name offset n rid) in
  dict_get (u "type") VNone msg = VStr (u "artifact") ∧ dict_get (u "name") VNone msg = VStr name
  ∧ dict_get (u "offset") VNone msg = VInt offset ∧ dict_get (u "length") VNone msg = VInt n
  ∧ dict_get (u "id") (VStr []) msg = VStr rid.
Proof. cbv zeta. by destruct (auth_token peer_cfg). Qed.

Lemma name_text : py_str (py_or (VStr name) (VStr [])) = name.
Proof. unfold py_or. cbn [truthy]. clear -Hname. destruct name; [done|]. by rewrite bool_decide_eq_false_2. Qed.

Lemma sent p msg : sharing p → let '(p', r) := send_json msg p in
  r = Ok tt ∧ sharing p' ∧ answers p' = answers p ++ [msg].
Proof. by intros (? & ? & ?). Qed.

Lemma answers_manifest rid :
  answers_to (stamp (auth_token peer_cfg) (manifest_request peer_cfg name rid)) (manifest_reply shared cfg rid).
Proof.
  intros p Hp. destruct (manifest_request_fields rid) as (E1 & E2 & E3). set (msg := stamp _ _) in *. clearbody msg.
  unfold dispatch_message. cbv zeta in *. rewrite E1, E2, E3.
  destruct (bumped (u "received") 1 p Hp) as (p1 & Eb & Hp1 & A1). unfold mbind at 1, py_bind at 1. rewrite Eb.
  do 4 branch false. do 2 branch true.
  unfold artifact_manifest_reply. rewrite name_text, Hname. cbn [negb]. unfold mbind, py_bind.
  destruct (descriptor_shared p1 Hp1) as (p2 & -> & Hp2 & A2). unfold mret, py_ret.
  pose proof (sent p2 (addressed cfg (manifest_answer cfg shared) (VStr rid)) Hp2) as Hs.
  destruct (send_json _ p2) as [p3 r]. destruct Hs as (-> & Hp3 & A3). split; [done|]. split; [done|]. by rewrite A3, A2, A1.
Qed.

Lemma answers_chunk offset rid : 0 ≤ offset < size → offset < 2 ^ 63 →
  answers_to (stamp (auth_token peer_cfg)
                (chunk_request peer_cfg name offset (Z.min (artifact_chunk_bytes peer_cfg) (size - offset)) rid))
             (chunk_reply peer_cfg name bytes shared cfg offset rid).
Proof.
  intros Ho Ho2 p Hp.
  destruct (chunk_request_fields offset (Z.min (artifact_chunk_bytes peer_cfg) (size - offset)) rid)
    as (E1 & E2 & E3 & E4 & E5). set (msg := stamp _ _) in *. clearbody msg.
  unfold dispatch_message. cbv zeta in *. rewrite E1, E5.
  destruct (bumped (u "received") 1 p Hp) as (p1 & Eb & Hp1 & A1). unfold mbind at 1, py_bind at 1. rewrite Eb.
  do 4 branch false. branch true. branch false. branch true.
  unfold artifact_chunk_reply. rewrite E2, name_text, Hname. unfold mbind, py_bind.
  destruct (descriptor_shared p1 Hp1) as (p2 & -> & Hp2 & A2).
  assert (Er : chunk_range msg = Ok (Some (offset, Z.min (artifact_chunk_bytes peer_cfg) (size - offset)))).
  { unfold chunk_range, int_or_zero, py_or. rewrite E3, E4. cbn [truthy].
    destruct (offset =? 0) eqn:E0; destruct (Z.min _ _ =? 0) eqn:Em; cbn; repeat f_equal; lia. }
  rewrite Er. unfold of_res, raise_if. replace (2 ^ 63 <=? offset) with false by lia.
  unfold mret, py_ret. change (de_path shared) with real_path.
  destruct (ask_shared _ _ p2 Hread Hp2) as (p3 & -> & Hp3 & A3).
  pose proof (sent p3 (chunk_reply peer_cfg name bytes shared cfg offset rid) Hp3) as Hs.
  unfold chunk_reply, chunk_at in Hs |- *.
  destruct (send_json _ p3) as [p4 r]. destruct Hs as (-> & Hp4 & A4). split; [done|]. split; [done|]. by rewrite A4, A3, A2, A1.
Qed.
End Sharer.

(** ** The two together *)

Section Link.
Context `{PR : PyRepr} `{PL : PyLower} {G GB WB : Type} `{GO : GovernorOps GB} `{PW : PeerWorld WB}.
Context (json_dumps : pydict → list N) (json_loads : list N → option pyval) (sha256 : list N → pystr).
Context (cfg peer_cfg : settings) (rid : pystr).

(** The network of a node whose one peer is the other node: each request is a
connection to it, and nothing fails. *)
#[local] Instance link : PeerWorld (peer GB WB) := {
  pw_connect _ b := (b, true);
  pw_sendall _ _ b := (b, true);
  pw_exchange _ msg b :=
    let b' := (serve_peer json_loads sha256 peer_cfg [Data (encode_frame json_dumps msg)] (with_answers [] b)).1 in
    (b', Some [Data (answers b' ≫= encode_frame json_dumps)]);
  pw_request_id b := (b, rid);
  pw_monotonic b := (b, f0);
  pw_time b := (b, f0);
  pw_retrieve _ _ b := (b, Ok []);
  pw_export _ b := (b, Ok []);
  pw_import _ _ b := (b, Ok (0, 0));
  pw_realpath p b := (b, Some p);
  pw_stat _ b := (b, None);
  pw_read _ b := (b, None);
  pw_listdir _ b := (b, None);
  pw_fault b := (b, None);
  pw_provider b := (b, Ok VNone);
  pw_on_heartbeat _ b := b;
  pw_on_send _ _ _ b := b;
  pw_on_audit _ _ b := b
}.

Context (sharing : peer GB WB → Prop) (Hanswers : ∀ b l, sharing b → sharing (with_answers l b)).
Context (Htokens : auth_token cfg = auth_token peer_cfg) (Hsane : sane_token (auth_token cfg)).

(** A request that is read there and whose answer is read back. *)
Lemma link_answers id msg answer :
  (∀ p, sharing p → let '(p', r) := dispatch_message sha256 peer_cfg (stamp (auth_token cfg) msg) p in
     r = Ok tt ∧ sharing p' ∧ answers p' = answers p ++ [answer]) →
  typed msg → writes_back json_dumps json_loads (frame_max peer_cfg) (stamp (auth_token cfg) msg) →
  writes_back json_dumps json_loads (frame_max cfg) answer →
  answered_with json_loads cfg id sharing msg answer.
Proof.
  intros Hd Ht Hw Ha b Hb. cbn [pw_exchange link fst snd].
  assert (Hq : quiet [Data (encode_frame json_dumps (stamp (auth_token cfg) msg))]).
  { repeat constructor. unfold encode_frame. by destruct (json_dumps _). }
  pose proof (client_frames json_dumps json_loads (frame_max peer_cfg) (auth_token cfg)
    (dispatch_message sha256 peer_cfg) [msg] [Data (encode_frame json_dumps (stamp (auth_token cfg) msg))]
    (with_answers [] b)) as Hc.
  unfold serve_peer. rewrite <- Htokens, Hc; [|by constructor|by constructor|done|done|cbn; by rewrite app_nil_r].
  cbn [fst foldl]. specialize (Hd _ (Hanswers b [] Hb)).
  destruct (dispatch_message _ _ _ _) as [b' r]. destruct Hd as (_ & Hs & E). cbn [fst]. cbn in E. split; [done|].
  cbn [mbind option_bind]. rewrite E. cbn [mbind list_bind app]. rewrite app_nil_r.
  apply (reply_read json_dumps); [done|apply read_one_frame].
Qed.
End Link.

(** What holds of a node that shares a build under a name: its configuration,
    and an invariant [K] of its world under which its share directory holds the
    bytes. *)
Record shares_build `{PeerWorld W} (sha256 : list N → pystr) (cfg : settings) (name : pystr)
    (bytes : list N) (sb_root sb_real_root real_path : pystr) (sb_mtime : f64) (K : W → Prop) : Prop := SharesBuild {
  sb_configured : artifact_root cfg = Some sb_root;
  sb_under : commonpath sb_real_root real_path = Ok sb_real_root;
  sb_size : 0 < Z.of_nat (length bytes) ≤ max_artifact_bytes cfg;
  sb_chunk : 1 ≤ artifact_chunk_bytes cfg;
  sb_digest : length (sha256 bytes) = 64%nat;
  sb_real : ∀ w, K w → K (pw_realpath sb_root w).1 ∧ (pw_realpath sb_root w).2 = Some sb_real_root;
  sb_path : ∀ w, K w → K (pw_realpath (path_join sb_root name) w).1
                      ∧ (pw_realpath (path_join sb_root name) w).2 = Some real_path;
  sb_stat : ∀ w, K w → K (pw_stat real_path w).1
                      ∧ (pw_stat real_path w).2 = Some (Z.of_nat (length bytes), sb_mtime);
  sb_read : ∀ w, K w → K (pw_read real_path w).1 ∧ (pw_read real_path w).2 = Some bytes
}.

(** The messages of a fetch, each of which JSON reads back. *)
Definition conversation_written (json_dumps : pydict → list N) (json_loads : list N → option pyval)
    (cfg peer_cfg : settings) (name : pystr) (bytes : list N) (share : descriptor) (rid : pystr) : Prop :=
  let to := writes_back json_dumps json_loads (frame_max peer_cfg) in
  let back := writes_back json_dumps json_loads (frame_max cfg) in
  to (stamp (auth_token cfg) (manifest_request cfg name rid)) ∧ back (manifest_reply share peer_cfg rid)
  ∧ ∀ offset, reached cfg bytes peer_cfg offset →
      to (stamp (auth_token cfg) (chunk_request cfg name offset
            (Z.min (artifact_chunk_bytes cfg) (Z.of_nat (length bytes) - offset)) rid))
      ∧ back (chunk_reply cfg name bytes share peer_cfg offset rid).

(** C26. A build travels: when one node shares it and the two hold the same
    token, a fetch by the other over their connection, chunk by chunk in
    whatever sizes the two configurations give, succeeds and leaves the
    build's bytes under its name, the frames, the token check, base64, the
    digest cache and the checks of both ends included. *)
Theorem build_travels `{PyRepr} `{PyLower} {G GB WB : Type} `{GovernorOps GB} `{PeerWorld WB}
    (json_dumps : pydict → list N) (json_loads : list N → option pyval) (sha256 : list N → pystr)
    (exn_text : exn → pystr) (cfg peer_cfg : settings) (rid id name : pystr) (bytes : list N)
    (root real_root real_path target : pystr) (mtime : f64) (dest expect : option pystr) (K : WB → Prop)
    (p : peer G (peer GB WB))
    (Hname : artifact_name_ok name = true) (Hbytes : Forall is_byte bytes)
    (Hshares : shares_build sha256 peer_cfg name bytes root real_root real_path mtime K)
    (Htoken : auth_token cfg = auth_token peer_cfg ∧ sane_token (auth_token cfg))
    (Hlimits : 1 ≤ artifact_chunk_bytes cfg ∧ Z.of_nat (length bytes) ≤ max_artifact_bytes cfg
               ∧ Z.of_nat (length bytes) < 2 ^ 63)
    (Hwritten : conversation_written json_dumps json_loads cfg peer_cfg name bytes
                  (shared sha256 name bytes real_path) rid)
    (Hpeer : sharing sha256 name bytes K (world p) ∧ dhas id (outbound p) = true)
    (Htarget : target_of cfg dest = Some target)
    (Hexpect : ∀ e, expect = Some e → e ≠ [] → str_lower e = sha256 bytes) :
  ∃ p' d,
    fetch_artifact (PW := link json_dumps json_loads sha256 peer_cfg rid) json_loads sha256 exn_text cfg
      id name dest expect p = (p', Ok d)
    ∧ dget (u "status") d = Some (VStr (u "success"))
    ∧ files p' !! path_join target name = Some bytes.
Proof.
  destruct Hshares as [Hroot Hunder Hsize Hchunk Hdig Hreal Hpath Hstat Hread].
  destruct Htoken as [Htok Hsane]. destruct Hwritten as (Wm & Wa & Wc).
  pose (J := sharing (G := GB) (W := WB) sha256 name bytes K).
  assert (HJ : ∀ (b : peer GB WB) l, J b → J (with_answers l b)) by done.
  assert (Hm : answered_with (PW := link json_dumps json_loads sha256 peer_cfg rid) json_loads cfg id J
                 (manifest_request cfg name rid) (manifest_reply (shared sha256 name bytes real_path) peer_cfg rid)).
  { apply (link_answers json_dumps json_loads sha256 cfg peer_cfg rid J HJ Htok Hsane);
      [|by eexists _, _|done|done].
    intros b Hb. by eapply answers_manifest. }
  assert (Hc : ∀ offset, reached cfg bytes peer_cfg offset →
    answered_with (PW := link json_dumps json_loads sha256 peer_cfg rid) json_loads cfg id J
      (chunk_request cfg name offset (Z.min (artifact_chunk_bytes cfg) (Z.of_nat (length bytes) - offset)) rid)
      (chunk_reply cfg name bytes (shared sha256 name bytes real_path) peer_cfg offset rid)).
  { intros offset Ho. destruct (Wc offset Ho) as [W1 W2]. pose proof Ho as [Hr _].
    apply (link_answers json_dumps json_loads sha256 cfg peer_cfg rid J HJ Htok Hsane);
      [|by eexists _, _|done|done].
    intros b Hb. eapply answers_chunk; try done. lia. }
  destruct (fetch_good (G := G) (PW := link json_dumps json_loads sha256 peer_cfg rid) json_loads sha256 exn_text cfg id name
    bytes (shared sha256 name bytes real_path) peer_cfg J) with (rid := rid) (dest := dest) (expect := expect)
    (target := target) (p := p) as (p' & d & E & Es & Ef & _); try done; [lia| |by eauto].
  destruct Hsize. split; [done|lia].
Qed.
