(* ===== verification/PeerScenarios.v ===== *)
(** * Scenarios of the mesh runtime

    The answers of a node and its exchange of memory, concrete nodes over
    scripted worlds that witness the theorems, and what the code does with an
    import that fails, a build named like a temporary file, and a peer that
    answers a manifest with words. *)

From Stdlib Require Import ZArith NArith Lia.
From Stdlib Require Import Floats.SpecFloat.
From stdpp Require Import gmap.
From S2P Require Import Prelude PyFloat PyStr PyVal StateMachine Fallbacks Base64 PeerFrames PeerRuntime.
From S2P Require Import PeerSafety PeerTransfer.

Local Open Scope Z_scope.

(** ** Answers *)

Section Answers.
Context `{PR : PyRepr} `{PL : PyLower} {G W : Type} `{GO : GovernorOps G} `{PW : PeerWorld W}.
Context (sha256 : list N → pystr) (cfg : settings).
Abbreviation P := (peer G W).

Definition unanswered (l : list pydict) (p : P) : Prop := answers p = l.

Lemma quiet_ask {A : Type} l (f : W → W * A) : keeps (unanswered l) (ask f : py P A).
Proof. intros p Hp. unfold ask. by destruct (f (world p)). Qed.
Lemma quiet_tell l f : keeps (unanswered l) (tell f : py P unit).
Proof. by intros p Hp. Qed.
Lemma quiet_bump l k n : keeps (unanswered l) (bump k n : py P unit).
Proof. by intros p Hp. Qed.
Lemma quiet_digests l f : keeps (unanswered l) (modify (λ p, with_digests (f p) p) : py P unit).
Proof. by intros p Hp. Qed.
Lemma quiet_offers l f : keeps (unanswered l) (modify (λ p, with_offers (f p) p) : py P unit).
Proof. by intros p Hp. Qed.
Lemma quiet_heartbeats l f : keeps (unanswered l) (modify (λ p, with_heartbeats (f p) p) : py P unit).
Proof. by intros p Hp. Qed.
#[local] Hint Resolve quiet_ask quiet_tell quiet_bump quiet_digests quiet_offers quiet_heartbeats : keeps.

Lemma quiet_descriptor l name : keeps (unanswered l) (artifact_descriptor sha256 cfg name : py P _).
Proof. unfold artifact_descriptor, digest_of. cbv zeta. repeat keeps_step. Qed.
#[local] Hint Resolve quiet_descriptor : keeps.

(** Nothing answered, or one answer to the message. *)
Definition answered_once (l : list pydict) (id : pyval) (p : P) : Prop :=
  answers p = l ∨ ∃ a, answers p = l ++ [a] ∧ dget (u "in_response_to") a = Some id.

Lemma addressed_to resp id : dget (u "in_response_to") (addressed cfg resp id) = Some id.
Proof. unfold addressed, dict_update. cbn [foldl fst snd]. rewrite dget_dset_ne by done. apply dget_dset_eq. Qed.

Lemma answer_once l id msg (k : unit → py P unit) : dget (u "in_response_to") msg = Some id →
  (∀ l' a, keeps (unanswered l') (k a)) → triple (unanswered l) (send_json msg ≫= k) (λ _, answered_once l id).
Proof.
  intros Hm Hk p Hp. unfold mbind, py_bind. cbn [send_json modify].
  set (p1 := with_answers (answers p ++ [msg]) p). right. exists msg. split; [|done].
  unfold unanswered in Hp. rewrite <- Hp. by apply (Hk (answers p ++ [msg]) tt p1).
Qed.

Lemma answer_last l id msg : dget (u "in_response_to") msg = Some id →
  triple (unanswered l) (send_json msg : py P unit) (λ _, answered_once l id).
Proof.
  intros Hm p Hp. right. exists msg. unfold unanswered in Hp. by rewrite <- Hp.
Qed.

Lemma quiet_once {A : Type} l id (m : py P A) : keeps (unanswered l) m → triple (unanswered l) m (λ _, answered_once l id).
Proof. intros Hm p Hp. left. by apply Hm. Qed.

Lemma quiet_then {A : Type} l id (m : py P A) (k : A → py P unit) : keeps (unanswered l) m →
  (∀ a, triple (unanswered l) (k a) (λ _, answered_once l id)) →
  triple (unanswered l) (m ≫= k) (λ _, answered_once l id).
Proof. intros Hm Hk. apply triple_keeps; [done| |done]. intros e s Hs. by left. Qed.

Lemma dispatch_answers l msg :
  triple (unanswered l) (dispatch_message sha256 cfg msg : py P unit)
    (λ _, answered_once l (dict_get (u "id") (VStr []) msg)).
Proof.
  unfold dispatch_message. cbv zeta. apply quiet_then; [apply quiet_bump|]. intros _.
  destruct (py_eq _ (VStr (u "send"))).
  { apply answer_once; [done|]. intros l' _. repeat keeps_step. }
  destruct (py_eq _ (VStr (u "query"))).
  { apply quiet_then; [unfold memory_search; repeat keeps_step|]. intros results. by apply answer_last. }
  destruct (py_eq _ (VStr (u "sync"))).
  { apply quiet_then; [unfold memory_export; repeat keeps_step|]. intros facts. by apply answer_last. }
  destruct (py_eq _ (VStr (u "heartbeat"))).
  { apply quiet_once. unfold on_heartbeat_message. cbv zeta. repeat keeps_step. }
  destruct (_ || _ || _); [|apply quiet_once, keeps_ret].
  apply quiet_then; [|intros resp; apply answer_last, addressed_to].
  unfold artifact_manifest_reply, artifact_chunk_reply, artifact_accept_offer. cbv zeta. repeat keeps_step.
Qed.
End Answers.

(** A frame is answered at most once, and an answer names the message it
    answers. *)
Theorem answers_name_their_request `{PyRepr} `{PyLower} {G W : Type} `{GovernorOps G} `{PeerWorld W}
    (sha256 : list N → pystr) (cfg : settings) (msg : pydict) (p : peer G W) :
  answered_once (answers p) (dict_get (u "id") (VStr []) msg) (dispatch_message sha256 cfg msg p).1.
Proof. by apply (dispatch_answers sha256 cfg (answers p) msg p). Qed.

(** A chunk fits a frame after base64's expansion with a quarter of the
    frame to spare when frames have at least 32 KiB; below 21,845 bytes no full
    chunk fits, whatever chunk size was asked for. *)
Theorem chunks_fit_frames (id : pystr) (port frame : Z) (token : option pystr) (memory : bool)
    (threshold : Z) (window interval : f64) (root dir : option pystr) (max_artifact chunk : Z)
    (data : list N) :
  let s := new_settings id port frame token memory threshold window interval root dir max_artifact chunk in
  Z.of_nat (length data) = artifact_chunk_bytes s →
  (32768 ≤ frame → Z.of_nat (length (b64encode data)) ≤ 3 * max_frame s / 4)
  ∧ (frame < 21845 → max_frame s < Z.of_nat (length (b64encode data))).
Proof.
  intros s Hl. rewrite b64_length, Nat2Z.inj_mul, Nat2Z.inj_div, Nat2Z.inj_add, Hl.
  change (Z.of_nat 4) with 4. change (Z.of_nat 3) with 3. change (Z.of_nat 2) with 2.
  unfold s, new_settings. cbn [artifact_chunk_bytes max_frame].
  split; intros Hf; Z.to_euclidean_division_equations; lia.
Qed.

(** ** The exchange of memory *)

Section Sync.
Context `{PR : PyRepr} `{PL : PyLower} {G W : Type} `{GO : GovernorOps G} `{PW : PeerWorld W}.
Context (json_loads : list N → option pyval) (cfg : settings).
Abbreviation P := (peer G W).

(** What the peer replied to the request of a [sync], and the world then. *)
Definition sync_reply (pid : pystr) (p : P) : W * option pyval :=
  let '(w1, rid) := pw_request_id (world p) in
  let '(w2, events) := pw_exchange pid (stamp (auth_token cfg)
    [(u "type", VStr (u "sync")); (u "from", VStr (agent_id cfg));
     (u "since", default VNone (dget pid (sync_watermarks p))); (u "id", VStr rid)]) w1 in
  (w2, events ≫= reply_of json_loads (frame_max cfg)).

(** A counter and the rest of the accounts. *)
Definition counted (key : pystr) (n : Z) (p p' : P) : Prop :=
  stats p' = dset key (default 0 (dget key (stats p)) + n) (stats p).

Lemma ask_bind {A B : Type} (f : W → W * A) (k : A → py P B) p :
  (ask f ≫= k) p = k (f (world p)).2 (with_world (f (world p)).1 p).
Proof. unfold mbind, py_bind, ask. by destruct (f (world p)). Qed.

Lemma request_bind {B : Type} pid msg (k : option pyval → py P B) p :
  (one_shot_request json_loads cfg pid msg ≫= k) p
  = let '(w, events) := pw_exchange pid (stamp (auth_token cfg) msg) (world p) in
    k (events ≫= reply_of json_loads (frame_max cfg)) (with_world w p).
Proof.
  unfold one_shot_request. unfold mbind at 1 2, py_bind, ask. by destruct (pw_exchange _ _ _) as [w events].
Qed.

(** A [sync] up to the reply. *)
Lemma sync_asks pid p : pid ≠ [] → dhas pid (outbound p) = true →
  sync json_loads cfg (Some pid) None p
  = merge_reply cfg pid (sync_reply pid p).2 (with_world (sync_reply pid p).1 p).
Proof.
  intros Hpid Hp. unfold sync_reply, sync. unfold mbind at 1, py_bind at 1. cbn [get].
  destruct pid as [|c pid]; [done|]. rewrite Hp. cbn [negb]. cbv zeta.
  rewrite ask_bind. destruct (pw_request_id (world p)) as [w1 rid]. cbn [fst snd].
  rewrite request_bind. cbn [world with_world]. by destruct (pw_exchange _ _ w1) as [w2 events].
Qed.
End Sync.

(** A peer that refuses is never taken for one that had nothing: the call
    reports the error, nothing is imported, the watermark stays, and only the
    count of errors moves. *)
Theorem refusal_is_not_success `{PyRepr} `{PyLower} {G W : Type} `{GovernorOps G} `{PeerWorld W}
    (json_loads : list N → option pyval) (cfg : settings) (pid reason : pystr) (p : peer G W)
    (Hpeer : pid ≠ [] ∧ dhas pid (outbound p) = true)
    (Hrefused : accepted_reply (sync_reply json_loads cfg pid p).2 = inl (Some reason)) :
  let '(p', r) := sync json_loads cfg (Some pid) None p in
  (∃ d, r = Ok d ∧ dget (u "status") d = Some (VStr (u "error")) ∧ dget (u "message") d = Some (VStr reason))
  ∧ p' = with_stats (stats p') (with_world (sync_reply json_loads cfg pid p).1 p)
  ∧ counted (u "errors") 1 p p'.
Proof.
  destruct Hpeer as [Hpid Hp]. rewrite (sync_asks json_loads cfg pid p Hpid Hp).
  unfold merge_reply. rewrite Hrefused. cbn. split; [by eexists|done].
Qed.

(** A batch of facts whose import raises is lost: the call reports success
    with nothing imported, and the watermark moves to the last of the facts, so
    that the next call asks only for what came after them. *)
Theorem failed_import_loses_facts `{PyRepr} `{PyLower} {G W : Type} `{GovernorOps G} `{PeerWorld W}
    (json_loads : list N → option pyval) (cfg : settings) (pid : pystr) (p : peer G W)
    (reply fact : pydict) (facts : list pyval) (created : pyval) (e : exn)
    (Hpeer : pid ≠ [] ∧ dhas pid (outbound p) = true) (Hmemory : has_memory cfg = true)
    (Hreply : accepted_reply (sync_reply json_loads cfg pid p).2 = inr reply)
    (Hfacts : dict_get (u "facts") VNone reply = VList (facts ++ [VDict fact]))
    (Hcreated : dict_get (u "created_at") VNone fact = created ∧ truthy created = true)
    (Hraises : (pw_import (VList (facts ++ [VDict fact])) pid (sync_reply json_loads cfg pid p).1).2 = Raise e) :
  let '(p', r) := sync json_loads cfg (Some pid) None p in
  (∃ d, r = Ok d ∧ dget (u "status") d = Some (VStr (u "success")) ∧ dget (u "imported") d = Some (VInt 0))
  ∧ dget pid (sync_watermarks p') = Some created.
Proof.
  destruct Hpeer as [Hpid Hp]. rewrite (sync_asks json_loads cfg pid p Hpid Hp).
  unfold merge_reply. destruct Hcreated as [Hc Ht]. rewrite Hreply. cbv zeta. rewrite Hfacts.
  assert (Hor : py_or (VList (facts ++ [VDict fact])) (VList []) = VList (facts ++ [VDict fact])).
  { unfold py_or. by destruct facts. }
  assert (Htr : truthy (VList (facts ++ [VDict fact])) = true) by by destruct facts.
  rewrite Hor, Htr. unfold memory_import. rewrite Hmemory. unfold mbind, py_bind, ask, bump, modify.
  cbn [world with_world with_stats].
  destruct (pw_import _ _ _) as [w3 r]. cbn in Hraises. subst r. unfold mret, py_ret, note_conflicts.
  cbn [Z.leb]. unfold of_res. cbn [last_fact res_bind mbind]. rewrite last_snoc. cbn [default from_option id].
  rewrite Hc, Ht. cbn. split; [by eexists|]. apply dget_dset_eq.
Qed.

(** ** Concrete nodes *)

#[local] Instance demo_repr : PyRepr := λ _, [].
#[local] Instance demo_lower : PyLower := lower.

(** A world whose peers reply with the lines of a script, one a request; an
    empty line is an unreachable peer. *)
Record script := Script { sc_replies : list pystr; sc_audits : list pystr }.
#[local] Instance scripted : PeerWorld script := {
  pw_connect _ w := (w, true);
  pw_sendall _ _ w := (w, true);
  pw_exchange _ _ w :=
    match sc_replies w with
    | (c :: l) :: rest => (Script rest (sc_audits w), Some [Data ((c :: l) ++ [10%N])])
    | _ :: rest => (Script rest (sc_audits w), None)
    | [] => (w, None)
    end;
  pw_request_id w := (w, u "1");
  pw_monotonic w := (w, f0);
  pw_time w := (w, f0);
  pw_retrieve _ _ w := (w, Ok []);
  pw_export _ w := (w, Ok []);
  pw_import _ _ w := (w, Raise (RuntimeError (u "disk full")));
  pw_realpath p w := (w, Some p);
  pw_stat _ w := (w, Some (3, f1));
  pw_read _ w := (w, Some [1; 2; 250]%N);
  pw_listdir _ w := (w, Some [u "app.bin"]);
  pw_fault w := (w, None);
  pw_provider w := (w, Ok VNone);
  pw_on_heartbeat _ w := w;
  pw_on_send _ _ _ w := w;
  pw_on_audit ev _ w := Script (sc_replies w) (sc_audits w ++ [ev])
}.

Definition demo_sha (bytes : list N) : pystr := replicate 64 (48 + foldr N.add 0 bytes mod 10)%N.
Definition demo_exn (e : exn) : pystr := exn_name e.
Definition demo_settings (id : string) (memory : bool) : settings :=
  new_settings (u id) 9000 1024 (Some (u "s3cret")) memory 20 (f_of_Z 60) (f_of_Z 10)
    (Some (u "/srv/share")) (Some (u "/srv/stage")) MAX_ARTIFACT_BYTES ARTIFACT_CHUNK_BYTES.

Definition demo_fact : pydict := [(u "content", VStr (u "water at noon")); (u "created_at", VStr (u "2024-05-01"))].
Definition demo_replies : list (pystr * pyval) :=
  [(u "facts", VDict [(u "type", VStr (u "sync_result")); (u "facts", VList [VDict demo_fact])]);
   (u "refusal", VDict [(u "type", VStr (u "error")); (u "reason", VStr (u "no"))]);
   (u "manifest", VDict [(u "type", VStr (u "artifact_manifest")); (u "size", VInt 3);
                         (u "sha256", VStr (demo_sha [1; 2; 250]%N))]);
   (u "words", VDict [(u "type", VStr (u "artifact_manifest")); (u "size", VStr (u "big"))])].
Definition script_loads (line : list N) : option pyval := dget line demo_replies.
Definition demo_peer (replies : list pystr) : peer governor script :=
  new_peer [u "node-b"] None (Script replies []).

(** Fetching a build removes one that was received under its name with
    [.part] appended: that is where it is written until it is complete. *)
Theorem fetch_destroys_part_build :
  let p := with_files {[ u "/srv/stage/app.part" := [7%N] ]} (demo_peer [u "manifest"; []]) in
  let '(p', r) := fetch_artifact script_loads demo_sha demo_exn (demo_settings "node-a" false)
                    (u "node-b") (u "app") None None p in
  artifact_name_ok (u "app.part") = true
  ∧ (∃ d, r = Ok d ∧ dget (u "status") d = Some (VStr (u "error")))
  ∧ files p' !! u "/srv/stage/app.part" = None.
Proof. vm_compute. by repeat split; eexists. Qed.

(** A peer whose manifest gives the size in words ends the thread that
    pulls its offer: the exception is not caught and no failure is recorded. *)
Theorem offer_thread_dies_unrecorded :
  let o := Offer (u "node-b") (u "app.bin") 3 (demo_sha [1; 2; 250]%N) in
  let p := with_hooks (Callables false false false true) (demo_peer [u "words"]) in
  let q := with_hooks (Callables false false false true) (demo_peer [u "refusal"]) in
  let run := receive_offered_artifact script_loads demo_sha demo_exn (demo_settings "node-a" false) o in
  (run p).2 = Raise (ValueError (u "invalid literal for int() with base 10"))
  ∧ sc_audits (world (run p).1) = []
  ∧ (run q).2 = Ok tt ∧ sc_audits (world (run q).1) = [u "mesh_artifact_failed"].
Proof. by vm_compute. Qed.

(** ** Witnesses *)

Lemma mesh_closed_without_token_witness :
  (serve_peer (λ line, Some (VDict [(u "type", VStr (u "send"))])) demo_sha (demo_settings "node-a" false)
     [Data (u "{}" ++ [10%N])] (demo_peer [])).1 = demo_peer [].
Proof.
  apply (mesh_closed_without_token _ demo_sha (demo_settings "node-a" false) (u "s3cret")); [by vm_compute|].
  intros raw msg _ [= <-]. by vm_compute.
Defined.

Definition demo_descriptor : descriptor :=
  Descriptor (u "app.bin") (u "/srv/share/app.bin") 3 (demo_sha [1; 2; 250]%N).

Lemma served_from_share_only_witness :
  de_name demo_descriptor = u "app.bin" ∧ 0 < de_size demo_descriptor.
Proof.
  destruct (served_from_share_only demo_sha (demo_settings "node-a" false) (u "app.bin") (demo_peer [])
    (artifact_descriptor demo_sha (demo_settings "node-a" false) (u "app.bin") (demo_peer [])).1 demo_descriptor)
    as (_ & H1 & [H2 _] & _); [by vm_compute|]. by split.
Defined.

Lemma chunks_fit_frames_witness :
  Z.of_nat (length (b64encode (replicate (Z.to_nat 16384) 0%N))) ≤ 3 * 32768 / 4.
Proof.
  refine (proj1 (chunks_fit_frames (u "node-a") 9000 32768 None false 20 (f_of_Z 60) (f_of_Z 10) None None
    MAX_ARTIFACT_BYTES ARTIFACT_CHUNK_BYTES (replicate (Z.to_nat 16384) 0%N) _) _).
  - rewrite length_replicate. by vm_compute.
  - done.
Defined.

Lemma refusal_is_not_success_witness :
  let r := sync script_loads (demo_settings "node-a" true) (Some (u "node-b")) None (demo_peer [u "refusal"]) in
  counted (u "errors") 1 (demo_peer [u "refusal"]) r.1.
Proof.
  cbv zeta.
  pose proof (refusal_is_not_success script_loads (demo_settings "node-a" true) (u "node-b") (u "no")
    (demo_peer [u "refusal"])) as H.
  destruct (sync _ _ _ _ _) as [p' r].
  destruct H as (_ & _ & H); [split; by vm_compute|by vm_compute|exact H].
Defined.

Lemma failed_import_loses_facts_witness :
  let r := sync script_loads (demo_settings "node-a" true) (Some (u "node-b")) None (demo_peer [u "facts"]) in
  dget (u "node-b") (sync_watermarks r.1) = Some (VStr (u "2024-05-01")).
Proof.
  cbv zeta.
  pose proof (failed_import_loses_facts script_loads (demo_settings "node-a" true) (u "node-b") (demo_peer [u "facts"])
    [(u "type", VStr (u "sync_result")); (u "facts", VList [VDict demo_fact])] demo_fact [] (VStr (u "2024-05-01"))
    (RuntimeError (u "disk full"))) as H.
  destruct (sync _ _ _ _ _) as [p' r].
  destruct H as (_ & H); [split; by vm_compute|by vm_compute|by vm_compute|by vm_compute|split; by vm_compute
                         |by vm_compute|exact H].
Defined.

(** The messages of a fetch of the demonstration build, numbered. *)
Definition demo_bytes : list N := [1; 2; 250]%N.
Definition demo_talk : list pydict :=
  let a := demo_settings "node-a" false in
  let b := demo_settings "node-b" false in
  let d := shared demo_sha (u "app.bin") demo_bytes (u "/srv/share/app.bin") in
  [stamp (auth_token a) (manifest_request a (u "app.bin") (u "7")); manifest_reply d b (u "7");
   stamp (auth_token a) (chunk_request a (u "app.bin") 0 3 (u "7"));
   chunk_reply a (u "app.bin") demo_bytes d b 0 (u "7")].
Definition talk_dumps (m : pydict) : list N :=
  match list_find (λ x, x = m) demo_talk with Some (i, _) => str_of_Z (Z.of_nat i) | None => u "?" end.
Definition talk_loads (line : list N) : option pyval :=
  match list_find (λ x, talk_dumps x = line) demo_talk with Some (_, m) => Some (VDict m) | None => None end.

Lemma build_travels_witness :
  ∃ (p' : peer governor (peer governor script)) d,
    fetch_artifact (PW := link talk_dumps talk_loads demo_sha (demo_settings "node-b" false) (u "7"))
      talk_loads demo_sha demo_exn (demo_settings "node-a" false) (u "node-b") (u "app.bin") None
      (Some (demo_sha demo_bytes)) (new_peer [u "node-b"] None (demo_peer [])) = (p', Ok d)
    ∧ dget (u "status") d = Some (VStr (u "success"))
    ∧ files p' !! u "/srv/stage/app.bin" = Some demo_bytes.
Proof.
  apply (build_travels talk_dumps talk_loads demo_sha demo_exn (demo_settings "node-a" false)
    (demo_settings "node-b" false) (u "7") (u "node-b") (u "app.bin") demo_bytes (u "/srv/share") (u "/srv/share")
    (u "/srv/share/app.bin") (u "/srv/stage") f1 None (Some (demo_sha demo_bytes)) (λ _, True)
    (new_peer [u "node-b"] None (demo_peer []))).
  - by vm_compute.
  - by repeat constructor.
  - split; try (by vm_compute); intros w _; by vm_compute.
  - split; [by vm_compute|]. split; [done|]. by repeat constructor.
  - by vm_compute.
  - assert (Hw : ∀ i m, demo_talk !! i = Some m → writes_back talk_dumps talk_loads
        (frame_max (demo_settings "node-a" false)) m).
    { intros i m Hi. destruct i as [|[|[|[|i]]]]; [..|done]; apply (inj Some) in Hi; subst m;
        (split; [by vm_compute|]; split; [by vm_compute|]; split; [by vm_compute|]; split; [|by vm_compute]);
        apply Nat.leb_le; by vm_compute. }
    split; [by apply (Hw 0%nat)|]. split; [by apply (Hw 1%nat)|]. intros offset [Hr [k Hk]].
    assert (offset = 0) as -> by (change (step_bytes _ _) with 16384 in Hk; change (length demo_bytes) with 3%nat in Hr; lia).
    split; [by apply (Hw 2%nat)|by apply (Hw 3%nat)].
  - split; [|by vm_compute]. split; [done|]. split; [by constructor|]. done.
  - by vm_compute.
  - intros e [= <-] _. by vm_compute.
Defined.
