(* ===== verification/Hive.v ===== *)
(** * A node in its hive ([src/shugocore_agent.py], mesh and delegation)

    How an agent takes part in the fleet: what it advertises and how it hears
    others, whether it may act, how much agency it keeps, which device answers,
    and the protocol by which a primary delegates actions and a follower
    forwards turns.  It composes the elector of [MeshElection] and the router of
    [Routing]; the mesh runtime, the speaker, clocks and the executors that are
    not of the mesh are the class [HiveWorld].

    A thread that waits or sleeps is split where it does: a delegation that is
    sent again later and a forwarded turn that is answered by a worker are
    pending entries of the state, and [forward_turn] is given what the other
    threads did while it waited. *)

From Stdlib Require Import ZArith NArith Lia.
From Stdlib Require Import Floats.SpecFloat.
From S2P Require Import Prelude PyFloat PyStr PyVal Security MeshElection Interaction.
From S2P Require Routing.

Local Open Scope Z_scope.

(** ** Constants *)

Definition ORCH_MIN_HEADROOM_BYTES : Z := 64 * 1024 * 1024.
Definition ORCH_MIN_BATTERY_PCT : Z := 15.
Definition DELEGATE_TOPIC : pystr := u "orchestrate/delegate".
Definition DELEGATE_RESULT_TOPIC : pystr := u "orchestrate/result".
Definition TURN_TOPIC : pystr := u "orchestrate/turn".
Definition TURN_RESULT_TOPIC : pystr := u "orchestrate/turn_result".
Definition DELEGATABLE_ACTIONS : list pystr := [u "speak"; u "ask_user"; u "mesh_rpc"; u "dev_task"].

(** ** State *)

Record hive (W : Type) := Hive {
  h_election : option MeshElection;
  h_telemetry : pydict;
  h_observation : pydict;              (* last_observation *)
  h_node_id : pystr;
  h_caps : pyval;                      (* device_caps *)
  h_policy : pydict;
  h_speaker : bool;                    (* is there a speak listener? *)
  h_runtime : bool;                    (* is there a mesh runtime? *)
  h_tick_count : Z;
  h_typed_at : f64;                    (* _terminal_input_ts *)
  h_peer_tts : list (pystr * bool);
  h_route : pyval;                     (* _last_route *)
  h_delegated_from : option pystr;
  h_delegated_out : Z;
  h_pending : list (pystr * (pydict * Z));   (* _delegated_pending *)
  h_results : list pydict;             (* _delegated_results *)
  h_retries : list (pystr * pydict);   (* threads that will send again *)
  h_fallback : bool;                   (* _turn_fallback of the running thread *)
  h_forwarded : Z;                     (* _turns_forwarded *)
  h_waiters : list (pystr * bool);     (* waiters, and whether they were set *)
  h_turn_results : list (pystr * pydict);
  h_workers : list (pystr * pydict);   (* threads answering forwarded turns *)
  h_world : W
}.
Arguments Hive {W}. Arguments h_election {W}. Arguments h_telemetry {W}. Arguments h_observation {W}.
Arguments h_node_id {W}. Arguments h_caps {W}. Arguments h_policy {W}. Arguments h_speaker {W}.
Arguments h_runtime {W}. Arguments h_tick_count {W}. Arguments h_typed_at {W}. Arguments h_peer_tts {W}.
Arguments h_route {W}. Arguments h_delegated_from {W}. Arguments h_delegated_out {W}. Arguments h_pending {W}.
Arguments h_results {W}. Arguments h_retries {W}. Arguments h_fallback {W}. Arguments h_forwarded {W}.
Arguments h_waiters {W}. Arguments h_turn_results {W}. Arguments h_workers {W}. Arguments h_world {W}.

(** What is outside: clocks (the elector's and the wall's), the mesh runtime's
    [send], the free memory and the battery, the attention verdict and the
    interaction bus, the speaker, the records of what was said, the RPC host and
    the registry of named tasks. *)
Class HiveWorld (W : Type) := {
  hw_monotonic : W → W * f64;
  hw_time : W → W * f64;
  hw_send : pystr → pystr → pydict → W → W * res pydict;
  hw_free_memory : W → W * res Z;
  hw_battery : W → W * pyval;
  hw_attention : W → W * res pystr;
  hw_human_context : W → W * res pyval;
  hw_hive_caps : W → W * res pydict;
  hw_engine_audit : W → W * bool;
  hw_speak : pystr → W → W * res bool;
  hw_respond : pystr → bool → W → W * res unit;     (* interaction.record_agent_response *)
  hw_spoken : bool → W → W * res unit;              (* conversation.on_speak_end *)
  hw_asked : pystr → W → W * res unit;              (* the journal and the open question *)
  hw_answer_ttl : W → W * pyval;
  hw_rpc : pystr → Z → bool → W → W * res pydict;   (* debug_mesh_rpc, decoded *)
  hw_dev_registry : W → W * option pystr;           (* why dev_tasks cannot be imported *)
  hw_dev_task : pyval → pystr → W → W * res pydict;
  hw_exn_text : exn → pystr                         (* str(exc) *)
}.

Section Updates.
Context {W : Type}.
Implicit Types (h : hive W).

Definition with_election x h : hive W :=
  Hive x (h_telemetry h) (h_observation h) (h_node_id h) (h_caps h) (h_policy h) (h_speaker h) (h_runtime h)
    (h_tick_count h) (h_typed_at h) (h_peer_tts h) (h_route h) (h_delegated_from h) (h_delegated_out h) (h_pending h)
    (h_results h) (h_retries h) (h_fallback h) (h_forwarded h) (h_waiters h) (h_turn_results h) (h_workers h) (h_world h).
Definition with_telemetry x h : hive W :=
  Hive (h_election h) x (h_observation h) (h_node_id h) (h_caps h) (h_policy h) (h_speaker h) (h_runtime h)
    (h_tick_count h) (h_typed_at h) (h_peer_tts h) (h_route h) (h_delegated_from h) (h_delegated_out h) (h_pending h)
    (h_results h) (h_retries h) (h_fallback h) (h_forwarded h) (h_waiters h) (h_turn_results h) (h_workers h) (h_world h).
Definition with_typed_at x h : hive W :=
  Hive (h_election h) (h_telemetry h) (h_observation h) (h_node_id h) (h_caps h) (h_policy h) (h_speaker h) (h_runtime h)
    (h_tick_count h) x (h_peer_tts h) (h_route h) (h_delegated_from h) (h_delegated_out h) (h_pending h)
    (h_results h) (h_retries h) (h_fallback h) (h_forwarded h) (h_waiters h) (h_turn_results h) (h_workers h) (h_world h).
Definition with_peer_tts x h : hive W :=
  Hive (h_election h) (h_telemetry h) (h_observation h) (h_node_id h) (h_caps h) (h_policy h) (h_speaker h) (h_runtime h)
    (h_tick_count h) (h_typed_at h) x (h_route h) (h_delegated_from h) (h_delegated_out h) (h_pending h)
    (h_results h) (h_retries h) (h_fallback h) (h_forwarded h) (h_waiters h) (h_turn_results h) (h_workers h) (h_world h).
Definition with_route x h : hive W :=
  Hive (h_election h) (h_telemetry h) (h_observation h) (h_node_id h) (h_caps h) (h_policy h) (h_speaker h) (h_runtime h)
    (h_tick_count h) (h_typed_at h) (h_peer_tts h) x (h_delegated_from h) (h_delegated_out h) (h_pending h)
    (h_results h) (h_retries h) (h_fallback h) (h_forwarded h) (h_waiters h) (h_turn_results h) (h_workers h) (h_world h).
Definition with_delegated_from x h : hive W :=
  Hive (h_election h) (h_telemetry h) (h_observation h) (h_node_id h) (h_caps h) (h_policy h) (h_speaker h) (h_runtime h)
    (h_tick_count h) (h_typed_at h) (h_peer_tts h) (h_route h) x (h_delegated_out h) (h_pending h)
    (h_results h) (h_retries h) (h_fallback h) (h_forwarded h) (h_waiters h) (h_turn_results h) (h_workers h) (h_world h).
Definition with_delegations out pending retries h : hive W :=
  Hive (h_election h) (h_telemetry h) (h_observation h) (h_node_id h) (h_caps h) (h_policy h) (h_speaker h) (h_runtime h)
    (h_tick_count h) (h_typed_at h) (h_peer_tts h) (h_route h) (h_delegated_from h) out pending
    (h_results h) retries (h_fallback h) (h_forwarded h) (h_waiters h) (h_turn_results h) (h_workers h) (h_world h).
Definition with_results x h : hive W :=
  Hive (h_election h) (h_telemetry h) (h_observation h) (h_node_id h) (h_caps h) (h_policy h) (h_speaker h) (h_runtime h)
    (h_tick_count h) (h_typed_at h) (h_peer_tts h) (h_route h) (h_delegated_from h) (h_delegated_out h) (h_pending h)
    x (h_retries h) (h_fallback h) (h_forwarded h) (h_waiters h) (h_turn_results h) (h_workers h) (h_world h).
Definition with_fallback x h : hive W :=
  Hive (h_election h) (h_telemetry h) (h_observation h) (h_node_id h) (h_caps h) (h_policy h) (h_speaker h) (h_runtime h)
    (h_tick_count h) (h_typed_at h) (h_peer_tts h) (h_route h) (h_delegated_from h) (h_delegated_out h) (h_pending h)
    (h_results h) (h_retries h) x (h_forwarded h) (h_waiters h) (h_turn_results h) (h_workers h) (h_world h).
Definition with_turns n waiters results workers h : hive W :=
  Hive (h_election h) (h_telemetry h) (h_observation h) (h_node_id h) (h_caps h) (h_policy h) (h_speaker h) (h_runtime h)
    (h_tick_count h) (h_typed_at h) (h_peer_tts h) (h_route h) (h_delegated_from h) (h_delegated_out h) (h_pending h)
    (h_results h) (h_retries h) (h_fallback h) n waiters results workers (h_world h).
Definition with_outside x h : hive W :=
  Hive (h_election h) (h_telemetry h) (h_observation h) (h_node_id h) (h_caps h) (h_policy h) (h_speaker h) (h_runtime h)
    (h_tick_count h) (h_typed_at h) (h_peer_tts h) (h_route h) (h_delegated_from h) (h_delegated_out h) (h_pending h)
    (h_results h) (h_retries h) (h_fallback h) (h_forwarded h) (h_waiters h) (h_turn_results h) (h_workers h) x.

(** A call outside, and one that may raise. *)
Definition from_world {A} (f : W → W * A) : py (hive W) A := λ h,
  let '(w, a) := f (h_world h) in (with_outside w h, Ok a).
Definition try_world {A} (f : W → W * res A) : py (hive W) A := λ h,
  let '(w, r) := f (h_world h) in (with_outside w h, r).
Definition to_world (f : W → W) : py (hive W) unit := modify (λ h, with_outside (f (h_world h)) h).
End Updates.

(** [v == ""] or [v is None]. *)
Definition blank (v : pyval) : bool :=
  match v with VNone => true | VStr [] => true | _ => false end.

(** [isinstance(v, (int, float))]. *)
Definition is_number (v : pyval) : bool :=
  match v with VBool _ | VInt _ | VFloat _ => true | _ => false end.

(** [x if isinstance(x, dict) else {}]. *)
Definition dict_or_empty (v : pyval) : pydict := match v with VDict d => d | _ => [] end.

Section Node.
Context {PR : PyRepr} {W : Type} {HW : HiveWorld W}.
Abbreviation H := (hive W).

(** ** The elector of the node *)

(** [election.tick()]: [None] when there is no elector. *)
Definition elect : py H (option tick_result) :=
  h ← get;
  match h_election h with
  | None => mret None
  | Some _ =>
      ts ← from_world hw_monotonic;
      h ← get;
      match h_election h with
      | Some e => let '(e', r) := tick ts e in modify (with_election (Some e')) ;; mret (Some r)
      | None => mret None
      end
  end.

(** An operation of the elector at the present time. *)
Definition on_election {A} (m : f64 → py MeshElection A) (none : A) : py H A := λ h,
  let '(w, ts) := hw_monotonic (h_world h) in
  let h := with_outside w h in
  match h_election h with
  | Some e => let '(e', r) := m ts e in (with_election (Some e') h, r)
  | None => (h, Ok none)
  end.

(** [str(x)] of an id that may be missing. *)
Definition id_text (v : option pystr) : pystr := match v with Some s => s | None => u "None" end.

(** [_mesh_may_act]. *)
Definition mesh_may_act (delegated_by : option pystr) : py H bool :=
  r ← elect;
  h ← get;
  mret match r, h_election h with
       | Some r, Some e =>
           bool_decide (tr_primary r = None) || bool_decide (tr_primary r = Some (el_node_id e))
           || match (match delegated_by with None | Some [] => h_delegated_from h | s => s end) with
              | None | Some [] => false
              | Some s => bool_decide (s = id_text (tr_primary r))
              end
       | _, _ => true
       end.

(** [_turn_primary]. *)
Definition turn_primary : py H (option pystr) :=
  r ← elect;
  h ← get;
  mret match r, h_election h with
       | Some r, Some e =>
           match tr_primary r with
           | None | Some [] => None
           | Some p => if bool_decide (p = el_node_id e) then None else Some p
           end
       | _, _ => None
       end.

(** [_mesh_role_label]. *)
Definition mesh_role_label : py H pystr :=
  r ← elect;
  h ← get;
  match r, h_election h with
  | Some r, Some e =>
      if bool_decide (tr_primary r = Some (el_node_id e)) then
        ts ← from_world hw_monotonic;
        mret (match live_peers ts e with [] => u "standalone" | _ => u "primary" end)
      else mret (match tr_primary r with None | Some [] => u "standalone" | _ => u "follower" end)
  | _, _ => mret (u "none")
  end.

(** ** Advertising *)

(** [try: int(v) except (TypeError, ValueError): d], inside a method. *)
Definition int_here (d : Z) (v : pyval) : py H Z := of_res (int_or d v).

(** [_mesh_mem_headroom]. *)
Definition mesh_mem_headroom : py H Z :=
  measured ← attempt (try_world hw_free_memory);
  let measured := match measured with Ok z => z | Raise _ => 0 end in
  if 0 <? measured then mret measured
  else
    h ← get;
    mem ← int_here 0 (py_or (dict_get (u "mem_available_bytes")
                               (dict_get (u "mem_available") (VInt 0) (h_telemetry h)) (h_telemetry h)) (VInt 0));
    mret (if 0 <? mem then mem else 0).

(** [int(telemetry.get("thermal_state", telemetry.get("thermal_status", 0)) or 0)]. *)
Definition thermal_value (t : pydict) : pyval :=
  dict_get (u "thermal_state") (dict_get (u "thermal_status") (VInt 0) t) t.

(** [terminal_input_recent]. *)
Definition terminal_input_recent (window_s : f64) : py H bool :=
  h ← get;
  if fltb f0 (h_typed_at h) then
    now ← from_world hw_time; mret (fleb (fsub now (h_typed_at h)) window_s)
  else mret false.

(** The sources of [_mesh_perception_facts]: the node's own observation, then
    its telemetry. *)
Definition perception_sources (human t : pydict) : pydict :=
  let from key alt := dict_get (u key) (dict_get (u key) alt t) human in
  [(u "face_count", from "face_count" VNone); (u "face_present", from "face_present" VNone);
   (u "gaze_toward_camera", from "gaze_toward_camera" VNone); (u "voice_active", from "voice_active" VNone);
   (u "speech_source", from "speech_source" (dict_get (u "scene_speech_source") VNone t));
   (u "speech_recent", dict_get (u "speech_recent") VNone human);
   (u "utterance_age_s", from "utterance_age_s" VNone);
   (u "presence_present", dict_get (u "presence_present") VNone human)].

(** ... and the interaction bus where they are silent. *)
Definition with_context (context s : pydict) : pydict :=
  let get k := dict_get (u k) VNone in
  let s := if bool_decide (get "face_count" s = VNone) then dset (u "face_count") (get "face_count" context) s else s in
  let s := if blank (get "speech_source" s) then dset (u "speech_source") (get "speech_source" context) s else s in
  if bool_decide (get "presence_present" s = VNone) && truthy (get "presence" context)
  then dset (u "presence_present") (VBool (bool_decide (py_str (get "presence" context) = u "user_present"))) s
  else s.

Definition remote_facts (s : pydict) : pydict :=
  (λ kv, (u "remote_" ++ kv.1, kv.2)) <$> List.filter (λ kv, negb (blank kv.2)) s.

(** The face verdict, from the count when nothing states it. *)
Definition face_verdict (facts : pydict) : res pydict :=
  if dhas (u "remote_face_present") facts then Ok facts
  else
    let count := dict_get (u "remote_face_count") VNone facts in
    if is_number count then n ← py_int count; Ok (dset (u "remote_face_present") (VBool (0 <? n)) facts)
    else Ok facts.

(** [_mesh_perception_facts]. *)
Definition mesh_perception_facts : py H pydict :=
  h ← get;
  let human := dict_or_empty (dict_get (u "human") VNone (h_observation h)) in
  context ← from_world hw_human_context;
  let context := match context with Ok v => dict_or_empty v | Raise _ => [] end in
  facts ← of_res (face_verdict (remote_facts (with_context context (perception_sources human (h_telemetry h)))));
  typed ← attempt (terminal_input_recent (f_of_Z 60));
  mret (match typed with Ok true => dset (u "remote_terminal_active") (VBool true) facts | _ => facts end).

(** [_mesh_heartbeat_payload]. *)
Definition update_dict (d e : pydict) : pydict := foldl (λ d kv, dset kv.1 kv.2 d) d e.
Definition advertised (mem : Z) (speaker : bool) (facts payload : pydict) : pydict :=
  let payload := if mem <=? 0 then ddel (u "mem_available_bytes") payload else payload in
  update_dict (dset (u "can_speak") (VBool speaker) payload) facts.
Definition mesh_heartbeat_payload : py H pydict :=
  h ← get;
  match h_election h with
  | None => mret []
  | Some _ =>
      thermal ← int_here 0 (py_or (thermal_value (h_telemetry h)) (VInt 0));
      payload ← attempt (
        mem ← mesh_mem_headroom;
        caps ← try_world hw_hive_caps;
        payload ← on_election (λ ts, local_heartbeat ts thermal mem [] true caps) [];
        h ← get;
        facts ← mesh_perception_facts;
        mret (advertised mem (h_speaker h) facts payload));
      mret (match payload with Ok d => d | Raise _ => [] end)
  end.

(** ** Hearing *)

(** What an advertisement of the store is to the elector. *)
Definition store_entry (peer : pydict) : option pydict :=
  let get k d := dict_get (u k) d peer in
  let id := strip (py_str (py_or (py_or (py_or (get "device_id" VNone) (get "node_id" VNone)) (get "id" VNone)) (VStr []))) in
  if bool_decide (id = []) then None
  else Some [(u "node_id", VStr id); (u "priority", get "priority" (VInt 500));
             (u "thermal_status", get "thermal_status" (get "thermal_state" (VInt 0)));
             (u "mem_available_bytes", get "mem_available_bytes" (VInt 0));
             (u "paired", get "paired" (VBool true)); (u "seq", get "seq" (VInt 0))].

Fixpoint observe_store (peers : list pyval) : py H unit :=
  match peers with
  | [] => mret tt
  | p :: rest =>
      match p with
      | VDict d => match store_entry d with
                   | Some entry => on_election (λ ts, observe_heartbeat ts (VDict entry)) false ;; mret tt
                   | None => mret tt
                   end
      | _ => mret tt
      end ;;
      observe_store rest
  end.

(** [(telemetry.get("mesh_peers") or [])[:16]], iterated. *)
Definition stored_peers (t : pydict) : res (list pyval) :=
  match py_or (dict_get (u "mesh_peers") VNone t) (VList []) with
  | VList l => Ok (take 16 l)
  | VStr s => Ok (take 16 ((λ c, VStr [c]) <$> s))
  | _ => Raise (TypeError (u "object is not subscriptable"))
  end.

(** The audit chain of the engine, attached when there is one. *)
Definition attach_audit : py H unit :=
  audit ← from_world hw_engine_audit;
  modify (λ h, with_election
    ((λ e, match el_audit e with
           | Some _ => e
           | None => if audit : bool
                     then Election (el_node_id e) (el_priority e) (el_role e) (el_lease_s e) (el_timeout e) (Some [])
                            (el_nodes e) (el_primary_id e) (el_lease_since e) (el_seq e) (el_seen e)
                     else e
           end) <$> h_election h) h).

(** [_mesh_heartbeat_tick]. *)
Definition heartbeat_pass : py H unit :=
  attach_audit ;;
  h ← get;
  thermal ← int_here 0 (py_or (thermal_value (h_telemetry h)) (VInt 0));
  mem ← mesh_mem_headroom;
  on_election (λ ts, local_heartbeat ts thermal mem [] true []) [] ;;
  h ← get;
  peers ← of_res (stored_peers (h_telemetry h));
  observe_store peers ;;
  elect ;; elect ;; mret tt.
Definition mesh_heartbeat_tick : py H unit :=
  h ← get;
  match h_election h with
  | None => mret tt
  | Some _ => attempt heartbeat_pass ;; mret tt
  end.

(** The entry [_mesh_heartbeat_received] keeps of an advertisement. *)
Definition received_entry (node_id : pystr) (now : f64) (payload : pydict) : pydict :=
  let get k d := dict_get (u k) d payload in
  let entry := [(u "device_id", VStr node_id); (u "node_id", VStr node_id); (u "priority", get "priority" (VInt 500));
    (u "thermal_status", get "thermal_status" (VInt 0)); (u "mem_available_bytes", get "mem_available_bytes" (VInt 0));
    (u "paired", get "paired" (VBool true)); (u "seq", get "seq" (VInt 0)); (u "source", VStr (u "mesh"));
    (u "received_at", VFloat now)] in
  let entry := match get "can_speak" VNone with VNone => entry | v => dset (u "can_speak") (VBool (truthy v)) entry end in
  foldl (λ e kv, if starts_with (u "remote_") kv.1 then dset kv.1 kv.2 e else e) entry payload.

(** The peers of the store under another name; an entry that is no object
    raises. *)
Definition peer_name (d : pydict) : pystr :=
  py_str (py_or (py_or (dict_get (u "device_id") VNone d) (dict_get (u "node_id") VNone d)) (VStr [])).
Definition unless_named (node_id : pystr) (p : pyval) : res (list pyval) :=
  d ← as_dict p; Ok (if bool_decide (peer_name d = node_id) then [] else [p]).
Definition other_peers (node_id : pystr) (peers : list pyval) : res (list pyval) :=
  l ← res_map (unless_named node_id) peers; Ok (concat l).

Definition own_ids (h : H) : list pystr :=
  List.filter (λ s, negb (bool_decide (s = []))) (h_node_id h :: match h_election h with Some e => [el_node_id e] | None => [] end).

(** [_mesh_heartbeat_received]. *)
Definition mesh_heartbeat_received (payload : pydict) : py H unit :=
  h ← get;
  let node_id := strip (py_str (py_or (dict_get (u "node_id") VNone payload) (VStr []))) in
  if bool_decide (node_id = []) || bool_decide (node_id ∈ own_ids h) then mret tt
  else
    attempt (on_election (λ ts, observe_heartbeat ts (VDict payload)) false) ;;
    now ← from_world hw_time;
    let peers := match dict_get (u "mesh_peers") VNone (h_telemetry h) with VList l => l | _ => [] end in
    modify (λ h, match dict_get (u "can_speak") VNone payload with
                 | VNone => h
                 | v => with_peer_tts (dset node_id (truthy v) (h_peer_tts h)) h
                 end) ;;
    merged ← of_res (other_peers node_id peers);
    let merged := merged ++ [VDict (received_entry node_id now payload)] in
    modify (λ h, with_telemetry (dset (u "mesh_peers") (VList (drop (length merged - 16) merged)) (h_telemetry h)) h) ;;
    attempt mesh_heartbeat_tick ;; mret tt.

(** [update_mesh_peers], given the decoded snapshot. *)
Definition update_mesh_peers (data : pydict) : py H unit :=
  match dict_get (u "mesh_peers") VNone data with
  | VList peers =>
      modify (λ h, with_telemetry (dset (u "mesh_peer_count")
                     (dict_get (u "mesh_peer_count") (VInt (Z.of_nat (length peers))) data)
                     (dset (u "mesh_peers") (VList peers) (h_telemetry h))) h)
  | _ => mret tt
  end.

(** ** How much agency *)

Record capacity := Capacity {
  cp_thermal : Z; cp_mem : Z; cp_battery : Z; cp_charging : bool; cp_priority : Z; cp_caps : pyval
}.

(** [_capacity_profile]. *)
Definition capacity_profile : py H capacity :=
  mem ← attempt mesh_mem_headroom;
  h ← get;
  thermal ← int_here 0 (thermal_value (h_telemetry h));
  level ← from_world hw_battery;
  battery ← int_here 100 level;
  mret (Capacity thermal (match mem with Ok m => m | Raise _ => 0 end) battery
          (truthy (dict_get (u "is_charging") (VBool false) (h_telemetry h)))
          (match h_election h with Some e => el_priority e | None => 500 end) (h_caps h)).

(** [_orchestration_mode]: the mode; its reason is text for the operator. *)
Inductive mode := Primary | Subordinate | Degraded | Standalone.

Definition overridden (policy : pydict) : option mode :=
  let o := lower (strip (py_str (py_or (dict_get (u "orchestration") VNone policy) (VStr (u "auto"))))) in
  if bool_decide (o ∈ [u "full"; u "primary"]) then Some Primary
  else if bool_decide (o ∈ [u "sensor_only"; u "subordinate"; u "delegated"]) then Some Subordinate
  else None.

Definition exhausted (p : capacity) : bool :=
  (THERMAL_REFUSE_STATUS <=? cp_thermal p)
  || negb (cp_mem p =? 0) && (cp_mem p <? ORCH_MIN_HEADROOM_BYTES)
  || (cp_battery p <=? ORCH_MIN_BATTERY_PCT) && negb (cp_charging p).

Definition orchestration_mode : py H mode :=
  profile ← capacity_profile;
  h ← get;
  match overridden (h_policy h) with
  | Some m => mret m
  | None =>
      if exhausted profile then mret Degraded
      else
        r ← elect;
        h ← get;
        mret match r, h_election h with
             | Some r, Some e =>
                 if bool_decide (tr_primary r = None) || bool_decide (tr_primary r = Some (el_node_id e))
                 then Primary else Subordinate
             | _, _ => Standalone
             end
  end.

End Node.
