(* ===== verification/HiveTurns.v ===== *)
(** * Who answers in a hive ([src/shugocore_agent.py], routing, delegation and turns)

    The devices that could answer and the one chosen, the actions a primary
    delegates and a follower runs, their results and the retry, the turns a
    follower forwards and a primary answers, and the executors of speech.  The
    decision of a whole turn is an argument. *)

From Stdlib Require Import ZArith NArith Lia.
From Stdlib Require Import Floats.SpecFloat.
From S2P Require Import Prelude PyFloat PyStr PyVal Security MeshElection Interaction Hive.
From S2P Require Routing.

Local Open Scope Z_scope.

Section Turns.
Context {PR : PyRepr} {PD : PyDictOf} {W : Type} {HW : HiveWorld W}.
Abbreviation H := (hive W).

(** [str(d.get(k) or "")]. *)
Definition text_of (k : string) (d : pydict) : pystr := py_str (py_or (dict_get (u k) VNone d) (VStr [])).
(** [int(d.get("priority", 500) or 500)]. *)
Definition priority_of (d : pydict) : res Z := py_int (py_or (dict_get (u "priority") (VInt 500) d) (VInt 500)).
(** [d.get("can_speak", default)], as a truth value. *)
Definition speaks (dflt : bool) (d : pydict) : bool := truthy (dict_get (u "can_speak") (VBool dflt) d).

(** ** The devices that could answer *)

(** [observation.get("human") or {}], which must be an object. *)
Definition human_of (h : H) : res pydict := as_dict (py_or (dict_get (u "human") VNone (h_observation h)) (VDict [])).

Definition own_facts (human : pydict) : res pydict :=
  let faces := dict_get (u "face_count") VNone human in
  present ← (if is_number faces then n ← py_int faces; Ok (0 <? n) else Ok false);
  Ok [(u "face_present", VBool present); (u "speech_source", dict_get (u "speech_source") VNone human);
      (u "speech_recent", VBool (truthy (dict_get (u "speech_recent") VNone human)))].

(** The peers of the observation, or those of the store. *)
Definition known_peers (h : H) : list pyval :=
  match dict_get (u "mesh_peers") VNone (h_observation h) with
  | VList ((_ :: _) as l) => l
  | _ => match dict_get (u "mesh_peers") VNone (h_telemetry h) with VList l => l | _ => [] end
  end.

Definition self_id (h : H) : pystr :=
  match h_election h with
  | Some e => el_node_id e
  | None => match h_node_id h with
            | [] => u "shugo-" ++ py_str (py_or (h_caps h) (VStr (u "node")))
            | n => n
            end
  end.

Definition self_candidate (h : H) (facts : pydict) : pydict :=
  [(u "device_id", VStr (self_id h)); (u "facts", VDict facts); (u "can_speak", VBool (h_speaker h));
   (u "is_self", VBool true); (u "priority", VInt (match h_election h with Some e => el_priority e | None => 500 end))].

(** The age of a peer's facts: its own stamp, or the time since they came. *)
Definition peer_age (peer : pydict) : py H pyval :=
  let age := dict_get (u "age_s") VNone peer in
  if is_number age then mret age
  else
    let received := dict_get (u "received_at") VNone peer in
    if is_number received then
      now ← from_world hw_time;
      at_ ← of_res (match received with VInt z => py_float_of_Z z | v => Ok (default f0 (Routing.num_f v)) end);
      mret (VFloat (fmax f0 (fsub now at_)))
    else mret VNone.

Definition remote_only (peer : pydict) : pydict := List.filter (λ kv, starts_with (u "remote_") kv.1) peer.

Definition peer_candidate (device : pystr) (tts : list (pystr * bool)) (age : pyval) (priority : Z) (peer : pydict) : pydict :=
  [(u "device_id", VStr device); (u "facts", VDict (remote_only peer));
   (u "can_speak", VBool (speaks (default true (dget device tts)) peer)); (u "is_self", VBool false);
   (u "priority", VInt priority); (u "age_s", age)].

Definition peer_device (peer : pydict) : pystr :=
  strip (py_str (py_or (py_or (dict_get (u "device_id") VNone peer) (dict_get (u "id") VNone peer)) (VStr []))).

Fixpoint peer_candidates (peers : list pyval) : py H (list pydict) :=
  match peers with
  | [] => mret []
  | p :: rest =>
      c ← match p with
          | VDict peer =>
              let device := peer_device peer in
              if bool_decide (device = []) then mret []
              else
                age ← peer_age peer;
                priority ← of_res (priority_of peer);
                h ← get;
                mret [peer_candidate device (h_peer_tts h) age priority peer]
          | _ => mret []
          end;
      cs ← peer_candidates rest;
      mret (c ++ cs)
  end.

(** [_response_candidates]. *)
Definition response_candidates : py H (list pydict) :=
  h ← get;
  human ← of_res (human_of h);
  facts ← of_res (own_facts human);
  let facts := if truthy (dict_get (u "voice_active") VNone (h_telemetry h)) then dset (u "voice_active") (VBool true) facts else facts in
  typed ← terminal_input_recent (f_of_Z 60);
  let facts := if typed : bool then dset (u "terminal_active") (VBool true) facts else facts in
  attention ← from_world hw_attention;
  let facts := match attention with Ok s => dset (u "attention_state") (VStr s) facts | Raise _ => facts end in
  h ← get;
  peers ← peer_candidates (known_peers h);
  mret (self_candidate h facts :: peers).

(** ** The one that answers *)

Record chosen := Chosen { ch_device : pystr; ch_self : bool; ch_score : pyval; ch_why : list pystr }.

Definition device_text (c : pydict) : pystr := text_of "device_id" c.

(** The origin of a forwarded turn joins the candidates when none of them is
    it. *)
Definition with_origin (preferred : pystr) (origin : option pydict) (cs : list pydict) : res (list pydict) :=
  match origin with
  | Some o =>
      if negb (bool_decide (preferred = [])) && bool_decide (device_text o = preferred)
         && negb (existsb (λ c, bool_decide (device_text c = preferred)) cs) then
        facts ← py_dict_or_empty (dict_get (u "facts") VNone o);
        priority ← priority_of o;
        Ok (cs ++ [[(u "device_id", VStr preferred); (u "facts", VDict facts); (u "can_speak", VBool (speaks true o));
                    (u "is_self", VBool false); (u "priority", VInt priority)]])
      else Ok cs
  | None => Ok cs
  end.

Definition preferred_choice (preferred : pystr) (cs : list pydict) : option pydict :=
  if bool_decide (preferred = []) then None
  else match List.find (λ c, bool_decide (device_text c = preferred)) cs with
       | Some c => if truthy (dict_get (u "can_speak") VNone c) then Some c else None
       | None => None
       end.

Definition preferred_reason (preferred : pystr) : pystr :=
  preferred ++ u " took the turn and can speak (preferred over proximity)".

Definition route_record (device score signals : pyval) (reason : pystr) (forced : pyval) : pyval :=
  VDict [(u "device", device); (u "score", score); (u "signals", signals); (u "reason", VStr reason); (u "forced", forced)].

Definition forced_target (policy : pydict) : pyval := py_or (dict_get (u "response_target") VNone policy) (VStr (u "auto")).

(** [select_response_node]. *)
Definition select_response_node (prefer : pystr) (origin : option pydict) : py H (option chosen * pystr) :=
  h ← get;
  let forced := forced_target (h_policy h) in
  candidates ← response_candidates;
  let preferred := strip prefer in
  candidates ← of_res (with_origin preferred origin candidates);
  match preferred_choice preferred candidates with
  | Some c =>
      let why := preferred_reason preferred in
      modify (with_route (route_record (VStr preferred) VNone (VList [VStr (u "turn-origin")]) why
                            (if bool_decide (py_str forced = u "auto") then VStr (u "preferred") else forced))) ;;
      mret (Some (Chosen (device_text c) (truthy (dict_get (u "is_self") VNone c)) VNone [u "turn-origin"]), why)
  | None =>
      cw ← of_res (Routing.select (VDict <$> candidates) Routing.DEFAULT_FLOOR (Some (py_str forced)));
      let best := (λ c, Chosen (Routing.sc_device c) (Routing.is_self c) (VFloat (Routing.sc_score c)) (Routing.sc_why c)) <$> cw.1 in
      modify (with_route (route_record (match best with Some c => VStr (ch_device c) | None => VNone end)
                            (match best with Some c => ch_score c | None => VNone end)
                            (VList (match best with Some c => VStr <$> ch_why c | None => [] end)) cw.2
                            (if bool_decide (strip (py_str forced) ∈ [[]; u "auto"]) then VNone else forced))) ;;
      mret (best, cw.2)
  end.

(** ** Delegating *)

Definition error_result (message : pyval) : pydict := [(u "status", VStr (u "error")); (u "message", message)].

(** [_mesh_delegate]. *)
Definition mesh_delegate (peer : pystr) (payload : pydict) : py H pydict :=
  h ← get;
  if negb (h_runtime h) then mret (error_result (VStr (u "no mesh runtime")))
  else
    sent ← attempt (try_world (hw_send peer DELEGATE_TOPIC payload));
    match sent with
    | Raise e => mret (error_result (VStr (exn_name e)))
    | Ok sent =>
        if negb (bool_decide (py_str (dict_get (u "status") VNone sent) = u "success")) then
          mret (error_result (py_or (dict_get (u "reason") VNone sent) (VStr (u "delegate send failed"))))
        else
          modify (λ h, with_delegations (h_delegated_out h + 1) (dset peer (payload, 0) (h_pending h)) (h_retries h) h) ;;
          mret [(u "status", VStr (u "delegated")); (u "peer", VStr peer)]
    end.

(** [_route_response]: [None] answers here. *)
Definition delegation (action : pystr) (params : pydict) : pydict :=
  [(u "action_type", VStr action); (u "params", VDict params);
   (u "text", VStr (take 400 (py_str (py_or (py_or (dict_get (u "text") VNone params) (dict_get (u "question") VNone params)) (VStr [])))))].

Definition route_response (action : pystr) (params : pydict) (prefer : pystr) (origin : option pydict) : py H (option pydict) :=
  cw ← select_response_node prefer origin;
  match cw.1 with
  | None => mret None
  | Some c =>
      if ch_self c then mret None
      else
        result ← mesh_delegate (ch_device c) (delegation action params);
        mret (Some (dset (u "route") (VStr cw.2) (dset (u "delegated_to") (VStr (ch_device c)) result)))
  end.

(** [_mesh_reply]. *)
Definition mesh_reply (peer topic : pystr) (payload : pydict) : py H unit :=
  h ← get;
  if h_runtime h then attempt (try_world (hw_send peer topic payload)) ;; mret tt else mret tt.

(** ** Speaking *)

(** Every mouth asks first whether this node may act; a turn whose hand-off
    failed may answer all the same. *)
Definition may_speak : py H bool :=
  ok ← mesh_may_act None;
  h ← get;
  mret (ok || h_fallback h).

Definition follower_refusal (h : H) : pydict :=
  [(u "status", VStr (u "refused")); (u "reason", VStr (u "mesh_follower"));
   (u "primary", match h_election h with
                 | Some e => match el_primary_id e with Some p => VStr p | None => VNone end
                 | None => VNone
                 end)].

Definition no_output : pydict :=
  [(u "status", VStr (u "no_output")); (u "reason", VStr (u "no speech provider attached; actions are never simulated"))].

Definition refused_text (reason : string) : pydict := [(u "status", VStr (u "refused")); (u "reason", VStr (u reason))].

(** Whether a route took the words. *)
Definition took (route : pydict) : bool :=
  bool_decide (py_str (dict_get (u "status") VNone route) ∈ [u "delegated"; u "success"]).

Definition origin_of (params : pydict) : option pydict :=
  match dict_get (u "reply_origin") VNone params with VDict d => Some d | _ => None end.

(** The words of an utterance, bounded at a sentence. *)
Definition spoken_words (params : pydict) : pystr :=
  truncate_sentence (py_str (py_or (py_or (dict_get (u "text") VNone params) (dict_get (u "utterance") VNone params)) (VStr []))) 400.
Definition asked_words (params : pydict) : pystr :=
  truncate_sentence (py_str (py_or (py_or (py_or (dict_get (u "question") VNone params) (dict_get (u "text") VNone params))
                                          (dict_get (u "utterance") VNone params)) (VStr []))) 400.

(** The device closest to the operator first, this one when it cannot be
    reached. *)
Definition routed (action key : string) (text : pystr) (params : pydict) : py H (option pydict) :=
  route ← route_response (u action) [(u key, VStr text)] (text_of "reply_prefer" params) (origin_of params);
  mret (match route with Some r => if took r then Some r else None | None => None end).

(** The tail of [_execute_speak]. *)
Definition speak_here (text : pystr) : py H pydict :=
  h ← get;
  if negb (h_speaker h) then mret no_output
  else
    delivered ← attempt (try_world (hw_speak text));
    match delivered with
    | Raise e =>
        mret [(u "status", VStr (u "error")); (u "message", VStr (exn_name e));
              (u "reason", VStr (take 200 (u "speak_listener_failed: " ++ exn_name e ++ u ": " ++ hw_exn_text e)))]
    | Ok false =>
        mret [(u "status", VStr (u "error")); (u "spoken", VStr text); (u "delivered", VBool false);
              (u "reason", VStr (u "speak_listener_returned_false"))]
    | Ok true =>
        try_world (hw_respond text false) ;;
        try_world (hw_spoken false) ;;
        mret [(u "status", VStr (u "success")); (u "spoken", VStr text); (u "delivered", VBool true)]
    end.

(** [_execute_speak]. *)
Definition execute_speak (params : pydict) : py H pydict :=
  ok ← may_speak;
  h ← get;
  if negb ok then mret (follower_refusal h)
  else
    let text := spoken_words params in
    if bool_decide (text = []) then mret (refused_text "empty speech content")
    else
      r ← routed "speak" "text" text params;
      match r with Some r => mret r | None => speak_here text end.

(** The tail of [_execute_ask_user]. *)
Definition ask_here (text : pystr) : py H pydict :=
  h ← get;
  if negb (h_speaker h) then mret no_output
  else
    delivered ← attempt (try_world (hw_speak text));
    match delivered with
    | Raise e => mret (error_result (VStr (exn_name e)))
    | Ok delivered =>
        try_world (hw_respond text true) ;;
        try_world (hw_asked text) ;;
        try_world (hw_spoken true) ;;
        ttl ← from_world hw_answer_ttl;
        mret [(u "status", VStr (u "success")); (u "asked", VStr text); (u "delivered", VBool delivered);
              (u "awaiting_answer", VBool true); (u "answer_ttl_s", ttl)]
    end.

(** [_execute_ask_user]. *)
Definition execute_ask_user (params : pydict) : py H pydict :=
  ok ← may_speak;
  h ← get;
  if negb ok then mret (follower_refusal h)
  else
    let text := asked_words params in
    if bool_decide (text = []) then mret (refused_text "empty question")
    else
      r ← routed "ask_user" "question" text params;
      match r with Some r => mret r | None => ask_here text end.

(** [_speak_direct]. *)
Definition speak_direct (text : pystr) : py H bool :=
  ok ← may_speak;
  h ← get;
  if negb ok || negb (h_speaker h) then mret false
  else
    let clean := sanitize_text text 400 in
    delivered ← attempt (try_world (hw_speak clean));
    match delivered with
    | Raise _ => mret false
    | Ok delivered => try_world (hw_respond clean false) ;; mret delivered
    end.

(** ** The other delegated actions *)

Definition DEFAULT_RPC_PORT : Z := 50052.

Definition word_of (k dflt : string) (params : pydict) : pystr :=
  lower (strip (py_str (py_or (dict_get (u k) VNone params) (VStr (u dflt))))).

(** [_execute_mesh_rpc]. *)
Definition execute_mesh_rpc (params : pydict) : py H pydict :=
  ok ← mesh_may_act None;
  h ← get;
  if negb ok then mret (follower_refusal h)
  else
    port ← of_res (int_or DEFAULT_RPC_PORT (py_or (dict_get (u "port") VNone params) (VInt DEFAULT_RPC_PORT)));
    let lan := bool_decide (word_of "lan" "0" params ∈ [u "1"; u "true"; u "yes"; u "on"]) in
    summary ← attempt (try_world (hw_rpc (word_of "action" "start" params) port lan));
    match summary with
    | Raise e =>
        mret [(u "status", VStr (u "error")); (u "action", VStr (u "mesh_rpc")); (u "port", VInt port); (u "message", VStr (exn_name e))]
    | Ok summary =>
        let ok := truthy (dict_get (u "ok") VNone summary) in
        mret [(u "status", VStr (if ok then u "success" else u "error")); (u "action", VStr (u "mesh_rpc")); (u "port", VInt port);
              (u "lan", VBool lan); (u "rpc", VDict summary);
              (u "reason", if ok then VStr [] else py_or (dict_get (u "error") VNone summary) (VStr (u "peripheral did not start")))]
    end.

(** [_execute_dev_task]. *)
Definition execute_dev_task (params : pydict) : py H pydict :=
  ok ← mesh_may_act None;
  h ← get;
  if negb ok then mret (follower_refusal h)
  else
    missing ← from_world hw_dev_registry;
    match missing with
    | Some name =>
        mret [(u "status", VStr (u "refused")); (u "action", VStr (u "dev_task"));
              (u "reason", VStr (u "this node has no dev-task registry (" ++ name ++ u ")"))]
    | None =>
        h ← get;
        try_world (hw_dev_task (dict_get (u "task") VNone params) (default [] (h_delegated_from h)))
    end.

(** ** Running what the primary delegates *)

Definition executor (action : pystr) : option (pydict → py H pydict) :=
  if bool_decide (action = u "speak") then Some execute_speak
  else if bool_decide (action = u "ask_user") then Some execute_ask_user
  else if bool_decide (action = u "mesh_rpc") then Some execute_mesh_rpc
  else if bool_decide (action = u "dev_task") then Some execute_dev_task
  else None.

(** [(payload or {}).get("id")]. *)
Definition payload_id (payload : pyval) : res pyval :=
  d ← as_dict (py_or payload (VDict [])); Ok (dict_get (u "id") VNone d).

Definition not_primary (mine : option pystr) (peer : pystr) : pystr :=
  u "sender is not the primary (mine is " ++ (match mine with None | Some [] => u "unknown" | Some p => p end)
  ++ u ", sender " ++ peer ++ u ")".

Definition refusal (id : pyval) (reason : pystr) : pydict :=
  [(u "id", id); (u "status", VStr (u "refused")); (u "reason", VStr reason)].

Definition run_delegated (peer action : pystr) (params : pydict) : py H pydict :=
  modify (with_delegated_from (Some peer)) ;;
  r ← attempt (match executor action with Some f => f params | None => raise (KeyError action) end);
  modify (with_delegated_from None) ;;
  mret (match r with Ok d => d | Raise e => error_result (VStr (exn_name e)) end).

(** [_handle_delegated_action]. *)
Definition handle_delegated_action (peer : pystr) (payload : pyval) : py H unit :=
  r ← elect;
  let mine := r ≫= tr_primary in
  if negb (bool_decide (mine = Some peer)) then
    id ← of_res (payload_id payload);
    mesh_reply peer DELEGATE_RESULT_TOPIC (refusal id (not_primary mine peer))
  else
    match payload with
    | VDict d =>
        let action := text_of "action_type" d in
        let params := match dict_get (u "params") VNone d with VDict p => p | _ => [] end in
        let id := dict_get (u "id") VNone d in
        if negb (bool_decide (action ∈ DELEGATABLE_ACTIONS)) then
          mesh_reply peer DELEGATE_RESULT_TOPIC (refusal id (u "action '" ++ action ++ u "' is not delegatable"))
        else
          result ← run_delegated peer action params;
          let get k := dict_get (u k) VNone result in
          mesh_reply peer DELEGATE_RESULT_TOPIC
            [(u "id", id); (u "status", get "status"); (u "action_type", VStr action); (u "delivered", get "delivered");
             (u "reason", py_or (get "reason") (get "message"))]
    | _ => mret tt
    end.

(** [_retry_delegation_if_stale]; the thread it starts sends again after six
    seconds ([fire_retry]). *)
Definition retry_if_stale (peer : pystr) (reason : pyval) : py H unit :=
  if negb (contains (u "not the primary") (lower (py_str (py_or reason (VStr []))))) then mret tt
  else
    modify (λ h, match dget peer (h_pending h) with
                 | None => h
                 | Some (payload, attempt) =>
                     if 2 <=? attempt then with_delegations (h_delegated_out h) (ddel peer (h_pending h)) (h_retries h) h
                     else with_delegations (h_delegated_out h) (dset peer (payload, attempt + 1) (h_pending h))
                            (h_retries h ++ [(peer, payload)]) h
                 end).

Definition fire_retry : py H unit :=
  h ← get;
  match h_retries h with
  | [] => mret tt
  | (peer, payload) :: rest =>
      modify (λ h, with_delegations (h_delegated_out h) (h_pending h) rest h) ;;
      mesh_delegate peer payload ;; mret tt
  end.

(** [_record_delegated_result]. *)
Definition last_16 {A} (l : list A) : list A := drop (length l - 16) l.
Definition record_delegated_result (peer : pystr) (payload : pyval) : py H unit :=
  match payload with
  | VDict d =>
      now ← from_world hw_time;
      let get k := dict_get (u k) VNone d in
      let record := [(u "peer", VStr peer); (u "status", get "status"); (u "action_type", get "action_type");
                     (u "delivered", get "delivered"); (u "reason", get "reason"); (u "at", VFloat now)] in
      modify (λ h, with_results (last_16 (h_results h ++ [record])) h) ;;
      retry_if_stale peer (get "reason")
  | _ => mret tt
  end.

(** ** Forwarding a turn *)

(** [_own_proximity_facts]. *)
Definition own_proximity_facts : py H pydict :=
  cs ← attempt response_candidates;
  mret (match cs with
        | Raise _ => []
        | Ok cs => match List.find (λ c, truthy (dict_get (u "is_self") VNone c)) cs with
                   | Some c => dict_or_empty (dict_get (u "facts") VNone c)
                   | None => []
                   end
        end).

Definition turn_id (now : Z) (ticks : Z) : pystr := u "turn-" ++ str_of_Z now ++ u "-" ++ str_of_Z ticks.

(** The turn as it is sent. *)
Definition turn_payload (id transcript source proposed answer_to : pystr) (facts : pydict) (h : H) : pydict :=
  [(u "id", VStr id); (u "transcript", VStr (take 400 transcript));
   (u "source", VStr (take 32 (match source with [] => u "local" | s => s end))); (u "reply_to", VStr (h_node_id h)); (u "proposed_text", VStr (take 400 proposed)); (u "answer_to", VStr (take 200 answer_to));
   (u "facts", VDict facts); (u "can_speak", VBool (h_speaker h));
   (u "priority", VInt (match h_election h with Some e => if el_priority e =? 0 then 500 else el_priority e | None => 500 end))].

(** Answering here is this thread's right for the rest of the turn. *)
Definition answer_here : py H bool := modify (with_fallback true) ;; mret false.

(** [waiters.pop] and [results.pop]. *)
Definition collect (id : pystr) : py H (option pydict) :=
  h ← get;
  modify (λ h, with_turns (h_forwarded h) (ddel id (h_waiters h)) (ddel id (h_turn_results h)) (h_workers h) h) ;;
  mret (dget id (h_turn_results h)).

(** What became of the hand-off, the waiter aside.  [others] is what the other
    threads did while this one waited: [event.wait] is whether one of them set
    the event in time. *)
Definition hand_off (others : H → H) (primary id : pystr) (payload : pydict) : py H bool :=
  sent ← attempt (try_world (hw_send primary TURN_TOPIC payload));
  match sent with
  | Raise _ => answer_here
  | Ok sent =>
      if negb (bool_decide (py_str (dict_get (u "status") VNone sent) = u "success")) then answer_here
      else
        modify (λ h, with_turns (h_forwarded h + 1) (h_waiters h) (h_turn_results h) (h_workers h) h) ;;
        modify others ;;
        h ← get;
        if bool_decide (dget id (h_waiters h) = Some true) then mret true else answer_here
  end.

(** [_forward_turn]. *)
Definition forward_turn (others : H → H) (transcript source local_text answer_to : pystr) : py H bool :=
  primary ← turn_primary;
  match primary with
  | None => mret false
  | Some primary =>
      h ← get;
      if negb (h_runtime h) then answer_here
      else
        now ← from_world hw_time;
        ms ← of_res (py_int_of_f (fmul now (f_of_Z 1000)));
        let id := turn_id ms (h_tick_count h) in
        facts ← own_proximity_facts;
        h ← get;
        modify (λ h, with_turns (h_forwarded h) (dset id false (h_waiters h)) (h_turn_results h) (h_workers h) h) ;;
        accepted ← hand_off others primary id (turn_payload id transcript source local_text answer_to facts h);
        outcome ← collect id;
        if negb accepted then mret false
        else if bool_decide (text_of "status" (default [] outcome) = u "answered") then mret true
        else answer_here
  end.

(** [_record_turn_result]. *)
Definition record_turn_result (payload : pyval) : py H unit :=
  match payload with
  | VDict d =>
      let id := text_of "id" d in
      modify (λ h, if negb (bool_decide (id = [])) && dhas id (h_waiters h)
                   then with_turns (h_forwarded h) (dset id true (h_waiters h)) (dset id d (h_turn_results h)) (h_workers h) h
                   else h)
  | _ => mret tt
  end.

(** What another thread runs: the right to answer here is the thread's own. *)
Definition as_thread {A} (m : py H A) : py H A := λ h,
  let '(h', r) := m (with_fallback false h) in (with_fallback (h_fallback h) h', r).

(** ** Answering a forwarded turn *)

(** [_handle_forwarded_turn]; the worker it starts is left in [h_workers]. *)
Definition handle_forwarded_turn (peer : pystr) (payload : pyval) : py H unit :=
  match payload with
  | VDict d =>
      primary ← turn_primary;
      match primary with
      | Some p => mesh_reply peer TURN_RESULT_TOPIC (refusal (dict_get (u "id") VNone d) (u "not the primary (" ++ p ++ u ")"))
      | None => modify (λ h, with_turns (h_forwarded h) (h_waiters h) (h_turn_results h) (h_workers h ++ [(peer, d)]) h)
      end
  | _ => mret tt
  end.

(** [_deliver_forwarded_reply]: the reason the origin will not hear it. *)
Definition deliver_forwarded_reply (text reply_to : pystr) (origin : pydict) : py H pystr :=
  result ← route_response (u "speak") [(u "text", VStr text)] reply_to (Some origin);
  mret (match result with
        | None => u "the origin was not a reachable mouth and no device was chosen"
        | Some r =>
            if bool_decide (py_str (dict_get (u "status") VNone r) = u "delegated")
               && bool_decide (text_of "delegated_to" r = reply_to) then []
            else u "routed to " ++ py_str (py_or (dict_get (u "delegated_to") VNone r) (VStr (u "nobody"))) ++ u " ("
                 ++ py_str (py_or (dict_get (u "status") VNone r) (VStr (u "unknown"))) ++ u "), not the origin"
        end).

(** What a forwarded turn asks. *)
Record turn := Turn {
  tn_id : pyval; tn_transcript : pystr; tn_reply_to : pystr; tn_proposed : pystr; tn_answer_to : option pystr; tn_origin : pydict
}.
Definition turn_of (peer : pystr) (d : pydict) : res turn :=
  let reply_to := match strip (py_str (py_or (dict_get (u "reply_to") VNone d) (VStr peer))) with [] => peer | s => s end in
  priority ← priority_of d;
  Ok (Turn (dict_get (u "id") VNone d) (strip (text_of "transcript" d)) reply_to (strip (text_of "proposed_text" d))
        (match strip (text_of "answer_to" d) with [] => None | s => Some s end)
        [(u "device_id", VStr reply_to); (u "facts", VDict (dict_or_empty (dict_get (u "facts") VNone d)));
         (u "can_speak", VBool (speaks true d)); (u "priority", VInt priority)]).

Section Deciding.
(** [_conversational_turn] of a forwarded turn. *)
Context (decide_turn : turn → py H unit).

Definition answer_turn (t : turn) : py H (string * pystr) :=
  if bool_decide (tn_transcript t = []) then mret ("refused"%string, u "empty transcript")
  else if negb (bool_decide (tn_proposed t = [])) then
    reason ← deliver_forwarded_reply (tn_proposed t) (tn_reply_to t) (tn_origin t);
    mret (match reason with
          | [] => ("answered"%string, u "proposed text relayed to the origin")
          | _ => ("error"%string, u "not delivered: " ++ reason)
          end)
  else decide_turn t ;; mret ("answered"%string, u "decided and routed").

(** [_answer_forwarded_turn]. *)
Definition answer_forwarded_turn (peer : pystr) (d : pydict) : py H unit :=
  t ← of_res (turn_of peer d);
  r ← attempt (answer_turn t);
  let '(status, detail) := match r with
                           | Ok sd => sd
                           | Raise e => ("error"%string, take 120 (exn_name e ++ u ": " ++ hw_exn_text e))
                           end in
  mesh_reply peer TURN_RESULT_TOPIC
    [(u "id", tn_id t); (u "status", VStr (u status)); (u "detail", VStr detail); (u "reply_to", VStr (tn_reply_to t))].

(** A worker runs. *)
Definition run_worker : py H unit :=
  h ← get;
  match h_workers h with
  | [] => mret tt
  | (peer, d) :: rest =>
      modify (λ h, with_turns (h_forwarded h) (h_waiters h) (h_turn_results h) rest h) ;;
      attempt (as_thread (answer_forwarded_turn peer d)) ;; mret tt
  end.
End Deciding.

(** [_on_mesh_send]: a frame a peer addressed to this node. *)
Definition on_mesh_send (peer topic : pystr) (payload : pyval) : py H unit :=
  if bool_decide (topic = DELEGATE_TOPIC) then handle_delegated_action peer payload
  else if bool_decide (topic = DELEGATE_RESULT_TOPIC) then record_delegated_result peer payload
  else if bool_decide (topic = TURN_TOPIC) then handle_forwarded_turn peer payload
  else if bool_decide (topic = TURN_RESULT_TOPIC) then record_turn_result payload
  else mret tt.

(** The mesh's receive loop runs the handler; its exceptions stay there. *)
Definition received (peer topic : pystr) (payload : pyval) (h : H) : H :=
  (as_thread (on_mesh_send peer topic payload) h).1.

(** ** A turn of this node's own *)

Section Own.
(** [_conversational_turn] of an observation. *)
Context (converse : pydict → pystr → py H unit).

(** [_handle_conversational_input]: the right to answer here lives as long as
    the turn.  A transcript that is no text raises. *)
Definition conversational_input (observation : pydict) : py H unit :=
  transcript ← of_res (match dict_get (u "transcript") (VStr []) observation with
                       | VStr s => Ok (strip s)
                       | _ => Raise (AttributeError (u "object has no attribute 'strip'"))
                       end);
  if bool_decide (transcript = []) then mret tt
  else
    modify (with_fallback false) ;;
    finally (converse observation transcript) (modify (with_fallback false)).

(** [handle_typed_input]. *)
Definition typed_observation (source transcript : pystr) : pydict :=
  [(u "type", VStr (u "speech")); (u "source", VStr (match source with [] => u "terminal" | s => s end));
   (u "transcript", VStr transcript); (u "new_speech", VBool true); (u "typed", VBool true)].
Definition handle_typed_input (text source : pystr) : py H bool :=
  let transcript := sanitize_text (strip text) 400 in
  if bool_decide (transcript = []) then mret false
  else
    now ← from_world hw_time;
    modify (with_typed_at now) ;;
    r ← attempt (conversational_input (typed_observation source transcript));
    mret (match r with Ok _ => true | Raise _ => false end).
End Own.
End Turns.
