(* ===== verification/HiveSafety.v ===== *)
(** * Authority in a hive ([src/shugocore_agent.py])

    Who may act, who may direct whom, what becomes of a forwarded turn and of a
    delegated one, and what a node keeps of what its peers say. *)

From Stdlib Require Import ZArith NArith Lia.
From Stdlib Require Import Floats.SpecFloat.
From S2P Require Import Prelude PyFloat PyStr PyVal Security MeshElection Interaction Hive HiveTurns.
From S2P Require Routing.

Local Open Scope Z_scope.

Section Authority.
Context {PR : PyRepr} {PD : PyDictOf} {W : Type} {HW : HiveWorld W}.
Abbreviation H := (hive W).
Implicit Types (h : H).

(** ** What the election says now *)

(** The elector's verdict at the present time, the holder it names, and the
    node after asking it. *)
Definition verdict h : option tick_result := 
  match h_election h with Some e => Some (tick (hw_monotonic (h_world h)).2 e).2 | None => None end.
Definition leader h : option pystr := verdict h ≫= tr_primary.
Definition ticked h : H :=
  match h_election h with
  | Some e => with_election (Some (tick (hw_monotonic (h_world h)).2 e).1) (with_outside (hw_monotonic (h_world h)).1 h)
  | None => h
  end.
(** The node itself, as its elector knows it. *)
Definition own_name h : option pystr := el_node_id <$> h_election h.
(** On whose behalf an action runs. *)
Definition director (by_ : option pystr) h : option pystr :=
  match by_ with None | Some [] => h_delegated_from h | s => s end.
Definition follower h : Prop := ∃ p, leader h = Some p ∧ own_name h ≠ Some p.

Lemma from_world_bind {A B : Type} (f : W → W * A) (k : A → py H B) h :
  (from_world f ≫= k) h = k (f (h_world h)).2 (with_outside (f (h_world h)).1 h).
Proof. unfold from_world, mbind, py_bind. by destruct (f (h_world h)). Qed.
Lemma get_bind {B : Type} (k : H → py H B) h : (get ≫= k) h = k h h.
Proof. done. Qed.
Lemma modify_bind {B : Type} f (k : unit → py H B) h : (modify f ≫= k) h = k tt (f h).
Proof. done. Qed.
Lemma attempt_bind {A B : Type} (m : py H A) (k : res A → py H B) h : (attempt m ≫= k) h = k (m h).2 (m h).1.
Proof. unfold attempt, mbind, py_bind. by destruct (m h). Qed.
Lemma of_res_bind {A B : Type} (r : res A) (k : A → py H B) h : (of_res r ≫= k) h = match r with Ok a => k a h | Raise x => (h, Raise x) end.
Proof. done. Qed.
Lemma returned_bind {A B : Type} (m : py H A) (k : A → py H B) h h' a : m h = (h', Ok a) → (m ≫= k) h = k a h'.
Proof. intros E. unfold mbind, py_bind. by rewrite E. Qed.

Lemma tick_keeps_name ts e : el_node_id (tick ts e).1 = el_node_id e.
Proof.
  unfold tick. cbv zeta. set (w := pick_winner _ _). set (c := live_candidates ts e).
  destruct (note_disagreement_frame w c e) as (Hid & _). cbn [fst].
  by repeat case_decide.
Qed.

Lemma elect_now h : elect h = (ticked h, Ok (verdict h)).
Proof.
  unfold elect, ticked, verdict. rewrite get_bind. destruct (h_election h) as [e|] eqn:E; [|done].
  rewrite from_world_bind, get_bind. cbn [h_election with_outside]. rewrite E.
  destruct (tick _ e) as [e' r] eqn:Et. by rewrite modify_bind.
Qed.

Lemma verdict_asked h : is_Some (verdict h) ↔ is_Some (h_election h).
Proof. unfold verdict. destruct (h_election h); by split; intros []. Qed.

Lemma ticked_frame h :
  h_delegated_from (ticked h) = h_delegated_from h ∧ h_fallback (ticked h) = h_fallback h ∧
  h_runtime (ticked h) = h_runtime h ∧ h_speaker (ticked h) = h_speaker h ∧ own_name (ticked h) = own_name h ∧
  h_waiters (ticked h) = h_waiters h ∧ h_workers (ticked h) = h_workers h.
Proof.
  unfold ticked, own_name. destruct (h_election h) as [e|] eqn:E; [|by rewrite E].
  pose proof (tick_keeps_name (hw_monotonic (h_world h)).2 e) as En. destruct (tick _ e). split_and!; try done. cbn in *. by rewrite En.
Qed.

Lemma ticked_world h : leader h ≠ None → h_world (ticked h) = (hw_monotonic (h_world h)).1.
Proof. unfold leader, verdict, ticked. destruct (h_election h) as [e|]; [reflexivity|]. by intros []. Qed.

Definition allowed (by_ : option pystr) h : bool :=
  match leader h with
  | None => true
  | Some p => bool_decide (own_name h = Some p)
              || negb (bool_decide (p = [])) && bool_decide (director by_ h = Some p)
  end.

Lemma may_act_now by_ h : mesh_may_act by_ h = (ticked h, Ok (allowed by_ h)).
Proof.
  unfold mesh_may_act. rewrite (returned_bind _ _ _ _ _ (elect_now h)), get_bind.
  destruct (ticked_frame h) as (Ed & _ & _ & _ & En & _). unfold allowed, leader, director, mret, py_ret.
  rewrite Ed. unfold own_name in *. f_equal. f_equal. pose proof (verdict_asked h) as Hv.
  destruct (verdict h) as [r|]; [|done]. destruct (h_election h) as [e|]; [|by destruct (proj1 Hv (mk_is_Some _ _ eq_refl))].
  destruct (h_election (ticked h)) as [e'|]; [|done]. injection En as En. clear Hv. cbn.
  destruct (tr_primary r) as [p|]; [|done]. cbn [id_text]. rewrite bool_decide_false by done. cbn [orb].
  rewrite En. f_equal; [apply bool_decide_ext; split; intros ?; by simplify_eq|].
  destruct by_ as [[|c b]|]; [|destruct p; cbn; try done; apply bool_decide_ext; split; intros ?; simplify_eq; done|].
  all: destruct (h_delegated_from h) as [[|d f]|]; destruct p as [|x p]; cbn; try done; apply bool_decide_ext; split; intros ?; simplify_eq; done.
Qed.

(** ** Who may act *)

(** A node may act exactly when no live node leads, when it leads itself,
    or when it runs what the leader asked of it; asking changes nothing but
    the elector. *)
Theorem may_act_exactly by_ h :
  ∃ b, mesh_may_act by_ h = (ticked h, Ok b) ∧
  (b = true ↔ leader h = None ∨ own_name h = leader h ∨ (leader h ≠ Some [] ∧ director by_ h = leader h)).
Proof.
  exists (allowed by_ h). split; [apply may_act_now|]. unfold allowed. destruct (leader h) as [p|]; [|naive_solver].
  rewrite orb_true_iff, andb_true_iff, negb_true_iff, bool_decide_eq_true, bool_decide_eq_false, bool_decide_eq_true.
  naive_solver.
Qed.

Lemma may_speak_now h : may_speak h = (ticked h, Ok (allowed None h || h_fallback h)).
Proof.
  unfold may_speak. rewrite (returned_bind _ _ _ _ _ (may_act_now _ _)), get_bind.
  by destruct (ticked_frame h) as (_ & -> & _).
Qed.

Lemma follower_not_allowed h : follower h → h_delegated_from h ≠ leader h → allowed None h = false.
Proof.
  intros (p & El & En) Ed. unfold allowed, director. rewrite El in *.
  rewrite bool_decide_false by done. rewrite (bool_decide_false (h_delegated_from h = Some p)) by done. by destruct (negb _).
Qed.

(** A follower holds its tongue and its hands: while another live node
    leads, has not asked for the action, and this thread's hand-off has not
    failed, every mouth and every executor of this node refuses, and nothing
    but the elector and the clock is touched. *)
Theorem follower_refuses params text h :
  follower h → h_delegated_from h ≠ leader h → h_fallback h = false →
  execute_speak params h = (ticked h, Ok (follower_refusal (ticked h))) ∧
  execute_ask_user params h = (ticked h, Ok (follower_refusal (ticked h))) ∧
  speak_direct text h = (ticked h, Ok false) ∧
  execute_mesh_rpc params h = (ticked h, Ok (follower_refusal (ticked h))) ∧
  execute_dev_task params h = (ticked h, Ok (follower_refusal (ticked h))) ∧
  h_world (ticked h) = (hw_monotonic (h_world h)).1.
Proof.
  intros Hf Hd Hb. pose proof (follower_not_allowed h Hf Hd) as Ha.
  pose proof (may_speak_now h) as Es. pose proof (may_act_now None h) as Em. rewrite Ha in Es, Em. rewrite Hb in Es.
  split_and!; try solve [unfold execute_speak, execute_ask_user, speak_direct; rewrite (returned_bind _ _ _ _ _ Es); reflexivity];
    try solve [unfold execute_mesh_rpc, execute_dev_task; rewrite (returned_bind _ _ _ _ _ Em); reflexivity].
  apply ticked_world. by destruct Hf as (p & -> & _).
Qed.

(** One mouth: two nodes of different names that see the same leader
    cannot both act on their own initiative. *)
Theorem one_mouth h1 h2 :
  leader h1 = leader h2 → leader h1 ≠ None → own_name h1 ≠ own_name h2 →
  h_delegated_from h1 = None → h_delegated_from h2 = None →
  ¬ ((mesh_may_act None h1).2 = Ok true ∧ (mesh_may_act None h2).2 = Ok true).
Proof.
  intros El Hl En E1 E2. rewrite !may_act_now. cbn [snd]. unfold allowed, director. rewrite E1, E2, <- El.
  destruct (leader h1) as [p|]; [|done].
  rewrite (bool_decide_false (None = Some p)) by done. rewrite !andb_false_r, !orb_false_r.
  intros [[= H1%bool_decide_eq_true] [= H2%bool_decide_eq_true]]. congruence.
Qed.

(** ** Directing another node *)

(** A delegated action is run for the current leader only: from any other
    sender the node answers that it is not the primary, naming both, and does
    nothing else. *)
Theorem stranger_cannot_direct peer payload id h :
  leader h ≠ Some peer → payload_id payload = Ok id →
  handle_delegated_action peer payload h =
    mesh_reply peer DELEGATE_RESULT_TOPIC (refusal id (not_primary (leader h) peer)) (ticked h).
Proof.
  intros Hl Hi. unfold handle_delegated_action. rewrite (returned_bind _ _ _ _ _ (elect_now h)).
  fold (leader h). rewrite bool_decide_false by done. by rewrite Hi.
Qed.

Lemma reply_frame peer topic d h :
  (mesh_reply peer topic d h).2 = Ok tt ∧ h_delegated_from (mesh_reply peer topic d h).1 = h_delegated_from h.
Proof.
  unfold mesh_reply. rewrite get_bind. destruct (h_runtime h); [|done]. rewrite attempt_bind.
  unfold try_world. by destruct (hw_send _ _ _ _).
Qed.

Lemma run_delegated_ends peer action params h :
  ∃ d, (run_delegated peer action params h).2 = Ok d ∧ h_delegated_from (run_delegated peer action params h).1 = None.
Proof.
  unfold run_delegated. rewrite modify_bind, attempt_bind, modify_bind. by eexists.
Qed.

(** What the leader asks is answered, whatever the executor does: of an
    action it may delegate it gets one answer with the executor's own verdict,
    an exception included, and of another a refusal; and the authority it
    lent ends with the action. *)
Theorem delegation_answered peer d h :
  leader h = Some peer →
  let action := text_of "action_type" d in
  let params := match dict_get (u "params") VNone d with VDict p => p | _ => [] end in
  let id := dict_get (u "id") VNone d in
  if bool_decide (action ∈ DELEGATABLE_ACTIONS) then
    ∃ h' result, run_delegated peer action params (ticked h) = (h', Ok result) ∧ h_delegated_from h' = None ∧
      handle_delegated_action peer (VDict d) h = mesh_reply peer DELEGATE_RESULT_TOPIC
        [(u "id", id); (u "status", dict_get (u "status") VNone result); (u "action_type", VStr action);
         (u "delivered", dict_get (u "delivered") VNone result);
         (u "reason", py_or (dict_get (u "reason") VNone result) (dict_get (u "message") VNone result))] h'
  else handle_delegated_action peer (VDict d) h =
    mesh_reply peer DELEGATE_RESULT_TOPIC (refusal id (u "action '" ++ action ++ u "' is not delegatable")) (ticked h).
Proof.
  intros Hl action params id. unfold handle_delegated_action. rewrite (returned_bind _ _ _ _ _ (elect_now h)).
  fold (leader h). rewrite (bool_decide_true (leader h = Some peer)) by done. cbn [negb]. fold action params id.
  case_bool_decide as Ha; cbn [negb]; [|done].
  destruct (run_delegated_ends peer action params (ticked h)) as (r & Er & Ed).
  destruct (run_delegated peer action params (ticked h)) as [h' x] eqn:E. cbn [fst snd] in *. subst x.
  exists h', r. split_and!; [done..|]. by rewrite (returned_bind _ _ _ _ _ E).
Qed.

(** ** Turns *)

Lemma turn_primary_now h :
  turn_primary h = (ticked h, Ok (match leader h with
                                  | None | Some [] => None
                                  | Some p => if bool_decide (own_name h = Some p) then None else Some p
                                  end)).
Proof.
  unfold turn_primary. rewrite (returned_bind _ _ _ _ _ (elect_now h)), get_bind.
  destruct (ticked_frame h) as (_ & _ & _ & _ & En & _). unfold leader, mret, py_ret, own_name in *. f_equal. f_equal.
  pose proof (verdict_asked h) as Hv. destruct (verdict h) as [r|]; [|done].
  destruct (h_election h) as [e|]; [|by destruct (proj1 Hv (mk_is_Some _ _ eq_refl))].
  destruct (h_election (ticked h)) as [e'|]; [|done]. injection En as En. cbn.
  destruct (tr_primary r) as [[|c p]|]; [done| |done]. rewrite En.
  rewrite (bool_decide_ext (Some (el_node_id e) = Some (c :: p)) (c :: p = el_node_id e)); [done|].
  split; [by intros [= ->]|by intros ->].
Qed.

Lemma hand_off_spec others primary id payload h :
  ∃ h' b, hand_off others primary id payload h = (h', Ok b) ∧
  if b then ∃ waiting, h_waiters waiting = h_waiters h ∧ h' = others waiting ∧ dget id (h_waiters h') = Some true
  else h_fallback h' = true.
Proof.
  unfold hand_off. rewrite attempt_bind. unfold try_world at 1 2.
  destruct (hw_send primary TURN_TOPIC payload (h_world h)) as [w [sent|x]]; cbn [fst snd]; [|eexists _, false; by split].
  case_bool_decide; cbn [negb]; [|eexists _, false; by split]. rewrite !modify_bind, get_bind.
  case_bool_decide as Hw; [|by eexists _, false].
  eexists _, true. split; [done|]. eexists. split_and!; [|reflexivity|exact Hw]. done.
Qed.

Lemma own_facts_returned h : ∃ h' facts, own_proximity_facts h = (h', Ok facts).
Proof. unfold own_proximity_facts. rewrite attempt_bind. by eexists _, _. Qed.

(** C28. What a forwarded turn comes back with. [Ok true]: this node follows
    another, and while it waited another thread set this turn's waiter and left
    under its id a result whose status is answered; the waiter and the result
    are then removed.  Who sent that result is not checked, here as in the
    code.  [Ok false]: the turn stays with this node, because it leads or
    nobody does (then nothing but the elector has moved), or because the
    hand-off failed, and then this node may speak although it follows; speaking
    is up to the caller.  An exception: the clock's milliseconds are not an
    integer; the turn is then not settled. *)
Theorem forwarded_turn_settled others transcript source text answer_to h h' r :
  forward_turn others transcript source text answer_to h = (h', r) →
  match r with
  | Ok true => ∃ waiting id,
      leader h ≠ None ∧ leader h ≠ own_name h ∧ dget id (h_waiters waiting) = Some false ∧
      dget id (h_waiters (others waiting)) = Some true ∧
      text_of "status" (default [] (dget id (h_turn_results (others waiting)))) = u "answered" ∧
      h_waiters h' = ddel id (h_waiters (others waiting)) ∧ h_turn_results h' = ddel id (h_turn_results (others waiting))
  | Ok false =>
      (h_fallback h' = true ∧ (may_speak h').2 = Ok true)
      ∨ (h' = ticked h ∧ (leader h = None ∨ leader h = Some [] ∨ leader h = own_name h))
  | Raise _ => ∃ t, (∃ w, (hw_time w).2 = t) ∧ ¬ is_ok (py_int_of_f (fmul t (f_of_Z 1000)))
  end.
Proof.
  unfold forward_turn. rewrite (returned_bind _ _ _ _ _ (turn_primary_now h)).
  assert (∀ g : H, h_fallback g = true → h_fallback g = true ∧ (may_speak g).2 = Ok true) as Hours.
  { intros g Hg. split; [done|]. rewrite may_speak_now, Hg. by rewrite orb_true_r. }
  destruct (leader h) as [[|c p]|] eqn:El; [intros [= <- <-]; right; auto| |intros [= <- <-]; right; auto].
  case_bool_decide as Eo; [intros [= <- <-]; right; split; [done|]; right; right; congruence|].
  rewrite get_bind. destruct (h_runtime (ticked h)); cbn [negb]; [|intros [= <- <-]; left; by apply Hours].
  rewrite from_world_bind. unfold of_res at 1, mbind at 1, py_bind at 1.
  destruct (py_int_of_f _) as [ms|x] eqn:Ems.
  2:{ intros [= <- <-]. eexists. split; [by eexists|]. rewrite Ems. by intros []. }
  match goal with |- context [own_proximity_facts] => idtac end.
  destruct (own_facts_returned (with_outside (hw_time (h_world (ticked h))).1 (ticked h))) as (h2 & facts & Ef).
  rewrite (returned_bind _ _ _ _ _ Ef), get_bind, modify_bind.
  set (id := turn_id ms _). set (h3 := with_turns _ _ _ _ h2). set (payload := turn_payload _ _ _ _ _ _ _).
  destruct (hand_off_spec others (c :: p) id payload h3) as (h4 & b & E4 & Hb).
  rewrite (returned_bind _ _ _ _ _ E4). unfold collect. rewrite (returned_bind _ (λ o, _) _ _ _ eq_refl).
  destruct b; cbn [negb].
  - destruct Hb as (waiting & Ew & -> & Hs). case_bool_decide as Ha; [|intros [= <- <-]; left; by apply Hours].
    intros [= <- <-]. exists waiting, id. split_and!; try done.
    rewrite Ew. cbn. apply dget_dset_eq.
  - intros [= <- <-]. left. by apply Hours.
Qed.

(** The right to answer here ends with the turn: after typed words
    were taken in, whatever the turn did, this thread may not speak over the
    leader. *)
Theorem typed_turn_revokes converse text source h :
  h_fallback h = false → h_fallback (handle_typed_input converse text source h).1 = false.
Proof.
  intros Hf. unfold handle_typed_input. case_bool_decide as Ht; [done|].
  rewrite from_world_bind, modify_bind, attempt_bind. cbn [fst mret py_ret].
  unfold conversational_input. rewrite (returned_bind _ _ _ _ _ eq_refl).
  case_bool_decide; [done|]. rewrite modify_bind. unfold finally. by destruct (converse _ _ _).
Qed.

(** ** The retry *)

Section Retry.
(** The receiver can be reached, and refuses each time. *)
Context (Hsend : ∀ p t d w, ∃ w', hw_send p t d w = (w', Ok [(u "status", VStr (u "success"))])).
Context (me : pystr) (holder : option pystr) (id : pyval).

(** The retry is sent and refused once more. *)
Definition refused_again (peer : pystr) : py H unit :=
  fire_retry ;; record_delegated_result peer (VDict (refusal id (not_primary holder me))).

Lemma starts_lower p s : starts_with (lower p) (lower (p ++ s)) = true.
Proof.
  unfold lower. rewrite bind_app. generalize (p ≫= lower_cp), (s ≫= lower_cp). intros a b.
  induction a as [|c a IH]; [done|]. cbn. by rewrite N.eqb_refl, IH.
Qed.

Lemma contains_suffix p c s : contains p s = true → contains p (c :: s) = true.
Proof. intros E. cbn. by rewrite E, orb_true_r. Qed.

Lemma refusal_is_stale : contains (u "not the primary") (lower (not_primary holder me)) = true.
Proof.
  change (not_primary holder me) with (u "sender is " ++ u "not the primary"
    ++ (u " (mine is " ++ (match holder with None | Some [] => u "unknown" | Some p => p end) ++ u ", sender " ++ me ++ u ")")).
  unfold lower at 1. rewrite bind_app. change (u "sender is " ≫= lower_cp) with (u "sender is ").
  do 10 apply contains_suffix. pose proof (starts_lower (u "not the primary")
    (u " (mine is " ++ (match holder with None | Some [] => u "unknown" | Some p => p end) ++ u ", sender " ++ me ++ u ")")) as E.
  change (lower (u "not the primary")) with (u "not the primary") in E. unfold lower in E.
  destruct (_ ≫= _) as [|c l]; [done|]. cbn [contains]. by rewrite E.
Qed.

Lemma refused_once peer payload h :
  h_runtime h = true → h_retries h = [(peer, payload)] →
  let h' := (refused_again peer h).1 in
  h_runtime h' = true ∧ h_retries h' = [(peer, payload)] ∧ h_delegated_out h' = h_delegated_out h + 1
  ∧ dget peer (h_pending h') = Some (payload, 1).
Proof.
  intros Hr Ht. unfold refused_again, fire_retry. cbv zeta.
  destruct (Hsend peer DELEGATE_TOPIC payload (h_world h)) as [w' Ew].
  set (h1 := with_delegations (h_delegated_out h) (h_pending h) [] h).
  set (h2 := with_delegations (h_delegated_out h + 1) (dset peer (payload, 0) (h_pending h)) [] (with_outside w' h1)).
  assert (mesh_delegate peer payload h1 = (h2, Ok [(u "status", VStr (u "delegated")); (u "peer", VStr peer)])) as Ed.
  { unfold mesh_delegate. rewrite get_bind. cbn [h_runtime h1 with_delegations]. rewrite Hr. cbn [negb].
    rewrite attempt_bind. unfold try_world. cbn [h_world h1 with_delegations]. by rewrite Ew. }
  assert (fire_retry h = (h2, Ok tt)) as Ef.
  { unfold fire_retry. rewrite get_bind, Ht, modify_bind. fold h1. by rewrite (returned_bind _ _ _ _ _ Ed). }
  fold fire_retry. rewrite (returned_bind _ _ _ _ _ Ef). unfold record_delegated_result.
  rewrite from_world_bind, modify_bind. unfold retry_if_stale. cbn [dict_get dget refusal].
  change (py_str (py_or _ (VStr []))) with (not_primary holder me). rewrite refusal_is_stale. cbn [negb].
  unfold modify. cbn [fst h_pending with_results with_outside h2 with_delegations]. rewrite dget_dset_eq. cbn.
  split_and!; [done..|]. apply dget_dset_eq.
Qed.

(** The retry of a refused delegation never gives up: with a receiver that
    can be reached and always says that the sender is not the primary, the
    same action is sent again after every refusal, any number of times. *)
Theorem retry_never_gives_up peer payload n h :
  h_runtime h = true → h_retries h = [(peer, payload)] →
  let h' := Nat.iter n (λ g, (refused_again peer g).1) h in
  h_retries h' = [(peer, payload)] ∧ h_delegated_out h' = h_delegated_out h + Z.of_nat n.
Proof.
  intros Hr Ht. cbv zeta. assert (h_runtime (Nat.iter n (λ g, (refused_again peer g).1) h) = true
    ∧ h_retries (Nat.iter n (λ g, (refused_again peer g).1) h) = [(peer, payload)]
    ∧ h_delegated_out (Nat.iter n (λ g, (refused_again peer g).1) h) = h_delegated_out h + Z.of_nat n) as [_ H]; [|exact H].
  induction n as [|n (IH1 & IH2 & IH3)]; [cbn; split_and!; try done; lia|]. rewrite Nat2Z.inj_succ, Nat.iter_succ.
  destruct (refused_once peer payload _ IH1 IH2) as (E1 & E2 & E3 & _). split_and!; [done..|]. by rewrite E3, IH3, Z.add_succ_r, Z.add_1_r.
Qed.
End Retry.
End Authority.
