(* ===== verification/HivePeers.v ===== *)
(** * A node among its peers ([src/shugocore_agent.py])

    What every step of a node preserves, what it keeps of its peers'
    advertisements, and what those do to its routing and its standing. *)

From Stdlib Require Import ZArith NArith Lia.
From Stdlib Require Import Floats.SpecFloat.
From stdpp Require Import relations.
From S2P Require Import Prelude PyFloat PyStr PyVal Security MeshElection Interaction Hive HiveTurns HiveSafety.
From S2P Require Routing.

Local Open Scope Z_scope.

(** A modification that leaves the invariant as it was. *)
Ltac still := let Hs := fresh in intros ? Hs; exact Hs.
Ltac steady_auto := keeps_auto; try (apply keeps_modify; still).

Section Steps.
Context {PR : PyRepr} {PD : PyDictOf} {W : Type} {HW : HiveWorld W}.
Abbreviation H := (hive W).
Implicit Types (h : H).

(** ** The steps of a node *)


Section Invariant.
(** Between steps nobody's authority is on loan ([None]), the results kept are
    the last sixteen, and the node's name and abilities are those it began
    with. *)
Context (name : option pystr) (runtime speaker : bool).
Definition steady (loan : option pystr) h : Prop :=
  h_delegated_from h = loan ∧ (length (h_results h) <= 16)%nat ∧ own_name h = name ∧
  h_runtime h = runtime ∧ h_speaker h = speaker.

Lemma keeps_from_world {A : Type} (f : W → W * A) (I : H → Prop) : (∀ h w, I h → I (with_outside w h)) → keeps I (from_world f).
Proof. intros HI h Hh. unfold from_world. destruct (f (h_world h)). by apply HI. Qed.
Lemma keeps_try_world {A : Type} (f : W → W * res A) (I : H → Prop) : (∀ h w, I h → I (with_outside w h)) → keeps I (try_world f).
Proof. intros HI h Hh. unfold try_world. destruct (f (h_world h)). by apply HI. Qed.

Lemma observe_name ts payload e : el_node_id (observe_heartbeat ts payload e).1 = el_node_id e.
Proof.
  unfold observe_heartbeat. destruct payload; try done. destruct (make_node_entry _ _) as [[x|]|]; try done.
  destruct (dget _ _) as [prev|]; [|done]. by destruct (same_seq x prev) as [[]|].
Qed.
Lemma local_name ts thermal mem endpoint paired caps e :
  el_node_id (local_heartbeat ts thermal mem endpoint paired caps e).1 = el_node_id e.
Proof.
  unfold local_heartbeat. py_unfold. set (e1 := set_el_seq _ e). set (p := VDict _).
  pose proof (observe_name ts p e1) as En. by destruct (observe_heartbeat ts p e1) as [e' [b|x]].
Qed.

Lemma keeps_on_election {A : Type} (m : f64 → py MeshElection A) none (I : H → Prop) :
  (∀ h w, I h → I (with_outside w h)) →
  (∀ h e ts, h_election h = Some e → I h → I (with_election (Some (m ts e).1) h)) → keeps I (on_election m none).
Proof.
  intros Hw Hm h Hh. unfold on_election. destruct (hw_monotonic _) as [w ts].
  destruct (h_election (with_outside w h)) as [e|] eqn:E; [|by apply Hw].
  specialize (Hm (with_outside w h) e ts E (Hw _ _ Hh)). by destruct (m ts e).
Qed.

Lemma keeps_elect (I : H → Prop) :
  (∀ h w, I h → I (with_outside w h)) → (∀ h e ts, h_election h = Some e → I h → I (with_election (Some (tick ts e).1) h)) → keeps I elect.
Proof.
  intros Hw Hm h Hh. rewrite elect_now. cbn [fst]. unfold ticked. destruct (h_election h) as [e|] eqn:E; [|done].
  apply (Hm (with_outside _ h)); [done|by apply Hw].
Qed.

Lemma steady_world loan h w : steady loan h → steady loan (with_outside w h).
Proof. done. Qed.
Lemma steady_elected loan h e e' : h_election h = Some e → el_node_id e' = el_node_id e → steady loan h → steady loan (with_election (Some e') h).
Proof. unfold steady, own_name. cbn. intros E En. rewrite E. cbn. by rewrite En. Qed.

Hint Resolve keeps_from_world keeps_try_world steady_world : keeps.
Lemma steady_elect loan : keeps (steady loan) elect.
Proof. apply keeps_elect; [done|]. intros h e ts E. apply (steady_elected _ _ e); [done|]. apply tick_keeps_name. Qed.
Hint Resolve steady_elect : keeps.
Lemma steady_may_act loan by_ : keeps (steady loan) (mesh_may_act by_).
Proof. unfold mesh_may_act. keeps_auto. Qed.
Hint Resolve steady_may_act : keeps.
Lemma steady_may_speak loan : keeps (steady loan) may_speak.
Proof. unfold may_speak. keeps_auto. Qed.
Hint Resolve steady_may_speak : keeps.
Lemma steady_turn_primary loan : keeps (steady loan) turn_primary.
Proof. unfold turn_primary. keeps_auto. Qed.
Hint Resolve steady_turn_primary : keeps.
Lemma steady_terminal loan w : keeps (steady loan) (terminal_input_recent w).
Proof. unfold terminal_input_recent. keeps_auto. Qed.
Hint Resolve steady_terminal : keeps.

Lemma steady_age loan peer : keeps (steady loan) (peer_age peer).
Proof. unfold peer_age. keeps_auto. Qed.
Hint Resolve steady_age : keeps.
Lemma steady_peers loan peers : keeps (steady loan) (peer_candidates peers).
Proof. induction peers as [|p peers IH]; cbn [peer_candidates]; keeps_auto. Qed.
Hint Resolve steady_peers : keeps.
Lemma steady_candidates loan : keeps (steady loan) response_candidates.
Proof. unfold response_candidates. keeps_auto. Qed.
Hint Resolve steady_candidates : keeps.
Lemma steady_select loan prefer origin : keeps (steady loan) (select_response_node prefer origin).
Proof. unfold select_response_node. steady_auto. Qed.
Hint Resolve steady_select : keeps.
Lemma steady_delegate loan peer payload : keeps (steady loan) (mesh_delegate peer payload).
Proof. unfold mesh_delegate. steady_auto. Qed.
Hint Resolve steady_delegate : keeps.
Lemma steady_route loan action params prefer origin : keeps (steady loan) (route_response action params prefer origin).
Proof. unfold route_response. keeps_auto. Qed.
Hint Resolve steady_route : keeps.
Lemma steady_reply loan peer topic d : keeps (steady loan) (mesh_reply peer topic d).
Proof. unfold mesh_reply. keeps_auto. Qed.
Hint Resolve steady_reply : keeps.
Lemma steady_routed loan action key text params : keeps (steady loan) (routed action key text params).
Proof. unfold routed. keeps_auto. Qed.
Hint Resolve steady_routed : keeps.
Lemma steady_speak loan params : keeps (steady loan) (execute_speak params).
Proof. unfold execute_speak, speak_here. keeps_auto. Qed.
Lemma steady_ask loan params : keeps (steady loan) (execute_ask_user params).
Proof. unfold execute_ask_user, ask_here. keeps_auto. Qed.
Lemma steady_direct loan text : keeps (steady loan) (speak_direct text).
Proof. unfold speak_direct. keeps_auto. Qed.
Lemma steady_rpc loan params : keeps (steady loan) (execute_mesh_rpc params).
Proof. unfold execute_mesh_rpc. keeps_auto. Qed.
Lemma steady_dev loan params : keeps (steady loan) (execute_dev_task params).
Proof. unfold execute_dev_task. keeps_auto. Qed.
Hint Resolve steady_speak steady_ask steady_direct steady_rpc steady_dev : keeps.
Lemma steady_executor loan action params :
  keeps (steady loan) (match executor action with Some f => f params | None => raise (KeyError action) end).
Proof. unfold executor. repeat case_match; simplify_eq; auto with keeps. Qed.

(** The node's attribute is [None] or names the peer of a delegated action that
    is in flight in one of the node's threads. *)
Definition lent (inflight : list pystr) h : Prop :=
  ∃ loan, (∀ p, loan = Some p → p ∈ inflight) ∧ steady loan h.

Lemma keeps_lent {A : Type} L (m : py H A) : (∀ loan, keeps (steady loan) m) → keeps (lent L) m.
Proof. intros Hm h (loan & Hl & Hs). exists loan. split; [exact Hl|by apply Hm]. Qed.

Lemma lent_run L peer action params : keeps (lent L) (run_delegated peer action params).
Proof.
  intros h (loan & _ & _ & Hr & Hn & Ha). unfold run_delegated. rewrite modify_bind, attempt_bind, modify_bind.
  set (h1 := with_delegated_from (Some peer) h).
  assert (steady (Some peer) h1) as Hs by done. apply (steady_executor (Some peer) action params h1) in Hs as (_ & Hr' & Hn' & Ha').
  by exists None.
Qed.
Hint Resolve lent_run : keeps.
Hint Extern 2 (keeps (lent _) _) => apply keeps_lent; intros ? : keeps.

Lemma steady_retry loan peer reason : keeps (steady loan) (retry_if_stale peer reason).
Proof.
  unfold retry_if_stale. steady_auto. apply keeps_modify. intros h Hh.
  destruct (dget _ _) as [[payload n]|]; [|done]. by destruct (2 <=? n).
Qed.
Hint Resolve steady_retry : keeps.
Lemma steady_fire loan : keeps (steady loan) fire_retry.
Proof. unfold fire_retry. steady_auto. Qed.
Lemma steady_result loan peer payload : keeps (steady loan) (record_delegated_result peer payload).
Proof.
  unfold record_delegated_result. steady_auto. apply keeps_modify. intros h (H1 & H2 & H3 & H4 & H5). unfold steady. split_and!; [done| |done..].
  cbn. unfold last_16. rewrite length_drop. lia.
Qed.
Lemma lent_action L peer payload : keeps (lent L) (handle_delegated_action peer payload).
Proof. unfold handle_delegated_action. keeps_auto. Qed.
Lemma steady_turn loan peer payload : keeps (steady loan) (handle_forwarded_turn peer payload).
Proof. unfold handle_forwarded_turn. steady_auto. Qed.
Lemma steady_turn_result loan payload : keeps (steady loan) (record_turn_result payload).
Proof. unfold record_turn_result. steady_auto. apply keeps_modify. intros h Hh. by destruct (_ && _). Qed.
Hint Resolve steady_fire steady_result lent_action steady_turn steady_turn_result : keeps.
Lemma lent_send L peer topic payload : keeps (lent L) (on_mesh_send peer topic payload).
Proof. unfold on_mesh_send. keeps_auto. Qed.

Lemma steady_headroom loan : keeps (steady loan) mesh_mem_headroom.
Proof. unfold mesh_mem_headroom, int_here. keeps_auto. Qed.
Hint Resolve steady_headroom : keeps.
Lemma steady_facts loan : keeps (steady loan) mesh_perception_facts.
Proof. unfold mesh_perception_facts. keeps_auto. Qed.
Hint Resolve steady_facts : keeps.
Lemma steady_local loan thermal mem caps :
  keeps (steady loan) (on_election (λ ts, local_heartbeat ts thermal mem [] true caps) []).
Proof. apply keeps_on_election; [done|]. intros h e ts E. apply (steady_elected _ _ e); [done|]. apply local_name. Qed.
Lemma steady_observe loan payload : keeps (steady loan) (on_election (λ ts, observe_heartbeat ts payload) false).
Proof. apply keeps_on_election; [done|]. intros h e ts E. apply (steady_elected _ _ e); [done|]. apply observe_name. Qed.
Hint Resolve steady_local steady_observe : keeps.
Lemma steady_payload loan : keeps (steady loan) mesh_heartbeat_payload.
Proof. unfold mesh_heartbeat_payload, int_here. keeps_auto. Qed.
Lemma steady_store loan peers : keeps (steady loan) (observe_store peers).
Proof. induction peers as [|p peers IH]; cbn [observe_store]; keeps_auto. Qed.
Hint Resolve steady_payload steady_store : keeps.
Lemma steady_audit loan : keeps (steady loan) attach_audit.
Proof.
  unfold attach_audit. steady_auto. apply keeps_modify. intros h (H1 & H2 & H3 & H4). unfold steady, own_name in *.
  cbn in *. split_and!; [done..| |by destruct H4|by destruct H4]. rewrite <- H3. destruct (h_election h) as [e|]; [|done]. cbn.
  by destruct (el_audit e), a.
Qed.
Hint Resolve steady_audit : keeps.
Lemma steady_beat loan : keeps (steady loan) mesh_heartbeat_tick.
Proof. unfold mesh_heartbeat_tick, heartbeat_pass, int_here. keeps_auto. Qed.
Hint Resolve steady_beat : keeps.
Lemma steady_received loan payload : keeps (steady loan) (mesh_heartbeat_received payload).
Proof.
  unfold mesh_heartbeat_received. steady_auto. apply keeps_modify. intros h Hh. by destruct (dict_get _ _ _).
Qed.
Lemma steady_facts_own loan : keeps (steady loan) own_proximity_facts.
Proof. unfold own_proximity_facts. keeps_auto. Qed.
Hint Resolve steady_received steady_facts_own : keeps.
Lemma lent_hand_off L others primary id payload :
  (∀ h, lent L h → lent L (others h)) → keeps (lent L) (hand_off others primary id payload).
Proof.
  intros Ho. unfold hand_off, answer_here. keeps_auto; try (apply keeps_lent; intros loan); steady_auto.
Qed.
Lemma lent_forward L others transcript source text answer_to :
  (∀ h, lent L h → lent L (others h)) → keeps (lent L) (forward_turn others transcript source text answer_to).
Proof.
  intros Ho. pose proof (lent_hand_off L others) as Hh. unfold forward_turn, collect, answer_here.
  keeps_auto; auto; apply keeps_lent; intros loan; steady_auto.
Qed.
Lemma lent_others_thread L {A : Type} (m : py H A) h : keeps (lent L) m → lent L h → lent L (as_thread m h).1.
Proof.
  intros Hm (loan & Hl & Hh). unfold as_thread.
  specialize (Hm (with_fallback false h) (ex_intro _ loan (conj Hl Hh))). by destruct (m (with_fallback false h)).
Qed.
End Invariant.

(** What happens to a node in other threads, given how it decides a forwarded
    turn: a frame, an advertisement, its own heartbeat, a retry, a worker. *)
Inductive event :=
  | Frame (peer topic : pystr) (payload : pyval) | Advert (payload : pydict) | Beat | Retry | Worker.

Section Life.
Context (decide_turn : turn → py H unit).

Definition happens (ev : event) : py H unit :=
  match ev with
  | Frame peer topic payload => on_mesh_send peer topic payload
  | Advert payload => mesh_heartbeat_received payload
  | Beat => mesh_heartbeat_tick
  | Retry => fire_retry
  | Worker => run_worker decide_turn
  end.
Definition others_do (evs : list event) h : H := foldl (λ h ev, (as_thread (happens ev) h).1) h evs.

(** A step of the life of a node: something happens to it, it decides and
    executes an action of its own, it forwards a turn while things happen, it
    replies, its turn ends, or the world moves. *)
Inductive node_step : H → H → Prop :=
  | step_event ev h : node_step h (others_do [ev] h)
  | step_speak params h : node_step h (execute_speak params h).1
  | step_ask params h : node_step h (execute_ask_user params h).1
  | step_direct text h : node_step h (speak_direct text h).1
  | step_rpc params h : node_step h (execute_mesh_rpc params h).1
  | step_dev params h : node_step h (execute_dev_task params h).1
  | step_reply peer topic d h : node_step h (mesh_reply peer topic d h).1
  | step_forward evs transcript source text answer_to h :
      node_step h (forward_turn (others_do evs) transcript source text answer_to h).1
  | step_turn_over h : node_step h (with_fallback false h)
  | step_snapshot data h : node_step h (update_mesh_peers data h).1
  | step_advertise h : node_step h (mesh_heartbeat_payload h).1
  | step_world w h : node_step h (with_outside w h).

(** The same life with the threads of delegated actions in the open: beside
    the actions run in one piece ([Frame]), an action the leader delegated may
    begin, be in flight while any steps happen (those of its executor among
    them), and end, in any order with others; the attribute
    [_delegated_from] is one for all of them.  The state carries the peers
    whose actions are in flight. *)
Inductive life_step : H * list pystr → H * list pystr → Prop :=
  | life_node h h' L : node_step h h' → life_step (h, L) (h', L)
  | life_begin peer h L : leader h = Some peer →
      life_step (h, L) (with_delegated_from (Some peer) (ticked h), peer :: L)
  | life_end peer h L1 L2 : life_step (h, L1 ++ peer :: L2) (with_delegated_from None h, L1 ++ L2).

Section Steady.
Context (name : option pystr) (runtime speaker : bool) (L : list pystr).
Abbreviation calm := (lent name runtime speaker L).
Hint Resolve keeps_from_world keeps_try_world steady_route steady_reply steady_received steady_beat steady_fire : keeps.
Hint Resolve lent_send : keeps.
Hint Extern 2 (keeps (lent _ _ _ _) _) => apply keeps_lent; intros ? : keeps.
Context (Hdecide : ∀ loan t, keeps (steady name runtime speaker loan) (decide_turn t)).

Lemma calm_answer peer d : keeps calm (answer_forwarded_turn decide_turn peer d).
Proof.
  apply keeps_lent. intros loan. unfold answer_forwarded_turn, answer_turn, deliver_forwarded_reply.
  pose proof Hdecide as Hd. keeps_auto; auto with keeps.
Qed.
Lemma calm_worker : keeps calm (run_worker decide_turn).
Proof.
  unfold run_worker. keeps_auto.
  - apply keeps_lent. intros loan. keeps_auto; try (apply keeps_modify; still).
  - intros h Hh. apply lent_others_thread; [apply calm_answer|done].
Qed.
Lemma calm_event ev : keeps calm (happens ev).
Proof. destruct ev; cbn [happens]; auto using calm_worker with keeps. Qed.
Lemma calm_others evs h : calm h → calm (others_do evs h).
Proof.
  unfold others_do. revert h. induction evs as [|ev evs IH]; intros h Hh; [done|]. cbn [foldl]. apply IH.
  apply lent_others_thread; [apply calm_event|done].
Qed.
Lemma calm_keeps {A : Type} (m : py H A) h : (∀ loan, keeps (steady name runtime speaker loan) m) → calm h → calm (m h).1.
Proof. intros Hm. exact (keeps_lent name runtime speaker L m Hm h). Qed.
Lemma calm_step h h' : node_step h h' → calm h → calm h'.
Proof.
  intros Hs Hc. destruct Hs; try (by apply calm_keeps; [intros loan|]; auto using steady_speak, steady_ask,
    steady_direct, steady_rpc, steady_dev, steady_payload with keeps).
  - by apply calm_others.
  - apply (lent_forward _ _ _ L (others_do evs)); [|done]. apply calm_others.
  - done.
  - unfold update_mesh_peers. by destruct (dict_get _ _ _).
  - done.
Qed.
End Steady.

Lemma lent_step name r s h L h' L' :
  (∀ loan t, keeps (steady name r s loan) (decide_turn t)) →
  life_step (h, L) (h', L') → lent name r s L h → lent name r s L' h'.
Proof.
  intros Hd Hs Hc. inversion Hs as [? ? ? Hn|peer ? ? _|peer ? L1 L2]; subst.
  - by eapply calm_step.
  - destruct Hc as (loan & _ & Hc). apply (steady_elect name r s loan) in Hc. rewrite elect_now in Hc. cbn in Hc.
    destruct Hc as (_ & Hc). exists (Some peer). split; [intros p [= <-]; left|]. by split.
  - destruct Hc as (loan & _ & _ & Hc). exists None. by split.
Qed.

(** C21. Authority is on loan only while a delegated action is in flight.
    However a node lives on from a start at which nothing is on loan -- frames,
    adverts, heartbeats, retries and turns answered for others at any moment,
    also while a turn of its own waits, and delegated actions of several
    threads beginning, running and ending in any order -- the peer in the
    shared attribute is one whose action is in flight in some thread, at most
    sixteen results are kept and the node is who it was.  Hence, when the node
    follows a leader none of whose actions is in flight, and the hand-off of
    the calling thread has not failed, its own speech and questions are
    refused.  While the leader's peer stands in the attribute every thread
    passes the guard, not only the one that runs the leader's action.
    Assumed of the decision of a forwarded turn ([decide_turn]): it leaves the
    attribute, the name and the abilities alone and keeps the bound on the
    results. *)
Theorem authority_never_left_over h0 h L :
  (∀ name r s loan t, keeps (steady name r s loan) (decide_turn t)) →
  rtc life_step (h0, []) (h, L) → h_delegated_from h0 = None → (length (h_results h0) <= 16)%nat →
  (∀ p, h_delegated_from h = Some p → p ∈ L) ∧
  (length (h_results h) <= 16)%nat ∧ own_name h = own_name h0 ∧
  (follower h → h_fallback h = false → (∀ p, leader h = Some p → p ∉ L) → ∀ params text,
    (execute_speak params h).2 = Ok (follower_refusal (ticked h)) ∧
    (execute_ask_user params h).2 = Ok (follower_refusal (ticked h)) ∧ (speak_direct text h).2 = Ok false) ∧
  (leader h ≠ Some [] → h_delegated_from h = leader h → follower h → (may_speak h).2 = Ok true).
Proof.
  intros Hd Hrtc Hl Hr. assert (lent (own_name h0) (h_runtime h0) (h_speaker h0) L h) as (loan & Hloan & E1 & E2 & E3 & _).
  { assert (lent (own_name h0) (h_runtime h0) (h_speaker h0) [] h0) as H0 by (by exists None).
    remember (h0, @nil pystr) as x eqn:Ex. remember (h, L) as y eqn:Ey. revert H0.
    generalize (own_name h0), (h_runtime h0), (h_speaker h0). intros n r s. clear Hl Hr.
    revert h0 Ex. generalize (@nil pystr) as L0. induction Hrtc as [z|x [h2 L2] y Hs _ IH]; intros L0 h0 -> H1.
    - by injection Ey as -> ->.
    - apply (IH Ey L2 h2 eq_refl). eapply lent_step; [apply Hd|exact Hs|done]. }
  rewrite E1. split_and!; [exact Hloan|done|done| |].
  - intros Hf Hb Hno params text. assert (h_delegated_from h ≠ leader h) as Hne.
    { rewrite E1. destruct Hf as (p & Hp & _). intros ->. by apply (Hno p Hp), Hloan. }
    pose proof (follower_not_allowed h Hf Hne) as Ha.
    assert (may_speak h = (ticked h, Ok false)) as Es.
    { by rewrite may_speak_now, Ha, Hb. }
    unfold execute_speak, execute_ask_user, speak_direct. by rewrite !(returned_bind _ _ _ _ _ Es).
  - intros Hne Hn (p & Hp & _). rewrite may_speak_now. rewrite <- E1 in Hn. cbn.
    unfold allowed, director. rewrite Hn, Hp in *. rewrite (bool_decide_false (p = [])) by congruence.
    rewrite (bool_decide_true (Some p = Some p)) by done. cbn. by rewrite orb_true_r.
Qed.
End Life.
End Steps.
