(* ===== verification/HiveHearing.v ===== *)
(** * What a node hears ([src/shugocore_agent.py])

    The store of advertisements, the peers it keeps alive, and what an
    advertisement can do to the answers of the node that heard it. *)

From Stdlib Require Import ZArith NArith Lia.
From Stdlib Require Import Floats.SpecFloat.
From S2P Require Import Prelude PyFloat PyStr PyVal Security MeshElection Interaction Hive HiveTurns HiveSafety HivePeers.
From S2P Require Routing.

Local Open Scope Z_scope.

Section Hearing.
Context {PR : PyRepr} {PD : PyDictOf} {W : Type} {HW : HiveWorld W}.
Abbreviation H := (hive W).
Implicit Types (h : H).

(** ** The store *)

Section Store.
Context (t : pydict).
Let same h := h_telemetry h = t.
Lemma same_elect : keeps same elect.
Proof. by apply keeps_elect. Qed.
Lemma same_local thermal mem caps : keeps same (on_election (λ ts, local_heartbeat ts thermal mem [] true caps) []).
Proof. by apply keeps_on_election. Qed.
Lemma same_observe payload : keeps same (on_election (λ ts, observe_heartbeat ts payload) false).
Proof. by apply keeps_on_election. Qed.
Hint Resolve keeps_from_world keeps_try_world same_elect same_local same_observe : keeps.
Lemma same_store peers : keeps same (observe_store peers).
Proof. induction peers as [|p peers IH]; cbn [observe_store]; keeps_auto. Qed.
Hint Resolve same_store : keeps.
Lemma same_beat : keeps same mesh_heartbeat_tick.
Proof. unfold mesh_heartbeat_tick, heartbeat_pass, int_here, attach_audit, mesh_mem_headroom. steady_auto. Qed.
End Store.

Definition peers_of h : list pyval := match dget (u "mesh_peers") (h_telemetry h) with Some (VList l) => l | _ => [] end.
Lemma other_peers_spec node_id peers l :
  other_peers node_id peers = Ok l → ∀ p, p ∈ l → ∃ d, p = VDict d ∧ VDict d ∈ peers ∧ peer_name d ≠ node_id.
Proof.
  unfold other_peers. destruct (res_map _ peers) as [ls|x] eqn:E; [|done]. intros [= <-].
  revert ls E. induction peers as [|q peers IH]; intros ls E; cbn [res_map] in E.
  { injection E as <-. cbn. set_solver. }
  apply res_bind_Ok in E as (one & E1 & E). apply res_bind_Ok in E as (rest & E2 & E). injection E as <-.
  intros p. cbn [concat]. rewrite elem_of_app. intros [Hp|Hp].
  - unfold unless_named in E1. destruct q as [| | | | | |d]; try done. cbn [mbind res_bind as_dict] in E1. injection E1 as <-.
    case_bool_decide as Hd; [set_solver|]. apply list_elem_of_singleton in Hp as ->. exists d. split_and!; [done|left|done].
  - destruct (IH rest E2 p Hp) as (d & -> & Hd & Hn). exists d. split_and!; [done|by right|done].
Qed.

(** The store of advertisements is bounded and current: an advertisement
    taken in is its last entry, no other entry carries its name, every other
    one was there before, and there are at most sixteen. *)
Theorem store_bounded_and_current payload h h' :
  let node_id := strip (py_str (py_or (dict_get (u "node_id") VNone payload) (VStr []))) in
  node_id ≠ [] → node_id ∉ own_ids h →
  mesh_heartbeat_received payload h = (h', Ok tt) →
  ∃ l now, peers_of h' = l ++ [VDict (received_entry node_id now payload)] ∧ (length (peers_of h') <= 16)%nat ∧
    ∀ p, p ∈ l → ∃ d, p = VDict d ∧ p ∈ peers_of h ∧ peer_name d ≠ node_id.
Proof.
  intros node_id Hn Ho. unfold mesh_heartbeat_received. rewrite get_bind. fold node_id.
  rewrite !bool_decide_false by done. cbn [orb]. rewrite attempt_bind.
  set (m := on_election _ _). pose proof (same_observe (h_telemetry h) (VDict payload) h eq_refl) as E1. fold m in E1.
  destruct (m h) as [h1 r1]. cbn [fst snd] in *. rewrite from_world_bind. set (now := (hw_time _).2).
  rewrite modify_bind. cbv beta. set (h2 := match dict_get (u "can_speak") VNone payload with VNone => _ | _ => _ end).
  assert (h_telemetry h2 = h_telemetry h) as E2 by (rewrite <- E1; unfold h2; by destruct (dict_get (u "can_speak") _ _)). clearbody h2.
  unfold of_res at 1, mbind at 1, py_bind at 1.
  change (match dict_get (u "mesh_peers") VNone (h_telemetry h) with VList l => l | _ => [] end) with
    (match default VNone (dget (u "mesh_peers") (h_telemetry h)) with VList l => l | _ => [] end).
  assert (match default VNone (dget (u "mesh_peers") (h_telemetry h)) with VList l => l | _ => [] end = peers_of h) as ->.
  { unfold peers_of. by destruct (dget _ _) as [[]|]. }
  destruct (other_peers node_id (peers_of h)) as [l|x] eqn:El; [|done]. rewrite modify_bind, attempt_bind. intros [= <-].
  set (merged := l ++ _). set (stored := drop (length merged - 16) merged).
  set (h3 := with_telemetry _ h2). pose proof (same_beat (h_telemetry h3) h3 eq_refl) as E3.
  assert (peers_of (mesh_heartbeat_tick h3).1 = stored) as ->.
  { unfold peers_of. rewrite E3. cbn. by rewrite dget_dset_eq. }
  exists (drop (length merged - 16) l), now. split_and!.
  - unfold stored, merged. rewrite drop_app_le; [done|]. rewrite length_app. cbn. lia.
  - unfold stored. rewrite length_drop. lia.
  - intros p Hp%subseteq_drop.
    destruct (other_peers_spec _ _ _ El p Hp) as (d & -> & Hd & Hne). by exists d.
Qed.

(** ** Peers that are gone *)

Section Gone.
(** A pass over the store takes no time. *)
Context (clock : W → f64).
Context (Hread : ∀ w, (hw_monotonic w).2 = clock w) (Hstill : ∀ w, clock (hw_monotonic w).1 = clock w).
Context (Hmem : ∀ w, clock (hw_free_memory w).1 = clock w) (Haudit : ∀ w, clock (hw_engine_audit w).1 = clock w).

(** The record of [id] was renewed at [t]. *)
Definition renewed (t : f64) (id : pystr) (e : MeshElection) : Prop :=
  nodes_wf (el_nodes e) ∧ ∃ x, dget id (el_nodes e) = Some x ∧ e_last_seen x = t.
Definition at_time (t : f64) (P : MeshElection → Prop) h : Prop :=
  clock (h_world h) = t ∧ ∃ e, h_election h = Some e ∧ P e.

Lemma observe_wf t payload e : nodes_wf (el_nodes e) → nodes_wf (el_nodes (observe_heartbeat t payload e).1).
Proof. intros Hw. by apply (observe_frame t payload e). Qed.

Lemma observe_renewed t id payload e : renewed t id e → renewed t id (observe_heartbeat t payload e).1.
Proof.
  intros (Hw & x & Hx & Ht). split; [by apply observe_wf|]. pose proof (heartbeat_observed_aux t payload e Hw) as Ho. cbv zeta in Ho.
  destruct (observe_heartbeat t payload e).2 as [[]|]; [|rewrite Ho; by exists x|rewrite Ho; by exists x].
  destruct Ho as (d & new & y & _ & _ & Hy & Hyt & _ & Hother & _).
  destruct (decide (id = e_node_id new)) as [->|Hne]; [by exists y|]. exists x. by rewrite Hother.
Qed.

(** Observing an advertisement that reads renews its record. *)
Lemma observe_renews t d x e :
  nodes_wf (el_nodes e) → make_node_entry t d = Ok (Some x) → is_ok (observe_heartbeat t (VDict d) e).2 = true →
  renewed t (e_node_id x) (observe_heartbeat t (VDict d) e).1.
Proof.
  intros Hw Hx Hok. split; [by apply observe_wf|]. pose proof (heartbeat_observed_aux t (VDict d) e Hw) as Ho. cbv zeta in Ho.
  assert ((observe_heartbeat t (VDict d) e).2 ≠ Ok false) as Hf.
  { unfold observe_heartbeat. rewrite Hx. destruct (dget _ _); [|done]. by destruct (same_seq _ _) as [[]|]. }
  destruct (observe_heartbeat t (VDict d) e).2 as [[]|]; [|done|done].
  destruct Ho as (d' & new & y & [= <-] & Hnew & Hy & Hyt & _). rewrite Hx in Hnew. injection Hnew as ->. by exists y.
Qed.

Lemma at_on_election {A : Type} t (P Q : MeshElection → Prop) (m : f64 → py MeshElection A) none h :
  at_time t P h → (∀ e, P e → is_ok (m t e).2 = true → Q (m t e).1) → is_ok (on_election m none h).2 = true →
  at_time t Q (on_election m none h).1.
Proof.
  intros (Ht & e & He & HP) Hm. unfold on_election. pose proof (Hread (h_world h)) as Er. pose proof (Hstill (h_world h)) as Es.
  destruct (hw_monotonic (h_world h)) as [w ts]. cbn [fst snd h_election with_outside] in *. rewrite He, Er, Ht.
  specialize (Hm e HP). destruct (m t e) as [e' r]. cbn. intros Hr. split; [cbn; congruence|]. exists e'. auto.
Qed.
Lemma at_elect t P h : at_time t P h → (∀ e ts, P e → P (tick ts e).1) → at_time t P (elect h).1.
Proof.
  intros (Ht & e & He & HP) Hm. rewrite elect_now. unfold ticked. rewrite He. split; [cbn; by rewrite Hstill|].
  eexists. split; [reflexivity|]. by apply Hm.
Qed.
Lemma tick_nodes ts e : el_nodes (tick ts e).1 = el_nodes e.
Proof. by destruct (tick_primary ts e) as (_ & _ & ?). Qed.
Lemma tick_renewed t id ts e : renewed t id e → renewed t id (tick ts e).1.
Proof. unfold renewed. by rewrite tick_nodes. Qed.

Definition filed (e : MeshElection) : Prop := nodes_wf (el_nodes e).

(** An entry of the store reads as an advertisement of [id]. *)
Definition reads_as (id : pystr) (entry : pydict) : Prop := ∀ t, ∃ x, make_node_entry t entry = Ok (Some x) ∧ e_node_id x = id.

Lemma store_keeps t id peers h :
  at_time t (renewed t id) h → is_ok (observe_store peers h).2 = true → at_time t (renewed t id) (observe_store peers h).1.
Proof.
  revert h. induction peers as [|p peers IH]; intros h Hh; [done|]. cbn [observe_store].
  assert (∀ g, at_time t (renewed t id) g → is_ok (observe_store peers g).2 = true → at_time t (renewed t id) (observe_store peers g).1) as IH'
    by exact IH. clear IH. destruct p as [| | | | | |d]; try (by apply IH').
  destruct (store_entry d) as [entry|]; [|by apply IH'].
  pose proof (at_on_election t (renewed t id) (renewed t id) (λ ts, observe_heartbeat ts (VDict entry)) false h Hh
    (λ e He _, observe_renewed t id _ e He)) as Ho.
  unfold mbind, py_bind. destruct (on_election _ false h) as [h1 [b|x]]; [|done]. by apply IH', Ho.
Qed.

Lemma store_renews t id d entry peers h :
  at_time t filed h → VDict d ∈ peers → store_entry d = Some entry → reads_as id entry →
  is_ok (observe_store peers h).2 = true → at_time t (renewed t id) (observe_store peers h).1.
Proof.
  intros Hh Hin Hd Hreads. revert h Hh Hin. induction peers as [|q peers IH]; intros h Hh Hin; [by apply elem_of_nil in Hin|].
  cbn [observe_store]. apply elem_of_cons in Hin as [<-|Hin].
  - rewrite Hd. destruct (Hreads t) as (x & Hx & <-).
    pose proof (at_on_election t filed (renewed t (e_node_id x)) (λ ts, observe_heartbeat ts (VDict entry)) false h Hh
      (λ e He Hok, observe_renews t entry x e He Hx Hok)) as Ho.
    unfold mbind, py_bind. destruct (on_election _ false h) as [h1 [b|y]]; [|done]. by apply store_keeps, Ho.
  - destruct q as [| | | | | |d']; try (by apply IH). destruct (store_entry d') as [entry'|]; [|by apply IH].
    pose proof (at_on_election t filed filed (λ ts, observe_heartbeat ts (VDict entry')) false h Hh
      (λ e He _, observe_wf t _ e He)) as Ho.
    unfold mbind, py_bind. destruct (on_election _ false h) as [h1 [b|y]]; [|done]. intros Hok. apply IH; [by apply Ho|done..].
Qed.

(** What every pass keeps: an elector with its timeout and its records in
    order, and the time. *)
Definition has (tmo : f64) h : Prop := ∃ e, h_election h = Some e ∧ nodes_wf (el_nodes e) ∧ el_timeout e = tmo.

Lemma observe_timeout t payload e : el_timeout (observe_heartbeat t payload e).1 = el_timeout e.
Proof.
  unfold observe_heartbeat. destruct payload; try done. destruct (make_node_entry _ _) as [[x|]|]; try done.
  destruct (dget _ _) as [prev|]; [|done]. by destruct (same_seq x prev) as [[]|].
Qed.
Lemma local_has ts thermal mem caps e :
  nodes_wf (el_nodes e) → let e' := (local_heartbeat ts thermal mem [] true caps e).1 in
  nodes_wf (el_nodes e') ∧ el_timeout e' = el_timeout e.
Proof.
  intros Hw. unfold local_heartbeat. py_unfold. set (e1 := set_el_seq _ e). set (p := VDict _).
  pose proof (observe_timeout ts p e1) as En. pose proof (observe_wf ts p e1 Hw) as Ew. by destruct (observe_heartbeat ts p e1) as [e' [b|x]].
Qed.
Lemma tick_timeout ts e : el_timeout (tick ts e).1 = el_timeout e.
Proof.
  unfold tick. cbv zeta. set (w := pick_winner _ _). set (c := live_candidates ts e).
  destruct (note_disagreement_frame w c e) as (_ & _ & _ & Ht & _). cbn [fst]. by repeat case_decide.
Qed.

Section Has.
Context (tmo : f64).
Lemma has_elected h e e' : h_election h = Some e → has tmo h → nodes_wf (el_nodes e') → el_timeout e' = el_timeout e → has tmo (with_election (Some e') h).
Proof. intros E (e0 & E0 & _ & Ht) Hw He. exists e'. split_and!; [done..|]. congruence. Qed.
Lemma has_wf h e : h_election h = Some e → has tmo h → nodes_wf (el_nodes e).
Proof. intros E (e0 & E0 & Hw & _). by simplify_eq. Qed.
Lemma has_elect : keeps (has tmo) elect.
Proof.
  apply keeps_elect; [done|]. intros h e ts E Hh. apply (has_elected _ e); [done..| |apply tick_timeout].
  rewrite tick_nodes. by eapply has_wf.
Qed.
Lemma has_local thermal mem caps : keeps (has tmo) (on_election (λ ts, local_heartbeat ts thermal mem [] true caps) []).
Proof.
  apply keeps_on_election; [done|]. intros h e ts E Hh. destruct (local_has ts thermal mem caps e (has_wf _ _ E Hh)) as [Hw Ht].
  by apply (has_elected _ e).
Qed.
Lemma has_observe payload : keeps (has tmo) (on_election (λ ts, observe_heartbeat ts payload) false).
Proof.
  apply keeps_on_election; [done|]. intros h e ts E Hh. apply (has_elected _ e); [done..| |apply observe_timeout].
  apply observe_wf. by eapply has_wf.
Qed.
Hint Resolve keeps_from_world keeps_try_world has_elect has_local has_observe : keeps.
Lemma has_store peers : keeps (has tmo) (observe_store peers).
Proof. induction peers as [|p peers IH]; cbn [observe_store]; keeps_auto. Qed.
Lemma has_audit : keeps (has tmo) attach_audit.
Proof.
  unfold attach_audit. steady_auto. apply keeps_modify. intros h (e & E & Hw & Ht). unfold has. cbn. rewrite E.
  eexists. split; [reflexivity|]. by destruct (el_audit e), a.
Qed.
Hint Resolve has_store has_audit : keeps.
Lemma has_pass : keeps (has tmo) heartbeat_pass.
Proof. unfold heartbeat_pass, mesh_mem_headroom, int_here. keeps_auto. Qed.
Hint Resolve has_pass : keeps.
Lemma has_beat : keeps (has tmo) mesh_heartbeat_tick.
Proof. unfold mesh_heartbeat_tick. keeps_auto. Qed.
End Has.

(** The time within a pass. *)
Definition now_is (t : f64) h : Prop := clock (h_world h) = t.
Lemma now_audit t : keeps (now_is t) attach_audit.
Proof.
  unfold attach_audit. steady_auto. intros h Hh. unfold from_world, now_is in *. pose proof (Haudit (h_world h)) as Ha.
  destruct (hw_engine_audit (h_world h)). cbn in *. congruence.
Qed.
Lemma now_headroom t : keeps (now_is t) mesh_mem_headroom.
Proof.
  unfold mesh_mem_headroom, int_here. keeps_auto. intros h Hh. unfold try_world, now_is in *. pose proof (Hmem (h_world h)) as Ha.
  destruct (hw_free_memory (h_world h)). cbn in *. congruence.
Qed.

Lemma now_election {A : Type} t (m : f64 → py MeshElection A) none : keeps (now_is t) (on_election m none).
Proof.
  intros h Hh. unfold on_election, now_is in *. pose proof (Hstill (h_world h)) as Es.
  destruct (hw_monotonic (h_world h)) as [w ts]. cbn [h_election with_outside fst] in *. destruct (h_election h) as [e|]; [|cbn; congruence].
  destruct (m ts e). cbn. congruence.
Qed.

(** Ready to read the store at [t]. *)
Definition ready (t tmo : f64) (tel : pydict) h : Prop := (has tmo h ∧ now_is t h) ∧ h_telemetry h = tel.
Lemma keeps_and {A : Type} (P Q : H → Prop) (m : py H A) : keeps P m → keeps Q m → keeps (λ h, P h ∧ Q h) m.
Proof. intros HP HQ h [H1 H2]. split; [by apply HP|by apply HQ]. Qed.

Lemma same_audit tel : keeps (λ h, h_telemetry h = tel) attach_audit.
Proof. unfold attach_audit. steady_auto. by apply keeps_from_world. Qed.
Lemma same_headroom tel : keeps (λ h, h_telemetry h = tel) mesh_mem_headroom.
Proof. unfold mesh_mem_headroom, int_here. keeps_auto. by apply keeps_try_world. Qed.
Lemma has_headroom tmo : keeps (has tmo) mesh_mem_headroom.
Proof. unfold mesh_mem_headroom, int_here. keeps_auto. by apply keeps_try_world. Qed.

Lemma ok_bind {A B : Type} (m : py H A) (k : A → py H B) h :
  is_ok ((m ≫= k) h).2 = true → ∃ a, m h = ((m h).1, Ok a) ∧ (m ≫= k) h = k a (m h).1.
Proof. unfold mbind, py_bind. destruct (m h) as [h' [a|x]]; [|done]. intros _. by exists a. Qed.

Lemma pass_renews t tmo tel d entry id l h :
  ready t tmo tel h → stored_peers tel = Ok l → VDict d ∈ l → store_entry d = Some entry → reads_as id entry →
  is_ok (heartbeat_pass h).2 = true → at_time t (renewed t id) (heartbeat_pass h).1.
Proof.
  intros Hr Hl Hd He Hreads. unfold heartbeat_pass. intros Hok.
  apply ok_bind in Hok as Hb. destruct Hb as (? & E & Hb). rewrite Hb in Hok |- *. clear E Hb.
  assert (ready t tmo tel (attach_audit h).1) as H1.
  { apply (keeps_and _ _ _ (keeps_and _ _ _ (has_audit tmo) (now_audit t)) (same_audit tel)), Hr. }
  revert Hok. generalize dependent (attach_audit h).1. clear h Hr. intros h Hr. rewrite get_bind.
  unfold int_here. rewrite of_res_bind. destruct (int_or 0 _) as [thermal|]; [|done]. intros Hok.
  apply ok_bind in Hok as Hb. destruct Hb as (mem & E & Hb). rewrite Hb in Hok |- *. clear E Hb.
  assert (ready t tmo tel (mesh_mem_headroom h).1) as H1.
  { apply (keeps_and _ _ _ (keeps_and _ _ _ (has_headroom tmo) (now_headroom t)) (same_headroom tel)), Hr. }
  revert Hok. generalize dependent (mesh_mem_headroom h).1. clear h Hr. intros h Hr Hok.
  apply ok_bind in Hok as Hb. destruct Hb as (? & E & Hb). rewrite Hb in Hok |- *. clear E Hb.
  set (h1 := (on_election _ _ h).1) in *.
  assert (ready t tmo tel h1) as [[(e & Ee & Hw & _) Ht] Htel].
  { apply (keeps_and _ _ _ (keeps_and _ _ _ (has_local tmo thermal mem []) (now_election t _ _)) (same_local tel thermal mem [])), Hr. }
  clearbody h1. clear h Hr. rewrite get_bind, of_res_bind, Htel, Hl in Hok |- *.
  apply ok_bind in Hok as Hb. destruct Hb as (? & E & Hb).
  rewrite Hb. assert (at_time t (renewed t id) (observe_store l h1).1) as Ho.
  { apply (store_renews t id d entry); [split; [done|by exists e]|done..|by rewrite E]. }
  assert (∀ g, at_time t (renewed t id) g → at_time t (renewed t id) (ticked g)) as Htick.
  { intros g Hg. pose proof (at_elect t _ g Hg (λ e ts, tick_renewed t id ts e)) as Hg'. by rewrite elect_now in Hg'. }
  rewrite !(returned_bind _ _ _ _ _ (elect_now _)). by apply Htick, Htick.
Qed.

Lemma fresh_is_live tmo t x : fltb tmo f0 = false → e_last_seen x = t → is_live tmo t x = true.
Proof.
  intros Ht Hx. unfold is_live. rewrite Hx. destruct (fsub_self t) as [->| ->]; [by rewrite Ht|].
  destruct (fltb tmo f_nan) eqn:E; [|done]. by apply fltb_not_nan in E as [_ ?].
Qed.

(** One heartbeat of the node in the world [w]. *)
Definition beat_at (w : W) h : H := (mesh_heartbeat_tick (with_outside w h)).1.

(** A peer that is gone stays: as long as its advertisement is in the
    store, every heartbeat of this node renews it, so that however many
    heartbeats and however much time after it fell silent it is still live and
    takes part in the election. *)
Theorem silent_peer_never_expires id d entry l tmo ws w h :
  has tmo h → fltb tmo f0 = false →
  stored_peers (h_telemetry h) = Ok l → VDict d ∈ l → store_entry d = Some entry → reads_as id entry →
  let g := with_outside w (foldl (λ h w, beat_at w h) h ws) in
  is_ok (heartbeat_pass g).2 = true →
  ∃ e x, h_election (mesh_heartbeat_tick g).1 = Some e ∧ dget id (el_nodes e) = Some x ∧
    is_live (el_timeout e) (clock w) x = true.
Proof.
  intros Hh Htmo Hl Hd He Hreads g Hok.
  assert (has tmo g ∧ h_telemetry g = h_telemetry h) as [Hg Hgt].
  { subst g. clear Hok Hl. revert h Hh. induction ws as [|w' ws IH]; intros h Hh; [done|]. cbn [foldl].
    destruct (IH (beat_at w' h)) as [H1 H2]; [by apply has_beat|]. split; [done|]. rewrite H2. by apply same_beat. }
  assert (mesh_heartbeat_tick g = ((heartbeat_pass g).1, Ok tt)) as Eb.
  { unfold mesh_heartbeat_tick. rewrite get_bind. destruct Hg as (e & -> & _). by rewrite attempt_bind. }
  rewrite Eb. cbn [fst]. destruct (has_pass tmo g Hg) as (e & Ee & _ & Et).
  destruct (pass_renews (clock w) tmo (h_telemetry g) d entry id l g) as (_ & e' & Ee' & _ & x & Hx & Hs); try done.
  { by rewrite Hgt. }
  simplify_eq. eexists _, x. split_and!; [done..|]. by apply fresh_is_live.
Qed.
End Gone.

(** ** Answers *)

Lemma later_raises {A B : Type} (m : py H A) (k : A → py H B) h :
  (∀ a g, ∃ y, (k a g).2 = Raise y) → ∃ y, ((m ≫= k) h).2 = Raise y.
Proof. intros Hk. unfold mbind, py_bind. destruct (m h) as [g [a|y]]; [apply Hk|by exists y]. Qed.

Lemma raised_bind {A B : Type} (m : py H A) (k : A → py H B) h g y : m h = (g, Raise y) → (m ≫= k) h = (g, Raise y).
Proof. intros E. unfold mbind, py_bind. by rewrite E. Qed.

Lemma candidates_raise peers d h x :
  VDict d ∈ peers → peer_device d ≠ [] → priority_of d = Raise x → ∃ y, (peer_candidates peers h).2 = Raise y.
Proof.
  intros Hin Hdev Hp. revert h. induction peers as [|q peers IH]; intros h; [by apply elem_of_nil in Hin|].
  cbn [peer_candidates]. apply elem_of_cons in Hin as [<-|Hin].
  - rewrite bool_decide_false by done. unfold mbind, py_bind. destruct (peer_age d h) as [h1 [age|y]]; [|by eexists].
    unfold of_res. rewrite Hp. by eexists.
  - apply later_raises. intros c h'. unfold mbind, py_bind. destruct (IH Hin h') as [y Hy].
    destruct (peer_candidates peers h') as [h2 r]. cbn in Hy. subst r. by eexists.
Qed.

Lemma terminal_frame s h : ∃ w b, terminal_input_recent s h = (with_outside w h, Ok b).
Proof.
  unfold terminal_input_recent. rewrite get_bind. destruct (fltb f0 _).
  - rewrite from_world_bind. by eexists _, _.
  - exists (h_world h), false. by destruct h.
Qed.

Lemma response_raises d h x :
  VDict d ∈ known_peers h → peer_device d ≠ [] → priority_of d = Raise x → ∃ y, (response_candidates h).2 = Raise y.
Proof.
  intros Hin Hdev Hp. unfold response_candidates. rewrite get_bind, of_res_bind. destruct (human_of h) as [human|y]; [|by eexists].
  rewrite of_res_bind. destruct (own_facts human) as [facts|y]; [|by eexists].
  destruct (terminal_frame (f_of_Z 60) h) as (w & b & E). rewrite (returned_bind _ _ _ _ _ E), from_world_bind, get_bind.
  set (h' := with_outside _ (with_outside w h)). destruct (candidates_raise (known_peers h') d h' x Hin Hdev Hp) as [y Hy].
  unfold mbind, py_bind. destruct (peer_candidates (known_peers h') h') as [h2 r]. cbn in Hy. subst r. by eexists.
Qed.

Lemma known_peers_ticked h : known_peers (ticked h) = known_peers h.
Proof. unfold known_peers, ticked. by destruct (h_election h). Qed.

(** C33. One peer's bad word stops routed speech: while the store holds an
    advertisement of a named device whose priority is not a number, the node
    chooses no device, so whatever non-empty text or question it was allowed to
    route it says nowhere, here or on a peer: [execute_speak] and
    [execute_ask_user] end in an exception before any mouth is asked.  A
    direct reply is not routed and is still spoken. *)
Theorem bad_priority_mutes d x params h :
  VDict d ∈ known_peers h → peer_device d ≠ [] → priority_of d = Raise x →
  (∃ y, (response_candidates (ticked h)).2 = Raise y) ∧
  (allowed None h || h_fallback h = true → spoken_words params ≠ [] →
    ∃ y, execute_speak params h = ((response_candidates (ticked h)).1, Raise y)) ∧
  (allowed None h || h_fallback h = true → asked_words params ≠ [] →
    ∃ y, execute_ask_user params h = ((response_candidates (ticked h)).1, Raise y)) ∧
  (∀ text w b w', allowed None h || h_fallback h = true → h_speaker h = true →
    hw_speak (sanitize_text text 400) (h_world (ticked h)) = (w, Ok b) →
    hw_respond (sanitize_text text 400) false w = (w', Ok tt) → (speak_direct text h).2 = Ok b).
Proof.
  intros Hin Hdev Hp. destruct (response_raises d (ticked h) x) as [y Hy]; [by rewrite known_peers_ticked|done..|].
  assert (∀ action key text, routed action key text params (ticked h) = ((response_candidates (ticked h)).1, Raise y)) as Hroute.
  { intros action key text. unfold routed, route_response. do 2 apply raised_bind. unfold select_response_node.
    rewrite get_bind. apply raised_bind. destruct (response_candidates (ticked h)) as [h1 r]. cbn in Hy. by subst r. }
  pose proof (may_speak_now h) as Es.
  split; [by exists y|]. split_and!; [intros Ha Ht..|intros text w b w' Ha Hs Hw Hr]; rewrite Ha in Es; [exists y..|].
  - unfold execute_speak. rewrite (returned_bind _ _ _ _ _ Es), get_bind. cbn [negb]. rewrite bool_decide_false by done.
    apply raised_bind, Hroute.
  - unfold execute_ask_user. rewrite (returned_bind _ _ _ _ _ Es), get_bind. cbn [negb]. rewrite bool_decide_false by done.
    apply raised_bind, Hroute.
  - unfold speak_direct. rewrite (returned_bind _ _ _ _ _ Es), get_bind.
    destruct (ticked_frame h) as (_ & _ & _ & -> & _). rewrite Hs. cbn [negb orb]. rewrite attempt_bind. unfold try_world at 1 2. rewrite Hw. cbn.
    unfold try_world, mbind, py_bind. cbn [h_world with_outside snd fst]. rewrite Hw. cbn [fst].
    change (h_world (with_outside w (ticked h))) with w. by rewrite Hr.
Qed.

Definition reachable_mouth (to : pystr) (cs : list pydict) : Prop :=
  match List.find (λ c, bool_decide (device_text c = to)) cs with
  | Some c => truthy (dict_get (u "can_speak") VNone c) = true ∧ truthy (dict_get (u "is_self") VNone c) = false
  | None => True
  end.
Lemma origin_preferred to o cs :
  to ≠ [] → device_text o = to → speaks true o = true → is_ok (py_dict_or_empty (dict_get (u "facts") VNone o)) = true →
  is_ok (priority_of o) = true → reachable_mouth to cs →
  ∃ cs' c, with_origin to (Some o) cs = Ok cs' ∧ preferred_choice to cs' = Some c ∧
    device_text c = to ∧ truthy (dict_get (u "is_self") VNone c) = false.
Proof.
  intros Hn Hd Hsp Hf Hpr Hfind. unfold reachable_mouth in Hfind. unfold with_origin, preferred_choice. rewrite (bool_decide_false (to = [])) by done. rewrite (bool_decide_true (device_text _ = to)) by done. cbn [negb andb].
  destruct (List.find _ cs) as [c|] eqn:E.
  - destruct Hfind as [Hc1 Hc2]. apply List.find_some in E as E'. destruct E' as [Hin Hb].
    assert (existsb (λ c, bool_decide (device_text c = to)) cs = true) as -> by (apply List.existsb_exists; by exists c).
    exists cs, c. cbn [negb]. rewrite E, Hc1. split_and!; [done..| |done]. by apply bool_decide_eq_true in Hb.
  - assert (existsb (λ c, bool_decide (device_text c = to)) cs = false) as ->.
    { apply not_true_is_false. intros (c & Hin & Hb)%List.existsb_exists.
      pose proof (List.find_none _ _ E c Hin) as Hc. cbn in Hc. congruence. }
    cbn [negb]. destruct (py_dict_or_empty _) as [f|]; [|done]. destruct (priority_of o) as [pr|]; [|done].
    set (c := [(u "device_id", VStr to); (u "facts", VDict f); (u "can_speak", VBool (speaks true o));
               (u "is_self", VBool false); (u "priority", VInt pr)]). exists (cs ++ [c]), c.
    assert (List.find (λ c, bool_decide (device_text c = to)) (cs ++ [c]) = Some c) as Efind.
    { clear -E Hn. induction cs as [|d cs IH]; cbn in *.
      - unfold device_text, text_of. cbn. destruct to as [|a b]; [done|]. cbn. by rewrite bool_decide_true.
      - destruct (bool_decide _); [done|auto]. }
    rewrite Efind. subst c. cbn. rewrite Hsp. split_and!; try done.
    unfold device_text, text_of. cbn. by destruct to.
Qed.

(** A proposal is said where the turn was taken: when the device that took
    the turn can speak, is not this node and can be reached, its proposed
    answer is delegated to it, whatever any other device's proximity, and the
    turn counts as answered. *)
Theorem proposal_returns_to_origin t cs h h1 w' :
  tn_transcript t ≠ [] → tn_proposed t ≠ [] → strip (tn_reply_to t) = tn_reply_to t → tn_reply_to t ≠ [] →
  device_text (tn_origin t) = tn_reply_to t → speaks true (tn_origin t) = true →
  is_ok (py_dict_or_empty (dict_get (u "facts") VNone (tn_origin t))) = true → is_ok (priority_of (tn_origin t)) = true →
  response_candidates h = (h1, Ok cs) →
  reachable_mouth (tn_reply_to t) cs →
  h_runtime h1 = true →
  hw_send (tn_reply_to t) DELEGATE_TOPIC (delegation (u "speak") [(u "text", VStr (tn_proposed t))]) (h_world h1)
    = (w', Ok [(u "status", VStr (u "success"))]) →
  ∀ decide, ∃ h', answer_turn decide t h = (h', Ok ("answered"%string, u "proposed text relayed to the origin")) ∧
    h_world h' = w' ∧ h_delegated_out h' = h_delegated_out h1 + 1 ∧
    dget (tn_reply_to t) (h_pending h') = Some (delegation (u "speak") [(u "text", VStr (tn_proposed t))], 0).
Proof.
  intros Ht Hp Hs Hn Hd Hsp Hf Hpr Ec Hfind Hrun Esend decide.
  set (to := tn_reply_to t) in *. set (words := [(u "text", VStr (tn_proposed t))]) in *.
  destruct (origin_preferred to (tn_origin t) cs) as (cs' & c & Ew & Ep & Ed & Eself); [done..|].
  set (why := preferred_reason to).
  assert (∃ h2, select_response_node to (Some (tn_origin t)) h = (h2, Ok (Some (Chosen to false VNone [u "turn-origin"]), why))
    ∧ h_world h2 = h_world h1 ∧ h_delegated_out h2 = h_delegated_out h1 ∧ h_runtime h2 = h_runtime h1) as (h2 & Es & Hw2 & Ho2 & Hr2).
  { unfold select_response_node. rewrite get_bind, (returned_bind _ _ _ _ _ Ec), Hs, of_res_bind, Ew, Ep, modify_bind, Ed, Eself.
    by eexists. }
  set (h3 := with_delegations (h_delegated_out h2 + 1) (dset to (delegation (u "speak") words, 0) (h_pending (with_outside w' h2)))
               (h_retries h2) (with_outside w' h2)).
  assert (mesh_delegate to (delegation (u "speak") words) h2 = (h3, Ok [(u "status", VStr (u "delegated")); (u "peer", VStr to)])) as Em.
  { unfold mesh_delegate. rewrite get_bind, Hr2, Hrun. cbn [negb]. rewrite attempt_bind. unfold try_world. by rewrite Hw2, Esend. }
  assert (deliver_forwarded_reply (tn_proposed t) to (tn_origin t) h = (h3, Ok [])) as Er.
  { unfold deliver_forwarded_reply, route_response. erewrite returned_bind.
    2:{ rewrite (returned_bind _ _ _ _ _ Es). cbn [fst snd ch_self ch_device]. rewrite (returned_bind _ _ _ _ _ Em). reflexivity. }
    set (r := dset (u "route") _ _). cbv beta iota. assert (dict_get (u "status") VNone r = VStr (u "delegated")) as -> by reflexivity.
    assert (text_of "delegated_to" r = to) as ->.
    { unfold text_of. assert (dict_get (u "delegated_to") VNone r = VStr to) as -> by reflexivity. by destruct to. }
    by rewrite !bool_decide_true by done. }
  exists h3. split; [|cbn; split_and!; [done|congruence|apply dget_dset_eq]].
  unfold answer_turn. rewrite bool_decide_false by done. rewrite (bool_decide_false (tn_proposed t = [])) by done. cbn [negb].
  fold to. by rewrite (returned_bind _ _ _ _ _ Er).
Qed.

(** ** How much agency *)

(** The mode a node is in and the guard on its actions agree: unless the
    operator overrides it, a node short of capacity is degraded whoever leads;
    otherwise it is subordinate exactly when another live node leads, and then
    the guard refuses what that node did not ask for; as primary or standalone
    the guard lets it act. *)
Theorem mode_agrees_with_guard h h1 p :
  capacity_profile h = (h1, Ok p) → overridden (h_policy h1) = None →
  ∃ m, (orchestration_mode h).2 = Ok m ∧ (m = Degraded ↔ exhausted p = true) ∧
    (exhausted p = false →
      (m = Subordinate ↔ follower h1) ∧ (m = Standalone ↔ h_election h1 = None) ∧
      (h_delegated_from h1 = None → (m = Subordinate ↔ (mesh_may_act None h1).2 = Ok false))).
Proof.
  intros Ep Eo. unfold orchestration_mode. rewrite (returned_bind _ _ _ _ _ Ep), get_bind, Eo.
  destruct (exhausted p); [by exists Degraded|]. rewrite (returned_bind _ _ _ _ _ (elect_now h1)), get_bind, may_act_now.
  unfold allowed, director, follower, leader. destruct (ticked_frame h1) as (_ & _ & _ & _ & En & _). unfold own_name in *.
  pose proof (verdict_asked h1) as Hv. destruct (verdict h1) as [r|].
  2:{ destruct (h_election h1) as [e|]; [by destruct (proj2 Hv (mk_is_Some _ _ eq_refl))|]. exists Standalone. split; [done|]. split; [done|].
      intros _. split_and!; [split; [done|by intros (? & ? & ?)]|done|done]. }
  destruct (h_election h1) as [e|]; [|by destruct (proj1 Hv (mk_is_Some _ _ eq_refl))].
  destruct (h_election (ticked h1)) as [e'|]; [|done]. injection En as En. cbn. rewrite En.
  destruct (tr_primary r) as [q|]; cbn.
  2:{ exists Primary. split; [done|]. split; [done|]. intros _. split_and!; [split; [done|by intros (? & ? & ?)]|done|done]. }
  destruct (decide (q = el_node_id e)) as [->|Hq].
  - exists Primary. rewrite !(bool_decide_true (Some _ = Some _)) by done. split; [done|]. split; [done|].
    intros _. split_and!; [split; [done|intros (? & [= <-] & ?); done]|done|done].
  - exists Subordinate. rewrite (bool_decide_false (Some q = Some (el_node_id e))) by congruence.
    rewrite (bool_decide_false (Some (el_node_id e) = Some q)) by congruence. split; [done|]. split; [done|].
    intros _. split_and!; [split; [intros _; exists q; split; [done|congruence]|done]|done|].
    intros ->. rewrite (bool_decide_false (None = Some q)) by done. by rewrite andb_false_r.
Qed.
End Hearing.
