(* ===== verification/HiveScenarios.v ===== *)
(** * Hives at work ([src/shugocore_agent.py])

    A world one can run, the witnesses of the theorems about a node, and what
    two and three nodes do together. *)

From Stdlib Require Import ZArith NArith Lia.
From Stdlib Require Import Floats.SpecFloat.
From stdpp Require Import relations.
From S2P Require Import Prelude PyFloat PyStr PyVal Security MeshElection Interaction Hive HiveTurns HiveSafety HivePeers HiveHearing.
From S2P Require Routing.

Local Open Scope Z_scope.

(** ** A world *)

Record sim := Sim {
  s_now : f64;
  s_memory : res Z;                                  (* what measuring the memory gives *)
  s_peers : list pystr;                              (* the peers that can be reached *)
  s_sent : list (pystr * pystr * pydict);            (* what was sent to whom, newest first *)
  s_spoken : list pystr                              (* what the speaker said, newest first *)
}.
#[export] Instance sim_repr : PyRepr := λ _, u "<object>".
#[export] Instance sim_dict : PyDictOf := λ _, Raise (TypeError (u "cannot convert")).

Definition sent (p t : pystr) (d : pydict) (w : sim) : sim * res pydict :=
  if bool_decide (p ∈ s_peers w)
  then (Sim (s_now w) (s_memory w) (s_peers w) ((p, t, d) :: s_sent w) (s_spoken w), Ok [(u "status", VStr (u "success"))])
  else (w, Ok [(u "status", VStr (u "refused")); (u "reason", VStr (u "unknown peer"))]).
#[export] Instance sim_world : HiveWorld sim := {|
  hw_monotonic w := (w, s_now w); hw_time w := (w, s_now w); hw_send := sent;
  hw_free_memory w := (w, s_memory w); hw_battery w := (w, VInt 80); hw_attention w := (w, Ok (u "attending"));
  hw_human_context w := (w, Ok VNone); hw_hive_caps w := (w, Ok []); hw_engine_audit w := (w, false);
  hw_speak t w := (Sim (s_now w) (s_memory w) (s_peers w) (s_sent w) (t :: s_spoken w), Ok true);
  hw_respond _ _ w := (w, Ok tt); hw_spoken _ w := (w, Ok tt); hw_asked _ w := (w, Ok tt);
  hw_answer_ttl w := (w, VInt 120); hw_rpc _ _ _ w := (w, Ok []); hw_dev_registry w := (w, None);
  hw_dev_task _ _ w := (w, Ok []); hw_exn_text _ := u "failed"
|}.

(** A node at a time, and one that has heard adverts. *)
Definition node (name : string) (priority : Z) (memory : res Z) (peers : list pystr) : hive sim :=
  Hive (Some (new_election (u name) priority (f_of_Z 15) (f_of_Z 15) false (u "primary-capable"))) [] [] (u name) VNone []
    true true 0 f0 [] VNone None 0 [] [] [] false 0 [] [] [] (Sim (f_of_Z 1000) memory peers [] []).
Definition advert (name : string) (priority : pyval) (extra : pydict) : pydict :=
  [(u "node_id", VStr (u name)); (u "priority", priority); (u "thermal_status", VInt 0); (u "paired", VBool true);
   (u "seq", VInt 1); (u "can_speak", VBool true)] ++ extra.
Definition hear (adverts : list pydict) (h : hive sim) : hive sim :=
  foldl (λ h d, (mesh_heartbeat_received d h).1) (mesh_heartbeat_tick h).1 adverts.
Definition later (s : Z) (h : hive sim) : hive sim :=
  let w := h_world h in with_outside (Sim (f_of_Z s) (s_memory w) (s_peers w) (s_sent w) (s_spoken w)) h.

Definition gib : res Z := Ok (2 ^ 30).
(** The hub leads the phone: it has the better priority. *)
Definition hub : hive sim := hear [advert "phone" (VInt 200) []] (node "hub" 100 gib [u "phone"; u "tv"]).
Definition phone : hive sim := hear [advert "hub" (VInt 100) []] (node "phone" 200 gib [u "hub"; u "tv"]).
Definition hello : pydict := [(u "text", VStr (u "Hello there."))].

Example hub_leads : leader hub = Some (u "hub") ∧ leader phone = Some (u "hub").
Proof. by vm_compute. Qed.

(** ** Witnesses *)

Lemma phone_follows : follower phone.
Proof. exists (u "hub"). by vm_compute. Qed.

Lemma follower_refuses_witness : follower phone ∧ execute_speak hello phone = (ticked phone, Ok (follower_refusal (ticked phone))).
Proof.
  split; [exact phone_follows|].
  pose proof (follower_refuses hello [] phone) as H. destruct H as [H _]; [exact phone_follows|by vm_compute|by vm_compute|exact H].
Defined.

Lemma one_mouth_witness : ¬ ((mesh_may_act None hub).2 = Ok true ∧ (mesh_may_act None phone).2 = Ok true).
Proof. pose proof (one_mouth hub phone) as H. apply H; by vm_compute. Defined.

Lemma stranger_cannot_direct_witness :
  handle_delegated_action (u "tv") (VDict [(u "id", VInt 7)]) phone =
    mesh_reply (u "tv") DELEGATE_RESULT_TOPIC (refusal (VInt 7) (not_primary (leader phone) (u "tv"))) (ticked phone).
Proof. pose proof (stranger_cannot_direct (u "tv") (VDict [(u "id", VInt 7)]) (VInt 7) phone) as H. apply H; by vm_compute. Defined.

Definition say (text : string) : pydict := [(u "action_type", VStr (u "speak")); (u "params", VDict [(u "text", VStr (u text))])].
Lemma delegation_answered_witness :
  ∃ h' result, run_delegated (u "hub") (u "speak") [(u "text", VStr (u "Dinner."))] (ticked phone) = (h', Ok result) ∧ h_delegated_from h' = None.
Proof.
  pose proof (delegation_answered (u "hub") (say "Dinner.") phone) as H.
  assert (leader phone = Some (u "hub")) as Hl by (by vm_compute). specialize (H Hl). cbv zeta in H.
  rewrite bool_decide_true in H by (by vm_compute; apply list_elem_of_here). destruct H as (h' & r & E & Ed & _). exists h', r. split; [exact E|exact Ed].
Defined.

Lemma forwarded_turn_settled_witness :
  match (forward_turn id (u "what time is it") [] (u "It is noon.") [] phone).2 with
  | Ok b => b = false ∧ h_fallback (forward_turn id (u "what time is it") [] (u "It is noon.") [] phone).1 = true
  | Raise _ => False
  end.
Proof.
  destruct (forward_turn id (u "what time is it") [] (u "It is noon.") [] phone) as [h' r] eqn:E.
  pose proof (forwarded_turn_settled id _ _ _ _ phone h' r E) as H. vm_compute in E. injection E as <- <-.
  destruct H as [[H _]|[_ H]]; [split; [reflexivity|exact H]|]. exfalso. vm_compute in H. destruct H as [H|[H|H]]; discriminate H.
Defined.

Lemma typed_turn_revokes_witness : h_fallback (handle_typed_input (λ _ _, modify (with_fallback true)) (u "hi") [] phone).1 = false.
Proof. apply typed_turn_revokes. by vm_compute. Defined.

(** A world where every frame goes through. *)
Definition open_world : HiveWorld sim := {|
  hw_monotonic w := (w, s_now w); hw_time w := (w, s_now w); hw_send _ _ _ w := (w, Ok [(u "status", VStr (u "success"))]);
  hw_free_memory w := (w, s_memory w); hw_battery w := (w, VInt 80); hw_attention w := (w, Ok (u "attending"));
  hw_human_context w := (w, Ok VNone); hw_hive_caps w := (w, Ok []); hw_engine_audit w := (w, false);
  hw_speak t w := (w, Ok true); hw_respond _ _ w := (w, Ok tt); hw_spoken _ w := (w, Ok tt); hw_asked _ w := (w, Ok tt);
  hw_answer_ttl w := (w, VInt 120); hw_rpc _ _ _ w := (w, Ok []); hw_dev_registry w := (w, None);
  hw_dev_task _ _ w := (w, Ok []); hw_exn_text _ := u "failed"
|}.
Definition refused_hub : hive sim := with_delegations 1 [(u "phone", (say "Dinner.", 1))] [(u "phone", say "Dinner.")] hub.
Lemma retry_never_gives_up_witness :
  let h' := Nat.iter 50 (λ g, (refused_again (HW := open_world) (u "phone") (Some (u "tv")) VNone (u "phone") g).1) refused_hub in
  h_retries h' = [(u "phone", say "Dinner.")] ∧ h_delegated_out h' = 51.
Proof.
  pose proof (retry_never_gives_up (HW := open_world) (λ p t d w, ex_intro _ w eq_refl) (u "phone") (Some (u "tv")) VNone
    (u "phone") (say "Dinner.") 50 refused_hub) as H.
  cbv zeta in *. apply H; by vm_compute.
Defined.

(** The hub, as the phone's store has it. *)
Definition heard_hub : pydict := received_entry (u "hub") (f_of_Z 1000) (advert "hub" (VInt 100) []).
Definition day (n : Z) : sim := Sim (f_of_Z (1000 + 86400 * n)) gib [] [] [].
Lemma silent_peer_never_expires_witness :
  let g := with_outside (day 3) (foldl (λ h w, beat_at w h) phone [day 1; day 2]) in
  ∃ e x, h_election (mesh_heartbeat_tick g).1 = Some e ∧ dget (u "hub") (el_nodes e) = Some x ∧
    is_live (el_timeout e) (s_now (day 3)) x = true.
Proof.
  destruct (store_entry heard_hub) as [entry|] eqn:E; [|by vm_compute in E].
  pose proof (silent_peer_never_expires s_now (λ _, eq_refl) (λ _, eq_refl) (λ _, eq_refl) (λ _, eq_refl)
    (u "hub") heard_hub entry [VDict heard_hub] (f_of_Z 15) [day 1; day 2] (day 3) phone) as H.
  vm_compute in E. injection E as <-. cbv zeta in *. apply H; clear H.
  - destruct (h_election phone) as [e|] eqn:E; [|by vm_compute in E]. exists e. split; [exact E|].
    vm_compute in E. injection E as <-. split; [|by vm_compute]. split.
    + apply (bool_decide_unpack _). by vm_compute.
    + intros k x Hin. cbn [el_nodes] in Hin. apply elem_of_cons in Hin as [[= -> ->]|Hin]; [by vm_compute|].
      apply elem_of_cons in Hin as [[= -> ->]|Hin]; [by vm_compute|]. by apply elem_of_nil in Hin.
  - by vm_compute.
  - by vm_compute.
  - left.
  - by vm_compute.
  - intros t. eexists. split; reflexivity.
  - by vm_compute.
Defined.

(** The hub's action begins, another frame of the hub's runs in one piece
    meanwhile, and the first action ends. *)
Definition on_loan : hive sim := with_delegated_from (Some (u "hub")) (ticked phone).
Definition meanwhile : hive sim :=
  others_do (λ _, mret tt) [Frame (u "hub") DELEGATE_TOPIC (VDict (say "Dinner."))] on_loan.

Lemma authority_never_left_over_witness :
  h_delegated_from (with_delegated_from None meanwhile) = None ∧
  own_name (with_delegated_from None meanwhile) = Some (u "phone").
Proof.
  pose proof (authority_never_left_over (λ _, mret tt) phone (with_delegated_from None meanwhile) []) as H.
  destruct H as (_ & _ & H & _).
  - intros name r s loan t. apply keeps_ret.
  - apply (rtc_l _ _ (on_loan, [u "hub"])); [apply life_begin; by vm_compute|].
    apply (rtc_l _ _ (meanwhile, [u "hub"])); [apply life_node, step_event|].
    apply rtc_once. apply (life_end _ (u "hub") meanwhile [] []).
  - by vm_compute.
  - apply Nat.leb_le. by vm_compute.
  - split; [done|]. rewrite H. by vm_compute.
Defined.

Lemma store_bounded_and_current_witness :
  ∃ l now, peers_of (mesh_heartbeat_received (advert "tv" (VInt 300) []) phone).1
    = l ++ [VDict (received_entry (u "tv") now (advert "tv" (VInt 300) []))].
Proof.
  pose proof (store_bounded_and_current (advert "tv" (VInt 300) []) phone
    (mesh_heartbeat_received (advert "tv" (VInt 300) []) phone).1) as H. cbv zeta in H.
  destruct H as (l & now & E & _); [by vm_compute|apply (bool_decide_unpack _); by vm_compute|by vm_compute|].
  exists l, now. exact E.
Defined.

(** An advertisement whose priority is a word. *)
Definition muted : hive sim := hear [advert "toy" (VStr (u "high")) []] (node "hub" 100 gib []).
Definition toy : pydict := received_entry (u "toy") (f_of_Z 1000) (advert "toy" (VStr (u "high")) []).
Lemma bad_priority_mutes_witness :
  leader muted = Some (u "hub") ∧ ∃ y, (execute_speak hello muted).2 = Raise y.
Proof.
  split; [by vm_compute|].
  destruct (priority_of toy) as [|x] eqn:E; [by vm_compute in E|].
  pose proof (bad_priority_mutes toy x hello muted) as H. destruct H as (_ & H & _).
  - assert (known_peers muted = [VDict toy]) as -> by (by vm_compute). left.
  - by vm_compute.
  - exact E.
  - destruct H as [y H]; [by vm_compute|by vm_compute|]. exists y. by rewrite H.
Defined.

(** The phone asked the hub the time, and measured it itself. *)
Definition asked : turn :=
  match turn_of (u "phone") [(u "id", VStr (u "turn-1")); (u "transcript", VStr (u "what time is it"));
      (u "reply_to", VStr (u "phone")); (u "proposed_text", VStr (u "It is noon.")); (u "can_speak", VBool true)] with
  | Ok t => t
  | Raise _ => Turn VNone [] [] [] None []
  end.
Lemma proposal_returns_to_origin_witness :
  match response_candidates hub with
  | (h1, Ok _) => ∃ h', answer_turn (λ _, mret tt) asked hub = (h', Ok ("answered"%string, u "proposed text relayed to the origin")) ∧
      h_delegated_out h' = h_delegated_out h1 + 1
  | _ => False
  end.
Proof.
  destruct (response_candidates hub) as [h1 [cs|x]] eqn:E; [|by vm_compute in E].
  pose proof (proposal_returns_to_origin asked cs hub h1
    (sent (u "phone") DELEGATE_TOPIC (delegation (u "speak") [(u "text", VStr (u "It is noon."))]) (h_world h1)).1) as H.
  vm_compute in E. injection E as <- <-.
  destruct (H ltac:(by vm_compute) ltac:(by vm_compute) ltac:(by vm_compute) ltac:(by vm_compute) ltac:(by vm_compute)
    ltac:(by vm_compute) ltac:(by vm_compute) ltac:(by vm_compute) ltac:(by vm_compute) ltac:(by vm_compute) ltac:(by vm_compute)
    ltac:(by vm_compute) (λ _, mret tt)) as (h' & E & _ & Ho & _).
  exists h'. split; [exact E|exact Ho].
Defined.

Lemma mode_agrees_with_guard_witness :
  match capacity_profile phone with (h1, _) => (orchestration_mode phone).2 = Ok Subordinate ∧ follower h1 end.
Proof.
  assert (match capacity_profile phone with
          | (h1, Ok p) => overridden (h_policy h1) = None ∧ exhausted p = false
          | _ => False
          end) as Hc by (by vm_compute).
  assert ((orchestration_mode phone).2 = Ok Subordinate) as Hm by (by vm_compute).
  destruct (capacity_profile phone) as [h1 [p|x]] eqn:E; [|by destruct Hc]. destruct Hc as [Ho Hp].
  pose proof (mode_agrees_with_guard phone h1 p E Ho) as H. destruct H as (m & Hm' & _ & H).
  rewrite Hm in Hm'. injection Hm' as <-. destruct (H Hp) as (Hf & _). split; [exact Hm|]. by apply Hf.
Defined.

(** ** Nodes together *)

(** The frames a node has for another, oldest first, and the node without
    them. *)
Definition frames_for (name : string) (h : hive sim) : list (pystr * pydict) :=
  rev (omap (λ f, if bool_decide (f.1.1 = u name) then Some (f.1.2, f.2) else None) (s_sent (h_world h))).
Definition flushed (h : hive sim) : hive sim :=
  let w := h_world h in with_outside (Sim (s_now w) (s_memory w) (s_peers w) [] (s_spoken w)) h.
Definition deliver (from : string) (frames : list (pystr * pydict)) (h : hive sim) : hive sim :=
  foldl (λ h f, received (u from) f.1 (VDict f.2) h) h frames.
(** What the hub does with the phone's frames: it takes them in and its workers
    run. *)
Definition hub_serves (frames : list (pystr * pydict)) : hive sim :=
  (run_worker (λ _, mret tt) (deliver "phone" frames (flushed hub))).1.
(** ... and the phone's other threads take in its answers. *)
Definition hub_answers (h : hive sim) : hive sim :=
  deliver "hub" (frames_for "phone" (hub_serves (frames_for "hub" h))) h.

(** A turn answered where it was taken, end to end: the phone, which
    follows, forwards a question with the answer it measured; the hub relays
    that answer; the phone's other thread speaks it and the waiting thread
    learns that the turn was answered, so it is said once, here, and the right
    to answer alone was never taken. *)
Theorem turn_answered_where_taken :
  let '(h, r) := forward_turn hub_answers (u "what time is it") [] (u "It is noon.") [] (flushed phone) in
  leader phone = Some (u "hub") ∧ r = Ok true ∧ s_spoken (h_world h) = [u "It is noon."] ∧ h_fallback h = false
  ∧ h_delegated_from h = None ∧ h_waiters h = [] ∧ h_turn_results h = [] ∧ h_forwarded h = 1.
Proof. vm_compute. by split_and!. Qed.

(** A node that cannot measure its memory, and one told of another. *)
Definition blind (name : string) (priority : Z) : hive sim :=
  (mesh_heartbeat_tick (node name priority (Raise (OSError (u "no meminfo"))) [u "a"; u "b"])).1.
Definition told_of (other me : hive sim) : hive sim :=
  match (mesh_heartbeat_payload other).2 with Ok d => (mesh_heartbeat_received d me).1 | Raise _ => me end.
(** An unmeasured memory leaves a hive without a mouth: of two nodes that
    cannot measure their free memory each finds itself out of memory, and hears
    of the other no memory at all, which counts as unknown; so each takes the
    other for the primary, neither may act, and each forwards its turns to a
    node that forwards them back. *)
Theorem unmeasured_pair_is_mute :
  let a := told_of (blind "b" 200) (blind "a" 100) in
  let b := told_of (blind "a" 100) (blind "b" 200) in
  leader a = Some (u "b") ∧ leader b = Some (u "a") ∧
  (execute_speak hello a).2 = Ok (follower_refusal (ticked a)) ∧ (execute_speak hello b).2 = Ok (follower_refusal (ticked b)) ∧
  ∃ d, s_sent (h_world (received (u "a") TURN_TOPIC (VDict [(u "id", VStr (u "turn-1"))]) b)) = [(u "a", TURN_RESULT_TOPIC, d)]
       ∧ dict_get (u "status") VNone d = VStr (u "refused").
Proof. vm_compute. split_and!; try done. eexists. by split. Qed.

(** The phone has also heard a television that sees somebody. *)
Definition phone_by_tv : hive sim :=
  hear [advert "hub" (VInt 100) []; advert "tv" (VInt 300) [(u "remote_face_present", VBool true)]] (node "phone" 200 gib [u "hub"; u "tv"]).
Definition tv : hive sim := hear [advert "hub" (VInt 100) []; advert "phone" (VInt 200) []] (node "tv" 300 gib [u "hub"; u "phone"]).

(** Words the hub delegates can get lost on the way: the device told to
    speak routes them once more, to the device it finds closest, and reports
    them delegated; that device refuses, because the sender is not the primary,
    and nobody has spoken. *)
Theorem delegated_words_get_lost :
  let p := received (u "hub") DELEGATE_TOPIC (VDict (say "Dinner.")) phone_by_tv in
  let t := deliver "phone" (frames_for "tv" p) tv in
  leader phone_by_tv = Some (u "hub") ∧ leader tv = Some (u "hub") ∧
  (∃ d, frames_for "hub" p = [(DELEGATE_RESULT_TOPIC, d)] ∧ dict_get (u "status") VNone d = VStr (u "delegated")) ∧
  (∃ d, frames_for "phone" t = [(DELEGATE_RESULT_TOPIC, d)] ∧ dict_get (u "status") VNone d = VStr (u "refused")) ∧
  s_spoken (h_world p) = [] ∧ s_spoken (h_world t) = [].
Proof. vm_compute. split_and!; try done; eexists; by split. Qed.

(** A typed question, with the answer at hand. *)
Definition answer_alone (h : hive sim) : hive sim * res bool :=
  handle_typed_input (λ _ t, ok ← forward_turn id t [] (u "It is noon.") []; if ok : bool then mret tt else speak_direct (u "It is noon.") ;; mret tt)
    (u "what time is it") [] h.
(** A silent leader costs a pause, not silence: a turn forwarded to a
    leader that takes the frame and never answers is answered by the node it
    was taken at, although it follows; and when the turn is over the node is
    quiet again. *)
Theorem silent_leader_is_survived :
  let '(h, r) := answer_alone (flushed phone) in
  r = Ok true ∧ s_spoken (h_world h) = [u "It is noon."] ∧ h_fallback h = false ∧
  (execute_speak hello h).2 = Ok (follower_refusal (ticked h)).
Proof. vm_compute. by split_and!. Qed.

(** A dead leader is never replaced: the phone hears the hub once; three
    days of heartbeats later the hub is still its leader and its own speech is
    still refused. *)
Theorem dead_leader_is_never_replaced :
  let days := foldl (λ h w, beat_at w h) phone (day <$> [1; 2; 3]) in
  leader days = Some (u "hub") ∧ (execute_speak hello days).2 = Ok (follower_refusal (ticked days)).
Proof. vm_compute. by split_and!. Qed.
