(* ===== verification/Semantic.v ===== *)
(** * Tier 2, the semantic store ([src/memory_system.py], [SemanticMemory])

    The SQLite tables as lists in row order, one definition per method: the
    bag-of-words embedding, the entity patterns and links, storing, ranked
    search with reinforcement, decay, pruning, the export used by the memory
    mesh and the bounded relation walk.

    The class is driven through one connection under a lock, so each method
    is one atomic step.  Timestamps are the ISO strings the code stores; the
    arithmetic on them ([datetime]), the digest and the power function are
    parameters.  A NaN salience, which SQLite would store as NULL, is outside
    the model: every caller passes a constant or a clamped number. *)

From Stdlib Require Import Floats.SpecFloat Sorted.
From S2P Require Import Prelude PyFloat PyStr PyVal Security.

Local Open Scope Z_scope.

(** ** The tables *)

Record fact := Fact {
  f_id : Z;
  f_content : pystr;
  f_kind : pystr;
  f_salience : f64;
  f_access : Z;
  f_created : pystr;
  f_last : pystr;
  f_embed : list f64;
  f_meta : list (pystr * pyval)
}.

Record entity := Entity {
  e_id : Z;
  e_name : pystr;
  e_mentions : Z;
  e_created : pystr
}.

(** The three tables with the next AUTOINCREMENT ids. *)
Record store := Store {
  dimension : Z;
  facts : list fact;
  next_fact : Z;
  entities : list entity;
  next_entity : Z;
  links : list (Z * Z)
}.

(** [SemanticMemory.__init__] on a new database. *)
Definition new_store (dim : Z) : store := Store (Z.max 16 dim) [] 1 [] 1 [].

Definition with_facts (l : list fact) (s : store) : store :=
  Store (dimension s) l (next_fact s) (entities s) (next_entity s) (links s).

Definition with_salience (x : f64) (f : fact) : fact :=
  Fact (f_id f) (f_content f) (f_kind f) x (f_access f) (f_created f) (f_last f)
    (f_embed f) (f_meta f).

(** ** Embeddings *)

(** [re.findall(r"[a-z0-9]+", text.lower())]. *)
Definition tokenize (text : pystr) : list pystr :=
  runs_go (λ c, is_lower c || is_digit c) [] (lower text).

(** The built-in [sum] of floats. *)
Definition fsum (l : list f64) : f64 := foldl fadd f0 l.

Section Embedding.
(** The digest of a token as an integer. *)
Context (sha256_int : pystr → Z).

(** One token's contribution to the vector. *)
Definition add_token (dim : Z) (v : list f64) (token : pystr) : list f64 :=
let digest := sha256_int token in
let sign := if Z.testbit digest 128 then f1 else fneg f1 in
alter (λ x, fadd x sign) (Z.to_nat (digest mod dim)) v.

Definition embed (dim : Z) (text : pystr) : list f64 :=
let vector := foldl (add_token dim) (replicate (Z.to_nat dim) f0) (tokenize text) in
let norm := fsqrt (fsum ((λ v, fmul v v) <$> vector)) in
if fltb f0 norm then (λ v, fdiv v norm) <$> vector else vector.
End Embedding.

Definition cosine (a b : list f64) : f64 := fsum (zip_with fmul a b).

(** ** Entity candidates *)

Section Entities.
(** Word characters beyond ASCII, and [str.lower] (Unicode database). *)
Context (word_beyond : N → bool) (str_lower : pystr → pystr).

Definition is_alnum (c : N) : bool := is_lower c || is_upper c || is_digit c.

(** [\b] between the character before and a word character. *)
Definition at_word_start (prev : option N) : bool :=
match prev with Some c => negb (word_char word_beyond c) | None => true end.

Definition strip_prefix (p s : pystr) : option pystr :=
if starts_with p s then Some (drop (length p) s) else None.

(** [https?://([A-Za-z0-9.-]+)]. *)
Definition url_match (prev : option N) (s : pystr) : option (pystr * nat) :=
let host (k : nat) (rest : pystr) :=
match (span (λ c, is_alnum c || (c =? 46)%N || (c =? 45)%N) rest).1 with
| [] => None
| h => Some (h, (k + length h)%nat)
end in
match strip_prefix (u "https://") s with
| Some rest => host 8%nat rest
| None => match strip_prefix (u "http://") s with
        | Some rest => host 7%nat rest
        | None => None
        end
end.

(** [[:=\s]+([A-Za-z0-9._:/-]{2,40})] after [k] separators at the most. *)
Fixpoint model_tail (k : nat) (s : pystr) : option (pystr * nat) :=
match k with
| O => None
| S k' =>
  let g := take 40 (span (λ c, is_alnum c || existsb (N.eqb c) [46; 95; 58; 47; 45]%N)
             (drop k s)).1 in
  if (2 <=? length g)%nat then Some (g, (k + length g)%nat) else model_tail k' s
end.

(** [\bmodel[:=\s]+([A-Za-z0-9._:/-]{2,40})]. *)
Definition model_match (prev : option N) (s : pystr) : option (pystr * nat) :=
if negb (at_word_start prev) then None else
match strip_prefix (u "model") s with
| Some rest =>
  let seps := (span (λ c, (c =? 58)%N || (c =? 61)%N || is_space c) rest).1 in
  match model_tail (length seps) rest with
  | Some (g, n) => Some (g, (5 + n)%nat)
  | None => None
  end
| None => None
end.

Fixpoint take_nonempty (l : list pystr) : list pystr :=
match l with
| (_ :: _) as x :: l' => x :: take_nonempty l'
| _ => []
end.

(** [\b([a-z][a-z0-9]*(?:_[a-z0-9]+)+)]. *)
Definition snake_match (prev : option N) (s : pystr) : option (pystr * nat) :=
if negb (at_word_start prev) then None else
match split_on 95%N (span (λ c, is_lower c || is_digit c || (c =? 95)%N) s).1 with
| (c :: w) :: segs =>
  match take_nonempty segs with
  | [] => None
  | segs' => if is_lower c then
               let g := join [95%N] ((c :: w) :: segs') in Some (g, length g)
             else None
  end
| _ => None
end.

(** [\b([a-z0-9](?:[a-z0-9-]*[a-z0-9])?\.[a-z]{2,63})]. *)
Definition domain_match (prev : option N) (s : pystr) : option (pystr * nat) :=
if negb (at_word_start prev) then None else
let '(label, rest) := span (λ c, is_lower c || is_digit c || (c =? 45)%N) s in
match head label, last label, rest with
| Some a, Some b, 46%N :: rest' =>
  let tld := take 63 (span is_lower rest').1 in
  if negb (a =? 45)%N && negb (b =? 45)%N && (2 <=? length tld)%nat then
    let g := label ++ [46%N] ++ tld in Some (g, length g)
  else None
| _, _, _ => None
end.

(** One capitalised unit [[A-Z][a-zA-Z0-9]+] and the rest. *)
Definition proper_unit (s : pystr) : option (pystr * pystr) :=
match s with
| c :: s' =>
  if is_upper c then
    match span is_alnum s' with
    | ([], _) => None
    | (w, rest) => Some (c :: w, rest)
    end
  else None
| [] => None
end.

(** Up to [k] further units, each after white space. *)
Fixpoint proper_units (k : nat) (s : pystr) : list (pystr * pystr) :=
match k with
| O => []
| S k' =>
  match span is_space s with
  | ([], _) => []
  | (sp, s') => match proper_unit s' with
                | Some (w, rest) => (sp ++ w, rest) :: proper_units k' rest
                | None => []
                end
  end
end.

(** The last unit goes when a word character follows it. *)
Definition at_word_end (rest : pystr) : bool :=
match rest with c :: _ => negb (word_char word_beyond c) | [] => true end.

(** [\b([A-Z][a-zA-Z0-9]+(?:\s+[A-Z][a-zA-Z0-9]+){0,3})\b]. *)
Definition proper_match (prev : option N) (s : pystr) : option (pystr * nat) :=
if negb (at_word_start prev) then None else
match proper_unit s with
| None => None
| Some (w, rest) =>
  let units := proper_units 3 rest in
  let kept := match last units with
              | Some (_, r) => if at_word_end r then Some units else Some (removelast units)
              | None => if at_word_end rest then Some [] else None
              end in
  match kept with
  | Some us => let g := w ++ concat us.*1 in Some (g, length g)
  | None => None
  end
end.

Definition entity_patterns : list (option N → pystr → option (pystr * nat)) :=
[url_match; model_match; snake_match; domain_match; proper_match].

Definition entity_stopwords : list pystr :=
[u "the"; u "this"; u "that"; u "event"; u "summary"; u "task"; u "failure"; u "success";
 u "error"; u "pattern"; u "update"; u "critical"].

(** The loop over the matches, with its early return. *)
Fixpoint collect_names (limit : Z) (seen : list pystr) (groups : list pystr) : list pystr :=
match groups with
| [] => seen
| g :: rest =>
  let name := str_lower (strip (sanitize_text g 64)) in
  if (length name <? 3)%nat || bool_decide (name ∈ seen)
     || bool_decide (name ∈ entity_stopwords)
  then collect_names limit seen rest
  else
    let names := seen ++ [name] in
    if limit <=? Z.of_nat (length names) then names else collect_names limit names rest
end.

Definition extract_entities (text : pystr) (limit : Z) : list pystr :=
collect_names limit [] (entity_patterns ≫= λ m, finditer m 0 None text).

Definition find_entity (name : pystr) (s : store) : option entity :=
List.find (λ e, bool_decide (e_name e = name)) (entities s).

Definition bump_entity (id : Z) (e : entity) : entity :=
if e_id e =? id then Entity (e_id e) (e_name e) (e_mentions e + 1) (e_created e) else e.

(** Find or create the entity, then link it to the fact (once). *)
Definition link_name (fact_id : Z) (now : pystr) (s : store) (name : pystr) : store :=
let '(s1, id) :=
match find_entity name s with
| Some e => (Store (dimension s) (facts s) (next_fact s)
               (bump_entity (e_id e) <$> entities s) (next_entity s) (links s), e_id e)
| None => (Store (dimension s) (facts s) (next_fact s)
             (entities s ++ [Entity (next_entity s) name 1 now])
             (next_entity s + 1) (links s), next_entity s)
end in
Store (dimension s1) (facts s1) (next_fact s1) (entities s1) (next_entity s1)
(if bool_decide ((fact_id, id) ∈ links s1) then links s1
 else links s1 ++ [(fact_id, id)]).

(** [_link_entities]. *)
Definition link_content (fact_id : Z) (content now : pystr) (s : store) : store :=
foldl (link_name fact_id now) s (extract_entities content 8).

(** [link_entities]: the store and the number of link operations. *)
Definition link_entities (fact_id : Z) (names : list pystr) (now : pystr) (s : store) :
store * Z :=
foldl (λ '(s, n) raw,
       let name := str_lower (strip (sanitize_text raw 64)) in
       if (length name <? 2)%nat then (s, n) else (link_name fact_id now s name, n + 1))
(s, 0) names.

(** ** Storing *)

Context (sha256_int : pystr → Z).

Definition kind_or_fact (kind : pystr) : pystr :=
match sanitize_text kind 32 with [] => u "fact" | k => k end.

(** [store_fact]: the store and the id of the new row. *)
Definition store_fact (content kind : pystr) (salience : f64)
(metadata : list (pystr * pyval)) (now : pystr) (s : store) : store * Z :=
let content := sanitize_text content 2000 in
let id := next_fact s in
let row := Fact id content (kind_or_fact kind) salience 0 now now
           (embed sha256_int (dimension s) content) metadata in
let s1 := Store (dimension s) (facts s ++ [row]) (id + 1) (entities s) (next_entity s)
          (links s) in
(link_content id content now s1, id).
End Entities.

(** ** Forgetting *)

(** [reinforce] of one row. *)
Definition reinforced (boost cap : f64) (now : pystr) (f : fact) : fact :=
  Fact (f_id f) (f_content f) (f_kind f) (fmin cap (fadd (f_salience f) boost))
    (f_access f + 1) (f_created f) now (f_embed f) (f_meta f).

Definition reinforce (id : Z) (boost cap : f64) (now : pystr) (s : store) : store :=
  with_facts ((λ f, if f_id f =? id then reinforced boost cap now f else f) <$> facts s) s.

Section Decay.
(** [(now - fromisoformat(t)).total_seconds() / 3600.0], when the stamp
parses, and the [**] operator on floats. *)
Context (hours_since : pystr → option f64) (fpow : f64 → f64 → f64).

(** The loop body of [decay]: the row and whether it counts as decayed. *)
Definition decay_row (half_life : f64) (f : fact) : fact * bool :=
match hours_since (f_last f) with
| None => (f, false)
| Some h =>
  let hours := fmax f0 h in
  if fleb hours f0 then (f, false)
  else
    let new := fmul (f_salience f) (fpow (f_dec 5 1) (fdiv hours half_life)) in
    let diff := fsub new (f_salience f) in
    if fltb (f_dec 1 9) (SFabs diff) then (with_salience new f, true) else (f, false)
end.

(** [decay]: the store and the number of rows decayed. *)
Definition decay (half_life_hours : f64) (s : store) : store * Z :=
let half_life := if fleb half_life_hours f0 then f_dec 1 9 else half_life_hours in
let rows := decay_row half_life <$> facts s in
(with_facts rows.*1 s, Z.of_nat (length (List.filter snd rows))).
End Decay.

(** [prune]: the store and the number of rows deleted. *)
Definition prune (min_salience : f64) (s : store) : store * Z :=
  let kept := List.filter (λ f, negb (fltb (f_salience f) min_salience)) (facts s) in
  (with_facts kept s, Z.of_nat (length (facts s)) - Z.of_nat (length kept)).

(** ** Queries *)

Definition get_fact (id : Z) (s : store) : option fact :=
  List.find (λ f, f_id f =? id) (facts s).

Definition facts_by_kind (kind : pystr) (s : store) : list fact :=
  rev (List.filter (λ f, bool_decide (f_kind f = kind)) (facts s)).

Definition count (s : store) : Z := Z.of_nat (length (facts s)).

(** [content_exists]. *)
Definition content_exists (content : pystr) (s : store) : bool :=
  let text := sanitize_text content 2000 in
  existsb (λ f, bool_decide (f_content f = text)) (facts s).

(** [ORDER BY salience DESC, id DESC]. *)
Definition salience_first (f g : fact) : bool :=
  fltb (f_salience g) (f_salience f)
  || feqb (f_salience f) (f_salience g) && (f_id g <=? f_id f).

Definition clip {A} (n : Z) (l : list A) : list A := take (Z.to_nat n) l.

(** [facts_about]. *)
Definition facts_about (str_lower : pystr → pystr) (entity_name : pystr) (limit : Z)
    (s : store) : list fact :=
  let name := str_lower (sanitize_text entity_name 64) in
  let linked (f : fact) :=
    existsb (λ fe, (fe.1 =? f_id f)
                   && existsb (λ e, (e_id e =? fe.2) && bool_decide (e_name e = name))
                        (entities s)) (links s) in
  clip (Z.max 1 limit) (sort_by salience_first (List.filter linked (facts s))).

(** [ORDER BY created_at ASC, id ASC]. *)
Definition oldest_first (f g : fact) : bool :=
  if bool_decide (f_created f = f_created g) then f_id f <=? f_id g
  else str_leb (f_created f) (f_created g).

(** [created_at > ?]. *)
Definition created_after (w : pystr) (f : fact) : bool := negb (str_leb (f_created f) w).

(** [facts_since]: an empty stamp counts as none. *)
Definition facts_since (since : option pystr) (limit : Z) (s : store) : list fact :=
  let rows := match since with
              | Some (c :: w) => List.filter (created_after (c :: w)) (facts s)
              | _ => facts s
              end in
  clip (Z.max 1 (Z.min limit 1000)) (sort_by oldest_first rows).

(** [candidates_for_promotion]; the rows SQLite leaves unordered (equal
    salience and access count) come in table order. *)
Definition candidates_for_promotion (min_salience : f64) (min_access limit : Z) (s : store) :
    list fact :=
  let p f := fleb min_salience (f_salience f) && (min_access <=? f_access f) in
  let before f g := fltb (f_salience g) (f_salience f)
                    || feqb (f_salience f) (f_salience g) && (f_access g <=? f_access f) in
  clip (Z.max 0 limit) (sort_by before (List.filter p (facts s))).

(** *** Ranked search *)

Section Search.
Context (sha256_int : pystr → Z).

(** The rows that match, with their similarity, in table order. *)
Definition scored (query : pystr) (min_salience : f64) (s : store) : list (f64 * fact) :=
let q := embed sha256_int (dimension s) query in
omap (λ f, if fltb (f_salience f) min_salience then None
         else let sim := cosine q (f_embed f) in
              if fltb f0 sim then Some (sim, f) else None) (facts s).

(** [sort(key=similarity, reverse=True)]: stable, most similar first. *)
Definition more_similar (a b : f64 * fact) : bool := fleb b.1 a.1.

Definition search_hits (query : pystr) (top_k : Z) (min_salience : f64) (s : store) :
list (f64 * fact) :=
clip (Z.max 0 top_k) (sort_by more_similar (scored query min_salience s)).

(** [search]: the hits as they were read, and the store after each was
reinforced. *)
Definition search (query : pystr) (top_k : Z) (min_salience : f64) (reinforcing : bool)
(now : pystr) (s : store) : store * list (f64 * fact) :=
let hits := search_hits query top_k min_salience s in
(if reinforcing
 then foldl (λ s h, reinforce (f_id h.2) (f_dec 25 2) (f_of_Z 10) now s) s hits
 else s, hits).
End Search.

(** *** Provenance counters *)

Section Shared.
(** [json.dumps] of the metadata. *)
Context (dumps : pyval → pystr).

(** SQLite's [LIKE]: [%] is any text, [_] any character, and ASCII letters
match in either case. *)
Definition ascii_fold (c : N) : N := if is_upper c then (c + 32)%N else c.

Fixpoint like (p s : pystr) : bool :=
match p with
| [] => match s with [] => true | _ => false end
| c :: p' =>
  if (c =? 37)%N then
    (fix any (s : pystr) : bool :=
       like p' s || match s with [] => false | _ :: s' => any s' end) s
  else match s with
       | d :: s' => ((c =? 95)%N || (ascii_fold c =? ascii_fold d)%N) && like p' s'
       | [] => false
       end
end.

(** A quoted JSON name. *)
Definition quoted (s : pystr) : pystr := [34%N] ++ s ++ [34%N].

Definition shared_pattern (source : option pystr) : pystr :=
match source with
| Some (c :: src) =>
  u "%" ++ quoted (u "shared_from") ++ u ": " ++ quoted (sanitize_text (c :: src) 64) ++ u "%"
| _ => u "%" ++ quoted (u "shared_from") ++ u "%"
end.

(** [count_shared]. *)
Definition count_shared (source : option pystr) (s : store) : Z :=
Z.of_nat (length (List.filter (λ f, like (shared_pattern source) (dumps (VDict (f_meta f))))
                  (facts s))).

Definition bump_count (counts : list (pystr * Z)) (key : pystr) : list (pystr * Z) :=
dset key (default 0 (dget key counts) + 1) counts.

(** [shared_sources]: peers by their number of facts. *)
Definition shared_sources `{PyRepr} (s : store) : list (pystr * Z) :=
let rows := take 2000 (List.filter (λ f, like (shared_pattern None) (dumps (VDict (f_meta f))))
                       (facts s)) in
let keys := omap (λ f, let src := dict_get (u "shared_from") VNone (f_meta f) in
                     if truthy src then Some (take 64 (py_str src)) else None) rows in
take 16 (sort_by (λ a b, b.2 <=? a.2) (foldl bump_count [] keys)).
End Shared.

(** *** The relation walk *)

Record node := Node {
  n_id : Z;
  n_name : pystr;
  n_mentions : Z;
  n_hops : Z
}.

Record walk := Walk {
  w_nodes : list node;
  w_edges : list (pystr * pystr * Z)
}.

Section Walk.
(** The rows of the co-occurrence query for a name, at most so many: which
fact stands for a pair and the order of equal counts are SQLite's. *)
Context (peers : store → pystr → Z → list (Z * pystr * Z * Z)) (limit : Z) (s : store).

Definition seen_node (id : Z) (w : walk) : bool := existsb (λ n, n_id n =? id) (w_nodes w).
Definition full (w : walk) : bool := limit <=? Z.of_nat (length (w_nodes w)).

Definition add_node (n : node) (w : walk) : walk :=
if seen_node (n_id n) w then w else Walk (w_nodes w ++ [n]) (w_edges w).

Definition add_edge (k : pystr * pystr * Z) (w : walk) : walk :=
if bool_decide (k ∈ w_edges w) then w else Walk (w_nodes w) (w_edges w ++ [k]).

(** The loop over one entity's peers: the walk and the names to visit next. *)
Fixpoint walk_peers (current : pystr) (hops max_depth : Z)
(rows : list (Z * pystr * Z * Z)) (w : walk) (next : list pystr) : walk * list pystr :=
match rows with
| [] => (w, next)
| (pid, pname, pmentions, via) :: rows' =>
let w := add_edge (current, pname, via) w in
if full w then (w, next)
else if seen_node pid w then walk_peers current hops max_depth rows' w next
else walk_peers current hops max_depth rows'
       (add_node (Node pid pname pmentions (hops + 1)) w)
       (if hops + 1 <? max_depth then next ++ [pname] else next)
end.

(** The loop over the frontier. *)
Fixpoint walk_frontier (hops max_depth : Z) (frontier : list pystr) (w : walk)
(next : list pystr) : walk * list pystr :=
match frontier with
| [] => (w, next)
| current :: frontier' =>
if full w then (w, next)
else match find_entity current s with
     | None => walk_frontier hops max_depth frontier' w next
     | Some e =>
         let w := add_node (Node (e_id e) current (e_mentions e) hops) w in
         let peer_limit := Z.max 1 (limit - Z.of_nat (length (w_nodes w))) in
         let '(w, next) := walk_peers current hops max_depth
                             (peers s current peer_limit) w next in
         walk_frontier hops max_depth frontier' w next
     end
end.

(** The loop over the hops; [None] when the fuel runs out. *)
Fixpoint walk_hops (fuel : nat) (hops max_depth : Z) (frontier : list pystr) (w : walk) :
option walk :=
match frontier with
| [] => Some w
| _ =>
if (max_depth <? hops) || full w then Some w
else match fuel with
   | O => None
   | S fuel' =>
       let '(w, next) := walk_frontier hops max_depth frontier w [] in
       walk_hops fuel' (hops + 1) max_depth next w
   end
end.

(** [query_subgraph], with one unit of fuel per hop. *)
Definition query_subgraph (str_lower : pystr → pystr) (entity_name : pystr) (depth : Z) :
option walk :=
let max_depth := Z.max 1 depth in
walk_hops (Z.to_nat (max_depth + 1)) 0 max_depth [str_lower (sanitize_text entity_name 64)]
(Walk [] []).
End Walk.

(** ** Examples *)

Definition demo_digest (t : pystr) : Z := Z.of_N (foldl (λ a c, (31 * a + c)%N) 7%N t).
Definition no_word : N → bool := λ _, false.

Example extract_demo :
  extract_entities no_word lower
    (u "Model: see https://api.example.com/v1, model=qwen-2 for billing_service by Ada Lovelace_x")
    8
  = [u "api.example.com"; u "qwen-2"; u "billing_service"; u "api.example"; u "model"; u "ada"].
Proof. vm_compute. reflexivity. Qed.

(** ** The store's invariant

    Row ids are unique and below the next id in both tables, entity names are
    unique, and a link is stored once and points at an entity. *)

Record store_ok (s : store) : Prop := {
  ok_fact_ids : NoDup (f_id <$> facts s);
  ok_fact_fresh : ∀ f, f ∈ facts s → f_id f < next_fact s;
  ok_entity_names : NoDup (e_name <$> entities s);
  ok_entity_ids : NoDup (e_id <$> entities s);
  ok_entity_fresh : ∀ e, e ∈ entities s → e_id e < next_entity s;
  ok_links : NoDup (links s);
  ok_link_entity : ∀ fe, fe ∈ links s → fe.2 ∈ e_id <$> entities s
}.

Lemma new_store_ok dim : store_ok (new_store dim).
Proof. split; simpl; try constructor; set_solver. Qed.

(** Rewriting rows in place keeps the ids. *)
Lemma with_facts_map_ok (g : fact → fact) s :
  (∀ f, f_id (g f) = f_id f) → store_ok s → store_ok (with_facts (g <$> facts s) s).
Proof.
  intros Hg []. split; simpl; try done.
  - rewrite <- list_fmap_compose.
    by rewrite (list_fmap_ext (f_id ∘ g) f_id (facts s)) by (intros; simpl; apply Hg).
  - intros f (f' & -> & Hf)%list_elem_of_fmap. rewrite Hg. auto.
Qed.

Lemma with_facts_filter_ok (p : fact → bool) s :
  store_ok s → store_ok (with_facts (List.filter p (facts s)) s).
Proof.
  intros []. split; simpl; try done.
  - apply (sublist_NoDup _ _ ok_fact_ids0), fmap_sublist, filter_sublist.
  - intros f Hf. apply ok_fact_fresh0. apply list_elem_of_In, List.filter_In in Hf as [Hf _].
    by apply list_elem_of_In.
Qed.

Lemma find_entity_Some name s e :
  find_entity name s = Some e → e ∈ entities s ∧ e_name e = name.
Proof.
  intros [H1 H2]%List.find_some. apply list_elem_of_In in H1.
  by apply bool_decide_eq_true in H2.
Qed.

Lemma find_entity_None name s :
  find_entity name s = None → name ∉ e_name <$> entities s.
Proof.
  intros H (e & -> & He)%list_elem_of_fmap.
  apply list_elem_of_In in He. pose proof (List.find_none _ _ H e He) as Hf. simpl in Hf.
  by rewrite bool_decide_eq_true_2 in Hf.
Qed.

Lemma bump_entities_map {B} (h : entity → B) id (l : list entity) :
  (∀ e, h (bump_entity id e) = h e) → h <$> (bump_entity id <$> l) = h <$> l.
Proof. intros Hh. rewrite <- list_fmap_compose. apply list_fmap_ext. intros; apply Hh. Qed.

Lemma bump_entity_id id e : e_id (bump_entity id e) = e_id e.
Proof. unfold bump_entity. by case_match. Qed.
Lemma bump_entity_name id e : e_name (bump_entity id e) = e_name e.
Proof. unfold bump_entity. by case_match. Qed.

Lemma NoDup_snoc {A} (x : A) l : NoDup l → x ∉ l → NoDup (l ++ [x]).
Proof.
  intros. apply NoDup_app. split_and!; [done| |apply NoDup_singleton].
  intros y Hy ->%list_elem_of_singleton. done.
Qed.

Lemma link_add_ok {A} `{EqDecision A} (x : A) l :
  NoDup l → NoDup (if bool_decide (x ∈ l) then l else l ++ [x]).
Proof. intros. case_bool_decide; [done|by apply NoDup_snoc]. Qed.

Lemma link_name_ok fid now s name : store_ok s → store_ok (link_name fid now s name).
Proof.
  intros []. unfold link_name. destruct (find_entity name s) as [e|] eqn:E; simpl.
  - apply find_entity_Some in E as [He Hn].
    split; simpl; rewrite ?bump_entities_map by (intros; apply bump_entity_id || apply bump_entity_name);
      try done; try by apply link_add_ok.
    + intros e' (e0 & -> & He0)%list_elem_of_fmap. rewrite bump_entity_id. auto.
    + intros fe Hfe. case_bool_decide; [auto|].
      apply elem_of_app in Hfe as [Hfe| ->%list_elem_of_singleton]; [auto|]. simpl.
      apply list_elem_of_fmap. eauto.
  - apply find_entity_None in E.
    split; simpl; rewrite ?fmap_app; try done; try by apply link_add_ok.
    + by apply NoDup_snoc.
    + apply NoDup_snoc; [done|]. simpl. intros (e & Hid & He)%list_elem_of_fmap.
      apply ok_entity_fresh0 in He. lia.
    + intros e [He| ->%list_elem_of_singleton]%elem_of_app; simpl; [|lia].
      apply ok_entity_fresh0 in He. lia.
    + intros fe Hfe. apply elem_of_app.
      case_bool_decide; [left; auto|].
      apply elem_of_app in Hfe as [Hfe| ->%list_elem_of_singleton]; [left; auto|].
      right. simpl. set_solver.
Qed.

Lemma link_content_ok wb sl fid content now s :
  store_ok s → store_ok (link_content wb sl fid content now s).
Proof.
  unfold link_content. generalize (extract_entities wb sl content 8) as l. intros l.
  revert s. induction l as [|n l IH]; simpl; [done|]. intros s Hs.
  by apply IH, link_name_ok.
Qed.

Lemma link_content_facts wb sl fid content now s :
  facts (link_content wb sl fid content now s) = facts s
  ∧ next_fact (link_content wb sl fid content now s) = next_fact s.
Proof.
  unfold link_content. generalize (extract_entities wb sl content 8) as l. intros l.
  revert s. induction l as [|n l IH]; simpl; [done|]. intros s.
  destruct (IH (link_name fid now s n)) as [-> ->].
  unfold link_name. by destruct (find_entity n s).
Qed.

Lemma store_fact_ok wb sl dg c k sal m now s :
  store_ok s → store_ok (store_fact wb sl dg c k sal m now s).1.
Proof.
  intros []. unfold store_fact. simpl. apply link_content_ok. split; simpl; try done.
  - rewrite fmap_app. apply NoDup_snoc; [done|]. simpl.
    intros (f & Hid & Hf)%list_elem_of_fmap. apply ok_fact_fresh0 in Hf. lia.
  - intros f [Hf| ->%list_elem_of_singleton]%elem_of_app; simpl; [|lia].
    apply ok_fact_fresh0 in Hf. lia.
Qed.

Lemma link_entities_ok sl fid names now s :
  store_ok s → store_ok (link_entities sl fid names now s).1.
Proof.
  unfold link_entities. generalize 0 as n. revert s. induction names as [|x l IH]; simpl; [done|].
  intros s n Hs. case_match; [by apply IH|]. by apply IH, link_name_ok.
Qed.

Lemma reinforce_ok id b c now s : store_ok s → store_ok (reinforce id b c now s).
Proof. apply with_facts_map_ok. intros f. by case_match. Qed.

Lemma decay_row_id hs pw hl f : f_id (decay_row hs pw hl f).1 = f_id f.
Proof. unfold decay_row. by repeat case_match. Qed.

Lemma decay_ok hs pw hl s : store_ok s → store_ok (decay hs pw hl s).1.
Proof.
  unfold decay. simpl. rewrite <- list_fmap_compose. apply with_facts_map_ok.
  intros f. apply decay_row_id.
Qed.

Lemma prune_ok m s : store_ok s → store_ok (prune m s).1.
Proof. apply with_facts_filter_ok. Qed.

Lemma reinforce_all_ok b c now hits s :
  store_ok s → store_ok (foldl (λ s (h : f64 * fact), reinforce (f_id h.2) b c now s) s hits).
Proof.
  revert s. induction hits as [|h l IH]; simpl; [done|]. intros s Hs.
  by apply IH, reinforce_ok.
Qed.

#[export] Hint Resolve new_store_ok store_fact_ok link_entities_ok reinforce_ok decay_ok
  prune_ok reinforce_all_ok : shugo.

(** ** Search *)

(** [more_similar] made total: not-a-number last. *)
Definition more_similar_total (a b : f64 * fact) : bool :=
  if f_is_nan b.1 then true else if f_is_nan a.1 then false else fleb b.1 a.1.

Lemma more_similar_total_total a b :
  more_similar_total a b = true ∨ more_similar_total b a = true.
Proof.
  unfold more_similar_total. destruct (f_is_nan a.1) eqn:Ea, (f_is_nan b.1) eqn:Eb; auto.
  destruct (fleb b.1 a.1) eqn:E; [auto|right].
  destruct (fltb a.1 b.1) eqn:E'; [by apply fltb_fleb|].
  by rewrite (fltb_false_fleb a.1 b.1) in E.
Qed.

Lemma more_similar_total_trans a b c :
  more_similar_total a b = true → more_similar_total b c = true →
  more_similar_total a c = true.
Proof.
  unfold more_similar_total. destruct (f_is_nan a.1), (f_is_nan b.1), (f_is_nan c.1); try done.
  intros. by apply (fleb_trans c.1 b.1 a.1).
Qed.

Section SearchFacts.
Context (dg : pystr → Z).

Lemma scored_elem query m s h :
h ∈ scored dg query m s ↔
h.2 ∈ facts s ∧ fltb (f_salience h.2) m = false ∧ fltb f0 h.1 = true ∧
h.1 = cosine (embed dg (dimension s) query) (f_embed h.2).
Proof.
unfold scored. rewrite list_elem_of_omap. destruct h as [sim f]; simpl. split.
- intros (f' & Hf & E). destruct (fltb (f_salience f') m) eqn:Em; [done|].
destruct (fltb f0 _) eqn:Es in E; [|done]. injection E as <- <-. auto.
- intros (Hf & Hm & Hs & ->). exists f. split; [done|]. by rewrite Hm, Hs.
Qed.

Lemma scored_sublist query m s : sublist (scored dg query m s).*2 (facts s).
Proof.
unfold scored. induction (facts s) as [|f l IH]; simpl; [constructor|].
destruct (fltb (f_salience f) m); [by constructor|].
destruct (fltb f0 _); simpl; by constructor.
Qed.

Lemma sorted_scored query m s :
sort_by more_similar (scored dg query m s) = sort_by more_similar_total (scored dg query m s).
Proof.
apply sort_by_ext. intros x y (_ & _ & Hx & _)%scored_elem (_ & _ & Hy & _)%scored_elem.
apply fltb_not_nan in Hx as [_ Hx], Hy as [_ Hy].
unfold more_similar_total, more_similar. by rewrite Hx, Hy.
Qed.

Lemma search_hits_elem query k m s h :
h ∈ search_hits dg query k m s → h ∈ scored dg query m s.
Proof.
unfold search_hits, clip. intros Hh. apply (elem_sort_by more_similar).
rewrite <- (take_drop (Z.to_nat (Z.max 0 k)) (sort_by _ _)). apply elem_of_app. by left.
Qed.

Lemma search_hits_ids query k m s :
store_ok s → NoDup (f_id <$> (search_hits dg query k m s).*2).
Proof.
intros Hok. unfold search_hits, clip.
assert (NoDup (f_id <$> (sort_by more_similar (scored dg query m s)).*2)) as Hn.
{ rewrite (sort_by_perm more_similar (scored dg query m s)).
apply (sublist_NoDup _ _ (ok_fact_ids _ Hok)), fmap_sublist, scored_sublist. }
eapply (sublist_NoDup _ _ Hn). do 2 apply fmap_sublist. apply sublist_take.
Qed.

(** Reinforcing distinct rows one after the other. *)
Lemma reinforce_all boost cap now (hits : list (f64 * fact)) s :
NoDup (f_id <$> hits.*2) →
facts (foldl (λ s h, reinforce (f_id h.2) boost cap now s) s hits) =
(λ f, if bool_decide (f_id f ∈ f_id <$> hits.*2) then reinforced boost cap now f else f)
<$> facts s.
Proof.
revert s. induction hits as [|h hits IH]; intros s Hn.
- rewrite (list_fmap_ext _ id); [by rewrite list_fmap_id|]. intros i f _.
rewrite bool_decide_eq_false_2; [done|]. set_solver.
- change (f_id <$> (h :: hits).*2) with (f_id h.2 :: (f_id <$> hits.*2)) in *.
apply NoDup_cons in Hn as [Hni Hn]. cbn [foldl]. rewrite IH by done. simpl.
rewrite <- list_fmap_compose. apply list_fmap_ext. intros i f _. simpl.
destruct (Z.eqb_spec (f_id f) (f_id h.2)) as [E|E]; simpl.
+ rewrite E, (bool_decide_eq_false_2 _ Hni), bool_decide_eq_true_2; [done|left].
+ rewrite (bool_decide_ext (f_id f ∈ f_id h.2 :: (f_id <$> hits.*2))
             (f_id f ∈ f_id <$> hits.*2)); [done|].
  rewrite elem_of_cons. naive_solver.
Qed.

(** A search returns at most [top_k] rows, each stored, salient enough
and with its positive cosine similarity, most similar first; a matching
row it leaves out is no more similar than any it returns, and is left out
only when [top_k] are returned. The returned rows, and no others, are
reinforced: salience plus 0.25 up to 10, one more access, and a fresh
access time. *)
Theorem search_ranked query k m now s :
store_ok s →
let '(s', hits) := search dg query k m true now s in
Z.of_nat (length hits) <= Z.max 0 k ∧
StronglySorted (λ a b, more_similar_total a b = true) hits ∧
(∀ h, h ∈ hits → h ∈ scored dg query m s) ∧
(∀ h, h ∈ scored dg query m s → h ∉ hits →
 Z.of_nat (length hits) = Z.max 0 k ∧ ∀ h', h' ∈ hits → fleb h.1 h'.1 = true) ∧
facts s' =
(λ f, if bool_decide (f_id f ∈ f_id <$> hits.*2)
      then reinforced (f_dec 25 2) (f_of_Z 10) now f else f) <$> facts s.
Proof.
intros Hok. unfold search. set (hits := search_hits dg query k m s).
assert (hits = take (Z.to_nat (Z.max 0 k)) (sort_by more_similar_total (scored dg query m s)))
as Eh by (unfold hits, search_hits, clip; by rewrite sorted_scored).
pose proof (sort_by_ordered _ more_similar_total_total more_similar_total_trans
            (scored dg query m s)) as Hso.
split_and!.
- rewrite Eh, length_take. lia.
- rewrite Eh. by apply StronglySorted_take.
- intros h. apply search_hits_elem.
- intros h Hh Hni.
assert (h ∈ drop (Z.to_nat (Z.max 0 k)) (sort_by more_similar_total (scored dg query m s)))
  as Hd.
{ apply (elem_sort_by more_similar_total) in Hh.
  rewrite <- (take_drop (Z.to_nat (Z.max 0 k)) (sort_by _ _)) in Hh.
  apply elem_of_app in Hh as [Hh|Hh]; [|done]. by rewrite <- Eh in Hh. }
split.
+ assert (0 < length (drop (Z.to_nat (Z.max 0 k))
                (sort_by more_similar_total (scored dg query m s))))%nat as Hpos
    by (destruct (drop _ _); [set_solver|simpl; lia]).
  rewrite length_drop in Hpos. rewrite Eh, length_take. lia.
+ intros h' Hh'. rewrite Eh in Hh'.
  pose proof (ordered_take_drop _ _ _ _ _ Hso Hh' Hd) as Hle.
  apply scored_elem in Hh as (_ & _ & Hp & _). apply fltb_not_nan in Hp as [_ Hp].
  unfold more_similar_total in Hle. rewrite Hp in Hle. by destruct (f_is_nan h'.1).
- by apply reinforce_all, search_hits_ids.
Qed.
End SearchFacts.

(** ** Decay *)

Section DecayFacts.
Context (hs : pystr → option f64) (pw : f64 → f64 → f64) (hl : f64).

(** One pass over one salience. *)
Definition decayed_salience (last : pystr) (x : f64) : f64 :=
match hs last with
| None => x
| Some h =>
  if fleb (fmax f0 h) f0 then x
  else let new := fmul x (pw (f_dec 5 1) (fdiv (fmax f0 h) hl)) in
       if fltb (f_dec 1 9) (SFabs (fsub new x)) then new else x
end.

Lemma with_salience_self f : with_salience (f_salience f) f = f.
Proof. by destruct f. Qed.

Lemma decay_row_spec f :
(decay_row hs pw hl f).1 = with_salience (decayed_salience (f_last f) (f_salience f)) f.
Proof.
unfold decay_row, decayed_salience.
by repeat case_match; simpl; rewrite ?with_salience_self.
Qed.

Definition passes (k : nat) (s : store) : store := Nat.iter k (λ s, (decay hs pw hl s).1) s.

Lemma passes_spec k s :
fleb hl f0 = false →
facts (passes k s) =
(λ f, with_salience (Nat.iter k (decayed_salience (f_last f)) (f_salience f)) f) <$> facts s.
Proof.
intros Hl. induction k as [|k IH].
- change (passes 0 s) with s. transitivity (id <$> facts s); [by rewrite list_fmap_id|].
apply list_fmap_ext. intros i f _. simpl. by rewrite with_salience_self.
- change (passes (S k) s) with (decay hs pw hl (passes k s)).1. unfold decay. simpl.
rewrite Hl, IH, <- !list_fmap_compose. apply list_fmap_ext.
intros i f _. simpl. by rewrite decay_row_spec.
Qed.
End DecayFacts.

(** A row of age 72 h loses half its salience in every pass. *)
Lemma decayed_at_half_life hs pw last x :
  hs last = Some (f_of_Z 72) → pw (f_dec 5 1) f1 = f_dec 5 1 →
  decayed_salience hs pw (f_of_Z 72) last x =
  if fltb (f_dec 1 9) (SFabs (fsub (fmul x (f_dec 5 1)) x)) then fmul x (f_dec 5 1) else x.
Proof.
  intros Hh Hp. unfold decayed_salience. rewrite Hh.
  change (fleb (fmax f0 (f_of_Z 72)) f0) with false. cbv iota.
  change (fdiv (fmax f0 (f_of_Z 72)) (f_of_Z 72)) with f1. by rewrite Hp.
Qed.

Lemma NoDup_fmap_inj_on {A B} (h : A → B) l x y :
  NoDup (h <$> l) → x ∈ l → y ∈ l → h x = h y → x = y.
Proof.
  induction l as [|z l IH]; csimpl; [set_solver|]. intros [Hz Hn]%NoDup_cons.
  intros [->|Hx]%elem_of_cons [->|Hy]%elem_of_cons E; auto; destruct Hz;
    apply list_elem_of_fmap; eauto.
Qed.

Lemma prune_elem m s f : f ∈ facts (prune m s).1 ↔ f ∈ facts s ∧ fltb (f_salience f) m = false.
Proof.
  unfold prune. simpl. rewrite list_elem_of_In, List.filter_In, <- list_elem_of_In.
  destruct (fltb (f_salience f) m); naive_solver.
Qed.

(** Decay passes compound: each pass applies the whole decay since the
    last access again, so [k] passes at one instant apply it [k] times and
    change nothing but the salience. A fact of salience 1 that is one
    half-life of 72 hours old, and should have salience 1/2, is down to 1/32
    after five passes of the maintenance worker and pruned by its 0.05 floor. *)
Theorem decay_passes_compound hs pw hl k s :
  fleb hl f0 = false →
  facts (passes hs pw hl k s) =
  (λ f, with_salience (Nat.iter k (decayed_salience hs pw hl (f_last f)) (f_salience f)) f)
    <$> facts s ∧
  (store_ok s → hl = f_of_Z 72 → pw (f_dec 5 1) f1 = f_dec 5 1 →
   ∀ f, f ∈ facts s → f_salience f = f1 → hs (f_last f) = Some (f_of_Z 72) →
   ∀ g, g ∈ facts (prune (f_dec 5 2) (passes hs pw hl 5 s)).1 → f_id g ≠ f_id f).
Proof.
  intros Hl. split; [by apply passes_spec|].
  intros Hok -> Hp f Hf Hs Hh g [Hg Hm]%prune_elem Hid.
  rewrite passes_spec in Hg by done. apply list_elem_of_fmap in Hg as (f' & -> & Hf').
  assert (f' = f) as ->.
  { exact (NoDup_fmap_inj_on f_id _ _ _ (ok_fact_ids _ Hok) Hf' Hf Hid). }
  simpl in Hm. rewrite !(decayed_at_half_life hs pw (f_last f)), Hs in Hm by done.
  by vm_compute in Hm.
Qed.

(** ** Paged export *)

Lemma oldest_first_total f g : oldest_first f g = true ∨ oldest_first g f = true.
Proof.
  unfold oldest_first. destruct (decide (f_created f = f_created g)) as [E|E].
  - rewrite !bool_decide_eq_true_2 by done. lia.
  - rewrite !bool_decide_eq_false_2 by done. apply str_leb_total.
Qed.

Lemma oldest_first_created f g : oldest_first f g = true → str_leb (f_created f) (f_created g) = true.
Proof. unfold oldest_first. case_bool_decide as E; [|done]. rewrite E. intros _. apply str_leb_refl. Qed.

Lemma oldest_first_trans f g h :
  oldest_first f g = true → oldest_first g h = true → oldest_first f h = true.
Proof.
  intros H1 H2. pose proof (oldest_first_created _ _ H1). pose proof (oldest_first_created _ _ H2).
  assert (str_leb (f_created f) (f_created h) = true) by eauto using str_leb_trans.
  unfold oldest_first in *. destruct (decide (f_created f = f_created h)) as [E|E].
  - assert (f_created f = f_created g) as E' by (apply str_leb_antisym; [done|by rewrite E]).
    rewrite bool_decide_eq_true_2 in H1 by done.
    rewrite bool_decide_eq_true_2 in H2 by congruence.
    rewrite bool_decide_eq_true_2 by done. lia.
  - by rewrite bool_decide_eq_false_2.
Qed.

(** Once the export is past a stamp, older and equally old rows are out. *)
Lemma facts_since_newer w n s f :
  w ≠ [] → f ∈ facts_since (Some w) n s → created_after w f = true.
Proof.
  intros Hw Hf. destruct w as [|c w]; [done|]. unfold facts_since, clip in Hf.
  assert (f ∈ sort_by oldest_first (List.filter (created_after (c :: w)) (facts s))) as Hs.
  { rewrite <- (take_drop (Z.to_nat (Z.max 1 (Z.min n 1000))) (sort_by _ _)).
    apply elem_of_app. by left. }
  rewrite elem_sort_by, list_elem_of_In, List.filter_In in Hs. by destruct Hs.
Qed.

(** Among rows no older than [w], those after [w] are a suffix. *)
Lemma newer_suffix w l :
  StronglySorted (λ f g, oldest_first f g = true) l →
  (∀ f, f ∈ l → str_leb w (f_created f) = true) →
  ∃ same, l = same ++ List.filter (created_after w) l ∧
          Forall (λ f, f_created f = w) same.
Proof.
  induction 1 as [|f l Hs IH Hf]; intros Hw; [by exists []|].
  destruct IH as (same & E & Hsame); [intros; apply Hw; by right|]. simpl.
  pose proof (Hw f ltac:(left)) as Hwf. unfold created_after.
  destruct (str_leb (f_created f) w) eqn:Efw; simpl.
  - exists (f :: same). simpl. split; [by f_equal|]. constructor; [|done].
    by apply str_leb_antisym.
  - exists []. split; [|done]. simpl. f_equal.
    assert (Forall (λ g, created_after w g = true) l) as Hall.
    { rewrite Forall_forall in Hf |- *. intros g Hg. apply Hf in Hg.
      apply oldest_first_created in Hg. unfold created_after.
      destruct (str_leb (f_created g) w) eqn:Eg; [|done].
      by rewrite (str_leb_trans _ _ _ Hg Eg) in Efw. }
    clear -Hall. induction Hall as [|g l Hg Hl IH]; simpl; [done|].
    unfold created_after in Hg |- *. rewrite Hg. by f_equal.
Qed.

Lemma filter_none {A} (p : A → bool) l : (∀ x, x ∈ l → p x = false) → List.filter p l = [].
Proof.
  induction l as [|x l IH]; simpl; [done|]. intros H. rewrite (H x) by left.
  apply IH. intros y Hy. apply H. by right.
Qed.

(** Paging by the last [created_at], as the export's documentation says,
    loses facts: with [w] the stamp of the last fact of a full first page, the
    next page starts after every remaining fact of that same second, and no
    export from [w] on ever holds those. *)
Theorem export_page_gap n s last :
  1 <= n <= 1000 → let w := f_created last in w ≠ [] →
  let all := sort_by oldest_first (facts s) in
  list.last (facts_since None n s) = Some last →
  ∃ skipped rest,
    all = facts_since None n s ++ skipped ++ rest ∧
    Forall (λ f, f_created f = w) skipped ∧
    facts_since (Some w) n s = take (Z.to_nat n) rest ∧
    ∀ f w', f ∈ skipped → str_leb w w' = true → w' ≠ [] → f ∉ facts_since (Some w') n s.
Proof.
  intros Hn w Hw all Hl.
  assert (facts_since None n s = take (Z.to_nat n) all) as E1.
  { unfold facts_since, clip. f_equal. lia. }
  assert (facts_since (Some w) n s = take (Z.to_nat n) (List.filter (created_after w) all)) as E2.
  { unfold facts_since, clip, all. destruct w as [|c w']; [done|].
    rewrite (filter_sort_by _ oldest_first_total oldest_first_trans). f_equal. lia. }
  pose proof (sort_by_ordered _ oldest_first_total oldest_first_trans (facts s)) as Hso.
  fold all in Hso. rewrite E1 in Hl.
  assert (last ∈ take (Z.to_nat n) all) as Hlast by by apply last_Some_elem_of.
  assert (∀ f, f ∈ take (Z.to_nat n) all → created_after w f = false) as Hold.
  { intros f Hf. unfold created_after. apply negb_false_iff.
    apply last_Some in Hl as (l' & El). rewrite El in Hf.
    apply elem_of_app in Hf as [Hf| ->%list_elem_of_singleton]; [|apply str_leb_refl].
    apply oldest_first_created.
    apply (StronglySorted_take _ (Z.to_nat n)) in Hso. rewrite El in Hso.
    apply (ordered_take_drop _ (length l') _ _ _ Hso); [by rewrite take_app_length|].
    rewrite drop_app_length. left. }
  destruct (newer_suffix w (drop (Z.to_nat n) all)) as (same & Es & Hsame).
  { rewrite <- (take_drop (Z.to_nat n) all) in Hso. clear -Hso.
    induction (take (Z.to_nat n) all); simpl in *; [done|]. apply StronglySorted_inv in Hso.
    naive_solver. }
  { intros f Hf. apply oldest_first_created. by eapply ordered_take_drop. }
  exists same, (List.filter (created_after w) (drop (Z.to_nat n) all)). split_and!.
  - by rewrite E1, <- Es, take_drop.
  - done.
  - rewrite E2. f_equal. rewrite <- (take_drop (Z.to_nat n) all) at 1.
    by rewrite List.filter_app, filter_none.
  - intros f w' Hf Hww Hw' Hin%facts_since_newer; [|done].
    rewrite Forall_forall in Hsame. apply Hsame in Hf. unfold created_after in Hin.
    by rewrite Hf, Hww in Hin.
Qed.

(** ** The relation walk is bounded *)

Section WalkFacts.
Context (peers : store → pystr → Z → list (Z * pystr * Z * Z)) (limit : Z) (s : store).

Definition walk_ok (max_depth : Z) (w : walk) : Prop :=
Z.of_nat (length (w_nodes w)) <= Z.max 0 limit ∧ NoDup (n_id <$> w_nodes w) ∧
Forall (λ n, 0 <= n_hops n <= max_depth) (w_nodes w).

Lemma seen_node_spec id w : seen_node id w = true ↔ id ∈ n_id <$> w_nodes w.
Proof.
unfold seen_node. rewrite existsb_exists, list_elem_of_fmap. split.
- intros (n & Hn & E). exists n. split; [lia|by apply list_elem_of_In].
- intros (n & -> & Hn). exists n. split; [by apply list_elem_of_In|lia].
Qed.

Lemma add_node_ok md n w :
walk_ok md w → full limit w = false → 0 <= n_hops n <= md → walk_ok md (add_node n w).
Proof.
unfold add_node, full. intros (Hl & Hn & Hh) Hf Hb.
destruct (seen_node (n_id n) w) eqn:E; [done|]. split_and!; simpl.
- rewrite length_app. simpl. lia.
- rewrite fmap_app. apply NoDup_snoc; [done|]. intros H%seen_node_spec. congruence.
- apply Forall_app. auto.
Qed.

Lemma add_edge_ok md k w : walk_ok md w → walk_ok md (add_edge k w).
Proof. unfold add_edge. by case_bool_decide. Qed.

Lemma walk_peers_ok md current hops rows w next :
0 <= hops < md → walk_ok md w → (next ≠ [] → hops + 1 < md) →
walk_ok md (walk_peers limit current hops md rows w next).1 ∧
((walk_peers limit current hops md rows w next).2 ≠ [] → hops + 1 < md).
Proof.
intros Hh. revert w next. induction rows as [|[[[pid pn] pm] via] rows IH]; simpl; [done|].
intros w next Hw Hn. pose proof (add_edge_ok md (current, pn, via) w Hw) as Hw'.
destruct (full limit _) eqn:Ef; [done|]. destruct (seen_node pid _) eqn:Es; [by apply IH|].
apply IH.
- apply add_node_ok; simpl; [done..|lia].
- destruct (Z.ltb_spec (hops + 1) md); [done|exact Hn].
Qed.

Lemma walk_frontier_ok md hops frontier w next :
0 <= hops < md → walk_ok md w → (next ≠ [] → hops + 1 < md) →
walk_ok md (walk_frontier peers limit s hops md frontier w next).1 ∧
((walk_frontier peers limit s hops md frontier w next).2 ≠ [] → hops + 1 < md).
Proof.
intros Hh. revert w next. induction frontier as [|c frontier IH]; simpl; [done|].
intros w next Hw Hn. destruct (full limit w) eqn:Ef; [done|].
destruct (find_entity c s) as [e|]; [|by apply IH].
set (w1 := add_node _ w).
assert (walk_ok md w1) as Hw1 by (apply add_node_ok; simpl; [done..|lia]).
pose proof (walk_peers_ok md c hops
(peers s c (Z.max 1 (limit - Z.of_nat (length (w_nodes w1))))) w1 next Hh Hw1 Hn) as Hp.
destruct (walk_peers _ _ _ _ _ _ _) as [w2 next2]. destruct Hp. by apply IH.
Qed.

Lemma walk_hops_ok md fuel hops frontier w :
0 <= hops → (frontier ≠ [] → hops < md) → md - hops < Z.of_nat fuel → walk_ok md w →
∃ w', walk_hops peers limit s fuel hops md frontier w = Some w' ∧ walk_ok md w'.
Proof.
revert hops frontier w. induction fuel as [|fuel IH]; intros hops frontier w H0 Hf Hfuel Hw.
- destruct frontier as [|c fr]; simpl; [by eexists|].
specialize (Hf ltac:(done)). lia.
- destruct frontier as [|c fr]; [by eexists|]. cbn [walk_hops].
destruct (_ || _); [by eexists|]. specialize (Hf ltac:(done)).
pose proof (walk_frontier_ok md hops (c :: fr) w [] ltac:(lia) Hw ltac:(done)) as Hp.
destruct (walk_frontier _ _ _ _ _ _ _ _) as [w2 next2]. destruct Hp as [Hw2 Hn2].
apply IH; [lia|done|lia|done].
Qed.

(** The relation walk always ends, whatever rows the database answers
with: one round per hop is enough. It returns at most [limit] nodes, each
entity once, none farther than the depth asked for. *)
Theorem walk_bounded (str_lower : pystr → pystr) name depth :
∃ w, query_subgraph peers limit s str_lower name depth = Some w ∧
   Z.of_nat (length (w_nodes w)) <= Z.max 0 limit ∧ NoDup (n_id <$> w_nodes w) ∧
   Forall (λ n, 0 <= n_hops n <= Z.max 1 depth) (w_nodes w).
Proof.
apply walk_hops_ok; [lia|lia|lia|]. split_and!; simpl; [lia|constructor|constructor].
Qed.
End WalkFacts.

(** ** Histories of the store *)

(** The calls that change the store, with what they are given. *)
Inductive store_op : Type :=
  | O_store (content kind : pystr) (salience : f64) (meta : list (pystr * pyval)) (now : pystr)
  | O_link (fact_id : Z) (names : list pystr) (now : pystr)
  | O_search (query : pystr) (top_k : Z) (min_salience : f64) (reinforcing : bool) (now : pystr)
  | O_reinforce (id : Z) (boost cap : f64) (now : pystr)
  | O_decay (hours_since : pystr → option f64) (half_life : f64)
  | O_prune (min_salience : f64).

Section Histories.
Context (word_beyond : N → bool) (str_lower : pystr → pystr) (dg : pystr → Z)
(pw : f64 → f64 → f64).

Definition store_exec (o : store_op) (s : store) : store :=
match o with
| O_store c k sal m now => (store_fact word_beyond str_lower dg c k sal m now s).1
| O_link id names now => (link_entities str_lower id names now s).1
| O_search q k m r now => (search dg q k m r now s).1
| O_reinforce id b c now => reinforce id b c now s
| O_decay hs hl => (decay hs pw hl s).1
| O_prune m => (prune m s).1
end.

Definition store_run (ops : list store_op) (s : store) : store :=
foldl (λ s o, store_exec o s) s ops.

Lemma store_exec_ok o s : store_ok s → store_ok (store_exec o s).
Proof.
destruct o; cbn [store_exec]; auto with shugo.
unfold search. destruct reinforcing; simpl; auto with shugo.
Qed.

Lemma store_run_ok ops s : store_ok s → store_ok (store_run ops s).
Proof.
revert s. induction ops as [|o ops IH]; simpl; [done|]. intros s Hs.
by apply IH, store_exec_ok.
Qed.

(** The text, kind, stamp and provenance of a row never change. *)
Definition same_row (f g : fact) : Prop :=
f_id f = f_id g ∧ f_content f = f_content g ∧ f_kind f = f_kind g ∧
f_created f = f_created g ∧ f_embed f = f_embed g ∧ f_meta f = f_meta g.

Lemma same_row_refl f : same_row f f.
Proof. by repeat split. Qed.

Lemma mapped_row (g : fact → fact) s f :
(∀ f, same_row f (g f)) → f ∈ facts (with_facts (g <$> facts s) s) →
∃ f0, f0 ∈ facts s ∧ same_row f0 f.
Proof. intros Hg (f0 & -> & Hf)%list_elem_of_fmap. eauto. Qed.

Lemma reinforce_all_rows b c now (hits : list (f64 * fact)) s f :
f ∈ facts (foldl (λ s h, reinforce (f_id h.2) b c now s) s hits) →
∃ f0, f0 ∈ facts s ∧ same_row f0 f.
Proof.
revert s. induction hits as [|h l IH]; simpl; [eauto using same_row_refl|].
intros s (f1 & Hf1 & E1)%IH.
apply mapped_row in Hf1 as (f0 & Hf0 & E0); [|intros f'; by case_match; repeat split].
exists f0. split; [done|]. unfold same_row in *. naive_solver congruence.
Qed.

Lemma store_exec_rows o s f :
f ∈ facts (store_exec o s) →
(∃ f0, f0 ∈ facts s ∧ same_row f0 f) ∨
∃ c k sal m now, o = O_store c k sal m now ∧ f_id f = next_fact s ∧
               f_content f = sanitize_text c 2000 ∧ f_meta f = m.
Proof.
destruct o; simpl.
- unfold store_fact. simpl.
rewrite (proj1 (link_content_facts _ _ _ _ _ _)). simpl.
intros [Hf| ->%list_elem_of_singleton]%elem_of_app; [left; eauto using same_row_refl|right].
by eexists _, _, _, _, _.
- intros Hf. left. revert Hf. unfold link_entities. generalize 0 as n. revert s.
induction names as [|x l IH]; simpl; [eauto using same_row_refl|].
intros s n. case_match; [apply IH|]. intros (f0 & Hf0 & E)%IH. exists f0. split; [|done].
revert Hf0. unfold link_name. by destruct (find_entity _ s).
- intros Hf. left. revert Hf. unfold search. destruct reinforcing; simpl; [apply reinforce_all_rows|].
eauto using same_row_refl.
- intros Hf. left. revert Hf. apply mapped_row. intros f'. by case_match; repeat split.
- intros Hf. left. revert Hf. unfold decay. simpl. rewrite <- list_fmap_compose. apply mapped_row.
intros f'. simpl. rewrite decay_row_spec. by repeat split.
- intros [Hf _]%prune_elem. left. exists f. split; [done|apply same_row_refl].
Qed.

(** In every history of a store the row ids and entity names are unique
and links point at entities; and each row a history leaves is either a
row it started from, with its text, kind, time, embedding and provenance
unchanged, or the sanitised content and the provenance of one of its
[store_fact] calls. *)
Theorem store_history ops s :
store_ok s →
store_ok (store_run ops s) ∧
∀ f, f ∈ facts (store_run ops s) →
(∃ f0, f0 ∈ facts s ∧ same_row f0 f) ∨
∃ c k sal m now, O_store c k sal m now ∈ ops ∧
                 f_content f = sanitize_text c 2000 ∧ f_meta f = m.
Proof.
intros Hok. split; [by apply store_run_ok|]. clear Hok. revert s.
induction ops as [|o ops IH]; simpl; [eauto using same_row_refl|].
intros s f [(f1 & Hf1 & E1)|(c & k & sal & m & now & Ho & E)]%IH.
- apply store_exec_rows in Hf1 as [(f0 & Hf0 & E0)|(c & k & sal & m & now & -> & _ & Ec & Em)].
+ left. exists f0. split; [done|]. unfold same_row in *. naive_solver congruence.
+ right. exists c, k, sal, m, now. split; [left|]. unfold same_row in E1.
  naive_solver congruence.
- right. exists c, k, sal, m, now. split; [by right|done].
Qed.
End Histories.

(** ** Witnesses *)

Definition demo_row (id : Z) (text stamp : pystr) : fact :=
  Fact id text (u "fact") f1 0 stamp stamp (embed demo_digest 16 text) [].

Definition demo_store : store :=
  Store 16 [demo_row 1 (u "door open") (u "t1"); demo_row 2 (u "door shut") (u "t2");
            demo_row 3 (u "lamp") (u "t2")] 4 [] 1 [].

Lemma demo_store_ok : store_ok demo_store.
Proof.
  split; simpl; [|intros f Hf; repeat (apply elem_of_cons in Hf as [->|Hf]; [simpl; lia|])
                |constructor|constructor| |constructor|]; try set_solver.
  repeat (apply NoDup_cons; split; [set_solver|]). constructor.
Qed.

Lemma search_ranked_witness :
  store_ok demo_store ∧
  (let '(s', hits) := search demo_digest (u "door") 1 f0 true (u "t3") demo_store in
   f_id <$> hits.*2 = [1] ∧ f_access <$> facts s' = [1; 0; 0] ∧
   Z.of_nat (length hits) <= Z.max 0 1).
Proof.
  split; [exact demo_store_ok|].
  pose proof (search_ranked demo_digest (u "door") 1 f0 (u "t3") demo_store demo_store_ok) as H.
  assert (f_id <$> (search demo_digest (u "door") 1 f0 true (u "t3") demo_store).2.*2 = [1]
          ∧ f_access <$> facts (search demo_digest (u "door") 1 f0 true (u "t3") demo_store).1
            = [1; 0; 0]) as Hc by (vm_compute; done).
  destruct (search _ _ _ _ _ _ _) as [s' hits]. destruct H as [H _]. destruct Hc. done.
Defined.

Definition demo_hours (stamp : pystr) : option f64 :=
  if bool_decide (stamp = u "t1") then Some (f_of_Z 72) else Some f0.
Definition demo_pow (a b : f64) : f64 := if bool_decide (b = f1) then a else f1.

Lemma decay_passes_compound_witness :
  fleb (f_of_Z 72) f0 = false ∧
  f_id <$> facts (prune (f_dec 5 2) (passes demo_hours demo_pow (f_of_Z 72) 5 demo_store)).1
  = [2; 3] ∧
  (∀ g, g ∈ facts (prune (f_dec 5 2) (passes demo_hours demo_pow (f_of_Z 72) 5 demo_store)).1 →
        f_id g ≠ 1).
Proof.
  split; [reflexivity|]. split; [vm_compute; reflexivity|].
  refine (proj2 (decay_passes_compound demo_hours demo_pow (f_of_Z 72) 5 demo_store _)
            demo_store_ok _ _ (demo_row 1 (u "door open") (u "t1")) _ _ _);
    [reflexivity|reflexivity|vm_compute; reflexivity|left|reflexivity|vm_compute; reflexivity].
Defined.

Lemma export_page_gap_witness :
  1 <= 2 <= 1000 ∧
  list.last (facts_since None 2 demo_store) = Some (demo_row 2 (u "door shut") (u "t2")) ∧
  ∃ skipped rest,
    sort_by oldest_first (facts demo_store)
      = facts_since None 2 demo_store ++ skipped ++ rest ∧
    Forall (λ f, f_created f = u "t2") skipped ∧
    facts_since (Some (u "t2")) 2 demo_store = take 2 rest.
Proof.
  split; [lia|]. split; [vm_compute; reflexivity|].
  destruct (export_page_gap 2 demo_store (demo_row 2 (u "door shut") (u "t2")))
    as (sk & rest & H1 & H2 & H3 & _); [lia|done|vm_compute; reflexivity|].
  exists sk, rest. exact (conj H1 (conj H2 H3)).
Defined.

Lemma store_history_witness :
  store_ok (new_store 16) ∧
  store_ok (store_run no_word lower demo_digest demo_pow
    [O_store (u "door open") (u "fact") f1 [] (u "t1"); O_prune (f_of_Z 2)] (new_store 16)).
Proof.
  split; [apply new_store_ok|].
  exact (proj1 (store_history no_word lower demo_digest demo_pow _ (new_store 16)
                  (new_store_ok 16))).
Defined.
