(* ===== verification/Episodic.v ===== *)
(** * Tiers 0 and 1 ([src/memory_system.py], [Scratchpad], [EpisodicMemory])

    The scratchpad's token-budgeted window, and the episodic event log with
    its write-ahead journal: recording, age eviction, draining, the
    acknowledgement that compacts the journal, and the replay on startup.

    Each method holds the object's lock, so it is one atomic step.  An event
    is the dictionary the code builds ([record]) or the journal decodes
    ([replay]).  The journal is the list of its lines, a missing file being
    the empty one; whether the file could be written or read is an argument
    ([io]) of each operation that touches it. *)

From Stdlib Require Import Floats.SpecFloat Sorted.
From S2P Require Import Prelude PyFloat PyStr PyVal Security TokenBudget AuditTrail.

Local Open Scope Z_scope.

(** ** Tier 0: the scratchpad *)

Module Scratchpad.

Record scratchpad := Pad {
max_entries : nat;
max_tokens : Z;
entries : list (pystr * pystr);
token_count : Z
}.

(** [Scratchpad.__init__]. *)
Definition new_pad (max_entries max_tokens : Z) : scratchpad :=
Pad (Z.to_nat (Z.max 1 max_entries)) (Z.max 64 max_tokens) [] 0.

(** The loop that evicts the oldest entries over the token ceiling. *)
Fixpoint evict (max_tokens : Z) (l : list (pystr * pystr)) (count : Z) :
list (pystr * pystr) * Z :=
match l with
| [] => ([], count)
| e :: l' => if max_tokens <? count then evict max_tokens l' (count - estimate_tokens e.2)
           else (l, count)
end.

(** [write]: entries are a timestamp and a text. *)
Definition write (text now : pystr) (p : scratchpad) : scratchpad :=
let entry_text := sanitize_text text 512 in
let l := dq_append (max_entries p) (now, entry_text) (entries p) in
let '(l, count) := evict (max_tokens p) l (token_count p + estimate_tokens entry_text) in
Pad (max_entries p) (max_tokens p) l count.

Definition read (p : scratchpad) : list pystr := (entries p).*2.

(** [context]. *)
Definition context (p : scratchpad) : pystr := join (u " ") (read p).

(** [flush]. *)
Definition flush (p : scratchpad) : scratchpad :=
Pad (max_entries p) (max_tokens p) [] (token_count p).

End Scratchpad.

(** ** Tier 1: the event log *)

Abbreviation event := (list (pystr * pyval)).

Record episodic := Episodic {
  max_events : nat;
  max_age_hours : option f64;
  ring : list event;
  seq : Z;
  journal : option (list line);
  batch_in_flight : bool
}.

Definition with_ring (l : list event) (n : Z) (m : episodic) : episodic :=
  Episodic (max_events m) (max_age_hours m) l n (journal m) (batch_in_flight m).

Definition with_journal (j : option (list line)) (m : episodic) : episodic :=
  Episodic (max_events m) (max_age_hours m) (ring m) (seq m) j (batch_in_flight m).

Definition with_flight (b : bool) (m : episodic) : episodic :=
  Episodic (max_events m) (max_age_hours m) (ring m) (seq m) (journal m) b.

(** The journal line of an event: [json.dumps(event, sort_keys=True)]. *)
Definition journal_line (e : event) : line := L_json (sort_keys (VDict e)).

(** *** Replay *)

(** One line of the journal. A line that decodes to something other than an
    object stops the replay with an exception no handler catches. *)
Definition replay_line (l : line) (m : episodic) : res episodic :=
  match l with
  | L_blank | L_malformed => Ok m
  | L_json (VDict e) =>
      match py_int (dict_get (u "seq") (VInt 0) e) with
      | Ok n => if seq m <? n then Ok (with_ring (dq_append (max_events m) e (ring m)) n m)
                else Ok m
      | Raise (ValueError _) | Raise (TypeError _) => Ok m
      | Raise x => Raise x
      end
  | L_json _ => Raise (AttributeError (u "get"))
  end.

Fixpoint replay_lines (ls : list line) (m : episodic) : res episodic :=
  match ls with
  | [] => Ok m
  | l :: ls' => m' ← replay_line l m; replay_lines ls' m'
  end.

(** [EpisodicMemory.__init__], with the journal found on disk when a path is
    set and whether it could be read. *)
Definition new_episodic (max : Z) (found : option (list line)) (age : option f64) (io : bool) :
    res episodic :=
  let m := Episodic (Z.to_nat (Z.max 1 max)) age [] 0 found false in
  match found with
  | Some ls => if io then replay_lines ls m else Ok m
  | None => Ok m
  end.

(** *** Recording *)

Section Clock.
(** [datetime.fromisoformat(s).timestamp()], [None] when the stamp does not
parse. *)
Context (stamp_of : pystr → option f64).

(** The loop of [_evict_by_age]: the oldest event without a timestamp raises. *)
Fixpoint evict_old (cutoff : f64) (l : list event) : list event * res unit :=
match l with
| [] => ([], Ok tt)
| e :: l' =>
  match dget (u "timestamp") e with
  | None => (l, Raise (KeyError (u "timestamp")))
  | Some (VStr s) => match stamp_of s with
                     | Some ts => if fleb cutoff ts then (l, Ok tt) else evict_old cutoff l'
                     | None => (l, Ok tt)
                     end
  | Some _ => (l, Ok tt)
  end
end.

Definition evict_by_age (now : f64) (m : episodic) : episodic * res unit :=
match max_age_hours m with
| None => (m, Ok tt)
| Some h => let '(l, r) := evict_old (fsub now (fmul h (f_of_Z 3600))) (ring m) in
          (with_ring l (seq m) m, r)
end.

Definition append_journal (io : bool) (e : event) (m : episodic) : episodic :=
match journal m with
| Some ls => if io then with_journal (Some (ls ++ [journal_line e])) m else m
| None => m
end.

Definition make_event (n : Z) (stamp event_type : pystr) (payload metadata : event) : event :=
[(u "seq", VInt n); (u "timestamp", VStr stamp); (u "type", VStr (sanitize_text event_type 64));
 (u "payload", VDict payload); (u "metadata", VDict metadata)].

(** [record]: an exception of the age eviction leaves the event recorded. *)
Definition record (io : bool) (stamp : pystr) (now : f64) (event_type : pystr)
(payload metadata : event) : py episodic event := λ m,
let e := make_event (seq m + 1) stamp event_type payload metadata in
let m := append_journal io e (with_ring (ring m) (seq m + 1) m) in
let m := with_ring (dq_append (max_events m) e (ring m)) (seq m) m in
let '(m, r) := evict_by_age now m in
(m, match r with Ok _ => Ok e | Raise x => Raise x end).
End Clock.

(** *** Reading *)

Definition last_n {A} (n : nat) (l : list A) : list A := drop (length l - n) l.

(** [recent]: [events[-n:]], all of them without a count. *)
Definition recent (n : option Z) (m : episodic) : list event :=
  match n with
  | Some n => if n =? 0 then ring m
              else if 0 <? n then last_n (Z.to_nat n) (ring m)
              else drop (Z.to_nat (- n)) (ring m)
  | None => ring m
  end.

(** *** Handing over *)

(** [_compact_journal]: rewrite the journal from the ring. *)
Definition compact_journal (io : bool) (m : episodic) : episodic :=
  match journal m with
  | Some _ => if io then with_journal (Some (journal_line <$> ring m)) m else m
  | None => m
  end.

Definition has_journal (m : episodic) : bool :=
  match journal m with Some _ => true | None => false end.

(** [drain]. *)
Definition drain (io : bool) (m : episodic) : episodic * list event :=
  let m := if has_journal m && negb (batch_in_flight m) then compact_journal io m else m in
  let events := ring m in
  let m := with_ring [] (seq m) m in
  (with_flight (negb (bool_decide (events = [])) && has_journal m) m, events).

(** [mark_consolidated]. *)
Definition mark_consolidated (io : bool) (m : episodic) : episodic :=
  compact_journal io (with_flight false m).

(** *** Counting by a field

    A dictionary keyed by event types, which the journal may make any value:
    an unhashable one raises, equal keys are found by [==]. *)
Definition hashable (v : pyval) : bool :=
  match v with VList _ | VDict _ => false | _ => true end.

Fixpoint vset {V} (k : pyval) (f : option V → V) (d : list (pyval * V)) : list (pyval * V) :=
  match d with
  | [] => [(k, f None)]
  | (k', v) :: d' => if py_eq k' k then (k', f (Some v)) :: d' else (k', v) :: vset k f d'
  end.

(** [d[k] = f(d.get(k))] of a default dictionary. *)
Definition vupdate {V} (k : pyval) (f : option V → V) (d : list (pyval * V)) :
    res (list (pyval * V)) :=
  if hashable k then Ok (vset k f d) else Raise (TypeError (u "unhashable type")).

Definition bump (n : option Z) : Z := default 0 n + 1.

(** [event[key]]. *)
Definition item (key : pystr) (e : event) : res pyval :=
  match dget key e with Some v => Ok v | None => Raise (KeyError key) end.

(** [count_by_type]. *)
Fixpoint count_types (events : list event) (acc : list (pyval * Z)) : res (list (pyval * Z)) :=
  match events with
  | [] => Ok acc
  | e :: rest => t ← item (u "type") e; acc ← vupdate t bump acc; count_types rest acc
  end.

Definition count_by_type (m : episodic) : res (list (pyval * Z)) := count_types (ring m) [].

(** ** The scratchpad stays in its budget *)

Module ScratchpadFacts.
Import Scratchpad.

(** What the fragments in the window cost. *)
Definition tokens (l : list (pystr * pystr)) : Z := foldr (λ e n, estimate_tokens e.2 + n) 0 l.

Lemma tokens_app a b : tokens (a ++ b) = tokens a + tokens b.
Proof. unfold tokens. induction a; simpl; lia. Qed.

Lemma tokens_nonneg l : 0 <= tokens l.
Proof.
induction l as [|e l IH]; simpl; [lia|]. destruct (estimate_tokens_spec e.2) as (? & _). lia.
Qed.

(** The operations as labels of a history. *)
Inductive pad_op : Type :=
| P_write (text now : pystr)
| P_flush.

Definition pad_exec (p : scratchpad) (o : pad_op) : scratchpad :=
match o with P_write t now => write t now p | P_flush => flush p end.

(** The fragments written since the last flush. *)
Fixpoint since_flush (acc : list (pystr * pystr)) (ops : list pad_op) : list (pystr * pystr) :=
match ops with
| [] => acc
| P_write t now :: ops' => since_flush (acc ++ [(now, sanitize_text t 512)]) ops'
| P_flush :: ops' => since_flush [] ops'
end.

Definition is_suffix {A} (k l : list A) : Prop := ∃ p, l = p ++ k.

(** The counter is never below the true cost, and a window that is not empty
is within the ceiling. *)
Definition pad_inv (p : scratchpad) : Prop :=
(length (entries p) ≤ max_entries p)%nat ∧ tokens (entries p) <= token_count p ∧
(entries p ≠ [] → token_count p <= max_tokens p).

Lemma evict_spec mx l c :
tokens l <= c →
let '(l', c') := evict mx l c in
is_suffix l' l ∧ tokens l' <= c' ∧ c' - tokens l' = c - tokens l ∧ (l' ≠ [] → c' <= mx).
Proof.
revert c. induction l as [|e l IH]; intros c Hc; simpl in *.
- split_and!; [by exists []|lia|lia|done].
- destruct (Z.ltb_spec mx c).
+ specialize (IH (c - estimate_tokens e.2)). destruct (evict mx l _) as [l' c'].
  destruct IH as ((p & ->) & ? & ? & ?); [lia|]. split_and!; [by exists (e :: p)|lia|lia|done].
+ split_and!; [by exists []|simpl; lia|simpl; lia|lia].
Qed.

Lemma dq_append_suffix {A} n (x : A) l : is_suffix (dq_append n x l) (l ++ [x]).
Proof. unfold dq_append. eexists. symmetry. apply take_drop. Qed.

Lemma suffix_tokens k l : is_suffix k l → tokens k <= tokens l.
Proof. intros (p & ->). rewrite tokens_app. pose proof (tokens_nonneg p). lia. Qed.

Lemma is_suffix_trans {A} (a b c : list A) : is_suffix a b → is_suffix b c → is_suffix a c.
Proof. intros (p & ->) (q & ->). exists (q ++ p). by rewrite app_assoc. Qed.

Lemma suffix_length {A} (k l : list A) : is_suffix k l → (length k ≤ length l)%nat.
Proof. intros (p & ->). rewrite length_app. lia. Qed.

Lemma pad_exec_inv p o :
pad_inv p → (0 < max_entries p)%nat →
pad_inv (pad_exec p o) ∧ max_entries (pad_exec p o) = max_entries p
∧ max_tokens (pad_exec p o) = max_tokens p
∧ is_suffix (entries (pad_exec p o))
  (match o with
   | P_write t now => entries p ++ [(now, sanitize_text t 512)]
   | P_flush => []
   end).
Proof.
intros (Hl & Ht & Hb) Hm. destruct o as [t now|].
- cbn [pad_exec]. unfold write. cbv zeta.
set (e := (now, sanitize_text t 512)). set (l := dq_append _ e _).
assert (is_suffix l (entries p ++ [e])) as Hs by apply dq_append_suffix.
assert (tokens l <= token_count p + estimate_tokens (sanitize_text t 512)) as Hc.
{ apply suffix_tokens in Hs. rewrite tokens_app in Hs. simpl in Hs. lia. }
pose proof (evict_spec (max_tokens p) l _ Hc) as He.
destruct (evict _ l _) as [l' c']. destruct He as (Hs' & ? & _ & ?).
split_and!; simpl; [|done|done|by eapply is_suffix_trans].
split_and!; simpl; [|done|done].
apply suffix_length in Hs'. pose proof (dq_append_bound (max_entries p) e (entries p)).
fold l in H1. lia.
- pose proof (tokens_nonneg (entries p)).
split_and!; simpl; [split_and!; simpl; [lia|lia|done]|done|done|by exists []].
Qed.

Lemma since_flush_suffix ops p acc :
pad_inv p → (0 < max_entries p)%nat → is_suffix (entries p) acc →
let p' := foldl pad_exec p ops in
pad_inv p' ∧ max_entries p' = max_entries p ∧ max_tokens p' = max_tokens p ∧
is_suffix (entries p') (since_flush acc ops).
Proof.
revert p acc. induction ops as [|o ops IH]; simpl; [done|]. intros p acc Hi Hm Hs.
destruct (pad_exec_inv p o Hi Hm) as (Hi' & Em & Et & Hs').
destruct o as [t now|]; simpl in *.
- destruct (IH (write t now p) (acc ++ [(now, sanitize_text t 512)]))
  as (? & ? & ? & ?); [done|by rewrite Em| |by rewrite <- Em, <- Et].
eapply is_suffix_trans; [exact Hs'|]. destruct Hs as (q & ->). exists q.
by rewrite app_assoc.
- apply (IH (flush p) []); [done|done|by exists []].
Qed.

(** In every history of writes and flushes the window holds the newest
fragments written since the last flush, in order, at most the configured
number of them, within the token ceiling, each cut to 512 characters. *)
Theorem scratchpad_budget me mt ops :
let p := foldl pad_exec (new_pad me mt) ops in
(length (entries p) ≤ Z.to_nat (Z.max 1 me))%nat ∧ tokens (entries p) <= Z.max 64 mt ∧
is_suffix (entries p) (since_flush [] ops) ∧
∀ t, t ∈ read p → slen t <= 512.
Proof.
simpl. assert (0 < max_entries (new_pad me mt))%nat as Hm by (simpl; lia).
assert (pad_inv (new_pad me mt)) as Hi by (split_and!; simpl; [lia|lia|done]).
assert (is_suffix (entries (new_pad me mt)) []) as Hs by (by exists []).
pose proof (since_flush_suffix ops _ _ Hi Hm Hs) as ((Hl & Ht & Hb) & Em & Et & Hs').
rewrite Em in Hl. rewrite Et in Hb. split_and!; [done| |done|].
- destruct (entries (foldl pad_exec _ ops)); [simpl; lia|]. specialize (Hb ltac:(done)).
simpl in *. lia.
- assert (∀ acc, (∀ e, e ∈ acc → slen e.2 <= 512) →
               ∀ e, e ∈ since_flush acc ops → slen e.2 <= 512) as Hlen.
{ clear. induction ops as [|[t now|] ops IH]; simpl; [done| |].
  - intros acc Ha. apply IH. intros e [He| ->%list_elem_of_singleton]%elem_of_app; [auto|].
    simpl. unfold slen, sanitize_text. rewrite length_take. lia.
  - intros _ _. apply IH. set_solver. }
intros t (e & -> & He)%list_elem_of_fmap. destruct Hs' as (q & Hq).
apply (Hlen [] ltac:(set_solver)). rewrite Hq. apply elem_of_app. by right.
Qed.

(** [flush] empties the window without giving its tokens back. Once the
fragments flushed use up the ceiling, every fragment is evicted by its own
write: the scratchpad stays empty for good. *)
Theorem scratchpad_starves p ops :
(0 < max_entries p)%nat → entries p = [] →
(∀ t now, P_write t now ∈ ops →
 max_tokens p < token_count p + estimate_tokens (sanitize_text t 512)) →
foldl pad_exec p ops = p.
Proof.
intros Hm He. induction ops as [|o ops IH]; simpl; [done|]. intros Hne.
assert (pad_exec p o = p) as ->; [|apply IH; intros t now Ht; apply (Hne t now); by right].
destruct o as [t now|]; destruct p as [me mx es c]; simpl in *; subst es; [|done].
specialize (Hne t now ltac:(left)). unfold write. cbn [max_entries max_tokens entries token_count].
rewrite dq_append_room by (simpl; lia). cbn [app evict snd].
destruct (Z.ltb_spec mx (c + estimate_tokens (sanitize_text t 512))); [|lia].
simpl. f_equal. lia.
Qed.

(** 256 characters use up a ceiling of 64 tokens. *)
Definition spent_pad : scratchpad :=
foldl pad_exec (new_pad 4 64) [P_write (replicate 256 97%N) []; P_flush].

Lemma scratchpad_starves_witness :
entries spent_pad = [] ∧ token_count spent_pad = 64 ∧
foldl pad_exec spent_pad [P_write (u "step one") []; P_flush; P_write (u "step two") []]
= spent_pad.
Proof.
split; [vm_compute; reflexivity|]. split; [vm_compute; reflexivity|].
apply (scratchpad_starves spent_pad); [vm_compute; lia|vm_compute; reflexivity|].
intros t now H. repeat (apply elem_of_cons in H as [H|H]; [try done; injection H as -> ->; vm_compute; done|]).
set_solver.
Defined.
End ScratchpadFacts.

(** ** The journal survives a crash *)

Definition seq_of (e : event) : Z :=
  match dget (u "seq") e with Some (VInt n) => n | _ => 0 end.

(** Events as [record] numbers them, up to [bound]. *)
Definition numbered (bound : Z) (es : list event) : Prop :=
  Forall (λ e, dget (u "seq") e = Some (VInt (seq_of e)) ∧ 0 < seq_of e <= bound) es ∧
  StronglySorted (λ a b, seq_of a < seq_of b) es.

Lemma StronglySorted_sublist {A} (R : A → A → Prop) k l :
  sublist k l → StronglySorted R l → StronglySorted R k.
Proof.
  induction 1 as [|x k l Hs IH|x k l Hs IH]; [done| |].
  - intros [Hl Hx]%StronglySorted_inv. constructor; [auto|].
    rewrite Forall_forall in Hx |- *. intros y Hy. apply Hx. by eapply elem_of_sublist.
  - intros [Hl _]%StronglySorted_inv. auto.
Qed.

Lemma StronglySorted_snoc {A} (R : A → A → Prop) l x :
  StronglySorted R l → Forall (λ y, R y x) l → StronglySorted R (l ++ [x]).
Proof.
  induction 1 as [|y l Hs IH Hy]; simpl; [by repeat constructor|].
  intros [Hyx Hx]%Forall_cons. constructor; [auto|]. apply Forall_app. auto.
Qed.

Lemma numbered_sublist b k l : sublist k l → numbered b l → numbered b k.
Proof.
  intros Hs [Hf Ho]. split; [|by eapply StronglySorted_sublist].
  rewrite Forall_forall in Hf |- *. intros e He. apply Hf. by eapply elem_of_sublist.
Qed.

Lemma numbered_snoc b es e :
  numbered b es → 0 <= b → dget (u "seq") e = Some (VInt (b + 1)) →
  numbered (b + 1) (es ++ [e]).
Proof.
  intros [Hf Ho] Hb He. assert (seq_of e = b + 1) as Es by (unfold seq_of; by rewrite He).
  split.
  - apply Forall_app. split; [|constructor; [|done]; rewrite Es; split; [done|lia]].
    eapply Forall_impl; [exact Hf|]. simpl. intros x [? ?]. split; [done|lia].
  - apply StronglySorted_snoc; [done|]. eapply Forall_impl; [exact Hf|]. simpl. intros x [_ ?]. lia.
Qed.

(** *** Bounded windows *)

Lemma last_n_snoc {A} n (l : list A) x : dq_append n x (last_n n l) = last_n n (l ++ [x]).
Proof.
  unfold dq_append, last_n.
  rewrite <- (drop_app_le l [x] (length l - n)) by lia.
  rewrite drop_drop, length_drop, !length_app. cbn [length]. f_equal. lia.
Qed.

Lemma drop_sublist {A} n (l : list A) : sublist (drop n l) l.
Proof. apply sublist_drop. Qed.

Lemma evict_old_sublist so c l : sublist (evict_old so c l).1 l.
Proof.
  induction l as [|e l IH]; simpl; [constructor|].
  destruct (dget _ e) as [[]|]; simpl; try done. destruct (so s) as [ts|]; simpl; [|done].
  destruct (fleb c ts); simpl; [done|by constructor].
Qed.

(** *** Replay *)

Lemma replay_numbered b es m l0 :
  numbered b es → ring m = last_n (max_events m) l0 → Forall (λ e, seq m < seq_of e) es →
  ∃ m', replay_lines (journal_line <$> es) m = Ok m' ∧
        ring m' = last_n (max_events m) (l0 ++ (sorted_fields <$> es)) ∧
        seq m' = default (seq m) (seq_of <$> last es) ∧ journal m' = journal m.
Proof.
  intros Hn. revert m l0. induction es as [|e es IH]; intros m l0 Hr Hs.
  - exists m. simpl. by rewrite app_nil_r.
  - destruct Hn as [[[He _] Hf]%Forall_cons [Ho Hlt]%StronglySorted_inv].
    apply Forall_cons in Hs as [Hse Hs].
    assert (replay_line (journal_line e) m =
            Ok (with_ring (dq_append (max_events m) (sorted_fields e) (ring m)) (seq_of e) m)) as E.
    { unfold journal_line. simpl. fold (sorted_fields e). unfold dict_get.
      change (sort_by _ (map _ e)) with (sorted_fields e).
      rewrite dget_sorted, He. simpl. destruct (Z.ltb_spec (seq m) (seq_of e)); [done|lia]. }
    change (replay_lines (journal_line <$> e :: es) m)
      with (m' ← replay_line (journal_line e) m; replay_lines (journal_line <$> es) m').
    rewrite E. cbn [mbind res_bind].
    destruct (IH (conj Hf Ho) (with_ring (dq_append (max_events m) (sorted_fields e) (ring m))
                   (seq_of e) m) (l0 ++ [sorted_fields e])) as (m' & E' & Hring & Hseq & Hj).
    + simpl. rewrite Hr. apply last_n_snoc.
    + done.
    + exists m'. split; [done|]. rewrite Hring, Hseq, Hj. rewrite fmap_cons, <- app_assoc. simpl.
      split_and!; [done| |done]. rewrite last_cons. by destruct (last es).
Qed.

(** *** Histories of one process

    Recording, handing a batch over and acknowledging it, all with the
    journal's file writable; a batch is handed over only when none is
    waiting for its acknowledgement. *)
Inductive log_op : Type :=
  | G_record (stamp : pystr) (now : f64) (event_type : pystr) (payload metadata : event)
  | G_drain
  | G_ack.

Section Log.
Context (stamp_of : pystr → option f64).

(** The log and the batch that waits for its acknowledgement. *)
Definition log_exec (o : log_op) (st : episodic * list event) : option (episodic * list event) :=
let '(m, batch) := st in
match o with
| G_record stamp now ty p md => Some ((record stamp_of true stamp now ty p md m).1, batch)
| G_drain => if bool_decide (batch = []) then Some (drain true m) else None
| G_ack => Some (mark_consolidated true m, [])
end.

Fixpoint log_run (ops : list log_op) (st : episodic * list event) :
option (episodic * list event) :=
match ops with
| [] => Some st
| o :: ops' => match log_exec o st with Some st' => log_run ops' st' | None => None end
end.

(** The journal holds, in order, at least the batch and the ring. *)
Definition log_inv (st : episodic * list event) : Prop :=
0 <= seq st.1 ∧ (st.2 = [] → batch_in_flight st.1 = false) ∧
∃ es, journal st.1 = Some (journal_line <$> es) ∧ numbered (seq st.1) es ∧
    sublist (st.2 ++ ring st.1) es.

Lemma compact_journal_on m ls :
journal m = Some ls → compact_journal true m = with_journal (Some (journal_line <$> ring m)) m.
Proof. unfold compact_journal. by intros ->. Qed.

Lemma record_shape stamp now ty p md m :
let e := make_event (seq m + 1) stamp ty p md in
let m' := (record stamp_of true stamp now ty p md m).1 in
seq m' = seq m + 1 ∧ batch_in_flight m' = batch_in_flight m ∧
journal m' = (λ ls, ls ++ [journal_line e]) <$> journal m ∧
sublist (ring m') (ring m ++ [e]).
Proof.
simpl. unfold record. cbv zeta. set (e := make_event _ _ _ _ _).
set (m1 := append_journal true e _). set (m2 := with_ring _ _ m1).
assert (seq m1 = seq m + 1 ∧ batch_in_flight m1 = batch_in_flight m ∧
      journal m1 = (λ ls, ls ++ [journal_line e]) <$> journal m ∧ ring m1 = ring m)
as (E1 & E2 & E3 & E4).
{ unfold m1, append_journal. simpl. destruct (journal m) eqn:Ej; split_and!; simpl; by rewrite ?Ej. }
unfold evict_by_age. destruct (max_age_hours m2) as [h|].
- pose proof (evict_old_sublist stamp_of (fsub now (fmul h (f_of_Z 3600))) (ring m2)) as Hs.
destruct (evict_old _ _ (ring m2)) as [l r]. cbn [fst] in *. split_and!; try done.
etransitivity; [exact Hs|]. unfold m2. cbn [with_ring ring]. rewrite E4. apply sublist_drop.
- cbn [fst]. split_and!; try done. unfold m2. cbn [with_ring ring]. rewrite E4. apply sublist_drop.
Qed.

Lemma log_exec_inv o st st' : log_inv st → log_exec o st = Some st' → log_inv st'.
Proof.
destruct st as [m batch]. intros (H0 & Hb & es & Hj & Hn & Hs); simpl in *.
destruct o as [stamp now ty p md| |]; simpl.
- intros [= <-]. destruct (record_shape stamp now ty p md m) as (E1 & E2 & E3 & E4).
split_and!; simpl; [lia|by rewrite E2|]. rewrite E1, E3, Hj.
exists (es ++ [make_event (seq m + 1) stamp ty p md]). split_and!.
+ simpl. by rewrite fmap_app.
+ by apply numbered_snoc.
+ etransitivity; [apply sublist_app; [done|exact E4]|]. rewrite app_assoc.
  by apply sublist_app.
- case_bool_decide as E; [|done]. subst batch. intros [= <-]. specialize (Hb eq_refl).
assert (has_journal m = true) as Hh by (unfold has_journal; by rewrite Hj).
unfold drain. rewrite Hh, Hb, (compact_journal_on _ _ Hj). simpl.
split_and!; simpl; [done| |].
+ intros ->. by rewrite bool_decide_eq_true_2.
+ exists (ring m). split_and!; [done| |by rewrite app_nil_r].
  by eapply numbered_sublist.
- intros [= <-]. unfold mark_consolidated.
rewrite (compact_journal_on (with_flight false m) _ Hj).
split_and!; simpl; [done|done|]. exists (ring m). split_and!; [done| |done].
eapply numbered_sublist; [|done]. etransitivity; [|exact Hs]. by apply sublist_inserts_l.
Qed.

Lemma log_run_inv ops st st' : log_inv st → log_run ops st = Some st' → log_inv st'.
Proof.
revert st. induction ops as [|o ops IH]; simpl; [by intros st H [= <-]|].
intros st H. destruct (log_exec o st) as [st1|] eqn:E; [|done].
eapply IH, log_exec_inv; eauto.
Qed.

Definition empty_log (max : Z) (age : option f64) : episodic :=
Episodic (Z.to_nat (Z.max 1 max)) age [] 0 (Some []) false.

(** After any history of a journalled log, the journal holds every event
of the ring and of the batch that consolidation has not acknowledged, in
the order they were recorded; and a process that starts on that journal,
with whatever capacity, gets the newest journalled events back, field for
field, and goes on numbering after the last one. *)
Theorem journal_recovers max age ops m batch max' age' :
log_run ops (empty_log max age, []) = Some (m, batch) →
∃ es m', sublist (batch ++ ring m) es ∧ journal m = Some (journal_line <$> es) ∧
new_episodic max' (journal m) age' true = Ok m' ∧
ring m' = last_n (Z.to_nat (Z.max 1 max')) (sorted_fields <$> es) ∧
seq m' = default 0 (seq_of <$> last es) ∧ journal m' = journal m.
Proof.
intros Hr.
assert (log_inv (empty_log max age, [])) as H0.
{ split_and!; simpl; [lia|done|]. exists []. split_and!; [done| |constructor].
split; constructor. }
pose proof (log_run_inv _ _ _ H0 Hr) as (_ & _ & es & Hj & Hn & Hs). simpl in *.
destruct (replay_numbered (seq m) es
          (Episodic (Z.to_nat (Z.max 1 max')) age' [] 0 (journal m) false) [])
as (m' & E & Hring & Hseq & Hj').
- done.
- done.
- destruct Hn as [Hn _]. eapply Forall_impl; [exact Hn|]. simpl. lia.
- exists es, m'. split_and!; [done|done| |done|done|done].
unfold new_episodic. rewrite Hj. rewrite Hj in E. exact E.
Qed.

(** C36. A batch that was never acknowledged does not survive the next
acknowledgement: after any further recording, draining again and
acknowledging that second batch leaves an empty ring and an empty
journal, whatever the first batch held. *)
Theorem unacknowledged_batch_lost m ls records :
journal m = Some ls → ring m ≠ [] →
let '(m1, batch) := drain true m in
let m2 := foldl (λ m r, (record stamp_of true (fst r) f0 (snd r) [] [] m).1) m1 records in
let '(m3, batch') := drain true m2 in
let m4 := mark_consolidated true m3 in
batch = ring m ∧ batch' = ring m2 ∧ ring m4 = [] ∧ journal m4 = Some [] ∧
∀ max age m5, new_episodic max (journal m4) age true = Ok m5 → ring m5 = [].
Proof.
intros Hj Hne. destruct (drain true m) as [m1 batch] eqn:E1.
cbv zeta. set (m2 := foldl _ m1 records). destruct (drain true m2) as [m3 batch'] eqn:E3.
assert (has_journal m = true) as Hh by (unfold has_journal; by rewrite Hj).
assert (is_Some (journal m1) ∧ batch = ring m) as [Hj1 ->].
{ unfold drain in E1. rewrite Hh in E1. injection E1 as <- <-. simpl.
destruct (batch_in_flight m); simpl; rewrite ?(compact_journal_on _ _ Hj); simpl; eauto. }
assert (is_Some (journal m2)) as [ls2 Hj2].
{ unfold m2. clear -Hj1. revert m1 Hj1. induction records as [|r rs IH]; simpl; [done|].
intros m1 [l Hl]. apply IH.
destruct (record_shape (fst r) f0 (snd r) [] [] m1) as (_ & _ & -> & _). rewrite Hl. eauto. }
assert (is_Some (journal m3) ∧ ring m3 = [] ∧ batch' = ring m2) as ([ls3 Hj3] & Hr3 & ->).
{ unfold drain in E3. injection E3 as <- <-. simpl.
destruct (has_journal m2 && negb (batch_in_flight m2));
  rewrite ?(compact_journal_on _ _ Hj2); simpl; eauto. }
unfold mark_consolidated. rewrite (compact_journal_on (with_flight false m3) _ Hj3). cbn [with_flight with_journal ring journal].
rewrite Hr3. split_and!; try done. intros max age m5 [= <-]. done.
Qed.
End Log.

(** ** Witnesses *)

Definition demo_stamp : pystr → option f64 := λ _, None.

Definition demo_ops : list log_op :=
  [G_record (u "t1") f0 (u "step") [] []; G_record (u "t2") f0 (u "step") [] []; G_drain;
   G_record (u "t3") f0 (u "step") [] []].

Definition demo_log : episodic * list event :=
  default (empty_log 8 None, []) (log_run demo_stamp demo_ops (empty_log 8 None, [])).

Lemma journal_recovers_witness :
  log_run demo_stamp demo_ops (empty_log 8 None, []) = Some demo_log ∧
  map seq_of demo_log.2 = [1; 2] ∧ map seq_of (ring demo_log.1) = [3] ∧
  ∃ es m', sublist (demo_log.2 ++ ring demo_log.1) es ∧
    new_episodic 8 (journal demo_log.1) None true = Ok m' ∧
    ring m' = last_n 8 (sorted_fields <$> es).
Proof.
  split; [vm_compute; reflexivity|]. split; [vm_compute; reflexivity|].
  split; [vm_compute; reflexivity|].
  destruct (journal_recovers demo_stamp 8 None demo_ops demo_log.1 demo_log.2 8 None)
    as (es & m' & H1 & _ & H2 & H3 & _); [vm_compute; reflexivity|].
  exists es, m'. exact (conj H1 (conj H2 H3)).
Defined.

Lemma unacknowledged_batch_lost_witness :
  journal demo_log.1 = Some (default [] (journal demo_log.1)) ∧
  (let '(m1, batch) := drain true demo_log.1 in
   let '(m3, _) := drain true m1 in
   batch = ring demo_log.1 ∧ journal (mark_consolidated true m3) = Some []).
Proof.
  split; [vm_compute; reflexivity|].
  pose proof (unacknowledged_batch_lost demo_stamp demo_log.1 (default [] (journal demo_log.1)) []
                ltac:(vm_compute; reflexivity) ltac:(vm_compute; discriminate)) as H.
  cbn [foldl] in H. destruct (drain true demo_log.1) as [m1 batch]. cbv zeta in H.
  destruct (drain true m1) as [m3 b]. destruct H as (H1 & _ & _ & H2 & _). exact (conj H1 H2).
Defined.
