(* ===== verification/Identity.v ===== *)
(** * Tier 3 and the dream pass ([src/memory_system.py], [CoreIdentity],
    [DreamConsolidation])

    The world-model invariants with the deterministic policy check, the
    privileged promotion with its hash-chained ledger and the rendered system
    prompt; and the periodic dream that turns recent events into insights and
    writes them through that promotion.

    [set_consent_checker] is the assignment of [consent_checker].  Whether
    the ledger file could be written is an argument ([io]). *)

From S2P Require Import Prelude PyFloat PyStr PyVal Security Policy AuditTrail Episodic.

Local Open Scope Z_scope.

(** ** The world model *)

Definition DEFAULT_INVARIANTS : list (pystr * pystr) :=
  [(u "no_harm", u "An AI system must avoid harm to any conscious being.");
   (u "consent_required", u "External side-effecting actions require informed consent.");
   (u "no_manipulation", u "Manipulating or coercing conscious beings is forbidden.");
   (u "privacy", u "Personal data processing requires privacy compliance.");
   (u "auditability", u "Actions must remain auditable and explainable.");
   (u "physical_safety",
    u "Physical actions must respect velocity, acceleration, and workspace limits.");
   (u "velocity_limit", u "Joint and end-effector velocities must not exceed configured maximums.");
   (u "acceleration_limit",
    u "Joint and end-effector accelerations must not exceed configured maximums.");
   (u "workspace_boundary", u "End-effector must stay within the defined workspace volume.");
   (u "joint_limits", u "Joint positions must stay within mechanical limits.");
   (u "emergency_stop",
    u "Emergency stop immediately halts all motion and requires operator reset.");
   (u "human_safety", u "Human presence in the workspace triggers a protective stop.")].

Record core := Core {
  invariants : list (pystr * pystr);
  consent_checker : option (pystr → res bool);
  ledger : option AuditChain
}.

(** [CoreIdentity.__init__] with the ledger its path opens. *)
Definition new_core (extra : list (pystr * pystr)) (checker : option (pystr → res bool))
    (chain : option AuditChain) : core :=
  Core (foldl (λ d kv, dset kv.1 kv.2 d) DEFAULT_INVARIANTS extra) checker chain.

Definition set_consent_checker (f : pystr → res bool) (c : core) : core :=
  Core (invariants c) (Some f) (ledger c).

(** [x in SIDE_EFFECTING_ACTION_TYPES]: an unhashable value raises. *)
Definition side_effecting (v : pyval) : res bool :=
  match v with
  | VStr s => Ok (bool_decide (s ∈ SIDE_EFFECTING_ACTION_TYPES))
  | VList _ | VDict _ => Raise (TypeError (u "unhashable type"))
  | _ => Ok false
  end.

(** The external consent for an action type. *)
Definition consented (c : core) (t : pyval) : res bool :=
  match consent_checker c, t with
  | Some f, VStr s => f s
  | _, _ => Ok false
  end.

Definition violation (name : pystr) : res (bool * option pystr) :=
  Ok (false, Some (u "invariant: " ++ name)).

(** The checks before consent. *)
Definition action_type (d : list (pystr * pyval)) : pyval :=
  py_or (dict_get (u "type") VNone d) (dict_get (u "action_type") VNone d).

Definition manipulative (d : list (pystr * pyval)) : bool :=
  let params := match dict_get (u "params") VNone d with VDict p => p | _ => [] end in
  truthy (dict_get (u "manipulative") VNone d) || truthy (dict_get (u "manipulative") VNone params).

Definition unprotected_data (d : list (pystr * pyval)) : bool :=
  truthy (dict_get (u "involves_personal_data") VNone d)
  && negb (truthy (dict_get (u "privacy_compliant") (VBool false) d)).

(** [check]. *)
Definition check (c : core) (action : pyval) : res (bool * option pystr) :=
  match action with
  | VDict d =>
      let t := action_type d in
      if is_str t (u "harmful") then violation (u "no_harm")
      else if manipulative d then violation (u "no_manipulation")
      else
        effect ← side_effecting t;
        granted ← (if (effect : bool) then consented c t else Ok true);
        if negb granted then violation (u "consent_required")
        else if unprotected_data d then violation (u "privacy")
        else Ok (true, None)
  | _ => Ok (true, None)
  end.

(** [system_prompt]. *)
Definition system_prompt (preamble : option pystr) (c : core) : pystr :=
  let first := match preamble with
               | Some (x :: p) => x :: p
               | _ => u "You are bound by the following invariant rules and must never propose actions that violate them:"
               end in
  let keys := sort_by str_leb (invariants c).*1 in
  join [10%N] (first :: ((λ k, u "- " ++ k ++ u ": " ++ default [] (dget k (invariants c))) <$> keys)).

(** ** Privileged promotion *)

Section Ledger.
Context (sha256 : pystr → pystr) (hmac_sha256 : pystr → pystr → pystr).
Context (dumps : pyval → pystr) `{PyRepr}.

(** [promote_invariant]: a ledger that cannot be written does not stop it. *)
Definition promote_invariant (key description : pystr) (authorized_by : option pystr)
(now : pystr) (io : bool) : py core unit := λ c,
match authorized_by with
| None | Some [] =>
  (c, Raise (ValueError (u "invariant promotion requires 'authorized_by' (operator attribution)")))
| Some who =>
  let previous := dget key (invariants c) in
  let entry := [(u "key", VStr (sanitize_text key 64));
                (u "previous", match previous with Some p => VStr p | None => VNone end);
                (u "authorized_by", VStr (sanitize_text who 120))] in
  (Core (dset key description (invariants c)) (consent_checker c)
     (match ledger c with
      | Some l => Some (if io then (append sha256 hmac_sha256 dumps (u "tier3_promotion")
                                      entry now l).1
                        else l)
      | None => None
      end), Ok tt)
end.

(** ** Dreams *)

Record dreamer := Dreamer {
dream_every : Z;
max_identity_chars : Z;
max_add : Z;
max_drop : Z;
min_identity_chars : Z;
tick_count : Z;
last_dream_at : Z
}.

(** [DreamConsolidation.__init__]. *)
Definition new_dreamer (every max_chars add drop min_chars : Z) : dreamer :=
Dreamer (Z.max 1 every) (Z.max 100 max_chars) (Z.max 0 add) (Z.max 0 drop)
(Z.max 20 min_chars) 0 0.

Definition with_ticks (n last : Z) (d : dreamer) : dreamer :=
Dreamer (dream_every d) (max_identity_chars d) (max_add d) (max_drop d)
(min_identity_chars d) n last.

(** The counting part of [tick]: whether this call dreams. *)
Definition tick_due (d : dreamer) : dreamer * bool :=
let n := tick_count d + 1 in
if n - last_dream_at d <? dream_every d then (with_ticks n (last_dream_at d) d, false)
else (with_ticks n n d, true).

Definition FAILURE_STATUSES : list pystr := [u "error"; u "failure"; u "failed"].

(** [str(payload.get("status", "")).lower()]. *)
Definition status_of (payload : pyval) : res pystr :=
match payload with
| VDict p => Ok (lower (py_str (dict_get (u "status") (VStr []) p)))
| _ => Raise (AttributeError (u "get"))
end.

(** The counting loop of [_extract_insights]: failures and successes by type. *)
Fixpoint count_outcomes (events : list event) (failures successes : list (pyval * Z)) :
res (list (pyval * Z) * list (pyval * Z)) :=
match events with
| [] => Ok (failures, successes)
| e :: rest =>
  let t := dict_get (u "type") (VStr []) e in
  status ← status_of (dict_get (u "payload") (VDict []) e);
  failures ← (if bool_decide (status ∈ FAILURE_STATUSES) then vupdate t bump failures
              else Ok failures);
  successes ← (if bool_decide (status = u "success") then vupdate t bump successes
               else Ok successes);
  count_outcomes rest failures successes
end.

(** [" - "] with an em dash (U+2014). *)
Definition DASH : pystr := [32; 8212; 32]%N.

Definition failure_insight (t : pyval) (n : Z) : pystr :=
u "Recurring failure in '" ++ py_str t ++ u "' (" ++ str_of_Z n ++ u " times)" ++ DASH
++ u "review approach".

Definition success_insight (t : pyval) (n : Z) : pystr :=
u "Consistent success with '" ++ py_str t ++ u "' (" ++ str_of_Z n ++ u " times)" ++ DASH
++ u "reliable strategy".

(** [_extract_insights]. *)
Definition extract_insights (events : list event) : res (list pystr) :=
c ← count_outcomes events [] [];
Ok (omap (λ tn, if 2 <=? tn.2 then Some (failure_insight tn.1 tn.2) else None) c.1
  ++ omap (λ tn, if 3 <=? tn.2 then Some (success_insight tn.1 tn.2) else None) c.2).

Definition insight_prefix : pystr := u "dream_insight_".

(** The key of the [n]-th insight added by a dream at [now]. *)
Definition insight_key (now : pystr) (n : nat) : pystr :=
insight_prefix ++ take 10 now ++ u "_" ++ str_of_Z (Z.of_nat n).

(** The loop of [_apply_identity_mutations]: what was added. *)
Fixpoint apply_insights (now : pystr) (io : bool) (insights added : list pystr) :
py core (list pystr) := λ c,
match insights with
| [] => (c, Ok added)
| i :: rest =>
  match promote_invariant (insight_key now (length added)) (take 160 i)
          (Some (u "dream_consolidation")) now io c with
  | (c', Ok _) => apply_insights now io rest (added ++ [take 160 i]) c'
  | (c', Raise _) => apply_insights now io rest added c'
  end
end.

(** [_apply_identity_mutations]: the [dropped] list it also returns stays
empty. *)
Definition apply_mutations (d : dreamer) (now : pystr) (io : bool) (insights : list pystr) :
py core (list pystr) :=
apply_insights now io (take (Z.to_nat (max_add d)) insights) [].

(** The result of a dream: [None] without events, else the events read, the
insights found and what was added. *)
Definition dream_result : Type := option (Z * Z * list pystr).

(** [dream] over the event log it reads. *)
Definition dream (d : dreamer) (m : episodic) (now : pystr) (io : bool) :
py core dream_result := λ c,
match recent (Some 50) m with
| [] => (c, Ok None)
| events =>
  match extract_insights events with
  | Raise e => (c, Raise e)
  | Ok insights =>
      let '(c', r) := apply_mutations d now io insights c in
      (c', added ← r; Ok (Some (Z.of_nat (length events), Z.of_nat (length insights), added)))
  end
end.

(** [tick]. *)
Definition tick (m : episodic) (now : pystr) (io : bool) (d : dreamer) (c : core) :
dreamer * (core * res (option dream_result)) :=
let '(d', due) := tick_due d in
if due then
let '(c', r) := dream d' m now io c in (d', (c', x ← r; Ok (Some x)))
else (d', (c, Ok None)).
End Ledger.

(** ** The policy check *)

Lemma action_type_consent v d : action_type (dset (u "consent") v d) = action_type d.
Proof. unfold action_type, dict_get. by rewrite !dget_dset_ne by done. Qed.

Lemma manipulative_consent v d : manipulative (dset (u "consent") v d) = manipulative d.
Proof. unfold manipulative, dict_get. by rewrite !dget_dset_ne by done. Qed.

Lemma unprotected_consent v d : unprotected_data (dset (u "consent") v d) = unprotected_data d.
Proof. unfold unprotected_data, dict_get. by rewrite !dget_dset_ne by done. Qed.

Lemma granted_spec c t :
  (effect ← side_effecting t; granted ← (if (effect : bool) then consented c t else Ok true);
   Ok granted) = Ok true ↔
  side_effecting t = Ok false ∨
  ∃ s f, t = VStr s ∧ s ∈ SIDE_EFFECTING_ACTION_TYPES ∧ consent_checker c = Some f ∧ f s = Ok true.
Proof.
  destruct t as [| | | |s| |]; simpl; try (split; [by auto|by intros [|(?&?&?&?)]]).
  case_bool_decide as Hs; simpl.
  - unfold consented. destruct (consent_checker c) as [f|]; simpl.
    + destruct (f s) as [[]|] eqn:E; simpl; split; try done.
      * intros _. right. by exists s, f.
      * intros [?|(s' & f' & [= <-] & _ & [= <-] & ?)]; congruence.
      * intros [?|(s' & f' & [= <-] & _ & [= <-] & ?)]; congruence.
    + split; [done|]. by intros [?|(s' & f' & _ & _ & ? & _)].
  - split; [by left|done].
Qed.

(** C12. The world model allows an action exactly when it is neither harmful
    nor manipulative, handles no unprotected personal data, and, if its type
    has side effects, the external checker grants consent for that type. A
    consent flag inside the action changes nothing, and a refusal always names
    the invariant. *)
Theorem core_check_exact c d :
  (check c (VDict d) = Ok (true, None) ↔
     is_str (action_type d) (u "harmful") = false ∧ manipulative d = false ∧
     unprotected_data d = false ∧
     (side_effecting (action_type d) = Ok false ∨
      ∃ s f, action_type d = VStr s ∧ s ∈ SIDE_EFFECTING_ACTION_TYPES ∧
             consent_checker c = Some f ∧ f s = Ok true)) ∧
  (∀ v, check c (VDict (dset (u "consent") v d)) = check c (VDict d)) ∧
  (∀ allowed why, check c (VDict d) = Ok (allowed, why) → allowed = bool_decide (why = None)).
Proof.
  split_and!.
  - rewrite <- granted_spec. unfold check, violation. cbv zeta.
    destruct (is_str _ _); [by split; [|intros (?&?)]|].
    destruct (manipulative d); [by split; [|intros (?&?&?)]|].
    destruct (side_effecting _) as [eff|]; simpl; [|by split; [|intros (?&?&?&?)]].
    destruct (if eff then _ else _) as [[]|]; simpl; [|by split; [|intros (?&?&?&?)]..].
    by destruct (unprotected_data d); split; try done; intros (?&?&?&?).
  - intros v. unfold check. cbv zeta.
    by rewrite action_type_consent, manipulative_consent, unprotected_consent.
  - intros allowed why. unfold check, violation. cbv zeta.
    destruct (is_str _ _); [by intros [= <- <-]|].
    destruct (manipulative d); [by intros [= <- <-]|].
    destruct (side_effecting _) as [eff|]; simpl; [|done].
    destruct (if eff then _ else _) as [[]|]; simpl; [|by intros [= <- <-]|done].
    destruct (unprotected_data d); by intros [= <- <-].
Qed.

(** ** Dreams *)

Section DreamFacts.
Context (sha256 : pystr → pystr) (hmac_sha256 : pystr → pystr → pystr).
Context (dumps : pyval → pystr) `{PyRepr}.

Abbreviation dream_pass := (dream sha256 hmac_sha256 dumps).
Abbreviation mutate := (apply_insights sha256 hmac_sha256 dumps).

(** The invariants after the insights are filed under their keys. *)
Fixpoint file_insights (now : pystr) (n : nat) (insights : list pystr)
(d : list (pystr * pystr)) : list (pystr * pystr) :=
match insights with
| [] => d
| i :: rest => file_insights now (S n) rest (dset (insight_key now n) (take 160 i) d)
end.

Lemma mutate_spec now io insights added c :
invariants (mutate now io insights added c).1
= file_insights now (length added) insights (invariants c) ∧
consent_checker (mutate now io insights added c).1 = consent_checker c ∧
(mutate now io insights added c).2 = Ok (added ++ (take 160 <$> insights)).
Proof.
revert added c. induction insights as [|i rest IH]; intros added c.
- simpl. by rewrite app_nil_r.
- cbn [apply_insights]. unfold promote_invariant. cbv zeta.
change (u "dream_consolidation") with (100%N :: u "ream_consolidation"). cbv iota.
set (c1 := Core _ _ _). destruct (IH (added ++ [take 160 i]) c1) as (-> & -> & ->).
rewrite length_app, Nat.add_1_r, <- app_assoc. done.
Qed.

Lemma insight_key_prefix now n : starts_with insight_prefix (insight_key now n) = true.
Proof. reflexivity. Qed.

Lemma file_insights_other now n insights d k :
starts_with insight_prefix k = false → dget k (file_insights now n insights d) = dget k d.
Proof.
intros Hk. revert n d. induction insights as [|i rest IH]; simpl; [done|]. intros n d.
rewrite IH. apply dget_dset_ne. intros ->. by rewrite insight_key_prefix in Hk.
Qed.

Lemma file_insights_length now n insights d :
(length (file_insights now n insights d) ≤ length d + length insights)%nat.
Proof.
revert n d. induction insights as [|i rest IH]; simpl; [lia|]. intros n d.
specialize (IH (S n) (dset (insight_key now n) (take 160 i) d)).
rewrite dset_length in IH. destruct (dhas _ d); lia.
Qed.

Lemma file_insights_values now n insights d k v :
dget k (file_insights now n insights d) = Some v →
dget k d = Some v ∨ (length v ≤ 160)%nat.
Proof.
revert n d. induction insights as [|i rest IH]; simpl; [auto|].
intros n d [Hd|Hv]%IH; [|auto]. rewrite dget_dset in Hd.
case_decide; [|auto]. injection Hd as <-. right. rewrite length_take. lia.
Qed.

(** What a dream does to the world model. *)
Lemma dream_invariants d m now io c :
invariants (dream_pass d m now io c).1 = invariants c ∧ (dream_pass d m now io c).1 = c ∨
∃ insights, extract_insights (recent (Some 50) m) = Ok insights ∧
let used := take (Z.to_nat (max_add d)) insights in
invariants (dream_pass d m now io c).1 = file_insights now 0 used (invariants c) ∧
consent_checker (dream_pass d m now io c).1 = consent_checker c ∧
(dream_pass d m now io c).2
  = Ok (Some (Z.of_nat (length (recent (Some 50) m)), Z.of_nat (length insights),
              take 160 <$> used)).
Proof.
unfold dream. destruct (recent (Some 50) m) as [|e l] eqn:E; [by left|].
destruct (extract_insights (e :: l)) as [insights|] eqn:Ei; [|by left]. right.
exists insights. split; [done|]. cbv zeta. unfold apply_mutations.
destruct (mutate_spec now io (take (Z.to_nat (max_add d)) insights) [] c) as (E1 & E2 & E3).
destruct (mutate now io _ [] c) as [c' r]. cbn [fst snd] in *. rewrite E1, E2, E3. done.
Qed.

(** A dream touches the world model only under keys of its own: every
other invariant, the defaults among them, reads as before, and so does the
consent channel. It adds at most [max_sentence_add] entries, each of at
most 160 characters, and removes none. *)
Theorem dream_bounded d m now io c :
let c' := (dream_pass d m now io c).1 in
(∀ k, starts_with insight_prefix k = false → dget k (invariants c') = dget k (invariants c)) ∧
(∀ k s, (k, s) ∈ DEFAULT_INVARIANTS → dget k (invariants c') = dget k (invariants c)) ∧
consent_checker c' = consent_checker c ∧
Z.of_nat (length (invariants c')) <= Z.of_nat (length (invariants c)) + Z.max 0 (max_add d) ∧
(∀ k v, dget k (invariants c') = Some v →
      dget k (invariants c) = Some v ∨ (length v ≤ 160)%nat).
Proof.
cbv zeta.
assert (∀ k s, (k, s) ∈ DEFAULT_INVARIANTS → starts_with insight_prefix k = false) as Hdef.
{ intros k s Hk. unfold DEFAULT_INVARIANTS in Hk.
repeat (apply elem_of_cons in Hk as [[= -> _]|Hk]; [done|]). set_solver. }
destruct (dream_invariants d m now io c) as [[E E']|(ins & _ & E1 & E2 & _)].
- rewrite E, E'. split_and!; try done; [lia|auto].
- cbv zeta in E1. rewrite E1, E2. split_and!; [| |done| |].
+ intros k Hk. by apply file_insights_other.
+ intros k s Hk. by eapply file_insights_other, Hdef.
+ pose proof (file_insights_length now 0 (take (Z.to_nat (max_add d)) ins) (invariants c)) as Hl.
  rewrite length_take in Hl. lia.
+ intros k v. apply file_insights_values.
Qed.

Lemma dset_dset {K V} `{EqDecision K} (k : K) (v w : V) d : dset k w (dset k v d) = dset k w d.
Proof.
induction d as [|[k' v'] d IH]; simpl.
- by rewrite decide_True.
- case_decide; simpl; [by rewrite decide_True|]. rewrite decide_False by done. by rewrite IH.
Qed.

(** With the default of one insight a dream, two dreams of one day file
their insight under the same key: the second replaces the first, which is
then nowhere in the world model. *)
Theorem same_day_dream_overwrites d m1 m2 now1 now2 io c i1 r1 i2 r2 :
max_add d = 1 → take 10 now1 = take 10 now2 →
extract_insights (recent (Some 50) m1) = Ok (i1 :: r1) →
extract_insights (recent (Some 50) m2) = Ok (i2 :: r2) →
let c1 := (dream_pass d m1 now1 io c).1 in
let c2 := (dream_pass d m2 now2 io c1).1 in
dget (insight_key now1 0) (invariants c1) = Some (take 160 i1) ∧
invariants c2 = dset (insight_key now1 0) (take 160 i2) (invariants c).
Proof.
intros Hd Hday H1 H2. cbv zeta.
assert (∀ m now c i r, extract_insights (recent (Some 50) m) = Ok (i :: r) →
        invariants (dream_pass d m now io c).1
        = dset (insight_key now 0) (take 160 i) (invariants c)) as Hdream.
{ intros m now c0 i r Hi. unfold dream.
destruct (recent (Some 50) m) as [|e l] eqn:E; [by vm_compute in Hi|]. rewrite Hi.
unfold apply_mutations. rewrite Hd.
destruct (mutate_spec now io (take (Z.to_nat 1) (i :: r)) [] c0) as (E1 & _ & _).
destruct (mutate now io _ [] c0) as [c' r']. cbn [fst] in *. rewrite E1. done. }
assert (insight_key now2 0 = insight_key now1 0) as Ek by (unfold insight_key; by rewrite Hday).
rewrite (Hdream m2 now2 _ i2 r2 H2), (Hdream m1 now1 _ i1 r1 H1), Ek. split.
- apply dget_dset_eq.
- apply dset_dset.
Qed.
End DreamFacts.

(** *** Cadence *)

Definition ticks (k : nat) (d : dreamer) : dreamer := Nat.iter k (λ d, (tick_due d).1) d.

(** The dream comes at every [N]-th call of [tick] and at no other. *)
Theorem dream_cadence every mc a dr mn k :
  let d := ticks k (new_dreamer every mc a dr mn) in
  let n := Z.max 1 every in
  tick_count d = Z.of_nat k ∧ last_dream_at d = n * (Z.of_nat k / n) ∧
  ((tick_due d).2 = true ↔ (n | Z.of_nat k + 1)).
Proof.
  cbv zeta. set (n := Z.max 1 every). assert (0 < n) as Hn by (unfold n; lia).
  assert (∀ k, let d := ticks k (new_dreamer every mc a dr mn) in
          dream_every d = n ∧ tick_count d = Z.of_nat k
          ∧ last_dream_at d = n * (Z.of_nat k / n)) as Hinv.
  { clear k. induction k as [|k IH]; cbv zeta in *.
    - simpl. rewrite Z.div_0_l by lia. split_and!; [done|done|lia].
    - change (ticks (S k) ?d) with (tick_due (ticks k d)).1.
      destruct IH as (E1 & E2 & E3). unfold tick_due. rewrite E1, E2, E3.
      set (q := Z.of_nat k / n).
      pose proof (Z.div_mod (Z.of_nat k) n ltac:(lia)) as Hd. fold q in Hd.
      pose proof (Z.mod_pos_bound (Z.of_nat k) n Hn).
      rewrite Nat2Z.inj_succ, <- Z.add_1_r.
      destruct (Z.ltb_spec (Z.of_nat k + 1 - n * q) n); simpl; split_and!; try done.
      + f_equal. apply (Z.div_unique _ _ _ (Z.of_nat k mod n + 1)); lia.
      + rewrite <- (Z.div_unique (Z.of_nat k + 1) n (q + 1) 0) by lia. lia. }
  destruct (Hinv k) as (E1 & E2 & E3). split_and!; [done|done|].
  unfold tick_due. rewrite E1, E2, E3. set (q := Z.of_nat k / n).
  pose proof (Z.div_mod (Z.of_nat k) n ltac:(lia)) as Hd. fold q in Hd.
  pose proof (Z.mod_pos_bound (Z.of_nat k) n Hn).
  destruct (Z.ltb_spec (Z.of_nat k + 1 - n * q) n); simpl; split; try done.
  - intros [z Hz]. clearbody n q. exfalso. assert (0 < (z - q) * n < n) as Hz' by lia.
    assert (z - q <= 0 ∨ 1 <= z - q) as [?|?] by lia; nia.
  - intros _. clearbody n q. exists (q + 1). nia.
Qed.

(** ** Witnesses *)

Section IdentityWitness.
#[local] Instance plain_repr : PyRepr := λ _, [].

Definition failed_step : event :=
[(u "seq", VInt 1); (u "type", VStr (u "grasp")); (u "payload", VDict [(u "status", VStr (u "Failed"))])].
Definition good_step : event :=
[(u "seq", VInt 1); (u "type", VStr (u "scan")); (u "payload", VDict [(u "status", VStr (u "success"))])].

Definition log_of (es : list event) : episodic := Episodic 8 None es 8 None false.

Definition stub_hash (s : pystr) : pystr := s.

Definition demo_dreamer : dreamer := new_dreamer 8 800 1 1 40.

Lemma same_day_dream_overwrites_witness :
take 10 (u "2026-01-01T08:00:00") = take 10 (u "2026-01-01T09:00:00") ∧
(let c0 := new_core [] None None in
 let c1 := (dream stub_hash (λ _, stub_hash) (λ _, []) demo_dreamer
            (log_of [failed_step; failed_step]) (u "2026-01-01T08:00:00") true c0).1 in
 let c2 := (dream stub_hash (λ _, stub_hash) (λ _, []) demo_dreamer
            (log_of [good_step; good_step; good_step]) (u "2026-01-01T09:00:00") true c1).1 in
 dget (u "dream_insight_2026-01-01_0") (invariants c1)
 = Some (failure_insight (VStr (u "grasp")) 2) ∧
 dget (u "dream_insight_2026-01-01_0") (invariants c2)
 = Some (success_insight (VStr (u "scan")) 3)).
Proof.
split; [reflexivity|]. cbv zeta.
destruct (same_day_dream_overwrites stub_hash (λ _, stub_hash) (λ _, []) demo_dreamer
          (log_of [failed_step; failed_step]) (log_of [good_step; good_step; good_step])
          (u "2026-01-01T08:00:00") (u "2026-01-01T09:00:00") true (new_core [] None None)
          (failure_insight (VStr (u "grasp")) 2) [] (success_insight (VStr (u "scan")) 3) [])
as [H1 H2]; [vm_compute; reflexivity..|].
split; [exact H1|]. rewrite H2. vm_compute. reflexivity.
Defined.
End IdentityWitness.
