(* ===== verification/Memory.v ===== *)
(** * The memory manager ([src/memory_system.py], [MemoryManager])

    The write gates, consolidation (drain, group, summarise or promote, decay,
    prune, acknowledge), the maintenance worker with its back-off, the import
    of facts from peers and hybrid retrieval.

    The manager is written against what it uses of Tier 2 ([Tier2]), as the
    code is, whose Tier 2 may be the SQLite store or another backend; the
    SQLite store ([Semantic]) is an instance.  Threads are not modelled: the
    worker's loop is its sequence of iterations, each the outcome of one
    maintenance pass. *)

From Stdlib Require Import Floats.SpecFloat.
From S2P Require Import Prelude PyFloat PyStr PyVal Security AuditTrail Semantic Episodic Identity.

Local Open Scope Z_scope.

(** ** What the manager uses of Tier 2 *)

Class Tier2 (S : Type) := {
  t2_store : pystr → pystr → f64 → list (pystr * pyval) → pystr → py S Z;
  t2_decay : f64 → py S Z;
  t2_prune : f64 → py S Z;
  t2_exists : option (pystr → S → bool)
}.

(** A store that can tell whether it holds a content: what is stored is found
    again, under every text that sanitises alike, and storing loses nothing. *)
Class Tier2Laws (S : Type) `{Tier2 S} := {
  t2_lookup : pystr → S → bool;
  t2_has_lookup : t2_exists = Some t2_lookup;
  t2_lookup_stored : ∀ c k sal meta now s s' id,
    t2_store c k sal meta now s = (s', Ok id) → t2_lookup c s' = true;
  t2_lookup_kept : ∀ c k sal meta now s s' r c',
    t2_store c k sal meta now s = (s', r) → t2_lookup c' s = true → t2_lookup c' s' = true
}.

(** The SQLite store as a Tier 2; [hours_since] is the clock's reading. *)
Section SemanticTier2.
Context (word_beyond : N → bool) (str_lower : pystr → pystr) (sha256_int : pystr → Z).
Context (hours_since : pystr → option f64) (fpow : f64 → f64 → f64).

#[export] Instance semantic_tier2 : Tier2 store := {
t2_store c k sal meta now := λ s,
  let '(s', id) := store_fact word_beyond str_lower sha256_int c k sal meta now s in (s', Ok id);
t2_decay hl := λ s, let '(s', n) := decay hours_since fpow hl s in (s', Ok n);
t2_prune m := λ s, let '(s', n) := prune m s in (s', Ok n);
t2_exists := Some content_exists
}.

Lemma content_exists_spec c s :
content_exists c s = true ↔ sanitize_text c 2000 ∈ f_content <$> facts s.
Proof.
unfold content_exists. rewrite existsb_exists, list_elem_of_fmap. split.
- intros (f & Hf & E). exists f. rewrite <- list_elem_of_In in Hf.
  by apply bool_decide_eq_true in E.
- intros (f & E & Hf). exists f. rewrite <- list_elem_of_In. split; [done|].
  by apply bool_decide_eq_true.
Qed.

Lemma store_fact_contents c k sal meta now s :
f_content <$> facts (store_fact word_beyond str_lower sha256_int c k sal meta now s).1
= (f_content <$> facts s) ++ [sanitize_text c 2000].
Proof.
unfold store_fact. simpl. rewrite (proj1 (link_content_facts _ _ _ _ _ _)). simpl.
by rewrite fmap_app.
Qed.

#[export, program] Instance semantic_tier2_laws : Tier2Laws store := {
t2_lookup := content_exists
}.
Next Obligation. done. Qed.
Next Obligation.
intros c k sal meta now s s' id E. cbn [t2_store semantic_tier2] in E.
pose proof (store_fact_contents c k sal meta now s) as Hc.
destruct (store_fact _ _ _ _ _ _ _ _ _) as [s1 id1]. injection E as <- _. simpl in Hc.
apply content_exists_spec. rewrite Hc. set_solver.
Qed.
Next Obligation.
intros c k sal meta now s s' r c' E Hc'. cbn [t2_store semantic_tier2] in E.
pose proof (store_fact_contents c k sal meta now s) as Hc.
destruct (store_fact _ _ _ _ _ _ _ _ _) as [s1 id1]. injection E as <- _. simpl in Hc.
apply content_exists_spec. rewrite Hc. apply content_exists_spec in Hc'. set_solver.
Qed.
End SemanticTier2.

(** ** The write gates *)

Definition write_gates : list (pystr * list pystr) :=
  [(u "tier0", [u "scratchpad"]); (u "tier1", [u "episodic"]);
   (u "tier2", [u "consolidation"; u "maintenance"; u "shugonet"]);
   (u "tier3", [u "dream"; u "promote_invariant"])].

(** [check_write_permission]. *)
Definition check_write_permission (read_only : bool) (tier writer : pystr) : bool :=
  let allowed := bool_decide (writer ∈ default [] (dget tier write_gates)) in
  if allowed && bool_decide (tier = u "tier2") && bool_decide (writer = u "consolidation")
  then negb read_only else allowed.

(** [enforce_write]; [set_text] is how Python prints the set of writers. *)
Definition enforce_write (set_text : list pystr → pystr) (read_only : bool)
    (tier writer : pystr) : res unit :=
  if check_write_permission read_only tier writer then Ok tt
  else Raise (PermissionError (u "Write gate violation: '" ++ writer ++ u "' cannot write to "
                ++ tier ++ u ". Allowed writers: "
                ++ set_text (default [] (dget tier write_gates)))).

(** ** The memory policy *)

(** The choice of [MemoryManager.__init__]: the policy, whether Tier 2 is
    read-only, and whether a lent Tier 2 and Tier 3 are used. *)
Definition choose_policy (policy : pystr) (lent2 lent3 : bool) :
    res (pystr * bool * bool * bool) :=
  let p := lower (match policy with [] => u "shared_rw" | _ => policy end) in
  if bool_decide (p ∈ [u "shared_rw"; u "shared_read"; u "isolated"]) then
    let shared := negb (bool_decide (p = u "isolated")) in
    Ok (p, bool_decide (p = u "shared_read"), shared && lent2, shared && lent3)
  else Raise (ValueError (u "unknown memory policy " ++ repr_str p
                ++ u " (choose from 'shared_rw', 'shared_read', 'isolated')")).

(** [_owns_tier2], [_owns_tier3]: what [close] may close. *)
Definition owns (lent uses_lent : bool) : bool := negb lent || negb uses_lent.

(** ** The manager *)

Record manager (S : Type) := Manager {
  read_only_tier2 : bool;
  tier0 : Scratchpad.scratchpad;
  tier1 : episodic;
  tier2 : S;
  tier3 : core;
  consolidation_threshold : Z;
  failure_threshold : Z;
  pattern_threshold : Z;
  half_life : f64;
  prune_floor : f64;
  maintenance_passes : Z
}.
Global Arguments Manager {S} _ _ _ _ _ _ _ _ _ _ _.
Global Arguments read_only_tier2 {S} _.
Global Arguments tier0 {S} _.
Global Arguments tier1 {S} _.
Global Arguments tier2 {S} _.
Global Arguments tier3 {S} _.
Global Arguments consolidation_threshold {S} _.
Global Arguments failure_threshold {S} _.
Global Arguments pattern_threshold {S} _.
Global Arguments half_life {S} _.
Global Arguments prune_floor {S} _.
Global Arguments maintenance_passes {S} _.

Definition with_tiers {S} (t0 : Scratchpad.scratchpad) (t1 : episodic) (t2 : S)
    (m : manager S) : manager S :=
  Manager (read_only_tier2 m) t0 t1 t2 (tier3 m) (consolidation_threshold m)
    (failure_threshold m) (pattern_threshold m) (half_life m) (prune_floor m)
    (maintenance_passes m).

Definition note_step {S} (text now : pystr) (m : manager S) : manager S :=
  with_tiers (Scratchpad.write text now (tier0 m)) (tier1 m) (tier2 m) m.

Definition resolve_step {S} (m : manager S) : manager S :=
  with_tiers (Scratchpad.flush (tier0 m)) (tier1 m) (tier2 m) m.

(** ** Consolidation *)

Record stats := Stats {
  events_processed : Z;
  facts_stored : Z;
  promoted : Z;
  pruned : Z
}.

(** The grouping loop: events by type, types in order of appearance. *)
Fixpoint group_events (events : list event) (acc : list (pyval * list event)) :
    res (list (pyval * list event)) :=
  match events with
  | [] => Ok acc
  | e :: rest =>
      t ← item (u "type") e;
      acc ← vupdate t (λ g, default [] g ++ [e]) acc;
      group_events rest acc
  end.

(** [(e.get("payload") or {}).get("status", "")] names a failure. *)
Definition is_failure `{PyRepr} (e : event) : res bool :=
  s ← status_of (py_or (dict_get (u "payload") VNone e) (VDict []));
  Ok (bool_decide (s ∈ FAILURE_STATUSES)).

Fixpoint count_failures `{PyRepr} (group : list event) : res Z :=
  match group with
  | [] => Ok 0
  | e :: rest => b ← is_failure e; n ← count_failures rest; Ok ((if b : bool then 1 else 0) + n)
  end.

(** A fact to store: content, kind, salience, metadata. *)
Definition draft : Type := pystr * pystr * f64 * list (pystr * pyval).

(** What one group becomes, and whether that is a promotion. *)
Definition group_fact `{PyRepr} (failure_thr pattern_thr : Z) (tg : pyval * list event) :
    res (draft * bool) :=
  let '(t, group) := tg in
  failures ← count_failures group;
  let n := Z.of_nat (length group) in
  let last_payload :=
    take 200 (py_str (dict_get (u "payload") (VDict []) (default [] (last group)))) in
  Ok (if failure_thr <=? failures then
        (u "Critical failure mode '" ++ py_str t ++ u "' observed " ++ str_of_Z failures
         ++ u " times; last: " ++ last_payload, u "procedural_insight", f_dec 25 1,
         [(u "event_type", t); (u "failures", VInt failures)], true)
      else if pattern_thr <=? n then
        (u "Recurring pattern '" ++ py_str t ++ u "' observed " ++ str_of_Z n
         ++ u " times in recent execution.", u "pattern", f_dec 15 1,
         [(u "event_type", t); (u "occurrences", VInt n)], false)
      else
        (u "Event summary '" ++ py_str t ++ u "' x" ++ str_of_Z n ++ u "; last: " ++ last_payload,
         u "summary", f1, [(u "event_type", t); (u "occurrences", VInt n)], false)).

Section Consolidation.
Context {S : Type} `{Tier2 S} `{PyRepr}.

(** The loop over the groups: facts stored and promoted. *)
Fixpoint store_groups (failure_thr pattern_thr : Z) (now : pystr)
  (groups : list (pyval * list event)) (facts promos : Z) : py S (Z * Z) := λ s,
match groups with
| [] => (s, Ok (facts, promos))
| g :: rest =>
    match group_fact failure_thr pattern_thr g with
    | Raise e => (s, Raise e)
    | Ok ((c, k, sal, meta), promo) =>
        match t2_store c k sal meta now s with
        | (s', Ok _) => store_groups failure_thr pattern_thr now rest (facts + 1)
                          (if promo : bool then promos + 1 else promos) s'
        | (s', Raise e) => (s', Raise e)
        end
    end
end.

(** Decay, then prune. *)
Definition forget (hl floor : f64) : py S Z := t2_decay hl ;; t2_prune floor.

(** [_consolidate_impl]. *)
Definition consolidate_impl (m : manager S) (now : pystr) (events : list event) :
  py S stats := λ s,
match events with
| [] =>
    if negb (read_only_tier2 m) then
      (n ← forget (half_life m) (prune_floor m); mret (Stats 0 0 0 n)) s
    else (s, Ok (Stats 0 0 0 0))
| _ =>
    if read_only_tier2 m then (s, Ok (Stats (Z.of_nat (length events)) 0 0 0))
    else
      match group_events events [] with
      | Raise e => (s, Raise e)
      | Ok groups =>
          (fp ← store_groups (failure_threshold m) (pattern_threshold m) now groups 0 0;
           n ← forget (half_life m) (prune_floor m);
           mret (Stats (Z.of_nat (length events)) fp.1 fp.2 n)) s
      end
end.

(** [consolidate_now]: an exception leaves the batch unacknowledged. *)
Definition consolidate_now (now : pystr) (io : bool) : py (manager S) stats := λ m,
let '(t1, events) := drain io (tier1 m) in
match consolidate_impl m now events (tier2 m) with
| (s, Ok st) => (with_tiers (tier0 m) (mark_consolidated io t1) s m, Ok st)
| (s, Raise e) => (with_tiers (tier0 m) t1 s m, Raise e)
end.

Definition count_pass (m : manager S) : manager S :=
Manager (read_only_tier2 m) (tier0 m) (tier1 m) (tier2 m) (tier3 m)
  (consolidation_threshold m) (failure_threshold m) (pattern_threshold m) (half_life m)
  (prune_floor m) (maintenance_passes m + 1).

(** [_maintenance_pass]. *)
Definition maintenance_pass (now : pystr) (io : bool) : py (manager S) unit := λ m,
if consolidation_threshold m <=? Z.of_nat (length (ring (tier1 m))) then
  match consolidate_now now io m with
  | (m', Ok _) => (count_pass m', Ok tt)
  | (m', Raise e) => (m', Raise e)
  end
else
  match forget (half_life m) (prune_floor m) (tier2 m) with
  | (s, Ok _) => (count_pass (with_tiers (tier0 m) (tier1 m) s m), Ok tt)
  | (s, Raise e) => (with_tiers (tier0 m) (tier1 m) s m, Raise e)
  end.

(** ** Facts from peers *)

Record import_counts := Counts {
imported : Z;
skipped : Z;
duplicates : Z
}.

(** [fact.get("content") or fact.get("fact") or ""], sanitised. *)
Definition fact_content (d : list (pystr * pyval)) : pystr :=
sanitize_text (py_str (py_or (py_or (dict_get (u "content") VNone d)
                                    (dict_get (u "fact") VNone d)) (VStr []))) 2000.

(** The salience of a peer's fact: clamped, 0.8 when it is not a number. *)
Definition fact_salience `{PyFloatOfStr} (d : list (pystr * pyval)) : res f64 :=
match py_float (dict_get (u "salience") (VFloat (f_dec 8 1)) d) with
| Ok x => Ok (fmax f0 (fmin (f_of_Z 10) x))
| Raise (TypeError _) | Raise (ValueError _) => Ok (f_dec 8 1)
| Raise e => Raise e
end.

Definition or_fact (s : pystr) : pystr := match s with [] => u "fact" | _ => s end.

(** The kind handed to [store_fact]. *)
Definition fact_kind (d : list (pystr * pyval)) : pystr :=
or_fact (sanitize_text (py_str (py_or (dict_get (u "kind") VNone d) (VStr (u "fact")))) 32).

Definition known (content : pystr) (s : S) : bool :=
match t2_exists with Some f => f content s | None => false end.

(** The loop body: one fact of the batch. *)
Definition import_fact `{PyFloatOfStr} `{PyDictOf} (origin now : pystr) (f : pyval)
  (n : import_counts) : py S import_counts := λ s,
match f with
| VDict d =>
    let content := fact_content d in
    if bool_decide (content = []) then (s, Ok (Counts (imported n) (skipped n + 1) (duplicates n)))
    else if known content s then (s, Ok (Counts (imported n) (skipped n) (duplicates n + 1)))
    else
      match py_dict_or_empty (dict_get (u "metadata") VNone d) with
      | Raise e => (s, Raise e)
      | Ok meta =>
          let meta := dset (u "shared_at") (VStr now) (dset (u "shared_from") (VStr origin) meta) in
          match fact_salience d with
          | Raise e => (s, Raise e)
          | Ok sal =>
              match t2_store content (fact_kind d) sal meta now s with
              | (s', Ok _) => (s', Ok (Counts (imported n + 1) (skipped n) (duplicates n)))
              | (s', Raise e) => (s', Raise e)
              end
          end
      end
| _ => (s, Ok (Counts (imported n) (skipped n + 1) (duplicates n)))
end.

Fixpoint import_facts `{PyFloatOfStr} `{PyDictOf} (origin now : pystr) (facts : list pyval)
  (n : import_counts) : py S import_counts := λ s,
match facts with
| [] => (s, Ok n)
| f :: rest => match import_fact origin now f n s with
               | (s', Ok n') => import_facts origin now rest n' s'
               | (s', Raise e) => (s', Raise e)
               end
end.

Definition origin_of (source : pystr) : pystr :=
match sanitize_text source 64 with [] => u "unknown" | s => s end.

(** [import_shared_facts]. *)
Definition import_shared_facts `{PyFloatOfStr} `{PyDictOf} (set_text : list pystr → pystr)
  (facts : list pyval) (source now : pystr) : py (manager S) import_counts := λ m,
match enforce_write set_text (read_only_tier2 m) (u "tier2") (u "shugonet") with
| Raise e => (m, Raise e)
| Ok _ =>
    let '(s, r) := import_facts (origin_of source) now facts (Counts 0 0 0) (tier2 m) in
    (with_tiers (tier0 m) (tier1 m) s m, r)
end.
End Consolidation.

(** [_shareable_fact] and [export_shared_facts] over the SQLite store. *)
Definition shareable_fact (f : fact) : list (pystr * pyval) :=
  [(u "content", VStr (f_content f)); (u "kind", VStr (f_kind f));
   (u "salience", VFloat (f_salience f)); (u "created_at", VStr (f_created f));
   (u "metadata", VDict (f_meta f))].

Definition export_shared_facts (since : option pystr) (limit : Z) (s : store) :
    list (list (pystr * pyval)) :=
  shareable_fact <$> facts_since since limit s.

(** ** Retrieval *)

Section Retrieval.
Context (word_beyond : N → bool) (str_lower : pystr → pystr) (sha256_int : pystr → Z).

(** The facts of one entity not seen yet. *)
Definition add_graph_hits (top_k : Z) (s : store) (acc : list Z * list fact) (entity : pystr) :
  list Z * list fact :=
foldl (λ '(seen, hits) f, if bool_decide (f_id f ∈ seen) then (seen, hits)
                          else (f_id f :: seen, hits ++ [f]))
  acc (facts_about str_lower entity top_k s).

(** [retrieve_context]: the store reinforced by the search, the semantic
  hits, the graph hits and the recent episodes. *)
Definition retrieve_context (query : pystr) (top_k : Z) (include_episodic : bool) (now : pystr)
  (m : manager store) : manager store * (list (f64 * fact) * list fact * list event) :=
let '(s, hits) := search sha256_int query top_k f0 true now (tier2 m) in
let graph := foldl (add_graph_hits top_k s) (f_id <$> hits.*2, [])
               (take 3 (extract_entities word_beyond str_lower query 8)) in
(with_tiers (tier0 m) (tier1 m) s m,
 (hits, graph.2, if include_episodic then recent (Some 10) (tier1 m) else [])).
End Retrieval.

(** ** The worker *)

(** [min(60.0, interval * (2 ** failures))]: the power is a Python integer,
    converted to a float to be multiplied. *)
Definition backoff (interval : f64) (failures : Z) : res f64 :=
  x ← py_float_of_Z (2 ^ failures); Ok (fmin (f_of_Z 60) (fmul interval x)).

Record worker := Worker {
  w_failures : Z;
  w_interval : f64;
  w_reports : Z
}.

(** One iteration of [_worker_loop], given whether its maintenance pass
    succeeded; [Raise] is an exception that leaves the loop. *)
Definition worker_step (interval : f64) (threshold : Z) (has_fallbacks passed : bool) (w : worker) :
    res worker :=
  if passed then Ok (Worker 0 interval (w_reports w))
  else
    let n := w_failures w + 1 in
    i ← backoff interval n;
    Ok (Worker n i (if has_fallbacks && (threshold <=? n) then w_reports w + 1
                    else w_reports w)).

(** Iterations one after the other. *)
Fixpoint worker_run (interval : f64) (threshold : Z) (has_fallbacks : bool) (passed : list bool)
    (w : worker) : res worker :=
  match passed with
  | [] => Ok w
  | b :: rest => w' ← worker_step interval threshold has_fallbacks b w;
                 worker_run interval threshold has_fallbacks rest w'
  end.

(** ** Importing twice *)

Section ImportFacts.
Context {S : Type} `{Tier2Laws S} `{PyRepr} `{PyFloatOfStr} `{PyDictOf}.

(** The facts of a batch that have a content. *)
Definition contentful (f : pyval) : bool :=
match f with VDict d => negb (bool_decide (fact_content d = [])) | _ => false end.

Definition content_of (f : pyval) : pystr :=
match f with VDict d => fact_content d | _ => [] end.

Definition count_if (p : pyval → bool) (l : list pyval) : Z :=
Z.of_nat (length (List.filter p l)).

Lemma count_if_cons p x l : count_if p (x :: l) = (if p x then 1 else 0) + count_if p l.
Proof. unfold count_if. simpl. destruct (p x); simpl; lia. Qed.

Lemma known_lookup c s : known c s = t2_lookup c s.
Proof. unfold known. by rewrite t2_has_lookup. Qed.

(** One fact that is imported without an exception. *)
Lemma import_fact_spec origin now f n s s' n' :
import_fact origin now f n s = (s', Ok n') →
(∀ c, t2_lookup c s = true → t2_lookup c s' = true) ∧
(contentful f = true → t2_lookup (content_of f) s' = true) ∧
skipped n' = skipped n + (if contentful f then 0 else 1) ∧
imported n' + duplicates n' = imported n + duplicates n + (if contentful f then 1 else 0).
Proof.
destruct f as [| | | | | |d]; simpl; try (intros [= <- <-]; simpl; split_and!; first [done|lia]).
case_bool_decide as Hc; simpl; [intros [= <- <-]; simpl; split_and!; first [done|lia]|].
rewrite known_lookup. destruct (t2_lookup _ s) eqn:El;
  [intros [= <- <-]; simpl; split_and!; first [done|lia]|].
destruct (py_dict_or_empty _) as [meta|]; [|done].
destruct (fact_salience d) as [sal|]; [|done].
destruct (t2_store _ _ _ _ _ _) as [s1 [id|]] eqn:Es; [|done]. intros [= <- <-]. simpl.
split_and!; [|intros _; by eapply t2_lookup_stored|lia|lia].
intros c. by eapply t2_lookup_kept.
Qed.

Lemma import_facts_spec origin now facts n s s' n' :
import_facts origin now facts n s = (s', Ok n') →
(∀ c, t2_lookup c s = true → t2_lookup c s' = true) ∧
(∀ f, f ∈ facts → contentful f = true → t2_lookup (content_of f) s' = true) ∧
skipped n' = skipped n + count_if (λ f, negb (contentful f)) facts ∧
imported n' + duplicates n' = imported n + duplicates n + count_if contentful facts.
Proof.
revert n s. induction facts as [|f facts IH]; simpl.
- intros n s [= <- <-]. split_and!; [done|set_solver|unfold count_if; simpl; lia..].
- intros n s. destruct (import_fact origin now f n s) as [s1 [n1|]] eqn:E1; [|done].
  apply import_fact_spec in E1 as (Hk & Hf & Hs & Hi).
  intros (Hk' & Hf' & Hs' & Hi')%IH. rewrite !count_if_cons. split_and!.
  + auto.
  + intros g [->|Hg]%elem_of_cons; auto.
  + destruct (contentful f); simpl; lia.
  + lia.
Qed.

(** A batch whose contents are all known changes nothing. *)
Lemma import_known origin now facts n s :
(∀ f, f ∈ facts → contentful f = true → t2_lookup (content_of f) s = true) →
import_facts origin now facts n s =
(s, Ok (Counts (imported n) (skipped n + count_if (λ f, negb (contentful f)) facts)
          (duplicates n + count_if contentful facts))).
Proof.
revert n. induction facts as [|f facts IH]; simpl; intros n Hk.
- unfold count_if. simpl. rewrite !Z.add_0_r. by destruct n.
- assert (import_fact origin now f n s =
          (s, Ok (if contentful f then Counts (imported n) (skipped n) (duplicates n + 1)
                  else Counts (imported n) (skipped n + 1) (duplicates n)))) as ->.
  { specialize (Hk f ltac:(left)). destruct f as [| | | | | |d]; try done. simpl in *.
    case_bool_decide; simpl in *; [done|]. by rewrite known_lookup, Hk. }
  rewrite IH by (intros; apply Hk; [by right|done]). rewrite !count_if_cons. cbv beta.
  destruct (contentful f); simpl; do 3 f_equal; lia.
Qed.

(** Importing a batch of facts from a peer is idempotent: after a batch
  went in, the same batch from any peer at any time changes nothing, imports
  nothing, skips what it skipped before and counts all the rest as
  duplicates. *)
Theorem import_idempotent st1 st2 facts src now src' now' (m m1 : manager S) n1 :
import_shared_facts st1 facts src now m = (m1, Ok n1) →
import_shared_facts st2 facts src' now' m1 =
  (m1, Ok (Counts 0 (skipped n1) (imported n1 + duplicates n1))).
Proof.
unfold import_shared_facts, enforce_write.
assert (∀ b, check_write_permission b (u "tier2") (u "shugonet") = true) as Hg by done.
rewrite !Hg. destruct (import_facts _ _ _ _ (tier2 m)) as [s r] eqn:E. intros [= <- ->].
apply import_facts_spec in E as (_ & Hf & Hs & Hi). cbn [tier2 with_tiers].
rewrite import_known by done. simpl in *. rewrite Hs, Hi. done.
Qed.
End ImportFacts.

(** ** A failed consolidation *)

Section FailureFacts.
Context {S : Type} `{Tier2 S} `{PyRepr}.

Lemma drain_spec t1 ls :
journal t1 = Some ls →
ring (drain true t1).1 = [] ∧ (drain true t1).2 = ring t1 ∧
is_Some (journal (drain true t1).1) ∧
(batch_in_flight t1 = false → journal (drain true t1).1 = Some (journal_line <$> ring t1)).
Proof.
intros Hj. unfold drain, has_journal. rewrite Hj. simpl.
destruct (batch_in_flight t1); simpl; unfold compact_journal; rewrite ?Hj; simpl;
split_and!; eauto; done.
Qed.

Lemma mark_spec t1 :
is_Some (journal t1) →
ring (mark_consolidated true t1) = ring t1 ∧
journal (mark_consolidated true t1) = Some (journal_line <$> ring t1).
Proof. intros [ls Hj]. unfold mark_consolidated, compact_journal. simpl. by rewrite Hj. Qed.

(** When storing a batch raises, the journal still holds the batch and
  nothing is acknowledged, as documented; but the next consolidation that
  succeeds, though it processes no event, empties the journal. The batch is
  then neither in Tier 1 nor in the journal, and no restart brings it back. *)
Theorem failed_batch_lost now now' (m m1 m2 : manager S) ls e st :
journal (tier1 m) = Some ls → batch_in_flight (tier1 m) = false →
consolidate_now now true m = (m1, Raise e) →
consolidate_now now' true m1 = (m2, Ok st) →
journal (tier1 m1) = Some (journal_line <$> ring (tier1 m)) ∧ ring (tier1 m1) = [] ∧
events_processed st = 0 ∧ facts_stored st = 0 ∧
ring (tier1 m2) = [] ∧ journal (tier1 m2) = Some [].
Proof.
intros Hj Hb. unfold consolidate_now at 1.
pose proof (drain_spec _ _ Hj) as (Hr & Hev & Hs & Hjb). specialize (Hjb Hb).
destruct (drain true (tier1 m)) as [t1 events]. cbn [fst snd] in *.
destruct (consolidate_impl m now events (tier2 m)) as [s [st'|e']]; [done|].
intros [= <- <-]. unfold consolidate_now. cbn [tier0 tier1 tier2 with_tiers].
pose proof (drain_spec _ _ Hjb) as (Hr2 & Hev2 & Hs2 & _).
destruct (drain true t1) as [t2 events2]. cbn [fst snd] in *.
rewrite Hr in Hev2. subst events2.
destruct (consolidate_impl _ now' [] s) as [s2 [st2|]] eqn:Ec; [|done].
intros [= <- <-]. cbn [tier1 with_tiers].
destruct (mark_spec t2 Hs2) as [E1 E2]. rewrite E1, E2, Hr2.
assert (events_processed st2 = 0 ∧ facts_stored st2 = 0) as [-> ->]; [|done].
revert Ec. unfold consolidate_impl. cbn [read_only_tier2 with_tiers].
destruct (read_only_tier2 m); simpl; [by intros [= _ <-]|]. py_unfold.
destruct (forget _ _ s) as [s3 [n|]]; [|done]. by intros [= _ <-].
Qed.

(** C36. An agent whose Tier 2 is read-only consolidates without touching it,
  and drops the drained events; but a maintenance pass below the threshold
  decays and prunes the shared store all the same. *)
Theorem shared_read_consolidation now io (m : manager S) :
read_only_tier2 m = true →
tier2 (consolidate_now now io m).1 = tier2 m ∧
(∃ st, (consolidate_now now io m).2 = Ok st ∧ facts_stored st = 0 ∧ pruned st = 0) ∧
(Z.of_nat (length (ring (tier1 m))) < consolidation_threshold m →
 tier2 (maintenance_pass now io m).1 = (forget (half_life m) (prune_floor m) (tier2 m)).1).
Proof.
intros Hro. split_and!.
- unfold consolidate_now. destruct (drain io (tier1 m)) as [t1 events].
  unfold consolidate_impl. rewrite Hro. by destruct events.
- unfold consolidate_now. destruct (drain io (tier1 m)) as [t1 events].
  unfold consolidate_impl. rewrite Hro. destruct events; simpl; eauto.
- intros Hlt. unfold maintenance_pass.
  destruct (Z.leb_spec (consolidation_threshold m) (Z.of_nat (length (ring (tier1 m))))); [lia|].
  by destruct (forget _ _ _) as [s [n|]].
Qed.
End FailureFacts.

(** ** Consolidation accounts for every event *)

Section ConsolidationFacts.
Context {S : Type} `{Tier2 S} `{PyRepr}.

(** An event as [record] builds it: a string type and an object payload. *)
Definition well_typed (e : event) : Prop :=
∃ t p, dget (u "type") e = Some (VStr t) ∧ dget (u "payload") e = Some (VDict p).

Definition type_of (e : event) : pystr :=
match dget (u "type") e with Some (VStr t) => t | _ => [] end.

Definition has_type (t : pystr) (e : event) : bool := bool_decide (type_of e = t).

(** The types in order of first appearance. *)
Fixpoint first_types (seen : list pystr) (events : list event) : list pystr :=
match events with
| [] => seen
| e :: rest => first_types (if bool_decide (type_of e ∈ seen) then seen
                            else seen ++ [type_of e]) rest
end.

(** The groups of the given types over the events so far. *)
Definition groups_of (ts : list pystr) (events : list event) : list (pyval * list event) :=
(λ t, (VStr t, List.filter (has_type t) events)) <$> ts.

Lemma first_types_nodup seen events : NoDup seen → NoDup (first_types seen events).
Proof.
revert seen. induction events as [|e l IH]; simpl; [done|]. intros seen Hn. apply IH.
case_bool_decide; [done|by apply NoDup_snoc].
Qed.

Lemma first_types_elem seen events t :
t ∈ seen ∨ t ∈ type_of <$> events → t ∈ first_types seen events.
Proof.
revert seen. induction events as [|e l IH]; csimpl; intros seen Ht; [set_solver|].
apply IH. case_bool_decide; set_solver.
Qed.

(** One update of the grouping. *)
Lemma group_step t e ts done :
type_of e = t → NoDup ts → (∀ e', e' ∈ done → type_of e' ∈ ts) →
vset (VStr t) (λ g, default [] g ++ [e]) (groups_of ts done) =
groups_of (if bool_decide (t ∈ ts) then ts else ts ++ [t]) (done ++ [e]).
Proof.
intros Et Hn Hd.
assert (∀ ts', (∀ t', t' ∈ ts' → t' ≠ t) →
        groups_of ts' (done ++ [e]) = groups_of ts' done) as Hsame.
{ intros ts' Hne. apply list_fmap_ext. intros i t' Ht'. apply list_elem_of_lookup_2 in Ht'.
  f_equal. rewrite List.filter_app. simpl. unfold has_type at 2.
  rewrite bool_decide_eq_false_2 by (rewrite Et; intros ->; by eapply Hne).
  apply app_nil_r. }
assert (∀ ts', (∀ t', t' ∈ ts' → t' ≠ t) →
        vset (VStr t) (λ g, default [] g ++ [e]) (groups_of ts' done)
        = groups_of ts' done ++ [(VStr t, [e])]) as Hnew.
{ induction ts' as [|t' ts' IH]; intros Hne; [done|].
  change (groups_of (t' :: ts') done)
    with ((VStr t', List.filter (has_type t') done) :: groups_of ts' done).
  cbn [vset py_eq]. rewrite bool_decide_eq_false_2 by (apply Hne; left).
  simpl. f_equal. apply IH. intros. apply Hne. by right. }
case_bool_decide as Hin.
- clear Hd. induction ts as [|t' ts IH]; [set_solver|]. apply NoDup_cons in Hn as [Hni Hn].
  change (groups_of (t' :: ts) ?l)
    with ((VStr t', List.filter (has_type t') l) :: groups_of ts l).
  cbn [vset py_eq]. destruct (decide (t' = t)) as [->|Hne].
  + rewrite bool_decide_eq_true_2 by done.
    rewrite List.filter_app. simpl. unfold has_type at 3.
    rewrite bool_decide_eq_true_2 by done. f_equal. symmetry. apply Hsame. by intros t' ? ->.
  + rewrite bool_decide_eq_false_2 by done. apply elem_of_cons in Hin as [?|Hin]; [by subst|].
    rewrite IH by done. f_equal. rewrite List.filter_app. simpl. unfold has_type at 3.
    rewrite bool_decide_eq_false_2 by (rewrite Et; congruence). by rewrite app_nil_r.
- rewrite Hnew by (intros t' Ht' ->; done). unfold groups_of. rewrite fmap_app. f_equal.
  + symmetry. apply Hsame. by intros t' ? ->.
  + simpl. rewrite List.filter_app. simpl. unfold has_type at 2.
    rewrite (bool_decide_eq_true_2 _ Et).
    rewrite filter_none; [done|]. intros x Hx. apply bool_decide_eq_false_2.
    intros Ex. apply Hin. rewrite <- Ex. by apply Hd.
Qed.

Lemma group_events_spec rest ts done :
Forall well_typed rest → NoDup ts → (∀ e', e' ∈ done → type_of e' ∈ ts) →
group_events rest (groups_of ts done) = Ok (groups_of (first_types ts rest) (done ++ rest)).
Proof.
revert ts done. induction rest as [|e rest IH]; intros ts done Hw Hn Hd; simpl.
- by rewrite app_nil_r.
- apply Forall_cons in Hw as [(t & p & Et & _) Hw]. unfold item. rewrite Et. simpl.
  assert (type_of e = t) as E by (unfold type_of; by rewrite Et).
  rewrite (group_step t e ts done E Hn Hd), E.
  replace (done ++ e :: rest) with ((done ++ [e]) ++ rest) by by rewrite <- app_assoc.
  apply IH; [done| |].
  + case_bool_decide; [done|by apply NoDup_snoc].
  + intros e' [He'| ->%list_elem_of_singleton]%elem_of_app.
    * apply Hd in He'. case_bool_decide; set_solver.
    * rewrite E. case_bool_decide; set_solver.
Qed.

Lemma groups_partition ts events :
NoDup ts → concat (groups_of ts events).*2
  ≡ₚ List.filter (λ e, bool_decide (type_of e ∈ ts)) events.
Proof.
induction ts as [|t ts IH]; intros Hn; simpl.
- by rewrite filter_none.
- apply NoDup_cons in Hn as [Hni Hn]. unfold groups_of in IH. rewrite IH by done. clear IH.
  induction events as [|e l IH]; simpl; [done|].
  unfold has_type at 1. destruct (decide (type_of e = t)) as [->|Hne].
  + rewrite (bool_decide_eq_true_2 (t = t)) by done. rewrite (bool_decide_eq_false_2 _ Hni).
    rewrite bool_decide_eq_true_2 by left. simpl. by rewrite IH.
  + rewrite (bool_decide_eq_false_2 _ Hne).
    rewrite (bool_decide_ext (type_of e ∈ t :: ts) (type_of e ∈ ts))
      by (rewrite elem_of_cons; naive_solver).
    case_bool_decide; [|done]. by rewrite <- Permutation_middle, IH.
Qed.

Lemma count_failures_ok group :
Forall well_typed group → ∃ n, count_failures group = Ok n.
Proof.
induction 1 as [|e l (t & p & _ & Ep) _ (n & IH)]; simpl; [eauto|].
unfold is_failure, dict_get. rewrite Ep. simpl.
destruct (truthy (VDict p)) eqn:E; unfold py_or; rewrite E; simpl; rewrite IH; simpl; eauto.
Qed.

Lemma group_fact_ok ft pt t group :
Forall well_typed group → ∃ dp, group_fact ft pt (t, group) = Ok dp.
Proof. intros (n & E)%count_failures_ok. unfold group_fact. rewrite E. simpl. eauto. Qed.

(** Tier 2 after one draft. *)
Definition store_draft (now : pystr) (s : S) (d : draft) : S :=
let '(c, k, sal, meta) := d in (t2_store c k sal meta now s).1.

Definition promotions (ds : list (draft * bool)) : Z :=
Z.of_nat (length (List.filter snd ds)).

Lemma store_groups_spec ft pt now groups ds n p s :
(∀ c k sal meta s, is_ok (t2_store c k sal meta now s).2 = true) →
Forall2 (λ g d, group_fact ft pt g = Ok d) groups ds →
store_groups ft pt now groups n p s =
(foldl (store_draft now) s ds.*1,
 Ok (n + Z.of_nat (length groups), p + promotions ds)).
Proof.
intros Hok Hf. revert n p s. induction Hf as [|g [[[[c k] sal] meta] promo] gs ds E Hf IH];
  intros n p s.
- simpl. unfold promotions. simpl. by rewrite !Z.add_0_r.
- cbn [store_groups]. rewrite E. specialize (Hok c k sal meta s) as Hs.
  destruct (t2_store c k sal meta now s) as [s' [id|]] eqn:Es; [|done].
  rewrite IH. csimpl. rewrite Es. cbn [fst]. f_equal. f_equal. unfold promotions. simpl.
  f_equal; [lia|]. destruct promo; simpl; lia.
Qed.

Lemma filter_all {A} (p : A → bool) l : (∀ x, x ∈ l → p x = true) → List.filter p l = l.
Proof.
induction l as [|x l IH]; simpl; [done|]. intros Hl. rewrite (Hl x) by left. f_equal.
apply IH. intros y Hy. apply Hl. by right.
Qed.

(** Consolidating a batch of recorded events on a Tier 2 that does not
  fail: the events are split by type, each event into exactly one group, in
  the order the types first occur; each group becomes one fact, a promoted
  failure insight, a pattern or a summary by its counts; the facts are
  stored in that order, then Tier 2 decays and is pruned, and the statistics
  are the numbers of events, facts and promotions. *)
Theorem consolidation_accounts (m : manager S) now events s :
Forall well_typed events → events ≠ [] → read_only_tier2 m = false →
(∀ c k sal meta s, is_ok (t2_store c k sal meta now s).2 = true) →
let types := first_types [] events in
let groups := groups_of types events in
∃ ds, Forall2 (λ g d, group_fact (failure_threshold m) (pattern_threshold m) g = Ok d) groups ds ∧
  NoDup types ∧ concat groups.*2 ≡ₚ events ∧
  ∀ s' n, forget (half_life m) (prune_floor m) (foldl (store_draft now) s ds.*1) = (s', Ok n) →
    consolidate_impl m now events s =
      (s', Ok (Stats (Z.of_nat (length events)) (Z.of_nat (length types)) (promotions ds) n)).
Proof.
intros Hw Hne Hro Hok. cbv zeta.
assert (NoDup (first_types [] events)) as Hn by (apply first_types_nodup; constructor).
assert (∀ e, e ∈ events → type_of e ∈ first_types [] events) as Hall.
{ intros e He. apply first_types_elem. right. by apply list_elem_of_fmap_2. }
assert (∃ ds, Forall2 (λ g d, group_fact (failure_threshold m) (pattern_threshold m) g = Ok d)
                (groups_of (first_types [] events) events) ds) as [ds Hds].
{ generalize (first_types [] events) as ts. intros ts.
  induction ts as [|t ts [ds IH]]; [by exists []|].
  destruct (group_fact_ok (failure_threshold m) (pattern_threshold m) (VStr t)
              (List.filter (has_type t) events)) as [d Hd].
  { rewrite Forall_forall in Hw |- *. intros e He. apply Hw.
    apply list_elem_of_In, List.filter_In in He as [He _]. by apply list_elem_of_In. }
  exists (d :: ds). by constructor. }
exists ds. split_and!; [done|done| |].
- rewrite groups_partition by done. rewrite filter_all; [done|].
  intros e He. apply bool_decide_eq_true_2. auto.
- intros s' n Hf. unfold consolidate_impl. rewrite Hro.
  destruct events as [|e0 l] eqn:Ev; [done|]. rewrite <- Ev in *. clear Ev e0 l.
  pose proof (group_events_spec events [] [] Hw (NoDup_nil_2) ltac:(set_solver)) as Hg.
  change (groups_of [] []) with (@nil (pyval * list event)) in Hg. rewrite Hg. simpl app.
  py_unfold. rewrite (store_groups_spec _ _ _ _ ds) by done. rewrite Hf.
  unfold groups_of. rewrite length_fmap. done.
Qed.
End ConsolidationFacts.

(** ** The worker's back-off *)

Lemma power_converts k : (k < 1024)%nat → is_ok (py_float_of_Z (2 ^ Z.of_nat k)) = true.
Proof.
  intros Hk. assert (forallb (λ k, is_ok (py_float_of_Z (2 ^ Z.of_nat k))) (List.seq 0 1024) = true)
    as Hall by (vm_compute; reflexivity).
  rewrite forallb_forall in Hall. apply Hall, in_seq. lia.
Qed.

(** The worker backs off exponentially up to a minute and reports from
    the threshold on; but the 1024th failure in a row leaves its loop, since
    [2 ** 1024] does not convert to a float: the exception is raised inside
    the handler that was to keep the worker alive. *)
Theorem worker_backoff interval thr k w :
  0 < thr → f_is_nan interval = false → w_failures w = 0 →
  ((k < 1024)%nat → ∃ w', worker_run interval thr true (replicate k false) w = Ok w' ∧
     w_failures w' = Z.of_nat k ∧
     w_reports w' = w_reports w + Z.max 0 (Z.of_nat k - thr + 1) ∧
     ((0 < k)%nat → fleb (w_interval w') (f_of_Z 60) = true)) ∧
  ((1024 <= k)%nat → worker_run interval thr true (replicate k false) w = Raise OverflowError).
Proof.
  intros Ht Hni H0.
  assert (∀ i b bs w, worker_run interval thr i (bs ++ b) w =
            (w' ← worker_run interval thr i bs w; worker_run interval thr i b w')) as Happ.
  { intros i b bs. induction bs as [|x bs IH]; intros w1; simpl; [done|].
    destruct (worker_step _ _ _ x w1); simpl; [apply IH|done]. }
  assert (∀ k, (k < 1024)%nat → ∃ w', worker_run interval thr true (replicate k false) w = Ok w' ∧
     w_failures w' = Z.of_nat k ∧
     w_reports w' = w_reports w + Z.max 0 (Z.of_nat k - thr + 1) ∧
     ((0 < k)%nat → fleb (w_interval w') (f_of_Z 60) = true)) as Hlow.
  { clear k. induction k as [|k IH]; intros Hk.
    - exists w. simpl. split_and!; [done|lia|lia|lia].
    - destruct IH as (w1 & E & Ef & Er & _); [lia|].
      rewrite replicate_S_end, Happ, E. cbn [mbind res_bind worker_run worker_step].
      unfold backoff. rewrite Ef. replace (Z.of_nat k + 1) with (Z.of_nat (Datatypes.S k)) by lia.
      pose proof (power_converts (Datatypes.S k) Hk) as Hp.
      destruct (py_float_of_Z _) as [x|]; [|done]. cbn [mbind res_bind].
      eexists. split; [reflexivity|]. cbn [w_failures w_reports w_interval andb]. split_and!.
      + done.
      + destruct (Z.leb_spec thr (Z.of_nat (Datatypes.S k))); lia.
      + intros _. by apply fmin_le_l. }
  split; [apply Hlow|]. intros Hk.
  destruct (Hlow 1023%nat ltac:(lia)) as (w1 & E & Ef & _).
  replace k with (1023 + (1 + (k - 1024)))%nat by lia.
  rewrite !replicate_add, Happ, E. cbn [mbind res_bind].
  change (replicate 1 false) with [false]. cbn [app worker_run worker_step]. rewrite Ef.
  assert (py_float_of_Z (2 ^ (Z.of_nat 1023 + 1)) = Raise OverflowError) as Ho
    by (vm_compute; reflexivity).
  unfold backoff. by rewrite Ho.
Qed.

(** ** Witnesses *)

Section MemoryWitness.
#[local] Instance demo_repr : PyRepr := λ _, u "{}".
#[local] Instance demo_float_of_str : PyFloatOfStr := λ _, Raise (ValueError []).
#[local] Instance demo_dict_of : PyDictOf := λ _, Raise (TypeError []).

Definition demo_manager {S} (read_only : bool) (t1 : episodic) (t2 : S) : manager S :=
Manager read_only (Scratchpad.new_pad 256 4096) t1 t2 (new_core [] None None) 25 3 5
  (f_of_Z 72) (f_dec 5 2) 0.

Definition peer_batch : list pyval :=
[VDict [(u "content", VStr (u "the lift is slow")); (u "salience", VInt 40)];
 VDict [(u "fact", VStr (u "the lift is  slow"))]; VStr (u "noise")].

#[local] Instance demo_tier2 : Tier2 store :=
semantic_tier2 no_word lower demo_digest (λ _, None) demo_pow.
#[local] Instance demo_tier2_laws : Tier2Laws store :=
semantic_tier2_laws no_word lower demo_digest (λ _, None) demo_pow.

Definition demo_import : manager store * res import_counts :=
import_shared_facts (λ _, []) peer_batch (u "node-b") (u "t1")
  (demo_manager false (log_of []) (new_store 16)).

Lemma import_idempotent_witness :
demo_import.2 = Ok (Counts 1 1 1) ∧
import_shared_facts (λ _, []) peer_batch (u "node-c") (u "t2") demo_import.1
  = (demo_import.1, Ok (Counts 0 1 2)).
Proof.
split; [vm_compute; reflexivity|].
apply (import_idempotent (λ _, []) (λ _, []) peer_batch (u "node-b") (u "t1") (u "node-c") (u "t2")
         (demo_manager false (log_of []) (new_store 16)) demo_import.1 (Counts 1 1 1)).
vm_compute. reflexivity.
Defined.

(** A Tier 2 whose database is locked at its first write. *)
#[local] Instance flaky_tier2 : Tier2 Z := {
t2_store _ _ _ _ _ := λ s, (s + 1, if s =? 0 then Raise (RuntimeError (u "database is locked"))
                                    else Ok s);
t2_decay _ := λ s, (s, Ok 0);
t2_prune _ := λ s, (s, Ok 0);
t2_exists := None
}.

Definition journalled : episodic :=
Episodic 8 None [good_step] 1 (Some [journal_line good_step]) false.

Definition after_failure : manager Z :=
(consolidate_now (u "t1") true (demo_manager false journalled 0)).1.
Definition after_success : manager Z := (consolidate_now (u "t2") true after_failure).1.

Lemma failed_batch_lost_witness :
journal (tier1 after_failure) = Some [journal_line good_step] ∧
ring (tier1 after_success) = [] ∧ journal (tier1 after_success) = Some [].
Proof.
destruct (failed_batch_lost (u "t1") (u "t2") (demo_manager false journalled 0) after_failure
            after_success [journal_line good_step] (RuntimeError (u "database is locked"))
            (Stats 0 0 0 0)) as (H1 & _ & _ & _ & H2 & H3);
  [reflexivity|reflexivity|vm_compute; reflexivity..|].
exact (conj H1 (conj H2 H3)).
Defined.

Lemma shared_read_consolidation_witness :
read_only_tier2 (demo_manager true journalled 0) = true ∧
tier2 (consolidate_now (u "t1") true (demo_manager true journalled 0)).1 = 0.
Proof.
split; [reflexivity|].
exact (proj1 (shared_read_consolidation (u "t1") true (demo_manager true journalled 0) eq_refl)).
Defined.

Lemma consolidation_accounts_witness :
[good_step; failed_step; good_step] ≠ [] ∧
∃ ds, Forall2 (λ g d, group_fact 3 5 g = Ok d)
        (groups_of [u "scan"; u "grasp"] [good_step; failed_step; good_step]) ds.
Proof.
split; [done|].
destruct (consolidation_accounts (demo_manager false (log_of []) (new_store 16)) (u "t1")
            [good_step; failed_step; good_step] (new_store 16)) as (ds & Hds & _).
- repeat constructor; unfold well_typed; repeat eexists; reflexivity.
- done.
- reflexivity.
- intros c k sal meta s. simpl. unfold store_fact. reflexivity.
- exists ds. exact Hds.
Defined.

Lemma worker_backoff_witness :
0 < 3 ∧ worker_run (f_of_Z 10) 3 true (replicate 1024 false) (Worker 0 (f_of_Z 10) 0)
        = Raise OverflowError.
Proof.
split; [lia|].
apply (worker_backoff (f_of_Z 10) 3 1024 (Worker 0 (f_of_Z 10) 0));
  [lia|reflexivity|reflexivity|lia].
Defined.
End MemoryWitness.
