(* ===== verification/Models.v ===== *)
(** * Models and their scores ([src/model_manager.py],
    [src/reinforcement_learning.py])

    The registry of the models an agent may ask, with a performance score
    each, and the reinforcement that moves the scores with the outcome of
    every task.  A registry entry is the decoded object it was configured
    with.  [aggregate_outputs], which nothing calls, is not modelled. *)

From Stdlib Require Import ZArith Lia.
From Stdlib Require Import Floats.SpecFloat.
From S2P Require Import Prelude PyFloat PyStr PyVal AuditTrail Episodic.

Local Open Scope Z_scope.

(** ** The registry *)

Definition MODEL_PERFORMANCE_CAP : f64 := f_of_Z 100.

Record model_manager := Models {
  models : list pydict;
  model_performance : list (pyval * f64)
}.

(** A dictionary keyed by any hashable value. *)
Fixpoint vget {V} (k : pyval) (d : list (pyval * V)) : option V :=
  match d with
  | [] => None
  | (k', v) :: d' => if py_eq k' k then Some v else vget k d'
  end.

Definition vassign {V} (k : pyval) (v : V) (d : list (pyval * V)) : res (list (pyval * V)) :=
  vupdate k (λ _, v) d.

(** [{model['id']: 1.0 for model in models}]. *)
Fixpoint initial_scores (l : list pydict) (d : list (pyval * f64)) : res (list (pyval * f64)) :=
  match l with
  | [] => Ok d
  | m :: l' => k ← item (u "id") m; d' ← vassign k f1 d; initial_scores l' d'
  end.

(** [ModelManager.__init__]. *)
Definition new_model_manager (l : list pydict) : res model_manager :=
  d ← initial_scores l []; Ok (Models l d).

(** [model['type'] == task['type']]. *)
Definition type_matches (task model : pydict) : res bool :=
  t ← item (u "type") model; t' ← item (u "type") task; Ok (py_eq t t').

(** [[m for m in l if p(m)]] of a test that may raise. *)
Fixpoint res_filter {A} (p : A → res bool) (l : list A) : res (list A) :=
  match l with
  | [] => Ok []
  | x :: l' => b ← p x; k ← res_filter p l'; Ok (if b : bool then x :: k else k)
  end.

(** [select_models]. *)
Definition select_models (task : pydict) (mm : model_manager) : res (list pydict) :=
  l ← res_filter (type_matches task) (models mm);
  Ok (match l with [] => models mm | _ => l end).

(** [get_model_performance]. *)
Definition get_model_performance (id : pyval) (mm : model_manager) : f64 :=
  default f1 (vget id (model_performance mm)).

(** The assignment both setters make when the model is registered. *)
Definition put_score (id : pyval) (f : f64 → f64) (mm : model_manager) : model_manager :=
  match vget id (model_performance mm) with
  | Some p => Models (models mm) (vset id (λ _, fmin (f p) MODEL_PERFORMANCE_CAP)
                                    (model_performance mm))
  | None => mm
  end.

(** [update_model_performance]. *)
Definition update_model_performance (id : pyval) (success : bool) (mm : model_manager) :
    model_manager :=
  put_score id (λ p, fmul p (if success then f_dec 11 1 else f_dec 9 1)) mm.

(** [set_model_performance]. *)
Definition set_model_performance (id : pyval) (performance : f64) (mm : model_manager) :
    model_manager :=
  put_score id (λ _, fmax f0 performance) mm.

(** [add_model]: the entry is listed before its id is read. *)
Definition add_model (m : pydict) : py model_manager unit := λ mm,
  let mm' := Models (models mm ++ [m]) (model_performance mm) in
  match (k ← item (u "id") m; vassign k f1 (model_performance mm')) with
  | Ok d => (Models (models mm') d, Ok tt)
  | Raise e => (mm', Raise e)
  end.

(** The two loops of [update_models]. *)
Fixpoint set_scores `{PyFloatOfStr} (scores : pydict) : py model_manager unit :=
  match scores with
  | [] => mret tt
  | (id, v) :: rest =>
      p ← of_res (py_float v);
      modify (set_model_performance (VStr id) p) ;;
      set_scores rest
  end.

Fixpoint add_models (l : list pyval) : py model_manager unit :=
  match l with
  | [] => mret tt
  | VDict m :: rest =>
      (if dhas (u "id") m then add_model m else mret tt) ;; add_models rest
  | _ :: rest => add_models rest
  end.

(** [.items()] needs an object. *)
Definition items (v : pyval) : res pydict :=
  match v with
  | VDict d => Ok d
  | _ => Raise (AttributeError (u "object has no attribute 'items'"))
  end.

(** [update_models]. *)
Definition update_models `{PyFloatOfStr} (environment_data : pyval) : py model_manager unit :=
  match environment_data with
  | VDict d =>
      scores ← of_res (items (dict_get (u "model_performances") (VDict []) d));
      set_scores scores ;;
      new ← of_res (py_iter (dict_get (u "new_models") (VList []) d));
      add_models new
  | _ => mret tt
  end.

(** ** Reinforcement *)

(** [self.learning_rate]. *)
Definition learning_rate : f64 := f_dec 1 1.

(** Whether a result counts as a success. *)
Definition is_success (result : pydict) : bool :=
  match dict_get (u "success") VNone result with
  | VNone => is_str (dict_get (u "status") VNone result) (u "success")
  | v => truthy v
  end.

Definition reinforced_score (success : bool) (p : f64) : f64 :=
  fmul p (if success then fadd f1 learning_rate else fsub f1 learning_rate).

Fixpoint reinforce_all (success : bool) (ids : list pyval) : py model_manager unit :=
  match ids with
  | [] => mret tt
  | id :: rest =>
      raise_if (negb (hashable id)) (TypeError (u "unhashable type")) ;;
      mm ← get;
      put (set_model_performance id (reinforced_score success (get_model_performance id mm)) mm) ;;
      reinforce_all success rest
  end.

(** [ReinforcementLearning.update_model_performance]. *)
Definition reinforce_models (decision result : pydict) : py model_manager unit :=
  ids ← of_res (py_iter (dict_get (u "model_outputs") (VDict []) decision));
  reinforce_all (is_success result) ids.

(** [evaluate_performance]. *)
Definition evaluate_performance (result : pyval) : f64 :=
  match result with
  | VDict r =>
      if is_str (dict_get (u "status") VNone r) (u "success")
         || bool_decide (dict_get (u "success") VNone r = VBool true) then f1
      else if is_str (dict_get (u "status") VNone r) (u "error") || dhas (u "error") r then f0
      else f_dec 5 1
  | _ => f_dec 5 1
  end.

(** ** Bounds of the scores *)

(** A score in range: neither NaN nor outside 0 to the cap. *)
Definition score_ok (x : f64) : Prop :=
  fleb f0 x = true ∧ fleb x MODEL_PERFORMANCE_CAP = true.

Definition scores_ok (mm : model_manager) : Prop :=
  Forall (λ kv, score_ok kv.2) (model_performance mm).

Lemma score_one : score_ok f1.
Proof. by vm_compute. Qed.

Lemma score_clamped p : score_ok (fmin (fmax f0 p) MODEL_PERFORMANCE_CAP).
Proof.
  assert (fleb f0 (fmax f0 p) = true) as H0 by by apply fmax_ge_l.
  split; [by apply fmin_ge; [|by vm_compute]|].
  by apply fmin_le_r; [destruct (fleb_not_nan _ _ H0)|].
Qed.

Lemma fmul_finite_plus s1 m1 e1 s2 m2 e2 :
  xorb s1 s2 = false →
  f_plus (fmul (S754_finite s1 m1 e1) (S754_finite s2 m2 e2)) = true.
Proof.
  intros Hs. unfold fmul, SFmul. rewrite Hs. by apply binary_round_aux_plus.
Qed.

Lemma score_scaled p k m e :
  score_ok p → k = S754_finite false m e →
  score_ok (fmin (fmul p k) MODEL_PERFORMANCE_CAP).
Proof.
  intros [H0 H1] ->.
  assert (fleb f0 (fmul p (S754_finite false m e)) = true) as Hn.
  { rewrite <- f_nonneg_spec in *. destruct p as [[]|[]| |[] m' e']; try done.
    assert (f_plus (fmul (S754_finite false m' e') (S754_finite false m e)) = true) as Hp
      by by apply fmul_finite_plus.
    revert Hp. by destruct (fmul _ _) as [[]|[]| |[]]. }
  split; [by apply fmin_ge; [|by vm_compute]|].
  apply fmin_le_r; [by destruct (fleb_not_nan _ _ Hn)|done].
Qed.

Lemma vset_ok (P : f64 → Prop) k f (d : list (pyval * f64)) :
  Forall (λ kv, P kv.2) d → (∀ v, vget k d = v → P (f v)) → Forall (λ kv, P kv.2) (vset k f d).
Proof.
  induction d as [|[k' v] d IH]; simpl; intros Hd Hf; [repeat constructor; by apply Hf|].
  apply Forall_cons in Hd as [Hv Hd]. destruct (py_eq k' k); constructor; simpl; auto.
Qed.

Lemma vget_ok (P : f64 → Prop) k (d : list (pyval * f64)) v :
  Forall (λ kv, P kv.2) d → vget k d = Some v → P v.
Proof.
  induction d as [|[k' w] d IH]; simpl; [done|]. intros [Hw Hd]%Forall_cons.
  destruct (py_eq k' k); intros; simplify_eq; auto.
Qed.

Lemma put_score_ok id f mm :
  scores_ok mm → (∀ p, score_ok p → score_ok (fmin (f p) MODEL_PERFORMANCE_CAP)) →
  scores_ok (put_score id f mm).
Proof.
  intros Hs Hf. unfold put_score. destruct (vget id _) as [p|] eqn:E; [|done].
  apply vset_ok; [done|]. intros _ _. eapply Hf, vget_ok; [exact Hs|exact E].
Qed.

Lemma set_score_ok id p mm : scores_ok mm → scores_ok (set_model_performance id p mm).
Proof. intros. apply put_score_ok; [done|]. intros. apply score_clamped. Qed.

Lemma update_score_ok id b mm : scores_ok mm → scores_ok (update_model_performance id b mm).
Proof.
  intros. apply put_score_ok; [done|]. intros p Hp.
  destruct b; (eapply score_scaled; [done|vm_compute; reflexivity]).
Qed.

Lemma vassign_ok k v (d d' : list (pyval * f64)) :
  Forall (λ kv, score_ok kv.2) d → score_ok v → vassign k v d = Ok d' →
  Forall (λ kv, score_ok kv.2) d'.
Proof.
  unfold vassign, vupdate. destruct (hashable k); [|done]. intros Hd Hv [= <-].
  by apply vset_ok.
Qed.

Lemma add_model_ok m : keeps scores_ok (add_model m).
Proof.
  intros mm Hs. unfold add_model, scores_ok in *. simpl.
  destruct (item _ _) as [k|]; simpl; [|done].
  destruct (vassign _ _ _) eqn:E; simpl; [|done].
  eapply vassign_ok; [exact Hs|exact score_one|exact E].
Qed.

Lemma reinforce_each_ok b ids : keeps scores_ok (reinforce_all b ids).
Proof.
  induction ids as [|id ids IH]; simpl; [keeps_auto|].
  apply keeps_bind; [keeps_auto|]. intros []. apply triple_get. intros mm Hmm.
  apply (triple_pre scores_ok); [|by intros s (_ & ?)].
  apply keeps_bind; [|by intros []]. intros s _. by apply set_score_ok.
Qed.

Lemma update_models_ok `{PyFloatOfStr} v : keeps scores_ok (update_models v).
Proof.
  assert (∀ d, keeps scores_ok (set_scores d)).
  { induction d as [|[id w] d IH]; simpl; keeps_auto.
    apply keeps_modify. intros. by apply set_score_ok. }
  assert (∀ l, keeps scores_ok (add_models l)).
  { induction l as [|[] l IH]; simpl; keeps_auto. apply add_model_ok. }
  unfold update_models. keeps_auto.
Qed.

(** What happens to the scores over a run. *)
Inductive score_op : Type :=
  | S_reinforce (decision result : pydict)
  | S_update (id : pyval) (success : bool)
  | S_set (id : pyval) (performance : f64)
  | S_add (m : pydict)
  | S_environment (data : pyval).

Definition score_exec `{PyFloatOfStr} (o : score_op) (mm : model_manager) : model_manager :=
  match o with
  | S_reinforce d r => (reinforce_models d r mm).1
  | S_update id b => update_model_performance id b mm
  | S_set id p => set_model_performance id p mm
  | S_add m => (add_model m mm).1
  | S_environment v => (update_models v mm).1
  end.

(** The scores stay in range: from any registry that could be built, every
    history of reinforcements, explicit settings, added models and environment
    updates keeps each score a number between 0 and the cap, whatever floats
    the updates carry and wherever one of them raises. *)
Theorem scores_bounded `{PyFloatOfStr} l mm ops :
  new_model_manager l = Ok mm →
  scores_ok (foldl (λ m o, score_exec o m) mm ops).
Proof.
  intros Hn. assert (scores_ok mm) as Hs.
  { unfold new_model_manager in Hn. assert (∀ l d d', Forall (λ kv, score_ok kv.2) d →
      initial_scores l d = Ok d' → Forall (λ kv, score_ok kv.2) d') as Hi.
    { clear. induction l as [|m l IH]; simpl; intros d d' Hd Hr; [by injection Hr as <-|].
      destruct (item _ m) as [k|]; [|done]. simpl in Hr.
      destruct (vassign _ _ _) as [d1|] eqn:E; [|done]. simpl in Hr.
      eapply IH; [|exact Hr]. eapply vassign_ok; [exact Hd|exact score_one|exact E]. }
    destruct (initial_scores l []) eqn:E; [|done]. injection Hn as <-.
    by eapply Hi; [|exact E]. }
  clear Hn. revert mm Hs. induction ops as [|o ops IH]; simpl; intros mm Hs; [done|].
  apply IH. destruct o; simpl.
  - unfold reinforce_models. revert mm Hs. change (keeps scores_ok (reinforce_models decision result)).
    unfold reinforce_models. keeps_auto. apply reinforce_each_ok.
  - by apply update_score_ok.
  - by apply set_score_ok.
  - by apply add_model_ok.
  - by apply update_models_ok.
Qed.

#[local] Instance no_floats : PyFloatOfStr := λ _, Raise (ValueError []).

Definition demo_models : list pydict :=
  [[(u "id", VStr (u "small")); (u "type", VStr (u "text")); (u "weight", VFloat f1)]].

Lemma scores_bounded_witness :
  ∃ mm, new_model_manager demo_models = Ok mm ∧
    scores_ok (foldl (λ m o, score_exec o m) mm
      [S_reinforce [(u "model_outputs", VDict [(u "small", VStr [])])] [];
       S_set (VStr (u "small")) f_inf; S_update (VStr (u "small")) true]).
Proof.
  eexists. split; [vm_compute; reflexivity|].
  apply (scores_bounded demo_models). vm_compute. reflexivity.
Defined.
