(* ===== verification/Execution.v ===== *)
(** * The execution layer ([src/execution_layer.py])

    The executor behind the policy gate: the check of the verdict token, the
    dispatch to built-in actions and installed handlers, and the guarded
    request with its allowlist, circuit breaker, rate limit and capped body.

    What is outside the process is the class [ExecEnv]: the clock, what an
    installed handler does, and what a request brings back.  [x_trace] is a
    history of the effects, in order; the code does not keep it, the theorems
    are stated with it.  The tracer's spans are not modelled. *)

From Stdlib Require Import ZArith Lia.
From Stdlib Require Import Floats.SpecFloat.
From S2P Require Import Prelude PyFloat PyStr PyVal Security Policy AuditTrail StateMachine.

Local Open Scope Z_scope.

(** ** Data *)

(** [NETWORK_ACTION_TYPES] and [NETWORK_READ_ACTION_TYPES] grow in place when
    the mesh bridge registers; they are arguments here. *)
Definition handler_types (network network_read : list pystr) : list pystr :=
  SIDE_EFFECTING_ACTION_TYPES ++ ROBOTICS_ACTION_TYPES ++ ROBOTICS_SAFETY_ACTION_TYPES
  ++ ROBOTICS_READ_ACTION_TYPES ++ MOBILE_ACTION_TYPES ++ MOBILE_READ_ACTION_TYPES
  ++ network ++ network_read ++ FLEET_ACTION_TYPES ++ FLEET_READ_ACTION_TYPES
  ++ OBSERVATION_ACTION_TYPES ++ SPEECH_OUTPUT_ACTION_TYPES ++ ASK_USER_ACTION_TYPES.

(** The layer: [H] is the type of the callables installed as handlers. *)
Record exec_layer (H : Type) := Layer {
  handlers : list (pystr * H);
  breakers : list (pystr * CircuitBreaker);
  limiter : RateLimiter;
  secrets : SecretResolver;
  capabilities : CapabilityRegistry;
  max_response_bytes : Z
}.
Arguments Layer {H} _ _ _ _ _ _.
Arguments handlers {H} _.
Arguments breakers {H} _.
Arguments limiter {H} _.
Arguments secrets {H} _.
Arguments capabilities {H} _.
Arguments max_response_bytes {H} _.

(** The calls the history keeps: the consent registry consulted (the registry
    and the time it was read with), the approval broker's answer, the executor
    entered in a mode of the governor, and the two effects outside. *)
Inductive interaction : Type :=
  | I_consent (action_type : pystr) (attention : pyval) (now : f64) (registry : consents)
  | I_approval (action_type : pystr) (granted : bool)
  | I_execute (action_type : pyval) (mode : AgentState)
  | I_handler (key : pystr) (decision : pydict)
  | I_http (method url : pystr).

Record http_request := Request {
  rq_method : pystr;
  rq_url : pystr;
  rq_params : pyval;
  rq_json : pyval
}.

(** What a request brings back: a [RequestException] by its class name, or a
    response whose body arrives in chunks and may break off. *)
Inductive http_reply : Type :=
  | Http_failed (name : pystr)
  | Http_answer (status : Z) (encoding : option pystr) (chunks : list (list N))
      (broken : option pystr).

Class ExecEnv (H E : Type) := {
  env_clock : E → E * f64;
  env_readings : E → E * (f64 * list (f64 * f64 * f64));
  env_handler : H → pydict → py E pyval;
  env_http : http_request → E → E * http_reply
}.

(** The layer with the audit chain it shares, the history and the
    environment. *)
Record xstate (H E : Type) := XState {
  x_layer : exec_layer H;
  x_audit : option (list audit_event);
  x_trace : list interaction;
  x_env : E
}.
Arguments XState {H E} _ _ _ _.
Arguments x_layer {H E} _.
Arguments x_audit {H E} _.
Arguments x_trace {H E} _.
Arguments x_env {H E} _.

Definition refused (why : pystr) : pydict :=
  [(u "status", VStr (u "refused")); (u "reason", VStr why)].
Definition error_msg (message : pystr) : pydict :=
  [(u "status", VStr (u "error")); (u "message", VStr message)].
Definition not_implemented (why : pystr) : pydict :=
  [(u "status", VStr (u "not_implemented")); (u "reason", VStr why)].

Definition status (r : pydict) : pyval := dict_get (u "status") VNone r.

(** The loop over the chunks of a response: what was read, how much, and
    whether the stream was read to its end. *)
Fixpoint read_body (max_bytes total : Z) (chunks : list (list N)) : list N * Z * bool :=
  match chunks with
  | [] => ([], total, true)
  | c :: rest =>
      let total := total + Z.of_nat (length c) in
      if max_bytes <=? total then (c, total, false)
      else let '(b, t, e) := read_body max_bytes total rest in (c ++ b, t, e)
  end.

Section Execution.
Context {H E : Type} {XE : ExecEnv H E}.
Abbreviation X := (xstate H E).

(** ** State updates *)

Definition with_layer (l : exec_layer H) (s : X) : X :=
XState l (x_audit s) (x_trace s) (x_env s).
Definition with_env (e : E) (s : X) : X := XState (x_layer s) (x_audit s) (x_trace s) e.
Definition set_breaker (host : pystr) (b : CircuitBreaker) (s : X) : X :=
let l := x_layer s in
with_layer (Layer (handlers l) (dset host b (breakers l)) (limiter l) (secrets l)
        (capabilities l) (max_response_bytes l)) s.
Definition set_limiter (r : RateLimiter) (s : X) : X :=
let l := x_layer s in
with_layer (Layer (handlers l) (breakers l) r (secrets l) (capabilities l)
        (max_response_bytes l)) s.

Definition note (i : interaction) : py X unit :=
modify (λ s, XState (x_layer s) (x_audit s) (x_trace s ++ [i]) (x_env s)).

Definition on_env {A} (m : py E A) : py X A := λ s,
let '(e, r) := m (x_env s) in (with_env e s, r).

Definition clock : py X f64 := on_env (λ e, let '(e', t) := env_clock e in (e', Ok t)).

(** [_audit]. *)
Definition audit (event_type : pystr) (payload : pydict) : py X unit :=
modify (λ s, XState (x_layer s)
         ((λ log, log ++ [AuditEvent event_type payload]) <$> x_audit s)
         (x_trace s) (x_env s)).

(** [register_handler]. *)
Definition register_handler (network network_read : list pystr) (action_type : pystr) (h : H) :
py (exec_layer H) unit := λ l,
let types := handler_types network network_read in
if bool_decide (action_type ∈ types) then
(Layer (dset action_type h (handlers l)) (breakers l) (limiter l) (secrets l)
 (capabilities l) (max_response_bytes l), Ok tt)
else (l, Raise (ValueError (u "handlers are only allowed for allowed types "
                      ++ repr_list (sort_by str_leb (remove_dups types))))).

(** [breakers_open_count] at the given reading of the clock. *)
Definition breakers_open_count (now : f64) (l : exec_layer H) : Z :=
Z.of_nat (length (List.filter (λ kv, is_open now kv.2) (breakers l))).

(** ** Guarded egress *)

Context (urlparse : pystr → res parsed_url) (environ : pystr → option pystr).
Context (json_loads : pystr → res pyval) (bytes_decode : pystr → list N → res pystr).

Definition breaker_of (host : pystr) (s : X) : CircuitBreaker :=
default (new_breaker 5 (f_of_Z 60)) (dget host (breakers (x_layer s))).

Definition record_outcome (host : pystr) (good : bool) : py X unit :=
if good then modify (λ s, set_breaker host (record_success (breaker_of host s)) s)
else now ← clock;
 modify (λ s, set_breaker host (record_failure now (breaker_of host s)) s).

Definition network_error (host name : pystr) : py X pydict :=
record_outcome host false ;; mret (error_msg (u "network error: " ++ name)).

Definition status_ok (http_status : Z) : bool := (http_status <? 400) && negb (http_status =? 429).

(** [_do_request]. *)
Definition do_request (rq : http_request) (host : pystr) : py X pydict :=
s ← get;
let max_bytes := max_response_bytes (x_layer s) in
note (I_http (rq_method rq) (rq_url rq)) ;;
reply ← on_env (λ e, let '(e', r) := env_http rq e in (e', Ok r));
match reply with
| Http_failed name => network_error host name
| Http_answer http_status encoding chunks broken =>
let '(raw, total, complete) := read_body max_bytes 0 chunks in
match (if (complete : bool) then broken else None) with
| Some name => network_error host name
| None =>
  text ← of_res (bytes_decode (default (u "utf-8") (non_empty encoding))
                   (take (Z.to_nat max_bytes) raw));
  record_outcome host (status_ok http_status) ;;
  mret [(u "status", VStr (if status_ok http_status then u "success" else u "error"));
        (u "http_status", VInt http_status); (u "data", VStr (take 4000 text));
        (u "truncated", VBool (max_bytes <? total))]
end
end.

(** [_guarded_request]. *)
Definition guarded_request (rq : http_request) : py X pydict :=
s ← get;
okr ← of_res (validate_api_call urlparse (rq_url rq) (rq_method rq)
          (capabilities (x_layer s)));
if negb okr.1 then mret (refused okr.2) else
p ← of_res (urlparse (rq_url rq));
let host := default (u "unknown") (non_empty (hostname p)) in
modify (λ s, set_breaker host (breaker_of host s) s) ;;
now ← clock;
s ← get;
let '(b, go) := allow now (breaker_of host s) in
modify (set_breaker host b) ;;
if negb go then mret (refused (u "circuit open for host '" ++ host ++ u "'")) else
readings ← on_env (λ e, let '(e', r) := env_readings e in (e', Ok r));
s ← get;
let '(l, got, _) := acquire host (f_of_Z 5) readings.1 readings.2 (limiter (x_layer s)) in
modify (set_limiter l) ;;
if bool_decide (got = Some true) then do_request rq host
else mret (refused (u "rate limit exceeded for host '" ++ host ++ u "'")).

(** [http_get_json]. *)
Definition http_get_json (url : pystr) (params : pyval) : py X pydict :=
guarded_request (Request (u "GET") url params VNone).

(** ** Actions *)

(** [decision.get("params") or {}], used as an object. *)
Definition params_of (d : pydict) : res pydict :=
as_dict (py_or (dict_get (u "params") VNone d) (VDict [])).

Definition call_handler (key : pystr) (h : H) (d : pydict) : py X pyval :=
note (I_handler key d) ;; on_env (env_handler h d).

(** [self._handlers.get(key)], called, or the honest refusal. *)
Definition handler_or (key why : pystr) (d : pydict) : py X pyval :=
s ← get;
match dget key (handlers (x_layer s)) with
| Some h => call_handler key h d
| None => mret (VDict (not_implemented why))
end.

Definition body_methods : list pystr := [u "POST"; u "PUT"; u "PATCH"].

Definition execute_api_call `{PyRepr} (d : pydict) : py X pyval :=
params ← of_res (params_of d);
let url := py_or (dict_get (u "url") VNone params) (dict_get (u "api_endpoint") VNone d) in
if negb (truthy url) then mret (VDict (error_msg (u "API endpoint not provided"))) else
let method := upper (py_str (py_or (dict_get (u "method") VNone params) (VStr (u "GET")))) in
let body := if bool_decide (method ∈ body_methods) then dict_get (u "payload") VNone params
      else VNone in
r ← guarded_request (Request method (py_str url) (dict_get (u "query") VNone params) body);
mret (VDict r).

(** The query of a read action. *)
Definition query_of (params d : pydict) : pyval :=
py_or (dict_get (u "query") VNone params) (dict_get (u "query") VNone d).

Definition execute_news_api (d : pydict) : py X pyval :=
params ← of_res (params_of d);
let query := query_of params d in
if negb (truthy query) then mret (VDict (error_msg (u "Query not provided"))) else
s ← get;
match non_empty (resolver_get environ (u "news_api_key") None (secrets (x_layer s))) with
| None => mret (VDict (error_msg
      (u "news API key not configured (set SHUGOCORE_NEWS_API_KEY)")))
| Some key =>
r ← guarded_request (Request (u "GET") (u "https://newsapi.org/v2/everything")
(VDict [(u "q", query); (u "apiKey", VStr key);
        (u "language", dict_get (u "language") (VStr (u "en")) params)]) VNone);
mret (VDict r)
end.

(** One related topic: its title and link, when it is an object with text. *)
Definition topic (v : pyval) : option pyval :=
match v with
| VDict d =>
let text := dict_get (u "Text") VNone d in
if truthy text then
Some (VDict [(u "title", text); (u "url", dict_get (u "FirstURL") VNone d)])
else None
| _ => None
end.

(** [[... for item in json.loads(data).get("RelatedTopics", []) ...]] with the
two caught exceptions. *)
Definition topics_of (data : pystr) : res pyval :=
match (v ← json_loads data; d ← as_dict v;
 items ← py_iter (dict_get (u "RelatedTopics") (VList []) d);
 Ok (VList (omap topic items))) with
| Raise (ValueError _) | Raise (AttributeError _) => Ok (VList [])
| r => r
end.

Definition data_of (r : pydict) : res pystr :=
match dict_get (u "data") (VStr (u "{}")) r with
| VStr s => Ok s
| _ => Raise (TypeError (u "the JSON object must be str, bytes or bytearray"))
end.

Definition execute_search_api (d : pydict) : py X pyval :=
params ← of_res (params_of d);
let query := query_of params d in
if negb (truthy query) then mret (VDict (error_msg (u "Query not provided"))) else
r ← guarded_request (Request (u "GET") (u "https://api.duckduckgo.com/")
(VDict [(u "q", query); (u "format", VStr (u "json")); (u "no_html", VStr (u "1"))])
VNone);
if is_str (status r) (u "success") then
data ← of_res (data_of r);
results ← of_res (topics_of data);
mret (VDict (dset (u "results") results r))
else mret (VDict r).

Definition execute_database_update `{PyRepr} (d : pydict) : py X pyval :=
params ← of_res (params_of d);
let statement := py_or (dict_get (u "statement") VNone params)
                 (dict_get (u "update_query") VNone d) in
if negb (truthy statement) then
mret (VDict (error_msg (u "database statement not provided")))
else
s ← get;
let '(good, reason) := validate_sql (py_str statement) (capabilities (x_layer s)) in
if negb good then mret (VDict (refused reason))
else handler_or (u "database_update")
   (u "no executor registered for 'database_update'; actions are never simulated") d.

Definition execute_hardware_interaction `{PyRepr} (d : pydict) : py X pyval :=
params ← of_res (params_of d);
let command := py_or (dict_get (u "command") VNone params) (dict_get (u "command") VNone d) in
s ← get;
let '(good, reason) :=
validate_hardware (py_str (py_or command (VStr []))) (capabilities (x_layer s)) in
if negb good then mret (VDict (refused reason))
else handler_or (u "hardware_interaction")
 (u "no executor registered for 'hardware_interaction'; actions are never simulated") d.

(** ** Dispatch *)

Definition no_speech (key : pystr) : pystr :=
u "no speech provider registered for '" ++ key ++ u "'; actions are never simulated".

(** The body of [_dispatch]'s [try]. *)
Definition dispatch_action `{PyRepr} (d : pydict) : py X pyval :=
let t := dict_get (u "action_type") VNone d in
if is_str t (u "api_call") then execute_api_call d
else if is_str t (u "news_api") then execute_news_api d
else if is_str t (u "search_api") then execute_search_api d
else if is_str t (u "database_update") then execute_database_update d
else if is_str t (u "hardware_interaction") then execute_hardware_interaction d
else if is_str t (u "multi_step_process") then
mret (VDict (refused (u "multi_step_process must be expanded and individually gated by the decision engine")))
else if is_str t (u "record_observation") then
handler_or (u "record_observation")
(u "no handler registered for 'record_observation'; actions are never simulated") d
else if is_str t (u "speak") then handler_or (u "speak") (no_speech (u "speak")) d
else if is_str t (u "ask_user") then handler_or (u "ask_user") (no_speech (u "ask_user")) d
else
s ← get;
match (if truthy t then dget (py_str t) (handlers (x_layer s)) else None) with
| Some h => call_handler (py_str t) h d
| None => mret (VDict (error_msg (u "Unknown action type")))
end.

(** [_dispatch]: an exception becomes an error with the class's name. *)
Definition dispatch `{PyRepr} (d : pydict) : py X pyval :=
r ← attempt (dispatch_action d);
match r with
| Ok v => mret v
| Raise e => mret (VDict (error_msg (exn_name e)))
end.

(** ** The entry point *)

Context (sha256 : pystr → pystr) (dumps : pyval → pystr) {PR : PyRepr}.

(** The verdict token of a decision matches its other fields. *)
Definition verdict_refusal (d : pydict) : option pystr :=
match dict_get (u "_policy") VNone d with
| VDict verdict =>
if negb (is_str (dict_get (u "verdict") VNone verdict) (u "allow")) then
Some (u "policy verdict is not 'allow'")
else if negb (is_str (dict_get (u "decision_hash") VNone verdict)
              (canonical_hash sha256 dumps (VDict (without [u "_policy"] d)))) then
Some (u "policy verdict does not match decision content")
else None
| _ => Some (u "missing policy verdict (fail-closed)")
end.

(** [execute]: a handler's result that is not an object raises on [.get]. *)
Definition execute (d : pydict) : py X pydict :=
let clean := without [u "_policy"] d in
v ← match verdict_refusal d with
| Some why => mret (VDict (refused why))
| None => dispatch clean
end;
r ← of_res (as_dict v);
audit (u "execution")
[(u "action_type", dict_get (u "action_type") VNone clean);
 (u "status", status r);
 (u "reason", VStr (sanitize_text (py_str
(py_or (py_or (dict_get (u "reason") VNone r) (dict_get (u "message") VNone r))
   (VStr []))) 120))] ;;
mret r.
End Execution.

(** ** What an execution may do *)

(** The result claims success. *)
Definition succeeded (r : pydict) : bool := is_str (status r) (u "success").
Definition claims_success (v : pyval) : bool :=
  match v with VDict r => succeeded r | _ => false end.

Section Effects.
Context {H E : Type} {XE : ExecEnv H E}.
Context (urlparse : pystr → res parsed_url) (environ : pystr → option pystr).
Context (json_loads : pystr → res pyval) (bytes_decode : pystr → list N → res pystr).
Abbreviation X := (xstate H E).
Implicit Types (s : X) (l : exec_layer H).

(** The tables no action changes. *)
Definition same_tables l s : Prop :=
capabilities (x_layer s) = capabilities l ∧ handlers (x_layer s) = handlers l
∧ secrets (x_layer s) = secrets l ∧ max_response_bytes (x_layer s) = max_response_bytes l.

(** Nothing has happened since the history was [tr]; exactly one effect has. *)
Definition idle l (tr : list interaction) s : Prop := same_tables l s ∧ x_trace s = tr.
Definition acted l tr (ok : interaction → Prop) s : Prop :=
same_tables l s ∧ ∃ i, ok i ∧ x_trace s = tr ++ [i].

(** An outcome: one permitted effect, or none and no claim of success. *)
Definition settled {A} (claims : A → bool) l tr ok (r : res A) s : Prop :=
acted l tr ok s ∨ (idle l tr s ∧ ∀ v, r = Ok v → claims v = false).

(** The request passes the allowlist. *)
Definition egress_ok l (i : interaction) : Prop :=
match i with
| I_http m url => validate_api_call urlparse url m (capabilities l) = Ok (true, [])
| _ => False
end.

Lemma tables_layer l s a tr e k :
same_tables l s → capabilities k = capabilities (x_layer s) →
handlers k = handlers (x_layer s) → secrets k = secrets (x_layer s) →
max_response_bytes k = max_response_bytes (x_layer s) →
same_tables l (XState k a tr e).
Proof. unfold same_tables. simpl. intros (?&?&?&?) -> -> -> ->. done. Qed.

(** Calls that leave tables and history alone keep every property of them. *)
Definition stable (I : X → Prop) : Prop :=
∀ s k a e, I s → capabilities k = capabilities (x_layer s) →
handlers k = handlers (x_layer s) → secrets k = secrets (x_layer s) →
max_response_bytes k = max_response_bytes (x_layer s) →
I (XState k a (x_trace s) e).

Lemma idle_stable l tr : stable (idle l tr).
Proof. intros s k a e [Ht <-] ????. split; [by apply (tables_layer l s)|done]. Qed.

Lemma acted_stable l tr ok : stable (acted l tr ok).
Proof.
intros s k a e (Ht & i & Hi & Htr) ????.
split; [by apply (tables_layer l s)|]. by exists i.
Qed.

Lemma keeps_on_env {A} I (m : py E A) : stable I → keeps I (on_env m : py X A).
Proof.
intros HI s Hs. unfold on_env. destruct (m (x_env s)) as [e r]. by apply HI.
Qed.

Lemma keeps_clock I : stable I → keeps I (clock : py X f64).
Proof. apply keeps_on_env. Qed.

Lemma keeps_set_breaker I host b : stable I → keeps I (modify (set_breaker host b) : py X unit).
Proof. intros HI. apply keeps_modify. intros s Hs. by apply HI. Qed.

Lemma keeps_set_limiter I r : stable I → keeps I (modify (set_limiter r) : py X unit).
Proof. intros HI. apply keeps_modify. intros s Hs. by apply HI. Qed.

Lemma keeps_breaker_of I host (f : CircuitBreaker → CircuitBreaker) :
stable I → keeps I (modify (λ s, set_breaker host (f (breaker_of host s)) s) : py X unit).
Proof. intros HI. apply keeps_modify. intros s Hs. by apply HI. Qed.

Lemma keeps_record_outcome I host good : stable I → keeps I (record_outcome host good : py X unit).
Proof.
intros HI. unfold record_outcome. destruct good; [by apply keeps_breaker_of|].
apply keeps_bind; [by apply keeps_clock|]. intros now. by apply keeps_breaker_of.
Qed.

Lemma keeps_network_error I host name : stable I → keeps I (network_error host name : py X pydict).
Proof.
intros HI. apply keeps_bind; [by apply keeps_record_outcome|]. intros []. apply keeps_ret.
Qed.

(** A call that keeps having acted settles once the effect is noted. *)
Lemma settled_acted {A} (claims : A → bool) l tr ok (m : py X A) :
keeps (acted l tr ok) m → triple (acted l tr ok) m (settled claims l tr ok).
Proof. intros Hm s Hs. left. by apply Hm. Qed.

Lemma settled_quiet {A} (claims : A → bool) l tr ok (a : A) :
claims a = false → triple (idle l tr) (mret a) (settled claims l tr ok).
Proof. intros Ha s Hs. right. split; [done|]. by intros v [= <-]. Qed.

Lemma settled_raise {A} (claims : A → bool) l tr ok e s :
idle l tr s → settled claims l tr ok (Raise e) s.
Proof. intros Hs. right. split; [done|]. by intros v. Qed.

Lemma do_request_settled l tr rq host (ok : interaction → Prop) :
ok (I_http (rq_method rq) (rq_url rq)) →
triple (idle l tr) (do_request bytes_decode rq host) (settled succeeded l tr ok).
Proof.
intros Hok. apply triple_get. intros s0 _.
apply (triple_modify _ (acted l tr ok)).
{ intros ? (-> & Ht & <-). split; [done|]. by exists (I_http (rq_method rq) (rq_url rq)). }
apply settled_acted, keeps_bind; [apply keeps_on_env, acted_stable|].
intros [name|st enc chunks broken]; [apply keeps_network_error, acted_stable|].
destruct (read_body _ _ _) as [[raw total] complete].
destruct (if complete then broken else None); [apply keeps_network_error, acted_stable|].
apply keeps_bind; [apply keeps_of_res|]. intros text.
apply keeps_bind; [apply keeps_record_outcome, acted_stable|]. intros []. apply keeps_ret.
Qed.

Lemma validate_reason url m c reason :
validate_api_call urlparse url m c = Ok (true, reason) → reason = [].
Proof.
unfold validate_api_call. destruct (validate_url _ _ _ _) as [[[] ?]|]; [|done|done].
case_match; intros; by simplify_eq.
Qed.

Lemma guarded_request_settled l tr rq :
triple (idle l tr) (guarded_request urlparse bytes_decode rq)
(settled succeeded l tr (egress_ok l)).
Proof.
pose proof (idle_stable l tr) as Hst.
apply triple_get. intros s0 [(Hcap & _) _].
apply (triple_pre (idle l tr)); [|by intros s (_ & ?)].
rewrite Hcap. apply triple_of_res; [|intros; by apply settled_raise].
intros [go reason] Hv. destruct go; simpl; [|by apply settled_quiet].
apply triple_of_res; [|intros; by apply settled_raise]. intros p Hp.
set (host := default _ _).
apply triple_keeps; [by apply (keeps_breaker_of _ _ id)|intros; by apply settled_raise|]. intros [].
apply triple_keeps; [by apply keeps_clock|intros; by apply settled_raise|]. intros now.
apply triple_get. intros s1 _. apply (triple_pre (idle l tr)); [|by intros s (_ & ?)].
destruct (allow now _) as [b go].
apply triple_keeps; [by apply keeps_set_breaker|intros; by apply settled_raise|]. intros [].
destruct go; simpl; [|by apply settled_quiet].
apply triple_keeps; [by apply keeps_on_env|intros; by apply settled_raise|]. intros readings.
apply triple_get. intros s2 _. apply (triple_pre (idle l tr)); [|by intros s (_ & ?)].
destruct (acquire _ _ _ _ _) as [[lim got] sleeps].
apply triple_keeps; [by apply keeps_set_limiter|intros; by apply settled_raise|]. intros [].
case_bool_decide; [|by apply settled_quiet].
apply do_request_settled. simpl. by rewrite Hv, (validate_reason _ _ _ _ Hv).
Qed.

(** *** Handlers *)

Context {PR : PyRepr}.

Definition type_field (d : pydict) : pyval := dict_get (u "action_type") VNone d.

(** The statement and the command an action carries. *)
Definition statement_of (params d : pydict) : pyval :=
py_or (dict_get (u "statement") VNone params) (dict_get (u "update_query") VNone d).
Definition command_of (params d : pydict) : pyval :=
py_or (py_or (dict_get (u "command") VNone params) (dict_get (u "command") VNone d)) (VStr []).

(** The handler installed for the decision's own type, called on the decision;
an SQL statement or a hardware command has passed its allowlist. *)
Definition handler_ok l (d : pydict) (i : interaction) : Prop :=
match i with
| I_handler key d' =>
d' = d ∧ truthy (type_field d) = true ∧ key = py_str (type_field d) ∧
dhas key (handlers l) = true ∧
(type_field d = VStr (u "database_update") → ∃ params, params_of d = Ok params ∧
   (validate_sql (py_str (statement_of params d)) (capabilities l)).1 = true) ∧
(type_field d = VStr (u "hardware_interaction") → ∃ params, params_of d = Ok params ∧
   (validate_hardware (py_str (command_of params d)) (capabilities l)).1 = true)
| _ => False
end.

Definition permitted l (d : pydict) (i : interaction) : Prop := egress_ok l i ∨ handler_ok l d i.

Lemma settled_mono {A B} (claims : A → bool) (claims' : B → bool) l tr (ok ok' : interaction → Prop)
(f : A → B) (m : py X A) :
(∀ i, ok i → ok' i) → (∀ a, claims' (f a) = claims a) →
triple (idle l tr) m (settled claims l tr ok) →
triple (idle l tr) (r ← m; mret (f r)) (settled claims' l tr ok').
Proof.
intros Hok Hf Hm s Hs. specialize (Hm s Hs). unfold mbind, py_bind.
destruct (m s) as [s' [a|e]]; simpl in *; (destruct Hm as [(Ht & i & Hi & Htr)|[Hq Hc]];
[left; split; [done|]; exists i; by auto|right; split; [done|]]).
- intros v [= <-]. rewrite Hf. by apply Hc.
- by intros v.
Qed.

Lemma call_handler_settled l tr key h d ok :
ok (I_handler key d) →
triple (idle l tr) (call_handler key h d) (settled claims_success l tr ok).
Proof.
intros Hok. apply (triple_modify _ (acted l tr ok)).
{ intros s (Ht & <-). split; [done|]. by exists (I_handler key d). }
apply settled_acted, keeps_on_env, acted_stable.
Qed.

Lemma handler_or_settled l tr key why d ok :
(dhas key (handlers l) = true → ok (I_handler key d)) →
triple (idle l tr) (handler_or key why d) (settled claims_success l tr ok).
Proof.
intros Hok. apply triple_get. intros s0 [(_ & Hh & _) _].
apply (triple_pre (idle l tr)); [|by intros s (_ & ?)]. rewrite Hh. unfold dhas in Hok.
destruct (dget key (handlers l)); [apply call_handler_settled, Hok; done|by apply settled_quiet].
Qed.

Lemma is_str_eq v k : is_str v k = true → v = VStr k.
Proof. destruct v; simpl; try done. by intros ->%bool_decide_eq_true. Qed.

Lemma is_str_refl k : is_str (VStr k) k = true.
Proof. by apply bool_decide_eq_true_2. Qed.

Lemma handler_ok_plain l d key :
truthy (type_field d) = true → key = py_str (type_field d) → dhas key (handlers l) = true →
type_field d ≠ VStr (u "database_update") → type_field d ≠ VStr (u "hardware_interaction") →
permitted l d (I_handler key d).
Proof. intros. right. by split_and!. Qed.

Lemma handler_or_named l tr key why d :
is_str (type_field d) key = true → key ≠ [] → key ≠ u "database_update" →
key ≠ u "hardware_interaction" →
triple (idle l tr) (handler_or key why d) (settled claims_success l tr (permitted l d)).
Proof.
intros Ht%is_str_eq Hk N1 N2. apply handler_or_settled. intros Hh. apply handler_ok_plain; rewrite ?Ht.
- by destruct key.
- done.
- done.
- congruence.
- congruence.
Qed.

Lemma truthy_str k : k ≠ [] → truthy (VStr k) = true.
Proof. intros. simpl. by rewrite bool_decide_eq_false_2. Qed.

Ltac quiet := intros; first [by apply settled_raise | by apply settled_quiet].

Lemma database_settled l tr d :
is_str (type_field d) (u "database_update") = true →
triple (idle l tr) (execute_database_update d) (settled claims_success l tr (permitted l d)).
Proof.
intros Ht%is_str_eq. apply triple_of_res; [|quiet]. intros params Hp. cbv zeta.
destruct (truthy _) eqn:Es; simpl; [|quiet].
apply triple_get. intros s0 [(Hcap & _) _].
apply (triple_pre (idle l tr)); [|by intros s (_ & ?)]. rewrite Hcap.
destruct (validate_sql _ _) as [[] reason] eqn:Ev; simpl; [|quiet].
apply handler_or_settled. intros Hh. right. split_and!; rewrite ?Ht; try done.
intros _. exists params. split; [done|]. unfold statement_of. by rewrite Ev.
Qed.

Lemma hardware_settled l tr d :
is_str (type_field d) (u "hardware_interaction") = true →
triple (idle l tr) (execute_hardware_interaction d) (settled claims_success l tr (permitted l d)).
Proof.
intros Ht%is_str_eq. apply triple_of_res; [|quiet]. intros params Hp.
apply triple_get. intros s0 [(Hcap & _) _].
apply (triple_pre (idle l tr)); [|by intros s (_ & ?)]. rewrite Hcap.
destruct (validate_hardware _ _) as [[] reason] eqn:Ev; simpl; [|quiet].
apply handler_or_settled. intros Hh. right. split_and!; rewrite ?Ht; try done.
intros _. exists params. split; [done|]. unfold command_of. by rewrite Ev.
Qed.

Lemma request_settled l tr d rq :
triple (idle l tr) (r ← guarded_request urlparse bytes_decode rq; mret (VDict r))
(settled claims_success l tr (permitted l d)).
Proof.
apply (settled_mono succeeded claims_success l tr (egress_ok l) _ VDict); [by left|done|].
apply guarded_request_settled.
Qed.

Lemma search_settled l tr d :
triple (idle l tr) (execute_search_api urlparse json_loads bytes_decode d)
(settled claims_success l tr (permitted l d)).
Proof.
apply triple_of_res; [|quiet]. intros params Hp. cbv zeta.
destruct (truthy _); simpl; [|quiet].
eapply triple_bind.
{ eapply triple_weaken; [apply guarded_request_settled|done|].
intros r s Hr. instantiate (1 := λ r s, settled succeeded l tr (egress_ok l) (Ok r) s).
destruct r as [r|e]; [done|]. destruct Hr as [(Ht & i & Hi & Htr)|[Hq _]].
- left. split; [done|]. exists i. split; [by left|done].
- by apply settled_raise. }
intros r s [(Ht & i & Hi & Htr)|[Hq Hc]]; simpl.
- left. assert (acted l tr (permitted l d) s) as Hs by (split; [done|]; exists i; split; [by left|done]).
fold (succeeded r). destruct (succeeded r); [|done].
unfold mbind, py_bind, of_res. destruct (data_of r); [|done]. by destruct (topics_of _ _).
- specialize (Hc r eq_refl). fold (succeeded r). rewrite Hc.
right. split; [done|]. by intros v [= <-].
Qed.

Lemma dispatch_settled l tr d :
triple (idle l tr) (dispatch_action urlparse environ json_loads bytes_decode d)
(settled claims_success l tr (permitted l d)).
Proof.
unfold dispatch_action. cbv zeta. fold (type_field d).
destruct (is_str _ (u "api_call")).
{ apply triple_of_res; [|quiet]. intros params Hp. cbv zeta.
destruct (truthy _); [apply request_settled|quiet]. }
destruct (is_str _ (u "news_api")).
{ apply triple_of_res; [|quiet]. intros params Hp. cbv zeta.
destruct (truthy _); [|quiet]. simpl. apply triple_get. intros s0 _.
apply (triple_pre (idle l tr)); [|by intros s (_ & ?)].
destruct (non_empty _); [apply request_settled|quiet]. }
destruct (is_str _ (u "search_api")); [apply search_settled|].
destruct (is_str _ (u "database_update")) eqn:Ed; [by apply database_settled|].
destruct (is_str _ (u "hardware_interaction")) eqn:Eh; [by apply hardware_settled|].
destruct (is_str _ (u "multi_step_process")); [quiet|].
destruct (is_str _ (u "record_observation")) eqn:E1; [by apply handler_or_named|].
destruct (is_str _ (u "speak")) eqn:E2; [by apply handler_or_named|].
destruct (is_str _ (u "ask_user")) eqn:E3; [by apply handler_or_named|].
apply triple_get. intros s0 [(_ & Hh & _) _].
apply (triple_pre (idle l tr)); [|by intros s (_ & ?)]. rewrite Hh.
destruct (truthy (type_field d)) eqn:Et; [|quiet].
destruct (dget (py_str _) _) eqn:Eg; [|quiet].
apply call_handler_settled, handler_ok_plain; try done.
- unfold dhas. by rewrite Eg.
- intros Heq. by rewrite Heq, is_str_refl in Ed.
- intros Heq. by rewrite Heq, is_str_refl in Eh.
Qed.
End Effects.

(** ** Theorems *)

Section Gate.
Context {H E : Type} {XE : ExecEnv H E} {PR : PyRepr}.
Context (urlparse : pystr → res parsed_url) (environ : pystr → option pystr).
Context (json_loads : pystr → res pyval) (bytes_decode : pystr → list N → res pystr).
Context (sha256 : pystr → pystr) (dumps : pyval → pystr).
Implicit Types (s : xstate H E).

Abbreviation run := (execute urlparse environ json_loads bytes_decode sha256 dumps).
Abbreviation content := (without [u "_policy"]).

(** The decision carries an allowing verdict bound to its other fields. *)
Definition token_matches (d : pydict) : Prop :=
∃ verdict, dget (u "_policy") d = Some (VDict verdict) ∧
dget (u "verdict") verdict = Some (VStr (u "allow")) ∧
dget (u "decision_hash") verdict = Some (VStr (canonical_hash sha256 dumps (VDict (content d)))).

Lemma dict_get_is_str k d t : is_str (dict_get k VNone d) t = true ↔ dget k d = Some (VStr t).
Proof.
unfold dict_get. destruct (dget k d) as [v|]; simpl; [|done]. split.
- by intros ->%is_str_eq.
- intros [= ->]. apply is_str_refl.
Qed.

Lemma verdict_refusal_spec d : verdict_refusal sha256 dumps d = None ↔ token_matches d.
Proof.
unfold verdict_refusal, token_matches, dict_get at 1.
destruct (dget (u "_policy") d) as [[| | | | | |v]|] eqn:Ep; simpl;
try (split; [done|by intros (v & ? & _); simplify_eq]).
destruct (is_str _ (u "allow")) eqn:Ev; simpl.
- apply dict_get_is_str in Ev. destruct (is_str _ (canonical_hash _ _ _)) eqn:Eh; simpl.
+ apply dict_get_is_str in Eh. split; [|done]. intros _. by exists v.
+ split; [done|]. intros (v' & [= <-] & _ & Hh).
  by apply (dict_get_is_str (u "decision_hash")) in Hh; rewrite Hh in Eh.
- split; [done|]. intros (v' & [= <-] & Hv & _).
by apply (dict_get_is_str (u "verdict")) in Hv; rewrite Hv in Ev.
Qed.

Definition gated_dispatch (d : pydict) : py (xstate H E) pyval :=
match verdict_refusal sha256 dumps d with
| Some why => mret (VDict (refused why))
| None => dispatch urlparse environ json_loads bytes_decode (content d)
end.

Lemma execute_audits d s :
let v := gated_dispatch d s in
x_layer (run d s).1 = x_layer v.1 ∧ x_trace (run d s).1 = x_trace v.1 ∧
x_env (run d s).1 = x_env v.1 ∧ (run d s).2 = (w ← v.2; as_dict w).
Proof.
cbv zeta. unfold execute, mbind, py_bind, res_bind. fold (gated_dispatch d).
destruct (gated_dispatch d s) as [s' [w|e]]; simpl; [|done].
unfold of_res. by destruct (as_dict w).
Qed.

Lemma execute_refuses d s why :
verdict_refusal sha256 dumps d = Some why →
x_layer (run d s).1 = x_layer s ∧ x_trace (run d s).1 = x_trace s ∧
x_env (run d s).1 = x_env s ∧ (run d s).2 = Ok (refused why).
Proof.
intros Ev. pose proof (execute_audits d s) as He. unfold gated_dispatch in He.
by rewrite Ev in He.
Qed.

(** One execution adds at most one effect to the history. *)
Lemma execute_history d s :
x_trace (run d s).1 = x_trace s ∨
∃ i, x_trace (run d s).1 = x_trace s ++ [i] ∧ permitted urlparse (x_layer s) (content d) i.
Proof.
destruct (execute_audits d s) as (_ & -> & _). unfold gated_dispatch.
destruct (verdict_refusal sha256 dumps d); [by left|].
pose proof (dispatch_settled urlparse environ json_loads bytes_decode (x_layer s) (x_trace s)
(content d) s (conj (conj eq_refl (conj eq_refl (conj eq_refl eq_refl))) eq_refl)) as Hd.
unfold dispatch, mbind, py_bind, attempt.
destruct (dispatch_action _ _ _ _ _ s) as [s' r]; simpl in Hd.
destruct Hd as [(_ & i & Hi & Ht)|[[_ Ht] _]]; destruct r; simpl; eauto.
Qed.

(** C6. Executing a decision has at most one effect, and only under a token
that binds an allowing verdict to exactly its fields. The effect is an
allowlisted request, or the call, on the decision itself, of the handler
installed for its own action type, after the SQL or hardware allowlist where
there is one. Without a token the decision is refused and nothing but the
audit changes; a result claims success only when there was an effect. *)
Theorem execute_one_permitted_effect d s :
let s' := (run d s).1 in
same_tables (x_layer s) s' ∧
(¬ token_matches d →
 x_layer s' = x_layer s ∧ x_trace s' = x_trace s ∧ x_env s' = x_env s ∧
 ∃ why, (run d s).2 = Ok (refused why)) ∧
((x_trace s' = x_trace s ∧ ∀ r, (run d s).2 = Ok r → succeeded r = false) ∨
 (token_matches d ∧ ∃ i, x_trace s' = x_trace s ++ [i] ∧
  permitted urlparse (x_layer s) (content d) i)).
Proof.
cbv zeta. destruct (verdict_refusal sha256 dumps d) as [why|] eqn:Ev.
- destruct (execute_refuses d s why Ev) as (El & Et & Ee & Er).
unfold same_tables. rewrite El, Et, Er.
split; [by split_and!|]. split; [by eauto|]. left. split; [done|]. by intros r [= <-].
- pose proof (proj1 (verdict_refusal_spec d) Ev) as Hm.
destruct (execute_audits d s) as (El & Et & Ee & Er). unfold gated_dispatch in *.
unfold same_tables. rewrite Ev in *. rewrite El, Et, Er. clear El Et Ee Er.
pose proof (dispatch_settled urlparse environ json_loads bytes_decode (x_layer s) (x_trace s)
  (content d) s (conj (conj eq_refl (conj eq_refl (conj eq_refl eq_refl))) eq_refl)) as Hd.
unfold dispatch, mbind, py_bind, attempt.
destruct (dispatch_action _ _ _ _ _ s) as [s' r]; simpl in Hd.
assert (same_tables (x_layer s) s') as Hs by (by destruct Hd as [[? _]|[[? _] _]]).
destruct Hd as [(_ & i & Hi & Ht)|[[_ Ht] Hc]];
  (destruct r as [v|e]; simpl; split; [done| |done|]; split; try done); [right|right|left|left].
1,2: split; [done|by exists i].
+ split; [done|]. intros r Hr. specialize (Hc v eq_refl). by destruct v; simplify_eq/=.
+ split; [done|]. by intros r [= <-].
Qed.

(** A token cannot be carried over to another decision: executed with the
token of a decision whose canonical content differs, a decision is refused
with nothing changed but the audit, unless the canonical texts of the two
contents, which differ, have one SHA-256. *)
Theorem tampered_decision_refused {Hinj : Inj (=) (=) dumps} d d' s :
token_matches d → dget (u "_policy") d' = dget (u "_policy") d →
sort_keys (VDict (content d')) ≠ sort_keys (VDict (content d)) →
(canonical_json dumps (VDict (content d')) ≠ canonical_json dumps (VDict (content d)) ∧
 sha256 (canonical_json dumps (VDict (content d'))) =
 sha256 (canonical_json dumps (VDict (content d)))) ∨
(x_layer (run d' s).1 = x_layer s ∧ x_trace (run d' s).1 = x_trace s ∧
 x_env (run d' s).1 = x_env s ∧ ∃ why, (run d' s).2 = Ok (refused why)).
Proof.
intros (v & Ep & _ & Eh) Ep' Hne.
destruct (verdict_refusal sha256 dumps d') as [why|] eqn:Ev.
- right. destruct (execute_refuses d' s why Ev) as (? & ? & ? & ?). eauto.
- left. apply verdict_refusal_spec in Ev as (v' & Ev' & _ & Eh').
rewrite Ep', Ep in Ev'. injection Ev' as <-. rewrite Eh in Eh'. injection Eh' as Hh.
unfold canonical_hash in Hh. split; [|done]. unfold canonical_json. by intros ?%(inj dumps).
Qed.
End Gate.

(** ** The capped body against the whole one *)

(** The capped reader is the plain one. What [_do_request] decodes of a
body that arrives in chunks is what it would decode of the body read whole
and cut to the limit: reading on until the limit is reached, or the end,
loses nothing of the first [max_bytes] bytes. When the stream was read to its
end, nothing was dropped at all; when it was not, the limit was reached. *)
Theorem read_body_reference max_bytes chunks :
  let '(raw, total, complete) := read_body max_bytes 0 chunks in
  take (Z.to_nat max_bytes) raw = take (Z.to_nat max_bytes) (concat chunks) ∧
  total = Z.of_nat (length raw) ∧
  (if complete then raw = concat chunks else max_bytes <= total).
Proof.
  assert (∀ cs total, let '(raw, t, complete) := read_body max_bytes total cs in
    t = total + Z.of_nat (length raw) ∧ raw `prefix_of` concat cs ∧
    (if complete then raw = concat cs else max_bytes <= t)) as H.
  { induction cs as [|c cs IH]; intros total; simpl; [split_and!; [lia|done|done]|].
    destruct (Z.leb_spec max_bytes (total + Z.of_nat (length c))).
    - split_and!; [done|by apply prefix_app_r|done].
    - specialize (IH (total + Z.of_nat (length c))).
      destruct (read_body max_bytes _ cs) as [[raw t] complete]. destruct IH as (-> & Hp & Hc).
      rewrite length_app. split_and!; [lia|by apply prefix_app|].
      destruct complete; [by rewrite Hc|done]. }
  specialize (H chunks 0). destruct (read_body max_bytes 0 chunks) as [[raw t] complete].
  destruct H as (-> & [k Hk] & Hc). split_and!; [|lia|by destruct complete].
  rewrite Hk. destruct complete; [|rewrite take_app_le by lia; done].
  rewrite <- Hc in Hk. assert (k = []) as -> by (by apply (app_inv_head raw); rewrite app_nil_r).
  by rewrite app_nil_r.
Qed.

(** ** The truncation flag *)

Section Truncation.
Context {H E : Type} {XE : ExecEnv H E}.
Context (bytes_decode : pystr → list N → res pystr).
Implicit Types (s : xstate H E).

Lemma read_body_full n total full tail :
0 <= total → (∃ j, total = 8192 * j) → total < 8192 * n →
Forall (λ c : list N, Z.of_nat (length c) = 8192) full → Z.of_nat (length tail) <= 8192 →
(read_body (8192 * n) total (full ++ [tail])).1.2 <= 8192 * n.
Proof.
intros Hp Hj Hlt Hf Ht. revert total Hp Hj Hlt.
induction Hf as [|c full Hc Hf IH]; intros total Hp [j ->] Hlt; cbn [app read_body].
- destruct (_ <=? _); cbn [fst snd]; lia.
- rewrite Hc. destruct (Z.leb_spec (8192 * n) (8192 * j + 8192)); cbn [fst snd]; [lia|].
  specialize (IH (8192 * j + 8192) ltac:(lia) ltac:(exists (j + 1); lia) ltac:(lia)).
  by destruct (read_body _ _ _) as [[b t] e].
Qed.

(** The truncation flag does not report truncation. With a byte limit that
is a multiple of the chunk size 8192, as the default limit of 262144 is, a
body that arrives in full chunks but the last is never reported as truncated,
however long it is: reading stops exactly at the limit, and the flag asks for
more than the limit. *)
Theorem truncation_unreported rq host s n full tail st enc :
max_response_bytes (x_layer s) = 8192 * n → 0 < n →
Forall (λ c : list N, Z.of_nat (length c) = 8192) full → Z.of_nat (length tail) <= 8192 →
(env_http rq (x_env s)).2 = Http_answer st enc (full ++ [tail]) None →
(∀ e b, is_ok (bytes_decode e b) = true) →
∃ r, (do_request bytes_decode rq host s).2 = Ok r ∧
   dget (u "truncated") r = Some (VBool false).
Proof.
intros Hm Hn Hf Ht Hr Hd. unfold do_request, note, on_env. py_unfold. simpl. rewrite Hm.
destruct (env_http rq (x_env s)) as [e' r]. simpl in Hr. subst r.
pose proof (read_body_full n 0 full tail ltac:(lia) ltac:(by exists 0) ltac:(lia) Hf Ht) as Hb.
destruct (read_body (8192 * n) 0 (full ++ [tail])) as [[raw total] complete]. simpl in Hb.
replace (if complete then None else None) with (None (A := pystr)) by (by destruct complete).
specialize (Hd (default (u "utf-8") (non_empty enc)) (take (Z.to_nat (8192 * n)) raw)).
unfold of_res. destruct (bytes_decode _ _) as [text|]; [|done]. simpl.
unfold record_outcome, clock, on_env. py_unfold.
destruct (status_ok st); simpl; [|destruct (env_clock _); simpl].
all: eexists; split; [done|]; cbn [dget]; rewrite !decide_False by done;
rewrite decide_True by done; do 2 f_equal; lia.
Qed.
End Truncation.

(** ** Witnesses *)

(** An environment whose handlers succeed and whose server answers with three
    full chunks. *)
Definition demo_env : ExecEnv nat unit := {|
  env_clock e := (e, f0);
  env_readings e := (e, (f0, [(f0, f0, f1)]));
  env_handler _ _ := mret (VDict [(u "status", VStr (u "success"))]);
  env_http _ e := (e, Http_answer 200 None (replicate 2 (replicate 8192 65%N) ++ [replicate 8192 66%N]) None)
|}.

Definition demo_registry : CapabilityRegistry :=
  Registry [u "api.duckduckgo.com"] [u "GET"] [u "SELECT"] [] [] [] [].

Definition demo_layer (limit : Z) : exec_layer nat :=
  Layer [(u "speak", 0%nat)] [] (new_rate_limiter (f_of_Z 60) 20)
    (Resolver [] (u "SHUGOCORE_")) demo_registry limit.

Definition demo_xstate (limit : Z) : xstate nat unit := XState (demo_layer limit) (Some []) [] tt.

Definition demo_url (s : pystr) : res parsed_url := Ok (Parsed (u "https") (Some s) None None (Ok None)).

Definition demo_decision : pydict := [(u "action_type", VStr (u "speak"))].

Definition demo_token (d : pydict) : pyval :=
  VDict [(u "verdict", VStr (u "allow"));
         (u "decision_hash", VStr (canonical_hash demo_sha demo_dumps (VDict d)))].

Definition demo_run : pydict → py (xstate nat unit) pydict :=
  execute (XE := demo_env) (PR := λ _, []) demo_url (λ _, None) (λ _, Ok VNone)
    (λ _ b, Ok b) demo_sha demo_dumps.

Lemma tampered_decision_refused_witness :
  let d := demo_decision ++ [(u "_policy", demo_token demo_decision)] in
  let d' := [(u "action_type", VStr (u "ask_user")); (u "_policy", demo_token demo_decision)] in
  (demo_run d (demo_xstate 8192)).2 = Ok [(u "status", VStr (u "success"))] ∧
  ∃ why, (demo_run d' (demo_xstate 8192)).2 = Ok (refused why).
Proof.
  intros d d'. split; [vm_compute; reflexivity|].
  destruct (tampered_decision_refused (XE := demo_env) (PR := λ _, []) demo_url (λ _, None)
    (λ _, Ok VNone) (λ _ b, Ok b) demo_sha demo_dumps (Hinj := demo_dumps_inj) d d'
    (demo_xstate 8192))
    as [Hc|(_ & _ & _ & Hw)].
  - exists [(u "verdict", VStr (u "allow"));
            (u "decision_hash", VStr (canonical_hash demo_sha demo_dumps (VDict demo_decision)))].
    split_and!; vm_compute; reflexivity.
  - vm_compute. reflexivity.
  - vm_compute. discriminate.
  - destruct Hc as [_ Hc]. exfalso. revert Hc. vm_compute. discriminate.
  - exact Hw.
Defined.

Lemma truncation_unreported_witness :
  ∃ r, (do_request (XE := demo_env) (λ _ b, Ok b)
          (Request (u "GET") (u "https://api.duckduckgo.com/") VNone VNone)
          (u "api.duckduckgo.com") (demo_xstate 16384)).2 = Ok r ∧
       dget (u "truncated") r = Some (VBool false).
Proof.
  apply (truncation_unreported (XE := demo_env) (λ _ b, Ok b) _ _ _ 2
    (replicate 2 (replicate 8192 65%N)) (replicate 8192 66%N) 200 None).
  - reflexivity.
  - lia.
  - repeat constructor; vm_compute; reflexivity.
  - vm_compute. discriminate.
  - vm_compute. reflexivity.
  - done.
Defined.
