(* ===== verification/World.v ===== *)
(** * What the decision engine is wired to

    The engine's view of everything it calls but does not own, as two
    interfaces: [World], the process's surroundings (clocks, the operator's
    consent registry and approvals, the state of the audit file, installed
    handlers, the network, the model backends), and [EngineMemory], the memory manager.  The theorems
    about the engine hold for every instance; [manager_memory] shows that the
    memory manager of src/memory_system.py is one. *)

From S2P Require Import Prelude PyFloat PyStr PyVal Security Policy AuditTrail Semantic Episodic.
From S2P Require Import Identity Memory Execution.

Local Open Scope Z_scope.

(** An operation that reads the world may change it: a clock advances, the
    operator grants or revokes while a request is out, a handler acts. *)
Class World (W : Type) := {
  w_clock : W → W * f64;
  w_stamp : W → W * pystr;
  w_io : W → W * bool;
  w_readings : W → W * (f64 * list (f64 * f64 * f64));
  w_consents : W → consents;
  w_approve : pydict → W → W * approval_result;
  w_handler : pystr → pydict → py W pyval;
  w_http : http_request → W → W * http_reply;
  w_list : W → W * res (list pystr);
  w_generate : option pystr → pystr → pystr → pystr → W → W * res pystr;
  w_backend : pydict → W → W * res pystr;
  w_post : pystr → pyval → W → W * res pyval;
  w_fetch : pystr → W → W * res pyval;
  w_verify : W → W * res (bool * list pystr);
  w_writable : W → W * bool
}.

(** A call of the world next to a component of state [S]. *)
Definition ask {S W A} (f : W → W * A) : py (S * W) A := λ s,
  let '(w, a) := f s.2 in ((s.1, w), Ok a).
Definition on_self {S W} (f : S → S) : py (S * W) unit := modify (λ s, (f s.1, s.2)).

Lemma ask_returns {S W A} (f : W → W * A) : returns (ask f : py (S * W) A).
Proof. intros s. unfold ask. by destruct (f s.2). Qed.
Lemma on_self_returns {S W} (f : S → S) : returns (on_self f : py (S * W) unit).
Proof. done. Qed.
#[export] Hint Resolve ask_returns on_self_returns : returns.

(** The memory as the engine uses it: recording an event with the readings of
    the clocks and the outcome of the journal write, resolving a step, the
    invariants it checks policy with, the length of its event log, and the
    contents of the facts retrieved for a query. *)
Class EngineMemory (M : Type) := {
  em_record : bool → pystr → f64 → pystr → pydict → py M unit;
  em_resolve : M → M;
  em_core : M → core;
  em_backlog : M → Z;
  em_context : pystr → pystr → py M (list pystr)
}.

(** Recording and resolving leave the world model alone. *)
Class EngineMemoryLaws (M : Type) `{EngineMemory M} := {
  em_record_core io stamp now ty p m : em_core (em_record io stamp now ty p m).1 = em_core m;
  em_resolve_core m : em_core (em_resolve m) = em_core m;
  em_context_core now q m : em_core (em_context now q m).1 = em_core m
}.

(** [MemoryManager.record_event]. *)
Definition manager_record {S} (stamp_of : pystr → option f64) (io : bool) (stamp : pystr) (now : f64)
    (event_type : pystr) (payload : pydict) : py (manager S) unit := λ m,
  let '(t1, r) := record stamp_of io stamp now event_type payload [] (tier1 m) in
  (with_tiers (tier0 m) t1 (tier2 m) m, match r with Ok _ => Ok tt | Raise e => Raise e end).

Section Manager.
Context (stamp_of : pystr → option f64).
Context (word_beyond : N → bool) (str_lower : pystr → pystr) (sha256_int : pystr → Z).

(** [retrieve_context], as the contents of its semantic and graph facts. *)
Definition context_contents (now query : pystr) : py (manager store) (list pystr) := λ m,
let '(m', (hits, graph, _)) :=
  retrieve_context word_beyond str_lower sha256_int query 5 true now m in
(m', Ok (f_content <$> hits.*2 ++ graph)).

#[export] Instance manager_memory : EngineMemory (manager store) := {
em_record := manager_record stamp_of;
em_resolve := resolve_step;
em_core := tier3;
em_backlog m := Z.of_nat (length (ring (tier1 m)));
em_context := context_contents
}.

#[export] Instance manager_memory_laws : EngineMemoryLaws (manager store).
Proof.
split; [|done|done]. intros io stamp now ty p m. simpl. unfold manager_record.
by destruct (record _ _ _ _ _ _ _ _) as [t1 [|]].
Qed.
End Manager.

(** Without an age limit nothing in [record] raises. *)
Lemma manager_record_total {S} stamp_of io stamp now ty p (m : manager S) :
  max_age_hours (tier1 m) = None → is_ok (manager_record stamp_of io stamp now ty p m).2 = true.
Proof.
  intros Hm. unfold manager_record, record, evict_by_age.
  assert (∀ l n e, max_age_hours (with_ring l n (append_journal io e
    (with_ring (ring (tier1 m)) (seq (tier1 m) + 1) (tier1 m)))) = None) as H.
  { intros. simpl. unfold append_journal. simpl. by destruct (journal _), io. }
  by rewrite H.
Qed.

(** ** A scripted world

    What the witnesses run in: the clock stands, the registry and the
    approvals are fixed, every handler succeeds, the models answer with one
    text, and the endpoint of the phrasing with one body. *)

Record script := Script {
  sc_time : f64;
  sc_consents : consents;
  sc_approves : bool;
  sc_reply : res pystr;
  sc_phrasing : res pyval
}.

Definition script_world : World script := {|
  w_clock w := (w, sc_time w);
  w_stamp w := (w, u "2026-01-01T00:00:00");
  w_io w := (w, true);
  w_readings w := (w, (sc_time w, [(sc_time w, sc_time w, sc_time w)]));
  w_consents := sc_consents;
  w_approve _ w := (w, Approval (sc_approves w) (u "operator") (u "1"));
  w_handler _ _ := mret (VDict [(u "status", VStr (u "success"))]);
  w_http _ w := (w, Http_answer 200 None [] None);
  w_list w := (w, Ok []);
  w_generate _ _ _ _ w := (w, sc_reply w);
  w_backend config w := (w, match dget (u "base_url") config with
                            | Some (VStr url) => Ok url
                            | _ => Ok (u "configured")
                            end);
  w_post _ _ w := (w, sc_phrasing w);
  w_fetch _ w := (w, Raise (RuntimeError []));
  w_verify w := (w, Ok (true, []));
  w_writable w := (w, true)
|}.

(** A memory that only keeps its events. *)
Definition event_log : EngineMemory (list (pystr * pydict)) := {|
  em_record _ _ _ ty p := modify (λ l, l ++ [(ty, p)]);
  em_resolve l := l;
  em_core _ := new_core [] None None;
  em_backlog l := Z.of_nat (length l);
  em_context _ _ := mret []
|}.
