(* ===== verification/Persona.v ===== *)
(** * Phrasing by another model ([src/persona.py])

    The shaper that asks a model elsewhere to word a line of speech.  The
    endpoint is the world's [w_post] and [w_fetch]; each of their calls may
    raise. *)

From Stdlib Require Import ZArith Lia.
From S2P Require Import Prelude PyFloat PyStr PyVal Policy World.

Local Open Scope Z_scope.

(** [_chat_endpoint]. *)
Definition chat_endpoint (url : pystr) : pystr :=
  match rstrip (N.eqb 47) (strip url) with
  | [] => []
  | base =>
      let base := if starts_with (u "http://") base || starts_with (u "https://") base then base
                  else u "http://" ++ base in
      if ends_with (u "/v1/chat/completions") base then base
      else base ++ u "/v1/chat/completions"
  end.

Record shaper := Shaper {
  sh_url : pystr;
  sh_model : pystr;
  sh_instructions : pystr;
  resolved_model : pystr;
  shaped : Z;
  shape_fallbacks : Z
}.

(** [PersonaShaper.__init__]. *)
Definition new_shaper (url model instructions : pystr) : shaper :=
  Shaper (chat_endpoint url) (strip model) instructions [] 0 0.

Definition shaper_enabled (s : shaper) : bool := negb (bool_decide (sh_url s = [])).

(** [a or b] of two texts. *)
Definition str_or (a b : pystr) : pystr := match a with [] => b | _ => a end.

(** [label]. *)
Definition label (s : shaper) : pystr :=
  if shaper_enabled s then
    str_or (str_or (sh_model s) (resolved_model s)) (u "persona") ++ u "@"
      ++ before (u "/") (after (u "//") (sh_url s))
  else u "off".

(** [s.rsplit(sep, 1)[0]]. *)
Definition before_last (sep s : pystr) : pystr :=
  match (split_once (rev sep) (rev s)).2 with Some r => rev r | None => s end.

Definition rewrite_line : pystr :=
  u "Rewrite the line below so it sounds like this character. Keep the meaning, the facts and any names exactly; keep it as spoken language. Answer with the rewritten line only -- no quotes, no commentary.".

Definition with_resolved (name : pystr) (s : shaper) : shaper :=
  Shaper (sh_url s) (sh_model s) (sh_instructions s) name (shaped s) (shape_fallbacks s).
Definition count_shaped (s : shaper) : shaper :=
  Shaper (sh_url s) (sh_model s) (sh_instructions s) (resolved_model s) (shaped s + 1)
    (shape_fallbacks s).
Definition count_fallback (s : shaper) : shaper :=
  Shaper (sh_url s) (sh_model s) (sh_instructions s) (resolved_model s) (shaped s)
    (shape_fallbacks s + 1).

Section Shaping.
Context {W : Type} {WW : World W} {PR : PyRepr} (exn_text : exn → pystr).
Abbreviation SW := (shaper * W)%type.

(** [_prompt]. *)
Definition persona_prompt (verdict : pyval) (s : shaper) : pystr :=
let v := match verdict with VDict d => d | _ => [] end in
let tone := dict_get (u "tone") VNone v in
let budget := py_or (dict_get (u "max_sentences") VNone v) (dict_get (u "verbosity") VNone v) in
let appropriateness := dict_get (u "appropriateness") VNone v in
let detail :=
(if truthy tone then [u "tone: " ++ py_str tone] else [])
++ (if truthy budget then [u "length: " ++ py_str budget] else [])
++ match appropriateness with
   | VNone => []
   | a => [u "appropriateness: " ++ py_str a]
   end in
join [10%N]
(match strip (sh_instructions s) with [] => [] | t => [t] end
 ++ [rewrite_line]
 ++ match detail with [] => [] | _ => [u "Governor: " ++ join (u "; ") detail ++ u "."] end).

(** [_first_message]. *)
Definition first_message (choices : pyval) : pystr :=
match choices with
| VList (c :: _) =>
  let first := match c with VDict d => d | _ => [] end in
  let message := match dict_get (u "message") VNone first with VDict d => d | _ => [] end in
  let text := py_or (py_or (dict_get (u "content") VNone message)
                           (dict_get (u "text") VNone first)) (VStr []) in
  strip (strip_by (N.eqb 34) (strip (py_str text)))
| _ => []
end.

(** The first listed entry with a name. *)
Fixpoint first_name (items : list pyval) : option pystr :=
match items with
| [] => None
| i :: rest =>
  let entry := match i with VDict d => d | _ => [] end in
  match strip (py_str (py_or (py_or (dict_get (u "id") VNone entry)
                                    (dict_get (u "name") VNone entry)) (VStr []))) with
  | [] => first_name rest
  | name => Some name
  end
end.

Fixpoint try_listings (base : pystr) (paths : list (pystr * pystr)) : py SW pystr :=
match paths with
| [] => mret []
| (path, key) :: rest =>
  r ← ask (w_fetch (base ++ path));
  match r with
  | Raise _ => try_listings base rest
  | Ok body =>
      let items := match body with VDict d => dict_get key VNone d | _ => VNone end in
      l ← of_res (py_iter (py_or items (VList [])));
      match first_name l with
      | Some name => on_self (with_resolved name) ;; mret name
      | None => try_listings base rest
      end
  end
end.

(** [_first_model]. *)
Definition first_model : py SW pystr :=
s ← get;
match resolved_model s.1 with
| [] => try_listings (before_last (u "/v1/") (sh_url s.1))
        [(u "/v1/models", u "data"); (u "/api/tags", u "models")]
| name => mret name
end.

Definition shaping (text source why draft : pystr) : pydict :=
[(u "text", VStr text); (u "source", VStr source); (u "draft", VStr draft);
 (u "reason", VStr why)].

Definition chat_payload (model prompt draft : pystr) : pyval :=
VDict [(u "model", VStr model); (u "temperature", VFloat (f_dec 7 1)); (u "max_tokens", VInt 220);
     (u "messages", VList
        [VDict [(u "role", VStr (u "system")); (u "content", VStr prompt)];
         VDict [(u "role", VStr (u "user")); (u "content", VStr draft)]])].

(** [shape]. *)
Definition shape (draft : pystr) (verdict : pyval) (instructions : pystr) : py SW pydict :=
s ← get;
if negb (shaper_enabled s.1) || bool_decide (strip draft = []) then
mret (shaping draft (u "draft") (if shaper_enabled s.1 then u "nothing to say"
                                 else u "no persona endpoint") draft)
else
let character := strip (str_or instructions (sh_instructions s.1)) in
model ← (match sh_model s.1 with [] => first_model | m => mret m end);
match model with
| [] => on_self count_fallback ;;
        mret (shaping draft (u "unavailable") (u "the endpoint lists no model to ask") draft)
| _ =>
    r ← ask (w_post (sh_url s.1) (chat_payload model (persona_prompt verdict s.1) draft));
    match (body ← r;
           match first_message (match body with
                                | VDict d => dict_get (u "choices") VNone d
                                | _ => VNone end) with
           | [] => Raise (ValueError (u "empty completion"))
           | t => Ok t
           end) with
    | Ok t => on_self count_shaped ;;
              mret (shaping t (u "persona") [] draft
                    ++ [(u "instructions", VStr character)])
    | Raise e => on_self count_fallback ;;
                 mret (shaping draft (u "unavailable") (exn_name e ++ u ": " ++ exn_text e) draft)
    end
end.

(** ** Theorems *)

(** The outcome speaks the draft unless the persona answered, and is never
blank for a draft that is not. *)
Definition speaks (draft : pystr) (r : pydict) : Prop :=
∃ text source, dget (u "text") r = Some (VStr text) ∧ dget (u "source") r = Some (VStr source) ∧
dget (u "draft") r = Some (VStr draft) ∧
(source ≠ u "persona" → text = draft) ∧ (strip draft ≠ [] → text ≠ []).

Lemma speaks_draft draft source why :
source ≠ u "persona" → speaks draft (shaping draft source why draft).
Proof.
intros Hs. exists draft, source. split_and!; try done. by intros Hd ->.
Qed.

(** Phrasing never costs the words: whatever the endpoint lists or answers,
and whether its calls raise or not, [shape] returns the draft unless the
persona answered with a text, never turns a line into silence, and keeps the
draft beside what is spoken. What it sends does not depend on the
instructions it is given for the call. *)
Theorem shape_fails_open draft verdict instructions s r :
(shape draft verdict instructions s).2 = Ok r →
speaks draft r ∧
∀ i', (shape draft verdict i' s).1 = (shape draft verdict instructions s).1.
Proof.
unfold shape. py_unfold. unfold ask, on_self. py_unfold.
destruct (negb (shaper_enabled s.1) || bool_decide (strip draft = [])) eqn:E.
{ intros [= <-]. split; [by apply speaks_draft|done]. }
destruct ((match sh_model s.1 with [] => first_model | m => λ s, (s, Ok m) end) s)
as [s1 [model|e]]; [|done].
destruct model as [|c model]; simpl.
{ intros [= <-]. split; [by apply speaks_draft|done]. }
destruct (w_post _ _ _) as [w r0]; simpl.
destruct (res_bind _ _ _ r0) as [t|e] eqn:Et; simpl.
- intros [= <-]. split; [|done]. exists t, (u "persona"). split_and!; try done.
intros _ ->. revert Et. unfold res_bind. destruct r0; [|done].
by destruct (first_message _).
- intros [= <-]. split; [by apply speaks_draft|done].
Qed.
End Shaping.

(** ** Witness *)

Definition demo_shaper : shaper := new_shaper (u "10.0.0.7:8080") (u "bard") (u "a pirate").

(** The body of a chat completion. *)
Definition completion (text : pystr) : pyval :=
  VDict [(u "choices", VList [VDict [(u "message", VDict [(u "content", VStr text)])]])].

Definition no_repr : PyRepr := λ _, [].

Lemma shape_fails_open_witness :
  let w := Script f0 [] false (Ok []) (Ok (completion (u "Ahoy."))) in
  let r := [(u "text", VStr (u "Ahoy.")); (u "source", VStr (u "persona"));
            (u "draft", VStr (u "Hello.")); (u "reason", VStr []);
            (u "instructions", VStr (u "a parrot"))] in
  (shape (WW := script_world) (PR := no_repr) exn_name (u "Hello.") VNone (u "a parrot")
     (demo_shaper, w)).2 = Ok r ∧ speaks (u "Hello.") r.
Proof.
  intros w r.
  assert ((shape (WW := script_world) (PR := no_repr) exn_name (u "Hello.") VNone (u "a parrot")
     (demo_shaper, w)).2 = Ok r) as E by (vm_compute; reflexivity).
  split; [exact E|].
  exact (proj1 (shape_fails_open (WW := script_world) (PR := no_repr) exn_name _ _ _ _ _ E)).
Defined.
