(* ===== verification/Subconscious.v ===== *)
(** * Asking a model ([src/subconscious.py])

    The prompt and the decoding grammar built for a decision, the call of a
    backend with its failures noted, and the success bookkeeping.  Backends
    are the world's [w_list] and [w_generate]; [None] as a backend is the
    model's own.  JSON decoding and encoding are parameters. *)

From Stdlib Require Import ZArith Lia.
From Stdlib Require Import Floats.SpecFloat.
From stdpp Require Import countable.
From S2P Require Import Prelude PyFloat PyStr PyVal Security AuditTrail World.

Local Open Scope Z_scope.

(** [validate_model_name]: [$] also matches before a final newline. *)
Definition name_char (c : N) : bool :=
  is_digit c || is_upper c || is_lower c
  || ((c =? 46) || (c =? 95) || (c =? 58) || (c =? 47) || (c =? 45))%N.

Definition validate_model_name (name : pystr) : bool :=
  match name with
  | [] => false
  | c :: s =>
      let '(body, rest) := span name_char s in
      (is_digit c || is_upper c || is_lower c) && (length body <=? 63)%nat
      && match rest with [] => true | [10%N] => true | _ => false end
  end.

(** ** Prompts *)

(** A literal in which the back-quote stands for the double quote. *)
Definition uq (s : string) : pystr := (λ c, if (c =? 96)%N then 34%N else c) <$> u s.
Global Arguments uq _%_string_scope : simpl never.

Definition NL : pystr := [10%N].

(** The distinct names a schema lists, in order. *)
Definition sorted_names (l : list pystr) : list pystr := sort_by str_leb l.

Definition grammar_types (action_schema : list pystr) : list pystr :=
  sorted_names (remove_dups (List.filter
    (λ t, negb (bool_decide (t = [])) && negb (bool_decide (lower t = u "null")))
    (strip <$> action_schema))).

Definition grammar_head : pystr :=
  uq "root       ::= `{` ws `\`action_type\`` ws `:` ws action ws `,` ws `\`params\`` ws `:` ws params ws `,` ws `\`confidence\`` ws `:` ws number ws `,` ws `\`text\`` ws `:` ws string ws `}`"
  ++ NL ++ u "action     ::= ".

Definition grammar_tail : pystr :=
  NL ++ uq "params     ::= `{` ws (string ws `:` ws value (ws `,` ws string ws `:` ws value)*)? ws `}` ws"
  ++ NL ++ uq "value      ::= object | array | string | number | (`true` | `false` | `null`) ws"
  ++ NL ++ uq "object     ::= `{` ws (string ws `:` ws value (ws `,` ws string ws `:` ws value)*)? ws `}` ws"
  ++ NL ++ uq "array      ::= `[` ws (value (ws `,` ws value)*)? ws `]` ws"
  ++ NL ++ uq "string     ::= `\`` ( [^`\\\x7F\x00-\x1F] | `\\` ([`\\bfnrt] | `u` [0-9a-fA-F]{4}) )* `\`` ws"
  ++ NL ++ uq "number     ::= (`-`? ([0-9] | [1-9] [0-9]{0,15})) (`.` [0-9]+)? ([eE] [-+]? [0-9] [1-9]{0,15})? ws"
  ++ NL ++ uq "ws         ::= | ` ` | `\n` [ \t]{0,20}" ++ NL.

Definition alternative (t : pystr) : pystr := uq "`\`" ++ t ++ uq "\``".

(** [build_decision_grammar]. *)
Definition build_decision_grammar (action_schema : list pystr) : pystr :=
  match grammar_types action_schema with
  | [] => []
  | types => grammar_head ++ join (u " | ") (alternative <$> types ++ [u "null"]) ++ grammar_tail
  end.

(** [v[:3]] of a value. *)
Definition first_three (v : pyval) : res (list pyval) :=
  match v with
  | VList l => Ok (take 3 l)
  | VStr s => Ok ((λ c, VStr [c]) <$> take 3 s)
  | _ => Raise (TypeError (u "object is not subscriptable"))
  end.

Section Prompt.
Context `{PyRepr} (json_loads : pystr → res pyval).

Fixpoint fact_lines (facts : list pyval) : py pystr unit :=
match facts with
| [] => mret tt
| f :: rest =>
  d ← of_res (as_dict f);
  modify (λ line, line ++ u "  - "
    ++ take 120 (sanitize_text (py_str (dict_get (u "content") (VStr []) d)) 200) ++ NL) ;;
  fact_lines rest
end.

(** The body of the [try] that extracts the conversation from the task. *)
Definition conversation_lines (task_json : pystr) : py pystr unit :=
v ← of_res (json_loads task_json);
task ← of_res (as_dict v);
ctx ← of_res (as_dict (dict_get (u "context") (VDict []) task));
let summary := dict_get (u "conversation_summary") VNone ctx in
(if truthy summary then
 put (u "Recent conversation:" ++ NL ++ sanitize_text (py_str summary) 2000 ++ NL ++ NL)
 else mret tt) ;;
human ← of_res (as_dict (dict_get (u "human") (VDict []) ctx));
user ← of_res (as_dict (dict_get (u "user_context") (VDict []) human));
let facts := dict_get (u "entity_facts") VNone user in
if truthy facts then
modify (λ line, line ++ u "Relevant facts from memory:" ++ NL) ;;
l ← of_res (first_three facts);
fact_lines l ;;
modify (λ line, line ++ NL)
else mret tt.

Definition speech_line : pystr :=
u "You are Shugo, a calm and friendly local assistant; you speak in first person. If you choose 'speak' or 'ask_user', put your words in params and say exactly ONE warm, complete sentence - never a fragment, never a list. ".

(** [_build_decision_prompt]: what was written before an exception stays. The
last literal carries no [f] prefix. *)
Definition build_decision_prompt (task_json : pystr) (action_schema : list pystr) : pystr :=
let types := join (u ", ") (sorted_names action_schema) ++ u ", or null" in
let speech := if existsb (λ t, bool_decide (t ∈ [u "speak"; u "ask_user"])) action_schema
            then speech_line else [] in
let conv := (conversation_lines task_json []).1 in
u "You are the decision module of an autonomous agent. " ++ speech ++ conv
++ uq "Respond ONLY with a single-line JSON object with keys: `action_type` (one of " ++ types
++ uq "), `params` (object), `confidence` (number between 0.0 and 1.0), and `text` (short explanation). `record_observation` is always safe and always available: it records a short observation (put your note in params.text). Prefer it for routine self-maintenance when no other action is clearly required. Side-effecting actions (network send/query/sync, device or hardware control) need operator approval, so choose them only when the task clearly asks for them. Choose null only if there is truly nothing worth recording. Keep the entire JSON object on one line with no line breaks, and do not add any text outside the JSON."
++ NL ++ u "Task: {task_json}".
End Prompt.

(** [_DECISION_PROMPT.format(task_json=...)], the prompt without a schema. *)
Definition decision_prompt (task_json : pystr) : pystr :=
  uq "You are the decision module of an autonomous agent. Respond ONLY with a single-line JSON object with keys: `action_type` (one of api_call, database_update, hardware_interaction, news_api, search_api, multi_step_process, or null), `params` (object), `confidence` (number between 0.0 and 1.0), and `text` (short explanation). Keep the entire JSON object on one line with no line breaks, and do not add any text outside the JSON."
  ++ NL ++ u "Task: " ++ task_json.

(** ** The model *)

Record subconscious := Sub {
  last_call_errors : list (pystr * pystr);
  models_cache : option (list pystr);
  models_cache_at : f64;
  cache_seconds : f64
}.

Definition new_subconscious (cache : f64) : subconscious := Sub [] None f0 (fmax f0 cache).

Definition with_errors (e : list (pystr * pystr)) (s : subconscious) : subconscious :=
  Sub e (models_cache s) (models_cache_at s) (cache_seconds s).

(** [note_call_error]. *)
Definition note_call_error (model_name error_class : pystr) (s : subconscious) : subconscious :=
  let known := if (64 <? length (last_call_errors s))%nat then [] else last_call_errors s in
  with_errors (dset (take 64 model_name) (take 80 error_class) known) s.

(** [self.last_call_errors.pop(name, None)]. *)
Definition forget_call_error (model_name : pystr) (s : subconscious) : subconscious :=
  with_errors (ddel (take 64 model_name) (last_call_errors s)) s.

Section Calls.
Context {W : Type} `{World W} `{PyRepr}.
Context (json_loads : pystr → res pyval) (dumps : pyval → pystr).
Abbreviation SW := (subconscious * W)%type.

(** [get_available_models]. *)
Definition get_available_models : py SW (list pystr) :=
s ← get;
now ← ask w_clock;
match models_cache s.1 with
| Some l =>
  if fltb (fsub now (models_cache_at s.1)) (cache_seconds s.1) then mret l
  else
    r ← ask w_list;
    let l := match r with Ok l => l | Raise _ => [] end in
    t ← ask w_clock;
    on_self (λ s, Sub (last_call_errors s) (Some l) t (cache_seconds s)) ;; mret l
| None =>
  r ← ask w_list;
  let l := match r with Ok l => l | Raise _ => [] end in
  t ← ask w_clock;
  on_self (λ s, Sub (last_call_errors s) (Some l) t (cache_seconds s)) ;; mret l
end.

(** The call of the backend, with its error noted. *)
Definition generate (backend : option pystr) (model_name prompt grammar : pystr) : py SW pystr :=
r ← ask (w_generate backend model_name prompt grammar);
match r with
| Ok output => on_self (forget_call_error model_name) ;; mret output
| Raise e =>
  on_self (note_call_error model_name (u "transport_error: " ++ exn_name e)) ;; mret []
end.

(** Only the model's own backend is held to its listing. *)
Definition unavailable (backend : option pystr) (model_name : pystr) (available : list pystr) : bool :=
match backend with
| Some _ => false
| None => negb (bool_decide (available = [])) && negb (bool_decide (model_name ∈ available))
end.

(** The task as it is put into the prompt: a JSON string that holds the
sanitised JSON of the task. *)
Definition task_payload (input : pyval) : pyval :=
match input with VDict _ => input | v => VDict [(u "content", VStr (py_str v))] end.

Definition task_json (input : pyval) : pystr :=
canonical_json dumps (VStr (sanitize_text (canonical_json dumps (task_payload input)) 2000)).

Definition prompt_for (input : pyval) (action_schema : list pystr) : pystr :=
match action_schema with
| [] => decision_prompt (task_json input)
| _ => build_decision_prompt json_loads (task_json input) action_schema
end.

(** [get_model_output]. *)
Definition get_model_output (model_name : pystr) (input : pyval) (backend : option pystr)
(action_schema : list pystr) : py SW pystr :=
if negb (validate_model_name model_name) then
on_self (note_call_error model_name (u "invalid_model")) ;; mret []
else
available ← get_available_models;
if unavailable backend model_name available then
  on_self (note_call_error model_name (u "model_unavailable")) ;; mret []
else generate backend model_name (prompt_for input action_schema)
       (build_decision_grammar action_schema).

(** [get_conversational_output]. *)
Definition get_conversational_output (model_name prompt : pystr) (backend : option pystr) :
py SW pystr :=
if negb (validate_model_name model_name) then mret []
else
available ← get_available_models;
if unavailable backend model_name available then mret []
else generate backend model_name prompt [].

(** ** Theorems *)

Lemma generate_returns backend name prompt grammar : returns (generate backend name prompt grammar).
Proof. unfold generate. returns_auto. Qed.

(** Whatever the backend does, asking a model returns a text: a backend that
cannot be reached gives the empty one and a noted error. *)
Lemma get_model_output_returns name input backend schema :
returns (get_model_output name input backend schema).
Proof.
unfold get_model_output, get_available_models. returns_auto. apply generate_returns.
Qed.

Lemma get_conversational_output_returns name prompt backend :
returns (get_conversational_output name prompt backend).
Proof.
unfold get_conversational_output, get_available_models. returns_auto. apply generate_returns.
Qed.

(** A decision prompt never shows the model its task. With a schema, as
the engine always passes one, the prompt is the same for any two tasks: the
placeholder of its last line is not filled in, and the conversation is
looked up in a JSON string that decodes to text instead of an object. *)
Theorem prompt_hides_task input input' action_schema :
(∀ s, json_loads (canonical_json dumps (VStr s)) = Ok (VStr s)) →
action_schema ≠ [] →
prompt_for input action_schema = prompt_for input' action_schema ∧
∃ front, prompt_for input action_schema = front ++ u "Task: {task_json}".
Proof.
intros Hj Hs. assert (∀ i, (conversation_lines json_loads (task_json i) []).1 = []) as Hc.
{ intros i. unfold conversation_lines, task_json, mbind, py_bind, of_res. by rewrite Hj. }
unfold prompt_for, build_decision_prompt. destruct action_schema as [|t l]; [done|].
rewrite !Hc. split; [done|]. rewrite !app_assoc. by eexists.
Qed.
End Calls.

(** ** Witness *)

(** A decoder that reads back what [demo_dumps] writes. *)
Definition demo_loads (s : pystr) : res pyval :=
  match s with
  | [Npos p] => match decode p with Some v => Ok v | None => Raise (ValueError []) end
  | _ => Raise (ValueError [])
  end.

#[local] Instance no_repr : PyRepr := λ _, [].

Lemma prompt_hides_task_witness :
  prompt_for demo_loads demo_dumps (VDict [(u "content", VStr (u "open the door"))]) [u "speak"]
  = prompt_for demo_loads demo_dumps (VDict [(u "content", VStr (u "call home"))]) [u "speak"].
Proof.
  refine (proj1 (prompt_hides_task demo_loads demo_dumps _ _ [u "speak"] _ _)); [|done].
  intros s. unfold canonical_json, demo_dumps, demo_loads. cbn [sort_keys]. by rewrite decode_encode.
Defined.
