(* ===== verification/Proposals.v ===== *)
(** * Proposals in model output ([src/decision_engine.py], the decision protocol)

    The candidate objects read out of a model's text and the proposal parsed
    from them.  [json.loads] is a parameter. *)

From Stdlib Require Import ZArith Lia.
From Stdlib Require Import Floats.SpecFloat.
From S2P Require Import Prelude PyFloat PyStr PyVal.

Local Open Scope Z_scope.

(** ** Candidates in a text *)

(** From the first brace to the last closing one after it. *)
Definition greedy_blob (text : pystr) : option pystr :=
  let '(_, r) := span (λ c, negb (c =? 123)%N) text in
  match span (λ c, negb (c =? 125)%N) (rev r) with
  | (_, []) => None
  | (_, s) => Some (rev s)
  end.

(** The balanced region a text starts with, from depth [depth]. *)
Fixpoint balanced (depth : Z) (text : pystr) : option pystr :=
  match text with
  | [] => None
  | c :: s =>
      if (c =? 123)%N then cons c <$> balanced (depth + 1) s
      else if (c =? 125)%N then
        if depth - 1 =? 0 then Some [c] else cons c <$> balanced (depth - 1) s
      else cons c <$> balanced depth s
  end.

(** The balanced region at every opening brace. *)
Fixpoint regions (text : pystr) : list pystr :=
  match text with
  | [] => []
  | c :: s =>
      (if (c =? 123)%N then match balanced 0 text with Some r => [r] | None => [] end else [])
      ++ regions s
  end.

(** Open braces minus closed ones. *)
Definition brace_excess (text : pystr) : Z :=
  foldl (λ n c, if (c =? 123)%N then n + 1 else if (c =? 125)%N then n - 1 else n) 0 text.

Definition repaired (text : pystr) : list pystr :=
  let stripped := lstrip is_space text in
  if starts_with (u "{") stripped && contains (u "action_type") (take 96 stripped) then
    let net := brace_excess stripped in
    if 0 <? net then [stripped ++ replicate (Z.to_nat net) 125%N] else []
  else [].

Section Parse.
Context (json_loads : pystr → res pyval) {PF : PyFloatOfStr}.

(** The longest prefix, in steps of eight, that decodes to an object. *)
Fixpoint prefix_from (fuel : nat) (cut : Z) (text : pystr) : list pystr :=
match fuel with
| O => []
| S fuel' =>
if cut <=? 0 then []
else
let p := take (Z.to_nat cut) text in
match json_loads p with
| Ok (VDict _) => [p]
| _ => prefix_from fuel' (cut - 8) text
end
end.

(** [_proposal_json_candidates]. *)
Definition proposal_json_candidates (text : pystr) : list pystr :=
match greedy_blob text with Some b => [b] | None => [] end
++ regions text ++ repaired text
++ prefix_from (S (length text)) (Z.of_nat (length text)) text.

(** ** Proposals *)

Record proposal := Proposal {
p_action : option pystr;
p_params : pydict;
p_confidence : f64
}.

Definition proposal_dict (p : proposal) : pydict :=
[(u "action_type", match p_action p with Some t => VStr t | None => VNone end);
 (u "params", VDict (p_params p)); (u "confidence", VFloat (p_confidence p))].

(** [_finish]. *)
Definition confidence_of (data : pydict) : res f64 :=
match py_float (dict_get (u "confidence") (VFloat f0) data) with
| Ok x => Ok (fclamp f0 f1 x)
| Raise (TypeError _) | Raise (ValueError _) => Ok f0
| Raise e => Raise e
end.

Definition object_or_empty (v : pyval) : pydict := match v with VDict d => d | _ => [] end.

Definition finish (data : pydict) (action : option pystr) : res proposal :=
c ← confidence_of data;
Ok (Proposal action (object_or_empty (dict_get (u "params") VNone data)) c).

(** The small-model dialect: the words ride in the object's own [text]. *)
Definition with_utterance (data : pydict) (p : proposal) : proposal :=
match p_action p, dict_get (u "text") VNone data with
| Some t, VStr text =>
if bool_decide (t = u "speak")
 && negb (truthy (dict_get (u "utterance") VNone (p_params p)))
 && negb (bool_decide (strip text = []))
then Proposal (p_action p) (dset (u "utterance") (VStr text) (p_params p)) (p_confidence p)
else p
| _, _ => p
end.

(** The type an object proposes: [None] for null, and for the string null. *)
Definition proposed_type (data : pydict) : pyval :=
match dict_get (u "action_type") VNone data with
| VStr t => if bool_decide (lower t = u "null") then VNone else VStr t
| v => v
end.

Definition more_confident (a b : proposal) : bool := fleb (p_confidence b) (p_confidence a).

Definition best_of (valid : list proposal) (stub : option proposal) : option proposal :=
match sort_by more_confident valid with p :: _ => Some p | [] => stub end.

(** The loop of [_parse_proposal]; membership of an unhashable value raises. *)
Fixpoint scan (known : list pystr) (blobs : list pystr) (stub : option proposal)
(valid : list proposal) : res (option proposal) :=
match blobs with
| [] => Ok (best_of valid stub)
| b :: rest =>
match json_loads b with
| Ok (VDict data) =>
match proposed_type data with
| VNone =>
    match stub with
    | Some _ => scan known rest stub valid
    | None => p ← finish data None; scan known rest (Some p) valid
    end
| VStr t =>
    if bool_decide (t ∈ known) then
      p ← finish data (Some t);
      scan known rest stub (valid ++ [with_utterance data p])
    else Ok None
| VList _ | VDict _ => Raise (TypeError (u "unhashable type"))
| _ => Ok None
end
| Ok _ | Raise (ValueError _) | Raise (TypeError _) => scan known rest stub valid
| Raise e => Raise e
end
end.

(** [_parse_proposal] of a text. *)
Definition parse_proposal (known : list pystr) (text : pystr) : res (option proposal) :=
if bool_decide (strip text = []) then Ok None
else scan known (proposal_json_candidates text) None [].
End Parse.

(** ** Facts about parsing *)

Section ParseFacts.
Context (json_loads : pystr → res pyval) {PF : PyFloatOfStr}.

(** A proposal the engine may act on: a known type or none, and a confidence
between 0 and 1. *)
Definition proposal_ok (known : list pystr) (p : proposal) : Prop :=
(∀ t, p_action p = Some t → t ∈ known) ∧
fleb f0 (p_confidence p) = true ∧ fleb (p_confidence p) f1 = true.

Lemma confidence_range data c :
confidence_of data = Ok c → fleb f0 c = true ∧ fleb c f1 = true.
Proof.
unfold confidence_of. destruct (py_float _) as [x|e].
- intros <-%(inj Ok). by apply fclamp_range.
- destruct e; intros Hc; try discriminate; apply (inj Ok) in Hc; subst c; split; reflexivity.
Qed.

Lemma finish_ok known data action p :
finish data action = Ok p → (∀ t, action = Some t → t ∈ known) →
proposal_ok known p ∧ p_action p = action.
Proof.
unfold finish. destruct (confidence_of data) as [c|] eqn:E; [|done].
intros [= <-] Ht. split; [|done]. split; [done|]. by apply (confidence_range data).
Qed.

Lemma with_utterance_ok known data p :
proposal_ok known p → proposal_ok known (with_utterance data p).
Proof.
intros Hp. unfold with_utterance. destruct (p_action p) eqn:Ea; [|done].
destruct (dict_get _ _ _); try done. destruct (_ && _); [|done].
unfold proposal_ok in *. simpl. by rewrite <- Ea.
Qed.

Lemma scan_ok known blobs stub valid o :
Forall (proposal_ok known) valid → (∀ p, stub = Some p → proposal_ok known p) →
scan json_loads known blobs stub valid = Ok o → ∀ p, o = Some p → proposal_ok known p.
Proof.
revert stub valid. induction blobs as [|b rest IH]; simpl; intros stub valid Hv Hs.
- intros [= <-] p. unfold best_of.
pose proof (sort_by_perm more_confident valid) as Hperm.
destruct (sort_by more_confident valid) as [|q l]; [apply Hs|]. intros [= ->].
rewrite Forall_forall in Hv. apply Hv. rewrite <- Hperm. left.
- destruct (json_loads b) as [v|[]]; try done; try by apply IH.
destruct v as [| | | | | |data]; try by apply IH.
destruct (proposed_type data) as [| | | |t| |] eqn:Et; try done; try by intros [= <-].
+ destruct stub as [p|]; [by apply IH|].
destruct (finish data None) as [p|] eqn:Ef; [|done]. apply IH; [done|].
intros p' [= <-]. by eapply finish_ok.
+ case_bool_decide as Hk; [|by intros [= <-]].
destruct (finish data (Some t)) as [p|] eqn:Ef; [|done]. apply IH; [|done].
apply Forall_app. split; [done|]. constructor; [|constructor].
apply with_utterance_ok. eapply finish_ok; [done|]. by intros t' [= <-].
Qed.

(** C36. A parsed proposal is well typed: whatever text the model wrote, its
action type is one the engine knows or none, its confidence is a number
between 0 and 1, and its parameters are an object. *)
Theorem parse_proposal_typed known text p :
parse_proposal json_loads known text = Ok (Some p) →
proposal_ok known p ∧
∃ params, dget (u "params") (proposal_dict p) = Some (VDict params).
Proof.
unfold parse_proposal. case_bool_decide; [done|]. intros Hp. split; [|exists (p_params p); reflexivity].
eapply (scan_ok known _ None []); [constructor|done|exact Hp|done].
Qed.

(** The first candidate decides: an object whose type cannot be looked up
raises, and one whose confidence is NaN counts as certain. *)
Lemma scan_unhashable known b rest data l :
json_loads b = Ok (VDict data) → dget (u "action_type") data = Some (VList l) →
scan json_loads known (b :: rest) None [] = Raise (TypeError (u "unhashable type")).
Proof.
intros Hj Ha. simpl. rewrite Hj. unfold proposed_type, dict_get. by rewrite Ha.
Qed.

Lemma confidence_nan data :
dget (u "confidence") data = Some (VFloat f_nan) → confidence_of data = Ok f1.
Proof. intros Hc. unfold confidence_of, dict_get. by rewrite Hc. Qed.
End ParseFacts.


(** ** Witness *)

(** A text with one object in it, and a decoder that knows the object. *)
Definition demo_object : pystr := [123; 125]%N.

Definition demo_json (s : pystr) : res pyval :=
  if bool_decide (s = demo_object) then
    Ok (VDict [(u "action_type", VStr (u "speak")); (u "confidence", VFloat (f_of_Z 7));
               (u "text", VStr (u "hello"))])
  else Raise (ValueError []).

Definition no_float : PyFloatOfStr := λ _, Raise (ValueError []).

Definition demo_proposal : proposal :=
  Proposal (Some (u "speak")) [(u "utterance", VStr (u "hello"))] f1.

Lemma parse_proposal_typed_witness :
  parse_proposal (PF := no_float) demo_json [u "speak"] (u "I say " ++ demo_object)
    = Ok (Some demo_proposal) ∧
  proposal_ok [u "speak"] demo_proposal.
Proof.
  assert (parse_proposal (PF := no_float) demo_json [u "speak"] (u "I say " ++ demo_object)
          = Ok (Some demo_proposal)) as E by (vm_compute; reflexivity).
  split; [exact E|].
  exact (proj1 (parse_proposal_typed (PF := no_float) demo_json _ _ _ E)).
Defined.
