(* ===== verification/Deciding.v ===== *)
(** * Making a decision ([src/decision_engine.py], [make_decision])

    The models asked for proposals, the choice among them with the failure
    streak and its backoff, conversational turns, and the personality and
    phrasing passes.  The state is the [decider]: the memory, the world, the
    models and the counters the engine keeps for them. *)

From Stdlib Require Import ZArith Lia.
From Stdlib Require Import Floats.SpecFloat.
From S2P Require Import Prelude PyFloat PyStr PyVal Security Policy TokenBudget AuditTrail.
From S2P Require Import Personality PersonaGovernor Models World Persona Subconscious Proposals.

Local Open Scope Z_scope.

(** ** The decider *)

Record decider (M W : Type) := Decider {
  d_mem : M;
  d_world : W;
  d_seq : Z;
  d_models : model_manager;
  d_sub : subconscious;
  d_failures : Z;
  d_backend_failures : Z;
  d_ready_at : f64;
  d_backends : list (pystr * option pystr);
  d_shaper : option shaper
}.
Arguments Decider {M W} _ _ _ _ _ _ _ _ _ _.
Arguments d_mem {M W} _.
Arguments d_world {M W} _.
Arguments d_seq {M W} _.
Arguments d_models {M W} _.
Arguments d_sub {M W} _.
Arguments d_failures {M W} _.
Arguments d_backend_failures {M W} _.
Arguments d_ready_at {M W} _.
Arguments d_backends {M W} _.
Arguments d_shaper {M W} _.

Section Updates.
Context {M W : Type}.
Abbreviation D := (decider M W).

Definition with_mem (m : M) (d : D) : D :=
Decider m (d_world d) (d_seq d) (d_models d) (d_sub d) (d_failures d) (d_backend_failures d)
(d_ready_at d) (d_backends d) (d_shaper d).
Definition with_world (w : W) (d : D) : D :=
Decider (d_mem d) w (d_seq d) (d_models d) (d_sub d) (d_failures d) (d_backend_failures d)
(d_ready_at d) (d_backends d) (d_shaper d).
Definition with_seq (n : Z) (d : D) : D :=
Decider (d_mem d) (d_world d) n (d_models d) (d_sub d) (d_failures d) (d_backend_failures d)
(d_ready_at d) (d_backends d) (d_shaper d).
Definition with_models (m : model_manager) (d : D) : D :=
Decider (d_mem d) (d_world d) (d_seq d) m (d_sub d) (d_failures d) (d_backend_failures d)
(d_ready_at d) (d_backends d) (d_shaper d).
Definition with_sub (s : subconscious) (d : D) : D :=
Decider (d_mem d) (d_world d) (d_seq d) (d_models d) s (d_failures d) (d_backend_failures d)
(d_ready_at d) (d_backends d) (d_shaper d).
Definition with_streak (failures backend : Z) (ready : f64) (d : D) : D :=
Decider (d_mem d) (d_world d) (d_seq d) (d_models d) (d_sub d) failures backend ready
(d_backends d) (d_shaper d).
Definition with_backends (b : list (pystr * option pystr)) (d : D) : D :=
Decider (d_mem d) (d_world d) (d_seq d) (d_models d) (d_sub d) (d_failures d)
(d_backend_failures d) (d_ready_at d) b (d_shaper d).
Definition with_shaper (s : option shaper) (d : D) : D :=
Decider (d_mem d) (d_world d) (d_seq d) (d_models d) (d_sub d) (d_failures d)
(d_backend_failures d) (d_ready_at d) (d_backends d) s.

Definition on_world {A} (f : W → W * A) : py D A := λ d,
let '(w, a) := f (d_world d) in (with_world w d, Ok a).
Definition on_mem {A} (m : py M A) : py D A := λ d,
let '(m', r) := m (d_mem d) in (with_mem m' d, r).
Definition on_sub {A} (m : py (subconscious * W) A) : py D A := λ d,
let '((s, w), r) := m (d_sub d, d_world d) in (with_world w (with_sub s d), r).

Context {WW : World W} {MM : EngineMemory M}.

(** [self.memory.record_event]. *)
Definition record_event (event_type : pystr) (payload : pydict) : py D unit :=
io ← on_world w_io;
stamp ← on_world w_stamp;
now ← on_world w_clock;
on_mem (em_record io stamp now event_type payload).
End Updates.

(** ** Making a decision *)

Definition PROPOSAL_BACKOFF_BASE_SECS : f64 := f_of_Z 30.
Definition PROPOSAL_BACKOFF_MAX_SECS : f64 := f_of_Z 600.

(** [min(BASE * 2 ** (failures - 3), MAX)]: the power is a Python integer,
    converted to a float to be multiplied. *)
Definition proposal_delay (failures : Z) : res f64 :=
  p ← py_float_of_Z (2 ^ (failures - 3));
  Ok (fmin (fmul PROPOSAL_BACKOFF_BASE_SECS p) PROPOSAL_BACKOFF_MAX_SECS).

Definition decision_of (action params : pyval) (confidence : f64) (source : pyval) : pydict :=
  [(u "action_type", action); (u "params", params); (u "confidence", VFloat confidence);
   (u "proposal_source", source)].

(** The decision the rules substitute for the model. *)
Definition rule_decision (text why : pystr) (failures : Z) (extra : pydict) : pydict :=
  decision_of (VStr (u "record_observation"))
    (VDict ([(u "text", VStr text); (u "reason", VStr why); (u "failures", VInt failures)]
            ++ extra)) (f_dec 1 1) (VStr (u "rule_fallback")).

Definition no_action (source : pyval) (extra : pydict) : pydict :=
  decision_of VNone (VDict []) f0 source ++ extra.

(** The scored proposal of one model. *)
Definition scored_proposal : Type := pystr * proposal * f64.

(** What asking the models gave: outputs, proposals, how many were asked and
    how many answered. *)
Record answers := Answers {
  outputs : list (pystr * pystr);
  proposals : list scored_proposal;
  asked : Z;
  answered : Z
}.

Definition rank (sp : scored_proposal) : f64 := fmul (p_confidence sp.1.2) sp.2.
Definition ranked_before (a b : scored_proposal) : bool := fleb (rank b) (rank a).

Definition executable (l : list scored_proposal) : list scored_proposal :=
  List.filter (λ sp, match p_action sp.1.2 with Some _ => true | None => false end) l.

(** The longest prefix of the snippets within the token budget. *)
Fixpoint fit_snippets (used budget : Z) (contents : list pystr) : list pystr :=
  match contents with
  | [] => []
  | c :: rest =>
      let snippet := sanitize_text c 300 in
      let tokens := estimate_tokens snippet in
      if budget <? used + tokens then [] else snippet :: fit_snippets (used + tokens) budget rest
  end.

Definition disposition_value (d : disposition) : pystr :=
  match d with PASS => u "pass" | MODIFY => u "modify" | REROUTE => u "reroute" end.

Definition opt_str (o : option pystr) : pyval := match o with Some s => VStr s | None => VNone end.

(** [PersonalityVerdict.to_dict]. *)
Definition verdict_dict (v : PersonalityVerdict) : pydict :=
  [(u "verdict", VStr (disposition_value (verdict v))); (u "tone_score", VFloat (tone_score v));
   (u "verbosity_ok", VBool (verbosity_ok v)); (u "appropriateness", VFloat (appropriateness v));
   (u "adjustments", VDict (adjustments v)); (u "route_to", opt_str (route_to v));
   (u "reason", VStr (reason v))].

(** [v[:n]] of a text or list. *)
Definition slice_to (n : nat) (v : pyval) : res pyval :=
  match v with
  | VStr s => Ok (VStr (take n s))
  | VList l => Ok (VList (take n l))
  | _ => Raise (TypeError (u "object is not subscriptable"))
  end.

Definition field (k : string) (d : pydict) : pyval := dict_get (u k) VNone d.

(** [d.get(k, {})], used as an object. *)
Definition sub_object (k : string) (d : pydict) : res pydict :=
  as_dict (dict_get (u k) (VDict []) d).

Section Decide.
Context {M W : Type} {WW : World W} {MM : EngineMemory M} {PR : PyRepr} {PF : PyFloatOfStr}
{PD : PyDictOf}.
Context (json_loads : pystr → res pyval) (dumps : pyval → pystr) (exn_text : exn → pystr).
Context (word_beyond_ascii : N → bool).
(** The action types the engine knows, its context budget and its living
personality, when it has one. *)
Context (known : list pystr) (budget : ContextBudget) (personality : option PersonalityModel).
Abbreviation D := (decider M W).

(** *** Backends *)

Definition remember_backend (id : pystr) (b : option pystr) : py D (option pystr) :=
modify (λ d, with_backends (dset id b (d_backends d)) d) ;; mret b.

Definition create_backend (id : pystr) (config : pydict) : py D (option pystr) :=
r ← on_world (w_backend config);
remember_backend id (match r with Ok b => Some b | Raise _ => None end).

(** The configuration with the delegated URL in place of its own. *)
Definition delegated_config (url : pyval) (config : pydict) : pydict :=
if bool_decide (lower (py_str (dict_get (u "type") (VStr []) config)) = u "android")
then ddel (u "base_url") (dset (u "api_url") url config)
else ddel (u "api_url") (dset (u "base_url") url config).

(** [_backend_for]. *)
Definition backend_for (model : pydict) (delegation_url : pyval) : py D (option pystr) :=
match field "backend" model with
| VDict config =>
let id := py_str (dict_get (u "id") (VStr []) model) in
let stub := bool_decide (lower (py_str (dict_get (u "type") (VStr []) config)) = u "stub") in
d ← get;
match dget id (d_backends d) with
| Some b => mret b
| None =>
  if truthy delegation_url && negb stub then
    create_backend id (delegated_config delegation_url config)
  else create_backend id config
end
| _ => mret None
end.

(** *** Asking the models *)

(** The [try] around one model's call. *)
Definition ask_one (schema : list pystr) (task model : pydict) (id : pystr) : py D pystr :=
ctx ← of_res (sub_object "context" task);
backend ← backend_for model (field "delegation_url" ctx);
on_sub (get_model_output json_loads dumps id (VDict task) backend schema).

(** The loop over the selected models. *)
Fixpoint ask_models (schema : list pystr) (task : pydict) (l : list pydict) (a : answers) :
py D answers :=
match l with
| [] => mret a
| model :: rest =>
let id := py_str (dict_get (u "id") (VStr []) model) in
if negb (validate_model_name id) then ask_models schema task rest a
else
r ← attempt (ask_one schema task model id);
let output := match r with Ok o => o | Raise _ => [] end in
let outs := dset id output (outputs a) in
let n := answered a + (if is_ok r then 1 else 0) in
p ← of_res (parse_proposal json_loads known output);
match p with
| None => ask_models schema task rest (Answers outs (proposals a) (asked a + 1) n)
| Some p =>
    weight ← of_res (py_float (dict_get (u "weight") (VFloat f0) model));
    d ← get;
    let score := fmul weight (get_model_performance (VStr id) (d_models d)) in
    ask_models schema task rest
      (Answers outs (proposals a ++ [(id, p, score)]) (asked a + 1) n)
end
end.

(** *** Choosing *)

(** The model answered with nothing executable. *)
Definition count_model_failure (had_proposals : bool) : py D pydict :=
modify (λ d, with_streak (d_failures d + 1) (d_backend_failures d) (d_ready_at d) d) ;;
d ← get;
if 3 <=? d_failures d then
delay ← of_res (proposal_delay (d_failures d));
now ← on_world w_clock;
modify (λ d, with_streak (d_failures d) (d_backend_failures d) (fadd now delay) d) ;;
mret (rule_decision (u "routine observation (rule-based fallback)") (u "model_fallback")
    (d_failures d) [])
else mret (no_action (if had_proposals then VStr (u "null_proposal") else VNone) []).

(** No model was reached. *)
Definition count_backend_failure : py D pydict :=
modify (λ d, with_streak (d_failures d) (d_backend_failures d + 1) (d_ready_at d) d) ;;
d ← get;
if 3 <=? d_backend_failures d then
mret (rule_decision (u "routine observation (backend unavailable)") (u "backend_unavailable")
    (d_backend_failures d) [])
else mret (no_action VNone [(u "reason", VStr (u "backend_unavailable"))]).

Definition choose (backing_off : bool) (now : f64) (a : answers) : py D pydict :=
match sort_by ranked_before (executable (proposals a)) with
| (source, best, _) :: _ =>
d ← get;
put (with_streak 0 0 f0 (with_seq (d_seq d + 1) d)) ;;
mret (decision_of (opt_str (p_action best)) (VDict (p_params best)) (p_confidence best)
      (VStr source)
    ++ [(u "decision_id", VStr (u "dec-" ++ str_of_Z (d_seq d)))])
| [] =>
if backing_off then
d ← get;
mret (rule_decision (u "routine observation (proposer backoff)") (u "proposer_backoff")
        (d_failures d)
        [(u "retry_in_secs", VFloat (f_round 1 (fsub (d_ready_at d) now)))])
else if (0 <? asked a) && (answered a =? 0) then count_backend_failure
else count_model_failure (negb (bool_decide (length (proposals a) = 0%nat)))
end.

(** [sum(score for ...)]: the integer 0 without proposals. *)
Definition aggregate (l : list scored_proposal) : pyval :=
match l with [] => VInt 0 | _ => VFloat (foldl fadd f0 (snd <$> l)) end.

(** *** Personality and phrasing *)

(** The phrasing of a draft, when the shaper raises too. *)
Definition phrase (s : shaper) (draft : pystr) (verdict : pyval) : py D pydict :=
r ← attempt (λ d : D,
let '((s', w), r) := shape exn_text draft verdict [] (s, d_world d) in
(with_world w (with_shaper (Some s') d), r));
mret (match r with
| Ok x => x
| Raise e => shaping draft (u "unavailable") (exn_name e ++ u ": " ++ exn_text e) draft
end).

(** [_apply_persona]. *)
Definition apply_persona (decision : pydict) (advisory_only : bool) : py D pydict :=
d ← get;
match d_shaper d with
| None => mret decision
| Some s =>
if advisory_only || negb (shaper_enabled s) then mret decision else
let t := py_str (py_or (field "action_type" decision) (VStr [])) in
if negb (bool_decide (t ∈ [u "speak"; u "ask_user"])) then mret decision else
let params := object_or_empty (field "params" decision) in
let draft := strip (py_str (py_or (field "text" params) (VStr []))) in
match draft with
| [] => mret decision
| _ =>
  let name := label s in
  result ← phrase s draft (field "personality_verdict" decision);
  let spoken := match strip (py_str (py_or (field "text" result) (VStr []))) with
                | [] => draft
                | t => t
                end in
  let decision := if bool_decide (spoken = draft) then decision
                  else dset (u "params") (VDict (dset (u "text") (VStr spoken) params))
                         decision in
  let note := [(u "source", field "source" result); (u "label", VStr name);
               (u "draft", VStr draft);
               (u "reason", VStr (take 200 (py_str (py_or (field "reason" result)
                                                      (VStr [])))))] in
  attempt (record_event (u "persona_phrasing")
    [(u "source", field "source" result); (u "label", VStr name);
     (u "action_type", field "action_type" decision)]) ;;
  mret (dset (u "persona") (VDict note) decision)
end
end.

(** The verdict pass inside its [try]. *)
Definition judge_decision (m : PersonalityModel) (decision task : pydict) (advisory_only : bool) :
py D pydict :=
let context := [(u "self_initiated", VBool (truthy (field "self_initiated" task)));
          (u "task_type", field "type" task)] in
let v := annotate word_beyond_ascii exn_text decision context m in
match (if advisory_only then Ok decision else apply_verdict decision v) with
| Raise e =>
mret (dset (u "personality_verdict")
(VDict [(u "verdict", VStr (u "pass"));
        (u "reason", VStr (u "governor failure (ignored): " ++ exn_text e))]) decision)
| Ok decision =>
let decision := dset (u "personality_verdict") (VDict (verdict_dict v)) decision in
attempt (record_event (u "personality_verdict")
[(u "verdict", VStr (disposition_value (verdict v))); (u "reason", VStr (reason v));
 (u "tone_score", VFloat (tone_score v)); (u "appropriateness", VFloat (appropriateness v));
 (u "action_type", field "action_type" decision)]) ;;
mret decision
end.

(** [_apply_personality]. *)
Definition apply_personality (decision task : pydict) (advisory_only : bool) : py D pydict :=
match personality with
| None => apply_persona decision advisory_only
| Some m => decision ← judge_decision m decision task advisory_only;
      apply_persona decision advisory_only
end.

(** *** Conversation *)

Definition speak_decision (text : pyval) (confidence : f64) (source : string) : pydict :=
decision_of (VStr (u "speak")) (VDict [(u "text", text)]) confidence (VStr (u source)).

(** [" - "] with an em dash (U+2014). *)
Definition dashed (a b : string) : pystr := u a ++ [32; 8212; 32]%N ++ u b.

(** [_model_entry]. *)
Definition model_entry (id : pystr) (d : D) : pydict :=
default [(u "id", VStr id)]
(List.find (λ m, bool_decide (py_str (dict_get (u "id") (VStr []) m) = id))
 (models (d_models d))).

(** [_default_model_id]. *)
Definition default_model_id (d : D) : pystr :=
match select_models [(u "type", VStr (u "conversation"))] (d_models d) with
| Ok (m :: _) => py_str (dict_get (u "id") (VStr []) m)
| _ => []
end.

Definition conversation_model (task : pydict) (d : D) : pystr :=
match py_or (field "model" task) (VStr (default_model_id d)) with
| VStr name => if validate_model_name name then name else default_model_id d
| _ => default_model_id d
end.

(** What a conversation makes of a parsed proposal. *)
Definition conversation_reply (model_name : pystr) (p : proposal) : res pydict :=
match p_action p with
| Some t =>
if bool_decide (t ∈ [u "speak"; u "ask_user"]) then
Ok (proposal_dict p ++ [(u "proposal_source", VStr model_name)])
else
text ← slice_to 400 (py_or (field "text" (p_params p))
                       (VStr (u "I'm not sure how to respond to that.")));
Ok (speak_decision text (p_confidence p) "conversation_rerouted")
| None =>
text ← slice_to 400 (py_or (field "text" (p_params p))
                     (VStr (u "I'm not sure how to respond to that.")));
Ok (speak_decision text (p_confidence p) "conversation_rerouted")
end.

(** The decision before the personality pass. *)
Definition conversational_draft (task : pydict) : py D pydict :=
let prompt := dict_get (u "prompt") (VStr []) task in
if negb (truthy prompt) then
mret (speak_decision (VStr (dashed "I'm here" "what did you want to talk about?"))
    (f_dec 3 1) "conversation_fallback")
else
d ← get;
let name := conversation_model task d in
backend ← backend_for (model_entry name d) VNone;
output ← on_sub (get_conversational_output name (py_str prompt) backend);
if bool_decide (output = []) then
mret (speak_decision (VStr (dashed "I didn't catch that" "could you say it again?"))
      (f_dec 2 1) "conversation_empty")
else
p ← of_res (parse_proposal json_loads known output);
match p with
| Some p => of_res (conversation_reply name p)
| None =>
  match take 300 (strip output) with
  | [] => mret (speak_decision (VStr (dashed "Tell me more" "I'm listening."))
                  (f_dec 2 1) "conversation_unparseable")
  | text => mret (speak_decision (VStr text) (f_dec 5 1) "conversation_raw")
  end
end.

(** [_make_conversational_decision]. *)
Definition make_conversational_decision (task : pydict) : py D pydict :=
decision ← conversational_draft task;
apply_personality decision task false.

(** *** The decision *)

(** The snippets of retrieved memory, none when retrieval raises. *)
Definition memory_context (task : pydict) : py D (list pystr) :=
stamp ← on_world w_stamp;
r ← attempt (on_mem (em_context stamp (py_str (dict_get (u "content") (VStr []) task))));
mret (match r with
| Ok contents => fit_snippets 0 (limit (u "memory_context") budget) contents
| Raise _ => []
end).

(** The decision before retrieval and the personality pass. *)
Definition decide_action (schema : list pystr) (task : pydict) : py D pydict :=
d ← get;
selected ← of_res (select_models task (d_models d));
now ← on_world w_clock;
let backing_off := fltb now (d_ready_at d) in
record_event (u "decision_requested")
[(u "task_type", VStr (sanitize_text (py_str (dict_get (u "type") (VStr (u "unknown")) task)) 64));
 (u "content", VStr (sanitize_text (py_str (dict_get (u "content") (VStr []) task)) 200))] ;;
a ← ask_models schema task (if backing_off then [] else selected) (Answers [] [] 0 0);
decision ← choose backing_off now a;
mret (dset (u "aggregated_output") (aggregate (proposals a))
  (dset (u "model_outputs") (VDict ((λ kv, (kv.1, VStr kv.2)) <$> outputs a)) decision)).

(** [make_decision]. *)
Definition make_decision (schema : list pystr) (task : pydict) : py D pydict :=
if is_str (field "type" task) (u "conversation") then make_conversational_decision task
else
decision ← decide_action schema task;
snippets ← memory_context task;
apply_personality (dset (u "memory_context") (VList (VStr <$> snippets)) decision) task true.
End Decide.

(** ** The backoff of a failing proposer *)

Lemma pow2_ok k : (k < 1024)%nat → py_float_of_Z (2 ^ Z.of_nat k) = Ok (f_of_Z (2 ^ Z.of_nat k)).
Proof.
  intros Hk. pose proof (proj1 (List.forallb_forall _ _) pow2_float_check k) as H.
  specialize (H ltac:(apply List.in_seq; lia)). simpl in H.
  unfold py_float_of_Z in *. by destruct (f_of_Z _).
Qed.

Definition delay_at (k : nat) : f64 :=
  fmin (fmul PROPOSAL_BACKOFF_BASE_SECS (f_of_Z (2 ^ Z.of_nat k))) PROPOSAL_BACKOFF_MAX_SECS.

Lemma delay_check :
  forallb (λ k, fleb PROPOSAL_BACKOFF_BASE_SECS (delay_at k)
                && fleb (delay_at k) PROPOSAL_BACKOFF_MAX_SECS
                && (if (5 <=? k)%nat then feqb (delay_at k) PROPOSAL_BACKOFF_MAX_SECS else true))
    (List.seq 0 1024) = true.
Proof. vm_compute. reflexivity. Qed.

(** The wait after the [k]-th failure in a row is between the base and
    the maximum, and the maximum itself from the eighth failure on; it is
    defined up to the 1026th. At the 1027th the power of two no longer fits a
    float, and the computation raises instead of waiting. *)
Theorem proposal_delay_bounds failures :
  (3 <= failures < 1027 →
   ∃ d, proposal_delay failures = Ok d ∧
     fleb PROPOSAL_BACKOFF_BASE_SECS d = true ∧ fleb d PROPOSAL_BACKOFF_MAX_SECS = true ∧
     (8 <= failures → feqb d PROPOSAL_BACKOFF_MAX_SECS = true)) ∧
  proposal_delay 1027 = Raise OverflowError.
Proof.
  split; [|vm_compute; reflexivity]. intros Hf.
  assert (∃ k, failures = Z.of_nat k + 3 ∧ (k < 1024)%nat) as (k & -> & Hk).
  { exists (Z.to_nat (failures - 3)). lia. }
  exists (delay_at k). unfold proposal_delay.
  replace (Z.of_nat k + 3 - 3) with (Z.of_nat k) by lia. rewrite pow2_ok by done.
  split; [done|]. pose proof (proj1 (List.forallb_forall _ _) delay_check k) as H.
  specialize (H ltac:(apply List.in_seq; lia)). cbv beta in H.
  apply andb_true_iff in H as [[H1 H2]%andb_true_iff H3]. split_and!; try done.
  intros Hk8. destruct (Nat.leb_spec 5 k); [done|lia].
Qed.

(** ** Facts about deciding *)

Section DecideFacts.
Context {M W : Type} {WW : World W} {MM : EngineMemory M} {PR : PyRepr} {PF : PyFloatOfStr}
{PD : PyDictOf}.
Context (json_loads : pystr → res pyval) (dumps : pyval → pystr) (exn_text : exn → pystr).
Context (word_beyond_ascii : N → bool).
Context (known : list pystr) (budget : ContextBudget) (personality : option PersonalityModel).
Abbreviation D := (decider M W).

(** A property of the counters, which no call outside touches. *)
Definition about_streak (I : D → Prop) : Prop :=
∀ d m w s b sh, I d →
I (Decider m w (d_seq d) (d_models d) s (d_failures d) (d_backend_failures d) (d_ready_at d) b sh).

Lemma streak_on_world {A} I (f : W → W * A) : about_streak I → keeps I (on_world f : py D A).
Proof. intros HI d Hd. unfold on_world. destruct (f _). by apply HI. Qed.

Lemma streak_on_mem {A} I (m : py M A) : about_streak I → keeps I (on_mem m : py D A).
Proof. intros HI d Hd. unfold on_mem. destruct (m _). by apply HI. Qed.

Lemma streak_on_sub {A} I (m : py (subconscious * W) A) : about_streak I → keeps I (on_sub m : py D A).
Proof. intros HI d Hd. unfold on_sub. destruct (m _) as [[s w] r]. by apply (HI d). Qed.

Lemma streak_record I ty p : about_streak I → keeps I (record_event ty p : py D unit).
Proof.
intros HI. unfold record_event. keeps_auto; first [by apply streak_on_world | by apply streak_on_mem].
Qed.

Lemma streak_backend I model url : about_streak I → keeps I (backend_for model url : py D (option pystr)).
Proof.
intros HI. assert (∀ id c, keeps I (create_backend id c : py D (option pystr))) as Hc.
{ intros id c. unfold create_backend, remember_backend.
keeps_auto; first [by apply streak_on_world | apply keeps_modify; intros d Hd; by apply (HI d)]. }
unfold backend_for. keeps_auto; apply Hc.
Qed.

Lemma backend_for_returns model url : returns (backend_for model url : py D (option pystr)).
Proof.
assert (∀ id c, returns (create_backend id c : py D (option pystr))).
{ intros id c d. unfold create_backend, remember_backend, on_world. py_unfold.
by destruct (w_backend _ _). }
unfold backend_for. returns_auto.
Qed.

Lemma ask_one_answers schema task model id ctx :
sub_object "context" task = Ok ctx →
returns (ask_one json_loads dumps schema task model id : py D pystr).
Proof.
intros Hc. unfold ask_one. rewrite Hc. apply returns_bind; [done|]. intros c.
apply returns_bind; [apply backend_for_returns|]. intros b d. unfold on_sub.
pose proof (get_model_output_returns json_loads dumps id (VDict task) b schema
(d_sub d, d_world d)) as Hr.
by destruct (get_model_output _ _ _ _ _ _ _) as [[s w] r].
Qed.

Lemma streak_ask_one I schema task model id :
about_streak I → keeps I (ask_one json_loads dumps schema task model id : py D pystr).
Proof.
intros HI. unfold ask_one. keeps_auto; auto using streak_backend, streak_on_sub.
Qed.

Ltac next_answer IH d1 Hk :=
match goal with |- context [ask_models _ _ _ _ _ _ ?b d1] =>
let Hi := fresh in let Ha := fresh in
destruct (IH b d1 Hk) as [Hi Ha]; split; [exact Hi|];
let a' := fresh in intros a' ->%Ha; simpl; lia
end.

(** Every model that was asked has answered, whatever its backend did. *)
Lemma ask_models_answered I schema task l a ctx :
about_streak I → sub_object "context" task = Ok ctx →
triple I (ask_models json_loads dumps known schema task l a : py D answers)
(λ r d, I d ∧ ∀ a', r = Ok a' → answered a' - asked a' = answered a - asked a).
Proof.
intros HI Hc. revert a. induction l as [|model rest IH]; simpl; intros a d Hd.
{ split; [done|]. by intros a' [= <-]. }
destruct (validate_model_name _); simpl; [|by apply IH].
unfold mbind, py_bind, attempt.
pose proof (streak_ask_one I schema task model (py_str (dict_get (u "id") (VStr []) model)) HI d Hd)
as Hk.
pose proof (ask_one_answers schema task model (py_str (dict_get (u "id") (VStr []) model)) ctx Hc d)
as Hr.
destruct (ask_one _ _ _ _ _ _ d) as [d1 [output|e]]; [|done]. simpl in Hk |- *.
unfold of_res. destruct (parse_proposal _ _ _) as [[p|]|e]; [| |by split].
- destruct (py_float _) as [weight|]; [|by split]. unfold get.
next_answer IH d1 Hk.
- next_answer IH d1 Hk.
Qed.

Lemma choose_backend backing_off now a n :
answered a = asked a →
triple (λ d : D, d_backend_failures d = n) (choose backing_off now a)
(λ _ d, d_backend_failures d = n ∨ d_backend_failures d = 0).
Proof.
intros Ha d Hd. unfold choose.
destruct (sort_by _ _) as [|[[src best] sc] l]; [|by right].
destruct backing_off; [by left|].
replace ((0 <? asked a) && (answered a =? 0)) with false by lia.
unfold count_model_failure. py_unfold. simpl.
destruct (3 <=? _); [|by left]. unfold of_res, on_world.
destruct (proposal_delay _); [|by left]. simpl. destruct (w_clock _). by left.
Qed.

(** An outage is counted against the model. Unless the task's context is
not an object, making a decision never advances the streak of unreachable
backends, even when every call of every backend raises: asking a model
returns an empty text instead of raising, so what happened is counted as the
model answering with nothing. *)
Theorem outage_never_recognised schema task (d : D) ctx :
sub_object "context" task = Ok ctx →
d_backend_failures (decide_action json_loads dumps known schema task d).1 = d_backend_failures d
∨ d_backend_failures (decide_action json_loads dumps known schema task d).1 = 0.
Proof.
intros Hc. set (n := d_backend_failures d).
set (I := λ d : D, d_backend_failures d = n).
assert (about_streak I) as HI by (by intros ??????? ).
assert (triple I (decide_action json_loads dumps known schema task)
(λ _ d, d_backend_failures d = n ∨ d_backend_failures d = 0)) as Ht.
2: { by apply (Ht d). }
apply triple_get. intros d0 _. apply (triple_pre I); [|by intros ? (_ & ?)].
apply triple_of_res; [|by left]. intros selected _.
apply triple_keeps; [by apply streak_on_world|by left|]. intros now. cbv zeta.
apply triple_keeps; [by apply streak_record|by left|]. intros [].
eapply triple_bind.
{ eapply triple_weaken; [by eapply (ask_models_answered I)|by intros ? ?|].
intros r d' [Hd Ha].
instantiate (1 := λ a d, I d ∧ answered a = asked a). destruct r as [a|e]; [|by left].
split; [done|]. specialize (Ha a eq_refl). simpl in Ha. lia. }
intros a. intros d1 [Hd1 Ha]. unfold mbind, py_bind.
pose proof (choose_backend (fltb now (d_ready_at d0)) now a n Ha d1 Hd1) as Hch.
by destruct (choose _ _ _ d1) as [d2 [x|e]].
Qed.

(** A delegated backend is for ever. Once a model's backend has been looked
up with some URL, every later lookup returns that backend, whatever URL it is
given and also without one. *)
Theorem delegated_backend_sticks model config url url' (d d1 : D) b :
field "backend" model = VDict config →
backend_for model url d = (d1, Ok b) →
backend_for model url' d1 = (d1, Ok b).
Proof.
intros Hc. unfold backend_for. rewrite Hc. cbv zeta.
set (id := py_str (dict_get (u "id") (VStr []) model)). py_unfold.
assert (∀ c (d d1 : D) b, create_backend id c d = (d1, Ok b) → dget id (d_backends d1) = Some b) as Hk.
{ intros c d0 d2 b0. unfold create_backend, remember_backend, on_world. py_unfold.
destruct (w_backend c (d_world d0)) as [w r]. simpl. intros [= <- <-]. simpl.
apply dget_dset_eq. }
destruct (dget id (d_backends d)) as [b0|] eqn:Eg; [intros [= <- <-]; by rewrite Eg|].
destruct (_ && _); intros E%Hk; by rewrite E.
Qed.

(** The decision is the best proposal. When a model proposed something to
execute and no score is NaN, the decision carries the type, the parameters and
the source of a proposal whose confidence times score is the greatest of the
executable ones, and the failure streaks and the backoff are cleared. *)
Theorem best_rank_chosen backing_off now a (d : D) :
executable (proposals a) ≠ [] →
Forall (λ sp, f_is_nan (rank sp) = false) (executable (proposals a)) →
∃ id p score decision, (id, p, score) ∈ executable (proposals a) ∧
(choose backing_off now a d).2 = Ok decision ∧
dget (u "action_type") decision = Some (opt_str (p_action p)) ∧
dget (u "params") decision = Some (VDict (p_params p)) ∧
dget (u "proposal_source") decision = Some (VStr id) ∧
(∀ sp, sp ∈ executable (proposals a) → fleb (rank sp) (rank (id, p, score)) = true) ∧
let d' := (choose backing_off now a d).1 in
d_failures d' = 0 ∧ d_backend_failures d' = 0 ∧ d_ready_at d' = f0.
Proof.
intros Hne Hnan. unfold choose.
pose proof (sort_by_perm ranked_before (executable (proposals a))) as Hp.
pose proof (sort_by_head_least_on ranked_before (λ sp, f_is_nan (rank sp) = false)
(executable (proposals a))) as Hleast.
pose proof (sort_by_head_elem ranked_before (executable (proposals a))) as Helem.
destruct (sort_by ranked_before _) as [|[[id p] score] l].
{ by apply Permutation_nil_l in Hp. }
exists id, p, score. eexists. split; [by apply Helem|]. split; [reflexivity|].
split_and!; try reflexivity.
apply (Hleast (id, p, score)); try done.
- intros x y Hx Hy. unfold ranked_before. destruct (fltb (rank x) (rank y)) eqn:E.
+ right. by apply fltb_fleb.
+ left. by apply fltb_false_fleb.
- intros x y z Hxy Hyz. unfold ranked_before in *. by eapply fleb_trans.
Qed.
End DecideFacts.

(** ** What the personality governor does not see *)

Section Unjudged.
Context {PR : PyRepr} {PF : PyFloatOfStr} {PD : PyDictOf}.
Context (word_beyond_ascii : N → bool) (exn_text : exn → pystr).

Lemma first_text_utterance v params :
first_text text_keys (dset (u "utterance") v params) = first_text text_keys params.
Proof.
unfold text_keys, first_text, dict_get. by rewrite !dget_dset_ne by done.
Qed.

Lemma extract_text_utterance v params :
extract_text (py_or (VDict (dset (u "utterance") v params)) (VDict [])) =
extract_text (py_or (VDict params) (VDict [])).
Proof.
assert (∀ d, extract_text (py_or (VDict d) (VDict [])) = Ok (first_text text_keys d)) as He.
{ by intros [|kv d]. }
by rewrite !He, first_text_utterance.
Qed.

(** Words a model writes beside its parameters are spoken unjudged. The
engine moves such a text into [params.utterance], which the speech handler
speaks, and the personality governor's verdict on the proposal is the same
with it as without it: whatever the text says, it is neither blocked nor
shortened. *)
Theorem utterance_unjudged data p context m :
annotate word_beyond_ascii exn_text (proposal_dict (with_utterance data p)) context m =
annotate word_beyond_ascii exn_text (proposal_dict p) context m.
Proof.
unfold with_utterance. destruct (p_action p) as [t|] eqn:Et; [|done].
destruct (dict_get (u "text") VNone data) as [| | | |text| |]; try done.
destruct (_ && _); [|done]. unfold annotate, annotate_body, proposal_dict.
cbn [p_action p_params p_confidence]. rewrite Et.
change (dict_get (u "params") VNone
[(u "action_type", VStr t); (u "params", VDict (dset (u "utterance") (VStr text) (p_params p)));
(u "confidence", VFloat (p_confidence p))])
with (VDict (dset (u "utterance") (VStr text) (p_params p))).
change (dict_get (u "params") VNone
[(u "action_type", VStr t); (u "params", VDict (p_params p));
(u "confidence", VFloat (p_confidence p))]) with (VDict (p_params p)).
by rewrite extract_text_utterance.
Qed.
End Unjudged.

(** ** Witnesses *)

Section Demo.
#[local] Existing Instance script_world.
#[local] Existing Instance event_log.
#[local] Instance demo_repr : PyRepr := λ _, [].
#[local] Instance demo_floats : PyFloatOfStr := no_float.

Abbreviation demo_decider_type := (decider (list (pystr * pydict)) script).

(** A model with a delegable backend, and a fresh decider. *)
Definition demo_model_entry : pydict :=
  [(u "id", VStr (u "small")); (u "type", VStr (u "text")); (u "weight", VFloat f1);
   (u "backend", VDict [(u "type", VStr (u "ollama"))])].

Definition demo_decider (reply : res pystr) : demo_decider_type :=
  Decider [] (Script (f_of_Z 10) [] true reply (Raise (RuntimeError []))) 0
    (Models [demo_model_entry] []) (new_subconscious f0) 0 0 f0 [] None.

Definition demo_task : pydict := [(u "type", VStr (u "text")); (u "content", VStr (u "hi"))].

Abbreviation demo_decide := (decide_action demo_json demo_dumps [u "speak"] [u "speak"] demo_task).

(** An unreachable backend, three times. *)
Lemma outage_never_recognised_witness :
  let d1 := (demo_decide (demo_decider (Raise (RuntimeError [])))).1 in
  let d3 := (demo_decide (demo_decide d1).1).1 in
  (d_failures d3 = 3 ∧ d_ready_at d3 = f_of_Z 40) ∧
  (d_backend_failures d1 = 0 ∨ d_backend_failures d1 = 0).
Proof.
  intros d1 d3. split; [split; vm_compute; reflexivity|].
  apply (outage_never_recognised demo_json demo_dumps [u "speak"] [u "speak"] demo_task
           (demo_decider (Raise (RuntimeError []))) []).
  vm_compute. reflexivity.
Defined.

Lemma delegated_backend_sticks_witness :
  let d1 := (backend_for demo_model_entry (VStr (u "http://peer")) (demo_decider (Ok []))).1 in
  backend_for demo_model_entry VNone d1 = (d1, Ok (Some (u "http://peer"))).
Proof.
  apply (delegated_backend_sticks demo_model_entry [(u "type", VStr (u "ollama"))]
    (VStr (u "http://peer")) VNone (demo_decider (Ok []))); vm_compute; reflexivity.
Defined.

Definition demo_answers : answers :=
  Answers [] [(u "a", Proposal (Some (u "speak")) [] (f_dec 3 1), f1);
              (u "b", Proposal (Some (u "ask_user")) [] (f_dec 9 1), f1);
              (u "c", Proposal None [] f1, f1)] 3 3.

Lemma best_rank_chosen_witness :
  ∃ id p score decision, (id, p, score) ∈ executable (proposals demo_answers) ∧
  (choose false f0 demo_answers (demo_decider (Ok []))).2 = Ok decision ∧
  dget (u "action_type") decision = Some (opt_str (p_action p)).
Proof.
  destruct (best_rank_chosen false f0 demo_answers (demo_decider (Ok [])))
    as (id & p & score & decision & H1 & H2 & H3 & _).
  - vm_compute. discriminate.
  - repeat constructor.
  - exact (ex_intro _ id (ex_intro _ p (ex_intro _ score (ex_intro _ decision
      (conj H1 (conj H2 H3)))))).
Defined.
End Demo.
