(* ===== verification/Engine.v ===== *)
(** * The decision engine ([src/decision_engine.py], the gated path)

    [execute_task] and everything it goes through: the fallback check, the
    governor's task, the task policy, the decision, the action gate with its
    consent and approval, the execution under a hash-bound token, multi-step
    expansion, the record of the outcome and the handlers of what was raised.
    The state is the fallback controller with its governor, the execution
    layer, whose environment is the [decider] with memory and world, and the
    stage trail.  The decision itself is an argument, [decide_with]: the
    theorems hold whatever it proposes; [Deciding.make_decision] is the
    engine's. *)

From Stdlib Require Import ZArith Lia.
From Stdlib Require Import Floats.SpecFloat.
From S2P Require Import Prelude PyFloat PyStr PyVal Security Policy AuditTrail StateMachine.
From S2P Require Import Fallbacks Identity Models Execution World Subconscious Proposals Deciding.

Local Open Scope Z_scope.

(** ** Which actions need consent *)

(** The optional modules that were importable. *)
Record installed := Installed_modules {
  has_robotics : bool;
  has_mobile : bool;
  has_shugonet : bool;
  has_fleet : bool
}.

(** The bridge's own sets: policy's grow to them, the engine imports these. *)
Definition BRIDGE_NETWORK_ACTION_TYPES : list pystr :=
  [u "network_send"; u "network_query"; u "network_sync"; u "network_spatial_observe";
   u "network_nrr_render"; u "network_nrr_scene"].
Definition BRIDGE_NETWORK_READ_ACTION_TYPES : list pystr :=
  [u "network_list_agents"; u "network_status"; u "network_spatial_query";
   u "network_fleet_map"].

Definition when (b : bool) (l : list pystr) : list pystr := if b then l else [].

(** [_KNOWN_ACTION_TYPES]. *)
Definition engine_action_types (i : installed) : list pystr :=
  [u "api_call"; u "database_update"; u "hardware_interaction"; u "news_api"; u "search_api";
   u "multi_step_process"; u "record_observation"]
  ++ SPEECH_OUTPUT_ACTION_TYPES ++ ASK_USER_ACTION_TYPES
  ++ when (has_robotics i) (ROBOTICS_ACTION_TYPES ++ ROBOTICS_SAFETY_ACTION_TYPES
                            ++ ROBOTICS_READ_ACTION_TYPES)
  ++ when (has_mobile i) (MOBILE_ACTION_TYPES ++ MOBILE_READ_ACTION_TYPES)
  ++ when (has_shugonet i) (BRIDGE_NETWORK_ACTION_TYPES ++ BRIDGE_NETWORK_READ_ACTION_TYPES)
  ++ when (has_fleet i) (FLEET_ACTION_TYPES ++ FLEET_READ_ACTION_TYPES).

(** [_CONSENT_GATED_ACTION_TYPES]. *)
Definition consent_gated (i : installed) : list pystr :=
  SIDE_EFFECTING_ACTION_TYPES ++ when (has_robotics i) ROBOTICS_ACTION_TYPES
  ++ when (has_mobile i) MOBILE_ACTION_TYPES
  ++ when (has_shugonet i) BRIDGE_NETWORK_ACTION_TYPES
  ++ when (has_fleet i) FLEET_ACTION_TYPES.

(** ** Pure parts of the policy *)

Definition sensitive_patterns : list pystr :=
  [u "all women are"; u "all men are"; u "gender stereotype"; u "race is";
   u "racial superiority"; u "ethnic cleansing"; u "all asians"; u "all blacks";
   u "all whites"; u "all hispanics"; u "all muslims"; u "all christians";
   u "religious inferior"; u "old people are"; u "disabled people are"; u "ageist"].
Definition loaded_words : list pystr :=
  [u "inferior"; u "superior race"; u "master race"; u "subhuman";
   u "should be eradicated"; u "should be eliminated"].

(** [str(task.get("content", task.get("prompt", "")))]. *)
Definition task_content `{PyRepr} (task : pydict) : pystr :=
  py_str (dict_get (u "content") (dict_get (u "prompt") (VStr []) task) task).

(** [detect_bias]. *)
Definition detect_bias `{PyRepr} (task : pydict) : bool :=
  let content := lower (task_content task) in
  existsb (λ p, contains p content) (sensitive_patterns ++ loaded_words).

(** [_SECRET_IN_TEXT_PATTERN.search]. *)
Fixpoint secret_in_text (s : pystr) : bool :=
  match s with
  | [] => false
  | _ :: rest => (match match_credential s with Some _ => true | None => false end)
                 || secret_in_text rest
  end.

(** The type of a model's backend, as the explanation check reads it. *)
Definition backend_type (model : pydict) : pyval :=
  match dict_get (u "backend") (VDict []) model with
  | VDict b => dict_get (u "type") (VStr (u "ollama")) b
  | VStr s => VStr s
  | _ => VStr (u "ollama")
  end.

Definition explains (model : pydict) : bool :=
  negb (is_str (backend_type model) (u "stub") || is_str (backend_type model) (u "static")).

(** Membership in a set of strings: an unhashable value raises. *)
Definition member_of (l : list pystr) (v : pyval) : res bool :=
  match v with
  | VStr s => Ok (bool_decide (s ∈ l))
  | VList _ | VDict _ => Raise (TypeError (u "unhashable type"))
  | _ => Ok false
  end.

(** What the consent registry answers at a time, and the refusal's reason. *)
Definition consent_answer `{PyRepr} (t : pystr) (attention : pyval) (now : f64) (c : consents) :
    bool * pystr :=
  match attention with
  | VNone => (has_grant t now c,
              u "no external consent grant for side-effecting action '" ++ t ++ u "'")
  | VStr a => let '(good, why) := has_grant_for_attended_action t (Some a) now c in
              (good, default [] why)
  | v => (false, u "human attention is '" ++ py_str v ++ u "' (need 'attending' or 'unknown')")
  end.

Definition safe_state_refusal : pystr :=
  u "execution is in SAFE_STATE (read-only); side-effecting action blocked".

(** [_governor_trigger_kind]. *)
Definition governor_trigger_kind (message : pystr) : pystr :=
  let m := lower message in
  if contains (u "step budget") m then u "step_budget_exhausted"
  else if contains (u "deadline") m then u "task_deadline_exceeded"
  else u "runaway_loop".

(** [result.setdefault(key, value)]. *)
Definition set_default (k : pystr) (v : pyval) (d : pydict) : pydict :=
  match dget k d with Some _ => d | None => d ++ [(k, v)] end.

(** [_with_decision_meta]. *)
Definition with_decision_meta (result decision : pydict) : pydict :=
  set_default (u "action_type") (field "action_type" decision)
    (set_default (u "proposal_source") (field "proposal_source" decision) result).

Definition task_type `{PyRepr} (task : pydict) : pystr :=
  sanitize_text (py_str (dict_get (u "type") (VStr (u "unknown")) task)) 64.

(** The decision of one step of a multi-step process. *)
Definition sub_decision (decision step : pydict) (index : Z) : pydict :=
  [(u "action_type", field "action_type" step);
   (u "params", py_or (field "params" step) (VDict []));
   (u "confidence", dict_get (u "confidence") (VFloat f0) decision);
   (u "model_outputs", dict_get (u "model_outputs") (VDict []) decision);
   (u "step_index", VInt index)].

Definition string_list (l : list pystr) : pyval := VList (VStr <$> l).

(** ** The engine *)

(** The callables the engine installs as handlers: its own note, and those of
    the robotics, mobile and network modules. *)
Inductive engine_handler := Observe | Installed (name : pystr).

Section Engine.
Context {M W : Type} {WW : World W} {MM : EngineMemory M} {PR : PyRepr}.
Abbreviation D := (decider M W).

(** [_record_observation_action]. *)
Definition record_observation_action (payload : pydict) : py D pyval :=
params ← of_res (params_of payload);
let note := sanitize_text (py_str (py_or (py_or (field "text" params) (field "reason" params))
                                     (VStr (u "observation")))) 200 in
record_event (u "observation_recorded") [(u "text", VStr note)] ;;
mret (VDict [(u "status", VStr (u "success")); (u "recorded", VBool true);
         (u "text", VStr note)]).

#[export] Instance engine_env : ExecEnv engine_handler D := {
env_clock d := let '(w, t) := w_clock (d_world d) in (with_world w d, t);
env_readings d := let '(w, t) := w_readings (d_world d) in (with_world w d, t);
env_handler h payload := match h with
                     | Observe => record_observation_action payload
                     | Installed name => λ d,
                         let '(w, r) := w_handler name payload (d_world d) in
                         (with_world w d, r)
                     end;
env_http rq d := let '(w, r) := w_http rq (d_world d) in (with_world w d, r)
}.

Abbreviation X := (xstate engine_handler D).

Record engine := Engine {
e_fallbacks : FallbackController governor;
e_exec : X;
e_trail : option (list pystr)
}.

Definition with_fallbacks (c : FallbackController governor) (e : engine) : engine :=
Engine c (e_exec e) (e_trail e).
Definition with_exec (x : X) (e : engine) : engine := Engine (e_fallbacks e) x (e_trail e).
Definition with_trail (t : option (list pystr)) (e : engine) : engine :=
Engine (e_fallbacks e) (e_exec e) t.

Definition e_governor (e : engine) : governor := fb_governor (e_fallbacks e).
Definition e_mode (e : engine) : AgentState := StateMachine.mode (e_governor e).

Definition on_fallbacks {A} (m : py (FallbackController governor) A) : py engine A := λ e,
let '(c, r) := m (e_fallbacks e) in (with_fallbacks c e, r).
Definition on_gov {A} (m : py governor A) : py engine A := on_fallbacks (on_governor m).
Definition on_exec {A} (m : py X A) : py engine A := λ e,
let '(x, r) := m (e_exec e) in (with_exec x e, r).
Definition on_decider {A} (m : py D A) : py engine A := on_exec (on_env m).

(** *** Collaborators *)

Definition time_now : py engine f64 := on_decider (on_world w_clock).
Definition remember (event_type : pystr) (payload : pydict) : py engine unit :=
on_decider (record_event event_type payload).
Definition resolve : py engine unit :=
on_decider (modify (λ d, with_mem (em_resolve (d_mem d)) d)).
Definition safe_audit (event_type : pystr) (payload : pydict) : py engine unit :=
on_exec (Execution.audit event_type payload).
Definition write_history (i : interaction) : py engine unit := on_exec (note i).

(** [governor.step], [consume_step(1)] with the readings they take. *)
Definition gov_step (next : AgentState) : py engine unit :=
t1 ← time_now; t2 ← time_now; on_gov (StateMachine.step t1 t2 next).
Definition gov_consume : py engine unit :=
t ← time_now; on_gov (consume_step t 1).

(** Entering a stage: the trail, then the governor. *)
Definition mark (stage : pystr) : py engine unit :=
modify (λ e, with_trail ((λ l, l ++ [stage]) <$> e_trail e) e).
Definition enter (stage : pystr) (next : AgentState) : py engine unit :=
mark stage ;; gov_step next.

(** [list(trail) + ["RECORD"]]. *)
Definition recorded_stages (e : engine) : list pystr := default [] (e_trail e) ++ [u "RECORD"].
Definition stages : py engine pyval := e ← get; mret (string_list (recorded_stages e)).

(** ** The gate *)

Section Path.
Context (urlparse : pystr → res parsed_url) (environ : pystr → option pystr).
Context (json_loads : pystr → res pyval) (bytes_decode : pystr → list N → res pystr).
Context (sha256 : pystr → pystr) (dumps : pyval → pystr).
(** [_CONSENT_GATED_ACTION_TYPES] and the decision protocol. *)
Context (gated : list pystr) (decide_with : list pystr → pydict → py D pydict).

(** [memory.check_policy], with the live consent registry as the checker. *)
Definition check_policy (action : pydict) : py engine (bool * option pystr) :=
t ← time_now;
e ← get;
let d := x_env (e_exec e) in
of_res (check (set_consent_checker (λ a, Ok (has_grant a t (w_consents (d_world d))))
                               (em_core (d_mem d)))
          (VDict action)).

(** The consent registry consulted. *)
Definition consult (t : pystr) (attention : pyval) : py engine (bool * pystr) :=
now ← time_now;
e ← get;
let registry := w_consents (d_world (x_env (e_exec e))) in
write_history (I_consent t attention now registry) ;;
mret (consent_answer t attention now registry).

(** The approval broker asked. *)
Definition ask_approval (t : pystr) (decision : pydict) : py engine approval_result :=
r ← on_decider (on_world (w_approve
  [(u "action_type", VStr t);
   (u "params", redact (py_or (field "params" decision) (VDict [])));
   (u "confidence", field "confidence" decision)]));
write_history (I_approval t (approved r)) ;;
mret r.

(** The part of the gate for a type that needs consent. *)
Definition gate_effect (t : pystr) (decision : pydict) (attention : pyval) :
py engine (bool * option pystr) :=
e ← get;
if decide (e_mode e = SAFE_STATE) then mret (false, Some safe_state_refusal) else
c ← consult t attention;
if negb c.1 then mret (false, Some c.2) else
a ← ask_approval t decision;
if negb (approved a) then
safe_audit (u "approval_denied")
[(u "action_type", VStr t); (u "reason", VStr (Policy.reason a))] ;;
mret (false, Some (u "approval denied: " ++ Policy.reason a))
else safe_audit (u "approval_granted") [(u "action_type", VStr t)] ;; mret (true, None).

(** [_gate_decision]. *)
Definition gate_decision (decision : pydict) (attention : pyval) :
py engine (bool * option pystr) :=
r ← check_policy decision;
if negb r.1 then mret (false, r.2) else
g ← of_res (member_of gated (field "action_type" decision));
match field "action_type" decision with
| VStr t => if (g : bool) then gate_effect t decision attention else mret (true, None)
| _ => mret (true, None)
end.

(** ** The task policy *)

(** [can_audit]. *)
Definition can_audit : py engine bool :=
e ← get;
match x_audit (e_exec e) with
| None => mret false
| Some _ =>
r ← on_decider (on_world w_verify);
match r with
| Ok (true, _) => mret true
| Ok (false, errors) =>
    if bool_decide (errors = [u "audit file not found"])
    then on_decider (on_world w_writable) else mret false
| Raise _ => mret false
end
end.

(** [can_explain]. *)
Definition can_explain : py engine bool :=
e ← get;
mret (match x_audit (e_exec e) with
  | None => false
  | Some _ => existsb explains (models (d_models (x_env (e_exec e))))
  end).

(** [is_privacy_compliant]. *)
Definition is_privacy_compliant (task : pydict) : py engine bool :=
a ← can_audit;
mret (a && negb (secret_in_text (task_content task))).

(** The consent of a task whose own type has effects. *)
Definition task_consent (task : pydict) : py engine (option pystr) :=
g ← of_res (member_of gated (field "type" task));
match field "type" task with
| VStr t =>
if negb g then mret None else
e ← get;
if decide (e_mode e = SAFE_STATE) then mret (Some safe_state_refusal) else
c ← consult t VNone;
mret (if negb c.1 then Some c.2 else None)
| _ => mret None
end.

(** [task.get(flag, False) and not check]. *)
Definition fails_when (flag : string) (task : pydict) (m : py engine bool) : py engine bool :=
if truthy (dict_get (u flag) (VBool false) task) then b ← m; mret (negb b) else mret false.

(** [_evaluate_policy]. *)
Definition evaluate_policy (task : pydict) : py engine (bool * option pystr) :=
r ← check_policy task;
if negb r.1 then mret (false, r.2) else
if is_str (field "type" task) (u "harmful") then mret (false, Some (u "invariant: no_harm")) else
c ← task_consent task;
match c with
| Some why => mret (false, Some why)
| None =>
if truthy (dict_get (u "manipulative") (VBool false) task)
then mret (false, Some (u "invariant: no_manipulation")) else
x ← fails_when "requires_explanation" task can_explain;
if (x : bool) then mret (false, Some (u "cannot provide required explanation")) else
if detect_bias task then mret (false, Some (u "bias detected")) else
p ← fails_when "involves_personal_data" task (is_privacy_compliant task);
if (p : bool) then mret (false, Some (u "privacy compliance required")) else
a ← fails_when "requires_audit" task can_audit;
if (a : bool) then mret (false, Some (u "cannot provide required audit trail"))
else mret (true, None)
end.

(** ** Executing *)

(** [_record_block]. *)
Definition record_block (kind : pystr) (obj : pydict) (why : pystr) : py engine unit :=
remember (u "policy_block")
[(u "kind", VStr kind); (u "reason", VStr (sanitize_text why 120));
 (u "content", VStr (sanitize_text (py_str (redact (VDict obj))) 200))] ;;
resolve ;;
safe_audit (u "policy_block")
[(u "kind", VStr kind); (u "reason", VStr (sanitize_text why 120))].

(** The decision with its trace and the token bound to both. *)
Definition signed (seq : Z) (decision : pydict) : pydict :=
let trace := (u "execution_id", VStr (u "exe-" ++ str_of_Z seq))
:: match field "decision_id" decision with
 | VNone => []
 | v => [(u "decision_id", v)]
 end in
let payload := dset (u "_trace") (VDict trace) decision in
dset (u "_policy")
(VDict [(u "verdict", VStr (u "allow"));
      (u "decision_hash", VStr (canonical_hash sha256 dumps (VDict payload)))]) payload.

(** [_execute_gated]. *)
Definition execute_gated (decision : pydict) : py engine pydict :=
on_decider (modify (λ d, with_seq (d_seq d + 1) d)) ;;
e ← get;
write_history (I_execute (field "action_type" decision) (e_mode e)) ;;
r ← on_exec (execute urlparse environ json_loads bytes_decode sha256 dumps
           (signed (d_seq (x_env (e_exec e))) decision));
mret (with_decision_meta r decision).

(** The loop of [_execute_multi_step]. *)
Fixpoint run_steps (decision : pydict) (index : Z) (steps : list pyval) :
py engine (list pydict) :=
match steps with
| [] => mret []
| VDict step :: rest =>
let sub := sub_decision decision step index in
r ← gate_decision sub VNone;
x ← (if negb r.1 then
       record_block (u "step") sub (default (u "gated") r.2) ;;
       mret (refused (default (u "gated") r.2))
     else gov_consume ;; execute_gated sub);
l ← run_steps decision (index + 1) rest;
mret (x :: l)
| _ :: rest =>
l ← run_steps decision (index + 1) rest;
mret (refused (u "invalid step") :: l)
end.

Definition all_succeeded (results : list pydict) : bool :=
forallb (λ r, bool_decide (py_str (Execution.status r) = u "success")) results.

(** [_execute_multi_step]. *)
Definition execute_multi_step (decision : pydict) : py engine pydict :=
params ← of_res (params_of decision);
let steps := py_or (field "steps" params) (VList []) in
if negb (truthy steps) then
record_block (u "decision") decision (u "multi-step with no steps") ;;
mret (refused (u "no steps provided"))
else
l ← of_res (py_iter steps);
results ← run_steps decision 0 l;
mret [(u "status", VStr (if all_succeeded results then u "success" else u "error"));
    (u "steps_results", VList (VDict <$> results))].

(** ** The pipeline *)

Definition refusal (outcome : string) (why : pystr) (trail : pyval) : pydict :=
[(u "status", VStr (u "refused")); (u "outcome", VStr (u outcome)); (u "reason", VStr why);
 (u "stages", trail)].

(** What the ensemble's noted errors say about a cycle without an action. *)
Definition no_action_detail (errors : list (pystr * pystr)) (decision : pydict) : pystr :=
let classes := sort_by str_leb (remove_dups ((λ kv, before (u ":") kv.2) <$> errors)) in
u "no viable action proposed by the model ensemble"
++ match classes with [] => [] | _ => u "; call_errors=" ++ join (u ",") classes end
++ (if is_str (field "proposal_source" decision) (u "null_proposal")
then u "; model returned a well-formed null proposal" else []).

Definition finish_no_action (task decision : pydict) : py engine pydict :=
e ← get;
let errors := last_call_errors (d_sub (x_env (e_exec e))) in
remember (u "no_viable_action")
[(u "task_type", VStr (task_type task));
 (u "detail", VStr (sanitize_text (no_action_detail errors decision) 200))] ;;
gov_step IDLE ;;
resolve ;;
st ← stages;
mret (with_decision_meta
[(u "status", VStr (u "error")); (u "outcome", VStr (u "no_viable_action"));
 (u "message", VStr (u "no viable action proposed by the model ensemble"));
 (u "call_errors", VDict (foldl (λ d kv, dset (take 64 kv.1) (VStr (take 80 kv.2)) d) [] errors));
 (u "stages", st)] decision).

(** [str(result.get("status", "unknown"))]. *)
Definition status_text (r : pydict) : pystr :=
py_str (dict_get (u "status") (VStr (u "unknown")) r).

Definition steps_of (r : pydict) : list pyval :=
match field "steps_results" r with VList l => l | _ => [] end.

Definition step_status (v : pyval) : pyval :=
match v with VDict r => VStr (status_text r) | _ => VNone end.

(** The evaluation and record of a multi-step result. *)
Definition finish_multi_step (task result : pydict) : py engine pydict :=
enter (u "EVALUATE") EVALUATING ;;
let done := steps_of result in
remember (u "tool_execution")
[(u "task_type", VStr (task_type task)); (u "action_type", VStr (u "multi_step_process"));
 (u "status", VStr (status_text result));
 (u "detail", VStr (sanitize_text (py_str (VList (step_status <$> done))) 200))] ;;
resolve ;;
st ← stages;
let outcome := if bool_decide (done = []) then u "policy_block"
           else if bool_decide (status_text result = u "success") then u "success"
           else u "task_failure" in
mret (dset (u "stages") st (dset (u "outcome") (VStr outcome)
(dset (u "result_status") (VStr (status_text result))
(dset (u "executed") (VBool (negb (bool_decide (done = [])))) result)))).

Definition run_multi_step (task decision : pydict) : py engine pydict :=
enter (u "EXECUTE") EXECUTING ;;
result ← execute_multi_step decision;
finish_multi_step task result.

Definition run_action (task decision : pydict) : py engine pydict :=
enter (u "EXECUTE") EXECUTING ;;
gov_consume ;;
result ← execute_gated decision;
on_decider (λ d, let '(mm, r) := reinforce_models decision result (d_models d) in
             (with_models mm d, r)) ;;
enter (u "EVALUATE") EVALUATING ;;
remember (u "tool_execution")
[(u "task_type", VStr (task_type task)); (u "action_type", field "action_type" decision);
 (u "status", VStr (status_text result));
 (u "detail", VStr (sanitize_text (py_str (VDict result)) 200))] ;;
resolve ;;
st ← stages;
mret (dset (u "stages") st (dset (u "result_status") (VStr (status_text result))
(dset (u "executed") (VBool true) (dset (u "outcome") (VStr (u "success")) result)))).

(** The rest of the pipeline, once there is a decision. *)
Definition act_on (task decision : pydict) : py engine pydict :=
if negb (truthy (field "action_type" decision)) then finish_no_action task decision
else if is_str (field "action_type" decision) (u "multi_step_process") then
run_multi_step task decision
else
ctx ← of_res (sub_object "context" task);
r ← gate_decision decision (field "attention_state" ctx);
if negb r.1 then
record_block (u "decision") decision (default (u "gated") r.2) ;;
gov_step IDLE ;;
resolve ;;
st ← stages;
mret (with_decision_meta (refusal "policy_block" (default (u "gated") r.2) st) decision)
else run_action task decision.

(** [available_action_types]. *)
Definition available_action_types (e : engine) : list pystr :=
sort_by str_leb (remove_dups (u "record_observation" :: u "multi_step_process"
                          :: (handlers (x_layer (e_exec e))).*1)).

(** [_run_gated_task]. *)
Definition run_gated_task (task : pydict) : py engine pydict :=
enter (u "GATE") GATING ;;
r ← evaluate_policy task;
if negb r.1 then
let why := default (u "policy check failed") r.2 in
record_block (u "task") task why ;;
on_fallbacks (report_violation (u "invariant_violations") (default (u "policy") r.2)) ;;
gov_step IDLE ;;
st ← stages;
mret (refusal "policy_block" why st)
else
enter (u "DECIDE") DECIDING ;;
e ← get;
decision ← on_decider (decide_with (available_action_types e) task);
act_on task decision.

(** [self.fallbacks.evaluate()] with what its collaborators report. *)
Definition evaluate_fallbacks : py engine unit :=
t ← time_now;
e ← get;
on_fallbacks (evaluate t (breakers_open_count t (x_layer (e_exec e)))
            (Some (em_backlog (d_mem (x_env (e_exec e)))))) ;;
mret tt.

Definition end_of_task : py engine unit := t ← time_now; on_gov (end_task t).

(** The task's reference: [None] only for an explicit null type. *)
Definition task_ref (task : pydict) : option pystr :=
match dict_get (u "type") (VStr (u "unknown")) task with
| VNone => None
| v => Some (py_str v)
end.

(** The body of [execute_task]'s outer [try]. *)
Definition attempt_task (task : pydict) : py engine pydict :=
evaluate_fallbacks ;;
t ← time_now;
r ← attempt (on_gov (begin_task t (task_ref task)));
match r with
| Raise (GovernorError msg) =>
remember (u "governor_block") [(u "kind", VStr (u "begin_task"));
                               (u "detail", VStr (u "GovernorError"))] ;;
mret (refusal "governor_block" (sanitize_text msg 160)
        (string_list [u "GATE"; u "RECORD"]))
| Raise e => raise e
| Ok _ =>
modify (with_trail (Some [])) ;;
finally (run_gated_task task) end_of_task
end.

(** The [except] clauses. *)
Definition handle_failure (task : pydict) (x : exn) : py engine pydict :=
match x with
| FallbackHalt msg =>
remember (u "fallback_halt") [(u "detail", VStr (u "FallbackHalt"))] ;;
st ← stages;
mret [(u "status", VStr (u "refused")); (u "outcome", VStr (u "governor_block"));
      (u "reason", VStr (sanitize_text msg 160)); (u "terminal", VBool true);
      (u "stages", st)]
| GovernorError msg =>
let kind := governor_trigger_kind msg in
on_fallbacks (report_violation kind msg) ;;
remember (u "governor_block") [(u "kind", VStr kind);
                               (u "detail", VStr (u "GovernorError"))] ;;
st ← stages;
mret (refusal "governor_block" (sanitize_text msg 160) st)
| e =>
remember (u "task_failure") [(u "task_type", VStr (task_type task));
                             (u "error", VStr (exn_name e))] ;;
resolve ;;
st ← stages;
mret [(u "status", VStr (u "error")); (u "outcome", VStr (u "task_failure"));
      (u "message", VStr (exn_name e)); (u "stages", st)]
end.

(** [execute_task]. *)
Definition execute_task (task : pydict) : py engine pydict :=
r ← attempt (attempt_task task);
match r with
| Ok x => mret x
| Raise e => handle_failure task e
end.

(** [check_ethics]. *)
Definition check_ethics (task : pydict) : py engine bool := r ← evaluate_policy task; mret r.1.

(** ** Searches, news, models *)

(** The list under [key] of a decoded body, each entry through [entry]; a body
that is not a JSON object gives nothing. *)
Definition listed (key : pystr) (entry : pyval → option pyval) (data : pystr) : res (list pyval) :=
let r : res (list pyval) :=
v ← json_loads data; d ← as_dict v;
l ← py_iter (dict_get key (VList []) d); Ok (@omap list _ _ _ entry l) in
match r with
| Raise (ValueError _) | Raise (AttributeError _) => Ok []
| x => x
end.

(** The allowlisted read both share. *)
Definition read_list (url key : pystr) (params : pydict) (entry : pyval → option pyval) :
py engine (list pyval) :=
r ← on_exec (http_get_json urlparse bytes_decode url (VDict params));
if negb (is_str (Execution.status r) (u "success")) then mret [] else
data ← of_res (data_of r);
of_res (listed key entry data).

(** [perform_search]. *)
Definition perform_search (query : pystr) : py engine (list pyval) :=
if bool_decide (query = []) then mret [] else
read_list (u "https://api.duckduckgo.com/") (u "RelatedTopics")
[(u "q", VStr query); (u "format", VStr (u "json")); (u "no_html", VStr (u "1"))] topic.

(** One article: its title, link and source. *)
Definition article (v : pyval) : option pyval :=
match v with
| VDict d =>
Some (VDict [(u "title", field "title" d); (u "url", field "url" d);
             (u "source", match field "source" d with
                          | VDict s => field "name" s
                          | _ => VNone
                          end)])
| _ => None
end.

(** [fetch_news]. *)
Definition fetch_news (query : pystr) : py engine (list pyval) :=
if bool_decide (query = []) then mret [] else
e ← get;
match non_empty (resolver_get environ (u "news_api_key") None (secrets (x_layer (e_exec e)))) with
| None => mret []
| Some key =>
read_list (u "https://newsapi.org/v2/everything") (u "articles")
  [(u "q", VStr query); (u "apiKey", VStr key); (u "language", VStr (u "en"))] article
end.

(** [add_model]: an id that is not a model name is refused. *)
Definition add_engine_model (model : pydict) : py engine unit :=
let id := py_str (dict_get (u "id") (VStr []) model) in
raise_if (negb (validate_model_name id)) (ValueError (u "invalid model id: " ++ py_repr (VStr id))) ;;
on_decider (λ d, let '(mm, r) := add_model model (d_models d) in (with_models mm d, r)).
End Path.
End Engine.
