(* ===== verification/EngineSafety.v ===== *)
(** * What the gated path guarantees

    The permission automaton that reads a history of the engine, and the proof
    that whatever the models propose, the world answers and an exception cuts
    short, [execute_task] only writes histories it accepts, within the step
    budget.  Every operation of the engine is shown to keep the invariant
    [sound]; the operations that only touch the memory, the world or the audit
    do so because the invariant does not look at them ([env_blind]). *)

From Stdlib Require Import ZArith Lia.
From Stdlib Require Import Floats.SpecFloat.
From S2P Require Import Prelude PyFloat PyStr PyVal Security Policy AuditTrail StateMachine.
From S2P Require Import Fallbacks Identity Models Execution World Subconscious Proposals Deciding.
From S2P Require Import Engine.

Local Open Scope Z_scope.

(** ** The permission automaton *)

(** What the last calls of a history have established. *)
Inductive permission : Type :=
  | Nothing
  | Consented (t : pystr)
  | Approved (t : pystr)
  | Entered.

#[export] Instance permission_eq_dec : EqDecision permission.
Proof. solve_decision. Defined.

Section Automaton.
Context {PR : PyRepr} (gated : list pystr).

(** An execution of a gated type needs its consent and its approval just
before it and a mode that is not read-only; an effect needs an execution
just before it. *)
Definition permit (p : permission) (i : interaction) : option permission :=
match i with
| I_consent t attention now registry =>
Some (if (consent_answer t attention now registry).1 then Consented t else Nothing)
| I_approval t granted =>
Some (if granted && bool_decide (p = Consented t) then Approved t else Nothing)
| I_execute (VStr t) m =>
if bool_decide (t ∈ gated) then
  if bool_decide (p = Approved t) && bool_decide (m ≠ SAFE_STATE) then Some Entered
  else None
else Some Entered
| I_execute _ _ => Some Entered
| I_handler _ _ | I_http _ _ => if bool_decide (p = Entered) then Some Nothing else None
end.

Definition after_history (h : list interaction) : option permission :=
foldl (λ p i, p ≫= λ p, permit p i) (Some Nothing) h.

Lemma after_snoc h i : after_history (h ++ [i]) = after_history h ≫= λ p, permit p i.
Proof. unfold after_history. by rewrite foldl_app. Qed.

Lemma foldl_permit_none h : foldl (λ p i, p ≫= λ p, permit p i) None h = None.
Proof. by induction h. Qed.

Definition accepted (h : list interaction) : Prop := is_Some (after_history h).

Lemma accepted_prefix h1 h2 : accepted (h1 ++ h2) → accepted h1.
Proof.
unfold accepted, after_history. rewrite foldl_app. destruct (foldl _ (Some _) h1); [done|].
by rewrite foldl_permit_none.
Qed.

Definition is_execution (i : interaction) : bool :=
match i with I_execute _ _ => true | _ => false end.
Definition is_effect (i : interaction) : bool :=
match i with I_handler _ _ | I_http _ _ => true | _ => false end.
Definition executions (h : list interaction) : Z :=
Z.of_nat (length (List.filter is_execution h)).

Lemma executions_snoc h i :
executions (h ++ [i]) = executions h + (if is_execution i then 1 else 0).
Proof.
unfold executions. rewrite List.filter_app, length_app. simpl.
destruct (is_execution i); simpl; lia.
Qed.

(** The state after a history that ends in a consent, an approval or an
execution, read backwards. *)
Lemma after_consented h t :
after_history h = Some (Consented t) →
∃ h' a now c, h = h' ++ [I_consent t a now c] ∧ (consent_answer t a now c).1 = true.
Proof.
destruct h as [|i h _] using rev_ind; [done|]. rewrite after_snoc.
destruct (after_history h) as [p|]; [|done]. simpl.
destruct i as [t' a now c|t' g|v m|k d|m url]; simpl.
- destruct (consent_answer t' a now c).1 eqn:E; [|done]. intros [= ->]. by exists h, a, now, c.
- by destruct (g && _).
- destruct v; try done. do 2 try case_bool_decide; simpl; try done.
all: try (by case_bool_decide).
- by case_bool_decide.
- by case_bool_decide.
Qed.

Lemma after_approved h t :
after_history h = Some (Approved t) →
∃ h' a now c, h = h' ++ [I_consent t a now c; I_approval t true] ∧
(consent_answer t a now c).1 = true.
Proof.
destruct h as [|i h _] using rev_ind; [done|]. rewrite after_snoc.
destruct (after_history h) as [p|] eqn:Eh; [|done]. simpl.
destruct i as [t' a now c|t' g|v m|k d|m url]; simpl.
- by destruct (consent_answer t' a now c).1.
- destruct g; simpl; [|done]. case_bool_decide as Hp; [|done]. intros [= ->]. subst p.
destruct (after_consented h t Eh) as (h' & a & now & c & -> & Ha).
exists h', a, now, c. by rewrite <- app_assoc.
- destruct v; try done. do 2 try case_bool_decide; simpl; try done.
all: try (by case_bool_decide).
- by case_bool_decide.
- by case_bool_decide.
Qed.

Lemma after_entered h :
after_history h = Some Entered → ∃ h' v m, h = h' ++ [I_execute v m].
Proof.
destruct h as [|i h _] using rev_ind; [done|]. rewrite after_snoc.
destruct (after_history h) as [p|] eqn:Eh; [|done]. simpl.
destruct i as [t' a now c|t' g|v m|k d|m url]; simpl; try (by case_bool_decide).
- by destruct (consent_answer t' a now c).1.
- by destruct (g && _).
- intros _. by exists h, v, m.
Qed.

(** What acceptance says: the calls before an execution and before an effect. *)
Lemma accepted_execution h t m h2 :
accepted (h ++ I_execute (VStr t) m :: h2) → t ∈ gated →
m ≠ SAFE_STATE ∧
∃ h' a now c, h = h' ++ [I_consent t a now c; I_approval t true] ∧
(consent_answer t a now c).1 = true.
Proof.
intros Ha Ht. change (I_execute (VStr t) m :: h2) with ([I_execute (VStr t) m] ++ h2) in Ha.
rewrite app_assoc in Ha. apply accepted_prefix in Ha as [p Hp]. rewrite after_snoc in Hp.
destruct (after_history h) as [q|] eqn:Eh; [|done]. simpl in Hp.
rewrite bool_decide_true in Hp by done.
case_bool_decide; [|done]. case_bool_decide; [|done]. subst q.
split; [done|]. by apply after_approved.
Qed.

Lemma accepted_effect h i h2 :
accepted (h ++ i :: h2) → is_effect i = true → ∃ h' v m, h = h' ++ [I_execute v m].
Proof.
intros Ha Hi. change (i :: h2) with ([i] ++ h2) in Ha.
rewrite app_assoc in Ha. apply accepted_prefix in Ha as [p Hp]. rewrite after_snoc in Hp.
destruct (after_history h) as [q|] eqn:Eh; [|done]. simpl in Hp.
apply after_entered. destruct i; try done; simpl in Hp; by case_bool_decide; simplify_eq.
Qed.
End Automaton.

(** ** Invariants of governor and history *)

Section Frames.
Context {M W : Type} {WW : World W} {MM : EngineMemory M} {PR : PyRepr}.
Abbreviation E := (@engine M W).
Implicit Types (e : E) (J : governor → list interaction → Prop).

Definition history e : list interaction := x_trace (e_exec e).

(** A property of the governor and the history alone. *)
Definition about J e : Prop := J (e_governor e) (history e).

(** A property that does not look at memory, world, layer and audit. *)
Definition env_blind (I : E → Prop) : Prop :=
∀ e x, I e → x_trace x = history e → I (with_exec x e).

Lemma about_blind J : env_blind (about J).
Proof. intros e x He Hx. unfold about, history in *. simpl. by rewrite Hx. Qed.

Lemma keeps_on_decider {A} I (m : py (decider M W) A) :
env_blind I → keeps I (on_decider m : py E A).
Proof.
intros HI e He. unfold on_decider, on_exec, on_env.
destruct (m (x_env (e_exec e))) as [d r]. by apply HI.
Qed.

Lemma keeps_safe_audit I ty p : env_blind I → keeps I (safe_audit ty p : py E unit).
Proof. intros HI e He. unfold safe_audit, on_exec. simpl. by apply HI. Qed.

Lemma keeps_about_decider {A} J (m : py (decider M W) A) :
keeps (about J) (on_decider m : py E A).
Proof. apply keeps_on_decider, about_blind. Qed.

Lemma keeps_about_audit J ty p : keeps (about J) (safe_audit ty p : py E unit).
Proof. apply keeps_safe_audit, about_blind. Qed.

Lemma keeps_about_now J : keeps (about J) (time_now : py E f64).
Proof. apply keeps_about_decider. Qed.

Lemma keeps_about_remember J ty p : keeps (about J) (remember ty p : py E unit).
Proof. apply keeps_about_decider. Qed.

Lemma keeps_about_resolve J : keeps (about J) (resolve : py E unit).
Proof. apply keeps_about_decider. Qed.

Lemma keeps_about_stages J : keeps (about J) (stages : py E pyval).
Proof. by intros e He. Qed.

Lemma keeps_about_record_block J kind obj why : keeps (about J) (record_block kind obj why : py E unit).
Proof.
unfold record_block, remember, resolve.
repeat (apply keeps_bind; [apply keeps_about_decider|intros []]). apply keeps_about_audit.
Qed.

Lemma keeps_about_check_policy J action : keeps (about J) (check_policy action : py E _).
Proof.
unfold check_policy. apply keeps_bind; [apply keeps_about_decider|]. intros t.
apply keeps_bind; [apply keeps_get|]. intros e. apply keeps_of_res.
Qed.

(** Governor moves. *)
Definition move_blind J : Prop := ∀ g h s t,
s ≠ SAFE_STATE → J g h →
J (set_run g s (task_started_at g) (steps_used g) (Some t) (current_task g)) h.

Lemma keeps_about_mark J stage : keeps (about J) (mark stage : py E unit).
Proof. by intros e He. Qed.

Lemma keeps_about_step J next :
move_blind J → next ≠ SAFE_STATE → keeps (about J) (gov_step next : py E unit).
Proof.
intros HJ Hn. unfold gov_step. apply keeps_bind; [apply keeps_about_decider|]. intros t1.
apply keeps_bind; [apply keeps_about_decider|]. intros t2 e He.
unfold on_gov, on_fallbacks, on_governor, about, e_governor, history in *. simpl.
unfold StateMachine.step. py_unfold.
pose proof (check_deadline_state t1 (fb_governor (e_fallbacks e))) as Hc.
destruct (check_deadline _ _) as [g [[]|x]]; simpl in Hc; subst g; [|done].
destruct (step_transition_cases t2 next (fb_governor (e_fallbacks e)))
as [[-> _]|(Hs & _ & _)]; simpl; [by apply HJ|].
destruct (step_transition _ _ _) as [g r]; simpl in *. by subst g.
Qed.

Lemma keeps_about_enter J stage next :
move_blind J → next ≠ SAFE_STATE → keeps (about J) (enter stage next : py E unit).
Proof.
intros. apply keeps_bind; [apply keeps_about_mark|]. intros []. by apply keeps_about_step.
Qed.

(** Calls that write the history. *)
Lemma about_history J J' i :
(∀ g h, J g h → J' g (h ++ [i])) →
triple (about J) (write_history i : py E unit) (λ _, about J').
Proof. intros HJ e He. by apply HJ. Qed.
End Frames.

#[export] Hint Resolve keeps_about_decider keeps_about_now keeps_about_remember
  keeps_about_resolve keeps_about_audit keeps_about_stages
  keeps_about_record_block keeps_about_check_policy keeps_about_mark : keeps.

(** ** The invariant *)

Section Safety.
Context {M W : Type} {WW : World W} {MM : EngineMemory M} {PR : PyRepr}.
Context (urlparse : pystr → res parsed_url) (environ : pystr → option pystr).
Context (json_loads : pystr → res pyval) (bytes_decode : pystr → list N → res pystr).
Context (sha256 : pystr → pystr) (dumps : pyval → pystr).
Context (gated : list pystr) (decide_with : list pystr → pydict → py (decider M W) pydict).
(** The step budget, which nothing changes. *)
Context (budget : Z).
Abbreviation E := (@engine M W).
Implicit Types (e : E) (g : governor) (h : list interaction).

Abbreviation gate := (gate_decision gated).
Abbreviation run_gated := (execute_gated urlparse environ json_loads bytes_decode sha256 dumps).

(** In flight, with a history the automaton accepts and no more executions
since it had [base] than steps charged and than the budget. *)
Definition sound (base : Z) g h : Prop :=
accepted gated h ∧ is_Some (task_started_at g) ∧
executions h - base <= steps_used g ∧
executions h - base <= budget ∧ step_budget g = budget.

(** Nothing stands between the history and an execution of type [v]. *)
Definition clear (v : pyval) g h : Prop :=
∀ t, v = VStr t → t ∈ gated → after_history gated h = Some (Approved t) ∧ mode g ≠ SAFE_STATE.

Definition sound_clear base v g h : Prop := sound base g h ∧ clear v g h.

Definition ready base v g h : Prop :=
sound_clear base v g h ∧ executions h + 1 - base <= steps_used g <= step_budget g.

Lemma mode_move g s t :
s ≠ SAFE_STATE → mode g ≠ SAFE_STATE →
mode (set_run g s (task_started_at g) (steps_used g) (Some t) (current_task g)) ≠ SAFE_STATE.
Proof. unfold mode. simpl. by destruct (latched g). Qed.

Lemma sound_move base : move_blind (sound base).
Proof. by intros g h s t _ H. Qed.

Lemma sound_clear_move base v : move_blind (sound_clear base v).
Proof.
intros g h s t Hs [H Hc]. split; [exact H|]. intros t' Hv Ht.
destruct (Hc t' Hv Ht). split; [done|]. by apply mode_move.
Qed.

(** A consent or an approval written to the history. *)
Lemma sound_note base g h i :
is_execution i = false → is_effect i = false → sound base g h → sound base g (h ++ [i]).
Proof.
intros H1 H2 ([p Hp] & Hs & Hu & Hb & HB). split_and!; try done.
- exists (default Nothing (permit gated p i)). rewrite after_snoc, Hp. by destruct i.
- rewrite executions_snoc, H1. lia.
- rewrite executions_snoc, H1. lia.
Qed.

(** In a mode that is not read-only. *)
Definition sound_writable base g h : Prop := sound base g h ∧ mode g ≠ SAFE_STATE.

Lemma consult_sound base t attention :
triple (about (sound_writable base)) (consult t attention : py E _)
  (λ r, match r with
        | Ok c => about (λ g h, sound_writable base g h
                    ∧ (c.1 = true → after_history gated h = Some (Consented t)))
        | Raise _ => about (sound_writable base)
        end).
Proof.
unfold consult. apply triple_keeps; [apply keeps_about_decider|done|]. intros now.
apply triple_get. intros e0 _.
apply (triple_pre (about (sound_writable base))); [|by intros e (_ & ?)].
intros e [He Hm]. unfold about. simpl. split; [split; [by apply sound_note|done]|].
intros Hc. destruct He as ([p Hp] & _). unfold history in *. simpl.
rewrite after_snoc, Hp. simpl. by rewrite Hc.
Qed.

Lemma ask_approval_sound base t decision :
triple (about (λ g h, sound_writable base g h ∧ after_history gated h = Some (Consented t)))
  (ask_approval t decision : py E _)
  (λ r, match r with
        | Ok a => about (λ g h, sound_writable base g h
                    ∧ (approved a = true → after_history gated h = Some (Approved t)))
        | Raise _ => about (sound_writable base)
        end).
Proof.
unfold ask_approval. apply triple_keeps; [apply keeps_about_decider|by intros e s (? & _)|].
intros a e [[He Hm] Hp]. unfold about. simpl. split; [split; [by apply sound_note|done]|].
intros Ha. unfold history in *. simpl. rewrite after_snoc, Hp. simpl.
by rewrite Ha, bool_decide_true.
Qed.

(** The outcome of a gate: what it lets through is clear. *)
Definition gate_post base v (r : res (bool * option pystr)) : E → Prop :=
match r with
| Ok (true, _) => about (sound_clear base v)
| _ => about (sound base)
end.

Lemma writable_sound base e : about (sound_writable base) e → about (sound base) e.
Proof. by intros [? _]. Qed.

Lemma gate_effect_sound base t decision attention :
triple (about (sound base)) (gate_effect t decision attention : py E _)
  (gate_post base (VStr t)).
Proof.
unfold gate_effect. apply triple_get. intros e0 _. case_decide as Hm.
{ apply triple_ret. by intros e [-> ?]. }
apply (triple_pre (about (sound_writable base))); [|by intros e [-> ?]].
eapply triple_bind.
{ eapply triple_weaken; [apply consult_sound|done|].
  intros [c|x] e He; [exact He|by apply writable_sound]. }
intros [good why]. destruct good; simpl; [|apply triple_ret; by intros e [[? _] _]].
apply (triple_pre (about (λ g h, sound_writable base g h
                            ∧ after_history gated h = Some (Consented t))));
  [|by intros e [? Ht]; split; [|apply Ht]].
eapply triple_bind.
{ eapply triple_weaken; [apply ask_approval_sound|done|].
  intros [c|x] e He; [exact He|by apply writable_sound]. }
intros a. destruct (approved a) eqn:Ea; simpl.
- apply (triple_pre (about (sound_clear base (VStr t)))).
  + apply triple_keeps; [apply keeps_about_audit|by intros x e [? _]|].
    intros []. by apply triple_ret.
  + intros e [[? Hm'] Ha]. split; [done|]. intros t' [= <-] _. split; [by apply Ha|done].
- apply (triple_pre (about (sound base))); [|by intros e [[? _] _]].
  apply triple_keeps; [apply keeps_about_audit|done|]. intros []. by apply triple_ret.
Qed.

Lemma gate_decision_sound base decision attention :
triple (about (sound base)) (gate decision attention : py E _)
  (gate_post base (field "action_type" decision)).
Proof.
unfold gate_decision. apply triple_keeps; [apply keeps_about_check_policy|done|].
intros [good why]. destruct good; simpl; [|by apply triple_ret].
apply triple_of_res; [|done]. intros go Hgo.
assert (∀ v, (∀ t, v = VStr t → t ∉ gated) →
  triple (about (sound base)) (mret (true, None) : py E _) (gate_post base v)) as Hfree.
{ intros v Hv. apply triple_ret. intros e He. split; [exact He|].
  intros t Et Ht. by destruct (Hv t Et). }
destruct (field "action_type" decision) as [| | | |t| |]; try by apply Hfree.
simpl in Hgo. apply (inj Ok) in Hgo. case_bool_decide as Ht; subst go.
- apply gate_effect_sound.
- apply Hfree. by intros t' [= <-].
Qed.

(** Continuing after the gate. *)
Lemma after_gate {A} base decision attention (k : bool * option pystr → py E A) Q :
(∀ x e, about (sound base) e → Q (Raise x) e) →
(∀ why, triple (about (sound_clear base (field "action_type" decision))) (k (true, why)) Q) →
(∀ why, triple (about (sound base)) (k (false, why)) Q) →
triple (about (sound base)) (gate decision attention ≫= k) Q.
Proof.
intros Hx Ht Hf.
apply (triple_bind _ _ _ (λ r, gate_post base (field "action_type" decision) (Ok r))).
- eapply triple_weaken; [apply gate_decision_sound|done|]. intros [r|x] e He; [done|by apply Hx].
- intros [[] why]; [apply Ht|apply Hf].
Qed.

(** ** Executing *)

Lemma consume_ready base v :
triple (about (sound_clear base v)) (gov_consume : py E unit)
  (λ r, match r with Ok _ => about (ready base v) | Raise _ => about (sound base) end).
Proof.
unfold gov_consume. apply triple_keeps; [apply keeps_about_decider|by intros x e [? _]|].
intros t e [Hs Hc]. unfold about, on_gov, on_fallbacks, on_governor, e_governor, history in *.
unfold consume_step. py_unfold.
pose proof (check_deadline_state t (fb_governor (e_fallbacks e))) as Hd.
destruct (check_deadline _ _) as [g [[]|x]]; simpl in Hd; subst g; [|done].
set (g := fb_governor (e_fallbacks e)) in *.
destruct (charge_cases 1 g) as [[_ Hn]|(t0 & Ht & Hg & Hok)].
{ destruct Hs as (_ & [? Hs] & _). congruence. }
destruct Hs as (Ha & _ & Hu & Hb & HB).
destruct (charge 1 g) as [g' r]. simpl in *. subst g'.
assert (sound base (set_run g (state g) (Some t0) (steps_used g + Z.max 1 1)
                      (last_progress_at g) (current_task g)) (x_trace (e_exec e))) as Hs'.
{ split_and!; simpl; eauto; lia. }
destruct r as [[]|x]; [|exact Hs'].
split; [|simpl; pose proof (proj1 Hok eq_refl); lia].
split; [exact Hs'|]. exact Hc.
Qed.

Lemma after_consume {A} base v (k : unit → py E A) :
triple (about (ready base v)) (k tt) (λ _, about (sound base)) →
triple (about (sound_clear base v)) (gov_consume ≫= k) (λ _, about (sound base)).
Proof.
intros Hk. apply (triple_bind _ _ _ (λ _, about (ready base v))); [|by intros []].
eapply triple_weaken; [apply consume_ready|done|]. by intros [[]|x].
Qed.

(** Entering the executor, and what it then does. *)
Definition entered base g h : Prop := sound base g h ∧ after_history gated h = Some Entered.

Lemma ready_entered base v g h :
ready base v g h → entered base g (h ++ [I_execute v (mode g)]).
Proof.
intros [[([p Hp] & Hs & Hu & Hb & HB) Hc] Hlt].
assert (after_history gated (h ++ [I_execute v (mode g)]) = Some Entered) as Hi.
{ rewrite after_snoc, Hp. destruct v as [| | | |t| |]; try done. simpl.
  destruct (bool_decide_reflect (t ∈ gated)) as [Ht|]; [|done].
  destruct (Hc t eq_refl Ht) as [Hq Hm]. rewrite Hp in Hq. injection Hq as ->.
  by rewrite !bool_decide_true. }
split; [|exact Hi]. split_and!; [by eexists|done| | |done]; rewrite executions_snoc; simpl; lia.
Qed.

Lemma entered_effect base g h i :
is_effect i = true → entered base g h → sound base g (h ++ [i]).
Proof.
intros Hi [(_ & Hs & Hu & Hb & HB) Hp]. split_and!; [|done| | |done].
- exists Nothing. rewrite after_snoc, Hp. destruct i; try done; simpl; by rewrite bool_decide_true.
- rewrite executions_snoc. destruct i; try done; simpl; lia.
- rewrite executions_snoc. destruct i; try done; simpl; lia.
Qed.

Lemma permitted_effect l d i : permitted (H := engine_handler) urlparse l d i → is_effect i = true.
Proof. by intros [H|H]; destruct i. Qed.

Lemma on_execute_sound base d :
triple (about (entered base))
  (on_exec (execute urlparse environ json_loads bytes_decode sha256 dumps d) : py E _)
  (λ _, about (sound base)).
Proof.
intros e He. unfold on_exec.
pose proof (execute_history urlparse environ json_loads bytes_decode sha256 dumps d (e_exec e))
  as Hh.
destruct (execute _ _ _ _ _ _ d (e_exec e)) as [x r]. simpl in Hh |- *.
unfold about, history in *. simpl. destruct Hh as [->|(i & -> & Hi)].
- apply He.
- apply entered_effect; [by eapply permitted_effect|exact He].
Qed.

Lemma execute_gated_sound base decision :
triple (about (ready base (field "action_type" decision))) (run_gated decision : py E _)
  (λ _, about (sound base)).
Proof.
unfold execute_gated. apply triple_keeps; [apply keeps_about_decider|by intros x e [[? _] _]|].
intros []. apply triple_get. intros e0 _. cbv zeta.
apply (triple_bind _ _ _ (λ _, about (entered base))).
{ intros e [-> He]. by apply ready_entered. }
intros []. apply (triple_bind _ _ _ (λ _, about (sound base))); [|intros r; by apply triple_ret].
eapply triple_weaken; [apply on_execute_sound|done|]. by intros [|].
Qed.

(** ** The steps of a multi-step process *)

Lemma run_steps_sound base decision index steps :
keeps (about (sound base))
  (run_steps urlparse environ json_loads bytes_decode sha256 dumps gated decision index steps
   : py E _).
Proof.
revert index. induction steps as [|s rest IH]; intros index; simpl; [apply keeps_ret|].
assert (keeps (about (sound base))
  (l ← run_steps urlparse environ json_loads bytes_decode sha256 dumps gated decision (index + 1) rest;
   mret (refused (u "invalid step") :: l) : py E _)) as Hbad by (keeps_auto; apply IH).
destruct s as [| | | | | |step]; try exact Hbad.
apply after_gate; [done| |]; intros why; simpl.
- apply (triple_bind _ _ _ (λ _, about (sound base))); [|intros x; apply keeps_bind; [apply IH|intros l; apply keeps_ret]].
  eapply triple_weaken;
    [exact (after_consume base (field "action_type" (sub_decision decision step index)) _
              (execute_gated_sound base (sub_decision decision step index)))|done|].
  by intros [|].
- apply keeps_bind; [|intros x; apply keeps_bind; [apply IH|intros l; apply keeps_ret]]. keeps_auto.
Qed.

Lemma execute_multi_step_sound base decision :
keeps (about (sound base))
  (execute_multi_step urlparse environ json_loads bytes_decode sha256 dumps gated decision
   : py E _).
Proof. unfold execute_multi_step. keeps_auto. apply run_steps_sound. Qed.

(** ** The pipeline *)

Lemma finish_no_action_sound base task decision :
keeps (about (sound base)) (finish_no_action task decision : py E _).
Proof.
unfold finish_no_action. keeps_auto. apply keeps_about_step; [apply sound_move|done].
Qed.

Lemma run_multi_step_sound base task decision :
keeps (about (sound base))
  (run_multi_step urlparse environ json_loads bytes_decode sha256 dumps gated task decision
   : py E _).
Proof.
unfold run_multi_step, finish_multi_step. keeps_auto;
  first [apply execute_multi_step_sound | apply keeps_about_enter; [apply sound_move|done]].
Qed.

Lemma run_action_sound base task decision :
triple (about (sound_clear base (field "action_type" decision)))
  (run_action urlparse environ json_loads bytes_decode sha256 dumps task decision : py E _)
  (λ _, about (sound base)).
Proof.
unfold run_action. apply triple_keeps.
{ apply keeps_about_enter; [apply sound_clear_move|done]. }
{ by intros x e [? _]. }
intros []. apply after_consume.
apply (triple_bind _ _ _ (λ _, about (sound base))).
{ eapply triple_weaken; [apply execute_gated_sound|done|]. by intros [|]. }
intros result. apply keeps_bind; [apply keeps_about_decider|]. intros [].
keeps_auto. apply keeps_about_enter; [apply sound_move|done].
Qed.

(** ** The task *)

Lemma task_consent_sound base task :
keeps (about (sound base)) (task_consent gated task : py E _).
Proof.
unfold task_consent. apply keeps_bind; [apply keeps_of_res|]. intros go.
destruct (field "type" task); try apply keeps_ret.
destruct go; simpl; [|apply keeps_ret].
apply triple_get. intros e0 _. case_decide as Hm.
{ apply triple_ret. by intros e [-> ?]. }
apply (triple_pre (about (sound_writable base))); [|by intros e [-> ?]].
apply (triple_bind _ _ _ (λ _, about (sound base))).
- eapply triple_weaken; [apply consult_sound|done|].
  intros [c|x] e He; [apply He|by apply writable_sound].
- intros c. destruct (negb c.1); by apply triple_ret.
Qed.

Lemma fails_when_sound base flag task m :
keeps (about (sound base)) m → keeps (about (sound base)) (fails_when flag task m : py E _).
Proof. intros Hm. unfold fails_when. keeps_auto. Qed.

Lemma can_audit_sound base : keeps (about (sound base)) (can_audit : py E _).
Proof. unfold can_audit. keeps_auto. Qed.

Lemma evaluate_policy_sound base task :
keeps (about (sound base)) (evaluate_policy gated task : py E _).
Proof.
unfold evaluate_policy. keeps_auto; try apply task_consent_sound;
  apply fails_when_sound; unfold can_explain, is_privacy_compliant;
  keeps_auto; try apply can_audit_sound.
Qed.

Lemma act_on_sound base task decision :
keeps (about (sound base))
  (act_on urlparse environ json_loads bytes_decode sha256 dumps gated task decision : py E _).
Proof.
unfold act_on. destruct (truthy _); simpl; [|apply finish_no_action_sound].
destruct (is_str _ _); [apply run_multi_step_sound|].
apply keeps_bind; [apply keeps_of_res|]. intros ctx.
apply after_gate; [done| |]; intros why; simpl; [apply run_action_sound|].
match goal with |- triple ?I ?m _ => change (keeps I m) end.
keeps_auto. apply keeps_about_step; [apply sound_move|done].
Qed.

Lemma report_sound base kind detail :
keeps (about (sound base)) (on_fallbacks (report_violation kind detail) : py E _).
Proof.
intros e He. unfold on_fallbacks.
pose proof (keeps_report_violation (G := governor) (λ g, sound base g (history e))) as Hk.
assert (∀ s r, keeps (λ g, sound base g (history e)) (latch s r)) as Hl.
{ intros s r g (Ha & Hs & Hu & Hb & HB). destruct (latch_run_fields s r g) as (E1 & E2 & E3).
  unfold sound. by rewrite E1, E2, E3. }
specialize (Hk (Hl HALTED) (Hl SAFE_STATE) (Hl PAUSED) kind detail (e_fallbacks e) He).
by destruct (report_violation kind detail (e_fallbacks e)) as [c r].
Qed.

Lemma run_gated_task_sound base task :
keeps (about (sound base))
  (run_gated_task urlparse environ json_loads bytes_decode sha256 dumps gated decide_with task
   : py E _).
Proof.
unfold run_gated_task. keeps_auto;
  first [ apply keeps_about_enter; [apply sound_move|done]
        | apply keeps_about_step; [apply sound_move|done]
        | apply evaluate_policy_sound | apply report_sound | apply act_on_sound ].
Qed.

(** At rest: the same without a task in flight; [within] the budget or with
nothing executed yet. *)
Definition within base g h : Prop :=
accepted gated h ∧ executions h <= base + budget ∧ step_budget g = budget.
Definition fresh base g h : Prop :=
accepted gated h ∧ executions h = base ∧ step_budget g = budget.

Lemma keeps_about_fallbacks {A} J (m : py (FallbackController governor) A) :
(∀ h, keeps (λ c, J (fb_governor c) h) m) → keeps (about J) (on_fallbacks m : py E A).
Proof.
intros Hm e He. unfold on_fallbacks. specialize (Hm (history e) (e_fallbacks e) He).
by destruct (m (e_fallbacks e)).
Qed.

(** Properties of the history and of the budget, which latching keeps. *)
Definition budget_blind (J : governor → list interaction → Prop) : Prop :=
∀ g g' h, step_budget g' = step_budget g → J g h → J g' h.

Lemma within_blind base : budget_blind (within base).
Proof. intros g g' h E (Ha & He & Hb). split_and!; [done|done|congruence]. Qed.
Lemma fresh_blind base : budget_blind (fresh base).
Proof. intros g g' h E (Ha & He & Hb). split_and!; [done|done|congruence]. Qed.

Lemma latch_blind J s r h : budget_blind J → keeps (λ g, J g h) (latch s r).
Proof. intros HJ g Hg. eapply HJ; [|exact Hg]. apply latch_run_fields. Qed.

Lemma evaluate_blind J : budget_blind J → keeps (about J) (evaluate_fallbacks : py E unit).
Proof.
intros HJ. unfold evaluate_fallbacks. keeps_auto. apply keeps_about_fallbacks. intros h.
by apply (keeps_evaluate (G := governor) (λ g, J g h)); intros r; apply latch_blind.
Qed.

Lemma report_blind J kind detail :
budget_blind J → keeps (about J) (on_fallbacks (report_violation kind detail) : py E _).
Proof.
intros HJ. apply keeps_about_fallbacks. intros h.
by apply (keeps_report_violation (G := governor) (λ g, J g h)); intros r; apply latch_blind.
Qed.

Lemma handle_failure_within base task x :
keeps (about (within base)) (handle_failure task x : py E _).
Proof.
unfold handle_failure. destruct x; keeps_auto; apply report_blind, within_blind.
Qed.

Lemma finally_within base task :
triple (about (sound base))
  (finally (run_gated_task urlparse environ json_loads bytes_decode sha256 dumps gated
              decide_with task) end_of_task : py E _)
  (λ _, about (within base)).
Proof.
intros e He. pose proof (run_gated_task_sound base task e He) as Hk. unfold finally.
destruct (run_gated_task _ _ _ _ _ _ _ _ _ _) as [e1 r]. simpl in Hk.
assert (about (within base) (end_of_task e1).1) as Hend.
{ unfold end_of_task. pose proof (keeps_about_now (sound base) e1 Hk) as Hn.
  unfold mbind, py_bind. destruct (time_now e1) as [e2 [t|x]]; simpl in Hn |- *.
  - destruct Hn as (Ha & _ & _ & Hb & HB). split_and!; [done|unfold history in *; simpl; lia|done].
  - destruct Hn as (Ha & _ & _ & Hb & HB). split_and!; [done|lia|done]. }
by destruct (end_of_task e1) as [e2 [[]|x]].
Qed.

Lemma fresh_within base g h : 0 <= budget → fresh base g h → within base g h.
Proof. intros Hb (Ha & He & HB). split_and!; [done|lia|done]. Qed.

Lemma attempt_task_within base task :
0 <= budget →
triple (about (fresh base))
  (attempt_task urlparse environ json_loads bytes_decode sha256 dumps gated decide_with task
   : py E _)
  (λ _, about (within base)).
Proof.
intros Hb. assert (∀ (e : E), about (fresh base) e → about (within base) e) as Hw
  by (intros e; by apply fresh_within).
unfold attempt_task. apply triple_keeps; [apply evaluate_blind, fresh_blind|by intros _|].
intros []. apply triple_keeps; [apply keeps_about_now|by intros _|]. intros t.
apply (triple_attempt _ _ _ (λ r, match r with Ok _ => about (sound base)
                                        | Raise _ => about (fresh base) end)).
- intros e (Ha & He & HB). unfold on_gov, on_fallbacks, on_governor, about, e_governor in *.
  simpl. destruct (begin_task_cases t (task_ref task) (fb_governor (e_fallbacks e)))
    as [[-> _]|(Hg & Hr & _)]; simpl.
  + unfold history in *. split_and!; simpl; [done|by eexists|lia|lia|done].
  + destruct (begin_task _ _ _) as [g [[]|x]]; [done|]. simpl in *. by subst g.
- intros [[]|x].
  + apply (triple_bind _ _ _ (λ _, about (sound base))); [by intros e He|]. intros [].
    apply finally_within.
  + assert (triple (about (fresh base)) (raise x : py E pydict) (λ _, about (within base)))
      as Hraise by (intros e He; by apply Hw).
    destruct x; try exact Hraise.
    apply triple_keeps; [apply keeps_about_remember|by intros _|]. intros [].
    apply triple_ret. exact Hw.
Qed.
Lemma execute_task_within task e :
accepted gated (history e) → 0 <= budget → step_budget (e_governor e) = budget →
about (within (executions (history e)))
(execute_task urlparse environ json_loads bytes_decode sha256 dumps gated decide_with task e).1.
Proof.
intros Ha Hb HB.
assert (triple (about (fresh (executions (history e))))
(execute_task urlparse environ json_loads bytes_decode sha256 dumps gated decide_with task : py E _)
(λ _, about (within (executions (history e))))) as Ht.
{ unfold execute_task.
apply (triple_attempt _ _ _ (λ _, about (within (executions (history e)))));
  [apply attempt_task_within; lia|].
intros [x|x]; [by apply triple_ret|apply handle_failure_within]. }
exact (Ht e (conj Ha (conj eq_refl HB))).
Qed.
End Safety.

(** ** Theorems *)

Section Theorems.
Context {M W : Type} {WW : World W} {MM : EngineMemory M} {PR : PyRepr}.
Context (urlparse : pystr → res parsed_url) (environ : pystr → option pystr).
Context (json_loads : pystr → res pyval) (bytes_decode : pystr → list N → res pystr).
Context (sha256 : pystr → pystr) (dumps : pyval → pystr).
Context (gated : list pystr) (decide_with : list pystr → pydict → py (decider M W) pydict).
Abbreviation run_task :=
(execute_task urlparse environ json_loads bytes_decode sha256 dumps gated decide_with).
Implicit Types e : @engine M W.

(** C1. The gated path. From any history the automaton accepts, whatever the
decision protocol proposes and whatever memory, world and handlers do or
raise: executing a task leaves a history the automaton accepts -- so every
execution of a consent-gated type directly follows a consent the registry
grants at that moment and an operator's approval of the same type, outside
the read-only mode, and every handler call or request directly follows an
execution -- with at most as many new executions as the step budget. *)
Theorem execute_task_permitted task e :
accepted gated (history e) → 0 <= step_budget (e_governor e) →
let e' := (run_task task e).1 in
accepted gated (history e') ∧
executions (history e') <= executions (history e) + step_budget (e_governor e) ∧
(∀ h t m h2, history e' = h ++ I_execute (VStr t) m :: h2 → t ∈ gated →
 m ≠ SAFE_STATE ∧ ∃ h' a now c, h = h' ++ [I_consent t a now c; I_approval t true] ∧
 (consent_answer t a now c).1 = true) ∧
(∀ h i h2, history e' = h ++ i :: h2 → is_effect i = true →
 ∃ h' v m, h = h' ++ [I_execute v m]).
Proof.
intros Ha Hb. cbv zeta.
destruct (execute_task_within urlparse environ json_loads bytes_decode sha256 dumps gated
decide_with (step_budget (e_governor e)) task e Ha Hb eq_refl) as (Ha' & He' & _).
split; [done|]. split; [done|]. split.
- intros h t m h2 Eh. rewrite Eh in Ha'. by eapply accepted_execution.
- intros h i h2 Eh. rewrite Eh in Ha'. by eapply accepted_effect.
Qed.
End Theorems.
