(* ===== verification/EngineContract.v ===== *)
(** * What a task returns, and what it leaves behind

    The cycle-result contract of [execute_task]: it returns, its result names
    an outcome and, for an admitted task, the stages it entered, success means
    that something was executed, no task stays in flight, and a halted engine
    does nothing.  Also the token of a signed decision. *)

From Stdlib Require Import ZArith Lia.
From Stdlib Require Import Floats.SpecFloat.
From S2P Require Import Prelude PyFloat PyStr PyVal Security Policy AuditTrail StateMachine.
From S2P Require Import Fallbacks Identity Models Execution World Subconscious Proposals Deciding.
From S2P Require Import Engine EngineSafety.

Local Open Scope Z_scope.

(** ** Invariants the steps of the path keep

    Three layers: what every step keeps but an execution and the entry of a
    stage, what an execution keeps as well, and what the whole path keeps. *)

Section Framed.
Context {M W : Type} {WW : World W} {MM : EngineMemory M} {PR : PyRepr}.
Context (gated : list pystr).
Abbreviation E := (@engine M W).
Implicit Types (e : E).

(** An invariant blind to memory, world, governor and everything written in
the history but an execution. *)
Record framed (I : E → Prop) : Prop := {
q_env : env_blind I;
q_note i : is_execution i = false → keeps I (write_history i : py E unit);
q_gov {A} (m : py governor A) : keeps I (on_gov m : py E A);
q_report kind detail : keeps I (on_fallbacks (report_violation kind detail) : py E unit)
}.

Context (I : E → Prop) (HI : framed I).

Lemma framed_decider {A} (m : py (decider M W) A) : keeps I (on_decider m : py E A).
Proof. apply keeps_on_decider, q_env, HI. Qed.
Lemma framed_now : keeps I (time_now : py E f64).
Proof. apply framed_decider. Qed.
Lemma framed_remember ty p : keeps I (remember ty p : py E unit).
Proof. apply framed_decider. Qed.
Lemma framed_resolve : keeps I (resolve : py E unit).
Proof. apply framed_decider. Qed.
Lemma framed_audit ty p : keeps I (safe_audit ty p : py E unit).
Proof. apply keeps_safe_audit, q_env, HI. Qed.
Lemma framed_stages : keeps I (stages : py E pyval).
Proof. by intros e He. Qed.

#[local] Hint Resolve framed_decider framed_now framed_remember framed_resolve framed_audit
framed_stages : keeps.
#[local] Hint Extern 1 (keeps I (write_history _)) => apply q_note; [exact HI|reflexivity] : keeps.
#[local] Hint Extern 1 (keeps I (on_gov _)) => apply q_gov, HI : keeps.
#[local] Hint Extern 1 (keeps I (on_fallbacks (report_violation _ _))) => apply q_report, HI : keeps.

Lemma framed_step next : keeps I (gov_step next : py E unit).
Proof. unfold gov_step. keeps_auto. Qed.
Lemma framed_consume : keeps I (gov_consume : py E unit).
Proof. unfold gov_consume. keeps_auto. Qed.
Lemma framed_block kind obj why : keeps I (record_block kind obj why : py E unit).
Proof. unfold record_block. keeps_auto. Qed.
Lemma framed_check action : keeps I (check_policy action : py E _).
Proof. unfold check_policy. keeps_auto. Qed.
Lemma framed_consult t attention : keeps I (consult t attention : py E _).
Proof. unfold consult. keeps_auto. Qed.
Lemma framed_approval t decision : keeps I (ask_approval t decision : py E _).
Proof. unfold ask_approval. keeps_auto. Qed.
Lemma framed_audit_check : keeps I (can_audit : py E bool).
Proof. unfold can_audit. keeps_auto. Qed.
#[local] Hint Resolve framed_step framed_block framed_check framed_consult framed_approval
framed_audit_check : keeps.

Lemma framed_gate decision attention : keeps I (gate_decision gated decision attention : py E _).
Proof. unfold gate_decision, gate_effect. keeps_auto. Qed.

Lemma framed_policy task : keeps I (evaluate_policy gated task : py E _).
Proof.
unfold evaluate_policy, task_consent, fails_when, can_explain, is_privacy_compliant. keeps_auto.
Qed.
End Framed.

#[local] Hint Resolve framed_decider framed_now framed_remember framed_resolve framed_audit
framed_stages framed_step framed_consume framed_block framed_gate framed_policy : keeps.
#[local] Hint Extern 1 (keeps _ (on_gov _)) => apply q_gov : keeps.
#[local] Hint Extern 1 (keeps _ (on_fallbacks (report_violation _ _))) => apply q_report : keeps.

Section Closed.
Context {M W : Type} {WW : World W} {MM : EngineMemory M} {PR : PyRepr}.
Context (urlparse : pystr → res parsed_url) (environ : pystr → option pystr).
Context (json_loads : pystr → res pyval) (bytes_decode : pystr → list N → res pystr).
Context (sha256 : pystr → pystr) (dumps : pyval → pystr).
Context (gated : list pystr) (decide_with : list pystr → pydict → py (decider M W) pydict).
Abbreviation E := (@engine M W).
Implicit Types (e : E).
Abbreviation run_execute := (execute urlparse environ json_loads bytes_decode sha256 dumps).

(** An invariant executions keep as well, and one the whole path keeps. *)
Record acting (I : E → Prop) : Prop := {
a_framed : framed I;
a_write i : keeps I (write_history i : py E unit);
a_execute d : keeps I (on_exec (run_execute d) : py E pydict)
}.
Record path_closed (I : E → Prop) : Prop := {
pc_acting : acting I;
pc_mark stage : keeps I (mark stage : py E unit)
}.

Section Acting.
Context (I : E → Prop) (HI : acting I).
#[local] Hint Extern 0 (framed I) => apply (a_framed I HI) : keeps.
#[local] Hint Extern 1 (keeps I (write_history _)) => apply a_write, HI : keeps.
#[local] Hint Extern 1 (keeps I (on_exec (run_execute _))) => apply a_execute, HI : keeps.

Lemma acting_execute_gated decision :
keeps I (execute_gated urlparse environ json_loads bytes_decode sha256 dumps decision : py E _).
Proof. unfold execute_gated. keeps_auto. Qed.
#[local] Hint Resolve acting_execute_gated : keeps.

Lemma acting_steps decision index steps :
keeps I (run_steps urlparse environ json_loads bytes_decode sha256 dumps gated decision index
     steps : py E _).
Proof.
revert index. induction steps as [|s rest IH]; intros index; simpl; keeps_auto.
Qed.
#[local] Hint Resolve acting_steps : keeps.

Lemma acting_multi_step decision :
keeps I (execute_multi_step urlparse environ json_loads bytes_decode sha256 dumps gated decision
     : py E _).
Proof. unfold execute_multi_step. keeps_auto. Qed.
End Acting.

Context (I : E → Prop) (HI : path_closed I).
#[local] Hint Extern 0 (acting I) => apply (pc_acting I HI) : keeps.
#[local] Hint Extern 0 (framed I) => apply (a_framed I (pc_acting I HI)) : keeps.
#[local] Hint Resolve acting_execute_gated acting_multi_step : keeps.
#[local] Hint Extern 1 (keeps I (mark _)) => apply pc_mark, HI : keeps.

Lemma closed_enter stage next : keeps I (enter stage next : py E unit).
Proof. unfold enter. keeps_auto. Qed.
#[local] Hint Resolve closed_enter : keeps.

Lemma closed_act_on task decision :
keeps I (act_on urlparse environ json_loads bytes_decode sha256 dumps gated task decision
   : py E _).
Proof.
unfold act_on, finish_no_action, run_multi_step, finish_multi_step, run_action. keeps_auto.
Qed.
#[local] Hint Resolve closed_act_on : keeps.

Lemma closed_run_gated_task task :
keeps I (run_gated_task urlparse environ json_loads bytes_decode sha256 dumps gated decide_with
     task : py E _).
Proof. unfold run_gated_task. keeps_auto. Qed.
End Closed.

(** ** The cycle result *)

Definition outcomes : list pystr :=
  [u "success"; u "task_failure"; u "policy_block"; u "no_viable_action"; u "governor_block"].

Ltac known_outcome := apply (bool_decide_unpack _); vm_compute; exact I.

Section Contract.
Context {M W : Type} {WW : World W} {MM : EngineMemory M} {PR : PyRepr}.
Context (urlparse : pystr → res parsed_url) (environ : pystr → option pystr).
Context (json_loads : pystr → res pyval) (bytes_decode : pystr → list N → res pystr).
Context (sha256 : pystr → pystr) (dumps : pyval → pystr).
Context (gated : list pystr) (decide_with : list pystr → pydict → py (decider M W) pydict).
Abbreviation E := (@engine M W).
Implicit Types (e : E).
Abbreviation closed := (path_closed urlparse environ json_loads bytes_decode sha256 dumps).

(** At least [n] executions in the history. *)
Definition grown (n : Z) e : Prop := n <= executions (history e).

Lemma grown_snoc n e i : grown n e → n <= executions (history e ++ [i]).
Proof. unfold grown. rewrite executions_snoc. destruct (is_execution i); lia. Qed.

Lemma grown_closed n : closed (grown n).
Proof.
split; [split; [split|..]|].
- intros e x He Hx. unfold grown, history in *. simpl. by rewrite Hx.
- intros i _ e He. by apply grown_snoc.
- intros A m e He. unfold on_gov, on_fallbacks, on_governor. by destruct (m _).
- intros kind detail e He. unfold on_fallbacks. by destruct (report_violation _ _ _).
- intros i e He. by apply grown_snoc.
- intros d e He. unfold on_exec.
pose proof (execute_history urlparse environ json_loads bytes_decode sha256 dumps d (e_exec e))
as Hh.
destruct (execute _ _ _ _ _ _ d (e_exec e)) as [x r]. unfold grown, history in *. simpl in *.
destruct Hh as [->|(i & -> & _)]; [done|]. by apply grown_snoc.
- by intros stage e He.
Qed.

Lemma grown_framed n : framed (grown n).
Proof. apply grown_closed. Qed.

(** The severities never change. *)
Definition severe (sv : list (pystr * pystr)) e : Prop := severities (e_fallbacks e) = sv.

Lemma fire_severities kind detail (c : FallbackController governor) :
severities (fire kind detail c).1 = severities c.
Proof. apply (fire_spec kind detail c). Qed.

Lemma report_severities kind detail (c : FallbackController governor) :
severities (report_violation kind detail c).1 = severities c.
Proof.
unfold report_violation. py_unfold. unfold put. simpl.
repeat (case_decide || case_match); rewrite ?fire_severities; done.
Qed.

Lemma severe_closed sv : closed (severe sv).
Proof.
split; [split; [split|..]|].
- by intros e x He Hx.
- by intros i _ e He.
- intros A m e He. unfold on_gov, on_fallbacks, on_governor. by destruct (m _).
- intros kind detail e He. unfold on_fallbacks.
pose proof (report_severities kind detail (e_fallbacks e)) as Hs.
destruct (report_violation _ _ _) as [c r]. simpl in *. unfold severe in *. simpl. congruence.
- by intros i e He.
- intros d e He. unfold on_exec. by destruct (execute _ _ _ _ _ _ d (e_exec e)).
- by intros stage e He.
Qed.

(** A result that names an outcome and the stages that ran; success only with
more than [n] executions. *)
Definition reports n (st : pyval) e (r : pydict) : Prop :=
∃ o, dget (u "outcome") r = Some (VStr o) ∧ o ∈ outcomes ∧
dget (u "stages") r = Some st ∧ (o = u "success" → n < executions (history e)).

Definition contract n (r : res pydict) e : Prop :=
∀ x, r = Ok x → reports n (string_list (recorded_stages e)) e x.

Lemma contract_raise n x e : contract n (Raise x) e.
Proof. by intros ? ?. Qed.

Lemma set_default_keeps k v k' (x : pyval) d :
dget k d = Some x → dget k (set_default k' v d) = Some x.
Proof.
intros Hk. unfold set_default. destruct (dget k' d) eqn:E; [done|].
clear E. revert Hk. induction d as [|[k0 v0] d IH]; simpl; [done|].
case_decide; [done|]. apply IH.
Qed.

Lemma meta_reports n st e r decision :
reports n st e r → reports n st e (with_decision_meta r decision).
Proof.
intros (o & Ho & Hin & Hs & He). exists o. unfold with_decision_meta.
split_and!; try done; by do 2 apply set_default_keeps.
Qed.

Lemma stages_tail (P : E → Prop) n f :
(∀ e, P e → reports n (string_list (recorded_stages e)) e (f (string_list (recorded_stages e)))) →
triple P (st ← stages; mret (f st) : py E pydict) (contract n).
Proof. intros Hf e He x [= <-]. by apply Hf. Qed.

(** Skipping a step that keeps what is known. *)
Lemma skip {A} (P : E → Prop) n (m : py E A) k :
keeps P m → (∀ a, triple P (k a) (contract n)) → triple P (m ≫= k) (contract n).
Proof. intros Hm Hk. apply triple_keeps; [exact Hm| |exact Hk]. intros; apply contract_raise. Qed.

Lemma refusal_reports n e outcome why :
u outcome ∈ outcomes → u outcome ≠ u "success" →
reports n (string_list (recorded_stages e)) e
(refusal outcome why (string_list (recorded_stages e))).
Proof. intros Ho Hs. exists (u outcome). by split_and!. Qed.

Ltac known m :=
lazymatch m with
| remember _ _ => apply (framed_remember _ (grown_framed _))
| resolve => apply (framed_resolve _ (grown_framed _))
| gov_step _ => apply (framed_step _ (grown_framed _))
| enter _ _ => apply (closed_enter _ _ _ _ _ _ _ (grown_closed _))
| record_block _ _ _ => apply (framed_block _ (grown_framed _))
| gov_consume => apply (framed_consume _ (grown_framed _))
| on_decider _ => apply (framed_decider _ (grown_framed _))
| on_fallbacks _ => apply (q_report _ (grown_framed _))
| of_res _ => apply keeps_of_res
| get => apply keeps_get
end.
Ltac skip_known := repeat
lazymatch goal with |- triple _ (?m ≫= _) _ => apply skip; [known m|intros ?] end.

Lemma finish_reports n task decision :
triple (grown n) (finish_no_action task decision : py E _) (contract n).
Proof.
unfold finish_no_action. skip_known. apply stages_tail. intros e He. apply meta_reports.
exists (u "no_viable_action"). split_and!; try done. set_solver.
Qed.

Abbreviation run_gated := (execute_gated urlparse environ json_loads bytes_decode sha256 dumps).

(** An execution that returned is in the history. *)
Lemma execute_gated_grows n decision :
triple (grown n) (run_gated decision : py E _)
(λ r, match r with Ok _ => grown (n + 1) | Raise _ => grown n end).
Proof.
unfold execute_gated.
apply triple_keeps; [apply (framed_decider _ (grown_framed n))|done|]. intros [].
apply triple_get. intros e0 _. cbv zeta.
apply (triple_bind _ _ _ (λ _, grown (n + 1))).
{ intros e [-> He]. unfold grown, history in *. simpl. rewrite executions_snoc. simpl. lia. }
intros []. eapply triple_bind; [|intros r; apply triple_ret; intros e He; exact He].
eapply triple_weaken; [apply (a_execute _ _ _ _ _ _ _ (pc_acting _ _ _ _ _ _ _ (grown_closed (n + 1))))|done|].
intros [r|x] e He; [exact He|]. unfold grown in *. lia.
Qed.

Lemma after_execution n decision k :
(∀ a, triple (grown (n + 1)) (k a) (contract n)) →
triple (grown n) (run_gated decision ≫= k : py E _) (contract n).
Proof.
intros Hk. apply (triple_bind _ _ _ (λ _, grown (n + 1))); [|exact Hk].
eapply triple_weaken; [apply execute_gated_grows|done|].
intros [r|x] e He; [exact He|apply contract_raise].
Qed.

Lemma run_action_reports n task decision :
triple (grown n)
(run_action urlparse environ json_loads bytes_decode sha256 dumps task decision : py E _)
(contract n).
Proof.
unfold run_action. skip_known. apply after_execution. intros result. skip_known.
apply stages_tail. intros e He. exists (u "success").
rewrite !dget_dset_ne by done. rewrite !dget_dset_eq. split_and!; try done; [set_solver|].
intros _. unfold grown in He. lia.
Qed.

(** A step that reports success was executed. *)
Definition reported_success (r : pydict) : bool :=
bool_decide (py_str (Execution.status r) = u "success").

Lemma run_steps_grows n decision index steps :
triple (grown n)
(run_steps urlparse environ json_loads bytes_decode sha256 dumps gated decision index steps
 : py E _)
(λ r e, grown n e ∧ ∀ l, r = Ok l → existsb reported_success l = true → grown (n + 1) e).
Proof.
revert n index. induction steps as [|s rest IH]; intros n index; cbn [run_steps].
{ intros e He. split; [done|]. by intros l [= <-]. }
assert (∀ x, reported_success x = false → triple (grown n)
(l ← run_steps urlparse environ json_loads bytes_decode sha256 dumps gated decision (index + 1) rest;
 mret (x :: l) : py E _)
(λ r e, grown n e ∧ ∀ l, r = Ok l → existsb reported_success l = true → grown (n + 1) e)) as Hbad.
{ intros x Hx e He. specialize (IH n (index + 1) e He). unfold mbind, py_bind.
destruct (run_steps _ _ _ _ _ _ _ _ _ _ e) as [e' [l|y]]; simpl in *; [|by destruct IH].
destruct IH as [Hg Hl]. split; [done|]. intros l' [= <-]. simpl. rewrite Hx. by apply Hl. }
assert (∀ why, reported_success (refused why) = false) as Hr by done.
destruct s as [| | | | | |step]; try by apply Hbad.
apply triple_keeps; [apply (framed_gate _ _ (grown_framed n))|by intros|].
intros [good why]. destruct good; simpl.
- apply (triple_bind _ _ _ (λ _, grown (n + 1))).
+ apply triple_keeps; [apply (framed_consume _ (grown_framed n))|by intros|].
intros []. eapply triple_weaken; [apply execute_gated_grows|done|].
intros [r|x] e He; [exact He|by split].
+ intros x e He. specialize (IH (n + 1) (index + 1) e He). unfold mbind, py_bind.
destruct (run_steps _ _ _ _ _ _ _ _ _ _ e) as [e' [l|y]]; simpl in *;
  destruct IH as [Hg Hl]; (split; [unfold grown in *; lia|]); by intros.
- apply (triple_bind _ _ _ (λ x e, grown n e ∧ reported_success x = false)).
+ apply triple_keeps; [apply (framed_block _ (grown_framed n))|by intros|].
intros []. by apply triple_ret.
+ intros x e [He Hx]. by apply Hbad.
Qed.

(** A multi-step result with results and the status of a success. *)
Definition succeeded_steps (r : pydict) : Prop :=
steps_of r ≠ [] ∧ status_text r = u "success".

Lemma execute_multi_step_grows n decision :
triple (grown n)
(execute_multi_step urlparse environ json_loads bytes_decode sha256 dumps gated decision : py E _)
(λ r e, grown n e ∧ ∀ x, r = Ok x → succeeded_steps x → grown (n + 1) e).
Proof.
unfold execute_multi_step. apply triple_of_res; [|by intros]. intros params Hp. cbv zeta.
destruct (truthy _); simpl.
- apply triple_of_res; [|by intros]. intros l Hl.
apply (triple_bind _ _ _ (λ l e, grown n e ∧
(existsb reported_success l = true → grown (n + 1) e))).
{ eapply triple_weaken; [apply run_steps_grows|done|].
intros [l'|x] e [He Hr]; (split; [done|]); [by apply Hr|done]. }
intros results e [He Hs]. simpl. split; [done|]. intros x [= <-] [Hne Ht].
apply Hs. unfold steps_of, field, dict_get in Hne. simpl in Hne.
unfold status_text, dict_get in Ht. simpl in Ht. unfold all_succeeded in Ht.
destruct results as [|r results]; [done|].
simpl in Ht |- *. fold (reported_success r) in Ht. by destruct (reported_success r).
- apply triple_keeps; [apply (framed_block _ (grown_framed n))|by intros|].
intros []. intros e He. split; [done|]. by intros x [= <-] [Hn _].
Qed.

Lemma finish_multi_reports n k task result :
(∀ e, grown k e → grown n e ∧ (succeeded_steps result → grown (n + 1) e)) →
triple (grown k) (finish_multi_step task result : py E _) (contract n).
Proof.
intros HP. unfold finish_multi_step. cbv zeta. skip_known. apply stages_tail. intros e He.
eexists. rewrite dget_dset_ne, !dget_dset_eq by done. split; [reflexivity|].
destruct (HP e He) as [Hg Hs]. repeat case_bool_decide; (split; [set_solver|]);
(split; [done|]); try done. intros _.
assert (succeeded_steps result) as Hss by done. specialize (Hs Hss). unfold grown in *. lia.
Qed.

Lemma run_multi_step_reports n task decision :
triple (grown n)
(run_multi_step urlparse environ json_loads bytes_decode sha256 dumps gated task decision
 : py E _) (contract n).
Proof.
unfold run_multi_step. skip_known.
apply (triple_bind _ _ _ (λ r e, grown n e ∧ (succeeded_steps r → grown (n + 1) e))).
{ eapply triple_weaken; [apply execute_multi_step_grows|done|].
intros [r|x] e [He Hr]; [split; [done|by apply Hr]|apply contract_raise]. }
intros result.
destruct (decide (steps_of result = [])) as [Hn|Hn];
[|destruct (decide (status_text result = u "success")) as [Ht|Ht]].
- eapply triple_pre; [apply (finish_multi_reports n n)|by intros e [? _]].
intros e He. split; [done|]. by intros [? _].
- eapply triple_pre; [apply (finish_multi_reports n (n + 1))|intros e [_ H]; by apply H].
intros e He. split; [unfold grown in *; lia|done].
- eapply triple_pre; [apply (finish_multi_reports n n)|by intros e [? _]].
intros e He. split; [done|]. by intros [_ ?].
Qed.

Lemma act_on_reports n task decision :
triple (grown n)
(act_on urlparse environ json_loads bytes_decode sha256 dumps gated task decision : py E _)
(contract n).
Proof.
unfold act_on. destruct (truthy _); simpl; [|apply finish_reports].
destruct (is_str _ _); [apply run_multi_step_reports|]. skip_known.
apply skip; [apply (framed_gate _ _ (grown_framed n))|].
intros [good why]. destruct good; simpl; [apply run_action_reports|].
skip_known. apply stages_tail. intros e He.
apply meta_reports, refusal_reports; [set_solver|done].
Qed.

Lemma run_gated_task_reports n task :
triple (grown n)
(run_gated_task urlparse environ json_loads bytes_decode sha256 dumps gated decide_with task
 : py E _) (contract n).
Proof.
unfold run_gated_task. skip_known.
apply skip; [apply (framed_policy _ _ (grown_framed n))|].
intros [good why]. destruct good; simpl; skip_known; [apply act_on_reports|].
apply stages_tail. intros e He. apply refusal_reports; [set_solver|done].
Qed.

Lemma contract_end n r e :
contract n r e → contract n r (end_of_task e).1.
Proof.
intros Hr x Hx. destruct (Hr x Hx) as (o & Ho & Hin & Hst & Hs).
unfold end_of_task, time_now, on_decider, on_exec, on_env, on_world. py_unfold. simpl.
destruct (w_clock _) as [w t]. exists o. split_and!; done.
Qed.

Lemma handle_failure_reports n task x :
triple (grown n) (handle_failure task x : py E _) (contract n).
Proof.
unfold handle_failure. destruct x; cbv zeta; skip_known; apply stages_tail; intros e He;
first [ apply refusal_reports; [known_outcome|discriminate]
    | exists (u "governor_block"); split_and!; [reflexivity|known_outcome|reflexivity|discriminate]
    | exists (u "task_failure"); split_and!; [reflexivity|known_outcome|reflexivity|discriminate] ].
Qed.

(** *** The stages *)

Definition pipeline : list pystr := [u "GATE"; u "DECIDE"; u "EXECUTE"; u "EVALUATE"].

(** The trail of the task in flight after its first [k] stages; until the
third, there are [n] executions. *)
Definition phase (k : nat) (n : Z) e : Prop :=
e_trail e = Some (take k pipeline) ∧ ((k < 3)%nat → executions (history e) = n).

Lemma phase_framed k n : framed (phase k n).
Proof.
split.
- intros e x [Ht Hn] Hx. split; [exact Ht|]. unfold history in *. simpl. by rewrite Hx.
- intros i Hi e [Ht Hn]. split; [exact Ht|]. intros Hk. specialize (Hn Hk).
unfold history in *. simpl. rewrite executions_snoc, Hi. lia.
- intros A m e He. unfold on_gov, on_fallbacks, on_governor. by destruct (m _).
- intros kind detail e He. unfold on_fallbacks. by destruct (report_violation _ _ _).
Qed.

Lemma phase_acting k n :
(3 <= k)%nat → acting urlparse environ json_loads bytes_decode sha256 dumps (phase k n).
Proof.
intros Hk. split; [apply phase_framed| |].
- intros i e [Ht _]. split; [exact Ht|lia].
- intros d e [Ht _]. unfold on_exec. destruct (execute _ _ _ _ _ _ d (e_exec e)).
split; [exact Ht|lia].
Qed.

(** A task that got as far as the [k]-th stage, with the outcomes only the
second and the fourth give. *)
Definition settled n (r : res pydict) e : Prop :=
∃ k, (1 <= k <= 4)%nat ∧ phase k n e ∧
∀ x o, r = Ok x → dget (u "outcome") x = Some (VStr o) →
  (o = u "success" → k = 4%nat) ∧ (o = u "no_viable_action" → k = 2%nat).

Lemma settled_on_raise k n x e : (1 <= k <= 4)%nat → phase k n e → settled n (Raise x) e.
Proof. intros Hk He. by exists k. Qed.

Lemma stay {A} k n (m : py E A) f :
(1 <= k <= 4)%nat → keeps (phase k n) m → (∀ a, triple (phase k n) (f a) (settled n)) →
triple (phase k n) (m ≫= f) (settled n).
Proof. intros Hk Hm Hf. apply triple_keeps; [exact Hm| |exact Hf]. intros; by eapply settled_on_raise. Qed.

Lemma go_on k n stage next (f : unit → py E pydict) :
(k < 4)%nat → pipeline !! k = Some stage → triple (phase (S k) n) (f tt) (settled n) →
triple (phase k n) (enter stage next ≫= f) (settled n).
Proof.
intros Hk Hs Hf. apply (triple_bind _ _ _ (λ _, phase (S k) n)); [|by intros []].
unfold enter. eapply triple_weaken with (Q := λ _, phase (S k) n);
[|by intros e He; exact He|intros [[]|x] e He; [exact He|apply (settled_on_raise (S k)); [lia|exact He]]].
apply (triple_bind _ _ _ (λ _, phase (S k) n)); [|intros []; apply framed_step, phase_framed].
intros e [Ht Hn]. split; [|intros ?; apply Hn; lia].
rewrite (take_S_r _ _ _ Hs). cbn [mark modify fst snd with_trail e_trail]. by rewrite Ht.
Qed.

Lemma stages_end k n f :
(1 <= k <= 4)%nat →
(∀ st o, dget (u "outcome") (f st) = Some (VStr o) →
  (o = u "success" → k = 4%nat) ∧ (o = u "no_viable_action" → k = 2%nat)) →
triple (phase k n) (st ← stages; mret (f st) : py E pydict) (settled n).
Proof. intros Hk Hf e He. exists k. split_and!; [lia|lia|exact He|]. intros x o [= <-]. apply Hf. Qed.

#[local] Hint Resolve phase_framed : keeps.
Ltac in_phase := repeat
lazymatch goal with
| |- triple _ (stages ≫= _) _ => fail
| _ => first [ apply go_on; [lia|reflexivity|]
             | apply stay; [lia|solve [auto 2 with keeps]|intros ?] ]
end.
Ltac by_verdict :=
let why := fresh "why" in
match goal with |- context [negb ?a.1] => destruct a as [[] why] end; simpl.
Ltac ends := apply stages_end; [lia|]; intros st o Ho.

Lemma act_on_settles n task decision :
triple (phase 2 n)
(act_on urlparse environ json_loads bytes_decode sha256 dumps gated task decision : py E _)
(settled n).
Proof.
assert (∀ r outcome d o, dget (u "outcome") r = Some (VStr outcome) →
dget (u "outcome") (with_decision_meta r d) = Some (VStr o) → o = outcome) as Hmeta.
{ intros r outcome d o Hr. unfold with_decision_meta.
erewrite !set_default_keeps by (try apply set_default_keeps; exact Hr). congruence. }
pose proof (phase_acting 3 n ltac:(lia)) as Ha.
unfold act_on. destruct (truthy _); simpl.
2:{ unfold finish_no_action. in_phase. ends.
apply (Hmeta _ (u "no_viable_action")) in Ho as ->; [by split|reflexivity]. }
destruct (is_str _ _).
- unfold run_multi_step. in_phase. apply stay; [lia|by apply acting_multi_step|].
intros result. unfold finish_multi_step. cbv zeta. in_phase. ends.
rewrite dget_dset_ne, dget_dset_eq in Ho by done. injection Ho as <-.
repeat case_bool_decide; by split.
- in_phase. by_verdict.
+ unfold run_action. in_phase. apply stay; [lia|by apply acting_execute_gated|].
intros result. in_phase. ends. rewrite !dget_dset_ne in Ho by done.
rewrite dget_dset_eq in Ho. injection Ho as <-. by split.
+ in_phase. ends. apply (Hmeta _ (u "policy_block")) in Ho as ->; [by split|reflexivity].
Qed.

Lemma run_gated_task_settles n task :
triple (phase 0 n)
(run_gated_task urlparse environ json_loads bytes_decode sha256 dumps gated decide_with task
 : py E _) (settled n).
Proof.
unfold run_gated_task. in_phase. by_verdict; in_phase; [apply act_on_settles|].
ends. injection Ho as <-. by split.
Qed.

(** *** Before and after the pipeline *)

(** Nothing is written in the history and the trail is left alone. *)
Definition still h t e : Prop := history e = h ∧ e_trail e = t.

Lemma still_blind h t : env_blind (still h t).
Proof. intros e x [Hh Ht] Hx. split; [|exact Ht]. unfold history in *. simpl. congruence. Qed.

Lemma still_fallbacks {A} h t (m : py (FallbackController governor) A) :
keeps (still h t) (on_fallbacks m : py E A).
Proof. intros e He. unfold on_fallbacks. by destruct (m _). Qed.

Lemma still_decider {A} h t (m : py (decider M W) A) : keeps (still h t) (on_decider m : py E A).
Proof. apply keeps_on_decider, still_blind. Qed.
#[local] Hint Resolve still_fallbacks still_decider : keeps.

Lemma still_failure h t task x : keeps (still h t) (handle_failure task x : py E _).
Proof.
unfold handle_failure, remember, resolve, stages. destruct x; cbv zeta; keeps_auto.
Qed.

Lemma still_end h t : keeps (still h t) (end_of_task : py E unit).
Proof. unfold end_of_task, time_now, on_gov. keeps_auto. Qed.

(** How far a task gets before its pipeline: the fallback check raises, the
governor refuses to begin, or it is admitted. *)
Inductive admission := Unchecked | Refused | Accepted.
Definition admission_of (task : pydict) (e : E) : admission :=
match evaluate_fallbacks e with
| (_, Raise _) => Unchecked
| (e1, Ok _) =>
match ((t ← time_now; on_gov (begin_task t (task_ref task))) e1).2 with
| Ok _ => Accepted
| Raise _ => Refused
end
end.

Lemma attempt_cases task e :
∃ e2, still (history e) (e_trail e) e2 ∧
let r := attempt_task urlparse environ json_loads bytes_decode sha256 dumps gated decide_with
           task e in
match admission_of task e with
| Accepted => r = finally (run_gated_task urlparse environ json_loads bytes_decode sha256 dumps
                    gated decide_with task) end_of_task (with_trail (Some []) e2)
| Unchecked => ∃ y, r = (e2, Raise y)
| Refused => ∃ s, r = (e2, s) ∧
    ∀ x, s = Ok x → ∃ why, x = refusal "governor_block" why (string_list [u "GATE"; u "RECORD"])
end.
Proof.
set (h := history e). set (t := e_trail e). assert (still h t e) as He by done.
assert (keeps (still h t) (evaluate_fallbacks : py E unit)) as Hv
by (unfold evaluate_fallbacks, time_now; keeps_auto).
assert (∀ ty p, keeps (still h t) (remember ty p : py E unit)) as Hm by (intros; apply still_decider).
specialize (Hv e He). unfold admission_of, attempt_task, mbind, py_bind, attempt.
destruct (evaluate_fallbacks e) as [e1 [[]|y]]; simpl in Hv; [|by eauto].
pose proof (still_decider h t (on_world w_clock) e1 Hv) as Ht. unfold time_now.
destruct (on_decider (on_world w_clock) e1) as [e1' [now|y]] eqn:Et; simpl in Ht.
2:{ unfold on_decider, on_exec, on_env, on_world in Et. by destruct (w_clock _). }
pose proof (still_fallbacks h t (on_governor (begin_task now (task_ref task))) e1' Ht) as Hb.
unfold on_gov. simpl. destruct (on_fallbacks _ e1') as [e2 [[]|y]]; simpl in Hb.
- by exists e2.
- destruct y as [msg| | | | | | | | | |]; try by (exists e2; split; [done|]; eexists; split; [done|]).
pose proof (Hm (u "governor_block") [(u "kind", VStr (u "begin_task"));
  (u "detail", VStr (u "GovernorError"))] e2 Hb) as Hr.
destruct (remember _ _ e2) as [e3 [[]|y]]; simpl in Hr; exists e3; (split; [exact Hr|]);
eexists; (split; [reflexivity|]); intros x [= <-]. by eexists.
Qed.

(** What the handlers of exceptions return. *)
Lemma failure_outcome task x e y :
(handle_failure task x e).2 = Ok y →
dget (u "outcome") y = Some (VStr (u "governor_block")) ∨
dget (u "outcome") y = Some (VStr (u "task_failure")).
Proof.
unfold handle_failure, mbind, py_bind, stages. py_unfold.
destruct x; cbv zeta;
repeat (match goal with |- context [match ?m with (_, _) => _ end] =>
          lazymatch m with context [match _ with _ => _ end] => fail | _ => destruct m as [? [?|?]] end
        end; simpl; try done);
intros [= <-]; first [by left|by right].
Qed.

(** A handled exception: what was recorded before stays, and the stages are
those of the trail. *)
Lemma handled task y e e' x :
handle_failure task y e = (e', Ok x) →
still (history e) (e_trail e) e' ∧
∃ o, dget (u "outcome") x = Some (VStr o) ∧ (o = u "governor_block" ∨ o = u "task_failure") ∧
dget (u "stages") x = Some (string_list (recorded_stages e)).
Proof.
intros Hr. pose proof (still_failure (history e) (e_trail e) task y e (conj eq_refl eq_refl)) as Hs.
pose proof (handle_failure_reports (executions (history e)) task y e) as Hp.
pose proof (failure_outcome task y e x) as Ho. rewrite Hr in Hs, Hp, Ho. simpl in *.
split; [exact Hs|]. destruct (Hp ltac:(unfold grown; lia) x eq_refl) as (_ & _ & _ & Hst & _).
unfold recorded_stages in *. destruct Hs as [_ <-].
destruct (Ho eq_refl) as [Hx|Hx]; eexists; split_and!; eauto.
Qed.

Lemma refusal_outcomes o : o = u "governor_block" ∨ o = u "task_failure" → o ∈ outcomes.
Proof. intros [->| ->]; known_outcome. Qed.

(** The result of an admitted task. *)
Lemma admitted_result task e e2 e' x :
still (history e) (e_trail e) e2 →
(let '(s, r) := finally (run_gated_task urlparse environ json_loads bytes_decode sha256 dumps gated
   decide_with task) end_of_task (with_trail (Some []) e2) in
 match r with
 | Ok x => (mret x : py E pydict) s
 | Raise y => handle_failure task y s
 end) = (e', Ok x) →
∃ o st, dget (u "outcome") x = Some (VStr o) ∧ o ∈ outcomes ∧
dget (u "stages") x = Some (string_list (st ++ [u "RECORD"])) ∧
∃ k, (1 <= k <= 4)%nat ∧ st = take k pipeline ∧
((k < 3)%nat → executions (history e') = executions (history e)) ∧
(o = u "success" → k = 4%nat ∧ executions (history e) < executions (history e')) ∧
(o = u "no_viable_action" → k = 2%nat).
Proof.
intros [Hh Ht]. set (n := executions (history e)). set (e3 := with_trail (Some []) e2).
assert (phase 0 n e3) as Hp by (split; [done|intros _; unfold n; by rewrite <- Hh]).
assert (grown n e3) as Hg by (unfold grown, n; rewrite <- Hh; apply Z.le_refl).
pose proof (run_gated_task_settles n task e3 Hp) as (k & Hk & [Htr Hn] & Hout).
pose proof (run_gated_task_reports n task e3 Hg) as Hr.
unfold finally. destruct (run_gated_task _ _ _ _ _ _ _ _ task e3) as [e4 r4]. simpl in *.
pose proof (still_end (history e4) (e_trail e4) e4 (conj eq_refl eq_refl)) as He5.
destruct (end_of_task e4) as [e5 r5]. destruct He5 as [Hh5 Ht5]. simpl in Hh5, Ht5.
assert (∀ y, handle_failure task y e5 = (e', Ok x) → ∃ o st,
 dget (u "outcome") x = Some (VStr o) ∧ o ∈ outcomes ∧
 dget (u "stages") x = Some (string_list (st ++ [u "RECORD"])) ∧
 ∃ k, (1 <= k <= 4)%nat ∧ st = take k pipeline ∧
 ((k < 3)%nat → executions (history e') = n) ∧
 (o = u "success" → k = 4%nat ∧ n < executions (history e')) ∧
 (o = u "no_viable_action" → k = 2%nat)) as Hfail.
{ intros y ((Hh' & _) & o & Ho & Hin & Hst)%handled. unfold recorded_stages in Hst.
rewrite Ht5, Htr in Hst. exists o, (take k pipeline).
split_and!; [done|by apply refusal_outcomes|exact Hst|]. exists k.
split_and!; [lia|lia|done|intros; rewrite Hh', Hh5; auto| |]; intros ->; by destruct Hin. }
destruct r4 as [x4|y]; [|destruct r5; apply Hfail]. destruct r5 as [[]|y]; [|apply Hfail].
intros [= <- <-]. destruct (Hr x4 eq_refl) as (o & Ho & Hin & Hst & Hs).
unfold recorded_stages in Hst. rewrite Htr in Hst. destruct (Hout x4 o eq_refl Ho) as [H1 H2].
exists o, (take k pipeline). split_and!; [done|done|exact Hst|]. exists k. rewrite Hh5.
split_and!; [lia|lia|done|exact Hn|intros H; split; [by apply H1|by apply Hs]|exact H2].
Qed.

(** C3. The cycle result. A result of [execute_task] names one of the five
outcomes and, as its stages, a list [st] followed by RECORD. For a task the
governor admitted, [st] is what this task entered: the first [k] of GATE,
DECIDE, EXECUTE and EVALUATE, at least GATE; nothing was executed unless
EXECUTE is among them; a success has entered all four and grown the history
by an execution, and having no viable action stops at DECIDE. A task the
governor refused to begin leaves the history as it was and names GATE with
the outcome governor_block. When the fallback check itself raises, or the
recording of a refusal does, the history is as it was as well, the outcome is
governor_block or task_failure, and [st] is the trail the previous task left
behind. *)
Theorem execute_task_contract task e e' x :
execute_task urlparse environ json_loads bytes_decode sha256 dumps gated decide_with task e
= (e', Ok x) →
∃ o st, dget (u "outcome") x = Some (VStr o) ∧ o ∈ outcomes ∧
dget (u "stages") x = Some (string_list (st ++ [u "RECORD"])) ∧
match admission_of task e with
| Accepted => ∃ k, (1 <= k <= 4)%nat ∧ st = take k pipeline ∧
    ((k < 3)%nat → executions (history e') = executions (history e)) ∧
    (o = u "success" → k = 4%nat ∧ executions (history e) < executions (history e')) ∧
    (o = u "no_viable_action" → k = 2%nat)
| Refused => history e' = history e ∧
    (st = [u "GATE"] ∧ o = u "governor_block" ∨
     st = default [] (e_trail e) ∧ (o = u "governor_block" ∨ o = u "task_failure"))
| Unchecked => history e' = history e ∧
    st = default [] (e_trail e) ∧ (o = u "governor_block" ∨ o = u "task_failure")
end.
Proof.
unfold execute_task, mbind, py_bind, attempt.
destruct (attempt_cases task e) as (e2 & [Hh Ht] & Hc). cbv zeta in Hc.
destruct (admission_of task e).
- destruct Hc as [y ->]. intros ((Hh' & _) & o & Ho & Hin & Hst)%handled.
exists o, (default [] (e_trail e2)). split_and!; [done|by apply refusal_outcomes|exact Hst|congruence|by rewrite Ht|exact Hin].
- destruct Hc as (s & -> & Hs). destruct s as [x'|y].
+ intros [= <- <-]. destruct (Hs x' eq_refl) as [why ->].
exists (u "governor_block"), [u "GATE"]. split_and!; [done|apply refusal_outcomes; by left|done|done|by left].
+ intros ((Hh' & _) & o & Ho & Hin & Hst)%handled.
exists o, (default [] (e_trail e2)). split_and!; [done|by apply refusal_outcomes|exact Hst|congruence|].
right. by rewrite Ht.
- rewrite Hc. clear Hc. intros Hr. apply (admitted_result task e e2); [done|].
by destruct (finally _ _ _) as [s [r|y]].
Qed.
End Contract.

(** ** After a task *)

Section Rest.
Context {M W : Type} {WW : World W} {MM : EngineMemory M} {PR : PyRepr}.
Context (urlparse : pystr → res parsed_url) (environ : pystr → option pystr).
Context (json_loads : pystr → res pyval) (bytes_decode : pystr → list N → res pystr).
Context (sha256 : pystr → pystr) (dumps : pyval → pystr).
Context (gated : list pystr) (decide_with : list pystr → pydict → py (decider M W) pydict).
Abbreviation E := (@engine M W).
Implicit Types (e : E) (g : governor) (J : governor → list interaction → Prop).
Abbreviation run_task :=
(execute_task urlparse environ json_loads bytes_decode sha256 dumps gated decide_with).
Abbreviation try_task :=
(attempt_task urlparse environ json_loads bytes_decode sha256 dumps gated decide_with).

(** What latching keeps, the fallback controller keeps. *)
Definition latch_stable J : Prop := ∀ s r h, keeps (λ g, J g h) (latch s r).

Lemma stable_evaluate J : latch_stable J → keeps (about J) (evaluate_fallbacks : py E unit).
Proof.
intros HJ. unfold evaluate_fallbacks. keeps_auto. apply keeps_about_fallbacks. intros h.
by apply (keeps_evaluate (G := governor) (λ g, J g h)); intros r; apply HJ.
Qed.

Lemma stable_report J kind detail :
latch_stable J → keeps (about J) (on_fallbacks (report_violation kind detail) : py E _).
Proof.
intros HJ. apply keeps_about_fallbacks. intros h.
by apply (keeps_report_violation (G := governor) (λ g, J g h)); intros r; apply HJ.
Qed.

Lemma stable_failure J task x :
latch_stable J → keeps (about J) (handle_failure task x : py E _).
Proof. intros HJ. unfold handle_failure. destruct x; keeps_auto; by apply stable_report. Qed.

(** No task in flight, and the state the latch asks for. *)
Definition at_rest g : Prop := task_started_at g = None ∧ state g = default IDLE (latched g).

Lemma rest_latch : latch_stable (λ g _, at_rest g).
Proof.
intros s r h g [Hn Hs]. unfold latch, audit_append. py_unfold.
destruct (latch_section_cases s g) as [[-> _]|[-> _]]; simpl; [done|]. by rewrite Hn.
Qed.

Lemma finally_rests (m : py E pydict) :
triple (λ _, True) (finally m end_of_task) (λ _, about (λ g _, at_rest g)).
Proof.
intros e _. unfold finally. destruct (m e) as [e1 r].
assert (about (λ g _, at_rest g) (end_of_task e1).1) as H.
{ unfold end_of_task, time_now, on_decider, on_exec, on_env, on_world. py_unfold. simpl.
by destruct (w_clock _). }
by destruct (end_of_task e1) as [e2 [[]|x]].
Qed.

Lemma attempt_rests task :
keeps (about (λ g _, at_rest g)) (try_task task : py E _).
Proof.
unfold attempt_task. apply keeps_bind; [apply stable_evaluate, rest_latch|]. intros [].
apply keeps_bind; [apply keeps_about_now|]. intros t.
apply (triple_attempt _ _ _ (λ r e, match r with
                                  | Ok _ => True
                                  | Raise _ => about (λ g _, at_rest g) e
                                  end)).
- intros e He. unfold on_gov, on_fallbacks, on_governor, about, e_governor in *.
destruct (begin_task_cases t (task_ref task) (fb_governor (e_fallbacks e)))
  as [[-> _]|(Hg & Hr & _)]; simpl; [done|].
destruct (begin_task _ _ _) as [g [[]|x]]; [done|]. simpl in *. by subst g.
- intros [[]|x].
+ apply (triple_bind _ _ _ (λ _ _, True)); [done|]. intros [].
  eapply triple_weaken; [apply finally_rests|done|done].
+ destruct x; try by intros e He. keeps_auto.
  apply keeps_bind; [apply keeps_about_remember|]. intros []. apply keeps_ret.
Qed.

Lemma run_task_rests task : keeps (about (λ g _, at_rest g)) (run_task task : py E _).
Proof.
unfold execute_task. apply keeps_bind; [apply keeps_attempt, attempt_rests|].
intros [x|x]; [apply keeps_ret|apply stable_failure, rest_latch].
Qed.

(** C11. No task stays in flight. From a governor at rest, executing a task
ends with the governor at rest again -- idle, or in the mode it has been
latched in -- whether the task returned, was refused, or raised from any
place of the pipeline or of the handlers of its exceptions. *)
Theorem execute_task_rests task e :
at_rest (e_governor e) → at_rest (e_governor (run_task task e).1).
Proof. apply (run_task_rests task e). Qed.

(** ** Halted *)

Definition halted (h0 : list interaction) g h : Prop := state g = HALTED ∧ h = h0.

Lemma halted_latch h0 : latch_stable (halted h0).
Proof.
intros s r h g [Hg ->]. unfold latch, audit_append. py_unfold.
destruct (latch_section_cases s g) as [[-> _]|[_ Hn]]; [done|by destruct Hn].
Qed.

Lemma attempt_halted h0 task :
triple (about (halted h0)) (try_task task : py E _)
(λ r e, about (halted h0) e ∧
   ∀ x, r = Ok x → dget (u "outcome") x = Some (VStr (u "governor_block"))).
Proof.
assert (∀ x e, about (halted h0) e → about (halted h0) e ∧
∀ y, Raise x = Ok y → dget (u "outcome") y = Some (VStr (u "governor_block"))) as Hx by done.
unfold attempt_task. apply triple_keeps; [apply stable_evaluate, halted_latch|exact Hx|].
intros []. apply triple_keeps; [apply keeps_about_now|exact Hx|]. intros t.
apply (triple_attempt _ _ _ (λ r e, about (halted h0) e ∧ is_ok r = false)).
- intros e [He Hh]. unfold on_gov, on_fallbacks, on_governor, about, e_governor in *.
destruct (begin_task_cases t (task_ref task) (fb_governor (e_fallbacks e)))
  as [[_ [Hb|Hb]]|(Hg & Hr & _)]; simpl; [congruence|congruence|].
destruct (begin_task _ _ _) as [g r]. simpl in *. subst g. by split.
- intros [[]|x]; [by intros e [_ ?]|]. apply (triple_pre (about (halted h0))); [|by intros e [? _]].
destruct x; try (intros e He; by apply Hx).
apply triple_keeps; [apply keeps_about_remember|exact Hx|]. intros [].
apply triple_ret. intros e He. split; [exact He|]. by intros y [= <-].
Qed.

(** C25. A halted engine does nothing. While the governor is halted, a task
has no effect, asks no operator and enters no executor; the governor stays
halted; and what is returned is a refusal by the governor or, when the
fallback check itself raises, a failure. *)
Theorem halted_engine_inert task e :
state (e_governor e) = HALTED →
let r := execute_task urlparse environ json_loads bytes_decode sha256 dumps gated decide_with task e in
state (e_governor r.1) = HALTED ∧ history r.1 = history e ∧
∀ x, r.2 = Ok x → dget (u "outcome") x = Some (VStr (u "governor_block")) ∨
                dget (u "outcome") x = Some (VStr (u "task_failure")).
Proof.
intros He. cbv zeta.
assert (triple (about (halted (history e))) (run_task task : py E _)
(λ r e', about (halted (history e)) e' ∧
   ∀ x, r = Ok x → dget (u "outcome") x = Some (VStr (u "governor_block")) ∨
                   dget (u "outcome") x = Some (VStr (u "task_failure")))) as Ht.
{ unfold execute_task. eapply triple_attempt; [apply attempt_halted|]. intros [x|x].
- apply triple_ret. intros e' [Hh Hx]. split; [exact Hh|]. intros y [= <-]. left. by apply Hx.
- intros e' [Hh _]. split; [by apply (stable_failure _ task x (halted_latch _))|].
  apply failure_outcome. }
destruct (Ht e (conj He eq_refl)) as [[H1 H2] H3]. done.
Qed.
End Rest.

(** ** Always a result *)

Section Total.
Context {M W : Type} {WW : World W} {MM : EngineMemory M} {PR : PyRepr}.
Context (urlparse : pystr → res parsed_url) (environ : pystr → option pystr).
Context (json_loads : pystr → res pyval) (bytes_decode : pystr → list N → res pystr).
Context (sha256 : pystr → pystr) (dumps : pyval → pystr).
Context (gated : list pystr) (decide_with : list pystr → pydict → py (decider M W) pydict).
Abbreviation E := (@engine M W).
Implicit Types (e : E) (sv : list (pystr * pystr)).
Abbreviation run_task :=
(execute_task urlparse environ json_loads bytes_decode sha256 dumps gated decide_with).

(** Recording an event never raises, as it does not in a memory without an age
limit ([World.manager_record_total]). *)
Definition records_total : Prop := ∀ io stamp now ty p, returns (em_record io stamp now ty p : py M unit).

Lemma remember_returns ty p : records_total → returns (remember ty p : py E unit).
Proof.
intros Hr. unfold remember, record_event.
assert (∀ {A} (f : W → W * A), returns (on_world f : py (decider M W) A)) as Hw.
{ intros A f d. unfold on_world. by destruct (f _). }
assert (∀ {A} (m : py (decider M W) A), returns m → returns (on_decider m : py E A)) as Hd.
{ intros A m Hm e. specialize (Hm (x_env (e_exec e))). unfold on_decider, on_exec, on_env.
  by destruct (m _). }
apply Hd. repeat (apply returns_bind; [apply Hw|intros ?]).
intros d. unfold on_mem. specialize (Hr a a0 a1 ty p (d_mem d)). by destruct (em_record _ _ _ _ _ _).
Qed.

Lemma resolve_returns : returns (resolve : py E unit).
Proof. by intros e. Qed.

(** A violation that is not a halt is reported without an exception. *)
Lemma report_returns kind detail (c : FallbackController governor) :
severity_of kind c ≠ u "halt" → is_ok (report_violation kind detail c).2 = true.
Proof.
intros Hk. assert (∀ c', severities c' = severities c → is_ok (fire kind detail c').2 = true) as Hf.
{ intros c' Hs. destruct (is_ok (fire kind detail c').2) eqn:E; [done|].
  apply (fire_spec kind detail c') in E. unfold severity_mode in E.
  destruct (decide (severity_of kind c' = u "halt")) as [Eh|]; [|by destruct (decide _)].
  unfold severity_of in *. by rewrite Hs in Eh. }
unfold report_violation. py_unfold. unfold put. simpl.
repeat (case_decide || case_match); try done; by apply Hf.
Qed.

(** The three kinds the engine escalates an interlock to. *)
Definition interlock_kinds : list pystr :=
[u "step_budget_exhausted"; u "task_deadline_exceeded"; u "runaway_loop"].

Definition no_halt sv : Prop :=
∀ kind, kind ∈ interlock_kinds → lower (default (u "pause") (dget kind sv)) ≠ u "halt".

Lemma trigger_kind_listed msg : governor_trigger_kind msg ∈ interlock_kinds.
Proof. unfold governor_trigger_kind. repeat case_match; set_solver. Qed.

Lemma failure_returns sv task x :
records_total → no_halt sv →
triple (severe sv) (handle_failure task x : py E _) (λ r _, is_ok r = true).
Proof.
intros Hr Hn e He. unfold handle_failure.
destruct x as [msg| | | | | | | | | |]; try (revert e He; intros e _; revert e;
  match goal with |- ∀ e, is_ok (?m e).2 = true => change (returns m) end;
  returns_auto; first [by apply remember_returns | done]).
assert (is_ok (on_fallbacks (report_violation (governor_trigger_kind msg) msg) e).2 = true) as Hf.
{ unfold on_fallbacks.
  pose proof (report_returns (governor_trigger_kind msg) msg (e_fallbacks e)) as Hk.
  destruct (report_violation _ _ _) as [c r]. apply Hk. unfold severity_of. rewrite He.
  apply Hn, trigger_kind_listed. }
cbv zeta. unfold mbind at 1, py_bind at 1.
destruct (on_fallbacks _ e) as [e1 [[]|y]]; [|done]. clear Hf He. revert e1.
match goal with |- ∀ e, is_ok (?m e).2 = true => change (returns m) end.
returns_auto; first [by apply remember_returns | done].
Qed.

Lemma evaluate_severe sv : keeps (severe sv) (evaluate_fallbacks : py E unit).
Proof.
unfold evaluate_fallbacks. apply keeps_bind; [by apply keeps_on_decider; intros e x|].
intros t e He. unfold mbind, py_bind, get, on_fallbacks. cbn [fst snd].
pose proof (keeps_evaluate_by (λ c : FallbackController governor, severities c = sv)) as Hk.
specialize (Hk ltac:(intros k d c <-; apply fire_severities) t
  (breakers_open_count t (x_layer (e_exec e)))
  (Some (em_backlog (d_mem (x_env (e_exec e))))) (e_fallbacks e) He).
by destruct (evaluate _ _ _ _) as [c [y|y]].
Qed.

Lemma attempt_severe sv task :
keeps (severe sv)
  (attempt_task urlparse environ json_loads bytes_decode sha256 dumps gated decide_with task
   : py E _).
Proof.
pose proof (severe_closed urlparse environ json_loads bytes_decode sha256 dumps sv) as Hc.
pose proof (a_framed _ _ _ _ _ _ _ (pc_acting _ _ _ _ _ _ _ Hc)) as Hq.
unfold attempt_task. apply keeps_bind.
{ apply evaluate_severe. }
intros []. apply keeps_bind; [apply (framed_now _ Hq)|]. intros t.
apply keeps_bind; [apply keeps_attempt, (q_gov _ Hq)|].
intros [[]|x].
- apply keeps_bind; [by intros e He|]. intros []. apply keeps_finally.
  + by apply closed_run_gated_task.
  + unfold end_of_task. apply keeps_bind; [apply (framed_now _ Hq)|].
    intros t'. apply (q_gov _ Hq).
- destruct x; try apply keeps_raise.
  apply keeps_bind; [apply (framed_remember _ Hq)|]. intros []. apply keeps_ret.
Qed.

(** C8. A task always ends in a result. When recording an event does not raise
and no interlock is configured as a halt, [execute_task] returns: whatever is
raised by the decision, the gates, a handler, the network or the governor's
interlocks becomes a result, and nothing propagates to the loop. *)
Theorem execute_task_total task e :
records_total → no_halt (severities (e_fallbacks e)) → is_ok (run_task task e).2 = true.
Proof.
intros Hr Hn. unfold execute_task, mbind, py_bind, attempt.
pose proof (attempt_severe (severities (e_fallbacks e)) task e eq_refl) as Hs.
destruct (attempt_task _ _ _ _ _ _ _ _ task e) as [e1 [x|x]]; [done|].
by apply (failure_returns (severities (e_fallbacks e)) task x Hr Hn).
Qed.
End Total.

(** ** Tokens *)

Lemma without_dset k v (d : pydict) : dget k d = None → without [k] (dset k v d) = d.
Proof.
  unfold without. induction d as [|[k' v'] d IH]; simpl.
  { intros _. by rewrite bool_decide_true by set_solver. }
  case_decide as Hk; [done|]. intros Hn. simpl.
  rewrite bool_decide_false by set_solver. simpl. f_equal. by apply IH.
Qed.

(** The engine's token is one the execution layer accepts: a decision the
engine signs, with the trace it has put in, matches the verdict it carries,
and what is executed is the decision with its execution and decision ids. *)
Theorem signed_matches sha256 dumps seq decision :
  dget (u "_policy") decision = None →
  token_matches sha256 dumps (signed sha256 dumps seq decision) ∧
  ∃ trace, without [u "_policy"] (signed sha256 dumps seq decision)
           = dset (u "_trace") (VDict trace) decision ∧
    dget (u "execution_id") trace = Some (VStr (u "exe-" ++ str_of_Z seq)) ∧
    dget (u "decision_id") trace =
      match field "decision_id" decision with VNone => None | v => Some v end.
Proof.
  intros Hn. unfold token_matches, signed.
  set (trace := (u "execution_id", _) :: _).
  assert (dget (u "_policy") (dset (u "_trace") (VDict trace) decision) = None) as Hp
    by (by rewrite dget_dset_ne).
  split.
  - rewrite dget_dset_eq. eexists. split; [reflexivity|]. split; [reflexivity|].
    rewrite (without_dset _ _ _ Hp). reflexivity.
  - exists trace. rewrite (without_dset _ _ _ Hp). split; [done|]. subst trace.
    split; [reflexivity|]. by destruct (field "decision_id" decision).
Qed.
