(* ===== verification/EngineScenarios.v ===== *)
(** * The engine in concrete worlds

    An engine with one network handler and a decision protocol that proposes
    what it is told to: the witnesses of the engine's theorems, and runs that
    show where the path does something other than it says. *)

From Stdlib Require Import ZArith Lia.
From Stdlib Require Import Floats.SpecFloat.
From S2P Require Import Prelude PyFloat PyStr PyVal Security Policy AuditTrail StateMachine.
From S2P Require Import Fallbacks Identity Models Execution World Subconscious Proposals Deciding.
From S2P Require Import Engine EngineSafety EngineContract.

Local Open Scope Z_scope.

#[local] Existing Instance script_world.
#[local] Existing Instance event_log.
#[local] Instance demo_repr : PyRepr := λ _, [].

Abbreviation demo_engine_type := (@engine (list (pystr * pydict)) script).

Definition standing_grant (t : pystr) : consents :=
  [(t, [Grant t (u "operator") [] [] f0 None])].

(** An engine at time [at_secs], with a grant for [network_send]. *)
Definition demo_world (at_secs : Z) : script :=
  Script (f_of_Z at_secs) (standing_grant (u "network_send")) true (Ok []) (Ok VNone).

Definition scenario_decider (at_secs : Z) : decider (list (pystr * pydict)) script :=
  Decider [] (demo_world at_secs) 0 (Models [] []) (new_subconscious f0) 0 0 f0 [] None.

Definition engine_layer : exec_layer engine_handler :=
  Layer [(u "network_send", Installed (u "mesh")); (u "record_observation", Observe)] []
    (new_rate_limiter (f_of_Z 60) 20) (Resolver [] (u "SHUGOCORE_")) demo_registry 262144.

Definition demo_engine (budget : Z) (sev : list (pystr * pystr)) : demo_engine_type :=
  Engine (new_controller (new_governor budget (f_of_Z 600) (f_of_Z 120) false) false [] sev)
    (XState engine_layer None [] (scenario_decider 10)) None.

(** The engine's task with a protocol that always proposes [decision]. *)
Definition demo_gated : list pystr := consent_gated (Installed_modules true true true false).

Definition propose (decision : pydict) (task : pydict) : py demo_engine_type pydict :=
  execute_task demo_url (λ _, None) (λ _, Ok VNone) (λ _ b, Ok b) demo_sha demo_dumps demo_gated
    (λ _ _, mret decision) task.

Definition send_decision : pydict :=
  [(u "action_type", VStr (u "network_send")); (u "params", VDict []);
   (u "confidence", VFloat f1)].

Definition steps_decision (n : nat) : pydict :=
  [(u "action_type", VStr (u "multi_step_process"));
   (u "params", VDict [(u "steps", VList (replicate n (VDict send_decision)))]);
   (u "confidence", VFloat f1)].

Definition away_task : pydict :=
  [(u "type", VStr (u "text"));
   (u "context", VDict [(u "attention_state", VStr (u "away"))])].

Definition plain_task : pydict := [(u "type", VStr (u "text"))].

Definition outcome_of (r : res pydict) : option pyval :=
  match r with Ok x => dget (u "outcome") x | Raise _ => None end.

(** ** Witnesses *)

Lemma execute_task_permitted_witness :
  let e' := (propose send_decision plain_task (demo_engine 50 [])).1 in
  executions (history e') = 1 ∧
  accepted demo_gated (history e').
Proof.
  split; [vm_compute; reflexivity|].
  refine (proj1 (execute_task_permitted demo_url (λ _, None) (λ _, Ok VNone) (λ _ b, Ok b)
    demo_sha demo_dumps demo_gated (λ _ _, mret send_decision) plain_task (demo_engine 50 []) _ _)).
  - exists Nothing. reflexivity.
  - vm_compute. discriminate.
Defined.

Lemma execute_task_contract_witness :
  let r := propose send_decision plain_task (demo_engine 50 []) in
  match r.2 with
  | Ok x => ∃ st, dget (u "stages") x = Some (string_list (st ++ [u "RECORD"]))
  | Raise _ => False
  end.
Proof.
  cbv zeta.
  assert (is_ok (propose send_decision plain_task (demo_engine 50 [])).2 = true) as Hok
    by (vm_compute; reflexivity).
  revert Hok. unfold propose.
  pose proof (execute_task_contract demo_url (λ _, None) (λ _, Ok VNone) (λ _ b, Ok b)
    demo_sha demo_dumps demo_gated (λ _ _, mret send_decision) plain_task (demo_engine 50 [])) as Hc.
  destruct (execute_task _ _ _ _ _ _ _ _ _ _) as [e' [x|y]]; intros Hok; [|discriminate Hok].
  destruct (Hc e' x eq_refl) as (o & st & _ & _ & Hst & _). exists st. exact Hst.
Defined.

Lemma execute_task_rests_witness :
  at_rest (e_governor (propose send_decision plain_task (demo_engine 50 [])).1).
Proof.
  apply (execute_task_rests demo_url (λ _, None) (λ _, Ok VNone) (λ _ b, Ok b)
    demo_sha demo_dumps demo_gated (λ _ _, mret send_decision) plain_task (demo_engine 50 [])).
  split; reflexivity.
Defined.

Definition halted_engine : demo_engine_type :=
  with_fallbacks (with_governor (StateMachine.halt (u "operator") (e_governor (demo_engine 50 []))).1
                    (e_fallbacks (demo_engine 50 []))) (demo_engine 50 []).

Lemma halted_engine_inert_witness :
  let r := propose send_decision plain_task halted_engine in
  outcome_of r.2 = Some (VStr (u "governor_block")) ∧ history r.1 = history halted_engine.
Proof.
  split; [vm_compute; reflexivity|].
  refine (proj1 (proj2 (halted_engine_inert demo_url (λ _, None) (λ _, Ok VNone) (λ _ b, Ok b)
    demo_sha demo_dumps demo_gated (λ _ _, mret send_decision) plain_task halted_engine _))).
  vm_compute. reflexivity.
Defined.

Lemma execute_task_total_witness :
  is_ok (propose (steps_decision 3) plain_task (demo_engine 2 [])).2 = true.
Proof.
  apply (execute_task_total demo_url (λ _, None) (λ _, Ok VNone) (λ _ b, Ok b)
    demo_sha demo_dumps demo_gated (λ _ _, mret (steps_decision 3)) plain_task (demo_engine 2 [])).
  - intros io stamp now ty p m. reflexivity.
  - intros kind Hk. unfold interlock_kinds in Hk. rewrite !elem_of_cons, elem_of_nil in Hk.
    destruct Hk as [->|[->|[->|[]]]]; vm_compute; discriminate.
Defined.

Lemma signed_matches_witness :
  token_matches demo_sha demo_dumps (signed demo_sha demo_dumps 7 send_decision).
Proof. exact (proj1 (signed_matches demo_sha demo_dumps 7 send_decision eq_refl)). Defined.

(** ** Runs *)

(** The steps of a multi-step process escape the attention check. With the
operator away, a consented and approvable action is refused as a decision of
its own, and executed as a step of a multi-step process. *)
Theorem steps_ignore_attention :
  let single := propose send_decision away_task (demo_engine 50 []) in
  let steps := propose (steps_decision 1) away_task (demo_engine 50 []) in
  outcome_of single.2 = Some (VStr (u "policy_block")) ∧ executions (history single.1) = 0 ∧
  outcome_of steps.2 = Some (VStr (u "success")) ∧ executions (history steps.1) = 1.
Proof. vm_compute. split_and!; reflexivity. Qed.

(** The engine after a task, at a later time. *)
Definition at_time (at_secs : Z) (e : demo_engine_type) : demo_engine_type :=
  with_exec (with_env (with_world (demo_world at_secs) (x_env (e_exec e))) (e_exec e)) e.

(** An idle engine counts as stalled. A consented and approved action that
the engine has just executed is refused after 121 seconds without a task: the
time since the last task ended exceeds the stall threshold, and the check
before the next task puts the idle engine into its read-only mode. *)
Theorem idle_engine_stalls :
  let first := propose send_decision plain_task (demo_engine 50 []) in
  let again := propose send_decision plain_task (at_time 11 first.1) in
  let later := propose send_decision plain_task (at_time 131 first.1) in
  outcome_of first.2 = Some (VStr (u "success")) ∧
  outcome_of again.2 = Some (VStr (u "success")) ∧
  outcome_of later.2 = Some (VStr (u "policy_block")) ∧
  e_mode later.1 = SAFE_STATE.
Proof. vm_compute. split_and!; reflexivity. Qed.

(** A halting interlock escapes. With the step budget's trigger configured
as a halt, a process of more steps than the budget makes [execute_task] raise
[FallbackHalt] instead of returning its refusal: the handler of the interlock
raises, beside the handler of halts. *)
Theorem budget_halt_escapes :
  let r := propose (steps_decision 2) plain_task
             (demo_engine 1 [(u "step_budget_exhausted", u "halt")]) in
  is_ok r.2 = false ∧ state (e_governor r.1) = HALTED.
Proof. vm_compute. split; reflexivity. Qed.
