(* ===== verification/Daemon.v ===== *)
(** * The continuous agent ([src/continuous_agent.py], [src/autonomy.py])

    The observe-act loop over a gated engine and the autonomous learning cycle.
    What both need of an engine is the interface [LoopEngine]; the decision
    engine of [Engine] is an instance, [gated_engine].  Each pass of the loop
    reads the stop event, the clock and the task source; those readings are
    the pass's argument. *)

From Stdlib Require Import ZArith Lia.
From Stdlib Require Import Floats.SpecFloat.
From S2P Require Import Prelude PyFloat PyStr PyVal Security Policy StateMachine Fallbacks Models.
From S2P Require Import AuditTrail Execution World Proposals Deciding Engine EngineContract.
From S2P Require Import EngineSafety EngineScenarios.

Local Open Scope Z_scope.

(** ** What the loop needs of an engine *)

Class LoopEngine (E : Type) := {
  le_state : E → AgentState;
  le_execute : pydict → py E pyval;
  le_report : pystr → pystr → py E unit;
  le_note_step : pystr → py E unit;
  le_record : pystr → pydict → py E unit;
  le_resolve : py E unit;
  le_consolidate : py E unit;
  le_dream : py E pyval
}.

Definition LOOP_ERROR : pystr := u "continuous_loop_error".

(** Between tasks the engine is at rest, and a loop error reported then latches
    its governor, whether or not the report raises. *)
Class LoopEngineLaws (E : Type) `{LoopEngine E} := {
  le_rest : E → Prop;
  le_execute_rest task : keeps le_rest (le_execute task);
  le_report_rest kind detail : keeps le_rest (le_report kind detail);
  le_consolidate_rest : keeps le_rest le_consolidate;
  le_dream_rest : keeps le_rest le_dream;
  le_report_latches detail e :
    le_rest e → le_state (le_report LOOP_ERROR detail e).1 ∈ [PAUSED; SAFE_STATE; HALTED]
}.

(** ** The loop *)

(** What [_next_task] gets from the source. *)
Inductive source_reply :=
  | Callable_returns (v : pyval)
  | Next_yields (v : pyval)
  | Source_raises
  | Source_exhausted
  | No_source (stamp : pystr).

(** [generate_task]; the log entry it writes is not part of the state. *)
Definition generate_task (type content stamp : pystr) : pydict :=
  [(u "type", VStr type); (u "content", VStr content); (u "timestamp", VStr stamp)].

(** [_next_task]; [VNone] is no task. *)
Definition next_task (r : source_reply) : pyval :=
  match r with
  | Callable_returns v | Next_yields v => v
  | Source_raises | Source_exhausted => VNone
  | No_source stamp =>
      VDict (generate_task (u "text") (u "continuous self-observation and improvement") stamp)
  end.

Record pass := Pass {
  p_stop : bool;
  p_elapsed : f64;
  p_source : source_reply
}.

Record daemon (E : Type) := Daemon {
  dm_engine : E;
  max_iterations : option Z;
  max_seconds : option f64;
  loops_completed : Z;
  total_tasks : Z;
  successes : Z;
  failures : Z
}.
Arguments Daemon {E} _ _ _ _ _ _ _.
Arguments dm_engine {E} _.
Arguments max_iterations {E} _.
Arguments max_seconds {E} _.
Arguments loops_completed {E} _.
Arguments total_tasks {E} _.
Arguments successes {E} _.
Arguments failures {E} _.

Section Loop.
Context {E : Type} {LE : LoopEngine E} {PR : PyRepr}.
Implicit Types d : daemon E.

(** [ContinuousAgent(...)]: a zero bound is no bound. *)
Definition new_daemon (e : E) (iterations : option Z) (seconds : option f64) : daemon E :=
  Daemon e (match iterations with Some 0 => None | o => o end)
    (match seconds with
     | Some s => if f_truthy s then Some (fmax f0 s) else None
     | None => None
     end) 0 0 0 0.

Definition with_counts (l t s x : Z) d : daemon E :=
  Daemon (dm_engine d) (max_iterations d) (max_seconds d) l t s x.
Definition with_engine (e : E) d : daemon E :=
  Daemon e (max_iterations d) (max_seconds d) (loops_completed d) (total_tasks d)
    (successes d) (failures d).
Definition on_engine {A} (m : py E A) : py (daemon E) A := λ d,
  let '(e, r) := m (dm_engine d) in (with_engine e d, r).

Definition count_task d := with_counts (loops_completed d) (total_tasks d + 1) (successes d) (failures d) d.
Definition count_loop d := with_counts (loops_completed d + 1) (total_tasks d) (successes d) (failures d) d.
Definition count_result (ok : bool) d :=
  with_counts (loops_completed d) (total_tasks d)
    (successes d + if ok then 1 else 0) (failures d + if ok then 0 else 1) d.

(** [autonomy.evaluate_task_performance]: the message names the task's type,
    outside its handler too. *)
Definition evaluate_task_performance (task : pydict) (result : pyval) : res f64 :=
  match dget (u "type") task with
  | Some _ => Ok (evaluate_performance result)
  | None => Raise (KeyError (u "type"))
  end.

Definition succeeded (result : pyval) : bool :=
  match result with
  | VDict r => is_str (dict_get (u "status") (VStr (u "unknown")) r) (u "success")
  | _ => false
  end.

(** [_loop_once]. *)
Definition loop_once (r : source_reply) : py (daemon E) unit :=
  match next_task r with
  | VNone => mret tt
  | VDict task =>
      modify count_task ;;
      result ← on_engine (le_execute task);
      modify (count_result (succeeded result)) ;;
      of_res (evaluate_task_performance task result) ;;
      attempt (on_engine le_consolidate) ;;
      attempt (on_engine le_dream) ;;
      mret tt
  | _ => modify count_task ;; raise (AttributeError (u "object has no attribute 'get'"))
  end.

(** The loop goes round, has stopped, or died of an exception. *)
Inductive verdict := Running | Stopped | Died (x : exn).

Definition paused d : bool := bool_decide (le_state (dm_engine d) ∈ [PAUSED; HALTED]).

Definition due d (p : pass) : bool :=
  p_stop p
  || (match max_seconds d with Some s => fleb s (p_elapsed p) | None => false end)
  || (match max_iterations d with Some n => n <=? loops_completed d | None => false end).

(** One pass of [_run_loop]. *)
Definition run_pass (exn_text : exn → pystr) (p : pass) d : daemon E * verdict :=
  if due d p then (d, Stopped)
  else if paused d then (d, Running)
  else
    match loop_once (p_source p) d with
    | (d, Ok _) => (count_loop d, Running)
    | (d, Raise x) =>
        match on_engine (le_report LOOP_ERROR (take 200 (exn_text x))) d with
        | (d, Ok _) => (count_loop d, Running)
        | (d, Raise y) => (d, Died y)
        end
    end.

(** [_run_loop] over the passes of a period. *)
Fixpoint run_loop (exn_text : exn → pystr) (ps : list pass) d : daemon E * verdict :=
  match ps with
  | [] => (d, Running)
  | p :: ps =>
      match run_pass exn_text p d with
      | (d, Running) => run_loop exn_text ps d
      | r => r
      end
  end.

(** ** The autonomous cycle *)

Definition type_or_unknown (task : pydict) : pyval := dict_get (u "type") (VStr (u "unknown")) task.

(** [execute_autonomous_task]. *)
Definition execute_autonomous_task (task : pydict) : py E pyval :=
  r ← attempt (
    le_note_step (u "autonomous task: " ++ py_str (type_or_unknown task)) ;;
    result ← le_execute task;
    le_record (u "task_result")
      [(u "task_type", type_or_unknown task);
       (u "status", VStr match result with
                         | VDict r => py_str (dict_get (u "status") (VStr (u "unknown")) r)
                         | _ => u "unknown"
                         end)] ;;
    le_resolve ;; mret result);
  match r with
  | Ok result => mret result
  | Raise x =>
      le_record (u "task_failure")
        [(u "task_type", type_or_unknown task); (u "error", VStr (exn_name x))] ;;
      le_resolve ;;
      mret (VDict [(u "status", VStr (u "error")); (u "message", VStr (exn_name x))])
  end.

(** ["feedback" in result]. *)
Definition has_feedback (result : pyval) : res bool :=
  match result with
  | VDict r => Ok (dhas (u "feedback") r)
  | VStr s => Ok (contains (u "feedback") s)
  | VList l => Ok (existsb (λ v, is_str v (u "feedback")) l)
  | _ => Raise (TypeError (u "argument is not iterable"))
  end.

Definition feedback_of (result : pyval) : res pyval :=
  match result with
  | VDict r => Ok (dict_get (u "feedback") VNone r)
  | _ => Raise (TypeError (u "indices must be integers"))
  end.

Definition feedback_task (stamp : pystr) (content : pyval) : pydict :=
  [(u "type", VStr (u "feedback")); (u "content", content); (u "timestamp", VStr stamp)].

(** The loop of [autonomous_learning_cycle]: it walks a copy of the caller's
    list, [todo], while the feedback goes to the list itself, [tasks]. *)
Fixpoint cycle_loop (stamp : Z → pystr) (limit i : Z) (todo : list pydict) (tasks : list pydict) :
    py E (list pydict) :=
  match todo with
  | [] => mret tasks
  | task :: rest =>
      if limit <=? i then mret tasks
      else
        result ← execute_autonomous_task task;
        match dget (u "type") task with
        | None => raise (KeyError (u "type"))
        | Some _ =>
            b ← of_res (has_feedback result);
            tasks ← (if (b : bool)
                     then c ← of_res (feedback_of result); mret (tasks ++ [feedback_task (stamp i) c])
                     else mret tasks);
            cycle_loop stamp limit (i + 1) rest tasks
        end
  end.

(** [autonomous_learning_cycle]: what the caller's list holds afterwards. *)
Definition autonomous_learning_cycle (stamp : Z → pystr) (limit : Z) (tasks : list pydict) :
    py E (list pydict) :=
  le_record (u "cycle_started") [(u "planned_tasks", VInt (Z.of_nat (length tasks)))] ;;
  tasks ← cycle_loop stamp limit 0 tasks tasks;
  attempt le_consolidate ;;
  mret tasks.
End Loop.

(** ** The decision engine runs the loop *)

Section Gated.
Context {M W : Type} {WW : World W} {MM : EngineMemory M} {PR : PyRepr}.
Context (urlparse : pystr → res parsed_url) (environ : pystr → option pystr).
Context (json_loads : pystr → res pyval) (bytes_decode : pystr → list N → res pystr).
Context (sha256 : pystr → pystr) (dumps : pyval → pystr).
Context (gated : list pystr) (decide_with : list pystr → pydict → py (decider M W) pydict).
(** The memory manager's own passes, on the engine's memory. *)
Context (note_step : pystr → py M unit) (consolidate : py M unit) (dream : py M pyval).

Definition on_mem {A} (m : py M A) : py (@engine M W) A :=
  on_decider (λ d, let '(mm, r) := m (d_mem d) in (with_mem mm d, r)).

Definition gated_engine : LoopEngine (@engine M W) := {|
  le_state e := state (e_governor e);
  le_execute task :=
    r ← execute_task urlparse environ json_loads bytes_decode sha256 dumps gated decide_with task;
    mret (VDict r);
  le_report kind detail := on_fallbacks (report_violation kind detail);
  le_note_step t := on_mem (note_step t);
  le_record := remember;
  le_resolve := resolve;
  le_consolidate := on_mem consolidate;
  le_dream := on_mem dream
|}.

Lemma rest_mode g : at_rest g → mode g = state g.
Proof. intros [_ Hs]. unfold mode. rewrite Hs. by destruct (latched g). Qed.

Lemma on_mem_rest {A} (m : py M A) :
  keeps (about (λ g _, at_rest g)) (on_mem m : py (@engine M W) A).
Proof. apply keeps_about_decider. Qed.

Lemma report_latched detail (e : @engine M W) :
  at_rest (e_governor e) →
  state (e_governor (on_fallbacks (report_violation LOOP_ERROR detail) e).1)
    ∈ [PAUSED; SAFE_STATE; HALTED].
Proof.
  intros He.
  pose proof (stable_report (λ g _, at_rest g) LOOP_ERROR detail rest_latch e He) as Hr.
  unfold about in Hr. rewrite <- (rest_mode _ Hr). unfold on_fallbacks, e_governor in *.
  pose proof (report_violation_fires LOOP_ERROR detail (e_fallbacks e)) as Hf. cbv zeta in Hf.
  unfold escalates in Hf. rewrite bool_decide_eq_false_2 in Hf by (vm_compute; set_solver).
  cbn [negb orb] in Hf. revert Hr. rewrite Hf.
  match goal with |- context [fire _ _ ?c] => pose proof (fire_safe LOOP_ERROR detail c) as Hs;
    pose proof (fire_spec LOOP_ERROR detail c) as (_ & _ & _ & Hh & _) end.
  destruct (fire _ _ _) as [c r]. cbn [fst with_fallbacks e_fallbacks] in *. intros Hr.
  destruct Hs as [Hs|Hs].
  - rewrite (rest_mode _ Hr). change (state (fb_governor c) = HALTED) in Hs. rewrite Hs. set_solver.
  - unfold latchable in Hs. by apply bool_decide_eq_true in Hs.
Qed.

Definition gated_engine_laws : @LoopEngineLaws (@engine M W) gated_engine.
Proof.
  refine (@Build_LoopEngineLaws _ gated_engine (λ e, at_rest (e_governor e)) _ _ _ _ _);
    cbn [le_execute le_report le_consolidate le_dream le_state gated_engine].
  - intros task. apply keeps_bind; [apply run_task_rests|]. intros r. apply keeps_ret.
  - intros kind detail. apply (stable_report (λ g _, at_rest g)), rest_latch.
  - apply on_mem_rest.
  - apply on_mem_rest.
  - apply report_latched.
Defined.
End Gated.

(** ** Lemmas: one pass *)

Section Passes.
Context {E : Type} {LE : LoopEngine E} {PR : PyRepr} (exn_text : exn → pystr).
Implicit Types d : daemon E.
Abbreviation pass_of p d := (run_pass exn_text p d).
Abbreviation loop_of ps d := (run_loop exn_text ps d).

(** The books: every loop ran at most one task, every result belongs to a task. *)
Definition books (slack : Z) d : Prop :=
  0 <= successes d ∧ 0 <= failures d ∧
  successes d + failures d <= total_tasks d <= loops_completed d + slack.

Lemma on_engine_frame {A} (m : py E A) d :
  let d' := (on_engine m d).1 in
  max_iterations d' = max_iterations d ∧ max_seconds d' = max_seconds d ∧
  loops_completed d' = loops_completed d ∧ total_tasks d' = total_tasks d ∧
  successes d' = successes d ∧ failures d' = failures d.
Proof. unfold on_engine. by destruct (m (dm_engine d)). Qed.

(** A pass of the body adds one task at most, and one result at most to it. *)
Lemma loop_once_books r d :
  let d' := (loop_once r d).1 in
  max_iterations d' = max_iterations d ∧ max_seconds d' = max_seconds d ∧
  loops_completed d' = loops_completed d ∧ (books 0 d → books 1 d').
Proof.
  unfold loop_once, books. destruct (next_task r) as [| | | | | |task]; py_unfold;
    try (cbn; split_and!; [done..|lia]).
  set (d1 := count_task d). pose proof (on_engine_frame (le_execute task) d1) as H1.
  cbv zeta in H1. destruct (on_engine (le_execute task) d1) as [d2 [result|x]]; cbn [fst] in *.
  2: { destruct H1 as (-> & -> & -> & -> & -> & ->). cbn. split_and!; [done..|lia]. }
  set (d3 := count_result (succeeded result) d2).
  assert (max_iterations d3 = max_iterations d ∧ max_seconds d3 = max_seconds d ∧
    loops_completed d3 = loops_completed d ∧ total_tasks d3 = total_tasks d + 1 ∧
    successes d3 + failures d3 = successes d + failures d + 1 ∧
    successes d <= successes d3 ∧ failures d <= failures d3) as H3.
  { destruct H1 as (E1 & E2 & E3 & E4 & E5 & E6). cbn. rewrite E1, E2, E3, E4, E5, E6. cbn.
    destruct (succeeded result); split_and!; try done; lia. }
  clearbody d3. unfold of_res, evaluate_task_performance.
  destruct (dget (u "type") task); cbn [fst].
  2: { destruct H3 as (-> & -> & -> & E4 & E5 & ?). split_and!; [done..|]. lia. }
  unfold attempt.
  pose proof (on_engine_frame le_consolidate d3) as H4. cbv zeta in H4.
  destruct (on_engine le_consolidate d3) as [d4 r4]; cbn [fst] in *.
  pose proof (on_engine_frame le_dream d4) as H5. cbv zeta in H5.
  destruct (on_engine le_dream d4) as [d5 r5]; cbn [fst] in *.
  destruct H3 as (E1 & E2 & E3 & E4 & E5 & E6 & E7), H4 as (F1 & F2 & F3 & F4 & F5 & F6),
    H5 as (G1 & G2 & G3 & G4 & G5 & G6).
  split_and!; [congruence..|]. lia.
Qed.

Lemma run_pass_books p d :
  let '(d', v) := pass_of p d in
  max_iterations d' = max_iterations d ∧ max_seconds d' = max_seconds d ∧
  (books 0 d → books (match v with Died _ => 1 | _ => 0 end) d') ∧
  match v with
  | Running => (loops_completed d' = loops_completed d + 1
                ∧ match max_iterations d with Some n => loops_completed d < n | None => True end)
               ∨ d' = d ∧ paused d = true
  | _ => loops_completed d' = loops_completed d
  end.
Proof.
  unfold run_pass. destruct (due d p) eqn:Ed; [done|]. destruct (paused d) eqn:Ep.
  { split_and!; [done..|by right]. }
  assert (match max_iterations d with Some n => loops_completed d < n | None => True end) as Hn.
  { unfold due in Ed. apply orb_false_iff in Ed as [_ Ed]. destruct (max_iterations d); [lia|done]. }
  pose proof (loop_once_books (p_source p) d) as Hl. cbv zeta in Hl.
  destruct (loop_once (p_source p) d) as [d1 [[]|x]]; cbn [fst] in Hl;
    destruct Hl as (E1 & E2 & E3 & Hb).
  - cbn. split_and!; [done|done| |left; split; [lia|done]].
    intros H. specialize (Hb H). unfold books in *. cbn. lia.
  - pose proof (on_engine_frame (le_report LOOP_ERROR (take 200 (exn_text x))) d1) as Hf.
    cbv zeta in Hf. destruct (on_engine _ d1) as [d2 [[]|y]]; cbn [fst] in Hf;
      destruct Hf as (F1 & F2 & F3 & F4 & F5 & F6); unfold books in *; cbn.
    + split_and!; [congruence|congruence|lia|left; split; [lia|done]].
    + split_and!; [congruence|congruence|lia|lia].
Qed.

Lemma run_loop_app ps qs d d' :
  loop_of ps d = (d', Running) → loop_of (ps ++ qs) d = loop_of qs d'.
Proof.
  revert d. induction ps as [|p ps IH]; intros d; cbn [run_loop app].
  - by intros [= ->].
  - destruct (pass_of p d) as [d1 []]; [apply IH|done|done].
Qed.
End Passes.

(** ** Lemmas: the cycle *)

Section Cycle.
Context {E : Type} {LE : LoopEngine E} {PR : PyRepr}.

Lemma cycle_cut stamp limit i todo tasks (e : E) :
  cycle_loop stamp limit i todo tasks e
  = cycle_loop stamp limit i (take (Z.to_nat (limit - i)) todo) tasks e.
Proof.
  revert i tasks e. induction todo as [|task todo IH]; intros i tasks e; [by rewrite take_nil|].
  destruct (limit <=? i) eqn:El.
  { assert (Z.to_nat (limit - i) = 0%nat) as -> by lia. cbn [cycle_loop take]. by rewrite El. }
  assert (Z.to_nat (limit - i) = S (Z.to_nat (limit - (i + 1)))) as -> by lia.
  cbn [take cycle_loop]. rewrite El. py_unfold.
  destruct (execute_autonomous_task task e) as [e1 [result|x]]; [|done].
  destruct (dget (u "type") task); [|done]. unfold of_res.
  destruct (has_feedback result) as [[]|]; [| |done]; [|apply IH].
  destruct (feedback_of result); [apply IH|done].
Qed.

Lemma cycle_grows stamp limit i todo tasks (e : E) :
  match (cycle_loop stamp limit i todo tasks e).2 with
  | Ok l => ∃ fb, l = tasks ++ fb ∧ (length fb <= length todo)%nat
  | Raise _ => True
  end.
Proof.
  revert i tasks e. induction todo as [|task todo IH]; intros i tasks e; cbn [cycle_loop].
  { exists []. by rewrite app_nil_r. }
  destruct (limit <=? i). { exists []. rewrite app_nil_r. split; [done|]. cbn. lia. }
  py_unfold. destruct (execute_autonomous_task task e) as [e1 [result|x]]; [|done].
  destruct (dget (u "type") task); [|done]. unfold of_res.
  destruct (has_feedback result) as [[]|]; [|specialize (IH (i + 1) tasks e1)|done].
  - destruct (feedback_of result) as [c|]; [|done].
    specialize (IH (i + 1) (tasks ++ [feedback_task (stamp i) c]) e1).
    destruct (cycle_loop _ _ _ _ _ _).2 as [l|]; [|done]. destruct IH as (fb & -> & Hl).
    exists (feedback_task (stamp i) c :: fb). rewrite <- app_assoc. split; [done|]. cbn. lia.
  - destruct (cycle_loop _ _ _ _ _ _).2 as [l|]; [|done]. destruct IH as (fb & -> & Hl).
    exists fb. split; [done|]. cbn. lia.
Qed.
End Cycle.

(** ** Theorems *)

Section Theorems.
Context {E : Type} {LE : LoopEngine E} {PR : PyRepr} (exn_text : exn → pystr).
Implicit Types d : daemon E.

(** The loop's books.  Over any passes of a new agent, the loops never
    exceed a positive bound, every loop handed over at most one task, and the
    successes and failures are at most the tasks; only a thread that died of
    its own report has a task beyond its loops. *)
Theorem daemon_books e iterations seconds ps :
  let '(d, v) := run_loop exn_text ps (new_daemon e iterations seconds) in
  0 <= successes d ∧ 0 <= failures d ∧ successes d + failures d <= total_tasks d ∧
  total_tasks d <= loops_completed d + match v with Died _ => 1 | _ => 0 end ∧
  (∀ n, iterations = Some n → 0 < n → loops_completed d <= n).
Proof.
  set (d0 := new_daemon e iterations seconds).
  assert (∀ ps d, books 0 d → max_iterations d = max_iterations d0 →
    (∀ n, max_iterations d0 = Some n → 0 < n → loops_completed d <= n) →
    let '(d', v) := run_loop exn_text ps d in
    books (match v with Died _ => 1 | _ => 0 end) d' ∧
    (∀ n, max_iterations d0 = Some n → 0 < n → loops_completed d' <= n)) as Hgen.
  { clear ps. induction ps as [|p ps IH]; intros d Hb Em Hn; cbn [run_loop]; [done|].
    pose proof (run_pass_books exn_text p d) as Hp.
    destruct (run_pass exn_text p d) as [d1 []]; destruct Hp as (E1 & _ & Hb' & Hl).
    - apply IH; [by apply Hb'|congruence|]. intros n En Hpos. specialize (Hn n En Hpos).
      destruct Hl as [[El Hlt]|[-> _]]; [|done]. rewrite Em, En in Hlt. lia.
    - split; [by apply Hb'|]. intros n En Hpos. rewrite Hl. by apply Hn.
    - split; [by apply Hb'|]. intros n En Hpos. rewrite Hl. by apply Hn. }
  specialize (Hgen ps d0). destruct (run_loop exn_text ps d0) as [d v].
  destruct Hgen as [(H1 & H2 & H3 & H4) Hn].
  - by unfold books.
  - done.
  - intros n _ ?. cbn. lia.
  - split_and!; try done. intros n -> Hpos. apply Hn; [|done]. cbn. by destruct n.
Qed.

(** The loop ends.  With a bound on the iterations and a governor that is
    never found paused or halted between passes, the loop is over -- stopped,
    or dead of its own report -- before one pass more than the bound. *)
Theorem daemon_ends d n ps :
  max_iterations d = Some n → 0 <= loops_completed d <= n →
  (∀ k d', run_loop exn_text (take k ps) d = (d', Running) → paused d' = false) →
  n - loops_completed d < Z.of_nat (length ps) →
  (run_loop exn_text ps d).2 ≠ Running.
Proof.
  revert d. induction ps as [|p ps IH]; intros d Hm Hl Hp Hlen; cbn [length] in Hlen; [lia|].
  cbn [run_loop]. pose proof (run_pass_books exn_text p d) as Hb.
  destruct (run_pass exn_text p d) as [d1 []] eqn:Er; [|done|done].
  destruct Hb as (Em & _ & _ & [[El Hlt]|[-> Hpd]]).
  - rewrite Hm in Hlt. apply IH; [congruence|lia| |lia].
    intros k d' Hk. apply (Hp (S k)). cbn [take run_loop]. by rewrite Er.
  - specialize (Hp 0%nat d eq_refl). congruence.
Qed.

(** A paused loop spins.  While the governor rests paused or halted, and
    until somebody stops it or its time runs out, no number of passes ends the
    loop, however small its bound on iterations is: the passes do nothing and
    are not counted. *)
Theorem paused_daemon_spins d ps :
  paused d = true →
  match max_iterations d with Some n => loops_completed d < n | None => True end →
  Forall (λ p, p_stop p = false ∧
               match max_seconds d with Some s => fleb s (p_elapsed p) = false | None => True end) ps →
  run_loop exn_text ps d = (d, Running).
Proof.
  intros Hp Hn. induction 1 as [|p ps [Hs Hsec] _ IH]; [done|]. cbn [run_loop].
  assert (due d p = false) as Hd.
  { unfold due. rewrite Hs. destruct (max_seconds d); [rewrite Hsec|]; cbn [orb];
      (destruct (max_iterations d); [lia|done]). }
  unfold run_pass. by rewrite Hd, Hp.
Qed.

(** One bad task is the last.  A task that is executed but has no type ends
    its pass with the governor latched: the message of its evaluation raises,
    the loop reports a violation, and nothing is consolidated; if that left
    the governor paused or halted, no later pass does anything. *)
Theorem untyped_task_latches {LL : LoopEngineLaws E} d p task :
  due d p = false → paused d = false → le_rest (dm_engine d) →
  next_task (p_source p) = VDict task → dget (u "type") task = None →
  let '(d', v) := run_pass exn_text p d in
  le_state (dm_engine d') ∈ [PAUSED; SAFE_STATE; HALTED] ∧
  le_rest (dm_engine d') ∧ total_tasks d' = total_tasks d + 1 ∧ v ≠ Stopped.
Proof.
  intros Hd Hp Hr Ht Hn. unfold run_pass. rewrite Hd, Hp.
  assert (∃ d1 x, loop_once (p_source p) d = (d1, Raise x) ∧ le_rest (dm_engine d1) ∧
            total_tasks d1 = total_tasks d + 1) as (d1 & x & -> & Hr1 & Ht1).
  { unfold loop_once. rewrite Ht. py_unfold. unfold evaluate_task_performance. rewrite Hn.
    pose proof (le_execute_rest task (dm_engine d) Hr) as He.
    unfold on_engine. cbn [count_task with_counts dm_engine].
    destruct (le_execute task (dm_engine d)) as [e [result|x]]; cbn in *; eauto 10. }
  pose proof (le_report_latches (take 200 (exn_text x)) (dm_engine d1) Hr1) as Hl.
  pose proof (le_report_rest LOOP_ERROR (take 200 (exn_text x)) (dm_engine d1) Hr1) as Hr2.
  unfold on_engine. destruct (le_report _ _ (dm_engine d1)) as [e [[]|y]]; cbn in *; done.
Qed.

(** A cycle looks at the first [limit] tasks only, in order, and what it
    leaves in the caller's list is that list with the feedback of those tasks
    behind it: feedback is never worked on in the cycle that produced it. *)
Theorem cycle_is_bounded stamp limit todo tasks (e : E) :
  cycle_loop stamp limit 0 todo tasks e
  = cycle_loop stamp limit 0 (take (Z.to_nat limit) todo) tasks e ∧
  match (cycle_loop stamp limit 0 todo tasks e).2 with
  | Ok l => ∃ fb, l = tasks ++ fb ∧ (length fb <= Z.to_nat limit)%nat ∧ (length fb <= length todo)%nat
  | Raise _ => True
  end.
Proof.
  pose proof (cycle_cut stamp limit 0 todo tasks e) as Hc. rewrite Z.sub_0_r in Hc.
  split; [done|]. rewrite Hc.
  pose proof (cycle_grows stamp limit 0 (take (Z.to_nat limit) todo) tasks e) as Hg.
  destruct (cycle_loop _ _ _ _ _ _).2 as [l|]; [|done].
  destruct Hg as (fb & -> & Hlen). exists fb. rewrite length_take in Hlen. split_and!; [done|lia|lia].
Qed.
End Theorems.

(** ** Witnesses *)

Section Witnesses.
#[local] Existing Instance script_world.
#[local] Existing Instance event_log.
#[local] Instance plain_repr : PyRepr := λ _, [].

(** The scenarios' engine, proposing an observation. *)
Definition observing (_ : list pystr) (_ : pydict) :
    py (decider (list (pystr * pydict)) script) pydict :=
  mret [(u "action_type", VStr (u "record_observation")); (u "params", VDict []);
        (u "confidence", VFloat f1)].

#[local] Instance demo_loop : LoopEngine demo_engine_type :=
  gated_engine demo_url (λ _, None) (λ _, Ok VNone) (λ _ b, Ok b) demo_sha demo_dumps demo_gated
    observing (λ _, mret tt) (mret tt) (mret VNone).
#[local] Instance demo_laws : LoopEngineLaws demo_engine_type :=
  gated_engine_laws demo_url (λ _, None) (λ _, Ok VNone) (λ _ b, Ok b) demo_sha demo_dumps
    demo_gated observing (λ _, mret tt) (mret tt) (mret VNone).

Definition demo_daemon (n : Z) : daemon demo_engine_type :=
  new_daemon (demo_engine 5 []) (Some n) None.

Definition typed_pass : pass := Pass false f0 (Callable_returns (VDict [(u "type", VStr (u "text"))])).
Definition untyped_pass : pass := Pass false f0 (Callable_returns (VDict [])).

Lemma daemon_ends_witness :
  (run_loop exn_name (replicate 3 typed_pass) (demo_daemon 2)).2 ≠ Running.
Proof.
  apply (daemon_ends exn_name (demo_daemon 2) 2 (replicate 3 typed_pass));
    [reflexivity|vm_compute; split; discriminate| |reflexivity].
  intros k d' Hk. destruct k as [|[|[|[|k]]]]; vm_compute in Hk;
    try discriminate; injection Hk as <-; reflexivity.
Defined.

Lemma untyped_task_latches_witness :
  let '(d', v) := run_pass exn_name untyped_pass (demo_daemon 2) in
  le_state (dm_engine d') ∈ [PAUSED; SAFE_STATE; HALTED] ∧ total_tasks d' = 1.
Proof.
  assert (at_rest (e_governor (dm_engine (demo_daemon 2)))) as Hr by by split.
  assert (paused (demo_daemon 2) = false) as Hp by reflexivity.
  pose proof (untyped_task_latches (LL := demo_laws) exn_name (demo_daemon 2) untyped_pass []
                eq_refl Hp Hr eq_refl eq_refl) as H.
  destruct (run_pass exn_name untyped_pass (demo_daemon 2)) as [d' v].
  destruct H as (H1 & _ & H2 & _). split; [exact H1|]. rewrite H2. reflexivity.
Defined.

Lemma paused_daemon_spins_witness :
  let d := (run_pass exn_name untyped_pass (demo_daemon 2)).1 in
  run_loop exn_name (replicate 100 typed_pass) d = (d, Running).
Proof.
  intros d. apply (paused_daemon_spins exn_name d (replicate 100 typed_pass)).
  - vm_compute. reflexivity.
  - vm_compute. reflexivity.
  - apply Forall_replicate. split; [reflexivity|]. vm_compute. exact I.
Defined.
End Witnesses.
